(* ===== verification/_CoqProject ===== *)
-Q . S2P
Prelude.v
GoStrings.v
Regex.v
GoNet.v
Json.v
World.v
Errors.v
JsonPrint.v
Floats.v
Fields.v
BandTriple.v
LbModel.v
LbOptions.v
Exitcode.v
Envelope.v
SecretFile.v
Contract.v
DupKeys.v
PayloadDocs.v
Payload.v
PayloadProps.v
Appliance.v
ApplianceProps.v
Rest.v
Requests.v
Session.v
ConfigLifecycle.v
Snapshot.v
SnapshotProps.v
Files.v
Lifecycle.v
LifecycleCmds.v
OpsCmds.v
AuditSinks.v
LifecycleProps.v
FeatureGate.v
Commands.v
Plans.v
Confined.v
DownloadProps.v
LbCreate.v
LbPorts.v
LbProps.v
LbWire.v
NetModel.v
DeleteCmds.v
DeleteProps.v
CreateCmds.v
CreateProps.v
FileConfig.v
FileProps.v
ApplyText.v
Netlink.v
HostProps.v
ApplyProps.v
SaveCmds.v
SaveProps.v
AiModel.v
SetCmds.v
LoginCmds.v
AiCmds.v
GetModel.v
Tables.v
GetCmds.v
AiGets.v
AuditTrail.v
LbTables.v
Goldens.v
ListProps.v
GetProps.v
SetProps.v
AiProps.v
LoginProps.v
CliTables.v
Root.v
CliProps.v
Dispatch.v
Outcomes.v
Footprint.v
Runs.v
