(* ===== verification/Prelude.v ===== *)
(** * loxicmd: a verification library

    loxicmd is the command line of the loxilb inference gateway.  A command
    reads its flags and arguments, asks the gateway over REST (or the host's
    backend through one process), judges the answer, prints a document and ends
    with an exit status of one taxonomy.  This library models the program as a
    shallow embedding and proves what its parts promise.

    ** How a run is modelled

    A computation [IO A] ([World]) maps a world and the history of what was
    done so far to a value and to the operations performed, in order.  An
    operation is what the program asks of the operating system, of the network
    or of its terminal; the world answers it, and may answer the same question
    differently later.  Theorems about commands hold in every world.  [wp] is
    the weakest precondition over value and trace.  Go's [(value, error)] is
    [result]; an error value of the program is [goerror] ([Errors]), a chain as
    [fmt.Errorf] builds it; a panic or a loop without an end is a value of
    [outcome] ([Commands]).

    Texts are lists of bytes; integers are [Z], cut to their width where the
    code converts them.  What belongs to no file of the repository is a
    parameter: [GoLib] is the wording of the errors of the standard library and
    what Go leaves open (the order of maps), [YamlLib] reads YAML, [SortLib] is
    a sort that need not be stable, [TableLib] lays out tables, and flags arrive
    as the values that cobra parsed.

    ** Foundations

    - [Prelude]: notations, the result monad, lemmas and tactics shared by all.
    - [GoStrings], [Regex], [GoNet]: packages [strings], [strconv], [utf8],
      [regexp], [time], [net] and [net/url], as far as the program uses them.
    - [Floats]: the binary64 numbers of [strconv] and [encoding/json], read,
      printed in the shortest form and compared, on integers.
    - [Json], [JsonPrint], [Fields]: [encoding/json] as structural automata (with
      texts cut short in its Module [JsonPrefix]), the class [GoValue] of types
      that are decoded, and the encoding.
    - [World], [Errors], [Exitcode], [Envelope]: operations and computations,
      error values ([pkg/api/error.go], [pkg/api/lifecyclereport.go]), the
      taxonomy ([pkg/cli/exitcode]) and the envelope ([pkg/cli/envelope]).

    ** The host backend

    [Contract] is [pkg/backend/backend.go]: the argv allowlist, the command
    matrix, the version handshake and the invocation of a backend subcommand.
    [DupKeys], [PayloadDocs] and [Payload] are [pkg/backend/payload.go]: the
    token walk that refuses repeated keys, the validators of each document and
    the registry.  [SecretFile] is [pkg/backend/secretfile.go], [Appliance] the
    commands of [cmd/appliance].  Proved ([Contract], [PayloadProps],
    [ApplianceProps], [DupKeys]): which processes start and after which
    handshake; what an accepted payload guarantees, independently of map order;
    that only validated bytes are passed on; that envelope and exit status
    agree and stay within the taxonomy.

    ** The REST client and the gates

    [Rest] is [pkg/api/rest.go], [common.go], [tls.go], [client.go] and
    [originator.go]; [Requests] are lemmas on the requests of a trace.
    [FeatureGate] is [pkg/cli/featuregate], [Session] what [cmd/root.go] runs
    before every command.  Proved: where the token of a session comes from, and
    exactly which answers a gate lets pass and with which status it refuses the
    others.

    ** The lifecycle of a configuration

    [ConfigLifecycle], [Snapshot], [Files] are [pkg/api/configlifecycle.go] and
    [snapshotfile.go]: verdicts on persist and restore, the checksum of a snapshot
    (with SHA-256 computed on bits in the Module [Sha256]), the atomic
    replacement of a file as steps of a file system.  [Lifecycle],
    [LifecycleCmds], [OpsCmds] and [AuditSinks] are [cmd/lifecycle].
    Proved ([SnapshotProps], [Files], [ConfigLifecycle], [LifecycleProps],
    [DownloadProps], [Confined]): what a stored snapshot is, what a success of a
    change is evidence of, which status an unknown outcome has, and that names
    never leave their collection.

    ** The commands of the gateway

    [Commands] is what they share; a [plan] ([Plans]) is the abstract
    specification of a command with one request (refused, or a panic, or
    one request whose answer decides) and [refines] relates a command to it in
    every world.  Plans name their resources by path ([at_path], [item_at],
    [query_at] of [Requests]) and give their documents member by member, apart
    from the code's constructors and readers; [behind_gate] is the one
    [GET /version] before a feature, after whose refusal nothing else is sent.  [BandTriple], [LbModel], [LbOptions], [LbCreate] are
    [create lb]; [NetModel] the documents of the configured network;
    [CreateCmds], [DeleteCmds] the create and delete commands; [FileConfig] and
    [ApplyText] [apply] and [delete -f]; [Netlink] the inventory of the host;
    [SaveCmds] [save].  Proved ([LbProps], [LbPorts], [LbWire], [CreateProps],
    [DeleteProps], [FileProps], [HostProps], [ApplyProps],
    [SaveProps]): the requests of a run and what its status says of them, the
    exact rules built from flags, the round trips of rules and interface files,
    and where answers are not judged at all.

    [AiModel] holds the documents of the services (keys, objectives, identities,
    certificates, PII, LlamaFirewall, traces), [AiCmds] the commands that create
    them and [SetCmds] the set commands with their partial updates.  Proved
    ([SetProps], [AiProps]): the set commands of the configuration and of the
    services keep to their plans, member by member for the partial updates; a
    create command behind features reads the version once and stops at a refusal;
    where the key of [create apikey] comes from, that exactly this key is sent, and
    that of an imported one nothing printed has a raw key.

    ** The get commands

    [GetModel] holds the answers, [Tables] how an answer becomes a document or a
    table, [GetCmds], [AiGets], [AuditTrail], [LbTables] the commands.
    An [inquiry] ([Plans]) is their contract: one GET, behind a gate where there
    is one, and how the answer is judged.  Proved ([GetProps], [ListProps]): the get
    commands but those of the lifecycle and the audit trail conform; a listing of
    the network prints one row for each entry, with its cells, in the order of its
    key; the wide listing of rules.  [Goldens] runs fourteen of the commands on
    the answers of [cmd/goldens] and finds the pinned output.

    ** Sessions

    [LoginCmds] is [cmd/set/set_login.go].  Proved ([LoginProps]): what a login
    leaves on the disk and that the next command, through [Session], takes that
    token and its requests carry it; that a logout removes it or says that it could
    not; that a login goes through when the terminal, the disk and the gateway do
    their part, and which token it stores where.

    ** The command line

    [CliTables] is the grammar of commands and flags and every command of [cmd/]
    with its words, arguments and flags, [Root] the run of the program
    from the flags of the root to the exit status, [version] and [completion].
    Proved ([CliProps]): the tree is one that cobra accepts and in which a word
    finds one command; a command asks only about flags it has; a run ends as the
    plan of its command says.

    [Dispatch] wires the tree: [rootCmd_run] gives for every command, in the order
    of the tree, what its [RunE] runs with the variables of its flags, over all of
    the files above.  [Outcomes] is the discipline of errors: a class of the errors
    that end in a status of the taxonomy, and rules that carry it through the
    layers.  [Runs] applies them to each command and composes the whole program:
    whatever command runs, with whatever flags, in whatever world, the process ends
    with 0 or with 2 to 9, but for the seven commands that can crash and the one
    that can run for ever, which are named ([every_run_ends_well]); each of the
    eight does so in a run that is computed ([crashes_are_real]).  [Footprint] says
    what a run may touch: the processes it starts, the gateway, the disk and the
    terminal, by a table over the tree; every run keeps to it, and every request
    goes to the server of the resolved options, with their headers and no others
    and the TLS configuration they ask for, or none where its files cannot be used
    ([every_run_within_footprint]).

    ** Bounds and fuel

    Recursion is structural wherever the code's is.  The token walk of
    [DupKeys] takes as fuel the number of tokens, and
    [duplicate_walk_terminates] shows that it is enough for every input; the
    loop over target ports takes the length of its range as fuel and ends
    exactly when the range does not end at the largest [int]
    ([target_ports_terminate]); SHA-256 and the scanner of lines recurse on
    their input.

    ** Not modelled

    How cobra finds a command and reads its flags, and the texts of help and of
    completion scripts; TLS beyond the configuration that is built; YAML; the
    layout of tables.  [Poldump] and the payload tuples that only tests read are
    not called by the program.  The tests, the release scripts and the documents
    of the repository have no counterpart but [Goldens]. *)
From stdpp Require Export base tactics list gmap strings fin_maps.
From Stdlib Require Export ZArith Lia Ascii.

(** The notations of this file live in [go_scope]. *)
Declare Scope go_scope.
Delimit Scope go_scope with go.
Global Open Scope go_scope.

Global Set Default Goal Selector "!".

(* ------------------------------------------------------------------ *)
(** ** Results: the [(value, error)] pair of Go                        *)
(* ------------------------------------------------------------------ *)

(** A Go function that returns [(T, error)] and uses only one of the two. *)
Inductive result (E A : Type) : Type :=
  | Ok (a : A)
  | Err (e : E).
Arguments Ok {E A} a.
Arguments Err {E A} e.

Global Instance result_ret {E} : MRet (result E) := fun A a => Ok a.
Global Instance result_bind {E} : MBind (result E) :=
  fun A B f m => match m with Ok a => f a | Err e => Err e end.
Global Instance result_fmap {E} : FMap (result E) :=
  fun A B f m => match m with Ok a => Ok (f a) | Err e => Err e end.

Definition is_ok {E A} (r : result E A) : bool :=
  match r with Ok _ => true | Err _ => false end.

Definition ok_of {E A} (r : result E A) : option A :=
  match r with Ok a => Some a | Err _ => None end.

Definition err_of {E A} (r : result E A) : option E :=
  match r with Ok _ => None | Err e => Some e end.

Definition of_option {E A} (e : E) (o : option A) : result E A :=
  match o with Some a => Ok a | None => Err e end.

(** [if cond { return err }], the guard of an early return. *)
Definition reject_if {E} (b : bool) (e : E) : result E unit :=
  if b then Err e else Ok tt.

(** A loop that returns the first error of its body. *)
Fixpoint for_each {E A} (f : A -> result E unit) (l : list A) : result E unit :=
  match l with
  | [] => Ok tt
  | x :: l' => match f x with Ok _ => for_each f l' | Err e => Err e end
  end.

(** A loop that collects the values of its body, or returns its first error. *)
Fixpoint map_each {E A B} (f : A -> result E B) (l : list A) : result E (list B) :=
  match l with
  | [] => Ok []
  | x :: l' =>
      match f x with
      | Ok y => match map_each f l' with Ok ys => Ok (y :: ys) | Err e => Err e end
      | Err e => Err e
      end
  end.

Notation "'reject' b 'with_' e ;; k" :=
  (if (b : bool) then Err e else k)
  (at level 100, b at level 0, e at next level, k at level 200, right associativity,
   format "'reject'  b  'with_'  e  ;;  '//' k") : go_scope.

(* ------------------------------------------------------------------ *)
(** ** Machine integers                                                *)
(* ------------------------------------------------------------------ *)

(** The conversions [uint8(x)], [uint16(x)], [uint32(x)], [int32(x)]. *)
Definition wrap (w : Z) (x : Z) : Z := (x mod 2 ^ w)%Z.
Definition to_uint8 (x : Z) : Z := wrap 8 x.
Definition to_uint16 (x : Z) : Z := wrap 16 x.
Definition to_uint32 (x : Z) : Z := wrap 32 x.
Definition to_int32 (x : Z) : Z :=
  (let u := wrap 32 x in if u <? 2 ^ 31 then u else u - 2 ^ 32)%Z.
Definition min_int64 : Z := (- 2 ^ 63)%Z.
Definition max_int64 : Z := (2 ^ 63 - 1)%Z.
Definition fits_int64 (x : Z) : bool := ((min_int64 <=? x) && (x <=? max_int64))%Z.

(* ------------------------------------------------------------------ *)
(** ** Strings compared with a list of candidates                      *)
(* ------------------------------------------------------------------ *)

Definition streq (a b : string) : bool := String.eqb a b.
Definition str_in (s : string) (l : list string) : bool := existsb (streq s) l.
Definition is_empty (s : string) : bool := streq s "".

Fixpoint eqb_list {A} (eqb : A -> A -> bool) (l k : list A) : bool :=
  match l, k with
  | [], [] => true
  | x :: l', y :: k' => eqb x y && eqb_list eqb l' k'
  | _, _ => false
  end.

(** The keys seen so far of a loop that looks for duplicates. *)
Fixpoint first_duplicate (seen : gset string) (l : list string) : option string :=
  match l with
  | [] => None
  | s :: l' => if decide (s ∈ seen) then Some s else first_duplicate ({[s]} ∪ seen) l'
  end.

(* ------------------------------------------------------------------ *)
(** ** Lemmas                                                          *)
(* ------------------------------------------------------------------ *)

Create HintDb go discriminated.

Lemma streq_true a b : streq a b = true <-> a = b.
Proof. apply String.eqb_eq. Qed.

Lemma streq_false a b : streq a b = false <-> a <> b.
Proof. apply String.eqb_neq. Qed.

Lemma streq_refl a : streq a a = true.
Proof. by apply streq_true. Qed.

Lemma is_empty_true s : is_empty s = true <-> s = "".
Proof. apply streq_true. Qed.

Lemma is_empty_false s : is_empty s = false <-> s <> "".
Proof. apply streq_false. Qed.

Lemma str_in_true s l : str_in s l = true <-> s ∈ l.
Proof.
  unfold str_in. rewrite existsb_exists, list_elem_of_In.
  split; [intros (x & Hx & ->%streq_true); done | intros H; exists s; by rewrite streq_refl].
Qed.

Lemma str_in_false s l : str_in s l = false <-> s ∉ l.
Proof. rewrite <- str_in_true. destruct (str_in s l); naive_solver. Qed.

Lemma eqb_list_spec {A} (eqb : A -> A -> bool) :
  (forall x y, eqb x y = true <-> x = y) ->
  forall l k, eqb_list eqb l k = true <-> l = k.
Proof.
  intros Heq l. induction l as [|x l IH]; intros [|y k]; simpl; try naive_solver.
  rewrite andb_true_iff, Heq, IH. naive_solver.
Qed.

Lemma eqb_list_streq l k : eqb_list streq l k = true <-> l = k.
Proof. apply eqb_list_spec, streq_true. Qed.

Lemma bind_ok {E A B} (m : result E A) (f : A -> result E B) b :
  mbind f m = Ok b <-> exists a, m = Ok a /\ f a = Ok b.
Proof. destruct m; simpl; naive_solver. Qed.

Lemma reject_ok {E A} (b : bool) (e : E) (k : result E A) a :
  (if b then Err e else k) = Ok a <-> b = false /\ k = Ok a.
Proof. destruct b; naive_solver. Qed.

Lemma reject_tt {E} (b : bool) (e : E) : (if b then Err e else Ok tt) = Ok tt <-> b = false.
Proof. destruct b; naive_solver. Qed.

Lemma for_each_ok {E A} (f : A -> result E unit) l :
  for_each f l = Ok tt <-> Forall (fun x => f x = Ok tt) l.
Proof.
  induction l as [|x l IH]; simpl.
  - split; [by constructor | done].
  - rewrite Forall_cons, <- IH. destruct (f x) as [[]|]; naive_solver.
Qed.

Lemma map_each_ok {E A B} (f : A -> result E B) l k :
  map_each f l = Ok k <-> Forall2 (fun x y => f x = Ok y) l k.
Proof.
  revert k. induction l as [|x l IH]; intros k; simpl.
  - split; [intros [= <-]; constructor | by inversion 1].
  - destruct (f x) as [y|e] eqn:Hx.
    + destruct (map_each f l) as [ys|e] eqn:Hl.
      * split; [intros [= <-]; constructor; [done|by apply IH] |].
        intros (y' & k' & Hy & Hk & ->)%Forall2_cons_inv_l.
        apply IH in Hk. congruence.
      * split; [done|]. intros (y' & k' & Hy & Hk & ->)%Forall2_cons_inv_l.
        apply IH in Hk. congruence.
    + split; [done|]. intros (y' & k' & Hy & Hk & ->)%Forall2_cons_inv_l. congruence.
Qed.

Lemma existsb_false {A} (f : A -> bool) l :
  existsb f l = false <-> Forall (fun x => f x = false) l.
Proof.
  induction l as [|x l IH]; simpl; [by split; [constructor|]|].
  by rewrite orb_false_iff, Forall_cons, IH.
Qed.

Lemma first_duplicate_none seen l :
  first_duplicate seen l = None <-> NoDup l /\ (forall s, s ∈ l -> s ∉ seen).
Proof.
  revert seen. induction l as [|s l IH]; intros seen; simpl.
  - split; [intros _; split; [constructor | by intros s ?%elem_of_nil] | done].
  - rewrite NoDup_cons. case_decide as Hs.
    + split; [done|]. intros [_ H]. exfalso. apply (H s); [apply list_elem_of_here | done].
    + rewrite IH. split.
      * intros [Hnd Hl]. split.
        -- split; [|done]. intros Hin. apply (Hl s Hin). set_solver.
        -- intros t [->|Ht]%elem_of_cons; [done|]. specialize (Hl t Ht). set_solver.
      * intros [[Hns Hnd] Hl]. split; [done|]. intros t Ht.
        rewrite elem_of_union, elem_of_singleton. intros [->|Hts]; [done|].
        apply (Hl t); [by apply elem_of_cons; right | done].
Qed.

Lemma wrap_small w x : (0 <= x < 2 ^ w)%Z -> wrap w x = x.
Proof. intros H. by apply Z.mod_small. Qed.

Lemma wrap_range w x : (0 <= w)%Z -> (0 <= wrap w x < 2 ^ w)%Z.
Proof. intros H. apply Z.mod_pos_bound. by apply Z.pow_pos_nonneg. Qed.

#[export] Hint Rewrite streq_true streq_false is_empty_true is_empty_false str_in_true
  str_in_false @bind_ok @reject_ok @for_each_ok eqb_list_streq
  andb_true_iff andb_false_iff orb_true_iff orb_false_iff negb_true_iff negb_false_iff
  Z.ltb_lt Z.ltb_ge Z.leb_le Z.leb_gt Z.eqb_eq Z.eqb_neq : go.

(* ------------------------------------------------------------------ *)
(** ** Tactics                                                         *)
(* ------------------------------------------------------------------ *)

(** Turns boolean and result equations into propositions, everywhere. *)
Ltac go_norm := repeat progress (autorewrite with go in *; destruct_and?; simplify_eq/=).

(** Case analysis on the scrutinee of the first [match] of the goal or of
    a hypothesis, keeping its equation. *)
Ltac go_case :=
  match goal with
  | |- context [match ?x with _ => _ end] => destruct x eqn:?
  | _ : context [match ?x with _ => _ end] |- _ => destruct x eqn:?
  end.

Ltac go_cases := repeat (go_case; simplify_eq/=; try done).
