(* ===== verification/GoStrings.v ===== *)
(** * Go strings and the functions of package [strings], [strconv] and [utf8]

    A Go [string] or [[]byte] is a [string] of bytes.  This file models what
    the program uses of the standard library: UTF-8 decoding, the searching
    and splitting functions of [strings], the decimal conversions of
    [strconv], and [%q].  Runes are [Z].  Two tables of package [unicode] are
    given only where the program can observe them: lower-casing covers ASCII
    and the two runes whose lower case is ASCII, and [%q] treats every rune
    from U+0100 on as printable. *)
From S2P Require Import Prelude.
From Stdlib Require DecimalString DecimalZ DecimalPos.

Definition rune_error : Z := 65533.

Definition zbyte (a : ascii) : Z := Z.of_N (N_of_ascii a).
Definition byte_of (z : Z) : ascii := ascii_of_N (Z.to_N z).
Definition slen (s : string) : Z := Z.of_nat (String.length s).

Definition in_range (lo hi x : Z) : bool := ((lo <=? x) && (x <=? hi))%Z.

(* ------------------------------------------------------------------ *)
(** ** UTF-8                                                           *)
(* ------------------------------------------------------------------ *)

Definition rune2 (a b : Z) : option Z :=
  if in_range 194 223 a && in_range 128 191 b
  then Some ((a - 192) * 64 + (b - 128))%Z else None.

Definition rune3 (a b c : Z) : option Z :=
  if in_range 224 239 a
     && in_range (if (a =? 224)%Z then 160 else 128) (if (a =? 237)%Z then 159 else 191) b
     && in_range 128 191 c
  then Some ((a - 224) * 4096 + (b - 128) * 64 + (c - 128))%Z else None.

Definition rune4 (a b c d : Z) : option Z :=
  if in_range 240 244 a
     && in_range (if (a =? 240)%Z then 144 else 128) (if (a =? 244)%Z then 143 else 191) b
     && in_range 128 191 c && in_range 128 191 d
  then Some ((a - 240) * 262144 + (b - 128) * 4096 + (c - 128) * 64 + (d - 128))%Z else None.

(** The runes of a string with the bytes each was read from; a byte that
    starts no valid encoding is [rune_error] over that one byte. *)
Fixpoint segments (s : string) : list (Z * string) :=
  match s with
  | EmptyString => []
  | String a s1 =>
      let za := zbyte a in
      let bad := (rune_error, String a EmptyString) in
      if (za <? 128)%Z then (za, String a EmptyString) :: segments s1 else
      match s1 with
      | EmptyString => [bad]
      | String b s2 =>
          match rune2 za (zbyte b) with
          | Some r => (r, String a (String b EmptyString)) :: segments s2
          | None =>
              match s2 with
              | EmptyString => bad :: segments s1
              | String c s3 =>
                  match rune3 za (zbyte b) (zbyte c) with
                  | Some r => (r, String a (String b (String c EmptyString))) :: segments s3
                  | None =>
                      match s3 with
                      | EmptyString => bad :: segments s1
                      | String d s4 =>
                          match rune4 za (zbyte b) (zbyte c) (zbyte d) with
                          | Some r =>
                              (r, String a (String b (String c (String d EmptyString))))
                                :: segments s4
                          | None => bad :: segments s1
                          end
                      end
                  end
              end
          end
      end
  end.

(** [for _, r := range s]. *)
Definition runes (s : string) : list Z := fst <$> segments s.

(** [utf8.AppendRune]. *)
Definition encode_rune (r : Z) : string :=
  let surrogate := in_range 55296 57343 r in
  let r := if surrogate || (r <? 0)%Z || (1114111 <? r)%Z then rune_error else r in
  if (r <? 128)%Z then String (byte_of r) EmptyString
  else if (r <? 2048)%Z then
    String (byte_of (192 + r / 64)) (String (byte_of (128 + r mod 64)) EmptyString)
  else if (r <? 65536)%Z then
    String (byte_of (224 + r / 4096))
      (String (byte_of (128 + r / 64 mod 64)) (String (byte_of (128 + r mod 64)) EmptyString))
  else
    String (byte_of (240 + r / 262144))
      (String (byte_of (128 + r / 4096 mod 64))
        (String (byte_of (128 + r / 64 mod 64)) (String (byte_of (128 + r mod 64)) EmptyString))).

Definition concat_str (l : list string) : string := fold_right String.append "" l.

(* ------------------------------------------------------------------ *)
(** ** Package [strings]                                               *)
(* ------------------------------------------------------------------ *)

Definition has_prefix (s p : string) : bool := String.prefix p s.

Fixpoint drop_str (n : nat) (s : string) : string :=
  match n, s with
  | S n', String _ s' => drop_str n' s'
  | _, _ => s
  end.

Fixpoint take_str (n : nat) (s : string) : string :=
  match n, s with
  | S n', String a s' => String a (take_str n' s')
  | _, _ => EmptyString
  end.

Definition has_suffix (s suf : string) : bool :=
  (String.length suf <=? String.length s)%nat
  && streq (drop_str (String.length s - String.length suf) s) suf.

Definition trim_suffix (s suf : string) : string :=
  if has_suffix s suf then take_str (String.length s - String.length suf) s else s.

Fixpoint contains (s sub : string) : bool :=
  String.prefix sub s || match s with EmptyString => false | String _ s' => contains s' sub end.

(** [bytes.Count] of a non-empty needle: non-overlapping occurrences. *)
Fixpoint count_str_aux (skip : nat) (s sub : string) : Z :=
  match s with
  | EmptyString => 0
  | String _ s' =>
      match skip with
      | S k => count_str_aux k s' sub
      | O => if String.prefix sub s then (1 + count_str_aux (String.length sub - 1) s' sub)%Z
             else count_str_aux 0 s' sub
      end
  end.
Definition count_str (s sub : string) : Z := count_str_aux 0 s sub.

(** [strings.Replace(s, old, new, 1)] of a non-empty [old]. *)
Fixpoint replace_first (s old new : string) : string :=
  if String.prefix old s then String.append new (drop_str (String.length old) s)
  else match s with EmptyString => EmptyString | String a s' => String a (replace_first s' old new) end.

Definition bytes (s : string) : list ascii := String.list_ascii_of_string s.
Definition of_bytes (l : list ascii) : string := String.string_of_list_ascii l.

(** [strings.ContainsAny] of an ASCII set. *)
Definition contains_any (s chars : string) : bool :=
  existsb (fun c => existsb (Ascii.eqb c) (bytes chars)) (bytes s).

Definition contains_byte (s : string) (z : Z) : bool :=
  existsb (fun c => (zbyte c =? z)%Z) (bytes s).

(** [strings.Split] on a one-byte separator. *)
Fixpoint split (sep : ascii) (s : string) : list string :=
  match s with
  | EmptyString => [EmptyString]
  | String a s' =>
      if Ascii.eqb a sep then EmptyString :: split sep s'
      else match split sep s' with
           | [] => [String a EmptyString]
           | w :: ws => String a w :: ws
           end
  end.

(** [strings.LastIndex] of a one-byte needle, as the text before and after it. *)
Fixpoint split_last (sep : ascii) (s : string) : option (string * string) :=
  match s with
  | EmptyString => None
  | String a s' =>
      match split_last sep s' with
      | Some (before, after) => Some (String a before, after)
      | None => if Ascii.eqb a sep then Some (EmptyString, s') else None
      end
  end.

(** [strings.Index] of a one-byte needle, the same way. *)
Fixpoint split_first (sep : ascii) (s : string) : option (string * string) :=
  match s with
  | EmptyString => None
  | String a s' =>
      if Ascii.eqb a sep then Some (EmptyString, s')
      else match split_first sep s' with
           | Some (before, after) => Some (String a before, after)
           | None => None
           end
  end.

Definition join (sep : string) (l : list string) : string := String.concat sep l.

Definition replace_byte (old new : ascii) (s : string) : string :=
  of_bytes ((fun a => if Ascii.eqb a old then new else a) <$> bytes s).

Definition remove_bytes (chars : string) (s : string) : string :=
  of_bytes (List.filter (fun a => negb (existsb (Ascii.eqb a) (bytes chars))) (bytes s)).

(** [unicode.IsSpace]. *)
Definition is_space (r : Z) : bool :=
  in_range 9 13 r || (r =? 32)%Z || (r =? 133)%Z || (r =? 160)%Z || (r =? 5760)%Z
  || in_range 8192 8202 r || (r =? 8232)%Z || (r =? 8233)%Z || (r =? 8239)%Z
  || (r =? 8287)%Z || (r =? 12288)%Z.

Fixpoint drop_while {A} (p : A -> bool) (l : list A) : list A :=
  match l with
  | [] => []
  | x :: l' => if p x then drop_while p l' else l
  end.

Definition trim_by (p : Z -> bool) (s : string) : string :=
  let left := drop_while (fun x => p x.1) (segments s) in
  concat_str (snd <$> rev (drop_while (fun x => p x.1) (rev left))).

(** [strings.TrimSpace] and [bytes.TrimSpace]. *)
Definition trim_space (s : string) : string := trim_by is_space s.

(** [strings.Fields] of an ASCII text: the non-empty words between spaces. *)
Definition fields (s : string) : list string :=
  List.filter (fun w => negb (is_empty w)) (split " "%char s).

(** [strings.ToLower], on ASCII and on the two runes outside ASCII whose
    lower case is in it: U+0130 and U+212A. *)
Definition lower_rune (r : Z) : Z :=
  if in_range 65 90 r then (r + 32)%Z
  else if (r =? 304)%Z then 105 else if (r =? 8490)%Z then 107 else r.

Definition to_lower (s : string) : string :=
  concat_str ((fun x : Z * string => if (lower_rune x.1 =? x.1)%Z then x.2
               else encode_rune (lower_rune x.1)) <$> segments s).

(** [unicode.IsControl]. *)
Definition is_control (r : Z) : bool := in_range 0 31 r || in_range 127 159 r.

Definition before_newline : string -> string :=
  fix go s := match s with
              | EmptyString => EmptyString
              | String a s' => if Ascii.eqb a "010"%char then EmptyString else String a (go s')
              end.

(* ------------------------------------------------------------------ *)
(** ** Package [strconv] and the verbs of [fmt]                        *)
(* ------------------------------------------------------------------ *)

(** [%d] and [strconv.Itoa]. *)
Definition itoa (z : Z) : string := DecimalString.NilZero.string_of_int (Z.to_int z).

Definition digit_of (a : ascii) : option Z :=
  let z := zbyte a in if in_range 48 57 z then Some (z - 48)%Z else None.

Fixpoint digits_value (acc : Z) (s : string) : option Z :=
  match s with
  | EmptyString => Some acc
  | String a s' => d ← digit_of a; digits_value (acc * 10 + d)%Z s'
  end.

Definition unsigned_digits (s : string) : option Z :=
  if is_empty s then None else digits_value 0 s.

(** [strconv.Atoi] on a 64-bit machine. *)
Definition atoi (s : string) : option Z :=
  n ← (match s with
       | String a s' =>
           if Ascii.eqb a "-"%char then z ← unsigned_digits s'; Some (- z)%Z
           else if Ascii.eqb a "+"%char then unsigned_digits s'
           else unsigned_digits s
       | EmptyString => None
       end);
  if fits_int64 n then Some n else None.

(** Whether the digits stop at something that is none before the value
    passes 64 bits: the two errors of [strconv]. *)
Fixpoint digits_in_syntax (acc : Z) (s : string) : bool :=
  match s with
  | EmptyString => true
  | String a s' =>
      let d := (zbyte a - 48)%Z in
      in_range 0 9 d
      && (if (2 ^ 64 - 1 <? acc * 10 + d)%Z then true else digits_in_syntax (acc * 10 + d) s')
  end.

Definition range_text (in_syntax : bool) : string :=
  if in_syntax then "value out of range" else "invalid syntax".

Definition bool_str (b : bool) : string := if b then "true" else "false".

Definition hex_digit (n : Z) : ascii :=
  byte_of (if (n <? 10)%Z then 48 + n else 87 + n)%Z.

Definition hex_byte (z : Z) : string :=
  String (hex_digit (z / 16)) (String (hex_digit (z mod 16)) EmptyString).

(** [hex.EncodeToString]. *)
Definition hex_encode (s : string) : string :=
  concat_str ((fun a => hex_byte (zbyte a)) <$> bytes s).

Definition rune_printable (r : Z) : bool :=
  in_range 32 126 r || (in_range 161 255 r && negb (r =? 173)%Z) || (256 <=? r)%Z.

(** One rune of [%q]. *)
Definition quote_rune (x : Z * string) : string :=
  let '(r, raw) := x in
  if (r =? rune_error)%Z && (slen raw =? 1)%Z then
    match raw with String a _ => "\x" +:+ hex_byte (zbyte a) | _ => "" end
  else if (r =? 34)%Z || (r =? 92)%Z then "\" +:+ raw
  else if rune_printable r then raw
  else if (r =? 7)%Z then "\a" else if (r =? 8)%Z then "\b" else if (r =? 12)%Z then "\f"
  else if (r =? 10)%Z then "\n" else if (r =? 13)%Z then "\r" else if (r =? 9)%Z then "\t"
  else if (r =? 11)%Z then "\v"
  else if (r <? 32)%Z || (r =? 127)%Z then "\x" +:+ hex_byte r
  else "\u00" +:+ hex_byte r.

Definition dquote : string := String "034"%char EmptyString.

(** [%q] and [strconv.Quote]. *)
Definition quote (s : string) : string :=
  dquote +:+ concat_str (quote_rune <$> segments s) +:+ dquote.

(** [fmt.Sprintf]: the literal text and the rendered operands in order. *)
Definition sprintf (parts : list string) : string := concat_str parts.

(** The text of the error of [strconv.Atoi]. *)
Definition atoi_error (s : string) : string :=
  let digits := match s with
                | String a s' => if existsb (Ascii.eqb a) ["-"; "+"]%char then s' else s
                | EmptyString => s
                end in
  sprintf ["strconv.Atoi: parsing "; quote s; ": ";
           range_text (negb (is_empty digits) && digits_in_syntax 0 digits)].

Arguments sprintf : simpl never.
Arguments quote : simpl never.
Arguments itoa : simpl never.
Arguments trim_space : simpl never.
Arguments slen : simpl never.

(** [path.Base], as far as the program compares its result with its argument:
    the text after the last slash once trailing slashes are removed. *)
Definition path_base (s : string) : string :=
  if is_empty s then "." else
  let trimmed := of_bytes (rev (drop_while (Ascii.eqb "/"%char) (rev (bytes s)))) in
  let last := match split_last "/"%char trimmed with Some (_, after) => after | None => trimmed end in
  if is_empty last then "/" else last.

(** [filepath.IsAbs] on a Unix system. *)
Definition is_abs (path : string) : bool := has_prefix path "/".

(* ------------------------------------------------------------------ *)
(** ** Lemmas                                                          *)
(* ------------------------------------------------------------------ *)

Lemma zbyte_range a : (0 <= zbyte a < 256)%Z.
Proof. unfold zbyte. pose proof (N_ascii_bounded a). lia. Qed.

Lemma zbyte_byte_of z : (0 <= z < 256)%Z -> zbyte (byte_of z) = z.
Proof. intros H. unfold zbyte, byte_of. rewrite N_ascii_embedding by lia. lia. Qed.

Lemma in_range_true lo hi x : in_range lo hi x = true <-> (lo <= x <= hi)%Z.
Proof. unfold in_range. rewrite andb_true_iff, !Z.leb_le. lia. Qed.

Lemma in_range_false lo hi x : in_range lo hi x = false <-> ~ (lo <= x <= hi)%Z.
Proof. rewrite <- in_range_true. destruct (in_range lo hi x); naive_solver. Qed.

Lemma string_cons_app x a b : String x a +:+ b = String x (a +:+ b).
Proof. reflexivity. Qed.

Lemma string_nil_app b : "" +:+ b = b.
Proof. reflexivity. Qed.

Lemma string_app_length a b : String.length (a +:+ b) = String.length a + String.length b.
Proof. induction a as [|x a IH]; [done|]. rewrite !string_cons_app. simpl. by rewrite IH. Qed.

Lemma string_app_assoc a b c : (a +:+ b) +:+ c = a +:+ (b +:+ c).
Proof. induction a as [|x a IH]; [done|]. rewrite !string_cons_app. simpl. by rewrite IH. Qed.

Lemma string_app_nil_r a : a +:+ "" = a.
Proof. induction a as [|x a IH]; [done|]. rewrite !string_cons_app. simpl. by rewrite IH. Qed.

Lemma prefix_app p s : String.prefix p s = true <-> exists t, s = p +:+ t.
Proof.
  revert s. induction p as [|a p IH]; intros [|b s]; simpl.
  - split; [by exists "" | done].
  - split; [by eexists | done].
  - split; [done | by intros [t Ht]].
  - destruct (ascii_dec a b) as [->|Hne].
    + rewrite IH. split; intros [t Ht]; exists t; [by rewrite Ht | by injection Ht].
    + split; [done|]. intros [t Ht]. by injection Ht.
Qed.

Lemma has_prefix_app s p : has_prefix s p = true <-> exists t, s = p +:+ t.
Proof. apply prefix_app. Qed.

Lemma contains_eq s sub :
  contains s sub =
  String.prefix sub s || match s with EmptyString => false | String _ s' => contains s' sub end.
Proof. by destruct s. Qed.

(** The text is found where a prefix of some suffix of it is. *)
Lemma contains_app s sub : contains s sub = true <-> exists a b, s = a +:+ sub +:+ b.
Proof.
  induction s as [|c s IH]; rewrite contains_eq, orb_true_iff, prefix_app.
  - split; [intros [[t Ht]|]; [by exists "", t | done] |].
    intros (a & b & Hab). left. destruct a; [by exists b | done].
  - rewrite IH. split.
    + intros [[t Ht]|(a & b & ->)]; [by exists "", t | by exists (String c a), b].
    + intros ([|a0 a] & b & Hab); [left; by exists b |].
      right. rewrite string_cons_app in Hab. injection Hab as -> ->. by exists a, b.
Qed.

Lemma contains_refl s : contains s s = true.
Proof. apply contains_app. exists "", "". by rewrite string_app_nil_r. Qed.

Lemma split_nonempty sep s : split sep s <> [].
Proof. destruct s as [|a s]; simpl; [done|]. destruct (Ascii.eqb a sep); [done|]. by destruct (split sep s). Qed.

Lemma split_last_app sep s before after :
  split_last sep s = Some (before, after) -> s = before +:+ String sep after.
Proof.
  revert before after. induction s as [|a s IH]; intros before after; simpl; [done|].
  destruct (split_last sep s) as [[b t]|] eqn:Hs.
  - intros [= <- <-]. rewrite string_cons_app. f_equal. by apply IH.
  - destruct (Ascii.eqb_spec a sep) as [->|]; [|done]. by intros [= <- <-].
Qed.

Lemma bytes_of_bytes l : bytes (of_bytes l) = l.
Proof. apply String.list_ascii_of_string_of_list_ascii. Qed.

Lemma of_bytes_bytes s : of_bytes (bytes s) = s.
Proof. apply String.string_of_list_ascii_of_string. Qed.

Lemma bytes_app s t : bytes (s +:+ t) = bytes s ++ bytes t.
Proof. induction s as [|a s IH]; simpl; [done|]. unfold bytes in *. by rewrite <- IH. Qed.

#[export] Hint Rewrite in_range_true in_range_false : go.

Lemma concat_str_cons x l : concat_str (x :: l) = x +:+ concat_str l.
Proof. reflexivity. Qed.

Lemma concat_str_app l k : concat_str (l ++ k) = concat_str l +:+ concat_str k.
Proof.
  induction l as [|x l IH]; [done|].
  rewrite <- app_comm_cons, !concat_str_cons, string_app_assoc. by rewrite IH.
Qed.

Lemma sprintf_snoc l x : sprintf (l ++ [x]) = sprintf l +:+ x.
Proof.
  unfold sprintf. rewrite concat_str_app, concat_str_cons. f_equal. change (concat_str []) with "".
  induction x as [|a x IH]; [done|]. change (String a (x +:+ "") = String a x). by rewrite IH.
Qed.

(** [segments] splits the string: its raw parts concatenate to it. *)
Lemma concat_segments s : concat_str (snd <$> segments s) = s.
Proof.
  remember (String.length s) as n eqn:Hn.
  revert s Hn. induction (lt_wf n) as [n _ IH]. intros s ->.
  assert (Hlt : forall t x raw, String.length t < String.length s ->
            concat_str (snd <$> (x, raw) :: segments t) = raw +:+ t).
  { intros t x raw Ht. rewrite fmap_cons, concat_str_cons. by erewrite IH. }
  clear IH. destruct s as [|a s1]; [done|]. cbn [String.length] in Hlt.
  cbn [segments]. destruct (zbyte a <? 128)%Z; [rewrite Hlt by lia; done|].
  destruct s1 as [|b s2]; [done|]. cbn [String.length] in Hlt.
  destruct (rune2 _ _); [rewrite Hlt by lia; done|].
  destruct s2 as [|c s3]; [rewrite Hlt by (cbn; lia); done|]. cbn [String.length] in Hlt.
  destruct (rune3 _ _ _); [rewrite Hlt by lia; done|].
  destruct s3 as [|d s4]; [rewrite Hlt by (cbn; lia); done|]. cbn [String.length] in Hlt.
  destruct (rune4 _ _ _ _); [rewrite Hlt by lia; done|].
  rewrite Hlt by (cbn; lia). done.
Qed.

Lemma drop_while_suffix {A} (p : A -> bool) l : exists k, l = k ++ drop_while p l.
Proof.
  induction l as [|x l [k IH]]; simpl; [by exists []|].
  destruct (p x); [exists (x :: k); simpl; congruence | by exists []].
Qed.

(** Trimming only removes text at both ends. *)
Lemma trim_space_infix s : exists a b, s = a +:+ trim_space s +:+ b.
Proof.
  unfold trim_space, trim_by.
  destruct (drop_while_suffix (fun x : Z * string => is_space x.1) (segments s)) as [k Hk].
  set (l := drop_while _ (segments s)) in *.
  destruct (drop_while_suffix (fun x : Z * string => is_space x.1) (rev l)) as [k' Hk'].
  set (m := drop_while _ (rev l)) in *.
  exists (concat_str (snd <$> k)), (concat_str (snd <$> rev k')).
  rewrite <- !concat_str_app, <- !fmap_app.
  rewrite <- rev_app_distr, <- Hk', rev_involutive, <- Hk. by rewrite concat_segments.
Qed.

Lemma itoa_read z : DecimalString.NilZero.int_of_string (itoa z) = Some (Z.to_int z).
Proof.
  apply DecimalString.NilZero.isi; destruct z as [|p|p]; try done; intros [= H];
    by apply (DecimalPos.Unsigned.to_uint_nonnil p).
Qed.

Lemma itoa_inj a b : itoa a = itoa b -> a = b.
Proof.
  intros H. apply DecimalZ.to_int_inj.
  assert (Some (Z.to_int a) = Some (Z.to_int b)) by (by rewrite <- !itoa_read, H).
  congruence.
Qed.

(* ------------------------------------------------------------------ *)
(** ** Decimal numbers and separated words                             *)
(* ------------------------------------------------------------------ *)

(** The value of the digits of a number, most significant first. *)
Fixpoint uint_value (acc : Z) (d : Decimal.uint) : Z :=
  match d with
  | Decimal.Nil => acc
  | Decimal.D0 d => uint_value (acc * 10 + 0) d
  | Decimal.D1 d => uint_value (acc * 10 + 1) d
  | Decimal.D2 d => uint_value (acc * 10 + 2) d
  | Decimal.D3 d => uint_value (acc * 10 + 3) d
  | Decimal.D4 d => uint_value (acc * 10 + 4) d
  | Decimal.D5 d => uint_value (acc * 10 + 5) d
  | Decimal.D6 d => uint_value (acc * 10 + 6) d
  | Decimal.D7 d => uint_value (acc * 10 + 7) d
  | Decimal.D8 d => uint_value (acc * 10 + 8) d
  | Decimal.D9 d => uint_value (acc * 10 + 9) d
  end%Z.

Lemma digits_value_uint d : forall acc,
  digits_value acc (DecimalString.NilEmpty.string_of_uint d) = Some (uint_value acc d).
Proof.
  induction d as [|d IH|d IH|d IH|d IH|d IH|d IH|d IH|d IH|d IH|d IH]; intros acc;
    [done | cbn [DecimalString.NilEmpty.string_of_uint digits_value uint_value];
            rewrite <- IH; reflexivity ..].
Qed.

Lemma uint_value_acc d : forall p, Z.pos (Pos.of_uint_acc d p) = uint_value (Z.pos p) d.
Proof.
  induction d as [|d IH|d IH|d IH|d IH|d IH|d IH|d IH|d IH|d IH|d IH]; intros p;
    cbn [Pos.of_uint_acc uint_value]; [done | rewrite IH; f_equal; lia ..].
Qed.

Lemma uint_value_of d : uint_value 0 d = Z.of_N (Pos.of_uint d).
Proof.
  induction d as [|d IH|d IH|d IH|d IH|d IH|d IH|d IH|d IH|d IH|d IH];
    cbn [Pos.of_uint uint_value]; try done; cbn [Z.of_N]; by rewrite uint_value_acc.
Qed.

(** The digits of a number that is not negative read back as the number. *)
Lemma unsigned_digits_itoa z : (0 <= z)%Z -> unsigned_digits (itoa z) = Some z.
Proof.
  intros Hz. unfold unsigned_digits, itoa. destruct z as [|p|p]; [done| |lia].
  cbn [Z.to_int DecimalString.NilZero.string_of_int].
  pose proof (DecimalPos.Unsigned.to_uint_nonnil p) as Hn.
  pose proof (digits_value_uint (Pos.to_uint p) 0) as Hv.
  rewrite uint_value_of, DecimalPos.Unsigned.of_to in Hv.
  unfold DecimalString.NilZero.string_of_uint. by destruct (Pos.to_uint p).
Qed.

(** What a byte of a decimal number is. *)
Definition is_digit_byte (a : ascii) : bool := in_range 48 57 (zbyte a).

Lemma digits_value_bytes s : forall acc v,
  digits_value acc s = Some v -> Forall (fun a => is_digit_byte a = true) (bytes s).
Proof.
  induction s as [|a s IH]; intros acc v; cbn [digits_value]; [constructor|].
  destruct (digit_of a) as [d|] eqn:Hd; [|done]. intros H. constructor; [|by eapply IH].
  unfold digit_of in Hd. unfold is_digit_byte. by destruct (in_range 48 57 (zbyte a)).
Qed.

Lemma digits_value_nonneg s : forall acc v,
  (0 <= acc)%Z -> digits_value acc s = Some v -> (0 <= v)%Z.
Proof.
  induction s as [|a s IH]; intros acc v Hacc; cbn [digits_value]; [naive_solver|].
  destruct (digit_of a) as [d|] eqn:Hd; [|done]. apply IH. unfold digit_of in Hd.
  destruct (in_range 48 57 (zbyte a)) eqn:Hr; [|done]. apply in_range_true in Hr. simplify_eq. lia.
Qed.

Lemma unsigned_digits_nonneg s v : unsigned_digits s = Some v -> (0 <= v)%Z.
Proof.
  unfold unsigned_digits. destruct (is_empty s); [done|]. by apply digits_value_nonneg.
Qed.

(** A word that does not hold the separator is the first of the split. *)
Definition free_of (sep : ascii) (s : string) : Prop := Forall (fun a => a <> sep) (bytes s).

Lemma split_word sep s : free_of sep s -> split sep s = [s].
Proof.
  unfold free_of. induction s as [|a s IH]; cbn [bytes String.list_ascii_of_string]; [done|].
  intros [Ha Hs]%Forall_cons. cbn [split]. destruct (Ascii.eqb_spec a sep); [done|]. by rewrite IH.
Qed.

Lemma split_words sep s t : free_of sep s -> split sep (s +:+ String sep t) = s :: split sep t.
Proof.
  unfold free_of. induction s as [|a s IH]; cbn [bytes String.list_ascii_of_string].
  - intros _. rewrite string_nil_app. cbn [split]. by rewrite Ascii.eqb_refl.
  - intros [Ha Hs]%Forall_cons. rewrite string_cons_app. cbn [split].
    destruct (Ascii.eqb_spec a sep); [done|]. by rewrite IH.
Qed.

Lemma digits_free sep s v :
  is_digit_byte sep = false -> unsigned_digits s = Some v -> free_of sep s.
Proof.
  unfold unsigned_digits. destruct (is_empty s); [done|]. intros Hsep Hv%digits_value_bytes.
  eapply Forall_impl; [exact Hv|]. intros a Ha ->. by rewrite Ha in Hsep.
Qed.

Lemma atoi_itoa z : (0 <= z < 2 ^ 63)%Z -> atoi (itoa z) = Some z.
Proof.
  intros Hz. assert (Hd := unsigned_digits_itoa z ltac:(lia)). unfold atoi.
  destruct (itoa z) as [|a s] eqn:Hi; [done|].
  assert (Ha : is_digit_byte a = true).
  { unfold unsigned_digits in Hd. apply digits_value_bytes in Hd. by apply Forall_cons in Hd as [? _]. }
  destruct (Ascii.eqb_spec a "-"%char) as [->|_]; [done|].
  destruct (Ascii.eqb_spec a "+"%char) as [->|_]; [done|].
  rewrite Hd. cbn [mbind option_bind]. unfold fits_int64, min_int64, max_int64.
  destruct (Z.leb_spec (- 2 ^ 63) z); [|lia]. destruct (Z.leb_spec z (2 ^ 63 - 1)); [done|lia].
Qed.

(** Joining undoes splitting. *)
Lemma join_split sep s : join (String sep EmptyString) (split sep s) = s.
Proof.
  induction s as [|a s IH]; [done|]. cbn [split]. destruct (Ascii.eqb_spec a sep) as [->|_].
  - destruct (split sep s) as [|w ws] eqn:Hs; [by destruct (split_nonempty sep s)|].
    change (String sep (join (String sep EmptyString) (w :: ws)) = String sep s). by rewrite IH.
  - destruct (split sep s) as [|w ws] eqn:Hs; [by destruct (split_nonempty sep s)|].
    rewrite <- IH. by destruct ws.
Qed.
