(* ===== verification/Regex.v ===== *)
(** * The regular expressions of package [regexp]

    The program compiles its shapes with [regexp.MustCompile] and uses only
    [MatchString].  A pattern is an [rx] over runes; [rx_match] decides
    membership with derivatives, [rx_in] is the language it must decide, and
    [rx_match_spec] relates the two.  A pattern written [^...$] is matched
    with [full_match], one without anchors with [search]. *)
From S2P Require Import Prelude GoStrings.

Inductive rx : Type :=
  | RVoid
  | REps
  | RSet (p : Z -> bool)
  | RCat (r s : rx)
  | RAlt (r s : rx)
  | RStar (r : rx).

(** Words of the language of a pattern. *)
Inductive rx_in : rx -> list Z -> Prop :=
  | in_eps : rx_in REps []
  | in_set p c : p c = true -> rx_in (RSet p) [c]
  | in_cat r s u v : rx_in r u -> rx_in s v -> rx_in (RCat r s) (u ++ v)
  | in_alt_l r s u : rx_in r u -> rx_in (RAlt r s) u
  | in_alt_r r s u : rx_in s u -> rx_in (RAlt r s) u
  | in_star_nil r : rx_in (RStar r) []
  | in_star_cons r u v : rx_in r u -> rx_in (RStar r) v -> rx_in (RStar r) (u ++ v).

(** Concatenation and alternation that drop empty languages, so that the
    derivatives of a bounded repetition stay small. *)
Definition mk_cat (r s : rx) : rx :=
  match r, s with
  | RVoid, _ => RVoid
  | _, RVoid => RVoid
  | REps, _ => s
  | _, _ => RCat r s
  end.

Definition mk_alt (r s : rx) : rx :=
  match r, s with
  | RVoid, _ => s
  | _, RVoid => r
  | _, _ => RAlt r s
  end.

Fixpoint nullable (r : rx) : bool :=
  match r with
  | RVoid | RSet _ => false
  | REps | RStar _ => true
  | RCat r s => nullable r && nullable s
  | RAlt r s => nullable r || nullable s
  end.

Fixpoint deriv (c : Z) (r : rx) : rx :=
  match r with
  | RVoid | REps => RVoid
  | RSet p => if p c then REps else RVoid
  | RCat r s =>
      if nullable r then mk_alt (mk_cat (deriv c r) s) (deriv c s) else mk_cat (deriv c r) s
  | RAlt r s => mk_alt (deriv c r) (deriv c s)
  | RStar r => mk_cat (deriv c r) (RStar r)
  end.

Fixpoint rx_match (r : rx) (u : list Z) : bool :=
  match u with
  | [] => nullable r
  | c :: u' => rx_match (deriv c r) u'
  end.

(* ------------------------------------------------------------------ *)
(** ** Pattern constructors                                            *)
(* ------------------------------------------------------------------ *)

Definition RChar (c : Z) : rx := RSet (Z.eqb c).
Definition RPlus (r : rx) : rx := RCat r (RStar r).
Definition ROpt (r : rx) : rx := RAlt r REps.
Definition RLit (s : string) : rx := fold_right (fun c r => RCat (RChar c) r) REps (runes s).
Definition RAny : rx := RStar (RSet (fun _ => true)).

(** [r{n}] and [r{0,n}]. *)
Fixpoint RRep (n : nat) (r : rx) : rx :=
  match n with O => REps | S n' => RCat r (RRep n' r) end.
Fixpoint RUpTo (n : nat) (r : rx) : rx :=
  match n with O => REps | S n' => ROpt (RCat r (RUpTo n' r)) end.

(** [(?i)]: a letter matches both cases, and the two letters with a third
    simple folding outside ASCII match it too. *)
Definition fold_char (c : Z) : rx :=
  RSet (fun r => (r =? c)%Z || (in_range 97 122 c && (r =? c - 32)%Z)
                 || ((c =? 107)%Z && (r =? 8490)%Z) || ((c =? 115)%Z && (r =? 383)%Z)).
Definition RLitFold (s : string) : rx :=
  fold_right (fun c r => RCat (fold_char c) r) REps (runes s).

Definition RSeq (l : list rx) : rx := fold_right RCat REps l.
Definition RUnion (l : list rx) : rx := fold_right RAlt RVoid l.

(** [MatchString] of [^r$]. *)
Definition full_match (r : rx) (s : string) : bool := rx_match r (runes s).

(** [MatchString] of an unanchored [r]. *)
Definition search (r : rx) (s : string) : bool := rx_match (RCat RAny (RCat r RAny)) (runes s).

(** Character classes. *)
Definition is_digit (c : Z) : bool := in_range 48 57 c.
Definition is_lower (c : Z) : bool := in_range 97 122 c.
Definition is_upper (c : Z) : bool := in_range 65 90 c.
Definition is_alnum (c : Z) : bool := is_digit c || is_lower c || is_upper c.
Definition one_of_chars (s : string) (c : Z) : bool := existsb (Z.eqb c) (runes s).

(* ------------------------------------------------------------------ *)
(** ** Correctness of the matcher                                      *)
(* ------------------------------------------------------------------ *)

#[local] Hint Constructors rx_in : core.

Lemma void_inv u : ~ rx_in RVoid u.
Proof. inversion 1. Qed.

Lemma eps_inv u : rx_in REps u <-> u = [].
Proof. split; [by inversion 1 | by intros ->]. Qed.

Lemma set_inv p u : rx_in (RSet p) u <-> exists c, u = [c] /\ p c = true.
Proof. split; [inversion 1; eauto | by intros (c & -> & Hc); auto]. Qed.

Lemma cat_inv r s u :
  rx_in (RCat r s) u <-> exists v w, u = v ++ w /\ rx_in r v /\ rx_in s w.
Proof. split; [inversion 1; eauto | intros (v & w & -> & Hv & Hw); auto]. Qed.

Lemma alt_inv r s u : rx_in (RAlt r s) u <-> rx_in r u \/ rx_in s u.
Proof. split; [inversion 1; auto | intros [H|H]; auto]. Qed.

Lemma cat_void_l s u : ~ rx_in (RCat RVoid s) u.
Proof. rewrite cat_inv. intros (v & w & _ & H & _). by apply void_inv in H. Qed.

Lemma cat_void_r r u : ~ rx_in (RCat r RVoid) u.
Proof. rewrite cat_inv. intros (v & w & _ & _ & H). by apply void_inv in H. Qed.

Lemma cat_eps_l s u : rx_in (RCat REps s) u <-> rx_in s u.
Proof.
  rewrite cat_inv. split; [by intros (v & w & -> & ->%eps_inv & H) | intros H; by exists [], u; auto].
Qed.

Lemma mk_cat_in r s u : rx_in (mk_cat r s) u <-> rx_in (RCat r s) u.
Proof.
  pose proof (void_inv u). pose proof (cat_void_l s u). pose proof (cat_void_r r u).
  pose proof (cat_eps_l s u).
  destruct r, s; simpl; naive_solver.
Qed.

Lemma mk_alt_in r s u : rx_in (mk_alt r s) u <-> rx_in (RAlt r s) u.
Proof.
  rewrite alt_inv. pose proof (void_inv u).
  destruct r, s; simpl; rewrite ?alt_inv; naive_solver.
Qed.

Lemma nullable_spec r : nullable r = true <-> rx_in r [].
Proof.
  induction r as [| |p|r IHr s IHs|r IHr s IHs|r IHr]; simpl.
  - split; [done | intros H; by apply void_inv in H].
  - by rewrite eps_inv.
  - rewrite set_inv. split; [done | by intros (c & H & _)].
  - rewrite andb_true_iff, IHr, IHs, cat_inv. split.
    + intros [Hr Hs]. by exists [], [].
    + intros (v & w & H & Hv & Hw). symmetry in H. apply app_nil in H as [-> ->]. done.
  - by rewrite orb_true_iff, IHr, IHs, alt_inv.
  - split; auto.
Qed.

(** A non-empty word of a star starts with a non-empty word of its body. *)
Lemma star_cons_inv r c u :
  rx_in (RStar r) (c :: u) ->
  exists v w, u = v ++ w /\ rx_in r (c :: v) /\ rx_in (RStar r) w.
Proof.
  intros H. remember (RStar r) as e eqn:He. remember (c :: u) as x eqn:Hx.
  revert He Hx. induction H as [| | | | | |r' v w Hv _ Hw IH]; intros He Hx; simplify_eq.
  destruct v as [|a v]; simplify_eq/=; [by apply IH | by exists v, w].
Qed.

Lemma deriv_spec c r u : rx_in (deriv c r) u <-> rx_in r (c :: u).
Proof.
  revert u. induction r as [| |p|r IHr s IHs|r IHr s IHs|r IHr]; intros u; simpl.
  - split; intros H; by apply void_inv in H.
  - rewrite eps_inv. split; [intros H; by apply void_inv in H | done].
  - rewrite set_inv. destruct (p c) eqn:Hp.
    + rewrite eps_inv. split; [intros ->; by exists c | by intros (c' & [= <- ->] & _)].
    + split; [intros H; by apply void_inv in H | intros (c' & [= <- ->] & H); congruence].
  - assert (Hcat : rx_in (mk_cat (deriv c r) s) u <->
              exists v w, u = v ++ w /\ rx_in r (c :: v) /\ rx_in s w).
    { rewrite mk_cat_in, cat_inv. by setoid_rewrite IHr. }
    rewrite cat_inv. destruct (nullable r) eqn:Hn.
    + apply nullable_spec in Hn. rewrite mk_alt_in, alt_inv, Hcat, IHs. split.
      * intros [(v & w & -> & Hv & Hw)|H]; [by exists (c :: v), w | by exists [], (c :: u)].
      * intros ([|a v] & w & Hu & Hv & Hw); simplify_eq/=; [by right | left; by exists v, w].
    + rewrite Hcat. split.
      * intros (v & w & -> & Hv & Hw). by exists (c :: v), w.
      * intros ([|a v] & w & Hu & Hv & Hw); simplify_eq/=; [|by exists v, w].
        apply nullable_spec in Hv. congruence.
  - by rewrite mk_alt_in, !alt_inv, IHr, IHs.
  - rewrite mk_cat_in, cat_inv. split.
    + intros (v & w & -> & Hv%IHr & Hw). change (c :: v ++ w) with ((c :: v) ++ w). auto.
    + intros (v & w & -> & Hv & Hw)%star_cons_inv. exists v, w. by rewrite IHr.
Qed.

(** The matcher decides the language of its pattern. *)
Lemma rx_match_spec r u : rx_match r u = true <-> rx_in r u.
Proof.
  revert r. induction u as [|c u IH]; intros r; simpl; [apply nullable_spec|].
  by rewrite IH, deriv_spec.
Qed.

Lemma full_match_in r s : full_match r s = true <-> rx_in r (runes s).
Proof. apply rx_match_spec. Qed.

Lemma any_in u : rx_in RAny u.
Proof. induction u as [|c u IH]; [by constructor|]. apply (in_star_cons _ [c]); auto. Qed.

Lemma search_in r s :
  search r s = true <-> exists u v w, runes s = u ++ v ++ w /\ rx_in r v.
Proof.
  unfold search. rewrite rx_match_spec, cat_inv. setoid_rewrite cat_inv. split.
  - intros (u & ? & Hs & _ & v & w & -> & Hv & _). by exists u, v, w.
  - intros (u & v & w & Hs & Hv). exists u, (v ++ w).
    split; [done|]. split; [apply any_in|]. exists v, w. auto using any_in.
Qed.

(* ------------------------------------------------------------------ *)
(** ** Languages of the derived constructors                           *)
(* ------------------------------------------------------------------ *)

Lemma star_set_in p u : rx_in (RStar (RSet p)) u <-> Forall (fun c => p c = true) u.
Proof.
  split.
  - intros H. remember (RStar (RSet p)) as e eqn:He. revert He.
    induction H as [| | | | | |r v w Hv _ Hw IH]; intros He; simplify_eq; [done|].
    apply set_inv in Hv as (c & -> & Hc). simpl. auto.
  - induction 1 as [|c u Hc _ IH]; [auto|]. apply (in_star_cons _ [c]); auto.
Qed.

Lemma rep_set_in n p u :
  rx_in (RRep n (RSet p)) u <-> length u = n /\ Forall (fun c => p c = true) u.
Proof.
  revert u. induction n as [|n IH]; intros u; simpl.
  - rewrite eps_inv. split; [by intros -> | intros [H _]; by apply nil_length_inv].
  - rewrite cat_inv. setoid_rewrite set_inv. setoid_rewrite IH. split.
    + intros (v & w & -> & (c & -> & Hc) & Hl & Hw). simpl. auto.
    + intros [Hl Hu]. destruct u as [|c u]; [done|]. inversion Hu; subst.
      exists [c], u. simpl in *. naive_solver lia.
Qed.

Lemma upto_set_in n p u :
  rx_in (RUpTo n (RSet p)) u <-> (length u <= n)%nat /\ Forall (fun c => p c = true) u.
Proof.
  revert u. induction n as [|n IH]; intros u; simpl.
  - rewrite eps_inv. split; [by intros -> | intros [H _]; destruct u; simpl in *; [done|lia]].
  - unfold ROpt. rewrite alt_inv, eps_inv, cat_inv. setoid_rewrite set_inv. setoid_rewrite IH.
    split.
    + intros [(v & w & -> & (c & -> & Hc) & Hl & Hw)| ->]; simpl; [|split; [lia|done]].
      split; [lia|auto].
    + intros [Hl Hu]. destruct u as [|c u]; [by right|]. inversion Hu; subst.
      left. exists [c], u. simpl in *. naive_solver lia.
Qed.

Lemma lit_in s u : rx_in (RLit s) u <-> u = runes s.
Proof.
  unfold RLit. generalize (runes s) as l. intros l. revert u.
  induction l as [|c l IH]; intros u; simpl; [apply eps_inv|].
  unfold RChar. rewrite cat_inv. setoid_rewrite set_inv. setoid_rewrite IH. split.
  - intros (v & w & -> & (c' & -> & ->%Z.eqb_eq) & ->). done.
  - intros ->. exists [c], l. split; [done|]. split; [|done]. exists c. by rewrite Z.eqb_refl.
Qed.

Lemma union_in l u : rx_in (RUnion l) u <-> Exists (fun r => rx_in r u) l.
Proof.
  induction l as [|r l IH]; simpl.
  - split; [intros H; by apply void_inv in H | by inversion 1].
  - by rewrite alt_inv, IH, Exists_cons.
Qed.
