(* ===== verification/GoNet.v ===== *)
(** * Times, addresses and URLs of the standard library

    What the program uses of [time.Parse] with [time.RFC3339Nano],
    [time.ParseDuration], [net.ParseIP] and [net/url]: which texts they accept,
    and the values the program looks at. *)
From S2P Require Import Prelude GoStrings.

(* ------------------------------------------------------------------ *)
(** ** [time.Parse(time.RFC3339Nano, value)]                           *)
(* ------------------------------------------------------------------ *)

(** A field of exactly [n] digits and the rest of the text. *)
Fixpoint fixed_digits (n : nat) (acc : Z) (s : string) : option (Z * string) :=
  match n with
  | O => Some (acc, s)
  | S n' =>
      match s with
      | String a s' => d ← digit_of a; fixed_digits n' (acc * 10 + d)%Z s'
      | EmptyString => None
      end
  end.

(** The hour of the layout is not zero-padded: one or two digits. *)
Definition hour_digits (s : string) : option (Z * string) :=
  match fixed_digits 2 0 s with
  | Some r => Some r
  | None => fixed_digits 1 0 s
  end.

Definition expect (z : Z) (s : string) : option string :=
  match s with
  | String a s' => if (zbyte a =? z)%Z then Some s' else None
  | EmptyString => None
  end.

Fixpoint skip_digits (s : string) : string :=
  match s with
  | String a s' => match digit_of a with Some _ => skip_digits s' | None => s end
  | EmptyString => EmptyString
  end.

(** An optional fraction: a period or a comma and at least one digit. *)
Definition skip_fraction (s : string) : string :=
  match s with
  | String a ((String b _) as s') =>
      if ((zbyte a =? 46) || (zbyte a =? 44))%Z then
        match digit_of b with Some _ => skip_digits s' | None => s end
      else s
  | _ => s
  end.

Definition is_leap (y : Z) : bool :=
  ((y mod 4 =? 0) && (negb (y mod 100 =? 0) || (y mod 400 =? 0)))%Z.

Definition days_in (month year : Z) : Z :=
  (if month =? 2 then (if is_leap year then 29 else 28)
   else if (month =? 4) || (month =? 6) || (month =? 9) || (month =? 11) then 30 else 31)%Z.

(** A text that ends in [Z], which is the only kind the program hands over: the
    zone is then that letter, since a numeric offset would leave it over. *)
Definition rfc3339_utc (value : string) : bool :=
  match
    '(year, s) ← fixed_digits 4 0 value; s ← expect 45 s;
    '(month, s) ← fixed_digits 2 0 s; s ← expect 45 s;
    '(day, s) ← fixed_digits 2 0 s; s ← expect 84 s;
    '(hour, s) ← hour_digits s; s ← expect 58 s;
    '(minute, s) ← fixed_digits 2 0 s; s ← expect 58 s;
    '(second, s) ← fixed_digits 2 0 s;
    s ← expect 90 (skip_fraction s);
    Some (in_range 1 12 month && in_range 1 (days_in month year) day && (hour <? 24)%Z
          && (minute <? 60)%Z && (second <? 60)%Z && is_empty s)
  with
  | Some b => b
  | None => false
  end.

(* ------------------------------------------------------------------ *)
(** ** [net.ParseIP]                                                   *)
(* ------------------------------------------------------------------ *)

(** One octet: digits without a leading zero, at most 255. *)
Definition octet (s : string) : option Z :=
  v ← unsigned_digits s;
  if (1 <? slen s)%Z && has_prefix s "0" then None
  else if (v <=? 255)%Z then Some v else None.

(** Dotted decimal.  A text with a colon is an IPv6 address or nothing; it has
    no canonical dotted form, and no caller accepts it. *)
Definition parse_ipv4 (s : string) : option (list Z) :=
  match split "."%char s with
  | [a; b; c; d] =>
      a ← octet a; b ← octet b; c ← octet c; d ← octet d; Some [a; b; c; d]
  | _ => None
  end.

Definition ipv4_text (octets : list Z) : string := join "." (itoa <$> octets).

(** A run of hexadecimal digits at the start of a text, and the rest. *)
Definition is_hex_digit (a : ascii) : bool :=
  let z := zbyte a in in_range 48 57 z || in_range 97 102 z || in_range 65 70 z.

Fixpoint hex_run (s : string) : nat * string :=
  match s with
  | String a s' => if is_hex_digit a then let '(n, r) := hex_run s' in (S n, r) else (0, s)
  | EmptyString => (0, s)
  end.

Definition hex_value (a : ascii) : Z :=
  let z := zbyte a in (if z <=? 57 then z - 48 else if z <=? 70 then z - 55 else z - 87)%Z.
Definition hex_number (s : string) : Z :=
  fold_left (fun acc a => acc * 16 + hex_value a)%Z (bytes s) 0%Z.

(** The groups of an IPv6 address after the bytes [ip]: all the bytes, where
    the double colon was, and what is left of the text. *)
Fixpoint ipv6_groups (fuel : nat) (ip : list Z) (ellipsis : option nat) (s : string)
    : option (list Z * option nat * string) :=
  match fuel with
  | O => Some (ip, ellipsis, s)
  | S fuel =>
      let '(off, rest) := hex_run s in
      if (off =? 0)%nat || (4 <? off)%nat then None
      else if has_prefix rest "." then
        if (match ellipsis with None => negb (length ip =? 12)%nat | Some _ => false end)
           || (12 <? length ip)%nat then None
        else v4 ← parse_ipv4 s; Some (ip ++ v4, ellipsis, "")
      else
        let acc := hex_number (take_str off s) in
        let ip := ip ++ [acc / 256; acc mod 256]%Z in
        match rest with
        | EmptyString => Some (ip, ellipsis, "")
        | String c EmptyString => None
        | String c (String d rest' as after) =>
            if negb (Ascii.eqb c ":"%char) then None
            else if Ascii.eqb d ":"%char then
              match ellipsis with
              | Some _ => None
              | None =>
                  if is_empty rest' then Some (ip, Some (length ip), "")
                  else ipv6_groups fuel ip (Some (length ip)) rest'
              end
            else ipv6_groups fuel ip ellipsis after
        end
  end.

(** The double colon stands for the bytes that are missing, at least one
    group. *)
Definition parse_ipv6 (s : string) : option (list Z) :=
  if streq s "::" then Some (replicate 16 0%Z)
  else
    let start := if has_prefix s "::" then Some 0%nat else None in
    '(ip, ellipsis, rest) ← ipv6_groups 8 [] start (if has_prefix s "::" then drop_str 2 s else s);
    if negb (is_empty rest) then None
    else match ellipsis with
         | None => if (length ip =? 16)%nat then Some ip else None
         | Some at_ =>
             if (length ip <? 16)%nat
             then Some (take at_ ip ++ replicate (16 - length ip) 0%Z ++ drop at_ ip)
             else None
         end.

(** The first of [.], [:] and [%] decides what a text is; a zone is refused. *)
Fixpoint first_separator (s : string) : option ascii :=
  match s with
  | EmptyString => None
  | String a s' =>
      if existsb (Ascii.eqb a) (bytes ".:%") then Some a else first_separator s'
  end.

(** [net.ParseIP]: sixteen bytes, an IPv4 address in its mapped form. *)
Definition v4_prefix : list Z := replicate 10 0%Z ++ [255; 255]%Z.

Definition ParseIP (s : string) : option (list Z) :=
  match first_separator s with
  | Some a =>
      if Ascii.eqb a "."%char then (fun v4 => v4_prefix ++ v4) <$> parse_ipv4 s
      else if Ascii.eqb a ":"%char then parse_ipv6 s else None
  | None => None
  end.

Definition is_ip (s : string) : bool := match ParseIP s with Some _ => true | None => false end.

(** [net.IP.String] of sixteen bytes: dotted decimal for a mapped address, and
    otherwise groups with the first longest run of zeros, of two groups at
    least, left out. *)
Fixpoint ip_groups (ip : list Z) : list Z :=
  match ip with
  | a :: b :: ip' => (a * 256 + b)%Z :: ip_groups ip'
  | _ => []
  end.

Fixpoint zero_run (l : list Z) : nat :=
  match l with z :: l' => if (z =? 0)%Z then S (zero_run l') else 0 | [] => 0 end.

(** The start and the length of the run that is left out. *)
Fixpoint longest_zeros (i : nat) (best : nat * nat) (l : list Z) : nat * nat :=
  match l with
  | [] => best
  | _ :: l' =>
      let n := zero_run l in
      longest_zeros (S i) (if (2 <=? n)%nat && (best.2 <? n)%nat then (i, n) else best) l'
  end.

Definition hex_group (g : Z) : string :=
  match drop_while (fun a => Ascii.eqb a "0"%char) (bytes (hex_byte (g / 256) +:+ hex_byte (g mod 256))) with
  | [] => "0"
  | l => of_bytes l
  end.

Definition ip_string (ip : list Z) : string :=
  if bool_decide (take 12 ip = v4_prefix) then ipv4_text (drop 12 ip)
  else
    let groups := ip_groups ip in
    let '(at_, n) := longest_zeros 0 (0, 0)%nat groups in
    let text l := join ":" (hex_group <$> l) in
    if (n =? 0)%nat then text groups
    else sprintf [text (take at_ groups); "::"; text (drop (at_ + n) groups)].

Example ip_string_examples :
  (fun s => ip_string <$> ParseIP s)
    <$> ["10.0.0.1"; "::"; "::1"; "2001:DB8:0:0:1::"; "1:0:0:2:0:0:0:3"; "::ffff:10.0.0.1"; "1:0:2:3:4:5:6:7"]
  = [Some "10.0.0.1"; Some "::"; Some "::1"; Some "2001:db8:0:0:1::"; Some "1:0:0:2::3";
     Some "10.0.0.1"; Some "1:0:2:3:4:5:6:7"].
Proof. vm_compute. reflexivity. Qed.

(** [net.SplitHostPort], as far as there is no error: [host:port], or
    [[host]:port] for a host with colons. *)
Definition split_host_port (s : string) : option (string * string) :=
  '(before, port) ← split_last ":"%char s;
  match before with
  | String "[" rest =>
      '(host, after) ← split_first "]"%char rest;
      if is_empty after && negb (contains_any (host +:+ port) "[") && negb (contains_any port "]")
      then Some (host, port) else None
  | _ => if contains_any before ":[]" || contains_any port "[]" then None else Some (before, port)
  end.

Example split_host_port_examples :
  split_host_port <$> ["10.0.0.1:80"; "[::1]:80"; "::1:80"; "[::1]"; "[::1]x:80"; ":80"; "a:"; "a]:80"]
  = [Some ("10.0.0.1", "80"); Some ("::1", "80"); None; None; None; Some ("", "80"); Some ("a", "");
     None].
Proof. vm_compute. reflexivity. Qed.

(** [net.ParseCIDR], the same way. *)
Definition is_cidr (s : string) : bool :=
  match split_first "/"%char s with
  | Some (addr, mask) =>
      is_ip addr
      && match unsigned_digits mask with
         | Some n => (n <=? (if match first_separator addr with Some a => Ascii.eqb a ":"%char
                                | None => false end then 128 else 32))%Z
         | None => false
         end
  | None => false
  end.

Example is_ip_examples :
  is_ip <$> ["10.0.0.1"; "10.0.0.01"; "10.0.0.256"; "::"; "::1"; "2001:db8::1"; "1:2:3:4:5:6:7:8";
             "1:2:3:4:5:6:7::"; "::1:2:3:4:5:6:7:8"; "::ffff:10.0.0.1"; "1::2::3"; "1:2:3";
             "fe80::1%eth0"; "12345::"; "1:2:3:4:5:6:7:8:9"; ""; "1:2:3:4:5:6:1.2.3.4"]
  = [true; false; false; true; true; true; true; true; false; true; false; false; false; false;
     false; false; true].
Proof. reflexivity. Qed.

Example is_cidr_examples :
  is_cidr <$> ["10.0.0.0/8"; "10.0.0.0/33"; "::/128"; "10.0.0.0"; "10.0.0.0/"; "10.0.0.0/+8"]
  = [true; false; true; false; false; false].
Proof. reflexivity. Qed.

(** [net.ParseMAC]: six, eight or twenty bytes in pairs of digits between colons
    or dashes, or in fours between dots. *)
Definition mac_groups (sep : ascii) (digits : nat) (counts : list nat) (s : string) : bool :=
  let groups := split sep s in
  forallb (fun g => (String.length g =? digits)%nat && forallb is_hex_digit (bytes g)) groups
  && existsb (Nat.eqb (length groups)) counts.

Definition is_mac (s : string) : bool :=
  mac_groups ":" 2 [6; 8; 20]%nat s || mac_groups "-" 2 [6; 8; 20]%nat s
  || mac_groups "." 4 [3; 4; 10]%nat s.

Example is_mac_examples :
  is_mac <$> ["00:00:5e:00:53:01"; "02-00-5e-10-00-00-00-01"; "0000.5e00.5301"; "00:00:5e:00:53";
              "00:00:5e:00-53:01"; ""]
  = [true; true; true; false; false; false].
Proof. by vm_compute. Qed.

(* ------------------------------------------------------------------ *)
(** ** [net/url.Parse]                                                 *)
(* ------------------------------------------------------------------ *)

Definition is_hex (a : ascii) : bool :=
  let z := zbyte a in in_range 48 57 z || in_range 97 102 z || in_range 65 70 z.

Definition hex_nibble (a : ascii) : Z :=
  let z := zbyte a in
  (if in_range 48 57 z then z - 48 else if in_range 97 102 z then z - 87 else z - 55)%Z.

(** [unescape] fails on a percent sign that two hex digits do not follow; the
    host mode allows only bytes outside ASCII and [%25], and no other byte that
    needs escaping. *)
Definition host_byte (a : ascii) : bool :=
  let z := zbyte a in
  (128 <=? z)%Z || in_range 48 57 z || in_range 65 90 z || in_range 97 122 z
  || existsb (Ascii.eqb a) (bytes "-_.~!$&'()*+,;=:[]<>") || (z =? 34)%Z.

Fixpoint unescape_ok (host : bool) (s : string) : bool :=
  match s with
  | EmptyString => true
  | String a s1 =>
      if (zbyte a =? 37)%Z then
        match s1 with
        | String h1 (String h2 s3) =>
            is_hex h1 && is_hex h2
            && (negb host || (8 <=? hex_nibble h1)%Z
                || (Ascii.eqb h1 "2"%char && Ascii.eqb h2 "5"%char))
            && unescape_ok host s3
        | _ => false
        end
      else (negb host || host_byte a) && unescape_ok host s1
  end.

(** [strings.Cut] on a byte. *)
Fixpoint cut (sep : ascii) (s : string) : string * option string :=
  match s with
  | EmptyString => (EmptyString, None)
  | String a s' =>
      if Ascii.eqb a sep then (EmptyString, Some s')
      else let '(before, after) := cut sep s' in (String a before, after)
  end.

Definition is_scheme_first (a : ascii) : bool :=
  let z := zbyte a in in_range 97 122 z || in_range 65 90 z.
Definition is_scheme_byte (a : ascii) : bool :=
  let z := zbyte a in
  is_scheme_first a || in_range 48 57 z || existsb (Z.eqb z) [43; 45; 46]%Z.

(** [getScheme]: [None] is an error, [Some ("", s)] a text without a scheme. *)
Fixpoint scheme_rest (first : bool) (s : string) : option (option (string * string)) :=
  match s with
  | EmptyString => Some None
  | String a s' =>
      if (zbyte a =? 58)%Z then if first then None else Some (Some (EmptyString, s'))
      else if (if first then is_scheme_first a else is_scheme_byte a) then
        match scheme_rest false s' with
        | Some (Some (sch, rest)) => Some (Some (String a sch, rest))
        | r => r
        end
      else Some None
  end.

Definition get_scheme (s : string) : option (string * string) :=
  match scheme_rest true s with
  | Some (Some (sch, rest)) => Some (to_lower sch, rest)
  | Some None => Some ("", s)
  | None => None
  end.

Definition valid_optional_port (s : string) : bool :=
  match s with
  | EmptyString => true
  | String a s' =>
      (zbyte a =? 58)%Z && forallb (fun b => in_range 48 57 (zbyte b)) (bytes s')
  end.

(** [validUserinfo]: letters, digits and these marks. *)
Definition valid_userinfo (s : string) : bool :=
  forallb (fun a => let z := zbyte a in
    in_range 48 57 z || in_range 65 90 z || in_range 97 122 z
    || existsb (Ascii.eqb a) (bytes "-._:~!$&'()*+,;=%@")) (bytes s).

(** [parseHost] of a host that is not an IP literal in brackets. *)
Definition parse_host (host : string) : option string :=
  let port_ok :=
    match split_last ":"%char host with
    | Some (_, port) => valid_optional_port (":" +:+ port)
    | None => true
    end in
  if port_ok && unescape_ok true host then Some host else None.

(** What [httpsURI] needs of [url.Parse]: the scheme and the host of the
    reference, or an error.  [bracketed] decides the hosts in brackets. *)
Definition url_scheme_host (bracketed : string -> bool) (raw : string) : option (string * string) :=
  let '(u, frag) := cut "#"%char raw in
  let ctl := existsb (fun a => (zbyte a <? 32)%Z || (zbyte a =? 127)%Z) (bytes u) in
  if ctl || negb (unescape_ok false (default "" frag)) then None else
  if streq u "*" then Some ("", "") else
  '(scheme, rest) ← get_scheme u;
  let '(rest, _) := cut "?"%char rest in
  if negb (has_prefix rest "/") && negb (is_empty scheme) then Some (scheme, "") else
  if negb (has_prefix rest "/") && (let '(seg, _) := cut "/"%char rest in contains seg ":")
  then None else
  if has_prefix rest "//" && (negb (is_empty scheme) || negb (has_prefix rest "///")) then
    let '(authority, path) := cut "/"%char (drop_str 2 rest) in
    let '(user, host) := match split_last "@"%char authority with
                         | Some (u, h) => (Some u, h)
                         | None => (None, authority)
                         end in
    let user_ok := match user with
                   | Some u => valid_userinfo u && unescape_ok false u
                   | None => true
                   end in
    let path_ok := match path with
                   | Some p => unescape_ok false p
                   | None => true
                   end in
    host ← (if has_prefix host "[" then if bracketed host then Some host else None
            else parse_host host);
    if user_ok && path_ok then Some (scheme, host) else None
  else if unescape_ok false rest then Some (scheme, "") else None.

(* ------------------------------------------------------------------ *)
(** ** [time.ParseDuration]                                            *)
(* ------------------------------------------------------------------ *)

Definition unit_nanoseconds (u : string) : option Z :=
  (if streq u "ns" then Some 1
   else if streq u "us" || streq u "µs" || streq u "μs" then Some 1000
   else if streq u "ms" then Some 1000000
   else if streq u "s" then Some 1000000000
   else if streq u "m" then Some 60000000000
   else if streq u "h" then Some 3600000000000
   else None)%Z.

(** The digits a text starts with, their number and the rest. *)
Fixpoint leading_digits (acc : Z) (n : nat) (s : string) : Z * nat * string :=
  match s with
  | String a s' =>
      match digit_of a with
      | Some d => leading_digits (acc * 10 + d)%Z (S n) s'
      | None => (acc, n, s)
      end
  | EmptyString => (acc, n, s)
  end.

(** The unit runs to the next period or digit. *)
Fixpoint leading_unit (s : string) : string * string :=
  match s with
  | String a s' =>
      let z := zbyte a in
      if (z =? 46)%Z || in_range 48 57 z then (EmptyString, s)
      else let '(u, rest) := leading_unit s' in (String a u, rest)
  | EmptyString => (EmptyString, EmptyString)
  end.

(** One [number unit] pair in nanoseconds; the fraction is computed exactly
    and truncated, where [ParseDuration] rounds through a [float64].  [None] is the error of a malformed or overflowing
    pair. *)
Definition duration_term (s : string) : option (Z * string) :=
  let '(v, pre, s) := leading_digits 0 0 s in
  let '(f, scale, post, s) :=
    match expect 46 s with
    | Some s' => let '(f, n, rest) := leading_digits 0 0 s' in (f, 10 ^ Z.of_nat n, n, rest)%Z
    | None => (0, 1, 0%nat, s)%Z
    end in
  if (pre =? 0)%nat && (post =? 0)%nat then None else
  let '(u, rest) := leading_unit s in
  if is_empty u then None else
  unit ← unit_nanoseconds u;
  if (2 ^ 63 <? v)%Z || (2 ^ 63 / unit <? v)%Z then None else
  let total := (v * unit + f * unit / scale)%Z in
  if (2 ^ 63 <? total)%Z then None else Some (total, rest).

Fixpoint duration_terms (fuel : nat) (acc : Z) (s : string) : option Z :=
  match fuel with
  | O => None
  | S fuel' =>
      if is_empty s then Some acc else
      '(t, rest) ← duration_term s;
      if (2 ^ 63 <? acc + t)%Z then None else duration_terms fuel' (acc + t)%Z rest
  end.

Definition parse_duration (s : string) : option Z :=
  let '(neg, s) := match s with
                   | String a s' => if (zbyte a =? 45)%Z then (true, s')
                                    else if (zbyte a =? 43)%Z then (false, s') else (false, s)
                   | EmptyString => (false, s)
                   end in
  if streq s "0" then Some 0%Z
  else if is_empty s then None
  else
    d ← duration_terms (S (String.length s)) 0 s;
    if neg then Some (- d)%Z else if (2 ^ 63 - 1 <? d)%Z then None else Some d.
