(* ===== verification/Json.v ===== *)
(** * The JSON documents of package [encoding/json]

    What the program uses of the package: the tokens and the grammar that
    [Decoder.Token], [Decoder.Decode] and [json.Unmarshal] read, with strings
    unescaped and the nesting bound; and the decoding of a document into a Go
    value, by the class [GoValue].  Lexer and parser are structural automata,
    over bytes and over tokens, so every input has a result.

    Error values of the package are abstracted to [None]: the program turns
    each of them into an error of its own. *)
From S2P Require Import Prelude GoStrings.

Unset Elimination Schemes.
Inductive json : Type :=
  | JNull
  | JBool (b : bool)
  | JNum (lit : string)
  | JStr (s : string)
  | JArr (l : list json)
  | JObj (ms : list (string * json)).
Set Elimination Schemes.

Section JsonInd.
Context (P : json -> Prop).
Context (Hnull : P JNull) (Hbool : forall b, P (JBool b)) (Hnum : forall n, P (JNum n))
        (Hstr : forall s, P (JStr s))
        (Harr : forall l, Forall P l -> P (JArr l))
        (Hobj : forall ms, Forall (fun m => P m.2) ms -> P (JObj ms)).

Fixpoint json_ind (j : json) : P j :=
  match j with
  | JNull => Hnull
  | JBool b => Hbool b
  | JNum n => Hnum n
  | JStr s => Hstr s
  | JArr l =>
      Harr l ((fix go l := match l return Forall P l with
                           | [] => List.Forall_nil _
                           | j :: l' => List.Forall_cons _ _ _ (json_ind j) (go l')
                           end) l)
  | JObj ms =>
      Hobj ms ((fix go ms := match ms return Forall (fun m => P m.2) ms with
                             | [] => List.Forall_nil _
                             | m :: ms' => List.Forall_cons _ _ _ (json_ind m.2) (go ms')
                             end) ms)
  end.
End JsonInd.

(** [v] occurs in [j]. *)
Inductive subvalue (v : json) : json -> Prop :=
  | sub_here : subvalue v v
  | sub_arr l j : j ∈ l -> subvalue v j -> subvalue v (JArr l)
  | sub_obj ms k j : (k, j) ∈ ms -> subvalue v j -> subvalue v (JObj ms).

(** No object inside the document repeats a key. *)
Definition unique_keys (j : json) : Prop :=
  forall ms, subvalue (JObj ms) j -> NoDup (fst <$> ms).

(* ------------------------------------------------------------------ *)
(** ** Tokens                                                          *)
(* ------------------------------------------------------------------ *)

Inductive token : Type :=
  | TLBrace | TRBrace | TLBrack | TRBrack | TColon | TComma
  | TStr (s : string) | TNum (lit : string) | TTrue | TFalse | TNull
  | TBad.

Definition hex_value (a : ascii) : option Z :=
  let z := zbyte a in
  if in_range 48 57 z then Some (z - 48)%Z
  else if in_range 97 102 z then Some (z - 87)%Z
  else if in_range 65 70 z then Some (z - 55)%Z else None.

Definition hex4 (a b c d : ascii) : Z :=
  let v x := default 0%Z (hex_value x) in
  (v a * 4096 + v b * 256 + v c * 16 + v d)%Z.

Definition simple_escape (e : ascii) : ascii :=
  let z := zbyte e in
  byte_of (if z =? 98 then 8 else if z =? 102 then 12 else if z =? 110 then 10
           else if z =? 114 then 13 else if z =? 116 then 9 else z)%Z.

Definition is_surrogate (r : Z) : bool := in_range 55296 57343 r.

(** The escape sequences of the inside of a string literal. *)
Fixpoint unescape (s : string) : string :=
  match s with
  | EmptyString => EmptyString
  | String a s1 =>
      if negb (zbyte a =? 92)%Z then String a (unescape s1) else
      match s1 with
      | EmptyString => EmptyString
      | String e s2 =>
          if negb (zbyte e =? 117)%Z then String (simple_escape e) (unescape s2) else
          match s2 with
          | String h1 (String h2 (String h3 (String h4 s6))) =>
              let r := hex4 h1 h2 h3 h4 in
              let lone := encode_rune (if is_surrogate r then rune_error else r) +:+ unescape s6 in
              match s6 with
              | String b (String u (String g1 (String g2 (String g3 (String g4 s12))))) =>
                  let r2 := hex4 g1 g2 g3 g4 in
                  if in_range 55296 56319 r && (zbyte b =? 92)%Z && (zbyte u =? 117)%Z
                     && in_range 56320 57343 r2
                  then encode_rune ((r - 55296) * 1024 + (r2 - 56320) + 65536)%Z +:+ unescape s12
                  else lone
              | _ => lone
              end
          | _ => EmptyString
          end
      end
  end.

Definition replacement : string := encode_rune rune_error.

(** Invalid UTF-8 in a string literal decodes as U+FFFD. *)
Definition sanitize (s : string) : string :=
  concat_str ((fun x : Z * string =>
                 if (x.1 =? rune_error)%Z && (slen x.2 =? 1)%Z then replacement else x.2)
              <$> segments s).

Definition unquote (raw : string) : string := sanitize (unescape raw).

Inductive num_phase := PNeg | PZero | PInt | PDot | PFrac | PExpStart | PSign | PExp.

Definition num_accept (p : num_phase) : bool :=
  match p with PZero | PInt | PFrac | PExp => true | _ => false end.

Definition num_step (p : num_phase) (z : Z) : option num_phase :=
  let digit := in_range 48 57 z in
  let expo := (z =? 101)%Z || (z =? 69)%Z in
  let dot := (z =? 46)%Z in
  match p with
  | PNeg => if (z =? 48)%Z then Some PZero else if digit then Some PInt else None
  | PZero => if dot then Some PDot else if expo then Some PExpStart else None
  | PInt => if digit then Some PInt else if dot then Some PDot
            else if expo then Some PExpStart else None
  | PDot => if digit then Some PFrac else None
  | PFrac => if digit then Some PFrac else if expo then Some PExpStart else None
  | PExpStart => if (z =? 43)%Z || (z =? 45)%Z then Some PSign
                 else if digit then Some PExp else None
  | PSign => if digit then Some PExp else None
  | PExp => if digit then Some PExp else None
  end.

Inductive lmode :=
  | LStart
  | LStr (acc : list ascii)
  | LEsc (acc : list ascii)
  | LHex (acc : list ascii) (n : nat)
  | LNum (acc : list ascii) (p : num_phase)
  | LLit (rest : list ascii) (tok : token).

Definition literal (acc : list ascii) : string := of_bytes (rev acc).

Definition start_step (a : ascii) : list token * option lmode :=
  let z := zbyte a in
  if (z =? 32)%Z || (z =? 9)%Z || (z =? 10)%Z || (z =? 13)%Z then ([], Some LStart)
  else if (z =? 123)%Z then ([TLBrace], Some LStart)
  else if (z =? 125)%Z then ([TRBrace], Some LStart)
  else if (z =? 91)%Z then ([TLBrack], Some LStart)
  else if (z =? 93)%Z then ([TRBrack], Some LStart)
  else if (z =? 58)%Z then ([TColon], Some LStart)
  else if (z =? 44)%Z then ([TComma], Some LStart)
  else if (z =? 34)%Z then ([], Some (LStr []))
  else if (z =? 45)%Z then ([], Some (LNum [a] PNeg))
  else if (z =? 48)%Z then ([], Some (LNum [a] PZero))
  else if in_range 49 57 z then ([], Some (LNum [a] PInt))
  else if (z =? 116)%Z then ([], Some (LLit (bytes "rue") TTrue))
  else if (z =? 102)%Z then ([], Some (LLit (bytes "alse") TFalse))
  else if (z =? 110)%Z then ([], Some (LLit (bytes "ull") TNull))
  else ([], None).

(** The escapes the scanner accepts after a backslash, [u] apart. *)
Definition escapable (z : Z) : bool :=
  existsb (Z.eqb z) [98; 102; 110; 114; 116; 92; 47; 34]%Z.

Definition lex_step (m : lmode) (a : ascii) : list token * option lmode :=
  let z := zbyte a in
  match m with
  | LStart => start_step a
  | LStr acc =>
      if (z =? 34)%Z then ([TStr (unquote (literal acc))], Some LStart)
      else if (z =? 92)%Z then ([], Some (LEsc (a :: acc)))
      else if (z <? 32)%Z then ([], None)
      else ([], Some (LStr (a :: acc)))
  | LEsc acc =>
      if (z =? 117)%Z then ([], Some (LHex (a :: acc) 4))
      else if escapable z then ([], Some (LStr (a :: acc))) else ([], None)
  | LHex acc n =>
      match hex_value a, n with
      | Some _, S (S n') => ([], Some (LHex (a :: acc) (S n')))
      | Some _, _ => ([], Some (LStr (a :: acc)))
      | None, _ => ([], None)
      end
  | LNum acc p =>
      match num_step p z with
      | Some p' => ([], Some (LNum (a :: acc) p'))
      | None => if num_accept p
                then let '(ts, m') := start_step a in (TNum (literal acc) :: ts, m')
                else ([], None)
      end
  | LLit [] tok => ([], None)
  | LLit [b] tok => if Ascii.eqb a b then ([tok], Some LStart) else ([], None)
  | LLit (b :: rest) tok => if Ascii.eqb a b then ([], Some (LLit rest tok)) else ([], None)
  end.

Definition lex_end (m : lmode) : list token :=
  match m with
  | LStart => []
  | LNum acc p => if num_accept p then [TNum (literal acc)] else [TBad]
  | _ => [TBad]
  end.

(** The tokens of the text; the last one is [TBad] if the text is cut or
    holds a byte no token starts with. *)
Fixpoint lex (m : lmode) (s : string) : list token :=
  match s with
  | EmptyString => lex_end m
  | String a s' =>
      match lex_step m a with
      | (ts, Some m') => ts ++ lex m' s'
      | (ts, None) => ts ++ [TBad]
      end
  end.

Definition tokens (raw : string) : list token := lex LStart raw.

(* ------------------------------------------------------------------ *)
(** ** Values                                                          *)
(* ------------------------------------------------------------------ *)

Inductive aphase := AStart | AValue | AComma.
Inductive ophase := OStart | OKey | OColon (k : string) | OValue (k : string) | OComma.

(** An open array or object, its elements in reverse. *)
Inductive frame :=
  | FArr (p : aphase) (es : list json)
  | FObj (p : ophase) (ms : list (string * json)).

Inductive pres := PErr | PMore (st : list frame) | PDone (v : json).

Definition max_depth : Z := 10000.

Definition value_allowed (st : list frame) : bool :=
  match st with
  | [] | FArr AStart _ :: _ | FArr AValue _ :: _ | FObj (OValue _) _ :: _ => true
  | _ => false
  end.

Definition complete (v : json) (st : list frame) : pres :=
  match st with
  | [] => PDone v
  | FArr _ es :: st' => PMore (FArr AComma (v :: es) :: st')
  | FObj (OValue k) ms :: st' => PMore (FObj OComma ((k, v) :: ms) :: st')
  | _ => PErr
  end.

Definition scalar (v : json) (st : list frame) : pres :=
  if value_allowed st then complete v st else PErr.

Definition open_frame (f : frame) (st : list frame) : pres :=
  if value_allowed st && (Z.of_nat (length st) <? max_depth)%Z then PMore (f :: st) else PErr.

Definition parse_step (st : list frame) (t : token) : pres :=
  match t with
  | TLBrack => open_frame (FArr AStart []) st
  | TLBrace => open_frame (FObj OStart []) st
  | TRBrack =>
      match st with
      | FArr AStart es :: st' | FArr AComma es :: st' => complete (JArr (rev es)) st'
      | _ => PErr
      end
  | TRBrace =>
      match st with
      | FObj OStart ms :: st' | FObj OComma ms :: st' => complete (JObj (rev ms)) st'
      | _ => PErr
      end
  | TColon =>
      match st with
      | FObj (OColon k) ms :: st' => PMore (FObj (OValue k) ms :: st')
      | _ => PErr
      end
  | TComma =>
      match st with
      | FArr AComma es :: st' => PMore (FArr AValue es :: st')
      | FObj OComma ms :: st' => PMore (FObj OKey ms :: st')
      | _ => PErr
      end
  | TStr s =>
      match st with
      | FObj OStart ms :: st' | FObj OKey ms :: st' => PMore (FObj (OColon s) ms :: st')
      | _ => scalar (JStr s) st
      end
  | TNum n => scalar (JNum n) st
  | TTrue => scalar (JBool true) st
  | TFalse => scalar (JBool false) st
  | TNull => scalar JNull st
  | TBad => PErr
  end.

(** One value and the tokens after it. *)
Fixpoint parse (st : list frame) (ts : list token) : option (json * list token) :=
  match ts with
  | [] => None
  | t :: ts' =>
      match parse_step st t with
      | PErr => None
      | PMore st' => parse st' ts'
      | PDone v => Some (v, ts')
      end
  end.

(** A text that is exactly one value: what [json.Unmarshal] and [json.Valid] accept. *)
Definition parse_document (raw : string) : option json :=
  match parse [] (tokens raw) with
  | Some (v, []) => Some v
  | _ => None
  end.

Definition json_valid (raw : string) : bool := bool_decide (is_Some (parse_document raw)).

(* ------------------------------------------------------------------ *)
(** ** Decoding into Go values                                         *)
(* ------------------------------------------------------------------ *)

(** Decoding writes into a value that exists already: a member that is
    [null] leaves a string, a number or a struct as it was.  [strict] is
    [DisallowUnknownFields]. *)
Class GoValue (A : Type) := {
  go_zero : A;
  go_into : bool -> A -> json -> option A
}.

(** Struct fields are found by the folded name of the member. *)
Definition fold_rune (r : Z) : Z :=
  if in_range 97 122 r then (r - 32)%Z
  else if (r =? 8490)%Z then 75 else if (r =? 383)%Z then 83 else r.

Definition same_field (name key : string) : bool :=
  eqb_list Z.eqb (fold_rune <$> runes name) (fold_rune <$> runes key).

(** The field [name] of a struct that has the value [old]. *)
Definition field `{GoValue A} (strict : bool) (ms : list (string * json)) (name : string)
    (old : A) : option A :=
  fold_left (fun acc m => a ← acc; if same_field name m.1 then go_into strict a m.2 else Some a)
    ms (Some old).

Definition decode_struct {A} (strict : bool) (names : list string) (old : A)
    (build : list (string * json) -> option A) (j : json) : option A :=
  match j with
  | JNull => Some old
  | JObj ms =>
      if strict && negb (forallb (fun m : string * json => existsb (fun n => same_field n m.1) names) ms)
      then None else build ms
  | _ => None
  end.

Definition integer_literal (lit : string) : option Z :=
  match lit with
  | String a s' => if Ascii.eqb a "-"%char then z ← unsigned_digits s'; Some (- z)%Z
                   else unsigned_digits lit
  | EmptyString => None
  end.

Definition int_within (lo hi : Z) (old : Z) (j : json) : option Z :=
  match j with
  | JNull => Some old
  | JNum lit => n ← integer_literal lit; if in_range lo hi n then Some n else None
  | _ => None
  end.

(** [uint64]: a member with a sign is refused. *)
Record uint64 : Type := U64 { u64 : Z }.

Definition uint_within (hi : Z) (old : uint64) (j : json) : option uint64 :=
  match j with
  | JNull => Some old
  | JNum lit => n ← unsigned_digits lit; if in_range 0 hi n then Some (U64 n) else None
  | _ => None
  end.

#[global] Instance go_string : GoValue string := {|
  go_zero := "";
  go_into _ old j := match j with JNull => Some old | JStr s => Some s | _ => None end |}.

#[global] Instance go_bool : GoValue bool := {|
  go_zero := false;
  go_into _ old j := match j with JNull => Some old | JBool b => Some b | _ => None end |}.

(** [int] and [int64]. *)
#[global] Instance go_int : GoValue Z := {|
  go_zero := 0%Z;
  go_into _ old j := int_within min_int64 max_int64 old j |}.

#[global] Instance go_uint64 : GoValue uint64 := {|
  go_zero := U64 0;
  go_into _ old j := uint_within (2 ^ 64 - 1) old j |}.

(** A pointer: [null] sets it to nil, another value is decoded into what it
    points to. *)
#[global] Instance go_pointer `{GoValue A} : GoValue (option A) := {|
  go_zero := None;
  go_into strict old j :=
    match j with
    | JNull => Some None
    | _ => a ← go_into strict (default go_zero old) j; Some (Some a)
    end |}.

Fixpoint list_into `{GoValue A} (strict : bool) (old : list A) (l : list json) : option (list A) :=
  match l with
  | [] => Some []
  | j :: l' =>
      a ← go_into strict (default go_zero (head old)) j;
      k ← list_into strict (tail old) l'; Some (a :: k)
  end.

#[global] Instance go_slice `{GoValue A} : GoValue (list A) := {|
  go_zero := [];
  go_into strict old j :=
    match j with
    | JNull => Some []
    | JArr l => list_into strict old l
    | _ => None
    end |}.

#[global] Instance go_map `{GoValue A} : GoValue (gmap string A) := {|
  go_zero := ∅;
  go_into strict old j :=
    match j with
    | JNull => Some ∅
    | JObj ms =>
        fold_left (fun acc m => mp ← acc; a ← go_into strict go_zero m.2; Some (<[m.1 := a]> mp))
          ms (Some old)
    | _ => None
    end |}.

(** [json.RawMessage]. *)
#[global] Instance go_raw : GoValue json := {| go_zero := JNull; go_into _ _ j := Some j |}.

(** [json.Unmarshal(raw, &v)] of a fresh [v]. *)
Definition unmarshal A `{GoValue A} (raw : string) : option A :=
  j ← parse_document raw; go_into false go_zero j.

(** [json.Unmarshal] of a raw message already known to be one value. *)
Definition unmarshal_value A `{GoValue A} (j : json) : option A := go_into false go_zero j.

(* ------------------------------------------------------------------ *)
(** ** Generic documents                                               *)
(* ------------------------------------------------------------------ *)

(** A number decoded into an [any] becomes a [float64]; the literal is refused
    when it rounds beyond the largest finite one. *)
Fixpoint float_parts (phase : Z) (m f e : Z) (neg : bool) (s : string) : Z * Z :=
  match s with
  | EmptyString => (m, (if neg then - e else e) - f)%Z
  | String a s' =>
      let z := zbyte a in
      if (z =? 46)%Z then float_parts 1 m f e neg s'
      else if (z =? 101)%Z || (z =? 69)%Z then float_parts 2 m f e neg s'
      else match digit_of a with
           | Some d =>
               if (phase =? 2)%Z then float_parts phase m f (e * 10 + d) neg s'
               else float_parts phase (m * 10 + d) (if (phase =? 1)%Z then f + 1 else f)%Z e neg s'
           | None => float_parts phase m f e (if (phase =? 2)%Z && (z =? 45)%Z then true else neg) s'
           end
  end.

Definition float_limit : Z := (2 ^ 1024 - 2 ^ 970)%Z.

Definition float_literal_ok (lit : string) : bool :=
  let '(m, x) := float_parts 0 0 0 0 false lit in
  let d := (slen (itoa m) + x)%Z in
  if (m =? 0)%Z || (d <? 309)%Z then true
  else if (310 <? d)%Z then false
  else (if (0 <=? x)%Z then m * 10 ^ x <? float_limit else m <? float_limit * 10 ^ (- x))%Z.

Fixpoint floats_ok (j : json) : bool :=
  match j with
  | JNum lit => float_literal_ok lit
  | JArr l => forallb floats_ok l
  | JObj ms => forallb (fun m : string * json => floats_ok m.2) ms
  | _ => true
  end.

(** The value a map has under a key after its object was decoded: the last
    member with that key. *)
Definition map_member (ms : list (string * json)) (k : string) : option json :=
  snd <$> last (List.filter (fun m : string * json => streq m.1 k) ms).

(* ------------------------------------------------------------------ *)
(** ** Texts cut short                                                 *)
(* ------------------------------------------------------------------ *)

(** A document that is an object is not a proper prefix of another one: what
    remains of a longer valid text after it is white space. *)
Module JsonPrefix.

(** The four bytes JSON treats as white space. *)
Definition is_json_space (a : ascii) : bool :=
  let z := zbyte a in (z =? 32)%Z || (z =? 9)%Z || (z =? 13)%Z || (z =? 10)%Z.

Definition blank (s : string) : Prop := Forall (fun a => is_json_space a = true) (bytes s).

(* ------------------------------------------------------------------ *)
(** ** The scanner stopped in the middle of a text                     *)
(* ------------------------------------------------------------------ *)

Fixpoint lex_run (m : lmode) (s : string) : list token * option lmode :=
  match s with
  | EmptyString => ([], Some m)
  | String a s' =>
      match lex_step m a with
      | (ts, Some m') => let '(ts', r) := lex_run m' s' in (ts ++ ts', r)
      | (ts, None) => (ts, None)
      end
  end.

Lemma lex_app m p q :
  lex m (p +:+ q) =
  match lex_run m p with
  | (ts, Some m') => ts ++ lex m' q
  | (ts, None) => ts ++ [TBad]
  end.
Proof.
  revert m. induction p as [|a p IH]; intros m; [done|].
  rewrite string_cons_app. simpl. destruct (lex_step m a) as [ts [m'|]]; [|done].
  rewrite IH. destruct (lex_run m' p) as [ts' [m''|]]; by rewrite app_assoc.
Qed.

Lemma lex_run_lex m p :
  lex m p = match lex_run m p with (ts, Some m') => ts ++ lex_end m' | (ts, None) => ts ++ [TBad] end.
Proof. by rewrite <- (string_app_nil_r p), lex_app, string_app_nil_r. Qed.

(** Outside the start mode a scan yields a token at least. *)
Lemma lex_busy m s : m <> LStart -> lex m s <> [].
Proof.
  revert m. induction s as [|a s IH]; intros m Hm; simpl.
  - destruct m; try done. simpl. by case_match.
  - destruct m as [| acc | acc | acc n | acc p | rest tok]; [done|..]; simpl;
      repeat case_match; simplify_eq; try done; by apply IH.
Qed.

Lemma start_step_silent a m : start_step a = ([], Some m) -> m = LStart -> is_json_space a = true.
Proof.
  unfold start_step, is_json_space. intros H ->.
  destruct (zbyte a =? 32)%Z, (zbyte a =? 9)%Z, (zbyte a =? 10)%Z, (zbyte a =? 13)%Z; try done.
  simpl in *. repeat case_match; simplify_eq.
Qed.

Lemma lex_silent s : lex LStart s = [] -> blank s.
Proof.
  induction s as [|a s IH]; intros H; [constructor|]. simpl in H.
  destruct (start_step a) as [ts [m|]] eqn:Hs; [|by destruct ts].
  destruct ts; [|done]. simpl in H.
  assert (m = LStart) as -> by (destruct m; [done|..]; by apply lex_busy in H).
  constructor; [by eapply start_step_silent | by apply IH].
Qed.

(** A number is closed by its own token. *)
Lemma lex_number acc p s : exists t ts, lex (LNum acc p) s = t :: ts /\ t <> TLBrace.
Proof.
  revert acc p. induction s as [|a s IH]; intros acc p; simpl.
  - case_match; eauto.
  - destruct (num_step p (zbyte a)); [apply IH|].
    destruct (num_accept p); [|simpl; eauto].
    destruct (start_step a) as [ts [m|]]; simpl; eauto.
Qed.

(* ------------------------------------------------------------------ *)
(** ** The parser at the end of a text                                 *)
(* ------------------------------------------------------------------ *)

Lemma complete_more v st st' : complete v st = PMore st' -> st' <> [].
Proof. unfold complete. repeat case_match; intros; by simplify_eq. Qed.

Lemma parse_step_more st t st' : parse_step st t = PMore st' -> st' <> [].
Proof.
  unfold parse_step, open_frame, scalar. intros H.
  repeat case_match; simplify_eq; try done; by eapply complete_more.
Qed.

Lemma scalar_done v st w : scalar v st = PDone w -> st = [].
Proof. unfold scalar, complete. repeat case_match; by intros; simplify_eq. Qed.

(** The last token of a value, and the frames it closes. *)
Lemma parse_last st ts v :
  parse st ts = Some (v, []) ->
  exists ts' t st', ts = ts' ++ [t] /\ parse_step st' t = PDone v
    /\ (ts' = [] /\ st' = st \/ st' <> []).
Proof.
  revert st. induction ts as [|t ts IH]; intros st; [done|]. simpl.
  destruct (parse_step st t) as [|st1|w] eqn:Hs; [done| |].
  - intros (ts' & t' & st' & -> & Hd & Hst)%IH. exists (t :: ts'), t', st'.
    split_and!; [done..|]. right. destruct Hst as [[-> ->]|]; [by eapply parse_step_more | done].
  - intros [= -> ->]. exists [], t, st. auto.
Qed.

Lemma parse_app st ts k v : parse st ts = Some (v, []) -> parse st (ts ++ k) = Some (v, k).
Proof.
  revert st. induction ts as [|t ts IH]; intros st; [done|]. simpl.
  destruct (parse_step st t) as [|st1|w]; [done | apply IH | by intros [= -> ->]].
Qed.

(** The outermost frame tells objects from arrays. *)
Definition frame_is_object (f : frame) : bool := match f with FObj _ _ => true | FArr _ _ => false end.
Definition outer (st : list frame) : option bool := frame_is_object <$> last st.
Definition is_object (v : json) : bool := match v with JObj _ => true | _ => false end.

Definition same_outer (st : list frame) (r : pres) : Prop :=
  match r with
  | PErr => True
  | PMore st' => outer st' = outer st
  | PDone v => outer st = Some (is_object v)
  end.

Lemma outer_cons f g st : frame_is_object f = frame_is_object g -> outer (f :: st) = outer (g :: st).
Proof. unfold outer. rewrite !last_cons. destruct (last st); simpl; congruence. Qed.

Lemma outer_drop f g st : outer (f :: g :: st) = outer (g :: st).
Proof. unfold outer. rewrite (last_cons f), (last_cons g). by destruct (last st). Qed.

Lemma complete_outer f v st :
  frame_is_object f = is_object v -> same_outer (f :: st) (complete v st).
Proof.
  intros Hf. destruct st as [|g st]; simpl; [by unfold outer; simpl; rewrite Hf|].
  assert (Hg : outer (f :: g :: st) = outer (g :: st)) by apply outer_drop.
  destruct g as [q es | [] es]; simpl; try done; rewrite Hg; by apply outer_cons.
Qed.

Lemma scalar_outer f v st : same_outer (f :: st) (scalar v (f :: st)).
Proof.
  unfold scalar. destruct (value_allowed (f :: st)); [|done].
  destruct f as [q es | [] es]; simpl; try done; by apply outer_cons.
Qed.

Lemma open_outer f g st : same_outer (f :: st) (open_frame g (f :: st)).
Proof.
  unfold open_frame. destruct (_ && _)%bool; [|done]. apply outer_drop.
Qed.

Lemma parse_step_outer f st t : same_outer (f :: st) (parse_step (f :: st) t).
Proof.
  destruct t; simpl; try done; try apply open_outer; try apply scalar_outer;
    destruct f as [[] es | [] es]; try done; try apply scalar_outer;
    try (by apply complete_outer); by apply outer_cons.
Qed.

Lemma parse_outer f st ts v k :
  parse (f :: st) ts = Some (v, k) -> outer (f :: st) = Some (is_object v).
Proof.
  revert f st. induction ts as [|t ts IH]; intros f st; [done|]. simpl.
  pose proof (parse_step_outer f st t) as Ho.
  destruct (parse_step (f :: st) t) as [|st1|w] eqn:Hs; [done| |].
  - destruct st1 as [|g st1]; [by apply parse_step_more in Hs|].
    intros H%IH. simpl in Ho. congruence.
  - intros [= -> ->]. done.
Qed.

Lemma object_first_token raw ms :
  parse_document raw = Some (JObj ms) -> head (tokens raw) = Some TLBrace.
Proof.
  unfold parse_document. destruct (tokens raw) as [|t ts]; [done|]. intros H.
  destruct (parse [] (t :: ts)) as [[v [|k ks]]|] eqn:Hp; simplify_eq.
  destruct t; simpl in Hp; try done.
  by apply parse_outer in Hp.
Qed.

(* ------------------------------------------------------------------ *)
(** ** No object is a proper prefix                                    *)
(* ------------------------------------------------------------------ *)

Lemma parse_document_parse raw v : parse_document raw = Some v <-> parse [] (tokens raw) = Some (v, []).
Proof.
  unfold parse_document. destruct (parse [] (tokens raw)) as [[w [|k ks]]|]; naive_solver.
Qed.

(** The scanner is between tokens at the end of a value that starts with a brace. *)
Lemma brace_run p v ts r :
  lex_run LStart p = (ts, r) -> head (tokens p) = Some TLBrace ->
  parse [] (tokens p) = Some (v, []) -> r = Some LStart.
Proof.
  unfold tokens. rewrite lex_run_lex. intros -> Hh Hp.
  assert (Hlast : forall t, parse [] (ts ++ [t]) = Some (v, []) -> head (ts ++ [t]) = Some TLBrace ->
                   t <> TBad /\ forall s, t <> TNum s).
  { clear. intros t Hp Hh. apply parse_last in Hp as (ts' & t' & st & Heq & Hs & Hst).
    apply app_inj_2 in Heq as [<- [= <-]]; [|done].
    split; [by intros ->|]. intros s ->. apply scalar_done in Hs as ->.
    destruct Hst as [[-> _]|]; done. }
  destruct r as [m|].
  - destruct m; simpl in *; try (by apply Hlast in Hp as []); [done|].
    destruct (num_accept p0); by apply Hlast in Hp as [? Hn]; try (by destruct (Hn _ eq_refl)).
  - by apply Hlast in Hp as [].
Qed.

Lemma object_prefix p q v ms :
  parse_document (p +:+ q) = Some (JObj ms) -> parse_document p = Some v -> blank q.
Proof.
  intros Hpq Hp. pose proof (object_first_token _ _ Hpq) as Hh.
  rewrite !parse_document_parse in *. unfold tokens in *. rewrite lex_app in Hpq, Hh.
  destruct (lex_run LStart p) as [ts r] eqn:Hr.
  assert (head (tokens p) = Some TLBrace /\ r <> None) as [Hhp Hrn].
  { unfold tokens. rewrite lex_run_lex, Hr in Hp |- *.
    destruct r as [m|]; [|apply parse_last in Hp as (ts' & t & st & Heq & Hs & _);
      apply app_inj_2 in Heq as [_ [= <-]]; done].
    destruct ts as [|t ts]; [|done]. exfalso. simpl in *.
    destruct m as [| | | | acc ph | ]; try done.
    destruct (lex_number acc ph q) as (t & ts & Heq & Hne). rewrite Heq in Hh. by simplify_eq/=. }
  assert (r = Some LStart) as -> by by eapply brace_run.
  rewrite lex_run_lex, Hr in Hp. simpl in Hp. rewrite app_nil_r in Hp.
  apply (parse_app _ _ (lex LStart q)) in Hp. rewrite Hp in Hpq. simplify_eq.
  by apply lex_silent.
Qed.

End JsonPrefix.
