(* ===== verification/World.v ===== *)
(** * The process, its host and its peers

    What the program asks of the operating system and of the network is an
    [op]; a [World] answers it, and may answer differently after different
    histories.  A computation [IO A] maps a world and the history of the
    operations already performed to its value and to the operations it
    performs, in order.  [wp] is the weakest precondition of a computation
    over its value and its trace. *)
From S2P Require Import Prelude GoStrings.

(* ------------------------------------------------------------------ *)
(** ** Operations and their answers                                    *)
(* ------------------------------------------------------------------ *)

(** An error of package [os]: its text and the two sentinels the program
    looks for with [errors.Is]. *)
Record os_error : Type := OsError {
  os_text : string;
  os_not_exist : bool;
  os_permission : bool
}.

(** What [exec.Cmd.Run] returns.  [RunCanceled] is a process that exited
    with status 0 once the context was done and [cmd.Cancel] had returned nil:
    [Wait] then reports the error of the context. *)
Inductive run_error : Type :=
  | RunOk
  | RunWaitDelay
  | RunExit (code : Z)
  | RunCanceled (text : string)
  | RunNotStarted (e : os_error).

Record exec_report : Type := ExecReport {
  er_stdout : string;
  er_stderr : string;
  er_err : run_error;
  er_ctx_done : bool
}.

(** [fs.FileMode], a 32-bit word. *)
Record file_info : Type := FileInfo { fi_mode : Z }.

(** [tls.Config]: the PEM text of the CA bundle and the paths of the client
    certificate and key it was built from. *)
Record tls_config : Type := TLSConfig {
  tc_InsecureSkipVerify : bool;
  tc_RootCAs : option string;
  tc_Certificates : option (string * string)
}.

(** A request, as [http.NewRequest] and [Client.Do] get it; without a
    configuration of its own the transport is the default one. *)
Record http_request : Type := HttpRequest {
  hq_method : string;
  hq_url : string;
  hq_headers : list (string * string);
  hq_body : option string;
  hq_tls : option tls_config
}.

(** The body of an answer is read to its end or fails part way. *)
Record http_response : Type := HttpResponse {
  hr_status : Z;
  hr_headers : list (string * string);
  hr_body : string;
  hr_body_error : option string
}.

(** What package [netlink] tells of the host.  A hardware address is a slice of
    a message: its bytes and those behind it, up to the capacity.  [ln_Mode] is
    the mode of a bond with its text; a network ([net.IPNet]) is given by its
    text, an address by its bytes. *)
Record hardware_addr : Type := HardwareAddr { ha_bytes : list Z; ha_spare : list Z }.

Inductive link_kind : Type :=
  | LinkBridge
  | LinkBond (mode : Z) (text : string)
  | LinkVxlan (id vtep : Z) (src : list Z)
  | LinkOther.

Record link : Type := Link {
  ln_Name : string;
  ln_Index : Z;
  ln_HardwareAddr : hardware_addr;
  ln_MTU : Z;
  ln_OperState : Z;
  ln_MasterIndex : Z;
  ln_Kind : link_kind
}.

Record neigh : Type := Neigh {
  ng_State : Z;
  ng_Family : Z;
  ng_HardwareAddr : hardware_addr;
  ng_IP : list Z;
  ng_Vlan : Z;
  ng_MasterIndex : Z
}.

Record route : Type := Route {
  rt_Dst : option string;
  rt_Gw : list Z;
  rt_LinkIndex : Z
}.

(** [OpNow] is the local time as [2006-01-02_15:04:05]; [OpScan] opens a file
    and reads it to its end or to an error; [OpOpen] opens a file to write,
    made if it is not there, at its end or truncated.  [OpReadLine] is a line of
    the standard input with its newline, [OpReadPassword] one that is not shown;
    [OpReadStdin] and [OpReadPrefix] read to an end or to a limit, the latter of
    a file that may not open. *)
Inductive op : Type :=
  | OpSpawn (argv : list string) (stdin : option string)
  | OpRandom (n : nat)
  | OpLstat (path : string)
  | OpReadFile (path : string)
  | OpStdStat (fd : Z)
  | OpStdout (s : string)
  | OpStderr (s : string)
  | OpHttp (req : http_request)
  | OpParsePEM (pem : string)
  | OpLoadKeyPair (cert key : string)
  | OpUser
  | OpHostname
  | OpCreateTemp (dir pattern : string)
  | OpChmod (name : string) (mode : Z)
  | OpWrite (name : string) (data : string)
  | OpSync (name : string)
  | OpClose (name : string)
  | OpRename (old new : string)
  | OpRemove (name : string)
  | OpOpenDir (dir : string)
  | OpNow
  | OpStat (path : string)
  | OpScan (path : string)
  | OpOpen (path : string) (append : bool) (perm : Z)
  | OpMkdir (path : string) (parents : bool)
  | OpRemoveAll (path : string)
  | OpLinkList
  | OpLinkByIndex (index : Z)
  | OpAddrList (index : Z)
  | OpNeighList (index family : Z)
  | OpRouteList
  | OpReadLine
  | OpReadPassword
  | OpReadStdin (limit : Z)
  | OpReadPrefix (path : string) (limit : Z).

Definition answer (o : op) : Type :=
  match o with
  | OpSpawn _ _ => exec_report
  | OpRandom _ => option string
  | OpLstat _ => result os_error file_info
  | OpReadFile _ => result os_error string
  | OpStdStat _ => result os_error file_info
  | OpStdout _ | OpStderr _ => option string
  | OpHttp _ => result string http_response
  | OpParsePEM _ => bool
  | OpLoadKeyPair _ _ => option string
  | OpUser | OpHostname => result string string
  | OpCreateTemp _ _ => result string string
  | OpChmod _ _ | OpWrite _ _ | OpSync _ | OpClose _ | OpRename _ _ | OpRemove _ => option string
  | OpOpenDir _ => bool
  | OpNow => string
  | OpStat _ => result os_error unit
  | OpScan _ => result string (string * option string)
  | OpOpen _ _ _ | OpMkdir _ _ | OpRemoveAll _ => option string
  | OpLinkList => result string (list link)
  | OpLinkByIndex _ => result string link
  | OpAddrList _ => result string (list string)
  | OpNeighList _ _ => result string (list neigh)
  | OpRouteList => result string (list route)
  | OpReadLine | OpReadPassword | OpReadStdin _ => result string string
  | OpReadPrefix _ _ => result string (result string string)
  end.

Record event : Type := Ev { ev_op : op; ev_answer : answer ev_op }.
Notation trace := (list event).
Definition World : Type := trace -> forall o : op, answer o.

(* ------------------------------------------------------------------ *)
(** ** Computations                                                    *)
(* ------------------------------------------------------------------ *)

Definition IO (A : Type) : Type := World -> trace -> A * trace.

#[global] Instance io_ret : MRet IO := fun A a _ _ => (a, []).
#[global] Instance io_bind : MBind IO := fun A B f m w h =>
  let '(a, t1) := m w h in
  let '(b, t2) := f a w (h ++ t1) in
  (b, t1 ++ t2).

Definition perform (o : op) : IO (answer o) := fun w h => let a := w h o in (a, [Ev o a]).

Definition spawn (argv : list string) (stdin : option string) : IO exec_report :=
  perform (OpSpawn argv stdin).
Definition random (n : nat) : IO (option string) := perform (OpRandom n).
Definition lstat (path : string) : IO (result os_error file_info) := perform (OpLstat path).
Definition read_file (path : string) : IO (result os_error string) := perform (OpReadFile path).
Definition std_stat (fd : Z) : IO (result os_error file_info) := perform (OpStdStat fd).
Definition write_out (s : string) : IO (option string) := perform (OpStdout s).
Definition write_err (s : string) : IO (option string) := perform (OpStderr s).
Definition http_do (req : http_request) : IO (result string http_response) :=
  perform (OpHttp req).

(** A call that returns an error ends the caller with that error. *)
Definition io_try {E A B} (m : IO (result E A)) (f : A -> IO (result E B)) : IO (result E B) :=
  r ← m; match r with Ok a => f a | Err e => mret (Err e) end.

Notation "'let*' x ':=' m 'in' k" := (io_try m (fun x => k))
  (at level 100, x binder, m at level 99, k at level 200, right associativity) : go_scope.

(** A pure step in a computation that may fail. *)
Definition lift {A} (r : A) : IO A := mret r.

(** A world in which every operation fails or says nothing. *)
Definition silent_world : World := fun _ o =>
  match o return answer o with
  | OpSpawn _ _ => ExecReport "" "" (RunNotStarted (OsError "no such file" true false)) false
  | OpRandom _ => None
  | OpLstat _ => Err (OsError "no such file" true false)
  | OpReadFile _ => Err (OsError "no such file" true false)
  | OpStdStat _ => Err (OsError "bad file descriptor" false false)
  | OpStdout _ | OpStderr _ => None
  | OpHttp _ => Err "connection refused"
  | OpParsePEM _ => false
  | OpLoadKeyPair _ _ => Some "no such file"
  | OpUser | OpHostname => Err "unknown"
  | OpCreateTemp _ _ => Err "permission denied"
  | OpChmod _ _ | OpWrite _ _ | OpSync _ | OpClose _ | OpRename _ _ | OpRemove _ => None
  | OpOpenDir _ => false
  | OpNow => "2006-01-02_15:04:05"
  | OpStat _ => Err (OsError "no such file" true false)
  | OpScan _ => Err "no such file"
  | OpOpen _ _ _ | OpMkdir _ _ => Some "permission denied"
  | OpRemoveAll _ => None
  | OpLinkList | OpAddrList _ | OpNeighList _ _ => Err "operation not permitted"
  | OpLinkByIndex _ => Err "Link not found"
  | OpRouteList => Err "operation not permitted"
  | OpReadLine | OpReadPassword | OpReadStdin _ => Err "EOF"
  | OpReadPrefix _ _ => Err "no such file"
  end.

Definition value_of {A} (m : IO A) (w : World) : A := (m w []).1.
Definition trace_of {A} (m : IO A) (w : World) : trace := (m w []).2.
Definition ops_of {A} (m : IO A) (w : World) : list op := ev_op <$> trace_of m w.

(** How the combinators run. *)
Lemma io_ret_run {A} (a : A) w h : mret (M := IO) a w h = (a, []).
Proof. done. Qed.

Lemma io_bind_run {A B} (m : IO A) (f : A -> IO B) w h :
  mbind f m w h =
  let '(a, t1) := m w h in let '(b, t2) := f a w (h ++ t1) in (b, t1 ++ t2).
Proof. done. Qed.

(** A computation that ends with a pure step. *)
Lemma io_map_run {A B} (m : IO A) (f : A -> B) w h :
  mbind (M := IO) (fun a => mret (f a)) m w h = (let '(a, t) := m w h in (f a, t)).
Proof. rewrite io_bind_run. destruct (m w h). by rewrite io_ret_run, app_nil_r. Qed.

Lemma io_try_run {E A B} (m : IO (result E A)) (f : A -> IO (result E B)) w h :
  io_try m f w h =
  let '(r, t1) := m w h in
  match r with
  | Ok a => let '(b, t2) := f a w (h ++ t1) in (b, t1 ++ t2)
  | Err e => (Err e, t1)
  end.
Proof.
  unfold io_try. rewrite io_bind_run. destruct (m w h) as [[a|e] t]; [done|].
  by rewrite io_ret_run, app_nil_r.
Qed.

Lemma perform_run o w h : perform o w h = (w h o, [Ev o (w h o)]).
Proof. done. Qed.

(* ------------------------------------------------------------------ *)
(** ** Weakest preconditions                                           *)
(* ------------------------------------------------------------------ *)

Definition wp {A} (m : IO A) (w : World) (h : trace) (Q : A -> trace -> Prop) : Prop :=
  Q (m w h).1 (m w h).2.
Arguments wp : simpl never.

Lemma wp_ret {A} (a : A) w h (Q : A -> trace -> Prop) : Q a [] -> wp (mret a) w h Q.
Proof. done. Qed.

Lemma wp_bind {A B} (m : IO A) (f : A -> IO B) w h (Q : B -> trace -> Prop) :
  wp m w h (fun a t => wp (f a) w (h ++ t) (fun b t' => Q b (t ++ t'))) ->
  wp (mbind f m) w h Q.
Proof.
  unfold wp, mbind, io_bind. destruct (m w h) as [a t]. simpl.
  by destruct (f a w (h ++ t)).
Qed.

(** A computation made of two, then a third. *)
Lemma wp_assoc {A B C} (m : IO A) (f : A -> IO B) (k : B -> IO C) w h (Q : C -> trace -> Prop) :
  wp (a ← m; b ← f a; k b) w h Q -> wp (b ← mbind f m; k b) w h Q.
Proof.
  unfold wp. rewrite !io_bind_run. destruct (m w h) as [a t]. rewrite io_bind_run.
  destruct (f a w (h ++ t)) as [b t1]. rewrite app_assoc. destruct (k b w _) as [c t2].
  by rewrite app_assoc.
Qed.

Lemma wp_mono {A} (m : IO A) w h (P Q : A -> trace -> Prop) :
  wp m w h P -> (forall a t, P a t -> Q a t) -> wp m w h Q.
Proof. unfold wp. auto. Qed.

Lemma wp_perform o w h (Q : answer o -> trace -> Prop) :
  (forall a, w h o = a -> Q a [Ev o a]) -> wp (perform o) w h Q.
Proof. unfold wp, perform. simpl. auto. Qed.

Lemma wp_try {E A B} (m : IO (result E A)) (f : A -> IO (result E B)) w h
    (Q : result E B -> trace -> Prop) :
  wp m w h (fun r t =>
    match r with
    | Ok a => wp (f a) w (h ++ t) (fun b t' => Q b (t ++ t'))
    | Err e => Q (Err e) t
    end) ->
  wp (io_try m f) w h Q.
Proof.
  intros H. apply wp_bind. eapply wp_mono; [exact H|].
  intros [a|e] t Ht; [done|]. apply wp_ret. by rewrite app_nil_r.
Qed.

(** An operation, then the rest of the computation. *)
Lemma wp_ask {B} o (f : answer o -> IO B) w h (Q : B -> trace -> Prop) :
  (forall a, w h o = a -> wp (f a) w (h ++ [Ev o a]) (fun b t => Q b ([Ev o a] ++ t))) ->
  wp (mbind f (perform o)) w h Q.
Proof. intros H. apply wp_bind. by apply H. Qed.

Ltac wp_op :=
  match goal with |- wp (mbind _ (perform ?o)) _ _ _ => apply (wp_ask o) end.

Lemma wp_value {A} (m : IO A) w h (Q : A -> trace -> Prop) :
  wp m w h Q <-> (forall a t, m w h = (a, t) -> Q a t).
Proof. unfold wp. split; [by intros H a t Hm; rewrite Hm in H | destruct (m w h); auto]. Qed.

(** Case analysis on the guard of an early return. *)
Lemma wp_if {A} (b : bool) (m k : IO A) w h Q :
  (b = true -> wp m w h Q) -> (b = false -> wp k w h Q) -> wp (if b then m else k) w h Q.
Proof. destruct b; auto. Qed.

(* ------------------------------------------------------------------ *)
(** ** Traces                                                          *)
(* ------------------------------------------------------------------ *)

(** A property of every operation a computation performs. *)
Definition ops_satisfy (P : op -> Prop) {A} (m : IO A) : Prop :=
  forall w h, Forall (fun e => P (ev_op e)) (m w h).2.

Lemma ops_ret P {A} (a : A) : ops_satisfy P (mret (M := IO) a).
Proof. intros w h. constructor. Qed.

Lemma ops_bind P {A B} (m : IO A) (f : A -> IO B) :
  ops_satisfy P m -> (forall a, ops_satisfy P (f a)) -> ops_satisfy P (mbind f m).
Proof.
  intros Hm Hf w h. unfold mbind, io_bind. specialize (Hm w h).
  destruct (m w h) as [a t]. specialize (Hf a w (h ++ t)).
  destruct (f a w (h ++ t)) as [b t']. by apply Forall_app_2.
Qed.

Lemma ops_try P {E A B} (m : IO (result E A)) (f : A -> IO (result E B)) :
  ops_satisfy P m -> (forall a, ops_satisfy P (f a)) -> ops_satisfy P (io_try m f).
Proof. intros Hm Hf. apply ops_bind; [done|]. intros [a|e]; [done | apply ops_ret]. Qed.

Lemma ops_perform (P : op -> Prop) o : P o -> ops_satisfy P (perform o).
Proof. intros HP w h. by repeat constructor. Qed.

Lemma ops_if P {A} (b : bool) (m k : IO A) :
  (b = true -> ops_satisfy P m) -> (b = false -> ops_satisfy P k) ->
  ops_satisfy P (if b then m else k).
Proof. destruct b; auto. Qed.

Lemma ops_mono (P Q : op -> Prop) {A} (m : IO A) :
  (forall o, P o -> Q o) -> ops_satisfy P m -> ops_satisfy Q m.
Proof. intros HPQ Hm w h. eapply Forall_impl; [apply Hm|]. simpl. auto. Qed.

#[export] Hint Resolve ops_ret : go.

(** A property of the value of a computation in every world. *)
Definition returns {A} (P : A -> Prop) (m : IO A) : Prop := forall w h, P (m w h).1.

Lemma returns_ret {A} (P : A -> Prop) a : P a -> returns P (mret (M := IO) a).
Proof. intros HP w h. exact HP. Qed.

Lemma returns_bind {A B} (P : B -> Prop) (Q : A -> Prop) (m : IO A) (f : A -> IO B) :
  returns Q m -> (forall a, Q a -> returns P (f a)) -> returns P (mbind f m).
Proof.
  intros Hm Hf w h. unfold mbind, io_bind. specialize (Hm w h).
  destruct (m w h) as [a t]. specialize (Hf a Hm w (h ++ t)).
  by destruct (f a w (h ++ t)).
Qed.

Lemma returns_any {A} (m : IO A) : returns (fun _ => True) m.
Proof. done. Qed.

Lemma returns_step {A B} (P : B -> Prop) (m : IO A) (f : A -> IO B) :
  (forall a, returns P (f a)) -> returns P (mbind f m).
Proof. intros Hf. by apply (returns_bind P (fun _ => True)). Qed.

Lemma returns_if {A} (P : A -> Prop) (b : bool) (m k : IO A) :
  (b = true -> returns P m) -> (b = false -> returns P k) -> returns P (if b then m else k).
Proof. destruct b; auto. Qed.

(** Steps through the operations of a computation. *)
Ltac ops_step :=
  match goal with
  | |- ops_satisfy _ (mret _) => apply ops_ret
  | |- ops_satisfy _ (lift _) => apply ops_ret
  | |- ops_satisfy _ (mbind _ _) => apply ops_bind; [|intros ?]
  | |- ops_satisfy _ (io_try _ _) => apply ops_try; [|intros ?]
  | |- ops_satisfy _ (if _ then _ else _) => apply ops_if; intros ?
  | |- ops_satisfy _ (match ?x with _ => _ end) => destruct x eqn:?
  end.
