(* ===== verification/Errors.v ===== *)
(** * The error values of the program

    The typed errors of [pkg/cli/exitcode], [pkg/api] and [pkg/backend], the
    chains that [fmt.Errorf] builds from them with [%w], their texts
    ([Error()]), and what [errors.As] finds in them ([pkg/api/error.go],
    [pkg/api/lifecyclereport.go] and the [Error]/[Unwrap] methods).

    What Go leaves open is a parameter, [GoLib]: the wording of the errors of
    the standard library, the order in which a map is visited, and which IP
    literals in brackets [url.Parse] takes as a host (that changed between
    releases). *)
From S2P Require Import Prelude GoStrings Json.

(** [json_text call input] and [time_text input] are error texts; a [range]
    over a map visits every entry once, in any order. *)
Class GoLib := {
  json_text : string -> string -> string;
  time_text : string -> string;
  ip_literal : string -> bool;
  range_order : forall A : Type, list (string * A) -> list (string * A);
  range_perm : forall (A : Type) (l : list (string * A)), range_order A l ≡ₚ l
}.
Arguments range_order {_} {A} _.
Arguments range_perm {_} {A} _.

(** A concrete choice, for evaluation. *)
Definition plain_text : GoLib :=
  {| json_text call _ := call; time_text _ := "time"; ip_literal _ := true;
     range_order _ l := l; range_perm _ _ := reflexivity _ |}.

(** Another one: it names the input and visits maps from the other end. *)
Program Definition reversed_text : GoLib :=
  {| json_text call input := call +:+ input; time_text input := input; ip_literal _ := true;
     range_order _ l := rev l |}.
Next Obligation. intros A l. symmetry. apply Permutation_rev. Qed.

(* ------------------------------------------------------------------ *)
(** ** Typed errors                                                    *)
(* ------------------------------------------------------------------ *)

Record CLIError : Type := {
  ce_Code : Z;
  ce_Message : string;
  ce_Origin : string;
  ce_HTTPStatus : Z;
  ce_ComponentCode : string;
  ce_ShowHelp : bool
}.

Record APIError : Type := {
  ae_StatusCode : Z;
  ae_Message : string;
  ae_Body : string
}.

Record LifecycleError : Type := {
  le_Reason : string;
  le_Message : string;
  le_HTTPStatus : Z;
  le_Body : string
}.

Record BackendContractError : Type := {
  bc_SchemaVersion : string;
  bc_Exit : Z;
  bc_Code : string;
  bc_ComponentCode : string;
  bc_Retryable : bool;
  bc_Message : string
}.

Record PayloadTuple : Type := {
  pt_ContractMajor : Z;
  pt_SchemaVersion : string;
  pt_Command : string
}.

#[global] Instance payload_tuple_eq_dec : EqDecision PayloadTuple.
Proof. solve_decision. Defined.

Record PayloadValidationError : Type := {
  pe_Tuple : PayloadTuple;
  pe_Command : string;
  pe_Reason : string;
  pe_ObservedBackendExit : option Z;
  pe_CorrelationID : string;
  pe_OperationID : string
}.

(** An [error].  [EText] is the result of [errors.New] and of a [fmt.Errorf]
    without [%w]; [EWrap] that of one with it, under its full text. *)
Inductive goerror : Type :=
  | ECLI (e : CLIError)
  | EAPI (e : APIError)
  | ELifecycle (e : LifecycleError)
  | EContract (e : BackendContractError)
  | EPayload (e : PayloadValidationError)
  | EText (msg : string)
  | EWrap (msg : string) (inner : goerror).

(** The rows of the taxonomy as numbers, and the label of a row. *)
Definition OK : Z := 0.
Definition InvalidArgument : Z := 2.
Definition Auth : Z := 3.
Definition Precondition : Z := 4.
Definition Unavailable : Z := 5.
Definition ContractMismatch : Z := 6.
Definition Failed : Z := 7.
Definition Partial : Z := 8.
Definition FeatureUnavailable : Z := 9.

(** A [CLIError] literal that leaves [HTTPStatus] and [ShowHelp] zero. *)
Definition cli_error (code : Z) (message origin component : string) : CLIError :=
  {| ce_Code := code; ce_Message := message; ce_Origin := origin; ce_HTTPStatus := 0;
     ce_ComponentCode := component; ce_ShowHelp := false |}.

Definition lifecycle_error (reason message : string) : LifecycleError :=
  {| le_Reason := reason; le_Message := message; le_HTTPStatus := 0; le_Body := "" |}.

(* ------------------------------------------------------------------ *)
(** ** [Error()]                                                       *)
(* ------------------------------------------------------------------ *)

Definition api_error_text (e : APIError) : string :=
  if negb (is_empty (ae_Message e)) then
    sprintf ["server returned "; itoa (ae_StatusCode e); ": "; ae_Message e]
  else if negb (is_empty (ae_Body e)) then
    sprintf ["server returned "; itoa (ae_StatusCode e); ": "; ae_Body e]
  else sprintf ["server returned "; itoa (ae_StatusCode e)].

Definition Verbatim (e : APIError) : string :=
  if is_empty (ae_Body e) then sprintf ["server returned "; itoa (ae_StatusCode e)]
  else sprintf ["server returned "; itoa (ae_StatusCode e); ": "; ae_Body e].

Definition lifecycle_error_text (e : LifecycleError) : string :=
  if negb (le_HTTPStatus e =? 0)%Z then
    sprintf [le_Message e; " ("; le_Reason e; ", HTTP "; itoa (le_HTTPStatus e); ")"]
  else sprintf [le_Message e; " ("; le_Reason e; ")"].

Definition contract_error_text (e : BackendContractError) : string :=
  if negb (is_empty (bc_Message e)) then bc_Message e
  else sprintf ["backend handshake failed: "; bc_ComponentCode e].

Definition payload_error_text (e : PayloadValidationError) : string :=
  sprintf ["backend payload for "; quote (pe_Command e); " is invalid: "; pe_Reason e].

Definition error_text (e : goerror) : string :=
  match e with
  | ECLI e => ce_Message e
  | EAPI e => api_error_text e
  | ELifecycle e => lifecycle_error_text e
  | EContract e => contract_error_text e
  | EPayload e => payload_error_text e
  | EText msg | EWrap msg _ => msg
  end.

(* ------------------------------------------------------------------ *)
(** ** [Unwrap()] and [errors.As]                                      *)
(* ------------------------------------------------------------------ *)

Definition CodeBackendPayloadInvalid : string := "BACKEND_PAYLOAD_INVALID".

Definition contract_error_unwrap (e : BackendContractError) : CLIError :=
  cli_error (bc_Exit e) (contract_error_text e) "backend" (bc_ComponentCode e).

Definition payload_error_unwrap (e : PayloadValidationError) : CLIError :=
  cli_error ContractMismatch (payload_error_text e) "backend" CodeBackendPayloadInvalid.

Fixpoint as_cli (e : goerror) : option CLIError :=
  match e with
  | ECLI ce => Some ce
  | EContract be => Some (contract_error_unwrap be)
  | EPayload pe => Some (payload_error_unwrap pe)
  | EWrap _ inner => as_cli inner
  | EAPI _ | ELifecycle _ | EText _ => None
  end.

Fixpoint as_lifecycle (e : goerror) : option LifecycleError :=
  match e with
  | ELifecycle le => Some le
  | EWrap _ inner => as_lifecycle inner
  | _ => None
  end.

Fixpoint as_contract (e : goerror) : option BackendContractError :=
  match e with
  | EContract be => Some be
  | EWrap _ inner => as_contract inner
  | _ => None
  end.

Fixpoint as_payload (e : goerror) : option PayloadValidationError :=
  match e with
  | EPayload pe => Some pe
  | EWrap _ inner => as_payload inner
  | _ => None
  end.

(** [PayloadValidationError.WithExecutionEvidence]. *)
Definition WithExecutionEvidence (e : PayloadValidationError) (backendExit : Z)
    (correlationID operationID : string) : PayloadValidationError :=
  {| pe_Tuple := pe_Tuple e; pe_Command := pe_Command e; pe_Reason := pe_Reason e;
     pe_ObservedBackendExit := Some backendExit;
     pe_CorrelationID := correlationID; pe_OperationID := operationID |}.

(* ------------------------------------------------------------------ *)
(** ** Answers of the gateway that are not 2xx                         *)
(* ------------------------------------------------------------------ *)

Definition errorMessageKeys : list string :=
  ["error"; "message"; "msg"; "result"; "Error"; "Message"].

Definition member_message (ms : list (string * json)) (k : string) : option string :=
  match map_member ms k with
  | Some (JStr s) => let s := trim_space s in if is_empty s then None else Some s
  | _ => None
  end.

Definition first_some {A B} (f : A -> option B) (l : list A) : option B :=
  fold_right (fun x acc => match f x with Some y => Some y | None => acc end) None l.

Definition ParseErrorMessage (body : string) : string :=
  match parse_document body with
  | Some (JObj ms) =>
      if floats_ok (JObj ms) then default (trim_space body) (first_some (member_message ms) errorMessageKeys)
      else trim_space body
  | _ => trim_space body
  end.

Definition NewAPIError (statusCode : Z) (body : string) : APIError :=
  {| ae_StatusCode := statusCode; ae_Message := ParseErrorMessage body;
     ae_Body := trim_space body |}.

Definition ReasonOK : string := "ok".
Definition ReasonInvalidArguments : string := "invalid-arguments".
Definition ReasonFileRead : string := "file-read-failed".
Definition ReasonFileWrite : string := "file-write-failed".
Definition ReasonInvalidJSON : string := "invalid-json".
Definition ReasonRequestFailed : string := "request-failed".
Definition ReasonUnauthorized : string := "unauthorized".
Definition ReasonBusy : string := "operation-in-progress".
Definition ReasonMaintenance : string := "maintenance-mode".
Definition ReasonRecoveryRequired : string := "recovery-required".
Definition ReasonServerError : string := "server-error".
Definition ReasonBadRequest : string := "bad-request".
Definition ReasonDecodeFailed : string := "decode-failed".
Definition ReasonResultNotOK : string := "result-not-ok".
Definition ReasonIncompatible : string := "incompatible-snapshot".
Definition ReasonValidationFailed : string := "validation-failed".
Definition ReasonDependencyFailed : string := "dependency-failed".
Definition ReasonRolledBack : string := "rolled-back".
Definition ReasonRollbackFailed : string := "rollback-failed".
Definition ReasonNotPersisted : string := "not-persisted".
Definition ReasonChecksumMismatch : string := "checksum-mismatch".
Definition ReasonContractLegacy : string := "contract-legacy".

Definition reasonForStatus (status : Z) : string :=
  (if status =? 401 then ReasonUnauthorized
   else if status =? 409 then ReasonBusy
   else if status =? 503 then ReasonMaintenance
   else if 500 <=? status then ReasonServerError
   else ReasonBadRequest)%Z.

Definition NewStatusError (status : Z) (body : string) : LifecycleError :=
  {| le_Reason := reasonForStatus status;
     le_Message := api_error_text (NewAPIError status body);
     le_HTTPStatus := status; le_Body := body |}.

(** [ReasonOf] and [HTTPStatusOf] look at the error itself, not at what it wraps. *)
Definition ReasonOf (err : option goerror) : string :=
  match err with
  | None => ReasonOK
  | Some (ELifecycle le) => le_Reason le
  | Some _ => ReasonRequestFailed
  end.

Definition HTTPStatusOf (err : option goerror) : Z :=
  match err with
  | Some (ELifecycle le) => le_HTTPStatus le
  | _ => 0%Z
  end.
