(* ===== verification/JsonPrint.v ===== *)
(** * Encoding with package [encoding/json]

    [json.Marshal] with its HTML escaping, the compaction of a
    [json.RawMessage] inside it, and [json.Indent].  A value to encode is a
    [gojson]: what the reflection of [Marshal] sees of a Go value. *)
From S2P Require Import Prelude GoStrings Json.

Inductive gojson : Type :=
  | GBool (b : bool)
  | GInt (z : Z)
  | GStr (s : string)
  | GArr (l : list gojson)
  | GObj (ms : list (string * gojson))
  | GRaw (raw : string).

(** One rune of an encoded string. *)
Definition escape_rune (x : Z * string) : string :=
  let '(r, raw) := x in
  if (r =? rune_error)%Z && (slen raw =? 1)%Z then "\ufffd"
  else if (r =? 34)%Z || (r =? 92)%Z then "\" +:+ raw
  else if (r =? 8)%Z then "\b" else if (r =? 12)%Z then "\f"
  else if (r =? 10)%Z then "\n" else if (r =? 13)%Z then "\r" else if (r =? 9)%Z then "\t"
  else if (r <? 32)%Z || (r =? 60)%Z || (r =? 62)%Z || (r =? 38)%Z then "\u00" +:+ hex_byte r
  else if (r =? 8232)%Z then "\u2028" else if (r =? 8233)%Z then "\u2029"
  else raw.

Definition encode_string (s : string) : string :=
  dquote +:+ concat_str (escape_rune <$> segments s) +:+ dquote.

(** Compaction drops the white space outside strings and escapes inside them
    what [Marshal] escapes.  [mode] is 0 outside a string, 1 inside, 2 after a
    backslash. *)
Fixpoint compact_runes (mode : Z) (l : list (Z * string)) : string :=
  match l with
  | [] => EmptyString
  | (r, raw) :: l' =>
      if (mode =? 0)%Z then
        if (r =? 32)%Z || (r =? 9)%Z || (r =? 10)%Z || (r =? 13)%Z then compact_runes 0 l'
        else raw +:+ compact_runes (if (r =? 34)%Z then 1 else 0) l'
      else
        let next := (if mode =? 2 then 1 else if r =? 92 then 2 else if r =? 34 then 0 else 1)%Z in
        (if (r =? 60)%Z || (r =? 62)%Z || (r =? 38)%Z then "\u00" +:+ hex_byte r
         else if (r =? 8232)%Z then "\u2028" else if (r =? 8233)%Z then "\u2029"
         else raw) +:+ compact_runes next l'
  end.

Definition compact_raw (raw : string) : string := compact_runes 0 (segments raw).

(** [json.Marshal]; a raw message that is not a document is an error. *)
Fixpoint raw_ok (v : gojson) : bool :=
  match v with
  | GArr l => forallb raw_ok l
  | GObj ms => forallb (fun m : string * gojson => raw_ok m.2) ms
  | GRaw raw => json_valid raw
  | _ => true
  end.

Fixpoint encode (v : gojson) : string :=
  match v with
  | GBool b => bool_str b
  | GInt z => itoa z
  | GStr s => encode_string s
  | GArr l => "[" +:+ join "," (encode <$> l) +:+ "]"
  | GObj ms =>
      "{" +:+ join "," ((fun m : string * gojson => encode_string m.1 +:+ ":" +:+ encode m.2) <$> ms)
      +:+ "}"
  | GRaw raw => compact_raw raw
  end.

Definition marshal (v : gojson) : option string := if raw_ok v then Some (encode v) else None.

(** [json.Indent] with the prefix empty.  [need] is set after an opening bracket
    until its first element or its closing bracket. *)
Definition newline (pad : string) (depth : nat) : string :=
  String "010"%char (concat_str (replicate depth pad)).

Fixpoint indent_bytes (pad : string) (mode : Z) (need : bool) (depth : nat) (s : string) : string :=
  match s with
  | EmptyString => EmptyString
  | String a s' =>
      let z := zbyte a in
      if (mode =? 1)%Z || (mode =? 2)%Z then
        let next := (if mode =? 2 then 1 else if z =? 92 then 2 else if z =? 34 then 0 else 1)%Z in
        String a (indent_bytes pad next need depth s')
      else if (z =? 32)%Z || (z =? 9)%Z || (z =? 10)%Z || (z =? 13)%Z
      then indent_bytes pad 0 need depth s'
      else
        let closing := (z =? 125)%Z || (z =? 93)%Z in
        let '(lead, need, depth) :=
          if need && negb closing then (newline pad (S depth), false, S depth)
          else ("", need, depth) in
        if (z =? 123)%Z || (z =? 91)%Z then lead +:+ String a (indent_bytes pad 0 true depth s')
        else if (z =? 44)%Z
        then lead +:+ String a (newline pad depth) +:+ indent_bytes pad 0 need depth s'
        else if (z =? 58)%Z then lead +:+ String a " " +:+ indent_bytes pad 0 need depth s'
        else if closing then
          if need then String a (indent_bytes pad 0 false depth s')
          else newline pad (pred depth) +:+ String a (indent_bytes pad 0 false (pred depth) s')
        else lead +:+ String a (indent_bytes pad (if (z =? 34)%Z then 1 else 0) need depth s')
  end.

(** Of a text without white space at its end, which [json.Indent] keeps. *)
Definition indent_by (pad s : string) : string := indent_bytes pad 0 false 0 s.
Definition indent (s : string) : string := indent_by "  " s.

(** [json.MarshalIndent]. *)
Definition marshal_indent (v : gojson) : option string := indent <$> marshal v.

Definition marshal_indent_by (pad : string) (v : gojson) : option string :=
  indent_by pad <$> marshal v.
