(* ===== verification/Floats.v ===== *)
(** * Floating-point numbers

    A finite [float64] is a sign and [mant * 2^exp]; a decimal literal is
    rounded to the nearest one, to even between two, and a number is written
    with the fewest digits that are read back as it ([strconv.ParseFloat],
    [strconv.AppendFloat] with precision -1, and the format that
    [encoding/json] chooses). *)
From S2P Require Import Prelude GoStrings Json.

Inductive float64 : Type :=
  | Finite (neg : bool) (mant exp : Z)
  | Infinite (neg : bool)
  | NaN.

(** [num / den] rounded to an integer, to even between two. *)
Definition round_even (num den : Z) : Z :=
  let q := (num / den)%Z in
  let r := (2 * (num mod den))%Z in
  (if (r <? den)%Z then q
   else if (den <? r)%Z then q + 1
   else if Z.even q then q else q + 1)%Z.

(** The exponent [e] with [2^e <= num/den < 2^(e+1)]. *)
Definition floor_log2 (num den : Z) : Z :=
  let e := (Z.log2 num - Z.log2 den)%Z in
  let below := (if 0 <=? e then num <? den * 2 ^ e else num * 2 ^ (- e) <? den)%Z in
  if below then (e - 1)%Z else e.

(** The mantissa and exponent of the nearest number; a mantissa has 53 bits, an
    exponent is at least -1074, and at most 971 or the number is too large. *)
Definition round_float (num den : Z) : option (Z * Z) :=
  if (num =? 0)%Z then Some (0, 0)%Z
  else
    let q := Z.max (floor_log2 num den - 52) (-1074) in
    let m := (if 0 <=? q then round_even num (den * 2 ^ q) else round_even (num * 2 ^ (- q)) den)%Z in
    let '(m, q) := if (m =? 2 ^ 53)%Z then (2 ^ 52, q + 1)%Z else (m, q) in
    if (m =? 0)%Z then Some (0, 0)%Z else if (971 <? q)%Z then None else Some (m, q).

(** [m * 10^x]. *)
Definition round_decimal (m x : Z) : option (Z * Z) :=
  if (0 <=? x)%Z then round_float (m * 10 ^ x) 1 else round_float m (10 ^ (- x)).

(** A literal of a document; [None] is out of range. *)
Definition float_of_literal (lit : string) : option float64 :=
  let '(m, x) := float_parts 0 0 0 0 false lit in
  let neg := has_prefix lit "-" in
  if (m =? 0)%Z then Some (Finite neg 0 0)
  else if (400 <? slen (itoa m) + x)%Z then None
  else if (slen (itoa m) + x <? -400)%Z then Some (Finite neg 0 0)
  else '(m, q) ← round_decimal m x; Some (Finite neg m q).

(* ------------------------------------------------------------------ *)
(** ** The shortest decimal                                            *)
(* ------------------------------------------------------------------ *)

(** [num/den] compared with [10^k]. *)
Definition below_power (num den k : Z) : bool :=
  (if 0 <=? k then num <? den * 10 ^ k else num * 10 ^ (- k) <? den)%Z.

(** The exponent [k] with [10^(k-1) <= num/den < 10^k], from an estimate that is
    at most a few too small. *)
Fixpoint decimal_point (fuel : nat) (num den k : Z) : Z :=
  match fuel with
  | O => k
  | S fuel => if below_power num den k then k else decimal_point fuel num den (k + 1)
  end.

(** A decimal of [n] digits that is read back as the number: the nearer of the
    two around it. *)
Definition digits_of (num den m q k n : Z) : option (Z * Z) :=
  let s := (k - n)%Z in
  let '(num, den) := if (0 <=? s)%Z then (num, den * 10 ^ s)%Z else (num * 10 ^ (- s), den)%Z in
  let c := (num / den)%Z in
  let back := fun c => match round_decimal c s with
                       | Some (m', q') => (m' =? m)%Z && (q' =? q)%Z
                       | None => false
                       end in
  let up := (den <? 2 * (num mod den))%Z in
  let first := if up then (c + 1)%Z else c in
  let second := if up then c else (c + 1)%Z in
  if back first then Some (first, s) else if back second then Some (second, s) else None.

(** Seventeen digits always do. *)
Fixpoint shortest (tries : nat) (num den m q k n : Z) : Z * Z :=
  match tries with
  | O => (num / den, 0)%Z
  | S tries =>
      match digits_of num den m q k n with
      | Some r => r
      | None => shortest tries num den m q k (n + 1)
      end
  end.

(** The digits without zeros at their end, and the position of the point. *)
Definition trim_zeros (s : string) : string :=
  of_bytes (rev (drop_while (fun a => Ascii.eqb a "0"%char) (rev (bytes s)))).

Definition float_digits (m q : Z) : string * Z :=
  let '(num, den) := if (0 <=? q)%Z then (m * 2 ^ q, 1)%Z else (m, 2 ^ (- q))%Z in
  let k := decimal_point 4 num den (floor_log2 num den * 30103 / 100000)%Z in
  let '(c, s) := shortest 17 num den m q k 1 in
  (trim_zeros (itoa c), slen (itoa c) + s)%Z.

Definition zeros (n : Z) : string := of_bytes (replicate (Z.to_nat n) "0"%char).
Definition take_digits (n : Z) (s : string) : string := of_bytes (take (Z.to_nat n) (bytes s)).
Definition drop_digits (n : Z) (s : string) : string := of_bytes (drop (Z.to_nat n) (bytes s)).

(** Digits with the point after [dp] of them: plain, or with an exponent when the
    number is below [1e-6] or not below [1e21]. *)
Definition plain_text_of (ds : string) (dp : Z) : string :=
  if (dp <=? 0)%Z then sprintf ["0."; zeros (- dp); ds]
  else if (slen ds <=? dp)%Z then ds +:+ zeros (dp - slen ds)
  else sprintf [take_digits dp ds; "."; drop_digits dp ds].

Definition exponent_text_of (ds : string) (dp : Z) : string :=
  let x := (dp - 1)%Z in
  sprintf [take_digits 1 ds; if (slen ds =? 1)%Z then "" else "." +:+ drop_digits 1 ds;
           if (x <? 0)%Z then "e-" else "e+"; itoa (Z.abs x)].

Definition float_text (x : float64) : option string :=
  match x with
  | Finite neg m q =>
      let sign := if neg then "-" else "" in
      if (m =? 0)%Z then Some (sign +:+ "0")
      else
        let '(ds, dp) := float_digits m q in
        Some (sign +:+ if (dp <? -5)%Z || (21 <? dp)%Z then exponent_text_of ds dp
                       else plain_text_of ds dp)
  | _ => None
  end.

(** A literal as it is written again. *)
Definition literal_again (lit : string) : string :=
  default "" (x ← float_of_literal lit; float_text x).

Example float_tenth : literal_again "0.1" = "0.1".
Proof. vm_compute. reflexivity. Qed.
Example float_third : literal_again "0.33333333333333333333" = "0.3333333333333333".
Proof. vm_compute. reflexivity. Qed.
Example float_large : literal_again "123456789012345678901234" = "1.2345678901234569e+23".
Proof. vm_compute. reflexivity. Qed.
Example float_edge : literal_again "9007199254740993" = "9007199254740992".
Proof. vm_compute. reflexivity. Qed.
Example float_small : literal_again "-0.0000001250" = "-1.25e-7".
Proof. vm_compute. reflexivity. Qed.
Example float_least : literal_again "4.9e-324" = "5e-324".
Proof. vm_compute. reflexivity. Qed.
Example float_most : literal_again "1.7976931348623157e308" = "1.7976931348623157e+308".
Proof. vm_compute. reflexivity. Qed.
Example float_hundred : literal_again "1e2" = "100".
Proof. vm_compute. reflexivity. Qed.
