(* ===== verification/Fields.v ===== *)
(** * The members of a struct

    The integer types of a fixed width as they appear in the structs of
    [pkg/api], decoded within their range, and the members [encoding/json]
    writes for a field: always, or unless it is zero ([omitempty]). *)
From S2P Require Import Prelude GoStrings Json JsonPrint Floats.

(* ------------------------------------------------------------------ *)
(** ** Integers of a fixed width                                       *)
(* ------------------------------------------------------------------ *)

Record uint8 : Type := U8 { u8 : Z }.
Record uint16 : Type := U16 { u16 : Z }.
Record uint32 : Type := U32 { u32 : Z }.
Record int32 : Type := I32 { i32 : Z }.

#[global] Instance go_uint8 : GoValue uint8 := {|
  go_zero := U8 0;
  go_into _ old j := U8 ∘ u64 <$> uint_within (2 ^ 8 - 1) (U64 (u8 old)) j |}.
#[global] Instance go_uint16 : GoValue uint16 := {|
  go_zero := U16 0;
  go_into _ old j := U16 ∘ u64 <$> uint_within (2 ^ 16 - 1) (U64 (u16 old)) j |}.
#[global] Instance go_uint32 : GoValue uint32 := {|
  go_zero := U32 0;
  go_into _ old j := U32 ∘ u64 <$> uint_within (2 ^ 32 - 1) (U64 (u32 old)) j |}.
#[global] Instance go_int32 : GoValue int32 := {|
  go_zero := I32 0;
  go_into _ old j := I32 <$> int_within (- 2 ^ 31) (2 ^ 31 - 1) (i32 old) j |}.
#[global] Instance go_float64 : GoValue float64 := {|
  go_zero := Finite false 0 0;
  go_into _ old j :=
    match j with JNull => Some old | JNum lit => float_of_literal lit | _ => None end |}.

(** How each type is encoded. *)
Definition uint8_json (n : uint8) : gojson := GInt (u8 n).
Definition uint16_json (n : uint16) : gojson := GInt (u16 n).
Definition uint32_json (n : uint32) : gojson := GInt (u32 n).
Definition uint64_json (n : uint64) : gojson := GInt (u64 n).
Definition int32_json (n : int32) : gojson := GInt (i32 n).

(** NaN and the infinities are written as a text that is no document. *)
Definition float64_json (x : float64) : gojson := GRaw (default "" (float_text x)).

(* ------------------------------------------------------------------ *)
(** ** Members                                                         *)
(* ------------------------------------------------------------------ *)

(** The encoding of a nil pointer, slice or map. *)
Definition go_nil : gojson := GRaw "null".

(** A slice that may be nil, in a member that is always written. *)
Definition slice_json {A} (f : A -> gojson) (o : option (list A)) : gojson :=
  match o with None => go_nil | Some l => GArr (f <$> l) end.
Definition slice_of {A} (o : option (list A)) : list A := default [] o.

(** [append] to a slice that may be nil: nothing appended leaves it as it was. *)
Definition append_all {A} (o : option (list A)) (l : list A) : option (list A) :=
  match l with [] => o | _ => Some (slice_of o ++ l) end.

(** Members with [omitempty]. *)
Definition omit_str (k s : string) : list (string * gojson) :=
  if is_empty s then [] else [(k, GStr s)].
Definition omit_int (k : string) (z : Z) : list (string * gojson) :=
  if (z =? 0)%Z then [] else [(k, GInt z)].
Definition omit_bool (k : string) (b : bool) : list (string * gojson) :=
  if b then [(k, GBool b)] else [].
Definition omit_nil {A} (k : string) (f : A -> gojson) (o : option A) : list (string * gojson) :=
  match o with None => [] | Some a => [(k, f a)] end.
Definition omit_list {A} (k : string) (f : A -> gojson) (l : list A) : list (string * gojson) :=
  match l with [] => [] | _ => [(k, GArr (f <$> l))] end.

(* ------------------------------------------------------------------ *)
(** ** What is built of these can be encoded                            *)
(* ------------------------------------------------------------------ *)

(** No raw message in the members. *)
Definition members_ok (ms : list (string * gojson)) : bool :=
  forallb (fun m : string * gojson => raw_ok m.2) ms.

Lemma members_app a b : members_ok (a ++ b) = members_ok a && members_ok b.
Proof. apply forallb_app. Qed.

Lemma omit_str_ok k s : members_ok (omit_str k s) = true.
Proof. unfold omit_str. by destruct (is_empty s). Qed.
Lemma omit_int_ok k z : members_ok (omit_int k z) = true.
Proof. unfold omit_int. by destruct (z =? 0)%Z. Qed.
Lemma omit_bool_ok k b : members_ok (omit_bool k b) = true.
Proof. by destruct b. Qed.

Lemma all_raw_ok {A} (f : A -> gojson) l :
  (forall a, raw_ok (f a) = true) -> forallb raw_ok (f <$> l) = true.
Proof. intros Hf. apply forallb_forall. intros x Hx%list_elem_of_In. apply list_elem_of_fmap in Hx as (a & -> & _). done. Qed.

Lemma omit_nil_ok {A} k (f : A -> gojson) o :
  (forall a, raw_ok (f a) = true) -> members_ok (omit_nil k f o) = true.
Proof. intros Hf. destruct o; [|done]. unfold omit_nil, members_ok. cbn [forallb snd]. by rewrite Hf. Qed.

Lemma omit_list_ok {A} k (f : A -> gojson) l :
  (forall a, raw_ok (f a) = true) -> members_ok (omit_list k f l) = true.
Proof.
  intros Hf. destruct l as [|x l]; [done|]. unfold omit_list, members_ok.
  cbn [forallb snd raw_ok]. by rewrite all_raw_ok.
Qed.

Lemma slice_ok {A} (f : A -> gojson) o :
  (forall a, raw_ok (f a) = true) -> raw_ok (slice_json f o) = true.
Proof. intros Hf. destruct o as [l|]; [|by vm_compute]. cbn [slice_json raw_ok]. by apply all_raw_ok. Qed.

Lemma members_cat a b : members_ok a = true -> members_ok b = true -> members_ok (a ++ b) = true.
Proof. intros Ha Hb. by rewrite members_app, Ha. Qed.

Ltac raw_members :=
  lazymatch goal with |- raw_ok (GObj ?ms) = true => change (members_ok ms = true) | _ => idtac end;
  repeat lazymatch goal with |- members_ok (_ ++ _) = true => apply members_cat end;
  lazymatch goal with
  | |- members_ok (omit_str _ _) = true => apply omit_str_ok
  | |- members_ok (omit_int _ _) = true => apply omit_int_ok
  | |- members_ok (omit_bool _ _) = true => apply omit_bool_ok
  | |- members_ok (omit_nil _ _ _) = true => apply omit_nil_ok; intros ?; try done
  | |- members_ok (omit_list _ _ _) = true => apply omit_list_ok; intros ?; try done
  | |- _ => try reflexivity
  end.
