(* ===== verification/BandTriple.v ===== *)
(** * Band triples: [pkg/api/bandtriple.go]

    One value for each priority band, written [critical:standard:sheddable]
    on the wire, on the command line and in files. *)
From S2P Require Import Prelude GoStrings Json JsonPrint Fields.

Record BandTriple : Type := {
  bt_Critical : uint32;
  bt_Standard : uint32;
  bt_Sheddable : uint32
}.

(** [strconv.ParseUint(s, 10, 32)]. *)
Definition parse_uint32 (s : string) : option uint32 :=
  v ← unsigned_digits s; if (v <? 2 ^ 32)%Z then Some (U32 v) else None.

Definition not_a_triple (s : string) : string :=
  sprintf [quote s; " is not three whole numbers separated by ':' (critical:standard:sheddable)"].

Definition ParseBandTriple (s : string) : result string BandTriple :=
  match split ":"%char s with
  | [c; t; h] =>
      match parse_uint32 c, parse_uint32 t, parse_uint32 h with
      | Some c, Some t, Some h =>
          Ok {| bt_Critical := c; bt_Standard := t; bt_Sheddable := h |}
      | _, _, _ => Err (not_a_triple s)
      end
  | _ => Err (not_a_triple s)
  end.

(** [String]. *)
Definition triple_string (b : BandTriple) : string :=
  sprintf [itoa (u32 (bt_Critical b)); ":"; itoa (u32 (bt_Standard b)); ":";
           itoa (u32 (bt_Sheddable b))].

(** [MarshalText] and [UnmarshalText]. *)
Definition triple_json (b : BandTriple) : gojson := GStr (triple_string b).

#[global] Instance band_triple_value : GoValue BandTriple := {|
  go_zero := {| bt_Critical := U32 0; bt_Standard := U32 0; bt_Sheddable := U32 0 |};
  go_into _ old j := match j with JNull => Some old | JStr s => ok_of (ParseBandTriple s) | _ => None end |}.

(* ------------------------------------------------------------------ *)
(** ** The two forms                                                   *)
(* ------------------------------------------------------------------ *)

Definition is_uint32 (n : uint32) : Prop := (0 <= u32 n < 2 ^ 32)%Z.
Definition triple_ok (b : BandTriple) : Prop :=
  is_uint32 (bt_Critical b) /\ is_uint32 (bt_Standard b) /\ is_uint32 (bt_Sheddable b).

Lemma parse_uint32_some s n :
  parse_uint32 s = Some n <-> unsigned_digits s = Some (u32 n) /\ is_uint32 n.
Proof.
  unfold parse_uint32, is_uint32. destruct n as [n]. simpl.
  destruct (unsigned_digits s) as [v|] eqn:Hv; simpl; [|naive_solver].
  apply unsigned_digits_nonneg in Hv.
  destruct (Z.ltb_spec v (2 ^ 32)); split; [intros [= ->]; split; [done|lia] | | done |].
  - by intros [[= ->] _].
  - intros [[= ->] ?]. lia.
Qed.

Lemma parse_uint32_itoa n : is_uint32 n -> parse_uint32 (itoa (u32 n)) = Some n.
Proof. intros Hn. apply parse_uint32_some. split; [|done]. apply unsigned_digits_itoa. apply Hn. Qed.

Lemma triple_string_split b :
  triple_ok b ->
  split ":"%char (triple_string b)
  = [itoa (u32 (bt_Critical b)); itoa (u32 (bt_Standard b)); itoa (u32 (bt_Sheddable b))].
Proof.
  intros (Hc & Ht & Hs).
  assert (Hfree : forall n, is_uint32 n -> free_of ":"%char (itoa (u32 n))).
  { intros n [Hn _]. eapply digits_free; [done|]. by apply unsigned_digits_itoa. }
  unfold triple_string, sprintf. rewrite !concat_str_cons. cbn [concat_str fold_right].
  rewrite string_app_nil_r, !string_cons_app, !string_nil_app.
  by rewrite !split_words, split_word by auto.
Qed.

Lemma parse_triple_string b : triple_ok b -> ParseBandTriple (triple_string b) = Ok b.
Proof.
  intros Hb. unfold ParseBandTriple. rewrite triple_string_split by done.
  destruct Hb as (Hc & Ht & Hs). rewrite !parse_uint32_itoa by done. by destruct b.
Qed.

Lemma parse_triple_ok s b : ParseBandTriple s = Ok b -> triple_ok b.
Proof.
  unfold ParseBandTriple. destruct (split ":"%char s) as [|c [|t [|h [|]]]]; try done.
  destruct (parse_uint32 c) as [nc|] eqn:Hc; [|done].
  destruct (parse_uint32 t) as [nt|] eqn:Ht; [|done].
  destruct (parse_uint32 h) as [nh|] eqn:Hh; [|done].
  apply parse_uint32_some in Hc as [_ ?], Ht as [_ ?], Hh as [_ ?]. by intros [= <-].
Qed.

(** The two forms of a band triple are inverse.  The text of a triple of
    32-bit values reads back as the triple, from the command line and from
    JSON alike, and every text that is read yields such a triple, whose own
    text means the same. *)
Theorem band_triple_roundtrip :
  (forall b, triple_ok b ->
     ParseBandTriple (triple_string b) = Ok b
     /\ forall old, go_into false old (JStr (triple_string b)) = Some b)
  /\ (forall s b, ParseBandTriple s = Ok b ->
        triple_ok b /\ ParseBandTriple (triple_string b) = ParseBandTriple s).
Proof.
  split.
  - intros b Hb. simpl. by rewrite parse_triple_string.
  - intros s b Hs. pose proof (parse_triple_ok s b Hs) as Hb. by rewrite Hs, parse_triple_string.
Qed.

Lemma band_triple_roundtrip_witness :
  ParseBandTriple "8:3:1" = Ok {| bt_Critical := U32 8; bt_Standard := U32 3; bt_Sheddable := U32 1 |}
  /\ is_ok (ParseBandTriple "8:3") = false /\ is_ok (ParseBandTriple "8:3:4294967296") = false
  /\ ParseBandTriple (triple_string {| bt_Critical := U32 8; bt_Standard := U32 3;
                                       bt_Sheddable := U32 1 |})
     = ParseBandTriple "08:3:1".
Proof.
  split; [reflexivity|]. split; [reflexivity|]. split; [reflexivity|].
  apply (proj2 band_triple_roundtrip "08:3:1" _ eq_refl).
Defined.
