(* ===== verification/LbModel.v ===== *)
(** * Load balancer rules: [pkg/api/loadBalancer.go]

    The documents of [config/loadbalancer]: a rule with its service, its
    endpoints and the state the gateway reports of it, as they are decoded
    and encoded.  A slice that is written even when nil is an [option]. *)
From S2P Require Import Prelude GoStrings Json JsonPrint Fields BandTriple.

Record FcBandEffective : Type := {
  be_Inflight : uint32;
  be_Queued : uint32;
  be_WaitMs : uint32;
  be_QueuePct : uint32;
  be_MinSharePct : uint32;
  be_FloorUnits : uint32;
  be_Weight : uint32;
  be_WeightPct : uint32
}.
#[global] Instance fc_band_effective_value : GoValue FcBandEffective := {|
  go_zero := {| be_Inflight := U32 0; be_Queued := U32 0; be_WaitMs := U32 0;
                be_QueuePct := U32 0; be_MinSharePct := U32 0; be_FloorUnits := U32 0;
                be_Weight := U32 0; be_WeightPct := U32 0 |};
  go_into strict old := decode_struct strict
    ["inflight"; "queued"; "wait_ms"; "queue_pct"; "min_share_pct"; "floor_units"; "weight";
     "weight_pct"] old (fun ms =>
    x0 ← field strict ms "inflight" (be_Inflight old);
    x1 ← field strict ms "queued" (be_Queued old);
    x2 ← field strict ms "wait_ms" (be_WaitMs old);
    x3 ← field strict ms "queue_pct" (be_QueuePct old);
    x4 ← field strict ms "min_share_pct" (be_MinSharePct old);
    x5 ← field strict ms "floor_units" (be_FloorUnits old);
    x6 ← field strict ms "weight" (be_Weight old);
    x7 ← field strict ms "weight_pct" (be_WeightPct old);
    Some {| be_Inflight := x0; be_Queued := x1; be_WaitMs := x2; be_QueuePct := x3;
            be_MinSharePct := x4; be_FloorUnits := x5; be_Weight := x6; be_WeightPct := x7 |}) |}.
Definition fc_band_effective_json (r : FcBandEffective) : gojson :=
  GObj [("inflight", uint32_json (be_Inflight r));
        ("queued", uint32_json (be_Queued r));
        ("wait_ms", uint32_json (be_WaitMs r));
        ("queue_pct", uint32_json (be_QueuePct r));
        ("min_share_pct", uint32_json (be_MinSharePct r));
        ("floor_units", uint32_json (be_FloorUnits r));
        ("weight", uint32_json (be_Weight r));
        ("weight_pct", uint32_json (be_WeightPct r))].

Record FcEffectiveBands : Type := {
  eb_CriticalReservePct : uint32;
  eb_CriticalReserveUnits : uint32;
  eb_Critical : FcBandEffective;
  eb_Standard : FcBandEffective;
  eb_Sheddable : FcBandEffective
}.
#[global] Instance fc_effective_bands_value : GoValue FcEffectiveBands := {|
  go_zero := {| eb_CriticalReservePct := U32 0; eb_CriticalReserveUnits := U32 0;
                eb_Critical := go_zero; eb_Standard := go_zero; eb_Sheddable := go_zero |};
  go_into strict old := decode_struct strict
    ["critical_reserve_pct"; "critical_reserve_units"; "critical"; "standard"; "sheddable"] old (fun ms =>
    x0 ← field strict ms "critical_reserve_pct" (eb_CriticalReservePct old);
    x1 ← field strict ms "critical_reserve_units" (eb_CriticalReserveUnits old);
    x2 ← field strict ms "critical" (eb_Critical old);
    x3 ← field strict ms "standard" (eb_Standard old);
    x4 ← field strict ms "sheddable" (eb_Sheddable old);
    Some {| eb_CriticalReservePct := x0; eb_CriticalReserveUnits := x1; eb_Critical := x2;
            eb_Standard := x3; eb_Sheddable := x4 |}) |}.
Definition fc_effective_bands_json (r : FcEffectiveBands) : gojson :=
  GObj [("critical_reserve_pct", uint32_json (eb_CriticalReservePct r));
        ("critical_reserve_units", uint32_json (eb_CriticalReserveUnits r));
        ("critical", fc_band_effective_json (eb_Critical r));
        ("standard", fc_band_effective_json (eb_Standard r));
        ("sheddable", fc_band_effective_json (eb_Sheddable r))].

Record FcReservationHeld : Type := {
  fh_Kind : string;
  fh_Bucket : string;
  fh_Tokens : Z
}.
#[global] Instance fc_reservation_held_value : GoValue FcReservationHeld := {|
  go_zero := {| fh_Kind := ""; fh_Bucket := ""; fh_Tokens := 0 |};
  go_into strict old := decode_struct strict
    ["kind"; "bucket"; "tokens"] old (fun ms =>
    x0 ← field strict ms "kind" (fh_Kind old);
    x1 ← field strict ms "bucket" (fh_Bucket old);
    x2 ← field strict ms "tokens" (fh_Tokens old);
    Some {| fh_Kind := x0; fh_Bucket := x1; fh_Tokens := x2 |}) |}.
Definition fc_reservation_held_json (r : FcReservationHeld) : gojson :=
  GObj [("kind", GStr (fh_Kind r));
        ("bucket", GStr (fh_Bucket r));
        ("tokens", GInt (fh_Tokens r))].

Record FcEffectiveSource : Type := {
  fs_Mode : string;
  fs_MaxOutstanding : string;
  fs_EpMaxInflight : string;
  fs_PrefillMaxInflight : string;
  fs_DecodeMaxInflight : string;
  fs_QueueDepth : string;
  fs_QueueWaitMs : string;
  fs_TelemetryStaleMs : string;
  fs_Adaptive : string;
  fs_WarmupMs : string;
  fs_TtftTargetMs : string;
  fs_TenantMaxSharePct : string;
  fs_ExposeHeaders : string;
  fs_DefaultReservation : string;
  fs_DefaultMaxTokens : string;
  fs_WakePolicy : string;
  fs_BandWeights : string;
  fs_BandMinSharePct : string;
  fs_CriticalReservePct : string;
  fs_BandWaitMs : string;
  fs_BandQueuePct : string;
  fs_ShedQueue : string;
  fs_TenantWake : string;
  fs_LlmdHeaders : string
}.
#[global] Instance fc_effective_source_value : GoValue FcEffectiveSource := {|
  go_zero := {| fs_Mode := ""; fs_MaxOutstanding := ""; fs_EpMaxInflight := "";
                fs_PrefillMaxInflight := ""; fs_DecodeMaxInflight := ""; fs_QueueDepth := "";
                fs_QueueWaitMs := ""; fs_TelemetryStaleMs := ""; fs_Adaptive := "";
                fs_WarmupMs := ""; fs_TtftTargetMs := ""; fs_TenantMaxSharePct := "";
                fs_ExposeHeaders := ""; fs_DefaultReservation := ""; fs_DefaultMaxTokens := "";
                fs_WakePolicy := ""; fs_BandWeights := ""; fs_BandMinSharePct := "";
                fs_CriticalReservePct := ""; fs_BandWaitMs := ""; fs_BandQueuePct := "";
                fs_ShedQueue := ""; fs_TenantWake := ""; fs_LlmdHeaders := "" |};
  go_into strict old := decode_struct strict
    ["mode"; "max_outstanding"; "ep_max_inflight"; "prefill_max_inflight";
     "decode_max_inflight"; "queue_depth"; "queue_wait_ms"; "telemetry_stale_ms"; "adaptive";
     "warmup_ms"; "ttft_target_ms"; "tenant_max_share_pct"; "expose_headers";
     "default_reservation"; "default_max_tokens"; "wake_policy"; "band_weights";
     "band_min_share_pct"; "critical_reserve_pct"; "band_wait_ms"; "band_queue_pct";
     "shed_queue"; "tenant_wake"; "llmd_headers"] old (fun ms =>
    x0 ← field strict ms "mode" (fs_Mode old);
    x1 ← field strict ms "max_outstanding" (fs_MaxOutstanding old);
    x2 ← field strict ms "ep_max_inflight" (fs_EpMaxInflight old);
    x3 ← field strict ms "prefill_max_inflight" (fs_PrefillMaxInflight old);
    x4 ← field strict ms "decode_max_inflight" (fs_DecodeMaxInflight old);
    x5 ← field strict ms "queue_depth" (fs_QueueDepth old);
    x6 ← field strict ms "queue_wait_ms" (fs_QueueWaitMs old);
    x7 ← field strict ms "telemetry_stale_ms" (fs_TelemetryStaleMs old);
    x8 ← field strict ms "adaptive" (fs_Adaptive old);
    x9 ← field strict ms "warmup_ms" (fs_WarmupMs old);
    x10 ← field strict ms "ttft_target_ms" (fs_TtftTargetMs old);
    x11 ← field strict ms "tenant_max_share_pct" (fs_TenantMaxSharePct old);
    x12 ← field strict ms "expose_headers" (fs_ExposeHeaders old);
    x13 ← field strict ms "default_reservation" (fs_DefaultReservation old);
    x14 ← field strict ms "default_max_tokens" (fs_DefaultMaxTokens old);
    x15 ← field strict ms "wake_policy" (fs_WakePolicy old);
    x16 ← field strict ms "band_weights" (fs_BandWeights old);
    x17 ← field strict ms "band_min_share_pct" (fs_BandMinSharePct old);
    x18 ← field strict ms "critical_reserve_pct" (fs_CriticalReservePct old);
    x19 ← field strict ms "band_wait_ms" (fs_BandWaitMs old);
    x20 ← field strict ms "band_queue_pct" (fs_BandQueuePct old);
    x21 ← field strict ms "shed_queue" (fs_ShedQueue old);
    x22 ← field strict ms "tenant_wake" (fs_TenantWake old);
    x23 ← field strict ms "llmd_headers" (fs_LlmdHeaders old);
    Some {| fs_Mode := x0; fs_MaxOutstanding := x1; fs_EpMaxInflight := x2;
            fs_PrefillMaxInflight := x3; fs_DecodeMaxInflight := x4; fs_QueueDepth := x5;
            fs_QueueWaitMs := x6; fs_TelemetryStaleMs := x7; fs_Adaptive := x8;
            fs_WarmupMs := x9; fs_TtftTargetMs := x10; fs_TenantMaxSharePct := x11;
            fs_ExposeHeaders := x12; fs_DefaultReservation := x13; fs_DefaultMaxTokens := x14;
            fs_WakePolicy := x15; fs_BandWeights := x16; fs_BandMinSharePct := x17;
            fs_CriticalReservePct := x18; fs_BandWaitMs := x19; fs_BandQueuePct := x20;
            fs_ShedQueue := x21; fs_TenantWake := x22; fs_LlmdHeaders := x23 |}) |}.
Definition fc_effective_source_json (r : FcEffectiveSource) : gojson :=
  GObj (omit_str "mode" (fs_Mode r)
        ++ omit_str "max_outstanding" (fs_MaxOutstanding r)
        ++ omit_str "ep_max_inflight" (fs_EpMaxInflight r)
        ++ omit_str "prefill_max_inflight" (fs_PrefillMaxInflight r)
        ++ omit_str "decode_max_inflight" (fs_DecodeMaxInflight r)
        ++ omit_str "queue_depth" (fs_QueueDepth r)
        ++ omit_str "queue_wait_ms" (fs_QueueWaitMs r)
        ++ omit_str "telemetry_stale_ms" (fs_TelemetryStaleMs r)
        ++ omit_str "adaptive" (fs_Adaptive r)
        ++ omit_str "warmup_ms" (fs_WarmupMs r)
        ++ omit_str "ttft_target_ms" (fs_TtftTargetMs r)
        ++ omit_str "tenant_max_share_pct" (fs_TenantMaxSharePct r)
        ++ omit_str "expose_headers" (fs_ExposeHeaders r)
        ++ omit_str "default_reservation" (fs_DefaultReservation r)
        ++ omit_str "default_max_tokens" (fs_DefaultMaxTokens r)
        ++ omit_str "wake_policy" (fs_WakePolicy r)
        ++ omit_str "band_weights" (fs_BandWeights r)
        ++ omit_str "band_min_share_pct" (fs_BandMinSharePct r)
        ++ omit_str "critical_reserve_pct" (fs_CriticalReservePct r)
        ++ omit_str "band_wait_ms" (fs_BandWaitMs r)
        ++ omit_str "band_queue_pct" (fs_BandQueuePct r)
        ++ omit_str "shed_queue" (fs_ShedQueue r)
        ++ omit_str "tenant_wake" (fs_TenantWake r)
        ++ omit_str "llmd_headers" (fs_LlmdHeaders r)).

Record FcEffective : Type := {
  fe_Mode : string;
  fe_MaxOutstanding : uint32;
  fe_EpMaxInflight : uint32;
  fe_PrefillMaxInflight : uint32;
  fe_DecodeMaxInflight : uint32;
  fe_QueueDepth : uint32;
  fe_QueueWaitMs : uint32;
  fe_Inflight : uint32;
  fe_Queued : uint32;
  fe_QueueMemoryBoundMib : uint64;
  fe_TelemetryStaleMs : uint32;
  fe_Adaptive : string;
  fe_WarmupMs : uint32;
  fe_TtftTargetMs : uint32;
  fe_EffectiveMaxOutstanding : uint32;
  fe_AdaptState : string;
  fe_AdaptReason : string;
  fe_WarmingEndpoints : uint32;
  fe_TenantMaxSharePct : uint32;
  fe_TenantsActive : uint32;
  fe_ExposeHeaders : string;
  fe_TenantSlots : uint32;
  fe_WakePolicy : string;
  fe_WakePolicyEffective : string;
  fe_WeightsInUse : bool;
  fe_ShedQueue : string;
  fe_ShedQueueEffective : string;
  fe_TenantWake : string;
  fe_TenantWakeEffective : string;
  fe_BandFallbackReason : string;
  fe_LlmdHeaders : string;
  fe_BandsConfigured : bool;
  fe_Bands : option FcEffectiveBands;
  fe_DefaultReservation : string;
  fe_DefaultMaxTokens : uint32;
  fe_ReservationClampedBurst : uint64;
  fe_ReservationClampedBudget : uint64;
  fe_ReservationEpoch : Z;
  fe_ReservationHeldClaims : Z;
  fe_ReservationHeldTruncated : bool;
  fe_ReservationHeld : list FcReservationHeld;
  fe_ConfigSource : string;
  fe_StoreReachable : option bool;
  fe_StoreLastRead : string;
  fe_Source : option FcEffectiveSource
}.
#[global] Instance fc_effective_value : GoValue FcEffective := {|
  go_zero := {| fe_Mode := ""; fe_MaxOutstanding := U32 0; fe_EpMaxInflight := U32 0;
                fe_PrefillMaxInflight := U32 0; fe_DecodeMaxInflight := U32 0;
                fe_QueueDepth := U32 0; fe_QueueWaitMs := U32 0; fe_Inflight := U32 0;
                fe_Queued := U32 0; fe_QueueMemoryBoundMib := U64 0;
                fe_TelemetryStaleMs := U32 0; fe_Adaptive := ""; fe_WarmupMs := U32 0;
                fe_TtftTargetMs := U32 0; fe_EffectiveMaxOutstanding := U32 0;
                fe_AdaptState := ""; fe_AdaptReason := ""; fe_WarmingEndpoints := U32 0;
                fe_TenantMaxSharePct := U32 0; fe_TenantsActive := U32 0;
                fe_ExposeHeaders := ""; fe_TenantSlots := U32 0; fe_WakePolicy := "";
                fe_WakePolicyEffective := ""; fe_WeightsInUse := false; fe_ShedQueue := "";
                fe_ShedQueueEffective := ""; fe_TenantWake := ""; fe_TenantWakeEffective := "";
                fe_BandFallbackReason := ""; fe_LlmdHeaders := ""; fe_BandsConfigured := false;
                fe_Bands := None; fe_DefaultReservation := ""; fe_DefaultMaxTokens := U32 0;
                fe_ReservationClampedBurst := U64 0; fe_ReservationClampedBudget := U64 0;
                fe_ReservationEpoch := 0; fe_ReservationHeldClaims := 0;
                fe_ReservationHeldTruncated := false; fe_ReservationHeld := [];
                fe_ConfigSource := ""; fe_StoreReachable := None; fe_StoreLastRead := "";
                fe_Source := None |};
  go_into strict old := decode_struct strict
    ["mode"; "max_outstanding"; "ep_max_inflight"; "prefill_max_inflight";
     "decode_max_inflight"; "queue_depth"; "queue_wait_ms"; "inflight"; "queued";
     "queue_memory_bound_mib"; "telemetry_stale_ms"; "adaptive"; "warmup_ms"; "ttft_target_ms";
     "effective_max_outstanding"; "adapt_state"; "adapt_reason"; "warming_endpoints";
     "tenant_max_share_pct"; "tenants_active"; "expose_headers"; "tenant_slots"; "wake_policy";
     "wake_policy_effective"; "weights_in_use"; "shed_queue"; "shed_queue_effective";
     "tenant_wake"; "tenant_wake_effective"; "band_fallback_reason"; "llmd_headers";
     "bands_configured"; "bands"; "default_reservation"; "default_max_tokens";
     "reservation_clamped_burst"; "reservation_clamped_budget"; "reservation_epoch";
     "reservation_held_claims"; "reservation_held_truncated"; "reservation_held";
     "config_source"; "store_reachable"; "store_last_read"; "source"] old (fun ms =>
    x0 ← field strict ms "mode" (fe_Mode old);
    x1 ← field strict ms "max_outstanding" (fe_MaxOutstanding old);
    x2 ← field strict ms "ep_max_inflight" (fe_EpMaxInflight old);
    x3 ← field strict ms "prefill_max_inflight" (fe_PrefillMaxInflight old);
    x4 ← field strict ms "decode_max_inflight" (fe_DecodeMaxInflight old);
    x5 ← field strict ms "queue_depth" (fe_QueueDepth old);
    x6 ← field strict ms "queue_wait_ms" (fe_QueueWaitMs old);
    x7 ← field strict ms "inflight" (fe_Inflight old);
    x8 ← field strict ms "queued" (fe_Queued old);
    x9 ← field strict ms "queue_memory_bound_mib" (fe_QueueMemoryBoundMib old);
    x10 ← field strict ms "telemetry_stale_ms" (fe_TelemetryStaleMs old);
    x11 ← field strict ms "adaptive" (fe_Adaptive old);
    x12 ← field strict ms "warmup_ms" (fe_WarmupMs old);
    x13 ← field strict ms "ttft_target_ms" (fe_TtftTargetMs old);
    x14 ← field strict ms "effective_max_outstanding" (fe_EffectiveMaxOutstanding old);
    x15 ← field strict ms "adapt_state" (fe_AdaptState old);
    x16 ← field strict ms "adapt_reason" (fe_AdaptReason old);
    x17 ← field strict ms "warming_endpoints" (fe_WarmingEndpoints old);
    x18 ← field strict ms "tenant_max_share_pct" (fe_TenantMaxSharePct old);
    x19 ← field strict ms "tenants_active" (fe_TenantsActive old);
    x20 ← field strict ms "expose_headers" (fe_ExposeHeaders old);
    x21 ← field strict ms "tenant_slots" (fe_TenantSlots old);
    x22 ← field strict ms "wake_policy" (fe_WakePolicy old);
    x23 ← field strict ms "wake_policy_effective" (fe_WakePolicyEffective old);
    x24 ← field strict ms "weights_in_use" (fe_WeightsInUse old);
    x25 ← field strict ms "shed_queue" (fe_ShedQueue old);
    x26 ← field strict ms "shed_queue_effective" (fe_ShedQueueEffective old);
    x27 ← field strict ms "tenant_wake" (fe_TenantWake old);
    x28 ← field strict ms "tenant_wake_effective" (fe_TenantWakeEffective old);
    x29 ← field strict ms "band_fallback_reason" (fe_BandFallbackReason old);
    x30 ← field strict ms "llmd_headers" (fe_LlmdHeaders old);
    x31 ← field strict ms "bands_configured" (fe_BandsConfigured old);
    x32 ← field strict ms "bands" (fe_Bands old);
    x33 ← field strict ms "default_reservation" (fe_DefaultReservation old);
    x34 ← field strict ms "default_max_tokens" (fe_DefaultMaxTokens old);
    x35 ← field strict ms "reservation_clamped_burst" (fe_ReservationClampedBurst old);
    x36 ← field strict ms "reservation_clamped_budget" (fe_ReservationClampedBudget old);
    x37 ← field strict ms "reservation_epoch" (fe_ReservationEpoch old);
    x38 ← field strict ms "reservation_held_claims" (fe_ReservationHeldClaims old);
    x39 ← field strict ms "reservation_held_truncated" (fe_ReservationHeldTruncated old);
    x40 ← field strict ms "reservation_held" (fe_ReservationHeld old);
    x41 ← field strict ms "config_source" (fe_ConfigSource old);
    x42 ← field strict ms "store_reachable" (fe_StoreReachable old);
    x43 ← field strict ms "store_last_read" (fe_StoreLastRead old);
    x44 ← field strict ms "source" (fe_Source old);
    Some {| fe_Mode := x0; fe_MaxOutstanding := x1; fe_EpMaxInflight := x2;
            fe_PrefillMaxInflight := x3; fe_DecodeMaxInflight := x4; fe_QueueDepth := x5;
            fe_QueueWaitMs := x6; fe_Inflight := x7; fe_Queued := x8;
            fe_QueueMemoryBoundMib := x9; fe_TelemetryStaleMs := x10; fe_Adaptive := x11;
            fe_WarmupMs := x12; fe_TtftTargetMs := x13; fe_EffectiveMaxOutstanding := x14;
            fe_AdaptState := x15; fe_AdaptReason := x16; fe_WarmingEndpoints := x17;
            fe_TenantMaxSharePct := x18; fe_TenantsActive := x19; fe_ExposeHeaders := x20;
            fe_TenantSlots := x21; fe_WakePolicy := x22; fe_WakePolicyEffective := x23;
            fe_WeightsInUse := x24; fe_ShedQueue := x25; fe_ShedQueueEffective := x26;
            fe_TenantWake := x27; fe_TenantWakeEffective := x28; fe_BandFallbackReason := x29;
            fe_LlmdHeaders := x30; fe_BandsConfigured := x31; fe_Bands := x32;
            fe_DefaultReservation := x33; fe_DefaultMaxTokens := x34;
            fe_ReservationClampedBurst := x35; fe_ReservationClampedBudget := x36;
            fe_ReservationEpoch := x37; fe_ReservationHeldClaims := x38;
            fe_ReservationHeldTruncated := x39; fe_ReservationHeld := x40;
            fe_ConfigSource := x41; fe_StoreReachable := x42; fe_StoreLastRead := x43;
            fe_Source := x44 |}) |}.
Definition fc_effective_json (r : FcEffective) : gojson :=
  GObj (omit_str "mode" (fe_Mode r)
        ++ omit_int "max_outstanding" (u32 (fe_MaxOutstanding r))
        ++ omit_int "ep_max_inflight" (u32 (fe_EpMaxInflight r))
        ++ omit_int "prefill_max_inflight" (u32 (fe_PrefillMaxInflight r))
        ++ omit_int "decode_max_inflight" (u32 (fe_DecodeMaxInflight r))
        ++ omit_int "queue_depth" (u32 (fe_QueueDepth r))
        ++ omit_int "queue_wait_ms" (u32 (fe_QueueWaitMs r))
        ++ omit_int "inflight" (u32 (fe_Inflight r))
        ++ omit_int "queued" (u32 (fe_Queued r))
        ++ omit_int "queue_memory_bound_mib" (u64 (fe_QueueMemoryBoundMib r))
        ++ omit_int "telemetry_stale_ms" (u32 (fe_TelemetryStaleMs r))
        ++ omit_str "adaptive" (fe_Adaptive r)
        ++ omit_int "warmup_ms" (u32 (fe_WarmupMs r))
        ++ omit_int "ttft_target_ms" (u32 (fe_TtftTargetMs r))
        ++ omit_int "effective_max_outstanding" (u32 (fe_EffectiveMaxOutstanding r))
        ++ omit_str "adapt_state" (fe_AdaptState r)
        ++ omit_str "adapt_reason" (fe_AdaptReason r)
        ++ omit_int "warming_endpoints" (u32 (fe_WarmingEndpoints r))
        ++ omit_int "tenant_max_share_pct" (u32 (fe_TenantMaxSharePct r))
        ++ omit_int "tenants_active" (u32 (fe_TenantsActive r))
        ++ omit_str "expose_headers" (fe_ExposeHeaders r)
        ++ omit_int "tenant_slots" (u32 (fe_TenantSlots r))
        ++ omit_str "wake_policy" (fe_WakePolicy r)
        ++ omit_str "wake_policy_effective" (fe_WakePolicyEffective r)
        ++ omit_bool "weights_in_use" (fe_WeightsInUse r)
        ++ omit_str "shed_queue" (fe_ShedQueue r)
        ++ omit_str "shed_queue_effective" (fe_ShedQueueEffective r)
        ++ omit_str "tenant_wake" (fe_TenantWake r)
        ++ omit_str "tenant_wake_effective" (fe_TenantWakeEffective r)
        ++ omit_str "band_fallback_reason" (fe_BandFallbackReason r)
        ++ omit_str "llmd_headers" (fe_LlmdHeaders r)
        ++ omit_bool "bands_configured" (fe_BandsConfigured r)
        ++ omit_nil "bands" fc_effective_bands_json (fe_Bands r)
        ++ omit_str "default_reservation" (fe_DefaultReservation r)
        ++ omit_int "default_max_tokens" (u32 (fe_DefaultMaxTokens r))
        ++ omit_int "reservation_clamped_burst" (u64 (fe_ReservationClampedBurst r))
        ++ omit_int "reservation_clamped_budget" (u64 (fe_ReservationClampedBudget r))
        ++ omit_int "reservation_epoch" (fe_ReservationEpoch r)
        ++ omit_int "reservation_held_claims" (fe_ReservationHeldClaims r)
        ++ omit_bool "reservation_held_truncated" (fe_ReservationHeldTruncated r)
        ++ omit_list "reservation_held" fc_reservation_held_json (fe_ReservationHeld r)
        ++ omit_str "config_source" (fe_ConfigSource r)
        ++ omit_nil "store_reachable" GBool (fe_StoreReachable r)
        ++ omit_str "store_last_read" (fe_StoreLastRead r)
        ++ omit_nil "source" fc_effective_source_json (fe_Source r)).

Record BackendTLSEffective : Type := {
  bk_Status : string;
  bk_Verify : bool;
  bk_CA : string;
  bk_ClientCert : bool;
  bk_ClientCertID : string;
  bk_ServerName : string;
  bk_Generation : uint32
}.
#[global] Instance backend_tls_effective_value : GoValue BackendTLSEffective := {|
  go_zero := {| bk_Status := ""; bk_Verify := false; bk_CA := ""; bk_ClientCert := false;
                bk_ClientCertID := ""; bk_ServerName := ""; bk_Generation := U32 0 |};
  go_into strict old := decode_struct strict
    ["status"; "verify"; "ca"; "client_cert"; "client_cert_id"; "server_name"; "generation"] old (fun ms =>
    x0 ← field strict ms "status" (bk_Status old);
    x1 ← field strict ms "verify" (bk_Verify old);
    x2 ← field strict ms "ca" (bk_CA old);
    x3 ← field strict ms "client_cert" (bk_ClientCert old);
    x4 ← field strict ms "client_cert_id" (bk_ClientCertID old);
    x5 ← field strict ms "server_name" (bk_ServerName old);
    x6 ← field strict ms "generation" (bk_Generation old);
    Some {| bk_Status := x0; bk_Verify := x1; bk_CA := x2; bk_ClientCert := x3;
            bk_ClientCertID := x4; bk_ServerName := x5; bk_Generation := x6 |}) |}.
Definition backend_tls_effective_json (r : BackendTLSEffective) : gojson :=
  GObj (omit_str "status" (bk_Status r)
        ++ [("verify", GBool (bk_Verify r))]
        ++ omit_str "ca" (bk_CA r)
        ++ [("client_cert", GBool (bk_ClientCert r))]
        ++ omit_str "client_cert_id" (bk_ClientCertID r)
        ++ omit_str "server_name" (bk_ServerName r)
        ++ [("generation", uint32_json (bk_Generation r))]).

Record MtlsFrontend : Type := {
  mf_ClientCertMode : string;
  mf_ClientCAPath : string;
  mf_ClientCACertData : string;
  mf_RequireClientCN : bool;
  mf_ClientCNPattern : string;
  mf_ClientCRLPath : string
}.
#[global] Instance mtls_frontend_value : GoValue MtlsFrontend := {|
  go_zero := {| mf_ClientCertMode := ""; mf_ClientCAPath := ""; mf_ClientCACertData := "";
                mf_RequireClientCN := false; mf_ClientCNPattern := ""; mf_ClientCRLPath := "" |};
  go_into strict old := decode_struct strict
    ["client_cert_mode"; "client_ca_path"; "client_ca_cert_data"; "require_client_cn";
     "client_cn_pattern"; "client_crl_path"] old (fun ms =>
    x0 ← field strict ms "client_cert_mode" (mf_ClientCertMode old);
    x1 ← field strict ms "client_ca_path" (mf_ClientCAPath old);
    x2 ← field strict ms "client_ca_cert_data" (mf_ClientCACertData old);
    x3 ← field strict ms "require_client_cn" (mf_RequireClientCN old);
    x4 ← field strict ms "client_cn_pattern" (mf_ClientCNPattern old);
    x5 ← field strict ms "client_crl_path" (mf_ClientCRLPath old);
    Some {| mf_ClientCertMode := x0; mf_ClientCAPath := x1; mf_ClientCACertData := x2;
            mf_RequireClientCN := x3; mf_ClientCNPattern := x4; mf_ClientCRLPath := x5 |}) |}.
Definition mtls_frontend_json (r : MtlsFrontend) : gojson :=
  GObj (omit_str "client_cert_mode" (mf_ClientCertMode r)
        ++ omit_str "client_ca_path" (mf_ClientCAPath r)
        ++ omit_str "client_ca_cert_data" (mf_ClientCACertData r)
        ++ omit_bool "require_client_cn" (mf_RequireClientCN r)
        ++ omit_str "client_cn_pattern" (mf_ClientCNPattern r)
        ++ omit_str "client_crl_path" (mf_ClientCRLPath r)).

Record MtlsBackend : Type := {
  mb_VerifyServerCert : bool;
  mb_BackendCAPath : string;
  mb_ClientCertPath : string;
  mb_ClientKeyPath : string;
  mb_ClientCertData : string;
  mb_ClientKeyData : string
}.
#[global] Instance mtls_backend_value : GoValue MtlsBackend := {|
  go_zero := {| mb_VerifyServerCert := false; mb_BackendCAPath := ""; mb_ClientCertPath := "";
                mb_ClientKeyPath := ""; mb_ClientCertData := ""; mb_ClientKeyData := "" |};
  go_into strict old := decode_struct strict
    ["verify_server_cert"; "backend_ca_path"; "client_cert_path"; "client_key_path";
     "client_cert_data"; "client_key_data"] old (fun ms =>
    x0 ← field strict ms "verify_server_cert" (mb_VerifyServerCert old);
    x1 ← field strict ms "backend_ca_path" (mb_BackendCAPath old);
    x2 ← field strict ms "client_cert_path" (mb_ClientCertPath old);
    x3 ← field strict ms "client_key_path" (mb_ClientKeyPath old);
    x4 ← field strict ms "client_cert_data" (mb_ClientCertData old);
    x5 ← field strict ms "client_key_data" (mb_ClientKeyData old);
    Some {| mb_VerifyServerCert := x0; mb_BackendCAPath := x1; mb_ClientCertPath := x2;
            mb_ClientKeyPath := x3; mb_ClientCertData := x4; mb_ClientKeyData := x5 |}) |}.
Definition mtls_backend_json (r : MtlsBackend) : gojson :=
  GObj (omit_bool "verify_server_cert" (mb_VerifyServerCert r)
        ++ omit_str "backend_ca_path" (mb_BackendCAPath r)
        ++ omit_str "client_cert_path" (mb_ClientCertPath r)
        ++ omit_str "client_key_path" (mb_ClientKeyPath r)
        ++ omit_str "client_cert_data" (mb_ClientCertData r)
        ++ omit_str "client_key_data" (mb_ClientKeyData r)).

Record LoadBalancerService : Type := {
  sv_ExternalIP : string;
  sv_Port : uint16;
  sv_PortMax : uint16;
  sv_Protocol : string;
  sv_Sel : uint64;
  sv_Mode : int32;
  sv_BGP : bool;
  sv_Monitor : bool;
  sv_Timeout : uint32;
  sv_Block : uint32;
  sv_Managed : bool;
  sv_Name : string;
  sv_Snat : bool;
  sv_Oper : int32;
  sv_Security : int32;
  sv_Host : string;
  sv_PpV2 : bool;
  sv_Egress : bool;
  sv_ConnectionLimit : uint32;
  sv_FcMaxQueueDepth : option uint32;
  sv_FcMaxQueueWaitMs : option uint32;
  sv_FcMode : string;
  sv_FcMaxOutstanding : option uint32;
  sv_FcEpMaxInflight : option uint32;
  sv_FcPrefillMaxInflight : option uint32;
  sv_FcDecodeMaxInflight : option uint32;
  sv_FcTelemetryStaleMs : option uint32;
  sv_FcAdaptive : string;
  sv_FcWarmupMs : option uint32;
  sv_FcTtftTargetMs : option uint32;
  sv_FcTenantMaxSharePct : option uint32;
  sv_FcExposeHeaders : string;
  sv_FcWakePolicy : string;
  sv_FcBandWeights : option BandTriple;
  sv_FcBandMinSharePct : option BandTriple;
  sv_FcCriticalReservePct : option uint32;
  sv_FcBandWaitMs : option BandTriple;
  sv_FcBandQueuePct : option BandTriple;
  sv_FcShedQueue : string;
  sv_FcTenantWake : string;
  sv_FcLlmdHeaders : string;
  sv_AiDefaultReservation : string;
  sv_AiDefaultMaxTokens : option uint32;
  sv_AiObjectiveStrict : option bool;
  sv_FcEffective : option FcEffective;
  sv_ProbeType : string;
  sv_ProbePort : uint16;
  sv_ProbeReq : string;
  sv_ProbeResp : string;
  sv_ProbeTimeout : uint32;
  sv_ProbeRetries : Z;
  sv_ModelName : string;
  sv_PathPrefix : string;
  sv_PathMatchMode : string;
  sv_SessionHdrName : string;
  sv_TraceType : string;
  sv_BackendProtocol : string;
  sv_SockMapMode : string;
  sv_SseMode : bool;
  sv_JWTAuthProfile : string;
  sv_APIKeyAuth : string;
  sv_MaxStreamDurationSec : int32;
  sv_BackendKeepaliveSec : int32;
  sv_CbEnable : bool;
  sv_EppEndpoint : string;
  sv_EppFailureMode : string;
  sv_EppTimeoutMs : Z;
  sv_EppPlaintext : bool;
  sv_ChwblPrefixHashLevel : Z;
  sv_ChwblPrefixHashFlags : Z;
  sv_ChwblMeanLoadFactor : Z;
  sv_ChwblReplication : Z;
  sv_ChwblEnableCacheSalt : bool;
  sv_PdDisaggMode : bool;
  sv_PdCacheAwareMode : bool;
  sv_PdSessionTtlSec : int32;
  sv_PdCacheThreshold : int32;
  sv_PdBalanceAbsThreshold : int32;
  sv_PdBootstrapPort : int32;
  sv_PdPrefillTimeoutSec : int32;
  sv_KvExactMode : Z;
  sv_KvBlockSize : Z;
  sv_KvHashAlgo : string;
  sv_KvZmqPort : Z;
  sv_KvWarmupSec : Z;
  sv_KvEngineType : string;
  sv_KvDpRankCount : int32;
  sv_TimeoutMemberConnect : uint32;
  sv_TimeoutMemberData : uint32;
  sv_TimeoutTcpInspect : uint32;
  sv_AlpnProtocols : list string;
  sv_TLSCiphers : string;
  sv_TLSVersions : list string;
  sv_HstsMaxAge : uint32;
  sv_HstsIncludeSubdomains : bool;
  sv_HstsPreload : bool;
  sv_MtlsFrontend : option MtlsFrontend;
  sv_MtlsBackend : option MtlsBackend;
  sv_BackendCaCertId : string;
  sv_BackendClientCertId : string;
  sv_BackendTLSServerName : string;
  sv_BackendTLSEffective : option BackendTLSEffective
}.
#[global] Instance load_balancer_service_value : GoValue LoadBalancerService := {|
  go_zero := {| sv_ExternalIP := ""; sv_Port := U16 0; sv_PortMax := U16 0; sv_Protocol := "";
                sv_Sel := U64 0; sv_Mode := I32 0; sv_BGP := false; sv_Monitor := false;
                sv_Timeout := U32 0; sv_Block := U32 0; sv_Managed := false; sv_Name := "";
                sv_Snat := false; sv_Oper := I32 0; sv_Security := I32 0; sv_Host := "";
                sv_PpV2 := false; sv_Egress := false; sv_ConnectionLimit := U32 0;
                sv_FcMaxQueueDepth := None; sv_FcMaxQueueWaitMs := None; sv_FcMode := "";
                sv_FcMaxOutstanding := None; sv_FcEpMaxInflight := None;
                sv_FcPrefillMaxInflight := None; sv_FcDecodeMaxInflight := None;
                sv_FcTelemetryStaleMs := None; sv_FcAdaptive := ""; sv_FcWarmupMs := None;
                sv_FcTtftTargetMs := None; sv_FcTenantMaxSharePct := None;
                sv_FcExposeHeaders := ""; sv_FcWakePolicy := ""; sv_FcBandWeights := None;
                sv_FcBandMinSharePct := None; sv_FcCriticalReservePct := None;
                sv_FcBandWaitMs := None; sv_FcBandQueuePct := None; sv_FcShedQueue := "";
                sv_FcTenantWake := ""; sv_FcLlmdHeaders := ""; sv_AiDefaultReservation := "";
                sv_AiDefaultMaxTokens := None; sv_AiObjectiveStrict := None;
                sv_FcEffective := None; sv_ProbeType := ""; sv_ProbePort := U16 0;
                sv_ProbeReq := ""; sv_ProbeResp := ""; sv_ProbeTimeout := U32 0;
                sv_ProbeRetries := 0; sv_ModelName := ""; sv_PathPrefix := "";
                sv_PathMatchMode := ""; sv_SessionHdrName := ""; sv_TraceType := "";
                sv_BackendProtocol := ""; sv_SockMapMode := ""; sv_SseMode := false;
                sv_JWTAuthProfile := ""; sv_APIKeyAuth := ""; sv_MaxStreamDurationSec := I32 0;
                sv_BackendKeepaliveSec := I32 0; sv_CbEnable := false; sv_EppEndpoint := "";
                sv_EppFailureMode := ""; sv_EppTimeoutMs := 0; sv_EppPlaintext := false;
                sv_ChwblPrefixHashLevel := 0; sv_ChwblPrefixHashFlags := 0;
                sv_ChwblMeanLoadFactor := 0; sv_ChwblReplication := 0;
                sv_ChwblEnableCacheSalt := false; sv_PdDisaggMode := false;
                sv_PdCacheAwareMode := false; sv_PdSessionTtlSec := I32 0;
                sv_PdCacheThreshold := I32 0; sv_PdBalanceAbsThreshold := I32 0;
                sv_PdBootstrapPort := I32 0; sv_PdPrefillTimeoutSec := I32 0;
                sv_KvExactMode := 0; sv_KvBlockSize := 0; sv_KvHashAlgo := "";
                sv_KvZmqPort := 0; sv_KvWarmupSec := 0; sv_KvEngineType := "";
                sv_KvDpRankCount := I32 0; sv_TimeoutMemberConnect := U32 0;
                sv_TimeoutMemberData := U32 0; sv_TimeoutTcpInspect := U32 0;
                sv_AlpnProtocols := []; sv_TLSCiphers := ""; sv_TLSVersions := [];
                sv_HstsMaxAge := U32 0; sv_HstsIncludeSubdomains := false;
                sv_HstsPreload := false; sv_MtlsFrontend := None; sv_MtlsBackend := None;
                sv_BackendCaCertId := ""; sv_BackendClientCertId := "";
                sv_BackendTLSServerName := ""; sv_BackendTLSEffective := None |};
  go_into strict old := decode_struct strict
    ["externalIP"; "port"; "portMax"; "protocol"; "sel"; "mode"; "BGP"; "Monitor";
     "inactiveTimeOut"; "block"; "managed"; "name"; "snat"; "oper"; "security"; "host";
     "proxyprotocolv2"; "egress"; "connectionLimit"; "fc_max_queue_depth";
     "fc_max_queue_wait_ms"; "fc_mode"; "fc_max_outstanding"; "fc_ep_max_inflight";
     "fc_prefill_max_inflight"; "fc_decode_max_inflight"; "fc_telemetry_stale_ms";
     "fc_adaptive"; "fc_warmup_ms"; "fc_ttft_target_ms"; "fc_tenant_max_share_pct";
     "fc_expose_headers"; "fc_wake_policy"; "fc_band_weights"; "fc_band_min_share_pct";
     "fc_critical_reserve_pct"; "fc_band_wait_ms"; "fc_band_queue_pct"; "fc_shed_queue";
     "fc_tenant_wake"; "fc_llmd_headers"; "ai_default_reservation"; "ai_default_max_tokens";
     "ai_objective_strict"; "fc_effective"; "probetype"; "probeport"; "probereq"; "proberesp";
     "probeTimeout"; "probeRetries"; "model_name"; "path_prefix"; "path_match_mode";
     "session_header_name"; "trace_type"; "backend_protocol"; "sockMapMode"; "sse_mode";
     "jwt_auth_profile"; "api_key_auth"; "max_stream_duration_sec";
     "backend_keepalive_interval_sec"; "cb_enable"; "eppEndpoint"; "eppFailureMode";
     "eppTimeoutMs"; "eppPlaintext"; "chwbl_prefix_hash_level"; "chwbl_prefix_hash_flags";
     "chwbl_mean_load_factor"; "chwbl_replication"; "chwbl_enable_cache_salt"; "pd_disagg_mode";
     "pd_cache_aware_mode"; "pd_session_ttl_sec"; "pd_cache_threshold";
     "pd_balance_abs_threshold"; "pdBootstrapPort"; "pd_prefill_timeout_sec"; "kvExactMode";
     "kvBlockSize"; "kvHashAlgo"; "kvZmqPort"; "kvWarmupSec"; "kvEngineType"; "kvDpRankCount";
     "timeoutMemberConnect"; "timeoutMemberData"; "timeoutTcpInspect"; "alpn_protocols";
     "tls_ciphers"; "tls_versions"; "hsts_max_age"; "hsts_include_subdomains"; "hsts_preload";
     "mtls_frontend"; "mtls_backend"; "backend_ca_cert_id"; "backend_client_cert_id";
     "backend_tls_server_name"; "backend_tls_effective"] old (fun ms =>
    x0 ← field strict ms "externalIP" (sv_ExternalIP old);
    x1 ← field strict ms "port" (sv_Port old);
    x2 ← field strict ms "portMax" (sv_PortMax old);
    x3 ← field strict ms "protocol" (sv_Protocol old);
    x4 ← field strict ms "sel" (sv_Sel old);
    x5 ← field strict ms "mode" (sv_Mode old);
    x6 ← field strict ms "BGP" (sv_BGP old);
    x7 ← field strict ms "Monitor" (sv_Monitor old);
    x8 ← field strict ms "inactiveTimeOut" (sv_Timeout old);
    x9 ← field strict ms "block" (sv_Block old);
    x10 ← field strict ms "managed" (sv_Managed old);
    x11 ← field strict ms "name" (sv_Name old);
    x12 ← field strict ms "snat" (sv_Snat old);
    x13 ← field strict ms "oper" (sv_Oper old);
    x14 ← field strict ms "security" (sv_Security old);
    x15 ← field strict ms "host" (sv_Host old);
    x16 ← field strict ms "proxyprotocolv2" (sv_PpV2 old);
    x17 ← field strict ms "egress" (sv_Egress old);
    x18 ← field strict ms "connectionLimit" (sv_ConnectionLimit old);
    x19 ← field strict ms "fc_max_queue_depth" (sv_FcMaxQueueDepth old);
    x20 ← field strict ms "fc_max_queue_wait_ms" (sv_FcMaxQueueWaitMs old);
    x21 ← field strict ms "fc_mode" (sv_FcMode old);
    x22 ← field strict ms "fc_max_outstanding" (sv_FcMaxOutstanding old);
    x23 ← field strict ms "fc_ep_max_inflight" (sv_FcEpMaxInflight old);
    x24 ← field strict ms "fc_prefill_max_inflight" (sv_FcPrefillMaxInflight old);
    x25 ← field strict ms "fc_decode_max_inflight" (sv_FcDecodeMaxInflight old);
    x26 ← field strict ms "fc_telemetry_stale_ms" (sv_FcTelemetryStaleMs old);
    x27 ← field strict ms "fc_adaptive" (sv_FcAdaptive old);
    x28 ← field strict ms "fc_warmup_ms" (sv_FcWarmupMs old);
    x29 ← field strict ms "fc_ttft_target_ms" (sv_FcTtftTargetMs old);
    x30 ← field strict ms "fc_tenant_max_share_pct" (sv_FcTenantMaxSharePct old);
    x31 ← field strict ms "fc_expose_headers" (sv_FcExposeHeaders old);
    x32 ← field strict ms "fc_wake_policy" (sv_FcWakePolicy old);
    x33 ← field strict ms "fc_band_weights" (sv_FcBandWeights old);
    x34 ← field strict ms "fc_band_min_share_pct" (sv_FcBandMinSharePct old);
    x35 ← field strict ms "fc_critical_reserve_pct" (sv_FcCriticalReservePct old);
    x36 ← field strict ms "fc_band_wait_ms" (sv_FcBandWaitMs old);
    x37 ← field strict ms "fc_band_queue_pct" (sv_FcBandQueuePct old);
    x38 ← field strict ms "fc_shed_queue" (sv_FcShedQueue old);
    x39 ← field strict ms "fc_tenant_wake" (sv_FcTenantWake old);
    x40 ← field strict ms "fc_llmd_headers" (sv_FcLlmdHeaders old);
    x41 ← field strict ms "ai_default_reservation" (sv_AiDefaultReservation old);
    x42 ← field strict ms "ai_default_max_tokens" (sv_AiDefaultMaxTokens old);
    x43 ← field strict ms "ai_objective_strict" (sv_AiObjectiveStrict old);
    x44 ← field strict ms "fc_effective" (sv_FcEffective old);
    x45 ← field strict ms "probetype" (sv_ProbeType old);
    x46 ← field strict ms "probeport" (sv_ProbePort old);
    x47 ← field strict ms "probereq" (sv_ProbeReq old);
    x48 ← field strict ms "proberesp" (sv_ProbeResp old);
    x49 ← field strict ms "probeTimeout" (sv_ProbeTimeout old);
    x50 ← field strict ms "probeRetries" (sv_ProbeRetries old);
    x51 ← field strict ms "model_name" (sv_ModelName old);
    x52 ← field strict ms "path_prefix" (sv_PathPrefix old);
    x53 ← field strict ms "path_match_mode" (sv_PathMatchMode old);
    x54 ← field strict ms "session_header_name" (sv_SessionHdrName old);
    x55 ← field strict ms "trace_type" (sv_TraceType old);
    x56 ← field strict ms "backend_protocol" (sv_BackendProtocol old);
    x57 ← field strict ms "sockMapMode" (sv_SockMapMode old);
    x58 ← field strict ms "sse_mode" (sv_SseMode old);
    x59 ← field strict ms "jwt_auth_profile" (sv_JWTAuthProfile old);
    x60 ← field strict ms "api_key_auth" (sv_APIKeyAuth old);
    x61 ← field strict ms "max_stream_duration_sec" (sv_MaxStreamDurationSec old);
    x62 ← field strict ms "backend_keepalive_interval_sec" (sv_BackendKeepaliveSec old);
    x63 ← field strict ms "cb_enable" (sv_CbEnable old);
    x64 ← field strict ms "eppEndpoint" (sv_EppEndpoint old);
    x65 ← field strict ms "eppFailureMode" (sv_EppFailureMode old);
    x66 ← field strict ms "eppTimeoutMs" (sv_EppTimeoutMs old);
    x67 ← field strict ms "eppPlaintext" (sv_EppPlaintext old);
    x68 ← field strict ms "chwbl_prefix_hash_level" (sv_ChwblPrefixHashLevel old);
    x69 ← field strict ms "chwbl_prefix_hash_flags" (sv_ChwblPrefixHashFlags old);
    x70 ← field strict ms "chwbl_mean_load_factor" (sv_ChwblMeanLoadFactor old);
    x71 ← field strict ms "chwbl_replication" (sv_ChwblReplication old);
    x72 ← field strict ms "chwbl_enable_cache_salt" (sv_ChwblEnableCacheSalt old);
    x73 ← field strict ms "pd_disagg_mode" (sv_PdDisaggMode old);
    x74 ← field strict ms "pd_cache_aware_mode" (sv_PdCacheAwareMode old);
    x75 ← field strict ms "pd_session_ttl_sec" (sv_PdSessionTtlSec old);
    x76 ← field strict ms "pd_cache_threshold" (sv_PdCacheThreshold old);
    x77 ← field strict ms "pd_balance_abs_threshold" (sv_PdBalanceAbsThreshold old);
    x78 ← field strict ms "pdBootstrapPort" (sv_PdBootstrapPort old);
    x79 ← field strict ms "pd_prefill_timeout_sec" (sv_PdPrefillTimeoutSec old);
    x80 ← field strict ms "kvExactMode" (sv_KvExactMode old);
    x81 ← field strict ms "kvBlockSize" (sv_KvBlockSize old);
    x82 ← field strict ms "kvHashAlgo" (sv_KvHashAlgo old);
    x83 ← field strict ms "kvZmqPort" (sv_KvZmqPort old);
    x84 ← field strict ms "kvWarmupSec" (sv_KvWarmupSec old);
    x85 ← field strict ms "kvEngineType" (sv_KvEngineType old);
    x86 ← field strict ms "kvDpRankCount" (sv_KvDpRankCount old);
    x87 ← field strict ms "timeoutMemberConnect" (sv_TimeoutMemberConnect old);
    x88 ← field strict ms "timeoutMemberData" (sv_TimeoutMemberData old);
    x89 ← field strict ms "timeoutTcpInspect" (sv_TimeoutTcpInspect old);
    x90 ← field strict ms "alpn_protocols" (sv_AlpnProtocols old);
    x91 ← field strict ms "tls_ciphers" (sv_TLSCiphers old);
    x92 ← field strict ms "tls_versions" (sv_TLSVersions old);
    x93 ← field strict ms "hsts_max_age" (sv_HstsMaxAge old);
    x94 ← field strict ms "hsts_include_subdomains" (sv_HstsIncludeSubdomains old);
    x95 ← field strict ms "hsts_preload" (sv_HstsPreload old);
    x96 ← field strict ms "mtls_frontend" (sv_MtlsFrontend old);
    x97 ← field strict ms "mtls_backend" (sv_MtlsBackend old);
    x98 ← field strict ms "backend_ca_cert_id" (sv_BackendCaCertId old);
    x99 ← field strict ms "backend_client_cert_id" (sv_BackendClientCertId old);
    x100 ← field strict ms "backend_tls_server_name" (sv_BackendTLSServerName old);
    x101 ← field strict ms "backend_tls_effective" (sv_BackendTLSEffective old);
    Some {| sv_ExternalIP := x0; sv_Port := x1; sv_PortMax := x2; sv_Protocol := x3;
            sv_Sel := x4; sv_Mode := x5; sv_BGP := x6; sv_Monitor := x7; sv_Timeout := x8;
            sv_Block := x9; sv_Managed := x10; sv_Name := x11; sv_Snat := x12; sv_Oper := x13;
            sv_Security := x14; sv_Host := x15; sv_PpV2 := x16; sv_Egress := x17;
            sv_ConnectionLimit := x18; sv_FcMaxQueueDepth := x19; sv_FcMaxQueueWaitMs := x20;
            sv_FcMode := x21; sv_FcMaxOutstanding := x22; sv_FcEpMaxInflight := x23;
            sv_FcPrefillMaxInflight := x24; sv_FcDecodeMaxInflight := x25;
            sv_FcTelemetryStaleMs := x26; sv_FcAdaptive := x27; sv_FcWarmupMs := x28;
            sv_FcTtftTargetMs := x29; sv_FcTenantMaxSharePct := x30; sv_FcExposeHeaders := x31;
            sv_FcWakePolicy := x32; sv_FcBandWeights := x33; sv_FcBandMinSharePct := x34;
            sv_FcCriticalReservePct := x35; sv_FcBandWaitMs := x36; sv_FcBandQueuePct := x37;
            sv_FcShedQueue := x38; sv_FcTenantWake := x39; sv_FcLlmdHeaders := x40;
            sv_AiDefaultReservation := x41; sv_AiDefaultMaxTokens := x42;
            sv_AiObjectiveStrict := x43; sv_FcEffective := x44; sv_ProbeType := x45;
            sv_ProbePort := x46; sv_ProbeReq := x47; sv_ProbeResp := x48;
            sv_ProbeTimeout := x49; sv_ProbeRetries := x50; sv_ModelName := x51;
            sv_PathPrefix := x52; sv_PathMatchMode := x53; sv_SessionHdrName := x54;
            sv_TraceType := x55; sv_BackendProtocol := x56; sv_SockMapMode := x57;
            sv_SseMode := x58; sv_JWTAuthProfile := x59; sv_APIKeyAuth := x60;
            sv_MaxStreamDurationSec := x61; sv_BackendKeepaliveSec := x62; sv_CbEnable := x63;
            sv_EppEndpoint := x64; sv_EppFailureMode := x65; sv_EppTimeoutMs := x66;
            sv_EppPlaintext := x67; sv_ChwblPrefixHashLevel := x68;
            sv_ChwblPrefixHashFlags := x69; sv_ChwblMeanLoadFactor := x70;
            sv_ChwblReplication := x71; sv_ChwblEnableCacheSalt := x72; sv_PdDisaggMode := x73;
            sv_PdCacheAwareMode := x74; sv_PdSessionTtlSec := x75; sv_PdCacheThreshold := x76;
            sv_PdBalanceAbsThreshold := x77; sv_PdBootstrapPort := x78;
            sv_PdPrefillTimeoutSec := x79; sv_KvExactMode := x80; sv_KvBlockSize := x81;
            sv_KvHashAlgo := x82; sv_KvZmqPort := x83; sv_KvWarmupSec := x84;
            sv_KvEngineType := x85; sv_KvDpRankCount := x86; sv_TimeoutMemberConnect := x87;
            sv_TimeoutMemberData := x88; sv_TimeoutTcpInspect := x89; sv_AlpnProtocols := x90;
            sv_TLSCiphers := x91; sv_TLSVersions := x92; sv_HstsMaxAge := x93;
            sv_HstsIncludeSubdomains := x94; sv_HstsPreload := x95; sv_MtlsFrontend := x96;
            sv_MtlsBackend := x97; sv_BackendCaCertId := x98; sv_BackendClientCertId := x99;
            sv_BackendTLSServerName := x100; sv_BackendTLSEffective := x101 |}) |}.
Definition load_balancer_service_json (r : LoadBalancerService) : gojson :=
  GObj ([("externalIP", GStr (sv_ExternalIP r));
         ("port", uint16_json (sv_Port r))]
        ++ omit_int "portMax" (u16 (sv_PortMax r))
        ++ [("protocol", GStr (sv_Protocol r));
         ("sel", uint64_json (sv_Sel r));
         ("mode", int32_json (sv_Mode r));
         ("BGP", GBool (sv_BGP r));
         ("Monitor", GBool (sv_Monitor r));
         ("inactiveTimeOut", uint32_json (sv_Timeout r));
         ("block", uint32_json (sv_Block r))]
        ++ omit_bool "managed" (sv_Managed r)
        ++ omit_str "name" (sv_Name r)
        ++ omit_bool "snat" (sv_Snat r)
        ++ omit_int "oper" (i32 (sv_Oper r))
        ++ omit_int "security" (i32 (sv_Security r))
        ++ omit_str "host" (sv_Host r)
        ++ [("proxyprotocolv2", GBool (sv_PpV2 r));
         ("egress", GBool (sv_Egress r))]
        ++ omit_int "connectionLimit" (u32 (sv_ConnectionLimit r))
        ++ omit_nil "fc_max_queue_depth" uint32_json (sv_FcMaxQueueDepth r)
        ++ omit_nil "fc_max_queue_wait_ms" uint32_json (sv_FcMaxQueueWaitMs r)
        ++ omit_str "fc_mode" (sv_FcMode r)
        ++ omit_nil "fc_max_outstanding" uint32_json (sv_FcMaxOutstanding r)
        ++ omit_nil "fc_ep_max_inflight" uint32_json (sv_FcEpMaxInflight r)
        ++ omit_nil "fc_prefill_max_inflight" uint32_json (sv_FcPrefillMaxInflight r)
        ++ omit_nil "fc_decode_max_inflight" uint32_json (sv_FcDecodeMaxInflight r)
        ++ omit_nil "fc_telemetry_stale_ms" uint32_json (sv_FcTelemetryStaleMs r)
        ++ omit_str "fc_adaptive" (sv_FcAdaptive r)
        ++ omit_nil "fc_warmup_ms" uint32_json (sv_FcWarmupMs r)
        ++ omit_nil "fc_ttft_target_ms" uint32_json (sv_FcTtftTargetMs r)
        ++ omit_nil "fc_tenant_max_share_pct" uint32_json (sv_FcTenantMaxSharePct r)
        ++ omit_str "fc_expose_headers" (sv_FcExposeHeaders r)
        ++ omit_str "fc_wake_policy" (sv_FcWakePolicy r)
        ++ omit_nil "fc_band_weights" triple_json (sv_FcBandWeights r)
        ++ omit_nil "fc_band_min_share_pct" triple_json (sv_FcBandMinSharePct r)
        ++ omit_nil "fc_critical_reserve_pct" uint32_json (sv_FcCriticalReservePct r)
        ++ omit_nil "fc_band_wait_ms" triple_json (sv_FcBandWaitMs r)
        ++ omit_nil "fc_band_queue_pct" triple_json (sv_FcBandQueuePct r)
        ++ omit_str "fc_shed_queue" (sv_FcShedQueue r)
        ++ omit_str "fc_tenant_wake" (sv_FcTenantWake r)
        ++ omit_str "fc_llmd_headers" (sv_FcLlmdHeaders r)
        ++ omit_str "ai_default_reservation" (sv_AiDefaultReservation r)
        ++ omit_nil "ai_default_max_tokens" uint32_json (sv_AiDefaultMaxTokens r)
        ++ omit_nil "ai_objective_strict" GBool (sv_AiObjectiveStrict r)
        ++ omit_nil "fc_effective" fc_effective_json (sv_FcEffective r)
        ++ omit_str "probetype" (sv_ProbeType r)
        ++ omit_int "probeport" (u16 (sv_ProbePort r))
        ++ omit_str "probereq" (sv_ProbeReq r)
        ++ omit_str "proberesp" (sv_ProbeResp r)
        ++ omit_int "probeTimeout" (u32 (sv_ProbeTimeout r))
        ++ omit_int "probeRetries" (sv_ProbeRetries r)
        ++ omit_str "model_name" (sv_ModelName r)
        ++ omit_str "path_prefix" (sv_PathPrefix r)
        ++ omit_str "path_match_mode" (sv_PathMatchMode r)
        ++ omit_str "session_header_name" (sv_SessionHdrName r)
        ++ omit_str "trace_type" (sv_TraceType r)
        ++ omit_str "backend_protocol" (sv_BackendProtocol r)
        ++ omit_str "sockMapMode" (sv_SockMapMode r)
        ++ omit_bool "sse_mode" (sv_SseMode r)
        ++ omit_str "jwt_auth_profile" (sv_JWTAuthProfile r)
        ++ omit_str "api_key_auth" (sv_APIKeyAuth r)
        ++ omit_int "max_stream_duration_sec" (i32 (sv_MaxStreamDurationSec r))
        ++ omit_int "backend_keepalive_interval_sec" (i32 (sv_BackendKeepaliveSec r))
        ++ omit_bool "cb_enable" (sv_CbEnable r)
        ++ omit_str "eppEndpoint" (sv_EppEndpoint r)
        ++ omit_str "eppFailureMode" (sv_EppFailureMode r)
        ++ omit_int "eppTimeoutMs" (sv_EppTimeoutMs r)
        ++ omit_bool "eppPlaintext" (sv_EppPlaintext r)
        ++ omit_int "chwbl_prefix_hash_level" (sv_ChwblPrefixHashLevel r)
        ++ omit_int "chwbl_prefix_hash_flags" (sv_ChwblPrefixHashFlags r)
        ++ omit_int "chwbl_mean_load_factor" (sv_ChwblMeanLoadFactor r)
        ++ omit_int "chwbl_replication" (sv_ChwblReplication r)
        ++ omit_bool "chwbl_enable_cache_salt" (sv_ChwblEnableCacheSalt r)
        ++ omit_bool "pd_disagg_mode" (sv_PdDisaggMode r)
        ++ omit_bool "pd_cache_aware_mode" (sv_PdCacheAwareMode r)
        ++ omit_int "pd_session_ttl_sec" (i32 (sv_PdSessionTtlSec r))
        ++ omit_int "pd_cache_threshold" (i32 (sv_PdCacheThreshold r))
        ++ omit_int "pd_balance_abs_threshold" (i32 (sv_PdBalanceAbsThreshold r))
        ++ omit_int "pdBootstrapPort" (i32 (sv_PdBootstrapPort r))
        ++ omit_int "pd_prefill_timeout_sec" (i32 (sv_PdPrefillTimeoutSec r))
        ++ omit_int "kvExactMode" (sv_KvExactMode r)
        ++ omit_int "kvBlockSize" (sv_KvBlockSize r)
        ++ omit_str "kvHashAlgo" (sv_KvHashAlgo r)
        ++ omit_int "kvZmqPort" (sv_KvZmqPort r)
        ++ omit_int "kvWarmupSec" (sv_KvWarmupSec r)
        ++ omit_str "kvEngineType" (sv_KvEngineType r)
        ++ omit_int "kvDpRankCount" (i32 (sv_KvDpRankCount r))
        ++ omit_int "timeoutMemberConnect" (u32 (sv_TimeoutMemberConnect r))
        ++ omit_int "timeoutMemberData" (u32 (sv_TimeoutMemberData r))
        ++ omit_int "timeoutTcpInspect" (u32 (sv_TimeoutTcpInspect r))
        ++ omit_list "alpn_protocols" GStr (sv_AlpnProtocols r)
        ++ omit_str "tls_ciphers" (sv_TLSCiphers r)
        ++ omit_list "tls_versions" GStr (sv_TLSVersions r)
        ++ omit_int "hsts_max_age" (u32 (sv_HstsMaxAge r))
        ++ omit_bool "hsts_include_subdomains" (sv_HstsIncludeSubdomains r)
        ++ omit_bool "hsts_preload" (sv_HstsPreload r)
        ++ omit_nil "mtls_frontend" mtls_frontend_json (sv_MtlsFrontend r)
        ++ omit_nil "mtls_backend" mtls_backend_json (sv_MtlsBackend r)
        ++ omit_str "backend_ca_cert_id" (sv_BackendCaCertId r)
        ++ omit_str "backend_client_cert_id" (sv_BackendClientCertId r)
        ++ omit_str "backend_tls_server_name" (sv_BackendTLSServerName r)
        ++ omit_nil "backend_tls_effective" backend_tls_effective_json (sv_BackendTLSEffective r)).

Record LoadBalancerEndpoint : Type := {
  ep_EndpointIP : string;
  ep_TargetPort : uint16;
  ep_Weight : uint8;
  ep_State : string;
  ep_Counter : string;
  ep_EpRole : int32;
  ep_NixlPort : int32
}.
#[global] Instance load_balancer_endpoint_value : GoValue LoadBalancerEndpoint := {|
  go_zero := {| ep_EndpointIP := ""; ep_TargetPort := U16 0; ep_Weight := U8 0; ep_State := "";
                ep_Counter := ""; ep_EpRole := I32 0; ep_NixlPort := I32 0 |};
  go_into strict old := decode_struct strict
    ["endpointIP"; "targetPort"; "weight"; "state"; "counter"; "ep_role"; "nixl_port"] old (fun ms =>
    x0 ← field strict ms "endpointIP" (ep_EndpointIP old);
    x1 ← field strict ms "targetPort" (ep_TargetPort old);
    x2 ← field strict ms "weight" (ep_Weight old);
    x3 ← field strict ms "state" (ep_State old);
    x4 ← field strict ms "counter" (ep_Counter old);
    x5 ← field strict ms "ep_role" (ep_EpRole old);
    x6 ← field strict ms "nixl_port" (ep_NixlPort old);
    Some {| ep_EndpointIP := x0; ep_TargetPort := x1; ep_Weight := x2; ep_State := x3;
            ep_Counter := x4; ep_EpRole := x5; ep_NixlPort := x6 |}) |}.
Definition load_balancer_endpoint_json (r : LoadBalancerEndpoint) : gojson :=
  GObj ([("endpointIP", GStr (ep_EndpointIP r));
         ("targetPort", uint16_json (ep_TargetPort r));
         ("weight", uint8_json (ep_Weight r));
         ("state", GStr (ep_State r));
         ("counter", GStr (ep_Counter r))]
        ++ omit_int "ep_role" (i32 (ep_EpRole r))
        ++ omit_int "nixl_port" (i32 (ep_NixlPort r))).

Record LoadBalancerSecIp : Type := {
  si_SecondaryIP : string
}.
#[global] Instance load_balancer_sec_ip_value : GoValue LoadBalancerSecIp := {|
  go_zero := {| si_SecondaryIP := "" |};
  go_into strict old := decode_struct strict
    ["secondaryIP"] old (fun ms =>
    x0 ← field strict ms "secondaryIP" (si_SecondaryIP old);
    Some {| si_SecondaryIP := x0 |}) |}.
Definition load_balancer_sec_ip_json (r : LoadBalancerSecIp) : gojson :=
  GObj [("secondaryIP", GStr (si_SecondaryIP r))].

Record LbAllowedSrcIPArg : Type := {
  al_Prefix : string
}.
#[global] Instance lb_allowed_src_ip_arg_value : GoValue LbAllowedSrcIPArg := {|
  go_zero := {| al_Prefix := "" |};
  go_into strict old := decode_struct strict
    ["prefix"] old (fun ms =>
    x0 ← field strict ms "prefix" (al_Prefix old);
    Some {| al_Prefix := x0 |}) |}.
Definition lb_allowed_src_ip_arg_json (r : LbAllowedSrcIPArg) : gojson :=
  GObj [("prefix", GStr (al_Prefix r))].

Record LoadBalancerModel : Type := {
  lm_Service : LoadBalancerService;
  lm_SecondaryIPs : option (list LoadBalancerSecIp);
  lm_SrcIPs : option (list LbAllowedSrcIPArg);
  lm_Endpoints : option (list LoadBalancerEndpoint)
}.
#[global] Instance load_balancer_model_value : GoValue LoadBalancerModel := {|
  go_zero := {| lm_Service := go_zero; lm_SecondaryIPs := None; lm_SrcIPs := None;
                lm_Endpoints := None |};
  go_into strict old := decode_struct strict
    ["serviceArguments"; "secondaryIPs"; "allowedSources"; "endpoints"] old (fun ms =>
    x0 ← field strict ms "serviceArguments" (lm_Service old);
    x1 ← field strict ms "secondaryIPs" (lm_SecondaryIPs old);
    x2 ← field strict ms "allowedSources" (lm_SrcIPs old);
    x3 ← field strict ms "endpoints" (lm_Endpoints old);
    Some {| lm_Service := x0; lm_SecondaryIPs := x1; lm_SrcIPs := x2; lm_Endpoints := x3 |}) |}.
Definition load_balancer_model_json (r : LoadBalancerModel) : gojson :=
  GObj [("serviceArguments", load_balancer_service_json (lm_Service r));
        ("secondaryIPs", slice_json load_balancer_sec_ip_json (lm_SecondaryIPs r));
        ("allowedSources", slice_json lb_allowed_src_ip_arg_json (lm_SrcIPs r));
        ("endpoints", slice_json load_balancer_endpoint_json (lm_Endpoints r))].

Record LbRuleModGet : Type := {
  lg_LbRules : option (list LoadBalancerModel)
}.
#[global] Instance lb_rule_mod_get_value : GoValue LbRuleModGet := {|
  go_zero := {| lg_LbRules := None |};
  go_into strict old := decode_struct strict
    ["lbAttr"] old (fun ms =>
    x0 ← field strict ms "lbAttr" (lg_LbRules old);
    Some {| lg_LbRules := x0 |}) |}.
Definition lb_rule_mod_get_json (r : LbRuleModGet) : gojson :=
  GObj [("lbAttr", slice_json load_balancer_model_json (lg_LbRules r))].
