(* ===== verification/LbOptions.v ===== *)
(** * The flags of a load balancer rule: [cmd/create/create_loadbalancer.go]

    The options of [create lb] and the checks on them: enumerated values,
    ranges, and the relations between flags that hold before any request. *)
From S2P Require Import Prelude GoStrings Json Fields BandTriple.

Record CreateLoadBalancerOptions : Type := {
  lb_ExternalIP : string;
  lb_TCP : list string;
  lb_UDP : list string;
  lb_ICMP : bool;
  lb_Mode : string;
  lb_BGP : bool;
  lb_Security : string;
  lb_Monitor : bool;
  lb_Attach : bool;
  lb_Detach : bool;
  lb_Timeout : uint32;
  lb_Mark : uint32;
  lb_SCTP : list string;
  lb_Endpoints : list string;
  lb_SecIPs : list string;
  lb_Select : string;
  lb_Name : string;
  lb_Host : string;
  lb_AllowedSources : list string;
  lb_PPv2En : bool;
  lb_Egress : bool;
  lb_ConnectionLimit : uint32;
  lb_FcMaxQueueDepth : uint32;
  lb_FcMaxQueueWaitMs : uint32;
  lb_FcMaxQueueDepthSet : bool;
  lb_FcMaxQueueWaitMsSet : bool;
  lb_FcMode : string;
  lb_FcMaxOutstanding : uint32;
  lb_FcEpMaxInflight : uint32;
  lb_FcPrefillMaxInflight : uint32;
  lb_FcDecodeMaxInflight : uint32;
  lb_FcTelemetryStaleMs : uint32;
  lb_FcMaxOutstandingSet : bool;
  lb_FcEpMaxInflightSet : bool;
  lb_FcPrefillMaxInflightSet : bool;
  lb_FcDecodeMaxInflightSet : bool;
  lb_FcTelemetryStaleMsSet : bool;
  lb_FcAdaptive : string;
  lb_FcWarmupMs : uint32;
  lb_FcTtftTargetMs : uint32;
  lb_FcWarmupMsSet : bool;
  lb_FcTtftTargetMsSet : bool;
  lb_FcTenantMaxSharePct : uint32;
  lb_FcTenantMaxSharePctSet : bool;
  lb_FcExposeHeaders : string;
  lb_FcWakePolicy : string;
  lb_FcBandWeights : BandTriple;
  lb_FcBandMinSharePct : BandTriple;
  lb_FcCriticalReservePct : uint32;
  lb_FcBandWaitMs : BandTriple;
  lb_FcBandQueuePct : BandTriple;
  lb_FcShedQueue : string;
  lb_FcTenantWake : string;
  lb_FcLlmdHeaders : string;
  lb_FcBandWeightsSet : bool;
  lb_FcBandMinSharePctSet : bool;
  lb_FcCriticalReservePctSet : bool;
  lb_FcBandWaitMsSet : bool;
  lb_FcBandQueuePctSet : bool;
  lb_AiDefaultReservation : string;
  lb_AiDefaultMaxTokens : uint32;
  lb_AiObjectiveStrict : bool;
  lb_AiDefaultMaxTokensSet : bool;
  lb_AiObjectiveStrictSet : bool;
  lb_ProbeType : string;
  lb_ProbePort : uint16;
  lb_ProbeReq : string;
  lb_ProbeTimeout : uint32;
  lb_ProbeRetries : Z;
  lb_ModelName : string;
  lb_PathPrefix : string;
  lb_PathMatchMode : string;
  lb_SessionHeaderName : string;
  lb_TraceType : string;
  lb_BackendProtocol : string;
  lb_SockMapMode : string;
  lb_SseMode : bool;
  lb_JWTAuthProfile : string;
  lb_APIKeyAuth : string;
  lb_MaxStreamDurationSec : int32;
  lb_BackendKeepaliveSec : int32;
  lb_CbEnable : bool;
  lb_EppEndpoint : string;
  lb_EppFailureMode : string;
  lb_EppTimeoutMs : Z;
  lb_EppPlaintext : bool;
  lb_ChwblPrefixHashLevel : Z;
  lb_ChwblPrefixHashFlags : Z;
  lb_ChwblMeanLoadFactor : Z;
  lb_ChwblReplication : Z;
  lb_ChwblEnableCacheSalt : bool;
  lb_PdDisaggMode : bool;
  lb_PdCacheAwareMode : bool;
  lb_PdSessionTtlSec : int32;
  lb_PdCacheThreshold : int32;
  lb_PdBalanceAbsThreshold : int32;
  lb_PdBootstrapPort : int32;
  lb_PdPrefillTimeoutSec : int32;
  lb_KvExactMode : Z;
  lb_KvBlockSize : Z;
  lb_KvHashAlgo : string;
  lb_KvZmqPort : Z;
  lb_KvWarmupSec : Z;
  lb_KvEngineType : string;
  lb_KvDpRankCount : int32;
  lb_EpRoles : list string;
  lb_NixlPorts : list Z;
  lb_HstsMaxAge : uint32;
  lb_HstsIncludeSubdomains : bool;
  lb_HstsPreload : bool;
  lb_MtlsClientCertMode : string;
  lb_MtlsClientCAPath : string;
  lb_MtlsRequireClientCN : bool;
  lb_MtlsClientCNPattern : string;
  lb_MtlsClientCRLPath : string;
  lb_MtlsBackendVerifyServer : bool;
  lb_MtlsBackendCAPath : string;
  lb_MtlsBackendClientCertPath : string;
  lb_MtlsBackendClientKeyPath : string;
  lb_BackendCaCertId : string;
  lb_BackendClientCertId : string;
  lb_BackendTLSServerName : string
}.

(** Every flag at its zero value. *)
Definition no_options : CreateLoadBalancerOptions :=
  {| lb_ExternalIP := ""; lb_TCP := []; lb_UDP := []; lb_ICMP := false; lb_Mode := "";
     lb_BGP := false; lb_Security := ""; lb_Monitor := false; lb_Attach := false;
     lb_Detach := false; lb_Timeout := U32 0; lb_Mark := U32 0; lb_SCTP := [];
     lb_Endpoints := []; lb_SecIPs := []; lb_Select := ""; lb_Name := ""; lb_Host := "";
     lb_AllowedSources := []; lb_PPv2En := false; lb_Egress := false;
     lb_ConnectionLimit := U32 0; lb_FcMaxQueueDepth := U32 0; lb_FcMaxQueueWaitMs := U32 0;
     lb_FcMaxQueueDepthSet := false; lb_FcMaxQueueWaitMsSet := false; lb_FcMode := "";
     lb_FcMaxOutstanding := U32 0; lb_FcEpMaxInflight := U32 0;
     lb_FcPrefillMaxInflight := U32 0; lb_FcDecodeMaxInflight := U32 0;
     lb_FcTelemetryStaleMs := U32 0; lb_FcMaxOutstandingSet := false;
     lb_FcEpMaxInflightSet := false; lb_FcPrefillMaxInflightSet := false;
     lb_FcDecodeMaxInflightSet := false; lb_FcTelemetryStaleMsSet := false; lb_FcAdaptive := "";
     lb_FcWarmupMs := U32 0; lb_FcTtftTargetMs := U32 0; lb_FcWarmupMsSet := false;
     lb_FcTtftTargetMsSet := false; lb_FcTenantMaxSharePct := U32 0;
     lb_FcTenantMaxSharePctSet := false; lb_FcExposeHeaders := ""; lb_FcWakePolicy := "";
     lb_FcBandWeights := go_zero; lb_FcBandMinSharePct := go_zero;
     lb_FcCriticalReservePct := U32 0; lb_FcBandWaitMs := go_zero; lb_FcBandQueuePct := go_zero;
     lb_FcShedQueue := ""; lb_FcTenantWake := ""; lb_FcLlmdHeaders := "";
     lb_FcBandWeightsSet := false; lb_FcBandMinSharePctSet := false;
     lb_FcCriticalReservePctSet := false; lb_FcBandWaitMsSet := false;
     lb_FcBandQueuePctSet := false; lb_AiDefaultReservation := "";
     lb_AiDefaultMaxTokens := U32 0; lb_AiObjectiveStrict := false;
     lb_AiDefaultMaxTokensSet := false; lb_AiObjectiveStrictSet := false; lb_ProbeType := "";
     lb_ProbePort := U16 0; lb_ProbeReq := ""; lb_ProbeTimeout := U32 0; lb_ProbeRetries := 0;
     lb_ModelName := ""; lb_PathPrefix := ""; lb_PathMatchMode := "";
     lb_SessionHeaderName := ""; lb_TraceType := ""; lb_BackendProtocol := "";
     lb_SockMapMode := ""; lb_SseMode := false; lb_JWTAuthProfile := ""; lb_APIKeyAuth := "";
     lb_MaxStreamDurationSec := I32 0; lb_BackendKeepaliveSec := I32 0; lb_CbEnable := false;
     lb_EppEndpoint := ""; lb_EppFailureMode := ""; lb_EppTimeoutMs := 0;
     lb_EppPlaintext := false; lb_ChwblPrefixHashLevel := 0; lb_ChwblPrefixHashFlags := 0;
     lb_ChwblMeanLoadFactor := 0; lb_ChwblReplication := 0; lb_ChwblEnableCacheSalt := false;
     lb_PdDisaggMode := false; lb_PdCacheAwareMode := false; lb_PdSessionTtlSec := I32 0;
     lb_PdCacheThreshold := I32 0; lb_PdBalanceAbsThreshold := I32 0;
     lb_PdBootstrapPort := I32 0; lb_PdPrefillTimeoutSec := I32 0; lb_KvExactMode := 0;
     lb_KvBlockSize := 0; lb_KvHashAlgo := ""; lb_KvZmqPort := 0; lb_KvWarmupSec := 0;
     lb_KvEngineType := ""; lb_KvDpRankCount := I32 0; lb_EpRoles := []; lb_NixlPorts := [];
     lb_HstsMaxAge := U32 0; lb_HstsIncludeSubdomains := false; lb_HstsPreload := false;
     lb_MtlsClientCertMode := ""; lb_MtlsClientCAPath := ""; lb_MtlsRequireClientCN := false;
     lb_MtlsClientCNPattern := ""; lb_MtlsClientCRLPath := "";
     lb_MtlsBackendVerifyServer := false; lb_MtlsBackendCAPath := "";
     lb_MtlsBackendClientCertPath := ""; lb_MtlsBackendClientKeyPath := "";
     lb_BackendCaCertId := ""; lb_BackendClientCertId := ""; lb_BackendTLSServerName := "" |}.

(* ------------------------------------------------------------------ *)
(** ** Enumerations                                                    *)
(* ------------------------------------------------------------------ *)

Definition SelectToNum (sel : string) : Z :=
  if streq sel "rr" then 0
  else if streq sel "hash" then 1
  else if streq sel "priority" then 2
  else if streq sel "persist" then 3
  else if streq sel "lc" then 4
  else if streq sel "n2" then 5
  else if streq sel "n3" then 6
  else if streq sel "chwbl" then 8
  else if streq sel "gpuaware" then 9
  else if str_in sel ["wrr-hash"; "chwbl-wrr"] then 10
  else 0.

Definition EpRoleToNum (role : string) : result string Z :=
  let r := to_lower (trim_space role) in
  if str_in r [""; "normal"; "0"] then Ok 0%Z
  else if str_in r ["prefill"; "1"] then Ok 1%Z
  else if str_in r ["decode"; "2"] then Ok 2%Z
  else Err (sprintf ["endpoint role '"; role; "' is invalid (want normal|prefill|decode)"]).

Definition ModeToNum (sel : string) : Z :=
  if streq sel "onearm" then 1
  else if streq sel "fullnat" then 2
  else if streq sel "dsr" then 3
  else if streq sel "fullproxy" then 4
  else if streq sel "hostonearm" then 5
  else 0.

Definition SecStringToNum (sec : string) : Z :=
  if str_in sec ["https"; "tls"] then 1
  else if str_in sec ["e2ehttps"; "e2etls"] then 2
  else 0.

(* ------------------------------------------------------------------ *)
(** ** What is asked for                                               *)
(* ------------------------------------------------------------------ *)

Notation given s := (negb (is_empty s)).
Notation nonzero z := (negb (z =? 0)%Z).
Definition any {A} (l : list A) : bool := match l with [] => false | _ => true end.

Definition lbMtlsFrontendRequested (o : CreateLoadBalancerOptions) : bool :=
  given (lb_MtlsClientCertMode o) || given (lb_MtlsClientCAPath o) || lb_MtlsRequireClientCN o
  || given (lb_MtlsClientCNPattern o) || given (lb_MtlsClientCRLPath o).

Definition lbBackendTLSRequested (o : CreateLoadBalancerOptions) : bool :=
  given (lb_BackendCaCertId o) || given (lb_BackendClientCertId o) || given (lb_BackendTLSServerName o).

Definition lbAIRequested (o : CreateLoadBalancerOptions) : bool :=
  let sel := SelectToNum (lb_Select o) in
  given (lb_ModelName o) || given (lb_PathPrefix o) || given (lb_PathMatchMode o)
  || given (lb_SessionHeaderName o) || given (lb_TraceType o) || given (lb_SockMapMode o)
  || lb_SseMode o || given (lb_APIKeyAuth o) || given (lb_JWTAuthProfile o)
  || nonzero (i32 (lb_MaxStreamDurationSec o)) || nonzero (i32 (lb_BackendKeepaliveSec o))
  || lb_CbEnable o
  || given (lb_EppEndpoint o)
  || nonzero (lb_ChwblPrefixHashLevel o) || nonzero (lb_ChwblPrefixHashFlags o)
  || nonzero (lb_ChwblMeanLoadFactor o) || nonzero (lb_ChwblReplication o)
  || lb_ChwblEnableCacheSalt o
  || lb_PdDisaggMode o || lb_PdCacheAwareMode o || nonzero (i32 (lb_PdSessionTtlSec o))
  || nonzero (i32 (lb_PdCacheThreshold o)) || nonzero (i32 (lb_PdBalanceAbsThreshold o))
  || nonzero (i32 (lb_PdBootstrapPort o)) || nonzero (i32 (lb_PdPrefillTimeoutSec o))
  || nonzero (lb_KvExactMode o) || nonzero (lb_KvBlockSize o) || given (lb_KvHashAlgo o)
  || nonzero (lb_KvZmqPort o) || nonzero (lb_KvWarmupSec o) || given (lb_KvEngineType o)
  || nonzero (i32 (lb_KvDpRankCount o))
  || any (lb_EpRoles o) || any (lb_NixlPorts o)
  || nonzero (u32 (lb_HstsMaxAge o)) || lb_HstsIncludeSubdomains o || lb_HstsPreload o
  || lbMtlsFrontendRequested o || lbBackendTLSRequested o
  || (sel =? 8)%Z || (sel =? 9)%Z || (sel =? 10)%Z.

Definition lbBandsRequested (o : CreateLoadBalancerOptions) : bool :=
  given (lb_FcWakePolicy o) || lb_FcBandWeightsSet o || lb_FcBandMinSharePctSet o
  || lb_FcCriticalReservePctSet o || lb_FcBandWaitMsSet o || lb_FcBandQueuePctSet o
  || given (lb_FcShedQueue o) || given (lb_FcTenantWake o) || given (lb_FcLlmdHeaders o).

(* ------------------------------------------------------------------ *)
(** ** The checks                                                      *)
(* ------------------------------------------------------------------ *)

Definition fcMaxQueueDepthCeiling : Z := 65536.
Definition fcMaxQueueWaitMsCeiling : Z := 3600000.
Definition fcCapCeiling : Z := 100000.
Definition fcTelemetryStaleCeiling : Z := 3600000.
Definition fcAdaptiveMsCeiling : Z := 3600000.
Definition fcTenantSharePctCeiling : Z := 100.
Definition fcBandWeightCeiling : Z := 62.
Definition fcBandPctCeiling : Z := 100.
Definition fcBandWaitMsCeiling : Z := 3600000.
Definition aiDefaultTokenCeiling : Z := 100000000.
Definition eppEndpointMaxBytes : Z := 255.
Definition eppTimeoutMsMax : Z := 600000.

(** A flag whose value, if given, is one of a list. *)
Definition one_of (flag value : string) (allowed : list string) : result string unit :=
  reject_if (given value && negb (str_in value allowed))
    (sprintf [flag; " must be one of "; join "|" allowed]).

Definition at_most (flag : string) (v ceiling : Z) : result string unit :=
  reject_if (ceiling <? v)%Z (sprintf [flag; " must be within 0.."; itoa ceiling]).

Definition validateBackendTLSOptions (o : CreateLoadBalancerOptions) : result string unit :=
  let upload := "the gateway takes backend TLS material by registered ID" in
  reject (given (lb_MtlsBackendCAPath o))
    with_ sprintf ["--mtls-backend-ca-path is retired, "; upload; ": register the CA with ";
                   "'create cert --usage ca' and name it with --backend-ca-cert-id"];;
  reject (given (lb_MtlsBackendClientCertPath o) || given (lb_MtlsBackendClientKeyPath o))
    with_ sprintf ["--mtls-backend-cert-path and --mtls-backend-key-path are retired, "; upload;
                   ": register the pair with 'create cert --usage client' and name it with ";
                   "--backend-client-cert-id"];;
  reject (lb_MtlsBackendVerifyServer o)
    with_ sprintf ["--mtls-backend-verify-server is retired: --backend-ca-cert-id names the CA ";
                   "and turns verification on"];;
  if negb (lbBackendTLSRequested o) then Ok tt
  else
    reject (nonzero (ModeToNum (lb_Mode o) - 4) || nonzero (SecStringToNum (lb_Security o) - 2))
      with_ sprintf ["--backend-ca-cert-id, --backend-client-cert-id and ";
                     "--backend-tls-server-name require '--mode fullproxy --security e2ehttps'"];;
    Ok tt.

Definition validateEppOptions (o : CreateLoadBalancerOptions) : result string unit :=
  _ ← one_of "--epp-failure-mode" (lb_EppFailureMode o) ["FailOpen"; "FailClose"];
  reject ((lb_EppTimeoutMs o <? 0)%Z || (eppTimeoutMsMax <? lb_EppTimeoutMs o)%Z)
    with_ sprintf ["--epp-timeout-ms must be within 0.."; itoa eppTimeoutMsMax];;
  reject (eppEndpointMaxBytes <? slen (lb_EppEndpoint o))%Z
    with_ sprintf ["--epp-endpoint must be at most "; itoa eppEndpointMaxBytes; " bytes"];;
  reject (given (lb_EppEndpoint o) && lb_PdDisaggMode o && negb (streq (lb_EppFailureMode o) "FailOpen"))
    with_ "--epp-endpoint with --pd-disagg requires --epp-failure-mode FailOpen";;
  Ok tt.

Definition band_values (t : BandTriple) : list Z :=
  [u32 (bt_Critical t); u32 (bt_Standard t); u32 (bt_Sheddable t)].

Definition band_within (flag : string) (given : bool) (t : BandTriple) (ceiling : Z)
    : result string unit :=
  reject_if (given && existsb (fun v => (ceiling <? v)%Z) (band_values t))
    (sprintf [flag; ": each value must be within 0.."; itoa ceiling]).

Definition validateFcBandOptions (o : CreateLoadBalancerOptions) : result string unit :=
  _ ← one_of "--fc-wake-policy" (lb_FcWakePolicy o) ["strict"; "weighted"; "inherit"];
  _ ← one_of "--fc-shed-queue" (lb_FcShedQueue o) ["on"; "off"; "inherit"];
  _ ← one_of "--fc-tenant-wake" (lb_FcTenantWake o) ["fifo"; "rr"; "inherit"];
  _ ← one_of "--fc-llmd-headers" (lb_FcLlmdHeaders o) ["on"; "off"; "inherit"];
  _ ← one_of "--ai-default-reservation" (lb_AiDefaultReservation o) ["on"; "off"; "inherit"];
  _ ← band_within "--fc-band-weights" (lb_FcBandWeightsSet o) (lb_FcBandWeights o) fcBandWeightCeiling;
  _ ← band_within "--fc-band-min-share-pct" (lb_FcBandMinSharePctSet o) (lb_FcBandMinSharePct o)
        fcBandPctCeiling;
  _ ← band_within "--fc-band-wait-ms" (lb_FcBandWaitMsSet o) (lb_FcBandWaitMs o) fcBandWaitMsCeiling;
  _ ← band_within "--fc-band-queue-pct" (lb_FcBandQueuePctSet o) (lb_FcBandQueuePct o) fcBandPctCeiling;
  _ ← at_most "--fc-critical-reserve-pct" (u32 (lb_FcCriticalReservePct o)) fcBandPctCeiling;
  at_most "--ai-default-max-tokens" (u32 (lb_AiDefaultMaxTokens o)) aiDefaultTokenCeiling.

Definition validateFcQueueOptions (o : CreateLoadBalancerOptions) : result string unit :=
  _ ← at_most "--fc-max-queue-depth" (u32 (lb_FcMaxQueueDepth o)) fcMaxQueueDepthCeiling;
  _ ← at_most "--fc-max-queue-wait-ms" (u32 (lb_FcMaxQueueWaitMs o)) fcMaxQueueWaitMsCeiling;
  reject ((0 <? u32 (lb_FcMaxQueueDepth o))%Z && lb_FcMaxQueueWaitMsSet o
          && (u32 (lb_FcMaxQueueWaitMs o) =? 0)%Z)
    with_ "--fc-max-queue-wait-ms must be non-zero when --fc-max-queue-depth is set";;
  _ ← one_of "--fc-mode" (lb_FcMode o) ["off"; "observe"; "enforce"; "inherit"];
  _ ← at_most "--fc-max-outstanding" (u32 (lb_FcMaxOutstanding o)) fcCapCeiling;
  _ ← at_most "--fc-ep-max-inflight" (u32 (lb_FcEpMaxInflight o)) fcCapCeiling;
  _ ← at_most "--fc-prefill-max-inflight" (u32 (lb_FcPrefillMaxInflight o)) fcCapCeiling;
  _ ← at_most "--fc-decode-max-inflight" (u32 (lb_FcDecodeMaxInflight o)) fcCapCeiling;
  _ ← at_most "--fc-telemetry-stale-ms" (u32 (lb_FcTelemetryStaleMs o)) fcTelemetryStaleCeiling;
  _ ← one_of "--fc-adaptive" (lb_FcAdaptive o) ["on"; "off"; "inherit"];
  _ ← one_of "--fc-expose-headers" (lb_FcExposeHeaders o) ["on"; "off"; "inherit"];
  _ ← at_most "--fc-warmup-ms" (u32 (lb_FcWarmupMs o)) fcAdaptiveMsCeiling;
  _ ← at_most "--fc-ttft-target-ms" (u32 (lb_FcTtftTargetMs o)) fcAdaptiveMsCeiling;
  _ ← at_most "--fc-tenant-max-share-pct" (u32 (lb_FcTenantMaxSharePct o)) fcTenantSharePctCeiling;
  validateFcBandOptions o.

(** The engine in force. *)
Definition kv_engine (o : CreateLoadBalancerOptions) : string :=
  if is_empty (lb_KvEngineType o) then "vllm" else lb_KvEngineType o.

Definition engine_hashes : list (string * list string) :=
  [("vllm", ["sha256_cbor"; "xxhash_cbor"]); ("sglang", ["sha256_sglang"]);
   ("trtllm", ["blockhash_trtllm"]); ("llamacpp", [])].

Definition validateKVHashForEngine (hash engine : string) : result string unit :=
  if is_empty hash then Ok tt
  else if existsb (fun e : string * list string => streq e.1 engine && str_in hash e.2) engine_hashes
  then Ok tt
  else
    reject (streq engine "llamacpp")
      with_ "--kv-hash-algo is unsupported for --kv-engine-type=llamacpp; omit it";;
    Err (sprintf ["--kv-hash-algo "; quote hash; " is incompatible with --kv-engine-type="; engine;
                  "; omit it for the engine default"]).

(** The numbers of the KV flags. *)
Definition check_kv_numbers (o : CreateLoadBalancerOptions) : result string unit :=
  let ranks := i32 (lb_KvDpRankCount o) in
  let exact := lb_KvExactMode o in
  reject ((ranks <? 0)%Z || (8 <? ranks)%Z)
    with_ "--kv-dp-ranks must be within 1..8 (0 = default 1)";;
  reject ((lb_KvZmqPort o <? 0)%Z || (65535 <? lb_KvZmqPort o)%Z)
    with_ "--kv-zmq-port must be within 1..65535 (0 = server default)";;
  reject ((lb_KvBlockSize o <? 0)%Z || (lb_KvWarmupSec o <? 0)%Z)
    with_ "--kv-block-size and --kv-warmup must be non-negative";;
  reject (nonzero exact && nonzero (exact - 1) && nonzero (exact - 3))
    with_ "--kv-exact-mode must be one of 0|1|3";;
  reject ((exact =? 1)%Z && negb (lb_PdDisaggMode o))
    with_ "--kv-exact-mode=1 requires --pd-disagg";;
  reject ((exact =? 3)%Z && lb_PdDisaggMode o)
    with_ "--kv-exact-mode=3 is incompatible with --pd-disagg";;
  let base := if (lb_KvZmqPort o =? 0)%Z then 5557%Z else lb_KvZmqPort o in
  reject (((exact =? 1)%Z || (exact =? 3)%Z) && (0 <? ranks)%Z && (65535 <? base + ranks - 1)%Z)
    with_ "--kv-zmq-port + --kv-dp-ranks - 1 must be <= 65535";;
  Ok tt.

(** The flags of prefill/decode disaggregation. *)
Definition check_pd (engine : string) (o : CreateLoadBalancerOptions) : result string unit :=
  let port := i32 (lb_PdBootstrapPort o) in
  let timeout := i32 (lb_PdPrefillTimeoutSec o) in
  reject ((port <? 0)%Z || (65535 <? port)%Z) with_ "--pd-bootstrap-port must be within 0..65535";;
  reject (nonzero port && negb (lb_PdDisaggMode o && streq engine "sglang"))
    with_ "--pd-bootstrap-port requires --pd-disagg and --kv-engine-type=sglang";;
  reject ((timeout <? 0)%Z || (3600 <? timeout)%Z) with_ "--pd-prefill-timeout must be within 0..3600";;
  reject (nonzero timeout && negb (lb_PdDisaggMode o))
    with_ "--pd-prefill-timeout requires --pd-disagg";;
  if lb_PdDisaggMode o then
    roles ← map_each EpRoleToNum (lb_EpRoles o);
    reject (negb (existsb (Z.eqb 1) roles) || negb (existsb (Z.eqb 2) roles))
      with_ "--pd-disagg requires at least one prefill and one decode --ep-role";;
    Ok tt
  else Ok tt.

(** What an engine does not take. *)
Definition check_engine (engine : string) (o : CreateLoadBalancerOptions) : result string unit :=
  let unused flag := sprintf [flag; " is not used by "; engine; "; omit it"] in
  let zmq := nonzero (lb_KvZmqPort o) && nonzero (lb_KvZmqPort o - 5557) in
  let ranks := (1 <? i32 (lb_KvDpRankCount o))%Z in
  if streq engine "trtllm" then
    reject zmq with_ unused "--kv-zmq-port";;
    reject ranks with_ unused "--kv-dp-ranks";;
    Ok tt
  else if streq engine "llamacpp" then
    reject (nonzero (lb_KvExactMode o)) with_ "--kv-exact-mode is unsupported for llamacpp";;
    reject (lb_PdDisaggMode o) with_ "--pd-disagg is unsupported for llamacpp";;
    reject zmq with_ unused "--kv-zmq-port";;
    reject ranks with_ unused "--kv-dp-ranks";;
    reject (nonzero (lb_KvBlockSize o) && nonzero (lb_KvBlockSize o - 16))
      with_ unused "--kv-block-size";;
    Ok tt
  else Ok tt.

Definition kv_engines : list string := ["vllm"; "sglang"; "trtllm"; "llamacpp"].

Definition validateKVEngineOptions (o : CreateLoadBalancerOptions) : result string unit :=
  let engine := kv_engine o in
  reject (negb (str_in engine kv_engines))
    with_ "--kv-engine-type must be one of vllm|sglang|trtllm|llamacpp";;
  _ ← check_kv_numbers o;
  _ ← validateKVHashForEngine (lb_KvHashAlgo o) engine;
  _ ← check_pd engine o;
  check_engine engine o.

Definition validateLBAIOptions (o : CreateLoadBalancerOptions) : result string unit :=
  _ ← one_of "--api-key-auth" (lb_APIKeyAuth o) ["disabled"; "required"; "jwt"; "apikey-or-jwt"];
  _ ← (if str_in (lb_APIKeyAuth o) ["jwt"; "apikey-or-jwt"] then
         reject_if (is_empty (trim_space (lb_JWTAuthProfile o)) || (63 <? slen (lb_JWTAuthProfile o))%Z)
           (sprintf ["--jwt-auth-profile requires a configured profile name of at most 63 bytes ";
                     "for JWT modes"])
       else
         reject_if (given (lb_JWTAuthProfile o))
           "--jwt-auth-profile requires --api-key-auth jwt|apikey-or-jwt");
  _ ← validateEppOptions o;
  _ ← one_of "--sockmap-mode" (lb_SockMapMode o) ["off"; "request"; "response"; "both"];
  _ ← validateFcQueueOptions o;
  _ ← validateBackendTLSOptions o;
  if negb (lbAIRequested o) then Ok tt
  else
    reject (nonzero (ModeToNum (lb_Mode o) - 4)) with_ "AI features require '--mode fullproxy'";;
    reject (lb_PdCacheAwareMode o && negb (lb_PdDisaggMode o))
      with_ "--pd-cache-aware requires --pd-disagg";;
    validateKVEngineOptions o.
