(* ===== verification/Exitcode.v ===== *)
(** * The exit-code taxonomy: [pkg/cli/exitcode]

    [Classify] turns any error into a [CLIError]; the root command exits with
    its code. *)
From S2P Require Import Prelude GoStrings Json Errors.

(** The rows of the table; 1 is reserved. *)
Definition taxonomy : list Z := [0; 2; 3; 4; 5; 6; 7; 8; 9]%Z.

Definition Label (c : Z) : string :=
  (if c =? OK then "OK"
   else if c =? InvalidArgument then "INVALID_ARGUMENT"
   else if c =? Auth then "AUTH"
   else if c =? Precondition then "PRECONDITION"
   else if c =? Unavailable then "UNAVAILABLE"
   else if c =? ContractMismatch then "CONTRACT_MISMATCH"
   else if c =? Failed then "FAILED"
   else if c =? Partial then "PARTIAL"
   else if c =? FeatureUnavailable then "FEATURE_UNAVAILABLE"
   else "FAILED")%Z.

(** [Usagef], [Invalidf] and [Unavailablef] of the formatted message. *)
Definition Usagef (message : string) : CLIError :=
  {| ce_Code := InvalidArgument; ce_Message := message; ce_Origin := ""; ce_HTTPStatus := 0;
     ce_ComponentCode := ""; ce_ShowHelp := true |}.

Definition Invalidf (message : string) : CLIError := cli_error InvalidArgument message "" "".

Definition Unavailablef (message : string) : CLIError :=
  cli_error Unavailable message "gateway" "".

Definition status_code (status : Z) : Z :=
  (if (status =? 401) || (status =? 403) then Auth
   else if (status =? 404) || (status =? 409) then Precondition
   else if (status =? 429) || (status =? 503) then Unavailable
   else if status =? 400 then ContractMismatch
   else if status =? 504 then Partial
   else Failed)%Z.

Definition FromHTTPStatus (operation : string) (status : Z) : CLIError :=
  {| ce_Code := status_code status;
     ce_Message := sprintf [operation; ": gateway answered HTTP "; itoa status];
     ce_Origin := "gateway"; ce_HTTPStatus := status; ce_ComponentCode := "";
     ce_ShowHelp := false |}.

Definition reasonCodes : list (string * Z) :=
  [ (ReasonOK, OK);
    (ReasonInvalidArguments, InvalidArgument);
    (ReasonFileRead, Precondition);
    (ReasonFileWrite, Failed);
    (ReasonInvalidJSON, InvalidArgument);
    (ReasonRequestFailed, Unavailable);
    (ReasonUnauthorized, Auth);
    (ReasonBusy, Unavailable);
    (ReasonMaintenance, Precondition);
    (ReasonServerError, Failed);
    (ReasonBadRequest, ContractMismatch);
    (ReasonDecodeFailed, ContractMismatch);
    (ReasonResultNotOK, Failed);
    (ReasonIncompatible, ContractMismatch);
    (ReasonValidationFailed, ContractMismatch);
    (ReasonDependencyFailed, Precondition);
    (ReasonRolledBack, Failed);
    (ReasonRollbackFailed, Partial);
    (ReasonNotPersisted, Partial);
    (ReasonChecksumMismatch, ContractMismatch);
    (ReasonContractLegacy, ContractMismatch);
    ("recovery-required", Partial);
    ("not-ready", Precondition) ].

Definition assoc {A} (l : list (string * A)) (k : string) : option A :=
  snd <$> find (fun x => streq x.1 k) l.

Definition cobraUsageShapes : list string :=
  [ "unknown command "; "unknown flag"; "unknown shorthand flag"; "flag needs an argument";
    "required flag"; "invalid argument "; "accepts "; "requires at least ";
    "requires exactly "; "if any flags in the group"; "were all set";
    "none of the others can be" ].

Definition classify_lifecycle (le : LifecycleError) : CLIError :=
  {| ce_Code := default Failed (assoc reasonCodes (le_Reason le));
     ce_Message := lifecycle_error_text le; ce_Origin := "gateway";
     ce_HTTPStatus := le_HTTPStatus le; ce_ComponentCode := le_Reason le;
     ce_ShowHelp := false |}.

Definition classify_text (msg : string) : CLIError :=
  if existsb (contains msg) cobraUsageShapes then Usagef msg else cli_error Failed msg "" "".

Definition Classify (err : goerror) : CLIError :=
  match as_cli err with
  | Some ce => ce
  | None =>
      match as_lifecycle err with
      | Some le => classify_lifecycle le
      | None => classify_text (error_text err)
      end
  end.

(** What the single exit point of [cmd/root.go] does with an error: help if
    asked for, one line on stderr, the status. *)
Record exit_report : Type := { er_help : bool; er_line : string; er_status : Z }.

Definition exit_point (err : option goerror) : exit_report :=
  match err with
  | None => {| er_help := false; er_line := ""; er_status := 0 |}
  | Some err =>
      let ce := Classify err in
      {| er_help := ce_ShowHelp ce;
         er_line := sprintf ["Error: "; ce_Message ce; String "010"%char EmptyString];
         er_status := ce_Code ce |}
  end.

(* ------------------------------------------------------------------ *)
(** ** Lemmas                                                          *)
(* ------------------------------------------------------------------ *)

Lemma assoc_in {A} (l : list (string * A)) k v : assoc l k = Some v -> (k, v) ∈ l.
Proof.
  unfold assoc. intros H. destruct (find _ l) as [[k' v']|] eqn:Hf; simplify_eq/=.
  apply find_some in Hf as [Hin Heq]. simpl in Heq. apply streq_true in Heq as ->.
  by apply list_elem_of_In.
Qed.

Lemma reason_code_in_taxonomy reason :
  default Failed (assoc reasonCodes reason) ∈ taxonomy.
Proof.
  destruct (assoc reasonCodes reason) as [c|] eqn:H; simpl; [|by set_solver].
  apply assoc_in, (list_elem_of_fmap_2 snd) in H. simpl in H. set_solver.
Qed.

Lemma status_code_in_taxonomy status : status_code status ∈ taxonomy.
Proof. unfold status_code. repeat case_match; set_solver. Qed.

Lemma classify_cli err ce : as_cli err = Some ce -> Classify err = ce.
Proof. unfold Classify. by intros ->. Qed.

Lemma classify_wrap msg err :
  is_Some (as_cli err) \/ is_Some (as_lifecycle err) ->
  Classify (EWrap msg err) = Classify err.
Proof.
  unfold Classify. simpl. destruct (as_cli err); [done|]. intros [H|H]; [by destruct H|].
  destruct (as_lifecycle err); [done | by destruct H].
Qed.

(* ------------------------------------------------------------------ *)
(** ** Properties                                                      *)
(* ------------------------------------------------------------------ *)

(** No failure leaves the process with the reserved status 1 or with a
    status outside the table: whatever the error, and however deeply it is
    wrapped, the exit status is a row of the taxonomy as soon as the classified
    errors in its chain carry one. *)
Theorem exit_status_in_taxonomy err :
  (forall ce, as_cli err = Some ce -> ce_Code ce ∈ taxonomy) ->
  er_status (exit_point (Some err)) ∈ taxonomy /\ er_status (exit_point (Some err)) <> 1%Z.
Proof.
  intros Hcli. assert (Hin : er_status (exit_point (Some err)) ∈ taxonomy).
  { simpl. unfold Classify. destruct (as_cli err) as [ce|]; [by apply Hcli|].
    destruct (as_lifecycle err) as [le|]; [apply reason_code_in_taxonomy|].
    unfold classify_text. case_match; set_solver. }
  split; [done|]. intros H. rewrite H in Hin. set_solver.
Qed.

Lemma exit_status_in_taxonomy_witness :
  let err := EWrap "get snapshot: corrupt (checksum-mismatch)"
               (ELifecycle (lifecycle_error ReasonChecksumMismatch "corrupt")) in
  er_status (exit_point (Some err)) = 6%Z
  /\ er_status (exit_point (Some err)) ∈ taxonomy /\ er_status (exit_point (Some err)) <> 1%Z.
Proof.
  split; [vm_compute; reflexivity|]. apply exit_status_in_taxonomy. intros ce H. discriminate H.
Defined.

(** An operation whose outcome is unknown keeps its verdict whatever text it
    is wrapped in: [Classify] sees through [%w], so the code, the origin, the
    HTTP status and the component code of the innermost classified or lifecycle
    error are those the process reports. *)
Theorem classify_sees_through_wrapping (msgs : list string) err :
  is_Some (as_cli err) \/ is_Some (as_lifecycle err) ->
  Classify (fold_right EWrap err msgs) = Classify err.
Proof.
  intros H. induction msgs as [|msg msgs IH]; [done|]. simpl. rewrite classify_wrap; [done|].
  clear IH. induction msgs as [|m msgs IH]; [done|]. destruct IH; [by left | by right].
Qed.

Lemma classify_sees_through_wrapping_witness :
  Classify (fold_right EWrap
    (EContract {| bc_SchemaVersion := "backend-contract-error/v1"; bc_Exit := 4;
                  bc_Code := "PRECONDITION"; bc_ComponentCode := "BACKEND_RELEASE_MARKER_MISSING";
                  bc_Retryable := false; bc_Message := "" |}) ["outer"; "inner"])
  = cli_error Precondition "backend handshake failed: BACKEND_RELEASE_MARKER_MISSING"
      "backend" "BACKEND_RELEASE_MARKER_MISSING".
Proof.
  rewrite classify_sees_through_wrapping; [vm_compute; reflexivity | left; vm_compute; by eexists].
Defined.
