(* ===== verification/Envelope.v ===== *)
(** * The result envelope: [pkg/cli/envelope]

    The one document a command writes to stdout under [-o json]. *)
From S2P Require Import Prelude GoStrings Json JsonPrint World Errors Exitcode.

Definition APIVersion : string := "loxilb.io/appliance/v1".
Definition Kind : string := "CommandResult".

(** [Code.ExitCode]. *)
Definition ExitCode (c : string) : Z :=
  (if streq c "OK" then 0
   else if streq c "INVALID_ARGUMENT" then 2
   else if streq c "AUTH" then 3
   else if streq c "PRECONDITION" then 4
   else if streq c "UNAVAILABLE" then 5
   else if streq c "CONTRACT_MISMATCH" then 6
   else if streq c "FAILED" then 7
   else if streq c "PARTIAL" then 8
   else if streq c "FEATURE_UNAVAILABLE" then 9
   else 1)%Z.

Record Warning : Type := { w_Code : string; w_Message : string }.

(** [Data] and [Warnings] are [None] when nil. *)
Record CommandResult : Type := {
  cr_APIVersion : string;
  cr_Kind : string;
  cr_Command : string;
  cr_Success : bool;
  cr_Code : string;
  cr_Message : string;
  cr_CorrelationID : string;
  cr_Data : option gojson;
  cr_Warnings : option (list Warning)
}.

Definition New (command : string) : CommandResult :=
  {| cr_APIVersion := APIVersion; cr_Kind := Kind; cr_Command := command;
     cr_Success := true; cr_Code := "OK"; cr_Message := ""; cr_CorrelationID := "";
     cr_Data := Some (GObj []); cr_Warnings := Some [] |}.

Definition Fail_ (r : CommandResult) (code message : string) : CommandResult :=
  {| cr_APIVersion := cr_APIVersion r; cr_Kind := cr_Kind r; cr_Command := cr_Command r;
     cr_Success := streq code "OK"; cr_Code := code; cr_Message := message;
     cr_CorrelationID := cr_CorrelationID r; cr_Data := cr_Data r; cr_Warnings := cr_Warnings r |}.

Definition with_correlation (r : CommandResult) (id : string) : CommandResult :=
  {| cr_APIVersion := cr_APIVersion r; cr_Kind := cr_Kind r; cr_Command := cr_Command r;
     cr_Success := cr_Success r; cr_Code := cr_Code r; cr_Message := cr_Message r;
     cr_CorrelationID := id; cr_Data := cr_Data r; cr_Warnings := cr_Warnings r |}.

Definition with_data (r : CommandResult) (data : gojson) : CommandResult :=
  {| cr_APIVersion := cr_APIVersion r; cr_Kind := cr_Kind r; cr_Command := cr_Command r;
     cr_Success := cr_Success r; cr_Code := cr_Code r; cr_Message := cr_Message r;
     cr_CorrelationID := cr_CorrelationID r; cr_Data := Some data; cr_Warnings := cr_Warnings r |}.

Definition add_warning (r : CommandResult) (w : Warning) : CommandResult :=
  {| cr_APIVersion := cr_APIVersion r; cr_Kind := cr_Kind r; cr_Command := cr_Command r;
     cr_Success := cr_Success r; cr_Code := cr_Code r; cr_Message := cr_Message r;
     cr_CorrelationID := cr_CorrelationID r; cr_Data := cr_Data r;
     cr_Warnings := Some (default [] (cr_Warnings r) ++ [w]) |}.

Definition warning_json (w : Warning) : gojson :=
  GObj [("code", GStr (w_Code w)); ("message", GStr (w_Message w))].

(** The document [Write] marshals: nil fields restored first. *)
Definition result_json (r : CommandResult) : gojson :=
  GObj [ ("apiVersion", GStr (cr_APIVersion r));
         ("kind", GStr (cr_Kind r));
         ("command", GStr (cr_Command r));
         ("success", GBool (cr_Success r));
         ("code", GStr (cr_Code r));
         ("message", GStr (cr_Message r));
         ("correlationId", GStr (cr_CorrelationID r));
         ("data", default (GObj []) (cr_Data r));
         ("warnings", GArr (warning_json <$> default [] (cr_Warnings r))) ].

Definition Write (r : CommandResult) : IO (option goerror) :=
  match marshal_indent (result_json r) with
  | None => mret (Some (EText "marshal command result"))
  | Some b =>
      e ← write_out (b +:+ String "010"%char EmptyString);
      mret (match e with
            | None => None
            | Some text => Some (EWrap (sprintf ["write command result: "; text]) (EText text))
            end)
  end.

(* ------------------------------------------------------------------ *)
(** ** Lemmas                                                          *)
(* ------------------------------------------------------------------ *)

Lemma exit_code_label c : ExitCode (Label c) = c <-> c ∈ taxonomy.
Proof.
  split.
  - unfold Label, OK, InvalidArgument, Auth, Precondition, Unavailable, ContractMismatch, Failed,
      Partial, FeatureUnavailable.
    repeat (case_match; [go_norm; set_solver|]). intros Hl. exfalso. vm_compute in Hl. by subst c.
  - unfold taxonomy. rewrite !elem_of_cons, elem_of_nil.
    intros H. destruct_or?; subst; try done; reflexivity.
Qed.

Lemma label_ok c : Label c = "OK" <-> c = OK.
Proof.
  unfold Label. split; [|by intros ->]. destruct (c =? OK)%Z eqn:Hc; [by go_norm|].
  intros H. repeat case_match; done.
Qed.

(* ------------------------------------------------------------------ *)
(** ** Properties                                                      *)
(* ------------------------------------------------------------------ *)

(** The two halves of the public contract agree on the taxonomy and only
    there: the label of a code maps back to that code exactly for the rows of
    the table (any other number is labelled [FAILED], which exits 7). *)
Theorem label_exit_agree c : ExitCode (Label c) = c <-> c ∈ taxonomy.
Proof. apply exit_code_label. Qed.
