(* ===== verification/SecretFile.v ===== *)
(** * Secret files: [pkg/backend/secretfile.go]

    The rules on a path that holds a secret, and the reading of one. *)
From S2P Require Import Prelude GoStrings Json World Errors Exitcode.

(** The bits of [fs.FileMode] the rules look at. *)
Definition ModeSymlink : Z := Z.shiftl 1 27.
Definition ModeCharDevice : Z := Z.shiftl 1 21.
Definition ModeType : Z :=
  fold_left Z.lor (Z.shiftl 1 <$> [31; 27; 25; 24; 26; 21; 19]%Z) 0%Z.

Definition is_regular (info : file_info) : bool := (Z.land (fi_mode info) ModeType =? 0)%Z.
Definition perm (info : file_info) : Z := Z.land (fi_mode info) 511.

(** [%04o] of a permission word. *)
Definition octal4 (z : Z) : string :=
  concat_str (itoa <$> [z / 512 mod 8; z / 64 mod 8; z / 8 mod 8; z mod 8]%Z).

Definition secret_refused (message : string) : goerror :=
  ECLI (cli_error Precondition message "" "secret-file-refused").

Definition read_failed (what : string) (e : os_error) : goerror :=
  ECLI (cli_error Precondition (sprintf ["cannot read the "; what; ": "; os_text e]) ""
          "file-read-failed").

(** The checks of [CheckSecretPath] on what [Lstat] reported. *)
Definition check_mode (what path : string) (info : file_info) : result goerror unit :=
  reject (negb (Z.land (fi_mode info) ModeSymlink =? 0)%Z)
    with_ secret_refused (sprintf ["the "; what; " "; quote path;
            " is a symlink; secret files must be regular files"]);;
  reject (negb (is_regular info))
    with_ secret_refused (sprintf ["the "; what; " "; quote path; " is not a regular file"]);;
  reject (negb (Z.land (perm info) 63 =? 0)%Z)
    with_ secret_refused (sprintf ["the "; what; " "; quote path;
            " is group- or world-accessible ("; octal4 (perm info);
            "); make it owner-only (0600) first"]);;
  Ok tt.

Definition CheckSecretPath (what path : string) : IO (result goerror unit) :=
  if negb (is_abs path) then
    mret (Err (ECLI (Invalidf (sprintf [what; " must be an absolute path, got "; quote path]))))
  else
    info ← lstat path;
    match info with
    | Err e => mret (Err (read_failed what e))
    | Ok info => mret (check_mode what path info)
    end.

Definition ReadSecretFile (what path : string) : IO (result goerror string) :=
  let* _ := CheckSecretPath what path in
  content ← read_file path;
  match content with
  | Err e => mret (Err (read_failed what e))
  | Ok content =>
      let secret := trim_space content in
      if is_empty secret
      then mret (Err (secret_refused (sprintf ["the "; what; " "; quote path; " is empty"])))
      else mret (Ok secret)
  end.

(* ------------------------------------------------------------------ *)
(** ** Lemmas                                                          *)
(* ------------------------------------------------------------------ *)

(** A mode the rules accept: no type bit and no group or world permission. *)
Definition owner_only_regular (info : file_info) : Prop :=
  (Z.land (fi_mode info) ModeType = 0 /\ Z.land (fi_mode info) 63 = 0)%Z.

Lemma symlink_in_type m : Z.land m ModeType = 0%Z -> Z.land m ModeSymlink = 0%Z.
Proof.
  intros H. replace ModeSymlink with (Z.land ModeType ModeSymlink) by (vm_compute; done).
  by rewrite Z.land_assoc, H.
Qed.

Lemma check_mode_ok what path info :
  check_mode what path info = Ok tt <-> owner_only_regular info.
Proof.
  unfold check_mode, owner_only_regular, is_regular, perm.
  rewrite !reject_ok, !negb_false_iff, !Z.eqb_eq.
  rewrite <- Z.land_assoc. change (Z.land 511 63) with 63%Z.
  pose proof (symlink_in_type (fi_mode info)). naive_solver.
Qed.

Lemma check_secret_path_run what path w h :
  CheckSecretPath what path w h =
  if negb (is_abs path) then
    (Err (ECLI (Invalidf (sprintf [what; " must be an absolute path, got "; quote path]))), [])
  else
    (match w h (OpLstat path) with
     | Err e => Err (read_failed what e)
     | Ok info => check_mode what path info
     end, [Ev (OpLstat path) (w h (OpLstat path))]).
Proof.
  unfold CheckSecretPath. destruct (negb (is_abs path)); [done|].
  unfold mbind, io_bind, lstat, perform. by destruct (w h (OpLstat path)).
Qed.

(* ------------------------------------------------------------------ *)
(** ** Properties                                                      *)
(* ------------------------------------------------------------------ *)

(** [ReadSecretFile] yields a secret exactly when the path is absolute,
    [Lstat] reports a regular file without group or world permission, and the
    file, read afterwards, is not blank; the secret is its content without
    surrounding white space, and the file is opened only after the checks. *)
Theorem read_secret_file_spec what path w secret t :
  ReadSecretFile what path w [] = (Ok secret, t) <->
  exists info content,
    is_abs path = true
    /\ w [] (OpLstat path) = Ok info /\ owner_only_regular info
    /\ w [Ev (OpLstat path) (Ok info)] (OpReadFile path) = Ok content
    /\ secret = trim_space content /\ secret <> ""
    /\ t = [Ev (OpLstat path) (Ok info); Ev (OpReadFile path) (Ok content)].
Proof.
  unfold ReadSecretFile, io_try, mbind, io_bind. rewrite check_secret_path_run.
  destruct (is_abs path); simpl; [|naive_solver].
  destruct (w [] (OpLstat path)) as [info|e] eqn:Hl; simpl; [|naive_solver].
  pose proof (check_mode_ok what path info) as Hmode.
  destruct (check_mode what path info) as [[]|e] eqn:Hc; simpl; [|naive_solver].
  unfold read_file, perform. simpl.
  destruct (w [_] (OpReadFile path)) as [content|e] eqn:Hr; simpl.
  - destruct (is_empty (trim_space content)) eqn:He; simpl.
    + apply is_empty_true in He. split; [done|].
      intros (i & c & _ & [= <-] & _ & Hrc & -> & Hne & _). congruence.
    + apply is_empty_false in He. split.
      * intros [= <- <-]. exists info, content. by rewrite <- Hmode, Hr.
      * intros (i & c & _ & [= <-] & _ & Hrc & -> & _ & ->). congruence.
  - split; [done|]. intros (i & c & _ & [= <-] & _ & Hrc & _). congruence.
Qed.
