(* ===== verification/Contract.v ===== *)
(** * The host backend adapter: [pkg/backend/backend.go]

    The argv allowlist, the approved command matrix, the contract-version
    handshake and the invocation of a backend subcommand. *)
From S2P Require Import Prelude GoStrings Regex Json World Errors Exitcode.

(* ------------------------------------------------------------------ *)
(** ** Tables                                                          *)
(* ------------------------------------------------------------------ *)

Definition CodeBackendUnavailable : string := "BACKEND_UNAVAILABLE".
Definition CodeBackendForbidden : string := "BACKEND_FORBIDDEN".
Definition contractAPIPrefix : string := "loxilb.io/appliance-backend/v".
Definition contractMajor : Z := 1.
Definition payloadSchema : string := "appliance-backend-payload/v1".
Definition codeBackendReleaseMarkerMissing : string := "BACKEND_RELEASE_MARKER_MISSING".
Definition codeBackendReleaseMarkerInvalid : string := "BACKEND_RELEASE_MARKER_INVALID".
Definition codeBackendContractInvalid : string := "BACKEND_CONTRACT_INVALID".
Definition codeBackendHandshakeUnavailable : string := "BACKEND_HANDSHAKE_UNAVAILABLE".
Definition syntheticSecret : string := "CLI_WP00_SYNTHETIC_SECRET_DO_NOT_EMIT".

Record argvRule : Type := Rule {
  positionals : Z;
  minPositionals : Z;
  flags : list string;
  mutating : bool;
  stdinSecret : bool
}.

Definition allowedArgv : list (string * argvRule) :=
  let plan := ["--plan-hash="; "--confirm="] in
  [ ("contract-version", Rule 0 0 [] false false);
    ("status", Rule 0 0 [] false false);
    ("network validate", Rule 0 0 [] false false);
    ("public-address configure", Rule 1 0 ["--no-restart"] true false);
    ("gateway register-local", Rule 0 0 ["--username="; "--password-stdin"] true true);
    ("credentials bootstrap", Rule 0 0 [] true false);
    ("diagnostics create", Rule 0 0 ["--redact"; "--output="] true false);
    ("logs", Rule 1 0 ["--redact"; "--since="; "--lines="] true false);
    ("backup key-create", Rule 0 0 ["--key-file="] true false);
    ("backup create", Rule 1 0 ["--key-file="] true false);
    ("backup verify", Rule 1 0 ["--key-file="] true false);
    ("restore plan", Rule 1 1 ["--key-file="] false false);
    ("restore execute", Rule 0 0 plan true false);
    ("update plan", Rule 1 1 [] false false);
    ("update execute", Rule 0 0 plan true false);
    ("update status", Rule 1 1 [] false false);
    ("rollback plan", Rule 1 1 ["--archive="; "--key-file="] false false);
    ("rollback execute", Rule 0 0 plan true false);
    ("rollback status", Rule 1 1 [] false false);
    ("factory-reset plan", Rule 0 0 [] false false);
    ("factory-reset execute", Rule 0 0 plan true false) ].

Record ContractCommand : Type := Cmd {
  cc_Name : string;
  cc_ReadOnly : bool;
  cc_Capabilities : list string
}.

Definition legacyContractCommandCount : Z := 10.

Definition contractCommands : list ContractCommand :=
  [ Cmd "status" true ["json-output"];
    Cmd "network validate" true ["json-output"];
    Cmd "public-address configure" false ["json-output"; "no-restart"; "operation-receipt"];
    Cmd "gateway register-local" false ["json-output"; "secret-stdin"; "operation-receipt"];
    Cmd "credentials bootstrap" false ["console-only"];
    Cmd "diagnostics create" false
      ["json-output"; "redaction"; "explicit-output"; "operation-receipt"];
    Cmd "logs" false ["json-output"; "redaction"; "bounded-window"];
    Cmd "backup key-create" false ["json-output"; "key-file"; "operation-receipt"];
    Cmd "backup create" false ["json-output"; "key-file"; "operation-receipt"];
    Cmd "backup verify" false ["json-output"; "key-file"];
    Cmd "restore plan" true ["json-output"; "archive"; "key-file"; "plan-hash"];
    Cmd "restore execute" false
      ["json-output"; "plan-hash"; "one-time-challenge"; "operation-receipt"];
    Cmd "update plan" true ["json-output"; "signed-bundle"; "plan-hash"];
    Cmd "update execute" false
      ["json-output"; "plan-hash"; "one-time-challenge"; "operation-receipt"];
    Cmd "update status" true ["json-output"; "operation-status"];
    Cmd "rollback plan" true
      ["json-output"; "approved-release"; "archive"; "key-file"; "plan-hash"];
    Cmd "rollback execute" false
      ["json-output"; "plan-hash"; "one-time-challenge"; "operation-receipt"];
    Cmd "rollback status" true ["json-output"; "operation-status"];
    Cmd "factory-reset plan" true ["json-output"; "preservation-plan"; "plan-hash"];
    Cmd "factory-reset execute" false
      ["json-output"; "plan-hash"; "one-time-challenge"; "operation-receipt"] ].

(* ------------------------------------------------------------------ *)
(** ** Shapes                                                          *)
(* ------------------------------------------------------------------ *)

Definition is_word_char (c : Z) : bool := is_lower c || is_digit c || (c =? 45)%Z.
Definition word_rx : rx := RCat (RSet is_lower) (RStar (RSet is_word_char)).

Definition capabilityShape : rx := word_rx.
Definition apiVersionShape : rx :=
  RCat (RLit "loxilb.io/appliance-backend/v") (RPlus (RSet is_digit)).
Definition commandNameShape : rx := RCat word_rx (RStar (RCat (RChar 32) word_rx)).

(** [(?i)(password|token|api[_-]?key|private[_-]?key)\s*[:=]] *)
Definition credentialValueShape : rx :=
  let sep := ROpt (RSet (one_of_chars "_-")) in
  RSeq [ RUnion [ RLitFold "password"; RLitFold "token";
                  RSeq [RLitFold "api"; sep; RLitFold "key"];
                  RSeq [RLitFold "private"; sep; RLitFold "key"] ];
         RStar (RSet (fun c => (c =? 9) || (c =? 10) || (c =? 12) || (c =? 13) || (c =? 32))%Z);
         RSet (one_of_chars ":=") ].

(* ------------------------------------------------------------------ *)
(** ** [argvRule.validate]                                             *)
(* ------------------------------------------------------------------ *)

(** The first flag of the rule the token matches, and whether it takes a value. *)
Fixpoint match_flag (fs : list string) (token : string) : option bool :=
  match fs with
  | [] => None
  | flag :: fs' =>
      let valued := has_suffix flag "=" in
      if valued && streq token (trim_suffix flag "=") then Some true
      else if negb valued && streq token flag then Some false
      else match_flag fs' token
  end.

Fixpoint count_positionals (args : list string) : nat :=
  match args with
  | a :: args' => if has_prefix a "-" then 0 else S (count_positionals args')
  | [] => 0
  end.

Fixpoint validate_flags (fs : list string) (args : list string) : result string unit :=
  match args with
  | [] => Ok tt
  | token :: rest =>
      match match_flag fs token with
      | Some true =>
          match rest with
          | [] => Err (sprintf ["flag "; token; " needs a value"])
          | _ :: rest' => validate_flags fs rest'
          end
      | Some false => validate_flags fs rest
      | None => Err (sprintf ["token "; quote token; " is not in the allowlist"])
      end
  end.

Definition validate_argv (r : argvRule) (args : list string) : result string unit :=
  let i := count_positionals args in
  reject (positionals r <? Z.of_nat i)%Z
    with_ sprintf [itoa (Z.of_nat i); " positional argument(s), at most "; itoa (positionals r);
                   " allowed"];;
  reject (Z.of_nat i <? minPositionals r)%Z
    with_ sprintf [itoa (Z.of_nat i); " positional argument(s), at least ";
                   itoa (minPositionals r); " required"];;
  validate_flags (flags r) (drop i args).

(* ------------------------------------------------------------------ *)
(** ** The contract document                                           *)
(* ------------------------------------------------------------------ *)

Record Contract : Type := {
  ct_APIVersion : string;
  ct_Kind : string;
  ct_BackendVersion : string;
  ct_ProductRelease : string;
  ct_SchemaVersion : string;
  ct_Commands : list ContractCommand
}.

Definition Lookup (c : Contract) (name : string) : option ContractCommand :=
  find (fun cmd => streq (cc_Name cmd) name) (ct_Commands c).

Definition Supports (c : Contract) (name : string) : bool :=
  match Lookup c name with Some _ => true | None => false end.

Definition contractViolation (msg : string) : goerror :=
  ECLI (cli_error ContractMismatch msg "backend" codeBackendContractInvalid).

Definition equalStrings (left right : list string) : bool := eqb_list streq left right.

(** The capabilities of one command: each of the approved shape, none twice. *)
Fixpoint validate_capabilities (name : string) (seen : gset string) (caps : list string)
    : result goerror unit :=
  match caps with
  | [] => Ok tt
  | capability :: caps' =>
      reject (negb (full_match capabilityShape capability))
        with_ contractViolation (sprintf ["command "; quote name;
                " advertises malformed capability "; quote capability]);;
      reject (bool_decide (capability ∈ seen))
        with_ contractViolation (sprintf ["command "; quote name;
                " advertises duplicate capability "; quote capability]);;
      validate_capabilities name ({[capability]} ∪ seen) caps'
  end.

(** The loop over the commands; [wants] is the matrix from [index] on. *)
Fixpoint validate_commands (index : Z) (seen : gset string) (wants cmds : list ContractCommand)
    {struct cmds} : result goerror unit :=
  match cmds with
  | [] => Ok tt
  | cmd :: cmds' =>
      reject (negb (full_match commandNameShape (cc_Name cmd)))
        with_ contractViolation (sprintf ["contract advertises malformed command name ";
                quote (cc_Name cmd)]);;
      reject (bool_decide (cc_Name cmd ∈ seen))
        with_ contractViolation (sprintf ["contract advertises duplicate command ";
                quote (cc_Name cmd)]);;
      _ ← validate_capabilities (cc_Name cmd) ∅ (cc_Capabilities cmd);
      match wants with
      | [] => Err (EText "index out of range")
      | want :: wants' =>
          reject (negb (streq (cc_Name cmd) (cc_Name want)
                        && Bool.eqb (cc_ReadOnly cmd) (cc_ReadOnly want)
                        && equalStrings (cc_Capabilities cmd) (cc_Capabilities want)))
            with_ contractViolation (sprintf ["command metadata at index "; itoa index;
                    " differs from the approved matrix"]);;
          validate_commands (index + 1) ({[cc_Name cmd]} ∪ seen) wants' cmds'
      end
  end.

Definition supportedAPIVersion : string := sprintf [contractAPIPrefix; itoa contractMajor].

Definition validate_contract (c : Contract) : result goerror unit :=
  reject (negb (streq (ct_Kind c) "BackendContract"))
    with_ contractViolation (sprintf ["contract kind is "; quote (ct_Kind c);
            ", want BackendContract"]);;
  reject (negb (full_match apiVersionShape (ct_APIVersion c)))
    with_ contractViolation (sprintf ["contract apiVersion "; quote (ct_APIVersion c);
            " is malformed"]);;
  reject (is_empty (ct_BackendVersion c) || is_empty (ct_ProductRelease c))
    with_ contractViolation "contract omits backendVersion or productRelease";;
  reject (negb (streq (ct_SchemaVersion c) payloadSchema))
    with_ contractViolation (sprintf ["contract schemaVersion "; quote (ct_SchemaVersion c);
            " is invalid"]);;
  reject (negb (streq (ct_APIVersion c) supportedAPIVersion))
    with_ ECLI (cli_error ContractMismatch
            (sprintf ["the installed backend speaks "; ct_APIVersion c; "; this CLI speaks ";
                      contractAPIPrefix; itoa contractMajor; " — use a matching release"])
            "backend" "contract-major-unsupported");;
  let n := Z.of_nat (length (ct_Commands c)) in
  let full := Z.of_nat (length contractCommands) in
  reject (negb (n =? legacyContractCommandCount) && negb (n =? full))%Z
    with_ contractViolation (sprintf ["contract advertises "; itoa n;
            " commands, want the legacy "; itoa legacyContractCommandCount;
            "-command prefix or the complete "; itoa full; "-command matrix"]);;
  validate_commands 0 ∅ contractCommands (ct_Commands c).

Definition requireAdvertisedCommand (c : Contract) (name : string) (readOnly : bool)
    : result goerror unit :=
  match Lookup c name with
  | None => Err (contractViolation (sprintf ["the installed backend does not advertise ";
                   quote name]))
  | Some advertised =>
      let differs := contractViolation (sprintf ["the installed backend metadata for ";
                       quote name; " differs from the approved matrix"]) in
      match find (fun cmd => streq (cc_Name cmd) name) contractCommands with
      | None => Err differs
      | Some expected =>
          reject (negb (Bool.eqb (cc_ReadOnly expected) readOnly)
                  || negb (Bool.eqb (cc_ReadOnly advertised) (cc_ReadOnly expected))
                  || negb (equalStrings (cc_Capabilities advertised) (cc_Capabilities expected)))
            with_ differs;;
          Ok tt
      end
  end.

(* ------------------------------------------------------------------ *)
(** ** Decoding exactly one document                                   *)
(* ------------------------------------------------------------------ *)

(** The decoded type [T] is the text of the call in the errors of the package. *)
Definition decodeExactOne {A} `{GoLib, GoValue A} (raw : string) : result string A :=
  match parse [] (tokens raw) with
  | None => Err (json_text "Decode" raw)
  | Some (JNull, _) => Err "document is null"
  | Some (j, rest) =>
      match go_into true go_zero j with
      | None => Err (json_text "Decode" raw)
      | Some value =>
          match rest with
          | [] => Ok value
          | _ :: _ =>
              match parse [] rest with
              | Some (j', _) =>
                  if floats_ok j' then Err "document contains a second JSON value"
                  else Err (sprintf ["document has trailing content: "; json_text "Decode" raw])
              | None => Err (sprintf ["document has trailing content: "; json_text "Decode" raw])
              end
          end
      end
  end.

Record backendContractErrorWire : Type := {
  bw_SchemaVersion : option string;
  bw_Exit : option Z;
  bw_Code : option string;
  bw_ComponentCode : option string;
  bw_Retryable : option bool;
  bw_Message : option string
}.

Record contractCommandWire : Type := {
  cw_Name : option string;
  cw_ReadOnly : option bool;
  cw_Capabilities : option (list string)
}.

Record contractWire : Type := {
  tw_APIVersion : option string;
  tw_Kind : option string;
  tw_BackendVersion : option string;
  tw_ProductRelease : option string;
  tw_SchemaVersion : option string;
  tw_Commands : option (list contractCommandWire)
}.

#[global] Instance contract_error_wire_value : GoValue backendContractErrorWire := {|
  go_zero := {| bw_SchemaVersion := None; bw_Exit := None; bw_Code := None;
                bw_ComponentCode := None; bw_Retryable := None; bw_Message := None |};
  go_into strict old := decode_struct strict
    ["schemaVersion"; "exit"; "code"; "componentCode"; "retryable"; "message"] old (fun ms =>
    sv ← field strict ms "schemaVersion" (bw_SchemaVersion old);
    ex ← field strict ms "exit" (bw_Exit old);
    co ← field strict ms "code" (bw_Code old);
    cc ← field strict ms "componentCode" (bw_ComponentCode old);
    re ← field strict ms "retryable" (bw_Retryable old);
    me ← field strict ms "message" (bw_Message old);
    Some {| bw_SchemaVersion := sv; bw_Exit := ex; bw_Code := co; bw_ComponentCode := cc;
            bw_Retryable := re; bw_Message := me |}) |}.

#[global] Instance contract_command_wire_value : GoValue contractCommandWire := {|
  go_zero := {| cw_Name := None; cw_ReadOnly := None; cw_Capabilities := None |};
  go_into strict old := decode_struct strict ["name"; "readOnly"; "capabilities"] old (fun ms =>
    na ← field strict ms "name" (cw_Name old);
    ro ← field strict ms "readOnly" (cw_ReadOnly old);
    ca ← field strict ms "capabilities" (cw_Capabilities old);
    Some {| cw_Name := na; cw_ReadOnly := ro; cw_Capabilities := ca |}) |}.

#[global] Instance contract_wire_value : GoValue contractWire := {|
  go_zero := {| tw_APIVersion := None; tw_Kind := None; tw_BackendVersion := None;
                tw_ProductRelease := None; tw_SchemaVersion := None; tw_Commands := None |};
  go_into strict old := decode_struct strict
    ["apiVersion"; "kind"; "backendVersion"; "productRelease"; "schemaVersion"; "commands"] old
    (fun ms =>
    av ← field strict ms "apiVersion" (tw_APIVersion old);
    ki ← field strict ms "kind" (tw_Kind old);
    bv ← field strict ms "backendVersion" (tw_BackendVersion old);
    pr ← field strict ms "productRelease" (tw_ProductRelease old);
    sv ← field strict ms "schemaVersion" (tw_SchemaVersion old);
    co ← field strict ms "commands" (tw_Commands old);
    Some {| tw_APIVersion := av; tw_Kind := ki; tw_BackendVersion := bv;
            tw_ProductRelease := pr; tw_SchemaVersion := sv; tw_Commands := co |}) |}.

Definition contract_command (index : Z) (wire : contractCommandWire)
    : result string ContractCommand :=
  match cw_Name wire, cw_ReadOnly wire, cw_Capabilities wire with
  | Some name, Some readOnly, Some capabilities => Ok (Cmd name readOnly capabilities)
  | _, _, _ => Err (sprintf ["contract command at index "; itoa index;
                             " omits or nulls a required field"])
  end.

Definition decodeContract `{GoLib} (raw : string) : result string Contract :=
  wire ← decodeExactOne (A := contractWire) raw;
  match tw_APIVersion wire, tw_Kind wire, tw_BackendVersion wire, tw_ProductRelease wire,
        tw_SchemaVersion wire, tw_Commands wire with
  | Some apiVersion, Some kind, Some backendVersion, Some productRelease, Some schemaVersion,
    Some commands =>
      cmds ← map_each (fun x : Z * contractCommandWire => contract_command x.1 x.2)
               (zip (Z.of_nat <$> seq 0 (length commands)) commands);
      Ok {| ct_APIVersion := apiVersion; ct_Kind := kind; ct_BackendVersion := backendVersion;
            ct_ProductRelease := productRelease; ct_SchemaVersion := schemaVersion;
            ct_Commands := cmds |}
  | _, _, _, _, _, _ => Err "contract omits or nulls a required field"
  end.

(** The code and the retry flag approved for an exit and a component code. *)
Definition approved_contract_error (exit : Z) (componentCode : string) : string * bool :=
  if streq componentCode codeBackendReleaseMarkerMissing then
    (if (exit =? Precondition)%Z then Label Precondition else "", false)
  else if streq componentCode codeBackendReleaseMarkerInvalid
          || streq componentCode codeBackendContractInvalid then
    (if (exit =? ContractMismatch)%Z then Label ContractMismatch else "", false)
  else if streq componentCode codeBackendHandshakeUnavailable then
    (if (exit =? Unavailable)%Z then (Label Unavailable, true) else ("", false))
  else ("", false).

Definition check_contract_error_message (message : option string) : result string unit :=
  match message with
  | None => Ok tt
  | Some "" => Err "typed contract error message is empty"
  | Some m =>
      reject (512 <? slen m)%Z
        with_ "typed contract error message exceeds 512 UTF-8 bytes";;
      reject (existsb is_control (runes m))
        with_ "typed contract error message contains a control character";;
      reject (search credentialValueShape m || contains m syntheticSecret)
        with_ "typed contract error message contains prohibited credential material";;
      Ok tt
  end.

Definition decodeBackendContractError `{GoLib} (raw : string)
    : result string BackendContractError :=
  wire ← decodeExactOne (A := backendContractErrorWire) raw;
  match bw_SchemaVersion wire, bw_Exit wire, bw_Code wire, bw_ComponentCode wire,
        bw_Retryable wire with
  | Some schemaVersion, Some exit, Some code, Some componentCode, Some retryable =>
      reject (negb (streq schemaVersion "backend-contract-error/v1"))
        with_ sprintf ["typed contract error schemaVersion "; quote schemaVersion;
                       " is unsupported"];;
      _ ← check_contract_error_message (bw_Message wire);
      let '(wantCode, wantRetryable) := approved_contract_error exit componentCode in
      reject (is_empty wantCode || negb (streq code wantCode)
              || negb (Bool.eqb retryable wantRetryable))
        with_ "typed contract error tuple is not one of the approved failures";;
      Ok {| bc_SchemaVersion := schemaVersion; bc_Exit := exit; bc_Code := code;
            bc_ComponentCode := componentCode; bc_Retryable := retryable;
            bc_Message := default "" (bw_Message wire) |}
  | _, _, _, _, _ => Err "typed contract error omits a required field"
  end.

(* ------------------------------------------------------------------ *)
(** ** Invocations                                                     *)
(* ------------------------------------------------------------------ *)

Record DegradedResult : Type := {
  dr_Degraded : bool;
  dr_Reason : string;
  dr_HandshakeStatus : Z;
  dr_OperationAttempted : bool;
  dr_BackendExitStatus : Z;
  dr_RetryGuidance : string;
  dr_CorrelationID : string
}.

Record Result : Type := {
  rs_Stdout : string;
  rs_Stderr : string;
  rs_ExitCode : Z;
  rs_CorrelationID : string;
  rs_Signaled : bool;
  rs_TimedOut : bool;
  rs_Degraded : option DegradedResult
}.

Record Request : Type := {
  rq_Subcommand : string;
  rq_Args : list string;
  rq_JSON : bool;
  rq_Secret : option string
}.

Definition zero_result : Result :=
  {| rs_Stdout := ""; rs_Stderr := ""; rs_ExitCode := 0; rs_CorrelationID := "";
     rs_Signaled := false; rs_TimedOut := false; rs_Degraded := None |}.

(** The one field [OperationID] reads. *)
Record operation_doc : Type := { od_OperationID : string }.
#[global] Instance operation_doc_value : GoValue operation_doc := {|
  go_zero := {| od_OperationID := "" |};
  go_into strict old := decode_struct strict ["operationId"] old (fun ms =>
    op ← field strict ms "operationId" (od_OperationID old);
    Some {| od_OperationID := op |}) |}.

Definition OperationID (r : Result) : string :=
  match unmarshal operation_doc (rs_Stdout r) with
  | Some doc => if is_empty (od_OperationID doc) then rs_CorrelationID r else od_OperationID doc
  | None => rs_CorrelationID r
  end.

Definition newCorrelationID : IO string :=
  b ← random 8;
  mret (match b with
        | None => "cli-0000000000000000"
        | Some b => sprintf ["cli-"; hex_encode b]
        end).

(** The classification of what [cmd.Run] reported. *)
Definition run_outcome (report : exec_report) : result goerror Result :=
  let res exit signaled :=
    {| rs_Stdout := er_stdout report; rs_Stderr := er_stderr report; rs_ExitCode := exit;
       rs_CorrelationID := ""; rs_Signaled := signaled; rs_TimedOut := er_ctx_done report;
       rs_Degraded := None |} in
  let unavailable text :=
    Err (ECLI (cli_error Unavailable
      (sprintf ["the host lifecycle backend could not be executed: "; text]) "backend"
      CodeBackendUnavailable)) in
  match er_err report with
  | RunOk | RunWaitDelay => Ok (res 0%Z false)
  | RunExit code => Ok (res code (code <? 0)%Z)
  | RunNotStarted e =>
      if os_permission e then
        Err (ECLI (cli_error Auth
          (sprintf ["the host lifecycle backend cannot be executed by this user: "; os_text e;
                    "; appliance commands run as root"]) "os" CodeBackendForbidden))
      else unavailable (os_text e)
  | RunCanceled text => unavailable text
  end.

Definition runWithStdin (argv : list string) (stdin : option string) : IO (result goerror Result) :=
  report ← spawn argv stdin; mret (run_outcome report).

Definition run (argv : list string) : IO (result goerror Result) := runWithStdin argv None.

Definition not_allowlisted (message : string) : goerror :=
  ECLI (cli_error ContractMismatch message "cli" "argv-not-allowlisted").

Definition validateRequest (req : Request) (mut : bool) : result goerror unit :=
  let sub := quote (rq_Subcommand req) in
  let unknown := not_allowlisted (sprintf ["subcommand "; sub;
                   " is not in this CLI's backend allowlist"]) in
  match assoc allowedArgv (rq_Subcommand req) with
  | None => Err unknown
  | Some rule =>
      reject (negb (Bool.eqb (mutating rule) mut)) with_ unknown;;
      match validate_argv rule (rq_Args req) with
      | Err e => Err (not_allowlisted (sprintf ["argv for "; sub; " rejected: "; e]))
      | Ok _ =>
          reject (match rq_Secret req with Some _ => negb (stdinSecret rule) | None => false end)
            with_ not_allowlisted (sprintf ["subcommand "; sub;
                    " does not take a secret stream"]);;
          Ok tt
      end
  end.

Definition backend_argv (req : Request) (id : string) : list string :=
  fields (rq_Subcommand req) ++ rq_Args req ++ ["--correlation-id"; id]
  ++ (if rq_JSON req then ["--json"] else []).

Definition set_correlation (res : Result) (id : string) : Result :=
  {| rs_Stdout := rs_Stdout res; rs_Stderr := rs_Stderr res; rs_ExitCode := rs_ExitCode res;
     rs_CorrelationID := id; rs_Signaled := rs_Signaled res; rs_TimedOut := rs_TimedOut res;
     rs_Degraded := rs_Degraded res |}.

Definition invoke (req : Request) (mut : bool) : IO (result goerror Result) :=
  match validateRequest req mut with
  | Err e => mret (Err e)
  | Ok _ =>
      id ← newCorrelationID;
      let* res := runWithStdin (backend_argv req id) (rq_Secret req) in
      mret (Ok (set_correlation res id))
  end.

Definition handshake_argv : list string := ["contract-version"; "--json"].

(** The verdict of [Handshake] on the process it ran. *)
Definition handshake_verdict `{GoLib} (res : Result) : result goerror Contract :=
  if negb (rs_ExitCode res =? 0)%Z then
    match decodeBackendContractError (rs_Stdout res) with
    | Err e => Err (contractViolation (sprintf ["the backend's typed contract error is invalid: ";
                      e]))
    | Ok typed =>
        reject (negb (bc_Exit typed =? rs_ExitCode res)%Z)
          with_ contractViolation (sprintf ["typed contract error exit "; itoa (bc_Exit typed);
                  " does not match process exit "; itoa (rs_ExitCode res)]);;
        Err (EContract typed)
    end
  else
    match decodeContract (rs_Stdout res) with
    | Err e => Err (contractViolation (sprintf ["the backend's contract document does not parse: ";
                      e]))
    | Ok contract => _ ← validate_contract contract; Ok contract
    end.

Definition Handshake `{GoLib} : IO (result goerror Contract) :=
  let* res := run handshake_argv in mret (handshake_verdict res).

Definition allowsReadOnlyBestEffort (err : goerror) : bool :=
  match as_cli err with
  | None => true
  | Some ce => negb (streq (ce_ComponentCode ce) CodeBackendUnavailable)
               && negb (streq (ce_ComponentCode ce) CodeBackendForbidden)
  end.

Definition retry_guidance (err : goerror) : string :=
  match as_contract err with
  | Some typed =>
      if bc_Retryable typed
      then "Retry with bounded backoff after the backend dependency recovers."
      else "Correct the installed backend contract before retrying."
  | None => "Correct the installed backend contract before retrying."
  end.

(** The result of the one read after a failed handshake. *)
Definition degraded (req : Request) (handshakeErr : goerror) (read : result goerror Result) : Result :=
  let res := match read with Ok res => res | Err _ => zero_result end in
  let classified := Classify handshakeErr in
  let failed := match read with Ok _ => false | Err _ => true end in
  {| rs_Stdout := if rq_JSON req then "" else rs_Stdout res;
     rs_Stderr := if rq_JSON req then "" else rs_Stderr res;
     rs_ExitCode := rs_ExitCode res;
     rs_CorrelationID := rs_CorrelationID res;
     rs_Signaled := rs_Signaled res;
     rs_TimedOut := rs_TimedOut res;
     rs_Degraded := Some
       {| dr_Degraded := true;
          dr_Reason := ce_ComponentCode classified;
          dr_HandshakeStatus := ce_Code classified;
          dr_OperationAttempted := true;
          dr_BackendExitStatus := if failed then (-1)%Z else rs_ExitCode res;
          dr_RetryGuidance := retry_guidance handshakeErr;
          dr_CorrelationID := rs_CorrelationID res |} |}.

(** The [(result, error)] pair of the exported invocations: both may be set. *)
Definition outcome : Type := option Result * option goerror.

Definition to_outcome (r : result goerror Result) : outcome :=
  match r with Ok res => (Some res, None) | Err e => (None, Some e) end.

Definition InvokeReadOnly `{GoLib} (req : Request) : IO outcome :=
  match validateRequest req false with
  | Err e => mret (None, Some e)
  | Ok _ =>
      handshake ← Handshake;
      match handshake with
      | Ok contract =>
          match requireAdvertisedCommand contract (rq_Subcommand req) true with
          | Err e => mret (None, Some e)
          | Ok _ => r ← invoke req false; mret (to_outcome r)
          end
      | Err handshakeErr =>
          if negb (allowsReadOnlyBestEffort handshakeErr) then mret (None, Some handshakeErr)
          else
            read ← invoke req false;
            mret (Some (degraded req handshakeErr read), Some handshakeErr)
      end
  end.

Definition Invoke `{GoLib} (subcommand : string) (jsonOut : bool) : IO outcome :=
  InvokeReadOnly {| rq_Subcommand := subcommand; rq_Args := []; rq_JSON := jsonOut;
                    rq_Secret := None |}.

Definition InvokeMutating `{GoLib} (req : Request) : IO outcome :=
  match validateRequest req true with
  | Err e => mret (None, Some e)
  | Ok _ =>
      handshake ← Handshake;
      match handshake with
      | Err e => mret (None, Some e)
      | Ok contract =>
          match requireAdvertisedCommand contract (rq_Subcommand req) false with
          | Err e => mret (None, Some e)
          | Ok _ => r ← invoke req true; mret (to_outcome r)
          end
      end
  end.

(* ------------------------------------------------------------------ *)
(** ** Lemmas                                                          *)
(* ------------------------------------------------------------------ *)

(** The argument lists of a rule: positionals, then flags, the valued ones each
    with one value token of any shape. *)
Inductive flag_args (fs : list string) : list string -> Prop :=
  | fa_nil : flag_args fs []
  | fa_plain f rest : match_flag fs f = Some false -> flag_args fs rest -> flag_args fs (f :: rest)
  | fa_valued f v rest :
      match_flag fs f = Some true -> flag_args fs rest -> flag_args fs (f :: v :: rest).

Definition argv_allowed (r : argvRule) (args : list string) : Prop :=
  exists pos opts,
    args = pos ++ opts
    /\ (minPositionals r <= Z.of_nat (length pos) <= positionals r)%Z
    /\ Forall (fun a => has_prefix a "-" = false) pos
    /\ (forall a, head opts = Some a -> has_prefix a "-" = true)
    /\ flag_args (flags r) opts.

Lemma validate_flags_ok fs args : validate_flags fs args = Ok tt <-> flag_args fs args.
Proof.
  split.
  - remember (length args) as n eqn:Hn. revert args Hn.
    induction (lt_wf n) as [n _ IH]. intros [|token rest] ->; simpl; [constructor|].
    destruct (match_flag fs token) as [[]|] eqn:Hm; [|intros H|done].
    + destruct rest as [|v rest]; [done|]. intros H. apply fa_valued; [done|].
      by eapply IH; [|reflexivity|exact H]; simpl; lia.
    + apply fa_plain; [done|]. by eapply IH; [|reflexivity|exact H]; simpl; lia.
  - induction 1 as [|f rest Hm _ IH|f v rest Hm _ IH]; simpl; [done| |]; by rewrite Hm.
Qed.

Lemma count_positionals_split args :
  Forall (fun a => has_prefix a "-" = false) (take (count_positionals args) args)
  /\ (forall a, head (drop (count_positionals args) args) = Some a -> has_prefix a "-" = true).
Proof.
  induction args as [|a args [IH1 IH2]]; simpl; [done|].
  destruct (has_prefix a "-") eqn:Ha; simpl; [naive_solver | auto].
Qed.

Lemma count_positionals_app pos opts :
  Forall (fun a => has_prefix a "-" = false) pos ->
  (forall a, head opts = Some a -> has_prefix a "-" = true) ->
  count_positionals (pos ++ opts) = length pos.
Proof.
  intros Hpos Hopts. induction Hpos as [|a pos Ha _ IH]; simpl.
  - destruct opts as [|o opts]; simpl; [done|]. by rewrite (Hopts o eq_refl).
  - by rewrite Ha, IH.
Qed.

Lemma count_positionals_le args : count_positionals args <= length args.
Proof. induction args as [|a args IH]; simpl; [done|]. destruct (has_prefix a "-"); lia. Qed.

(** The validator accepts exactly the argument lists of the rule. *)
Lemma validate_argv_ok r args : validate_argv r args = Ok tt <-> argv_allowed r args.
Proof.
  unfold validate_argv, argv_allowed. rewrite !reject_ok, validate_flags_ok, !Z.ltb_ge. split.
  - intros (Hmax & Hmin & Hfl). destruct (count_positionals_split args) as [Hpos Hopts].
    exists (take (count_positionals args) args), (drop (count_positionals args) args).
    rewrite take_drop, length_take_le by apply count_positionals_le. done.
  - intros (pos & opts & -> & Hn & Hpos & Hopts & Hfl).
    rewrite (count_positionals_app pos opts) by done. rewrite drop_app_length.
    split_and!; [lia..|done].
Qed.

Lemma validate_request_ok req mut :
  validateRequest req mut = Ok tt <->
  exists rule, assoc allowedArgv (rq_Subcommand req) = Some rule
    /\ mutating rule = mut /\ argv_allowed rule (rq_Args req)
    /\ (is_Some (rq_Secret req) -> stdinSecret rule = true).
Proof.
  unfold validateRequest. destruct (assoc allowedArgv (rq_Subcommand req)) as [rule|]; [|naive_solver].
  rewrite reject_ok, negb_false_iff, Bool.eqb_true_iff.
  pose proof (validate_argv_ok rule (rq_Args req)) as Hargv.
  destruct (validate_argv rule (rq_Args req)) as [[]|e].
  - rewrite reject_ok. destruct (rq_Secret req); simpl; rewrite ?negb_false_iff; [naive_solver|].
    split; [|naive_solver]. intros [? _]. exists rule. split_and!; [done..|naive_solver|by intros [??]].
  - split; [naive_solver|]. intros (r & [= <-] & _ & Ha & _). apply Hargv in Ha. done.
Qed.

Lemma invoke_run req mut w h :
  invoke req mut w h =
  match validateRequest req mut with
  | Err e => (Err e, [])
  | Ok _ =>
      let b := w h (OpRandom 8) in
      let id := match b with
                | None => "cli-0000000000000000"
                | Some b => sprintf ["cli-"; hex_encode b]
                end in
      let o := OpSpawn (backend_argv req id) (rq_Secret req) in
      let report := w (h ++ [Ev (OpRandom 8) b]) o in
      (match run_outcome report with Ok res => Ok (set_correlation res id) | Err e => Err e end,
       [Ev (OpRandom 8) b; Ev o report])
  end.
Proof.
  unfold invoke. destruct (validateRequest req mut) as [[]|e]; [|done].
  unfold newCorrelationID, runWithStdin, io_try, spawn, random, perform, mbind, io_bind.
  cbn. by destruct (run_outcome _).
Qed.

Lemma handshake_run `{GoLib} w h :
  Handshake w h =
  let report := w h (OpSpawn handshake_argv None) in
  (match run_outcome report with Ok res => handshake_verdict res | Err e => Err e end,
   [Ev (OpSpawn handshake_argv None) report]).
Proof.
  unfold Handshake, run, runWithStdin, io_try, spawn, perform, mbind, io_bind. cbn.
  by destruct (run_outcome _).
Qed.

(** The handshake the trace starts with succeeded and the contract it returned
    advertises the subcommand under the flag. *)
Definition handshake_passed `{GoLib} (report : exec_report) (sub : string) (readOnly : bool)
    : Prop :=
  exists res contract,
    run_outcome report = Ok res /\ handshake_verdict res = Ok contract
    /\ requireAdvertisedCommand contract sub readOnly = Ok tt.

Lemma to_outcome_err e : to_outcome (Err e) = (None, Some e).
Proof. done. Qed.

Lemma invoke_mutating_run `{GoLib} req w h :
  InvokeMutating req w h =
  match validateRequest req true with
  | Err e => ((None, Some e), [])
  | Ok _ =>
      let '(handshake, t) := Handshake w h in
      match handshake with
      | Err e => ((None, Some e), t)
      | Ok contract =>
          match requireAdvertisedCommand contract (rq_Subcommand req) false with
          | Err e => ((None, Some e), t)
          | Ok _ => let '(r, t') := invoke req true w (h ++ t) in (to_outcome r, t ++ t')
          end
      end
  end.
Proof.
  unfold InvokeMutating. destruct (validateRequest req true); [|done].
  rewrite io_bind_run. destruct (Handshake w h) as [[contract|e] t];
    [|by rewrite io_ret_run, app_nil_r].
  destruct (requireAdvertisedCommand _ _ _); [|by rewrite io_ret_run, app_nil_r].
  rewrite io_map_run. by destruct (invoke req true w (h ++ t)).
Qed.

Lemma invoke_read_only_run `{GoLib} req w h :
  InvokeReadOnly req w h =
  match validateRequest req false with
  | Err e => ((None, Some e), [])
  | Ok _ =>
      let '(handshake, t) := Handshake w h in
      match handshake with
      | Ok contract =>
          match requireAdvertisedCommand contract (rq_Subcommand req) true with
          | Err e => ((None, Some e), t)
          | Ok _ => let '(r, t') := invoke req false w (h ++ t) in (to_outcome r, t ++ t')
          end
      | Err e =>
          if allowsReadOnlyBestEffort e then
            let '(r, t') := invoke req false w (h ++ t) in
            ((Some (degraded req e r), Some e), t ++ t')
          else ((None, Some e), t)
      end
  end.
Proof.
  unfold InvokeReadOnly. destruct (validateRequest req false); [|done].
  rewrite io_bind_run. destruct (Handshake w h) as [[contract|e] t].
  - destruct (requireAdvertisedCommand _ _ _); [|by rewrite io_ret_run, app_nil_r].
    rewrite io_map_run. by destruct (invoke req false w (h ++ t)).
  - destruct (allowsReadOnlyBestEffort e); simpl; [|by rewrite app_nil_r].
    rewrite io_map_run. by destruct (invoke req false w (h ++ t)).
Qed.

(** The processes a trace started. *)
Fixpoint spawns (t : trace) : list (list string * option string) :=
  match t with
  | [] => []
  | Ev (OpSpawn argv stdin) _ :: t' => (argv, stdin) :: spawns t'
  | _ :: t' => spawns t'
  end.

Lemma spawns_app t t' : spawns (t ++ t') = spawns t ++ spawns t'.
Proof. induction t as [|[[] ?] t IH]; simpl; by rewrite ?IH. Qed.

(** ** Contracts that validate *)

Lemma validate_commands_prefix index seen wants cmds :
  validate_commands index seen wants cmds = Ok tt -> cmds `prefix_of` wants.
Proof.
  revert index seen wants. induction cmds as [|cmd cmds IH]; intros index seen wants;
    cbn [validate_commands].
  - intros _. apply prefix_nil.
  - rewrite !reject_ok, bind_ok. intros (_ & _ & [] & _ & Hw).
    destruct wants as [|want wants]; [done|].
    apply reject_ok in Hw as [Heq Hrest]. apply negb_false_iff in Heq.
    apply andb_true_iff in Heq as [Heq Hcaps]. apply andb_true_iff in Heq as [Hname Hro].
    apply streq_true in Hname. apply Bool.eqb_prop in Hro.
    apply eqb_list_streq in Hcaps. apply IH in Hrest.
    destruct cmd, want; simpl in *; subst. by apply prefix_cons.
Qed.

Definition legacy_commands : list ContractCommand := take 10 contractCommands.

Lemma validate_commands_exact cmds :
  validate_commands 0 ∅ contractCommands cmds = Ok tt ->
  length cmds = 10 \/ length cmds = 20 ->
  cmds = legacy_commands \/ cmds = contractCommands.
Proof.
  intros [k Hk]%validate_commands_prefix Hlen. unfold legacy_commands.
  assert (H20 : length contractCommands = 20) by done.
  destruct Hlen as [Hlen|Hlen]; [left | right].
  - by rewrite Hk, <- Hlen, take_app_length.
  - rewrite Hk in H20. rewrite length_app in H20. destruct k; simpl in H20; [|lia].
    by rewrite Hk, app_nil_r.
Qed.

Lemma matrices_validate :
  validate_commands 0 ∅ contractCommands legacy_commands = Ok tt
  /\ validate_commands 0 ∅ contractCommands contractCommands = Ok tt.
Proof. split; vm_compute; reflexivity. Qed.

(* ------------------------------------------------------------------ *)
(** ** Properties                                                      *)
(* ------------------------------------------------------------------ *)

(** C3: no mutating subcommand reaches the host before a handshake that
    validated and advertises it.  Whatever the backend answers, the processes
    [InvokeMutating] starts are: none, when the request is outside the
    allowlist; the handshake alone; or the handshake followed by exactly the
    requested argv, in which case the first answer passed every check. *)
Theorem mutating_runs_after_handshake `{GoLib} req w h :
  wp (InvokeMutating req) w h (fun out t =>
    (is_ok (validateRequest req true) = false /\ t = [] /\ out.1 = None /\ is_Some out.2)
    \/ (spawns t = [(handshake_argv, None)] /\ out.1 = None /\ is_Some out.2)
    \/ (exists report id t',
          t = Ev (OpSpawn handshake_argv None) report :: t'
          /\ handshake_passed report (rq_Subcommand req) false
          /\ validateRequest req true = Ok tt
          /\ spawns t' = [(backend_argv req id, rq_Secret req)])).
Proof.
  apply wp_value. intros out t. rewrite invoke_mutating_run, handshake_run. cbn zeta.
  destruct (validateRequest req true) as [[]|e] eqn:Hv; [|intros [= <- <-]; left; by eauto].
  intros Hr. right. set (report := w h _) in *.
  destruct (run_outcome report) as [res|e] eqn:Hro; cbn in Hr; [|left; naive_solver].
  destruct (handshake_verdict res) as [contract|e] eqn:Hhv; [|left; naive_solver].
  destruct (requireAdvertisedCommand _ _ _) as [[]|e] eqn:Hra; [|left; naive_solver].
  right. rewrite invoke_run, Hv in Hr. cbn zeta in Hr. injection Hr as _ <-.
  eexists _, _, _. split; [done|]. split; [by exists res, contract|]. split; [done|]. done.
Qed.

(** A read-only subcommand is tried at most once, after the handshake; a
    failed handshake stays the verdict.  An executable that is absent or
    forbidden is not tried again, and in JSON mode the bytes of a read that
    followed a failed handshake never leave the adapter. *)
Theorem degraded_read_keeps_verdict `{GoLib} req w h e :
  validateRequest req false = Ok tt ->
  (Handshake w h).1 = Err e ->
  wp (InvokeReadOnly req) w h (fun out t =>
    out.2 = Some e
    /\ (allowsReadOnlyBestEffort e = false ->
        out.1 = None /\ spawns t = [(handshake_argv, None)])
    /\ (allowsReadOnlyBestEffort e = true ->
        exists res d id,
          out.1 = Some res /\ rs_Degraded res = Some d
          /\ dr_Reason d = ce_ComponentCode (Classify e)
          /\ dr_HandshakeStatus d = ce_Code (Classify e)
          /\ (rq_JSON req = true -> rs_Stdout res = "" /\ rs_Stderr res = "")
          /\ spawns t = [(handshake_argv, None); (backend_argv req id, rq_Secret req)])).
Proof.
  intros Hv He. apply wp_value. intros out t. rewrite invoke_read_only_run, Hv.
  rewrite handshake_run in *. cbn zeta in *. simpl in He. rewrite He.
  destruct (allowsReadOnlyBestEffort e) eqn:Hb; [|intros [= <- <-]; naive_solver].
  rewrite invoke_run, Hv. cbn zeta. intros [= <- <-]. split; [done|]. split; [done|]. intros _.
  eexists _, _, _. split_and!; [done..| |done].
  cbn. intros ->. done.
Qed.

(** A contract is accepted exactly when it is a backend contract of this
    major whose commands are, in order, the approved matrix or its ten-command
    prefix: no reordering, no extra or missing capability, no duplicate. *)
Theorem validate_contract_exact c :
  validate_contract c = Ok tt <->
  ct_Kind c = "BackendContract" /\ ct_APIVersion c = "loxilb.io/appliance-backend/v1"
  /\ ct_BackendVersion c <> "" /\ ct_ProductRelease c <> "" /\ ct_SchemaVersion c = payloadSchema
  /\ (ct_Commands c = legacy_commands \/ ct_Commands c = contractCommands).
Proof.
  unfold validate_contract. rewrite !reject_ok.
  change supportedAPIVersion with "loxilb.io/appliance-backend/v1".
  change (Z.of_nat (length contractCommands)) with 20%Z. unfold legacyContractCommandCount.
  rewrite !negb_false_iff, orb_false_iff, !is_empty_false, !streq_true. split.
  - intros (Hk & _ & [Hb Hp] & Hs & Ha & Hn & Hc). split_and!; try done.
    apply validate_commands_exact; [done|]. go_norm. lia.
  - intros (Hk & -> & Hb & Hp & Hs & Hc). destruct matrices_validate as [Hl Hf].
    assert (full_match apiVersionShape "loxilb.io/appliance-backend/v1" = true)
      by (vm_compute; reflexivity).
    destruct Hc as [-> | ->]; (split_and!; [assumption..|reflexivity|reflexivity|assumption]).
Qed.

(** A process the adapter may start. *)
Definition spawn_allowed (o : op) : Prop :=
  match o with
  | OpSpawn argv stdin =>
      (argv = handshake_argv /\ stdin = None)
      \/ exists sub rule args id json,
           assoc allowedArgv sub = Some rule /\ argv_allowed rule args
           /\ argv = fields sub ++ args ++ ["--correlation-id"; id] ++ json
           /\ (json = [] \/ json = ["--json"])
           /\ (is_Some stdin -> stdinSecret rule = true)
  | _ => True
  end.

Lemma handshake_ops `{GoLib} : ops_satisfy spawn_allowed Handshake.
Proof.
  intros w h. rewrite handshake_run. cbn. constructor; [by left | constructor].
Qed.

Lemma invoke_ops req mut : ops_satisfy spawn_allowed (invoke req mut).
Proof.
  intros w h. rewrite invoke_run. destruct (validateRequest req mut) as [[]|] eqn:Hv; [|constructor].
  apply validate_request_ok in Hv as (rule & Hr & _ & Ha & Hs).
  cbn. constructor; [done|]. constructor; [|constructor]. right.
  eexists _, rule, _, _, _. split; [done|]. split; [done|]. split; [done|].
  split; [destruct (rq_JSON req); auto | done].
Qed.

(** Every process the adapter starts is the handshake or a subcommand of
    the allowlist with arguments of its rule, closed by the correlation id (and
    [--json]); only the subcommand that takes a secret gets anything on stdin,
    and the request's secret occurs nowhere else. *)
Theorem spawned_argv_allowlisted `{GoLib} req :
  ops_satisfy spawn_allowed (InvokeMutating req) /\ ops_satisfy spawn_allowed (InvokeReadOnly req).
Proof.
  split.
  - unfold InvokeMutating. repeat (ops_step || apply handshake_ops || apply invoke_ops).
  - unfold InvokeReadOnly. repeat (ops_step || apply handshake_ops || apply invoke_ops).
Qed.

(** C7: a request is accepted exactly when its subcommand is in the allowlist
    under the requested mutability, its arguments are positionals within the
    bounds followed by flags of the rule (each valued flag with one value), and
    a secret is given only to the subcommand that reads one. *)
Theorem request_accepted_iff req mut :
  is_ok (validateRequest req mut) = true <->
  exists rule, assoc allowedArgv (rq_Subcommand req) = Some rule /\ mutating rule = mut
    /\ argv_allowed rule (rq_Args req) /\ (is_Some (rq_Secret req) -> stdinSecret rule = true).
Proof. rewrite <- validate_request_ok. by destruct (validateRequest req mut) as [[]|]. Qed.

(** The failures a backend may report instead of a contract. *)
Definition approved_failures : list (string * Z * string * bool) :=
  [ (codeBackendReleaseMarkerMissing, 4, "PRECONDITION", false);
    (codeBackendReleaseMarkerInvalid, 6, "CONTRACT_MISMATCH", false);
    (codeBackendContractInvalid, 6, "CONTRACT_MISMATCH", false);
    (codeBackendHandshakeUnavailable, 5, "UNAVAILABLE", true) ]%Z.

Definition message_safe (m : string) : Prop :=
  (slen m <= 512)%Z /\ existsb is_control (runes m) = false
  /\ search credentialValueShape m = false /\ contains m syntheticSecret = false.

Lemma approved_contract_error_in exit component code retryable :
  approved_contract_error exit component = (code, retryable) -> code <> "" ->
  (component, exit, code, retryable) ∈ approved_failures.
Proof.
  unfold approved_contract_error, approved_failures, Precondition, ContractMismatch, Unavailable.
  intros H Hne. destruct (streq component _) eqn:H1.
  { destruct (exit =? 4)%Z eqn:He; simplify_eq. go_norm. set_solver. }
  destruct (streq component codeBackendReleaseMarkerInvalid) eqn:H2; simpl in H.
  { destruct (exit =? 6)%Z eqn:He; simplify_eq. go_norm. set_solver. }
  destruct (streq component codeBackendContractInvalid) eqn:H3; simpl in H.
  { destruct (exit =? 6)%Z eqn:He; simplify_eq. go_norm. set_solver. }
  destruct (streq component codeBackendHandshakeUnavailable) eqn:H4; simplify_eq.
  destruct (exit =? 5)%Z eqn:He; simplify_eq. go_norm. set_solver.
Qed.

Lemma contract_error_message_ok m :
  check_contract_error_message m = Ok tt -> message_safe (default "" m).
Proof.
  destruct m as [m|]; cbn [default check_contract_error_message]; [|by vm_compute].
  destruct m as [|a m]; [done|]. rewrite !reject_ok, orb_false_iff, Z.ltb_ge.
  unfold message_safe. naive_solver.
Qed.

Lemma contract_error_ok `{GoLib} raw e :
  decodeBackendContractError raw = Ok e ->
  (bc_ComponentCode e, bc_Exit e, bc_Code e, bc_Retryable e) ∈ approved_failures
  /\ message_safe (bc_Message e).
Proof.
  unfold decodeBackendContractError. rewrite bind_ok. intros (wire & _ & He).
  destruct (bw_SchemaVersion wire), (bw_Exit wire), (bw_Code wire) as [code|],
    (bw_ComponentCode wire), (bw_Retryable wire); try done.
  apply reject_ok in He as [_ He]. apply bind_ok in He as ([] & Hm & He).
  destruct (approved_contract_error _ _) as [wantCode wantRetryable] eqn:Ha.
  apply reject_ok in He as [Ht [= <-]]. apply orb_false_iff in Ht as [Ht Hr].
  apply orb_false_iff in Ht as [Hne Hc].
  apply negb_false_iff, streq_true in Hc as ->. apply negb_false_iff, eqb_prop in Hr as ->.
  apply is_empty_false in Hne. apply approved_contract_error_in in Ha; [|done].
  split; [done|]. by apply contract_error_message_ok.
Qed.

(** A typed handshake failure is one of four approved rows: its component
    code fixes the exit, the code and whether a retry is advised; its message is
    short, printable and free of credential material; and the exit the process
    reports for it is the row's. *)
Theorem typed_contract_error_approved `{GoLib} raw e :
  decodeBackendContractError raw = Ok e ->
  (bc_ComponentCode e, bc_Exit e, bc_Code e, bc_Retryable e) ∈ approved_failures
  /\ message_safe (bc_Message e)
  /\ ce_Code (Classify (EContract e)) = bc_Exit e
  /\ Label (bc_Exit e) = bc_Code e.
Proof.
  intros [Ha Hm]%contract_error_ok. split; [done|]. split; [done|]. split; [done|].
  unfold approved_failures in Ha. rewrite !elem_of_cons, elem_of_nil in Ha.
  by destruct_or?; simplify_eq; destruct e; simplify_eq/=.
Qed.

(** The tables of the adapter agree: the allowlist and the command matrix
    name the same subcommands (the handshake apart), a subcommand is mutating in
    the one exactly when it is not read-only in the other, a secret goes to the
    one with the [secret-stdin] capability, no rule has a flag that could be
    taken for the adapter's own, and no two entries share a name. *)
Theorem tables_agree :
  fst <$> tail allowedArgv = cc_Name <$> contractCommands
  /\ Forall2 (fun (x : string * argvRule) cmd =>
       mutating x.2 = negb (cc_ReadOnly cmd)
       /\ stdinSecret x.2 = str_in "secret-stdin" (cc_Capabilities cmd)
       /\ match_flag (flags x.2) "--json" = None
       /\ match_flag (flags x.2) "--correlation-id" = None
       /\ forallb (fun f => has_prefix f "--") (flags x.2) = true)
       (tail allowedArgv) contractCommands
  /\ NoDup (fst <$> allowedArgv).
Proof.
  split; [reflexivity|]. split.
  - unfold allowedArgv, contractCommands. cbn [tail].
    repeat (apply Forall2_cons; split; [split_and!; vm_compute; reflexivity|]). constructor.
  - apply first_duplicate_none with (seen := ∅). vm_compute. reflexivity.
Qed.

(* ------------------------------------------------------------------ *)
(** ** Witnesses                                                       *)
(* ------------------------------------------------------------------ *)

(** A host whose backend answers each argv as given. *)
Definition backend_world (backend : list string -> exec_report) : World := fun h o =>
  match o return answer o with
  | OpSpawn argv _ => backend argv
  | OpRandom _ => Some "abcdefgh"
  | o => silent_world h o
  end.

Definition json_object (ms : list (string * string)) : string :=
  "{" +:+ join "," ((fun m => dquote +:+ m.1 +:+ dquote +:+ ":" +:+ m.2) <$> ms) +:+ "}".
Definition json_text_of (s : string) : string := dquote +:+ s +:+ dquote.

Definition contract_text (cmds : list ContractCommand) : string :=
  json_object
    [ ("apiVersion", json_text_of "loxilb.io/appliance-backend/v1");
      ("kind", json_text_of "BackendContract");
      ("backendVersion", json_text_of "1.4.0");
      ("productRelease", json_text_of "1.0.0");
      ("schemaVersion", json_text_of payloadSchema);
      ("commands", "[" +:+ join "," ((fun cmd => json_object
         [ ("name", json_text_of (cc_Name cmd));
           ("readOnly", bool_str (cc_ReadOnly cmd));
           ("capabilities", "[" +:+ join "," (json_text_of <$> cc_Capabilities cmd) +:+ "]") ])
         <$> cmds) +:+ "]") ].

Definition unavailable_text : string :=
  json_object
    [ ("schemaVersion", json_text_of "backend-contract-error/v1"); ("exit", "5");
      ("code", json_text_of "UNAVAILABLE");
      ("componentCode", json_text_of codeBackendHandshakeUnavailable); ("retryable", "true") ].

(** The backend refuses the handshake with the retryable failure and answers
    anything else with a document that has not been validated. *)
Definition refusing_backend (argv : list string) : exec_report :=
  match argv with
  | "contract-version" :: _ => ExecReport unavailable_text "" (RunExit 5) false
  | _ => ExecReport "unvalidated bytes" "noise" RunOk false
  end.

Definition status_request : Request :=
  {| rq_Subcommand := "status"; rq_Args := []; rq_JSON := true; rq_Secret := None |}.

Example matrix_contract_accepted :
  match decodeContract (H := plain_text) (contract_text contractCommands) with
  | Ok c => ct_Commands c = contractCommands /\ is_ok (validate_contract c) = true
  | Err _ => False
  end.
Proof. vm_compute. done. Qed.

Definition unavailable_error : goerror :=
  EContract {| bc_SchemaVersion := "backend-contract-error/v1"; bc_Exit := 5;
               bc_Code := "UNAVAILABLE"; bc_ComponentCode := codeBackendHandshakeUnavailable;
               bc_Retryable := true; bc_Message := "" |}.

Lemma degraded_read_keeps_verdict_witness :
  (InvokeReadOnly (H := plain_text) status_request (backend_world refusing_backend) []).1.2
  = Some unavailable_error.
Proof.
  pose proof (degraded_read_keeps_verdict (H := plain_text) status_request
    (backend_world refusing_backend) [] unavailable_error) as H.
  assert (Hv : validateRequest status_request false = Ok tt) by (vm_compute; reflexivity).
  assert (He : (Handshake (H := plain_text) (backend_world refusing_backend) []).1
               = Err unavailable_error) by (vm_compute; reflexivity).
  destruct (H Hv He) as [H1 _]. exact H1.
Defined.

Lemma typed_contract_error_approved_witness :
  ce_Code (Classify unavailable_error) = 5%Z.
Proof.
  pose proof (typed_contract_error_approved (H := plain_text) unavailable_text
    {| bc_SchemaVersion := "backend-contract-error/v1"; bc_Exit := 5;
       bc_Code := "UNAVAILABLE"; bc_ComponentCode := codeBackendHandshakeUnavailable;
       bc_Retryable := true; bc_Message := "" |}) as H.
  destruct H as (_ & _ & H & _); [vm_compute; reflexivity | exact H].
Defined.

(** A backend whose subcommand ends with status 0 once the context is done. *)
Definition canceling_backend (argv : list string) : exec_report :=
  match argv with
  | "contract-version" :: _ => ExecReport (contract_text contractCommands) "" RunOk false
  | _ => ExecReport "" "" (RunCanceled "context deadline exceeded") true
  end.

Definition backup_request : Request :=
  {| rq_Subcommand := "backup create"; rq_Args := ["/b.tar"; "--key-file"; "/k"];
     rq_JSON := false; rq_Secret := None |}.

(** A subcommand that finished with status 0 while the context expired is
    reported as one that could not be executed: the state it changed is reported
    as [UNAVAILABLE], which invites a retry, and not as [PARTIAL]. *)
Theorem finished_after_deadline_is_unavailable :
  let '(out, t) := InvokeMutating (H := plain_text) backup_request
                     (backend_world canceling_backend) [] in
  length (spawns t) = 2%nat
  /\ exists ce, out = (None, Some (ECLI ce)) /\ ce_Code ce = Unavailable
                /\ ce_ComponentCode ce = CodeBackendUnavailable.
Proof. vm_compute. split; [reflexivity|]. by eexists. Qed.
