(* ===== verification/DupKeys.v ===== *)
(** * The duplicate-key walk: [rejectDuplicateJSONKeys] of
    [pkg/backend/payload.go]

    The walk reads the document token by token with [json.Decoder.Token],
    whose states are those of package [encoding/json].  A document it accepts
    repeats no key at any depth: the walk is related to the parser of [Json]. *)
From S2P Require Import Prelude GoStrings Json Errors.

(* ------------------------------------------------------------------ *)
(** ** [json.Decoder.Token] and [json.Decoder.More]                    *)
(* ------------------------------------------------------------------ *)

Inductive tstate :=
  | TopValue | ArrayStart | ArrayValue | ArrayComma
  | ObjectStart | ObjectKey | ObjectColon | ObjectValue | ObjectComma.

Record decoder : Type := Dec { d_toks : list token; d_state : tstate; d_stack : list tstate }.

Inductive got := GOpenObject | GOpenArray | GClose | GString (s : string) | GScalar.

Definition token_value_allowed (s : tstate) : bool :=
  match s with TopValue | ArrayStart | ArrayValue | ObjectValue => true | _ => false end.

Definition token_value_end (s : tstate) : tstate :=
  match s with
  | ArrayStart | ArrayValue => ArrayComma
  | ObjectValue => ObjectComma
  | s => s
  end.

(** Separators the state allows are consumed before the next token. *)
Fixpoint skip_separators (s : tstate) (ts : list token) : option (tstate * list token) :=
  match ts with
  | TColon :: ts' =>
      match s with ObjectColon => skip_separators ObjectValue ts' | _ => None end
  | TComma :: ts' =>
      match s with
      | ArrayComma => skip_separators ArrayValue ts'
      | ObjectComma => skip_separators ObjectKey ts'
      | _ => None
      end
  | _ => Some (s, ts)
  end.

Definition scalar_token (d : decoder) (ts : list token) (g : got) : option (got * decoder) :=
  if token_value_allowed (d_state d)
  then Some (g, Dec ts (token_value_end (d_state d)) (d_stack d)) else None.

Definition close_token (d : decoder) (ts : list token) : option (got * decoder) :=
  match d_stack d with
  | s :: rest => Some (GClose, Dec ts (token_value_end s) rest)
  | [] => None
  end.

Definition open_token (d : decoder) (ts : list token) (g : got) (s : tstate)
    : option (got * decoder) :=
  if token_value_allowed (d_state d) then Some (g, Dec ts s (d_state d :: d_stack d)) else None.

(** [None] is an error of [Token], the end of the input included. *)
Definition next_token (d : decoder) : option (got * decoder) :=
  '(s, ts) ← skip_separators (d_state d) (d_toks d);
  let d := Dec ts s (d_stack d) in
  match ts with
  | TLBrace :: ts' => open_token d ts' GOpenObject ObjectStart
  | TLBrack :: ts' => open_token d ts' GOpenArray ArrayStart
  | TRBrace :: ts' =>
      match s with ObjectStart | ObjectComma => close_token d ts' | _ => None end
  | TRBrack :: ts' =>
      match s with ArrayStart | ArrayComma => close_token d ts' | _ => None end
  | TStr k :: ts' =>
      match s with
      | ObjectStart | ObjectKey => Some (GString k, Dec ts' ObjectColon (d_stack d))
      | _ => scalar_token d ts' (GString k)
      end
  | TNum lit :: ts' => if float_literal_ok lit then scalar_token d ts' GScalar else None
  | TTrue :: ts' | TFalse :: ts' | TNull :: ts' => scalar_token d ts' GScalar
  | _ => None
  end.

Definition more (d : decoder) : bool :=
  match d_toks d with
  | [] | TRBrace :: _ | TRBrack :: _ => false
  | _ => true
  end.

(* ------------------------------------------------------------------ *)
(** ** The walk                                                        *)
(* ------------------------------------------------------------------ *)

(** [None] is out of fuel; the walk of [rejectDuplicateJSONKeys] never is. *)
Fixpoint walk `{GoLib} (fuel : nat) (raw : string) (d : decoder)
    : option (result string decoder) :=
  match fuel with
  | O => None
  | S f =>
      match next_token d with
      | None => Some (Err (json_text "Token" raw))
      | Some (GOpenObject, d) => walk_members f raw ∅ d
      | Some (GOpenArray, d) => walk_elements f raw d
      | Some (GClose, _) => Some (Err "unexpected closing JSON delimiter")
      | Some (_, d) => Some (Ok d)
      end
  end
with walk_members `{GoLib} (fuel : nat) (raw : string) (seen : gset string) (d : decoder)
    : option (result string decoder) :=
  match fuel with
  | O => None
  | S f =>
      if more d then
        match next_token d with
        | None => Some (Err (json_text "Token" raw))
        | Some (GString key, d) =>
            if bool_decide (key ∈ seen)
            then Some (Err ("duplicate JSON key " +:+ quote key))
            else
              match walk f raw d with
              | Some (Ok d) => walk_members f raw ({[key]} ∪ seen) d
              | r => r
              end
        | Some (_, _) => Some (Err "object key is not a string")
        end
      else
        match next_token d with
        | None => Some (Err (json_text "Token" raw))
        | Some (_, d) => Some (Ok d)
        end
  end
with walk_elements `{GoLib} (fuel : nat) (raw : string) (d : decoder)
    : option (result string decoder) :=
  match fuel with
  | O => None
  | S f =>
      if more d then
        match walk f raw d with
        | Some (Ok d) => walk_elements f raw d
        | r => r
        end
      else
        match next_token d with
        | None => Some (Err (json_text "Token" raw))
        | Some (_, d) => Some (Ok d)
        end
  end.

(** Every call consumes a token or is followed by one that does. *)
Definition walk_fuel (ts : list token) : nat := 2 * length ts + 1.

Definition rejectDuplicateJSONKeys `{GoLib} (raw : string) : result string unit :=
  let ts := tokens raw in
  match walk (walk_fuel ts) raw (Dec ts TopValue []) with
  | None => Err "out of fuel"
  | Some (Err e) => Err e
  | Some (Ok d) =>
      match d_toks d with
      | [] => Ok tt
      | _ :: _ =>
          match next_token d with
          | Some _ => Err "document contains a second JSON value"
          | None => Err ("document has trailing content: " +:+ json_text "Token" raw)
          end
      end
  end.

(* ------------------------------------------------------------------ *)
(** ** Termination                                                     *)
(* ------------------------------------------------------------------ *)

Lemma skip_separators_shorter s ts s' ts' :
  skip_separators s ts = Some (s', ts') -> length ts' <= length ts.
Proof.
  revert s. induction ts as [|t ts IH]; intros s; simpl; [by intros [= <- <-]|].
  destruct t; try (by intros [= <- <-]); destruct s; try done;
    intros H; apply IH in H; lia.
Qed.

(** A token that was returned was consumed. *)
Lemma next_token_shorter d g d' :
  next_token d = Some (g, d') -> length (d_toks d') < length (d_toks d).
Proof.
  unfold next_token. destruct (skip_separators _ _) as [[s ts]|] eqn:Hs; [|done]. cbn.
  apply skip_separators_shorter in Hs.
  unfold open_token, close_token, scalar_token.
  destruct ts as [|t ts]; [done|]. simpl in Hs. intros H.
  destruct t; simpl in H; go_cases; simplify_eq/=; lia.
Qed.

Lemma more_nonempty d : more d = true -> d_toks d <> [].
Proof. unfold more. by destruct (d_toks d). Qed.

(** With fuel for twice the tokens, each function of the walk returns. *)
Lemma walk_enough `{GoLib} f raw :
  (forall d, 2 * length (d_toks d) + 1 <= f -> exists r,
     walk f raw d = Some r
     /\ (forall d', r = Ok d' -> length (d_toks d') < length (d_toks d)))
  /\ (forall seen d, 2 * length (d_toks d) + 2 <= f -> exists r,
     walk_members f raw seen d = Some r
     /\ (forall d', r = Ok d' -> length (d_toks d') <= length (d_toks d)))
  /\ (forall d, 2 * length (d_toks d) + 2 <= f -> exists r,
     walk_elements f raw d = Some r
     /\ (forall d', r = Ok d' -> length (d_toks d') <= length (d_toks d))).
Proof.
  induction f as [|f (IHw & IHm & IHe)]; [split_and!; intros; lia|].
  split_and!.
  - intros d Hf. simpl. destruct (next_token d) as [[g d1]|] eqn:Ht; [|by eexists].
    apply next_token_shorter in Ht.
    destruct g; [destruct (IHm ∅ d1) as (r & -> & Hr); [lia|] |
                 destruct (IHe d1) as (r & -> & Hr); [lia|] | by eexists |
                 eexists; split; [done|]; by intros ? [= <-] |
                 eexists; split; [done|]; by intros ? [= <-]];
      exists r; (split; [done|]); intros d' Hd; apply Hr in Hd; lia.
  - intros seen d Hf. simpl. destruct (more d) eqn:Hm.
    + destruct (next_token d) as [[g d1]|] eqn:Ht; [|by eexists].
      apply next_token_shorter in Ht.
      destruct g as [| | |k|]; try (by eexists).
      case_bool_decide; [by eexists|].
      destruct (IHw d1) as (r & -> & Hr); [lia|].
      destruct r as [d2|e]; [|by eexists]. specialize (Hr d2 eq_refl).
      destruct (IHm ({[k]} ∪ seen) d2) as (r & -> & Hr2); [lia|].
      exists r. split; [done|]. intros d' Hd. apply Hr2 in Hd. lia.
    + destruct (next_token d) as [[g d1]|] eqn:Ht; [|by eexists].
      apply next_token_shorter in Ht. eexists. split; [done|]. intros ? [= <-]. lia.
  - intros d Hf. simpl. destruct (more d) eqn:Hm.
    + destruct (IHw d) as (r & -> & Hr); [lia|].
      destruct r as [d2|e]; [|by eexists]. specialize (Hr d2 eq_refl).
      destruct (IHe d2) as (r & -> & Hr2); [lia|].
      exists r. split; [done|]. intros d' Hd. apply Hr2 in Hd. lia.
    + destruct (next_token d) as [[g d1]|] eqn:Ht; [|by eexists].
      apply next_token_shorter in Ht. eexists. split; [done|]. intros ? [= <-]. lia.
Qed.

(* ------------------------------------------------------------------ *)
(** ** The walk and the parser                                         *)
(* ------------------------------------------------------------------ *)

(** The decoder's state for the open frames of the parser. *)
Definition frame_state (st : list frame) : tstate :=
  match st with
  | [] => TopValue
  | FArr AStart _ :: _ => ArrayStart
  | FArr AValue _ :: _ => ArrayValue
  | FArr AComma _ :: _ => ArrayComma
  | FObj OStart _ :: _ => ObjectStart
  | FObj OKey _ :: _ => ObjectKey
  | FObj (OColon _) _ :: _ => ObjectColon
  | FObj (OValue _) _ :: _ => ObjectValue
  | FObj OComma _ :: _ => ObjectComma
  end.

Fixpoint frame_stack (st : list frame) : list tstate :=
  match st with
  | [] => []
  | _ :: st' => frame_state st' :: frame_stack st'
  end.

Definition decoder_of (st : list frame) (ts : list token) : decoder :=
  Dec ts (frame_state st) (frame_stack st).

Lemma value_allowed_state st : token_value_allowed (frame_state st) = value_allowed st.
Proof. by destruct st as [|[[] ?|[] ?] ?]. Qed.

(** Parsing from [st] over [ts] either fails or goes on from [d] once one value
    without repeated keys has been added to the frames [st0]. *)
Definition walked (st0 st : list frame) (ts : list token) (d : decoder) : Prop :=
  parse st ts = None \/
  exists v, unique_keys v /\
    match complete v st0 with
    | PMore st' => parse st ts = parse st' (d_toks d) /\ d = decoder_of st' (d_toks d)
    | PDone v' => v' = v /\ parse st ts = Some (v, d_toks d) /\ d = decoder_of [] (d_toks d)
    | PErr => False
    end.

Lemma walked_step st0 st ts st1 ts1 d :
  parse st ts = parse st1 ts1 -> walked st0 st1 ts1 d -> walked st0 st ts d.
Proof. unfold walked. by intros ->. Qed.

(** A value may start here, perhaps after a separator. *)
Definition value_next (st : list frame) : Prop :=
  match st with FObj (OStart | OKey | OComma) _ :: _ => False | _ => True end.

(** The frame above [st0] keeps its elements while separators are skipped. *)
Definition same_elements (st st' : list frame) : Prop :=
  match st with
  | [] => st' = []
  | FArr _ es :: st0 => exists p, st' = FArr p es :: st0
  | FObj (OColon k) ms :: st0 => st' = FObj (OValue k) ms :: st0 \/ st' = st
  | f :: st0 => st' = st
  end.

(** Separators are parser steps, too. *)
Lemma skip_separators_parse st ts s ts' :
  value_next st -> skip_separators (frame_state st) ts = Some (s, ts') ->
  exists st', parse st ts = parse st' ts' /\ s = frame_state st'
    /\ frame_stack st' = frame_stack st /\ same_elements st st' /\ value_next st'.
Proof.
  revert st. induction ts as [|t ts IH]; intros st Hn.
  { simpl. intros [= <- <-]. exists st. destruct st as [|[[] ?|[] ?] ?]; simpl; naive_solver. }
  assert (Hstay : Some (frame_state st, t :: ts) = Some (s, ts') ->
            exists st', parse st (t :: ts) = parse st' ts' /\ s = frame_state st'
              /\ frame_stack st' = frame_stack st /\ same_elements st st' /\ value_next st').
  { intros [= <- <-]. exists st. destruct st as [|[[] ?|[] ?] ?]; simpl; naive_solver. }
  destruct t; try exact Hstay; clear Hstay; simpl;
    destruct st as [|[[] es|[] ms] st]; simpl; try done; intros H.
  - apply (IH (FObj (OValue k) ms :: st)) in H as (st' & -> & H); [|done].
    exists st'. simpl in H. destruct_and?. simplify_eq/=. split_and!; naive_solver.
  - apply (IH (FArr AValue es :: st)) in H as (st' & -> & H); [|done].
    exists st'. simpl in H. naive_solver.
Qed.

Lemma complete_state v st st' :
  value_allowed st = true -> complete v st = PMore st' ->
  frame_state st' = token_value_end (frame_state st) /\ frame_stack st' = frame_stack st.
Proof. destruct st as [|[[] ?|[] ?] ?]; simpl; try done; by intros _ [= <-]. Qed.

Lemma complete_allowed v st : value_allowed st = true -> complete v st <> PErr.
Proof. by destruct st as [|[[] ?|[] ?] ?]. Qed.

(** A complete value leaves the decoder where the parser is. *)
Lemma walked_complete v st ts0 st0 ts :
  value_allowed st = true -> unique_keys v ->
  parse st0 ts0 = match complete v st with
                  | PErr => None | PMore st' => parse st' ts | PDone v' => Some (v', ts)
                  end ->
  walked st st0 ts0 (Dec ts (token_value_end (frame_state st)) (frame_stack st)).
Proof.
  intros Ha Hu Hp. right. exists v. split; [done|].
  destruct (complete v st) as [|st'|v'] eqn:Hc.
  - by eapply complete_allowed.
  - destruct (complete_state v st st') as [H1 H2]; [done..|].
    split; [done|]. unfold decoder_of. simpl. by rewrite H1, H2.
  - destruct st as [|[[] ?|[] ?] ?]; simplify_eq/=. done.
Qed.

Lemma unique_scalar v :
  match v with JArr _ | JObj _ => False | _ => True end -> unique_keys v.
Proof. intros Hv ms Hs. inversion Hs; subst; done. Qed.

Lemma unique_array l : Forall unique_keys l -> unique_keys (JArr l).
Proof.
  intros Hl ms Hs. inversion Hs as [|? j Hin Hsub|]; subst.
  rewrite Forall_forall in Hl. by apply (Hl j).
Qed.

Lemma unique_object ms :
  NoDup (fst <$> ms) -> Forall (fun m => unique_keys m.2) ms -> unique_keys (JObj ms).
Proof.
  intros Hnd Hms ms' Hs. inversion Hs as [| |? k j Hin Hsub]; subst; [done|].
  rewrite Forall_forall in Hms. by apply (Hms (k, j)).
Qed.

(** A token of a value that is not a bracket. *)
Lemma scalar_walked st t ts0 ts v g g' d :
  value_allowed st = true -> unique_keys v -> parse_step st t = scalar v st ->
  scalar_token (decoder_of st ts0) ts g = Some (g', d) -> walked st st (t :: ts) d.
Proof.
  intros Ha Hu Ht. unfold scalar_token. cbn. rewrite value_allowed_state, Ha. intros [= <- <-].
  apply (walked_complete v); [done..|]. simpl. rewrite Ht. unfold scalar. by rewrite Ha.
Qed.

(** The next token of an object: its end or a key. *)
Lemma key_parse p ms st0 ts k d :
  p = OStart \/ p = OComma ->
  next_token (decoder_of (FObj p ms :: st0) ts) = Some (GString k, d) ->
  parse (FObj p ms :: st0) ts = parse (FObj (OColon k) ms :: st0) (d_toks d)
  /\ d = decoder_of (FObj (OColon k) ms :: st0) (d_toks d).
Proof.
  intros Hp. unfold next_token. cbn [d_state d_toks d_stack decoder_of].
  destruct Hp as [-> | ->]; destruct ts as [|t ts]; try done.
  - destruct t; try done; simpl; unfold open_token, close_token, scalar_token; simpl;
      try (case_match; done). by intros [= <- <-].
  - destruct t; try done; simpl; unfold open_token, close_token, scalar_token; simpl;
      try (case_match; done).
    destruct ts as [|t ts]; [done|].
    destruct t; try done; simpl; try (case_match; done). by intros [= <- <-].
Qed.

Lemma close_parse f st0 ts g d v :
  value_allowed st0 = true -> unique_keys v ->
  (exists p ms, f = FObj p ms /\ (p = OStart \/ p = OComma) /\ v = JObj (rev ms))
  \/ (exists p es, f = FArr p es /\ (p = AStart \/ p = AComma) /\ v = JArr (rev es)) ->
  more (decoder_of (f :: st0) ts) = false ->
  next_token (decoder_of (f :: st0) ts) = Some (g, d) ->
  walked st0 (f :: st0) ts d.
Proof.
  intros Ha Hu Hf Hm Ht. unfold more in Hm. cbn in Hm.
  destruct ts as [|t ts]; [done|].
  destruct Hf as [(p & ms & -> & Hp & ->)|(p & ms & -> & Hp & ->)]; destruct Hp as [-> | ->];
    destruct t; try done; unfold next_token, close_token in Ht; simpl in Ht; simplify_eq;
    (eapply walked_complete; [done|exact Hu|]); simpl; by destruct (complete _ st0).
Qed.

(** What the three functions of the walk establish. *)
Definition walk_sound `{GoLib} (f : nat) (raw : string) : Prop :=
  forall st ts d, value_next st ->
    walk f raw (decoder_of st ts) = Some (Ok d) ->
    exists st1 ts1, parse st ts = parse st1 ts1 /\ value_allowed st1 = true
      /\ same_elements st st1 /\ walked st1 st1 ts1 d.

Definition members_sound `{GoLib} (f : nat) (raw : string) : Prop :=
  forall p ms st0 ts d, (p = OStart \/ p = OComma) -> value_allowed st0 = true ->
    NoDup (fst <$> ms) -> Forall (fun m => unique_keys m.2) ms ->
    walk_members f raw (list_to_set (fst <$> ms)) (decoder_of (FObj p ms :: st0) ts) = Some (Ok d) ->
    walked st0 (FObj p ms :: st0) ts d.

Definition elements_sound `{GoLib} (f : nat) (raw : string) : Prop :=
  forall p es st0 ts d, (p = AStart \/ p = AComma) -> value_allowed st0 = true ->
    Forall unique_keys es ->
    walk_elements f raw (decoder_of (FArr p es :: st0) ts) = Some (Ok d) ->
    walked st0 (FArr p es :: st0) ts d.

(** A container read after its opening bracket. *)
Lemma open_walked st fr ts t d :
  parse_step st t = open_frame fr st ->
  walked st (fr :: st) ts d -> walked st st (t :: ts) d.
Proof.
  intros Hopen. unfold walked. simpl. rewrite Hopen. unfold open_frame.
  destruct (value_allowed st && _); [done|]. by left.
Qed.

(** A literal that is one value. *)
Ltac scalar_case v :=
  destruct (scalar_token _ _ _) as [[[] ?]|] eqn:Hst; simplify_eq;
    try (unfold scalar_token in Hst; case_match; done);
  by eapply (scalar_walked _ _ _ _ v); [|apply unique_scalar| |exact Hst].

Lemma walk_sound_step `{GoLib} f raw :
  members_sound f raw -> elements_sound f raw -> walk_sound (S f) raw.
Proof.
  intros Hm He st ts d Hn. simpl. unfold next_token. cbn [d_state d_toks d_stack decoder_of].
  destruct (skip_separators _ ts) as [[s ts1]|] eqn:Hs; [|done]. cbn [mbind option_bind].
  apply skip_separators_parse in Hs as (st1 & Hp & -> & Hstk & Hsame & Hn1); [|done].
  rewrite <- Hstk. clear Hstk. change (Dec ts1 _ _) with (decoder_of st1 ts1).
  intros Hw. exists st1, ts1. split; [done|].
  cut (value_allowed st1 = true /\ walked st1 st1 ts1 d); [by intros []|].
  clear Hp Hsame Hn st ts. rename st1 into st, ts1 into ts.
  destruct ts as [|t ts]; [done|].
  assert (Ha : value_allowed st = false \/ value_allowed st = true) by (destruct (value_allowed st); auto).
  destruct Ha as [Ha|Ha].
  - exfalso. rewrite <- value_allowed_state in Ha.
    destruct t; unfold open_token, close_token, scalar_token in Hw; simpl in Hw;
      rewrite ?Ha in Hw; try done; repeat (case_match; simplify_eq/=; try done).
    all: by destruct st as [|[[] ?|[] ?] ?].
  - split; [done|]. pose proof (value_allowed_state st) as Hstate. rewrite Ha in Hstate.
    destruct t; unfold open_token, close_token in Hw; simpl in Hw; rewrite ?Hstate in Hw; try done.
    + apply (open_walked _ (FObj OStart [])); [done|]. eapply (Hm OStart []); eauto; constructor.
    + by repeat case_match.
    + apply (open_walked _ (FArr AStart [])); [done|]. eapply (He AStart []); eauto; constructor.
    + by repeat case_match.
    + assert (Hsc : match scalar_token (decoder_of st (TStr s :: ts)) ts (GString s) with
                    | Some (_, d1) => Some (Ok d1) = Some (Ok (E := string) d)
                    | None => False
                    end).
      { unfold scalar_token. cbn. rewrite Hstate.
        destruct st as [|[[] ?|[] ?] ?]; simplify_eq/=; done. }
      destruct (scalar_token _ _ _) as [[g d1]|] eqn:Hst; [|done]. simplify_eq.
      eapply (scalar_walked _ (TStr s) _ _ (JStr s)); [done|by apply unique_scalar| |exact Hst].
      by destruct st as [|[[] ?|[] ?] ?].
    + destruct (float_literal_ok lit); [scalar_case (JNum lit) | done].
    + scalar_case (JBool true).
    + scalar_case (JBool false).
    + scalar_case JNull.
Qed.

Lemma members_sound_step `{GoLib} f raw :
  walk_sound f raw -> members_sound f raw -> members_sound (S f) raw.
Proof.
  intros Hw Hm p ms st0 ts d Hp Ha Hnd Hu. simpl.
  destruct (more _) eqn:Hmore.
  - destruct (next_token _) as [[g d1]|] eqn:Ht; [|done]. destruct g as [| | |k|]; try done.
    apply key_parse in Ht as [Hparse Hd1]; [|done]. rewrite Hd1. case_bool_decide as Hk; [done|].
    destruct (walk f raw _) as [[d2|e]|] eqn:Hwalk; [|done|done]. intros Hmem.
    apply Hw in Hwalk as (st1 & ts1 & Hp1 & Ha1 & Hsame & Hwd); [|done].
    apply (walked_step _ _ _ st1 ts1); [by rewrite Hparse, Hp1|].
    simpl in Hsame. destruct Hsame as [-> | ->]; [|done].
    destruct Hwd as [Hnone|(v & Hv & Hpv)]; [by left|]. simpl in Hpv.
    destruct Hpv as [Hpv Hd2]. rewrite Hd2 in Hmem. eapply walked_step; [exact Hpv|].
    apply (Hm OComma ((k, v) :: ms)); [by right|done| |by constructor|].
    + simpl. constructor; [|done]. intros Hin. apply Hk. by apply elem_of_list_to_set.
    + rewrite fmap_cons, list_to_set_cons. exact Hmem.
  - destruct (next_token _) as [[g d1]|] eqn:Ht; [|done]. intros [= <-].
    eapply close_parse; [done| |left; by eauto|done|exact Ht].
    apply unique_object; [by rewrite <- (Permutation_rev ms) | by apply Forall_rev].
Qed.

Lemma elements_sound_step `{GoLib} f raw :
  walk_sound f raw -> elements_sound f raw -> elements_sound (S f) raw.
Proof.
  intros Hw He p es st0 ts d Hp Ha Hu. simpl.
  destruct (more _) eqn:Hmore.
  - destruct (walk f raw _) as [[d2|e]|] eqn:Hwalk; [|done|done]. intros Hel.
    apply Hw in Hwalk as (st1 & ts1 & Hp1 & Ha1 & Hsame & Hwd); [|done].
    eapply walked_step; [exact Hp1|]. simpl in Hsame. destruct Hsame as [p' ->].
    destruct Hwd as [Hnone|(v & Hv & Hpv)]; [by left|].
    simpl in Hpv. destruct Hpv as [Hpv Hd2]. rewrite Hd2 in Hel.
    eapply walked_step; [exact Hpv|].
    apply (He AComma (v :: es)); [by right|done|by constructor|done].
  - destruct (next_token _) as [[g d1]|] eqn:Ht; [|done]. intros [= <-].
    eapply close_parse; [done| |right; by eauto|done|exact Ht].
    apply unique_array. by apply Forall_rev.
Qed.

Lemma walk_all_sound `{GoLib} f raw :
  walk_sound f raw /\ members_sound f raw /\ elements_sound f raw.
Proof.
  induction f as [|f (IHw & IHm & IHe)]; [by split_and!; intros ?|].
  split_and!; [by apply walk_sound_step | by apply members_sound_step | by apply elements_sound_step].
Qed.

(** The document that passes the walk, if it parses, repeats no key. *)
Lemma reject_duplicates_unique `{GoLib} raw v rest :
  rejectDuplicateJSONKeys raw = Ok tt -> parse [] (tokens raw) = Some (v, rest) ->
  unique_keys v /\ rest = [].
Proof.
  unfold rejectDuplicateJSONKeys. destruct (walk _ _ _) as [[d|e]|] eqn:Hw; [|done|done].
  destruct (d_toks d) as [|t ts] eqn:Hd; [|by destruct (next_token d)]. intros _ Hp.
  destruct (walk_all_sound (walk_fuel (tokens raw)) raw) as (Hs & _ & _).
  apply (Hs [] (tokens raw)) in Hw as (st1 & ts1 & Hp1 & Ha & Hsame & Hwd); [|done].
  simpl in Hsame. subst st1. destruct Hwd as [Hnone|(v' & Hv & Hpv)]; [congruence|].
  simpl in Hpv. destruct Hpv as (_ & Hpv & _). rewrite Hp1, Hpv, Hd in Hp. by simplify_eq.
Qed.

(* ------------------------------------------------------------------ *)
(** ** Properties                                                      *)
(* ------------------------------------------------------------------ *)

(** C9: the walk over the tokens of a document always ends: the fuel given to
    the model is never spent, whatever the input. *)
Theorem duplicate_walk_terminates `{GoLib} raw :
  is_Some (walk (walk_fuel (tokens raw)) raw (Dec (tokens raw) TopValue [])).
Proof.
  destruct (walk_enough (walk_fuel (tokens raw)) raw) as (Hw & _ & _).
  destruct (Hw (Dec (tokens raw) TopValue [])) as (r & -> & _); [|by eexists].
  unfold walk_fuel. simpl. lia.
Qed.

(** C8: a text the walk accepts and [encoding/json] parses is one value and no
    object of it, at any depth, repeats a key: decoding it into Go maps and
    structs loses nothing. *)
Theorem duplicate_walk_sound `{GoLib} raw v rest :
  rejectDuplicateJSONKeys raw = Ok tt -> parse [] (tokens raw) = Some (v, rest) ->
  unique_keys v /\ rest = [].
Proof. apply reject_duplicates_unique. Qed.

Lemma duplicate_walk_sound_witness :
  let raw := sprintf ["{"; dquote; "a"; dquote; ":[1,{"; dquote; "a"; dquote; ":true}]} "] in
  unique_keys (JObj [("a", JArr [JNum "1"; JObj [("a", JBool true)]])]) /\ ([] : list token) = [].
Proof.
  intros raw. apply (duplicate_walk_sound (H := plain_text) raw _ []); vm_compute; reflexivity.
Defined.
