(* ===== verification/PayloadDocs.v ===== *)
(** * The typed payload documents: [pkg/backend/payload.go], validators

    The value checks, the Go structs the documents are decoded into, and one
    [validate...] function per family of commands. *)
From S2P Require Import Prelude GoStrings Regex GoNet Json Errors Exitcode Contract.

(* ------------------------------------------------------------------ *)
(** ** Value checks                                                    *)
(* ------------------------------------------------------------------ *)

Definition is_upper_word (c : Z) : bool := is_upper c || is_digit c || (c =? 95)%Z.
Definition upperCodeShape : rx := RCat (RSet is_upper) (RStar (RSet is_upper_word)).
Definition is_identifier_char (c : Z) : bool := is_alnum c || one_of_chars "._:-" c.
Definition identifierShape : rx := RCat (RSet is_alnum) (RUpTo 127 (RSet is_identifier_char)).
Definition durationShape : rx :=
  RSeq [RSet (fun c => in_range 49 57 c); RStar (RSet is_digit); RSet (one_of_chars "smh")].
Definition is_hex_lower (c : Z) : bool := is_digit c || in_range 97 102 c.
Definition digestShape : rx := RRep 64 (RSet is_hex_lower).
Definition mapKeyShape : rx := word_rx.

Definition containsControl (value : string) : bool :=
  existsb (fun r => (r <? 32)%Z || (r =? 127)%Z) (runes value).

Definition oneOf (value : string) (allowed : list string) : bool := str_in value allowed.

Definition field_error (field message : string) : string :=
  sprintf ["field "; quote field; message].

Definition nonEmpty (value field : string) : result string unit :=
  reject is_empty value with_ field_error field " must be non-empty";; Ok tt.

Definition utcTimestamp `{GoLib} (value field : string) : result string unit :=
  reject (negb (has_suffix value "Z")) with_ field_error field " is not a UTC timestamp";;
  reject (negb (rfc3339_utc value))
    with_ field_error field (" is not RFC3339: " +:+ time_text value);;
  Ok tt.

Definition absolutePath (value field : string) : result string unit :=
  reject ((slen value <? 2)%Z || negb (has_prefix value "/") || contains_byte value 0)
    with_ field_error field " is not an absolute non-NUL path";;
  Ok tt.

Definition ipv4 (value field : string) : result string unit :=
  reject (match parse_ipv4 value with Some _ => contains value ":" | None => true end)
    with_ field_error field " is not IPv4";;
  Ok tt.

Definition httpsURI `{GoLib} (value field : string) : result string unit :=
  reject (match url_scheme_host ip_literal value with
          | Some (scheme, host) => negb (streq scheme "https") || is_empty host
          | None => true
          end)
    with_ field_error field " is not an absolute HTTPS URI";;
  Ok tt.

Fixpoint unique_nonempty (field : string) (seen : gset string) (values : list string)
    : result string unit :=
  match values with
  | [] => Ok tt
  | value :: values' =>
      reject is_empty value with_ field_error field " contains an empty string";;
      reject (bool_decide (value ∈ seen))
        with_ field_error field (" contains duplicate " +:+ quote value);;
      unique_nonempty field ({[value]} ∪ seen) values'
  end.

Definition uniqueNonEmpty (values : list string) (field : string) : result string unit :=
  unique_nonempty field ∅ values.

Definition decodePayload {A} `{GoLib, GoValue A} (raw : string) : result string A :=
  match decodeExactOne (A := A) raw with
  | Ok a => Ok a
  | Err e => Err ("typed payload decode failed: " +:+ e)
  end.

(* ------------------------------------------------------------------ *)
(** ** [status]                                                        *)
(* ------------------------------------------------------------------ *)

Record statusPlane : Type := {
  sp_Name : string; sp_Live : bool; sp_Ready : bool; sp_ReasonCode : string;
  sp_Status : option string; sp_ObservedAt : option string
}.
#[global] Instance status_plane_value : GoValue statusPlane := {|
  go_zero := {| sp_Name := ""; sp_Live := false; sp_Ready := false; sp_ReasonCode := "";
                sp_Status := None; sp_ObservedAt := None |};
  go_into strict old := decode_struct strict
    ["name"; "live"; "ready"; "reasonCode"; "status"; "observedAt"] old (fun ms =>
    na ← field strict ms "name" (sp_Name old);
    li ← field strict ms "live" (sp_Live old);
    re ← field strict ms "ready" (sp_Ready old);
    rc ← field strict ms "reasonCode" (sp_ReasonCode old);
    st ← field strict ms "status" (sp_Status old);
    ob ← field strict ms "observedAt" (sp_ObservedAt old);
    Some {| sp_Name := na; sp_Live := li; sp_Ready := re; sp_ReasonCode := rc; sp_Status := st;
            sp_ObservedAt := ob |}) |}.

Record networkProfile : Type := { np_Name : string; np_Configured : bool }.
#[global] Instance network_profile_value : GoValue networkProfile := {|
  go_zero := {| np_Name := ""; np_Configured := false |};
  go_into strict old := decode_struct strict ["name"; "configured"] old (fun ms =>
    na ← field strict ms "name" (np_Name old);
    co ← field strict ms "configured" (np_Configured old);
    Some {| np_Name := na; np_Configured := co |}) |}.

Record localGatewayRegistration : Type := {
  lg_Registered : bool; lg_InstallationID : string; lg_InstanceID : string
}.
#[global] Instance local_gateway_registration_value : GoValue localGatewayRegistration := {|
  go_zero := {| lg_Registered := false; lg_InstallationID := ""; lg_InstanceID := "" |};
  go_into strict old := decode_struct strict ["registered"; "installationId"; "instanceId"] old
    (fun ms =>
    re ← field strict ms "registered" (lg_Registered old);
    il ← field strict ms "installationId" (lg_InstallationID old);
    ii ← field strict ms "instanceId" (lg_InstanceID old);
    Some {| lg_Registered := re; lg_InstallationID := il; lg_InstanceID := ii |}) |}.

Record publicAddressTLS : Type := { tls_Configured : option bool }.
#[global] Instance public_address_tls_value : GoValue publicAddressTLS := {|
  go_zero := {| tls_Configured := None |};
  go_into strict old := decode_struct strict ["configured"] old (fun ms =>
    co ← field strict ms "configured" (tls_Configured old);
    Some {| tls_Configured := co |}) |}.

Record statusPayload : Type := {
  st_SchemaVersion : string; st_Command : string; st_OverallStatus : string;
  st_ReasonCode : option string; st_ProductRelease : string; st_Initialized : bool;
  st_Planes : list statusPlane; st_NetworkProfile : networkProfile;
  st_ActiveOperations : list string; st_LocalGatewayRegistration : localGatewayRegistration;
  st_PublicAddressTLS : option publicAddressTLS; st_ObservedAt : string
}.
#[global] Instance status_payload_value : GoValue statusPayload := {|
  go_zero := {| st_SchemaVersion := ""; st_Command := ""; st_OverallStatus := "";
                st_ReasonCode := None; st_ProductRelease := ""; st_Initialized := false;
                st_Planes := []; st_NetworkProfile := go_zero; st_ActiveOperations := [];
                st_LocalGatewayRegistration := go_zero; st_PublicAddressTLS := None;
                st_ObservedAt := "" |};
  go_into strict old := decode_struct strict
    ["schemaVersion"; "command"; "overallStatus"; "reasonCode"; "productRelease"; "initialized";
     "planes"; "networkProfile"; "activeOperations"; "localGatewayRegistration";
     "publicAddressTls"; "observedAt"] old (fun ms =>
    sv ← field strict ms "schemaVersion" (st_SchemaVersion old);
    cm ← field strict ms "command" (st_Command old);
    os ← field strict ms "overallStatus" (st_OverallStatus old);
    rc ← field strict ms "reasonCode" (st_ReasonCode old);
    pr ← field strict ms "productRelease" (st_ProductRelease old);
    it ← field strict ms "initialized" (st_Initialized old);
    pl ← field strict ms "planes" (st_Planes old);
    np ← field strict ms "networkProfile" (st_NetworkProfile old);
    ao ← field strict ms "activeOperations" (st_ActiveOperations old);
    lg ← field strict ms "localGatewayRegistration" (st_LocalGatewayRegistration old);
    pt ← field strict ms "publicAddressTls" (st_PublicAddressTLS old);
    ob ← field strict ms "observedAt" (st_ObservedAt old);
    Some {| st_SchemaVersion := sv; st_Command := cm; st_OverallStatus := os;
            st_ReasonCode := rc; st_ProductRelease := pr; st_Initialized := it; st_Planes := pl;
            st_NetworkProfile := np; st_ActiveOperations := ao;
            st_LocalGatewayRegistration := lg; st_PublicAddressTLS := pt;
            st_ObservedAt := ob |}) |}.

Definition readiness_states : list string := ["READY"; "DEGRADED"; "NOT_READY"; "UNKNOWN"].
Definition status_planes : list string := ["state"; "dataplane"; "management"].

Definition check_plane `{GoLib} (plane : statusPlane) : result string unit :=
  _ ← nonEmpty (sp_Name plane) "planes.name";
  reject (negb (full_match upperCodeShape (sp_ReasonCode plane)))
    with_ "planes.reasonCode is malformed";;
  _ ← match sp_Status plane with
      | None => Ok tt
      | Some status =>
          reject (negb (oneOf (sp_Name plane) status_planes))
            with_ "planes.name is invalid for a status-bearing plane";;
          reject (negb (oneOf status readiness_states))
            with_ "planes.status is outside the approved enum";;
          Ok tt
      end;
  match sp_ObservedAt plane with
  | None => Ok tt
  | Some observedAt =>
      reject (negb (oneOf (sp_Name plane) status_planes))
        with_ "planes.name is invalid for an observed plane";;
      utcTimestamp observedAt "planes.observedAt"
  end.

Definition check_status `{GoLib} (doc : statusPayload) : result string unit :=
  reject (negb (oneOf (st_OverallStatus doc) readiness_states))
    with_ "overallStatus is outside the approved enum";;
  reject (match st_ReasonCode doc with
          | Some code => negb (full_match upperCodeShape code)
          | None => false
          end)
    with_ "reasonCode is malformed";;
  _ ← nonEmpty (st_ProductRelease doc) "productRelease";
  reject (length (st_Planes doc) =? 0)%nat with_ "planes must contain at least one item";;
  _ ← for_each check_plane (st_Planes doc);
  reject (match st_PublicAddressTLS doc with
          | Some tls => match tls_Configured tls with None => true | Some _ => false end
          | None => false
          end)
    with_ "publicAddressTls.configured is missing";;
  _ ← nonEmpty (np_Name (st_NetworkProfile doc)) "networkProfile.name";
  _ ← uniqueNonEmpty (st_ActiveOperations doc) "activeOperations";
  utcTimestamp (st_ObservedAt doc) "observedAt".

Definition validateStatusPayload `{GoLib} (raw : string) : result string unit :=
  doc ← decodePayload (A := statusPayload) raw; check_status doc.

(* ------------------------------------------------------------------ *)
(** ** [network validate]                                              *)
(* ------------------------------------------------------------------ *)

Record networkInterface : Type := {
  ni_Role : string; ni_Name : string; ni_Exists : bool; ni_Address : string; ni_MTU : Z
}.
#[global] Instance network_interface_value : GoValue networkInterface := {|
  go_zero := {| ni_Role := ""; ni_Name := ""; ni_Exists := false; ni_Address := "";
                ni_MTU := 0 |};
  go_into strict old := decode_struct strict ["role"; "name"; "exists"; "address"; "mtu"] old
    (fun ms =>
    ro ← field strict ms "role" (ni_Role old);
    na ← field strict ms "name" (ni_Name old);
    ex ← field strict ms "exists" (ni_Exists old);
    ad ← field strict ms "address" (ni_Address old);
    mt ← field strict ms "mtu" (ni_MTU old);
    Some {| ni_Role := ro; ni_Name := na; ni_Exists := ex; ni_Address := ad; ni_MTU := mt |}) |}.

Record networkFinding : Type := { nf_Code : string; nf_Remediation : string }.
#[global] Instance network_finding_value : GoValue networkFinding := {|
  go_zero := {| nf_Code := ""; nf_Remediation := "" |};
  go_into strict old := decode_struct strict ["code"; "remediation"] old (fun ms =>
    co ← field strict ms "code" (nf_Code old);
    re ← field strict ms "remediation" (nf_Remediation old);
    Some {| nf_Code := co; nf_Remediation := re |}) |}.

Record networkPayload : Type := {
  nw_SchemaVersion : string; nw_Command : string; nw_Valid : bool; nw_Profile : string;
  nw_Interfaces : list networkInterface; nw_Errors : list networkFinding;
  nw_Warnings : list networkFinding; nw_ObservedAt : string
}.
#[global] Instance network_payload_value : GoValue networkPayload := {|
  go_zero := {| nw_SchemaVersion := ""; nw_Command := ""; nw_Valid := false; nw_Profile := "";
                nw_Interfaces := []; nw_Errors := []; nw_Warnings := []; nw_ObservedAt := "" |};
  go_into strict old := decode_struct strict
    ["schemaVersion"; "command"; "valid"; "profile"; "interfaces"; "errors"; "warnings";
     "observedAt"] old (fun ms =>
    sv ← field strict ms "schemaVersion" (nw_SchemaVersion old);
    cm ← field strict ms "command" (nw_Command old);
    va ← field strict ms "valid" (nw_Valid old);
    pr ← field strict ms "profile" (nw_Profile old);
    it ← field strict ms "interfaces" (nw_Interfaces old);
    er ← field strict ms "errors" (nw_Errors old);
    wa ← field strict ms "warnings" (nw_Warnings old);
    ob ← field strict ms "observedAt" (nw_ObservedAt old);
    Some {| nw_SchemaVersion := sv; nw_Command := cm; nw_Valid := va; nw_Profile := pr;
            nw_Interfaces := it; nw_Errors := er; nw_Warnings := wa; nw_ObservedAt := ob |}) |}.

Definition interface_invalid (iface : networkInterface) : bool :=
  negb (oneOf (ni_Role iface) ["frontend"; "backend"; "management"]) || is_empty (ni_Name iface)
  || (ni_MTU iface <? 576)%Z || (9216 <? ni_MTU iface)%Z.

Definition finding_invalid (finding : networkFinding) : bool :=
  negb (full_match upperCodeShape (nf_Code finding)) || is_empty (nf_Remediation finding).

Definition check_network `{GoLib} (doc : networkPayload) : result string unit :=
  _ ← nonEmpty (nw_Profile doc) "profile";
  reject (existsb interface_invalid (nw_Interfaces doc))
    with_ "interfaces contains invalid role, name, or mtu";;
  reject (existsb finding_invalid (nw_Errors doc ++ nw_Warnings doc))
    with_ "network finding is malformed";;
  utcTimestamp (nw_ObservedAt doc) "observedAt".

Definition validateNetworkPayload `{GoLib} (raw : string) : result string unit :=
  doc ← decodePayload (A := networkPayload) raw; check_network doc.

(* ------------------------------------------------------------------ *)
(** ** [public-address configure]                                      *)
(* ------------------------------------------------------------------ *)

Record certificateInfo : Type := { ci_FingerprintSHA256 : string; ci_SANs : list string }.
#[global] Instance certificate_info_value : GoValue certificateInfo := {|
  go_zero := {| ci_FingerprintSHA256 := ""; ci_SANs := [] |};
  go_into strict old := decode_struct strict ["fingerprintSha256"; "sans"] old (fun ms =>
    fp ← field strict ms "fingerprintSha256" (ci_FingerprintSHA256 old);
    sa ← field strict ms "sans" (ci_SANs old);
    Some {| ci_FingerprintSHA256 := fp; ci_SANs := sa |}) |}.

Record publicAddressPayload : Type := {
  pa_SchemaVersion : string; pa_Command : string; pa_Result : string; pa_OperationID : string;
  pa_PublicAddress : string; pa_PrivateAddressPreserved : bool; pa_Certificate : certificateInfo;
  pa_Restart : string; pa_Readiness : string
}.
#[global] Instance public_address_payload_value : GoValue publicAddressPayload := {|
  go_zero := {| pa_SchemaVersion := ""; pa_Command := ""; pa_Result := ""; pa_OperationID := "";
                pa_PublicAddress := ""; pa_PrivateAddressPreserved := false;
                pa_Certificate := go_zero; pa_Restart := ""; pa_Readiness := "" |};
  go_into strict old := decode_struct strict
    ["schemaVersion"; "command"; "result"; "operationId"; "publicAddress";
     "privateAddressPreserved"; "certificate"; "restart"; "readiness"] old (fun ms =>
    sv ← field strict ms "schemaVersion" (pa_SchemaVersion old);
    cm ← field strict ms "command" (pa_Command old);
    re ← field strict ms "result" (pa_Result old);
    op ← field strict ms "operationId" (pa_OperationID old);
    ad ← field strict ms "publicAddress" (pa_PublicAddress old);
    pp ← field strict ms "privateAddressPreserved" (pa_PrivateAddressPreserved old);
    ce ← field strict ms "certificate" (pa_Certificate old);
    rs ← field strict ms "restart" (pa_Restart old);
    rd ← field strict ms "readiness" (pa_Readiness old);
    Some {| pa_SchemaVersion := sv; pa_Command := cm; pa_Result := re; pa_OperationID := op;
            pa_PublicAddress := ad; pa_PrivateAddressPreserved := pp; pa_Certificate := ce;
            pa_Restart := rs; pa_Readiness := rd |}) |}.

Definition check_public_address (doc : publicAddressPayload) : result string unit :=
  reject (negb (oneOf (pa_Result doc) ["APPLIED"; "UNCHANGED"; "PENDING_RESTART"])
          || is_empty (pa_OperationID doc) || negb (pa_PrivateAddressPreserved doc))
    with_ "public-address result, operationId, or preservation flag is invalid";;
  _ ← ipv4 (pa_PublicAddress doc) "publicAddress";
  reject (negb (full_match digestShape (ci_FingerprintSHA256 (pa_Certificate doc)))
          || (length (ci_SANs (pa_Certificate doc)) =? 0)%nat)
    with_ "certificate fingerprint or SAN set is invalid";;
  _ ← uniqueNonEmpty (ci_SANs (pa_Certificate doc)) "certificate.sans";
  reject (negb (oneOf (pa_Restart doc) ["RECONCILED"; "PENDING"])
          || negb (oneOf (pa_Readiness doc) ["READY"; "NOT_READY"; "PENDING_RESTART"]))
    with_ "restart or readiness is outside the approved enum";;
  reject (streq (pa_Result doc) "PENDING_RESTART"
          && (negb (streq (pa_Restart doc) "PENDING")
              || negb (streq (pa_Readiness doc) "PENDING_RESTART")))
    with_ "PENDING_RESTART requires pending restart and readiness";;
  Ok tt.

Definition validatePublicAddressPayload `{GoLib} (raw : string) : result string unit :=
  doc ← decodePayload (A := publicAddressPayload) raw; check_public_address doc.

(* ------------------------------------------------------------------ *)
(** ** [gateway register-local]                                        *)
(* ------------------------------------------------------------------ *)

Record gatewayIdentity : Type := { gi_Name : string; gi_Address : string }.
#[global] Instance gateway_identity_value : GoValue gatewayIdentity := {|
  go_zero := {| gi_Name := ""; gi_Address := "" |};
  go_into strict old := decode_struct strict ["name"; "address"] old (fun ms =>
    na ← field strict ms "name" (gi_Name old);
    ad ← field strict ms "address" (gi_Address old);
    Some {| gi_Name := na; gi_Address := ad |}) |}.

Record gatewayRegistrationPayload : Type := {
  gr_SchemaVersion : string; gr_Command : string; gr_Result : string; gr_OperationID : string;
  gr_InstallationID : string; gr_InstanceID : string; gr_Endpoint : string;
  gr_GatewayIdentity : gatewayIdentity; gr_Verified : bool; gr_MarkerUpdated : bool
}.
#[global] Instance gateway_registration_value : GoValue gatewayRegistrationPayload := {|
  go_zero := {| gr_SchemaVersion := ""; gr_Command := ""; gr_Result := ""; gr_OperationID := "";
                gr_InstallationID := ""; gr_InstanceID := ""; gr_Endpoint := "";
                gr_GatewayIdentity := go_zero; gr_Verified := false;
                gr_MarkerUpdated := false |};
  go_into strict old := decode_struct strict
    ["schemaVersion"; "command"; "result"; "operationId"; "installationId"; "instanceId";
     "endpoint"; "gatewayIdentity"; "verified"; "markerUpdated"] old (fun ms =>
    sv ← field strict ms "schemaVersion" (gr_SchemaVersion old);
    cm ← field strict ms "command" (gr_Command old);
    re ← field strict ms "result" (gr_Result old);
    op ← field strict ms "operationId" (gr_OperationID old);
    il ← field strict ms "installationId" (gr_InstallationID old);
    ii ← field strict ms "instanceId" (gr_InstanceID old);
    en ← field strict ms "endpoint" (gr_Endpoint old);
    gi ← field strict ms "gatewayIdentity" (gr_GatewayIdentity old);
    ve ← field strict ms "verified" (gr_Verified old);
    mu ← field strict ms "markerUpdated" (gr_MarkerUpdated old);
    Some {| gr_SchemaVersion := sv; gr_Command := cm; gr_Result := re; gr_OperationID := op;
            gr_InstallationID := il; gr_InstanceID := ii; gr_Endpoint := en;
            gr_GatewayIdentity := gi; gr_Verified := ve; gr_MarkerUpdated := mu |}) |}.

Definition check_gateway_registration `{GoLib} (doc : gatewayRegistrationPayload)
    : result string unit :=
  reject (negb (oneOf (gr_Result doc) ["CREATED"; "UPDATED"; "UNCHANGED"])
          || is_empty (gr_OperationID doc) || is_empty (gr_InstallationID doc)
          || is_empty (gr_InstanceID doc) || negb (gr_Verified doc))
    with_ "gateway registration identity or result is invalid";;
  _ ← httpsURI (gr_Endpoint doc) "endpoint";
  reject (is_empty (gi_Name (gr_GatewayIdentity doc)))
    with_ "gatewayIdentity.name must be non-empty";;
  ipv4 (gi_Address (gr_GatewayIdentity doc)) "gatewayIdentity.address".

Definition validateGatewayRegistrationPayload `{GoLib} (raw : string) : result string unit :=
  doc ← decodePayload (A := gatewayRegistrationPayload) raw; check_gateway_registration doc.

(* ------------------------------------------------------------------ *)
(** ** [diagnostics create]                                            *)
(* ------------------------------------------------------------------ *)

Record secretScan : Type := { ss_Result : string; ss_Hits : Z }.
#[global] Instance secret_scan_value : GoValue secretScan := {|
  go_zero := {| ss_Result := ""; ss_Hits := 0 |};
  go_into strict old := decode_struct strict ["result"; "hits"] old (fun ms =>
    re ← field strict ms "result" (ss_Result old);
    hi ← field strict ms "hits" (ss_Hits old);
    Some {| ss_Result := re; ss_Hits := hi |}) |}.

Record diagnosticsPayload : Type := {
  dp_SchemaVersion : string; dp_Command : string; dp_Result : string; dp_OperationID : string;
  dp_ArchivePath : string; dp_SHA256 : string; dp_SizeBytes : Z; dp_Mode : string;
  dp_RedactionProfile : string; dp_IncludedFiles : list string; dp_SecretScan : secretScan;
  dp_ExpiresAt : string
}.
#[global] Instance diagnostics_payload_value : GoValue diagnosticsPayload := {|
  go_zero := {| dp_SchemaVersion := ""; dp_Command := ""; dp_Result := ""; dp_OperationID := "";
                dp_ArchivePath := ""; dp_SHA256 := ""; dp_SizeBytes := 0; dp_Mode := "";
                dp_RedactionProfile := ""; dp_IncludedFiles := []; dp_SecretScan := go_zero;
                dp_ExpiresAt := "" |};
  go_into strict old := decode_struct strict
    ["schemaVersion"; "command"; "result"; "operationId"; "archivePath"; "sha256"; "sizeBytes";
     "mode"; "redactionProfile"; "includedFiles"; "secretScan"; "expiresAt"] old (fun ms =>
    sv ← field strict ms "schemaVersion" (dp_SchemaVersion old);
    cm ← field strict ms "command" (dp_Command old);
    re ← field strict ms "result" (dp_Result old);
    op ← field strict ms "operationId" (dp_OperationID old);
    ap ← field strict ms "archivePath" (dp_ArchivePath old);
    sh ← field strict ms "sha256" (dp_SHA256 old);
    sb ← field strict ms "sizeBytes" (dp_SizeBytes old);
    mo ← field strict ms "mode" (dp_Mode old);
    rp ← field strict ms "redactionProfile" (dp_RedactionProfile old);
    fi ← field strict ms "includedFiles" (dp_IncludedFiles old);
    sc ← field strict ms "secretScan" (dp_SecretScan old);
    ex ← field strict ms "expiresAt" (dp_ExpiresAt old);
    Some {| dp_SchemaVersion := sv; dp_Command := cm; dp_Result := re; dp_OperationID := op;
            dp_ArchivePath := ap; dp_SHA256 := sh; dp_SizeBytes := sb; dp_Mode := mo;
            dp_RedactionProfile := rp; dp_IncludedFiles := fi; dp_SecretScan := sc;
            dp_ExpiresAt := ex |}) |}.

Definition check_diagnostics `{GoLib} (doc : diagnosticsPayload) : result string unit :=
  reject (negb (streq (dp_Result doc) "CREATED") || is_empty (dp_OperationID doc)
          || negb (full_match digestShape (dp_SHA256 doc)) || (dp_SizeBytes doc <? 1)%Z
          || negb (streq (dp_Mode doc) "0600") || is_empty (dp_RedactionProfile doc))
    with_ "diagnostics result metadata is invalid";;
  _ ← absolutePath (dp_ArchivePath doc) "archivePath";
  _ ← uniqueNonEmpty (dp_IncludedFiles doc) "includedFiles";
  _ ← for_each (fun file => absolutePath file "includedFiles") (dp_IncludedFiles doc);
  reject (negb (streq (ss_Result (dp_SecretScan doc)) "PASS")
          || negb (ss_Hits (dp_SecretScan doc) =? 0)%Z)
    with_ "secretScan must report PASS with zero hits";;
  utcTimestamp (dp_ExpiresAt doc) "expiresAt".

Definition validateDiagnosticsPayload `{GoLib} (raw : string) : result string unit :=
  doc ← decodePayload (A := diagnosticsPayload) raw; check_diagnostics doc.

(* ------------------------------------------------------------------ *)
(** ** [logs]                                                          *)
(* ------------------------------------------------------------------ *)

Record logWindow : Type := { lw_Since : string; lw_Lines : Z }.
#[global] Instance log_window_value : GoValue logWindow := {|
  go_zero := {| lw_Since := ""; lw_Lines := 0 |};
  go_into strict old := decode_struct strict ["since"; "lines"] old (fun ms =>
    si ← field strict ms "since" (lw_Since old);
    li ← field strict ms "lines" (lw_Lines old);
    Some {| lw_Since := si; lw_Lines := li |}) |}.

Record logEntry : Type := {
  en_Timestamp : string; en_Severity : string; en_CorrelationOrOperationID : string;
  en_Message : string
}.
#[global] Instance log_entry_value : GoValue logEntry := {|
  go_zero := {| en_Timestamp := ""; en_Severity := ""; en_CorrelationOrOperationID := "";
                en_Message := "" |};
  go_into strict old := decode_struct strict
    ["timestamp"; "severity"; "correlationOrOperationId"; "message"] old (fun ms =>
    ti ← field strict ms "timestamp" (en_Timestamp old);
    se ← field strict ms "severity" (en_Severity old);
    co ← field strict ms "correlationOrOperationId" (en_CorrelationOrOperationID old);
    me ← field strict ms "message" (en_Message old);
    Some {| en_Timestamp := ti; en_Severity := se; en_CorrelationOrOperationID := co;
            en_Message := me |}) |}.

Record logsPayload : Type := {
  lp_SchemaVersion : string; lp_Command : string; lp_Component : string; lp_Redacted : bool;
  lp_Window : logWindow; lp_Entries : list logEntry; lp_Truncated : bool;
  lp_ObservedAt : string
}.
#[global] Instance logs_payload_value : GoValue logsPayload := {|
  go_zero := {| lp_SchemaVersion := ""; lp_Command := ""; lp_Component := "";
                lp_Redacted := false; lp_Window := go_zero; lp_Entries := [];
                lp_Truncated := false; lp_ObservedAt := "" |};
  go_into strict old := decode_struct strict
    ["schemaVersion"; "command"; "component"; "redacted"; "window"; "entries"; "truncated";
     "observedAt"] old (fun ms =>
    sv ← field strict ms "schemaVersion" (lp_SchemaVersion old);
    cm ← field strict ms "command" (lp_Command old);
    co ← field strict ms "component" (lp_Component old);
    re ← field strict ms "redacted" (lp_Redacted old);
    wi ← field strict ms "window" (lp_Window old);
    es ← field strict ms "entries" (lp_Entries old);
    tr ← field strict ms "truncated" (lp_Truncated old);
    ob ← field strict ms "observedAt" (lp_ObservedAt old);
    Some {| lp_SchemaVersion := sv; lp_Command := cm; lp_Component := co; lp_Redacted := re;
            lp_Window := wi; lp_Entries := es; lp_Truncated := tr; lp_ObservedAt := ob |}) |}.

Definition log_components : list string :=
  ["gateway"; "oam"; "ui"; "caddy"; "postgres"; "state"; "dataplane"; "management"].

Definition check_log_entry `{GoLib} (entry : logEntry) : result string unit :=
  _ ← utcTimestamp (en_Timestamp entry) "entries.timestamp";
  reject (negb (oneOf (en_Severity entry) ["DEBUG"; "INFO"; "WARN"; "ERROR"]))
    with_ "entries.severity is outside the approved enum";;
  Ok tt.

Definition check_logs `{GoLib} (doc : logsPayload) : result string unit :=
  reject (negb (oneOf (lp_Component doc) log_components) || negb (lp_Redacted doc))
    with_ "logs component or redacted flag is invalid";;
  reject (negb (full_match durationShape (lw_Since (lp_Window doc)))
          || (lw_Lines (lp_Window doc) <? 1)%Z || (10000 <? lw_Lines (lp_Window doc))%Z)
    with_ "logs window is invalid";;
  _ ← for_each check_log_entry (lp_Entries doc);
  utcTimestamp (lp_ObservedAt doc) "observedAt".

Definition validateLogsPayload `{GoLib} (raw : string) : result string unit :=
  doc ← decodePayload (A := logsPayload) raw; check_logs doc.

(* ------------------------------------------------------------------ *)
(** ** [backup key-create], [backup create], [backup verify]           *)
(* ------------------------------------------------------------------ *)

Record backupKeyPayload : Type := {
  bk_SchemaVersion : string; bk_Command : string; bk_Result : string; bk_OperationID : string;
  bk_KeyPath : string; bk_KeyID : string; bk_Fingerprint : string; bk_Mode : string
}.
#[global] Instance backup_key_value : GoValue backupKeyPayload := {|
  go_zero := {| bk_SchemaVersion := ""; bk_Command := ""; bk_Result := ""; bk_OperationID := "";
                bk_KeyPath := ""; bk_KeyID := ""; bk_Fingerprint := ""; bk_Mode := "" |};
  go_into strict old := decode_struct strict
    ["schemaVersion"; "command"; "result"; "operationId"; "keyPath"; "keyId"; "fingerprint";
     "mode"] old (fun ms =>
    sv ← field strict ms "schemaVersion" (bk_SchemaVersion old);
    cm ← field strict ms "command" (bk_Command old);
    re ← field strict ms "result" (bk_Result old);
    op ← field strict ms "operationId" (bk_OperationID old);
    kp ← field strict ms "keyPath" (bk_KeyPath old);
    ki ← field strict ms "keyId" (bk_KeyID old);
    fp ← field strict ms "fingerprint" (bk_Fingerprint old);
    mo ← field strict ms "mode" (bk_Mode old);
    Some {| bk_SchemaVersion := sv; bk_Command := cm; bk_Result := re; bk_OperationID := op;
            bk_KeyPath := kp; bk_KeyID := ki; bk_Fingerprint := fp; bk_Mode := mo |}) |}.

Definition check_backup_key (doc : backupKeyPayload) : result string unit :=
  reject (negb (streq (bk_Result doc) "CREATED") || is_empty (bk_OperationID doc)
          || is_empty (bk_KeyID doc) || negb (full_match digestShape (bk_Fingerprint doc))
          || negb (streq (bk_Mode doc) "0600"))
    with_ "backup key result metadata is invalid";;
  absolutePath (bk_KeyPath doc) "keyPath".

Definition validateBackupKeyPayload `{GoLib} (raw : string) : result string unit :=
  doc ← decodePayload (A := backupKeyPayload) raw; check_backup_key doc.

Definition checksum_invalid (x : string * string) : bool :=
  negb (full_match mapKeyShape x.1) || negb (full_match digestShape x.2).

(** The order of the iteration does not matter: one error covers every entry. *)
Definition validateChecksums (checksums : gmap string string) : result string unit :=
  reject (size checksums =? 0)%nat with_ "componentChecksums must not be empty";;
  reject (existsb checksum_invalid (map_to_list checksums))
    with_ "componentChecksums contains an invalid key or digest";;
  Ok tt.

Record backupCreatePayload : Type := {
  bu_SchemaVersion : string; bu_Command : string; bu_Result : string; bu_OperationID : string;
  bu_ArchivePath : string; bu_SHA256 : string; bu_SizeBytes : Z; bu_Encrypted : bool;
  bu_ManifestSchema : string; bu_ComponentChecksums : gmap string string;
  bu_Consistency : string
}.
#[global] Instance backup_create_value : GoValue backupCreatePayload := {|
  go_zero := {| bu_SchemaVersion := ""; bu_Command := ""; bu_Result := ""; bu_OperationID := "";
                bu_ArchivePath := ""; bu_SHA256 := ""; bu_SizeBytes := 0; bu_Encrypted := false;
                bu_ManifestSchema := ""; bu_ComponentChecksums := ∅; bu_Consistency := "" |};
  go_into strict old := decode_struct strict
    ["schemaVersion"; "command"; "result"; "operationId"; "archivePath"; "sha256"; "sizeBytes";
     "encrypted"; "manifestSchema"; "componentChecksums"; "consistency"] old (fun ms =>
    sv ← field strict ms "schemaVersion" (bu_SchemaVersion old);
    cm ← field strict ms "command" (bu_Command old);
    re ← field strict ms "result" (bu_Result old);
    op ← field strict ms "operationId" (bu_OperationID old);
    ap ← field strict ms "archivePath" (bu_ArchivePath old);
    sh ← field strict ms "sha256" (bu_SHA256 old);
    sb ← field strict ms "sizeBytes" (bu_SizeBytes old);
    en ← field strict ms "encrypted" (bu_Encrypted old);
    ma ← field strict ms "manifestSchema" (bu_ManifestSchema old);
    cs ← field strict ms "componentChecksums" (bu_ComponentChecksums old);
    co ← field strict ms "consistency" (bu_Consistency old);
    Some {| bu_SchemaVersion := sv; bu_Command := cm; bu_Result := re; bu_OperationID := op;
            bu_ArchivePath := ap; bu_SHA256 := sh; bu_SizeBytes := sb; bu_Encrypted := en;
            bu_ManifestSchema := ma; bu_ComponentChecksums := cs; bu_Consistency := co |}) |}.

Definition check_backup_create (doc : backupCreatePayload) : result string unit :=
  reject (negb (oneOf (bu_Result doc) ["CREATED"; "PARTIAL"]) || is_empty (bu_OperationID doc)
          || negb (full_match digestShape (bu_SHA256 doc)) || (bu_SizeBytes doc <? 1)%Z
          || negb (bu_Encrypted doc) || is_empty (bu_ManifestSchema doc))
    with_ "backup create result metadata is invalid";;
  _ ← absolutePath (bu_ArchivePath doc) "archivePath";
  _ ← validateChecksums (bu_ComponentChecksums doc);
  reject ((streq (bu_Result doc) "CREATED"
             && negb (streq (bu_Consistency doc) "APPLICATION_CONSISTENT"))
          || (streq (bu_Result doc) "PARTIAL" && negb (streq (bu_Consistency doc) "INCOMPLETE")))
    with_ "backup result and consistency disagree";;
  Ok tt.

Definition validateBackupCreatePayload `{GoLib} (raw : string) : result string unit :=
  doc ← decodePayload (A := backupCreatePayload) raw; check_backup_create doc.

Record backupVerifyPayload : Type := {
  bv_SchemaVersion : string; bv_Command : string; bv_Result : string; bv_ArchivePath : string;
  bv_Authenticated : bool; bv_ChecksumValid : bool; bv_KeyMatch : bool;
  bv_ManifestSchema : string; bv_ReleaseCompatibility : string;
  bv_ComponentChecksums : gmap string string; bv_ObservedAt : string
}.
#[global] Instance backup_verify_value : GoValue backupVerifyPayload := {|
  go_zero := {| bv_SchemaVersion := ""; bv_Command := ""; bv_Result := ""; bv_ArchivePath := "";
                bv_Authenticated := false; bv_ChecksumValid := false; bv_KeyMatch := false;
                bv_ManifestSchema := ""; bv_ReleaseCompatibility := "";
                bv_ComponentChecksums := ∅; bv_ObservedAt := "" |};
  go_into strict old := decode_struct strict
    ["schemaVersion"; "command"; "result"; "archivePath"; "authenticated"; "checksumValid";
     "keyMatch"; "manifestSchema"; "releaseCompatibility"; "componentChecksums"; "observedAt"]
    old (fun ms =>
    sv ← field strict ms "schemaVersion" (bv_SchemaVersion old);
    cm ← field strict ms "command" (bv_Command old);
    re ← field strict ms "result" (bv_Result old);
    ap ← field strict ms "archivePath" (bv_ArchivePath old);
    au ← field strict ms "authenticated" (bv_Authenticated old);
    cv ← field strict ms "checksumValid" (bv_ChecksumValid old);
    km ← field strict ms "keyMatch" (bv_KeyMatch old);
    ma ← field strict ms "manifestSchema" (bv_ManifestSchema old);
    rc ← field strict ms "releaseCompatibility" (bv_ReleaseCompatibility old);
    cs ← field strict ms "componentChecksums" (bv_ComponentChecksums old);
    ob ← field strict ms "observedAt" (bv_ObservedAt old);
    Some {| bv_SchemaVersion := sv; bv_Command := cm; bv_Result := re; bv_ArchivePath := ap;
            bv_Authenticated := au; bv_ChecksumValid := cv; bv_KeyMatch := km;
            bv_ManifestSchema := ma; bv_ReleaseCompatibility := rc;
            bv_ComponentChecksums := cs; bv_ObservedAt := ob |}) |}.

Definition check_backup_verify `{GoLib} (doc : backupVerifyPayload) : result string unit :=
  reject (negb (streq (bv_Result doc) "VERIFIED") || negb (bv_Authenticated doc)
          || negb (bv_ChecksumValid doc) || negb (bv_KeyMatch doc)
          || is_empty (bv_ManifestSchema doc)
          || negb (streq (bv_ReleaseCompatibility doc) "COMPATIBLE"))
    with_ "backup verification result is invalid";;
  _ ← absolutePath (bv_ArchivePath doc) "archivePath";
  _ ← validateChecksums (bv_ComponentChecksums doc);
  utcTimestamp (bv_ObservedAt doc) "observedAt".

Definition validateBackupVerifyPayload `{GoLib} (raw : string) : result string unit :=
  doc ← decodePayload (A := backupVerifyPayload) raw; check_backup_verify doc.

(* ------------------------------------------------------------------ *)
(** ** Lifecycle plans, receipts and statuses                          *)
(* ------------------------------------------------------------------ *)

Record lifecycleCheck : Type := { lc_Code : string; lc_Result : string }.
#[global] Instance lifecycle_check_value : GoValue lifecycleCheck := {|
  go_zero := {| lc_Code := ""; lc_Result := "" |};
  go_into strict old := decode_struct strict ["code"; "result"] old (fun ms =>
    co ← field strict ms "code" (lc_Code old);
    re ← field strict ms "result" (lc_Result old);
    Some {| lc_Code := co; lc_Result := re |}) |}.

Record lifecyclePlanPayload : Type := {
  pl_SchemaVersion : string; pl_Command : string; pl_Result : string; pl_PlanHash : string;
  pl_ExpiresAt : string; pl_Compatible : bool; pl_AffectedPlanes : list string;
  pl_Checks : list lifecycleCheck; pl_Delete : list string; pl_Preserve : list string
}.
#[global] Instance lifecycle_plan_value : GoValue lifecyclePlanPayload := {|
  go_zero := {| pl_SchemaVersion := ""; pl_Command := ""; pl_Result := ""; pl_PlanHash := "";
                pl_ExpiresAt := ""; pl_Compatible := false; pl_AffectedPlanes := [];
                pl_Checks := []; pl_Delete := []; pl_Preserve := [] |};
  go_into strict old := decode_struct strict
    ["schemaVersion"; "command"; "result"; "planHash"; "expiresAt"; "compatible";
     "affectedPlanes"; "checks"; "delete"; "preserve"] old (fun ms =>
    sv ← field strict ms "schemaVersion" (pl_SchemaVersion old);
    cm ← field strict ms "command" (pl_Command old);
    re ← field strict ms "result" (pl_Result old);
    ph ← field strict ms "planHash" (pl_PlanHash old);
    ex ← field strict ms "expiresAt" (pl_ExpiresAt old);
    co ← field strict ms "compatible" (pl_Compatible old);
    ap ← field strict ms "affectedPlanes" (pl_AffectedPlanes old);
    ch ← field strict ms "checks" (pl_Checks old);
    de ← field strict ms "delete" (pl_Delete old);
    pr ← field strict ms "preserve" (pl_Preserve old);
    Some {| pl_SchemaVersion := sv; pl_Command := cm; pl_Result := re; pl_PlanHash := ph;
            pl_ExpiresAt := ex; pl_Compatible := co; pl_AffectedPlanes := ap; pl_Checks := ch;
            pl_Delete := de; pl_Preserve := pr |}) |}.

Definition requiredChecks (command : string) : list string :=
  default [] (assoc
    [ ("restore plan", ["ARCHIVE_AUTHENTICATION"; "ARCHIVE_CHECKSUM"; "SCHEMA_COMPATIBILITY";
                        "DISK_CAPACITY"; "INSTALLATION_COMPATIBILITY"; "PRE_RESTORE_BACKUP";
                        "ROLLBACK_FEASIBILITY"]);
      ("update plan", ["BUNDLE_SIGNATURE"; "PRODUCT_LOCK"; "SBOM"; "MIGRATION"; "BACKUP_GATE"]);
      ("rollback plan", ["APPROVED_RELEASE"; "BACKUP_GATE"; "DOWNGRADE_COMPATIBILITY";
                         "POSTFLIGHT"]);
      ("factory-reset plan", ["BACKUP_GATE"; "SSH_PRESERVATION"; "NETWORK_PRESERVATION";
                              "NCP_AGENT_PRESERVATION"]) ] command).

Definition preserved_items : list string := ["ssh-access"; "network-config"; "ncp-agent"].

Definition check_factory_reset (doc : lifecyclePlanPayload) : result string unit :=
  _ ← uniqueNonEmpty (pl_Delete doc) "delete";
  _ ← uniqueNonEmpty (pl_Preserve doc) "preserve";
  reject (existsb (fun item => negb (full_match mapKeyShape item))
            (pl_Delete doc ++ pl_Preserve doc))
    with_ "factory-reset delete/preserve item is malformed";;
  for_each (fun required =>
      reject (negb (str_in required (pl_Preserve doc)))
        with_ ("factory-reset plan does not preserve " +:+ quote required);; Ok tt)
    preserved_items.

Definition check_lifecycle_plan `{GoLib} (doc : lifecyclePlanPayload) : result string unit :=
  reject (negb (streq (pl_Result doc) "PLANNED")
          || negb (full_match digestShape (pl_PlanHash doc)) || negb (pl_Compatible doc))
    with_ "lifecycle plan result, hash, or compatibility is invalid";;
  _ ← utcTimestamp (pl_ExpiresAt doc) "expiresAt";
  reject ((length (pl_AffectedPlanes doc) =? 0)%nat || (length (pl_Checks doc) =? 0)%nat)
    with_ "lifecycle plan must contain affectedPlanes and checks";;
  reject (existsb (fun plane => negb (oneOf plane ["state"; "dataplane"; "management"; "host"]))
            (pl_AffectedPlanes doc))
    with_ "lifecycle plan contains an invalid affected plane";;
  _ ← uniqueNonEmpty (pl_AffectedPlanes doc) "affectedPlanes";
  reject (existsb (fun check => negb (full_match upperCodeShape (lc_Code check))
                                || negb (oneOf (lc_Result check) ["PASS"; "WARN"]))
            (pl_Checks doc))
    with_ "lifecycle plan contains an invalid check";;
  _ ← for_each (fun required =>
         reject (negb (str_in required (lc_Code <$> pl_Checks doc)))
           with_ ("lifecycle plan is missing required check " +:+ quote required);; Ok tt)
       (requiredChecks (pl_Command doc));
  if streq (pl_Command doc) "factory-reset plan" then check_factory_reset doc else Ok tt.

Definition validateLifecyclePlanPayload `{GoLib} (raw : string) : result string unit :=
  doc ← decodePayload (A := lifecyclePlanPayload) raw; check_lifecycle_plan doc.

Record lifecycleExecutePayload : Type := {
  le_SchemaVersion : string; le_Command : string; le_Result : string; le_OperationID : string;
  le_PlanHash : string; le_Status : string; le_AcceptedAt : string
}.
#[global] Instance lifecycle_execute_value : GoValue lifecycleExecutePayload := {|
  go_zero := {| le_SchemaVersion := ""; le_Command := ""; le_Result := ""; le_OperationID := "";
                le_PlanHash := ""; le_Status := ""; le_AcceptedAt := "" |};
  go_into strict old := decode_struct strict
    ["schemaVersion"; "command"; "result"; "operationId"; "planHash"; "status"; "acceptedAt"] old
    (fun ms =>
    sv ← field strict ms "schemaVersion" (le_SchemaVersion old);
    cm ← field strict ms "command" (le_Command old);
    re ← field strict ms "result" (le_Result old);
    op ← field strict ms "operationId" (le_OperationID old);
    ph ← field strict ms "planHash" (le_PlanHash old);
    st ← field strict ms "status" (le_Status old);
    ac ← field strict ms "acceptedAt" (le_AcceptedAt old);
    Some {| le_SchemaVersion := sv; le_Command := cm; le_Result := re; le_OperationID := op;
            le_PlanHash := ph; le_Status := st; le_AcceptedAt := ac |}) |}.

Definition check_lifecycle_execute `{GoLib} (doc : lifecycleExecutePayload)
    : result string unit :=
  reject (negb (streq (le_Result doc) "ACCEPTED")
          || negb (full_match identifierShape (le_OperationID doc))
          || negb (full_match digestShape (le_PlanHash doc))
          || negb (oneOf (le_Status doc) ["PENDING"; "RUNNING"]))
    with_ "lifecycle execute receipt is invalid";;
  utcTimestamp (le_AcceptedAt doc) "acceptedAt".

Definition validateLifecycleExecutePayload `{GoLib} (raw : string) : result string unit :=
  doc ← decodePayload (A := lifecycleExecutePayload) raw; check_lifecycle_execute doc.

Record lifecycleStatusPayload : Type := {
  ls_SchemaVersion : string; ls_Command : string; ls_OperationID : string; ls_Status : string;
  ls_Phase : string; ls_ObservedAt : string
}.
#[global] Instance lifecycle_status_value : GoValue lifecycleStatusPayload := {|
  go_zero := {| ls_SchemaVersion := ""; ls_Command := ""; ls_OperationID := ""; ls_Status := "";
                ls_Phase := ""; ls_ObservedAt := "" |};
  go_into strict old := decode_struct strict
    ["schemaVersion"; "command"; "operationId"; "status"; "phase"; "observedAt"] old (fun ms =>
    sv ← field strict ms "schemaVersion" (ls_SchemaVersion old);
    cm ← field strict ms "command" (ls_Command old);
    op ← field strict ms "operationId" (ls_OperationID old);
    st ← field strict ms "status" (ls_Status old);
    ph ← field strict ms "phase" (ls_Phase old);
    ob ← field strict ms "observedAt" (ls_ObservedAt old);
    Some {| ls_SchemaVersion := sv; ls_Command := cm; ls_OperationID := op; ls_Status := st;
            ls_Phase := ph; ls_ObservedAt := ob |}) |}.

Definition operation_states : list string :=
  ["PENDING"; "RUNNING"; "SUCCEEDED"; "FAILED"; "ROLLED_BACK"; "PARTIAL"].

Definition check_lifecycle_status `{GoLib} (doc : lifecycleStatusPayload) : result string unit :=
  reject (negb (full_match identifierShape (ls_OperationID doc))
          || negb (oneOf (ls_Status doc) operation_states)
          || negb (full_match upperCodeShape (ls_Phase doc)))
    with_ "lifecycle operation status is invalid";;
  utcTimestamp (ls_ObservedAt doc) "observedAt".

Definition validateLifecycleStatusPayload `{GoLib} (raw : string) : result string unit :=
  doc ← decodePayload (A := lifecycleStatusPayload) raw; check_lifecycle_status doc.
