(* ===== verification/Payload.v ===== *)
(** * Payload validation: [pkg/backend/payload.go]

    The registry of approved payload contracts, the inspection of every value
    of a document, the operation-error documents, and [ValidatePayload]. *)
From S2P Require Import Prelude GoStrings Regex Json Errors Exitcode Contract DupKeys PayloadDocs.

(* ------------------------------------------------------------------ *)
(** ** The registry                                                    *)
(* ------------------------------------------------------------------ *)

Record BackendOperationError : Type := {
  oe_SchemaVersion : string; oe_Command : string; oe_Result : string; oe_Exit : Z;
  oe_Code : string; oe_Origin : string; oe_ComponentCode : string; oe_Retryable : bool;
  oe_Message : string; oe_CorrelationID : string; oe_OperationID : string;
  oe_RecoveryGuidance : string
}.

#[global] Instance operation_error_value : GoValue BackendOperationError := {|
  go_zero := {| oe_SchemaVersion := ""; oe_Command := ""; oe_Result := ""; oe_Exit := 0;
                oe_Code := ""; oe_Origin := ""; oe_ComponentCode := ""; oe_Retryable := false;
                oe_Message := ""; oe_CorrelationID := ""; oe_OperationID := "";
                oe_RecoveryGuidance := "" |};
  go_into strict old := decode_struct strict
    ["schemaVersion"; "command"; "result"; "exit"; "code"; "origin"; "componentCode";
     "retryable"; "message"; "correlationId"; "operationId"; "recoveryGuidance"] old (fun ms =>
    sv ← field strict ms "schemaVersion" (oe_SchemaVersion old);
    cm ← field strict ms "command" (oe_Command old);
    re ← field strict ms "result" (oe_Result old);
    ex ← field strict ms "exit" (oe_Exit old);
    co ← field strict ms "code" (oe_Code old);
    og ← field strict ms "origin" (oe_Origin old);
    cc ← field strict ms "componentCode" (oe_ComponentCode old);
    rt ← field strict ms "retryable" (oe_Retryable old);
    me ← field strict ms "message" (oe_Message old);
    ci ← field strict ms "correlationId" (oe_CorrelationID old);
    op ← field strict ms "operationId" (oe_OperationID old);
    rg ← field strict ms "recoveryGuidance" (oe_RecoveryGuidance old);
    Some {| oe_SchemaVersion := sv; oe_Command := cm; oe_Result := re; oe_Exit := ex;
            oe_Code := co; oe_Origin := og; oe_ComponentCode := cc; oe_Retryable := rt;
            oe_Message := me; oe_CorrelationID := ci; oe_OperationID := op;
            oe_RecoveryGuidance := rg |}) |}.

Record ValidatedPayload : Type := {
  vp_Tuple : PayloadTuple;
  vp_Command : string;
  vp_Document : string;
  vp_OperationID : string;
  vp_OperationError : option BackendOperationError
}.

Record payloadSpec : Type := {
  ps_Tuple : PayloadTuple;
  ps_SchemaPath : string;
  ps_SchemaID : string;
  ps_RequiredKeys : list string;
  ps_OptionalKeys : list string;
  ps_Validate : string -> result string unit
}.

Definition tuple (command : string) : PayloadTuple :=
  {| pt_ContractMajor := contractMajor; pt_SchemaVersion := payloadSchema;
     pt_Command := command |}.

Definition schema_path (name : string) : string :=
  sprintf ["contracts/backend-payloads/v1/"; name; ".schema.json"].
Definition schema_id (name : string) : string :=
  sprintf ["https://loxilb.io/schemas/appliance-backend/v1/"; name; ".schema.json"].

Definition lifecycle_schema (command : string) : string :=
  "lifecycle/" +:+ replace_byte " "%char "-"%char command.

Section Registry.
Context `{GoLib}.

Definition spec (command schema : string) (required optional : list string)
    (validate : string -> result string unit) : payloadSpec :=
  {| ps_Tuple := tuple command; ps_SchemaPath := schema_path schema;
     ps_SchemaID := schema_id schema;
     ps_RequiredKeys := ["schemaVersion"; "command"] ++ required;
     ps_OptionalKeys := optional; ps_Validate := validate |}.

Definition lifecyclePlanSpec (command : string) : payloadSpec :=
  spec command (lifecycle_schema command)
    (["result"; "planHash"; "expiresAt"; "compatible"; "affectedPlanes"; "checks"]
     ++ (if streq command "factory-reset plan" then ["delete"; "preserve"] else []))
    [] validateLifecyclePlanPayload.

Definition lifecycleExecuteSpec (command : string) : payloadSpec :=
  spec command (lifecycle_schema command)
    ["result"; "operationId"; "planHash"; "status"; "acceptedAt"] []
    validateLifecycleExecutePayload.

Definition lifecycleStatusSpec (command : string) : payloadSpec :=
  spec command (lifecycle_schema command) ["operationId"; "status"; "phase"; "observedAt"] []
    validateLifecycleStatusPayload.

Definition payloadRegistry : list payloadSpec :=
  [ spec "status" "status"
      ["overallStatus"; "productRelease"; "initialized"; "planes"; "networkProfile";
       "activeOperations"; "localGatewayRegistration"; "observedAt"]
      ["reasonCode"; "publicAddressTls"] validateStatusPayload;
    spec "network validate" "network-validate"
      ["valid"; "profile"; "interfaces"; "errors"; "warnings"; "observedAt"] []
      validateNetworkPayload;
    spec "public-address configure" "public-address-configure"
      ["result"; "operationId"; "publicAddress"; "privateAddressPreserved"; "certificate";
       "restart"; "readiness"] [] validatePublicAddressPayload;
    spec "gateway register-local" "gateway-register-local"
      ["result"; "operationId"; "installationId"; "instanceId"; "endpoint";
       "gatewayIdentity"; "verified"; "markerUpdated"] [] validateGatewayRegistrationPayload;
    spec "diagnostics create" "diagnostics-create"
      ["result"; "operationId"; "archivePath"; "sha256"; "sizeBytes"; "mode";
       "redactionProfile"; "includedFiles"; "secretScan"; "expiresAt"] []
      validateDiagnosticsPayload;
    spec "logs" "logs"
      ["component"; "redacted"; "window"; "entries"; "truncated"; "observedAt"] []
      validateLogsPayload;
    spec "backup key-create" "backup-key-create"
      ["result"; "operationId"; "keyPath"; "keyId"; "fingerprint"; "mode"] []
      validateBackupKeyPayload;
    spec "backup create" "backup-create"
      ["result"; "operationId"; "archivePath"; "sha256"; "sizeBytes"; "encrypted";
       "manifestSchema"; "componentChecksums"; "consistency"] [] validateBackupCreatePayload;
    spec "backup verify" "backup-verify"
      ["result"; "archivePath"; "authenticated"; "checksumValid"; "keyMatch";
       "manifestSchema"; "releaseCompatibility"; "componentChecksums"; "observedAt"] []
      validateBackupVerifyPayload;
    lifecyclePlanSpec "restore plan";
    lifecycleExecuteSpec "restore execute";
    lifecyclePlanSpec "update plan";
    lifecycleExecuteSpec "update execute";
    lifecycleStatusSpec "update status";
    lifecyclePlanSpec "rollback plan";
    lifecycleExecuteSpec "rollback execute";
    lifecycleStatusSpec "rollback status";
    lifecyclePlanSpec "factory-reset plan";
    lifecycleExecuteSpec "factory-reset execute" ].

Definition registry_lookup (selected : PayloadTuple) : option payloadSpec :=
  find (fun s => bool_decide (ps_Tuple s = selected)) payloadRegistry.

Definition PayloadTupleForCommand (command : string) : PayloadTuple * bool :=
  (tuple command, match registry_lookup (tuple command) with Some _ => true | None => false end).
End Registry.

(* ------------------------------------------------------------------ *)
(** ** Keys and fields of a document                                   *)
(* ------------------------------------------------------------------ *)

Notation document := (gmap string json).

Definition has_key (doc : document) (key : string) : bool := bool_decide (is_Some (doc !! key)).

Definition validateRequiredAndAllowedKeySet `{GoLib} (doc : document)
    (required optional : list string) : result string unit :=
  _ ← for_each (fun key =>
        reject (negb (has_key doc key))
          with_ sprintf ["required field "; quote key; " is missing"];; Ok tt) required;
  for_each (fun m : string * json =>
    reject (negb (str_in m.1 required || str_in m.1 optional))
      with_ ("unknown field " +:+ quote m.1);; Ok tt) (range_order (map_to_list doc)).

(** [json.Unmarshal(raw, &s)] of a fresh string. *)
Definition string_member (doc : document) (key : string) : option string :=
  j ← doc !! key; unmarshal_value string j.

Definition observedCommand (doc : document) (fallback : string) : string :=
  match string_member doc "command" with
  | Some command =>
      if full_match commandNameShape command && (slen command <=? 128)%Z
      then command else fallback
  | None => fallback
  end.

Definition exactStringField (doc : document) (key expected : string) : result string unit :=
  match string_member doc key with
  | None => Err (field_error key " is not a string")
  | Some actual =>
      reject (negb (streq actual expected))
        with_ field_error key " does not match the approved value";;
      Ok tt
  end.

Definition optionalStringField (doc : document) (key : string) : string :=
  default "" (string_member doc key).

(* ------------------------------------------------------------------ *)
(** ** The inspection of every value                                   *)
(* ------------------------------------------------------------------ *)

Definition prohibitedPayloadKeys : list string :=
  ["password"; "token"; "apikey"; "privatekey"; "secret"; "credential"; "credentials"].

Definition normalized_key (key : string) : string := to_lower (remove_bytes "_-" key).

Definition isProhibitedPayloadKey (key : string) : bool :=
  let normalized := normalized_key key in
  if streq normalized "secretscan" then false
  else str_in normalized prohibitedPayloadKeys
       || existsb (contains normalized)
            ["password"; "token"; "apikey"; "privatekey"; "credential"].

Definition credential_material (s : string) : bool :=
  contains s syntheticSecret || search credentialValueShape s.

(** The verdict of each member is computed first; the loop then visits them in
    the order of the map. *)
Fixpoint inspectPayloadValue `{GoLib} (value : json) : result string unit :=
  match value with
  | JNull => Err "null values are prohibited"
  | JObj ms =>
      for_each (fun x : string * result string unit =>
        reject (isProhibitedPayloadKey x.1)
          with_ sprintf ["secret-bearing key "; quote x.1; " is prohibited"];; x.2)
        (range_order ((fun m : string * json => (m.1, inspectPayloadValue m.2)) <$> ms))
  | JArr l => for_each (fun r => r) (inspectPayloadValue <$> l)
  | JStr s =>
      reject (credential_material s)
        with_ "payload contains prohibited credential material";; Ok tt
  | JNum _ | JBool _ => Ok tt
  end.

(* ------------------------------------------------------------------ *)
(** ** Operation errors                                                *)
(* ------------------------------------------------------------------ *)

Definition operationErrorRequiredKeys : list string :=
  ["schemaVersion"; "command"; "result"; "exit"; "code"; "origin"; "componentCode"; "retryable"].
Definition operationErrorOptionalKeys : list string :=
  ["message"; "correlationId"; "operationId"; "recoveryGuidance"].

Definition isOperationErrorDocument (doc : document) : bool :=
  existsb (has_key doc) ["exit"; "code"; "origin"; "componentCode"; "retryable"; "recoveryGuidance"]
  || streq (optionalStringField doc "result") "ERROR".

(** The result, code and retry flag of an operation-error exit. *)
Definition expected_operation_error (exit : Z) : option (string * string * bool) :=
  (if exit =? 2 then Some ("ERROR", "INVALID_ARGUMENT", false)
   else if exit =? 3 then Some ("ERROR", "AUTH", false)
   else if exit =? 4 then Some ("ERROR", "PRECONDITION", false)
   else if exit =? 5 then Some ("ERROR", "UNAVAILABLE", true)
   else if exit =? 6 then Some ("ERROR", "CONTRACT_MISMATCH", false)
   else if exit =? 7 then Some ("ERROR", "FAILED", false)
   else if exit =? 8 then Some ("PARTIAL", "PARTIAL", false)
   else None)%Z.

Definition check_operation_error `{GoLib} (doc : BackendOperationError) : result string unit :=
  reject (match expected_operation_error (oe_Exit doc) with
          | None => true
          | Some (result, code, retryable) =>
              negb (streq (oe_Result doc) result) || negb (streq (oe_Code doc) code)
              || negb (Bool.eqb (oe_Retryable doc) retryable)
          end)
    with_ "operation error result/exit/code/retryable tuple is invalid";;
  reject (negb (streq (oe_Origin doc) "backend")
          || negb (full_match upperCodeShape (oe_ComponentCode doc))
          || (128 <? slen (oe_ComponentCode doc))%Z)
    with_ "operation error origin or componentCode is invalid";;
  let invalid key := sprintf ["operation error field "; quote key; " is invalid"] in
  _ ← for_each (fun x : string * string =>
        reject (negb (is_empty x.2) && ((512 <? slen x.2)%Z || containsControl x.2))
          with_ invalid x.1;; Ok tt)
      (range_order [("message", oe_Message doc); ("recoveryGuidance", oe_RecoveryGuidance doc)]);
  _ ← for_each (fun x : string * string =>
        reject (negb (is_empty x.2) && negb (full_match identifierShape x.2))
          with_ invalid x.1;; Ok tt)
      (range_order [("correlationId", oe_CorrelationID doc); ("operationId", oe_OperationID doc)]);
  reject ((oe_Exit doc =? 8)%Z && (is_empty (oe_OperationID doc)
                                   || is_empty (oe_RecoveryGuidance doc)))
    with_ "PARTIAL requires operationId and recoveryGuidance";;
  Ok tt.

Definition validateOperationErrorPayload `{GoLib} (doc : document) (raw : string)
    : result string BackendOperationError :=
  _ ← validateRequiredAndAllowedKeySet doc operationErrorRequiredKeys operationErrorOptionalKeys;
  e ← decodePayload (A := BackendOperationError) raw;
  _ ← check_operation_error e;
  Ok e.

(* ------------------------------------------------------------------ *)
(** ** [ValidatePayload]                                               *)
(* ------------------------------------------------------------------ *)

Definition payloadError (selected : PayloadTuple) (command reason : string)
    : PayloadValidationError :=
  {| pe_Tuple := selected; pe_Command := command; pe_Reason := reason;
     pe_ObservedBackendExit := None; pe_CorrelationID := ""; pe_OperationID := "" |}.

(** A reason becomes the error of the tuple. *)
Definition reject_payload {A} (selected : PayloadTuple) (command : string) (r : result string A)
    : result PayloadValidationError A :=
  match r with Ok a => Ok a | Err reason => Err (payloadError selected command reason) end.

(** The generic document, numbers kept as literals. *)
Definition decode_generic `{GoLib} (raw : string) : result string json :=
  match parse [] (tokens raw) with
  | Some (j, _) => Ok j
  | None => Err (json_text "Decode" raw)
  end.

Definition decode_document `{GoLib} (raw : string) : result string document :=
  match decodeExactOne (A := document) raw with
  | Ok doc => Ok doc
  | Err e => Err ("document is not one exact JSON object: " +:+ e)
  end.

Definition ValidatePayload `{GoLib} (selected : PayloadTuple) (raw : string)
    : result PayloadValidationError ValidatedPayload :=
  let fallback := pt_Command selected in
  match registry_lookup selected with
  | None => Err (payloadError selected fallback "unsupported contract/schema/command tuple")
  | Some sp =>
      _ ← reject_payload selected fallback (rejectDuplicateJSONKeys raw);
      doc ← reject_payload selected fallback (decode_document raw);
      generic ← reject_payload selected fallback (decode_generic raw);
      let command := observedCommand doc fallback in
      _ ← reject_payload selected command (inspectPayloadValue generic);
      _ ← reject_payload selected command
            (exactStringField doc "schemaVersion" (pt_SchemaVersion selected));
      _ ← reject_payload selected command (exactStringField doc "command" (pt_Command selected));
      if isOperationErrorDocument doc then
        e ← reject_payload selected command (validateOperationErrorPayload doc raw);
        Ok {| vp_Tuple := selected; vp_Command := command; vp_Document := raw;
              vp_OperationID := oe_OperationID e; vp_OperationError := Some e |}
      else
        _ ← reject_payload selected command
              (validateRequiredAndAllowedKeySet doc (ps_RequiredKeys sp) (ps_OptionalKeys sp));
        _ ← reject_payload selected command (ps_Validate sp raw);
        Ok {| vp_Tuple := selected; vp_Command := command; vp_Document := raw;
              vp_OperationID := optionalStringField doc "operationId";
              vp_OperationError := None |}
  end.

(* ------------------------------------------------------------------ *)
(** ** Lemmas: the inspection                                          *)
(* ------------------------------------------------------------------ *)

(** A value with nothing the inspection refuses, at any depth. *)
Definition clean_value (v : json) : Prop :=
  match v with
  | JNull => False
  | JStr s => credential_material s = false
  | JObj ms => Forall (fun m => isProhibitedPayloadKey m.1 = false) ms
  | _ => True
  end.

Definition clean (j : json) : Prop := forall v, subvalue v j -> clean_value v.

Lemma for_each_range `{GoLib} {A} (f : string * A -> result string unit) l :
  for_each f (range_order l) = Ok tt <-> Forall (fun x => f x = Ok tt) l.
Proof. by rewrite for_each_ok, (range_perm l). Qed.

Lemma inspect_clean `{GoLib} j : inspectPayloadValue j = Ok tt -> clean j.
Proof.
  induction j as [|b|n|s|l IH|ms IH] using json_ind; simpl.
  - done.
  - intros _ v Hv. by inversion Hv.
  - intros _ v Hv. by inversion Hv.
  - rewrite reject_tt. intros Hs v Hv. by inversion Hv.
  - rewrite for_each_ok, Forall_fmap. intros Hl v Hv. inversion Hv as [|? j Hin Hsub|]; [done|].
    subst. rewrite Forall_forall in IH, Hl. by apply (IH j Hin (Hl j Hin)).
  - rewrite for_each_range, Forall_fmap. intros Hms v Hv.
    inversion Hv as [| |? k j Hin Hsub]; subst.
    + simpl. eapply Forall_impl; [exact Hms|]. intros m Hm. simpl in Hm.
      apply reject_ok in Hm as [Hm _]. exact Hm.
    + rewrite Forall_forall in IH, Hms. specialize (Hms (k, j) Hin). simpl in Hms.
      apply reject_ok in Hms as [_ Hj]. by apply (IH (k, j) Hin).
Qed.

(* ------------------------------------------------------------------ *)
(** ** Lemmas: the document as a map and as members                    *)
(* ------------------------------------------------------------------ *)

Lemma raw_map_fold strict ms (m0 : document) :
  fold_left (fun acc m => mp ← acc; a ← go_into strict go_zero m.2; Some (<[m.1 := a]> mp))
    ms (Some m0)
  = Some (fold_left (fun (mp : document) m => <[m.1 := m.2]> mp) ms m0).
Proof. revert m0. induction ms as [|m ms IH]; intros m0; simpl; [done|]. by rewrite IH. Qed.

Lemma raw_map_decode strict ms :
  go_into (A := document) strict go_zero (JObj ms)
  = Some (fold_left (fun (mp : document) m => <[m.1 := m.2]> mp) ms ∅).
Proof. apply raw_map_fold. Qed.

Lemma insert_fold_lookup ms (m0 : document) k :
  NoDup (fst <$> ms) ->
  fold_left (fun (mp : document) m => <[m.1 := m.2]> mp) ms m0 !! k =
  match (list_to_map ms : document) !! k with Some v => Some v | None => m0 !! k end.
Proof.
  revert m0. induction ms as [|[k' v] ms IH]; intros m0 Hnd; cbn [fold_left list_to_map]; [done|].
  rewrite fmap_cons in Hnd. apply NoDup_cons in Hnd as [Hni Hnd].
  rewrite IH, list_to_map_cons by done. cbn [fst snd].
  destruct (decide (k = k')) as [->|Hne].
  - rewrite (not_elem_of_list_to_map_1 (M := gmap string) ms k') by done.
    by rewrite !lookup_insert_eq.
  - by rewrite !lookup_insert_ne by done.
Qed.

(** The document of a text whose keys are unique. *)
Lemma decode_document_ok `{GoLib} raw doc :
  decode_document raw = Ok doc -> rejectDuplicateJSONKeys raw = Ok tt ->
  exists ms, parse_document raw = Some (JObj ms) /\ parse [] (tokens raw) = Some (JObj ms, [])
    /\ unique_keys (JObj ms) /\ NoDup (fst <$> ms) /\ doc = list_to_map ms.
Proof.
  unfold decode_document, decodeExactOne, parse_document.
  destruct (parse [] (tokens raw)) as [[v rest]|] eqn:Hp; [|done]. intros Hdoc Hdup.
  destruct (reject_duplicates_unique raw v rest Hdup Hp) as [Hu ->].
  destruct v as [| | | | |ms]; try done.
  rewrite raw_map_decode in Hdoc. simplify_eq.
  assert (Hnd : NoDup (fst <$> ms)) by (apply Hu; constructor).
  exists ms. split_and!; try done. apply map_eq. intros k. rewrite insert_fold_lookup by done.
  rewrite lookup_empty. by destruct (list_to_map ms !! k).
Qed.

Lemma document_lookup ms k v :
  NoDup (fst <$> ms) -> (list_to_map ms : document) !! k = Some v <-> (k, v) ∈ ms.
Proof. intros Hnd. split; [apply elem_of_list_to_map_2 | by apply elem_of_list_to_map_1]. Qed.

Lemma has_key_true (doc : document) k : has_key doc k = true <-> is_Some (doc !! k).
Proof. unfold has_key. apply bool_decide_eq_true. Qed.

Lemma keys_allowed `{GoLib} (doc : document) required optional :
  validateRequiredAndAllowedKeySet doc required optional = Ok tt <->
  (forall k, k ∈ required -> is_Some (doc !! k))
  /\ (forall k, is_Some (doc !! k) -> k ∈ required \/ k ∈ optional).
Proof.
  unfold validateRequiredAndAllowedKeySet. rewrite bind_ok. split.
  - intros ([] & Hr & Ho). rewrite for_each_ok, Forall_forall in Hr.
    rewrite for_each_range, Forall_forall in Ho. split.
    + intros k Hk. specialize (Hr k Hk). simpl in Hr. apply reject_tt in Hr.
      apply has_key_true. by destruct (has_key doc k).
    + intros k [v Hv]. specialize (Ho (k, v)). simpl in Ho.
      rewrite elem_of_map_to_list in Ho. specialize (Ho Hv). apply reject_tt in Ho.
      apply negb_false_iff, orb_true_iff in Ho. by rewrite !str_in_true in Ho.
  - intros [Hr Ho]. exists tt. rewrite for_each_ok, for_each_range, !Forall_forall. split.
    + intros k Hk. apply reject_tt. apply negb_false_iff, has_key_true. auto.
    + intros [k v] Hkv. rewrite elem_of_map_to_list in Hkv. simpl.
      apply reject_tt, negb_false_iff, orb_true_iff. rewrite !str_in_true. eauto.
Qed.

Lemma string_member_some (doc : document) k s :
  string_member doc k = Some s -> s <> "" -> doc !! k = Some (JStr s).
Proof.
  unfold string_member, unmarshal_value. destruct (doc !! k) as [j|]; [|done].
  destruct j; simpl; intros; by simplify_eq.
Qed.

Lemma exact_field_ok (doc : document) k expected :
  expected <> "" -> exactStringField doc k expected = Ok tt -> doc !! k = Some (JStr expected).
Proof.
  intros Hne. unfold exactStringField. destruct (string_member doc k) as [s|] eqn:Hs; [|done].
  rewrite reject_tt, negb_false_iff, streq_true. intros ->. by apply string_member_some.
Qed.

(* ------------------------------------------------------------------ *)
(** ** Lemmas: [ValidatePayload] step by step                          *)
(* ------------------------------------------------------------------ *)

Lemma reject_payload_ok {A} selected command (r : result string A) a :
  reject_payload selected command r = Ok a <-> r = Ok a.
Proof. destruct r; simpl; naive_solver. Qed.

Lemma registry_lookup_in `{GoLib} selected sp :
  registry_lookup selected = Some sp -> sp ∈ payloadRegistry /\ ps_Tuple sp = selected.
Proof.
  intros H'. apply find_some in H' as [Hin Ht]. apply bool_decide_eq_true in Ht.
  by rewrite list_elem_of_In.
Qed.

Lemma registry_versions `{GoLib} sp :
  sp ∈ payloadRegistry ->
  pt_SchemaVersion (ps_Tuple sp) = payloadSchema /\ pt_Command (ps_Tuple sp) <> "".
Proof.
  intros Hsp. cut (Forall (fun sp => pt_SchemaVersion (ps_Tuple sp) = payloadSchema
                                     /\ pt_Command (ps_Tuple sp) <> "") payloadRegistry).
  { rewrite Forall_forall. auto. }
  unfold payloadRegistry. repeat (constructor; [by split|]). constructor.
Qed.

(** Everything a validated payload went through. *)
Lemma validate_payload_ok `{GoLib} selected raw vp :
  ValidatePayload selected raw = Ok vp ->
  exists sp ms,
    registry_lookup selected = Some sp
    /\ parse_document raw = Some (JObj ms) /\ parse [] (tokens raw) = Some (JObj ms, [])
    /\ unique_keys (JObj ms) /\ NoDup (fst <$> ms) /\ clean (JObj ms)
    /\ (let doc : document := list_to_map ms in
        doc !! "schemaVersion" = Some (JStr payloadSchema)
        /\ doc !! "command" = Some (JStr (pt_Command selected))
        /\ vp_Tuple vp = selected /\ vp_Document vp = raw
        /\ vp_Command vp = observedCommand doc (pt_Command selected)
        /\ ((isOperationErrorDocument doc = true /\ exists e,
               validateOperationErrorPayload doc raw = Ok e
               /\ vp_OperationError vp = Some e /\ vp_OperationID vp = oe_OperationID e)
            \/ (isOperationErrorDocument doc = false
                /\ validateRequiredAndAllowedKeySet doc (ps_RequiredKeys sp) (ps_OptionalKeys sp)
                   = Ok tt
                /\ ps_Validate sp raw = Ok tt
                /\ vp_OperationError vp = None
                /\ vp_OperationID vp = optionalStringField doc "operationId"))).
Proof.
  unfold ValidatePayload. destruct (registry_lookup selected) as [sp|] eqn:Hsp; [|done].
  rewrite bind_ok. intros ([] & Hdup & Hv). apply reject_payload_ok in Hdup.
  apply bind_ok in Hv as (doc & Hdoc & Hv). apply reject_payload_ok in Hdoc.
  apply bind_ok in Hv as (generic & Hgen & Hv). apply reject_payload_ok in Hgen.
  apply bind_ok in Hv as ([] & Hclean & Hv). apply reject_payload_ok, inspect_clean in Hclean.
  apply bind_ok in Hv as ([] & Hschema & Hv). apply reject_payload_ok in Hschema.
  apply bind_ok in Hv as ([] & Hcommand & Hv). apply reject_payload_ok in Hcommand.
  destruct (decode_document_ok raw doc Hdoc Hdup) as (ms & Hpd & Hp & Hu & Hnd & ->).
  unfold decode_generic in Hgen. rewrite Hp in Hgen. simplify_eq.
  apply registry_lookup_in in Hsp as Hreg. destruct Hreg as [Hin <-].
  destruct (registry_versions sp Hin) as [Hver Hne]. rewrite Hver in Hschema.
  apply exact_field_ok in Hschema; [|done]. apply exact_field_ok in Hcommand; [|done].
  destruct (isOperationErrorDocument (list_to_map ms)) eqn:Hop.
  - apply bind_ok in Hv as (e & He & [= <-]). apply reject_payload_ok in He.
    exists sp, ms. split_and!; try done. left. split; [done|]. by exists e.
  - apply bind_ok in Hv as ([] & Hk & Hv). apply reject_payload_ok in Hk.
    apply bind_ok in Hv as ([] & Hval & [= <-]). apply reject_payload_ok in Hval.
    exists sp, ms. split_and!; try done. right. by split_and!.
Qed.
