(* ===== verification/PayloadProps.v ===== *)
(** * What a validated payload guarantees

    The properties of [ValidatePayload]: the soundness of its verdict, the
    contracts of success documents, of operation errors and of lifecycle plans,
    and its independence from the order in which Go visits maps. *)
From S2P Require Import Prelude GoStrings Regex GoNet Json Errors Exitcode Contract DupKeys.
From S2P Require Import PayloadDocs Payload.

(* ------------------------------------------------------------------ *)
(** ** Struct fields of documents with exact keys                      *)
(* ------------------------------------------------------------------ *)

Lemma field_cons `{GoValue A} strict m ms name old :
  field strict (m :: ms) name old =
  match (if same_field name m.1 then go_into strict old m.2 else Some old) with
  | Some a => field strict ms name a
  | None => None
  end.
Proof.
  unfold field. simpl. destruct (same_field name m.1); [|done].
  destruct (go_into strict old m.2); [done|]. induction ms as [|m' ms IH]; [done|]. exact IH.
Qed.

Lemma field_absent `{GoValue A} strict ms name old :
  (forall m, m ∈ ms -> same_field name m.1 = false) -> field strict ms name old = Some old.
Proof.
  induction ms as [|m ms IH]; intros Hms; [done|]. rewrite field_cons.
  rewrite (Hms m) by apply list_elem_of_here. apply IH. intros m' Hm'. apply Hms.
  by apply list_elem_of_further.
Qed.

(** A field whose name no other key folds to has the value of its member. *)
Lemma field_exact `{GoValue A} strict ms name old j :
  NoDup (fst <$> ms) -> (name, j) ∈ ms -> same_field name name = true ->
  (forall m, m ∈ ms -> same_field name m.1 = true -> m.1 = name) ->
  field strict ms name old = go_into strict old j.
Proof.
  intros Hnd Hin Hself Hsame. induction ms as [|m ms IH]; [by apply elem_of_nil in Hin|].
  rewrite fmap_cons in Hnd. apply NoDup_cons in Hnd as [Hni Hnd]. rewrite field_cons.
  apply elem_of_cons in Hin as [<-|Hin].
  - cbn [fst snd] in *. rewrite Hself. destruct (go_into strict old j) as [a|]; [|done].
    apply field_absent. intros m Hm. apply not_true_iff_false. intros Hm'. apply Hni.
    rewrite <- (Hsame m) by (try apply list_elem_of_further; done).
    by apply list_elem_of_fmap_2.
  - destruct (same_field name m.1) eqn:Hm.
    + exfalso. apply Hni. rewrite (Hsame m) by (try apply list_elem_of_here; done).
      by apply (list_elem_of_fmap_2 fst ms (name, j)).
    + apply IH; [done..|]. intros m' Hm' Hs. apply Hsame; [by apply list_elem_of_further|done].
Qed.

(** The string a document's exact key has is the field the struct gets. *)
Lemma string_field_exact strict ms name s :
  NoDup (fst <$> ms) -> (list_to_map ms : document) !! name = Some (JStr s) ->
  same_field name name = true ->
  (forall m, m ∈ ms -> same_field name m.1 = true -> m.1 = name) ->
  field strict ms name "" = Some s.
Proof.
  intros Hnd Hl Hself Hsame. apply document_lookup in Hl; [|done].
  by rewrite (field_exact strict ms name "" (JStr s)).
Qed.

(* ------------------------------------------------------------------ *)
(** ** Soundness                                                       *)
(* ------------------------------------------------------------------ *)

(** C5: a payload the validator accepts is one JSON object of the selected
    contract: no key is repeated at any depth, no value anywhere is null or a
    string with credential material, no key anywhere names a secret, the schema
    version and the command are those of the tuple, and the bytes handed on are
    exactly the bytes that were checked. *)
Theorem validated_payload_sound `{GoLib} selected raw vp :
  ValidatePayload selected raw = Ok vp ->
  exists ms,
    parse_document raw = Some (JObj ms) /\ unique_keys (JObj ms) /\ clean (JObj ms)
    /\ ("schemaVersion", JStr (pt_SchemaVersion selected)) ∈ ms
    /\ ("command", JStr (pt_Command selected)) ∈ ms
    /\ vp_Document vp = raw /\ vp_Tuple vp = selected /\ vp_Command vp = pt_Command selected.
Proof.
  intros Hv. apply validate_payload_ok in Hv
    as (sp & ms & Hsp & Hpd & _ & Hu & Hnd & Hclean & Hs & Hc & Ht & Hd & Hcmd & _).
  exists ms. apply registry_lookup_in in Hsp as [Hin <-].
  destruct (registry_versions sp Hin) as [-> Hne].
  apply document_lookup in Hs; [|done]. split_and!; try done.
  - by apply document_lookup.
  - rewrite Hcmd. unfold observedCommand, string_member. rewrite Hc. simpl. by destruct (_ && _).
Qed.

(** C11: a success document has every required key of its contract and no key
    outside the required and the optional ones; an operation error is never
    taken for a success. *)
Theorem success_payload_keys `{GoLib} selected raw vp :
  ValidatePayload selected raw = Ok vp -> vp_OperationError vp = None ->
  exists sp ms,
    registry_lookup selected = Some sp /\ parse_document raw = Some (JObj ms)
    /\ (forall k, k ∈ ps_RequiredKeys sp -> k ∈ fst <$> ms)
    /\ (forall k, k ∈ fst <$> ms -> k ∈ ps_RequiredKeys sp \/ k ∈ ps_OptionalKeys sp)
    /\ (forall k, k ∈ ["exit"; "code"; "origin"; "componentCode"; "retryable"] ->
          k ∉ fst <$> ms).
Proof.
  intros Hv Hno. apply validate_payload_ok in Hv
    as (sp & ms & Hsp & Hpd & _ & _ & Hnd & _ & _ & _ & _ & _ & _ & [Hop|Hok]).
  { destruct Hop as (_ & e & _ & He & _). congruence. }
  destruct Hok as (Hop & Hk & _). apply keys_allowed in Hk as [Hr Ho].
  assert (Hdom : forall k, k ∈ fst <$> ms <-> is_Some ((list_to_map ms : document) !! k)).
  { intros k. split.
    - intros (m & -> & Hm)%list_elem_of_fmap. exists m.2. apply document_lookup; [done|].
      by rewrite <- surjective_pairing.
    - intros [v Hv]. apply document_lookup in Hv; [|done].
      by apply (list_elem_of_fmap_2 fst ms (k, v)). }
  exists sp, ms. split_and!; try done.
  - intros k Hk. by apply Hdom, Hr.
  - intros k Hk. by apply Ho, Hdom.
  - intros k Hk Hin. apply Hdom, has_key_true in Hin.
    apply orb_false_iff in Hop as [Hop _]. cbn [existsb] in Hop. rewrite !orb_false_iff in Hop.
    rewrite !elem_of_cons, elem_of_nil in Hk. destruct_and?.
    destruct_or?; subst; congruence.
Qed.

Lemma expected_operation_error_row x result code retryable :
  expected_operation_error x = Some (result, code, retryable) ->
  (2 <= x <= 8)%Z /\ code = Label x /\ result = (if (x =? 8)%Z then "PARTIAL" else "ERROR")
  /\ (retryable = true <-> x = 5%Z).
Proof.
  unfold expected_operation_error. intros H.
  repeat (case_match; [go_norm; split_and!; (done || lia || reflexivity)|]).
  done.
Qed.

Lemma operation_error_ok `{GoLib} e :
  check_operation_error e = Ok tt ->
  (2 <= oe_Exit e <= 8)%Z /\ oe_Code e = Label (oe_Exit e)
  /\ oe_Result e = (if (oe_Exit e =? 8)%Z then "PARTIAL" else "ERROR")
  /\ (oe_Retryable e = true <-> oe_Exit e = 5%Z) /\ oe_Origin e = "backend"
  /\ (oe_Message e <> "" -> (slen (oe_Message e) <= 512)%Z /\ containsControl (oe_Message e) = false)
  /\ (oe_Exit e = 8%Z -> oe_OperationID e <> "" /\ oe_RecoveryGuidance e <> "").
Proof.
  unfold check_operation_error. rewrite !reject_ok. intros (Ht & Ho & He).
  apply bind_ok in He as ([] & Hm & He). apply bind_ok in He as ([] & _ & He).
  apply reject_tt in He. rewrite for_each_range, !Forall_cons in Hm. destruct Hm as [Hm _].
  simpl in Hm. apply reject_tt in Hm.
  assert (Hmsg : oe_Message e <> "" ->
            (slen (oe_Message e) <= 512)%Z /\ containsControl (oe_Message e) = false).
  { intros Hne. apply is_empty_false in Hne. rewrite Hne in Hm. simpl in Hm.
    apply orb_false_iff in Hm as [Hl Hc]. split; [lia|done]. }
  assert (Hp : oe_Exit e = 8%Z -> oe_OperationID e <> "" /\ oe_RecoveryGuidance e <> "").
  { intros H8. rewrite H8 in He. simpl in He. by rewrite orb_false_iff, !is_empty_false in He. }
  apply orb_false_iff in Ho as [Ho _]. apply orb_false_iff in Ho as [Ho _].
  apply negb_false_iff, streq_true in Ho.
  destruct (expected_operation_error (oe_Exit e)) as [[[result code] retryable]|] eqn:Hx; [|done].
  apply orb_false_iff in Ht as [Ht Hr]. apply orb_false_iff in Ht as [Ht Hc].
  apply negb_false_iff, streq_true in Ht. apply negb_false_iff, streq_true in Hc.
  apply negb_false_iff, eqb_prop in Hr.
  apply expected_operation_error_row in Hx as (Hx & -> & -> & Hret).
  rewrite Hr. split_and!; (lia || done || naive_solver).
Qed.

(** C10: an operation error the validator lets through is one row of the public
    taxonomy: its exit is between 2 and 8, its code is the label of that exit,
    only 5 advises a retry, 8 is the only partial result and always names the
    operation and how to recover, and its message is short and printable. *)
Theorem operation_error_contract `{GoLib} selected raw vp e :
  ValidatePayload selected raw = Ok vp -> vp_OperationError vp = Some e ->
  vp_OperationID vp = oe_OperationID e
  /\ (2 <= oe_Exit e <= 8)%Z /\ oe_Code e = Label (oe_Exit e)
  /\ oe_Result e = (if (oe_Exit e =? 8)%Z then "PARTIAL" else "ERROR")
  /\ (oe_Retryable e = true <-> oe_Exit e = 5%Z) /\ oe_Origin e = "backend"
  /\ (oe_Message e <> "" -> (slen (oe_Message e) <= 512)%Z /\ containsControl (oe_Message e) = false)
  /\ (oe_Exit e = 8%Z -> oe_OperationID e <> "" /\ oe_RecoveryGuidance e <> "").
Proof.
  intros Hv He. apply validate_payload_ok in Hv
    as (sp & ms & _ & _ & _ & _ & _ & _ & _ & _ & _ & _ & _ & [Hop|Hok]).
  - destruct Hop as (_ & e' & He' & Heq & Hid). rewrite He in Heq. injection Heq as <-.
    split; [done|]. apply operation_error_ok. unfold validateOperationErrorPayload in He'.
    apply bind_ok in He' as ([] & _ & He'). apply bind_ok in He' as (e' & _ & He').
    apply bind_ok in He' as ([] & Hc & [= ->]). done.
  - destruct Hok as (_ & _ & _ & Hno & _). congruence.
Qed.

(* ------------------------------------------------------------------ *)
(** ** Lifecycle plans                                                 *)
(* ------------------------------------------------------------------ *)

Definition plan_commands : list string :=
  ["restore plan"; "update plan"; "rollback plan"; "factory-reset plan"].

Lemma plan_spec `{GoLib} command :
  command ∈ plan_commands -> registry_lookup (tuple command) = Some (lifecyclePlanSpec command).
Proof.
  unfold plan_commands. rewrite !elem_of_cons, elem_of_nil. by intros [->|[->|[->|[->|[]]]]].
Qed.

(** No key of a plan but [command] folds to the field of that name. *)
Lemma plan_command_key `{GoLib} command k :
  k ∈ ps_RequiredKeys (lifecyclePlanSpec command) -> same_field "command" k = true ->
  k = "command".
Proof.
  unfold lifecyclePlanSpec. cbn [spec ps_RequiredKeys].
  destruct (streq command "factory-reset plan"); rewrite !elem_of_app, !elem_of_cons, elem_of_nil;
    intros Hk Hs; destruct_or?; subst; try done; vm_compute in Hs; done.
Qed.

Lemma plan_decodes_command strict ms doc command :
  NoDup (fst <$> ms) -> (list_to_map ms : document) !! "command" = Some (JStr command) ->
  (forall m, m ∈ ms -> same_field "command" m.1 = true -> m.1 = "command") ->
  go_into (A := lifecyclePlanPayload) strict go_zero (JObj ms) = Some doc ->
  pl_Command doc = command.
Proof.
  intros Hnd Hl Hsame. cbn [go_into lifecycle_plan_value decode_struct].
  destruct (strict && _); [done|]. intros Hdoc.
  apply bind_Some in Hdoc as (sv & _ & Hdoc). apply bind_Some in Hdoc as (cm & Hcm & Hdoc).
  change (pl_Command go_zero) with "" in Hcm.
  rewrite (string_field_exact strict ms "command" command) in Hcm by done. injection Hcm as <-.
  repeat (apply bind_Some in Hdoc as (? & _ & Hdoc)). by injection Hdoc as <-.
Qed.

Lemma decode_exact_value {A} `{GoLib, GoValue A} raw j (a : A) :
  parse [] (tokens raw) = Some (j, []) -> decodePayload raw = Ok a ->
  go_into true go_zero j = Some a.
Proof.
  unfold decodePayload, decodeExactOne. intros ->. destruct j; try done;
    destruct (go_into true go_zero _); congruence.
Qed.

Lemma plan_checks_ok `{GoLib} doc :
  check_lifecycle_plan doc = Ok tt ->
  full_match digestShape (pl_PlanHash doc) = true /\ pl_Compatible doc = true
  /\ (forall c, c ∈ requiredChecks (pl_Command doc) -> c ∈ lc_Code <$> pl_Checks doc)
  /\ Forall (fun c => lc_Result c = "PASS" \/ lc_Result c = "WARN") (pl_Checks doc)
  /\ (pl_Command doc = "factory-reset plan" -> forall i, i ∈ preserved_items -> i ∈ pl_Preserve doc).
Proof.
  unfold check_lifecycle_plan. rewrite !reject_ok. intros (H1 & Hc).
  apply bind_ok in Hc as ([] & _ & Hc). rewrite !reject_ok in Hc. destruct Hc as (_ & _ & Hc).
  apply bind_ok in Hc as ([] & _ & Hc). rewrite reject_ok in Hc. destruct Hc as (Hchk & Hc).
  apply bind_ok in Hc as ([] & Hreq & Hreset).
  apply orb_false_iff in H1 as [H1 Hcompat]. apply orb_false_iff in H1 as [_ Hhash].
  apply negb_false_iff in Hcompat, Hhash. split_and!; try done.
  - intros c Hc. rewrite for_each_ok, Forall_forall in Hreq. specialize (Hreq c Hc).
    apply reject_tt, negb_false_iff, str_in_true in Hreq. done.
  - apply existsb_false in Hchk. eapply Forall_impl; [exact Hchk|]. intros c Hc.
    apply orb_false_iff in Hc as [_ Hc]. apply negb_false_iff, str_in_true in Hc. set_solver.
  - intros Hcmd i Hi. rewrite Hcmd in Hreset. simpl in Hreset. unfold check_factory_reset in Hreset.
    apply bind_ok in Hreset as ([] & _ & Hreset). apply bind_ok in Hreset as ([] & _ & Hreset).
    apply reject_ok in Hreset as [_ Hreset]. rewrite for_each_ok, Forall_forall in Hreset.
    specialize (Hreset i Hi). by apply reject_tt, negb_false_iff, str_in_true in Hreset.
Qed.

(** A lifecycle plan is shown as a success only if it is for the command that
    was asked for, is hashed and compatible, and carries every check that
    command requires, each passed or warned; a factory reset keeps SSH access,
    the network configuration and the NCP agent. *)
Theorem lifecycle_plan_complete `{GoLib} command raw vp :
  command ∈ plan_commands ->
  ValidatePayload (tuple command) raw = Ok vp -> vp_OperationError vp = None ->
  exists plan,
    decodePayload raw = Ok plan /\ pl_Command plan = command
    /\ full_match digestShape (pl_PlanHash plan) = true /\ pl_Compatible plan = true
    /\ (forall c, c ∈ requiredChecks command -> c ∈ lc_Code <$> pl_Checks plan)
    /\ Forall (fun c => lc_Result c = "PASS" \/ lc_Result c = "WARN") (pl_Checks plan)
    /\ (command = "factory-reset plan" -> forall i, i ∈ preserved_items -> i ∈ pl_Preserve plan).
Proof.
  intros Hcmd Hv Hno. apply validate_payload_ok in Hv
    as (sp & ms & Hsp & _ & Hp & _ & Hnd & _ & _ & Hc & _ & _ & _ & [Hop|Hok]).
  { destruct Hop as (_ & e & _ & He & _). congruence. }
  rewrite plan_spec in Hsp by done. injection Hsp as <-.
  destruct Hok as (_ & Hk & Hval & _). apply keys_allowed in Hk as [_ Ho].
  cbn [ps_Validate lifecyclePlanSpec spec] in Hval. unfold validateLifecyclePlanPayload in Hval.
  apply bind_ok in Hval as (plan & Hdec & Hchk). exists plan.
  assert (Hpc : pl_Command plan = command).
  { apply (plan_decodes_command true ms plan command Hnd Hc).
    - intros m Hm. apply (plan_command_key command).
      destruct (Ho m.1) as [Hreq|Hopt]; [|done|by apply elem_of_nil in Hopt].
      exists m.2. apply document_lookup; [done|]. by rewrite <- surjective_pairing.
    - by apply (decode_exact_value raw). }
  apply plan_checks_ok in Hchk as (Hh & Hco & Hr & Hre & Hf). rewrite Hpc in *. by split_and!.
Qed.

(** The registry has a payload contract for exactly the commands of the
    approved matrix with JSON output, in the order of the matrix, each under
    this major and schema version. *)
Theorem registry_covers_json_commands `{GoLib} :
  ps_Tuple <$> payloadRegistry
  = (fun cmd => tuple (cc_Name cmd)) <$>
      List.filter (fun cmd => str_in "json-output" (cc_Capabilities cmd)) contractCommands.
Proof. reflexivity. Qed.

(* ------------------------------------------------------------------ *)
(** ** Independence from what Go leaves open                           *)
(* ------------------------------------------------------------------ *)

(** Two results that agree up to their errors. *)
Definition same {E A} (r s : result E A) : Prop := ok_of r = ok_of s.

Lemma same_refl {E A} (r : result E A) : same r r.
Proof. done. Qed.

Lemma same_bind {E A B} (r s : result E A) (f g : A -> result E B) :
  same r s -> (forall a, same (f a) (g a)) -> same (r ≫= f) (s ≫= g).
Proof. destruct r, s; simpl; intros [=] Hf; subst; done || apply Hf. Qed.

Lemma same_reject {E A} (b : bool) (e e' : E) (r s : result E A) :
  same r s -> same (if b then Err e else r) (if b then Err e' else s).
Proof. by destruct b. Qed.

Lemma same_unit {E} (r s : result E unit) : (r = Ok tt <-> s = Ok tt) -> same r s.
Proof. unfold same. destruct r as [[]|], s as [[]|]; simpl; naive_solver. Qed.

Lemma same_ok {E} (r s : result E unit) : same r s -> (r = Ok tt <-> s = Ok tt).
Proof. unfold same. destruct r as [[]|], s as [[]|]; simpl; naive_solver. Qed.

Lemma same_for_each {E A} (f g : A -> result E unit) l :
  (forall x, x ∈ l -> same (f x) (g x)) -> same (for_each f l) (for_each g l).
Proof.
  intros Hfg. apply same_unit. rewrite !for_each_ok, !Forall_forall.
  split; intros H x Hx; apply (same_ok (f x) (g x)); auto.
Qed.

Lemma same_reject_payload {A} selected command (r s : result string A) :
  same r s -> same (reject_payload selected command r) (reject_payload selected command s).
Proof. by destruct r, s. Qed.

Lemma same_err {E A} (e e' : E) : same (A := A) (Err e) (Err e').
Proof. done. Qed.

Create HintDb same discriminated.
#[local] Hint Resolve same_refl same_err same_bind same_reject same_for_each same_reject_payload
  : same.

(** Walks through two copies of a check that differ in the error texts. *)
Ltac same_step :=
  match goal with
  | |- same ?r ?r => apply same_refl
  | |- same (Err _) (Err _) => apply same_err
  | |- same (mbind _ _) (mbind _ _) => apply same_bind; [|intros ?]
  | |- same (if ?b then Err _ else _) (if ?b then Err _ else _) => apply same_reject
  | |- same (for_each _ _) (for_each _ _) => apply same_for_each; intros ? _
  | |- same (match ?x with _ => _ end) (match ?x with _ => _ end) => destruct x
  end.

Section Independence.
Context (L L' : GoLib) (Hip : forall s, @ip_literal L s = @ip_literal L' s).

Lemma same_decode {A} `{GoValue A} raw :
  same (decodePayload (H := L) (A := A) raw) (decodePayload (H := L') raw).
Proof.
  unfold decodePayload, decodeExactOne. destruct (parse [] (tokens raw)) as [[j rest]|]; [|done].
  destruct j; try done; (destruct (go_into true go_zero _); [|done]);
    (destruct rest; [done|]); destruct (parse [] _) as [[j' ?]|]; try done;
    by destruct (floats_ok j').
Qed.

Lemma same_timestamp value field :
  same (utcTimestamp (H := L) value field) (utcTimestamp (H := L') value field).
Proof. unfold utcTimestamp. repeat same_step. Qed.

Lemma same_uri value field :
  same (httpsURI (H := L) value field) (httpsURI (H := L') value field).
Proof.
  assert (Hu : url_scheme_host (@ip_literal L) value = url_scheme_host (@ip_literal L') value).
  { unfold url_scheme_host. destruct (cut _ value) as [u frag].
    destruct (_ || _); [done|]. destruct (streq u "*"); [done|].
    destruct (get_scheme u) as [[scheme rest]|]; [|done]. cbn [mbind option_bind].
    destruct (cut _ rest) as [rest' ?]. do 2 (destruct (negb _ && _); [done|]).
    destruct (has_prefix rest' "//" && _); [|done]. destruct (cut _ (drop_str 2 rest')) as [authority path].
    destruct (split_last _ authority) as [[u' h]|]; by rewrite Hip. }
  unfold httpsURI. rewrite Hu. apply same_refl.
Qed.

Lemma same_keys (doc : document) required optional :
  same (validateRequiredAndAllowedKeySet (H := L) doc required optional)
       (validateRequiredAndAllowedKeySet (H := L') doc required optional).
Proof. apply same_unit. by rewrite !keys_allowed. Qed.

Lemma same_inspect j :
  same (inspectPayloadValue (H := L) j) (inspectPayloadValue (H := L') j).
Proof.
  induction j as [|b|n|s|l IH|ms IH] using json_ind; simpl; try repeat same_step.
  - rewrite Forall_forall in IH. apply same_unit. rewrite !for_each_ok, !Forall_fmap, !Forall_forall.
    split; intros Hl x Hx; apply (same_ok _ _ (IH x Hx)); exact (Hl x Hx).
  - rewrite Forall_forall in IH. apply same_unit.
    rewrite !for_each_range, !Forall_fmap, !Forall_forall.
    split; intros Hms m Hm; specialize (IH m Hm); specialize (Hms m Hm); simpl in *;
      (destruct (isProhibitedPayloadKey m.1); [done|]); by apply (same_ok _ _ IH).
Qed.

Lemma same_walk raw :
  same (rejectDuplicateJSONKeys (H := L) raw) (rejectDuplicateJSONKeys (H := L') raw).
Proof.
  assert (Hw : forall f,
    (forall d, option_map ok_of (walk (H := L) f raw d) = option_map ok_of (walk (H := L') f raw d))
    /\ (forall seen d, option_map ok_of (walk_members (H := L) f raw seen d)
                       = option_map ok_of (walk_members (H := L') f raw seen d))
    /\ (forall d, option_map ok_of (walk_elements (H := L) f raw d)
                  = option_map ok_of (walk_elements (H := L') f raw d))).
  { induction f as [|f (IH1 & IH2 & IH3)]; [done|]. split_and!; intros; simpl.
    - destruct (next_token d) as [[[] ?]|]; done || apply IH2 || apply IH3.
    - destruct (more d); [|by destruct (next_token d) as [[? ?]|]].
      destruct (next_token d) as [[[| | |k|] d1]|]; try done. case_bool_decide; [done|].
      specialize (IH1 d1). destruct (walk (H := L) f raw d1) as [[]|], (walk (H := L') f raw d1) as [[]|];
        by simplify_eq/=.
    - destruct (more d); [|by destruct (next_token d) as [[? ?]|]].
      specialize (IH1 d). destruct (walk (H := L) f raw d) as [[]|], (walk (H := L') f raw d) as [[]|];
        by simplify_eq/=. }
  unfold rejectDuplicateJSONKeys. specialize (Hw (walk_fuel (tokens raw))) as (Hw & _).
  specialize (Hw (Dec (tokens raw) TopValue [])).
  destruct (walk (H := L) _ _ _) as [[d|]|], (walk (H := L') _ _ _) as [[d'|]|]; simplify_eq/=; try done.
  destruct (d_toks d'); [done|]. by destruct (next_token d').
Qed.

Lemma same_operation_error doc :
  same (check_operation_error (H := L) doc) (check_operation_error (H := L') doc).
Proof.
  unfold check_operation_error. repeat same_step; apply same_unit; by rewrite !for_each_range.
Qed.

Ltac same_check :=
  intros; repeat (same_step || apply same_timestamp || apply same_uri || apply same_decode).

(** The validators of the registry, one by one. *)
Lemma same_validators :
  Forall2 (fun sp sp' => ps_Tuple sp = ps_Tuple sp'
      /\ ps_RequiredKeys sp = ps_RequiredKeys sp' /\ ps_OptionalKeys sp = ps_OptionalKeys sp'
      /\ forall raw, same (ps_Validate sp raw) (ps_Validate sp' raw))
    (payloadRegistry (H := L)) (payloadRegistry (H := L')).
Proof.
  assert (Hplan : forall raw, same (validateLifecyclePlanPayload (H := L) raw)
                                   (validateLifecyclePlanPayload (H := L') raw)).
  { unfold validateLifecyclePlanPayload, check_lifecycle_plan. same_check. }
  assert (Hexec : forall raw, same (validateLifecycleExecutePayload (H := L) raw)
                                   (validateLifecycleExecutePayload (H := L') raw)).
  { unfold validateLifecycleExecutePayload, check_lifecycle_execute. same_check. }
  assert (Hstatus : forall raw, same (validateLifecycleStatusPayload (H := L) raw)
                                     (validateLifecycleStatusPayload (H := L') raw)).
  { unfold validateLifecycleStatusPayload, check_lifecycle_status. same_check. }
  unfold payloadRegistry.
  repeat (apply Forall2_cons; split;
          [split_and!; [reflexivity..|]; first [exact Hplan | exact Hexec | exact Hstatus | idtac] |]);
    [..|constructor]; cbn [spec ps_Validate].
  - unfold validateStatusPayload, check_status, check_plane. same_check.
  - unfold validateNetworkPayload, check_network. same_check.
  - unfold validatePublicAddressPayload. same_check.
  - unfold validateGatewayRegistrationPayload, check_gateway_registration. same_check.
  - unfold validateDiagnosticsPayload, check_diagnostics. same_check.
  - unfold validateLogsPayload, check_logs, check_log_entry. same_check.
  - unfold validateBackupKeyPayload. same_check.
  - unfold validateBackupCreatePayload. same_check.
  - unfold validateBackupVerifyPayload, check_backup_verify. same_check.
Qed.
End Independence.

Lemma find_forall2 {A B} (R : A -> B -> Prop) (f : A -> bool) (g : B -> bool) l k :
  Forall2 R l k -> (forall x y, R x y -> f x = g y) ->
  match find f l, find g k with
  | Some x, Some y => R x y
  | None, None => True
  | _, _ => False
  end.
Proof.
  intros HR Hfg. induction HR as [|x y l k Hxy _ IH]; simpl; [done|].
  rewrite (Hfg x y Hxy). by destruct (g y).
Qed.

Lemma same_registry (L L' : GoLib) selected :
  (forall s, @ip_literal L s = @ip_literal L' s) ->
  match registry_lookup (H := L) selected, registry_lookup (H := L') selected with
  | Some sp, Some sp' =>
      ps_RequiredKeys sp = ps_RequiredKeys sp' /\ ps_OptionalKeys sp = ps_OptionalKeys sp'
      /\ forall raw, same (ps_Validate sp raw) (ps_Validate sp' raw)
  | None, None => True
  | _, _ => False
  end.
Proof.
  intros Hip. unfold registry_lookup.
  pose proof (same_validators L L' Hip) as HR.
  generalize dependent (payloadRegistry (H := L')). generalize (payloadRegistry (H := L)).
  intros l k HR. pose proof (find_forall2 _ (fun s => bool_decide (ps_Tuple s = selected))
    (fun s => bool_decide (ps_Tuple s = selected)) l k HR) as Hf.
  specialize (Hf (fun x y H => f_equal (fun t => bool_decide (t = selected)) (proj1 H))).
  destruct (find _ l), (find _ k); naive_solver.
Qed.

(** The verdict on a payload, and the payload handed on, do not depend on
    the order in which Go visits maps nor on the wording of library errors: any
    two runs accept the same documents and return the same values. *)
Theorem verdict_independent_of_map_order (L L' : GoLib) selected raw :
  (forall s, @ip_literal L s = @ip_literal L' s) ->
  ok_of (ValidatePayload (H := L) selected raw) = ok_of (ValidatePayload (H := L') selected raw).
Proof.
  intros Hip. change (same (ValidatePayload (H := L) selected raw)
                           (ValidatePayload (H := L') selected raw)).
  unfold ValidatePayload.
  pose proof (same_registry L L' selected Hip) as Hreg.
  destruct (registry_lookup (H := L) selected) as [sp|],
    (registry_lookup (H := L') selected) as [sp'|]; [|done|done|done].
  destruct Hreg as (Hr & Ho & Hv).
  apply same_bind; [apply same_reject_payload, same_walk|]. intros _.
  apply same_bind.
  { apply same_reject_payload. pose proof (same_decode L L' (A := document) raw) as Hd.
    unfold decodePayload in Hd. unfold decode_document.
    by destruct (decodeExactOne raw), (decodeExactOne raw). }
  intros doc. apply same_bind.
  { apply same_reject_payload. unfold decode_generic. by destruct (parse _ _) as [[]|]. }
  intros generic. apply same_bind; [apply same_reject_payload, same_inspect|]. intros _.
  repeat (apply same_bind; [apply same_refl|]; intros _).
  destruct (isOperationErrorDocument doc).
  - apply same_bind; [|intros; apply same_refl]. apply same_reject_payload.
    unfold validateOperationErrorPayload. apply same_bind; [apply same_keys|]. intros _.
    apply same_bind; [apply same_decode|]. intros e.
    apply same_bind; [apply same_operation_error|]. intros; apply same_refl.
  - rewrite Hr, Ho. apply same_bind; [apply same_reject_payload, same_keys|]. intros _.
    apply same_bind; [apply same_reject_payload, Hv|]. intros _. apply same_refl.
Qed.

(* ------------------------------------------------------------------ *)
(** ** Witnesses                                                       *)
(* ------------------------------------------------------------------ *)

Definition json_list (l : list string) : string := "[" +:+ join "," l +:+ "]".

Definition digest_text : string := String.concat "" (replicate 64 "a").

Definition check_text (code : string) : string :=
  json_object [("code", json_text_of code); ("result", json_text_of "PASS")].

Definition reset_plan_text : string :=
  json_object
    [ ("schemaVersion", json_text_of payloadSchema);
      ("command", json_text_of "factory-reset plan");
      ("result", json_text_of "PLANNED");
      ("planHash", json_text_of digest_text);
      ("expiresAt", json_text_of "2026-03-01T00:00:00Z");
      ("compatible", "true");
      ("affectedPlanes", json_list [json_text_of "host"]);
      ("checks", json_list (check_text <$> requiredChecks "factory-reset plan"));
      ("delete", json_list [json_text_of "state"]);
      ("preserve", json_list (json_text_of <$> preserved_items)) ].

Definition partial_text : string :=
  json_object
    [ ("schemaVersion", json_text_of payloadSchema);
      ("command", json_text_of "backup create");
      ("result", json_text_of "PARTIAL"); ("exit", "8"); ("code", json_text_of "PARTIAL");
      ("origin", json_text_of "backend"); ("componentCode", json_text_of "DISK_FULL");
      ("retryable", "false"); ("operationId", json_text_of "op-1");
      ("recoveryGuidance", json_text_of "free space and verify") ].

(** The payload of a text known to validate. *)
Definition validated (command raw : string) : ValidatedPayload :=
  match ValidatePayload (H := plain_text) (tuple command) raw with
  | Ok vp => vp
  | Err _ => {| vp_Tuple := tuple command; vp_Command := ""; vp_Document := "";
                vp_OperationID := ""; vp_OperationError := None |}
  end.

Definition partial_error : BackendOperationError :=
  {| oe_SchemaVersion := payloadSchema; oe_Command := "backup create"; oe_Result := "PARTIAL";
     oe_Exit := 8; oe_Code := "PARTIAL"; oe_Origin := "backend"; oe_ComponentCode := "DISK_FULL";
     oe_Retryable := false; oe_Message := ""; oe_CorrelationID := ""; oe_OperationID := "op-1";
     oe_RecoveryGuidance := "free space and verify" |}.

Lemma validated_payload_sound_witness :
  exists ms, parse_document reset_plan_text = Some (JObj ms) /\ unique_keys (JObj ms).
Proof.
  destruct (validated_payload_sound (H := plain_text) (tuple "factory-reset plan") reset_plan_text
              (validated "factory-reset plan" reset_plan_text)) as (ms & H1 & H2 & _).
  - vm_compute. reflexivity.
  - exists ms. split; assumption.
Defined.

Lemma success_payload_keys_witness :
  exists sp, registry_lookup (H := plain_text) (tuple "factory-reset plan") = Some sp.
Proof.
  destruct (success_payload_keys (H := plain_text) (tuple "factory-reset plan") reset_plan_text
              (validated "factory-reset plan" reset_plan_text)) as (sp & ms & H1 & _).
  - vm_compute. reflexivity.
  - vm_compute. reflexivity.
  - exists sp. exact H1.
Defined.

Lemma operation_error_contract_witness :
  oe_OperationID partial_error <> "" /\ oe_RecoveryGuidance partial_error <> "".
Proof.
  destruct (operation_error_contract (H := plain_text) (tuple "backup create") partial_text
              (validated "backup create" partial_text) partial_error)
    as (_ & _ & _ & _ & _ & _ & _ & H).
  - vm_compute. reflexivity.
  - vm_compute. reflexivity.
  - apply H. reflexivity.
Defined.

Lemma lifecycle_plan_complete_witness :
  exists plan, decodePayload (H := plain_text) reset_plan_text = Ok plan
    /\ "ssh-access" ∈ pl_Preserve plan.
Proof.
  destruct (lifecycle_plan_complete (H := plain_text) "factory-reset plan" reset_plan_text
              (validated "factory-reset plan" reset_plan_text))
    as (plan & H1 & _ & _ & _ & _ & _ & H7).
  - unfold plan_commands. set_solver.
  - vm_compute. reflexivity.
  - vm_compute. reflexivity.
  - exists plan. split; [exact H1|]. apply H7; [reflexivity|]. unfold preserved_items. set_solver.
Defined.

Lemma verdict_independent_of_map_order_witness :
  ok_of (ValidatePayload (H := plain_text) (tuple "backup create") partial_text)
  = ok_of (ValidatePayload (H := reversed_text) (tuple "backup create") partial_text).
Proof.
  apply (verdict_independent_of_map_order plain_text reversed_text). intros s. reflexivity.
Defined.

(** A diagnostics receipt without [secretScan.hits] and with [RESULT] for [result]. *)
Definition diagnostics_text_without_hits : string :=
  json_object
    [ ("schemaVersion", json_text_of payloadSchema);
      ("command", json_text_of "diagnostics create");
      ("result", json_text_of "CREATED"); ("operationId", json_text_of "op-1");
      ("archivePath", json_text_of "/root/support.tar"); ("sha256", json_text_of digest_text);
      ("sizeBytes", "1"); ("mode", json_text_of "0600");
      ("redactionProfile", json_text_of "default"); ("includedFiles", "[]");
      ("secretScan", json_object [("RESULT", json_text_of "PASS")]);
      ("expiresAt", json_text_of "2026-03-01T00:00:00Z") ].

(** The schemas require [live] and [ready] of a plane and [hits] of a secret
    scan; the structs have zero values for them, so documents without them pass. *)
Theorem nested_required_fields_not_enforced :
  is_ok (ValidatePayload (H := plain_text) (tuple "diagnostics create")
           diagnostics_text_without_hits) = true.
Proof. vm_compute. reflexivity. Qed.
