(* ===== verification/Appliance.v ===== *)
(** * The appliance commands: [cmd/appliance]

    The dispatcher of [appliance.go] (the verdict on a backend outcome, the
    envelope) and the [RunE] of every command of [appliance.go] and
    [mutating.go], each a computation over its flags and arguments. *)
From S2P Require Import Prelude GoStrings Regex GoNet Json JsonPrint World Errors Exitcode.
From S2P Require Import Envelope SecretFile Contract DupKeys PayloadDocs Payload.

(* ------------------------------------------------------------------ *)
(** ** The verdict on an outcome                                       *)
(* ------------------------------------------------------------------ *)

(** [firstLine] and [backendFailureMessage]. *)
Definition backendFailureMessage (subcommand : string) (res : Result) : string :=
  let line := before_newline (rs_Stderr res) in
  let head := ["the backend's "; subcommand; " failed (exit "; itoa (rs_ExitCode res); ")"] in
  if is_empty line then sprintf head else sprintf (head ++ [": "; line]).

Definition payloadExecutionError (selected : PayloadTuple) (command reason : string)
    (res : Result) (operationID : string) : goerror :=
  EPayload (WithExecutionEvidence (payloadError selected command reason)
              (rs_ExitCode res) (rs_CorrelationID res) operationID).

(** The pair [(validated, err)]: both are set for a backend failure. *)
Definition resolution : Type := option ValidatedPayload * option goerror.

Definition validateJSONOutcome `{GoLib} (subcommand : string) (res : Result) : resolution :=
  let '(selected, ok) := PayloadTupleForCommand subcommand in
  if negb ok then
    (None, Some (payloadExecutionError
      {| pt_ContractMajor := 0; pt_SchemaVersion := ""; pt_Command := subcommand |} subcommand
      "the command has no registered JSON payload tuple" res ""))
  else
    match ValidatePayload selected (rs_Stdout res) with
    | Err e =>
        (None, Some (EPayload (WithExecutionEvidence e (rs_ExitCode res) (rs_CorrelationID res) "")))
    | Ok validated =>
        let refuse reason :=
          (None, Some (payloadExecutionError (vp_Tuple validated) (vp_Command validated) reason res
                         (vp_OperationID validated))) in
        match vp_OperationError validated with
        | Some opErr =>
            if (rs_ExitCode res =? 0)%Z then
              refuse "an operation-error document accompanied process exit 0"
            else if negb (oe_Exit opErr =? rs_ExitCode res)%Z then
              refuse (sprintf ["document exit "; itoa (oe_Exit opErr);
                               " differs from process exit "; itoa (rs_ExitCode res)])
            else if negb (is_empty (oe_CorrelationID opErr))
                    && negb (streq (oe_CorrelationID opErr) (rs_CorrelationID res)) then
              refuse "document correlationId differs from the invocation correlationId"
            else
              let message := if is_empty (oe_Message opErr)
                             then backendFailureMessage subcommand res else oe_Message opErr in
              (Some validated,
               Some (ECLI (cli_error (oe_Exit opErr) message (oe_Origin opErr)
                             (oe_ComponentCode opErr))))
        | None =>
            if (rs_ExitCode res =? 0)%Z then (Some validated, None)
            else refuse (sprintf ["a success document accompanied process exit ";
                                  itoa (rs_ExitCode res)])
        end
    end.

Definition in_taxonomy_range (exit : Z) : bool := in_range 2 8 exit.

Definition backendOutcome (subcommand : string) (res : Result) (mut : bool) : option goerror :=
  if (rs_ExitCode res =? 0)%Z && negb (rs_Signaled res) then None
  else if negb (rs_Signaled res) then
    let code := if in_taxonomy_range (rs_ExitCode res) then rs_ExitCode res else Failed in
    Some (ECLI (cli_error code (backendFailureMessage subcommand res) "backend"
                  (sprintf ["backend-exit-"; itoa (rs_ExitCode res)])))
  else
    let '(cause, code) :=
      if rs_TimedOut res
      then ("did not finish within the timeout and was stopped", "backend-timeout")
      else ("was killed before it reported an outcome", "backend-killed") in
    if negb mut then
      Some (ECLI (cli_error Unavailable
        (sprintf ["the backend's "; subcommand; " "; cause;
                  "; it read nothing and changed nothing, so this is safe to retry"])
        "backend" code))
    else
      Some (ECLI (cli_error Partial
        (sprintf ["the backend's "; subcommand; " "; cause;
                  ", so whether it took effect is UNKNOWN; do not retry blindly — ";
                  "determine the host's actual state first, using operation id ";
                  OperationID res])
        "backend" code)).

Definition resolveBackendOutcome `{GoLib} (subcommand : string) (res : Result)
    (mut jsonOut : bool) : resolution :=
  if jsonOut && negb (rs_Signaled res)
     && ((rs_ExitCode res =? 0)%Z || in_taxonomy_range (rs_ExitCode res))
  then validateJSONOutcome subcommand res
  else (None, backendOutcome subcommand res mut).

(* ------------------------------------------------------------------ *)
(** ** The envelope                                                    *)
(* ------------------------------------------------------------------ *)

Record applianceData : Type := {
  ad_Backend : string;
  ad_Origin : option string;
  ad_HTTPStatus : option Z;
  ad_ComponentCode : option string;
  ad_OperationID : option string
}.

Definition opt_member {A} (key : string) (f : A -> gojson) (o : option A) : list (string * gojson) :=
  match o with Some a => [(key, f a)] | None => [] end.

Definition appliance_data_json (d : applianceData) : gojson :=
  GObj ((if is_empty (ad_Backend d) then [] else [("backend", GRaw (ad_Backend d))])
        ++ opt_member "origin" GStr (ad_Origin d)
        ++ opt_member "httpStatus" GInt (ad_HTTPStatus d)
        ++ opt_member "componentCode" GStr (ad_ComponentCode d)
        ++ opt_member "operationId" GStr (ad_OperationID d)).

Definition appliance_data (res : option Result) (validated : option ValidatedPayload)
    (err : option goerror) : applianceData :=
  let backend := match validated with Some v => vp_Document v | None => "" end in
  match err with
  | None => {| ad_Backend := backend; ad_Origin := None; ad_HTTPStatus := None;
               ad_ComponentCode := None; ad_OperationID := None |}
  | Some err =>
      let ce := Classify err in
      {| ad_Backend := backend;
         ad_Origin := Some (if is_empty (ce_Origin ce) then "cli" else ce_Origin ce);
         ad_HTTPStatus := Some (ce_HTTPStatus ce);
         ad_ComponentCode := Some (ce_ComponentCode ce);
         ad_OperationID :=
           match res with
           | Some res =>
               if (ce_Code ce =? Partial)%Z then
                 Some (match validated with
                       | Some v => if is_empty (vp_OperationID v) then rs_CorrelationID res
                                   else vp_OperationID v
                       | None => rs_CorrelationID res
                       end)
               else None
           | None => None
           end |}
  end.

(** The document [writeEnvelope] writes. *)
Definition envelope_of (command : string) (res : option Result)
    (validated : option ValidatedPayload) (err : option goerror) : CommandResult :=
  let result := New command in
  let result := match res with
                | Some res => with_correlation result (rs_CorrelationID res)
                | None => result
                end in
  let result := match err with
                | Some err => let ce := Classify err in
                              Fail_ result (Label (ce_Code ce)) (ce_Message ce)
                | None => result
                end in
  with_data result (appliance_data_json (appliance_data res validated err)).

Definition writeEnvelope (command : string) (res : option Result)
    (validated : option ValidatedPayload) (err : option goerror) : IO unit :=
  _ ← Write (envelope_of command res validated err); mret tt.

(* ------------------------------------------------------------------ *)
(** ** Dispatch                                                        *)
(* ------------------------------------------------------------------ *)

Definition write_error (e : option string) : option goerror := EText <$> e.

(** The part [dispatchReadOnlyRequest] and [dispatchMutating] share: the verdict
    on the outcome, the envelope, the streams. *)
Definition finish `{GoLib} (command : string) (req : Request) (mut : bool) (out : outcome)
    : IO (option goerror) :=
  let '(res, err) := out in
  let '(validated, err) :=
    match err, res with
    | None, Some r => resolveBackendOutcome (rq_Subcommand req) r mut (rq_JSON req)
    | _, _ => (None, err)
    end in
  match err with
  | Some err =>
      _ ← (if rq_JSON req then writeEnvelope command res validated (Some err) else mret tt);
      mret (Some err)
  | None =>
      e ← write_err (match res with Some r => rs_Stderr r | None => "" end);
      match e with
      | Some text => mret (Some (EText text))
      | None =>
          if negb (rq_JSON req) then
            e ← write_out (match res with Some r => rs_Stdout r | None => "" end);
            mret (write_error e)
          else _ ← writeEnvelope command res validated None; mret None
      end
  end.

Definition with_json (req : Request) (json : bool) : Request :=
  {| rq_Subcommand := rq_Subcommand req; rq_Args := rq_Args req; rq_JSON := json;
     rq_Secret := rq_Secret req |}.

Definition dispatchReadOnlyRequest `{GoLib} (printOption command : string) (req : Request)
    : IO (option goerror) :=
  let req := with_json req (streq printOption "json") in
  out ← InvokeReadOnly req; finish command req false out.

Definition dispatchReadOnly `{GoLib} (printOption command subcommand : string)
    : IO (option goerror) :=
  dispatchReadOnlyRequest printOption command
    {| rq_Subcommand := subcommand; rq_Args := []; rq_JSON := false; rq_Secret := None |}.

Definition dispatchMutating `{GoLib} (printOption command : string) (req : Request)
    : IO (option goerror) :=
  let req := with_json req (streq printOption "json") in
  out ← InvokeMutating req; finish command req true out.

(* ------------------------------------------------------------------ *)
(** ** The commands                                                    *)
(* ------------------------------------------------------------------ *)

Definition logComponents : list string :=
  ["gateway"; "oam"; "ui"; "caddy"; "postgres"; "state"; "dataplane"; "management"].

Definition usernameShape : rx :=
  RCat (RSet is_alnum) (RStar (RSet (fun c => is_alnum c || one_of_chars "._@-" c))).

Definition maxLogSince : Z := (7 * 24 * 3600 * 1000000000)%Z.
Definition maxLogLines : Z := 10000.

(** [diagnosticsOutputValue.Set]: the format and the path after one flag. *)
Definition diagnostics_output_set (fp : string * string) (value : string) : string * string :=
  if str_in value ["json"; "wide"; "table"] then (value, fp.2) else (fp.1, value).

(** Both standard streams are character devices. *)
Definition is_char_device (info : result os_error file_info) : bool :=
  match info with
  | Ok info => negb (Z.land (fi_mode info) ModeCharDevice =? 0)%Z
  | Err _ => false
  end.

Definition stdioIsTerminal : IO bool :=
  stdin ← std_stat 0;
  if negb (is_char_device stdin) then mret false
  else stdout ← std_stat 1; mret (is_char_device stdout).

Definition mutating_request (subcommand : string) (args : list string) (secret : option string)
    : Request :=
  {| rq_Subcommand := subcommand; rq_Args := args; rq_JSON := false; rq_Secret := secret |}.

Definition refuse (e : CLIError) : IO (option goerror) := mret (Some (ECLI e)).

(** A command that groups others, run with the arguments left over. *)
Definition group_command (path : string) (args : list string) : IO (option goerror) :=
  match args with
  | [] => refuse (Usagef (path +:+ " needs a subcommand"))
  | a :: _ => refuse (Usagef (sprintf ["unknown command "; quote a; " for "; dquote; "loxicmd ";
                                       path; dquote]))
  end.

Section Commands.
Context `{GoLib} (printOption : string).

Definition statusCmd : IO (option goerror) :=
  dispatchReadOnly printOption "appliance.status" "status".

Definition networkValidateCmd : IO (option goerror) :=
  dispatchReadOnly printOption "appliance.network.validate" "network validate".

Definition publicAddressConfigureCmd (noRestart : bool) (addr : string) : IO (option goerror) :=
  let canonical := match parse_ipv4 addr with
                   | Some octets => streq (ipv4_text octets) addr
                   | None => false
                   end in
  if negb canonical
  then refuse (Invalidf (quote addr +:+ " is not a canonical IPv4 address"))
  else
    dispatchMutating printOption "appliance.public-address.configure"
      (mutating_request "public-address configure"
         ([addr] ++ (if noRestart then ["--no-restart"] else [])) None).

Definition registerLocalCmd (username passwordFile : string) : IO (option goerror) :=
  if is_empty username || is_empty passwordFile
  then refuse (Usagef "--username and --password-file are both required")
  else if negb (full_match usernameShape username)
  then refuse (Invalidf (sprintf ["username "; quote username;
                                  " has a shape this CLI refuses to pass on"]))
  else
    secret ← ReadSecretFile "password file" passwordFile;
    match secret with
    | Err e => mret (Some e)
    | Ok secret =>
        dispatchMutating printOption "appliance.gateway.register-local"
          (mutating_request "gateway register-local"
             ["--username"; username; "--password-stdin"] (Some secret))
    end.

Definition credentialsBootstrapCmd : IO (option goerror) :=
  if streq printOption "json"
  then refuse (Invalidf ("credentials bootstrap has no JSON mode: the credential must not " +:+
                         "land in machine-collected output"))
  else
    terminal ← stdioIsTerminal;
    if negb terminal
    then refuse (cli_error Precondition
           ("credentials bootstrap runs only on an interactive local console (stdin and stdout " +:+
            "must be a terminal, not redirected)") "" "console-required")
    else dispatchMutating printOption "appliance.credentials.bootstrap"
           (mutating_request "credentials bootstrap" [] None).

(** [output] is the path of the last [--output] that was not a format. *)
Definition diagnosticsCreateCmd (redact : bool) (output : string) : IO (option goerror) :=
  if negb redact
  then refuse (Usagef "--redact is required; an unredacted archive does not exist by design")
  else if negb (is_empty output) && negb (is_abs output)
  then refuse (Invalidf ("--output must be an absolute path, got " +:+ quote output))
  else
    dispatchMutating printOption "appliance.diagnostics.create"
      (mutating_request "diagnostics create"
         (["--redact"] ++ (if is_empty output then [] else ["--output"; output])) None).

Definition since_refused (since : string) : bool :=
  match parse_duration since with
  | Some d => (d <=? 0)%Z || (maxLogSince <? d)%Z
  | None => true
  end.

Definition logsCmd (redact : bool) (since : string) (lines : Z) (component : string)
    : IO (option goerror) :=
  if negb (str_in component logComponents)
  then refuse (Invalidf (sprintf ["component "; quote component;
    " is not in the allowlist (gateway, oam, ui, caddy, postgres, state, dataplane, management)"]))
  else if negb redact
  then refuse (Usagef "--redact is required; unredacted log export does not exist by design")
  else if negb (is_empty since) && since_refused since
  then refuse (Invalidf (sprintf ["--since must be a positive duration up to 168h0m0s, got ";
                                  quote since]))
  else if negb (lines =? 0)%Z && ((lines <? 1)%Z || (maxLogLines <? lines)%Z)
  then refuse (Invalidf (sprintf ["--lines must be between 1 and "; itoa maxLogLines; ", got ";
                                  itoa lines]))
  else
    dispatchMutating printOption "appliance.logs"
      (mutating_request "logs"
         ([component; "--redact"] ++ (if is_empty since then [] else ["--since"; since])
          ++ (if (lines =? 0)%Z then [] else ["--lines"; itoa lines])) None).

Definition backupKeyCreateCmd (newKeyFile : string) : IO (option goerror) :=
  if is_empty newKeyFile
  then refuse (Usagef "--key-file is required (the new key's absolute path)")
  else if negb (is_abs newKeyFile)
  then refuse (Invalidf ("--key-file must be an absolute path, got " +:+ quote newKeyFile))
  else
    info ← lstat newKeyFile;
    match info with
    | Ok _ =>
        refuse (cli_error Precondition
          (quote newKeyFile +:+ " already exists; key-create refuses to overwrite a key") ""
          "secret-file-refused")
    | Err _ =>
        dispatchMutating printOption "appliance.backup.key-create"
          (mutating_request "backup key-create" ["--key-file"; newKeyFile] None)
    end.

Definition backupArchiveCmd (subcommand keyFile path : string) : IO (option goerror) :=
  if negb (is_abs path)
  then refuse (Invalidf ("the archive path must be absolute, got " +:+ quote path))
  else if is_empty keyFile then refuse (Usagef "--key-file is required")
  else
    checked ← CheckSecretPath "key file" keyFile;
    match checked with
    | Err e => mret (Some e)
    | Ok _ =>
        dispatchMutating printOption
          ("appliance." +:+ replace_byte " "%char "."%char subcommand)
          (mutating_request subcommand [path; "--key-file"; keyFile] None)
    end.

(** An invocation of the family, its flags already parsed. *)
Inductive invocation : Type :=
  | Group (path : string) (args : list string)
  | Status
  | NetworkValidate
  | PublicAddressConfigure (noRestart : bool) (addr : string)
  | RegisterLocal (username passwordFile : string)
  | CredentialsBootstrap
  | DiagnosticsCreate (redact : bool) (output : string)
  | Logs (redact : bool) (since : string) (lines : Z) (component : string)
  | BackupKeyCreate (newKeyFile : string)
  | BackupCreate (keyFile path : string)
  | BackupVerify (keyFile path : string).

Definition ApplianceCmd (i : invocation) : IO (option goerror) :=
  match i with
  | Group path args => group_command path args
  | Status => statusCmd
  | NetworkValidate => networkValidateCmd
  | PublicAddressConfigure noRestart addr => publicAddressConfigureCmd noRestart addr
  | RegisterLocal username passwordFile => registerLocalCmd username passwordFile
  | CredentialsBootstrap => credentialsBootstrapCmd
  | DiagnosticsCreate redact output => diagnosticsCreateCmd redact output
  | Logs redact since lines component => logsCmd redact since lines component
  | BackupKeyCreate newKeyFile => backupKeyCreateCmd newKeyFile
  | BackupCreate keyFile path => backupArchiveCmd "backup create" keyFile path
  | BackupVerify keyFile path => backupArchiveCmd "backup verify" keyFile path
  end.
End Commands.
