(* ===== verification/ApplianceProps.v ===== *)
(** * What the appliance commands guarantee

    The verdicts on backend outcomes, the agreement of envelope and exit
    status, and the policy on the processes a command may start. *)
From S2P Require Import Prelude GoStrings Regex GoNet Json JsonPrint World Errors Exitcode.
From S2P Require Import Envelope SecretFile Contract DupKeys PayloadDocs Payload Appliance.
From S2P Require Import PayloadProps.

(** The status the process exits with. *)
Definition exit_of (err : option goerror) : Z := er_status (exit_point err).

(* ------------------------------------------------------------------ *)
(** ** Verdicts                                                        *)
(* ------------------------------------------------------------------ *)

Lemma validate_json_outcome_spec `{GoLib} subcommand res :
  let '(validated, err) := validateJSONOutcome subcommand res in
  (exit_of err = rs_ExitCode res \/ exit_of err = ContractMismatch)
  /\ (err = None -> rs_ExitCode res = 0%Z /\ exists v, validated = Some v /\ vp_OperationError v = None)
  /\ (forall v, validated = Some v ->
        exit_of err = rs_ExitCode res
        /\ ValidatePayload (tuple subcommand) (rs_Stdout res) = Ok v
        /\ vp_Document v = rs_Stdout res).
Proof.
  unfold validateJSONOutcome, PayloadTupleForCommand.
  destruct (registry_lookup (tuple subcommand)); simpl; [|naive_solver].
  destruct (ValidatePayload _ _) as [v|e] eqn:Hv; [|naive_solver].
  assert (Hdoc : vp_Document v = rs_Stdout res).
  { by apply validate_payload_ok in Hv as (? & ? & _ & _ & _ & _ & _ & _ & _ & _ & _ & Hd & _). }
  destruct (vp_OperationError v) as [opErr|] eqn:Hop.
  - destruct (rs_ExitCode res =? 0)%Z eqn:H0; [naive_solver|].
    destruct (oe_Exit opErr =? rs_ExitCode res)%Z eqn:Hx; simpl; [|naive_solver].
    apply Z.eqb_eq in Hx.
    destruct (negb (is_empty (oe_CorrelationID opErr)) && _); [naive_solver|]. unfold exit_of. simpl. naive_solver.
  - destruct (rs_ExitCode res =? 0)%Z eqn:H0; [|naive_solver].
    apply Z.eqb_eq in H0. unfold exit_of. simpl. rewrite H0. naive_solver.
Qed.

(** A document that agrees with the process it came from: accepted for the
    subcommand, a success exactly with status 0, and otherwise an error of the
    same status whose correlation id, if it has one, is that of the invocation. *)
Definition document_agrees `{GoLib} (subcommand : string) (res : Result) (v : ValidatedPayload) : Prop :=
  ValidatePayload (tuple subcommand) (rs_Stdout res) = Ok v
  /\ match vp_OperationError v with
     | None => rs_ExitCode res = 0%Z
     | Some e => rs_ExitCode res <> 0%Z /\ oe_Exit e = rs_ExitCode res
                 /\ (oe_CorrelationID e = "" \/ oe_CorrelationID e = rs_CorrelationID res)
     end.

Lemma document_decided `{GoLib} subcommand res :
  let '(validated, err) := validateJSONOutcome subcommand res in
  match validated with
  | Some v => document_agrees subcommand res v /\ exit_of err = rs_ExitCode res
              /\ (err = None <-> vp_OperationError v = None)
  | None => (forall v, ~ document_agrees subcommand res v) /\ exit_of err = ContractMismatch
  end.
Proof.
  unfold validateJSONOutcome, PayloadTupleForCommand, document_agrees.
  destruct (registry_lookup (tuple subcommand)) as [sp|] eqn:Hreg; simpl.
  2: { split; [|done]. intros v [Hv _]. unfold ValidatePayload in Hv. by rewrite Hreg in Hv. }
  destruct (ValidatePayload _ _) as [v|e]; [|split; [by intros v [? _] | done]].
  destruct (vp_OperationError v) as [e|] eqn:Hop.
  - destruct (rs_ExitCode res =? 0)%Z eqn:H0; [apply Z.eqb_eq in H0 | apply Z.eqb_neq in H0].
    { split; [|done]. intros v' [[= <-] Hx]. rewrite Hop in Hx. naive_solver. }
    destruct (oe_Exit e =? rs_ExitCode res)%Z eqn:Hx; simpl; [apply Z.eqb_eq in Hx | apply Z.eqb_neq in Hx].
    2: { split; [|done]. intros v' [[= <-] Hx']. rewrite Hop in Hx'. naive_solver. }
    destruct (is_empty (oe_CorrelationID e)) eqn:He; simpl; [apply is_empty_true in He|].
    { rewrite Hop. unfold exit_of. simpl. naive_solver. }
    apply is_empty_false in He. destruct (streq (oe_CorrelationID e) _) eqn:Hc; simpl.
    + apply streq_true in Hc. rewrite Hop. unfold exit_of. simpl. naive_solver.
    + apply streq_false in Hc. split; [|done]. intros v' [[= <-] Hx']. rewrite Hop in Hx'. naive_solver.
  - destruct (rs_ExitCode res =? 0)%Z eqn:H0; [apply Z.eqb_eq in H0 | apply Z.eqb_neq in H0].
    + rewrite Hop. unfold exit_of. simpl. rewrite H0. naive_solver.
    + split; [|done]. intros v' [[= <-] Hx]. by rewrite Hop in Hx.
Qed.

(** The verdict, as a relation between a process that ended and what is made of it. *)
Definition judged `{GoLib} (subcommand : string) (res : Result) (mut json : bool) (out : resolution) : Prop :=
  let '(validated, err) := out in
  let listed := (rs_ExitCode res = 0 \/ 2 <= rs_ExitCode res <= 8)%Z in
  (rs_Signaled res = true -> exit_of err = if mut then Partial else Unavailable)
  /\ (rs_Signaled res = false -> ~ listed -> exit_of err = Failed)
  /\ (rs_Signaled res = false -> listed ->
        if json
        then (forall v, document_agrees subcommand res v -> validated = Some v /\ exit_of err = rs_ExitCode res)
             /\ ((forall v, ~ document_agrees subcommand res v) ->
                   validated = None /\ exit_of err = ContractMismatch)
        else validated = None /\ exit_of err = rs_ExitCode res)
  /\ (err = None -> rs_ExitCode res = 0%Z /\ rs_Signaled res = false).

Lemma outcome_judged `{GoLib} subcommand res mut json :
  judged subcommand res mut json (resolveBackendOutcome subcommand res mut json).
Proof.
  unfold judged, resolveBackendOutcome, in_taxonomy_range. destruct (json && _ && _) eqn:Hjson.
  - rewrite !andb_true_iff, orb_true_iff, negb_true_iff, Z.eqb_eq, in_range_true in Hjson.
    destruct Hjson as [[-> Hs] Hx]. rewrite Hs.
    pose proof (document_decided subcommand res) as Hspec.
    destruct (validateJSONOutcome subcommand res) as [validated err]. cbn zeta.
    split; [done|]. split; [tauto|]. split.
    + intros _ _. destruct validated as [v|].
      * destruct Hspec as (Hv & Hcode & _). split; [|by intros Hno; destruct (Hno v)].
        intros v' Hv'. split; [|done]. destruct Hv as [Hv _], Hv' as [Hv' _]. congruence.
      * destruct Hspec as [Hno Hcode]. split; [|done]. by intros v Hv; destruct (Hno v).
    + intros ->. destruct validated as [v|]; [|by destruct Hspec]. by destruct Hspec as (_ & <- & _).
  - unfold backendOutcome, in_taxonomy_range. destruct (rs_Signaled res) eqn:Hs.
    + rewrite andb_false_r. simpl. destruct (rs_TimedOut res), mut; simpl; split_and!; by intros.
    + simpl. rewrite !andb_true_r in *. destruct (rs_ExitCode res =? 0)%Z eqn:H0.
      * apply Z.eqb_eq in H0. unfold exit_of. simpl. rewrite H0 in *.
        destruct json; [done|]. split_and!; intros; try done; naive_solver lia.
      * apply Z.eqb_neq in H0. unfold exit_of. simpl.
        destruct (in_range 2 8 (rs_ExitCode res)) eqn:Hr; go_norm;
          destruct json; try done; split_and!; intros; try done; naive_solver lia.
Qed.


(** C12: bytes of the backend enter [data.backend] of the envelope only when the
    payload validator accepted exactly those bytes for the subcommand; in human
    mode and after a signal none do. *)
Theorem backend_bytes_only_validated `{GoLib} subcommand res mut json :
  let '(validated, err) := resolveBackendOutcome subcommand res mut json in
  ad_Backend (appliance_data (Some res) validated err) <> "" ->
  json = true /\ rs_Signaled res = false /\ exit_of err = rs_ExitCode res
  /\ exists v, ValidatePayload (tuple subcommand) (rs_Stdout res) = Ok v
       /\ ad_Backend (appliance_data (Some res) validated err) = rs_Stdout res.
Proof.
  unfold resolveBackendOutcome. destruct (json && _ && _) eqn:Hjson.
  - rewrite !andb_true_iff, negb_true_iff in Hjson. destruct Hjson as [[-> Hs] _].
    pose proof (validate_json_outcome_spec subcommand res) as Hspec.
    destruct (validateJSONOutcome subcommand res) as [[v|] err].
    + destruct Hspec as (_ & _ & Hv). destruct (Hv v eq_refl) as (Hx & Hval & Hdoc).
      intros _. split_and!; try done. exists v. split; [done|]. by destruct err.
    + by destruct err.
  - by destruct (backendOutcome subcommand res mut).
Qed.

(* ------------------------------------------------------------------ *)
(** ** The envelope                                                    *)
(* ------------------------------------------------------------------ *)

(** The envelope and the exit status cannot disagree: for a status of the
    taxonomy the envelope's code is the one that exits with it, and [success]
    is true exactly for status 0. *)
Theorem envelope_agrees_with_exit command res validated err :
  exit_of err ∈ taxonomy -> (err <> None -> exit_of err <> 0%Z) ->
  let result := envelope_of command res validated err in
  ExitCode (cr_Code result) = exit_of err
  /\ (cr_Success result = true <-> err = None)
  /\ (cr_Success result = true <-> cr_Code result = "OK").
Proof.
  intros Hin Hne. destruct err as [err|]; simpl.
  - specialize (Hne ltac:(done)). unfold exit_of in *. simpl in *.
    pose proof (label_ok (ce_Code (Classify err))) as Hok. unfold OK in Hok.
    split; [by apply exit_code_label|]. rewrite streq_true. naive_solver.
  - destruct res; done.
Qed.

Lemma envelope_agrees_with_exit_witness :
  let err := Some (ECLI (cli_error Partial "killed" "backend" "backend-killed")) in
  ExitCode (cr_Code (envelope_of "appliance.logs" None None err)) = 8%Z.
Proof.
  intros err. destruct (envelope_agrees_with_exit "appliance.logs" None None err) as [H _].
  - unfold taxonomy. vm_compute exit_of. set_solver.
  - intros _. vm_compute. intros H. discriminate H.
  - exact H.
Defined.

(** A failure names an operation to recover exactly when its outcome is
    unknown or partial and a process ran; the handle is then never empty. *)
Theorem recovery_handle_iff_partial res validated err :
  rs_CorrelationID res <> "" ->
  match ad_OperationID (appliance_data (Some res) validated (Some err)) with
  | Some id => ce_Code (Classify err) = Partial /\ id <> ""
  | None => ce_Code (Classify err) <> Partial
  end.
Proof.
  intros Hid. simpl. destruct (ce_Code (Classify err) =? Partial)%Z eqn:Hc; [|by apply Z.eqb_neq].
  apply Z.eqb_eq in Hc. split; [done|]. destruct validated as [v|]; [|done].
  destruct (is_empty (vp_OperationID v)) eqn:He; [done|by apply is_empty_false].
Qed.

Lemma recovery_handle_iff_partial_witness :
  let res := set_correlation zero_result "cli-1" in
  match ad_OperationID (appliance_data (Some res) None
          (Some (ECLI (cli_error Partial "killed" "backend" "backend-killed")))) with
  | Some id => id <> ""
  | None => False
  end.
Proof.
  intros res.
  assert (Hid : rs_CorrelationID res <> "") by (intros H; discriminate H).
  pose proof (recovery_handle_iff_partial res None
    (ECLI (cli_error Partial "killed" "backend" "backend-killed")) Hid) as H.
  vm_compute in H. vm_compute. apply H.
Defined.

(* ------------------------------------------------------------------ *)
(** ** The processes a command starts                                  *)
(* ------------------------------------------------------------------ *)

(** What a started process may be, beyond the allowlist. *)
Definition command_policy (o : op) : Prop :=
  match o with
  | OpSpawn argv stdin =>
      (head argv = Some "logs" ->
         exists c rest, argv = "logs" :: c :: "--redact" :: rest /\ c ∈ logComponents)
      /\ (head argv = Some "diagnostics" ->
            exists rest, argv = "diagnostics" :: "create" :: "--redact" :: rest)
      /\ (head argv = Some "credentials" ->
            exists id, argv = ["credentials"; "bootstrap"; "--correlation-id"; id])
      /\ (is_Some stdin -> exists user rest,
            argv = "gateway" :: "register-local" :: "--username" :: user :: "--password-stdin" :: rest)
      /\ (forall verb, head argv = Some verb ->
            verb ∉ ["restore"; "update"; "rollback"; "factory-reset"])
  | _ => True
  end.

Lemma ops_and (P Q : op -> Prop) {A} (m : IO A) :
  ops_satisfy P m -> ops_satisfy Q m -> ops_satisfy (fun o => P o /\ Q o) m.
Proof. intros HP HQ w h. apply Forall_and. split; [apply HP | apply HQ]. Qed.

Lemma perform_ops (P : op -> Prop) o : P o -> ops_satisfy P (perform o).
Proof. apply ops_perform. Qed.

(** Operations other than starting a process. *)
Definition no_spawn (o : op) : Prop := match o with OpSpawn _ _ => False | _ => True end.

Lemma no_spawn_policy {A} (m : IO A) (P : list string -> option string -> Prop) :
  ops_satisfy no_spawn m ->
  ops_satisfy (fun o => match o with OpSpawn argv stdin => P argv stdin | _ => True end) m.
Proof. apply ops_mono. by intros []. Qed.

Lemma check_secret_path_ops what path : ops_satisfy no_spawn (CheckSecretPath what path).
Proof. unfold CheckSecretPath, lstat. repeat (ops_step || (apply ops_perform; done)). Qed.

Lemma read_secret_file_ops what path : ops_satisfy no_spawn (ReadSecretFile what path).
Proof.
  unfold ReadSecretFile, read_file.
  repeat (apply check_secret_path_ops || ops_step || (apply ops_perform; done)).
Qed.

Lemma stdio_ops : ops_satisfy no_spawn stdioIsTerminal.
Proof. unfold stdioIsTerminal, std_stat. repeat (ops_step || (apply ops_perform; done)). Qed.

Lemma finish_ops `{GoLib} command req mut out : ops_satisfy no_spawn (finish command req mut out).
Proof.
  unfold finish, writeEnvelope, Write, write_out, write_err.
  repeat (ops_step || (apply ops_perform; done)).
Qed.

Section Policy.
Context `{GoLib} (P : list string -> option string -> Prop).

(** [P] of every process. *)
Definition spawns_satisfy (o : op) : Prop :=
  match o with OpSpawn argv stdin => P argv stdin | _ => True end.

Lemma invoke_spawns req mut :
  (forall id, validateRequest req mut = Ok tt -> P (backend_argv req id) (rq_Secret req)) ->
  ops_satisfy spawns_satisfy (invoke req mut).
Proof.
  intros HP w h. rewrite invoke_run. destruct (validateRequest req mut) as [[]|]; [|constructor].
  cbn. constructor; [done|]. constructor; [by apply HP|constructor].
Qed.

Lemma handshake_spawns : P handshake_argv None -> ops_satisfy spawns_satisfy Handshake.
Proof. intros HP w h. rewrite handshake_run. cbn. by repeat constructor. Qed.

Lemma dispatch_mutating_spawns printOption command req :
  P handshake_argv None ->
  (forall id json, validateRequest (with_json req json) true = Ok tt ->
     (json = true -> printOption = "json") ->
     P (backend_argv (with_json req json) id) (rq_Secret req)) ->
  ops_satisfy spawns_satisfy (dispatchMutating printOption command req).
Proof.
  intros Hh HP. unfold dispatchMutating. apply ops_bind.
  - unfold InvokeMutating. repeat (ops_step || (by apply handshake_spawns)).
    apply invoke_spawns. intros id Hv. apply HP; [done|]. apply streq_true.
  - intros out. by apply no_spawn_policy, finish_ops.
Qed.

Lemma dispatch_read_only_spawns printOption command subcommand :
  P handshake_argv None ->
  (forall id json, P (backend_argv {| rq_Subcommand := subcommand; rq_Args := [];
                                      rq_JSON := json; rq_Secret := None |} id) None) ->
  ops_satisfy spawns_satisfy (dispatchReadOnly printOption command subcommand).
Proof.
  intros Hh HP. unfold dispatchReadOnly, dispatchReadOnlyRequest. apply ops_bind.
  - unfold InvokeReadOnly.
    repeat (ops_step || (by apply handshake_spawns) || (apply invoke_spawns; intros; apply HP)).
  - intros out. by apply no_spawn_policy, finish_ops.
Qed.
End Policy.

Definition command_spawn (argv : list string) (stdin : option string) : Prop :=
  spawn_allowed (OpSpawn argv stdin) /\ command_policy (OpSpawn argv stdin).

Lemma handshake_command_spawn : command_spawn handshake_argv None.
Proof.
  split; [by left|]. unfold command_policy, handshake_argv. cbn [head].
  repeat (split; [try done; by intros [? ?]|]). intros verb [= <-]. set_solver.
Qed.

(** A validated request is within the allowlist. *)
Lemma backend_argv_allowed req mut id :
  validateRequest req mut = Ok tt -> spawn_allowed (OpSpawn (backend_argv req id) (rq_Secret req)).
Proof.
  intros (rule & Hr & _ & Ha & Hs)%validate_request_ok. right. eexists _, rule, _, _, _.
  split; [done|]. split; [done|]. split; [done|]. split; [destruct (rq_JSON req); auto | done].
Qed.

Definition read_request (subcommand : string) (json : bool) : Request :=
  {| rq_Subcommand := subcommand; rq_Args := []; rq_JSON := json; rq_Secret := None |}.

(** The argv of a request whose subcommand is a literal. *)
Ltac words_case :=
  unfold backend_argv, command_policy, read_request;
  cbn [with_json mutating_request rq_Subcommand rq_Args rq_JSON rq_Secret];
  match goal with
  | |- context [fields ?s] =>
      let l := eval vm_compute in (fields s) in
      replace (fields s) with l by (vm_compute; reflexivity)
  end;
  cbn [app head].

Ltac command_case :=
  apply dispatch_mutating_spawns; [apply handshake_command_spawn|];
  intros id json Hv Hjson; split; [by eapply backend_argv_allowed in Hv|];
  clear Hv; words_case.

(** The parts of the policy other than the command's own. *)
Ltac policy_rest := first [done | by intros [? ?] | intros ? [= <-]; set_solver].

Lemma appliance_spawns `{GoLib} printOption i :
  ops_satisfy (fun o => match o with OpSpawn argv stdin => command_spawn argv stdin | _ => True end)
    (ApplianceCmd printOption i).
Proof.
  change (ops_satisfy (spawns_satisfy command_spawn) (ApplianceCmd printOption i)).
  destruct i; cbn [ApplianceCmd].
  - unfold group_command, refuse. repeat ops_step.
  - apply dispatch_read_only_spawns; [apply handshake_command_spawn|]. intros id json.
    split; [exact (backend_argv_allowed (read_request "status" json) false id eq_refl)|].
    words_case. split_and!; policy_rest.
  - apply dispatch_read_only_spawns; [apply handshake_command_spawn|]. intros id json.
    split; [exact (backend_argv_allowed (read_request "network validate" json) false id eq_refl)|].
    words_case. split_and!; policy_rest.
  - unfold publicAddressConfigureCmd, refuse. ops_step; [ops_step|]. command_case.
    split_and!; policy_rest.
  - unfold registerLocalCmd, refuse. do 2 (ops_step; [ops_step|]).
    apply ops_bind; [by apply no_spawn_policy, read_secret_file_ops|].
    intros [secret|e]; [|ops_step]. command_case.
    split_and!; try policy_rest. intros _. by eexists _, _.
  - unfold credentialsBootstrapCmd, refuse.
    ops_step; [ops_step|]. apply ops_bind; [by apply no_spawn_policy, stdio_ops|]. intros terminal.
    ops_step; [ops_step|]. command_case.
    split_and!; try policy_rest. intros _. exists id. destruct json; [|done].
    specialize (Hjson eq_refl). by subst printOption.
  - unfold diagnosticsCreateCmd, refuse. do 2 (ops_step; [ops_step|]). command_case.
    split_and!; try policy_rest. intros _. by eexists.
  - unfold logsCmd, refuse. do 4 (ops_step; [ops_step|]). command_case.
    split_and!; try policy_rest. intros _. eexists _, _. split; [done|].
    by apply str_in_true, negb_false_iff.
  - unfold backupKeyCreateCmd, refuse. do 2 (ops_step; [ops_step|]).
    apply ops_bind; [by apply ops_perform|]. intros [info|e]; [ops_step|]. command_case.
    split_and!; policy_rest.
  - unfold backupArchiveCmd, refuse. do 2 (ops_step; [ops_step|]).
    apply ops_bind; [by apply no_spawn_policy, check_secret_path_ops|].
    intros [?|e]; [|ops_step]. command_case. split_and!; policy_rest.
  - unfold backupArchiveCmd, refuse. do 2 (ops_step; [ops_step|]).
    apply ops_bind; [by apply no_spawn_policy, check_secret_path_ops|].
    intros [?|e]; [|ops_step]. command_case. split_and!; policy_rest.
Qed.

(** C6: whatever its flags and arguments, an appliance command starts only
    processes of the allowlist, and among them: logs always redacted and of an
    approved component, diagnostics always redacted, the bootstrap credential
    never in JSON, a secret only on the stdin of the registration, and none of
    the whole-appliance operations (restore, update, rollback, factory reset). *)
Theorem appliance_spawn_policy `{GoLib} printOption i :
  ops_satisfy (fun o => match o with OpSpawn argv stdin => command_spawn argv stdin | _ => True end)
    (ApplianceCmd printOption i).
Proof. apply appliance_spawns. Qed.

(* ------------------------------------------------------------------ *)
(** ** Exit statuses                                                   *)
(* ------------------------------------------------------------------ *)

(** An error whose status is one of the failures 2 to 8. *)
Definition classified (e : goerror) : Prop := (2 <= ce_Code (Classify e) <= 8)%Z.
Definition classified_result {A} (r : result goerror A) : Prop :=
  match r with Ok _ => True | Err e => classified e end.
Definition classified_outcome (r : option goerror) : Prop :=
  match r with Some e => classified e | None => True end.

Lemma classified_text msg : classified (EText msg).
Proof.
  unfold classified. change (Classify (EText msg)) with (classify_text msg). unfold classify_text.
  destruct (existsb (contains msg) cobraUsageShapes); simpl; unfold InvalidArgument, Failed; lia.
Qed.

Lemma classified_reject {A} (b : bool) e (k : result goerror A) :
  classified e -> classified_result k -> classified_result (if b then Err e else k).
Proof. by destruct b. Qed.

Lemma classified_bind {A B} (m : result goerror A) (f : A -> result goerror B) :
  classified_result m -> (forall a, classified_result (f a)) -> classified_result (m ≫= f).
Proof. destruct m; simpl; auto. Qed.

Lemma classified_violation msg : classified (contractViolation msg).
Proof. vm_compute. by split. Qed.

Lemma classified_allowlist msg : classified (not_allowlisted msg).
Proof. vm_compute. by split. Qed.

Ltac classify_step :=
  match goal with
  | |- classified (contractViolation _) => apply classified_violation
  | |- classified (not_allowlisted _) => apply classified_allowlist
  | |- classified (EText _) => apply classified_text
  | |- classified (ECLI (cli_error _ _ _ _)) => vm_compute; by split
  | |- classified (ECLI (Usagef _)) => vm_compute; by split
  | |- classified (ECLI (Invalidf _)) => vm_compute; by split
  | |- classified_result (Ok _) => exact I
  | |- classified_result (Err _) => unfold classified_result
  | |- classified_result (if _ then Err _ else _) => apply classified_reject
  | |- classified_result (mbind _ _) => apply classified_bind; [|intros ?]
  | |- classified_result (match ?x with _ => _ end) => destruct x
  end.

Lemma run_outcome_classified report : classified_result (run_outcome report).
Proof. unfold run_outcome. repeat classify_step. Qed.

Lemma capabilities_classified name seen caps :
  classified_result (validate_capabilities name seen caps).
Proof.
  revert seen. induction caps as [|c caps IH]; intros seen; cbn [validate_capabilities];
    repeat classify_step. apply IH.
Qed.

Lemma commands_classified index seen wants cmds :
  classified_result (validate_commands index seen wants cmds).
Proof.
  revert index seen wants. induction cmds as [|c cmds IH]; intros index seen wants;
    cbn [validate_commands]; [done|].
  repeat (apply capabilities_classified || classify_step). apply IH.
Qed.

Lemma handshake_verdict_classified `{GoLib} res : classified_result (handshake_verdict res).
Proof.
  unfold handshake_verdict. destruct (negb _).
  - destruct (decodeBackendContractError _) as [e|] eqn:He; [|repeat classify_step].
    apply contract_error_ok in He as [Ha _]. apply classified_reject; [classify_step|].
    unfold classified_result, classified, Classify. simpl.
    unfold approved_failures in Ha. rewrite !elem_of_cons, elem_of_nil in Ha.
    destruct_or?; simplify_eq; lia.
  - destruct (decodeContract _); [|repeat classify_step]. apply classified_bind; [|done].
    unfold validate_contract. cbn zeta.
    repeat (apply commands_classified || classify_step).
Qed.

Lemma advertised_classified c name readOnly :
  classified_result (requireAdvertisedCommand c name readOnly).
Proof. unfold requireAdvertisedCommand. cbn zeta. repeat classify_step. Qed.

Lemma request_classified req mut : classified_result (validateRequest req mut).
Proof. unfold validateRequest. cbn zeta. repeat classify_step. Qed.

Lemma handshake_classified `{GoLib} w h : classified_result (Handshake w h).1.
Proof.
  rewrite handshake_run. cbn. pose proof (run_outcome_classified (w h (OpSpawn handshake_argv None))).
  destruct (run_outcome _); [apply handshake_verdict_classified | done].
Qed.

Lemma invoke_classified req mut w h : classified_result (invoke req mut w h).1.
Proof.
  rewrite invoke_run. pose proof (request_classified req mut).
  destruct (validateRequest req mut); [|done]. cbn.
  match goal with |- context [run_outcome ?r] => pose proof (run_outcome_classified r) end.
  by destruct (run_outcome _).
Qed.

(** The error of an exported invocation is classified; without one there is a
    result. *)
Definition sound_outcome (out : outcome) : Prop :=
  classified_outcome out.2 /\ (out.2 = None -> is_Some out.1).

Lemma to_outcome_sound r : classified_result r -> sound_outcome (to_outcome r).
Proof. destruct r; simpl; [by repeat split | by split]. Qed.

Lemma invoke_mutating_sound `{GoLib} req : returns sound_outcome (InvokeMutating req).
Proof.
  intros w h. rewrite invoke_mutating_run.
  pose proof (request_classified req true) as Hr.
  destruct (validateRequest req true); [|by split].
  pose proof (handshake_classified w h) as Hh. destruct (Handshake w h) as [[c|e] t]; [|by split].
  pose proof (advertised_classified c (rq_Subcommand req) false) as Ha.
  destruct (requireAdvertisedCommand _ _ _); [|by split].
  pose proof (invoke_classified req true w (h ++ t)) as Hi.
  destruct (invoke req true w (h ++ t)) as [r t']. by apply to_outcome_sound.
Qed.

Lemma invoke_read_only_sound `{GoLib} req : returns sound_outcome (InvokeReadOnly req).
Proof.
  intros w h. rewrite invoke_read_only_run.
  pose proof (request_classified req false) as Hr.
  destruct (validateRequest req false); [|by split].
  pose proof (handshake_classified w h) as Hh. destruct (Handshake w h) as [[c|e] t].
  - pose proof (advertised_classified c (rq_Subcommand req) true) as Ha.
    destruct (requireAdvertisedCommand _ _ _); [|by split].
    pose proof (invoke_classified req false w (h ++ t)) as Hi.
    destruct (invoke req false w (h ++ t)) as [r t']. by apply to_outcome_sound.
  - destruct (allowsReadOnlyBestEffort e); [|by split].
    destruct (invoke req false w (h ++ t)). by split.
Qed.


Lemma classified_cli ce : (2 <= ce_Code ce <= 8)%Z -> classified (ECLI ce).
Proof. done. Qed.

Lemma classified_payload e : classified (EPayload e).
Proof. vm_compute. split; discriminate. Qed.

Lemma backend_outcome_classified subcommand res mut :
  classified_outcome (backendOutcome subcommand res mut).
Proof.
  unfold backendOutcome, in_taxonomy_range.
  repeat case_match; try exact I; apply classified_cli; simpl; go_norm;
    unfold Failed, Unavailable, Partial; lia.
Qed.

Lemma json_outcome_classified `{GoLib} subcommand res :
  rs_ExitCode res = 0%Z \/ (2 <= rs_ExitCode res <= 8)%Z ->
  classified_outcome (validateJSONOutcome subcommand res).2.
Proof.
  intros Hx. unfold validateJSONOutcome. destruct (PayloadTupleForCommand subcommand) as [selected ok].
  destruct (negb ok); [apply classified_payload|].
  destruct (ValidatePayload _ _) as [v|e]; [|apply classified_payload].
  destruct (vp_OperationError v) as [opErr|].
  - destruct (rs_ExitCode res =? 0)%Z eqn:H0; [apply classified_payload|].
    destruct (oe_Exit opErr =? rs_ExitCode res)%Z eqn:He; [|apply classified_payload].
    destruct (negb (is_empty (oe_CorrelationID opErr)) && _); [apply classified_payload|].
    apply classified_cli. simpl. go_norm. lia.
  - destruct (rs_ExitCode res =? 0)%Z; [exact I | apply classified_payload].
Qed.

Lemma resolve_classified `{GoLib} subcommand res mut json :
  classified_outcome (resolveBackendOutcome subcommand res mut json).2.
Proof.
  unfold resolveBackendOutcome, in_taxonomy_range. destruct (json && _ && _) eqn:Hc.
  - apply json_outcome_classified. go_norm. lia.
  - apply backend_outcome_classified.
Qed.

Lemma finish_classified `{GoLib} command req mut out :
  sound_outcome out -> returns classified_outcome (finish command req mut out).
Proof.
  destruct out as [res err]. intros [He _]. simpl in He. unfold finish.
  assert (Hres : classified_outcome
    (match err, res with
     | None, Some r => resolveBackendOutcome (rq_Subcommand req) r mut (rq_JSON req)
     | _, _ => (None, err)
     end).2) by (destruct err, res; try done; apply resolve_classified).
  match type of Hres with
  | classified_outcome (?r).2 => destruct r as [validated [e|]]; simpl in Hres
  end.
  - apply returns_step. intros _. by apply returns_ret.
  - apply returns_step. intros [text|]; [apply returns_ret, classified_text|].
    destruct (negb (rq_JSON req)); apply returns_step.
    + intros [text|]; apply returns_ret; [apply classified_text | exact I].
    + intros _. by apply returns_ret.
Qed.

Lemma dispatch_mutating_classified `{GoLib} printOption command req :
  returns classified_outcome (dispatchMutating printOption command req).
Proof.
  eapply returns_bind; [apply invoke_mutating_sound|]. intros out. apply finish_classified.
Qed.

Lemma dispatch_read_only_classified `{GoLib} printOption command subcommand :
  returns classified_outcome (dispatchReadOnly printOption command subcommand).
Proof.
  eapply returns_bind; [apply invoke_read_only_sound|]. intros out. apply finish_classified.
Qed.

Lemma check_secret_path_classified what path :
  returns classified_result (CheckSecretPath what path).
Proof.
  unfold CheckSecretPath. destruct (negb _); [by apply returns_ret, classified_cli|].
  apply returns_step. intros [info|e]; apply returns_ret; [|by apply classified_cli].
  unfold check_mode. repeat (apply classified_reject; [by apply classified_cli|]). exact I.
Qed.

Lemma read_secret_file_classified what path :
  returns classified_result (ReadSecretFile what path).
Proof.
  unfold ReadSecretFile. eapply returns_bind; [apply check_secret_path_classified|].
  intros [u|e] He; [|by apply returns_ret].
  apply returns_step. intros [c|e]; [|by apply returns_ret, classified_cli].
  destruct (is_empty _); apply returns_ret; [by apply classified_cli | exact I].
Qed.

Lemma refuse_classified ce :
  (2 <= ce_Code ce <= 8)%Z -> returns classified_outcome (refuse ce).
Proof. intros H. by apply returns_ret. Qed.

(** A command is guards, questions to the host, and a dispatch. *)
Ltac classify_command :=
  repeat first
    [ apply dispatch_mutating_classified | apply dispatch_read_only_classified
    | apply refuse_classified; simpl; unfold InvalidArgument, Precondition; lia
    | apply returns_if; intros _ ].

Lemma appliance_classified `{GoLib} printOption i :
  returns classified_outcome (ApplianceCmd printOption i).
Proof.
  destruct i; cbn [ApplianceCmd];
    unfold statusCmd, networkValidateCmd, publicAddressConfigureCmd, registerLocalCmd,
      credentialsBootstrapCmd, diagnosticsCreateCmd, logsCmd, backupKeyCreateCmd,
      backupArchiveCmd, group_command;
    [destruct args; by apply refuse_classified | classify_command ..].
  - eapply returns_bind; [apply read_secret_file_classified|].
    intros [secret|e] He; [classify_command | by apply returns_ret].
  - apply returns_step. intros terminal. classify_command.
  - apply returns_step. intros [info|e]; classify_command.
  - eapply returns_bind; [apply check_secret_path_classified|].
    intros [u|e] He; [classify_command | by apply returns_ret].
  - eapply returns_bind; [apply check_secret_path_classified|].
    intros [u|e] He; [classify_command | by apply returns_ret].
Qed.

(** An appliance command ends either without an error or with one whose
    status is 2 to 8: in every world, and whatever the backend wrote, no
    failure leaves the process with 0, with the reserved 1 or with a status the
    taxonomy does not have. *)
Theorem appliance_exit_status `{GoLib} printOption i :
  returns (fun err => match err with
                      | None => exit_of err = 0%Z
                      | Some _ => (2 <= exit_of err <= 8)%Z
                      end) (ApplianceCmd printOption i).
Proof.
  intros w h. pose proof (appliance_classified printOption i w h) as Hc.
  by destruct (ApplianceCmd printOption i w h).1.
Qed.

(* ------------------------------------------------------------------ *)
(** ** Outcomes nobody validated                                       *)
(* ------------------------------------------------------------------ *)

(** In JSON mode a document the validator refuses decides the outcome, even
    when the process reported a partial application (status 8) or success: the
    process exits with CONTRACT_MISMATCH, no byte of the backend is exposed and
    the failure names no operation to recover. *)
Theorem refused_document_verdict `{GoLib} subcommand res mut e :
  rs_Signaled res = false -> (rs_ExitCode res = 0 \/ 2 <= rs_ExitCode res <= 8)%Z ->
  ValidatePayload (tuple subcommand) (rs_Stdout res) = Err e ->
  let '(validated, err) := resolveBackendOutcome subcommand res mut true in
  let data := appliance_data (Some res) validated err in
  exit_of err = ContractMismatch /\ ad_Backend data = "" /\ ad_OperationID data = None.
Proof.
  intros Hs Hx Hv. unfold resolveBackendOutcome, in_taxonomy_range. rewrite Hs. simpl.
  assert (Hr : ((rs_ExitCode res =? 0) || in_range 2 8 (rs_ExitCode res))%Z = true) by (go_norm; lia).
  rewrite Hr. unfold validateJSONOutcome, PayloadTupleForCommand.
  destruct (registry_lookup (tuple subcommand)); [|done]. simpl. by rewrite Hv.
Qed.

Definition partial_result : Result :=
  {| rs_ExitCode := 8; rs_Stdout := "{}"; rs_Stderr := ""; rs_CorrelationID := "cli-1";
     rs_Signaled := false; rs_TimedOut := false;
     rs_Degraded := None |}.

Lemma refused_document_verdict_witness :
  let '(validated, err) :=
    resolveBackendOutcome (H := plain_text) "backup create" partial_result true true in
  exit_of err = 6%Z /\ ad_OperationID (appliance_data (Some partial_result) validated err) = None.
Proof.
  assert (Hv : exists e, ValidatePayload (H := plain_text) (tuple "backup create")
                           (rs_Stdout partial_result) = Err e)
    by (eexists; vm_compute; reflexivity).
  destruct Hv as [e Hv].
  assert (Hx : (rs_ExitCode partial_result = 0 \/ 2 <= rs_ExitCode partial_result <= 8)%Z)
    by (right; simpl; lia).
  pose proof (refused_document_verdict (H := plain_text) "backup create" partial_result true e
                eq_refl Hx Hv) as Hspec.
  destruct (resolveBackendOutcome _ _ _ _) as [validated err].
  destruct Hspec as (Hcode & _ & Hid). split; assumption.
Defined.

(** A mutating process that was killed is reported with two handles: the
    message ends with the operation id its output claims, which nobody
    validated, and [data.operationId] is the invocation's correlation id. *)
Theorem killed_operation_handles `{GoLib} subcommand res json :
  rs_Signaled res = true ->
  exists text err, resolveBackendOutcome subcommand res true json = (None, Some err)
    /\ ce_Message (Classify err) = text +:+ OperationID res
    /\ ad_OperationID (appliance_data (Some res) None (Some err)) = Some (rs_CorrelationID res).
Proof.
  intros Hs. unfold resolveBackendOutcome, backendOutcome. rewrite Hs.
  rewrite !andb_false_r. simpl.
  destruct (rs_TimedOut res); eexists _, _; (split; [reflexivity|]); (split; [|reflexivity]);
    exact (sprintf_snoc [_; _; _; _; _; _] _).
Qed.

Definition killed_result : Result :=
  {| rs_ExitCode := -1; rs_Stdout := encode (GObj [("operationId", GStr "op-7")]);
     rs_Stderr := ""; rs_CorrelationID := "cli-1"; rs_Signaled := true; rs_TimedOut := true;
     rs_Degraded := None |}.

Lemma killed_operation_handles_witness :
  OperationID killed_result = "op-7"
  /\ exists err, resolveBackendOutcome (H := plain_text) "backup create" killed_result true true
                 = (None, Some err)
     /\ ad_OperationID (appliance_data (Some killed_result) None (Some err)) = Some "cli-1".
Proof.
  split; [vm_compute; reflexivity|].
  destruct (killed_operation_handles (H := plain_text) "backup create" killed_result true eq_refl)
    as (text & err & H1 & _ & H3). exists err. split; assumption.
Defined.
