(* ===== verification/Rest.v ===== *)
(** * The REST client: [pkg/api/rest.go], [common.go], [tls.go], [client.go], [originator.go]

    The URL of a resource, the headers of a request, the TLS configuration of
    the client, and the six verbs.  [http.NewRequest] and [Client.Do] are one
    operation of the world. *)
From S2P Require Import Prelude GoStrings Json JsonPrint World Errors.

(* ------------------------------------------------------------------ *)
(** ** Packages [path] and [net/url]                                   *)
(* ------------------------------------------------------------------ *)

(** [path.Clean] on the elements of a path; [out] is reversed. *)
Fixpoint clean_elements (rooted : bool) (out l : list string) : list string :=
  match l with
  | [] => rev out
  | e :: l' =>
      if is_empty e || streq e "." then clean_elements rooted out l'
      else if streq e ".." then
        match out with
        | [] => clean_elements rooted (if rooted then [] else [e]) l'
        | x :: out' => clean_elements rooted (if streq x ".." then e :: out else out') l'
        end
      else clean_elements rooted (e :: out) l'
  end.

Definition path_clean (p : string) : string :=
  let rooted := has_prefix p "/" in
  let body := join "/" (clean_elements rooted [] (split "/"%char p)) in
  if rooted then "/" +:+ body else if is_empty body then "." else body.

(** [path.Join]. *)
Definition path_join (l : list string) : string :=
  match List.filter (fun e => negb (is_empty e)) l with
  | [] => ""
  | l' => path_clean (join "/" l')
  end.

(** The bytes [url] leaves alone in every position. *)
Definition unreserved (z : Z) : bool :=
  in_range 48 57 z || in_range 65 90 z || in_range 97 122 z
  || (z =? 45)%Z || (z =? 95)%Z || (z =? 46)%Z || (z =? 126)%Z.

Definition among (chars : string) (z : Z) : bool := contains_byte chars z.

Definition host_kept (z : Z) : bool :=
  unreserved z || among "!$&'()*+,;=:[]<>" z || (z =? 34)%Z.
Definition path_kept (z : Z) : bool := unreserved z || among "$&+,/:;=@" z.

Definition upper_hex_digit (n : Z) : ascii :=
  byte_of (if (n <? 10)%Z then 48 + n else 55 + n)%Z.

Definition percent (z : Z) : string :=
  String "%"%char (String (upper_hex_digit (z / 16))
    (String (upper_hex_digit (z mod 16)) EmptyString)).

Definition url_escape (kept : Z -> bool) (s : string) : string :=
  concat_str ((fun a => let z := zbyte a in
                if kept z then String a EmptyString else percent z) <$> bytes s).

Definition QueryEscape (s : string) : string :=
  concat_str ((fun a => let z := zbyte a in
                if unreserved z then String a EmptyString
                else if (z =? 32)%Z then "+" else percent z) <$> bytes s).

(** [url.Values.Encode]: the keys in order. *)
Fixpoint insert_key (x : string * string) (l : list (string * string)) : list (string * string) :=
  match l with
  | [] => [x]
  | y :: l' => if String.leb x.1 y.1 then x :: l else y :: insert_key x l'
  end.

Definition sort_keys (l : list (string * string)) : list (string * string) :=
  fold_right insert_key [] l.

Definition encode_query (l : list (string * string)) : string :=
  join "&" ((fun x : string * string => sprintf [QueryEscape x.1; "="; QueryEscape x.2])
              <$> sort_keys l).

(** [url.URL.String] of a scheme, a host, a path and a query. *)
Definition url_string (scheme host path query : string) : string :=
  let escaped := if streq path "*" then "*" else url_escape path_kept path in
  sprintf [ if is_empty scheme then "" else scheme +:+ ":";
            "//"; url_escape host_kept host;
            if negb (is_empty escaped) && negb (has_prefix escaped "/") && negb (is_empty host)
            then "/" else "";
            escaped;
            if is_empty query then "" else "?" +:+ query ].

(* ------------------------------------------------------------------ *)
(** ** Options and requests                                            *)
(* ------------------------------------------------------------------ *)

Record RESTOptions : Type := {
  ro_PrintOption : string;
  ro_Protocol : string;
  ro_ServerIP : string;
  ro_ServerPort : Z;
  ro_Timeout : Z;
  ro_Token : string;
  ro_BearerAuth : bool;
  ro_Originator : string;
  ro_Insecure : bool;
  ro_CACertFile : string;
  ro_ClientCertFile : string;
  ro_ClientKeyFile : string
}.

Record RequestInfo : Type := {
  ri_provider : string;
  ri_apiVersion : string;
  ri_resource : string;
  ri_subResource : list string;
  ri_queryArgs : option (list (string * string))
}.

Definition makeBaseURL (r : RequestInfo) : string :=
  let p := path_join [ri_provider r; ri_apiVersion r] in
  let p := if is_empty (ri_resource r) then p else path_join [p; ri_resource r] in
  match ri_subResource r with
  | [] => p
  | sub => path_join [p; path_join sub]
  end.

(** [RESTClient]: the options and the transport. *)
Record RESTClient : Type := {
  rc_Options : RESTOptions;
  rc_TLS : option tls_config
}.

Definition GetHost (c : RESTClient) : string :=
  sprintf [ro_ServerIP (rc_Options c); ":"; itoa (ro_ServerPort (rc_Options c))].

Definition OriginatorHeader : string := "X-Loxilb-Originator".

(** [setAuthHeader]: the header, if one is set. *)
Definition auth_header (o : RESTOptions) : list (string * string) :=
  let token := trim_space (ro_Token o) in
  if is_empty token then []
  else [("Authorization",
         if ro_BearerAuth o && negb (has_prefix token "Bearer ") then "Bearer " +:+ token
         else token)].

(** [setOriginatorHeader]. *)
Definition originator_header (o : RESTOptions) : list (string * string) :=
  if is_empty (ro_Originator o) then [] else [(OriginatorHeader, ro_Originator o)].

(** The request each verb of [RESTClient] builds. *)
Definition build_request (c : RESTClient) (method url : string) (body : option string)
    : http_request :=
  {| hq_method := method; hq_url := url;
     hq_headers := [("Content-Type", "application/json")] ++ auth_header (rc_Options c)
                   ++ originator_header (rc_Options c);
     hq_body := body; hq_tls := rc_TLS c |}.

Definition http_result : Type := result string http_response.

Definition GET (c : RESTClient) (url : string) : IO http_result :=
  http_do (build_request c "GET" url None).
Definition POST (c : RESTClient) (url body : string) : IO http_result :=
  http_do (build_request c "POST" url (Some body)).
Definition DELETE (c : RESTClient) (url : string) : IO http_result :=
  http_do (build_request c "DELETE" url None).
Definition DELETEWithBody (c : RESTClient) (url body : string) : IO http_result :=
  http_do (build_request c "DELETE" url (Some body)).
Definition PATCH (c : RESTClient) (url body : string) : IO http_result :=
  http_do (build_request c "PATCH" url (Some body)).
Definition PUT (c : RESTClient) (url body : string) : IO http_result :=
  http_do (build_request c "PUT" url (Some body)).

(* ------------------------------------------------------------------ *)
(** ** [CommonAPI]                                                     *)
(* ------------------------------------------------------------------ *)

Record CommonAPI : Type := {
  ca_restClient : RESTClient;
  ca_requestInfo : RequestInfo
}.

Definition GetUrlString (l : CommonAPI) : string :=
  url_string (ro_Protocol (rc_Options (ca_restClient l))) (GetHost (ca_restClient l))
    (makeBaseURL (ca_requestInfo l))
    (match ri_queryArgs (ca_requestInfo l) with Some q => encode_query q | None => "" end).

(** A request whose body is the JSON of a value. *)
Definition with_body `{GoLib} (modelbody : gojson) (send : string -> IO http_result)
    : IO http_result :=
  match marshal modelbody with
  | None => mret (Err (json_text "Marshal" (encode modelbody)))
  | Some body => send body
  end.

Definition Create `{GoLib} (l : CommonAPI) (modelbody : gojson) : IO http_result :=
  with_body modelbody (POST (ca_restClient l) (GetUrlString l)).
Definition Delete (l : CommonAPI) : IO http_result := DELETE (ca_restClient l) (GetUrlString l).
Definition Update `{GoLib} (l : CommonAPI) (modelbody : gojson) : IO http_result :=
  with_body modelbody (PATCH (ca_restClient l) (GetUrlString l)).
Definition Put `{GoLib} (l : CommonAPI) (modelbody : gojson) : IO http_result :=
  with_body modelbody (PUT (ca_restClient l) (GetUrlString l)).
Definition DeleteWithBody `{GoLib} (l : CommonAPI) (modelbody : gojson) : IO http_result :=
  with_body modelbody (DELETEWithBody (ca_restClient l) (GetUrlString l)).
Definition Get (l : CommonAPI) : IO http_result := GET (ca_restClient l) (GetUrlString l).

Definition with_info (l : CommonAPI) (i : RequestInfo) : CommonAPI :=
  {| ca_restClient := ca_restClient l; ca_requestInfo := i |}.

Definition SubResources (l : CommonAPI) (resourceList : list string) : CommonAPI :=
  let i := ca_requestInfo l in
  with_info l {| ri_provider := ri_provider i; ri_apiVersion := ri_apiVersion i;
                 ri_resource := ri_resource i;
                 ri_subResource := ri_subResource i ++ resourceList;
                 ri_queryArgs := ri_queryArgs i |}.

Definition Query (l : CommonAPI) (queryArgs : list (string * string)) : CommonAPI :=
  let i := ca_requestInfo l in
  with_info l {| ri_provider := ri_provider i; ri_apiVersion := ri_apiVersion i;
                 ri_resource := ri_resource i; ri_subResource := ri_subResource i;
                 ri_queryArgs := Some queryArgs |}.

Definition SetUrl (l : CommonAPI) (url : string) : CommonAPI :=
  let i := ca_requestInfo l in
  with_info l {| ri_provider := ri_provider i; ri_apiVersion := ri_apiVersion i;
                 ri_resource := url; ri_subResource := ri_subResource i;
                 ri_queryArgs := ri_queryArgs i |}.

(* ------------------------------------------------------------------ *)
(** ** The TLS configuration                                           *)
(* ------------------------------------------------------------------ *)

Definition needsTLSConfig (o : RESTOptions) : bool :=
  streq (ro_Protocol o) "https" || ro_Insecure o || negb (is_empty (ro_CACertFile o))
  || negb (is_empty (ro_ClientCertFile o)) || negb (is_empty (ro_ClientKeyFile o)).

(** The CA bundle: its text, if one is named. *)
Definition read_ca (file : string) : IO (result string (option string)) :=
  if is_empty file then mret (Ok None)
  else
    pem ← read_file file;
    match pem with
    | Err e => mret (Err (sprintf ["reading CA cert "; quote file; ": "; os_text e]))
    | Ok pem =>
        ok ← perform (OpParsePEM pem);
        mret (if (ok : bool) then Ok (Some pem)
              else Err ("no valid certificates found in CA cert " +:+ quote file))
    end.

Definition load_key_pair (cert key : string) : IO (result string (option (string * string))) :=
  if is_empty cert && is_empty key then mret (Ok None)
  else if is_empty cert || is_empty key
  then mret (Err "--cert and --key must be supplied together")
  else
    e ← perform (OpLoadKeyPair cert key);
    mret (match (e : option string) with
          | Some text => Err ("loading client cert/key: " +:+ text)
          | None => Ok (Some (cert, key))
          end).

Definition buildTLSConfig (o : RESTOptions) : IO (result string tls_config) :=
  let* roots := read_ca (ro_CACertFile o) in
  let* certs := load_key_pair (ro_ClientCertFile o) (ro_ClientKeyFile o) in
  mret (Ok {| tc_InsecureSkipVerify := ro_Insecure o; tc_RootCAs := roots;
              tc_Certificates := certs |}).

Definition LoxiClient : Type := RESTClient.

Definition NewLoxiClient (o : RESTOptions) : IO LoxiClient :=
  if needsTLSConfig o then
    cfg ← buildTLSConfig o;
    match cfg with
    | Err e =>
        _ ← write_err (sprintf ["Error: TLS configuration: "; e; String "010"%char EmptyString]);
        mret {| rc_Options := o; rc_TLS := None |}
    | Ok cfg => mret {| rc_Options := o; rc_TLS := Some cfg |}
    end
  else mret {| rc_Options := o; rc_TLS := None |}.

(* ------------------------------------------------------------------ *)
(** ** The originator                                                  *)
(* ------------------------------------------------------------------ *)

Definition originatorScheme : string := "cli:".
Definition originatorMaxBytes : Z := 256.

Definition printable_ascii (a : ascii) : bool := in_range 32 126 (zbyte a).

(** The offset of the first byte outside printable ASCII. *)
Fixpoint first_unprintable (i : Z) (l : list ascii) : option Z :=
  match l with
  | [] => None
  | a :: l' => if printable_ascii a then first_unprintable (i + 1) l' else Some i
  end.

Definition CLIOriginator (osUser host : string) : result string string :=
  reject (is_empty osUser) with_ "the OS user name is empty";;
  reject (is_empty host) with_ "the host name is empty";;
  let v := sprintf [originatorScheme; osUser; "@"; host] in
  reject (originatorMaxBytes <? slen v)%Z
    with_ sprintf [quote v; " is "; itoa (slen v); " bytes; the gateway accepts at most ";
                   itoa originatorMaxBytes];;
  match first_unprintable 0 (bytes v) with
  | Some i => Err (sprintf [quote v; " has a byte outside printable ASCII at offset "; itoa i])
  | None => Ok v
  end.

(* ------------------------------------------------------------------ *)
(** ** The resources of the gateway                                    *)
(* ------------------------------------------------------------------ *)

(** [LoxiClient]'s constructors: one API per resource. *)
Definition loxiProvider : string := "netlox".
Definition loxiApiVersion : string := "v1".
Definition loxiLoadBalancerResource : string := "config/loadbalancer".
Definition loxiLoadBalancerResourceAll : string := "config/loadbalancer/all".
Definition loxiConntrackResource : string := "config/conntrack/all".
Definition loxiPortResource : string := "config/port/all".
Definition loxiSessionResource : string := "config/session".
Definition loxiSessionUlClResource : string := "config/sessionulcl".
Definition loxiPolicyResource : string := "config/policy".
Definition loxiRouteResource : string := "config/route".
Definition loxiIPv4AddressResource : string := "config/ipv4address".
Definition loxiNeighborResource : string := "config/neighbor".
Definition loxiFDBResource : string := "config/fdb".
Definition loxiVlanResource : string := "config/vlan".
Definition loxiVxlanResource : string := "config/tunnel/vxlan".
Definition loxiMirrorResource : string := "config/mirror".
Definition loxiFirewallResource : string := "config/firewall".
Definition loxiEndPointResource : string := "config/endpoint".
Definition loxiParamResource : string := "config/params".
Definition loxiBGPNeighResource : string := "config/bgp/neigh".
Definition loxiStatusResource : string := "status".
Definition loxiBFDSessionResource : string := "config/bfd".
Definition loxiVersionResource : string := "version".
Definition loxiLoginResource : string := "auth/login".
Definition loxiAIApiKeyResource : string := "config/ai/apikey".
Definition loxiAITenantRateLimit : string := "config/ai/tenant/ratelimit".
Definition loxiAIKvInventoryResource : string := "config/ai/kv/inventory".
Definition loxiAIObjectiveResource : string := "config/ai/objective".
Definition loxiAINetIdentityResource : string := "config/ai/netidentity".
Definition loxiAIJWTAuthProfileResource : string := "config/ai/jwtauthprofile".
Definition loxiUserResource : string := "auth/users".
Definition loxiCertResource : string := "config/cert".
Definition loxiSNIResource : string := "sni/certificates".
Definition loxiMetricsResource : string := "config/metrics".
Definition loxiGPUResource : string := "config/gpu".
Definition loxiWorkerMetricsResource : string := "config/worker/metrics".
Definition loxiPIIResource : string := "config/pii".
Definition loxiLlamaFirewallResource : string := "config/llamafirewall".
Definition loxiTraceResource : string := "config/trace".
Definition loxiL4TraceResource : string := "config/l4trace".
Definition loxiOPAResource : string := "config/opa/watcher".
Definition loxiDPUResource : string := "config/dpu".
Definition loxiSnapshotResource : string := "config/snapshot".
Definition loxiRestoreResource : string := "config/restore".
Definition loxiPersistResource : string := "config/persist".
Definition loxiMaintenanceResource : string := "maintenance".
Definition loxiDiagnosticsResource : string := "diagnostics".
Definition loxiStatusReadyResource : string := "status/ready".
Definition loxiLogsResource : string := "logs".
Definition loxiLogArchivesResource : string := "log-archives".
Definition loxiAuditStatusResource : string := "audit/status".
Definition loxiAuditSinkResource : string := "audit/sink".
Definition loxiAuditSinksResource : string := "audit/sinks".

Definition resource (l : LoxiClient) (path : string) : CommonAPI :=
  {| ca_restClient := l;
     ca_requestInfo := {| ri_provider := loxiProvider; ri_apiVersion := loxiApiVersion;
                          ri_resource := path; ri_subResource := []; ri_queryArgs := None |} |}.

Module Client.
Definition LoadBalancer (l : LoxiClient) : CommonAPI := resource l loxiLoadBalancerResource.
Definition LoadBalancerAll (l : LoxiClient) : CommonAPI := resource l loxiLoadBalancerResourceAll.
Definition Conntrack (l : LoxiClient) : CommonAPI := resource l loxiConntrackResource.
Definition Port (l : LoxiClient) : CommonAPI := resource l loxiPortResource.
Definition Session (l : LoxiClient) : CommonAPI := resource l loxiSessionResource.
Definition SessionUlCL (l : LoxiClient) : CommonAPI := resource l loxiSessionUlClResource.
Definition Policy (l : LoxiClient) : CommonAPI := resource l loxiPolicyResource.
Definition Route (l : LoxiClient) : CommonAPI := resource l loxiRouteResource.
Definition IPv4Address (l : LoxiClient) : CommonAPI := resource l loxiIPv4AddressResource.
Definition Neighbor (l : LoxiClient) : CommonAPI := resource l loxiNeighborResource.
Definition FDB (l : LoxiClient) : CommonAPI := resource l loxiFDBResource.
Definition Vlan (l : LoxiClient) : CommonAPI := resource l loxiVlanResource.
Definition Vxlan (l : LoxiClient) : CommonAPI := resource l loxiVxlanResource.
Definition Status (l : LoxiClient) : CommonAPI := resource l loxiStatusResource.
Definition Firewall (l : LoxiClient) : CommonAPI := resource l loxiFirewallResource.
Definition Mirror (l : LoxiClient) : CommonAPI := resource l loxiMirrorResource.
Definition EndPoint (l : LoxiClient) : CommonAPI := resource l loxiEndPointResource.
Definition Param (l : LoxiClient) : CommonAPI := resource l loxiParamResource.
Definition BGPNeighbor (l : LoxiClient) : CommonAPI := resource l loxiBGPNeighResource.
Definition BFDSession (l : LoxiClient) : CommonAPI := resource l loxiBFDSessionResource.
Definition LBVersion (l : LoxiClient) : CommonAPI := resource l loxiVersionResource.
Definition Login (l : LoxiClient) : CommonAPI := resource l loxiLoginResource.
Definition AIApiKey (l : LoxiClient) : CommonAPI := resource l loxiAIApiKeyResource.
Definition AITenantRatelimit (l : LoxiClient) : CommonAPI := resource l loxiAITenantRateLimit.
Definition AIObjective (l : LoxiClient) : CommonAPI := resource l loxiAIObjectiveResource.
Definition AINetIdentity (l : LoxiClient) : CommonAPI := resource l loxiAINetIdentityResource.
Definition AIJWTAuthProfile (l : LoxiClient) : CommonAPI := resource l loxiAIJWTAuthProfileResource.
Definition AIKvInventory (l : LoxiClient) : CommonAPI := resource l loxiAIKvInventoryResource.
Definition User (l : LoxiClient) : CommonAPI := resource l loxiUserResource.
Definition Cert (l : LoxiClient) : CommonAPI := resource l loxiCertResource.
Definition SNICertificate (l : LoxiClient) : CommonAPI := resource l loxiSNIResource.
Definition Metrics (l : LoxiClient) : CommonAPI := resource l loxiMetricsResource.
Definition GPU (l : LoxiClient) : CommonAPI := resource l loxiGPUResource.
Definition WorkerMetrics (l : LoxiClient) : CommonAPI := resource l loxiWorkerMetricsResource.
Definition PII (l : LoxiClient) : CommonAPI := resource l loxiPIIResource.
Definition LlamaFirewall (l : LoxiClient) : CommonAPI := resource l loxiLlamaFirewallResource.
Definition Trace (l : LoxiClient) : CommonAPI := resource l loxiTraceResource.
Definition L4Trace (l : LoxiClient) : CommonAPI := resource l loxiL4TraceResource.
Definition OPA (l : LoxiClient) : CommonAPI := resource l loxiOPAResource.
Definition DPU (l : LoxiClient) : CommonAPI := resource l loxiDPUResource.
Definition Snapshot (l : LoxiClient) : CommonAPI := resource l loxiSnapshotResource.
Definition Diagnostics (l : LoxiClient) : CommonAPI := resource l loxiDiagnosticsResource.
Definition Logs (l : LoxiClient) : CommonAPI := resource l loxiLogsResource.
Definition LogArchives (l : LoxiClient) : CommonAPI := resource l loxiLogArchivesResource.
Definition AuditStatus (l : LoxiClient) : CommonAPI := resource l loxiAuditStatusResource.
Definition AuditSink (l : LoxiClient) : CommonAPI := resource l loxiAuditSinkResource.
Definition AuditSinks (l : LoxiClient) : CommonAPI := resource l loxiAuditSinksResource.
Definition StatusReady (l : LoxiClient) : CommonAPI := resource l loxiStatusReadyResource.
Definition Maintenance (l : LoxiClient) : CommonAPI := resource l loxiMaintenanceResource.
Definition Restore (l : LoxiClient) : CommonAPI := resource l loxiRestoreResource.
Definition Persist (l : LoxiClient) : CommonAPI := resource l loxiPersistResource.
End Client.

(* ------------------------------------------------------------------ *)
(** ** Lemmas                                                          *)
(* ------------------------------------------------------------------ *)

(** An element of a path that [path.Clean] leaves where it is. *)
Definition bare (e : string) : bool :=
  negb (is_empty e) && negb (streq e ".") && negb (streq e "..") && negb (contains_byte e 47).

Lemma split_no_sep s : contains_byte s 47 = false -> split "/"%char s = [s].
Proof.
  unfold contains_byte, bytes. induction s as [|a s IH]; [done|]. simpl.
  intros [Ha Hs]%orb_false_iff. rewrite (IH Hs).
  destruct (Ascii.eqb a "/") eqn:He; [|done].
  apply Ascii.eqb_eq in He as ->. discriminate Ha.
Qed.

Lemma split_app s t :
  contains_byte s 47 = false ->
  split "/"%char (s +:+ String "/"%char t) = s :: split "/"%char t.
Proof.
  unfold contains_byte, bytes. induction s as [|a s IH]; [done|]. simpl.
  intros [Ha Hs]%orb_false_iff. unfold String.append in IH. fold String.append in IH.
  rewrite (IH Hs). destruct (Ascii.eqb a "/") eqn:He; [|done].
  apply Ascii.eqb_eq in He as ->. discriminate Ha.
Qed.

Lemma bare_parts e :
  bare e = true -> e <> "" /\ e <> "." /\ e <> ".." /\ contains_byte e 47 = false.
Proof.
  unfold bare. rewrite !andb_true_iff, !negb_true_iff, is_empty_false, !streq_false. naive_solver.
Qed.

Lemma join_cons e e' l : join "/" (e :: e' :: l) = e +:+ String "/"%char (join "/" (e' :: l)).
Proof. reflexivity. Qed.

Lemma split_join l :
  l <> [] -> Forall (fun e => bare e = true) l -> split "/"%char (join "/" l) = l.
Proof.
  intros Hne Hl. induction Hl as [|e l He Hl IH]; [done|].
  apply bare_parts in He as (_ & _ & _ & He). destruct l as [|e' l].
  - by apply split_no_sep.
  - rewrite join_cons, split_app, IH by done. done.
Qed.

Lemma clean_bare rooted out l :
  Forall (fun e => bare e = true) l -> clean_elements rooted out l = rev out ++ l.
Proof.
  intros Hl. revert out. induction Hl as [|e l He Hl IH]; intros out; simpl.
  - by rewrite app_nil_r.
  - apply bare_parts in He as (He1 & He2 & He3 & _).
    apply is_empty_false in He1. apply streq_false in He2, He3.
    rewrite He1, He2, He3. simpl. rewrite IH. simpl. by rewrite <- app_assoc.
Qed.

Lemma bare_first e t : bare e = true -> has_prefix (e +:+ t) "/" = false /\ e +:+ t <> "".
Proof.
  intros (He & _ & _ & Hs)%bare_parts. destruct e as [|a e]; [done|]. split; [|done].
  unfold contains_byte, bytes in Hs. simpl in Hs. apply orb_false_iff in Hs as [Ha _].
  change (has_prefix (String a e +:+ t) "/")
    with (if ascii_dec "/"%char a then String.prefix "" (e +:+ t) else false).
  destruct (ascii_dec "/"%char a) as [<-|]; [discriminate Ha | done].
Qed.

Lemma join_first e l : exists t, join "/" (e :: l) = e +:+ t.
Proof.
  destruct l as [|e' l]; [exists "" | by exists (String "/"%char (join "/" (e' :: l)))].
  change (e = e +:+ ""). induction e as [|a e IH]; [done|].
  change (String a e = String a (e +:+ "")). by rewrite <- IH.
Qed.

Lemma path_clean_bare l :
  l <> [] -> Forall (fun e => bare e = true) l -> path_clean (join "/" l) = join "/" l.
Proof.
  intros Hne Hl. unfold path_clean. rewrite split_join by done. rewrite clean_bare by done. simpl.
  destruct Hl as [|e l He Hl]; [done|]. destruct (join_first e l) as [t Ht]. rewrite Ht.
  destruct (bare_first e t He) as [-> Hnil]. apply is_empty_false in Hnil. by rewrite Hnil.
Qed.

Lemma join_app l e k :
  l <> [] -> join "/" (l ++ e :: k) = join "/" l +:+ String "/"%char (join "/" (e :: k)).
Proof.
  intros Hl. induction l as [|x l IH]; [done|]. destruct l as [|y l]; [reflexivity|].
  change ((x :: y :: l) ++ e :: k) with (x :: y :: (l ++ e :: k)).
  rewrite !join_cons, string_app_assoc. f_equal.
  change (String "/" (join "/" (y :: (l ++ e :: k)))
          = String "/" (join "/" (y :: l) +:+ String "/" (join "/" (e :: k)))).
  f_equal. by apply IH.
Qed.

Lemma join_join ls :
  Forall (fun l : list string => l <> []) ls -> join "/" (join "/" <$> ls) = join "/" (concat ls).
Proof.
  intros Hls. induction Hls as [|l ls Hl Hls IH]; [done|].
  destruct Hls as [|l' ls Hl' Hls]; [rewrite fmap_cons; simpl; by rewrite app_nil_r|].
  rewrite !fmap_cons in *. rewrite join_cons, IH. cbn [concat].
  destruct l' as [|e' l']; [done|]. cbn [concat app]. by rewrite join_app.
Qed.

Lemma path_join_bare ls :
  ls <> [] -> Forall (fun l => l <> [] /\ Forall (fun e => bare e = true) l) ls ->
  path_join (join "/" <$> ls) = join "/" (concat ls).
Proof.
  intros Hne Hls. unfold path_join.
  assert (Hf : List.filter (fun e => negb (is_empty e)) (join "/" <$> ls) = join "/" <$> ls).
  { clear Hne. induction Hls as [|l ls [Hl Hb] Hls IH]; [done|]. rewrite fmap_cons. simpl.
    destruct Hb as [|e l He Hb]; [done|]. destruct (join_first e l) as [t Ht]. rewrite Ht.
    destruct (bare_first e t He) as [_ Hnil]. apply is_empty_false in Hnil. rewrite Hnil. simpl.
    by rewrite IH. }
  rewrite Hf, <- join_join by (eapply Forall_impl; [exact Hls | naive_solver]).
  destruct (join "/" <$> ls) as [|x k] eqn:He; [by destruct ls|]. rewrite <- He.
  rewrite join_join by (eapply Forall_impl; [exact Hls | naive_solver]).
  apply path_clean_bare.
  - destruct Hls as [|[|e l] ls [Hl _] _]; done.
  - apply Forall_concat. eapply Forall_impl; [exact Hls | naive_solver].
Qed.

(** The resources of the gateway, as elements below [netlox/v1]. *)
Definition loxiResources : list string :=
  [ loxiLoadBalancerResource; loxiLoadBalancerResourceAll; loxiConntrackResource;
    loxiPortResource; loxiSessionResource; loxiSessionUlClResource;
    loxiPolicyResource; loxiRouteResource; loxiIPv4AddressResource;
    loxiNeighborResource; loxiFDBResource; loxiVlanResource;
    loxiVxlanResource; loxiMirrorResource; loxiFirewallResource;
    loxiEndPointResource; loxiParamResource; loxiBGPNeighResource;
    loxiStatusResource; loxiBFDSessionResource; loxiVersionResource;
    loxiLoginResource; loxiAIApiKeyResource; loxiAITenantRateLimit;
    loxiAIKvInventoryResource; loxiAIObjectiveResource; loxiAINetIdentityResource;
    loxiAIJWTAuthProfileResource; loxiUserResource; loxiCertResource;
    loxiSNIResource; loxiMetricsResource; loxiGPUResource;
    loxiWorkerMetricsResource; loxiPIIResource; loxiLlamaFirewallResource;
    loxiTraceResource; loxiL4TraceResource; loxiOPAResource;
    loxiDPUResource; loxiSnapshotResource; loxiRestoreResource;
    loxiPersistResource; loxiMaintenanceResource; loxiDiagnosticsResource;
    loxiStatusReadyResource; loxiLogsResource; loxiLogArchivesResource;
    loxiAuditStatusResource; loxiAuditSinkResource; loxiAuditSinksResource ].

(** A path whose elements are all bare. *)
Definition plain_path (p : string) : bool := forallb bare (split "/"%char p).

Lemma plain_path_true p :
  plain_path p = true <-> Forall (fun e => bare e = true) (split "/"%char p).
Proof.
  unfold plain_path. rewrite forallb_forall, Forall_forall.
  split; intros H e He; apply H; by apply list_elem_of_In.
Qed.

Lemma resources_plain : forallb plain_path loxiResources = true.
Proof. vm_compute. reflexivity. Qed.

Lemma resource_elements r :
  r ∈ loxiResources -> Forall (fun e => bare e = true) (split "/"%char r).
Proof.
  intros Hr. apply plain_path_true. pose proof resources_plain as H.
  rewrite forallb_forall in H. apply H. by apply list_elem_of_In.
Qed.

(** The base URL of bare elements below a resource. *)
Lemma base_url_bare r sub :
  r ∈ loxiResources -> Forall (fun e => bare e = true) sub ->
  makeBaseURL {| ri_provider := loxiProvider; ri_apiVersion := loxiApiVersion; ri_resource := r;
                 ri_subResource := sub; ri_queryArgs := None |}
  = join "/" (["netlox"; "v1"] ++ split "/"%char r ++ sub).
Proof.
  intros Hr Hsub. pose proof (resource_elements r Hr) as Hb.
  pose proof (split_nonempty "/"%char r) as Hn.
  assert (Hne : is_empty r = false).
  { apply is_empty_false. intros ->. inversion Hb as [|? ? He _]; subst. discriminate He. }
  assert (H0 : Forall (fun l : list string => l <> [] /\ Forall (fun e => bare e = true) l)
                 [["netlox"; "v1"]; split "/"%char r]).
  { repeat constructor; done. }
  unfold makeBaseURL. cbn [ri_provider ri_apiVersion ri_resource ri_subResource]. rewrite Hne.
  change (path_join [loxiProvider; loxiApiVersion]) with (join "/" ["netlox"; "v1"]).
  pose proof (path_join_bare [["netlox"; "v1"]; split "/"%char r] ltac:(discriminate) H0) as H1.
  rewrite !fmap_cons, join_split in H1. change (join "/" <$> []) with (@nil string) in H1.
  rewrite H1. cbn [concat]. rewrite app_nil_r.
  destruct sub as [|s sub]; [by rewrite app_nil_r|].
  assert (Hs : path_join (s :: sub) = join "/" (s :: sub)).
  { rewrite <- (path_clean_bare (s :: sub)) by done.
    assert (Hnn : (fun x : string => [x]) <$> (s :: sub) <> []) by done.
    pose proof (path_join_bare _ Hnn) as H2.
    rewrite <- list_fmap_compose in H2.
    assert (Hid : forall l : list string, (join "/" ∘ (fun x => [x])) <$> l = l)
      by (intros l; induction l as [|x l IH]; [done | rewrite fmap_cons, IH; done]).
    assert (Hc : forall l : list string, concat ((fun x => [x]) <$> l) = l)
      by (intros l; induction l as [|x l IH]; [done | rewrite fmap_cons; simpl; by rewrite IH]).
    rewrite Hid, Hc in H2. rewrite path_clean_bare by done. apply H2.
    apply Forall_fmap. eapply Forall_impl; [exact Hsub|]. intros e He. repeat constructor; done. }
  rewrite Hs.
  pose proof (path_join_bare [["netlox"; "v1"] ++ split "/"%char r; s :: sub] ltac:(discriminate)) as H3.
  cbn [concat fmap list_fmap] in H3. rewrite app_nil_r in H3. rewrite <- app_assoc in H3. apply H3.
  constructor; [|constructor; [by split | constructor]]. split; [done|].
  apply Forall_app_2; [by repeat constructor | done].
Qed.

(* ------------------------------------------------------------------ *)
(** ** Properties                                                      *)
(* ------------------------------------------------------------------ *)

(** The URL of a resource is the one the options name: the host and port of
    the options, [netlox/v1], the elements of the resource and the
    sub-resources, one element each, as long as no sub-resource is empty, a
    dot or holds a slash; the names of a request cannot leave their resource. *)
Theorem resource_url l r names :
  r ∈ loxiResources -> Forall (fun e => bare e = true) names ->
  exists path,
    GetUrlString (SubResources (resource l r) names)
    = url_string (ro_Protocol (rc_Options l)) (GetHost l) path ""
    /\ split "/"%char path = ["netlox"; "v1"] ++ split "/"%char r ++ names.
Proof.
  intros Hr Hn. eexists. split; [reflexivity|].
  change (ca_requestInfo (SubResources (resource l r) names))
    with {| ri_provider := loxiProvider; ri_apiVersion := loxiApiVersion; ri_resource := r;
            ri_subResource := names; ri_queryArgs := None |}.
  rewrite base_url_bare by done. apply split_join; [done|].
  pose proof (resource_elements r Hr) as Hb.
  repeat (apply Forall_cons; split; [done|]). by apply Forall_app_2.
Qed.

Definition local_options : RESTOptions :=
  {| ro_PrintOption := ""; ro_Protocol := "http"; ro_ServerIP := "127.0.0.1";
     ro_ServerPort := 11111; ro_Timeout := 10; ro_Token := "t0ken"; ro_BearerAuth := true;
     ro_Originator := ""; ro_Insecure := false; ro_CACertFile := ""; ro_ClientCertFile := "";
     ro_ClientKeyFile := "" |}.
Definition local_client : LoxiClient := {| rc_Options := local_options; rc_TLS := None |}.

Lemma resource_url_witness :
  exists path,
    GetUrlString (SubResources (Client.LogArchives local_client) ["gateway.log.1.gz"])
    = url_string "http" "127.0.0.1:11111" path ""
    /\ split "/"%char path = ["netlox"; "v1"; "log-archives"; "gateway.log.1.gz"].
Proof.
  destruct (resource_url local_client loxiLogArchivesResource ["gateway.log.1.gz"])
    as (path & Hu & Hp).
  - apply str_in_true. vm_compute. reflexivity.
  - repeat constructor.
  - exists path. split; [exact Hu | exact Hp].
Defined.

(** Every verb sends the same identity: one [Content-Type], an
    [Authorization] exactly when the token is not blank (with [Bearer ] in front
    exactly once when asked for), an originator exactly when one is set; the
    token shows up in no other part of the request. *)
Theorem request_identity c method url body :
  let req := build_request c method url body in
  let token := trim_space (ro_Token (rc_Options c)) in
  hq_method req = method /\ hq_url req = url /\ hq_body req = body
  /\ (is_empty token = true -> "Authorization" ∉ (hq_headers req).*1)
  /\ (is_empty token = false -> exists v, List.filter (fun x => streq x.1 "Authorization") (hq_headers req)
                                           = [("Authorization", v)]
        /\ (ro_BearerAuth (rc_Options c) = false -> v = token)
        /\ (ro_BearerAuth (rc_Options c) = true ->
              has_prefix v "Bearer " = true /\ (v = token \/ v = "Bearer " +:+ token)))
  /\ (OriginatorHeader ∈ (hq_headers req).*1 <-> ro_Originator (rc_Options c) <> "").
Proof.
  cbn zeta. unfold build_request, auth_header, originator_header. cbn [hq_method hq_url hq_body hq_headers].
  split_and!; try done.
  - intros ->. by destruct (is_empty (ro_Originator _)); simpl;
      rewrite !elem_of_cons, elem_of_nil; intros H; destruct_or?.
  - intros ->. eexists. split; [by destruct (is_empty (ro_Originator _))|].
    destruct (ro_BearerAuth (rc_Options c)); simpl; [|done]. split; [done|]. intros _.
    destruct (has_prefix (trim_space (ro_Token (rc_Options c))) "Bearer ") eqn:Hp; cbn [negb andb]; [by split; [|left]|].
    split; [|by right]. apply has_prefix_app. eauto.
  - destruct (is_empty (ro_Originator _)) eqn:Ho.
    + apply is_empty_true in Ho. split; [|done]. intros Hin. exfalso. revert Hin.
      destruct (is_empty (trim_space _)); simpl; set_solver.
    + apply is_empty_false in Ho. split; [done|]. intros _.
      rewrite !fmap_app, !elem_of_app. right; right. apply list_elem_of_here.
Qed.
