(* ===== verification/Requests.v ===== *)
(** * The requests of a run

    What the proofs about commands share: the requests of a trace with their
    answers, the operations around them, and how the construction of a client
    and the verbs run. *)
From S2P Require Import Prelude GoStrings Json JsonPrint World Errors Rest.

(* ------------------------------------------------------------------ *)
(** ** The requests of a trace                                         *)
(* ------------------------------------------------------------------ *)

Definition event_http (e : event) : list (http_request * http_result) :=
  match e with
  | Ev o a => match o return answer o -> list (http_request * http_result) with
              | OpHttp req => fun a => [(req, a)]
              | _ => fun _ => []
              end a
  end.

Definition https (t : trace) : list (http_request * http_result) := t ≫= event_http.

Lemma https_app t t' : https (t ++ t') = https t ++ https t'.
Proof. apply bind_app. Qed.

(** Operations that are not requests; those of the construction of a client,
    and those of a rendering. *)
Definition not_http (o : op) : Prop := match o with OpHttp _ => False | _ => True end.
Definition client_op (o : op) : Prop :=
  match o with OpReadFile _ | OpParsePEM _ | OpLoadKeyPair _ _ | OpStderr _ => True | _ => False end.
Definition output_op (o : op) : Prop := match o with OpStdout _ => True | _ => False end.

Lemma https_none t : Forall (fun e => not_http (ev_op e)) t -> https t = [].
Proof.
  induction 1 as [|[o a] t Ho Ht IH]; [done|].
  change (https (Ev o a :: t)) with (event_http (Ev o a) ++ https t). rewrite IH. by destruct o.
Qed.

Lemma client_ops o : ops_satisfy client_op (NewLoxiClient o).
Proof.
  unfold NewLoxiClient, buildTLSConfig, read_ca, load_key_pair, read_file, write_err.
  repeat first [ops_step | apply ops_perform; exact I].
Qed.

Lemma client_options o w h : rc_Options (NewLoxiClient o w h).1 = o.
Proof.
  change (wp (NewLoxiClient o) w h (fun c _ => rc_Options c = o)).
  unfold NewLoxiClient. apply wp_if; intros _; [|by apply wp_ret].
  apply wp_bind. rewrite wp_value. intros [cfg|e] t _; [by apply wp_ret|].
  apply wp_bind. rewrite wp_value. intros a t' _. by apply wp_ret.
Qed.

Definition event_stdout (e : event) : list string :=
  match ev_op e with OpStdout s => [s] | _ => [] end.

(** The texts that were written to the standard output. *)
Definition printed (t : trace) : list string := t ≫= event_stdout.

Lemma printed_app t t' : printed (t ++ t') = printed t ++ printed t'.
Proof. apply bind_app. Qed.

Definition not_stdout (o : op) : Prop := match o with OpStdout _ => False | _ => True end.

Lemma printed_none t : Forall (fun e => not_stdout (ev_op e)) t -> printed t = [].
Proof.
  induction 1 as [|[o a] t Ho Ht IH]; [done|].
  change (printed (Ev o a :: t)) with (event_stdout (Ev o a) ++ printed t). rewrite IH. by destruct o.
Qed.

Lemma client_prints_nothing t : Forall (fun e => client_op (ev_op e)) t -> printed t = [].
Proof. intros Ht. apply printed_none. eapply Forall_impl; [exact Ht|]. by intros [[] a]. Qed.

(** A computation that starts with a client. *)
Lemma wp_client {B} o (f : LoxiClient -> IO B) w h (Q : B -> trace -> Prop) :
  (forall c t, rc_Options c = o -> https t = [] -> Forall (fun e => client_op (ev_op e)) t ->
     wp (f c) w (h ++ t) (fun b t' => Q b (t ++ t'))) ->
  wp (mbind f (NewLoxiClient o)) w h Q.
Proof.
  intros H. apply wp_bind. rewrite wp_value. intros c t Hc.
  assert (Ht := client_ops o w h). assert (Ho := client_options o w h). rewrite Hc in Ht, Ho.
  apply H; [done | | done]. apply https_none. eapply Forall_impl; [exact Ht|].
  intros [[] a]; simpl; done.
Qed.

(** The verbs: one request each. *)
Lemma wp_http req w h (Q : http_result -> trace -> Prop) :
  (forall r, Q r [Ev (OpHttp req) r]) -> wp (http_do req) w h Q.
Proof. intros H. apply wp_perform. intros r _. apply H. Qed.

Lemma with_body_run `{GoLib} body json (send : string -> IO http_result) :
  marshal body = Some json -> with_body body send = send json.
Proof. unfold with_body. by intros ->. Qed.

(** A computation that sends nothing more. *)
Lemma quiet_wp {A} (m : IO A) w h (Q : A -> trace -> Prop) :
  ops_satisfy not_http m -> (forall a t, https t = [] -> Q a t) -> wp m w h Q.
Proof. intros Hm HQ. rewrite wp_value. intros a t Ha. apply HQ, https_none. specialize (Hm w h). by rewrite Ha in Hm. Qed.

Lemma output_quiet {A} (m : IO A) : ops_satisfy output_op m -> ops_satisfy not_http m.
Proof. apply ops_mono. by intros []. Qed.

(* ------------------------------------------------------------------ *)
(** ** Requests as specifications name them                            *)
(* ------------------------------------------------------------------ *)

(** A resource of the gateway by its path, an item of it by the names below that
    path, and both with a query: apart from the constructors of [Client]. *)
Definition at_path (path : string) (c : LoxiClient) : CommonAPI :=
  {| ca_restClient := c;
     ca_requestInfo := {| ri_provider := "netlox"; ri_apiVersion := "v1"; ri_resource := path;
                          ri_subResource := []; ri_queryArgs := None |} |}.
Definition item_at (path : string) (names : list string) (c : LoxiClient) : CommonAPI :=
  {| ca_restClient := c;
     ca_requestInfo := {| ri_provider := "netlox"; ri_apiVersion := "v1"; ri_resource := path;
                          ri_subResource := names; ri_queryArgs := None |} |}.
Definition query_at (path : string) (names : list string) (q : list (string * string)) (c : LoxiClient)
    : CommonAPI :=
  {| ca_restClient := c;
     ca_requestInfo := {| ri_provider := "netlox"; ri_apiVersion := "v1"; ri_resource := path;
                          ri_subResource := names; ri_queryArgs := Some q |} |}.

Definition always {A} (m : IO A) (P : A -> trace -> Prop) : Prop :=
  forall w, P (m w []).1 (m w []).2.
