(* ===== verification/Session.v ===== *)
(** * The root command: [cmd/root.go]

    What runs before every command: the originator and the token of the
    session. *)
From S2P Require Import Prelude GoStrings Json JsonPrint World Errors Exitcode SecretFile Rest.

Definition SessionTokenPath : string := "/tmp/loxilbtoken".
Definition SessionRefreshTokenPath : string := "/tmp/loxilbrefreshtoken".

Definition originator_refused (message : string) : goerror :=
  ECLI (cli_error Precondition ("--originator: " +:+ message) "" "originator-unavailable").

Definition cliOriginator : IO (result goerror string) :=
  user ← perform OpUser;
  match (user : result string string) with
  | Err e => mret (Err (originator_refused ("cannot determine the OS user: " +:+ e)))
  | Ok user =>
      host ← perform OpHostname;
      match (host : result string string) with
      | Err e => mret (Err (originator_refused ("cannot determine the host name: " +:+ e)))
      | Ok host =>
          mret (match CLIOriginator user host with
                | Err e => Err (originator_refused e)
                | Ok v => Ok v
                end)
      end
  end.

Definition with_originator (o : RESTOptions) (v : string) : RESTOptions :=
  {| ro_PrintOption := ro_PrintOption o; ro_Protocol := ro_Protocol o;
     ro_ServerIP := ro_ServerIP o; ro_ServerPort := ro_ServerPort o; ro_Timeout := ro_Timeout o;
     ro_Token := ro_Token o; ro_BearerAuth := ro_BearerAuth o; ro_Originator := v;
     ro_Insecure := ro_Insecure o; ro_CACertFile := ro_CACertFile o;
     ro_ClientCertFile := ro_ClientCertFile o; ro_ClientKeyFile := ro_ClientKeyFile o |}.

Definition with_token (o : RESTOptions) (v : string) : RESTOptions :=
  {| ro_PrintOption := ro_PrintOption o; ro_Protocol := ro_Protocol o;
     ro_ServerIP := ro_ServerIP o; ro_ServerPort := ro_ServerPort o; ro_Timeout := ro_Timeout o;
     ro_Token := v; ro_BearerAuth := ro_BearerAuth o; ro_Originator := ro_Originator o;
     ro_Insecure := ro_Insecure o; ro_CACertFile := ro_CACertFile o;
     ro_ClientCertFile := ro_ClientCertFile o; ro_ClientKeyFile := ro_ClientKeyFile o |}.

Definition token_warning : string :=
  sprintf ["Warning: --token places the token in shell history and process listings; use ";
           "--token-file instead. --token is deprecated and a future release removes it.";
           String "010"%char EmptyString].

(** A secret read from a file, refused when empty. *)
Definition nonempty_secret (what path empty : string) : IO (result goerror string) :=
  let* secret := ReadSecretFile what path in
  mret (if is_empty secret
        then Err (ECLI (cli_error Precondition empty "" "secret-file-empty"))
        else Ok secret).

(** The flags of the root command besides the REST options; [token_changed] is
    whether [--token] was given. *)
Record root_flags : Type := {
  rf_tokenFile : string;
  rf_originator : bool;
  rf_token_changed : bool
}.

Definition set_originator (f : root_flags) (o : RESTOptions) : IO (result goerror RESTOptions) :=
  if rf_originator f then
    let* v := cliOriginator in mret (Ok (with_originator o v))
  else mret (Ok o).

Definition set_token (f : root_flags) (o : RESTOptions) : IO (result goerror RESTOptions) :=
  if negb (is_empty (rf_tokenFile f)) then
    let* secret := nonempty_secret "token file" (rf_tokenFile f)
      (sprintf ["the token file "; quote (rf_tokenFile f);
                " is empty; requests would go out unauthenticated"]) in
    mret (Ok (with_token o secret))
  else if rf_token_changed f then
    _ ← write_err token_warning; mret (Ok o)
  else
    info ← lstat SessionTokenPath;
    match info with
    | Err e =>
        mret (if os_not_exist e then Ok o
              else Err (ECLI (cli_error Precondition
                     (sprintf ["cannot check the session token file "; quote SessionTokenPath; ": ";
                               os_text e]) "" "file-read-failed")))
    | Ok _ =>
        let* secret := nonempty_secret "session token file" SessionTokenPath
          (sprintf ["the session token file "; quote SessionTokenPath;
                    " is empty; remove it or run "; dquote; "loxicmd set login"; dquote; " again"]) in
        mret (Ok (with_token o secret))
    end.

Definition PersistentPreRunE (f : root_flags) (o : RESTOptions) : IO (result goerror RESTOptions) :=
  let* o := set_originator f o in set_token f o.

(* ------------------------------------------------------------------ *)
(** ** Lemmas                                                          *)
(* ------------------------------------------------------------------ *)

(** A secret read from an owner-only regular file during a run. *)
Definition secret_of (path secret : string) (t : trace) : Prop :=
  exists info content,
    Ev (OpLstat path) (Ok info) ∈ t /\ Ev (OpReadFile path) (Ok content) ∈ t
    /\ owner_only_regular info /\ is_abs path = true
    /\ secret = trim_space content /\ secret <> "".

Lemma secret_of_app_l path secret t t' : secret_of path secret t -> secret_of path secret (t ++ t').
Proof.
  intros (info & content & H1 & H2 & H3). exists info, content.
  split; [set_solver|]. split; [set_solver|]. done.
Qed.

Lemma secret_of_app_r path secret t t' : secret_of path secret t' -> secret_of path secret (t ++ t').
Proof.
  intros (info & content & H1 & H2 & H3). exists info, content.
  split; [set_solver|]. split; [set_solver|]. done.
Qed.

Lemma read_secret_file_ok what path w h :
  wp (ReadSecretFile what path) w h (fun r t =>
    match r with Ok secret => secret_of path secret t | Err _ => True end).
Proof.
  unfold ReadSecretFile, read_file. apply wp_try. rewrite wp_value. intros r t Hr.
  rewrite check_secret_path_run in Hr. destruct (is_abs path) eqn:Habs; simpl in Hr; [|by simplify_eq].
  destruct (w h (OpLstat path)) as [info|e] eqn:Hl; simplify_eq; [|done].
  destruct (check_mode what path info) as [[]|e] eqn:Hc; [|done].
  wp_op. intros [content|e] Hread; [|done]. cbn zeta.
  destruct (is_empty (trim_space content)) eqn:He; [done|].
  apply wp_ret. exists info, content. apply check_mode_ok in Hc. apply is_empty_false in He.
  split_and!; try done; set_solver.
Qed.

Lemma nonempty_secret_ok what path empty w h :
  wp (nonempty_secret what path empty) w h (fun r t =>
    match r with Ok secret => secret_of path secret t | Err _ => True end).
Proof.
  unfold nonempty_secret. apply wp_try. eapply wp_mono; [apply read_secret_file_ok|].
  intros [secret|e] t Ht; [|done]. apply wp_ret. rewrite app_nil_r.
  by destruct (is_empty secret).
Qed.

(** What a run of the token resolution may have set. *)
Definition token_resolved (f : root_flags) (o o' : RESTOptions) (t : trace) : Prop :=
  exists token, o' = with_token o token /\
    ((token = ro_Token o /\ rf_tokenFile f = ""
      /\ (rf_token_changed f = true
          \/ exists e, Ev (OpLstat SessionTokenPath) (Err e) ∈ t /\ os_not_exist e = true))
     \/ (rf_tokenFile f <> "" /\ secret_of (rf_tokenFile f) token t)
     \/ (rf_tokenFile f = "" /\ rf_token_changed f = false /\ secret_of SessionTokenPath token t)).

Lemma with_token_same o : with_token o (ro_Token o) = o.
Proof. by destruct o. Qed.

Lemma set_token_ok f o w h :
  wp (set_token f o) w h (fun r t =>
    match r with Ok o' => token_resolved f o o' t | Err _ => True end).
Proof.
  unfold set_token, write_err, lstat. destruct (is_empty (rf_tokenFile f)) eqn:Hf; simpl.
  - apply is_empty_true in Hf. destruct (rf_token_changed f) eqn:Hc.
    + wp_op. intros e _. apply wp_ret. exists (ro_Token o).
      rewrite with_token_same. naive_solver.
    + wp_op. intros [info|e] Hl.
      * apply wp_try. eapply wp_mono; [apply nonempty_secret_ok|]. intros [s|e] t Ht; [|done].
        apply wp_ret. rewrite app_nil_r. exists s. split; [done|]. right; right.
        split_and!; try done. by apply secret_of_app_r.
      * apply wp_ret. destruct (os_not_exist e) eqn:He; [|done]. exists (ro_Token o).
        rewrite with_token_same. split; [done|]. left. split_and!; try done.
        right. exists e. split; [set_solver | done].
  - apply is_empty_false in Hf. apply wp_try. eapply wp_mono; [apply nonempty_secret_ok|].
    intros [s|e] t Ht; [|done]. apply wp_ret. rewrite app_nil_r. exists s. naive_solver.
Qed.

(* ------------------------------------------------------------------ *)
(** ** Properties                                                      *)
(* ------------------------------------------------------------------ *)

(** C15: a command runs with the token of the secret file it names, else with
    the one of [--token], else with the one of the session file, each file
    absolute, regular, owner-only and not blank; it runs without a token of a
    file only if [--token] was given or the session file does not exist.
    Whatever else [Lstat] says about that file ends the command. *)
Theorem session_token_resolved f o w :
  match (PersistentPreRunE f o w []).1 with
  | Err _ => True
  | Ok o' => exists o1, token_resolved f o1 o' (PersistentPreRunE f o w []).2
               /\ ro_Token o1 = ro_Token o
               /\ (rf_originator f = false -> o1 = o)
  end.
Proof.
  pose (Q := fun (r : result goerror RESTOptions) (t : trace) =>
    match r with
    | Err _ => True
    | Ok o' => exists o1, token_resolved f o1 o' t /\ ro_Token o1 = ro_Token o
                 /\ (rf_originator f = false -> o1 = o)
    end).
  change (wp (PersistentPreRunE f o) w [] Q). unfold PersistentPreRunE. apply wp_try.
  assert (Hset : forall o1 h t, ro_Token o1 = ro_Token o -> (rf_originator f = false -> o1 = o) ->
    wp (set_token f o1) w h (fun r t' => Q r (t ++ t'))).
  { intros o1 h t H1 H2. eapply wp_mono; [apply set_token_ok|].
    intros [o'|e] t'; [|done]. intros (token & -> & Htok). exists o1.
    split_and!; try done. exists token. split; [done|].
    destruct Htok as [(-> & Hf & [Hc|(e & He & Hne)])|[[Hf Hs]|(Hf & Hc & Hs)]].
    - left. auto.
    - left. split_and!; try done. right. exists e. set_solver.
    - right; left. split; [done | by apply secret_of_app_r].
    - right; right. split_and!; try done. by apply secret_of_app_r. }
  unfold set_originator. destruct (rf_originator f) eqn:Hor.
  - apply wp_try. rewrite wp_value. intros [v|e] t Ht; [|done].
    apply wp_ret. rewrite app_nil_r. by apply Hset.
  - apply wp_ret. by apply Hset.
Qed.

(** The originator header value is accepted exactly when it is
    [cli:user@host] with both parts, at most 256 bytes, all printable ASCII. *)
Theorem originator_exact user host v :
  CLIOriginator user host = Ok v <->
  v = sprintf [originatorScheme; user; "@"; host] /\ user <> "" /\ host <> ""
  /\ (slen v <= originatorMaxBytes)%Z /\ Forall (fun a => printable_ascii a = true) (bytes v).
Proof.
  assert (Hp : forall i l, first_unprintable i l = None <-> Forall (fun a => printable_ascii a = true) l).
  { intros i l. revert i. induction l as [|a l IH]; intros i; simpl; [by split; [constructor|]|].
    rewrite Forall_cons, <- (IH (i + 1)%Z). destruct (printable_ascii a); naive_solver. }
  unfold CLIOriginator. cbn zeta. rewrite !reject_ok, !is_empty_false, Z.ltb_ge.
  rewrite <- (Hp 0%Z). destruct (first_unprintable 0 _) eqn:Hu.
  - split; [naive_solver|]. intros (-> & _ & _ & _ & H). congruence.
  - split; [intros (? & ? & ? & [= <-]); by split_and! | by intros (-> & ? & ? & ? & _)].
Qed.
