(* ===== verification/ConfigLifecycle.v ===== *)
(** * The configuration lifecycle contract: [pkg/api/configlifecycle.go]

    What the gateway answers to a persist and to a restore, and the verdicts
    the client draws from those documents. *)
From S2P Require Import Prelude GoStrings Json JsonPrint World Errors Exitcode.

(* ------------------------------------------------------------------ *)
(** ** The documents                                                   *)
(* ------------------------------------------------------------------ *)

Record RestorePlanItem : Type := {
  rp_Domain : string;
  rp_ToDelete : Z;
  rp_ToApply : Z
}.
#[global] Instance restore_plan_item_value : GoValue RestorePlanItem := {|
  go_zero := {| rp_Domain := ""; rp_ToDelete := 0; rp_ToApply := 0 |};
  go_into strict old := decode_struct strict ["domain"; "to_delete"; "to_apply"] old (fun ms =>
    do_ ← field strict ms "domain" (rp_Domain old);
    de ← field strict ms "to_delete" (rp_ToDelete old);
    ap ← field strict ms "to_apply" (rp_ToApply old);
    Some {| rp_Domain := do_; rp_ToDelete := de; rp_ToApply := ap |}) |}.

Record ExternalDependencyStatus : Type := {
  ed_Type : string;
  ed_ID : string;
  ed_Generation : string;
  ed_Digest : string;
  ed_Required : bool;
  ed_Status : string
}.
#[global] Instance external_dependency_value : GoValue ExternalDependencyStatus := {|
  go_zero := {| ed_Type := ""; ed_ID := ""; ed_Generation := ""; ed_Digest := "";
                ed_Required := false; ed_Status := "" |};
  go_into strict old := decode_struct strict
    ["type"; "id"; "generation"; "digest"; "required"; "status"] old (fun ms =>
    ty ← field strict ms "type" (ed_Type old);
    id ← field strict ms "id" (ed_ID old);
    ge ← field strict ms "generation" (ed_Generation old);
    di ← field strict ms "digest" (ed_Digest old);
    re ← field strict ms "required" (ed_Required old);
    st ← field strict ms "status" (ed_Status old);
    Some {| ed_Type := ty; ed_ID := id; ed_Generation := ge; ed_Digest := di; ed_Required := re;
            ed_Status := st |}) |}.

Definition DependencyStatusReady : string := "ready".
Definition DependencyStatusConfigured : string := "configured".
Definition DependencyStatusVerified : string := "verified".
Definition DependencyStatusWarning : string := "warning".
Definition DependencyStatusFailed : string := "failed".
Definition DependencyStatusDeclared : string := "declared".

(** [ExternalDependencyStatus.String]. *)
Definition dependency_string (d : ExternalDependencyStatus) : string :=
  let id := if is_empty (ed_ID d) then ed_Type d else sprintf [ed_Type d; "/"; ed_ID d] in
  let scope := if ed_Required d then "required" else "optional" in
  let status := if is_empty (ed_Status d) then "unreported" else ed_Status d in
  sprintf [id; " ("; scope; "): "; status].

Record PersistResult : Type := {
  ps_Result : string;
  ps_Path : string;
  ps_Checksum : string;
  ps_SchemaVersion : string;
  ps_Generation : option uint64;
  ps_IncludedDomains : list string;
  ps_ExcludedDomains : list string;
  ps_ExternalDependencies : list ExternalDependencyStatus;
  ps_Warnings : list string
}.
#[global] Instance persist_result_value : GoValue PersistResult := {|
  go_zero := {| ps_Result := ""; ps_Path := ""; ps_Checksum := ""; ps_SchemaVersion := "";
                ps_Generation := None; ps_IncludedDomains := []; ps_ExcludedDomains := [];
                ps_ExternalDependencies := []; ps_Warnings := [] |};
  go_into strict old := decode_struct strict
    ["result"; "path"; "checksum"; "schema_version"; "generation"; "included_domains";
     "excluded_domains"; "external_dependencies"; "warnings"] old (fun ms =>
    re ← field strict ms "result" (ps_Result old);
    pa ← field strict ms "path" (ps_Path old);
    ch ← field strict ms "checksum" (ps_Checksum old);
    sv ← field strict ms "schema_version" (ps_SchemaVersion old);
    ge ← field strict ms "generation" (ps_Generation old);
    inc ← field strict ms "included_domains" (ps_IncludedDomains old);
    exc ← field strict ms "excluded_domains" (ps_ExcludedDomains old);
    ext ← field strict ms "external_dependencies" (ps_ExternalDependencies old);
    wa ← field strict ms "warnings" (ps_Warnings old);
    Some {| ps_Result := re; ps_Path := pa; ps_Checksum := ch; ps_SchemaVersion := sv;
            ps_Generation := ge; ps_IncludedDomains := inc; ps_ExcludedDomains := exc;
            ps_ExternalDependencies := ext; ps_Warnings := wa |}) |}.

Record RestoreResult : Type := {
  rr_Mode : string;
  rr_Compatible : option bool;
  rr_SchemaVersion : string;
  rr_SnapshotGatewayVersion : string;
  rr_CurrentGatewayVersion : string;
  rr_Plan : list RestorePlanItem;
  rr_Errors : list string;
  rr_Warnings : list string;
  rr_Result : string;
  rr_SnapshotGeneration : option uint64;
  rr_ExternalDependencies : list ExternalDependencyStatus;
  rr_Persisted : option bool;
  rr_PersistedGeneration : option uint64;
  rr_PreRestoreSnapshotPersisted : string
}.
#[global] Instance restore_result_value : GoValue RestoreResult := {|
  go_zero := {| rr_Mode := ""; rr_Compatible := None; rr_SchemaVersion := "";
                rr_SnapshotGatewayVersion := ""; rr_CurrentGatewayVersion := ""; rr_Plan := [];
                rr_Errors := []; rr_Warnings := []; rr_Result := "";
                rr_SnapshotGeneration := None; rr_ExternalDependencies := [];
                rr_Persisted := None; rr_PersistedGeneration := None;
                rr_PreRestoreSnapshotPersisted := "" |};
  go_into strict old := decode_struct strict
    ["mode"; "compatible"; "schema_version"; "snapshot_gateway_version";
     "current_gateway_version"; "plan"; "errors"; "warnings"; "result"; "snapshot_generation";
     "external_dependencies"; "persisted"; "persisted_generation";
     "pre_restore_snapshot_persisted"] old (fun ms =>
    mo ← field strict ms "mode" (rr_Mode old);
    co ← field strict ms "compatible" (rr_Compatible old);
    sv ← field strict ms "schema_version" (rr_SchemaVersion old);
    sg ← field strict ms "snapshot_gateway_version" (rr_SnapshotGatewayVersion old);
    cg ← field strict ms "current_gateway_version" (rr_CurrentGatewayVersion old);
    pl ← field strict ms "plan" (rr_Plan old);
    er ← field strict ms "errors" (rr_Errors old);
    wa ← field strict ms "warnings" (rr_Warnings old);
    re ← field strict ms "result" (rr_Result old);
    ge ← field strict ms "snapshot_generation" (rr_SnapshotGeneration old);
    ext ← field strict ms "external_dependencies" (rr_ExternalDependencies old);
    pe ← field strict ms "persisted" (rr_Persisted old);
    pg ← field strict ms "persisted_generation" (rr_PersistedGeneration old);
    pr ← field strict ms "pre_restore_snapshot_persisted" (rr_PreRestoreSnapshotPersisted old);
    Some {| rr_Mode := mo; rr_Compatible := co; rr_SchemaVersion := sv;
            rr_SnapshotGatewayVersion := sg; rr_CurrentGatewayVersion := cg; rr_Plan := pl;
            rr_Errors := er; rr_Warnings := wa; rr_Result := re; rr_SnapshotGeneration := ge;
            rr_ExternalDependencies := ext; rr_Persisted := pe; rr_PersistedGeneration := pg;
            rr_PreRestoreSnapshotPersisted := pr |}) |}.

Definition RestoreModeDryRun : string := "dry-run".
Definition RestoreModeCommit : string := "commit".
Definition RestoreResultOK : string := "ok".
Definition RestoreResultRolledBack : string := "rolled-back".
Definition RestoreResultRollbackFailed : string := "ROLLBACK-FAILED".
Definition PersistResultOK : string := "ok".

(** [LifecycleContract]; the unset contract is the empty string. *)
Definition ContractDurable : string := "durable".
Definition ContractLegacy : string := "legacy".

(* ------------------------------------------------------------------ *)
(** ** Capabilities                                                    *)
(* ------------------------------------------------------------------ *)

Definition PersistCapabilities (r : PersistResult) : string :=
  if negb (is_empty (ps_SchemaVersion r))
     && (match ps_Generation r with Some _ => true | None => false end)
  then ContractDurable else ContractLegacy.

Definition RestoreCapabilities (r : RestoreResult) : string :=
  if streq (rr_Mode r) RestoreModeCommit && streq (rr_Result r) RestoreResultOK then
    match rr_Persisted r with None => ContractLegacy | Some _ => ContractDurable end
  else if negb (is_empty (rr_SchemaVersion r))
          && (match rr_Compatible r with Some _ => true | None => false end)
  then ContractDurable else ContractLegacy.

(* ------------------------------------------------------------------ *)
(** ** Decoding and verdicts                                           *)
(* ------------------------------------------------------------------ *)

Definition decode_failed (message body : string) : LifecycleError :=
  {| le_Reason := ReasonDecodeFailed; le_Message := message; le_HTTPStatus := 0; le_Body := body |}.

Definition DecodePersistResult `{GoLib} (body : string) : result LifecycleError PersistResult :=
  of_option (decode_failed ("cannot decode persist response: " +:+ json_text "Unmarshal" body) body)
    (unmarshal PersistResult body).

Definition DecodeRestoreResult `{GoLib} (body : string) : result LifecycleError RestoreResult :=
  of_option (decode_failed ("cannot decode restore response: " +:+ json_text "Unmarshal" body) body)
    (unmarshal RestoreResult body).

Definition PersistVerdict (r : PersistResult) (strict : bool) : result LifecycleError unit :=
  reject (negb (streq (ps_Result r) PersistResultOK))
    with_ lifecycle_error ReasonResultNotOK
            (if is_empty (ps_Result r) then "gateway response carries no result field"
             else sprintf ["gateway reported result "; quote (ps_Result r); ", want ";
                           quote PersistResultOK]);;
  if strict then
    reject (streq (PersistCapabilities r) ContractLegacy)
      with_ lifecycle_error ReasonContractLegacy
        ("gateway did not report the persisted document's schema version and generation " +:+
         "(--strict requires the durable-persist contract)");;
    reject (is_empty (ps_Path r) || is_empty (ps_Checksum r))
      with_ lifecycle_error ReasonContractLegacy
        ("gateway did not report the persisted document's path and checksum " +:+
         "(--strict requires them)");;
    Ok tt
  else Ok tt.

Definition FailedDependencies (r : RestoreResult) : list string :=
  dependency_string <$>
    List.filter (fun d => streq (ed_Status d) DependencyStatusFailed) (rr_ExternalDependencies r).

Definition joinDetail (detail : list string) : string :=
  match detail with [] => "" | _ => ": " +:+ join "; " detail end.

Definition RestoreVerdict (r : RestoreResult) (strict : bool) : result LifecycleError unit :=
  let failed := FailedDependencies r in
  let detail := joinDetail (rr_Errors r) in
  let commit := streq (rr_Mode r) RestoreModeCommit in
  reject (match failed with [] => false | _ => true end)
    with_ lifecycle_error ReasonDependencyFailed
            (sprintf ["restore refused: "; join "; " failed; detail]);;
  reject (match rr_Compatible r with Some false => true | _ => false end)
    with_ lifecycle_error ReasonIncompatible
            ("snapshot is not compatible with this gateway" +:+ detail);;
  reject (streq (rr_Result r) RestoreResultRollbackFailed)
    with_ lifecycle_error ReasonRollbackFailed
            (sprintf ["restore failed AND its rollback failed - the gateway's running ";
                      "configuration is not the pre-restore configuration"; detail]);;
  reject (streq (rr_Result r) RestoreResultRolledBack)
    with_ lifecycle_error ReasonRolledBack ("restore failed and was rolled back" +:+ detail);;
  reject (commit && negb (streq (rr_Result r) RestoreResultOK))
    with_ lifecycle_error ReasonResultNotOK
            (if is_empty (rr_Result r) then "committed restore carries no result field"
             else sprintf ["gateway reported result "; quote (rr_Result r); ", want ";
                           quote RestoreResultOK]);;
  reject (commit && (match rr_Persisted r with Some false => true | _ => false end))
    with_ lifecycle_error ReasonNotPersisted
            (sprintf ["restore applied but was NOT persisted - the restored configuration will ";
                      "not survive a restart until a persist succeeds"; detail]);;
  reject (match rr_Errors r with [] => false | _ => true end)
    with_ lifecycle_error ReasonValidationFailed ("restore reported errors" +:+ detail);;
  reject (strict && streq (RestoreCapabilities r) ContractLegacy)
    with_ lifecycle_error ReasonContractLegacy
            (sprintf ["gateway did not report ";
                      (if commit then "the write-through disposition (persisted)"
                       else "the document identity (schema version, compatibility)");
                      " (--strict requires the durable-persist contract)"]);;
  Ok tt.

(* ------------------------------------------------------------------ *)
(** ** Properties                                                      *)
(* ------------------------------------------------------------------ *)

Lemma capabilities_legacy (b : bool) :
  streq (if b then ContractDurable else ContractLegacy) ContractLegacy = negb b.
Proof. by destruct b. Qed.

(** A persist is a success exactly when the gateway says [ok]; with
    [--strict], exactly when it also identifies the document it wrote: schema
    version, generation, path and checksum. *)
Theorem persist_verdict_exact r strict :
  PersistVerdict r strict = Ok tt <->
  ps_Result r = "ok"
  /\ (strict = true -> ps_SchemaVersion r <> "" /\ is_Some (ps_Generation r)
                       /\ ps_Path r <> "" /\ ps_Checksum r <> "").
Proof.
  unfold PersistVerdict, PersistCapabilities, PersistResultOK.
  rewrite reject_ok, negb_false_iff, streq_true. destruct strict; [|naive_solver].
  rewrite reject_ok, reject_tt, capabilities_legacy, negb_false_iff, andb_true_iff, negb_true_iff,
    orb_false_iff, !is_empty_false.
  assert (Hg : (match ps_Generation r with Some _ => true | None => false end) = true
               <-> is_Some (ps_Generation r))
    by (destruct (ps_Generation r); split; [eauto|done|done|by intros [? ?]]).
  rewrite Hg. tauto.
Qed.

(** C16: a restore is a success exactly when no required dependency failed, the
    document is compatible, there are no errors, nothing was rolled back, a
    commit ended [ok] and was not left unpersisted, and, with [--strict], the
    gateway reported what the durable contract promises. *)
Theorem restore_verdict_exact r strict :
  RestoreVerdict r strict = Ok tt <->
  (forall d, d ∈ rr_ExternalDependencies r -> ed_Status d <> "failed")
  /\ rr_Compatible r <> Some false /\ rr_Errors r = []
  /\ rr_Result r <> "ROLLBACK-FAILED" /\ rr_Result r <> "rolled-back"
  /\ (rr_Mode r = "commit" -> rr_Result r = "ok" /\ rr_Persisted r <> Some false)
  /\ (strict = true ->
        (rr_Mode r = "commit" -> rr_Persisted r = Some true)
        /\ (rr_Mode r <> "commit" -> rr_SchemaVersion r <> "" /\ rr_Compatible r = Some true)).
Proof.
  assert (Hdeps : (match FailedDependencies r with [] => false | _ => true end) = false <->
                  forall d, d ∈ rr_ExternalDependencies r -> ed_Status d <> "failed").
  { unfold FailedDependencies, DependencyStatusFailed.
    induction (rr_ExternalDependencies r) as [|d l IH]; simpl; [set_solver|].
    destruct (streq (ed_Status d) "failed") eqn:Hd; simpl.
    - apply streq_true in Hd. split; [done|]. intros H. by destruct (H d (list_elem_of_here _ _)).
    - apply streq_false in Hd. rewrite IH. split; [|set_solver].
      intros H d' [->|Hin]%elem_of_cons; auto. }
  assert (Hstrict : (strict && streq (RestoreCapabilities r) ContractLegacy) = false <->
    (strict = true -> if streq (rr_Mode r) "commit" && streq (rr_Result r) "ok"
                      then is_Some (rr_Persisted r)
                      else rr_SchemaVersion r <> "" /\ is_Some (rr_Compatible r))).
  { unfold RestoreCapabilities. fold RestoreModeCommit RestoreResultOK.
    destruct strict; simpl; [|naive_solver].
    destruct (streq (rr_Mode r) _ && streq (rr_Result r) _).
    - destruct (rr_Persisted r); simpl; naive_solver.
    - rewrite capabilities_legacy, negb_false_iff, andb_true_iff, negb_true_iff, is_empty_false.
      destruct (rr_Compatible r); naive_solver. }
  unfold RestoreVerdict. cbn zeta. rewrite !reject_ok, Hdeps, Hstrict.
  unfold RestoreResultRollbackFailed, RestoreResultRolledBack, RestoreModeCommit, RestoreResultOK.
  rewrite !streq_false.
  assert (Hc : (match rr_Compatible r with Some false => true | _ => false end) = false <->
               rr_Compatible r <> Some false) by (destruct (rr_Compatible r) as [[]|]; naive_solver).
  assert (He : (match rr_Errors r with [] => false | _ => true end) = false <-> rr_Errors r = [])
    by (destruct (rr_Errors r); naive_solver).
  rewrite Hc, He. clear Hdeps Hstrict Hc He.
  destruct (streq (rr_Mode r) "commit") eqn:Hm; [apply streq_true in Hm | apply streq_false in Hm];
    (destruct (streq (rr_Result r) "ok") eqn:Hok; [apply streq_true in Hok | apply streq_false in Hok]);
    simpl; destruct (rr_Persisted r) as [[]|]; unfold is_Some;
    destruct (rr_Compatible r) as [[]|]; naive_solver.
Qed.

(** A restore that refused before it changed anything. *)
Definition restore_refused (r : RestoreResult) : bool :=
  (match FailedDependencies r with [] => false | _ => true end)
  || (match rr_Compatible r with Some false => true | _ => false end).

(** A restore that left the gateway on a configuration that is not durable or
    not the one it had. *)
Definition restore_unsafe (r : RestoreResult) : bool :=
  streq (rr_Result r) RestoreResultRollbackFailed
  || (streq (rr_Mode r) RestoreModeCommit && streq (rr_Result r) RestoreResultOK
      && (match rr_Persisted r with Some false => true | _ => false end)).

(** A guard fired: its reason fixes the exit status. *)
Ltac exit_case :=
  intros [= <-];
  match goal with
  | H : forall reason msg, ce_Code _ = _ |- _ => rewrite H
  end;
  match goal with
  | |- context [default Failed (assoc reasonCodes ?reason)] =>
      let v := eval vm_compute in (default Failed (assoc reasonCodes reason)) in
      change (default Failed (assoc reasonCodes reason)) with v
  end;
  unfold Precondition, Partial, ContractMismatch, Failed; cbn [andb orb negb];
  split_and!; [naive_solver | naive_solver | set_solver].

(** The exit status of a failed restore says what happened to the gateway:
    PRECONDITION exactly when a required dependency failed, PARTIAL exactly
    when the restore was not refused and its rollback failed or its result was
    not persisted, FAILED or CONTRACT_MISMATCH otherwise; never a status that
    invites a blind retry of a change that may have happened. *)
Theorem restore_failure_exit r strict e :
  RestoreVerdict r strict = Err e ->
  let exit := ce_Code (Classify (ELifecycle e)) in
  (exit = Precondition <-> FailedDependencies r <> [])
  /\ (exit = Partial <-> restore_refused r = false /\ restore_unsafe r = true)
  /\ exit ∈ [Precondition; ContractMismatch; Failed; Partial].
Proof.
  unfold RestoreVerdict, restore_refused, restore_unsafe. cbn zeta.
  assert (Hcode : forall reason msg, ce_Code (Classify (ELifecycle (lifecycle_error reason msg)))
                                     = default Failed (assoc reasonCodes reason)) by done.
  assert (Hdep : (match FailedDependencies r with [] => false | _ => true end) = true
                 <-> FailedDependencies r <> []) by (destruct (FailedDependencies r); naive_solver).
  rewrite <- Hdep. clear Hdep.
  destruct (match FailedDependencies r with [] => false | _ => true end); [exit_case|].
  destruct (match rr_Compatible r with Some false => true | _ => false end); [exit_case|].
  destruct (streq (rr_Result r) RestoreResultRollbackFailed); [exit_case|].
  destruct (streq (rr_Result r) RestoreResultRolledBack) eqn:Hrb.
  { apply streq_true in Hrb. rewrite Hrb, !andb_false_r || rewrite Hrb. exit_case. }
  destruct (streq (rr_Mode r) RestoreModeCommit), (streq (rr_Result r) RestoreResultOK);
    cbn [andb negb orb]; try exit_case;
    destruct (match rr_Persisted r with Some false => true | _ => false end);
    cbn [andb negb orb]; try exit_case;
    (destruct (match rr_Errors r with [] => false | _ => true end); [exit_case|]);
    (destruct (strict && _); [exit_case | done]).
Qed.

Definition unpersisted_restore : RestoreResult :=
  {| rr_Mode := "commit"; rr_Compatible := Some true; rr_SchemaVersion := "1";
     rr_SnapshotGatewayVersion := ""; rr_CurrentGatewayVersion := ""; rr_Plan := [];
     rr_Errors := ["disk full"]; rr_Warnings := []; rr_Result := "ok";
     rr_SnapshotGeneration := None; rr_ExternalDependencies := []; rr_Persisted := Some false;
     rr_PersistedGeneration := None; rr_PreRestoreSnapshotPersisted := "" |}.

Lemma restore_failure_exit_witness :
  exists e, RestoreVerdict unpersisted_restore false = Err e
            /\ ce_Code (Classify (ELifecycle e)) = Partial.
Proof.
  eexists. split; [reflexivity|].
  match goal with |- ce_Code (Classify (ELifecycle ?e)) = _ =>
    destruct (restore_failure_exit unpersisted_restore false e eq_refl) as (_ & [_ H] & _)
  end.
  apply H. split; vm_compute; reflexivity.
Defined.
