(* ===== verification/Snapshot.v ===== *)
(** * Snapshot documents and files: [pkg/api/snapshotfile.go]

    The verification of a downloaded snapshot against its own checksum, and
    the replacement of a file as a whole. *)
From S2P Require Import Prelude GoStrings Json World Errors Exitcode Rest.
Import Json.JsonPrefix.

(* ------------------------------------------------------------------ *)
(** ** SHA-256 (FIPS 180-4)                                            *)
(* ------------------------------------------------------------------ *)

(** The hash of [crypto/sha256], on strings of bytes; words are 32-bit [Z]. *)
Module Sha256.

Open Scope Z_scope.

Definition mask32 : Z := 2 ^ 32 - 1.
Definition add32 (x y : Z) : Z := Z.land (x + y) mask32.
Definition rotr (n x : Z) : Z :=
  Z.lor (Z.shiftr x n) (Z.land (Z.shiftl x (32 - n)) mask32).

Definition Ch (x y z : Z) : Z := Z.lxor (Z.land x y) (Z.land (Z.lxor x mask32) z).
Definition Maj (x y z : Z) : Z := Z.lxor (Z.lxor (Z.land x y) (Z.land x z)) (Z.land y z).
Definition Sigma0 (x : Z) : Z := Z.lxor (Z.lxor (rotr 2 x) (rotr 13 x)) (rotr 22 x).
Definition Sigma1 (x : Z) : Z := Z.lxor (Z.lxor (rotr 6 x) (rotr 11 x)) (rotr 25 x).
Definition sigma0 (x : Z) : Z := Z.lxor (Z.lxor (rotr 7 x) (rotr 18 x)) (Z.shiftr x 3).
Definition sigma1 (x : Z) : Z := Z.lxor (Z.lxor (rotr 17 x) (rotr 19 x)) (Z.shiftr x 10).

Definition round_constants : list Z :=
    [1116352408; 1899447441; 3049323471; 3921009573; 961987163; 1508970993;
     2453635748; 2870763221; 3624381080; 310598401; 607225278; 1426881987;
     1925078388; 2162078206; 2614888103; 3248222580; 3835390401; 4022224774;
     264347078; 604807628; 770255983; 1249150122; 1555081692; 1996064986;
     2554220882; 2821834349; 2952996808; 3210313671; 3336571891; 3584528711;
     113926993; 338241895; 666307205; 773529912; 1294757372; 1396182291;
     1695183700; 1986661051; 2177026350; 2456956037; 2730485921; 2820302411;
     3259730800; 3345764771; 3516065817; 3600352804; 4094571909; 275423344;
     430227734; 506948616; 659060556; 883997877; 958139571; 1322822218;
     1537002063; 1747873779; 1955562222; 2024104815; 2227730452; 2361852424;
     2428436474; 2756734187; 3204031479; 3329325298].

Definition initial_hash : list Z :=
    [1779033703; 3144134277; 1013904242; 2773480762; 1359893119; 2600822924;
     528734635; 1541459225].

(** The padded message: the bytes, 128, zeros, and the length in bits. *)
Definition big_endian (n : nat) (x : Z) : list Z :=
  (fun i => Z.shiftr x (8 * Z.of_nat i) mod 256) <$> rev (seq 0 n).

Definition padded (msg : list Z) : list Z :=
  let len := Z.of_nat (length msg) in
  let zeros := Z.to_nat ((55 - len) mod 64) in
  msg ++ [128] ++ replicate zeros 0 ++ big_endian 8 (8 * len).

Fixpoint words (bs : list Z) : list Z :=
  match bs with
  | a :: b :: c :: d :: bs' => (a * 2 ^ 24 + b * 2 ^ 16 + c * 2 ^ 8 + d) :: words bs'
  | _ => []
  end.

(** The message schedule: [window] holds the last sixteen words. *)
Fixpoint schedule (n : nat) (window : list Z) : list Z :=
  match n, window with
  | S n', w0 :: rest =>
      let w := add32 (add32 (sigma1 (nth 13 rest 0)) (nth 8 rest 0))
                     (add32 (sigma0 (nth 0 rest 0)) w0) in
      w0 :: schedule n' (rest ++ [w])
  | _, _ => []
  end.

Definition round (st : list Z) (kw : Z * Z) : list Z :=
  match st with
  | [a; b; c; d; e; f; g; h] =>
      let t1 := add32 (add32 (add32 h (Sigma1 e)) (Ch e f g)) (add32 kw.1 kw.2) in
      let t2 := add32 (Sigma0 a) (Maj a b c) in
      [add32 t1 t2; a; b; c; add32 d t1; e; f; g]
  | _ => st
  end.

Definition compress (st block : list Z) : list Z :=
  zip_with add32 st (fold_left round (zip round_constants (schedule 64 block)) st).

Fixpoint blocks (fuel : nat) (st ws : list Z) : list Z :=
  match fuel, ws with
  | S f, _ :: _ => blocks f (compress st (take 16 ws)) (drop 16 ws)
  | _, _ => st
  end.

(** [sha256.Sum256]: the fuel is the number of words, more than the blocks. *)
Definition sha256 (s : string) : string :=
  let ws := words (padded (zbyte <$> bytes s)) in
  of_bytes (byte_of <$> concat (big_endian 4 <$> blocks (length ws) initial_hash ws)).

Close Scope Z_scope.

Example sha256_abc :
  hex_encode (sha256 "abc") = "ba7816bf8f01cfea414140de5dae2223b00361a396177a9cb410ff61f20015ad".
Proof. vm_compute. reflexivity. Qed.

Example sha256_two_blocks :
  hex_encode (sha256 "abcdbcdecdefdefgefghfghighijhijkijkljklmklmnlmnomnopnopq")
  = "248d6a61d20638b8e5c026930c3e6039a33ce45964ff2167f6ecedd419db06c1".
Proof. vm_compute. reflexivity. Qed.

End Sha256.
Import Sha256.

(* ------------------------------------------------------------------ *)
(** ** The checksum of a snapshot                                      *)
(* ------------------------------------------------------------------ *)

Definition snapshotChecksumPrefix : string := "sha256:".

Record snapshotIdentity : Type := {
  si_SchemaVersion : string;
  si_Checksum : string;
  si_Generation : uint64
}.
#[global] Instance snapshot_identity_value : GoValue snapshotIdentity := {|
  go_zero := {| si_SchemaVersion := ""; si_Checksum := ""; si_Generation := U64 0 |};
  go_into strict old := decode_struct strict ["schema_version"; "checksum"; "generation"] old
    (fun ms =>
    sv ← field strict ms "schema_version" (si_SchemaVersion old);
    ch ← field strict ms "checksum" (si_Checksum old);
    ge ← field strict ms "generation" (si_Generation old);
    Some {| si_SchemaVersion := sv; si_Checksum := ch; si_Generation := ge |}) |}.

Record SnapshotFileResult : Type := {
  sf_Path : string;
  sf_Bytes : Z;
  sf_Checksum : string;
  sf_SchemaVersion : string;
  sf_Generation : uint64;
  sf_ChecksumVerified : bool
}.

Definition with_path (r : SnapshotFileResult) (path : string) : SnapshotFileResult :=
  {| sf_Path := path; sf_Bytes := sf_Bytes r; sf_Checksum := sf_Checksum r;
     sf_SchemaVersion := sf_SchemaVersion r; sf_Generation := sf_Generation r;
     sf_ChecksumVerified := sf_ChecksumVerified r |}.

(** [bytes.TrimRight(body, white)] of the four bytes JSON treats as white space. *)
Definition trim_right (body : string) : string :=
  of_bytes (rev (drop_while is_json_space (rev (bytes body)))).

(** The checksum field of a document, in its canonical encoding. *)
Definition checksum_member (checksum : string) : string :=
  sprintf [dquote; "checksum"; dquote; ":"; dquote; checksum; dquote].

Definition checksum_of (blanked : string) : string :=
  snapshotChecksumPrefix +:+ hex_encode (sha256 blanked).

Definition checksum_mismatch (message : string) : LifecycleError :=
  lifecycle_error ReasonChecksumMismatch message.

Definition file_result (verified : string) (identity : snapshotIdentity) (checked : bool)
    : SnapshotFileResult :=
  {| sf_Path := ""; sf_Bytes := slen verified; sf_Checksum := si_Checksum identity;
     sf_SchemaVersion := si_SchemaVersion identity; sf_Generation := si_Generation identity;
     sf_ChecksumVerified := checked |}.

Definition VerifySnapshotChecksum `{GoLib} (body headerChecksum : string)
    : result LifecycleError (string * SnapshotFileResult) :=
  let verified := trim_right body in
  reject (is_empty verified)
    with_ lifecycle_error ReasonInvalidJSON "gateway returned an empty snapshot document";;
  match unmarshal snapshotIdentity verified with
  | None =>
      Err (lifecycle_error ReasonInvalidJSON
             ("snapshot document is not valid JSON (truncated or malformed download): " +:+
              json_text "Unmarshal" verified))
  | Some identity =>
      let checksum := si_Checksum identity in
      if is_empty checksum then
        reject (negb (is_empty headerChecksum))
          with_ checksum_mismatch (sprintf ["response header reports checksum "; headerChecksum;
                                            " but the document carries none"]);;
        Ok (verified, file_result verified identity false)
      else
        reject (negb (is_empty headerChecksum) && negb (streq headerChecksum checksum))
          with_ checksum_mismatch (sprintf ["response header reports checksum "; headerChecksum;
                                            " but the document reports "; checksum]);;
        let needle := checksum_member checksum in
        let n := count_str verified needle in
        reject (negb (n =? 1)%Z)
          with_ checksum_mismatch
            (sprintf ["cannot verify the snapshot checksum: the document's checksum field is not ";
                      "in its canonical encoding (found "; itoa n; " occurrences of "; checksum;
                      ")"]);;
        let computed := checksum_of (replace_first verified needle (checksum_member "")) in
        reject (negb (streq computed checksum))
          with_ checksum_mismatch
            (sprintf ["snapshot document is corrupt: it reports checksum "; checksum;
                      " but its contents hash to "; computed]);;
        Ok (verified, file_result verified identity true)
  end.

(* ------------------------------------------------------------------ *)
(** ** The replacement of a file                                       *)
(* ------------------------------------------------------------------ *)

(** [filepath.Dir] and [filepath.Base] on a Unix system. *)
Definition file_dir (path : string) : string :=
  match split_last "/"%char path with
  | None => "."
  | Some (before, _) => path_clean (before +:+ "/")
  end.

Definition file_base (path : string) : string := path_base path.

Definition write_failed (parts : list string) : LifecycleError :=
  lifecycle_error ReasonFileWrite (sprintf parts).

(** What a reader yields: the bytes, and the error it ends with, if any. *)
Record stream : Type := { st_data : string; st_error : option string }.
Definition of_data (data : string) : stream := {| st_data := data; st_error := None |}.

(** A replacement that failed, and the error of the reader if that is why: a
    write that fails stops the copy before the end of the reader. *)
Record write_failure : Type := { wf_error : LifecycleError; wf_reader : option string }.
Definition file_result_of : Type := result write_failure Z.

Definition cleanup (tmpName : string) : IO unit :=
  _ ← perform (OpClose tmpName); _ ← perform (OpRemove tmpName); mret tt.

Definition remove (name : string) : IO unit := _ ← perform (OpRemove name); mret tt.

(** Gives the temporary file up. *)
Definition abandon (undo : IO unit) (reader : option string) (parts : list string)
    : IO file_result_of :=
  _ ← undo; mret (Err {| wf_error := write_failed parts; wf_reader := reader |}).

(** A step on the temporary file; [undo] runs when it fails. *)
Definition file_step (o : op) (text : answer o -> option string) (undo : IO unit)
    (failed : string -> list string) (k : IO file_result_of) : IO file_result_of :=
  e ← perform o;
  match text e with
  | Some text => abandon undo None (failed text)
  | None => k
  end.

(** [io.Copy] into an open file: the bytes go to the file before the error of
    the reader is seen. *)
Definition copy_to (name : string) (r : stream) : IO (option string) :=
  if is_empty (st_data r) then mret None else perform (OpWrite name (st_data r)).

Definition copy_step (name : string) (r : stream) (undo : IO unit) (failed : string -> list string)
    (k : IO file_result_of) : IO file_result_of :=
  e ← copy_to name r;
  match (e : option string), st_error r with
  | Some text, _ => abandon undo None (failed text)
  | None, Some text => abandon undo (Some text) (failed text)
  | None, None => k
  end.

Definition sync_dir (dir : string) : IO unit :=
  opened ← perform (OpOpenDir dir);
  if (opened : bool) then _ ← perform (OpSync dir); _ ← perform (OpClose dir); mret tt
  else mret tt.

(** What follows the writing of the temporary file, and what follows its creation. *)
Definition flush_and_rename (dir path tmpName : string) (n : Z) : IO file_result_of :=
  file_step (OpSync tmpName) id (cleanup tmpName)
    (fun e => ["cannot flush "; tmpName; ": "; e]) (
  file_step (OpClose tmpName) id (remove tmpName)
    (fun e => ["cannot close "; tmpName; ": "; e]) (
  file_step (OpRename tmpName path) id (remove tmpName)
    (fun e => ["cannot move the file into place at "; path; ": "; e]) (
  _ ← sync_dir dir;
  mret (Ok n)))).

Definition fill_and_rename (dir path tmpName : string) (r : stream) : IO file_result_of :=
  file_step (OpChmod tmpName 384) id (cleanup tmpName)
    (fun e => ["cannot set permissions on "; tmpName; ": "; e]) (
  copy_step tmpName r (cleanup tmpName)
    (fun e => ["cannot write "; tmpName; ": "; e])
    (flush_and_rename dir path tmpName (slen (st_data r)))).

(** [WriteFileAtomic], with what its reader ended with. *)
Definition write_file_atomic (path : string) (r : stream) : IO file_result_of :=
  let dir := file_dir path in
  created ← perform (OpCreateTemp dir (sprintf ["."; file_base path; ".tmp-*"]));
  match (created : result string string) with
  | Err e =>
      mret (Err {| wf_error := write_failed ["cannot create a temporary file in "; dir; ": "; e];
                   wf_reader := None |})
  | Ok tmpName => fill_and_rename dir path tmpName r
  end.

Definition plain_result (res : file_result_of) : result LifecycleError Z :=
  match res with Ok n => Ok n | Err f => Err (wf_error f) end.

Definition WriteFileAtomic (path : string) (r : stream) : IO (result LifecycleError Z) :=
  res ← write_file_atomic path r; mret (plain_result res).

Definition WriteSnapshotFile (path data : string) : IO (result LifecycleError unit) :=
  let* _ := WriteFileAtomic path (of_data data) in mret (Ok tt).
