(* ===== verification/SnapshotProps.v ===== *)
(** * Snapshot documents: what a verified download is *)
From S2P Require Import Prelude GoStrings Json World Errors Exitcode.
From S2P Require Import Rest Snapshot.
Import Json.JsonPrefix Snapshot.Sha256.

(* ------------------------------------------------------------------ *)
(** ** The bytes that are verified                                     *)
(* ------------------------------------------------------------------ *)

Lemma drop_while_head {A} (p : A -> bool) l x k : drop_while p l = x :: k -> p x = false.
Proof.
  induction l as [|y l IH]; simpl; [done|]. destruct (p y) eqn:Hy; [done|]. by intros [= -> ->].
Qed.

Lemma drop_while_split {A} (p : A -> bool) l :
  exists k, l = k ++ drop_while p l /\ Forall (fun x => p x = true) k.
Proof.
  induction l as [|x l (k & Hk & Hf)]; simpl; [by exists []|].
  destruct (p x) eqn:Hx; [exists (x :: k) | by exists []].
  split; [by rewrite Hk at 1 | by constructor].
Qed.

Lemma trim_right_split body : exists white, body = trim_right body +:+ white /\ blank white.
Proof.
  destruct (drop_while_split is_json_space (rev (bytes body))) as (k & Hk & Hf).
  exists (of_bytes (rev k)). split.
  - rewrite <- (of_bytes_bytes body) at 1. unfold trim_right.
    rewrite <- (of_bytes_bytes (_ +:+ _)). f_equal. rewrite bytes_app, !bytes_of_bytes.
    by rewrite <- rev_app_distr, <- Hk, rev_involutive.
  - unfold blank. rewrite bytes_of_bytes. by apply Forall_rev.
Qed.

Lemma trim_right_closed body p q : trim_right body = p +:+ q -> blank q -> q = "".
Proof.
  intros H Hq. apply (f_equal bytes) in H. unfold trim_right in H.
  rewrite bytes_of_bytes, bytes_app in H. apply (f_equal (@rev ascii)) in H.
  rewrite rev_involutive, rev_app_distr in H.
  destruct (rev (bytes q)) as [|x k] eqn:Hr.
  - apply (f_equal (@rev ascii)) in Hr. rewrite rev_involutive in Hr. simpl in Hr.
    by rewrite <- (of_bytes_bytes q), Hr.
  - apply drop_while_head in H. unfold blank in Hq. apply Forall_rev in Hq.
    rewrite Hr in Hq. apply Forall_cons in Hq as [Hx _]. congruence.
Qed.

(* ------------------------------------------------------------------ *)
(** ** The checksum member                                             *)
(* ------------------------------------------------------------------ *)

Lemma drop_str_app p s : drop_str (String.length p) (p +:+ s) = s.
Proof. induction p as [|a p IH]; [done|]. rewrite string_cons_app. apply IH. Qed.

Lemma replace_first_here s old new t :
  s = old +:+ t -> replace_first s old new = new +:+ t.
Proof.
  intros Hs. assert (Hp : String.prefix old s = true) by (apply prefix_app; by exists t).
  assert (Hr : replace_first s old new = new +:+ drop_str (String.length old) s)
    by (destruct s; cbn [replace_first]; by rewrite Hp).
  by rewrite Hr, Hs, drop_str_app.
Qed.

Lemma replace_first_found s old new :
  contains s old = true ->
  exists pre post, s = pre +:+ old +:+ post /\ replace_first s old new = pre +:+ new +:+ post.
Proof.
  assert (Hhere : forall s, String.prefix old s = true -> exists pre post,
            s = pre +:+ old +:+ post /\ replace_first s old new = pre +:+ new +:+ post).
  { intros s' [t Ht]%prefix_app. exists "", t. split; [done | exact (replace_first_here _ _ _ _ Ht)]. }
  induction s as [|a s IH]; rewrite contains_eq; [rewrite orb_false_r; apply Hhere|].
  destruct (String.prefix old (String a s)) eqn:Hp; [intros _; by apply Hhere|].
  intros (pre & post & Hs & Hr)%IH. exists (String a pre), post.
  cbn [replace_first]. rewrite Hp, Hr, !string_cons_app. split; [by rewrite Hs at 1 | done].
Qed.

Lemma count_str_contains s sub : count_str s sub <> 0%Z -> contains s sub = true.
Proof.
  unfold count_str. induction s as [|a s IH]; [done|]. rewrite contains_eq. cbn [count_str_aux].
  destruct (String.prefix sub (String a s)) eqn:Hp; [done|]. intros H. by apply IH.
Qed.

(** Only an object names a checksum. *)
Lemma checksummed_object w identity :
  go_into false (go_zero (A := snapshotIdentity)) w = Some identity ->
  negb (is_empty (si_Checksum identity)) = true -> exists ms, w = JObj ms.
Proof. destruct w; simpl; intros H; simplify_eq; eauto; done. Qed.

(** What an accepted document that carries a checksum looks like. *)
Definition checksummed (doc sum : string) : Prop :=
  exists pre post,
    doc = pre +:+ checksum_member sum +:+ post
    /\ sum = checksum_of (pre +:+ checksum_member "" +:+ post).

Lemma verify_snapshot_inv `{GoLib} body header doc r :
  VerifySnapshotChecksum body header = Ok (doc, r) ->
  doc = trim_right body /\ doc <> ""
  /\ exists identity,
       unmarshal snapshotIdentity doc = Some identity
       /\ r = file_result doc identity (negb (is_empty (si_Checksum identity)))
       /\ (header = "" \/ header = si_Checksum identity)
       /\ (si_Checksum identity <> "" ->
             contains doc (checksum_member (si_Checksum identity)) = true
             /\ checksum_of (replace_first doc (checksum_member (si_Checksum identity))
                               (checksum_member "")) = si_Checksum identity).
Proof.
  unfold VerifySnapshotChecksum. intros (Hne & Hv)%reject_ok. apply is_empty_false in Hne.
  destruct (unmarshal snapshotIdentity _) as [identity|] eqn:Hu; [|done].
  destruct (is_empty (si_Checksum identity)) eqn:He.
  - apply reject_ok in Hv as [Hh [= <- <-]]. split_and!; [done..|]. exists identity.
    apply negb_false_iff, is_empty_true in Hh as ->. apply is_empty_true in He.
    split_and!; [done | by rewrite He | by left | done].
  - apply reject_ok in Hv as [Hh Hv]. apply reject_ok in Hv as [Hn Hv].
    apply reject_ok in Hv as [Hc [= <- <-]]. split_and!; [done..|]. exists identity.
    split_and!; [done | by rewrite He | |].
    + apply andb_false_iff in Hh as [Hh|Hh]; apply negb_false_iff in Hh;
        [left; by apply is_empty_true | right; by apply streq_true].
    + intros _. split.
      * apply count_str_contains. apply negb_false_iff, Z.eqb_eq in Hn. by rewrite Hn.
      * by apply negb_false_iff, streq_true in Hc.
Qed.

(* ------------------------------------------------------------------ *)
(** ** Properties of the verification                                  *)
(* ------------------------------------------------------------------ *)

(** C14: a download the verification accepts is handed on as it came, less
    white space at its end, and is one valid document; one that carries a
    checksum matches it: emptying the one checksum member gives a text with
    that SHA-256 digest, and the response header names no other.  A document
    without a checksum is reported as not verified, and only when the header
    names none either. *)
Theorem verified_snapshot_sound `{GoLib} body header doc r :
  VerifySnapshotChecksum body header = Ok (doc, r) ->
  (exists white, body = doc +:+ white /\ blank white)
  /\ json_valid doc = true /\ sf_Bytes r = slen doc
  /\ (if sf_ChecksumVerified r
      then checksummed doc (sf_Checksum r) /\ (header = "" \/ header = sf_Checksum r)
      else sf_Checksum r = "" /\ header = "").
Proof.
  intros (-> & Hne & identity & Hu & -> & Hh & Hc)%verify_snapshot_inv.
  split; [apply trim_right_split|]. split.
  { unfold json_valid. apply bool_decide_eq_true. unfold unmarshal in Hu.
    destruct (parse_document _); [by eexists | done]. }
  split; [done|]. simpl. destruct (is_empty (si_Checksum identity)) eqn:He; simpl.
  - apply is_empty_true in He. rewrite He in *. by destruct Hh.
  - split; [|done]. apply is_empty_false in He. destruct (Hc He) as [Hin Hsum].
    destruct (replace_first_found _ _ (checksum_member "") Hin) as (pre & post & Hd & Hr).
    exists pre, post. by rewrite <- Hr.
Qed.

(** A download cut short is always refused: no proper prefix of a
    document whose checksum was verified, whatever header comes with it, passes
    the verification; the reason is that of invalid JSON. *)
Theorem truncated_snapshot_refused `{GoLib} body header doc r cut rest header' :
  VerifySnapshotChecksum body header = Ok (doc, r) -> sf_ChecksumVerified r = true ->
  doc = cut +:+ rest -> rest <> "" ->
  exists e, VerifySnapshotChecksum cut header' = Err e /\ le_Reason e = ReasonInvalidJSON.
Proof.
  intros (Hdoc & _ & identity & Hu & -> & _ & _)%verify_snapshot_inv Hv Hcut Hrest.
  simpl in Hv. unfold VerifySnapshotChecksum.
  destruct (is_empty (trim_right cut)); [by eexists|].
  destruct (unmarshal snapshotIdentity (trim_right cut)) as [i|] eqn:Hi; [|by eexists].
  exfalso. destruct (trim_right_split cut) as (white & Hw & _).
  rewrite Hw, string_app_assoc in Hcut. rewrite Hcut in Hdoc, Hu.
  unfold unmarshal in Hu, Hi.
  destruct (parse_document (trim_right cut)) as [v|] eqn:Hpc; [|done].
  destruct (parse_document (_ +:+ _)) as [w|] eqn:Hpd; [|done].
  apply checksummed_object in Hu as [ms ->]; [|done].
  pose proof (object_prefix _ _ _ _ Hpd Hpc) as Hblank. symmetry in Hdoc.
  pose proof (trim_right_closed _ _ _ Hdoc Hblank) as Hnil.
  destruct white; [by destruct rest | done].
Qed.

(* ------------------------------------------------------------------ *)
(** ** Tampering                                                       *)
(* ------------------------------------------------------------------ *)

Lemma hex_byte_inj a b : hex_byte (zbyte a) = hex_byte (zbyte b) -> a = b.
Proof.
  assert (Hd : forall c, (h ← hex_value (hex_digit (zbyte c / 16)); l ← hex_value (hex_digit (zbyte c mod 16));
                 Some (byte_of (16 * h + l))) = Some c).
  { intros [[] [] [] [] [] [] [] []]; reflexivity. }
  unfold hex_byte. intros [= H1 H2]. pose proof (Hd a) as Ha. rewrite H1, H2, Hd in Ha.
  by simplify_eq.
Qed.

Lemma hex_byte_app_inj x y s t :
  hex_byte x +:+ s = hex_byte y +:+ t -> hex_byte x = hex_byte y /\ s = t.
Proof. unfold hex_byte. rewrite !string_cons_app, !string_nil_app. intros [= -> -> ->]. done. Qed.

Lemma hex_encode_inj s t : hex_encode s = hex_encode t -> s = t.
Proof.
  unfold hex_encode. intros H. rewrite <- (of_bytes_bytes s), <- (of_bytes_bytes t). f_equal.
  revert H. generalize (bytes s) (bytes t). intros l. induction l as [|a l IH]; intros [|b k]; try done.
  rewrite !fmap_cons, !concat_str_cons. intros [->%hex_byte_inj Hk]%hex_byte_app_inj.
  f_equal. by apply IH.
Qed.

Lemma checksum_of_inj x y : checksum_of x = checksum_of y -> sha256 x = sha256 y.
Proof.
  unfold checksum_of, snapshotChecksumPrefix. rewrite !string_cons_app, !string_nil_app.
  intros [= H]. by apply hex_encode_inj.
Qed.

(** Two downloads that both verify against one checksum have the same
    contents around the checksum member, or exhibit a collision of SHA-256. *)
Theorem tampering_needs_collision `{GoLib} body1 header1 doc1 r1 body2 header2 doc2 r2 :
  VerifySnapshotChecksum body1 header1 = Ok (doc1, r1) ->
  VerifySnapshotChecksum body2 header2 = Ok (doc2, r2) ->
  sf_ChecksumVerified r1 = true -> sf_ChecksumVerified r2 = true ->
  sf_Checksum r1 = sf_Checksum r2 ->
  let blanked := fun doc => replace_first doc (checksum_member (sf_Checksum r1)) (checksum_member "") in
  blanked doc1 = blanked doc2
  \/ (blanked doc1 <> blanked doc2 /\ sha256 (blanked doc1) = sha256 (blanked doc2)).
Proof.
  intros (_ & _ & i1 & _ & -> & _ & H1)%verify_snapshot_inv.
  intros (_ & _ & i2 & _ & -> & _ & H2)%verify_snapshot_inv.
  cbn [sf_ChecksumVerified sf_Checksum file_result].
  intros Hv1%negb_true_iff%is_empty_false Hv2%negb_true_iff%is_empty_false Heq.
  destruct (H1 Hv1) as [_ Hs1], (H2 Hv2) as [_ Hs2]. rewrite <- Heq in Hs2.

  match goal with |- ?x = ?y \/ _ => destruct (decide (x = y)) as [|Hne] end; [by left|right].
  split; [done|].
  apply checksum_of_inj. congruence.
Qed.

(* ------------------------------------------------------------------ *)
(** ** A document                                                      *)
(* ------------------------------------------------------------------ *)

Definition json_of (s : string) : string := replace_byte "'"%char "034"%char s.

Definition sample_checksum : string :=
  "sha256:4c09598eaba4b9287a2decbae805134c16351daed1d5808bc6a6fbf7cb476a27".
Definition sample_document : string :=
  json_of (sprintf ["{'schema_version':'1','checksum':'"; sample_checksum; "','generation':7}"]).
Definition sample_result : SnapshotFileResult :=
  {| sf_Path := ""; sf_Bytes := 122; sf_Checksum := sample_checksum; sf_SchemaVersion := "1";
     sf_Generation := U64 7; sf_ChecksumVerified := true |}.

Lemma sample_verified :
  VerifySnapshotChecksum (H := plain_text) (sample_document +:+ " ") sample_checksum
  = Ok (sample_document, sample_result).
Proof. vm_compute. reflexivity. Qed.

Lemma verified_snapshot_sound_witness :
  checksummed sample_document sample_checksum.
Proof.
  destruct (verified_snapshot_sound (H := plain_text) _ _ _ _ sample_verified)
    as (_ & _ & _ & [Hc _]). exact Hc.
Defined.

Lemma truncated_snapshot_refused_witness :
  exists e, VerifySnapshotChecksum (H := plain_text) (take_str 60 sample_document) "" = Err e
            /\ le_Reason e = ReasonInvalidJSON.
Proof.
  apply (truncated_snapshot_refused (H := plain_text) _ _ _ _ _ (drop_str 60 sample_document) ""
           sample_verified); [done | vm_compute; reflexivity | vm_compute; discriminate].
Defined.

Lemma tampering_needs_collision_witness :
  sha256 (replace_first sample_document (checksum_member sample_checksum) (checksum_member ""))
  = sha256 (replace_first sample_document (checksum_member sample_checksum) (checksum_member "")).
Proof.
  destruct (tampering_needs_collision (H := plain_text) _ _ _ _ _ _ _ _ sample_verified
              sample_verified eq_refl eq_refl eq_refl) as [H|[_ H]]; [by f_equal | exact H].
Defined.
