(* ===== verification/Files.v ===== *)
(** * What a replacement of a file does to the file system

    The file system as the names of its regular files and their contents,
    moved by the events of a trace; the theorem on [WriteFileAtomic] holds at
    every point at which the process may be interrupted. *)
From S2P Require Import Prelude GoStrings World Errors Exitcode Rest Snapshot.

(* ------------------------------------------------------------------ *)
(** ** The file system                                                 *)
(* ------------------------------------------------------------------ *)

(** [f_flushed]: the contents have reached stable storage. *)
Record file : Type := File { f_data : string; f_mode : Z; f_flushed : bool }.
Notation file_system := (gmap string file).

Definition set_mode (mode : Z) (f : file) : file := File (f_data f) mode (f_flushed f).
Definition append (data : string) (f : file) : file := File (f_data f +:+ data) (f_mode f) false.
Definition flush (f : file) : file := File (f_data f) (f_mode f) true.

(** Text without a path separator. *)
Definition unseparated (s : string) : Prop := Forall (fun a => Ascii.eqb a "/"%char = false) (bytes s).

(** The name [os.CreateTemp] makes up: digits in the place of the star of a
    pattern without separators. *)
Definition temp_name (dir pattern name : string) : Prop :=
  exists d before digits,
    (d = dir \/ d +:+ "/" = dir) /\ pattern = before +:+ "*"
    /\ unseparated before /\ unseparated digits /\ digits <> ""
    /\ name = d +:+ String "/" (before +:+ digits).

(** One event.  A directory is not a regular file.  A write that fails may have stored a part of its data; an
    operation that fails otherwise changes nothing. *)
Definition fs_step (fs : file_system) (e : event) (fs' : file_system) : Prop :=
  match e with
  | Ev o a =>
      match o return answer o -> Prop with
      | OpCreateTemp dir pattern => fun a =>
          match (a : result string string) with
          | Ok name => temp_name dir pattern name /\ fs !! name = None
                       /\ fs' = <[name := File "" 384 false]> fs
          | Err _ => fs' = fs
          end
      | OpChmod name mode => fun a =>
          fs' = match (a : option string) with None => alter (set_mode mode) name fs | Some _ => fs end
      | OpWrite name data => fun a =>
          match (a : option string) with
          | None => fs' = alter (append data) name fs
          | Some _ => exists part, has_prefix data part = true /\ fs' = alter (append part) name fs
          end
      | OpSync name => fun a =>
          fs' = match (a : option string) with None => alter flush name fs | Some _ => fs end
      | OpRename old new => fun a =>
          match (a : option string) with
          | None => exists f, fs !! old = Some f /\ fs' = <[new := f]> (delete old fs)
          | Some _ => fs' = fs
          end
      | OpRemove name => fun a =>
          fs' = match (a : option string) with None => delete name fs | Some _ => fs end
      | OpOpen name append perm => fun a =>
          match (a : option string) with
          | None => match fs !! name with
                    | Some f => fs' = if append then fs else <[name := File "" (f_mode f) false]> fs
                    | None => exists mask, fs' = <[name := File "" (Z.land perm mask) false]> fs
                    end
          | Some _ => fs' = fs
          end
      | OpRemoveAll name => fun a =>
          fs' = match (a : option string) with
                | None => filter (fun kv => ~ (kv.1 = name \/ has_prefix kv.1 (name +:+ "/") = true)) fs
                | Some _ => fs
                end
      | OpOpenDir dir => fun a => ((a : bool) = true -> fs !! dir = None) /\ fs' = fs
      | _ => fun _ => fs' = fs
      end a
  end.

Fixpoint fs_run (fs : file_system) (t : trace) (fs' : file_system) : Prop :=
  match t with
  | [] => fs' = fs
  | e :: t' => exists fs1, fs_step fs e fs1 /\ fs_run fs1 t' fs'
  end.

(** [P] at every point of the trace, [Q] at its end. *)
Fixpoint throughout (P Q : file_system -> Prop) (fs : file_system) (t : trace) : Prop :=
  P fs /\
  match t with
  | [] => Q fs
  | e :: t' => forall fs1, fs_step fs e fs1 -> throughout P Q fs1 t'
  end.

Lemma throughout_run P Q fs t :
  throughout P Q fs t ->
  forall t1 t2 fs1, t = t1 ++ t2 -> fs_run fs t1 fs1 -> P fs1 /\ (t2 = [] -> Q fs1).
Proof.
  revert fs. induction t as [|e t IH]; intros fs Ht t1 t2 fs1 Heq Hrun.
  - symmetry in Heq. apply app_eq_nil in Heq as [-> ->]. simpl in *. naive_solver.
  - destruct t1 as [|e1 t1]; simplify_eq/=; [naive_solver|].
    destruct Hrun as (fs2 & Hs & Hrun). destruct Ht as [_ Ht]. naive_solver.
Qed.

(* ------------------------------------------------------------------ *)
(** ** Names                                                           *)
(* ------------------------------------------------------------------ *)

Lemma split_last_none b : unseparated b -> split_last "/"%char b = None.
Proof.
  induction b as [|c b IH]; [done|]. simpl. intros [Hc Hb]%Forall_cons. by rewrite IH, Hc.
Qed.

Lemma split_last_here a b :
  unseparated b -> split_last "/"%char (a +:+ String "/" b) = Some (a, b).
Proof.
  intros Hb. induction a as [|c a IH]; rewrite ?string_nil_app, ?string_cons_app.
  - cbn [split_last]. by rewrite split_last_none.
  - cbn [split_last]. by rewrite IH.
Qed.

Lemma drop_while_here {A} (p : A -> bool) l :
  match l with [] => True | x :: _ => p x = false end -> drop_while p l = l.
Proof. destruct l as [|x l]; [done|]. simpl. by intros ->. Qed.

Lemma string_last s : s <> "" -> exists s' c, s = s' +:+ String c "".
Proof.
  induction s as [|a s IH]; [done|]. intros _. destruct s as [|b s]; [by exists "", a|].
  destruct IH as (s' & c & ->); [done|]. by exists (String a s'), c.
Qed.

Lemma path_base_here d b : unseparated b -> b <> "" -> path_base (d +:+ String "/" b) = b.
Proof.
  intros Hb Hne. unfold path_base.
  assert (is_empty (d +:+ String "/" b) = false) as -> by (by destruct d).
  rewrite drop_while_here.
  - rewrite rev_involutive, of_bytes_bytes, split_last_here by done.
    by apply is_empty_false in Hne as ->.
  - destruct (string_last b Hne) as (b' & c & ->). unfold unseparated in Hb.
    rewrite bytes_app in Hb. apply Forall_app in Hb as [_ [Hc _]%Forall_cons].
    rewrite bytes_app. cbn [bytes String.list_ascii_of_string].
    change (String.list_ascii_of_string (b' +:+ String c "")) with (bytes (b' +:+ String c "")).
    rewrite bytes_app, app_comm_cons, !rev_app_distr. cbn [bytes String.list_ascii_of_string rev app].
    by rewrite Ascii.eqb_sym.
Qed.

(** The temporary file of a destination is another file. *)
Lemma temp_name_other path name :
  temp_name (file_dir path) (sprintf ["."; file_base path; ".tmp-*"]) name -> name <> path.
Proof.
  intros (d & before & digits & _ & Hp & Hb & Hd & Hne & ->) Heq. subst path.
  assert (Hu : unseparated (before +:+ digits)).
  { unfold unseparated. rewrite bytes_app. by apply Forall_app_2. }
  assert (before +:+ digits <> "") as Hn by (intros H; destruct before; [by simplify_eq/= | done]).
  unfold file_base in Hp. rewrite path_base_here in Hp by done.
  apply (f_equal String.length) in Hp. unfold sprintf in Hp. simpl in Hp.
  rewrite !string_app_length in Hp. simpl in Hp. lia.
Qed.

(* ------------------------------------------------------------------ *)
(** ** The replacement                                                 *)
(* ------------------------------------------------------------------ *)

(** Every file the run removes is gone. *)
Definition removals_succeed (t : trace) : bool :=
  forallb (fun e => match e with
                    | Ev o a => match o return answer o -> bool with
                                | OpRemove _ => fun a => match (a : option string) with None => true | Some _ => false end
                                | _ => fun _ => true
                                end a
                    end) t.

Section Replacement.
Context (path : string) (r : stream) (fs0 : file_system).

Definition whole_file : file := File (st_data r) 384 true.

(** At every moment: the destination is as before or the whole new file, on
    stable storage, and the other files are untouched. *)
Definition consistent (fs : file_system) : Prop :=
  (fs !! path = fs0 !! path \/ (st_error r = None /\ fs !! path = Some whole_file))
  /\ forall other, other <> path -> is_Some (fs0 !! other) -> fs !! other = fs0 !! other.

(** At the end. *)
Definition settled (res : result LifecycleError Z) (t : trace) (fs : file_system) : Prop :=
  match res with
  | Ok n => n = slen (st_data r) /\ st_error r = None /\ fs = <[path := whole_file]> fs0
  | Err e => le_Reason e = ReasonFileWrite /\ fs !! path = fs0 !! path
             /\ (removals_succeed t = true -> fs = fs0)
  end.

Lemma consistent_start : consistent fs0.
Proof. split; [by left | done]. Qed.

Lemma consistent_done : st_error r = None -> consistent (<[path := whole_file]> fs0).
Proof.
  intros He. split; [right; by rewrite lookup_insert_eq|].
  intros other Ho _. by rewrite lookup_insert_ne.
Qed.

(** The states in which the temporary file exists. *)
Context (tmp : string) (Htmp : fs0 !! tmp = None) (Hne : tmp <> path).

Lemma consistent_tmp f : consistent (<[tmp := f]> fs0).
Proof.
  split; [left; by rewrite lookup_insert_ne|]. intros other Ho Hs.
  rewrite lookup_insert_ne; [done|]. intros ->. rewrite Htmp in Hs. by destruct Hs.
Qed.

Lemma alter_tmp g f : alter g tmp (<[tmp := f]> fs0) = <[tmp := g f]> fs0.
Proof. by rewrite alter_insert_eq. Qed.

Lemma delete_tmp f : delete tmp (<[tmp := f]> fs0) = fs0.
Proof. by apply delete_insert_id. Qed.

Lemma lookup_tmp_path f : (<[tmp := f]> fs0 : file_system) !! path = fs0 !! path.
Proof. by rewrite lookup_insert_ne. Qed.

(** The end of a run that failed: the file is removed, or stays behind. *)
Lemma failed_end f e b :
  le_Reason e = ReasonFileWrite ->
  throughout consistent (settled (Err e) [Ev (OpRemove tmp) b]) (<[tmp := f]> fs0) [Ev (OpRemove tmp) b].
Proof.
  intros He. split; [apply consistent_tmp|]. simpl. intros fs1 ->. destruct b.
  - split; [apply consistent_tmp|]. split_and!; [done | apply lookup_tmp_path | done].
  - rewrite delete_tmp. split; [apply consistent_start|]. done.
Qed.
End Replacement.

(** One more event on the temporary file. *)
Ltac fs_advance :=
  split; [first [by apply consistent_start | by apply consistent_tmp | by apply consistent_done]|];
  let fs := fresh "fs" in let Hstep := fresh "Hstep" in
  cbn [fs_step]; intros fs Hstep; try (destruct Hstep as (? & ? & Hstep)); rewrite Hstep; clear Hstep fs;
  rewrite ?alter_tmp.

Ltac wp_run := repeat first [wp_op; intros ? _ | apply wp_bind | apply wp_ret].

Section Run.
Context (path : string) (r : stream) (fs0 : file_system) (tmp dir : string) (w : World).
Context (Hnew : fs0 !! tmp = None) (Hne : tmp <> path).

Let ends_well (f : file) (res : file_result_of) (t : trace) : Prop :=
  throughout (consistent path r fs0) (settled path r fs0 (plain_result res) t) (<[tmp := f]> fs0) t.

Lemma flush_and_rename_run h :
  st_error r = None ->
  wp (flush_and_rename dir path tmp (slen (st_data r))) w h (ends_well (File (st_data r) 384 false)).
Proof.
  intros Hr. unfold flush_and_rename, file_step, id, abandon, cleanup, remove, sync_dir, ends_well.
  wp_op. intros [e|] _.
  { wp_run. cbn [app]. fs_advance. fs_advance. by apply failed_end. }
  wp_op. intros [e|] _.
  { wp_run. cbn [app]. fs_advance. fs_advance. by apply failed_end. }
  wp_op. intros [e|] _.
  { wp_run. cbn [app]. fs_advance. fs_advance. fs_advance. by apply failed_end. }
  assert (Hfin : forall fs1, fs_step (<[tmp := whole_file r]> fs0) (Ev (OpRename tmp path) None) fs1 ->
            fs1 = <[path := whole_file r]> fs0).
  { cbn [fs_step]. intros fs1 (f & Hf & ->). rewrite lookup_insert_eq in Hf.
    injection Hf as <-. by rewrite delete_tmp. }
  apply wp_bind. wp_op. intros opened _.
  assert (Hlast : forall k, (forall fs1, fs1 = <[path := whole_file r]> fs0 ->
              (opened = true -> fs1 !! dir = None) ->
              throughout (consistent path r fs0) (settled path r fs0 (Ok (slen (st_data r))) k) fs1 k) ->
            ends_well (File (st_data r) 384 false) (Ok (slen (st_data r)))
              (Ev (OpSync tmp) None :: Ev (OpClose tmp) None :: Ev (OpRename tmp path) None
               :: Ev (OpOpenDir dir) opened :: k)).
  { intros k Hk. unfold ends_well. fs_advance. fs_advance.
    split; [by apply consistent_tmp|]. intros fs1 ->%Hfin.
    split; [by apply consistent_done|]. intros fs1 [Hdir ->]. by apply Hk. }
  destruct opened; wp_run; cbn [app]; apply Hlast; intros fs1 -> Hdir.
  - specialize (Hdir eq_refl). split; [by apply consistent_done|]. cbn [fs_step]. intros fs2 Hfs2.
    assert (fs2 = <[path := whole_file r]> fs0) as ->.
    { rewrite Hfs2. destruct a; [done|]. apply alter_id. intros x Hx. congruence. }
    fs_advance. split; [by apply consistent_done | done].
  - split; [by apply consistent_done | done].
Qed.

Lemma fill_and_rename_run h :
  wp (fill_and_rename dir path tmp r) w h (ends_well (File "" 384 false)).
Proof.
  unfold fill_and_rename, file_step, id, copy_step, abandon, cleanup, copy_to, ends_well.
  wp_op. intros [e|] _.
  { wp_run. cbn [app]. fs_advance. fs_advance. by apply failed_end. }
  destruct (is_empty (st_data r)) eqn:Hd.
  - apply wp_bind, wp_ret. destruct (st_error r) as [e|] eqn:Hr.
    { wp_run. cbn [app]. fs_advance. fs_advance. by apply failed_end. }
    apply is_empty_true in Hd.
    eapply wp_mono; [by apply flush_and_rename_run|]. intros res t Ht. cbn [app].
    fs_advance. unfold ends_well in Ht. by rewrite Hd in Ht.
  - wp_op. intros [text|] _.
    + wp_run. cbn [app]. fs_advance. fs_advance. fs_advance. by apply failed_end.
    + destruct (st_error r) as [e|] eqn:Hr.
      { wp_run. cbn [app]. fs_advance. fs_advance. fs_advance. by apply failed_end. }
      eapply wp_mono; [by apply flush_and_rename_run|]. intros res t Ht. cbn [app].
      fs_advance. by fs_advance.
Qed.
End Run.

Lemma write_file_atomic_run path r w h fs0 :
  wp (write_file_atomic path r) w h (fun res t =>
    throughout (consistent path r fs0) (settled path r fs0 (plain_result res) t) fs0 t).
Proof.
  unfold write_file_atomic. wp_op. intros [tmp|e] _.
  - apply wp_value. intros res t Hrun. split; [apply consistent_start|].
    intros fs1 (Hname%temp_name_other & Hnew & ->).
    assert (Hwp := fill_and_rename_run path r fs0 tmp (file_dir path) w Hnew Hname
                     (h ++ [Ev (OpCreateTemp (file_dir path) (sprintf ["."; file_base path; ".tmp-*"])) (Ok tmp)])).
    rewrite wp_value in Hwp. by apply (Hwp _ _ Hrun).
  - apply wp_ret. split; [apply consistent_start|]. intros fs1 ->.
    split; [apply consistent_start | done].
Qed.

(** C13: whenever the process is interrupted, and whatever the operating system
    answers, the destination holds either what it held before or the whole of
    the new document, private to its owner and already on stable storage, and
    no other file has changed; when the replacement ends, it either reports
    the number of bytes stored, or a write error, and then the old file is in
    place and no temporary file is left that could be removed. *)
Theorem file_replacement_atomic path r w h fs0 t1 t2 fs :
  (WriteFileAtomic path r w h).2 = t1 ++ t2 -> fs_run fs0 t1 fs ->
  consistent path r fs0 fs
  /\ (t2 = [] -> settled path r fs0 (WriteFileAtomic path r w h).1 t1 fs).
Proof.
  intros Ht Hrun. pose proof (write_file_atomic_run path r w h fs0) as Hwp. unfold wp in Hwp.
  unfold WriteFileAtomic in *. rewrite io_map_run in *. destruct (write_file_atomic path r w h) as [res t]. simpl in *.
  destruct (throughout_run _ _ _ _ Hwp _ _ _ Ht Hrun) as [Hc Hs]. split; [done|].
  intros ->. rewrite app_nil_r in Ht. subst t. by apply Hs.
Qed.

(** A run on a disk that holds an old file: the world makes up a temporary
    name and lets every operation succeed. *)
Definition disk_world : World := fun h o =>
  match o return answer o with
  | OpCreateTemp _ _ => Ok "/backup/.snapshot.json.tmp-42"
  | o => silent_world h o
  end.
Definition old_disk : file_system := {["/backup/snapshot.json" := File "old" 384 true]}.
Definition new_disk : file_system := {["/backup/snapshot.json" := File "new" 384 true]}.

Lemma file_replacement_atomic_witness :
  consistent "/backup/snapshot.json" (of_data "new") old_disk new_disk
  /\ settled "/backup/snapshot.json" (of_data "new") old_disk (Ok 3%Z)
       (WriteFileAtomic "/backup/snapshot.json" (of_data "new") disk_world []).2 new_disk.
Proof.
  assert (Hrun : fs_run old_disk
            (WriteFileAtomic "/backup/snapshot.json" (of_data "new") disk_world []).2 new_disk).
  { eexists. split; [split; [|split; reflexivity]|].
    - exists "/backup", ".snapshot.json.tmp-", "42". split_and!; try done; try (by left);
        unfold unseparated; vm_compute; repeat constructor.
    - do 4 (eexists; split; [reflexivity|]).
      eexists; split; [eexists; split; reflexivity|].
      eexists; split; [split; [discriminate | reflexivity]|]. vm_compute. reflexivity. }
  destruct (file_replacement_atomic _ _ _ _ _ _ [] _ (eq_sym (app_nil_r _)) Hrun) as [Hc Hs].
  split; [exact Hc | exact (Hs eq_refl)].
Defined.
