(* ===== verification/Lifecycle.v ===== *)
(** * Lifecycle operations: [cmd/lifecycle/lifecycle.go], [pkg/api/lifecyclereport.go]

    What the configuration-lifecycle commands share: the report, its JSON, the
    envelope of an outcome and the way it is rendered. *)
From S2P Require Import Prelude GoStrings Json JsonPrint Fields World Errors Exitcode Envelope.
From S2P Require Import Rest ConfigLifecycle Snapshot.

(* ------------------------------------------------------------------ *)
(** ** The documents of a report                                       *)
(* ------------------------------------------------------------------ *)

Record MaintenanceState : Type := {
  ms_State : string;
  ms_OperationID : string;
  ms_RefusingNewConfig : bool;
  ms_RefusingNewInference : bool;
  ms_InFlightStreams : Z;
  ms_EnteredAt : string;
  ms_ElapsedSeconds : Z;
  ms_DrainTimeoutSeconds : uint32;
  ms_DrainDeadlineExceeded : bool;
  ms_Cancellable : bool;
  ms_InFlightRequests : Z
}.
#[global] Instance maintenance_state_value : GoValue MaintenanceState := {|
  go_zero := {| ms_State := ""; ms_OperationID := ""; ms_RefusingNewConfig := false;
                ms_RefusingNewInference := false; ms_InFlightStreams := 0; ms_EnteredAt := "";
                ms_ElapsedSeconds := 0; ms_DrainTimeoutSeconds := U32 0;
                ms_DrainDeadlineExceeded := false; ms_Cancellable := false;
                ms_InFlightRequests := 0 |};
  go_into strict old := decode_struct strict
    ["state"; "operation_id"; "refusing_new_config"; "refusing_new_inference";
     "in_flight_streams"; "entered_at"; "elapsed_seconds"; "drain_timeout_seconds";
     "drain_deadline_exceeded"; "cancellable"; "in_flight_requests"] old (fun ms =>
    st ← field strict ms "state" (ms_State old);
    op ← field strict ms "operation_id" (ms_OperationID old);
    rc ← field strict ms "refusing_new_config" (ms_RefusingNewConfig old);
    ri ← field strict ms "refusing_new_inference" (ms_RefusingNewInference old);
    fs ← field strict ms "in_flight_streams" (ms_InFlightStreams old);
    ea ← field strict ms "entered_at" (ms_EnteredAt old);
    es ← field strict ms "elapsed_seconds" (ms_ElapsedSeconds old);
    dt ← field strict ms "drain_timeout_seconds" (ms_DrainTimeoutSeconds old);
    dx ← field strict ms "drain_deadline_exceeded" (ms_DrainDeadlineExceeded old);
    ca ← field strict ms "cancellable" (ms_Cancellable old);
    fr ← field strict ms "in_flight_requests" (ms_InFlightRequests old);
    Some {| ms_State := st; ms_OperationID := op; ms_RefusingNewConfig := rc;
            ms_RefusingNewInference := ri; ms_InFlightStreams := fs; ms_EnteredAt := ea;
            ms_ElapsedSeconds := es; ms_DrainTimeoutSeconds := dt; ms_DrainDeadlineExceeded := dx;
            ms_Cancellable := ca; ms_InFlightRequests := fr |}) |}.

Record LogArchiveFileResult : Type := {
  af_Name : string;
  af_Path : string;
  af_Bytes : Z
}.

Record Note : Type := { nt_Code : string; nt_Message : string }.

Record LifecycleReport : Type := {
  lr_Contract : string;
  lr_Notes : list Note;
  lr_Persist : option PersistResult;
  lr_Restore : option RestoreResult;
  lr_Snapshot : option SnapshotFileResult;
  lr_Maintenance : option MaintenanceState;
  lr_Archive : option LogArchiveFileResult;
  lr_Origin : option string;
  lr_HTTPStatus : option Z;
  lr_ComponentCode : option string
}.

Definition empty_report : LifecycleReport :=
  {| lr_Contract := ""; lr_Notes := []; lr_Persist := None; lr_Restore := None;
     lr_Snapshot := None; lr_Maintenance := None; lr_Archive := None; lr_Origin := None;
     lr_HTTPStatus := None; lr_ComponentCode := None |}.

(* ------------------------------------------------------------------ *)
(** ** Their JSON                                                      *)
(* ------------------------------------------------------------------ *)

Definition dependency_json (d : ExternalDependencyStatus) : gojson :=
  GObj ([("type", GStr (ed_Type d))] ++ omit_str "id" (ed_ID d)
        ++ omit_str "generation" (ed_Generation d) ++ omit_str "digest" (ed_Digest d)
        ++ omit_bool "required" (ed_Required d) ++ omit_str "status" (ed_Status d)).

Definition plan_item_json (p : RestorePlanItem) : gojson :=
  GObj [("domain", GStr (rp_Domain p)); ("to_delete", GInt (rp_ToDelete p));
        ("to_apply", GInt (rp_ToApply p))].

Definition persist_json (r : PersistResult) : gojson :=
  GObj ([("result", GStr (ps_Result r)); ("path", GStr (ps_Path r));
         ("checksum", GStr (ps_Checksum r))]
        ++ omit_str "schema_version" (ps_SchemaVersion r)
        ++ omit_nil "generation" uint64_json (ps_Generation r)
        ++ omit_list "included_domains" GStr (ps_IncludedDomains r)
        ++ omit_list "excluded_domains" GStr (ps_ExcludedDomains r)
        ++ omit_list "external_dependencies" dependency_json (ps_ExternalDependencies r)
        ++ omit_list "warnings" GStr (ps_Warnings r)).

Definition restore_json (r : RestoreResult) : gojson :=
  GObj ([("mode", GStr (rr_Mode r))]
        ++ omit_nil "compatible" GBool (rr_Compatible r)
        ++ omit_str "schema_version" (rr_SchemaVersion r)
        ++ omit_str "snapshot_gateway_version" (rr_SnapshotGatewayVersion r)
        ++ omit_str "current_gateway_version" (rr_CurrentGatewayVersion r)
        ++ omit_list "plan" plan_item_json (rr_Plan r)
        ++ omit_list "errors" GStr (rr_Errors r)
        ++ omit_list "warnings" GStr (rr_Warnings r)
        ++ omit_str "result" (rr_Result r)
        ++ omit_nil "snapshot_generation" uint64_json (rr_SnapshotGeneration r)
        ++ omit_list "external_dependencies" dependency_json (rr_ExternalDependencies r)
        ++ omit_nil "persisted" GBool (rr_Persisted r)
        ++ omit_nil "persisted_generation" uint64_json (rr_PersistedGeneration r)
        ++ omit_str "pre_restore_snapshot_persisted" (rr_PreRestoreSnapshotPersisted r)).

Definition snapshot_json (r : SnapshotFileResult) : gojson :=
  GObj (omit_str "path" (sf_Path r) ++ [("bytes", GInt (sf_Bytes r))]
        ++ omit_str "checksum" (sf_Checksum r)
        ++ omit_str "schema_version" (sf_SchemaVersion r)
        ++ omit_int "generation" (u64 (sf_Generation r))
        ++ [("checksum_verified", GBool (sf_ChecksumVerified r))]).

Definition maintenance_json (m : MaintenanceState) : gojson :=
  GObj ([("state", GStr (ms_State m))] ++ omit_str "operation_id" (ms_OperationID m)
        ++ [("refusing_new_config", GBool (ms_RefusingNewConfig m));
            ("refusing_new_inference", GBool (ms_RefusingNewInference m));
            ("in_flight_streams", GInt (ms_InFlightStreams m))]
        ++ omit_str "entered_at" (ms_EnteredAt m)
        ++ [("elapsed_seconds", GInt (ms_ElapsedSeconds m))]
        ++ omit_int "drain_timeout_seconds" (u32 (ms_DrainTimeoutSeconds m))
        ++ [("drain_deadline_exceeded", GBool (ms_DrainDeadlineExceeded m));
            ("cancellable", GBool (ms_Cancellable m))]
        ++ omit_int "in_flight_requests" (ms_InFlightRequests m)).

Definition archive_json (a : LogArchiveFileResult) : gojson :=
  GObj [("name", GStr (af_Name a)); ("path", GStr (af_Path a)); ("bytes", GInt (af_Bytes a))].

Definition report_json (r : LifecycleReport) : gojson :=
  GObj (omit_str "contract" (lr_Contract r)
        ++ omit_nil "persist" persist_json (lr_Persist r)
        ++ omit_nil "restore" restore_json (lr_Restore r)
        ++ omit_nil "snapshot" snapshot_json (lr_Snapshot r)
        ++ omit_nil "maintenance" maintenance_json (lr_Maintenance r)
        ++ omit_nil "archive" archive_json (lr_Archive r)
        ++ omit_nil "origin" GStr (lr_Origin r)
        ++ omit_nil "httpStatus" GInt (lr_HTTPStatus r)
        ++ omit_nil "componentCode" GStr (lr_ComponentCode r)).

(* ------------------------------------------------------------------ *)
(** ** Options, requests and notes                                     *)
(* ------------------------------------------------------------------ *)

Record Options : Type := { lo_JSON : bool; lo_Strict : bool }.

Definition OptionsFrom (restOptions : RESTOptions) (strict : bool) : Options :=
  {| lo_JSON := streq (ro_PrintOption restOptions) "json"; lo_Strict := strict |}.

Definition transportError (what err : string) : LifecycleError :=
  lifecycle_error ReasonRequestFailed (sprintf [what; ": "; err]).

(** [readBody] of a response. *)
Definition readBody (r : http_response) (what : string) : result LifecycleError string :=
  match hr_body_error r with
  | Some err => Err (transportError (sprintf ["cannot read the "; what; " response"]) err)
  | None => Ok (hr_body r)
  end.

(** The answer to a request that has one, and its body. *)
Definition received (failed what : string) (r : http_result)
    : result LifecycleError (http_response * string) :=
  match r with
  | Err e => Err (transportError failed e)
  | Ok resp => body ← readBody resp what; Ok (resp, body)
  end.

Definition exchange (failed what : string) (send : IO http_result)
    : IO (result LifecycleError (http_response * string)) :=
  r ← send; mret (received failed what r).

Definition legacyContractNote : Note :=
  {| nt_Code := "CONTRACT_LEGACY";
     nt_Message := sprintf ["this gateway answers with the older response contract; ";
                            "the document's identity and coverage were not reported and are ";
                            "not claimed here"] |}.

Definition uncheckedDocumentNote : Note :=
  {| nt_Code := "UNCHECKED_DOCUMENT";
     nt_Message := "this document carries no checksum, so its integrity was not verified" |}.

Definition with_notes (r : LifecycleReport) (notes : list Note) : LifecycleReport :=
  {| lr_Contract := lr_Contract r; lr_Notes := notes; lr_Persist := lr_Persist r;
     lr_Restore := lr_Restore r; lr_Snapshot := lr_Snapshot r;
     lr_Maintenance := lr_Maintenance r; lr_Archive := lr_Archive r; lr_Origin := lr_Origin r;
     lr_HTTPStatus := lr_HTTPStatus r; lr_ComponentCode := lr_ComponentCode r |}.

Definition noteLegacy (report : LifecycleReport) (note : Note) : LifecycleReport :=
  if streq (lr_Contract report) ContractLegacy then with_notes report (lr_Notes report ++ [note])
  else report.

Definition endl : string := String "010"%char EmptyString.

Definition writeNotes (report : LifecycleReport) : list string :=
  (fun n => sprintf ["  Note: "; nt_Message n; endl]) <$> lr_Notes report.

(** Writes to stdout one after the other; what they return is not looked at. *)
Fixpoint write_all (l : list string) : IO unit :=
  match l with [] => mret tt | s :: l' => _ ← write_out s; write_all l' end.

(* ------------------------------------------------------------------ *)
(** ** The outcome                                                     *)
(* ------------------------------------------------------------------ *)

Definition with_failure (r : LifecycleReport) (ce : CLIError) : LifecycleReport :=
  {| lr_Contract := lr_Contract r; lr_Notes := lr_Notes r; lr_Persist := lr_Persist r;
     lr_Restore := lr_Restore r; lr_Snapshot := lr_Snapshot r;
     lr_Maintenance := lr_Maintenance r; lr_Archive := lr_Archive r;
     lr_Origin := Some (if is_empty (ce_Origin ce) then "cli" else ce_Origin ce);
     lr_HTTPStatus := Some (ce_HTTPStatus ce); lr_ComponentCode := Some (ce_ComponentCode ce) |}.

Definition envelopeFor (command : string) (report : LifecycleReport) (err : option goerror)
    : CommandResult :=
  let result := New command in
  let result := match lr_Maintenance report with
                | Some m => with_correlation result (ms_OperationID m)
                | None => result
                end in
  let result := fold_left (fun r n => add_warning r {| w_Code := nt_Code n; w_Message := nt_Message n |})
                  (lr_Notes report) result in
  match err with
  | None => with_data result (report_json report)
  | Some e =>
      let ce := Classify e in
      with_data (Fail_ result (Label (ce_Code ce)) (ce_Message ce))
        (report_json (with_failure report ce))
  end.

Definition render (o : Options) (command : string) (report : LifecycleReport)
    (human : LifecycleReport -> IO (option goerror)) (err : option goerror)
    : IO (option goerror) :=
  if lo_JSON o then
    werr ← Write (envelopeFor command report err);
    mret (match err with None => werr | Some _ => err end)
  else
    match err with
    | Some _ => mret err
    | None => human report
    end.

(** The [nil] given for a rendering that cannot be reached. *)
Definition no_human (r : LifecycleReport) : IO (option goerror) := mret None.

Definition WriteFailure (command : string) (err : goerror) : IO unit :=
  _ ← Write (envelopeFor command empty_report (Some err)); mret tt.
