(* ===== verification/LifecycleCmds.v ===== *)
(** * The lifecycle commands: [cmd/lifecycle/persist.go], [restore.go], [snapshot.go], [maintenance.go]

    Each operation sends one request, judges what came back and renders the
    report.  A report's document is returned next to a failing verdict: the
    envelope carries the evidence. *)
From S2P Require Import Prelude GoStrings Json JsonPrint Fields World Errors Exitcode Envelope.
From S2P Require Import Rest ConfigLifecycle Snapshot Lifecycle.

Definition lifecycle_result (A : Type) : Type := option A * option goerror.
Definition fails {A} (e : LifecycleError) : lifecycle_result A := (None, Some (ELifecycle e)).

Definition verdict_of (r : result LifecycleError unit) : option goerror :=
  match r with Ok _ => None | Err e => Some (ELifecycle e) end.

(* ------------------------------------------------------------------ *)
(** ** Persist                                                         *)
(* ------------------------------------------------------------------ *)

Definition orUnreported (s : string) : string := if is_empty s then "unreported" else s.

(** What [doPersist] makes of the answer. *)
Definition persist_outcome `{GoLib} (strict : bool) (r : http_result)
    : lifecycle_result PersistResult :=
  match received "persist request failed" "persist" r with
  | Err e => fails e
  | Ok (resp, body) =>
      if negb (hr_status resp =? 200)%Z then fails (NewStatusError (hr_status resp) body)
      else match DecodePersistResult body with
           | Err e => fails e
           | Ok res => (Some res, verdict_of (PersistVerdict res strict))
           end
  end.

Definition doPersist `{GoLib} (restOptions : RESTOptions) (o : Options)
    : IO (lifecycle_result PersistResult) :=
  client ← NewLoxiClient restOptions;
  r ← Create (Client.Persist client) (GRaw "null");
  mret (persist_outcome (lo_Strict o) r).

Definition persist_lines (res : PersistResult) (report : LifecycleReport) : list string :=
  (if negb (is_empty (ps_Path res)) then
     ["Configuration persisted to " +:+ ps_Path res]
     ++ (if negb (is_empty (ps_Checksum res)) then [sprintf [" (checksum "; ps_Checksum res; ")"]] else [])
     ++ ["." +:+ endl]
   else ["Configuration persisted." +:+ endl])
  ++ (if negb (is_empty (ps_SchemaVersion res))
         || (match ps_Generation res with Some _ => true | None => false end) then
        ["  Document: schema " +:+ orUnreported (ps_SchemaVersion res)]
        ++ (match ps_Generation res with Some g => [", generation " +:+ itoa (u64 g)] | None => [] end)
        ++ [endl]
      else [])
  ++ (match ps_IncludedDomains res with
      | [] => [] | l => [sprintf ["  Captured: "; join ", " l; endl]] end)
  ++ (match ps_ExcludedDomains res with
      | [] => [] | l => [sprintf ["  Not captured: "; join ", " l; endl]] end)
  ++ ((fun d => sprintf ["  Depends on: "; dependency_string d; endl]) <$> ps_ExternalDependencies res)
  ++ ((fun w => sprintf ["  Warning: "; w; endl]) <$> ps_Warnings res)
  ++ writeNotes report.

(** One line, and what writing it returns. *)
Definition one_line (s : string) : IO (option goerror) :=
  e ← write_out (s +:+ endl); mret (EText <$> (e : option string)).

Definition humanPersist (report : LifecycleReport) : IO (option goerror) :=
  match lr_Persist report with
  | None => one_line "Configuration persisted."
  | Some res => _ ← write_all (persist_lines res report); mret None
  end.

Definition persist_report (res : option PersistResult) : LifecycleReport :=
  match res with
  | None => empty_report
  | Some r =>
      noteLegacy
        {| lr_Contract := PersistCapabilities r; lr_Notes := []; lr_Persist := Some r;
           lr_Restore := None; lr_Snapshot := None; lr_Maintenance := None; lr_Archive := None;
           lr_Origin := None; lr_HTTPStatus := None; lr_ComponentCode := None |}
        legacyContractNote
  end.

Definition Persist `{GoLib} (restOptions : RESTOptions) (o : Options) (command : string)
    : IO (option goerror) :=
  out ← doPersist restOptions o;
  render o command (persist_report out.1) humanPersist out.2.

(* ------------------------------------------------------------------ *)
(** ** Restore                                                         *)
(* ------------------------------------------------------------------ *)

Record RestoreOptions : Type := {
  ro_File : string;
  ro_Commit : bool;
  ro_Components : string
}.

Definition looksLikeRestoreResult (r : RestoreResult) : bool :=
  negb (is_empty (rr_Mode r)) || negb (is_empty (rr_Result r)) || negb (is_empty (rr_SchemaVersion r))
  || (match rr_Compatible r with Some _ => true | None => false end)
  || (match rr_Plan r with [] => false | _ => true end)
  || (match rr_Errors r with [] => false | _ => true end).

Definition with_mode (r : RestoreResult) (mode : string) : RestoreResult :=
  {| rr_Mode := mode; rr_Compatible := rr_Compatible r; rr_SchemaVersion := rr_SchemaVersion r;
     rr_SnapshotGatewayVersion := rr_SnapshotGatewayVersion r;
     rr_CurrentGatewayVersion := rr_CurrentGatewayVersion r; rr_Plan := rr_Plan r;
     rr_Errors := rr_Errors r; rr_Warnings := rr_Warnings r; rr_Result := rr_Result r;
     rr_SnapshotGeneration := rr_SnapshotGeneration r;
     rr_ExternalDependencies := rr_ExternalDependencies r; rr_Persisted := rr_Persisted r;
     rr_PersistedGeneration := rr_PersistedGeneration r;
     rr_PreRestoreSnapshotPersisted := rr_PreRestoreSnapshotPersisted r |}.

Definition is_2xx (status : Z) : bool := (Z.quot status 100 =? 2)%Z.

Definition with_status (e : LifecycleError) (status : Z) : LifecycleError :=
  {| le_Reason := le_Reason e; le_Message := le_Message e; le_HTTPStatus := status;
     le_Body := le_Body e |}.

(** The verdict on the answer of the restore endpoint. *)
Definition restore_outcome `{GoLib} (strict : bool) (mode : string) (status : Z) (body : string)
    : lifecycle_result RestoreResult :=
  let not_a_result (decodeErr : option LifecycleError) :=
    if negb (is_2xx status) then fails (NewStatusError status body)
    else match decodeErr with
         | Some e => fails e
         | None => fails {| le_Reason := ReasonDecodeFailed;
                            le_Message := "gateway returned a body that is not a restore result";
                            le_HTTPStatus := 0; le_Body := body |}
         end in
  match DecodeRestoreResult body with
  | Err e => not_a_result (Some e)
  | Ok r =>
      if negb (looksLikeRestoreResult r) then not_a_result None
      else
        let r := if is_empty (rr_Mode r) then with_mode r mode else r in
        match RestoreVerdict r strict with
        | Ok _ => if negb (is_2xx status) then (Some r, Some (ELifecycle (NewStatusError status body)))
                  else (Some r, None)
        | Err e => (Some r, Some (ELifecycle (if (le_HTTPStatus e =? 0)%Z then with_status e status else e)))
        end
  end.

Definition restore_answer `{GoLib} (strict : bool) (mode : string) (r : http_result)
    : lifecycle_result RestoreResult :=
  match received "restore request failed" "restore" r with
  | Err e => fails e
  | Ok (resp, body) => restore_outcome strict mode (hr_status resp) body
  end.

(** The document to post: refused before any request if it cannot be one. *)
Definition read_document (file : string) : IO (result LifecycleError string) :=
  if is_empty file then
    mret (Err (lifecycle_error ReasonInvalidArguments
                 "-f/--file is required (the snapshot document to restore)"))
  else
    data ← read_file file;
    mret (match (data : result os_error string) with
          | Err e => Err (lifecycle_error ReasonFileRead
                            ("cannot read the snapshot document: " +:+ os_text e))
          | Ok data =>
              if json_valid data then Ok data
              else Err (lifecycle_error ReasonInvalidJSON (file +:+ " is not valid JSON"))
          end).

Definition restore_mode (commit : bool) : string :=
  if commit then RestoreModeCommit else RestoreModeDryRun.

Definition restore_query (ro : RestoreOptions) : list (string * string) :=
  [("mode", restore_mode (ro_Commit ro))]
  ++ (if is_empty (ro_Components ro) then [] else [("components", ro_Components ro)]).

Definition doRestore `{GoLib} (restOptions : RESTOptions) (o : Options) (ro : RestoreOptions)
    : IO (lifecycle_result RestoreResult) :=
  document ← read_document (ro_File ro);
  match document with
  | Err e => mret (fails e)
  | Ok data =>
      client ← NewLoxiClient restOptions;
      r ← Create (Query (Client.Restore client) (restore_query ro)) (GRaw data);
      mret (restore_answer (lo_Strict o) (restore_mode (ro_Commit ro)) r)
  end.

(** [%-24s]. *)
Definition pad_right (n : nat) (s : string) : string :=
  s +:+ concat_str (replicate (n - length (runes s)) " ").

Definition restore_lines (res : RestoreResult) (report : LifecycleReport) : list string :=
  let commit := streq (rr_Mode res) RestoreModeCommit in
  [(if commit then "Restore committed." else "Restore dry-run: nothing was changed.") +:+ endl]
  ++ (if negb (is_empty (rr_SchemaVersion res)) then
        ["  Document: schema " +:+ rr_SchemaVersion res]
        ++ (match rr_SnapshotGeneration res with
            | Some g => [", generation " +:+ itoa (u64 g)] | None => [] end)
        ++ (if negb (is_empty (rr_SnapshotGatewayVersion res))
            then [", written by " +:+ rr_SnapshotGatewayVersion res] else [])
        ++ [endl]
      else [])
  ++ ((fun p => sprintf ["  Plan "; pad_right 24 (rp_Domain p); " delete "; itoa (rp_ToDelete p);
                         ", apply "; itoa (rp_ToApply p); endl]) <$> rr_Plan res)
  ++ ((fun d => sprintf ["  Depends on: "; dependency_string d; endl]) <$> rr_ExternalDependencies res)
  ++ ((fun w => sprintf ["  Warning: "; w; endl]) <$> rr_Warnings res)
  ++ (if commit then
        (match rr_Persisted res with
         | Some true =>
             ["  Persisted: yes"]
             ++ (match rr_PersistedGeneration res with
                 | Some g => [sprintf [" (generation "; itoa (u64 g); ")"]] | None => [] end)
             ++ [endl]
         | _ => []
         end)
        ++ (if negb (is_empty (rr_PreRestoreSnapshotPersisted res))
            then [sprintf ["  Pre-restore snapshot: "; rr_PreRestoreSnapshotPersisted res; endl]]
            else [])
      else [])
  ++ writeNotes report.

Definition humanRestore (report : LifecycleReport) : IO (option goerror) :=
  match lr_Restore report with
  | None => one_line "Restore completed."
  | Some res => _ ← write_all (restore_lines res report); mret None
  end.

Definition restore_report (res : option RestoreResult) : LifecycleReport :=
  match res with
  | None => empty_report
  | Some r =>
      noteLegacy
        {| lr_Contract := RestoreCapabilities r; lr_Notes := []; lr_Persist := None;
           lr_Restore := Some r; lr_Snapshot := None; lr_Maintenance := None; lr_Archive := None;
           lr_Origin := None; lr_HTTPStatus := None; lr_ComponentCode := None |}
        legacyContractNote
  end.

Definition Restore `{GoLib} (restOptions : RESTOptions) (o : Options) (ro : RestoreOptions)
    : IO (option goerror) :=
  out ← doRestore restOptions o ro;
  render o "create.restore" (restore_report out.1) humanRestore out.2.

(* ------------------------------------------------------------------ *)
(** ** Snapshot                                                        *)
(* ------------------------------------------------------------------ *)

Definition snapshotChecksumHeader : string := "X-Snapshot-Checksum".

(** [Header.Get] of a header under its canonical name. *)
Definition header_get (resp : http_response) (name : string) : string :=
  default "" (assoc (hr_headers resp) name).

Record SnapshotOptions : Type := { so_Components : string; so_File : string }.

(** What the download of a snapshot ends with: the document is only used when
    there is no error. *)
Record snapshot_outcome : Type := {
  sn_document : string;
  sn_result : option SnapshotFileResult;
  sn_error : option goerror
}.

Definition snapshot_fails (r : option SnapshotFileResult) (e : LifecycleError) : snapshot_outcome :=
  {| sn_document := ""; sn_result := r; sn_error := Some (ELifecycle e) |}.

(** A verified document is stored if a file is named. *)
Definition store_snapshot (file document : string) (r : SnapshotFileResult) : IO snapshot_outcome :=
  if negb (is_empty file) then
    w ← WriteSnapshotFile file document;
    mret (match (w : result LifecycleError unit) with
          | Err e => snapshot_fails (Some r) e
          | Ok _ => {| sn_document := document; sn_result := Some (with_path r file);
                       sn_error := None |}
          end)
  else mret {| sn_document := document; sn_result := Some r; sn_error := None |}.

Definition unverifiable : LifecycleError :=
  lifecycle_error ReasonContractLegacy
    (sprintf ["gateway returned a snapshot document without a checksum, so its integrity ";
              "cannot be verified (--strict requires one)"]).

Definition doSnapshot `{GoLib} (restOptions : RESTOptions) (o : Options) (so : SnapshotOptions)
    : IO snapshot_outcome :=
  client ← NewLoxiClient restOptions;
  let snap := Client.Snapshot client in
  let snap := if is_empty (so_Components so) then snap
              else Query snap [("components", so_Components so)] in
  answer ← exchange "snapshot request failed" "snapshot" (Get snap);
  match answer with
  | Err e => mret (snapshot_fails None e)
  | Ok (resp, body) =>
      if negb (hr_status resp =? 200)%Z
      then mret (snapshot_fails None (NewStatusError (hr_status resp) body))
      else
        match VerifySnapshotChecksum body (header_get resp snapshotChecksumHeader) with
        | Err e => mret (snapshot_fails None e)
        | Ok (document, r) =>
            if lo_Strict o && negb (sf_ChecksumVerified r) then mret (snapshot_fails (Some r) unverifiable)
            else store_snapshot (so_File so) document r
        end
  end.

Definition snapshot_lines (res : SnapshotFileResult) (report : LifecycleReport) : list string :=
  [ if negb (is_empty (sf_Path res))
    then sprintf ["Snapshot written to "; sf_Path res; " ("; itoa (sf_Bytes res); " bytes)."; endl]
    else sprintf ["Snapshot downloaded ("; itoa (sf_Bytes res); " bytes)."; endl] ]
  ++ (if negb (is_empty (sf_SchemaVersion res)) then
        ["  Document: schema " +:+ sf_SchemaVersion res]
        ++ (if negb (u64 (sf_Generation res) =? 0)%Z
            then [", generation " +:+ itoa (u64 (sf_Generation res))] else [])
        ++ [endl]
      else [])
  ++ (if sf_ChecksumVerified res then [sprintf ["  Checksum verified: "; sf_Checksum res; endl]] else [])
  ++ writeNotes report.

Definition humanSnapshot (report : LifecycleReport) : IO (option goerror) :=
  match lr_Snapshot report with
  | None => mret None
  | Some res => _ ← write_all (snapshot_lines res report); mret None
  end.

Definition snapshot_report (res : option SnapshotFileResult) : LifecycleReport :=
  match res with
  | None => empty_report
  | Some r =>
      noteLegacy
        {| lr_Contract := if sf_ChecksumVerified r then ContractDurable else ContractLegacy;
           lr_Notes := []; lr_Persist := None; lr_Restore := None; lr_Snapshot := Some r;
           lr_Maintenance := None; lr_Archive := None; lr_Origin := None; lr_HTTPStatus := None;
           lr_ComponentCode := None |}
        uncheckedDocumentNote
  end.

(** Named [Snapshot] in the source. *)
Definition SnapshotCmd `{GoLib} (restOptions : RESTOptions) (o : Options) (so : SnapshotOptions)
    : IO (option goerror) :=
  out ← doSnapshot restOptions o so;
  let report := snapshot_report (sn_result out) in
  match sn_error out with
  | Some e => render o "get.snapshot" report no_human (Some e)
  | None =>
      if is_empty (so_File so) && negb (lo_JSON o) then
        e ← write_out (sn_document out +:+ endl); mret (EText <$> (e : option string))
      else render o "get.snapshot" report humanSnapshot None
  end.

(* ------------------------------------------------------------------ *)
(** ** Maintenance                                                     *)
(* ------------------------------------------------------------------ *)

Record MaintenanceSetOptions : Type := { mo_Enable : bool; mo_DrainTimeoutSeconds : uint32 }.

Definition maintenance_request (so : MaintenanceSetOptions) : gojson :=
  GObj ([("enabled", GBool (mo_Enable so))]
        ++ omit_int "drain_timeout_seconds" (u32 (mo_DrainTimeoutSeconds so))).

Definition decodeMaintenance (resp : http_response) : lifecycle_result MaintenanceState :=
  match readBody resp "maintenance" with
  | Err e => fails e
  | Ok body =>
      if negb (hr_status resp =? 200)%Z then fails (NewStatusError (hr_status resp) body)
      else
        match unmarshal MaintenanceState body with
        | Some state =>
            if is_empty (ms_State state)
            then fails (decode_failed "the gateway's maintenance response could not be decoded" body)
            else (Some state, None)
        | None => fails (decode_failed "the gateway's maintenance response could not be decoded" body)
        end
  end.

Definition doMaintenanceGet (restOptions : RESTOptions) : IO (lifecycle_result MaintenanceState) :=
  client ← NewLoxiClient restOptions;
  r ← Get (Client.Maintenance client);
  mret (match (r : http_result) with
        | Err e => fails (transportError "maintenance request failed" e)
        | Ok resp => decodeMaintenance resp
        end).

(** A change whose outcome is not known. *)
Definition unconfirmed (parts : list string) : LifecycleError :=
  lifecycle_error ReasonRecoveryRequired (sprintf parts).

(** What [doMaintenanceSet] makes of the answer: the request may have reached
    the gateway whatever broke. *)
Definition maintenance_change (r : http_result) : lifecycle_result MaintenanceState :=
  match r with
  | Err e =>
      fails (unconfirmed
        ["the maintenance change could not be confirmed and may or may not have been ";
         "applied: "; e; "; verify the actual state with 'loxicmd get maintenance' before ";
         "acting on it"])
  | Ok resp => decodeMaintenance resp
  end.

Definition doMaintenanceSet `{GoLib} (restOptions : RESTOptions) (so : MaintenanceSetOptions)
    : IO (lifecycle_result MaintenanceState) :=
  client ← NewLoxiClient restOptions;
  r ← Put (Client.Maintenance client) (maintenance_request so);
  mret (maintenance_change r).

Definition maintenance_lines (st : MaintenanceState) (report : LifecycleReport) : list string :=
  [sprintf ["Maintenance: "; ms_State st; endl]]
  ++ (if negb (is_empty (ms_OperationID st))
      then [sprintf ["  Operation: "; ms_OperationID st; endl]] else [])
  ++ [ sprintf ["  Refusing new config: "; bool_str (ms_RefusingNewConfig st); endl];
       sprintf ["  Refusing new inference: "; bool_str (ms_RefusingNewInference st); endl];
       sprintf ["  In-flight streams: "; itoa (ms_InFlightStreams st); endl];
       sprintf ["  In-flight inference requests: "; itoa (ms_InFlightRequests st); endl] ]
  ++ (if streq (ms_State st) "maintenance" then
        (if (0 <? u32 (ms_DrainTimeoutSeconds st))%Z then
           [sprintf ["  Elapsed: "; itoa (ms_ElapsedSeconds st); "s of a ";
                     itoa (u32 (ms_DrainTimeoutSeconds st)); "s drain window"; endl]]
           ++ (if ms_DrainDeadlineExceeded st
               then ["  Drain window EXCEEDED - the gateway stays in maintenance until told otherwise"
                     +:+ endl]
               else [])
         else [sprintf ["  Elapsed: "; itoa (ms_ElapsedSeconds st);
                        "s (no drain window declared)"; endl]])
        ++ (if negb (is_empty (ms_EnteredAt st))
            then [sprintf ["  Entered at: "; ms_EnteredAt st; endl]] else [])
      else [])
  ++ writeNotes report.

Definition humanMaintenance (report : LifecycleReport) : IO (option goerror) :=
  match lr_Maintenance report with
  | None => mret None
  | Some st => _ ← write_all (maintenance_lines st report); mret None
  end.

Definition maintenance_report (st : option MaintenanceState) : LifecycleReport :=
  {| lr_Contract := ""; lr_Notes := []; lr_Persist := None; lr_Restore := None;
     lr_Snapshot := None; lr_Maintenance := st; lr_Archive := None; lr_Origin := None;
     lr_HTTPStatus := None; lr_ComponentCode := None |}.

Definition MaintenanceGet (restOptions : RESTOptions) (o : Options) : IO (option goerror) :=
  out ← doMaintenanceGet restOptions;
  render o "get.maintenance" (maintenance_report out.1)
    (match out.2 with Some _ => no_human | None => humanMaintenance end) out.2.

Definition MaintenanceSet `{GoLib} (restOptions : RESTOptions) (o : Options)
    (so : MaintenanceSetOptions) : IO (option goerror) :=
  out ← doMaintenanceSet restOptions so;
  render o (if mo_Enable so then "set.maintenance.on" else "set.maintenance.off")
    (maintenance_report out.1)
    (match out.2 with Some _ => no_human | None => humanMaintenance end) out.2.
