(* ===== verification/OpsCmds.v ===== *)
(** * Readiness, diagnostics and logs: [cmd/lifecycle/opsstatus.go], [logs.go], [pkg/api/opsstatus.go], [logs.go]

    Reads that print the body of the gateway as it came under [-o json], and
    the download of a log archive.  The listing of the archives is not here:
    its table is laid out by [text/tabwriter]. *)
From S2P Require Import Prelude GoStrings Json JsonPrint Fields World Errors Exitcode Envelope.
From S2P Require Import Rest ConfigLifecycle Snapshot Lifecycle LifecycleCmds.

(* ------------------------------------------------------------------ *)
(** ** Readiness and diagnostics                                       *)
(* ------------------------------------------------------------------ *)

Record EbpfAttachment : Type := { eb_Name : string; eb_Mode : string; eb_Attached : bool }.
#[global] Instance ebpf_attachment_value : GoValue EbpfAttachment := {|
  go_zero := {| eb_Name := ""; eb_Mode := ""; eb_Attached := false |};
  go_into strict old := decode_struct strict ["name"; "mode"; "attached"] old (fun ms =>
    na ← field strict ms "name" (eb_Name old);
    mo ← field strict ms "mode" (eb_Mode old);
    at_ ← field strict ms "attached" (eb_Attached old);
    Some {| eb_Name := na; eb_Mode := mo; eb_Attached := at_ |}) |}.

Record ReadyState : Type := {
  rs_Ready : option bool;
  rs_Reasons : list string;
  rs_EbpfAttachments : list EbpfAttachment
}.
#[global] Instance ready_state_value : GoValue ReadyState := {|
  go_zero := {| rs_Ready := None; rs_Reasons := []; rs_EbpfAttachments := [] |};
  go_into strict old := decode_struct strict ["ready"; "reasons"; "ebpf_attachments"] old (fun ms =>
    re ← field strict ms "ready" (rs_Ready old);
    rs ← field strict ms "reasons" (rs_Reasons old);
    eb ← field strict ms "ebpf_attachments" (rs_EbpfAttachments old);
    Some {| rs_Ready := re; rs_Reasons := rs; rs_EbpfAttachments := eb |}) |}.

Record MapUtilization : Type := { mu_Name : string; mu_Count : Z; mu_Capacity : Z }.
#[global] Instance map_utilization_value : GoValue MapUtilization := {|
  go_zero := {| mu_Name := ""; mu_Count := 0; mu_Capacity := 0 |};
  go_into strict old := decode_struct strict ["name"; "count"; "capacity"] old (fun ms =>
    na ← field strict ms "name" (mu_Name old);
    co ← field strict ms "count" (mu_Count old);
    ca ← field strict ms "capacity" (mu_Capacity old);
    Some {| mu_Name := na; mu_Count := co; mu_Capacity := ca |}) |}.

Record DependencyDiagnostic : Type := {
  dd_Type : string; dd_Required : bool; dd_Status : string; dd_LatencyClass : string
}.
#[global] Instance dependency_diagnostic_value : GoValue DependencyDiagnostic := {|
  go_zero := {| dd_Type := ""; dd_Required := false; dd_Status := ""; dd_LatencyClass := "" |};
  go_into strict old := decode_struct strict ["type"; "required"; "status"; "latency_class"] old
    (fun ms =>
    ty ← field strict ms "type" (dd_Type old);
    re ← field strict ms "required" (dd_Required old);
    st ← field strict ms "status" (dd_Status old);
    la ← field strict ms "latency_class" (dd_LatencyClass old);
    Some {| dd_Type := ty; dd_Required := re; dd_Status := st; dd_LatencyClass := la |}) |}.

Record DiagnosticsState : Type := {
  ds_Version : string;
  ds_BuildInfo : string;
  ds_Product : string;
  ds_APIVersion : string;
  ds_UptimeSeconds : Z;
  ds_Ready : option bool;
  ds_ReadyReasons : list string;
  ds_MaintenanceState : string;
  ds_EbpfAttachments : list EbpfAttachment;
  ds_Maps : list MapUtilization;
  ds_ExternalDependencies : list DependencyDiagnostic
}.
#[global] Instance diagnostics_state_value : GoValue DiagnosticsState := {|
  go_zero := {| ds_Version := ""; ds_BuildInfo := ""; ds_Product := ""; ds_APIVersion := "";
                ds_UptimeSeconds := 0; ds_Ready := None; ds_ReadyReasons := [];
                ds_MaintenanceState := ""; ds_EbpfAttachments := []; ds_Maps := [];
                ds_ExternalDependencies := [] |};
  go_into strict old := decode_struct strict
    ["version"; "build_info"; "product"; "api_version"; "uptime_seconds"; "ready";
     "ready_reasons"; "maintenance_state"; "ebpf_attachments"; "maps"; "external_dependencies"]
    old (fun ms =>
    ve ← field strict ms "version" (ds_Version old);
    bu ← field strict ms "build_info" (ds_BuildInfo old);
    pr ← field strict ms "product" (ds_Product old);
    ap ← field strict ms "api_version" (ds_APIVersion old);
    up ← field strict ms "uptime_seconds" (ds_UptimeSeconds old);
    re ← field strict ms "ready" (ds_Ready old);
    rr ← field strict ms "ready_reasons" (ds_ReadyReasons old);
    ma ← field strict ms "maintenance_state" (ds_MaintenanceState old);
    eb ← field strict ms "ebpf_attachments" (ds_EbpfAttachments old);
    mp ← field strict ms "maps" (ds_Maps old);
    ex ← field strict ms "external_dependencies" (ds_ExternalDependencies old);
    Some {| ds_Version := ve; ds_BuildInfo := bu; ds_Product := pr; ds_APIVersion := ap;
            ds_UptimeSeconds := up; ds_Ready := re; ds_ReadyReasons := rr;
            ds_MaintenanceState := ma; ds_EbpfAttachments := eb; ds_Maps := mp;
            ds_ExternalDependencies := ex |}) |}.

Definition attachment_line (indent : string) (a : EbpfAttachment) : string :=
  sprintf [indent; eb_Name a; " ("; eb_Mode a; "): ";
           (if eb_Attached a then "attached" else "NOT ATTACHED"); endl].

Definition humanAttachments (attachments : list EbpfAttachment) : list string :=
  attachment_line "  " <$> attachments.

Definition humanReady (ready : bool) (st : ReadyState) : list string :=
  (if ready then ["Ready: true" +:+ endl]
   else ["Ready: FALSE" +:+ endl] ++ ((fun r => sprintf ["  Reason: "; r; endl]) <$> rs_Reasons st))
  ++ (match rs_EbpfAttachments st with
      | [] => []
      | l => ["eBPF attachment (kernel-verified):" +:+ endl] ++ humanAttachments l
      end).

(** The body of the gateway, as it came. *)
Definition print_body (body : string) : IO unit := _ ← write_out (body +:+ endl); mret tt.

Definition ReadyGet `{GoLib} (restOptions : RESTOptions) (jsonOut : bool) : IO (option goerror) :=
  client ← NewLoxiClient restOptions;
  answer ← exchange "readiness request failed" "readiness" (Get (Client.StatusReady client));
  match answer with
  | Err e => mret (Some (ELifecycle e))
  | Ok (resp, body) =>
      let status := hr_status resp in
      match unmarshal ReadyState body with
      | Some {| rs_Ready := Some ready; rs_Reasons := reasons; rs_EbpfAttachments := eb |} =>
          let state := {| rs_Ready := Some ready; rs_Reasons := reasons; rs_EbpfAttachments := eb |} in
          if negb (status =? 200)%Z && negb (status =? 503)%Z
          then mret (Some (ELifecycle (NewStatusError status body)))
          else
            _ ← (if jsonOut then print_body body else write_all (humanReady ready state));
            mret (if negb ready
                  then Some (ELifecycle
                    {| le_Reason := ReasonResultNotOK;
                       le_Message := sprintf ["gateway is not ready ("; itoa (Z.of_nat (length reasons));
                                              " reason(s))"];
                       le_HTTPStatus := status; le_Body := "" |})
                  else None)
      | _ => mret (Some (ELifecycle (NewStatusError status body)))
      end
  end.

Definition humanDiagnostics (st : DiagnosticsState) : list string :=
  ["Gateway: " +:+ ds_Version st]
  ++ (if negb (is_empty (ds_BuildInfo st)) then [sprintf [" ("; ds_BuildInfo st; ")"]] else [])
  ++ [endl]
  ++ (if negb (is_empty (ds_APIVersion st))
      then [sprintf ["  API contract: "; ds_APIVersion st; endl]] else [])
  ++ [sprintf ["  Uptime: "; itoa (ds_UptimeSeconds st); "s"; endl]]
  ++ (match ds_Ready st with
      | Some ready =>
          [sprintf ["  Ready: "; bool_str ready; endl]]
          ++ ((fun r => sprintf ["    Reason: "; r; endl]) <$> ds_ReadyReasons st)
      | None => []
      end)
  ++ [sprintf ["  Maintenance: "; ds_MaintenanceState st; endl]]
  ++ (match ds_EbpfAttachments st with
      | [] => []
      | l => ["  eBPF attachment (kernel-verified):" +:+ endl] ++ (attachment_line "    " <$> l)
      end)
  ++ ((fun m => sprintf ["  Map "; mu_Name m; ": "; itoa (mu_Count m); " of "; itoa (mu_Capacity m);
                         " entries"; endl]) <$> ds_Maps st)
  ++ ((fun d => sprintf ["  Dependency "; dd_Type d; ": "; dd_Status d; " ("; dd_LatencyClass d; ")";
                         endl]) <$> ds_ExternalDependencies st).

(** A read whose body must decode to a document [accept] takes: printed as it
    came under [-o json], rendered otherwise. *)
Definition show_document {A} (decoded : option A) (accept : A -> bool) (failed body : string)
    (jsonOut : bool) (human : A -> list string) : IO (option goerror) :=
  match decoded with
  | Some a =>
      if accept a then
        _ ← (if jsonOut then print_body body else write_all (human a)); mret None
      else mret (Some (ELifecycle (decode_failed failed body)))
  | None => mret (Some (ELifecycle (decode_failed failed body)))
  end.

Definition DiagnosticsGet `{GoLib} (restOptions : RESTOptions) (jsonOut : bool)
    : IO (option goerror) :=
  client ← NewLoxiClient restOptions;
  answer ← exchange "diagnostics request failed" "diagnostics" (Get (Client.Diagnostics client));
  match answer with
  | Err e => mret (Some (ELifecycle e))
  | Ok (resp, body) =>
      if negb (hr_status resp =? 200)%Z
      then mret (Some (ELifecycle (NewStatusError (hr_status resp) body)))
      else show_document (unmarshal DiagnosticsState body) (fun st => negb (is_empty (ds_Version st)))
             "the gateway's diagnostics response could not be decoded" body jsonOut humanDiagnostics
  end.

(* ------------------------------------------------------------------ *)
(** ** Logs                                                            *)
(* ------------------------------------------------------------------ *)

Definition MaxLogLines : Z := 10000.

Record LogsOptions : Type := {
  lg_Lines : Z;
  lg_Level : string;
  lg_Keyword : string;
  lg_File : string;
  lg_Cursor : string
}.

Record LogPage : Type := {
  lp_Lines : list string;
  lp_LogFile : string;
  lp_LogCount : Z;
  lp_TotalSize : Z;
  lp_HasMore : option bool;
  lp_NextCursor : string;
  lp_ScannedBytes : Z
}.
#[global] Instance log_page_value : GoValue LogPage := {|
  go_zero := {| lp_Lines := []; lp_LogFile := ""; lp_LogCount := 0; lp_TotalSize := 0;
                lp_HasMore := None; lp_NextCursor := ""; lp_ScannedBytes := 0 |};
  go_into strict old := decode_struct strict
    ["logs"; "log_file"; "log_count"; "total_size"; "has_more"; "next_cursor"; "scanned_bytes"]
    old (fun ms =>
    li ← field strict ms "logs" (lp_Lines old);
    lf ← field strict ms "log_file" (lp_LogFile old);
    lc ← field strict ms "log_count" (lp_LogCount old);
    ts ← field strict ms "total_size" (lp_TotalSize old);
    hm ← field strict ms "has_more" (lp_HasMore old);
    nc ← field strict ms "next_cursor" (lp_NextCursor old);
    sb ← field strict ms "scanned_bytes" (lp_ScannedBytes old);
    Some {| lp_Lines := li; lp_LogFile := lf; lp_LogCount := lc; lp_TotalSize := ts;
            lp_HasMore := hm; lp_NextCursor := nc; lp_ScannedBytes := sb |}) |}.

Definition backslash : ascii := "\"%char.

Definition checkLogName (name what : string) : result LifecycleError unit :=
  reject_if (is_empty name || streq name "." || streq name ".."
             || contains_any name (String "/" (String backslash EmptyString))
             || negb (streq name (path_base name)))
    (lifecycle_error ReasonInvalidArguments
       (sprintf [what; " must be a bare file name, got "; quote name])).

Definition optional_query (k v : string) : list (string * string) :=
  if is_empty v then [] else [(k, v)].

Definition logs_query (lo : LogsOptions) : list (string * string) :=
  [("lines", itoa (lg_Lines lo))]
  ++ optional_query "level" (lg_Level lo) ++ optional_query "keyword" (lg_Keyword lo)
  ++ optional_query "file" (lg_File lo) ++ optional_query "cursor" (lg_Cursor lo).

(** The arguments of [get logs], checked before any request. *)
Definition check_logs (lo : LogsOptions) : result LifecycleError unit :=
  reject ((lg_Lines lo <? 1)%Z || (MaxLogLines <? lg_Lines lo)%Z)
    with_ lifecycle_error ReasonInvalidArguments
            (sprintf ["--lines must be between 1 and "; itoa MaxLogLines; ", got ";
                      itoa (lg_Lines lo)]);;
  if is_empty (lg_File lo) then Ok tt else checkLogName (lg_File lo) "--file".

Definition humanLogs (lo : LogsOptions) (page : LogPage) : list string :=
  let file := if is_empty (lp_LogFile page) then lg_File lo else lp_LogFile page in
  ((fun l => l +:+ endl) <$> rev (lp_Lines page))
  ++ (match lp_Lines page with
      | [] => [if negb (is_empty file) then sprintf ["No matching lines in "; file; "."; endl]
               else "No matching lines." +:+ endl]
      | _ => []
      end)
  ++ (if (match lp_HasMore page with Some b => b | None => false end)
         && negb (is_empty (lp_NextCursor page)) then
        let next := ["loxicmd get logs"]
          ++ (if negb (is_empty file) then ["--file " +:+ file] else [])
          ++ (if negb (is_empty (lg_Level lo)) then ["--level " +:+ lg_Level lo] else [])
          ++ (if negb (is_empty (lg_Keyword lo)) then ["--keyword " +:+ lg_Keyword lo] else [])
          ++ ["--cursor " +:+ lp_NextCursor page] in
        [sprintf ["-- older lines remain: "; join " " next; endl]]
      else []).

Definition LogsGet `{GoLib} (restOptions : RESTOptions) (jsonOut : bool) (lo : LogsOptions)
    : IO (option goerror) :=
  match check_logs lo with
  | Err e => mret (Some (ELifecycle e))
  | Ok _ =>
      client ← NewLoxiClient restOptions;
      answer ← exchange "logs request failed" "logs"
                 (Get (Query (Client.Logs client) (logs_query lo)));
      match answer with
      | Err e => mret (Some (ELifecycle e))
      | Ok (resp, body) =>
          if negb (hr_status resp =? 200)%Z
          then mret (Some (ELifecycle (NewStatusError (hr_status resp) body)))
          else show_document (unmarshal LogPage body)
                 (fun p => match lp_HasMore p with Some _ => true | None => false end)
                 "the gateway's logs response could not be decoded" body jsonOut (humanLogs lo)
      end
  end.

(* ------------------------------------------------------------------ *)
(** ** The download of an archive                                      *)
(* ------------------------------------------------------------------ *)

Definition archive_args (o : Options) (name file : string) : result LifecycleError unit :=
  match checkLogName name "the archive name" with
  | Err e => Err e
  | Ok _ =>
      reject (is_empty file)
        with_ lifecycle_error ReasonInvalidArguments
          "an archive is downloaded into a file: pass -f FILE, or -f - to stream it to stdout";;
      reject (streq file "-" && lo_JSON o)
        with_ lifecycle_error ReasonInvalidArguments
          "-f - streams the archive to stdout, where -o json writes its result; choose one";;
      Ok tt
  end.

(** The body as [readTracker] hands it on: what fails is its read, unless a
    write failed before its end. *)
Definition body_stream (resp : http_response) : stream :=
  {| st_data := hr_body resp; st_error := hr_body_error resp |}.

Definition broken_archive (err : string) : goerror :=
  ELifecycle (transportError "cannot read the log archive response" err).

(** [io.Copy] to stdout. *)
Definition stream_archive (resp : http_response) : IO (option goerror) :=
  werr ← (if is_empty (hr_body resp) then mret None else write_out (hr_body resp));
  mret (match (werr : option string) with
        | Some e => Some (ELifecycle (lifecycle_error ReasonFileWrite
                                        ("cannot write the archive to stdout: " +:+ e)))
        | None => broken_archive <$> hr_body_error resp
        end).

Definition archive_report (a : LogArchiveFileResult) : LifecycleReport :=
  {| lr_Contract := ""; lr_Notes := []; lr_Persist := None; lr_Restore := None;
     lr_Snapshot := None; lr_Maintenance := None; lr_Archive := Some a; lr_Origin := None;
     lr_HTTPStatus := None; lr_ComponentCode := None |}.

Definition humanLogArchive (report : LifecycleReport) : IO (option goerror) :=
  match lr_Archive report with
  | None => mret None
  | Some a =>
      _ ← write_all [sprintf ["Archive "; af_Name a; " written to "; af_Path a; " (";
                              itoa (af_Bytes a); " bytes)."; endl]];
      mret None
  end.

(** The body stored at [file]. *)
Definition store_archive (o : Options) (command name file : string) (resp : http_response)
    : IO (option goerror) :=
  stored ← write_file_atomic file (body_stream resp);
  match stored with
  | Err f =>
      render o command empty_report no_human
        (Some (match wf_reader f with
               | Some e => broken_archive e
               | None => ELifecycle (wf_error f)
               end))
  | Ok n =>
      render o command (archive_report {| af_Name := name; af_Path := file; af_Bytes := n |})
        humanLogArchive None
  end.

Definition LogArchiveDownload `{GoLib} (restOptions : RESTOptions) (o : Options) (name file : string)
    : IO (option goerror) :=
  let command := "get.log-archives" in
  let failed e := render o command empty_report no_human (Some (ELifecycle e)) in
  match archive_args o name file with
  | Err e => failed e
  | Ok _ =>
      client ← NewLoxiClient restOptions;
      r ← Get (SubResources (Client.LogArchives client) [name]);
      match (r : http_result) with
      | Err e => failed (transportError "log archive request failed" e)
      | Ok resp =>
          if negb (hr_status resp =? 200)%Z then
            match readBody resp "log archive" with
            | Err e => failed e
            | Ok body => failed (NewStatusError (hr_status resp) body)
            end
          else if streq file "-" then stream_archive resp
          else store_archive o command name file resp
      end
  end.
