(* ===== verification/AuditSinks.v ===== *)
(** * Audit sinks: [cmd/lifecycle/audit.go], [audit_sinks.go], [pkg/api/audit.go]

    The remote sinks of the audit trail: the checks on a sink's flags, the
    requests that read, replace and remove one.  The rendering of the trail's
    status is not here: it prints a float. *)
From S2P Require Import Prelude GoStrings Regex Json JsonPrint Fields World Errors Exitcode Envelope.
From S2P Require Import Rest ConfigLifecycle Snapshot Lifecycle LifecycleCmds OpsCmds.

Definition DefaultSyslogFacility : Z := 13.
Definition MaxSyslogFacility : Z := 23.
Definition ComplianceSinkName : string := "compliance".
Definition MaxEnterpriseNumber : Z := (2 ^ 32 - 1)%Z.

(* ------------------------------------------------------------------ *)
(** ** The documents                                                   *)
(* ------------------------------------------------------------------ *)

Record AuditSinkConfig : Type := {
  ac_Enabled : bool;
  ac_Address : string;
  ac_CABundlePath : string;
  ac_ServerName : string;
  ac_ClientCertPath : string;
  ac_ClientKeyPath : string;
  ac_MaxFrameBytes : Z;
  ac_Facility : Z;
  ac_Connected : bool;
  ac_Submitted : Z;
  ac_Truncated : Z;
  ac_WriteErrors : Z;
  ac_LastError : string
}.
#[global] Instance audit_sink_config_value : GoValue AuditSinkConfig := {|
  go_zero := {| ac_Enabled := false; ac_Address := ""; ac_CABundlePath := ""; ac_ServerName := "";
                ac_ClientCertPath := ""; ac_ClientKeyPath := ""; ac_MaxFrameBytes := 0;
                ac_Facility := 0; ac_Connected := false; ac_Submitted := 0; ac_Truncated := 0;
                ac_WriteErrors := 0; ac_LastError := "" |};
  go_into strict old := decode_struct strict
    ["enabled"; "address"; "ca_bundle_path"; "server_name"; "client_cert_path";
     "client_key_path"; "max_frame_bytes"; "facility"; "connected"; "submitted"; "truncated";
     "write_errors"; "last_error"] old (fun ms =>
    en ← field strict ms "enabled" (ac_Enabled old);
    ad ← field strict ms "address" (ac_Address old);
    cb ← field strict ms "ca_bundle_path" (ac_CABundlePath old);
    sn ← field strict ms "server_name" (ac_ServerName old);
    cc ← field strict ms "client_cert_path" (ac_ClientCertPath old);
    ck ← field strict ms "client_key_path" (ac_ClientKeyPath old);
    mf ← field strict ms "max_frame_bytes" (ac_MaxFrameBytes old);
    fa ← field strict ms "facility" (ac_Facility old);
    co ← field strict ms "connected" (ac_Connected old);
    su ← field strict ms "submitted" (ac_Submitted old);
    tr ← field strict ms "truncated" (ac_Truncated old);
    we ← field strict ms "write_errors" (ac_WriteErrors old);
    le ← field strict ms "last_error" (ac_LastError old);
    Some {| ac_Enabled := en; ac_Address := ad; ac_CABundlePath := cb; ac_ServerName := sn;
            ac_ClientCertPath := cc; ac_ClientKeyPath := ck; ac_MaxFrameBytes := mf;
            ac_Facility := fa; ac_Connected := co; ac_Submitted := su; ac_Truncated := tr;
            ac_WriteErrors := we; ac_LastError := le |}) |}.

Record AuditSinkRequest : Type := {
  ar_Enabled : bool;
  ar_Address : string;
  ar_CABundlePath : string;
  ar_ServerName : string;
  ar_ClientCertPath : string;
  ar_ClientKeyPath : string;
  ar_MaxFrameBytes : Z;
  ar_Facility : Z
}.

Definition sink_request_json (r : AuditSinkRequest) : gojson :=
  GObj [("enabled", GBool (ar_Enabled r)); ("address", GStr (ar_Address r));
        ("ca_bundle_path", GStr (ar_CABundlePath r)); ("server_name", GStr (ar_ServerName r));
        ("client_cert_path", GStr (ar_ClientCertPath r));
        ("client_key_path", GStr (ar_ClientKeyPath r));
        ("max_frame_bytes", GInt (ar_MaxFrameBytes r)); ("facility", GInt (ar_Facility r))].

Record AuditSinkFilter : Type := {
  fi_Streams : list string;
  fi_Services : list string;
  fi_Outcome : string;
  fi_DataSample : Z
}.
#[global] Instance audit_sink_filter_value : GoValue AuditSinkFilter := {|
  go_zero := {| fi_Streams := []; fi_Services := []; fi_Outcome := ""; fi_DataSample := 0 |};
  go_into strict old := decode_struct strict ["streams"; "services"; "outcome"; "data_sample"] old
    (fun ms =>
    st ← field strict ms "streams" (fi_Streams old);
    se ← field strict ms "services" (fi_Services old);
    ou ← field strict ms "outcome" (fi_Outcome old);
    da ← field strict ms "data_sample" (fi_DataSample old);
    Some {| fi_Streams := st; fi_Services := se; fi_Outcome := ou; fi_DataSample := da |}) |}.

Definition filter_json (f : AuditSinkFilter) : gojson :=
  GObj (omit_list "streams" GStr (fi_Streams f) ++ omit_list "services" GStr (fi_Services f)
        ++ omit_str "outcome" (fi_Outcome f) ++ omit_int "data_sample" (fi_DataSample f)).

Record AuditSinkCursor : Type := { cu_SegmentUUID : string; cu_Seq : Z }.
#[global] Instance audit_sink_cursor_value : GoValue AuditSinkCursor := {|
  go_zero := {| cu_SegmentUUID := ""; cu_Seq := 0 |};
  go_into strict old := decode_struct strict ["segment_uuid"; "seq"] old (fun ms =>
    su ← field strict ms "segment_uuid" (cu_SegmentUUID old);
    se ← field strict ms "seq" (cu_Seq old);
    Some {| cu_SegmentUUID := su; cu_Seq := se |}) |}.

Record AuditNamedSinkConfig : Type := {
  an_Name : string;
  an_Address : string;
  an_CABundlePath : string;
  an_ServerName : string;
  an_ClientCertPath : string;
  an_ClientKeyPath : string;
  an_MaxFrameBytes : Z;
  an_Facility : Z;
  an_EnterpriseNumber : Z;
  an_Filter : option AuditSinkFilter;
  an_State : string;
  an_Cursor : option AuditSinkCursor;
  an_XseqHigh : Z;
  an_XseqEpoch : Z;
  an_Submitted : Z;
  an_Filtered : Z;
  an_Resent : Z;
  an_Poison : Z;
  an_Truncated : Z;
  an_WriteErrors : Z;
  an_LagDrops : Z;
  an_LastError : string
}.
#[global] Instance audit_named_sink_config_value : GoValue AuditNamedSinkConfig := {|
  go_zero := {| an_Name := ""; an_Address := ""; an_CABundlePath := ""; an_ServerName := "";
                an_ClientCertPath := ""; an_ClientKeyPath := ""; an_MaxFrameBytes := 0;
                an_Facility := 0; an_EnterpriseNumber := 0; an_Filter := None; an_State := "";
                an_Cursor := None; an_XseqHigh := 0; an_XseqEpoch := 0; an_Submitted := 0;
                an_Filtered := 0; an_Resent := 0; an_Poison := 0; an_Truncated := 0;
                an_WriteErrors := 0; an_LagDrops := 0; an_LastError := "" |};
  go_into strict old := decode_struct strict
    ["name"; "address"; "ca_bundle_path"; "server_name"; "client_cert_path"; "client_key_path";
     "max_frame_bytes"; "facility"; "enterprise_number"; "filter"; "state"; "cursor";
     "xseq_high"; "xseq_epoch"; "submitted"; "filtered"; "resent"; "poison"; "truncated";
     "write_errors"; "lag_drops"; "last_error"] old (fun ms =>
    na ← field strict ms "name" (an_Name old);
    ad ← field strict ms "address" (an_Address old);
    cb ← field strict ms "ca_bundle_path" (an_CABundlePath old);
    sn ← field strict ms "server_name" (an_ServerName old);
    cc ← field strict ms "client_cert_path" (an_ClientCertPath old);
    ck ← field strict ms "client_key_path" (an_ClientKeyPath old);
    mf ← field strict ms "max_frame_bytes" (an_MaxFrameBytes old);
    fa ← field strict ms "facility" (an_Facility old);
    en ← field strict ms "enterprise_number" (an_EnterpriseNumber old);
    fi ← field strict ms "filter" (an_Filter old);
    st ← field strict ms "state" (an_State old);
    cu ← field strict ms "cursor" (an_Cursor old);
    xh ← field strict ms "xseq_high" (an_XseqHigh old);
    xe ← field strict ms "xseq_epoch" (an_XseqEpoch old);
    su ← field strict ms "submitted" (an_Submitted old);
    fd ← field strict ms "filtered" (an_Filtered old);
    re ← field strict ms "resent" (an_Resent old);
    po ← field strict ms "poison" (an_Poison old);
    tr ← field strict ms "truncated" (an_Truncated old);
    we ← field strict ms "write_errors" (an_WriteErrors old);
    ld ← field strict ms "lag_drops" (an_LagDrops old);
    le ← field strict ms "last_error" (an_LastError old);
    Some {| an_Name := na; an_Address := ad; an_CABundlePath := cb; an_ServerName := sn;
            an_ClientCertPath := cc; an_ClientKeyPath := ck; an_MaxFrameBytes := mf;
            an_Facility := fa; an_EnterpriseNumber := en; an_Filter := fi; an_State := st;
            an_Cursor := cu; an_XseqHigh := xh; an_XseqEpoch := xe; an_Submitted := su;
            an_Filtered := fd; an_Resent := re; an_Poison := po; an_Truncated := tr;
            an_WriteErrors := we; an_LagDrops := ld; an_LastError := le |}) |}.

Record AuditNamedSinkRequest : Type := {
  aq_Address : string;
  aq_CABundlePath : string;
  aq_ServerName : string;
  aq_ClientCertPath : string;
  aq_ClientKeyPath : string;
  aq_MaxFrameBytes : Z;
  aq_Facility : Z;
  aq_EnterpriseNumber : Z;
  aq_Filter : option AuditSinkFilter
}.

Definition named_sink_request_json (r : AuditNamedSinkRequest) : gojson :=
  GObj ([("address", GStr (aq_Address r)); ("ca_bundle_path", GStr (aq_CABundlePath r));
         ("server_name", GStr (aq_ServerName r)); ("client_cert_path", GStr (aq_ClientCertPath r));
         ("client_key_path", GStr (aq_ClientKeyPath r));
         ("max_frame_bytes", GInt (aq_MaxFrameBytes r)); ("facility", GInt (aq_Facility r));
         ("enterprise_number", GInt (aq_EnterpriseNumber r))]
        ++ omit_nil "filter" filter_json (aq_Filter r)).

(* ------------------------------------------------------------------ *)
(** ** The flags                                                       *)
(* ------------------------------------------------------------------ *)

Record AuditSinkSetOptions : Type := {
  as_Disable : bool;
  as_Address : string;
  as_CABundlePath : string;
  as_ServerName : string;
  as_ClientCertPath : string;
  as_ClientKeyPath : string;
  as_MaxFrameBytes : Z;
  as_Facility : Z;
  as_EnterpriseNumber : Z;
  as_Streams : list string;
  as_Services : list string;
  as_Outcome : string;
  as_DataSample : Z
}.

Definition no_strings (l : list string) : bool := match l with [] => true | _ => false end.

Definition secondaryOnly (so : AuditSinkSetOptions) : string :=
  if negb (as_EnterpriseNumber so =? 0)%Z then "--enterprise-number"
  else if negb (no_strings (as_Streams so)) then "--stream"
  else if negb (no_strings (as_Services so)) then "--service"
  else if negb (is_empty (as_Outcome so)) then "--outcome"
  else if negb (as_DataSample so =? 0)%Z then "--data-sample"
  else "".

Definition invalidArguments (parts : list string) : LifecycleError :=
  lifecycle_error ReasonInvalidArguments (sprintf parts).

Definition auditSinkTransport (so : AuditSinkSetOptions) : result LifecycleError AuditSinkRequest :=
  reject (is_empty (trim_space (as_Address so)))
    with_ invalidArguments
      ["--address is required to configure a sink (use --disable to remove one)"];;
  reject (is_empty (trim_space (as_CABundlePath so)))
    with_ invalidArguments
      ["--ca-bundle is required: the receiver's certificate is always verified and there is no ";
       "mode that disables it"];;
  reject (negb (Bool.eqb (is_empty (as_ClientCertPath so)) (is_empty (as_ClientKeyPath so))))
    with_ invalidArguments ["--client-cert and --client-key must be given together, or neither"];;
  reject ((as_Facility so <? 0)%Z || (MaxSyslogFacility <? as_Facility so)%Z)
    with_ invalidArguments ["--facility must be between 0 and "; itoa MaxSyslogFacility; ", got ";
                            itoa (as_Facility so)];;
  reject (as_MaxFrameBytes so <? 0)%Z
    with_ invalidArguments ["--max-frame-bytes cannot be negative, got ";
                            itoa (as_MaxFrameBytes so)];;
  Ok {| ar_Enabled := true; ar_Address := as_Address so; ar_CABundlePath := as_CABundlePath so;
        ar_ServerName := as_ServerName so; ar_ClientCertPath := as_ClientCertPath so;
        ar_ClientKeyPath := as_ClientKeyPath so; ar_MaxFrameBytes := as_MaxFrameBytes so;
        ar_Facility := as_Facility so |}.

Definition auditSinkRequest (so : AuditSinkSetOptions) : result LifecycleError AuditSinkRequest :=
  let flag := secondaryOnly so in
  reject (negb (is_empty flag))
    with_ invalidArguments
      [flag; " applies to a named secondary sink ('loxicmd set audit-sink <NAME> ...'); ";
       "the compliance sink is sent every record, unnumbered"];;
  if as_Disable so then
    Ok {| ar_Enabled := false; ar_Address := ""; ar_CABundlePath := ""; ar_ServerName := "";
          ar_ClientCertPath := ""; ar_ClientKeyPath := ""; ar_MaxFrameBytes := 0;
          ar_Facility := 0 |}
  else auditSinkTransport so.

(** [^[a-z0-9_-]{1,64}$]. *)
Definition auditSinkNameRe : rx :=
  RSeq [RSet (fun c => is_lower c || is_digit c || one_of_chars "_-" c);
        RUpTo 63 (RSet (fun c => is_lower c || is_digit c || one_of_chars "_-" c))].

Definition checkAuditSinkName (name : string) : result LifecycleError unit :=
  reject (streq name ComplianceSinkName)
    with_ invalidArguments
      ["the name "; quote ComplianceSinkName; " is reserved for the compliance sink; ";
       "that sink is read and replaced with 'audit-sink' and no name"];;
  reject (negb (full_match auditSinkNameRe name))
    with_ invalidArguments ["a sink name is 1 to 64 of a-z, 0-9, '-' and '_', got "; quote name];;
  Ok tt.

Definition auditFilterStreams : list string := ["mgmt"; "data"; "audit_system"].
Definition auditOutcomeOK : string := "ok".
Definition auditOutcomeFailed : string := "failed".

Definition check_stream (s : string) : result LifecycleError unit :=
  reject_if (negb (str_in s auditFilterStreams))
    (invalidArguments ["--stream takes "; join ", " auditFilterStreams; ", got "; quote s]).

Definition check_service (s : string) : result LifecycleError unit :=
  reject_if (is_empty (trim_space s)) (invalidArguments ["--service cannot be empty"]).

(** The filter that is sent: sampling one in one keeps everything. *)
Definition sink_filter (so : AuditSinkSetOptions) : option AuditSinkFilter :=
  if negb (no_strings (as_Streams so)) || negb (no_strings (as_Services so))
     || negb (is_empty (as_Outcome so)) || (1 <? as_DataSample so)%Z
  then Some {| fi_Streams := as_Streams so; fi_Services := as_Services so;
               fi_Outcome := as_Outcome so;
               fi_DataSample := if (1 <? as_DataSample so)%Z then as_DataSample so else 0 |}
  else None.

Definition auditNamedSinkRequest (name : string) (so : AuditSinkSetOptions)
    : result LifecycleError AuditNamedSinkRequest :=
  _ ← checkAuditSinkName name;
  reject (as_Disable so)
    with_ invalidArguments
      ["--disable removes the compliance sink; a secondary sink is removed with ";
       "'loxicmd delete audit-sink "; name; "'"];;
  t ← auditSinkTransport so;
  reject ((as_EnterpriseNumber so <? 1)%Z || (MaxEnterpriseNumber <? as_EnterpriseNumber so)%Z)
    with_ invalidArguments
      ["--enterprise-number is required for a secondary sink and must be between 1 and ";
       itoa MaxEnterpriseNumber; ", got "; itoa (as_EnterpriseNumber so)];;
  _ ← for_each check_stream (as_Streams so);
  _ ← for_each check_service (as_Services so);
  reject (negb (str_in (as_Outcome so) [""; auditOutcomeOK; auditOutcomeFailed]))
    with_ invalidArguments ["--outcome takes "; auditOutcomeOK; " or "; auditOutcomeFailed;
                            ", got "; quote (as_Outcome so)];;
  reject (as_DataSample so <? 0)%Z
    with_ invalidArguments ["--data-sample cannot be negative, got "; itoa (as_DataSample so)];;
  Ok {| aq_Address := ar_Address t; aq_CABundlePath := ar_CABundlePath t;
        aq_ServerName := ar_ServerName t; aq_ClientCertPath := ar_ClientCertPath t;
        aq_ClientKeyPath := ar_ClientKeyPath t; aq_MaxFrameBytes := ar_MaxFrameBytes t;
        aq_Facility := ar_Facility t; aq_EnterpriseNumber := as_EnterpriseNumber so;
        aq_Filter := sink_filter so |}.

(* ------------------------------------------------------------------ *)
(** ** Renderings                                                      *)
(* ------------------------------------------------------------------ *)

Definition boundBytes (v : Z) : string := if (v =? 0)%Z then "unbounded" else itoa v +:+ " bytes".

Definition when (b : bool) (parts : list string) : list string :=
  if b then [sprintf parts +:+ endl] else [].

Definition humanAuditSink (cfg : AuditSinkConfig) : list string :=
  if negb (ac_Enabled cfg) then ["Audit sink: not configured - the trail is local only." +:+ endl]
  else
    [ sprintf ["Audit sink: enabled, ";
               (if ac_Connected cfg then "connected" else "not connected"); endl];
      sprintf ["  Receiver: "; ac_Address cfg; endl];
      sprintf ["  CA bundle: "; ac_CABundlePath cfg; endl] ]
    ++ when (negb (is_empty (ac_ServerName cfg))) ["  Expected server name: "; ac_ServerName cfg]
    ++ (if negb (is_empty (ac_ClientCertPath cfg)) then
          [ sprintf ["  Client certificate: "; ac_ClientCertPath cfg; endl];
            sprintf ["  Client key: "; ac_ClientKeyPath cfg; endl] ]
        else [])
    ++ [ sprintf ["  Facility: "; itoa (ac_Facility cfg); endl];
         sprintf ["  Max frame: "; boundBytes (ac_MaxFrameBytes cfg); endl];
         sprintf ["  Submitted to the socket: "; itoa (ac_Submitted cfg);
                  " (not a delivery count; the protocol has no acknowledgement)"; endl] ]
    ++ when (negb (ac_Truncated cfg =? 0)%Z)
         ["  Sent shortened to fit the receiver's cap: "; itoa (ac_Truncated cfg)]
    ++ when (negb (ac_WriteErrors cfg =? 0)%Z)
         ["  Write errors: "; itoa (ac_WriteErrors cfg); " (each one holds the cursor back)"]
    ++ when (negb (is_empty (ac_LastError cfg))) ["  Last error: "; ac_LastError cfg].

Definition describeAuditFilter (f : option AuditSinkFilter) : string :=
  match f with
  | None => "every record"
  | Some f =>
      let parts :=
        (if no_strings (fi_Streams f) then [] else ["streams " +:+ join "," (fi_Streams f)])
        ++ (if no_strings (fi_Services f) then []
            else ["data records of services " +:+ join "," (fi_Services f)])
        ++ (if is_empty (fi_Outcome f) then [] else ["outcome " +:+ fi_Outcome f])
        ++ (if (1 <? fi_DataSample f)%Z then ["one data record in " +:+ itoa (fi_DataSample f)] else []) in
      match parts with [] => "every record" | _ => join "; " parts end
  end.

Definition humanAuditNamedSink (name : string) (cfg : AuditNamedSinkConfig) : list string :=
  [ sprintf ["Audit sink "; name; ": secondary, ";
             (if is_empty (an_State cfg) then "state not reported" else an_State cfg); endl];
    sprintf ["  Receiver: "; an_Address cfg; endl];
    sprintf ["  CA bundle: "; an_CABundlePath cfg; endl] ]
  ++ when (negb (is_empty (an_ServerName cfg))) ["  Expected server name: "; an_ServerName cfg]
  ++ (if negb (is_empty (an_ClientCertPath cfg)) then
        [ sprintf ["  Client certificate: "; an_ClientCertPath cfg; endl];
          sprintf ["  Client key: "; an_ClientKeyPath cfg; endl] ]
      else [])
  ++ [ sprintf ["  Facility: "; itoa (an_Facility cfg); endl];
       sprintf ["  Max frame: "; boundBytes (an_MaxFrameBytes cfg); endl];
       sprintf ["  Enterprise number: "; itoa (an_EnterpriseNumber cfg); endl];
       sprintf ["  Selects: "; describeAuditFilter (an_Filter cfg); endl];
       match an_Cursor cfg with
       | Some c =>
           if is_empty (cu_SegmentUUID c) then "  Past record: none yet" +:+ endl
           else sprintf ["  Past record: seq "; itoa (cu_Seq c); " in segment "; cu_SegmentUUID c; endl]
       | None => "  Past record: none yet" +:+ endl
       end;
       sprintf ["  Export sequence: high "; itoa (an_XseqHigh cfg); ", epoch ";
                itoa (an_XseqEpoch cfg); endl];
       sprintf ["  Submitted to the socket: "; itoa (an_Submitted cfg);
                " (not a delivery count; the protocol has no acknowledgement)"; endl] ]
  ++ when (negb (an_Resent cfg =? 0)%Z) ["  Sent again after a lost session: "; itoa (an_Resent cfg)]
  ++ when (negb (an_Filtered cfg =? 0)%Z)
       ["  Kept from this sink by its filter: "; itoa (an_Filtered cfg)]
  ++ when (negb (an_Truncated cfg =? 0)%Z)
       ["  Sent shortened to fit the receiver's cap: "; itoa (an_Truncated cfg)]
  ++ when (negb (an_Poison cfg =? 0)%Z)
       ["  Skipped because the sink cannot carry them: "; itoa (an_Poison cfg)]
  ++ when (negb (an_LagDrops cfg =? 0)%Z)
       ["  Segments LOST to retention before they were sent: "; itoa (an_LagDrops cfg)]
  ++ when (negb (an_WriteErrors cfg =? 0)%Z)
       ["  Write errors: "; itoa (an_WriteErrors cfg); " (each one holds the cursor back)"]
  ++ when (negb (is_empty (an_LastError cfg))) ["  Last error: "; an_LastError cfg].

(* ------------------------------------------------------------------ *)
(** ** The commands                                                    *)
(* ------------------------------------------------------------------ *)

Definition lifecycle_failed (e : LifecycleError) : IO (option goerror) := mret (Some (ELifecycle e)).

(** A sink that is not configured is an object without fields: both decodings
    must succeed. *)
Definition decode_sink (body : string) : option AuditSinkConfig :=
  _ ← unmarshal (gmap string json) body; unmarshal AuditSinkConfig body.

Definition AuditSinkGet `{GoLib} (restOptions : RESTOptions) (jsonOut : bool) : IO (option goerror) :=
  client ← NewLoxiClient restOptions;
  answer ← exchange "audit sink request failed" "audit sink" (Get (Client.AuditSink client));
  match answer with
  | Err e => lifecycle_failed e
  | Ok (resp, body) =>
      if negb (hr_status resp =? 200)%Z then lifecycle_failed (NewStatusError (hr_status resp) body)
      else show_document (decode_sink body) (fun _ => true)
             "the gateway's audit sink response could not be decoded" body jsonOut humanAuditSink
  end.

Definition AuditNamedSinkGet `{GoLib} (restOptions : RESTOptions) (jsonOut : bool) (name : string)
    : IO (option goerror) :=
  match checkAuditSinkName name with
  | Err e => lifecycle_failed e
  | Ok _ =>
      client ← NewLoxiClient restOptions;
      answer ← exchange "audit sink request failed" "audit sink"
                 (Get (SubResources (Client.AuditSinks client) [name]));
      match answer with
      | Err e => lifecycle_failed e
      | Ok (resp, body) =>
          if negb (hr_status resp =? 200)%Z
          then lifecycle_failed (NewStatusError (hr_status resp) body)
          else show_document (unmarshal AuditNamedSinkConfig body)
                 (fun cfg => negb (is_empty (an_Address cfg)))
                 "the gateway's audit sink response could not be decoded" body jsonOut
                 (humanAuditNamedSink name)
      end
  end.

(** A change of a sink: confirmed by a 204, unknown when no answer came. *)
Definition sink_change_verdict (unknown : string -> list string) (r : http_result)
    : option LifecycleError :=
  match r with
  | Err e => Some (unconfirmed (unknown e))
  | Ok resp =>
      match readBody resp "audit sink" with
      | Err e => Some e
      | Ok body =>
          if negb (hr_status resp =? 204)%Z then Some (NewStatusError (hr_status resp) body) else None
      end
  end.

Definition change_sink (send : IO http_result) (unknown : string -> list string) (jsonOut : bool)
    (done : string) : IO (option goerror) :=
  r ← send;
  match sink_change_verdict unknown r with
  | Some e => lifecycle_failed e
  | None =>
      _ ← write_out (if jsonOut
                     then sprintf ["{"; dquote; "result"; dquote; ":"; dquote; "Success"; dquote; "}";
                                   endl]
                     else done +:+ endl);
      mret None
  end.

Definition sink_change_unknown (verify : string) (e : string) : list string :=
  ["the audit sink change could not be confirmed and may or may not have been applied: "; e;
   "; verify the actual configuration with '"; verify; "' before acting on it"].

Definition AuditSinkSet `{GoLib} (restOptions : RESTOptions) (jsonOut : bool)
    (so : AuditSinkSetOptions) : IO (option goerror) :=
  match auditSinkRequest so with
  | Err e => lifecycle_failed e
  | Ok req =>
      client ← NewLoxiClient restOptions;
      change_sink (Create (Client.AuditSink client) (sink_request_json req))
        (sink_change_unknown "loxicmd get audit-sink") jsonOut
        (if as_Disable so then "Audit sink removed. The trail is local only."
         else sprintf ["Audit sink replaced: "; ar_Address req; ", verified against ";
                       ar_CABundlePath req; "."])
  end.

Definition AuditNamedSinkSet `{GoLib} (restOptions : RESTOptions) (jsonOut : bool) (name : string)
    (so : AuditSinkSetOptions) : IO (option goerror) :=
  match auditNamedSinkRequest name so with
  | Err e => lifecycle_failed e
  | Ok req =>
      client ← NewLoxiClient restOptions;
      change_sink (Put (SubResources (Client.AuditSinks client) [name]) (named_sink_request_json req))
        (sink_change_unknown ("loxicmd get audit-sink " +:+ name)) jsonOut
        (sprintf ["Audit sink "; name; " set: "; aq_Address req; ", verified against ";
                  aq_CABundlePath req; "; it is sent "; describeAuditFilter (aq_Filter req); "."])
  end.

Definition AuditNamedSinkDelete `{GoLib} (restOptions : RESTOptions) (jsonOut : bool)
    (name : string) : IO (option goerror) :=
  match checkAuditSinkName name with
  | Err e => lifecycle_failed e
  | Ok _ =>
      client ← NewLoxiClient restOptions;
      change_sink (Delete (SubResources (Client.AuditSinks client) [name]))
        (fun e => ["the removal of audit sink "; name;
                   " could not be confirmed and may or may not have been applied: "; e;
                   "; verify with 'loxicmd get audit-sink "; name; "' before acting on it"])
        jsonOut
        (sprintf ["Audit sink "; name; " removed. Its place in the trail and its export sequence ";
                  "are kept; a sink set under the same name continues both."])
  end.
