(* ===== verification/LifecycleProps.v ===== *)
(** * What the lifecycle commands send, and what their exit status says *)
From S2P Require Import Prelude GoStrings Json JsonPrint Fields World Errors Exitcode Envelope.
From S2P Require Import Rest Requests ConfigLifecycle Snapshot Lifecycle LifecycleCmds OpsCmds AuditSinks.

Lemma exchange_wp failed what send w h Q :
  wp send w h (fun r t => Q (received failed what r) t) -> wp (exchange failed what send) w h Q.
Proof.
  intros H. apply wp_bind. eapply wp_mono; [exact H|]. intros r t Ht. apply wp_ret.
  by rewrite app_nil_r.
Qed.

(* ------------------------------------------------------------------ *)
(** ** Rendering                                                       *)
(* ------------------------------------------------------------------ *)

Lemma write_all_ops l : ops_satisfy output_op (write_all l).
Proof.
  induction l as [|s l IH]; simpl; [apply ops_ret|].
  apply ops_bind; [by apply ops_perform | done].
Qed.

Lemma write_ops r : ops_satisfy output_op (Write r).
Proof. unfold Write. repeat first [ops_step | by apply ops_perform]. Qed.

Lemma one_line_ops s : ops_satisfy output_op (one_line s).
Proof. unfold one_line. repeat first [ops_step | by apply ops_perform]. Qed.

Lemma render_ops o command report human err :
  (forall r, ops_satisfy output_op (human r)) ->
  ops_satisfy output_op (render o command report human err).
Proof. intros Hh. unfold render. repeat first [ops_step | apply write_ops | apply Hh]. Qed.

(** A rendering keeps an error, and adds none that was not one of a write. *)
Lemma render_value o command report human err w h :
  match err with
  | Some e => (render o command report human err w h).1 = Some e
  | None => True
  end.
Proof.
  destruct err as [e|]; [|done]. unfold render. destruct (lo_JSON o); [|done].
  rewrite io_bind_run. by destruct (Write _ w h).
Qed.

Lemma wp_render o command report human err w h (Q : option goerror -> trace -> Prop) :
  (forall r, ops_satisfy output_op (human r)) ->
  (forall res t, https t = [] -> Forall (fun e => output_op (ev_op e)) t ->
     (err <> None -> res = err) -> Q res t) ->
  wp (render o command report human err) w h Q.
Proof.
  intros Hh HQ. rewrite wp_value. intros res t Hr.
  assert (Hops := render_ops o command report human err Hh w h).
  assert (Hv := render_value o command report human err w h). rewrite Hr in Hops, Hv. simpl in *.
  apply HQ; [| done |].
  - apply https_none. eapply Forall_impl; [exact Hops|]. by intros [[] a].
  - destruct err; [done|]. by intros [].
Qed.

Lemma human_ops :
  (forall r, ops_satisfy output_op (humanPersist r))
  /\ (forall r, ops_satisfy output_op (humanRestore r))
  /\ (forall r, ops_satisfy output_op (humanSnapshot r))
  /\ (forall r, ops_satisfy output_op (humanMaintenance r))
  /\ (forall r, ops_satisfy output_op (no_human r)).
Proof.
  unfold humanPersist, humanRestore, humanSnapshot, humanMaintenance, no_human.
  split_and!; intros r; repeat first [ops_step | apply write_all_ops | apply one_line_ops].
Qed.

(** The verdict of an operation shows in what its command returns. *)
Definition shows (verdict res : option goerror) : Prop := verdict <> None -> res = verdict.

(** One request, and the verdict on its answer. *)
Definition one_request (ro : RESTOptions) (method : string) (url : LoxiClient -> string)
    (body : option string) (verdict : http_result -> option goerror)
    (err : option goerror) (t : trace) : Prop :=
  exists c r, rc_Options c = ro
    /\ https t = [(build_request c method (url c) body, r)] /\ shows (verdict r) err.

Lemma persist_run `{GoLib} ro o command w h :
  wp (Persist ro o command) w h
    (one_request ro "POST" (fun c => GetUrlString (Client.Persist c)) (Some "null")
       (fun r => (persist_outcome (lo_Strict o) r).2)).
Proof.
  unfold Persist, doPersist. apply wp_bind, wp_client. intros c t Hc Ht _.
  unfold Create. rewrite (with_body_run _ "null") by reflexivity.
  apply wp_bind, wp_http. intros r. apply wp_ret. rewrite app_nil_r.
  apply wp_render; [apply human_ops|]. intros res t' Ht' _ Hres.
  exists c, r. split; [done|]. rewrite !https_app, Ht, Ht'. split; [done|]. done.
Qed.

(** A refusal before any request. *)
Definition refused (reasons : list string) (err : option goerror) (t : trace) : Prop :=
  https t = [] /\ exists e, err = Some (ELifecycle e) /\ le_Reason e ∈ reasons.

Lemma marshal_raw data : json_valid data = true -> marshal (GRaw data) = Some (compact_raw data).
Proof. unfold marshal. simpl. by intros ->. Qed.

Lemma restore_run `{GoLib} ro o opts w h :
  wp (Restore ro o opts) w h (fun err t =>
    refused [ReasonInvalidArguments; ReasonFileRead; ReasonInvalidJSON] err t
    \/ exists data,
         Ev (OpReadFile (ro_File opts)) (Ok data) ∈ t /\ json_valid data = true
         /\ one_request ro "POST" (fun c => GetUrlString (Query (Client.Restore c) (restore_query opts)))
              (Some (compact_raw data))
              (fun r => (restore_answer (lo_Strict o) (restore_mode (ro_Commit opts)) r).2) err t).
Proof.
  assert (Hrefuse : forall e w h t, https t = [] ->
    le_Reason e ∈ [ReasonInvalidArguments; ReasonFileRead; ReasonInvalidJSON] ->
    wp (render o "create.restore" (restore_report None) humanRestore (Some (ELifecycle e))) w h
      (fun err t' => refused [ReasonInvalidArguments; ReasonFileRead; ReasonInvalidJSON] err (t ++ t'))).
  { intros e w' h' t Ht He. apply wp_render; [apply human_ops|]. intros res t' Ht' _ Hres.
    split; [by rewrite https_app, Ht, Ht'|]. exists e. split; [by apply Hres | done]. }
  unfold Restore, doRestore, read_document, read_file. apply wp_bind, wp_bind.
  apply wp_if; intros Hf.
  - apply wp_ret, wp_ret. eapply wp_mono; [apply (Hrefuse _ _ _ []); [done | set_solver]|]. auto.
  - wp_op. intros [data|e] _; [destruct (json_valid data) eqn:Hv|]; apply wp_ret.
    + apply wp_client. intros c t Hc Ht _. unfold Create. rewrite (with_body_run _ _ _ (marshal_raw _ Hv)).
      apply wp_bind, wp_http. intros r. apply wp_ret. rewrite app_nil_r.
      apply wp_render; [apply human_ops|]. intros res t' Ht' _ Hres. right. exists data.
      split; [set_solver|]. split; [done|]. exists c, r. split; [done|].
      rewrite !https_app, Ht, Ht'. split; [done|]. done.
    + apply wp_ret. eapply wp_mono; [apply (Hrefuse _ _ _ [Ev (OpReadFile (ro_File opts)) (Ok data)]);
        [done | set_solver]|]. auto.
    + apply wp_ret. eapply wp_mono; [apply (Hrefuse _ _ _ [Ev (OpReadFile (ro_File opts)) (Err e)]);
        [done | set_solver]|]. auto.
Qed.

Lemma maintenance_marshals so :
  marshal (maintenance_request so) = Some (encode (maintenance_request so)).
Proof. unfold marshal, maintenance_request, omit_int. by destruct (u32 _ =? 0)%Z. Qed.

Lemma maintenance_set_run `{GoLib} ro o so w h :
  wp (MaintenanceSet ro o so) w h
    (one_request ro "PUT" (fun c => GetUrlString (Client.Maintenance c))
       (Some (encode (maintenance_request so))) (fun r => (maintenance_change r).2)).
Proof.
  unfold MaintenanceSet, doMaintenanceSet. apply wp_bind, wp_client. intros c t Hc Ht _.
  unfold Put. rewrite (with_body_run _ _ _ (maintenance_marshals so)).
  apply wp_bind, wp_http. intros r. apply wp_ret. rewrite app_nil_r.
  apply wp_render; [intros m; by case_match; apply human_ops|]. intros res t' Ht' _ Hres.
  exists c, r. split; [done|]. rewrite !https_app, Ht, Ht'. split; [done|]. done.
Qed.

(** The three changes of a sink. *)
Lemma lifecycle_failed_wp e w h (Q : option goerror -> trace -> Prop) :
  Q (Some (ELifecycle e)) [] -> wp (lifecycle_failed e) w h Q.
Proof. done. Qed.

Lemma change_sink_run req unknown jsonOut done_ w h (Q : option goerror -> trace -> Prop) :
  (forall r res t, https t = [(req, r)] -> res = ELifecycle <$> sink_change_verdict unknown r -> Q res t) ->
  wp (change_sink (http_do req) unknown jsonOut done_) w h Q.
Proof.
  intros H. unfold change_sink. apply wp_bind, wp_http. intros r.
  destruct (sink_change_verdict unknown r) as [e|] eqn:Hv.
  - apply wp_ret. apply (H r); [done | by rewrite Hv].
  - unfold write_out. wp_op. intros a _. apply wp_ret.
    apply (H r); [done | by rewrite Hv].
Qed.

Lemma sink_marshals req : marshal (sink_request_json req) = Some (encode (sink_request_json req)).
Proof. done. Qed.

Lemma forallb_GStr l : forallb raw_ok (GStr <$> l) = true.
Proof. by induction l. Qed.

Lemma named_sink_marshals req :
  marshal (named_sink_request_json req) = Some (encode (named_sink_request_json req)).
Proof.
  unfold marshal, named_sink_request_json, filter_json, omit_list, omit_str, omit_int.
  destruct (aq_Filter req) as [f|]; [|done]. simpl.
  destruct (fi_Streams f) as [|s1 l1], (fi_Services f) as [|s2 l2]; simpl;
    rewrite ?forallb_GStr; by repeat case_match.
Qed.

Lemma sink_set_run `{GoLib} ro jsonOut so w h :
  wp (AuditSinkSet ro jsonOut so) w h (fun err t =>
    (exists e, auditSinkRequest so = Err e /\ err = Some (ELifecycle e) /\ https t = [])
    \/ exists req c r, auditSinkRequest so = Ok req /\ rc_Options c = ro
         /\ https t = [(build_request c "POST" (GetUrlString (Client.AuditSink c))
                          (Some (encode (sink_request_json req))), r)]
         /\ err = ELifecycle <$> sink_change_verdict (sink_change_unknown "loxicmd get audit-sink") r).
Proof.
  unfold AuditSinkSet. destruct (auditSinkRequest so) as [req|e].
  - apply wp_client. intros c t Hc Ht _. unfold Create.
    rewrite (with_body_run _ _ _ (sink_marshals req)). apply change_sink_run. intros r res t' Ht' Hres.
    right. exists req, c, r. by rewrite https_app, Ht, Ht'.
  - apply lifecycle_failed_wp. eauto.
Qed.

Lemma named_sink_set_run `{GoLib} ro jsonOut name so w h :
  wp (AuditNamedSinkSet ro jsonOut name so) w h (fun err t =>
    (exists e, auditNamedSinkRequest name so = Err e /\ err = Some (ELifecycle e) /\ https t = [])
    \/ exists req c r, auditNamedSinkRequest name so = Ok req /\ rc_Options c = ro
         /\ https t = [(build_request c "PUT" (GetUrlString (SubResources (Client.AuditSinks c) [name]))
                          (Some (encode (named_sink_request_json req))), r)]
         /\ err = ELifecycle <$> sink_change_verdict
                    (sink_change_unknown ("loxicmd get audit-sink " +:+ name)) r).
Proof.
  unfold AuditNamedSinkSet. destruct (auditNamedSinkRequest name so) as [req|e].
  - apply wp_client. intros c t Hc Ht _. unfold Put.
    rewrite (with_body_run _ _ _ (named_sink_marshals req)). apply change_sink_run.
    intros r res t' Ht' Hres. right. exists req, c, r. by rewrite https_app, Ht, Ht'.
  - apply lifecycle_failed_wp. eauto.
Qed.

Lemma named_sink_delete_run `{GoLib} ro jsonOut name w h :
  wp (AuditNamedSinkDelete ro jsonOut name) w h (fun err t =>
    (exists e, checkAuditSinkName name = Err e /\ err = Some (ELifecycle e) /\ https t = [])
    \/ exists c r unknown, checkAuditSinkName name = Ok tt /\ rc_Options c = ro
         /\ https t = [(build_request c "DELETE"
                          (GetUrlString (SubResources (Client.AuditSinks c) [name])) None, r)]
         /\ err = ELifecycle <$> sink_change_verdict unknown r).
Proof.
  unfold AuditNamedSinkDelete. destruct (checkAuditSinkName name) as [[]|e].
  - apply wp_client. intros c t Hc Ht _. unfold Delete. apply change_sink_run.
    intros r res t' Ht' Hres. right. exists c, r. eexists. by rewrite https_app, Ht, Ht'.
  - apply lifecycle_failed_wp. eauto.
Qed.

(* ------------------------------------------------------------------ *)
(** ** Evidence                                                        *)
(* ------------------------------------------------------------------ *)

(** An answer that came whole, with a status and a body that satisfy [P]. *)
Definition answered (P : Z -> string -> Prop) (t : trace) : Prop :=
  exists req resp, https t = [(req, Ok resp)] /\ hr_body_error resp = None
                   /\ P (hr_status resp) (hr_body resp).

(** Success only with the evidence for it. *)
Definition success_means (P : Z -> string -> Prop) (err : option goerror) (t : trace) : Prop :=
  match err with None => answered P t | Some _ => True end.

Lemma one_request_success ro method url body verdict P err t :
  (forall r, verdict r = None -> exists resp, r = Ok resp /\ hr_body_error resp = None
                                             /\ P (hr_status resp) (hr_body resp)) ->
  one_request ro method url body verdict err t -> success_means P err t.
Proof.
  intros HP (c & r & _ & Ht & Hs). destruct err as [e|]; [done|].
  assert (Hv : verdict r = None) by (destruct (verdict r); [by specialize (Hs ltac:(done)) | done]).
  apply HP in Hv as (resp & -> & Hb & HPr). by exists (build_request c method (url c) body), resp.
Qed.

Lemma received_ok failed what r resp body :
  received failed what r = Ok (resp, body) ->
  r = Ok resp /\ hr_body_error resp = None /\ body = hr_body resp.
Proof.
  unfold received, readBody. destruct r as [resp'|e]; [|done].
  destruct (hr_body_error resp') eqn:Hb; simpl; [done|]. by intros [= <- <-].
Qed.

Definition persisted (strict : bool) (status : Z) (body : string) : Prop :=
  status = 200%Z /\ exists r, unmarshal PersistResult body = Some r /\ PersistVerdict r strict = Ok tt.

Lemma persist_outcome_success `{GoLib} strict r :
  (persist_outcome strict r).2 = None ->
  exists resp, r = Ok resp /\ hr_body_error resp = None
               /\ persisted strict (hr_status resp) (hr_body resp).
Proof.
  unfold persist_outcome. destruct (received _ _ r) as [[resp body]|e] eqn:Hr; [|done].
  apply received_ok in Hr as (-> & Hb & ->).
  destruct (hr_status resp =? 200)%Z eqn:Hst; [|done]. apply Z.eqb_eq in Hst. cbn [negb].
  unfold DecodePersistResult. destruct (unmarshal PersistResult (hr_body resp)) as [p|] eqn:Hu; [|done].
  simpl. destruct (PersistVerdict p strict) as [[]|] eqn:Hv; [|done]. intros _.
  exists resp. do 3 (split; [done|]). by exists p.
Qed.

(** The document of a restore, judged by the mode asked for when it names none. *)
Definition restored (strict : bool) (mode : string) (status : Z) (body : string) : Prop :=
  is_2xx status = true /\ exists r,
    unmarshal RestoreResult body = Some r /\ looksLikeRestoreResult r = true
    /\ RestoreVerdict (if is_empty (rr_Mode r) then with_mode r mode else r) strict = Ok tt.

Lemma restore_answer_success `{GoLib} strict mode r :
  (restore_answer strict mode r).2 = None ->
  exists resp, r = Ok resp /\ hr_body_error resp = None
               /\ restored strict mode (hr_status resp) (hr_body resp).
Proof.
  unfold restore_answer. destruct (received _ _ r) as [[resp body]|e] eqn:Hr; [|done].
  apply received_ok in Hr as (-> & Hb & ->). unfold restore_outcome, DecodeRestoreResult.
  destruct (unmarshal RestoreResult (hr_body resp)) as [p|] eqn:Hu; simpl.
  - destruct (looksLikeRestoreResult p) eqn:Hl; simpl;
      [|by destruct (negb (is_2xx (hr_status resp)))].
    destruct (RestoreVerdict _ strict) as [[]|] eqn:Hv; [|done].
    destruct (is_2xx (hr_status resp)) eqn:Hs; [|done]. intros _.
    exists resp. do 3 (split; [done|]). by exists p.
  - by destruct (negb (is_2xx (hr_status resp))).
Qed.

Definition in_state (status : Z) (body : string) : Prop :=
  status = 200%Z /\ exists st, unmarshal MaintenanceState body = Some st /\ ms_State st <> "".

Lemma maintenance_change_success r :
  (maintenance_change r).2 = None ->
  exists resp, r = Ok resp /\ hr_body_error resp = None /\ in_state (hr_status resp) (hr_body resp).
Proof.
  destruct r as [resp|e]; [|done]. simpl. unfold decodeMaintenance, readBody.
  destruct (hr_body_error resp) eqn:Hb; [done|].
  destruct (hr_status resp =? 200)%Z eqn:Hst; [|done]. apply Z.eqb_eq in Hst. cbn [negb].
  destruct (unmarshal MaintenanceState (hr_body resp)) as [st|] eqn:Hu; [|done].
  destruct (is_empty (ms_State st)) eqn:He; [done|]. apply is_empty_false in He. intros _.
  exists resp. do 3 (split; [done|]). by exists st.
Qed.

Lemma sink_change_success unknown r :
  sink_change_verdict unknown r = None ->
  exists resp, r = Ok resp /\ hr_body_error resp = None /\ hr_status resp = 204%Z.
Proof.
  destruct r as [resp|e]; [|done]. simpl. unfold readBody.
  destruct (hr_body_error resp) eqn:Hb; [done|].
  destruct (hr_status resp =? 204)%Z eqn:Hst; [|done]. apply Z.eqb_eq in Hst. intros _. by exists resp.
Qed.

(** What a change sends and what it may conclude. *)
Definition success_of {A} (m : IO (option A)) (P : Z -> string -> Prop) : Prop :=
  forall w, match (m w []).1 with None => answered P (m w []).2 | Some _ => True end.

(** C17: no lifecycle command reports success without the evidence for it: one
    request was sent and its answer came whole; a persist was confirmed by a
    200 whose document passes its verdict, a restore by a 2xx whose document
    passes the verdict of its mode, a change of maintenance by a 200 that
    names the state, a change of an audit sink by a 204. *)
Theorem lifecycle_success_evidence `{GoLib} ro o command opts so jsonOut name ss :
  success_of (Persist ro o command) (persisted (lo_Strict o))
  /\ success_of (Restore ro o opts) (restored (lo_Strict o) (restore_mode (ro_Commit opts)))
  /\ success_of (MaintenanceSet ro o so) in_state
  /\ success_of (AuditSinkSet ro jsonOut ss) (fun status _ => status = 204%Z)
  /\ success_of (AuditNamedSinkSet ro jsonOut name ss) (fun status _ => status = 204%Z)
  /\ success_of (AuditNamedSinkDelete ro jsonOut name) (fun status _ => status = 204%Z).
Proof.
  assert (Hsink : forall unknown req r err t, https t = [(req, r)] ->
    err = ELifecycle <$> sink_change_verdict unknown r ->
    success_means (fun status _ => status = 204%Z) err t).
  { intros unknown req r err t Ht ->. destruct (sink_change_verdict unknown r) eqn:Hv; [done|].
    apply sink_change_success in Hv as (resp & -> & Hb & Hs). by exists req, resp. }
  split_and!; intros w.
  - eapply (one_request_success _ _ _ _ _ _ _ _ (persist_outcome_success _)), persist_run.
  - destruct (restore_run ro o opts w []) as [(_ & e & He & _)|(data & _ & _ & Hr)];
      [by rewrite He|]. eapply (one_request_success _ _ _ _ _ _ _ _ (restore_answer_success _ _)), Hr.
  - eapply (one_request_success _ _ _ _ _ _ _ _ maintenance_change_success), maintenance_set_run.
  - destruct (sink_set_run ro jsonOut ss w []) as [(e & _ & He & _)|(req & c & r & _ & _ & Ht & Hr)];
      [by rewrite He | by eapply Hsink].
  - destruct (named_sink_set_run ro jsonOut name ss w [])
      as [(e & _ & He & _)|(req & c & r & _ & _ & Ht & Hr)]; [by rewrite He | by eapply Hsink].
  - destruct (named_sink_delete_run ro jsonOut name w [])
      as [(e & _ & He & _)|(c & r & u & _ & _ & Ht & Hr)]; [by rewrite He | by eapply Hsink].
Qed.

(* ------------------------------------------------------------------ *)
(** ** Outcomes that are not known                                     *)
(* ------------------------------------------------------------------ *)

(** The exit status when the request got no answer, when its answer broke off,
    and, for [documented], when a gateway in between gave up on it. *)
Definition unknown_status (unanswered : Z) (documented : bool) (err : option goerror) (t : trace)
    : Prop :=
  match https t with
  | [(_, Err _)] => er_status (exit_point err) = unanswered
  | [(_, Ok resp)] =>
      if negb (bool_decide (hr_body_error resp = None)) then er_status (exit_point err) = Unavailable
      else if (hr_status resp =? 504)%Z && documented then er_status (exit_point err) = Failed
      else True
  | _ => True
  end.

Definition unknown_verdict (unanswered : Z) (documented : bool) (verdict : http_result -> option goerror)
    : Prop :=
  forall r,
    match r with
    | Err _ => exists e, verdict r = Some e /\ ce_Code (Classify e) = unanswered
    | Ok resp =>
        (hr_body_error resp <> None ->
         exists e, verdict r = Some e /\ ce_Code (Classify e) = Unavailable)
        /\ (hr_body_error resp = None -> hr_status resp = 504%Z -> documented = true ->
            exists e, verdict r = Some e /\ ce_Code (Classify e) = Failed)
    end.

Lemma shows_status verdict err e n :
  shows verdict err -> verdict = Some e -> ce_Code (Classify e) = n -> er_status (exit_point err) = n.
Proof. intros Hs -> Hn. by rewrite (Hs ltac:(done)). Qed.

Lemma unknown_status_of n documented verdict req r err t :
  unknown_verdict n documented verdict -> https t = [(req, r)] -> shows (verdict r) err ->
  unknown_status n documented err t.
Proof.
  intros Hv Ht Hs. unfold unknown_status. rewrite Ht. specialize (Hv r).
  destruct r as [resp|msg]; [|destruct Hv as (e & He & Hn); by eapply shows_status].
  destruct Hv as [Hb Hg]. case_bool_decide as Hd; simpl.
  - destruct (hr_status resp =? 504)%Z eqn:H504, documented; simpl; try done.
    apply Z.eqb_eq in H504. destruct (Hg Hd H504 eq_refl) as (e & He & Hn). by eapply shows_status.
  - destruct (Hb Hd) as (e & He & Hn). by eapply shows_status.
Qed.

Lemma persist_unknown `{GoLib} strict :
  unknown_verdict Unavailable true (fun r => (persist_outcome strict r).2).
Proof.
  intros [resp|e]; [|by eexists]. unfold persist_outcome, received, readBody. split.
  - destruct (hr_body_error resp); [intros _; by eexists | done].
  - intros -> Hst _. cbn. rewrite Hst. by eexists.
Qed.

Lemma restore_unknown `{GoLib} strict mode :
  unknown_verdict Unavailable false (fun r => (restore_answer strict mode r).2).
Proof.
  intros [resp|e]; [|by eexists]. unfold restore_answer, received, readBody. split; [|done].
  destruct (hr_body_error resp); [intros _; by eexists | done].
Qed.

Lemma maintenance_unknown : unknown_verdict Partial true (fun r => (maintenance_change r).2).
Proof.
  intros [resp|e]; [|by eexists]. simpl. unfold decodeMaintenance, readBody. split.
  - destruct (hr_body_error resp); [intros _; by eexists | done].
  - intros -> Hst _. cbn. rewrite Hst. by eexists.
Qed.

Lemma sink_change_unknown_verdict unknown :
  unknown_verdict Partial true (fun r => ELifecycle <$> sink_change_verdict unknown r).
Proof.
  intros [resp|e]; [|by eexists]. simpl. unfold readBody. split.
  - destruct (hr_body_error resp); [intros _; by eexists | done].
  - intros -> Hst _. cbn. rewrite Hst. by eexists.
Qed.

(** What the exit status says when the outcome of a change is not known.
    Without an answer, a change of maintenance or of a sink is PARTIAL, but a
    persist and a restore, committed or not, are UNAVAILABLE, which invites a
    retry; an answer that breaks off is UNAVAILABLE for all of them, and a 504
    is FAILED. *)
Theorem unknown_outcome_status `{GoLib} ro o command opts so jsonOut name ss :
  always (Persist ro o command) (unknown_status Unavailable true)
  /\ always (Restore ro o opts) (unknown_status Unavailable false)
  /\ always (MaintenanceSet ro o so) (unknown_status Partial true)
  /\ always (AuditSinkSet ro jsonOut ss) (unknown_status Partial true)
  /\ always (AuditNamedSinkSet ro jsonOut name ss) (unknown_status Partial true)
  /\ always (AuditNamedSinkDelete ro jsonOut name) (unknown_status Partial true).
Proof.
  assert (Hnone : forall n d err t, https t = [] -> unknown_status n d err t)
    by (intros n d err t Ht; unfold unknown_status; by rewrite Ht).
  assert (Hsink : forall unknown req r err t, https t = [(req, r)] ->
    err = ELifecycle <$> sink_change_verdict unknown r -> unknown_status Partial true err t).
  { intros unknown req r err t Ht ->.
    by eapply (unknown_status_of _ _ _ _ _ _ _ (sink_change_unknown_verdict unknown) Ht). }
  split_and!; intros w.
  - destruct (persist_run ro o command w []) as (c & r & _ & Ht & Hs).
    exact (unknown_status_of _ _ _ _ _ _ _ (persist_unknown _) Ht Hs).
  - destruct (restore_run ro o opts w []) as [[Ht _]|(data & _ & _ & c & r & _ & Ht & Hs)];
      [by apply Hnone | exact (unknown_status_of _ _ _ _ _ _ _ (restore_unknown _ _) Ht Hs)].
  - destruct (maintenance_set_run ro o so w []) as (c & r & _ & Ht & Hs).
    exact (unknown_status_of _ _ _ _ _ _ _ maintenance_unknown Ht Hs).
  - destruct (sink_set_run ro jsonOut ss w []) as [(e & _ & _ & Ht)|(req & c & r & _ & _ & Ht & Hr)];
      [by apply Hnone | by eapply Hsink].
  - destruct (named_sink_set_run ro jsonOut name ss w [])
      as [(e & _ & _ & Ht)|(req & c & r & _ & _ & Ht & Hr)]; [by apply Hnone | by eapply Hsink].
  - destruct (named_sink_delete_run ro jsonOut name w [])
      as [(e & _ & _ & Ht)|(c & r & u & _ & _ & Ht & Hr)]; [by apply Hnone | by eapply Hsink].
Qed.

(* ------------------------------------------------------------------ *)
(** ** How an outcome is rendered                                      *)
(* ------------------------------------------------------------------ *)

(** A report can always be encoded. *)
Lemma dependency_ok d : raw_ok (dependency_json d) = true.
Proof. unfold dependency_json. raw_members. Qed.
Lemma persist_ok r : raw_ok (persist_json r) = true.
Proof. unfold persist_json. raw_members; apply dependency_ok. Qed.
Lemma restore_ok r : raw_ok (restore_json r) = true.
Proof. unfold restore_json. raw_members; apply dependency_ok. Qed.
Lemma snapshot_ok r : raw_ok (snapshot_json r) = true.
Proof. unfold snapshot_json. raw_members. Qed.
Lemma maintenance_ok r : raw_ok (maintenance_json r) = true.
Proof. unfold maintenance_json. raw_members. Qed.
Lemma report_ok r : raw_ok (report_json r) = true.
Proof.
  unfold report_json. raw_members;
    [apply persist_ok | apply restore_ok | apply snapshot_ok | apply maintenance_ok].
Qed.

Lemma result_ok r :
  (forall data, cr_Data r = Some data -> raw_ok data = true) -> raw_ok (result_json r) = true.
Proof.
  intros Hd. unfold result_json. cbn [raw_ok forallb snd andb]. rewrite andb_true_r, andb_true_iff.
  split; [destruct (cr_Data r); [by apply Hd | done]|].
  induction (default [] (cr_Warnings r)) as [|w l IH]; [done|]. exact IH.
Qed.

(* ------------------------------------------------------------------ *)
(** ** The envelope of an outcome                                      *)
(* ------------------------------------------------------------------ *)

Lemma warnings_keep {A} (f : A -> Warning) l r :
  let r' := fold_left (fun r n => add_warning r (f n)) l r in
  cr_Code r' = cr_Code r /\ cr_Success r' = cr_Success r.
Proof. revert r. induction l as [|n l IH]; intros r; [done|]. simpl. apply (IH (add_warning r (f n))). Qed.

Lemma envelope_fields command report err :
  let env := envelopeFor command report err in
  cr_Code env = Label (er_status (exit_point err))
  /\ cr_Success env = streq (cr_Code env) "OK"
  /\ exists r, cr_Data env = Some (report_json r).
Proof.
  unfold envelopeFor. cbn zeta. destruct err as [e|]; simpl; [split_and!; eauto|].
  set (l := lr_Notes report). set (f := fun n => {| w_Code := nt_Code n; w_Message := nt_Message n |}).
  set (r := match lr_Maintenance report with Some m => _ | None => _ end).
  destruct (warnings_keep f l r) as [Hc Hs]. unfold f in Hc, Hs. rewrite Hc, Hs.
  subst r. destruct (lr_Maintenance report); split_and!; try done; eauto.
Qed.

Lemma envelope_encodes command report err :
  exists text, marshal_indent (result_json (envelopeFor command report err)) = Some text.
Proof.
  unfold marshal_indent, marshal. rewrite result_ok; [by eexists|].
  destruct (envelope_fields command report err) as (_ & _ & r & ->). intros data [= <-]. apply report_ok.
Qed.

Lemma lifecycle_in_taxonomy (err : option LifecycleError) :
  er_status (exit_point (ELifecycle <$> err)) ∈ taxonomy.
Proof. destruct err as [e|]; simpl; [apply reason_code_in_taxonomy | set_solver]. Qed.

(** What a lifecycle command prints and the status it exits with agree.
    Under [-o json] the outcome is one envelope on stdout, success and failure
    alike, whose code is that of the exit status and whose [success] is that
    of status 0; otherwise a failure prints nothing.  The error itself is
    returned unchanged, whatever the write did. *)
Theorem outcome_rendered o command report human (err : option LifecycleError) w h :
  let env := envelopeFor command report (ELifecycle <$> err) in
  let exit := er_status (exit_point (ELifecycle <$> err)) in
  let run := render o command report human (ELifecycle <$> err) w h in
  ExitCode (cr_Code env) = exit /\ (cr_Success env = true <-> exit = 0%Z)
  /\ (if lo_JSON o
      then exists text, marshal_indent (result_json env) = Some text
                        /\ ev_op <$> run.2 = [OpStdout (text +:+ endl)]
      else err = None \/ run.2 = [])
  /\ (err = None \/ run.1 = ELifecycle <$> err).
Proof.
  cbn zeta. destruct (envelope_fields command report (ELifecycle <$> err)) as (Hc & Hs & _).
  rewrite Hs, Hc, streq_true, label_ok, (proj2 (exit_code_label _)) by apply lifecycle_in_taxonomy.
  do 2 (split; [done|]). unfold render.
  destruct (envelope_encodes command report (ELifecycle <$> err)) as [text Htext].
  destruct (lo_JSON o).
  - unfold Write. rewrite Htext. split; [exists text; split; [done|]; by destruct err|].
    destruct err; [by right | by left].
  - destruct err; simpl; auto.
Qed.
