(* ===== verification/FeatureGate.v ===== *)
(** * The feature gate: [pkg/cli/featuregate]

    Whether the peer offers what a command needs, as its [/version] says; the
    answer is kept for the invocation. *)
From S2P Require Import Prelude GoStrings Json JsonPrint World Errors Exitcode Rest Requests.

Definition Bands : string := "bands".
Definition Objectives : string := "objectives".
Definition NetIdentityFeature : string := "netidentity".
Definition Reservation : string := "reservation".
Definition JWTAuthProfileFeature : string := "jwt_auth_profile".
Definition EPP : string := "epp".

Record LBVersionGet : Type := {
  lv_BuildInfo : string;
  lv_Version : string;
  lv_Product : string;
  lv_Features : list string
}.
#[global] Instance lb_version_value : GoValue LBVersionGet := {|
  go_zero := {| lv_BuildInfo := ""; lv_Version := ""; lv_Product := ""; lv_Features := [] |};
  go_into strict old := decode_struct strict ["buildInfo"; "version"; "product"; "features"] old
    (fun ms =>
    bu ← field strict ms "buildInfo" (lv_BuildInfo old);
    ve ← field strict ms "version" (lv_Version old);
    pr ← field strict ms "product" (lv_Product old);
    fe ← field strict ms "features" (lv_Features old);
    Some {| lv_BuildInfo := bu; lv_Version := ve; lv_Product := pr; lv_Features := fe |}) |}.

Definition GatewayProduct : string := "loxilb-inference-gateway".

(** The answers of [/version] so far, per gateway. *)
Notation version_cache := (gmap string LBVersionGet).

(** A step that may change the cache. *)
Definition Gate (A : Type) : Type := version_cache -> IO (A * version_cache).

Definition NotAGateway (restOptions : RESTOptions) (product command : string) : CLIError :=
  let seen := if is_empty product then "no product in /version"
              else sprintf ["product "; quote product; " in /version"] in
  cli_error FeatureUnavailable
    (sprintf ["the peer at "; ro_ServerIP restOptions; ":"; itoa (ro_ServerPort restOptions);
              " is not a loxilb-inference-gateway ("; seen; "); "; command; " needs one"])
    "gateway" "not-a-gateway".

(** [Unavailable]. *)
Definition feature_unavailable (feature : string) : CLIError :=
  cli_error FeatureUnavailable
    (sprintf ["this gateway does not advertise "; feature;
              "; upgrade the gateway or use a build that does"])
    "gateway" "feature-unavailable".

Record path_message : Type := { pm_Message : string }.
#[global] Instance path_message_value : GoValue path_message := {|
  go_zero := {| pm_Message := "" |};
  go_into strict old := decode_struct strict ["message"] old (fun ms =>
    m ← field strict ms "message" (pm_Message old); Some {| pm_Message := m |}) |}.

Definition PathNotFound (status : Z) (body : string) : bool :=
  (status =? 404)%Z
  && match unmarshal path_message body with
     | None => false
     | Some doc => has_prefix (pm_Message doc) "path /" && has_suffix (pm_Message doc) "was not found"
     end.

Definition with_http_status (e : CLIError) (status : Z) : CLIError :=
  {| ce_Code := ce_Code e; ce_Message := ce_Message e; ce_Origin := ce_Origin e;
     ce_HTTPStatus := status; ce_ComponentCode := ce_ComponentCode e; ce_ShowHelp := ce_ShowHelp e |}.
Definition with_message (e : CLIError) (message : string) : CLIError :=
  {| ce_Code := ce_Code e; ce_Message := message; ce_Origin := ce_Origin e;
     ce_HTTPStatus := ce_HTTPStatus e; ce_ComponentCode := ce_ComponentCode e;
     ce_ShowHelp := ce_ShowHelp e |}.

(** [Classify] of an answer on a feature's path. *)
Definition classify_feature (op feature : string) (status : Z) (body : string) : CLIError :=
  if PathNotFound status body then with_http_status (feature_unavailable feature) status
  else
    with_message (FromHTTPStatus op status)
      (if (status =? 400)%Z then Verbatim (NewAPIError status body)
       else api_error_text (NewAPIError status body)).

Definition cache_key (restOptions : RESTOptions) : string :=
  sprintf [ro_Protocol restOptions; "://"; ro_ServerIP restOptions; ":";
           itoa (ro_ServerPort restOptions)].

(** What the answer of [/version] says; a body that breaks off is decoded as
    far as it came. *)
Definition version_answer `{GoLib} (r : http_result) : result goerror LBVersionGet :=
  match r with
  | Err e => Err (ECLI (Unavailablef ("get version: " +:+ e)))
  | Ok resp =>
      let status := hr_status resp in
      let body := hr_body resp in
      if negb (status =? 200)%Z then
        Err (ECLI (with_message (FromHTTPStatus "get version" status)
                     (api_error_text (NewAPIError status body))))
      else
        match unmarshal LBVersionGet body with
        | Some version => Ok version
        | None =>
            Err (ECLI (with_http_status
                   (cli_error ContractMismatch
                      ("get version: decode response: " +:+ json_text "Unmarshal" body) "gateway" "")
                   status))
        end
  end.

(** [read]. *)
Definition read_version `{GoLib} (restOptions : RESTOptions) : Gate (result goerror LBVersionGet) :=
  fun cache =>
    match cache !! cache_key restOptions with
    | Some version => mret (Ok version, cache)
    | None =>
        client ← NewLoxiClient restOptions;
        r ← Get (Client.LBVersion client);
        mret (match version_answer r with
              | Ok version => (Ok version, <[cache_key restOptions := version]> cache)
              | Err e => (Err e, cache)
              end)
    end.

(** Whether the peer is a gateway, and then whether it advertises the feature. *)
Definition gate_verdict (restOptions : RESTOptions) (command feature : string)
    (version : LBVersionGet) : result goerror bool :=
  if negb (streq (lv_Product version) GatewayProduct)
  then Err (ECLI (NotAGateway restOptions (lv_Product version) command))
  else Ok (str_in feature (lv_Features version)).

Definition not_advertised (feature : string) : string :=
  sprintf ["warning: gateway does not advertise "; feature;
           "; sending anyway, the gateway's answer decides"; String "010"%char EmptyString].

Definition Require `{GoLib} (restOptions : RESTOptions) (feature command : string)
    : Gate (option goerror) :=
  fun cache =>
    out ← read_version restOptions cache;
    match out.1 with
    | Err e => mret (Some e, out.2)
    | Ok version =>
        match gate_verdict restOptions command feature version with
        | Err e => mret (Some e, out.2)
        | Ok true => mret (None, out.2)
        | Ok false => _ ← write_err (not_advertised feature); mret (None, out.2)
        end
    end.

Definition RequireAdvertised `{GoLib} (restOptions : RESTOptions) (feature command : string)
    : Gate (option goerror) :=
  fun cache =>
    out ← read_version restOptions cache;
    mret (match out.1 with
          | Err e => Some e
          | Ok version =>
              match gate_verdict restOptions command feature version with
              | Err e => Some e
              | Ok true => None
              | Ok false => Some (ECLI (feature_unavailable feature))
              end
          end, out.2).

(* ------------------------------------------------------------------ *)
(** ** Properties                                                      *)
(* ------------------------------------------------------------------ *)

(** The status a failure has that the gateway answered with [status], as
    [contracts/exit-codes.md] gives it. *)
Definition failure_of (status : Z) : Z :=
  (if bool_decide (status ∈ [401; 403]) then 3
   else if bool_decide (status ∈ [404; 409]) then 4
   else if bool_decide (status ∈ [429; 503]) then 5
   else if bool_decide (status = 400) then 6
   else if bool_decide (status = 504) then 8
   else 7)%Z.

Lemma status_code_failure status : status_code status = failure_of status.
Proof.
  assert (Htwo : forall x y : Z, bool_decide (status ∈ [x; y]) = ((status =? x) || (status =? y))%Z).
  { intros x y. apply Bool.eq_iff_eq_true. rewrite bool_decide_eq_true, orb_true_iff, !Z.eqb_eq. set_solver. }
  assert (Hone : forall x : Z, bool_decide (status = x) = (status =? x)%Z).
  { intros x. apply Bool.eq_iff_eq_true. by rewrite bool_decide_eq_true, Z.eqb_eq. }
  unfold failure_of. by rewrite !Htwo, !Hone.
Qed.

(** What is known of the peer by an answer of [/version]: a 200 with a document
    of the version.  Only one whose product is the gateway is let through; any
    other is refused with the status of what went wrong. *)
Definition answered_version (r : http_result) : option LBVersionGet :=
  match r with
  | Ok resp => if (hr_status resp =? 200)%Z then unmarshal LBVersionGet (hr_body resp) else None
  | Err _ => None
  end.
Definition is_gateway (version : LBVersionGet) : bool :=
  streq (lv_Product version) "loxilb-inference-gateway".
Definition admitted (r : http_result) : bool :=
  match answered_version r with Some version => is_gateway version | None => false end.
Definition refusal_code (r : http_result) : Z :=
  match r with
  | Err _ => 5%Z
  | Ok resp =>
      if (hr_status resp =? 200)%Z
      then match unmarshal LBVersionGet (hr_body resp) with Some _ => 9%Z | None => 6%Z end
      else failure_of (hr_status resp)
  end.

Lemma refusal_version r version : answered_version r = Some version -> refusal_code r = 9%Z.
Proof.
  destruct r as [resp|e]; [|done]. unfold answered_version, refusal_code. destruct (_ =? _)%Z; [|done]. by intros ->.
Qed.

Definition version_request (c : LoxiClient) : http_request :=
  build_request c "GET" (GetUrlString (at_path "version" c)) None.

(** What a reading learns: from the cache without a request, or from one request. *)
Definition learned (o : RESTOptions) (cache : version_cache) (t : trace)
    (r : result LBVersionGet http_result) : Prop :=
  match cache !! cache_key o with
  | Some version => https t = [] /\ r = Err version
  | None => exists c answer, rc_Options c = o /\ https t = [(version_request c, answer)] /\ r = Ok answer
  end.

(** The verdict of a gate on what was learned; [strict] is that of
    [RequireAdvertised]. *)
Definition gate_spec `{GoLib} (strict : bool) (o : RESTOptions) (feature : string)
    (cache : version_cache) (out : option goerror * version_cache) (t : trace) : Prop :=
  exists r, learned o cache t r
    /\ match (match r with Ok answer => answered_version answer | Err version => Some version end) with
    | Some version =>
        out.2 = <[cache_key o := version]> cache
        /\ (out.1 = None <-> lv_Product version = "loxilb-inference-gateway"
                            /\ (strict = true -> feature ∈ lv_Features version))
        /\ (forall e, out.1 = Some e -> ce_Code (Classify e) = 9%Z)
        /\ (out.1 = None -> feature ∉ lv_Features version ->
              exists a, Ev (OpStderr (not_advertised feature)) a ∈ t)
    | None =>
        out.2 = cache /\ exists answer e, r = Ok answer /\ out.1 = Some e
                        /\ ce_Code (Classify e) = refusal_code answer
    end.

Lemma read_version_learns `{GoLib} o cache w h :
  wp (read_version o cache) w h (fun out t => exists r, learned o cache t r
    /\ match (match r with Ok answer => answered_version answer | Err version => Some version end) with
    | Some version => out = (Ok version, <[cache_key o := version]> cache)
    | None => exists answer e, r = Ok answer /\ out = (Err e, cache)
                /\ ce_Code (Classify e) = refusal_code answer
    end).
Proof.
  unfold read_version, learned. destruct (cache !! cache_key o) as [version|] eqn:Hc.
  - apply wp_ret. exists (Err version). split; [done|]. by rewrite insert_id.
  - apply wp_client. intros c t Ho Ht _. apply wp_bind.
    change (Get (Client.LBVersion c)) with (http_do (version_request c)). apply wp_http. intros answer.
    apply wp_ret. exists (Ok answer). split.
    { exists c, answer. split; [done|]. by rewrite !https_app, Ht. }
    assert (Hfail : forall e, ce_Code (Classify e) = refusal_code answer ->
      exists answer' e', Ok (E := LBVersionGet) answer = Ok answer' /\ (Err (A := LBVersionGet) e, cache) = (Err e', cache)
        /\ ce_Code (Classify e') = refusal_code answer') by (intros e He; by exists answer, e).
    unfold answered_version, version_answer. destruct answer as [resp|e]; [|by apply Hfail].
    unfold refusal_code in Hfail. destruct (hr_status resp =? 200)%Z eqn:Hs; cbn [negb].
    + destruct (unmarshal LBVersionGet (hr_body resp)) as [v|] eqn:Hu; [done|]. by apply Hfail.
    + apply Hfail, status_code_failure.
Qed.

Lemma learned_more o cache t t' r : https t' = [] -> learned o cache t r -> learned o cache (t ++ t') r.
Proof. intros Ht. unfold learned. by rewrite https_app, Ht, app_nil_r. Qed.

Lemma gate_decided `{GoLib} (strict : bool) o feature command cache w h :
  wp (if strict then RequireAdvertised o feature command cache else Require o feature command cache) w h
    (gate_spec strict o feature cache).
Proof.
  assert (Hread := read_version_learns o cache w h).
  destruct strict; [unfold RequireAdvertised | unfold Require]; apply wp_bind;
    (eapply wp_mono; [exact Hread|]); intros out t (r & Hl & Hr); unfold gate_spec;
    destruct (match r with Ok answer => answered_version answer | Err version => Some version end)
      as [version|] eqn:Hv;
    try (destruct Hr as (answer & e & -> & -> & He); apply wp_ret; rewrite app_nil_r;
         exists (Ok answer); split; [exact Hl|]; rewrite Hv; split; [done|]; by exists answer, e);
    subst out; cbn [fst snd]; unfold gate_verdict; destruct (streq (lv_Product version) _) eqn:Hp; cbn [negb];
    first [apply streq_true in Hp | apply streq_false in Hp];
    try (apply wp_ret; rewrite app_nil_r; exists r; split; [exact Hl|]; rewrite Hv;
         split_and!; [done | naive_solver | by intros ? [= <-] | done]).
  - apply wp_ret. rewrite app_nil_r. exists r. split; [exact Hl|]. rewrite Hv. destruct (str_in _ _) eqn:Hf;
      [apply str_in_true in Hf | apply str_in_false in Hf]; split_and!; try done; naive_solver.
  - destruct (str_in _ _) eqn:Hf; [apply str_in_true in Hf | apply str_in_false in Hf].
    + apply wp_ret. rewrite app_nil_r. exists r. split; [exact Hl|]. rewrite Hv. split_and!; done.
    + unfold write_err. wp_op. intros a _. apply wp_ret. exists r. split; [by apply learned_more|]. rewrite Hv.
      split_and!; try done. intros _ _. exists a. set_solver.
Qed.

(** C20: a command that needs a feature goes on exactly when the peer says it
    is an inference gateway and, for the strict gate, that it offers the
    feature; the lenient gate says so on stderr when it does not.  The peer is
    asked with one [GET /version] unless its answer is remembered.  A peer that
    says it is something else, or for the strict gate that it lacks the feature,
    is FEATURE_UNAVAILABLE; one that gives no version is the failure of its
    answer (UNAVAILABLE without one, the code of its status, CONTRACT_MISMATCH
    for a document that is no version) and is not remembered. *)
Theorem gate_decides `{GoLib} o feature command cache w h :
  wp (Require o feature command cache) w h (gate_spec false o feature cache)
  /\ wp (RequireAdvertised o feature command cache) w h (gate_spec true o feature cache).
Proof. split; [apply (gate_decided false) | apply (gate_decided true)]. Qed.

(** A list of gates, as a command that needs several features passes them. *)
Fixpoint gates `{GoLib} (o : RESTOptions) (l : list (bool * string * string)) : Gate (option goerror) :=
  fun cache =>
    match l with
    | [] => mret (None, cache)
    | (strict, feature, command) :: l' =>
        out ← (if strict then RequireAdvertised o feature command cache
               else Require o feature command cache);
        match out.1 with
        | Some e => mret (Some e, out.2)
        | None => gates o l' out.2
        end
    end.

(** How many requests one reading sends, and what it leaves in the cache. *)
Lemma read_version_requests `{GoLib} o cache w h :
  wp (read_version o cache) w h (fun out t =>
    (length (https t) <= (if decide (is_Some (cache !! cache_key o)) then 0 else 1))%nat
    /\ match out.1 with
       | Ok _ => is_Some (out.2 !! cache_key o)
       | Err _ => True
       end).
Proof.
  unfold read_version. destruct (cache !! cache_key o) as [version|] eqn:Hc.
  - apply wp_ret. simpl. split; [lia | by eexists].
  - apply wp_client. intros c t _ Ht _. unfold Get, GET, http_do. wp_op. intros r _. apply wp_ret.
    rewrite !https_app, Ht. split; [simpl; lia|].
    destruct (version_answer r); simpl; [|done]. rewrite lookup_insert_eq. by eexists.
Qed.

Lemma gate_requests `{GoLib} (strict : bool) o feature command cache w h :
  wp (if strict then RequireAdvertised o feature command cache else Require o feature command cache) w h
    (fun out t =>
      (length (https t) <= (if decide (is_Some (cache !! cache_key o)) then 0 else 1))%nat
      /\ (out.1 = None -> is_Some (out.2 !! cache_key o))).
Proof.
  destruct strict; [unfold RequireAdvertised | unfold Require]; apply wp_bind;
    (eapply wp_mono; [apply read_version_requests|]); intros [[version|e] cache'] t [Ht Hc]; simpl in *;
    try (apply wp_ret; by rewrite app_nil_r).
  destruct (gate_verdict o command feature version) as [[]|e]; try (apply wp_ret; by rewrite app_nil_r).
  unfold write_err. wp_op. intros a _. apply wp_ret. by rewrite https_app, app_nil_r.
Qed.

(** A list of gates sends at most one request, and only reads. *)
Lemma gates_requests `{GoLib} o l cache w h :
  wp (gates o l cache) w h (fun _ t =>
    (length (https t) <= (if decide (is_Some (cache !! cache_key o)) then 0 else 1))%nat).
Proof.
  revert cache h. induction l as [|[[strict feature] command] l IH]; intros cache h;
    [apply wp_ret; simpl; lia|].
  cbn [gates]. apply wp_bind. eapply wp_mono; [apply gate_requests|]. intros [[e|] cache'] t [Ht Hc]; simpl in *.
  - apply wp_ret. by rewrite app_nil_r.
  - eapply wp_mono; [apply IH|]. intros a t' Ht'. rewrite https_app, length_app.
    specialize (Hc eq_refl). destruct (decide (is_Some (cache' !! cache_key o))); [lia | done].
Qed.

Definition reads_only (o : op) : Prop :=
  match o with OpHttp req => hq_method req = "GET" | _ => True end.

Lemma gate_reads `{GoLib} (strict : bool) o feature command cache :
  ops_satisfy reads_only
    (if strict then RequireAdvertised o feature command cache else Require o feature command cache).
Proof.
  assert (Hread : forall cache, ops_satisfy reads_only (read_version o cache)).
  { intros cache'. unfold read_version, Get, GET, http_do.
    repeat first [ ops_step | apply ops_perform; done
                 | eapply ops_mono; [|apply client_ops]; by intros [] ]. }
  destruct strict; unfold Require, RequireAdvertised, write_err;
    repeat first [ops_step | apply Hread | apply ops_perform; done].
Qed.

Lemma gates_read `{GoLib} o l cache : ops_satisfy reads_only (gates o l cache).
Proof.
  revert cache. induction l as [|[[strict feature] command] l IH]; intros cache; cbn [gates];
    [apply ops_ret|].
  apply ops_bind; [apply gate_reads|]. intros [[e|] cache']; [apply ops_ret | apply IH].
Qed.

(** The peer is asked once: a command that passes any number of gates for
    one gateway, strict or not, sends at most one [GET /version] before its
    own request, and none when the answer is already known. *)
Theorem version_read_once `{GoLib} o l cache w h :
  (length (https (gates o l cache w h).2)
   <= (if decide (is_Some (cache !! cache_key o)) then 0 else 1))%nat.
Proof. apply gates_requests. Qed.
