(* ===== verification/Commands.v ===== *)
(** * What the commands of the gateway share

    How a command ends, the answer it prints, and the three ways its request
    is judged: by the old resource commands, by the management commands, and
    by the commands of a feature.  [PrintCreateResult], [PrintDeleteResult] and
    their siblings of the other packages have the same text. *)
From S2P Require Import Prelude GoStrings Json JsonPrint World Errors Exitcode Rest FeatureGate.

Definition nl : string := String "010"%char EmptyString.

(** How [RunE] ends: with an error or without, never, or in a panic. *)
Inductive outcome : Type :=
  | Returns (err : option goerror)
  | NeverReturns
  | Panics.

Definition invalid (msg : string) : goerror := ECLI (Invalidf msg).

Definition succeed : IO outcome := mret (Returns None).
Definition fail_with (e : CLIError) : IO outcome := mret (Returns (Some (ECLI e))).
Definition failed_with (msg : string) : IO outcome := fail_with (Invalidf msg).
Definition say (s : string) : IO unit := _ ← write_out s; mret tt.

(** The verdict of a validation of arguments. *)
Inductive check : Type :=
  | Passed
  | Refused (msg : string)
  | Crashed.

(** [args[i]]: a panic out of range. *)
Definition with_arg {A} (args : list string) (i : nat) (crash : A) (k : string -> A) : A :=
  match args !! i with Some a => k a | None => crash end.

(** Go on when the arguments passed. *)
Definition when_valid (c : check) (refusal : string -> CLIError) (k : IO outcome) : IO outcome :=
  match c with
  | Passed => k
  | Refused msg => fail_with (refusal msg)
  | Crashed => mret Panics
  end.

(** [fmt.Println(args)]. *)
Definition args_line (args : list string) : string := sprintf ["["; join " " args; "]"; nl].

(** The checks on a probe: its kind, and a port exactly where one is due. *)
Definition probe_checks (probeType : string) (probePort : Z) : result string unit :=
  reject (negb (str_in probeType ["http"; "https"; "ping"; "tcp"; "udp"; "sctp"; "none"]))
    with_ sprintf ["probetype '"; probeType; "' is invalid"];;
  reject (str_in probeType ["http"; "https"; "tcp"; "udp"; "sctp"] && (probePort =? 0)%Z)
    with_ sprintf ["probeport cant be 0 for '"; probeType; "' probes"];;
  reject (streq probeType "ping" && negb (probePort =? 0)%Z)
    with_ sprintf ["probeport should be 0 for '"; probeType; "' probes"];;
  Ok tt.

(* ------------------------------------------------------------------ *)
(** ** What is printed of an answer                                    *)
(* ------------------------------------------------------------------ *)

(** The [result] member of an answer. *)
Record result_body : Type := { rb_Result : string }.
#[global] Instance result_body_value : GoValue result_body := {|
  go_zero := {| rb_Result := "" |};
  go_into strict old := decode_struct strict ["result"] old (fun ms =>
    r ← field strict ms "result" (rb_Result old); Some {| rb_Result := r |}) |}.

(** Under [-o json] it is the encoding of [resp.Body], a reader without
    exported fields. *)
Definition PrintResult `{GoLib} (resp : http_response) (o : RESTOptions) : IO unit :=
  match hr_body_error resp with
  | Some err => say (sprintf ["Error: Failed to read HTTP response: ("; err; ")"; nl])
  | None =>
      match unmarshal result_body (hr_body resp) with
      | None => say (sprintf ["Error: Failed to unmarshal HTTP response: (";
                              json_text "Unmarshal" (hr_body resp); ")"; nl])
      | Some r =>
          if streq (ro_PrintOption o) "json" then say (sprintf ["{}"; nl])
          else say (sprintf [rb_Result r; nl])
      end
  end.
Definition PrintCreateResult `{GoLib} : http_response -> RESTOptions -> IO unit := PrintResult.
Definition PrintDeleteResult `{GoLib} : http_response -> RESTOptions -> IO unit := PrintResult.

(* ------------------------------------------------------------------ *)
(** ** The judgement of an answer                                      *)
(* ------------------------------------------------------------------ *)

(** An error of the transport is UNAVAILABLE. *)
Definition answered (failure : string -> string) (send : IO http_result)
    (k : http_response -> IO outcome) : IO outcome :=
  r ← send;
  match (r : http_result) with
  | Err e => fail_with (Unavailablef (failure e))
  | Ok resp => k resp
  end.

(** [op: <error>], and the longer form [<text> (<error>)]. *)
Definition colon (op : string) (e : string) : string := sprintf [op; ": "; e].
Definition bracket (text : string) (e : string) : string := sprintf [text; " ("; e; ")"].

(** The old commands: the result of a 200 is printed, every other answer is
    judged by its status alone.  Some print the status first. *)
Definition resource_answer `{GoLib} (debug : bool) (o : RESTOptions) (op : string)
    (resp : http_response) : IO outcome :=
  _ ← (if debug then say (sprintf ["Debug: response.StatusCode: "; itoa (hr_status resp); nl])
       else mret tt);
  if (hr_status resp =? 200)%Z
  then _ ← PrintResult resp o; succeed
  else fail_with (FromHTTPStatus op (hr_status resp)).

Definition status_in (l : list Z) (status : Z) : bool := existsb (Z.eqb status) l.

(** The management commands say what the gateway answered. *)
Definition api_error_answer (op : string) (resp : http_response) : CLIError :=
  with_message (FromHTTPStatus op (hr_status resp))
    (api_error_text (NewAPIError (hr_status resp) (hr_body resp))).

Definition managed_answer (ok : list Z) (op : string) (done_ : IO unit) (resp : http_response)
    : IO outcome :=
  if negb (status_in ok (hr_status resp)) then fail_with (api_error_answer op resp)
  else _ ← done_; succeed.

(** The commands of a feature. *)
Definition feature_answer (ok : list Z) (op feature : string) (done_ : IO unit)
    (resp : http_response) : IO outcome :=
  if negb (status_in ok (hr_status resp))
  then fail_with (classify_feature op feature (hr_status resp) (hr_body resp))
  else _ ← done_; succeed.

(** The gate of a command that uses one feature. *)
Definition gated `{GoLib} (o : RESTOptions) (feature op : string) (k : IO outcome) : IO outcome :=
  gate ← Require o feature op ∅;
  match (gate : option goerror * version_cache).1 with
  | Some e => mret (Returns (Some e))
  | None => k
  end.

(** The error of [create lb] for an answer that is not 200. *)
Definition refused_answer (op : string) (status : Z) (body : string) : CLIError :=
  with_message (FromHTTPStatus op status)
    (if (status =? 400)%Z then Verbatim (NewAPIError status body)
     else api_error_text (NewAPIError status body)).
