(* ===== verification/Plans.v ===== *)
(** * What a command asks of the gateway, and how it is judged

    The contract of a command that makes one request is a [plan]: the
    arguments and flags are refused, or the command fails or panics without a
    request, or they become one request whose answer decides the exit status.  [refines] relates a command to its
    plan, in every world and after every history. *)
From S2P Require Import Prelude GoStrings Json JsonPrint World Errors Exitcode.
From S2P Require Import Rest Requests FeatureGate Commands.

Definition fails_as (code : Z) (out : outcome) : Prop :=
  exists e, out = Returns (Some e) /\ ce_Code (Classify e) = code.

(** A feature whose path the gateway does not serve: a 404 that says so. *)
Definition path_unserved (resp : http_response) : bool :=
  (hr_status resp =? 404)%Z
  && match unmarshal path_message (hr_body resp) with
     | Some doc => has_prefix (pm_Message doc) "path /" && has_suffix (pm_Message doc) "was not found"
     | None => false
     end.
Definition feature_code (resp : http_response) : Z :=
  if path_unserved resp then 9%Z else failure_of (hr_status resp).

(** What a feature needs comes after its gate: one [GET /version], and then what
    is asked when the answer is that of a gateway; any other answer ends the
    command, and nothing else is sent. *)
Definition behind_gate (ro : RESTOptions) (out : outcome) (sent : list (http_request * http_result))
    (asks : list (http_request * http_result) -> Prop) : Prop :=
  exists c r rest, rc_Options c = ro /\ sent = (version_request c, r) :: rest
    /\ if admitted r then asks rest else rest = [] /\ fails_as (refusal_code r) out.

(** A request, the statuses that confirm it, and whether the gate of a feature
    comes before it. *)
Record asked : Type := {
  as_method : string;
  as_api : LoxiClient -> CommonAPI;
  as_body : option string;
  as_ok : list Z;
  as_feature : bool
}.

Inductive plan : Type :=
  | Refuses
  | Fails (code : Z)
  | Crashes
  | Asks (a : asked).

(** The verdict: success exactly for a confirmation, UNAVAILABLE without an
    answer, and otherwise the code of the status (for a feature also
    FEATURE_UNAVAILABLE, when its path is not served). *)
Definition verdict (a : asked) (r : http_result) (out : outcome) : Prop :=
  match r with
  | Err _ => fails_as Unavailable out
  | Ok resp =>
      if status_in (as_ok a) (hr_status resp) then out = Returns None
      else exists e, out = Returns (Some e)
             /\ (ce_Code (Classify e) = failure_of (hr_status resp)
                 \/ as_feature a = true /\ path_unserved resp = true
                    /\ ce_Code (Classify e) = 9%Z)
  end.

(** Requests that only read. *)
Definition is_read (e : http_request * http_result) : Prop := hq_method e.1 = "GET".

Lemma reads_https t : Forall (fun e => reads_only (ev_op e)) t -> Forall is_read (https t).
Proof.
  induction 1 as [|[o a] t Ho Ht IH]; [constructor|].
  change (https (Ev o a :: t)) with (event_http (Ev o a) ++ https t).
  apply Forall_app. split; [|done]. destruct o; try constructor; done.
Qed.

Definition sends (ro : RESTOptions) (a : asked) (out : outcome)
    (sent : list (http_request * http_result)) : Prop :=
  exists c r, rc_Options c = ro
    /\ sent = [(build_request c (as_method a) (GetUrlString (as_api a c)) (as_body a), r)]
    /\ verdict a r out.

Definition follows (ro : RESTOptions) (p : plan) (out : outcome) (t : trace) : Prop :=
  match p with
  | Refuses =>
      https t = [] /\ exists e, out = Returns (Some e) /\ ce_Code (Classify e) = InvalidArgument
  | Fails code => https t = [] /\ exists e, out = Returns (Some e) /\ ce_Code (Classify e) = code
  | Crashes => https t = [] /\ out = Panics
  | Asks a =>
      if as_feature a then behind_gate ro out (https t) (sends ro a out) else sends ro a out (https t)
  end.

Definition refines (ro : RESTOptions) (m : IO outcome) (p : plan) : Prop :=
  forall w h, wp m w h (follows ro p).

(* ------------------------------------------------------------------ *)
(** ** Arguments and flags                                             *)
(* ------------------------------------------------------------------ *)

Definition integer (s : string) : bool := match atoi s with Some _ => true | None => false end.

(** A probe has one of the seven kinds, a port with the five that talk to one and
    none with a ping. *)
Definition probe_fits (kind : string) (port : Z) : bool :=
  if bool_decide (kind = "none") then true
  else if bool_decide (kind = "ping") then (port =? 0)%Z
  else bool_decide (kind ∈ ["http"; "https"; "tcp"; "udp"; "sctp"]) && negb (port =? 0)%Z.

Lemma probe_fits_checks kind port : is_ok (probe_checks kind port) = probe_fits kind port.
Proof.
  destruct (decide (kind ∈ ["http"; "https"; "ping"; "tcp"; "udp"; "sctp"; "none"])) as [Hk|Hk].
  - repeat (apply elem_of_cons in Hk as [->|Hk]; [by unfold probe_checks, probe_fits; destruct (port =? 0)%Z|]).
    by apply not_elem_of_nil in Hk.
  - unfold probe_checks, probe_fits. pose proof Hk as Hn. apply str_in_false in Hn. rewrite Hn.
    cbn [negb is_ok]. rewrite !bool_decide_false; [done | set_solver..].
Qed.

(* ------------------------------------------------------------------ *)
(** ** Rules                                                           *)
(* ------------------------------------------------------------------ *)

Lemma follows_quiet ro p out t t' : https t = [] -> follows ro p out t' -> follows ro p out (t ++ t').
Proof. intros Ht. unfold follows. by rewrite https_app, Ht. Qed.

Lemma refines_quiet {A} ro (m : IO A) (k : A -> IO outcome) p :
  ops_satisfy not_http m -> (forall a, refines ro (k a) p) -> refines ro (mbind k m) p.
Proof.
  intros Hm Hk w h. apply wp_bind, quiet_wp; [done|]. intros a t Ht.
  eapply wp_mono; [apply Hk|]. intros out t'. by apply follows_quiet.
Qed.

Lemma refines_client ro (k : LoxiClient -> IO outcome) p :
  (forall c, rc_Options c = ro -> refines ro (k c) p) -> refines ro (mbind k (NewLoxiClient ro)) p.
Proof.
  intros Hk w h. apply wp_client. intros c t Hc Ht _.
  eapply wp_mono; [by apply Hk|]. intros out t'. by apply follows_quiet.
Qed.

(** Something is said, then a value is known. *)
Lemma refines_then {A B} ro (m : IO A) (b : B) (k : B -> IO outcome) p :
  ops_satisfy not_http m -> refines ro (k b) p ->
  refines ro (mbind k (mbind (fun _ => mret b) m)) p.
Proof.
  intros Hm Hk w h. apply wp_bind, wp_bind, quiet_wp; [done|]. intros a t Ht. apply wp_ret.
  rewrite app_nil_r. eapply wp_mono; [apply Hk|]. intros out t'. by apply follows_quiet.
Qed.

Lemma refines_value {A} ro (a : A) (k : A -> IO outcome) p :
  refines ro (k a) p -> refines ro (mbind k (mret a)) p.
Proof. intros Hk w h. apply wp_bind, wp_ret. eapply wp_mono; [apply Hk|]. done. Qed.

Lemma refines_refusal ro e : ce_Code e = InvalidArgument -> refines ro (fail_with e) Refuses.
Proof. intros He w h. apply wp_ret. split; [done|]. by exists (ECLI e). Qed.

Lemma refines_failure ro e : refines ro (fail_with e) (Fails (ce_Code e)).
Proof. intros w h. apply wp_ret. split; [done|]. by exists (ECLI e). Qed.

Lemma refines_crash ro : refines ro (mret Panics) Crashes.
Proof. intros w h. by apply wp_ret. Qed.

Lemma say_quiet s : ops_satisfy not_http (say s).
Proof. unfold say, write_out. repeat first [ops_step | by apply ops_perform]. Qed.

Lemma print_quiet `{GoLib} resp ro : ops_satisfy not_http (PrintResult resp ro).
Proof. unfold PrintResult. repeat first [ops_step | apply say_quiet]. Qed.

(** The end of a command, once the gateway answered. *)
Definition ends (a : asked) (k : http_response -> IO outcome) : Prop :=
  forall resp w h, wp (k resp) w h (fun out t => https t = [] /\ verdict a (Ok resp) out).

Lemma ends_confirmed {A} (m : IO A) w h (Q : outcome -> trace -> Prop) :
  ops_satisfy not_http m -> (forall t, https t = [] -> Q (Returns None) t) ->
  wp (_ ← m; succeed) w h Q.
Proof. intros Hm HQ. apply wp_bind, quiet_wp; [done|]. intros _ t Ht. apply wp_ret, HQ. by rewrite app_nil_r. Qed.

Lemma ends_resource `{GoLib} debug ro op a : as_ok a = [200%Z] -> ends a (resource_answer debug ro op).
Proof.
  intros Ha resp w h. apply wp_bind, quiet_wp; [destruct debug; [apply say_quiet | apply ops_ret]|].
  intros _ t Ht. unfold verdict. rewrite Ha. unfold status_in. cbn [existsb]. rewrite orb_false_r.
  destruct (hr_status resp =? 200)%Z eqn:Hs.
  - apply ends_confirmed; [apply print_quiet|]. intros t' Ht'. by rewrite https_app, Ht, Ht'.
  - apply wp_ret. rewrite app_nil_r. split; [done|]. eexists. split; [done|]. left. apply status_code_failure.
Qed.

Lemma ends_managed ok op done_ a :
  as_ok a = ok -> ops_satisfy not_http done_ -> ends a (managed_answer ok op done_).
Proof.
  intros <- Hd resp w h. unfold managed_answer, verdict.
  destruct (status_in (as_ok a) (hr_status resp)); cbn [negb].
  - apply ends_confirmed; [done|]. by intros t Ht.
  - apply wp_ret. split; [done|]. eexists. split; [done|]. left. apply status_code_failure.
Qed.

Lemma path_unserved_found resp : PathNotFound (hr_status resp) (hr_body resp) = path_unserved resp.
Proof.
  unfold PathNotFound, path_unserved. destruct (_ =? _)%Z; [|done]. by destruct (unmarshal path_message _).
Qed.

Lemma classify_feature_code op feature resp :
  ce_Code (classify_feature op feature (hr_status resp) (hr_body resp)) = feature_code resp.
Proof.
  unfold classify_feature, feature_code. rewrite path_unserved_found.
  destruct (path_unserved resp); [done | apply status_code_failure].
Qed.

Lemma ends_feature ok op feature done_ a :
  as_ok a = ok -> as_feature a = true -> ops_satisfy not_http done_ ->
  ends a (feature_answer ok op feature done_).
Proof.
  intros <- Hf Hd resp w h. unfold feature_answer, verdict.
  destruct (status_in (as_ok a) (hr_status resp)); cbn [negb].
  - apply ends_confirmed; [done|]. by intros t Ht.
  - apply wp_ret. split; [done|]. eexists. split; [done|].
    change (ce_Code (Classify (ECLI ?e))) with (ce_Code e). rewrite classify_feature_code.
    unfold feature_code. destruct (path_unserved resp); auto.
Qed.

(** One request and its end. *)
Lemma answered_wp ro a c failure k w h :
  rc_Options c = ro -> ends a k ->
  wp (answered failure
        (http_do (build_request c (as_method a) (GetUrlString (as_api a c)) (as_body a))) k) w h
    (fun out t => sends ro a out (https t)).
Proof.
  intros Hc Hk. unfold answered. apply wp_bind, wp_http. intros r.
  destruct r as [resp|e].
  - eapply wp_mono; [apply Hk|]. intros out t [Ht Hv]. rewrite https_app, Ht. by exists c, (Ok resp).
  - apply wp_ret. exists c, (Err e). split; [done|]. split; [done|]. by eexists.
Qed.

Lemma refines_answered ro a c failure k :
  rc_Options c = ro -> as_feature a = false -> ends a k ->
  refines ro (answered failure
    (http_do (build_request c (as_method a) (GetUrlString (as_api a c)) (as_body a))) k) (Asks a).
Proof. intros Hc Hf Hk w h. unfold follows. rewrite Hf. by apply answered_wp. Qed.

(** The gate of one feature: the peer is asked once, and only a gateway passes. *)
Lemma require_wp `{GoLib} ro feature op w h :
  wp (Require ro feature op ∅) w h (fun out t =>
    exists c r, rc_Options c = ro /\ https t = [(version_request c, r)]
      /\ if admitted r then out.1 = None
         else exists e, out.1 = Some e /\ ce_Code (Classify e) = refusal_code r).
Proof.
  eapply wp_mono; [apply (gate_decided false)|]. intros [gate cache] t (r & Hl & Hv). revert Hl Hv.
  unfold learned, admitted. rewrite lookup_empty. intros (c & answer & Hc & Ht & ->) Hv.
  exists c, answer. split_and!; [done..|]. destruct (answered_version answer) as [version|] eqn:Ha.
  - destruct Hv as (_ & Hp & He & _). unfold is_gateway. destruct (streq _ _) eqn:Hs.
    + apply streq_true in Hs. by apply Hp.
    + apply streq_false in Hs. cbn [fst snd] in *. destruct gate as [e|]; [|by destruct Hs; apply Hp].
      exists e. split; [done|]. rewrite (He e eq_refl). by rewrite (refusal_version _ _ Ha).
  - destruct Hv as (_ & answer' & e & [= <-] & Hg & He). by exists e.
Qed.

Lemma gate_wp `{GoLib} ro feature op k asks w h :
  (forall w h, wp k w h (fun out t => asks out (https t))) ->
  wp (gated ro feature op k) w h (fun out t => behind_gate ro out (https t) (asks out)).
Proof.
  intros Hk. unfold gated. apply wp_bind. eapply wp_mono; [apply require_wp|].
  intros [gate cache] t (c & r & Hc & Ht & Hr). unfold behind_gate. cbn [fst snd] in *.
  destruct (admitted r) eqn:Ha.
  - rewrite Hr. eapply wp_mono; [apply Hk|]. intros out t' Hs. exists c, r, (https t').
    by rewrite https_app, Ht, Ha.
  - destruct Hr as (e & -> & He). apply wp_ret. rewrite app_nil_r. exists c, r, [].
    rewrite Ha. split_and!; [done..|]. by exists e.
Qed.

Lemma refines_gated `{GoLib} ro feature op a k :
  as_feature a = true ->
  (forall w h, wp k w h (fun out t => sends ro a out (https t))) ->
  refines ro (gated ro feature op k) (Asks a).
Proof. intros Hf Hk w h. unfold follows. rewrite Hf. by apply (gate_wp _ _ _ _ (sends ro a)). Qed.

(* ------------------------------------------------------------------ *)
(** ** Several requests                                                *)
(* ------------------------------------------------------------------ *)

(** Requests one after the other, each when the one before it was confirmed;
    [None] is an entry that is refused when its turn comes. *)
Fixpoint in_turn (ro : RESTOptions) (l : list (option asked)) (out : outcome)
    (sent : list (http_request * http_result)) : Prop :=
  match l with
  | [] => sent = [] /\ out = Returns None
  | None :: _ =>
      sent = [] /\ exists e, out = Returns (Some e) /\ ce_Code (Classify e) = InvalidArgument
  | Some a :: l' =>
      exists first rest out1,
        sent = first ++ rest /\ sends ro a out1 first
        /\ (out1 = Returns None /\ in_turn ro l' out rest
            \/ out1 <> Returns None /\ rest = [] /\ out = out1)
  end.

(** What a command that sends several requests may do. *)
Definition follows_in_turn (ro : RESTOptions) (l : list (option asked)) (out : outcome) (t : trace)
    : Prop := in_turn ro l out (https t).

(** A request, then the rest if it is confirmed. *)
Lemma in_turn_step ro a c failure (k : http_response -> IO outcome) l w h :
  rc_Options c = ro ->
  (forall resp h', wp (k resp) w h' (fun out t =>
     if status_in (as_ok a) (hr_status resp) then in_turn ro l out (https t)
     else https t = [] /\ verdict a (Ok resp) out)) ->
  wp (answered failure
        (http_do (build_request c (as_method a) (GetUrlString (as_api a c)) (as_body a))) k) w h
    (fun out t => in_turn ro (Some a :: l) out (https t)).
Proof.
  intros Hc Hk. unfold answered. apply wp_bind, wp_http. intros [resp|e].
  - eapply wp_mono; [apply Hk|]. intros out t Ht. rewrite https_app.
    destruct (status_in (as_ok a) (hr_status resp)) eqn:Hs.
    + eexists _, (https t), (Returns None). split; [done|]. split; [|by left].
      exists c, (Ok resp). unfold verdict. by rewrite Hs.
    + destruct Ht as [Ht Hv]. rewrite Ht. eexists _, [], out. split; [done|].
      split; [by exists c, (Ok resp)|]. right. unfold verdict in Hv. rewrite Hs in Hv.
      destruct Hv as (e & -> & _). by split_and!.
  - apply wp_ret. eexists _, [], (Returns (Some (ECLI (Unavailablef (failure e))))).
    split; [done|]. split; [|right; by split_and!].
    exists c, (Err e). split; [done|]. split; [done|]. by eexists.
Qed.

(** A panic is the plan of a panic. *)
Lemma refines_panics ro m p w : refines ro m p -> value_of m w = Panics <-> p = Crashes.
Proof.
  intros Hm. specialize (Hm w []). unfold wp in Hm. unfold value_of. split.
  - intros Hp. rewrite Hp in Hm. destruct p as [|code| |a]; simpl in Hm;
      [by destruct Hm as (_ & e & ? & _) | by destruct Hm as (_ & e & ? & _) | done |].
    assert (Hs : forall sent, sends ro a Panics sent -> False).
    { intros sent (c & r & _ & _ & Hv). destruct r as [resp|err]; simpl in Hv.
      - destruct (status_in _ _); [done|]. by destruct Hv as (e & ? & _).
      - by destruct Hv as (e & ? & _). }
    destruct (as_feature a); [|by apply Hs in Hm].
    destruct Hm as (c & r & rest & _ & _ & Hx). destruct (admitted r); [by apply Hs in Hx|].
    by destruct Hx as (_ & e & ? & _).
  - intros ->. by destruct Hm as [_ ?].
Qed.

(* ------------------------------------------------------------------ *)
(** ** Commands that judge an answer by more than its status           *)
(* ------------------------------------------------------------------ *)

(** The contract of a command that makes one request and reads the answer: an
    [inquiry] is the request, whether the gate of a feature comes before it, and
    what the command makes of each answer.  [conforms] relates a command to its
    contract in every world and after every history. *)

Record inquiry : Type := {
  iq_method : string;
  iq_api : LoxiClient -> CommonAPI;
  iq_body : option string;
  iq_gate : bool;
  iq_judge : http_response -> outcome -> Prop
}.

Inductive contract : Type :=
  | Declines (code : Z)
  | Inquires (q : inquiry).

(** One request and the judgement of its answer. *)
Definition inquired (ro : RESTOptions) (q : inquiry) (out : outcome)
    (sent : list (http_request * http_result)) : Prop :=
  exists c r, rc_Options c = ro
    /\ sent = [(build_request c (iq_method q) (GetUrlString (iq_api q c)) (iq_body q), r)]
    /\ match r with Err _ => fails_as Unavailable out | Ok resp => iq_judge q resp out end.

Definition keeps (ro : RESTOptions) (p : contract) (out : outcome) (t : trace) : Prop :=
  match p with
  | Declines code => https t = [] /\ fails_as code out
  | Inquires q =>
      if iq_gate q then behind_gate ro out (https t) (inquired ro q out) else inquired ro q out (https t)
  end.

Definition conforms (ro : RESTOptions) (m : IO outcome) (p : contract) : Prop :=
  forall w h, wp m w h (keeps ro p).

(* ------------------------------------------------------------------ *)
(** ** Rules                                                           *)
(* ------------------------------------------------------------------ *)

Lemma fails_with_code e : fails_as (ce_Code e) (Returns (Some (ECLI e))).
Proof. by exists (ECLI e). Qed.

Lemma fails_with_status e status :
  ce_Code e = status_code status -> fails_as (failure_of status) (Returns (Some (ECLI e))).
Proof. intros He. exists (ECLI e). split; [done|]. by rewrite <- status_code_failure. Qed.

Lemma conforms_declined ro e code : ce_Code e = code -> conforms ro (fail_with e) (Declines code).
Proof. intros <- w h. apply wp_ret. split; [done | apply fails_with_code]. Qed.

(** The end of a command: nothing more is sent. *)
Definition concludes (q : inquiry) (k : http_response -> IO outcome) : Prop :=
  forall resp w h, wp (k resp) w h (fun out t => https t = [] /\ iq_judge q resp out).

Lemma inquiry_wp ro q c failure k w h :
  rc_Options c = ro -> concludes q k ->
  wp (answered failure
        (http_do (build_request c (iq_method q) (GetUrlString (iq_api q c)) (iq_body q))) k) w h
    (fun out t => inquired ro q out (https t)).
Proof.
  intros Hc Hk. unfold answered. apply wp_bind, wp_http. intros [resp|e].
  - eapply wp_mono; [apply Hk|]. intros out t [Ht Hj]. rewrite https_app, Ht. by exists c, (Ok resp).
  - apply wp_ret. exists c, (Err e). split_and!; [done..|]. by eexists.
Qed.

(** The client is made first. *)
Lemma client_inquiry_wp ro q failure (send : LoxiClient -> IO http_result) k w h :
  (forall c, send c = http_do (build_request c (iq_method q) (GetUrlString (iq_api q c)) (iq_body q))) ->
  concludes q k ->
  wp (client ← NewLoxiClient ro; answered failure (send client) k) w h
    (fun out t => inquired ro q out (https t)).
Proof.
  intros Hs Hk. apply wp_client. intros c t Hc Ht _. rewrite Hs.
  eapply wp_mono; [by apply inquiry_wp|]. intros out t'. by rewrite https_app, Ht.
Qed.

Lemma conforms_inquiry ro q failure (send : LoxiClient -> IO http_result) k :
  iq_gate q = false ->
  (forall c, send c = http_do (build_request c (iq_method q) (GetUrlString (iq_api q c)) (iq_body q))) ->
  concludes q k ->
  conforms ro (client ← NewLoxiClient ro; answered failure (send client) k) (Inquires q).
Proof. intros Hg Hs Hk w h. unfold keeps. rewrite Hg. by apply client_inquiry_wp. Qed.

Lemma conforms_gated `{GoLib} ro feature op q k :
  iq_gate q = true ->
  (forall w h, wp k w h (fun out t => inquired ro q out (https t))) ->
  conforms ro (gated ro feature op k) (Inquires q).
Proof. intros Hg Hk w h. unfold keeps. rewrite Hg. by apply (gate_wp _ _ _ _ (inquired ro q)). Qed.

(** Something is printed, then the command succeeds. *)
Lemma then_succeeds {A} (m : IO A) w h (P : outcome -> Prop) :
  ops_satisfy not_http m -> P (Returns None) ->
  wp (_ ← m; succeed) w h (fun out t => https t = [] /\ P out).
Proof. intros Hm HP. by apply ends_confirmed. Qed.

Lemma then_fails e w h (P : outcome -> Prop) :
  P (Returns (Some (ECLI e))) -> wp (fail_with e) w h (fun out t => https t = [] /\ P out).
Proof. intros HP. by apply wp_ret. Qed.
