(* ===== verification/Confined.v ===== *)
(** * Names in a URL

    The names that the commands put into the path of a request are checked
    first; what the checks accept is one element of the path. *)
From S2P Require Import Prelude GoStrings Regex Json JsonPrint Fields World Errors Exitcode Envelope.
From S2P Require Import Rest Requests ConfigLifecycle Snapshot Lifecycle LifecycleCmds OpsCmds AuditSinks.
From S2P Require Import LifecycleProps.

(* ------------------------------------------------------------------ *)
(** ** Runes and bytes of an ASCII text                                *)
(* ------------------------------------------------------------------ *)

Lemma rune2_high a b r : rune2 a b = Some r -> (128 <= r)%Z.
Proof. unfold rune2. intros H. case_match; [|done]. go_norm. lia. Qed.

Lemma rune3_high a b c r : rune3 a b c = Some r -> (128 <= r)%Z.
Proof.
  unfold rune3. intros H. case_match; [|done]. go_norm.
  destruct (a =? 224)%Z eqn:Ha; go_norm; lia.
Qed.

Lemma rune4_high a b c d r : rune4 a b c d = Some r -> (128 <= r)%Z.
Proof.
  unfold rune4. intros H. case_match; [|done]. go_norm.
  destruct (a =? 240)%Z eqn:Ha; go_norm; lia.
Qed.

Lemma ascii_runes s :
  Forall (fun r => (r < 128)%Z) (runes s) -> runes s = zbyte <$> bytes s.
Proof.
  induction s as [|a s IH]; [done|]. unfold runes. cbn [segments].
  destruct (zbyte a <? 128)%Z eqn:Ha.
  - rewrite !fmap_cons. intros [_ Hs]%Forall_cons. cbn [bytes String.list_ascii_of_string].
    rewrite fmap_cons. f_equal. by apply IH.
  - assert (Hbad : forall (raw : string) l, Forall (fun r => (r < 128)%Z) (fst <$> (rune_error, raw) :: l) -> False).
    { intros raw l [H _]%Forall_cons. unfold rune_error in H. simpl in H. lia. }
    assert (Hhigh : forall r (raw : string) l, (128 <= r)%Z -> Forall (fun r => (r < 128)%Z) (fst <$> (r, raw) :: l) -> False).
    { intros r raw l Hr [H _]%Forall_cons. simpl in H. lia. }
    intros H. exfalso. revert H.
    repeat case_match; intros H'; try (by eapply Hbad);
      (eapply Hhigh; [|exact H']; first [by eapply rune2_high | by eapply rune3_high | by eapply rune4_high]).
Qed.

Lemma contains_byte_in s z : contains_byte s z = true <-> z ∈ zbyte <$> bytes s.
Proof.
  unfold contains_byte. rewrite existsb_exists, list_elem_of_fmap.
  split; intros (a & H1 & H2); exists a; rewrite ?Z.eqb_eq, ?list_elem_of_In in *; naive_solver.
Qed.

Lemma absent_byte s z p :
  Forall (fun c => p c = true) (runes s) -> (forall c, p c = true -> (c < 128)%Z /\ c <> z) ->
  contains_byte s z = false.
Proof.
  intros Hs Hp. apply not_true_iff_false. rewrite contains_byte_in, <- ascii_runes.
  - intros Hz. rewrite Forall_forall in Hs. by apply Hs, Hp in Hz as [_ Hz].
  - eapply Forall_impl; [exact Hs|]. intros c Hc. by apply Hp.
Qed.

(* ------------------------------------------------------------------ *)
(** ** What the checks accept                                          *)
(* ------------------------------------------------------------------ *)

Lemma log_name_bare name what : checkLogName name what = Ok tt -> bare name = true.
Proof.
  unfold checkLogName, reject_if. intros H. case_match; [done|]. go_norm.
  unfold bare. rewrite !andb_true_iff, !negb_true_iff, is_empty_false, !streq_false.
  split_and!; try done. apply not_true_iff_false.
  match goal with Hc : contains_any name _ = false |- _ => rename Hc into Hany end.
  unfold contains_any in Hany. rewrite existsb_false in Hany.
  unfold contains_byte. rewrite existsb_exists. intros (a & Ha & Hz%Z.eqb_eq).
  rewrite Forall_forall in Hany. specialize (Hany a (proj2 (list_elem_of_In _ _) Ha)).
  assert (a = "/"%char) as ->; [|done].
  rewrite <- (ascii_N_embedding a). unfold zbyte in Hz. by replace (N_of_ascii a) with 47%N by lia.
Qed.

(** The characters of a sink's name. *)
Definition sink_name_char (c : Z) : bool := is_lower c || is_digit c || one_of_chars "_-" c.

Lemma sink_name_chars name :
  checkAuditSinkName name = Ok tt -> runes name <> [] /\ Forall (fun c => sink_name_char c = true) (runes name).
Proof.
  unfold checkAuditSinkName. rewrite !reject_ok. intros (_ & Hm%negb_false_iff & _).
  apply full_match_in in Hm. unfold auditSinkNameRe, RSeq in Hm. cbn [fold_right] in Hm.
  apply cat_inv in Hm as (v & w & -> & Hv & Hw). apply set_inv in Hv as (c & -> & Hc).
  apply cat_inv in Hw as (w1 & w2 & -> & Hw & ->%eps_inv). apply upto_set_in in Hw as [_ Hw].
  rewrite app_nil_r. split; [done|]. simpl. by constructor.
Qed.

Lemma sink_name_char_ascii c : sink_name_char c = true -> (c < 128)%Z /\ c <> 47%Z /\ c <> 46%Z.
Proof.
  unfold sink_name_char, is_lower, is_digit, one_of_chars.
  change (runes "_-") with [95%Z; 45%Z]. cbn [existsb]. rewrite !orb_true_iff, !in_range_true, !Z.eqb_eq.
  intros H. destruct_or?; (done || lia).
Qed.

Lemma sink_name_bare name : checkAuditSinkName name = Ok tt -> bare name = true.
Proof.
  intros [Hne Hall]%sink_name_chars. unfold bare.
  rewrite !andb_true_iff, !negb_true_iff, is_empty_false, !streq_false. split_and!.
  - by intros ->.
  - intros ->. apply Forall_cons in Hall as [H _]. discriminate H.
  - intros ->. apply Forall_cons in Hall as [H _]. discriminate H.
  - eapply absent_byte; [exact Hall|]. intros c Hc%sink_name_char_ascii. tauto.
Qed.

(* ------------------------------------------------------------------ *)
(** ** The requests                                                    *)
(* ------------------------------------------------------------------ *)

(** A request for one item of a resource: the name is one element, the last,
    of the path. *)
Definition item_request (ro : RESTOptions) (method res name : string) (req : http_request) : Prop :=
  exists c path,
    rc_Options c = ro /\ bare name = true /\ hq_method req = method
    /\ hq_url req = url_string (ro_Protocol ro) (GetHost c) path ""
    /\ split "/"%char path = ["netlox"; "v1"] ++ split "/"%char res ++ [name].

Lemma item_request_build c method res name body :
  res ∈ loxiResources -> bare name = true ->
  item_request (rc_Options c) method res name
    (build_request c method (GetUrlString (SubResources (resource c res) [name])) body).
Proof.
  intros Hr Hn. eexists c, _. split_and!; [done | done | done | reflexivity |].
  change (ca_requestInfo (SubResources (resource c res) [name]))
    with {| ri_provider := loxiProvider; ri_apiVersion := loxiApiVersion; ri_resource := res;
            ri_subResource := [name]; ri_queryArgs := None |}.
  assert (Hb : Forall (fun e => bare e = true) [name]) by (repeat constructor; done).
  rewrite base_url_bare by done. apply split_join; [done|].
  pose proof (resource_elements res Hr) as He.
  repeat (apply Forall_cons; split; [done|]). by apply Forall_app_2.
Qed.

Lemma sinks_resource : loxiAuditSinksResource ∈ loxiResources.
Proof. apply str_in_true. vm_compute. reflexivity. Qed.
Lemma archives_resource : loxiLogArchivesResource ∈ loxiResources.
Proof. apply str_in_true. vm_compute. reflexivity. Qed.

(** At most one request, and of that shape. *)
Definition only_request (P : http_request -> Prop) (err : option goerror) (t : trace) : Prop :=
  match https t with [] => True | [(req, _)] => P req | _ => False end.

Lemma only_none P err t : https t = [] -> only_request P err t.
Proof. unfold only_request. by intros ->. Qed.

Lemma only_one P err t req r : https t = [(req, r)] -> P req -> only_request P err t.
Proof. unfold only_request. by intros ->. Qed.

Lemma show_document_ops {A} (d : option A) accept failed body jsonOut human :
  ops_satisfy output_op (show_document d accept failed body jsonOut human).
Proof.
  unfold show_document, print_body.
  repeat first [ops_step | apply write_all_ops | by apply ops_perform].
Qed.

Lemma log_archive_ops r : ops_satisfy output_op (humanLogArchive r).
Proof. unfold humanLogArchive. repeat first [ops_step | apply write_all_ops]. Qed.

Lemma write_file_atomic_ops path r : ops_satisfy not_http (write_file_atomic path r).
Proof.
  unfold write_file_atomic, fill_and_rename, flush_and_rename, file_step, copy_step, copy_to,
    abandon, cleanup, remove, sync_dir.
  repeat first [ops_step | by apply ops_perform].
Qed.

Lemma answer_quiet o name file resp :
  ops_satisfy not_http
    (if negb (hr_status resp =? 200)%Z then
       match readBody resp "log archive" with
       | Err e => render o "get.log-archives" empty_report no_human (Some (ELifecycle e))
       | Ok body => render o "get.log-archives" empty_report no_human
                      (Some (ELifecycle (NewStatusError (hr_status resp) body)))
       end
     else if streq file "-" then stream_archive resp
     else store_archive o "get.log-archives" name file resp).
Proof.
  unfold stream_archive, store_archive.
  repeat first [ ops_step | apply write_file_atomic_ops | by apply ops_perform
               | apply output_quiet, render_ops; intros; (apply human_ops || apply log_archive_ops) ].
Qed.

(** C19: the commands that take a name put it into the URL as one element of
    the path of its resource, after checking it: whatever the name is, no
    request leaves the resource, and a name that is empty, dots, or holds a
    slash sends nothing. *)
Theorem named_requests_confined `{GoLib} ro o jsonOut name file ss :
  always (LogArchiveDownload ro o name file)
    (only_request (item_request ro "GET" loxiLogArchivesResource name))
  /\ always (AuditNamedSinkGet ro jsonOut name)
       (only_request (item_request ro "GET" loxiAuditSinksResource name))
  /\ always (AuditNamedSinkSet ro jsonOut name ss)
       (only_request (item_request ro "PUT" loxiAuditSinksResource name))
  /\ always (AuditNamedSinkDelete ro jsonOut name)
       (only_request (item_request ro "DELETE" loxiAuditSinksResource name)).
Proof.
  pose proof sinks_resource as Hsr. pose proof archives_resource as Har.
  split_and!; intros w.
  - change (wp (LogArchiveDownload ro o name file) w []
      (only_request (item_request ro "GET" loxiLogArchivesResource name))).
    unfold LogArchiveDownload. destruct (archive_args o name file) as [u|e] eqn:Ha.
    + apply wp_client. intros c t <- Ht _. apply wp_bind, wp_http. intros r.
      apply quiet_wp.
      * destruct r as [resp|e]; [apply answer_quiet | apply output_quiet, render_ops, human_ops].
      * intros err t' Ht'. eapply only_one; [by rewrite !https_app, Ht, Ht'|].
        apply item_request_build; [done|]. unfold archive_args in Ha.
        destruct (checkLogName name _) as [[]|] eqn:Hc; [by eapply log_name_bare | done].
    + apply quiet_wp; [apply output_quiet, render_ops, human_ops | intros; by apply only_none].
  - change (wp (AuditNamedSinkGet ro jsonOut name) w []
      (only_request (item_request ro "GET" loxiAuditSinksResource name))).
    unfold AuditNamedSinkGet. destruct (checkAuditSinkName name) as [[]|e] eqn:Hc; [|by apply lifecycle_failed_wp].
    apply wp_client. intros c t <- Ht _. apply wp_bind, exchange_wp, wp_http. intros r.
    apply quiet_wp.
    + destruct (received _ _ r) as [[resp body]|e]; [|apply ops_ret].
      apply ops_if; intros _; [apply ops_ret | apply output_quiet, show_document_ops].
    + intros err t' Ht'. eapply only_one; [by rewrite !https_app, Ht, Ht'|].
      apply item_request_build; [done | by apply sink_name_bare].
  - destruct (named_sink_set_run ro jsonOut name ss w [])
      as [(e & _ & _ & Ht)|(req & c & r & Hreq & <- & Ht & _)]; [by apply only_none|].
    eapply only_one; [exact Ht|]. apply item_request_build; [done|]. apply sink_name_bare.
    unfold auditNamedSinkRequest in Hreq. by destruct (checkAuditSinkName name) as [[]|].
  - destruct (named_sink_delete_run ro jsonOut name w [])
      as [(e & _ & _ & Ht)|(c & r & u & Hc & <- & Ht & _)]; [by apply only_none|].
    eapply only_one; [exact Ht|]. apply item_request_build; [done | by apply sink_name_bare].
Qed.
