(* ===== verification/DownloadProps.v ===== *)
(** * What a restore posts and what a snapshot stores *)
From S2P Require Import Prelude GoStrings Json JsonPrint Fields World Errors Exitcode Envelope.
From S2P Require Import Rest Requests ConfigLifecycle Snapshot Lifecycle LifecycleCmds OpsCmds AuditSinks.
From S2P Require Import LifecycleProps.

(* ------------------------------------------------------------------ *)
(** ** The request of a restore                                        *)
(* ------------------------------------------------------------------ *)

(** The request of a restore of [data]. *)
Definition restore_post (ro : RESTOptions) (opts : RestoreOptions) (data : string) (req : http_request)
    : Prop :=
  exists c, rc_Options c = ro /\ hq_method req = "POST" /\ hq_body req = Some (compact_raw data)
    /\ hq_url req = url_string (ro_Protocol ro) (GetHost c) "netlox/v1/config/restore"
                      (encode_query (restore_query opts)).

(** A restore sends nothing unless the file it names was read and is a
    JSON document; then it sends one request, with that document for a body,
    to the restore endpoint, in the mode that was asked for: a run without
    [--commit] asks for a dry run, whatever the file says. *)
Theorem restore_request_exact `{GoLib} ro o opts w :
  let t := (Restore ro o opts w []).2 in
  match https t with
  | [] => True
  | [(req, _)] => exists data,
      Ev (OpReadFile (ro_File opts)) (Ok data) ∈ t /\ json_valid data = true
      /\ restore_post ro opts data req
      /\ (("mode", "commit") ∈ restore_query opts <-> ro_Commit opts = true)
      /\ (("mode", "dry-run") ∈ restore_query opts <-> ro_Commit opts = false)
  | _ => False
  end.
Proof.
  cbn zeta. pose proof (restore_run ro o opts w []) as Hrun. unfold wp in Hrun.
  destruct Hrun as [[-> _]|(data & Hin & Hv & c & r & Hc & -> & _)]; [done|].
  exists data. split; [done|]. split; [done|]. split.
  - exists c. subst ro. done.
  - unfold restore_query, restore_mode, RestoreModeCommit, RestoreModeDryRun.
    destruct (ro_Commit opts), (is_empty (ro_Components opts)); simpl;
      rewrite ?elem_of_cons, ?elem_of_nil; naive_solver.
Qed.

(* ------------------------------------------------------------------ *)
(** ** The file of a snapshot                                          *)
(* ------------------------------------------------------------------ *)

Definition file_op (o : op) : bool :=
  match o with
  | OpCreateTemp _ _ | OpChmod _ _ | OpWrite _ _ | OpSync _ | OpClose _ | OpRename _ _
  | OpRemove _ | OpOpenDir _ | OpOpen _ _ _ | OpMkdir _ _ | OpRemoveAll _ => true
  | _ => false
  end.

Definition files (t : trace) : trace := List.filter (fun e => file_op (ev_op e)) t.

Lemma files_app t t' : files (t ++ t') = files t ++ files t'.
Proof. apply List.filter_app. Qed.

Lemma files_none P t :
  (forall o, P o -> file_op o = false) -> Forall (fun e => P (ev_op e)) t -> files t = [].
Proof. intros HP. induction 1 as [|e t He Ht IH]; [done|]. simpl. by rewrite (HP _ He). Qed.

Lemma files_all t : Forall (fun e => file_op (ev_op e) = true) t -> files t = t.
Proof. induction 1 as [|e t He Ht IH]; [done|]. simpl. by rewrite He, IH. Qed.

Lemma write_file_ops path r : ops_satisfy (fun o => file_op o = true) (WriteFileAtomic path r).
Proof.
  unfold WriteFileAtomic, write_file_atomic, fill_and_rename, flush_and_rename, file_step,
    copy_step, copy_to, abandon, cleanup, remove, sync_dir.
  repeat first [ops_step | by apply ops_perform].
Qed.

(** A download that passed: the answer it came with and the document. *)
Definition verified_download `{GoLib} (strict : bool)
    (doc : string) (r : SnapshotFileResult) (t : trace) : Prop :=
  exists req resp,
    https t = [(req, Ok resp)] /\ hr_status resp = 200%Z /\ hr_body_error resp = None
    /\ VerifySnapshotChecksum (hr_body resp) (header_get resp snapshotChecksumHeader) = Ok (doc, r)
    /\ (strict = true -> sf_ChecksumVerified r = true).

(** What a download did with the files, and what it knows. *)
Definition download_ends `{GoLib} (strict : bool) (so : SnapshotOptions)
    (out : snapshot_outcome) (t : trace) : Prop :=
  (files t = [] /\ sn_error out <> None)
  \/ exists doc r, verified_download strict doc r t
       /\ ((so_File so = "" /\ files t = [] /\ sn_document out = doc)
           \/ exists w h, let run := WriteFileAtomic (so_File so) (of_data doc) w h in
                so_File so <> "" /\ files t = run.2
                /\ (sn_error out = None <-> is_ok run.1 = true)).

Lemma store_run `{GoLib} strict so doc r w h t :
  verified_download strict doc r t -> files t = [] ->
  wp (store_snapshot (so_File so) doc r) w h (fun out t' => download_ends strict so out (t ++ t')).
Proof.
  intros (req & resp & Ht & Hrest) Hf. unfold store_snapshot. apply wp_if; intros He.
  - apply negb_true_iff, is_empty_false in He. apply wp_bind. unfold WriteSnapshotFile.
    apply wp_try. rewrite wp_value. intros res t' Hrun.
    assert (Hops := write_file_ops (so_File so) (of_data doc) w h). rewrite Hrun in Hops. simpl in Hops.
    assert (Hh : https t' = []).
    { apply https_none. eapply Forall_impl; [exact Hops|]. by intros [[] a]. }
    destruct res as [n|e]; repeat apply wp_ret; rewrite ?app_nil_r; right; exists doc, r;
      (split; [exists req, resp; rewrite https_app, Hh, app_nil_r; by split|]);
      right; exists w, h; cbn zeta; rewrite Hrun, files_app, Hf, (files_all t' Hops); done.
  - apply negb_false_iff, is_empty_true in He. apply wp_ret. rewrite app_nil_r.
    right. exists doc, r. split; [by exists req, resp|]. by left.
Qed.

Lemma client_files t : Forall (fun e => client_op (ev_op e)) t -> files t = [].
Proof. apply files_none. by intros []. Qed.
Lemma output_files t : Forall (fun e => output_op (ev_op e)) t -> files t = [].
Proof. apply files_none. by intros []. Qed.

Lemma do_snapshot_run `{GoLib} ro o so w h :
  wp (doSnapshot ro o so) w h (download_ends (lo_Strict o) so).
Proof.
  unfold doSnapshot. apply wp_client. intros c t Hc Ht Hcl. apply wp_bind, exchange_wp, wp_http.
  intros resp0. match goal with |- context [[?e]] => set (ev := e) end.
  assert (Hf : files (t ++ [ev]) = []) by (rewrite files_app, (client_files t Hcl); done).
  destruct (received _ _ resp0) as [[resp body]|e] eqn:Hr;
    [|apply wp_ret; rewrite app_nil_r; by left].
  apply received_ok in Hr as (-> & Hb & ->).
  apply wp_if; intros Hst; [apply wp_ret; rewrite app_nil_r; by left|].
  destruct (VerifySnapshotChecksum _ _) as [[doc r]|e] eqn:Hv; [|apply wp_ret; rewrite app_nil_r; by left].
  apply wp_if; intros Hs; [apply wp_ret; rewrite app_nil_r; by left|].
  eapply wp_mono; [apply (store_run (lo_Strict o) so doc r w _ (t ++ [ev])); [|done]|].
  - eexists _, resp. split; [rewrite https_app, Ht; reflexivity|].
    split; [by apply negb_false_iff, Z.eqb_eq in Hst|]. split; [done|]. split; [done|].
    intros Hstrict. rewrite Hstrict in Hs. by apply negb_false_iff in Hs.
  - intros out t'. by rewrite app_assoc.
Qed.

(** C18: a snapshot is stored only after it was verified: the file operations
    of the command are none, or those of the atomic replacement of the named
    file by the document of a complete 200 answer that passed the checksum
    verification (and, with [--strict], carries a checksum); success with a
    file named means that replacement succeeded. *)
Theorem snapshot_stored_verified `{GoLib} ro o so w :
  let run := SnapshotCmd ro o so w [] in
  (files run.2 = []
   \/ exists doc r w' h, verified_download (lo_Strict o) doc r run.2
        /\ files run.2 = (WriteFileAtomic (so_File so) (of_data doc) w' h).2)
  /\ (run.1 <> None \/
      exists doc r, verified_download (lo_Strict o) doc r run.2
        /\ (so_File so = "" \/ exists w' h,
              files run.2 = (WriteFileAtomic (so_File so) (of_data doc) w' h).2
              /\ is_ok (WriteFileAtomic (so_File so) (of_data doc) w' h).1 = true)).
Proof.
  cbn zeta. set (Q := fun (err : option goerror) (t : trace) =>
    (files t = []
     \/ exists doc r w' h, verified_download (lo_Strict o) doc r t
          /\ files t = (WriteFileAtomic (so_File so) (of_data doc) w' h).2)
    /\ (err <> None \/
        exists doc r, verified_download (lo_Strict o) doc r t
          /\ (so_File so = "" \/ exists w' h,
                files t = (WriteFileAtomic (so_File so) (of_data doc) w' h).2
                /\ is_ok (WriteFileAtomic (so_File so) (of_data doc) w' h).1 = true))).
  change (wp (SnapshotCmd ro o so) w [] Q). unfold SnapshotCmd. apply wp_bind.
  eapply wp_mono; [apply do_snapshot_run|]. intros out t Hout. cbn zeta.
  assert (Hend : forall res t', https t' = [] -> Forall (fun e => output_op (ev_op e)) t' ->
            (sn_error out <> None -> res = sn_error out) -> Q res (t ++ t')).
  { intros res t' Ht' Ho Hres. unfold Q. rewrite files_app, (output_files t' Ho), app_nil_r.
    assert (Hvd : forall doc r, verified_download (lo_Strict o) doc r t ->
              verified_download (lo_Strict o) doc r (t ++ t')).
    { intros doc r (req & resp & Ht & Hrest). exists req, resp. by rewrite https_app, Ht, Ht'. }
    destruct Hout as [[Hf He]|(doc & r & Hd & [(Hn & Hf & _)|(w' & h & Hn & Hf & Hok)])].
    - split; [by left|]. left. by rewrite Hres.
    - split; [by left|]. right. exists doc, r. auto.
    - split; [right; exists doc, r, w', h; auto|].
      destruct (sn_error out) as [e|]; [left; by rewrite Hres|].
      right. exists doc, r. split; [auto|]. right. exists w', h. split; [done | by apply Hok]. }
  destruct (sn_error out) as [e|] eqn:He.
  - apply wp_render; [apply human_ops | auto].
  - apply wp_if; intros Hb; [|apply wp_render; [apply human_ops | auto]].
    unfold write_out. wp_op. intros a _. apply wp_ret. rewrite app_nil_r. apply Hend; [done| | done].
    repeat constructor.
Qed.
