(* ===== verification/LbCreate.v ===== *)
(** * Creating load balancer rules: [cmd/create/create_loadbalancer.go]

    The command [create lb]: the parsing of ports and endpoints, the rule that
    is built for each protocol, the gates on the features it uses and the
    requests that are sent.

    Numbers are converted the way the code converts them, so a port beyond 16
    bits and a weight beyond 8 wrap; and a target port range that ends at the
    largest [int] is a loop without an end, which is a value of the model
    ([None], [NeverReturns]). *)
From S2P Require Import Prelude GoStrings GoNet Json JsonPrint Fields World Errors Exitcode.
From S2P Require Import Rest FeatureGate Commands BandTriple LbModel LbOptions.

(* ------------------------------------------------------------------ *)
(** ** Ports                                                           *)
(* ------------------------------------------------------------------ *)

(** [x++] on an [int]. *)
Definition int_succ (x : Z) : Z := if (x =? max_int64)%Z then min_int64 else (x + 1)%Z.

(** The loop from [t] to [last]; [None] when the fuel runs out before it ends. *)
Fixpoint port_loop (fuel : nat) (t last : Z) : option (list Z) :=
  match fuel with
  | O => None
  | S fuel =>
      if (t <=? last)%Z then cons (to_uint16 t) <$> port_loop fuel (int_succ t) last
      else Some []
  end.

Definition target_ports (start last : Z) : option (list Z) :=
  port_loop (Z.to_nat (last - start + 2)) start last.

(** The target ports of an entry: a range, or one port.  [Ok None] is an entry
    that is skipped. *)
Definition target_range (s : string) : result string (option (Z * Z)) :=
  match split "-"%char s with
  | [a] =>
      match atoi a with
      | None => Err (sprintf ["targetPort0 '"; a; "' is not integer"])
      | Some x => Ok (Some (x, x))
      end
  | [a; b] =>
      match atoi a with
      | None => Err (sprintf ["targetPort0 '"; a; "' is not integer"])
      | Some x =>
          match atoi b with
          | None => Err (sprintf ["targetPort1 '"; b; "' is not integer"])
          | Some y =>
              if (y <? x)%Z then Err (sprintf ["targetPort2 '"; b; "' <  targetPort2 '"; a; "'"])
              else Ok (Some (x, y))
          end
      end
  | _ => Ok None
  end.

Definition service_port (s : string) : result string Z :=
  of_option (sprintf ["port '"; s; "' is not integer"]) (atoi s).

(** One entry; every port of its list gets all its target ports. *)
Definition add_pair (m : gmap Z (list Z)) (entry : string) : option (result string (gmap Z (list Z))) :=
  match split ":"%char entry with
  | [ports; targets] =>
      match map_each service_port (split "-"%char ports) with
      | Err e => Some (Err e)
      | Ok ports =>
          match target_range targets with
          | Err e => Some (Err e)
          | Ok None => Some (Ok m)
          | Ok (Some (startTP, endTP)) =>
              l ← target_ports startTP endTP;
              Some (Ok (fold_left (fun m port => <[to_uint16 port := l]> m) ports m))
          end
      end
  | _ => Some (Ok m)
  end.

(** [None] when it does not return. *)
Fixpoint port_pairs (m : gmap Z (list Z)) (l : list string)
    : option (result string (gmap Z (list Z))) :=
  match l with
  | [] => Some (Ok m)
  | entry :: l' =>
      match add_pair m entry with
      | None => None
      | Some (Err e) => Some (Err e)
      | Some (Ok m) => port_pairs m l'
      end
  end.

Definition GetPortPairList (portPairStrList : list string) : option (result string (gmap Z (list Z))) :=
  port_pairs ∅ portPairStrList.

(* ------------------------------------------------------------------ *)
(** ** Endpoints                                                       *)
(* ------------------------------------------------------------------ *)

Record EndpointSpec : Type := { es_IP : string; es_Weight : uint8 }.

Definition endpoint_spec (s : string) : result string EndpointSpec :=
  match split_last ":"%char s with
  | None => Err (sprintf ["endpoint '"; s; "' is invalid format"])
  | Some (ip, weight) =>
      match atoi weight with
      | None => Err (sprintf ["endpoint's weight '"; weight; "' is invalid format"])
      | Some w => Ok {| es_IP := ip; es_Weight := U8 (to_uint8 w) |}
      end
  end.

Definition GetEndpointList (endpointsList : list string) : result string (list EndpointSpec) :=
  map_each endpoint_spec endpointsList.

Definition parseEndpointRoles (roles : list string) (epCount : nat) : result string (list Z) :=
  if negb (any roles) then Ok (replicate epCount 0%Z)
  else
    reject (negb (length roles =? epCount)%nat)
      with_ sprintf ["--ep-role count ("; itoa (Z.of_nat (length roles));
                     ") must match --endpoints count ("; itoa (Z.of_nat epCount); ")"];;
    map_each EpRoleToNum roles.

Definition alignNixlPorts (ports : list Z) (epCount : nat) : result string (list Z) :=
  if negb (any ports) then Ok (replicate epCount 0%Z)
  else
    reject (negb (length ports =? epCount)%nat)
      with_ sprintf ["--nixl-port count ("; itoa (Z.of_nat (length ports));
                     ") must match --endpoints count ("; itoa (Z.of_nat epCount); ")"];;
    Ok (to_int32 <$> ports).

(* ------------------------------------------------------------------ *)
(** ** The service of a rule                                           *)
(* ------------------------------------------------------------------ *)

Definition tripleIfGiven (v : BandTriple) (given : bool) : option BandTriple :=
  if negb given then None else Some v.

Definition u32IfGiven (v : uint32) (given : bool) : option uint32 :=
  if negb given && (u32 v =? 0)%Z then None else Some v.

Definition applyAIServiceOptions (s : LoadBalancerService) (o : CreateLoadBalancerOptions)
    : LoadBalancerService :=
  {| sv_ExternalIP := sv_ExternalIP s; sv_Port := sv_Port s; sv_PortMax := sv_PortMax s;
     sv_Protocol := sv_Protocol s; sv_Sel := sv_Sel s; sv_Mode := sv_Mode s; sv_BGP := sv_BGP s;
     sv_Monitor := sv_Monitor s; sv_Timeout := sv_Timeout s; sv_Block := sv_Block s;
     sv_Managed := sv_Managed s; sv_Name := sv_Name s; sv_Snat := sv_Snat s;
     sv_Oper := sv_Oper s; sv_Security := sv_Security s; sv_Host := sv_Host s;
     sv_PpV2 := sv_PpV2 s; sv_Egress := sv_Egress s; sv_ConnectionLimit := lb_ConnectionLimit o;
     sv_FcMaxQueueDepth := u32IfGiven (lb_FcMaxQueueDepth o) (lb_FcMaxQueueDepthSet o);
     sv_FcMaxQueueWaitMs := u32IfGiven (lb_FcMaxQueueWaitMs o) (lb_FcMaxQueueWaitMsSet o);
     sv_FcMode := lb_FcMode o;
     sv_FcMaxOutstanding := u32IfGiven (lb_FcMaxOutstanding o) (lb_FcMaxOutstandingSet o);
     sv_FcEpMaxInflight := u32IfGiven (lb_FcEpMaxInflight o) (lb_FcEpMaxInflightSet o);
     sv_FcPrefillMaxInflight := u32IfGiven (lb_FcPrefillMaxInflight o) (lb_FcPrefillMaxInflightSet o);
     sv_FcDecodeMaxInflight := u32IfGiven (lb_FcDecodeMaxInflight o) (lb_FcDecodeMaxInflightSet o);
     sv_FcTelemetryStaleMs := u32IfGiven (lb_FcTelemetryStaleMs o) (lb_FcTelemetryStaleMsSet o);
     sv_FcAdaptive := lb_FcAdaptive o;
     sv_FcWarmupMs := u32IfGiven (lb_FcWarmupMs o) (lb_FcWarmupMsSet o);
     sv_FcTtftTargetMs := u32IfGiven (lb_FcTtftTargetMs o) (lb_FcTtftTargetMsSet o);
     sv_FcTenantMaxSharePct := u32IfGiven (lb_FcTenantMaxSharePct o) (lb_FcTenantMaxSharePctSet o);
     sv_FcExposeHeaders := lb_FcExposeHeaders o; sv_FcWakePolicy := lb_FcWakePolicy o;
     sv_FcBandWeights := tripleIfGiven (lb_FcBandWeights o) (lb_FcBandWeightsSet o);
     sv_FcBandMinSharePct := tripleIfGiven (lb_FcBandMinSharePct o) (lb_FcBandMinSharePctSet o);
     sv_FcCriticalReservePct := u32IfGiven (lb_FcCriticalReservePct o) (lb_FcCriticalReservePctSet o);
     sv_FcBandWaitMs := tripleIfGiven (lb_FcBandWaitMs o) (lb_FcBandWaitMsSet o);
     sv_FcBandQueuePct := tripleIfGiven (lb_FcBandQueuePct o) (lb_FcBandQueuePctSet o);
     sv_FcShedQueue := lb_FcShedQueue o; sv_FcTenantWake := lb_FcTenantWake o;
     sv_FcLlmdHeaders := lb_FcLlmdHeaders o;
     sv_AiDefaultReservation := lb_AiDefaultReservation o;
     sv_AiDefaultMaxTokens := u32IfGiven (lb_AiDefaultMaxTokens o) (lb_AiDefaultMaxTokensSet o);
     sv_AiObjectiveStrict := if lb_AiObjectiveStrictSet o || lb_AiObjectiveStrict o
         then Some (lb_AiObjectiveStrict o) else sv_AiObjectiveStrict s;
     sv_FcEffective := sv_FcEffective s; sv_ProbeType := lb_ProbeType o;
     sv_ProbePort := lb_ProbePort o; sv_ProbeReq := lb_ProbeReq o;
     sv_ProbeResp := sv_ProbeResp s; sv_ProbeTimeout := lb_ProbeTimeout o;
     sv_ProbeRetries := lb_ProbeRetries o; sv_ModelName := lb_ModelName o;
     sv_PathPrefix := lb_PathPrefix o; sv_PathMatchMode := lb_PathMatchMode o;
     sv_SessionHdrName := lb_SessionHeaderName o; sv_TraceType := lb_TraceType o;
     sv_BackendProtocol := lb_BackendProtocol o; sv_SockMapMode := lb_SockMapMode o;
     sv_SseMode := lb_SseMode o; sv_JWTAuthProfile := lb_JWTAuthProfile o;
     sv_APIKeyAuth := lb_APIKeyAuth o; sv_MaxStreamDurationSec := lb_MaxStreamDurationSec o;
     sv_BackendKeepaliveSec := lb_BackendKeepaliveSec o; sv_CbEnable := lb_CbEnable o;
     sv_EppEndpoint := lb_EppEndpoint o; sv_EppFailureMode := lb_EppFailureMode o;
     sv_EppTimeoutMs := lb_EppTimeoutMs o; sv_EppPlaintext := lb_EppPlaintext o;
     sv_ChwblPrefixHashLevel := lb_ChwblPrefixHashLevel o;
     sv_ChwblPrefixHashFlags := lb_ChwblPrefixHashFlags o;
     sv_ChwblMeanLoadFactor := lb_ChwblMeanLoadFactor o;
     sv_ChwblReplication := lb_ChwblReplication o;
     sv_ChwblEnableCacheSalt := lb_ChwblEnableCacheSalt o; sv_PdDisaggMode := lb_PdDisaggMode o;
     sv_PdCacheAwareMode := lb_PdCacheAwareMode o; sv_PdSessionTtlSec := lb_PdSessionTtlSec o;
     sv_PdCacheThreshold := lb_PdCacheThreshold o;
     sv_PdBalanceAbsThreshold := lb_PdBalanceAbsThreshold o;
     sv_PdBootstrapPort := lb_PdBootstrapPort o;
     sv_PdPrefillTimeoutSec := lb_PdPrefillTimeoutSec o; sv_KvExactMode := lb_KvExactMode o;
     sv_KvBlockSize := lb_KvBlockSize o; sv_KvHashAlgo := lb_KvHashAlgo o;
     sv_KvZmqPort := lb_KvZmqPort o; sv_KvWarmupSec := lb_KvWarmupSec o;
     sv_KvEngineType := lb_KvEngineType o; sv_KvDpRankCount := lb_KvDpRankCount o;
     sv_TimeoutMemberConnect := sv_TimeoutMemberConnect s;
     sv_TimeoutMemberData := sv_TimeoutMemberData s;
     sv_TimeoutTcpInspect := sv_TimeoutTcpInspect s; sv_AlpnProtocols := sv_AlpnProtocols s;
     sv_TLSCiphers := sv_TLSCiphers s; sv_TLSVersions := sv_TLSVersions s;
     sv_HstsMaxAge := lb_HstsMaxAge o; sv_HstsIncludeSubdomains := lb_HstsIncludeSubdomains o;
     sv_HstsPreload := lb_HstsPreload o;
     sv_MtlsFrontend := if lbMtlsFrontendRequested o then
           Some {| mf_ClientCertMode := lb_MtlsClientCertMode o;
                   mf_ClientCAPath := lb_MtlsClientCAPath o; mf_ClientCACertData := "";
                   mf_RequireClientCN := lb_MtlsRequireClientCN o;
                   mf_ClientCNPattern := lb_MtlsClientCNPattern o;
                   mf_ClientCRLPath := lb_MtlsClientCRLPath o |}
         else sv_MtlsFrontend s;
     sv_MtlsBackend := if given (lb_BackendCaCertId o) then
           Some {| mb_VerifyServerCert := true; mb_BackendCAPath := ""; mb_ClientCertPath := "";
                   mb_ClientKeyPath := ""; mb_ClientCertData := ""; mb_ClientKeyData := "" |}
         else sv_MtlsBackend s;
     sv_BackendCaCertId := lb_BackendCaCertId o;
     sv_BackendClientCertId := lb_BackendClientCertId o;
     sv_BackendTLSServerName := lb_BackendTLSServerName o;
     sv_BackendTLSEffective := sv_BackendTLSEffective s |}.

Definition lb_service (o : CreateLoadBalancerOptions) (ip proto : string)
    (startSPort endSPort : Z) : LoadBalancerService :=
  {| sv_ExternalIP := ip; sv_Port := U16 startSPort; sv_PortMax := U16 endSPort;
     sv_Protocol := proto; sv_Sel := U64 (SelectToNum (lb_Select o));
     sv_Mode := I32 (ModeToNum (lb_Mode o)); sv_BGP := lb_BGP o; sv_Monitor := lb_Monitor o;
     sv_Timeout := lb_Timeout o; sv_Block := lb_Mark o; sv_Managed := false;
     sv_Name := lb_Name o; sv_Snat := false;
     sv_Oper := I32 (if lb_Attach o then 1 else if lb_Detach o then 2 else 0);
     sv_Security := I32 (SecStringToNum (lb_Security o)); sv_Host := lb_Host o;
     sv_PpV2 := lb_PPv2En o; sv_Egress := lb_Egress o; sv_ConnectionLimit := U32 0;
     sv_FcMaxQueueDepth := None; sv_FcMaxQueueWaitMs := None; sv_FcMode := "";
     sv_FcMaxOutstanding := None; sv_FcEpMaxInflight := None; sv_FcPrefillMaxInflight := None;
     sv_FcDecodeMaxInflight := None; sv_FcTelemetryStaleMs := None; sv_FcAdaptive := "";
     sv_FcWarmupMs := None; sv_FcTtftTargetMs := None; sv_FcTenantMaxSharePct := None;
     sv_FcExposeHeaders := ""; sv_FcWakePolicy := ""; sv_FcBandWeights := None;
     sv_FcBandMinSharePct := None; sv_FcCriticalReservePct := None; sv_FcBandWaitMs := None;
     sv_FcBandQueuePct := None; sv_FcShedQueue := ""; sv_FcTenantWake := "";
     sv_FcLlmdHeaders := ""; sv_AiDefaultReservation := ""; sv_AiDefaultMaxTokens := None;
     sv_AiObjectiveStrict := None; sv_FcEffective := None; sv_ProbeType := "";
     sv_ProbePort := U16 0; sv_ProbeReq := ""; sv_ProbeResp := ""; sv_ProbeTimeout := U32 0;
     sv_ProbeRetries := 0; sv_ModelName := ""; sv_PathPrefix := ""; sv_PathMatchMode := "";
     sv_SessionHdrName := ""; sv_TraceType := ""; sv_BackendProtocol := "";
     sv_SockMapMode := ""; sv_SseMode := false; sv_JWTAuthProfile := ""; sv_APIKeyAuth := "";
     sv_MaxStreamDurationSec := I32 0; sv_BackendKeepaliveSec := I32 0; sv_CbEnable := false;
     sv_EppEndpoint := ""; sv_EppFailureMode := ""; sv_EppTimeoutMs := 0;
     sv_EppPlaintext := false; sv_ChwblPrefixHashLevel := 0; sv_ChwblPrefixHashFlags := 0;
     sv_ChwblMeanLoadFactor := 0; sv_ChwblReplication := 0; sv_ChwblEnableCacheSalt := false;
     sv_PdDisaggMode := false; sv_PdCacheAwareMode := false; sv_PdSessionTtlSec := I32 0;
     sv_PdCacheThreshold := I32 0; sv_PdBalanceAbsThreshold := I32 0;
     sv_PdBootstrapPort := I32 0; sv_PdPrefillTimeoutSec := I32 0; sv_KvExactMode := 0;
     sv_KvBlockSize := 0; sv_KvHashAlgo := ""; sv_KvZmqPort := 0; sv_KvWarmupSec := 0;
     sv_KvEngineType := ""; sv_KvDpRankCount := I32 0; sv_TimeoutMemberConnect := U32 0;
     sv_TimeoutMemberData := U32 0; sv_TimeoutTcpInspect := U32 0; sv_AlpnProtocols := [];
     sv_TLSCiphers := ""; sv_TLSVersions := []; sv_HstsMaxAge := U32 0;
     sv_HstsIncludeSubdomains := false; sv_HstsPreload := false; sv_MtlsFrontend := None;
     sv_MtlsBackend := None; sv_BackendCaCertId := ""; sv_BackendClientCertId := "";
     sv_BackendTLSServerName := ""; sv_BackendTLSEffective := None |}.

(* ------------------------------------------------------------------ *)
(** ** The rule of a protocol                                          *)
(* ------------------------------------------------------------------ *)

(** The smallest port, and the other one if there are two: the ports of a
    map come in any order. *)
Fixpoint port_bounds (first : bool) (startSPort endSPort : Z) (ports : list Z) : Z * Z :=
  match ports with
  | [] => (startSPort, endSPort)
  | sPort :: ports' =>
      if first then port_bounds false sPort endSPort ports'
      else if (startSPort <? sPort)%Z then port_bounds false startSPort sPort ports'
      else port_bounds false sPort startSPort ports'
  end.

Definition ports_in_order `{GoLib} (m : gmap Z (list Z)) : list Z :=
  snd <$> range_order ((fun p => (itoa p.1, p.1)) <$> map_to_list m).

Definition lb_endpoint (o : CreateLoadBalancerOptions) (startSPort : Z)
    (e : EndpointSpec * Z * Z) (targetPort : Z) : result goerror LoadBalancerEndpoint :=
  let '(spec, role, nixl) := e in
  if streq (lb_Mode o) "dsr" && negb (targetPort =? startSPort)%Z
  then Err (invalid "No port-translation in dsr mode")
  else Ok {| ep_EndpointIP := es_IP spec; ep_TargetPort := U16 targetPort;
             ep_Weight := es_Weight spec; ep_State := ""; ep_Counter := "";
             ep_EpRole := I32 role; ep_NixlPort := I32 nixl |}.

(** Every endpoint with every target port, in the order of the flags. *)
Definition lb_endpoints (o : CreateLoadBalancerOptions) (startSPort : Z)
    (endpoints : list (EndpointSpec * Z * Z)) (targetPorts : list Z)
    : result goerror (list LoadBalancerEndpoint) :=
  map_each (fun p => lb_endpoint o startSPort p.1 p.2)
    (e ← endpoints; targetPort ← targetPorts; mret (e, targetPort)).

(** The rule for the ports of one protocol. *)
Definition lb_model `{GoLib} (o : CreateLoadBalancerOptions) (ip : string)
    (endpoints : list (EndpointSpec * Z * Z)) (proto : string) (ports : gmap Z (list Z))
    : result goerror LoadBalancerModel :=
  reject ((size ports =? 0)%nat || (2 <? size ports)%nat)
    with_ invalid "portPair: None specified";;
  let '(startSPort, endSPort) := port_bounds true 0 0 (ports_in_order ports) in
  eps ← lb_endpoints o startSPort endpoints (default [] (ports !! startSPort));
  Ok {| lm_Service := applyAIServiceOptions (lb_service o ip proto startSPort endSPort) o;
        lm_SecondaryIPs := append_all None ((fun s => {| si_SecondaryIP := s |}) <$> lb_SecIPs o);
        lm_SrcIPs := append_all None ((fun s => {| al_Prefix := s |}) <$> lb_AllowedSources o);
        lm_Endpoints := append_all None eps |}.

Definition lb_rule `{GoLib} (o : CreateLoadBalancerOptions) (ip : string)
    (endpoints : list (EndpointSpec * Z * Z)) (p : string * list string)
    : option (result goerror LoadBalancerModel) :=
  match GetPortPairList p.2 with
  | None => None
  | Some (Err e) => Some (Err (invalid e))
  | Some (Ok ports) => Some (lb_model o ip endpoints p.1 ports)
  end.

(* ------------------------------------------------------------------ *)
(** ** The command                                                     *)
(* ------------------------------------------------------------------ *)

Definition LoadbalancerAPICall `{GoLib} (restOptions : RESTOptions) (lbModel : LoadBalancerModel)
    : IO http_result :=
  client ← NewLoxiClient restOptions;
  Create (Client.LoadBalancer client) (load_balancer_model_json lbModel).

(** Sends one rule. *)
Definition send_rule `{GoLib} (restOptions : RESTOptions) (m : LoadBalancerModel)
    : IO (option goerror) :=
  r ← LoadbalancerAPICall restOptions m;
  match (r : http_result) with
  | Err e => mret (Some (ECLI (Unavailablef ("create lb: " +:+ e))))
  | Ok resp =>
      if negb (hr_status resp =? 200)%Z
      then mret (Some (ECLI (refused_answer "create lb" (hr_status resp) (hr_body resp))))
      else _ ← PrintCreateResult resp restOptions; mret None
  end.

(** One protocol after the other: each rule is built when the one before it
    was sent. *)
Fixpoint create_rules `{GoLib} (restOptions : RESTOptions)
    (rule : string * list string -> option (result goerror LoadBalancerModel))
    (l : list (string * list string)) : IO outcome :=
  match l with
  | [] => mret (Returns None)
  | p :: l' =>
      match rule p with
      | None => mret NeverReturns
      | Some (Err e) => mret (Returns (Some e))
      | Some (Ok m) =>
          e ← send_rule restOptions m;
          match (e : option goerror) with
          | Some e => mret (Returns (Some e))
          | None => create_rules restOptions rule l'
          end
      end
  end.

(** The map of the protocols asked for. *)
Definition ProtoPortpair (o : CreateLoadBalancerOptions) : list (string * list string) :=
  (if any (lb_TCP o) then [("tcp", lb_TCP o)] else [])
  ++ (if any (lb_UDP o) then [("udp", lb_UDP o)] else [])
  ++ (if any (lb_SCTP o) then [("sctp", lb_SCTP o)] else [])
  ++ (if lb_ICMP o then [("icmp", ["0:0"])] else []).

(** The endpoints of the flags with their roles and ports. *)
Definition endpoint_list (o : CreateLoadBalancerOptions)
    : result string (list (EndpointSpec * Z * Z)) :=
  endpointList ← GetEndpointList (lb_Endpoints o);
  epRoles ← parseEndpointRoles (lb_EpRoles o) (length endpointList);
  nixlPorts ← alignNixlPorts (lb_NixlPorts o) (length endpointList);
  Ok (zip (zip endpointList epRoles) nixlPorts).

Definition requireLBFeatures `{GoLib} (restOptions : RESTOptions) (o : CreateLoadBalancerOptions)
    : Gate (option goerror) :=
  gates restOptions
    ((if lbBandsRequested o then [(false, Bands, "create lb")] else [])
     ++ (if given (lb_AiDefaultReservation o) || lb_AiDefaultMaxTokensSet o
         then [(false, Reservation, "create lb")] else [])
     ++ (if lb_AiObjectiveStrictSet o then [(false, Objectives, "create lb")] else [])
     ++ (if given (lb_EppEndpoint o) then [(true, EPP, "create lb")] else [])).

(** [ReadCreateLoadBalancerOptions]: the address, and what is said of further
    arguments. *)
Definition ReadCreateLoadBalancerOptions (args : list string) : IO (result string string) :=
  match args with
  | [] => mret (Err "create lb need EXTERNAL-IP args")
  | ip :: rest =>
      _ ← (if any rest then
             _ ← write_out ("create lb command get so many args" +:+ nl);
             write_out (sprintf ["["; join " " args; "]"; nl])
           else mret None);
      mret (if is_ip ip then Ok ip
            else Err (sprintf ["externel IP '"; ip; "' is invalid format"]))
  end.

(** The [RunE] of the command; [o] holds the parsed flags. *)
Definition create_lb `{GoLib} (restOptions : RESTOptions) (o : CreateLoadBalancerOptions)
    (args : list string) : IO outcome :=
  if negb (any args) then mret (Returns (Some (ECLI (Usagef "create lb needs its arguments"))))
  else
    ip ← ReadCreateLoadBalancerOptions args;
    match (ip : result string string) with
    | Err e => failed_with e
    | Ok ip =>
        match validateLBAIOptions o with
        | Err e => failed_with e
        | Ok _ =>
            gate ← requireLBFeatures restOptions o ∅;
            match (gate : option goerror * version_cache).1 with
            | Some e => mret (Returns (Some e))
            | None =>
                if negb (any (lb_SCTP o)) && any (lb_SecIPs o)
                then failed_with "Secondary IPs allowed in SCTP only"
                else
                  match endpoint_list o with
                  | Err e => failed_with e
                  | Ok endpoints =>
                      create_rules restOptions (lb_rule o ip endpoints)
                        (range_order (ProtoPortpair o))
                  end
            end
        end
    end.
