(* ===== verification/LbPorts.v ===== *)
(** * The ports and endpoints of load balancer rules

    What [GetPortPairList] and [GetEndpointList] make of the flags: when the
    loops end, what they yield, and where numbers wrap. *)
From S2P Require Import Prelude GoStrings Json Fields World Errors Exitcode.
From S2P Require Import BandTriple LbModel LbOptions LbCreate.

(* ------------------------------------------------------------------ *)
(** ** The loop over target ports                                      *)
(* ------------------------------------------------------------------ *)

Lemma atoi_int64 s z : atoi s = Some z -> (min_int64 <= z <= max_int64)%Z.
Proof.
  unfold atoi. intros (n & _ & H)%bind_Some. destruct (fits_int64 n) eqn:Hf; [|done].
  injection H as <-. unfold fits_int64 in Hf. apply andb_true_iff in Hf. lia.
Qed.

Lemma port_loop_ends n : forall t last,
  (Z.of_nat n = last - t + 2)%Z -> (0 <= Z.of_nat n)%Z -> (last < max_int64)%Z ->
  (t <= last + 1)%Z -> port_loop n t last = Some (to_uint16 <$> seqZ t (last - t + 1)).
Proof.
  induction n as [|n IH]; intros t last Hn _ Hlast Ht; [lia|]. cbn [port_loop].
  destruct (Z.leb_spec t last) as [Hle|Hgt].
  - unfold int_succ. destruct (Z.eqb_spec t max_int64) as [->|_]; [lia|].
    rewrite IH by lia. rewrite (seqZ_cons t (last - t + 1)) by lia.
    by replace (last - (t + 1) + 1)%Z with (Z.pred (last - t + 1)) by lia.
  - by rewrite seqZ_nil by lia.
Qed.

Lemma target_ports_ends start last :
  (start <= last < max_int64)%Z ->
  target_ports start last = Some (to_uint16 <$> seqZ start (last - start + 1)).
Proof. intros H. unfold target_ports. apply port_loop_ends; lia. Qed.

Lemma port_loop_max fuel : forall t, (t <= max_int64)%Z -> port_loop fuel t max_int64 = None.
Proof.
  induction fuel as [|fuel IH]; intros t Ht; [done|]. cbn [port_loop].
  destruct (Z.leb_spec t max_int64); [|lia]. unfold int_succ.
  destruct (Z.eqb_spec t max_int64) as [->|Hne]; rewrite IH; try done; unfold min_int64, max_int64 in *; lia.
Qed.

(** C24: the loop over a range of target ports ends exactly when the range does
    not end at the largest [int].  When it ends it yields every port of the
    range once, in order, each cut to 16 bits; a range that ends at the
    largest [int] is never left, with whatever fuel. *)
Theorem target_ports_terminate start last :
  (start <= last <= max_int64)%Z ->
  ((exists fuel, port_loop fuel start last <> None) <-> last <> max_int64)
  /\ (last <> max_int64 ->
      target_ports start last = Some (to_uint16 <$> seqZ start (last - start + 1))).
Proof.
  intros [Hs Hl]. destruct (decide (last = max_int64)) as [->|Hne].
  - split; [|done]. split; [|done]. intros [fuel Hf]. by rewrite port_loop_max in Hf.
  - assert (Ht := target_ports_ends start last ltac:(lia)). split; [|done]. split; [done|].
    intros _. eexists. unfold target_ports in Ht. by rewrite Ht.
Qed.

Lemma target_ports_terminate_witness :
  target_ports 5201 5204 = Some [5201; 5202; 5203; 5204]%Z
  /\ target_ports max_int64 max_int64 = None
  /\ target_ports 65535 65536 = Some [65535; 0]%Z
  /\ ((exists fuel, port_loop fuel 5201 5204 <> None) <-> 5204%Z <> max_int64).
Proof.
  split; [reflexivity|]. split; [reflexivity|]. split; [reflexivity|].
  apply (target_ports_terminate 5201 5204). vm_compute. split; discriminate.
Defined.

(* ------------------------------------------------------------------ *)
(** ** The table of ports                                              *)
(* ------------------------------------------------------------------ *)

(** An entry [ports:targets] and its numbers. *)
Definition reads_as (entry : string) (ports : list Z) (first last : Z) : Prop :=
  exists ports_text targets_text,
    split ":"%char entry = [ports_text; targets_text]
    /\ Forall2 (fun s z => atoi s = Some z) (split "-"%char ports_text) ports
    /\ ((split "-"%char targets_text = [targets_text] /\ first = last /\ atoi targets_text = Some first)
        \/ exists a b, split "-"%char targets_text = [a; b] /\ atoi a = Some first
                       /\ atoi b = Some last /\ (first <= last)%Z).

(** The row of a port: the range of some entry that names the port. *)
Definition row_of (l : list string) (port : Z) (targets : list Z) : Prop :=
  exists entry ports p first last,
    entry ∈ l /\ reads_as entry ports first last /\ p ∈ ports /\ port = to_uint16 p
    /\ targets = to_uint16 <$> seqZ first (last - first + 1).

Lemma split_one sep s w : split sep s = [w] -> w = s.
Proof.
  revert w. induction s as [|a s IH]; intros w; cbn [split]; [naive_solver|].
  destruct (Ascii.eqb_spec a sep) as [->|_].
  - pose proof (split_nonempty sep s). by destruct (split sep s).
  - destruct (split sep s) as [|x xs] eqn:Hs; [by apply split_nonempty in Hs|].
    intros [= <- ->]. by rewrite (IH x).
Qed.

Lemma target_range_some s first last :
  target_range s = Ok (Some (first, last)) ->
  (first <= last)%Z /\
  ((split "-"%char s = [s] /\ first = last /\ atoi s = Some first)
   \/ exists a b, split "-"%char s = [a; b] /\ atoi a = Some first
                  /\ atoi b = Some last /\ (first <= last)%Z).
Proof.
  unfold target_range. destruct (split "-"%char s) as [|a [|b [|]]] eqn:Hs; try done.
  - destruct (atoi a) as [x|] eqn:Ha; [|done]. intros [= <- <-]. split; [lia|]. left.
    by rewrite (split_one _ _ _ Hs) in Ha |- *.
  - destruct (atoi a) as [x|] eqn:Ha; [|done]. destruct (atoi b) as [y|] eqn:Hb; [|done].
    destruct (Z.ltb_spec y x); [done|]. intros [= <- <-]. split; [lia|]. right. by exists a, b.
Qed.

Lemma service_ports_some l ports :
  map_each service_port l = Ok ports -> Forall2 (fun s z => atoi s = Some z) l ports.
Proof.
  rewrite map_each_ok. intros H. eapply Forall2_impl; [exact H|].
  intros s z. unfold service_port. by destruct (atoi s); [intros [= ->]|].
Qed.

Lemma insert_ports_lookup targets ports (m : gmap Z (list Z)) k l :
  fold_left (fun m port => <[to_uint16 port := targets]> m) ports m !! k = Some l ->
  (exists p, p ∈ ports /\ k = to_uint16 p /\ l = targets) \/ m !! k = Some l.
Proof.
  revert m. induction ports as [|p ports IH]; intros m; simpl; [by right|].
  intros [(q & Hq & -> & ->)|H]%IH; [left; exists q; set_solver|].
  destruct (decide (k = to_uint16 p)) as [->|Hk].
  - rewrite lookup_insert_eq in H. injection H as <-. left. exists p. set_solver.
  - rewrite lookup_insert_ne in H by done. by right.
Qed.

Lemma add_pair_rows (m m' : gmap Z (list Z)) entry k targets :
  add_pair m entry = Some (Ok m') -> m' !! k = Some targets ->
  row_of [entry] k targets \/ m !! k = Some targets.
Proof.
  unfold add_pair. intros Hp Hk.
  destruct (split ":"%char entry) as [|ports_text [|targets_text [|]]] eqn:Hs;
    try (injection Hp as ->; by right).
  destruct (map_each service_port _) as [ports|] eqn:Hports; [|done].
  destruct (target_range targets_text) as [[[first last]|]|] eqn:Ht; [|injection Hp as ->; by right|done].
  apply target_range_some in Ht as [Hle Ht]. apply service_ports_some in Hports.
  destruct (decide (last = max_int64)) as [->|Hne].
  { unfold target_ports in Hp. by rewrite port_loop_max in Hp. }
  assert (Hmax : (last <= max_int64)%Z).
  { destruct Ht as [(_ & -> & Ha)|(a & b & _ & _ & Hb & _)]; eapply atoi_int64; eassumption. }
  rewrite target_ports_ends in Hp by lia. injection Hp as <-.
  apply insert_ports_lookup in Hk as [(p & Hin & -> & ->)|Hk]; [left | by right].
  exists entry, ports, p, first, last. split_and!; [set_solver | | done..].
  by exists ports_text, targets_text.
Qed.

Lemma port_pairs_rows l (m m' : gmap Z (list Z)) k targets :
  port_pairs m l = Some (Ok m') -> m' !! k = Some targets ->
  row_of l k targets \/ m !! k = Some targets.
Proof.
  revert m. induction l as [|entry l IH]; intros m; cbn [port_pairs].
  - intros [= ->]. by right.
  - destruct (add_pair m entry) as [[m1|]|] eqn:Hp; [|done..]. intros Hl Hk.
    destruct (IH m1 Hl Hk) as [Hrow|Hm1].
    + left. destruct Hrow as (e & ps & p & f & g & He & Hrest). exists e, ps, p, f, g. set_solver.
    + destruct (add_pair_rows m m1 entry k targets Hp Hm1) as [Hrow|]; [left | by right].
      destruct Hrow as (e & ps & p & f & g & He & Hrest). exists e, ps, p, f, g. set_solver.
Qed.

Lemma to_uint16_range x : (0 <= to_uint16 x < 65536)%Z.
Proof. apply (wrap_range 16). lia. Qed.

Lemma to_uint16_small x : (0 <= x < 65536)%Z -> to_uint16 x = x.
Proof. apply (wrap_small 16). Qed.

(** An entry whose numbers are port numbers, and the row it gives then. *)
Definition within_ports (entry : string) : Prop :=
  forall ports first last, reads_as entry ports first last ->
    Forall (fun p => (0 <= p < 65536)%Z) ports /\ (0 <= first)%Z /\ (last < 65536)%Z.

Definition exact_row_of (l : list string) (port : Z) (targets : list Z) : Prop :=
  exists entry ports first last,
    entry ∈ l /\ reads_as entry ports first last /\ port ∈ ports
    /\ targets = seqZ first (last - first + 1).

(** The table of ports of a rule.  Every row is that of an entry of the
    flag that names its port, with the whole target range of the entry; the
    numbers are cut to 16 bits, so what is sent are port numbers, and they are
    the numbers of the flag when those were port numbers. *)
Theorem port_table_rows l m k targets :
  GetPortPairList l = Some (Ok m) -> m !! k = Some targets ->
  row_of l k targets /\ (0 <= k < 65536)%Z /\ Forall (fun t => (0 <= t < 65536)%Z) targets
  /\ (Forall within_ports l -> exact_row_of l k targets).
Proof.
  intros Hl Hk. destruct (port_pairs_rows l ∅ m k targets Hl Hk) as [Hrow|Hm];
    [|by rewrite lookup_empty in Hm].
  split; [done|]. destruct Hrow as (e & ps & p & f & g & He & Hr & Hp & -> & ->).
  split; [apply to_uint16_range|]. split.
  { apply Forall_fmap, Forall_true. intros x. apply to_uint16_range. }
  intros Hall. rewrite Forall_forall in Hall. destruct (Hall e He ps f g Hr) as (Hps & Hf & Hg).
  exists e, ps, f, g. rewrite Forall_forall in Hps. rewrite (to_uint16_small p) by auto.
  split_and!; [done..|]. apply list_eq_Forall2, Forall2_fmap_l, Forall_Forall2_diag, Forall_forall.
  intros x [Hx1 Hx2]%elem_of_seqZ. apply to_uint16_small. lia.
Qed.

Lemma port_table_rows_witness :
  row_of ["65616:80-81"] 80 [80; 81]%Z /\ (0 <= 80 < 65536)%Z.
Proof.
  destruct (port_table_rows ["65616:80-81"] {[80%Z := [80; 81]%Z]} 80 [80; 81]%Z) as (Hrow & Hk & _);
    [vm_compute; reflexivity | vm_compute; reflexivity | by split].
Defined.
