(* ===== verification/LbProps.v ===== *)
(** * What [create lb] sends

    The requests of a run of the command: which rules, in which order, and
    what a success and a failure say of them. *)
From S2P Require Import Prelude GoStrings GoNet Json JsonPrint Fields World Errors Exitcode.
From S2P Require Import Rest Requests FeatureGate Commands Plans BandTriple LbModel LbOptions LbCreate.

(* ------------------------------------------------------------------ *)
(** ** The encoding of a rule is a document                            *)
(* ------------------------------------------------------------------ *)

Lemma triple_ok_json b : raw_ok (triple_json b) = true.
Proof. reflexivity. Qed.

Lemma effective_ok r : raw_ok (fc_effective_json r) = true.
Proof. unfold fc_effective_json. raw_members. unfold fc_effective_source_json. raw_members. Qed.

Lemma backend_tls_ok r : raw_ok (backend_tls_effective_json r) = true.
Proof. unfold backend_tls_effective_json. raw_members. Qed.
Lemma mtls_frontend_ok r : raw_ok (mtls_frontend_json r) = true.
Proof. unfold mtls_frontend_json. raw_members. Qed.
Lemma mtls_backend_ok r : raw_ok (mtls_backend_json r) = true.
Proof. unfold mtls_backend_json. raw_members. Qed.

Lemma service_ok r : raw_ok (load_balancer_service_json r) = true.
Proof.
  unfold load_balancer_service_json. raw_members;
    [apply effective_ok | apply mtls_frontend_ok | apply mtls_backend_ok | apply backend_tls_ok].
Qed.

Lemma endpoint_ok r : raw_ok (load_balancer_endpoint_json r) = true.
Proof. unfold load_balancer_endpoint_json. raw_members. Qed.

Lemma model_ok r : raw_ok (load_balancer_model_json r) = true.
Proof.
  unfold load_balancer_model_json. cbn [raw_ok forallb snd]. rewrite service_ok, !slice_ok; try done.
  apply endpoint_ok.
Qed.

(** The body of a rule. *)
Definition rule_body (m : LoadBalancerModel) : string := encode (load_balancer_model_json m).

Lemma model_marshal m : marshal (load_balancer_model_json m) = Some (rule_body m).
Proof. unfold marshal. by rewrite model_ok. Qed.

(* ------------------------------------------------------------------ *)
(** ** The rule of a table of ports                                    *)
(* ------------------------------------------------------------------ *)

(** A map is visited key by key, each once. *)
Lemma ports_in_order_perm `{GoLib} (m : gmap Z (list Z)) : ports_in_order m ≡ₚ (map_to_list m).*1.
Proof.
  unfold ports_in_order. rewrite range_perm, <- list_fmap_compose. apply reflexivity.
Qed.

Lemma ports_in_order_keys `{GoLib} (m : gmap Z (list Z)) k :
  k ∈ ports_in_order m <-> is_Some (m !! k).
Proof.
  rewrite ports_in_order_perm, list_elem_of_fmap. split.
  - intros ([k' l] & -> & Hin). apply elem_of_map_to_list in Hin. by eexists.
  - intros [l Hl]. exists (k, l). split; [done|]. by apply elem_of_map_to_list.
Qed.

Lemma ports_in_order_length `{GoLib} (m : gmap Z (list Z)) : length (ports_in_order m) = size m.
Proof. rewrite ports_in_order_perm, length_fmap. apply length_map_to_list. Qed.

Lemma ports_in_order_nodup `{GoLib} (m : gmap Z (list Z)) : NoDup (ports_in_order m).
Proof. rewrite ports_in_order_perm. apply NoDup_fst_map_to_list. Qed.

(** The lowest port, and the other one or 0. *)
Lemma port_bounds_spec l :
  NoDup l -> l <> [] -> (length l <= 2)%nat ->
  let '(low, high) := port_bounds true 0 0 l in
  low ∈ l /\ (forall p, p ∈ l -> (low <= p)%Z)
  /\ (length l = 1%nat -> high = 0%Z)
  /\ (length l = 2%nat -> high ∈ l /\ (low < high)%Z).
Proof.
  intros Hnd Hne Hlen. destruct l as [|a [|b [|]]]; simpl in *; [done| | |lia].
  - split_and!; [set_solver| |done|lia]. intros p ->%list_elem_of_singleton. lia.
  - apply NoDup_cons in Hnd as [Hab _].
    assert (a <> b) by set_solver.
    destruct (Z.ltb_spec a b);
      (split_and!; [set_solver | | done | intros _; split; [set_solver | lia]]);
      intros p [->| ->%list_elem_of_singleton]%elem_of_cons; lia.
Qed.

(** The endpoints of a rule, with every target port each. *)
Definition endpoint_table (endpoints : list (EndpointSpec * Z * Z)) (targets : list Z)
    : list LoadBalancerEndpoint :=
  e ← endpoints; t ← targets;
  mret {| ep_EndpointIP := es_IP e.1.1; ep_TargetPort := U16 t; ep_Weight := es_Weight e.1.1;
          ep_State := ""; ep_Counter := ""; ep_EpRole := I32 e.1.2; ep_NixlPort := I32 e.2 |}.

Lemma lb_endpoint_some o start e t ep :
  lb_endpoint o start e t = Ok ep ->
  ep = {| ep_EndpointIP := es_IP e.1.1; ep_TargetPort := U16 t; ep_Weight := es_Weight e.1.1;
          ep_State := ""; ep_Counter := ""; ep_EpRole := I32 e.1.2; ep_NixlPort := I32 e.2 |}
  /\ (lb_Mode o = "dsr" -> t = start).
Proof.
  destruct e as [[spec role] nixl]. unfold lb_endpoint.
  destruct (streq (lb_Mode o) "dsr") eqn:Hm; simpl.
  - destruct (Z.eqb_spec t start); [|done]. by intros [= <-].
  - apply streq_false in Hm. by intros [= <-].
Qed.

Lemma lb_endpoints_some o start endpoints targets eps :
  lb_endpoints o start endpoints targets = Ok eps ->
  eps = endpoint_table endpoints targets
  /\ (lb_Mode o = "dsr" -> endpoints <> [] -> Forall (eq start) targets).
Proof.
  unfold lb_endpoints. rewrite map_each_ok. intros H. split.
  - assert (Hall : forall l k, Forall2 (fun p ep => lb_endpoint o start p.1 p.2 = Ok ep) l k ->
      k = (fun p : EndpointSpec * Z * Z * Z =>
             {| ep_EndpointIP := es_IP p.1.1.1; ep_TargetPort := U16 p.2;
                ep_Weight := es_Weight p.1.1.1; ep_State := ""; ep_Counter := "";
                ep_EpRole := I32 p.1.1.2; ep_NixlPort := I32 p.1.2 |}) <$> l).
    { induction 1 as [|p ep l k Hp Hl IH]; [done|]. simpl.
      by apply lb_endpoint_some in Hp as [-> _]; rewrite IH. }
    rewrite (Hall _ _ H). unfold endpoint_table. clear. induction endpoints as [|e l IH]; [done|].
    cbn [mbind list_bind]. rewrite fmap_app, IH. f_equal.
    clear. induction targets as [|t ts IH]; [done|]. cbn. by rewrite <- IH.
  - intros Hd Hne. destruct endpoints as [|e l]; [done|]. cbn [mbind list_bind] in H.
    apply Forall2_app_inv_l in H as (k1 & k2 & H & _ & _). revert k1 H. clear -Hd.
    induction targets as [|t ts IH]; intros k1 H; [constructor|]. cbn in H.
    apply Forall2_cons_inv_l in H as (ep & k & Hp & Hk & ->). constructor; [|by eapply IH].
    apply lb_endpoint_some in Hp as [_ Hp]. symmetry. by apply Hp.
Qed.

Lemma slice_of_append {A} (l : list A) : slice_of (append_all None l) = l.
Proof. by destruct l. Qed.

(** Nothing stands in the way of the endpoints. *)
Lemma lb_endpoints_exist o start endpoints targets :
  (lb_Mode o = "dsr" -> endpoints <> [] -> Forall (eq start) targets) ->
  exists eps, lb_endpoints o start endpoints targets = Ok eps.
Proof.
  intros Hd. unfold lb_endpoints.
  set (pairs := e ← endpoints; t ← targets; mret (e, t)).
  assert (Hall : Forall (fun p => exists ep, lb_endpoint o start p.1 p.2 = Ok ep) pairs).
  { apply Forall_forall. intros p (e & Hp & He)%list_elem_of_bind.
    apply list_elem_of_bind in Hp as (t & Hp & Ht). apply list_elem_of_ret in Hp as ->.
    destruct e as [[spec role] nixl]. unfold lb_endpoint. cbn [fst snd].
    destruct (streq (lb_Mode o) "dsr") eqn:Hm; [|by eexists]. apply streq_true in Hm.
    assert (Hs : start = t).
    { assert (Hne : endpoints <> []) by (intros ->; set_solver).
      specialize (Hd Hm Hne). rewrite Forall_forall in Hd. by apply Hd. }
    rewrite Hs, Z.eqb_refl. by eexists. }
  apply Forall_exists_Forall2_l in Hall as [eps Heps]. exists eps. by apply map_each_ok.
Qed.

(** The first port of a table: none is lower. *)
Definition lowest (ports : gmap Z (list Z)) (low : Z) (targets : list Z) : Prop :=
  ports !! low = Some targets /\ forall p, is_Some (ports !! p) -> (low <= p)%Z.

Lemma lowest_unique ports low low' targets targets' :
  lowest ports low targets -> lowest ports low' targets' -> low = low' /\ targets = targets'.
Proof.
  intros [Ht Hm] [Ht' Hm']. assert (low = low') as <-.
  { apply Z.le_antisymm; [apply Hm | apply Hm']; by eexists. }
  split; [done|]. congruence.
Qed.

Lemma port_bounds_lowest `{GoLib} ports :
  (1 <= size ports <= 2)%nat ->
  let '(low, high) := port_bounds true 0 0 (ports_in_order ports) in
  (exists targets, lowest ports low targets)
  /\ (size ports = 1%nat /\ high = 0%Z
      \/ size ports = 2%nat /\ is_Some (ports !! high) /\ (low < high)%Z).
Proof.
  intros [H1 H2]. pose proof (port_bounds_spec (ports_in_order ports)) as Hb.
  destruct (port_bounds true 0 0 (ports_in_order ports)) as [low high].
  rewrite ports_in_order_length in Hb.
  destruct Hb as (Hlow & Hmin & Hone & Htwo); [apply ports_in_order_nodup | | lia |].
  { intros Hnil. rewrite <- ports_in_order_length, Hnil in H1. simpl in H1. lia. }
  apply ports_in_order_keys in Hlow as [targets Ht]. split.
  - exists targets. split; [done|]. intros p Hp. apply Hmin. by apply ports_in_order_keys.
  - destruct (decide (size ports = 1%nat)) as [Hs|Hs]; [left; auto|right].
    destruct Htwo as [Hin Hlt]; [lia|]. apply ports_in_order_keys in Hin. split_and!; [lia|done|done].
Qed.

Lemma lb_model_size `{GoLib} (ports : gmap Z (list Z)) :
  (size ports =? 0)%nat || (2 <? size ports)%nat = false <-> (1 <= size ports <= 2)%nat.
Proof. rewrite orb_false_iff, Nat.eqb_neq, Nat.ltb_ge. lia. Qed.

(** In dsr mode a port is not translated. *)
Definition untranslated (o : CreateLoadBalancerOptions) (endpoints : list (EndpointSpec * Z * Z))
    (ports : gmap Z (list Z)) : Prop :=
  lb_Mode o = "dsr" -> endpoints <> [] ->
  exists low targets, lowest ports low targets /\ Forall (eq low) targets.



(* ------------------------------------------------------------------ *)
(** ** The requests of the command                                     *)
(* ------------------------------------------------------------------ *)

(** A request that creates a rule. *)
Definition rule_post (ro : RESTOptions) (e : http_request * http_result) (m : LoadBalancerModel)
    : Prop :=
  exists c, rc_Options c = ro
    /\ e.1 = build_request c "POST" (GetUrlString (Client.LoadBalancer c)) (Some (rule_body m)).

(** The gateway took it. *)
Definition confirmed (e : http_request * http_result) : Prop :=
  exists resp, e.2 = Ok resp /\ hr_status resp = 200%Z.

Lemma print_result_quiet `{GoLib} resp ro : ops_satisfy output_op (PrintCreateResult resp ro).
Proof. unfold PrintCreateResult, PrintResult, say. repeat first [ops_step | by apply ops_perform]. Qed.

Lemma send_rule_wp `{GoLib} ro m w h :
  wp (send_rule ro m) w h (fun err t =>
    exists e, https t = [e] /\ rule_post ro e m /\ (err = None <-> confirmed e)).
Proof.
  unfold send_rule, LoadbalancerAPICall. apply wp_bind, wp_client. intros c t Hc Ht _.
  unfold Create. rewrite (with_body_run _ _ _ (model_marshal m)).
  unfold POST. apply wp_http. intros r.
  assert (Hreq : forall t', https t' = [] ->
    https ((t ++ [Ev (OpHttp (build_request c "POST" (GetUrlString (Client.LoadBalancer c))
                     (Some (rule_body m)))) r]) ++ t')
    = [(build_request c "POST" (GetUrlString (Client.LoadBalancer c)) (Some (rule_body m)), r)]).
  { intros t' Ht'. by rewrite !https_app, Ht, Ht'. }
  assert (Hpost : forall r, rule_post ro
    (build_request c "POST" (GetUrlString (Client.LoadBalancer c)) (Some (rule_body m)), r) m).
  { intros r'. by exists c. }
  destruct r as [resp|err].
  - destruct (hr_status resp =? 200)%Z eqn:Hs; cbn [negb].
    + apply wp_bind, quiet_wp; [apply output_quiet, print_result_quiet|]. intros _ t' Ht'.
      apply wp_ret. eexists. rewrite app_nil_r, Hreq by done. split_and!; [done..|].
      split; [intros _|done]. exists resp. split; [done|]. by apply Z.eqb_eq.
    + apply wp_ret. eexists. rewrite Hreq by done. split_and!; [done..|].
      split; [done|]. intros (x & [= <-] & Hx). by apply Z.eqb_neq in Hs.
  - apply wp_ret. eexists. rewrite Hreq by done. split_and!; [done..|]. split; [done|]. by intros (x & ? & _).
Qed.

(** What a run of the loop sends: the rules of the first protocols of the
    list, each confirmed before the next. *)
Definition rules_sent (ro : RESTOptions) (l : list (string * list string))
    (rule : string * list string -> option (result goerror LoadBalancerModel)) (out : outcome)
    (sent : list (http_request * http_result)) : Prop :=
  exists ms,
    Forall2 (rule_post ro) sent ms
    /\ rule <$> take (length ms) l = (fun m => Some (Ok m)) <$> ms
    /\ (forall e sent', sent = sent' ++ [e] -> Forall confirmed sent')
    /\ (out = Returns None -> length ms = length l /\ Forall confirmed sent).

Lemma rules_none ro l rule out : l = [] \/ out <> Returns None -> rules_sent ro l rule out [].
Proof.
  intros H. exists []. split_and!; [constructor | done | by intros e [] |].
  intros ->. destruct H as [->|]; [|done]. by split.
Qed.

Lemma create_rules_wp `{GoLib} ro rule l w h :
  wp (create_rules ro rule l) w h (fun out t => rules_sent ro l rule out (https t)).
Proof.
  revert h. induction l as [|p l IH]; intros h; cbn [create_rules].
  - apply wp_ret, rules_none. by left.
  - destruct (rule p) as [[m|e]|] eqn:Hrule; try (apply wp_ret, rules_none; by right).
    apply wp_bind. eapply wp_mono; [apply send_rule_wp|]. intros err t (e & Ht & Hpost & Hconf).
    destruct err as [err|].
    + apply wp_ret. rewrite app_nil_r, Ht. exists [m]. split_and!.
      * by repeat constructor.
      * cbn [length take]. by rewrite !fmap_cons, Hrule.
      * intros e' [|? [|]]; [constructor | done..].
      * done.
    + eapply wp_mono; [apply IH|]. intros out t' (ms & Hms & Hrules & Hpre & Hout).
      apply proj1 in Hconf. specialize (Hconf eq_refl). rewrite https_app, Ht. exists (m :: ms). split_and!.
      * simpl. by constructor.
      * cbn [length take]. by rewrite !fmap_cons, Hrule, Hrules.
      * intros e' [|x sent'] Heq; simpl in Heq; injection Heq as -> Heq; [constructor|].
        constructor; [done|]. by eapply Hpre.
      * intros Hn. destruct (Hout Hn) as [Hlen Hall]. cbn [length]. split; [by rewrite Hlen|]. by constructor.
Qed.

(** The flags and arguments a rule is built from. *)
Definition lb_input (o : CreateLoadBalancerOptions) (args : list string) (ip : string)
    (endpoints : list (EndpointSpec * Z * Z)) : Prop :=
  head args = Some ip /\ is_ip ip = true /\ validateLBAIOptions o = Ok tt
  /\ endpoint_list o = Ok endpoints.

Lemma requireLBFeatures_wp `{GoLib} ro o w h :
  wp (requireLBFeatures ro o ∅) w h (fun _ t => (length (https t) <= 1)%nat /\ Forall is_read (https t)).
Proof.
  unfold requireLBFeatures. rewrite wp_value. intros out t Hrun.
  assert (H1 := gates_requests ro).
  match type of Hrun with gates _ ?l _ _ _ = _ =>
    specialize (H1 l ∅ w h); assert (H2 := gates_read ro l ∅ w h) end.
  unfold wp in H1. rewrite Hrun in H1, H2. simpl in H1, H2. split; [|by apply reads_https].
  destruct (decide _) as [[v Hv]|]; [by rewrite lookup_empty in Hv | done].
Qed.

Lemma read_args_wp args w h (Q : result string string -> trace -> Prop) :
  (forall r t, https t = [] ->
     match r with Ok ip => head args = Some ip /\ is_ip ip = true | Err _ => True end -> Q r t) ->
  wp (ReadCreateLoadBalancerOptions args) w h Q.
Proof.
  intros HQ. destruct args as [|ip rest]; cbn [ReadCreateLoadBalancerOptions]; [apply wp_ret; by apply HQ|].
  apply wp_bind, quiet_wp.
  - destruct (any rest); [|apply ops_ret]. ops_step; by apply ops_perform.
  - intros _ t Ht. apply wp_ret. apply HQ; [by rewrite app_nil_r|].
    by destruct (is_ip ip) eqn:Hip.
Qed.

(** The requests of a run, whatever it ends with. *)
Definition lb_requests `{GoLib} (ro : RESTOptions) (o : CreateLoadBalancerOptions)
    (args : list string) (out : outcome) (t : trace) : Prop :=
  exists reads sent,
    https t = reads ++ sent /\ (length reads <= 1)%nat /\ Forall is_read reads
    /\ (sent = [] /\ out <> Returns None
        \/ exists ip endpoints protos,
             lb_input o args ip endpoints /\ protos ≡ₚ ProtoPortpair o
             /\ rules_sent ro protos (lb_rule o ip endpoints) out sent).

Lemma lb_refused `{GoLib} ro o args e t :
  (length (https t) <= 1)%nat -> Forall is_read (https t) ->
  lb_requests ro o args (Returns (Some e)) t.
Proof. intros Hlen Hr. exists (https t), []. rewrite app_nil_r. split_and!; [done..|]. by left. Qed.

(** C22: what [create lb] sends.  Before the first rule there is at most one
    request, the reading of the version; nothing is sent for arguments that
    were refused.  Then come the rules of the protocols asked for, in some
    order, one request each, every one but the last confirmed by a 200 before
    the next; a success means that every protocol was sent and confirmed. *)
Theorem create_lb_requests `{GoLib} ro o args :
  always (create_lb ro o args) (lb_requests ro o args).
Proof.
  intros w. change (wp (create_lb ro o args) w [] (lb_requests ro o args)).
  assert (Hnone : forall e t, https t = [] -> lb_requests ro o args (Returns (Some e)) t).
  { intros e t Ht. apply lb_refused; rewrite Ht; [simpl; lia | constructor]. }
  unfold create_lb, failed_with, fail_with. apply wp_if; intros Hargs; [by apply wp_ret, Hnone|].
  apply wp_bind, read_args_wp. intros [ip|e] t Ht Hip; [|apply wp_ret; rewrite app_nil_r; by apply Hnone].
  destruct Hip as [Hhead Hip].
  destruct (validateLBAIOptions o) as [[]|e] eqn:Hv; [|apply wp_ret; rewrite app_nil_r; by apply Hnone].
  apply wp_bind. eapply wp_mono; [apply requireLBFeatures_wp|]. intros [gate cache] t1 [Hlen Hreads].
  assert (Hstop : forall e, lb_requests ro o args (Returns (Some e)) (t ++ t1 ++ [])).
  { intros e. apply lb_refused; rewrite !https_app, Ht, app_nil_r; done. }
  simpl. destruct gate as [e|]; [apply wp_ret, Hstop|].
  destruct (negb (any (lb_SCTP o)) && any (lb_SecIPs o)); [apply wp_ret, Hstop|].
  destruct (endpoint_list o) as [endpoints|e] eqn:He; [|apply wp_ret, Hstop].
  eapply wp_mono; [apply create_rules_wp|]. intros out t2 Hsent.
  exists (https t1), (https t2). rewrite !https_app, Ht. split_and!; [done..|]. right.
  exists ip, endpoints, (range_order (ProtoPortpair o)). split; [done|]. split; [apply range_perm | done].
Qed.

(** The rule of a protocol is built when the ones before it are sent, so
    an entry that is refused does not keep an earlier protocol from being
    installed: once the first rule is confirmed, the command ends with the
    error of the second, and nothing takes the first back. *)
Theorem later_protocol_refused `{GoLib} ro rule p q m e l :
  rule p = Some (Ok m) -> rule q = Some (Err e) ->
  always (create_rules ro rule (p :: q :: l)) (fun out t =>
    exists sent, https t = [sent] /\ rule_post ro sent m
    /\ (confirmed sent -> out = Returns (Some e))).
Proof.
  intros Hp Hq w.
  change (wp (create_rules ro rule (p :: q :: l)) w [] (fun out t =>
    exists sent, https t = [sent] /\ rule_post ro sent m /\ (confirmed sent -> out = Returns (Some e)))).
  cbn [create_rules]. rewrite Hp, Hq. apply wp_bind.
  eapply wp_mono; [apply send_rule_wp|]. intros err t (sent & Ht & Hpost & Hconf).
  destruct err as [err|]; apply wp_ret; exists sent; rewrite app_nil_r; split_and!; try done.
  intros Hc. by apply Hconf in Hc.
Qed.

(** [create lb 10.0.0.1 --tcp=80:8080 --udp=53:dns] *)
Lemma later_protocol_refused_witness :
  let rule := lb_rule (H := plain_text) no_options "10.0.0.1" [] in
  exists m e,
    er_status (exit_point (Some e)) = 2%Z
    /\ always (create_rules (H := plain_text) local_options rule
                [("tcp", ["80:8080"]); ("udp", ["53:dns"])]) (fun out t =>
         exists sent, https t = [sent] /\ rule_post local_options sent m
         /\ (confirmed sent -> out = Returns (Some e))).
Proof.
  intros rule. destruct (rule ("tcp", ["80:8080"])) as [[m|]|] eqn:Hm; [|discriminate Hm..].
  destruct (rule ("udp", ["53:dns"])) as [[|e]|] eqn:He; [discriminate He| |discriminate He].
  exists m, e. split; [injection He as <-; vm_compute; reflexivity|].
  apply (later_protocol_refused (H := plain_text) local_options rule _ _ m e []); assumption.
Defined.
