(* ===== verification/LbWire.v ===== *)
(** * Load balancer flags: what is accepted and what goes on the wire *)
From S2P Require Import Prelude GoStrings GoNet Json JsonPrint Fields World Errors Exitcode.
From S2P Require Import BandTriple LbModel LbOptions LbCreate LbProps.

(* ------------------------------------------------------------------ *)
(** ** The members of the service                                      *)
(* ------------------------------------------------------------------ *)

Definition members (v : gojson) : list (string * gojson) :=
  match v with GObj ms => ms | _ => [] end.

(** The members of an object in pieces, one for each key it may have. *)
Notation piece := (string * list (string * gojson))%type.

Fixpoint cat (ps : list piece) : list (string * gojson) :=
  match ps with
  | [] => []
  | [p] => p.2
  | p :: ps' => p.2 ++ cat ps'
  end.

Ltac pieces_of t :=
  lazymatch t with
  | ?a ++ ?b => let p := pieces_of a in let q := pieces_of b in constr:(p ++ q)
  | (?k, ?v) :: ?l => let q := pieces_of l in constr:((k, [(k, v)]) :: q)
  | [] => constr:(@nil piece)
  | omit_str ?k ?s => constr:([(k, omit_str k s)])
  | omit_int ?k ?z => constr:([(k, omit_int k z)])
  | omit_bool ?k ?b => constr:([(k, omit_bool k b)])
  | omit_nil ?k ?f ?o => constr:([(k, omit_nil k f o)])
  | omit_list ?k ?f ?l => constr:([(k, omit_list k f l)])
  end.

Definition service_pieces (r : LoadBalancerService) : list piece :=
  ltac:(let t := eval cbv delta [load_balancer_service_json] beta in (load_balancer_service_json r) in
        lazymatch t with
        | GObj ?ms => let ps := pieces_of ms in let ps := eval cbn [app] in ps in exact ps
        end).

Lemma service_members r : members (load_balancer_service_json r) = cat (service_pieces r).
Proof. reflexivity. Qed.

(** A piece holds at most its own key. *)
Definition own_key (p : piece) : Prop := forall k v, (k, v) ∈ p.2 -> k = p.1.

Lemma own_one k v : own_key (k, [(k, v)]).
Proof. intros k' v' [= -> ->]%list_elem_of_singleton. done. Qed.
Lemma own_str k s : own_key (k, omit_str k s).
Proof. unfold omit_str. destruct (is_empty s); [by intros ?? ?%elem_of_nil | apply own_one]. Qed.
Lemma own_int k z : own_key (k, omit_int k z).
Proof. unfold omit_int. destruct (z =? 0)%Z; [by intros ?? ?%elem_of_nil | apply own_one]. Qed.
Lemma own_bool k b : own_key (k, omit_bool k b).
Proof. destruct b; [apply own_one | by intros ?? ?%elem_of_nil]. Qed.
Lemma own_nil {A} k (f : A -> gojson) o : own_key (k, omit_nil k f o).
Proof. destruct o; [apply own_one | by intros ?? ?%elem_of_nil]. Qed.
Lemma own_list {A} k (f : A -> gojson) l : own_key (k, omit_list k f l).
Proof. destruct l; [by intros ?? ?%elem_of_nil | apply own_one]. Qed.

Create HintDb wire discriminated.
#[export] Hint Resolve own_one own_str own_int own_bool own_nil own_list : wire.

Lemma service_own_keys r : Forall own_key (service_pieces r).
Proof. unfold service_pieces. repeat apply Forall_cons_2; [..|apply Forall_nil_2]; auto with wire. Qed.

Lemma service_keys_distinct r : NoDup ((service_pieces r).*1).
Proof. apply (bool_decide_eq_true_1 _). vm_compute. reflexivity. Qed.

Lemma assoc_own p k : own_key p -> k <> p.1 -> assoc p.2 k = None.
Proof.
  intros Hp Hk. destruct (assoc p.2 k) as [v|] eqn:Ha; [|done]. apply assoc_in, Hp in Ha. done.
Qed.

Lemma assoc_app {A} (a b : list (string * A)) k :
  assoc (a ++ b) k = match assoc a k with Some v => Some v | None => assoc b k end.
Proof. unfold assoc. induction a as [|x a IH]; [done|]. simpl. by destruct (streq x.1 k). Qed.

Lemma cat_cons p ps : cat (p :: ps) = p.2 ++ cat ps.
Proof. destruct ps; [simpl; by rewrite app_nil_r | done]. Qed.

Lemma assoc_absent ps k : Forall own_key ps -> k ∉ ps.*1 -> assoc (cat ps) k = None.
Proof.
  induction ps as [|p ps IH]; [done|]. intros [Hp Hps]%Forall_cons. rewrite fmap_cons, not_elem_of_cons.
  intros [Hk Hin]. rewrite cat_cons, assoc_app, (assoc_own p) by done. by apply IH.
Qed.

(** A key is looked up in its own piece. *)
Lemma assoc_piece ps i p :
  Forall own_key ps -> NoDup (ps.*1) -> ps !! i = Some p -> assoc (cat ps) p.1 = assoc p.2 p.1.
Proof.
  revert i. induction ps as [|q ps IH]; intros i; [done|].
  intros [Hq Hps]%Forall_cons. rewrite fmap_cons, NoDup_cons. intros [Hnin Hnd] Hi.
  rewrite cat_cons, assoc_app. destruct i as [|i]; simpl in Hi.
  - injection Hi as ->. destruct (assoc p.2 p.1); [done|]. by apply assoc_absent.
  - rewrite (assoc_own q); [by apply (IH i)|done|]. intros Heq. apply Hnin. rewrite <- Heq.
    apply list_elem_of_fmap. exists p. split; [done|]. by eapply list_elem_of_lookup_2.
Qed.

Lemma assoc_one {A} k (v : A) : assoc [(k, v)] k = Some v.
Proof. unfold assoc. simpl. by rewrite streq_refl. Qed.
Lemma assoc_str k s : assoc (omit_str k s) k = if given s then Some (GStr s) else None.
Proof. unfold omit_str. destruct (is_empty s); [done|apply assoc_one]. Qed.
Lemma assoc_nil_member {A} k (f : A -> gojson) o : assoc (omit_nil k f o) k = f <$> o.
Proof. destruct o; [apply assoc_one|done]. Qed.

Lemma service_member r i k p :
  service_pieces r !! i = Some (k, p) ->
  assoc (members (load_balancer_service_json r)) k = assoc p k.
Proof.
  intros Hi. rewrite service_members.
  exact (assoc_piece _ i (k, p) (service_own_keys r) (service_keys_distinct r) Hi).
Qed.

(** The members of a service that depend on a flag being given, each with the
    value it has then. *)
Definition number_knob (k : string) (v : uint32) (given : bool) : string * option gojson :=
  (k, if given || nonzero (u32 v) then Some (GInt (u32 v)) else None).
Definition word_knob (k : string) (v : string) : string * option gojson :=
  (k, if given v then Some (GStr v) else None).
Definition triple_knob (k : string) (v : BandTriple) (given : bool) : string * option gojson :=
  (k, if given then Some (GStr (triple_string v)) else None).

Definition knobs (o : CreateLoadBalancerOptions) : list (string * option gojson) :=
  [ number_knob "fc_max_queue_depth" (lb_FcMaxQueueDepth o) (lb_FcMaxQueueDepthSet o);
    number_knob "fc_max_queue_wait_ms" (lb_FcMaxQueueWaitMs o) (lb_FcMaxQueueWaitMsSet o);
    word_knob "fc_mode" (lb_FcMode o);
    number_knob "fc_max_outstanding" (lb_FcMaxOutstanding o) (lb_FcMaxOutstandingSet o);
    number_knob "fc_ep_max_inflight" (lb_FcEpMaxInflight o) (lb_FcEpMaxInflightSet o);
    number_knob "fc_prefill_max_inflight" (lb_FcPrefillMaxInflight o) (lb_FcPrefillMaxInflightSet o);
    number_knob "fc_decode_max_inflight" (lb_FcDecodeMaxInflight o) (lb_FcDecodeMaxInflightSet o);
    number_knob "fc_telemetry_stale_ms" (lb_FcTelemetryStaleMs o) (lb_FcTelemetryStaleMsSet o);
    word_knob "fc_adaptive" (lb_FcAdaptive o);
    number_knob "fc_warmup_ms" (lb_FcWarmupMs o) (lb_FcWarmupMsSet o);
    number_knob "fc_ttft_target_ms" (lb_FcTtftTargetMs o) (lb_FcTtftTargetMsSet o);
    number_knob "fc_tenant_max_share_pct" (lb_FcTenantMaxSharePct o) (lb_FcTenantMaxSharePctSet o);
    word_knob "fc_expose_headers" (lb_FcExposeHeaders o);
    word_knob "fc_wake_policy" (lb_FcWakePolicy o);
    triple_knob "fc_band_weights" (lb_FcBandWeights o) (lb_FcBandWeightsSet o);
    triple_knob "fc_band_min_share_pct" (lb_FcBandMinSharePct o) (lb_FcBandMinSharePctSet o);
    number_knob "fc_critical_reserve_pct" (lb_FcCriticalReservePct o) (lb_FcCriticalReservePctSet o);
    triple_knob "fc_band_wait_ms" (lb_FcBandWaitMs o) (lb_FcBandWaitMsSet o);
    triple_knob "fc_band_queue_pct" (lb_FcBandQueuePct o) (lb_FcBandQueuePctSet o);
    word_knob "fc_shed_queue" (lb_FcShedQueue o);
    word_knob "fc_tenant_wake" (lb_FcTenantWake o);
    word_knob "fc_llmd_headers" (lb_FcLlmdHeaders o);
    word_knob "ai_default_reservation" (lb_AiDefaultReservation o);
    number_knob "ai_default_max_tokens" (lb_AiDefaultMaxTokens o) (lb_AiDefaultMaxTokensSet o);
    ("ai_objective_strict", if lb_AiObjectiveStrictSet o || lb_AiObjectiveStrict o
                            then Some (GBool (lb_AiObjectiveStrict o)) else None);
    ("fc_effective", None); ("backend_tls_effective", None) ].

Lemma number_given f v (b : bool) :
  f = uint32_json ->
  f <$> u32IfGiven v b = if b || nonzero (u32 v) then Some (GInt (u32 v)) else None.
Proof. intros ->. unfold u32IfGiven. by destruct b, (u32 v =? 0)%Z. Qed.

Lemma triple_given v (b : bool) :
  triple_json <$> tripleIfGiven v b = if b then Some (GStr (triple_string v)) else None.
Proof. by destruct b. Qed.

(** Where a key is among the pieces. *)
Fixpoint position (k : string) (ps : list piece) : nat :=
  match ps with [] => 0 | p :: ps' => if streq p.1 k then 0 else S (position k ps') end.

Ltac find_member :=
  lazymatch goal with |- assoc (members (load_balancer_service_json ?r)) ?k = _ =>
    let i := eval vm_compute in (position k (service_pieces go_zero)) in
    rewrite (service_member r i k _ eq_refl)
  end.

(** C23: a replaced rule keeps what is not on the wire, so a knob of the
    capacity gate, of the bands or of the reservation is a member of the
    service that is sent exactly when its flag was given, with the value of
    the flag, zero and [false] included; what the gateway only reports is
    never sent. *)
Theorem knobs_on_wire o ip proto low high :
  Forall (fun knob => assoc (members (load_balancer_service_json
                        (applyAIServiceOptions (lb_service o ip proto low high) o))) knob.1 = knob.2)
    (knobs o).
Proof.
  unfold knobs, number_knob, word_knob, triple_knob.
  repeat apply Forall_cons_2; [..|apply Forall_nil_2]; cbn [fst snd]; find_member;
    first [apply assoc_str | rewrite assoc_nil_member; first [by apply number_given | apply triple_given | idtac]].
  - cbn [applyAIServiceOptions lb_service sv_AiObjectiveStrict].
    by destruct (lb_AiObjectiveStrictSet o || lb_AiObjectiveStrict o).
  - done.
  - done.
Qed.

(* ------------------------------------------------------------------ *)
(** ** What the checks let through                                     *)
(* ------------------------------------------------------------------ *)

Lemma one_of_ok flag v allowed : one_of flag v allowed = Ok tt <-> v = "" \/ v ∈ allowed.
Proof.
  unfold one_of, reject_if. rewrite reject_tt, andb_false_iff, !negb_false_iff, is_empty_true, str_in_true.
  done.
Qed.

Lemma at_most_ok flag v c : at_most flag v c = Ok tt <-> (v <= c)%Z.
Proof. unfold at_most, reject_if. by rewrite reject_tt, Z.ltb_ge. Qed.

Lemma band_within_ok flag (b : bool) t c :
  band_within flag b t c = Ok tt <-> (b = true -> Forall (fun v => (v <= c)%Z) (band_values t)).
Proof.
  unfold band_within, reject_if. rewrite reject_tt, andb_false_iff, existsb_false.
  assert (Forall (fun v => (c <? v)%Z = false) (band_values t)
          <-> Forall (fun v => (v <= c)%Z) (band_values t)) as ->.
  { apply Forall_proper; [|done]. intros v. by rewrite Z.ltb_ge. }
  destruct b; naive_solver.
Qed.

Lemma mode_full o : ModeToNum (lb_Mode o) = 4%Z <-> lb_Mode o = "fullproxy".
Proof.
  split; [|by intros ->]. unfold ModeToNum.
  repeat (case_match; [try discriminate; intros _; by apply streq_true|]). discriminate.
Qed.

Lemma minus_zero (a b : Z) : nonzero (a - b) = false <-> a = b.
Proof. rewrite negb_false_iff, Z.eqb_eq. lia. Qed.

(** The gate's numbers within what the gateway takes. *)
Record within_bounds (o : CreateLoadBalancerOptions) : Prop := {
  wb_depth : (u32 (lb_FcMaxQueueDepth o) <= 65536)%Z;
  wb_wait : (u32 (lb_FcMaxQueueWaitMs o) <= 3600000)%Z;
  wb_caps : Forall (fun v => (u32 v <= 100000)%Z)
              [lb_FcMaxOutstanding o; lb_FcEpMaxInflight o; lb_FcPrefillMaxInflight o;
               lb_FcDecodeMaxInflight o];
  wb_times : Forall (fun v => (u32 v <= 3600000)%Z)
               [lb_FcTelemetryStaleMs o; lb_FcWarmupMs o; lb_FcTtftTargetMs o];
  wb_shares : Forall (fun v => (u32 v <= 100)%Z) [lb_FcTenantMaxSharePct o; lb_FcCriticalReservePct o];
  wb_tokens : (u32 (lb_AiDefaultMaxTokens o) <= 100000000)%Z;
  wb_weights : lb_FcBandWeightsSet o = true ->
               Forall (fun v => (v <= 62)%Z) (band_values (lb_FcBandWeights o));
  wb_epp : (0 <= lb_EppTimeoutMs o <= 600000)%Z /\ (slen (lb_EppEndpoint o) <= 255)%Z;
  wb_pair : (0 < u32 (lb_FcMaxQueueDepth o))%Z -> lb_FcMaxQueueWaitMsSet o = true ->
            u32 (lb_FcMaxQueueWaitMs o) <> 0%Z
}.

(** The relations between flags. *)
Record consistent_flags (o : CreateLoadBalancerOptions) : Prop := {
  cf_fullproxy : lbAIRequested o = true -> lb_Mode o = "fullproxy";
  cf_jwt : if str_in (lb_APIKeyAuth o) ["jwt"; "apikey-or-jwt"]
           then trim_space (lb_JWTAuthProfile o) <> "" /\ (slen (lb_JWTAuthProfile o) <= 63)%Z
           else lb_JWTAuthProfile o = "";
  cf_epp : lb_EppEndpoint o <> "" -> lb_PdDisaggMode o = true -> lb_EppFailureMode o = "FailOpen";
  cf_backend : lbBackendTLSRequested o = true ->
               lb_Mode o = "fullproxy" /\ str_in (lb_Security o) ["e2ehttps"; "e2etls"] = true;
  cf_pd : lb_PdDisaggMode o = true ->
          kv_engine o <> "llamacpp"
          /\ exists roles, map_each EpRoleToNum (lb_EpRoles o) = Ok roles /\ 1%Z ∈ roles /\ 2%Z ∈ roles;
  cf_cache : lb_PdCacheAwareMode o = true -> lb_PdDisaggMode o = true;
  cf_exact : lb_KvExactMode o = 0%Z
             \/ lb_KvExactMode o = (if lb_PdDisaggMode o then 1 else 3)%Z /\ kv_engine o <> "llamacpp";
  cf_hash : lb_KvHashAlgo o <> "" ->
            exists hashes, (kv_engine o, hashes) ∈ engine_hashes /\ lb_KvHashAlgo o ∈ hashes;
  cf_ranks : lb_KvExactMode o <> 0%Z -> (0 < i32 (lb_KvDpRankCount o))%Z ->
             ((if lb_KvZmqPort o =? 0 then 5557 else lb_KvZmqPort o)
              + i32 (lb_KvDpRankCount o) - 1 <= 65535)%Z
}.

(** Splits a chain of checks that passed into the checks. *)
Lemma check_ok {A} (m : result string unit) (f : unit -> result string A) b :
  mbind f m = Ok b -> m = Ok tt /\ f tt = Ok b.
Proof. by destruct m as [[]|]. Qed.

(** [assumption], up to syntax only. *)
Ltac recall := match goal with Hx : ?P |- ?P => exact Hx end.

Ltac checks H :=
  lazymatch type of H with
  | mbind _ _ = Ok _ =>
      let E := fresh "Hc" in apply check_ok in H as [E H]; cbv beta in H; checks E; checks H
  | (if _ then Err _ else _) = Ok _ =>
      let E := fresh "Hc" in apply reject_ok in H as [E H]; checks H
  | at_most _ _ _ = Ok _ => apply at_most_ok in H
  | one_of _ _ _ = Ok _ => apply one_of_ok in H
  | band_within _ _ _ _ = Ok _ => rewrite band_within_ok in H
  | reject_if _ _ = Ok _ => unfold reject_if in H; apply reject_tt in H
  | _ => idtac
  end.

Lemma queue_bounds o :
  validateFcQueueOptions o = Ok tt -> validateEppOptions o = Ok tt -> within_bounds o.
Proof.
  unfold validateFcQueueOptions, validateFcBandOptions, validateEppOptions.
  intros Hq He. checks Hq. checks He.
  repeat match goal with Hb : (_ || _) = false |- _ => apply orb_false_iff in Hb as [? ?] end.
  rewrite ?Z.ltb_ge in *.
  unfold fcMaxQueueDepthCeiling, fcMaxQueueWaitMsCeiling, fcCapCeiling, fcTelemetryStaleCeiling,
    fcAdaptiveMsCeiling, fcTenantSharePctCeiling, fcBandPctCeiling, fcBandWeightCeiling,
    aiDefaultTokenCeiling, eppTimeoutMsMax, eppEndpointMaxBytes in *.
  constructor; repeat (apply Forall_cons_2; [recall|]); try apply Forall_nil_2; try recall.
  - repeat split; recall.
  - intros Hd Hset Hw. apply Z.ltb_lt in Hd. apply Z.eqb_eq in Hw.
    match goal with Hx : _ && _ && _ = false |- _ => rewrite Hd, Hset, Hw in Hx; discriminate Hx end.
Qed.

Lemma exact_modes (o : CreateLoadBalancerOptions) (x : Z) (pd : bool) :
  nonzero x && nonzero (x - 1) && nonzero (x - 3) = false ->
  (x =? 1)%Z && negb pd = false -> (x =? 3)%Z && pd = false ->
  x = 0%Z \/ x = (if pd then 1 else 3)%Z.
Proof.
  intros H1 H2 H3. apply andb_false_iff in H1 as [H1|H1%minus_zero];
    [apply andb_false_iff in H1 as [H1%negb_false_iff%Z.eqb_eq|H1%minus_zero]|];
    [by left| |]; right; destruct pd; subst x; done.
Qed.

Lemma hash_matches hash engine :
  validateKVHashForEngine hash engine = Ok tt -> hash <> "" ->
  exists hashes, (engine, hashes) ∈ engine_hashes /\ hash ∈ hashes.
Proof.
  unfold validateKVHashForEngine. intros Hv Hh. apply is_empty_false in Hh. rewrite Hh in Hv.
  destruct (existsb _ engine_hashes) eqn:He; [|by destruct (streq engine "llamacpp")].
  apply existsb_exists in He as ([e hs] & Hin%list_elem_of_In & [He Hs%str_in_true]%andb_true_iff).
  apply streq_true in He. cbn [fst snd] in *. subst e. by exists hs.
Qed.

(** The checks of the engine, by their results. *)
Lemma kv_checks o :
  validateKVEngineOptions o = Ok tt ->
  check_kv_numbers o = Ok tt /\ validateKVHashForEngine (lb_KvHashAlgo o) (kv_engine o) = Ok tt
  /\ check_pd (kv_engine o) o = Ok tt /\ check_engine (kv_engine o) o = Ok tt.
Proof. unfold validateKVEngineOptions. intros Hv. checks Hv. repeat split; recall. Qed.

Lemma pd_roles engine o :
  check_pd engine o = Ok tt -> lb_PdDisaggMode o = true ->
  exists roles, map_each EpRoleToNum (lb_EpRoles o) = Ok roles /\ 1%Z ∈ roles /\ 2%Z ∈ roles.
Proof.
  unfold check_pd. intros Hc Hpd. checks Hc. rewrite Hpd in Hc.
  apply bind_ok in Hc as (roles & Hr & Hc). exists roles. split; [done|].
  apply reject_ok in Hc as [Hn _]. apply orb_false_iff in Hn as [H1%negb_false_iff H2%negb_false_iff].
  assert (forall r, existsb (Z.eqb r) roles = true -> r ∈ roles) as Hin.
  { intros r (x & Hx & Heq%Z.eqb_eq)%existsb_exists. subst x. by apply list_elem_of_In. }
  split; by apply Hin.
Qed.

Lemma llamacpp_flags o :
  check_engine (kv_engine o) o = Ok tt -> kv_engine o = "llamacpp" ->
  lb_KvExactMode o = 0%Z /\ lb_PdDisaggMode o = false.
Proof.
  unfold check_engine. intros Hc He. rewrite He in Hc. rewrite streq_refl in Hc.
  change (streq "llamacpp" "trtllm") with false in Hc. cbv iota in Hc.
  apply reject_ok in Hc as [Hx Hc]. apply reject_ok in Hc as [Hp _].
  split; [|done]. apply Z.eqb_eq. by apply negb_false_iff.
Qed.

Lemma kv_consistent o :
  validateKVEngineOptions o = Ok tt ->
  (lb_PdDisaggMode o = true ->
     kv_engine o <> "llamacpp"
     /\ exists roles, map_each EpRoleToNum (lb_EpRoles o) = Ok roles /\ 1%Z ∈ roles /\ 2%Z ∈ roles)
  /\ (lb_KvExactMode o = 0%Z
      \/ lb_KvExactMode o = (if lb_PdDisaggMode o then 1 else 3)%Z /\ kv_engine o <> "llamacpp")
  /\ (lb_KvHashAlgo o <> "" ->
      exists hashes, (kv_engine o, hashes) ∈ engine_hashes /\ lb_KvHashAlgo o ∈ hashes)
  /\ (lb_KvExactMode o <> 0%Z -> (0 < i32 (lb_KvDpRankCount o))%Z ->
      ((if lb_KvZmqPort o =? 0 then 5557 else lb_KvZmqPort o)
       + i32 (lb_KvDpRankCount o) - 1 <= 65535)%Z).
Proof.
  intros (Hn & Hh & Hp & He)%kv_checks.
  unfold check_kv_numbers in Hn. cbv zeta in Hn.
  do 3 (apply reject_ok in Hn as [_ Hn]). apply reject_ok in Hn as [Hx Hn].
  apply reject_ok in Hn as [H1 Hn]. apply reject_ok in Hn as [H3 Hn].
  apply reject_ok in Hn as [Hr _].
  assert (Hmode := exact_modes o _ _ Hx H1 H3).
  split; [|split; [|split]].
  - intros Hpd. split; [|by eapply pd_roles]. intros Hl.
    apply llamacpp_flags in Hl as [_ Hl]; [congruence|done].
  - destruct Hmode as [->|Hm]; [by left|]. destruct (decide (lb_KvExactMode o = 0%Z)); [by left|].
    right. split; [done|]. intros Hl. by apply llamacpp_flags in Hl as [? _].
  - by apply hash_matches.
  - intros H0 Hpos. assert ((lb_KvExactMode o =? 1) || (lb_KvExactMode o =? 3) = true)%Z as Hk.
    { destruct Hmode as [?|Hm]; [done|]. rewrite Hm. by destruct (lb_PdDisaggMode o). }
    rewrite Hk in Hr. apply Z.ltb_lt in Hpos. rewrite Hpos in Hr. by apply Z.ltb_ge in Hr.
Qed.

(** What is not asked for is not used. *)
Lemma not_requested o :
  lbAIRequested o = false ->
  lb_PdCacheAwareMode o = false /\ lb_PdDisaggMode o = false /\ lb_KvExactMode o = 0%Z
  /\ lb_KvHashAlgo o = "".
Proof.
  unfold lbAIRequested. cbv zeta. intros Hr.
  repeat match goal with Hx : (_ || _) = false |- _ => apply orb_false_iff in Hx as [? ?] end.
  repeat match goal with Hx : negb _ = false |- _ => apply negb_false_iff in Hx end.
  split; [recall|]. split; [recall|]. split; [apply Z.eqb_eq; recall|apply is_empty_true; recall].
Qed.

Lemma backend_tls_modes o :
  validateBackendTLSOptions o = Ok tt -> lbBackendTLSRequested o = true ->
  lb_Mode o = "fullproxy" /\ str_in (lb_Security o) ["e2ehttps"; "e2etls"] = true.
Proof.
  unfold validateBackendTLSOptions. cbv zeta. intros Hv Hr. rewrite Hr in Hv. checks Hv.
  cbn [negb] in Hv. checks Hv.
  match goal with Hx : nonzero _ || nonzero _ = false |- _ => apply orb_false_iff in Hx as [Hm Hs] end.
  apply minus_zero in Hm, Hs. split; [by apply mode_full|].
  unfold SecStringToNum in Hs. destruct (str_in (lb_Security o) ["https"; "tls"]); [done|].
  by destruct (str_in (lb_Security o) ["e2ehttps"; "e2etls"]).
Qed.

Lemma jwt_profile o :
  (if str_in (lb_APIKeyAuth o) ["jwt"; "apikey-or-jwt"] then
     reject_if (is_empty (trim_space (lb_JWTAuthProfile o)) || (63 <? slen (lb_JWTAuthProfile o))%Z)
       (sprintf ["--jwt-auth-profile requires a configured profile name of at most 63 bytes ";
                 "for JWT modes"])
   else
     reject_if (given (lb_JWTAuthProfile o))
       "--jwt-auth-profile requires --api-key-auth jwt|apikey-or-jwt") = Ok tt ->
  if str_in (lb_APIKeyAuth o) ["jwt"; "apikey-or-jwt"]
  then trim_space (lb_JWTAuthProfile o) <> "" /\ (slen (lb_JWTAuthProfile o) <= 63)%Z
  else lb_JWTAuthProfile o = "".
Proof.
  unfold reject_if. destruct (str_in (lb_APIKeyAuth o) _); intros Hj%reject_tt.
  - apply orb_false_iff in Hj as [He Hl]. split; [by apply is_empty_false|by apply Z.ltb_ge].
  - by apply negb_false_iff, is_empty_true in Hj.
Qed.

Lemma epp_fails_open o :
  validateEppOptions o = Ok tt -> lb_EppEndpoint o <> "" -> lb_PdDisaggMode o = true ->
  lb_EppFailureMode o = "FailOpen".
Proof.
  unfold validateEppOptions. intros Hv He%is_empty_false Hp. checks Hv.
  match goal with Hx : _ && _ && _ = false |- _ => rewrite He, Hp in Hx end.
  by apply streq_true, negb_false_iff.
Qed.

(** The options that pass the checks keep the capacity gate within what
    the gateway takes, and the relations between flags: features of the proxy
    only with [--mode fullproxy], backend TLS only over end-to-end TLS, a JWT
    profile exactly with the JWT modes, disaggregation only with a prefill and
    a decode role and an engine that has it, an exact KV mode only where it
    belongs, and a hash the engine computes. *)
Theorem accepted_flags o :
  validateLBAIOptions o = Ok tt -> within_bounds o /\ consistent_flags o.
Proof.
  unfold validateLBAIOptions. intros Hv.
  apply check_ok in Hv as [_ Hv]. apply check_ok in Hv as [Hj Hv]. apply check_ok in Hv as [He Hv].
  apply check_ok in Hv as [_ Hv]. apply check_ok in Hv as [Hq Hv]. apply check_ok in Hv as [Hb Hv].
  split; [by apply queue_bounds|].
  assert (Hkv : lbAIRequested o = true ->
    lb_Mode o = "fullproxy" /\ (lb_PdCacheAwareMode o = true -> lb_PdDisaggMode o = true)
    /\ validateKVEngineOptions o = Ok tt).
  { intros Ha. rewrite Ha in Hv. cbn [negb] in Hv. apply reject_ok in Hv as [Hm%minus_zero Hv].
    apply reject_ok in Hv as [Hc Hv]. split; [by apply mode_full|]. split; [|done].
    intros Hca. rewrite Hca in Hc. by apply negb_false_iff in Hc. }
  assert (Hno := not_requested o).
  destruct (lbAIRequested o) eqn:Ha.
  - destruct (Hkv eq_refl) as (Hm & Hc & (Hp & Hx & Hh & Hr)%kv_consistent).
    constructor; try recall; [by intros _|by apply jwt_profile|by apply epp_fails_open
      |by apply backend_tls_modes].
  - destruct (Hno eq_refl) as (Hc & Hp & Hx & Hh).
    constructor; rewrite ?Ha, ?Hc, ?Hp, ?Hx, ?Hh; try done;
      [by apply jwt_profile|by apply backend_tls_modes|by left].
Qed.

(** A service of two endpoints, one that prefills and one that decodes. *)
Definition disaggregated : CreateLoadBalancerOptions :=
  {| lb_ExternalIP := "10.0.0.1"; lb_TCP := ["443:8443"]; lb_UDP := []; lb_ICMP := false;
     lb_Mode := "fullproxy"; lb_BGP := false; lb_Security := ""; lb_Monitor := false;
     lb_Attach := false; lb_Detach := false; lb_Timeout := U32 0; lb_Mark := U32 0;
     lb_SCTP := []; lb_Endpoints := ["10.0.0.2:1"; "10.0.0.3:1"]; lb_SecIPs := [];
     lb_Select := ""; lb_Name := ""; lb_Host := ""; lb_AllowedSources := []; lb_PPv2En := false;
     lb_Egress := false; lb_ConnectionLimit := U32 0; lb_FcMaxQueueDepth := U32 16;
     lb_FcMaxQueueWaitMs := U32 1000; lb_FcMaxQueueDepthSet := true;
     lb_FcMaxQueueWaitMsSet := true; lb_FcMode := "enforce"; lb_FcMaxOutstanding := U32 0;
     lb_FcEpMaxInflight := U32 0; lb_FcPrefillMaxInflight := U32 0;
     lb_FcDecodeMaxInflight := U32 0; lb_FcTelemetryStaleMs := U32 0;
     lb_FcMaxOutstandingSet := false; lb_FcEpMaxInflightSet := false;
     lb_FcPrefillMaxInflightSet := false; lb_FcDecodeMaxInflightSet := false;
     lb_FcTelemetryStaleMsSet := false; lb_FcAdaptive := ""; lb_FcWarmupMs := U32 0;
     lb_FcTtftTargetMs := U32 0; lb_FcWarmupMsSet := false; lb_FcTtftTargetMsSet := false;
     lb_FcTenantMaxSharePct := U32 0; lb_FcTenantMaxSharePctSet := false;
     lb_FcExposeHeaders := ""; lb_FcWakePolicy := ""; lb_FcBandWeights := go_zero;
     lb_FcBandMinSharePct := go_zero; lb_FcCriticalReservePct := U32 0;
     lb_FcBandWaitMs := go_zero; lb_FcBandQueuePct := go_zero; lb_FcShedQueue := "";
     lb_FcTenantWake := ""; lb_FcLlmdHeaders := ""; lb_FcBandWeightsSet := false;
     lb_FcBandMinSharePctSet := false; lb_FcCriticalReservePctSet := false;
     lb_FcBandWaitMsSet := false; lb_FcBandQueuePctSet := false; lb_AiDefaultReservation := "";
     lb_AiDefaultMaxTokens := U32 0; lb_AiObjectiveStrict := false;
     lb_AiDefaultMaxTokensSet := false; lb_AiObjectiveStrictSet := false; lb_ProbeType := "";
     lb_ProbePort := U16 0; lb_ProbeReq := ""; lb_ProbeTimeout := U32 0; lb_ProbeRetries := 0;
     lb_ModelName := ""; lb_PathPrefix := ""; lb_PathMatchMode := "";
     lb_SessionHeaderName := ""; lb_TraceType := ""; lb_BackendProtocol := "";
     lb_SockMapMode := ""; lb_SseMode := false; lb_JWTAuthProfile := "tenants";
     lb_APIKeyAuth := "jwt"; lb_MaxStreamDurationSec := I32 0; lb_BackendKeepaliveSec := I32 0;
     lb_CbEnable := false; lb_EppEndpoint := ""; lb_EppFailureMode := ""; lb_EppTimeoutMs := 0;
     lb_EppPlaintext := false; lb_ChwblPrefixHashLevel := 0; lb_ChwblPrefixHashFlags := 0;
     lb_ChwblMeanLoadFactor := 0; lb_ChwblReplication := 0; lb_ChwblEnableCacheSalt := false;
     lb_PdDisaggMode := true; lb_PdCacheAwareMode := true; lb_PdSessionTtlSec := I32 0;
     lb_PdCacheThreshold := I32 0; lb_PdBalanceAbsThreshold := I32 0;
     lb_PdBootstrapPort := I32 8998; lb_PdPrefillTimeoutSec := I32 0; lb_KvExactMode := 1;
     lb_KvBlockSize := 0; lb_KvHashAlgo := "sha256_sglang"; lb_KvZmqPort := 5600;
     lb_KvWarmupSec := 0; lb_KvEngineType := "sglang"; lb_KvDpRankCount := I32 2;
     lb_EpRoles := ["prefill"; "decode"]; lb_NixlPorts := []; lb_HstsMaxAge := U32 0;
     lb_HstsIncludeSubdomains := false; lb_HstsPreload := false; lb_MtlsClientCertMode := "";
     lb_MtlsClientCAPath := ""; lb_MtlsRequireClientCN := false; lb_MtlsClientCNPattern := "";
     lb_MtlsClientCRLPath := ""; lb_MtlsBackendVerifyServer := false;
     lb_MtlsBackendCAPath := ""; lb_MtlsBackendClientCertPath := "";
     lb_MtlsBackendClientKeyPath := ""; lb_BackendCaCertId := ""; lb_BackendClientCertId := "";
     lb_BackendTLSServerName := "" |}.

Lemma accepted_flags_witness : within_bounds disaggregated /\ consistent_flags disaggregated.
Proof. apply accepted_flags. vm_compute. reflexivity. Defined.
