(* ===== verification/NetModel.v ===== *)
(** * The configured network: the documents of [pkg/api]

    BFD, BGP, endpoints, the FDB, the firewall, addresses, mirrors, neighbors,
    routes, VLANs, VXLANs, policies, sessions, SNI certificates and users, as
    they are read and written. *)
From S2P Require Import Prelude GoStrings GoNet Json JsonPrint Fields.

(** [net.IP] and its text in a document. *)
Record net_ip : Type := NetIP { ip_bytes : list Z }.
#[global] Instance net_ip_value : GoValue net_ip := {|
  go_zero := NetIP [];
  go_into _ old j :=
    match j with
    | JNull => Some old
    | JStr s => if is_empty s then Some (NetIP []) else NetIP <$> ParseIP s
    | _ => None
    end |}.
(** [MarshalText]: an address of no other length is written. *)
Definition net_ip_json (ip : net_ip) : gojson :=
  match length (ip_bytes ip) with
  | 0 => GStr ""
  | 4 => GStr (ipv4_text (ip_bytes ip))
  | 16 => GStr (ip_string (ip_bytes ip))
  | _ => GRaw ""
  end%nat.
(** [String]. *)
Definition net_ip_text (ip : net_ip) : string :=
  match length (ip_bytes ip) with
  | 0 => "<nil>"
  | 4 => ipv4_text (ip_bytes ip)
  | 16 => ip_string (ip_bytes ip)
  | _ => "?" +:+ hex_encode (of_bytes (byte_of <$> ip_bytes ip))
  end%nat.

(** [bfd.go]. *)
Record BFDSessionInfo : Type := {
  bfd_Instance : string;
  bfd_RemoteIP : string;
  bfd_SourceIP : string;
  bfd_Port : uint16;
  bfd_Interval : uint64;
  bfd_RetryCount : uint8;
  bfd_State : string
}.
#[global] Instance bfd_session_info_value : GoValue BFDSessionInfo := {|
  go_zero := {| bfd_Instance := ""; bfd_RemoteIP := ""; bfd_SourceIP := ""; bfd_Port := U16 0;
                bfd_Interval := U64 0; bfd_RetryCount := U8 0; bfd_State := "" |};
  go_into strict old := decode_struct strict
    ["instance"; "remoteIp"; "sourceIp"; "port"; "interval"; "retryCount"; "state"] old (fun ms =>
    x0 ← field strict ms "instance" (bfd_Instance old);
    x1 ← field strict ms "remoteIp" (bfd_RemoteIP old);
    x2 ← field strict ms "sourceIp" (bfd_SourceIP old);
    x3 ← field strict ms "port" (bfd_Port old);
    x4 ← field strict ms "interval" (bfd_Interval old);
    x5 ← field strict ms "retryCount" (bfd_RetryCount old);
    x6 ← field strict ms "state" (bfd_State old);
    Some {| bfd_Instance := x0; bfd_RemoteIP := x1; bfd_SourceIP := x2; bfd_Port := x3;
            bfd_Interval := x4; bfd_RetryCount := x5; bfd_State := x6 |}) |}.
Definition bfd_session_info_json (r : BFDSessionInfo) : gojson :=
  GObj [("instance", GStr (bfd_Instance r));
        ("remoteIp", GStr (bfd_RemoteIP r));
        ("sourceIp", GStr (bfd_SourceIP r));
        ("port", uint16_json (bfd_Port r));
        ("interval", uint64_json (bfd_Interval r));
        ("retryCount", uint8_json (bfd_RetryCount r));
        ("state", GStr (bfd_State r))].

Record BFDSessionGet : Type := {
  bfg_BFDSessionAttr : option (list BFDSessionInfo)
}.
#[global] Instance bfd_session_get_value : GoValue BFDSessionGet := {|
  go_zero := {| bfg_BFDSessionAttr := None |};
  go_into strict old := decode_struct strict
    ["Attr"] old (fun ms =>
    x0 ← field strict ms "Attr" (bfg_BFDSessionAttr old);
    Some {| bfg_BFDSessionAttr := x0 |}) |}.
Definition bfd_session_get_json (r : BFDSessionGet) : gojson :=
  GObj [("Attr", slice_json bfd_session_info_json (bfg_BFDSessionAttr r))].

(** [bgp.go]. *)
Record BGPNeighborMod : Type := {
  bgp_IPaddress : string;
  bgp_RemoteAs : Z;
  bgp_RemotePort : Z;
  bgp_SetMultiHop : bool
}.
#[global] Instance bgp_neighbor_mod_value : GoValue BGPNeighborMod := {|
  go_zero := {| bgp_IPaddress := ""; bgp_RemoteAs := 0; bgp_RemotePort := 0;
                bgp_SetMultiHop := false |};
  go_into strict old := decode_struct strict
    ["ipAddress"; "remoteAs"; "remotePort"; "setMultiHop"] old (fun ms =>
    x0 ← field strict ms "ipAddress" (bgp_IPaddress old);
    x1 ← field strict ms "remoteAs" (bgp_RemoteAs old);
    x2 ← field strict ms "remotePort" (bgp_RemotePort old);
    x3 ← field strict ms "setMultiHop" (bgp_SetMultiHop old);
    Some {| bgp_IPaddress := x0; bgp_RemoteAs := x1; bgp_RemotePort := x2; bgp_SetMultiHop := x3 |}) |}.
Definition bgp_neighbor_mod_json (r : BGPNeighborMod) : gojson :=
  GObj [("ipAddress", GStr (bgp_IPaddress r));
        ("remoteAs", GInt (bgp_RemoteAs r));
        ("remotePort", GInt (bgp_RemotePort r));
        ("setMultiHop", GBool (bgp_SetMultiHop r))].

Record BGPNeighborEntry : Type := {
  bge_IPaddress : string;
  bge_State : string;
  bge_RemoteAs : Z;
  bge_UpDownTime : string
}.
#[global] Instance bgp_neighbor_entry_value : GoValue BGPNeighborEntry := {|
  go_zero := {| bge_IPaddress := ""; bge_State := ""; bge_RemoteAs := 0; bge_UpDownTime := "" |};
  go_into strict old := decode_struct strict
    ["ipAddress"; "state"; "remoteAs"; "updowntime"] old (fun ms =>
    x0 ← field strict ms "ipAddress" (bge_IPaddress old);
    x1 ← field strict ms "state" (bge_State old);
    x2 ← field strict ms "remoteAs" (bge_RemoteAs old);
    x3 ← field strict ms "updowntime" (bge_UpDownTime old);
    Some {| bge_IPaddress := x0; bge_State := x1; bge_RemoteAs := x2; bge_UpDownTime := x3 |}) |}.
Definition bgp_neighbor_entry_json (r : BGPNeighborEntry) : gojson :=
  GObj [("ipAddress", GStr (bge_IPaddress r));
        ("state", GStr (bge_State r));
        ("remoteAs", GInt (bge_RemoteAs r));
        ("updowntime", GStr (bge_UpDownTime r))].

Record BGPNeighborModGet : Type := {
  bgg_BGPAttr : option (list BGPNeighborEntry)
}.
#[global] Instance bgp_neighbor_mod_get_value : GoValue BGPNeighborModGet := {|
  go_zero := {| bgg_BGPAttr := None |};
  go_into strict old := decode_struct strict
    ["bgpNeiAttr"] old (fun ms =>
    x0 ← field strict ms "bgpNeiAttr" (bgg_BGPAttr old);
    Some {| bgg_BGPAttr := x0 |}) |}.
Definition bgp_neighbor_mod_get_json (r : BGPNeighborModGet) : gojson :=
  GObj [("bgpNeiAttr", slice_json bgp_neighbor_entry_json (bgg_BGPAttr r))].

(** [endpoint.go]. *)
Record EndPointMod : Type := {
  epm_HostName : string;
  epm_Name : string;
  epm_InActTries : Z;
  epm_ProbeType : string;
  epm_ProbeReq : string;
  epm_ProbeResp : string;
  epm_ProbeDuration : uint32;
  epm_ProbePort : uint16
}.
#[global] Instance end_point_mod_value : GoValue EndPointMod := {|
  go_zero := {| epm_HostName := ""; epm_Name := ""; epm_InActTries := 0; epm_ProbeType := "";
                epm_ProbeReq := ""; epm_ProbeResp := ""; epm_ProbeDuration := U32 0;
                epm_ProbePort := U16 0 |};
  go_into strict old := decode_struct strict
    ["hostName"; "name"; "inactiveReTries"; "probeType"; "probeReq"; "probeResp";
     "probeDuration"; "probePort"] old (fun ms =>
    x0 ← field strict ms "hostName" (epm_HostName old);
    x1 ← field strict ms "name" (epm_Name old);
    x2 ← field strict ms "inactiveReTries" (epm_InActTries old);
    x3 ← field strict ms "probeType" (epm_ProbeType old);
    x4 ← field strict ms "probeReq" (epm_ProbeReq old);
    x5 ← field strict ms "probeResp" (epm_ProbeResp old);
    x6 ← field strict ms "probeDuration" (epm_ProbeDuration old);
    x7 ← field strict ms "probePort" (epm_ProbePort old);
    Some {| epm_HostName := x0; epm_Name := x1; epm_InActTries := x2; epm_ProbeType := x3;
            epm_ProbeReq := x4; epm_ProbeResp := x5; epm_ProbeDuration := x6;
            epm_ProbePort := x7 |}) |}.
Definition end_point_mod_json (r : EndPointMod) : gojson :=
  GObj [("hostName", GStr (epm_HostName r));
        ("name", GStr (epm_Name r));
        ("inactiveReTries", GInt (epm_InActTries r));
        ("probeType", GStr (epm_ProbeType r));
        ("probeReq", GStr (epm_ProbeReq r));
        ("probeResp", GStr (epm_ProbeResp r));
        ("probeDuration", uint32_json (epm_ProbeDuration r));
        ("probePort", uint16_json (epm_ProbePort r))].

Record EndPointGetEntry : Type := {
  epe_HostName : string;
  epe_Name : string;
  epe_InActTries : Z;
  epe_ProbeType : string;
  epe_ProbeReq : string;
  epe_ProbeResp : string;
  epe_ProbeDuration : uint32;
  epe_ProbePort : uint16;
  epe_MinDelay : string;
  epe_AvgDelay : string;
  epe_MaxDelay : string;
  epe_CurrState : string
}.
#[global] Instance end_point_get_entry_value : GoValue EndPointGetEntry := {|
  go_zero := {| epe_HostName := ""; epe_Name := ""; epe_InActTries := 0; epe_ProbeType := "";
                epe_ProbeReq := ""; epe_ProbeResp := ""; epe_ProbeDuration := U32 0;
                epe_ProbePort := U16 0; epe_MinDelay := ""; epe_AvgDelay := "";
                epe_MaxDelay := ""; epe_CurrState := "" |};
  go_into strict old := decode_struct strict
    ["hostName"; "name"; "inactiveReTries"; "probeType"; "probeReq"; "probeResp";
     "probeDuration"; "probePort"; "minDelay"; "avgDelay"; "maxDelay"; "currState"] old (fun ms =>
    x0 ← field strict ms "hostName" (epe_HostName old);
    x1 ← field strict ms "name" (epe_Name old);
    x2 ← field strict ms "inactiveReTries" (epe_InActTries old);
    x3 ← field strict ms "probeType" (epe_ProbeType old);
    x4 ← field strict ms "probeReq" (epe_ProbeReq old);
    x5 ← field strict ms "probeResp" (epe_ProbeResp old);
    x6 ← field strict ms "probeDuration" (epe_ProbeDuration old);
    x7 ← field strict ms "probePort" (epe_ProbePort old);
    x8 ← field strict ms "minDelay" (epe_MinDelay old);
    x9 ← field strict ms "avgDelay" (epe_AvgDelay old);
    x10 ← field strict ms "maxDelay" (epe_MaxDelay old);
    x11 ← field strict ms "currState" (epe_CurrState old);
    Some {| epe_HostName := x0; epe_Name := x1; epe_InActTries := x2; epe_ProbeType := x3;
            epe_ProbeReq := x4; epe_ProbeResp := x5; epe_ProbeDuration := x6;
            epe_ProbePort := x7; epe_MinDelay := x8; epe_AvgDelay := x9; epe_MaxDelay := x10;
            epe_CurrState := x11 |}) |}.
Definition end_point_get_entry_json (r : EndPointGetEntry) : gojson :=
  GObj [("hostName", GStr (epe_HostName r));
        ("name", GStr (epe_Name r));
        ("inactiveReTries", GInt (epe_InActTries r));
        ("probeType", GStr (epe_ProbeType r));
        ("probeReq", GStr (epe_ProbeReq r));
        ("probeResp", GStr (epe_ProbeResp r));
        ("probeDuration", uint32_json (epe_ProbeDuration r));
        ("probePort", uint16_json (epe_ProbePort r));
        ("minDelay", GStr (epe_MinDelay r));
        ("avgDelay", GStr (epe_AvgDelay r));
        ("maxDelay", GStr (epe_MaxDelay r));
        ("currState", GStr (epe_CurrState r))].

Record EPInformationGet : Type := {
  epg_EPInfo : option (list EndPointGetEntry)
}.
#[global] Instance ep_information_get_value : GoValue EPInformationGet := {|
  go_zero := {| epg_EPInfo := None |};
  go_into strict old := decode_struct strict
    ["Attr"] old (fun ms =>
    x0 ← field strict ms "Attr" (epg_EPInfo old);
    Some {| epg_EPInfo := x0 |}) |}.
Definition ep_information_get_json (r : EPInformationGet) : gojson :=
  GObj [("Attr", slice_json end_point_get_entry_json (epg_EPInfo r))].

Record EPConfig : Type := {
  epc_EPInfo : option (list EndPointMod)
}.
#[global] Instance ep_config_value : GoValue EPConfig := {|
  go_zero := {| epc_EPInfo := None |};
  go_into strict old := decode_struct strict
    ["Attr"] old (fun ms =>
    x0 ← field strict ms "Attr" (epc_EPInfo old);
    Some {| epc_EPInfo := x0 |}) |}.
Definition ep_config_json (r : EPConfig) : gojson :=
  GObj [("Attr", slice_json end_point_mod_json (epc_EPInfo r))].

(** [fdb.go]. *)
Record FDBMod : Type := {
  fdb_Dev : string;
  fdb_MacAddress : string
}.
#[global] Instance fdb_mod_value : GoValue FDBMod := {|
  go_zero := {| fdb_Dev := ""; fdb_MacAddress := "" |};
  go_into strict old := decode_struct strict
    ["dev"; "macAddress"] old (fun ms =>
    x0 ← field strict ms "dev" (fdb_Dev old);
    x1 ← field strict ms "macAddress" (fdb_MacAddress old);
    Some {| fdb_Dev := x0; fdb_MacAddress := x1 |}) |}.
Definition fdb_mod_json (r : FDBMod) : gojson :=
  GObj [("dev", GStr (fdb_Dev r));
        ("macAddress", GStr (fdb_MacAddress r))].

Record FDBModGet : Type := {
  fdg_FdbAttr : option (list FDBMod)
}.
#[global] Instance fdb_mod_get_value : GoValue FDBModGet := {|
  go_zero := {| fdg_FdbAttr := None |};
  go_into strict old := decode_struct strict
    ["fdbAttr"] old (fun ms =>
    x0 ← field strict ms "fdbAttr" (fdg_FdbAttr old);
    Some {| fdg_FdbAttr := x0 |}) |}.
Definition fdb_mod_get_json (r : FDBModGet) : gojson :=
  GObj [("fdbAttr", slice_json fdb_mod_json (fdg_FdbAttr r))].

(** [firewall.go]. *)
Record FwOptArg : Type := {
  fwo_Drop : bool;
  fwo_Trap : bool;
  fwo_Rdr : bool;
  fwo_RdrPort : string;
  fwo_Allow : bool;
  fwo_Mark : uint32;
  fwo_Record : bool;
  fwo_DoSnat : bool;
  fwo_ToIP : string;
  fwo_ToPort : uint16;
  fwo_OnDefault : bool;
  fwo_Counter : string
}.
#[global] Instance fw_opt_arg_value : GoValue FwOptArg := {|
  go_zero := {| fwo_Drop := false; fwo_Trap := false; fwo_Rdr := false; fwo_RdrPort := "";
                fwo_Allow := false; fwo_Mark := U32 0; fwo_Record := false; fwo_DoSnat := false;
                fwo_ToIP := ""; fwo_ToPort := U16 0; fwo_OnDefault := false; fwo_Counter := "" |};
  go_into strict old := decode_struct strict
    ["drop"; "trap"; "redirect"; "redirectPortName"; "allow"; "fwMark"; "record"; "doSnat";
     "toIP"; "toPort"; "onDefault"; "counter"] old (fun ms =>
    x0 ← field strict ms "drop" (fwo_Drop old);
    x1 ← field strict ms "trap" (fwo_Trap old);
    x2 ← field strict ms "redirect" (fwo_Rdr old);
    x3 ← field strict ms "redirectPortName" (fwo_RdrPort old);
    x4 ← field strict ms "allow" (fwo_Allow old);
    x5 ← field strict ms "fwMark" (fwo_Mark old);
    x6 ← field strict ms "record" (fwo_Record old);
    x7 ← field strict ms "doSnat" (fwo_DoSnat old);
    x8 ← field strict ms "toIP" (fwo_ToIP old);
    x9 ← field strict ms "toPort" (fwo_ToPort old);
    x10 ← field strict ms "onDefault" (fwo_OnDefault old);
    x11 ← field strict ms "counter" (fwo_Counter old);
    Some {| fwo_Drop := x0; fwo_Trap := x1; fwo_Rdr := x2; fwo_RdrPort := x3; fwo_Allow := x4;
            fwo_Mark := x5; fwo_Record := x6; fwo_DoSnat := x7; fwo_ToIP := x8;
            fwo_ToPort := x9; fwo_OnDefault := x10; fwo_Counter := x11 |}) |}.
Definition fw_opt_arg_json (r : FwOptArg) : gojson :=
  GObj [("drop", GBool (fwo_Drop r));
        ("trap", GBool (fwo_Trap r));
        ("redirect", GBool (fwo_Rdr r));
        ("redirectPortName", GStr (fwo_RdrPort r));
        ("allow", GBool (fwo_Allow r));
        ("fwMark", uint32_json (fwo_Mark r));
        ("record", GBool (fwo_Record r));
        ("doSnat", GBool (fwo_DoSnat r));
        ("toIP", GStr (fwo_ToIP r));
        ("toPort", uint16_json (fwo_ToPort r));
        ("onDefault", GBool (fwo_OnDefault r));
        ("counter", GStr (fwo_Counter r))].

Definition set_fwo_Drop (x : bool) (r : FwOptArg) : FwOptArg :=
  {| fwo_Drop := x; fwo_Trap := fwo_Trap r; fwo_Rdr := fwo_Rdr r; fwo_RdrPort := fwo_RdrPort r;
     fwo_Allow := fwo_Allow r; fwo_Mark := fwo_Mark r; fwo_Record := fwo_Record r;
     fwo_DoSnat := fwo_DoSnat r; fwo_ToIP := fwo_ToIP r; fwo_ToPort := fwo_ToPort r;
     fwo_OnDefault := fwo_OnDefault r; fwo_Counter := fwo_Counter r |}.
Definition set_fwo_Trap (x : bool) (r : FwOptArg) : FwOptArg :=
  {| fwo_Drop := fwo_Drop r; fwo_Trap := x; fwo_Rdr := fwo_Rdr r; fwo_RdrPort := fwo_RdrPort r;
     fwo_Allow := fwo_Allow r; fwo_Mark := fwo_Mark r; fwo_Record := fwo_Record r;
     fwo_DoSnat := fwo_DoSnat r; fwo_ToIP := fwo_ToIP r; fwo_ToPort := fwo_ToPort r;
     fwo_OnDefault := fwo_OnDefault r; fwo_Counter := fwo_Counter r |}.
Definition set_fwo_Rdr (x : bool) (r : FwOptArg) : FwOptArg :=
  {| fwo_Drop := fwo_Drop r; fwo_Trap := fwo_Trap r; fwo_Rdr := x; fwo_RdrPort := fwo_RdrPort r;
     fwo_Allow := fwo_Allow r; fwo_Mark := fwo_Mark r; fwo_Record := fwo_Record r;
     fwo_DoSnat := fwo_DoSnat r; fwo_ToIP := fwo_ToIP r; fwo_ToPort := fwo_ToPort r;
     fwo_OnDefault := fwo_OnDefault r; fwo_Counter := fwo_Counter r |}.
Definition set_fwo_RdrPort (x : string) (r : FwOptArg) : FwOptArg :=
  {| fwo_Drop := fwo_Drop r; fwo_Trap := fwo_Trap r; fwo_Rdr := fwo_Rdr r; fwo_RdrPort := x;
     fwo_Allow := fwo_Allow r; fwo_Mark := fwo_Mark r; fwo_Record := fwo_Record r;
     fwo_DoSnat := fwo_DoSnat r; fwo_ToIP := fwo_ToIP r; fwo_ToPort := fwo_ToPort r;
     fwo_OnDefault := fwo_OnDefault r; fwo_Counter := fwo_Counter r |}.
Definition set_fwo_Allow (x : bool) (r : FwOptArg) : FwOptArg :=
  {| fwo_Drop := fwo_Drop r; fwo_Trap := fwo_Trap r; fwo_Rdr := fwo_Rdr r;
     fwo_RdrPort := fwo_RdrPort r; fwo_Allow := x; fwo_Mark := fwo_Mark r;
     fwo_Record := fwo_Record r; fwo_DoSnat := fwo_DoSnat r; fwo_ToIP := fwo_ToIP r;
     fwo_ToPort := fwo_ToPort r; fwo_OnDefault := fwo_OnDefault r; fwo_Counter := fwo_Counter r |}.
Definition set_fwo_Mark (x : uint32) (r : FwOptArg) : FwOptArg :=
  {| fwo_Drop := fwo_Drop r; fwo_Trap := fwo_Trap r; fwo_Rdr := fwo_Rdr r;
     fwo_RdrPort := fwo_RdrPort r; fwo_Allow := fwo_Allow r; fwo_Mark := x;
     fwo_Record := fwo_Record r; fwo_DoSnat := fwo_DoSnat r; fwo_ToIP := fwo_ToIP r;
     fwo_ToPort := fwo_ToPort r; fwo_OnDefault := fwo_OnDefault r; fwo_Counter := fwo_Counter r |}.
Definition set_fwo_Record (x : bool) (r : FwOptArg) : FwOptArg :=
  {| fwo_Drop := fwo_Drop r; fwo_Trap := fwo_Trap r; fwo_Rdr := fwo_Rdr r;
     fwo_RdrPort := fwo_RdrPort r; fwo_Allow := fwo_Allow r; fwo_Mark := fwo_Mark r;
     fwo_Record := x; fwo_DoSnat := fwo_DoSnat r; fwo_ToIP := fwo_ToIP r;
     fwo_ToPort := fwo_ToPort r; fwo_OnDefault := fwo_OnDefault r; fwo_Counter := fwo_Counter r |}.
Definition set_fwo_DoSnat (x : bool) (r : FwOptArg) : FwOptArg :=
  {| fwo_Drop := fwo_Drop r; fwo_Trap := fwo_Trap r; fwo_Rdr := fwo_Rdr r;
     fwo_RdrPort := fwo_RdrPort r; fwo_Allow := fwo_Allow r; fwo_Mark := fwo_Mark r;
     fwo_Record := fwo_Record r; fwo_DoSnat := x; fwo_ToIP := fwo_ToIP r;
     fwo_ToPort := fwo_ToPort r; fwo_OnDefault := fwo_OnDefault r; fwo_Counter := fwo_Counter r |}.
Definition set_fwo_ToIP (x : string) (r : FwOptArg) : FwOptArg :=
  {| fwo_Drop := fwo_Drop r; fwo_Trap := fwo_Trap r; fwo_Rdr := fwo_Rdr r;
     fwo_RdrPort := fwo_RdrPort r; fwo_Allow := fwo_Allow r; fwo_Mark := fwo_Mark r;
     fwo_Record := fwo_Record r; fwo_DoSnat := fwo_DoSnat r; fwo_ToIP := x;
     fwo_ToPort := fwo_ToPort r; fwo_OnDefault := fwo_OnDefault r; fwo_Counter := fwo_Counter r |}.
Definition set_fwo_ToPort (x : uint16) (r : FwOptArg) : FwOptArg :=
  {| fwo_Drop := fwo_Drop r; fwo_Trap := fwo_Trap r; fwo_Rdr := fwo_Rdr r;
     fwo_RdrPort := fwo_RdrPort r; fwo_Allow := fwo_Allow r; fwo_Mark := fwo_Mark r;
     fwo_Record := fwo_Record r; fwo_DoSnat := fwo_DoSnat r; fwo_ToIP := fwo_ToIP r;
     fwo_ToPort := x; fwo_OnDefault := fwo_OnDefault r; fwo_Counter := fwo_Counter r |}.
Definition set_fwo_OnDefault (x : bool) (r : FwOptArg) : FwOptArg :=
  {| fwo_Drop := fwo_Drop r; fwo_Trap := fwo_Trap r; fwo_Rdr := fwo_Rdr r;
     fwo_RdrPort := fwo_RdrPort r; fwo_Allow := fwo_Allow r; fwo_Mark := fwo_Mark r;
     fwo_Record := fwo_Record r; fwo_DoSnat := fwo_DoSnat r; fwo_ToIP := fwo_ToIP r;
     fwo_ToPort := fwo_ToPort r; fwo_OnDefault := x; fwo_Counter := fwo_Counter r |}.
Definition set_fwo_Counter (x : string) (r : FwOptArg) : FwOptArg :=
  {| fwo_Drop := fwo_Drop r; fwo_Trap := fwo_Trap r; fwo_Rdr := fwo_Rdr r;
     fwo_RdrPort := fwo_RdrPort r; fwo_Allow := fwo_Allow r; fwo_Mark := fwo_Mark r;
     fwo_Record := fwo_Record r; fwo_DoSnat := fwo_DoSnat r; fwo_ToIP := fwo_ToIP r;
     fwo_ToPort := fwo_ToPort r; fwo_OnDefault := fwo_OnDefault r; fwo_Counter := x |}.

Record FwRuleArg : Type := {
  fwr_SrcIP : string;
  fwr_DstIP : string;
  fwr_SrcPortMin : uint16;
  fwr_SrcPortMax : uint16;
  fwr_DstPortMin : uint16;
  fwr_DstPortMax : uint16;
  fwr_Proto : uint8;
  fwr_InPort : string;
  fwr_Pref : uint16
}.
#[global] Instance fw_rule_arg_value : GoValue FwRuleArg := {|
  go_zero := {| fwr_SrcIP := ""; fwr_DstIP := ""; fwr_SrcPortMin := U16 0;
                fwr_SrcPortMax := U16 0; fwr_DstPortMin := U16 0; fwr_DstPortMax := U16 0;
                fwr_Proto := U8 0; fwr_InPort := ""; fwr_Pref := U16 0 |};
  go_into strict old := decode_struct strict
    ["sourceIP"; "destinationIP"; "minSourcePort"; "maxSourcePort"; "minDestinationPort";
     "maxDestinationPort"; "protocol"; "portName"; "preference"] old (fun ms =>
    x0 ← field strict ms "sourceIP" (fwr_SrcIP old);
    x1 ← field strict ms "destinationIP" (fwr_DstIP old);
    x2 ← field strict ms "minSourcePort" (fwr_SrcPortMin old);
    x3 ← field strict ms "maxSourcePort" (fwr_SrcPortMax old);
    x4 ← field strict ms "minDestinationPort" (fwr_DstPortMin old);
    x5 ← field strict ms "maxDestinationPort" (fwr_DstPortMax old);
    x6 ← field strict ms "protocol" (fwr_Proto old);
    x7 ← field strict ms "portName" (fwr_InPort old);
    x8 ← field strict ms "preference" (fwr_Pref old);
    Some {| fwr_SrcIP := x0; fwr_DstIP := x1; fwr_SrcPortMin := x2; fwr_SrcPortMax := x3;
            fwr_DstPortMin := x4; fwr_DstPortMax := x5; fwr_Proto := x6; fwr_InPort := x7;
            fwr_Pref := x8 |}) |}.
Definition fw_rule_arg_json (r : FwRuleArg) : gojson :=
  GObj [("sourceIP", GStr (fwr_SrcIP r));
        ("destinationIP", GStr (fwr_DstIP r));
        ("minSourcePort", uint16_json (fwr_SrcPortMin r));
        ("maxSourcePort", uint16_json (fwr_SrcPortMax r));
        ("minDestinationPort", uint16_json (fwr_DstPortMin r));
        ("maxDestinationPort", uint16_json (fwr_DstPortMax r));
        ("protocol", uint8_json (fwr_Proto r));
        ("portName", GStr (fwr_InPort r));
        ("preference", uint16_json (fwr_Pref r))].

Definition set_fwr_SrcIP (x : string) (r : FwRuleArg) : FwRuleArg :=
  {| fwr_SrcIP := x; fwr_DstIP := fwr_DstIP r; fwr_SrcPortMin := fwr_SrcPortMin r;
     fwr_SrcPortMax := fwr_SrcPortMax r; fwr_DstPortMin := fwr_DstPortMin r;
     fwr_DstPortMax := fwr_DstPortMax r; fwr_Proto := fwr_Proto r; fwr_InPort := fwr_InPort r;
     fwr_Pref := fwr_Pref r |}.
Definition set_fwr_DstIP (x : string) (r : FwRuleArg) : FwRuleArg :=
  {| fwr_SrcIP := fwr_SrcIP r; fwr_DstIP := x; fwr_SrcPortMin := fwr_SrcPortMin r;
     fwr_SrcPortMax := fwr_SrcPortMax r; fwr_DstPortMin := fwr_DstPortMin r;
     fwr_DstPortMax := fwr_DstPortMax r; fwr_Proto := fwr_Proto r; fwr_InPort := fwr_InPort r;
     fwr_Pref := fwr_Pref r |}.
Definition set_fwr_SrcPortMin (x : uint16) (r : FwRuleArg) : FwRuleArg :=
  {| fwr_SrcIP := fwr_SrcIP r; fwr_DstIP := fwr_DstIP r; fwr_SrcPortMin := x;
     fwr_SrcPortMax := fwr_SrcPortMax r; fwr_DstPortMin := fwr_DstPortMin r;
     fwr_DstPortMax := fwr_DstPortMax r; fwr_Proto := fwr_Proto r; fwr_InPort := fwr_InPort r;
     fwr_Pref := fwr_Pref r |}.
Definition set_fwr_SrcPortMax (x : uint16) (r : FwRuleArg) : FwRuleArg :=
  {| fwr_SrcIP := fwr_SrcIP r; fwr_DstIP := fwr_DstIP r; fwr_SrcPortMin := fwr_SrcPortMin r;
     fwr_SrcPortMax := x; fwr_DstPortMin := fwr_DstPortMin r;
     fwr_DstPortMax := fwr_DstPortMax r; fwr_Proto := fwr_Proto r; fwr_InPort := fwr_InPort r;
     fwr_Pref := fwr_Pref r |}.
Definition set_fwr_DstPortMin (x : uint16) (r : FwRuleArg) : FwRuleArg :=
  {| fwr_SrcIP := fwr_SrcIP r; fwr_DstIP := fwr_DstIP r; fwr_SrcPortMin := fwr_SrcPortMin r;
     fwr_SrcPortMax := fwr_SrcPortMax r; fwr_DstPortMin := x;
     fwr_DstPortMax := fwr_DstPortMax r; fwr_Proto := fwr_Proto r; fwr_InPort := fwr_InPort r;
     fwr_Pref := fwr_Pref r |}.
Definition set_fwr_DstPortMax (x : uint16) (r : FwRuleArg) : FwRuleArg :=
  {| fwr_SrcIP := fwr_SrcIP r; fwr_DstIP := fwr_DstIP r; fwr_SrcPortMin := fwr_SrcPortMin r;
     fwr_SrcPortMax := fwr_SrcPortMax r; fwr_DstPortMin := fwr_DstPortMin r;
     fwr_DstPortMax := x; fwr_Proto := fwr_Proto r; fwr_InPort := fwr_InPort r;
     fwr_Pref := fwr_Pref r |}.
Definition set_fwr_Proto (x : uint8) (r : FwRuleArg) : FwRuleArg :=
  {| fwr_SrcIP := fwr_SrcIP r; fwr_DstIP := fwr_DstIP r; fwr_SrcPortMin := fwr_SrcPortMin r;
     fwr_SrcPortMax := fwr_SrcPortMax r; fwr_DstPortMin := fwr_DstPortMin r;
     fwr_DstPortMax := fwr_DstPortMax r; fwr_Proto := x; fwr_InPort := fwr_InPort r;
     fwr_Pref := fwr_Pref r |}.
Definition set_fwr_InPort (x : string) (r : FwRuleArg) : FwRuleArg :=
  {| fwr_SrcIP := fwr_SrcIP r; fwr_DstIP := fwr_DstIP r; fwr_SrcPortMin := fwr_SrcPortMin r;
     fwr_SrcPortMax := fwr_SrcPortMax r; fwr_DstPortMin := fwr_DstPortMin r;
     fwr_DstPortMax := fwr_DstPortMax r; fwr_Proto := fwr_Proto r; fwr_InPort := x;
     fwr_Pref := fwr_Pref r |}.
Definition set_fwr_Pref (x : uint16) (r : FwRuleArg) : FwRuleArg :=
  {| fwr_SrcIP := fwr_SrcIP r; fwr_DstIP := fwr_DstIP r; fwr_SrcPortMin := fwr_SrcPortMin r;
     fwr_SrcPortMax := fwr_SrcPortMax r; fwr_DstPortMin := fwr_DstPortMin r;
     fwr_DstPortMax := fwr_DstPortMax r; fwr_Proto := fwr_Proto r; fwr_InPort := fwr_InPort r;
     fwr_Pref := x |}.

Record FwRuleMod : Type := {
  fwm_Rule : FwRuleArg;
  fwm_Opts : FwOptArg
}.
#[global] Instance fw_rule_mod_value : GoValue FwRuleMod := {|
  go_zero := {| fwm_Rule := go_zero; fwm_Opts := go_zero |};
  go_into strict old := decode_struct strict
    ["ruleArguments"; "opts"] old (fun ms =>
    x0 ← field strict ms "ruleArguments" (fwm_Rule old);
    x1 ← field strict ms "opts" (fwm_Opts old);
    Some {| fwm_Rule := x0; fwm_Opts := x1 |}) |}.
Definition fw_rule_mod_json (r : FwRuleMod) : gojson :=
  GObj [("ruleArguments", fw_rule_arg_json (fwm_Rule r));
        ("opts", fw_opt_arg_json (fwm_Opts r))].

Record FWInformationGet : Type := {
  fwg_FWInfo : option (list FwRuleMod)
}.
#[global] Instance fw_information_get_value : GoValue FWInformationGet := {|
  go_zero := {| fwg_FWInfo := None |};
  go_into strict old := decode_struct strict
    ["fwAttr"] old (fun ms =>
    x0 ← field strict ms "fwAttr" (fwg_FWInfo old);
    Some {| fwg_FWInfo := x0 |}) |}.
Definition fw_information_get_json (r : FWInformationGet) : gojson :=
  GObj [("fwAttr", slice_json fw_rule_mod_json (fwg_FWInfo r))].

(** [ipaddress.go]. *)
Record Ipv4AddrGet : Type := {
  ipe_Dev : string;
  ipe_IP : option (list string);
  ipe_Sync : uint8
}.
#[global] Instance ipv4_addr_get_value : GoValue Ipv4AddrGet := {|
  go_zero := {| ipe_Dev := ""; ipe_IP := None; ipe_Sync := U8 0 |};
  go_into strict old := decode_struct strict
    ["dev"; "ipAddress"; "sync"] old (fun ms =>
    x0 ← field strict ms "dev" (ipe_Dev old);
    x1 ← field strict ms "ipAddress" (ipe_IP old);
    x2 ← field strict ms "sync" (ipe_Sync old);
    Some {| ipe_Dev := x0; ipe_IP := x1; ipe_Sync := x2 |}) |}.
Definition ipv4_addr_get_json (r : Ipv4AddrGet) : gojson :=
  GObj [("dev", GStr (ipe_Dev r));
        ("ipAddress", slice_json GStr (ipe_IP r));
        ("sync", uint8_json (ipe_Sync r))].

Record Ipv4AddrModGet : Type := {
  ipg_IPv4Attr : option (list Ipv4AddrGet)
}.
#[global] Instance ipv4_addr_mod_get_value : GoValue Ipv4AddrModGet := {|
  go_zero := {| ipg_IPv4Attr := None |};
  go_into strict old := decode_struct strict
    ["ipAttr"] old (fun ms =>
    x0 ← field strict ms "ipAttr" (ipg_IPv4Attr old);
    Some {| ipg_IPv4Attr := x0 |}) |}.
Definition ipv4_addr_mod_get_json (r : Ipv4AddrModGet) : gojson :=
  GObj [("ipAttr", slice_json ipv4_addr_get_json (ipg_IPv4Attr r))].

Record Ipv4AddrMod : Type := {
  ipm_Dev : string;
  ipm_IP : string
}.
#[global] Instance ipv4_addr_mod_value : GoValue Ipv4AddrMod := {|
  go_zero := {| ipm_Dev := ""; ipm_IP := "" |};
  go_into strict old := decode_struct strict
    ["dev"; "ipAddress"] old (fun ms =>
    x0 ← field strict ms "dev" (ipm_Dev old);
    x1 ← field strict ms "ipAddress" (ipm_IP old);
    Some {| ipm_Dev := x0; ipm_IP := x1 |}) |}.
Definition ipv4_addr_mod_json (r : Ipv4AddrMod) : gojson :=
  GObj [("dev", GStr (ipm_Dev r));
        ("ipAddress", GStr (ipm_IP r))].

(** [mirror.go]. *)
Record MirrInfo : Type := {
  mri_MirrType : Z;
  mri_MirrPort : string;
  mri_MirrVlan : Z;
  mri_MirrRip : string;
  mri_MirrSip : string;
  mri_MirrTid : Z
}.
#[global] Instance mirr_info_value : GoValue MirrInfo := {|
  go_zero := {| mri_MirrType := 0; mri_MirrPort := ""; mri_MirrVlan := 0; mri_MirrRip := "";
                mri_MirrSip := ""; mri_MirrTid := 0 |};
  go_into strict old := decode_struct strict
    ["type"; "port"; "vlan"; "remoteIP"; "sourceIP"; "tunnelID"] old (fun ms =>
    x0 ← field strict ms "type" (mri_MirrType old);
    x1 ← field strict ms "port" (mri_MirrPort old);
    x2 ← field strict ms "vlan" (mri_MirrVlan old);
    x3 ← field strict ms "remoteIP" (mri_MirrRip old);
    x4 ← field strict ms "sourceIP" (mri_MirrSip old);
    x5 ← field strict ms "tunnelID" (mri_MirrTid old);
    Some {| mri_MirrType := x0; mri_MirrPort := x1; mri_MirrVlan := x2; mri_MirrRip := x3;
            mri_MirrSip := x4; mri_MirrTid := x5 |}) |}.
Definition mirr_info_json (r : MirrInfo) : gojson :=
  GObj [("type", GInt (mri_MirrType r));
        ("port", GStr (mri_MirrPort r));
        ("vlan", GInt (mri_MirrVlan r));
        ("remoteIP", GStr (mri_MirrRip r));
        ("sourceIP", GStr (mri_MirrSip r));
        ("tunnelID", GInt (mri_MirrTid r))].

Definition set_mri_MirrType (x : Z) (r : MirrInfo) : MirrInfo :=
  {| mri_MirrType := x; mri_MirrPort := mri_MirrPort r; mri_MirrVlan := mri_MirrVlan r;
     mri_MirrRip := mri_MirrRip r; mri_MirrSip := mri_MirrSip r; mri_MirrTid := mri_MirrTid r |}.
Definition set_mri_MirrPort (x : string) (r : MirrInfo) : MirrInfo :=
  {| mri_MirrType := mri_MirrType r; mri_MirrPort := x; mri_MirrVlan := mri_MirrVlan r;
     mri_MirrRip := mri_MirrRip r; mri_MirrSip := mri_MirrSip r; mri_MirrTid := mri_MirrTid r |}.
Definition set_mri_MirrVlan (x : Z) (r : MirrInfo) : MirrInfo :=
  {| mri_MirrType := mri_MirrType r; mri_MirrPort := mri_MirrPort r; mri_MirrVlan := x;
     mri_MirrRip := mri_MirrRip r; mri_MirrSip := mri_MirrSip r; mri_MirrTid := mri_MirrTid r |}.
Definition set_mri_MirrRip (x : string) (r : MirrInfo) : MirrInfo :=
  {| mri_MirrType := mri_MirrType r; mri_MirrPort := mri_MirrPort r;
     mri_MirrVlan := mri_MirrVlan r; mri_MirrRip := x; mri_MirrSip := mri_MirrSip r;
     mri_MirrTid := mri_MirrTid r |}.
Definition set_mri_MirrSip (x : string) (r : MirrInfo) : MirrInfo :=
  {| mri_MirrType := mri_MirrType r; mri_MirrPort := mri_MirrPort r;
     mri_MirrVlan := mri_MirrVlan r; mri_MirrRip := mri_MirrRip r; mri_MirrSip := x;
     mri_MirrTid := mri_MirrTid r |}.
Definition set_mri_MirrTid (x : Z) (r : MirrInfo) : MirrInfo :=
  {| mri_MirrType := mri_MirrType r; mri_MirrPort := mri_MirrPort r;
     mri_MirrVlan := mri_MirrVlan r; mri_MirrRip := mri_MirrRip r; mri_MirrSip := mri_MirrSip r;
     mri_MirrTid := x |}.

Record MirrObj : Type := {
  mro_MirrObjName : string;
  mro_AttachMent : Z
}.
#[global] Instance mirr_obj_value : GoValue MirrObj := {|
  go_zero := {| mro_MirrObjName := ""; mro_AttachMent := 0 |};
  go_into strict old := decode_struct strict
    ["mirrObjName"; "attachment"] old (fun ms =>
    x0 ← field strict ms "mirrObjName" (mro_MirrObjName old);
    x1 ← field strict ms "attachment" (mro_AttachMent old);
    Some {| mro_MirrObjName := x0; mro_AttachMent := x1 |}) |}.
Definition mirr_obj_json (r : MirrObj) : gojson :=
  GObj [("mirrObjName", GStr (mro_MirrObjName r));
        ("attachment", GInt (mro_AttachMent r))].

Definition set_mro_MirrObjName (x : string) (r : MirrObj) : MirrObj :=
  {| mro_MirrObjName := x; mro_AttachMent := mro_AttachMent r |}.
Definition set_mro_AttachMent (x : Z) (r : MirrObj) : MirrObj :=
  {| mro_MirrObjName := mro_MirrObjName r; mro_AttachMent := x |}.

Record MirrMod : Type := {
  mrm_Ident : string;
  mrm_Info : MirrInfo;
  mrm_Target : MirrObj
}.
#[global] Instance mirr_mod_value : GoValue MirrMod := {|
  go_zero := {| mrm_Ident := ""; mrm_Info := go_zero; mrm_Target := go_zero |};
  go_into strict old := decode_struct strict
    ["mirrorIdent"; "mirrorInfo"; "targetObject"] old (fun ms =>
    x0 ← field strict ms "mirrorIdent" (mrm_Ident old);
    x1 ← field strict ms "mirrorInfo" (mrm_Info old);
    x2 ← field strict ms "targetObject" (mrm_Target old);
    Some {| mrm_Ident := x0; mrm_Info := x1; mrm_Target := x2 |}) |}.
Definition mirr_mod_json (r : MirrMod) : gojson :=
  GObj [("mirrorIdent", GStr (mrm_Ident r));
        ("mirrorInfo", mirr_info_json (mrm_Info r));
        ("targetObject", mirr_obj_json (mrm_Target r))].

Record MirrGetMod : Type := {
  mre_Ident : string;
  mre_Info : MirrInfo;
  mre_Target : MirrObj;
  mre_Sync : uint8
}.
#[global] Instance mirr_get_mod_value : GoValue MirrGetMod := {|
  go_zero := {| mre_Ident := ""; mre_Info := go_zero; mre_Target := go_zero; mre_Sync := U8 0 |};
  go_into strict old := decode_struct strict
    ["mirrorIdent"; "mirrorInfo"; "targetObject"; "sync"] old (fun ms =>
    x0 ← field strict ms "mirrorIdent" (mre_Ident old);
    x1 ← field strict ms "mirrorInfo" (mre_Info old);
    x2 ← field strict ms "targetObject" (mre_Target old);
    x3 ← field strict ms "sync" (mre_Sync old);
    Some {| mre_Ident := x0; mre_Info := x1; mre_Target := x2; mre_Sync := x3 |}) |}.
Definition mirr_get_mod_json (r : MirrGetMod) : gojson :=
  GObj [("mirrorIdent", GStr (mre_Ident r));
        ("mirrorInfo", mirr_info_json (mre_Info r));
        ("targetObject", mirr_obj_json (mre_Target r));
        ("sync", uint8_json (mre_Sync r))].

Record MirrorGet : Type := {
  mrg_Mirrors : option (list MirrGetMod)
}.
#[global] Instance mirror_get_value : GoValue MirrorGet := {|
  go_zero := {| mrg_Mirrors := None |};
  go_into strict old := decode_struct strict
    ["mirrAttr"] old (fun ms =>
    x0 ← field strict ms "mirrAttr" (mrg_Mirrors old);
    Some {| mrg_Mirrors := x0 |}) |}.
Definition mirror_get_json (r : MirrorGet) : gojson :=
  GObj [("mirrAttr", slice_json mirr_get_mod_json (mrg_Mirrors r))].

(** [neighbor.go]. *)
Record NeighborMod : Type := {
  nbm_Dev : string;
  nbm_IP : string;
  nbm_MacAddress : string
}.
#[global] Instance neighbor_mod_value : GoValue NeighborMod := {|
  go_zero := {| nbm_Dev := ""; nbm_IP := ""; nbm_MacAddress := "" |};
  go_into strict old := decode_struct strict
    ["dev"; "ipAddress"; "macAddress"] old (fun ms =>
    x0 ← field strict ms "dev" (nbm_Dev old);
    x1 ← field strict ms "ipAddress" (nbm_IP old);
    x2 ← field strict ms "macAddress" (nbm_MacAddress old);
    Some {| nbm_Dev := x0; nbm_IP := x1; nbm_MacAddress := x2 |}) |}.
Definition neighbor_mod_json (r : NeighborMod) : gojson :=
  GObj [("dev", GStr (nbm_Dev r));
        ("ipAddress", GStr (nbm_IP r));
        ("macAddress", GStr (nbm_MacAddress r))].

Record NeighborModGet : Type := {
  nbg_NeighborAttr : option (list NeighborMod)
}.
#[global] Instance neighbor_mod_get_value : GoValue NeighborModGet := {|
  go_zero := {| nbg_NeighborAttr := None |};
  go_into strict old := decode_struct strict
    ["neighborAttr"] old (fun ms =>
    x0 ← field strict ms "neighborAttr" (nbg_NeighborAttr old);
    Some {| nbg_NeighborAttr := x0 |}) |}.
Definition neighbor_mod_get_json (r : NeighborModGet) : gojson :=
  GObj [("neighborAttr", slice_json neighbor_mod_json (nbg_NeighborAttr r))].

(** [route.go]. *)
Record RouteGetEntryStatistic : Type := {
  rts_Bytes : Z;
  rts_Packets : Z
}.
#[global] Instance route_get_entry_statistic_value : GoValue RouteGetEntryStatistic := {|
  go_zero := {| rts_Bytes := 0; rts_Packets := 0 |};
  go_into strict old := decode_struct strict
    ["bytes"; "packets"] old (fun ms =>
    x0 ← field strict ms "bytes" (rts_Bytes old);
    x1 ← field strict ms "packets" (rts_Packets old);
    Some {| rts_Bytes := x0; rts_Packets := x1 |}) |}.
Definition route_get_entry_statistic_json (r : RouteGetEntryStatistic) : gojson :=
  GObj [("bytes", GInt (rts_Bytes r));
        ("packets", GInt (rts_Packets r))].

Record Routev4Get : Type := {
  rtm_Flags : string;
  rtm_Gw : string;
  rtm_Dst : string;
  rtm_HardwareMark : Z;
  rtm_Statistic : RouteGetEntryStatistic;
  rtm_Protocol : string
}.
#[global] Instance routev4_get_value : GoValue Routev4Get := {|
  go_zero := {| rtm_Flags := ""; rtm_Gw := ""; rtm_Dst := ""; rtm_HardwareMark := 0;
                rtm_Statistic := go_zero; rtm_Protocol := "" |};
  go_into strict old := decode_struct strict
    ["flags"; "gateway"; "destinationIPNet"; "hardwareMark"; "statistic"; "protocol"] old (fun ms =>
    x0 ← field strict ms "flags" (rtm_Flags old);
    x1 ← field strict ms "gateway" (rtm_Gw old);
    x2 ← field strict ms "destinationIPNet" (rtm_Dst old);
    x3 ← field strict ms "hardwareMark" (rtm_HardwareMark old);
    x4 ← field strict ms "statistic" (rtm_Statistic old);
    x5 ← field strict ms "protocol" (rtm_Protocol old);
    Some {| rtm_Flags := x0; rtm_Gw := x1; rtm_Dst := x2; rtm_HardwareMark := x3;
            rtm_Statistic := x4; rtm_Protocol := x5 |}) |}.
Definition routev4_get_json (r : Routev4Get) : gojson :=
  GObj [("flags", GStr (rtm_Flags r));
        ("gateway", GStr (rtm_Gw r));
        ("destinationIPNet", GStr (rtm_Dst r));
        ("hardwareMark", GInt (rtm_HardwareMark r));
        ("statistic", route_get_entry_statistic_json (rtm_Statistic r));
        ("protocol", GStr (rtm_Protocol r))].

Record RouteModGet : Type := {
  rtg_RouteAttr : option (list Routev4Get)
}.
#[global] Instance route_mod_get_value : GoValue RouteModGet := {|
  go_zero := {| rtg_RouteAttr := None |};
  go_into strict old := decode_struct strict
    ["routeAttr"] old (fun ms =>
    x0 ← field strict ms "routeAttr" (rtg_RouteAttr old);
    Some {| rtg_RouteAttr := x0 |}) |}.
Definition route_mod_get_json (r : RouteModGet) : gojson :=
  GObj [("routeAttr", slice_json routev4_get_json (rtg_RouteAttr r))].

(** [vlan.go]. *)
Record VlanMemberMod : Type := {
  vlm_Dev : string;
  vlm_Tagged : bool
}.
#[global] Instance vlan_member_mod_value : GoValue VlanMemberMod := {|
  go_zero := {| vlm_Dev := ""; vlm_Tagged := false |};
  go_into strict old := decode_struct strict
    ["dev"; "tagged"] old (fun ms =>
    x0 ← field strict ms "dev" (vlm_Dev old);
    x1 ← field strict ms "tagged" (vlm_Tagged old);
    Some {| vlm_Dev := x0; vlm_Tagged := x1 |}) |}.
Definition vlan_member_mod_json (r : VlanMemberMod) : gojson :=
  GObj [("dev", GStr (vlm_Dev r));
        ("tagged", GBool (vlm_Tagged r))].

Record VlanStat : Type := {
  vls_InBytes : uint64;
  vls_InPackets : uint64;
  vls_OutBytes : uint64;
  vls_OutPackets : uint64
}.
#[global] Instance vlan_stat_value : GoValue VlanStat := {|
  go_zero := {| vls_InBytes := U64 0; vls_InPackets := U64 0; vls_OutBytes := U64 0;
                vls_OutPackets := U64 0 |};
  go_into strict old := decode_struct strict
    ["InBytes"; "InPackets"; "OutBytes"; "OutPackets"] old (fun ms =>
    x0 ← field strict ms "InBytes" (vls_InBytes old);
    x1 ← field strict ms "InPackets" (vls_InPackets old);
    x2 ← field strict ms "OutBytes" (vls_OutBytes old);
    x3 ← field strict ms "OutPackets" (vls_OutPackets old);
    Some {| vls_InBytes := x0; vls_InPackets := x1; vls_OutBytes := x2; vls_OutPackets := x3 |}) |}.
Definition vlan_stat_json (r : VlanStat) : gojson :=
  GObj [("InBytes", uint64_json (vls_InBytes r));
        ("InPackets", uint64_json (vls_InPackets r));
        ("OutBytes", uint64_json (vls_OutBytes r));
        ("OutPackets", uint64_json (vls_OutPackets r))].

Record VlanDump : Type := {
  vld_Vid : Z;
  vld_Dev : string;
  vld_Member : option (list VlanMemberMod);
  vld_Statistic : VlanStat
}.
#[global] Instance vlan_dump_value : GoValue VlanDump := {|
  go_zero := {| vld_Vid := 0; vld_Dev := ""; vld_Member := None; vld_Statistic := go_zero |};
  go_into strict old := decode_struct strict
    ["vid"; "dev"; "member"; "vlanStatistic"] old (fun ms =>
    x0 ← field strict ms "vid" (vld_Vid old);
    x1 ← field strict ms "dev" (vld_Dev old);
    x2 ← field strict ms "member" (vld_Member old);
    x3 ← field strict ms "vlanStatistic" (vld_Statistic old);
    Some {| vld_Vid := x0; vld_Dev := x1; vld_Member := x2; vld_Statistic := x3 |}) |}.
Definition vlan_dump_json (r : VlanDump) : gojson :=
  GObj [("vid", GInt (vld_Vid r));
        ("dev", GStr (vld_Dev r));
        ("member", slice_json vlan_member_mod_json (vld_Member r));
        ("vlanStatistic", vlan_stat_json (vld_Statistic r))].

Record VlanGet : Type := {
  vlg_Vlans : option (list VlanDump)
}.
#[global] Instance vlan_get_value : GoValue VlanGet := {|
  go_zero := {| vlg_Vlans := None |};
  go_into strict old := decode_struct strict
    ["vlanAttr"] old (fun ms =>
    x0 ← field strict ms "vlanAttr" (vlg_Vlans old);
    Some {| vlg_Vlans := x0 |}) |}.
Definition vlan_get_json (r : VlanGet) : gojson :=
  GObj [("vlanAttr", slice_json vlan_dump_json (vlg_Vlans r))].

Record VlanBridgeMod : Type := {
  vlb_Vid : Z
}.
#[global] Instance vlan_bridge_mod_value : GoValue VlanBridgeMod := {|
  go_zero := {| vlb_Vid := 0 |};
  go_into strict old := decode_struct strict
    ["vid"] old (fun ms =>
    x0 ← field strict ms "vid" (vlb_Vid old);
    Some {| vlb_Vid := x0 |}) |}.
Definition vlan_bridge_mod_json (r : VlanBridgeMod) : gojson :=
  GObj [("vid", GInt (vlb_Vid r))].

(** [vxlan.go]. *)
Record VxlanDump : Type := {
  vxd_VxlanName : string;
  vxd_VxLanID : Z;
  vxd_EndpointDev : string;
  vxd_PeerIP : option (list string)
}.
#[global] Instance vxlan_dump_value : GoValue VxlanDump := {|
  go_zero := {| vxd_VxlanName := ""; vxd_VxLanID := 0; vxd_EndpointDev := ""; vxd_PeerIP := None |};
  go_into strict old := decode_struct strict
    ["vxlanName"; "vxlanID"; "epIntf"; "peerIP"] old (fun ms =>
    x0 ← field strict ms "vxlanName" (vxd_VxlanName old);
    x1 ← field strict ms "vxlanID" (vxd_VxLanID old);
    x2 ← field strict ms "epIntf" (vxd_EndpointDev old);
    x3 ← field strict ms "peerIP" (vxd_PeerIP old);
    Some {| vxd_VxlanName := x0; vxd_VxLanID := x1; vxd_EndpointDev := x2; vxd_PeerIP := x3 |}) |}.
Definition vxlan_dump_json (r : VxlanDump) : gojson :=
  GObj [("vxlanName", GStr (vxd_VxlanName r));
        ("vxlanID", GInt (vxd_VxLanID r));
        ("epIntf", GStr (vxd_EndpointDev r));
        ("peerIP", slice_json GStr (vxd_PeerIP r))].

Record VxlanGet : Type := {
  vxg_VxlanAttr : option (list VxlanDump)
}.
#[global] Instance vxlan_get_value : GoValue VxlanGet := {|
  go_zero := {| vxg_VxlanAttr := None |};
  go_into strict old := decode_struct strict
    ["vxlanAttr"] old (fun ms =>
    x0 ← field strict ms "vxlanAttr" (vxg_VxlanAttr old);
    Some {| vxg_VxlanAttr := x0 |}) |}.
Definition vxlan_get_json (r : VxlanGet) : gojson :=
  GObj [("vxlanAttr", slice_json vxlan_dump_json (vxg_VxlanAttr r))].

Record VxlanBridgeMod : Type := {
  vxb_VxLanID : Z;
  vxb_EndpointDev : string
}.
#[global] Instance vxlan_bridge_mod_value : GoValue VxlanBridgeMod := {|
  go_zero := {| vxb_VxLanID := 0; vxb_EndpointDev := "" |};
  go_into strict old := decode_struct strict
    ["vxlanID"; "epIntf"] old (fun ms =>
    x0 ← field strict ms "vxlanID" (vxb_VxLanID old);
    x1 ← field strict ms "epIntf" (vxb_EndpointDev old);
    Some {| vxb_VxLanID := x0; vxb_EndpointDev := x1 |}) |}.
Definition vxlan_bridge_mod_json (r : VxlanBridgeMod) : gojson :=
  GObj [("vxlanID", GInt (vxb_VxLanID r));
        ("epIntf", GStr (vxb_EndpointDev r))].

Record VxlanPeerMod : Type := {
  vxp_PeerIP : string
}.
#[global] Instance vxlan_peer_mod_value : GoValue VxlanPeerMod := {|
  go_zero := {| vxp_PeerIP := "" |};
  go_into strict old := decode_struct strict
    ["peerIP"] old (fun ms =>
    x0 ← field strict ms "peerIP" (vxp_PeerIP old);
    Some {| vxp_PeerIP := x0 |}) |}.
Definition vxlan_peer_mod_json (r : VxlanPeerMod) : gojson :=
  GObj [("peerIP", GStr (vxp_PeerIP r))].

(** [policy.go]. *)
Record PolInfo : Type := {
  poi_PolType : Z;
  poi_ColorAware : bool;
  poi_CommittedInfoRate : uint64;
  poi_PeakInfoRate : uint64;
  poi_CommittedBlkSize : uint64;
  poi_ExcessBlkSize : uint64
}.
#[global] Instance pol_info_value : GoValue PolInfo := {|
  go_zero := {| poi_PolType := 0; poi_ColorAware := false; poi_CommittedInfoRate := U64 0;
                poi_PeakInfoRate := U64 0; poi_CommittedBlkSize := U64 0;
                poi_ExcessBlkSize := U64 0 |};
  go_into strict old := decode_struct strict
    ["type"; "colorAware"; "committedInfoRate"; "peakInfoRate"; "committedBlkSize";
     "excessBlkSize"] old (fun ms =>
    x0 ← field strict ms "type" (poi_PolType old);
    x1 ← field strict ms "colorAware" (poi_ColorAware old);
    x2 ← field strict ms "committedInfoRate" (poi_CommittedInfoRate old);
    x3 ← field strict ms "peakInfoRate" (poi_PeakInfoRate old);
    x4 ← field strict ms "committedBlkSize" (poi_CommittedBlkSize old);
    x5 ← field strict ms "excessBlkSize" (poi_ExcessBlkSize old);
    Some {| poi_PolType := x0; poi_ColorAware := x1; poi_CommittedInfoRate := x2;
            poi_PeakInfoRate := x3; poi_CommittedBlkSize := x4; poi_ExcessBlkSize := x5 |}) |}.
Definition pol_info_json (r : PolInfo) : gojson :=
  GObj [("type", GInt (poi_PolType r));
        ("colorAware", GBool (poi_ColorAware r));
        ("committedInfoRate", uint64_json (poi_CommittedInfoRate r));
        ("peakInfoRate", uint64_json (poi_PeakInfoRate r));
        ("committedBlkSize", uint64_json (poi_CommittedBlkSize r));
        ("excessBlkSize", uint64_json (poi_ExcessBlkSize r))].

Definition set_poi_PolType (x : Z) (r : PolInfo) : PolInfo :=
  {| poi_PolType := x; poi_ColorAware := poi_ColorAware r;
     poi_CommittedInfoRate := poi_CommittedInfoRate r; poi_PeakInfoRate := poi_PeakInfoRate r;
     poi_CommittedBlkSize := poi_CommittedBlkSize r; poi_ExcessBlkSize := poi_ExcessBlkSize r |}.
Definition set_poi_ColorAware (x : bool) (r : PolInfo) : PolInfo :=
  {| poi_PolType := poi_PolType r; poi_ColorAware := x;
     poi_CommittedInfoRate := poi_CommittedInfoRate r; poi_PeakInfoRate := poi_PeakInfoRate r;
     poi_CommittedBlkSize := poi_CommittedBlkSize r; poi_ExcessBlkSize := poi_ExcessBlkSize r |}.
Definition set_poi_CommittedInfoRate (x : uint64) (r : PolInfo) : PolInfo :=
  {| poi_PolType := poi_PolType r; poi_ColorAware := poi_ColorAware r;
     poi_CommittedInfoRate := x; poi_PeakInfoRate := poi_PeakInfoRate r;
     poi_CommittedBlkSize := poi_CommittedBlkSize r; poi_ExcessBlkSize := poi_ExcessBlkSize r |}.
Definition set_poi_PeakInfoRate (x : uint64) (r : PolInfo) : PolInfo :=
  {| poi_PolType := poi_PolType r; poi_ColorAware := poi_ColorAware r;
     poi_CommittedInfoRate := poi_CommittedInfoRate r; poi_PeakInfoRate := x;
     poi_CommittedBlkSize := poi_CommittedBlkSize r; poi_ExcessBlkSize := poi_ExcessBlkSize r |}.
Definition set_poi_CommittedBlkSize (x : uint64) (r : PolInfo) : PolInfo :=
  {| poi_PolType := poi_PolType r; poi_ColorAware := poi_ColorAware r;
     poi_CommittedInfoRate := poi_CommittedInfoRate r; poi_PeakInfoRate := poi_PeakInfoRate r;
     poi_CommittedBlkSize := x; poi_ExcessBlkSize := poi_ExcessBlkSize r |}.
Definition set_poi_ExcessBlkSize (x : uint64) (r : PolInfo) : PolInfo :=
  {| poi_PolType := poi_PolType r; poi_ColorAware := poi_ColorAware r;
     poi_CommittedInfoRate := poi_CommittedInfoRate r; poi_PeakInfoRate := poi_PeakInfoRate r;
     poi_CommittedBlkSize := poi_CommittedBlkSize r; poi_ExcessBlkSize := x |}.

Record PolObj : Type := {
  poo_PolObjName : string;
  poo_AttachMent : uint64
}.
#[global] Instance pol_obj_value : GoValue PolObj := {|
  go_zero := {| poo_PolObjName := ""; poo_AttachMent := U64 0 |};
  go_into strict old := decode_struct strict
    ["polObjName"; "attachment"] old (fun ms =>
    x0 ← field strict ms "polObjName" (poo_PolObjName old);
    x1 ← field strict ms "attachment" (poo_AttachMent old);
    Some {| poo_PolObjName := x0; poo_AttachMent := x1 |}) |}.
Definition pol_obj_json (r : PolObj) : gojson :=
  GObj [("polObjName", GStr (poo_PolObjName r));
        ("attachment", uint64_json (poo_AttachMent r))].

Record PolMod : Type := {
  pom_Ident : string;
  pom_Info : PolInfo;
  pom_Target : PolObj;
  pom_Attached : option bool
}.
#[global] Instance pol_mod_value : GoValue PolMod := {|
  go_zero := {| pom_Ident := ""; pom_Info := go_zero; pom_Target := go_zero;
                pom_Attached := None |};
  go_into strict old := decode_struct strict
    ["policyIdent"; "policyInfo"; "targetObject"; "attached"] old (fun ms =>
    x0 ← field strict ms "policyIdent" (pom_Ident old);
    x1 ← field strict ms "policyInfo" (pom_Info old);
    x2 ← field strict ms "targetObject" (pom_Target old);
    x3 ← field strict ms "attached" (pom_Attached old);
    Some {| pom_Ident := x0; pom_Info := x1; pom_Target := x2; pom_Attached := x3 |}) |}.
Definition pol_mod_json (r : PolMod) : gojson :=
  GObj ([("policyIdent", GStr (pom_Ident r));
         ("policyInfo", pol_info_json (pom_Info r));
         ("targetObject", pol_obj_json (pom_Target r))]
        ++ omit_nil "attached" GBool (pom_Attached r)).

Record PolInformationGet : Type := {
  pog_PolModInfo : option (list PolMod)
}.
#[global] Instance pol_information_get_value : GoValue PolInformationGet := {|
  go_zero := {| pog_PolModInfo := None |};
  go_into strict old := decode_struct strict
    ["polAttr"] old (fun ms =>
    x0 ← field strict ms "polAttr" (pog_PolModInfo old);
    Some {| pog_PolModInfo := x0 |}) |}.
Definition pol_information_get_json (r : PolInformationGet) : gojson :=
  GObj [("polAttr", slice_json pol_mod_json (pog_PolModInfo r))].

(** [session.go]. *)
Record SessTun : Type := {
  stn_TeID : uint32;
  stn_Addr : net_ip
}.
#[global] Instance sess_tun_value : GoValue SessTun := {|
  go_zero := {| stn_TeID := U32 0; stn_Addr := go_zero |};
  go_into strict old := decode_struct strict
    ["teID"; "tunnelIP"] old (fun ms =>
    x0 ← field strict ms "teID" (stn_TeID old);
    x1 ← field strict ms "tunnelIP" (stn_Addr old);
    Some {| stn_TeID := x0; stn_Addr := x1 |}) |}.
Definition sess_tun_json (r : SessTun) : gojson :=
  GObj [("teID", uint32_json (stn_TeID r));
        ("tunnelIP", net_ip_json (stn_Addr r))].

Record SessionMod : Type := {
  ssm_Ident : string;
  ssm_Ip : net_ip;
  ssm_AnTun : SessTun;
  ssm_CnTun : SessTun
}.
#[global] Instance session_mod_value : GoValue SessionMod := {|
  go_zero := {| ssm_Ident := ""; ssm_Ip := go_zero; ssm_AnTun := go_zero; ssm_CnTun := go_zero |};
  go_into strict old := decode_struct strict
    ["ident"; "sessionIP"; "accessNetworkTunnel"; "coreNetworkTunnel"] old (fun ms =>
    x0 ← field strict ms "ident" (ssm_Ident old);
    x1 ← field strict ms "sessionIP" (ssm_Ip old);
    x2 ← field strict ms "accessNetworkTunnel" (ssm_AnTun old);
    x3 ← field strict ms "coreNetworkTunnel" (ssm_CnTun old);
    Some {| ssm_Ident := x0; ssm_Ip := x1; ssm_AnTun := x2; ssm_CnTun := x3 |}) |}.
Definition session_mod_json (r : SessionMod) : gojson :=
  GObj [("ident", GStr (ssm_Ident r));
        ("sessionIP", net_ip_json (ssm_Ip r));
        ("accessNetworkTunnel", sess_tun_json (ssm_AnTun r));
        ("coreNetworkTunnel", sess_tun_json (ssm_CnTun r))].

Record SessionInformationGet : Type := {
  ssg_SessionInfo : option (list SessionMod)
}.
#[global] Instance session_information_get_value : GoValue SessionInformationGet := {|
  go_zero := {| ssg_SessionInfo := None |};
  go_into strict old := decode_struct strict
    ["sessionAttr"] old (fun ms =>
    x0 ← field strict ms "sessionAttr" (ssg_SessionInfo old);
    Some {| ssg_SessionInfo := x0 |}) |}.
Definition session_information_get_json (r : SessionInformationGet) : gojson :=
  GObj [("sessionAttr", slice_json session_mod_json (ssg_SessionInfo r))].

(** [sessionulcl.go]. *)
Record UlClArg : Type := {
  uca_Addr : net_ip;
  uca_Qfi : uint8
}.
#[global] Instance ul_cl_arg_value : GoValue UlClArg := {|
  go_zero := {| uca_Addr := go_zero; uca_Qfi := U8 0 |};
  go_into strict old := decode_struct strict
    ["ulclIP"; "qfi"] old (fun ms =>
    x0 ← field strict ms "ulclIP" (uca_Addr old);
    x1 ← field strict ms "qfi" (uca_Qfi old);
    Some {| uca_Addr := x0; uca_Qfi := x1 |}) |}.
Definition ul_cl_arg_json (r : UlClArg) : gojson :=
  GObj [("ulclIP", net_ip_json (uca_Addr r));
        ("qfi", uint8_json (uca_Qfi r))].

Record SessionUlClMod : Type := {
  ucm_Ident : string;
  ucm_Args : UlClArg
}.
#[global] Instance session_ul_cl_mod_value : GoValue SessionUlClMod := {|
  go_zero := {| ucm_Ident := ""; ucm_Args := go_zero |};
  go_into strict old := decode_struct strict
    ["ulclIdent"; "ulclArgument"] old (fun ms =>
    x0 ← field strict ms "ulclIdent" (ucm_Ident old);
    x1 ← field strict ms "ulclArgument" (ucm_Args old);
    Some {| ucm_Ident := x0; ucm_Args := x1 |}) |}.
Definition session_ul_cl_mod_json (r : SessionUlClMod) : gojson :=
  GObj [("ulclIdent", GStr (ucm_Ident r));
        ("ulclArgument", ul_cl_arg_json (ucm_Args r))].

Record UlclInformationGet : Type := {
  ucg_UlclInfo : option (list SessionUlClMod)
}.
#[global] Instance ulcl_information_get_value : GoValue UlclInformationGet := {|
  go_zero := {| ucg_UlclInfo := None |};
  go_into strict old := decode_struct strict
    ["ulclAttr"] old (fun ms =>
    x0 ← field strict ms "ulclAttr" (ucg_UlclInfo old);
    Some {| ucg_UlclInfo := x0 |}) |}.
Definition ulcl_information_get_json (r : UlclInformationGet) : gojson :=
  GObj [("ulclAttr", slice_json session_ul_cl_mod_json (ucg_UlclInfo r))].

(** [sni.go]. *)
Record SNICertificateEntry : Type := {
  sne_Hostname : string;
  sne_CertPath : string
}.
#[global] Instance sni_certificate_entry_value : GoValue SNICertificateEntry := {|
  go_zero := {| sne_Hostname := ""; sne_CertPath := "" |};
  go_into strict old := decode_struct strict
    ["hostname"; "certPath"] old (fun ms =>
    x0 ← field strict ms "hostname" (sne_Hostname old);
    x1 ← field strict ms "certPath" (sne_CertPath old);
    Some {| sne_Hostname := x0; sne_CertPath := x1 |}) |}.
Definition sni_certificate_entry_json (r : SNICertificateEntry) : gojson :=
  GObj ([("hostname", GStr (sne_Hostname r))]
        ++ omit_str "certPath" (sne_CertPath r)).

(** [user.go]. *)
Record UserModel : Type := {
  usr_Username : string;
  usr_Password : string;
  usr_Role : string;
  usr_ID : Z;
  usr_CreatedAt : string
}.
#[global] Instance user_model_value : GoValue UserModel := {|
  go_zero := {| usr_Username := ""; usr_Password := ""; usr_Role := ""; usr_ID := 0;
                usr_CreatedAt := "" |};
  go_into strict old := decode_struct strict
    ["username"; "password"; "role"; "id"; "created_at"] old (fun ms =>
    x0 ← field strict ms "username" (usr_Username old);
    x1 ← field strict ms "password" (usr_Password old);
    x2 ← field strict ms "role" (usr_Role old);
    x3 ← field strict ms "id" (usr_ID old);
    x4 ← field strict ms "created_at" (usr_CreatedAt old);
    Some {| usr_Username := x0; usr_Password := x1; usr_Role := x2; usr_ID := x3;
            usr_CreatedAt := x4 |}) |}.
Definition user_model_json (r : UserModel) : gojson :=
  GObj ([("username", GStr (usr_Username r));
         ("password", GStr (usr_Password r))]
        ++ omit_str "role" (usr_Role r)
        ++ omit_int "id" (usr_ID r)
        ++ omit_str "created_at" (usr_CreatedAt r)).
