(* ===== verification/DeleteCmds.v ===== *)
(** * The delete commands: [cmd/delete]

    Each command with the validation of its arguments, in the order of the
    code: some make the client before they look at the arguments. *)
From S2P Require Import Prelude GoStrings GoNet Json JsonPrint World Errors Exitcode.
From S2P Require Import Rest FeatureGate Commands.

(** The first argument, a number. *)
Definition integer_arg (args : list string) : check :=
  with_arg args 0 Crashed (fun a =>
    match atoi a with
    | Some _ => Passed
    | None => Refused (atoi_error a)
    end).

(** What is said of more arguments than [n]. *)
Definition too_many (args : list string) (n : nat) (text : string) : IO unit :=
  if (n <? length args)%nat then say (text +:+ nl) else mret tt.

Section Commands.
Context `{GoLib}.
Variable restOptions : RESTOptions.

(** The old commands end alike. *)
Definition delete_old (op failure : string) (api : CommonAPI) : IO outcome :=
  answered (bracket failure) (Delete api) (resource_answer true restOptions op).

(* ------------------------------------------------------------------ *)
(** ** Devices, addresses, routes                                      *)
(* ------------------------------------------------------------------ *)

Definition DeleteFDBValidation (args : list string) : IO check :=
  _ ← too_many args 3 "delete FDB command get so many args";
  mret (if (length args <=? 1)%nat
        then Refused "delete IP Address need <MacAddress> <device> args"
        else with_arg args 0 Crashed (fun mac =>
               if is_mac mac then Passed
               else Refused (sprintf ["MacAddress '"; mac; "' is invalid format"]))).

Definition delete_fdb (args : list string) : IO outcome :=
  if (length args =? 0)%nat then fail_with (Usagef "delete fdb needs its arguments") else
  c ← DeleteFDBValidation args;
  when_valid c (fun _ => Invalidf "not valid <MacAddress>")
    (with_arg args 0 (mret Panics) (fun MacAddress =>
     with_arg args 1 (mret Panics) (fun Device =>
       client ← NewLoxiClient restOptions;
       delete_old "delete fdb" ("Failed to delete FDB : " +:+ MacAddress)
         (SubResources (Client.FDB client) [MacAddress; "dev"; Device])))).

Definition DeleteIPv4AddressValidation (args : list string) : IO check :=
  _ ← too_many args 3 "delete IPv4Address command get so many args";
  mret (if (length args <=? 1)%nat
        then Refused "delete IP Address need <DeviceIPNet> <device> args"
        else with_arg args 0 Crashed (fun net =>
               if is_cidr net then Passed
               else Refused (sprintf ["DeviceIPNet '"; net; "' is invalid format"]))).

Definition delete_ip (args : list string) : IO outcome :=
  if (length args =? 0)%nat then fail_with (Usagef "delete ip needs its arguments") else
  c ← DeleteIPv4AddressValidation args;
  when_valid c (fun _ => Invalidf "not valid <DeviceIPNet>")
    (with_arg args 0 (mret Panics) (fun DeviceIPNet =>
     with_arg args 1 (mret Panics) (fun Device =>
       client ← NewLoxiClient restOptions;
       delete_old "delete ip" ("Failed to delete IPv4Address : " +:+ DeviceIPNet)
         (SubResources (Client.IPv4Address client) [DeviceIPNet; "dev"; Device])))).

Definition DeleteNeighborsValidation (args : list string) : IO check :=
  _ ← too_many args 3 "delete Neighbors command get so many args";
  mret (if (length args <=? 1)%nat
        then Refused "delete IP Address need <DeviceIP> <device> args"
        else with_arg args 0 Crashed (fun ip =>
               if is_ip ip then Passed
               else Refused (sprintf ["DeviceIP '"; ip; "' is invalid format"]))).

Definition delete_neighbor (args : list string) : IO outcome :=
  if (length args =? 0)%nat then fail_with (Usagef "delete neighbor needs its arguments") else
  c ← DeleteNeighborsValidation args;
  when_valid c (fun _ => Invalidf "not valid <DeviceIP>")
    (with_arg args 0 (mret Panics) (fun DeviceIP =>
     with_arg args 1 (mret Panics) (fun Device =>
       client ← NewLoxiClient restOptions;
       delete_old "delete neighbor" ("Failed to delete Neighbors : " +:+ DeviceIP)
         (SubResources (Client.Neighbor client) [DeviceIP; "dev"; Device])))).

(** The error of a bad network names the second argument. *)
Definition DeleteRouteValidation (args : list string) : IO check :=
  _ ← too_many args 3 "delete Route command get so many args";
  mret (with_arg args 0 (Refused "delete Route need <DestinationIPNet> args") (fun net =>
          if is_cidr net then Passed
          else with_arg args 1 Crashed (fun gw =>
                 Refused (sprintf ["DestinationIPNet '"; gw; "' is invalid format"])))).

Definition delete_route (args : list string) : IO outcome :=
  if (length args =? 0)%nat then fail_with (Usagef "delete route needs its arguments") else
  c ← DeleteRouteValidation args;
  when_valid c (fun _ => Invalidf "not valid <DestinationIPNet>")
    (with_arg args 0 (mret Panics) (fun DestinationIPNet =>
       client ← NewLoxiClient restOptions;
       delete_old "delete route" (sprintf ["Failed to delete Route(UserID: "; DestinationIPNet; ")"])
         (SubResources (Client.Route client) ["destinationIPNet"; DestinationIPNet]))).

Definition DeleteVlanBridgeValidation (args : list string) : IO check :=
  _ ← too_many args 1 "delete VlanBridge command get so many args";
  mret (integer_arg args).

Definition delete_vlan (args : list string) : IO outcome :=
  if (length args =? 0)%nat then fail_with (Usagef "delete vlan needs its arguments") else
  c ← DeleteVlanBridgeValidation args;
  when_valid c (fun _ => Invalidf "not valid <Vid>")
    (with_arg args 0 (mret Panics) (fun Vid =>
       client ← NewLoxiClient restOptions;
       delete_old "delete vlan" ("Failed to delete VlanBridge : " +:+ Vid)
         (SubResources (Client.Vlan client) [Vid]))).

Definition DeleteVlanMemberValidation (args : list string) : IO check :=
  _ ← too_many args 3 "delete VlanMember command get so many args";
  mret (integer_arg args).

Definition delete_vlanmember (tagged : bool) (args : list string) : IO outcome :=
  if (length args =? 0)%nat then fail_with (Usagef "delete vlanmember needs its arguments") else
  c ← DeleteVlanMemberValidation args;
  when_valid c (fun _ => Invalidf "not valid <Vid>")
    (with_arg args 0 (mret Panics) (fun Vid =>
     with_arg args 1 (mret Panics) (fun Dev =>
       client ← NewLoxiClient restOptions;
       delete_old "delete vlanmember" ("Failed to delete VlanMember : " +:+ Vid)
         (SubResources (Client.Vlan client) [Vid; "member"; Dev; "tagged"; bool_str tagged])))).

Definition DeletevxlanBridgeValidation (args : list string) : IO check :=
  _ ← too_many args 1 "delete vxlanBridge command get so many args";
  mret (integer_arg args).

Definition delete_vxlan (args : list string) : IO outcome :=
  if (length args =? 0)%nat then fail_with (Usagef "delete vxlan needs its arguments") else
  c ← DeletevxlanBridgeValidation args;
  when_valid c (fun _ => Invalidf "not valid <Vnid>")
    (with_arg args 0 (mret Panics) (fun Vnid =>
       client ← NewLoxiClient restOptions;
       delete_old "delete vxlan" ("Failed to delete vxlanBridge : " +:+ Vnid)
         (SubResources (Client.Vxlan client) [Vnid]))).

Definition DeleteVxlanPeerValidation (args : list string) : IO check :=
  _ ← too_many args 3 "delete vxlanPeer command get so many args";
  mret (integer_arg args).

Definition delete_vxlanpeer (args : list string) : IO outcome :=
  if (length args =? 0)%nat then fail_with (Usagef "delete vxlanpeer needs its arguments") else
  c ← DeleteVxlanPeerValidation args;
  when_valid c (fun _ => Invalidf "not valid <Vnid>")
    (with_arg args 0 (mret Panics) (fun Vnid =>
     with_arg args 1 (mret Panics) (fun PeerIP =>
       client ← NewLoxiClient restOptions;
       delete_old "delete vxlanpeer" ("Failed to delete vxlanPeer : " +:+ Vnid)
         (SubResources (Client.Vxlan client) [Vnid; "peer"; PeerIP])))).

(* ------------------------------------------------------------------ *)
(** ** Peers, probes, policies, sessions                               *)
(* ------------------------------------------------------------------ *)

Definition delete_bfd (instance : string) (args : list string) : IO outcome :=
  with_arg args 0 (fail_with (Usagef "delete bfd needs its arguments")) (fun ip =>
    client ← NewLoxiClient restOptions;
    if negb (is_ip ip) then failed_with (sprintf ["remoteIP '"; ip; "' is invalid format"])
    else delete_old "delete bfd" "Failed to delete bfd session"
           (Query (SubResources (Client.BFDSession client) ["remoteIP"; ip]) [("instance", instance)])).

Definition DeleteBGPNeighborValidation (args : list string) : IO check :=
  _ ← too_many args 3 "delete BGPNeighbor command get so many args";
  mret (if (length args <=? 1)%nat
        then Refused "delete IP Address need <MacAddress> <device> args"
        else with_arg args 0 Crashed (fun ip =>
             with_arg args 1 Crashed (fun asn =>
               if negb (is_ip ip) then Refused (sprintf ["peer IP '"; ip; "' is invalid format"])
               else match atoi asn with
                    | Some val =>
                        if (65535 <? val)%Z || (val <? 0)%Z
                        then Refused (sprintf ["remoteAS '"; asn; "' is invalid format"])
                        else Passed
                    | None => Refused (sprintf ["remoteAS '"; asn; "' is invalid format"])
                    end))).

Definition delete_bgpneighbor (args : list string) : IO outcome :=
  if (length args =? 0)%nat then fail_with (Usagef "delete bgpneighbor needs its arguments") else
  c ← DeleteBGPNeighborValidation args;
  when_valid c (fun e => Invalidf ("not valid <PeerIP> or <RemoteAs>: " +:+ e))
    (with_arg args 0 (mret Panics) (fun PeerIP =>
     with_arg args 1 (mret Panics) (fun RemoteAS =>
       client ← NewLoxiClient restOptions;
       delete_old "delete bgpneighbor" ("Failed to delete BGPNeighbor : " +:+ PeerIP)
         (Query (SubResources (Client.BGPNeighbor client) [PeerIP]) [("remoteAs", RemoteAS)])))).

Record DeleteEndPoint : Type := {
  de_Name : string;
  de_ProbeType : string;
  de_ProbePort : Z
}.

Definition delete_endpoint (o : DeleteEndPoint) (args : list string) : IO outcome :=
  with_arg args 0 (fail_with (Usagef "delete endpoint needs its arguments")) (fun ip =>
    client ← NewLoxiClient restOptions;
    if negb (is_ip ip) then failed_with (sprintf ["HOSTIP '"; ip; "' is invalid format"])
    else match probe_checks (de_ProbeType o) (de_ProbePort o) with
         | Err e => failed_with e
         | Ok _ =>
             delete_old "delete endpoint" "Failed to delete EndPoint"
               (Query (SubResources (Client.EndPoint client) ["epipaddress"; ip])
                  [("name", de_Name o); ("probe_type", de_ProbeType o);
                   ("probe_port", itoa (de_ProbePort o))])
         end).

(** One entry of the rule: a key and the rest of a value that may be an IPv6
    prefix. *)
Definition firewall_entry (v : string) : result string (string * string) :=
  match split ":"%char v with
  | key :: value :: rest =>
      Ok (key, if str_in key ["sourceIP"; "destinationIP"] && negb (length rest =? 0)%nat
               then join ":" (value :: rest) else value)
  | _ => Err "error: Failed to delete Firewall - format error"
  end.

Definition MakefirewallDeleteQuery (FirewallRule : list string)
    : result string (gmap string string) :=
  entries ← map_each firewall_entry FirewallRule;
  Ok (fold_left (fun query e => <[e.1 := e.2]> query) entries ∅).

Definition delete_firewall (FirewallRule : list string) : IO outcome :=
  if (length FirewallRule =? 0)%nat then fail_with (Usagef "delete firewall needs --firewallRule")
  else
    client ← NewLoxiClient restOptions;
    match MakefirewallDeleteQuery FirewallRule with
    | Err e => failed_with ("not a valid --firewallRule: " +:+ e)
    | Ok query =>
        delete_old "delete firewall" "Failed to delete Firewall"
          (Query (Client.Firewall client) (map_to_list query))
    end.

Definition delete_mirror (args : list string) : IO outcome :=
  with_arg args 0 (fail_with (Usagef "delete mirror needs its arguments")) (fun MirrorIdent =>
    _ ← too_many args 1 "delete Mirror command get so many args";
    client ← NewLoxiClient restOptions;
    delete_old "delete mirror" ("Failed to delete Mirror : " +:+ MirrorIdent)
      (SubResources (Client.Mirror client) ["ident"; MirrorIdent])).

(** The validation of the commands that take one name. *)
Definition one_name (text need : string) (args : list string) : IO check :=
  if (1 <? length args)%nat
  then _ ← say (text +:+ nl); _ ← say (args_line args); mret Passed
  else mret (if (length args =? 0)%nat then Refused need else Passed).

Definition DeletePolicyValidation : list string -> IO check :=
  one_name "delete Policy command get so many args" "delete Policy need <Policy IDENT> args".

Definition delete_policy (args : list string) : IO outcome :=
  if (length args =? 0)%nat then fail_with (Usagef "delete policy needs its arguments") else
  c ← DeletePolicyValidation args;
  when_valid c (fun _ => Invalidf "not valid <IDENT>")
    (with_arg args 0 (mret Panics) (fun Ident =>
       client ← NewLoxiClient restOptions;
       delete_old "delete policy" (sprintf ["Failed to delete Policy(IDENT: "; Ident; ")"])
         (SubResources (Client.Policy client) ["ident"; Ident]))).

Definition DeleteSessionValidation : list string -> IO check :=
  one_name "delete Session command get so many args" "delete Session need <UserID> args".

Definition delete_session (args : list string) : IO outcome :=
  if (length args =? 0)%nat then fail_with (Usagef "delete session needs its arguments") else
  c ← DeleteSessionValidation args;
  when_valid c (fun _ => Invalidf "not valid <UserID>")
    (with_arg args 0 (mret Panics) (fun UserID =>
       client ← NewLoxiClient restOptions;
       delete_old "delete session" (sprintf ["Failed to delete Session(UserID: "; UserID; ")"])
         (SubResources (Client.Session client) ["ident"; UserID]))).

(** One deletion after the other, with the same client, up to the first that
    is not confirmed. *)
Fixpoint delete_each (send : string -> IO http_result) (failure op : string) (l : list string)
    : IO outcome :=
  match l with
  | [] => succeed
  | x :: l' =>
      answered (bracket failure) (send x) (fun resp =>
        _ ← say (sprintf ["Debug: response.StatusCode: "; itoa (hr_status resp); nl]);
        if negb (hr_status resp =? 200)%Z then fail_with (FromHTTPStatus op (hr_status resp))
        else _ ← PrintDeleteResult resp restOptions; delete_each send failure op l')
  end.

Definition DeleteSessionUlClValidation : list string -> IO check :=
  one_name "delete Session command get so many args" "delete Session need <UserID> args".

Definition delete_sessionulcl (UlClArgs args : list string) : IO outcome :=
  if (length args =? 0)%nat then fail_with (Usagef "delete sessionulcl needs its arguments") else
  c ← DeleteSessionUlClValidation args;
  when_valid c (fun _ => Invalidf "not valid <UserID>")
    (with_arg args 0 (mret Panics) (fun UserID =>
       client ← NewLoxiClient restOptions;
       delete_each
         (fun ulclIP => Delete (SubResources (Client.SessionUlCL client)
                                  ["ident"; UserID; "ulclAddress"; ulclIP]))
         (sprintf ["Failed to delete Session(UserID: "; UserID; ")"])
         "delete sessionulcl" UlClArgs)).

(* ------------------------------------------------------------------ *)
(** ** Keys, certificates, features                                    *)
(* ------------------------------------------------------------------ *)

Definition delete_managed (op done_ : string) (send : LoxiClient -> IO http_result) : IO outcome :=
  client ← NewLoxiClient restOptions;
  answered (colon op) (send client) (managed_answer [200; 204]%Z op (say done_)).

Definition delete_apikey (args : list string) : IO outcome :=
  match args with
  | [key] =>
      delete_managed "delete apikey" (sprintf ["API key '"; key; "' deleted."; nl])
        (fun client => Delete (SubResources (Client.AIApiKey client) [key]))
  | _ => fail_with (Usagef "delete apikey needs <KEY-ID> arg")
  end.

Definition delete_cert (args : list string) : IO outcome :=
  match args with
  | [cert] =>
      delete_managed "delete cert" (sprintf ["Certificate '"; cert; "' deleted."; nl])
        (fun client => Delete (SubResources (Client.Cert client) [cert]))
  | _ => fail_with (Usagef "delete cert needs <CERT-ID> arg")
  end.

Definition delete_opa : IO outcome :=
  delete_managed "delete opa" ("OPA policy watcher stopped." +:+ nl)
    (fun client => Delete (Client.OPA client)).

Definition sni_delete_json (hostname : string) : gojson := GObj [("hostname", GStr hostname)].

Definition delete_sni (hostname : string) : IO outcome :=
  if is_empty hostname then fail_with (Usagef "--hostname is required")
  else
    delete_managed "delete sni" (sprintf ["SNI certificate for '"; hostname; "' deleted."; nl])
      (fun client => DeleteWithBody (Client.SNICertificate client) (sni_delete_json hostname)).

(** The commands of a feature: the gate, then the request. *)
Definition delete_feature (feature op need done_ : string) (api : LoxiClient -> CommonAPI)
    (args : list string) : IO outcome :=
  match args with
  | [name] =>
      gated restOptions feature op
        (client ← NewLoxiClient restOptions;
         answered (colon op) (Delete (SubResources (api client) [name]))
           (feature_answer [200; 204]%Z op feature (say (sprintf [done_; " '"; name; "' deleted."; nl]))))
  | _ => fail_with (Usagef need)
  end.

Definition delete_jwtauthprofile : list string -> IO outcome :=
  delete_feature JWTAuthProfileFeature "delete jwtauthprofile"
    "delete jwtauthprofile needs <NAME> arg" "JWT auth profile" Client.AIJWTAuthProfile.
Definition delete_netidentity : list string -> IO outcome :=
  delete_feature NetIdentityFeature "delete netidentity"
    "delete netidentity needs <NAME> arg" "Network-identity binding" Client.AINetIdentity.
Definition delete_objective : list string -> IO outcome :=
  delete_feature Objectives "delete objective"
    "delete objective needs <NAME> arg" "Objective" Client.AIObjective.

(* ------------------------------------------------------------------ *)
(** ** [delete_loadbalancer.go]                                        *)
(* ------------------------------------------------------------------ *)

Record DeleteLbOptions : Type := {
  dl_tcp : string;
  dl_udp : string;
  dl_sctp : string;
  dl_icmp : bool;
  dl_BGP : bool;
  dl_Mark : Z;
  dl_Name : string;
  dl_Host : string;
  dl_PathPrefix : string;
  dl_PathMatchMode : string;
  dl_ModelName : string
}.

Definition loadBalancerDeleteQuery (bgp : bool) (mark : Z)
    (pathPrefix pathMatchMode modelName : string) : list (string * string) :=
  [("bgp", bool_str bgp); ("block", itoa mark)]
  ++ (if is_empty pathPrefix then [] else [("path_prefix", pathPrefix)])
  ++ (if is_empty pathMatchMode then [] else [("path_match_mode", pathMatchMode)])
  ++ (if is_empty modelName then [] else [("model_name", modelName)]).

(** [validation]. *)
Definition lb_validation : list string -> IO check :=
  one_name "delete lb command too many args" "delete lb needs <EXTERNAL-IP> arg".

(** The ports of a protocol, at most two. *)
Definition port_list (externalIP proto ports : string) : result string (list (string * list string)) :=
  if is_empty ports then Ok []
  else
    let l := split "-"%char ports in
    reject (2 <? length l)%nat
      with_ sprintf ["Too many ports in list to delete LoadBalancer(ExternalIP: "; externalIP; ", ";
                     proto; ", Port:"; ports; ")"];;
    Ok [(proto, l)].

Definition PortNumberList (o : DeleteLbOptions) (externalIP : string)
    : result string (list (string * list string)) :=
  tcp ← port_list externalIP "tcp" (dl_tcp o);
  udp ← port_list externalIP "udp" (dl_udp o);
  sctp ← port_list externalIP "sctp" (dl_sctp o);
  Ok (tcp ++ udp ++ sctp ++ (if dl_icmp o then [("icmp", ["0"; "0"])] else [])).

(** [portNum[0]] and [portNum[1]], if there is one; both must be numbers. *)
Definition lb_ports (externalIP : string) (portNum : list string) : result string (string * string) :=
  let bad p := sprintf ["Invalid port in list to delete LoadBalancer(ExternalIP: "; externalIP;
                        ",Port:"; p; ")"] in
  let sPortMin := default "" (portNum !! 0%nat) in
  let sPortMax := default "0" (portNum !! 1%nat) in
  _ ← of_option (bad sPortMin) (atoi sPortMin);
  _ ← of_option (bad sPortMax) (atoi sPortMax);
  Ok (sPortMin, sPortMax).

Definition lb_api (client : LoxiClient) (o : DeleteLbOptions) (externalIP proto : string)
    (ports : string * string) : CommonAPI :=
  Query (SubResources (Client.LoadBalancer client)
           ["hosturl"; if is_empty (dl_Host o) then "any" else dl_Host o;
            "externalipaddress"; externalIP; "port"; ports.1; "portmax"; ports.2;
            "protocol"; proto])
    (loadBalancerDeleteQuery (dl_BGP o) (dl_Mark o) (dl_PathPrefix o) (dl_PathMatchMode o)
       (dl_ModelName o)).

(** One protocol after the other, in the order the map is visited. *)
Fixpoint delete_protocols (client : LoxiClient) (o : DeleteLbOptions) (externalIP : string)
    (l : list (string * list string)) : IO outcome :=
  match l with
  | [] => succeed
  | (proto, portNum) :: l' =>
      match lb_ports externalIP portNum with
      | Err e => failed_with e
      | Ok ports =>
          answered
            (bracket (sprintf ["Failed to delete LoadBalancer(ExternalIP: "; externalIP;
                               ", Protocol:"; proto; ", Port:["; join " " portNum; "])"]))
            (Delete (lb_api client o externalIP proto ports))
            (fun resp =>
               if negb (hr_status resp =? 200)%Z then fail_with (api_error_answer "delete lb" resp)
               else _ ← PrintDeleteResult resp restOptions; delete_protocols client o externalIP l')
      end
  end.

Definition delete_lb (o : DeleteLbOptions) (args : list string) : IO outcome :=
  client ← NewLoxiClient restOptions;
  if negb (is_empty (dl_Name o)) then
    answered (bracket (sprintf ["Failed to delete LoadBalancer(Name: "; dl_Name o; ")"]))
      (Delete (SubResources (Client.LoadBalancer client) ["name"; dl_Name o]))
      (fun resp =>
         if (hr_status resp =? 200)%Z then _ ← PrintDeleteResult resp restOptions; succeed
         else fail_with (api_error_answer "delete lb" resp))
  else
    c ← lb_validation args;
    when_valid c (fun _ => Invalidf "not valid EXTERNAL-IP")
      (with_arg args 0 (mret Panics) (fun externalIP =>
         match PortNumberList o externalIP with
         | Err e => failed_with e
         | Ok l => delete_protocols client o externalIP (range_order l)
         end)).

End Commands.
