(* ===== verification/DeleteProps.v ===== *)
(** * What the delete commands ask of the gateway *)
From S2P Require Import Prelude GoStrings GoNet Json JsonPrint World Errors Exitcode.
From S2P Require Import Rest Requests FeatureGate Commands Plans DeleteCmds.

(* ------------------------------------------------------------------ *)
(** ** The plans                                                       *)
(* ------------------------------------------------------------------ *)

(** The deletion of a resource, confirmed by a 200 or, for the management
    commands, also by a 204. *)
Definition deletion (api : LoxiClient -> CommonAPI) : plan :=
  Asks {| as_method := "DELETE"; as_api := api; as_body := None; as_ok := [200%Z]; as_feature := false |}.
Definition managed_deletion (feature : bool) (body : option string) (api : LoxiClient -> CommonAPI) : plan :=
  Asks {| as_method := "DELETE"; as_api := api; as_body := body; as_ok := [200; 204]%Z;
          as_feature := feature |}.

(** Two arguments, the first of a given form. *)
Definition two_args (valid : string -> bool) (k : string -> string -> plan) (args : list string) : plan :=
  match args with
  | a :: b :: _ => if valid a then k a b else Refuses
  | _ => Refuses
  end.

Definition first_arg (k : string -> plan) (args : list string) : plan :=
  match args with a :: _ => k a | [] => Refuses end.

Definition only_arg (k : string -> plan) (args : list string) : plan :=
  match args with [a] => k a | _ => Refuses end.

(** An entry of a firewall rule is a key and, after the first colon, a value: for
    the two addresses all of it, for any other key its part up to the next colon.
    The query holds the last value of each key. *)
Definition rule_entry (v : string) : option (string * string) :=
  match split_first ":"%char v with
  | None => None
  | Some (key, value) =>
      Some (key, if bool_decide (key = "sourceIP" \/ key = "destinationIP") then value
                 else match split_first ":"%char value with Some (first, _) => first | None => value end)
  end.
Definition rule_query (rule : list string) : option (gmap string string) :=
  entries ← mapM rule_entry rule; Some (list_to_map (reverse entries)).

(** The flags of the commands that have some. *)
Record DeleteFlags : Type := {
  df_instance : string;
  df_endpoint : DeleteEndPoint;
  df_firewallRule : list string;
  df_tagged : bool;
  df_hostname : string
}.

(** The commands with their plans. *)
Definition device_commands `{GoLib} (ro : RESTOptions) (f : DeleteFlags) (args : list string)
    : list (IO outcome * plan) :=
  [ (delete_fdb ro args,
     two_args is_mac (fun mac dev => deletion (item_at "config/fdb" [mac; "dev"; dev])) args);
    (delete_ip ro args,
     two_args is_cidr (fun net dev => deletion (item_at "config/ipv4address" [net; "dev"; dev])) args);
    (delete_neighbor ro args,
     two_args is_ip (fun ip dev => deletion (item_at "config/neighbor" [ip; "dev"; dev])) args);
    (delete_route ro args,
     first_arg (fun net =>
       if is_cidr net then deletion (item_at "config/route" ["destinationIPNet"; net])
       else if (length args =? 1)%nat then Crashes else Refuses) args);
    (delete_vlan ro args,
     first_arg (fun vid => if integer vid then deletion (item_at "config/vlan" [vid]) else Refuses) args);
    (delete_vlanmember ro (df_tagged f) args,
     first_arg (fun vid =>
       if integer vid then
         match args !! 1%nat with
         | Some dev => deletion (item_at "config/vlan" [vid; "member"; dev; "tagged"; bool_str (df_tagged f)])
         | None => Crashes
         end
       else Refuses) args);
    (delete_vxlan ro args,
     first_arg (fun vnid => if integer vnid then deletion (item_at "config/tunnel/vxlan" [vnid]) else Refuses) args);
    (delete_vxlanpeer ro args,
     first_arg (fun vnid =>
       if integer vnid then
         match args !! 1%nat with
         | Some peer => deletion (item_at "config/tunnel/vxlan" [vnid; "peer"; peer])
         | None => Crashes
         end
       else Refuses) args) ].

Definition peer_commands `{GoLib} (ro : RESTOptions) (f : DeleteFlags) (args : list string)
    : list (IO outcome * plan) :=
  [ (delete_bfd ro (df_instance f) args,
     first_arg (fun ip =>
       if is_ip ip
       then deletion (query_at "config/bfd" ["remoteIP"; ip] [("instance", df_instance f)])
       else Refuses) args);
    (delete_bgpneighbor ro args,
     two_args is_ip (fun ip asn =>
       match atoi asn with
       | Some n => if in_range 0 65535 n
                   then deletion (query_at "config/bgp/neigh" [ip] [("remoteAs", asn)])
                   else Refuses
       | None => Refuses
       end) args);
    (delete_endpoint ro (df_endpoint f) args,
     first_arg (fun ip =>
       if is_ip ip && probe_fits (de_ProbeType (df_endpoint f)) (de_ProbePort (df_endpoint f))
       then deletion (query_at "config/endpoint" ["epipaddress"; ip] [("name", de_Name (df_endpoint f)); ("probe_type", de_ProbeType (df_endpoint f));
               ("probe_port", itoa (de_ProbePort (df_endpoint f)))])
       else Refuses) args);
    (delete_firewall ro (df_firewallRule f),
     match df_firewallRule f with
     | [] => Refuses
     | rule => match rule_query rule with
               | Some query => deletion (query_at "config/firewall" [] (map_to_list query))
               | None => Refuses
               end
     end);
    (delete_mirror ro args, first_arg (fun id => deletion (item_at "config/mirror" ["ident"; id])) args);
    (delete_policy ro args, first_arg (fun id => deletion (item_at "config/policy" ["ident"; id])) args);
    (delete_session ro args, first_arg (fun id => deletion (item_at "config/session" ["ident"; id])) args) ].

Definition managed_commands `{GoLib} (ro : RESTOptions) (f : DeleteFlags) (args : list string)
    : list (IO outcome * plan) :=
  [ (delete_apikey ro args,
     only_arg (fun key => managed_deletion false None (item_at "config/ai/apikey" [key])) args);
    (delete_cert ro args,
     only_arg (fun cert => managed_deletion false None (item_at "config/cert" [cert])) args);
    (delete_opa ro, managed_deletion false None (at_path "config/opa/watcher"));
    (delete_sni ro (df_hostname f),
     if is_empty (df_hostname f) then Refuses
     else managed_deletion false (Some (encode (GObj [("hostname", GStr (df_hostname f))])))
            (at_path "sni/certificates"));
    (delete_jwtauthprofile ro args,
     only_arg (fun name => managed_deletion true None (item_at "config/ai/jwtauthprofile" [name])) args);
    (delete_netidentity ro args,
     only_arg (fun name => managed_deletion true None (item_at "config/ai/netidentity" [name])) args);
    (delete_objective ro args,
     only_arg (fun name => managed_deletion true None (item_at "config/ai/objective" [name])) args) ].

Definition delete_commands `{GoLib} (ro : RESTOptions) (f : DeleteFlags) (args : list string)
    : list (IO outcome * plan) :=
  device_commands ro f args ++ peer_commands ro f args ++ managed_commands ro f args.

(* ------------------------------------------------------------------ *)
(** ** The commands follow their plans                                 *)
(* ------------------------------------------------------------------ *)

Lemma split_by_first sep s :
  split sep s = match split_first sep s with Some (first, rest) => first :: split sep rest | None => [s] end.
Proof.
  induction s as [|a s IH]; [done|]. cbn [split split_first]. destruct (Ascii.eqb a sep); [done|].
  rewrite IH. by destruct (split_first sep s) as [[first rest]|].
Qed.

Lemma rule_entry_read v :
  rule_entry v = match firewall_entry v with Ok e => Some e | Err _ => None end.
Proof.
  unfold rule_entry, firewall_entry. rewrite split_by_first.
  destruct (split_first ":"%char v) as [[key value]|]; [|done].
  assert (Hjoin := join_split ":"%char value). rewrite split_by_first in *.
  case_bool_decide as Hkey.
  - assert (Hin : str_in key ["sourceIP"; "destinationIP"] = true) by (apply str_in_true; set_solver).
    rewrite Hin. destruct (split_first ":"%char value) as [[first rest]|]; [|done].
    pose proof (split_nonempty ":"%char rest) as Hs. destruct (split ":"%char rest); [done|].
    cbn [length Nat.eqb negb andb]. by rewrite Hjoin.
  - assert (Hin : str_in key ["sourceIP"; "destinationIP"] = false) by (apply str_in_false; set_solver).
    rewrite Hin. cbn [andb]. by destruct (split_first ":"%char value) as [[first rest]|].
Qed.

Lemma rule_query_made rule :
  rule_query rule = match MakefirewallDeleteQuery rule with Ok q => Some q | Err _ => None end.
Proof.
  unfold rule_query, MakefirewallDeleteQuery.
  assert (Hm : mapM rule_entry rule
    = match map_each firewall_entry rule with Ok l => Some l | Err _ => None end).
  { induction rule as [|v rule IH]; [done|]. cbn [mapM map_each]. rewrite IH, rule_entry_read.
    destruct (firewall_entry v); [|done]. cbn. by destruct (map_each firewall_entry rule). }
  rewrite Hm. destruct (map_each firewall_entry rule) as [l|]; [|done]. cbn. f_equal. clear.
  assert (Hf : forall acc : gmap string string,
    list_to_map (reverse l) ∪ acc = fold_left (fun query e => <[e.1 := e.2]> query) l acc).
  { induction l as [|[k v] l IH]; intros acc; [apply (left_id_L ∅ (∪))|].
    cbn [fold_left fst snd]. rewrite <- IH, reverse_cons, list_to_map_app. cbn.
    rewrite insert_empty, (insert_union_singleton_l acc). symmetry. apply (assoc_L (∪)). }
  specialize (Hf ∅). by rewrite (right_id_L ∅ (∪)) in Hf.
Qed.

Lemma too_many_quiet args n text : ops_satisfy not_http (too_many args n text).
Proof. unfold too_many. ops_step; [apply say_quiet | apply ops_ret]. Qed.

Ltac quiet := repeat first [apply too_many_quiet | apply say_quiet | ops_step].

Lemma one_name_wp {B} text need a args (k : check -> IO B) w h Q :
  (forall t, https t = [] -> wp (k Passed) w (h ++ t) (fun b t' => Q b (t ++ t'))) ->
  wp (mbind k (one_name text need (a :: args))) w h Q.
Proof.
  intros Hk. unfold one_name. destruct args as [|b args].
  - apply wp_bind, wp_ret. by apply Hk.
  - apply wp_bind, wp_bind, quiet_wp; [quiet|]. intros _ t Ht.
    apply wp_bind, quiet_wp; [quiet|]. intros _ t' Ht'. apply wp_ret. apply Hk.
    by rewrite app_nil_r, https_app, Ht, Ht'.
Qed.

Ltac evaluate :=
  cbn [when_valid with_arg lookup list_lookup length Nat.leb Nat.eqb Nat.ltb two_args first_arg only_arg
       integer_arg negb andb orb is_ok].

Section Refinement.
Context `{GoLib}.
Variable ro : RESTOptions.

(** The end of the old commands. *)
Lemma delete_old_refines op failure c api a :
  rc_Options c = ro -> deletion api = Asks a -> ca_restClient (api c) = c ->
  refines ro (delete_old ro op failure (api c)) (Asks a).
Proof.
  intros Hc [= <-] Hapi. unfold delete_old, Delete, DELETE. rewrite Hapi.
  by apply (refines_answered ro {| as_api := api |}); [|done|apply ends_resource].
Qed.

Ltac refine_step :=
  lazymatch goal with
  | |- refines _ (fail_with _) Refuses => apply refines_refusal; reflexivity
  | |- refines _ (failed_with _) Refuses => apply refines_refusal; reflexivity
  | |- refines _ (mret Panics) Crashes => apply refines_crash
  | |- refines _ (mbind _ (NewLoxiClient _)) _ => apply refines_client; intros ? ?
  | |- refines _ (mbind _ (mbind (fun _ => mret _) _)) _ => apply refines_then; [solve [quiet]|]
  | |- refines _ (mbind _ (mret _)) _ => apply refines_value
  | |- refines _ (mbind _ (one_name _ _ _)) _ => fail
  | |- refines _ (mbind _ _) _ => apply refines_quiet; [solve [quiet]|intros ?]
  | |- refines _ (delete_old _ _ _ ?t) (deletion ?api) =>
      lazymatch goal with Hc : rc_Options ?c = _ |- _ =>
        change t with (api c); apply (delete_old_refines _ _ c api); [exact Hc|reflexivity|reflexivity]
      end
  end; evaluate.

Ltac refine_all := evaluate; repeat refine_step.

(** The cases of a validation. *)
Ltac cases_of b := destruct b; refine_all.

Lemma device_commands_refine f args :
  Forall (fun p => refines ro p.1 p.2) (device_commands ro f args).
Proof.
  repeat apply Forall_cons_2; try apply Forall_nil_2; cbn [fst snd].
  - unfold delete_fdb, DeleteFDBValidation. destruct args as [|a [|b args]]; refine_all.
    cases_of (is_mac a).
  - unfold delete_ip, DeleteIPv4AddressValidation. destruct args as [|a [|b args]]; refine_all.
    cases_of (is_cidr a).
  - unfold delete_neighbor, DeleteNeighborsValidation. destruct args as [|a [|b args]]; refine_all.
    cases_of (is_ip a).
  - unfold delete_route, DeleteRouteValidation. destruct args as [|a [|b args]]; refine_all;
      cases_of (is_cidr a).
  - unfold delete_vlan, DeleteVlanBridgeValidation, integer. destruct args as [|a args]; refine_all.
    cases_of (atoi a).
  - unfold delete_vlanmember, DeleteVlanMemberValidation, integer.
    destruct args as [|a [|b args]]; refine_all; cases_of (atoi a).
  - unfold delete_vxlan, DeletevxlanBridgeValidation, integer. destruct args as [|a args]; refine_all.
    cases_of (atoi a).
  - unfold delete_vxlanpeer, DeleteVxlanPeerValidation, integer.
    destruct args as [|a [|b args]]; refine_all; cases_of (atoi a).
Qed.

Lemma refines_one_name text need a args k p :
  refines ro (k Passed) p -> refines ro (mbind k (one_name text need (a :: args))) p.
Proof.
  intros Hk w h. apply one_name_wp. intros t Ht. eapply wp_mono; [apply Hk|].
  intros out t'. by apply follows_quiet.
Qed.

Lemma peer_commands_refine f args :
  Forall (fun p => refines ro p.1 p.2) (peer_commands ro f args).
Proof.
  repeat apply Forall_cons_2; try apply Forall_nil_2; cbn [fst snd].
  - unfold delete_bfd. destruct args as [|a args]; refine_all. cases_of (is_ip a).
  - unfold delete_bgpneighbor, DeleteBGPNeighborValidation, in_range.
    destruct args as [|a [|b args]]; refine_all. destruct (is_ip a); refine_all.
    destruct (atoi b) as [n|]; refine_all.
    rewrite (Z.leb_antisym 65535 n), (Z.leb_antisym n 0).
    destruct (65535 <? n)%Z, (n <? 0)%Z; refine_all.
  - unfold delete_endpoint. destruct args as [|a args]; refine_all. destruct (is_ip a); refine_all.
    rewrite <- probe_fits_checks. destruct (probe_checks _ _) as [[]|e]; refine_all.
  - unfold delete_firewall. destruct (df_firewallRule f) as [|v rule]; refine_all.
    rewrite rule_query_made. destruct (MakefirewallDeleteQuery (v :: rule)) as [query|e]; refine_all.
  - unfold delete_mirror. destruct args as [|a args]; refine_all.
  - unfold delete_policy, DeletePolicyValidation. destruct args as [|a args]; refine_all.
    apply refines_one_name. refine_all.
  - unfold delete_session, DeleteSessionValidation. destruct args as [|a args]; refine_all.
    apply refines_one_name. refine_all.
Qed.

(** The management commands, and those of a feature. *)
Lemma delete_managed_refines op text (send : LoxiClient -> IO http_result) api body :
  (forall c, rc_Options c = ro -> send c = http_do (build_request c "DELETE" (GetUrlString (api c)) body)) ->
  refines ro (delete_managed ro op text send) (managed_deletion false body api).
Proof.
  intros Hs. unfold delete_managed. apply refines_client. intros c Hc. rewrite (Hs c Hc).
  apply (refines_answered ro {| as_method := "DELETE"; as_api := api; as_body := body |}); [done..|].
  by apply ends_managed; [|apply say_quiet].
Qed.

Lemma delete_feature_refines feature op need text api args :
  (forall c, ca_restClient (api c) = c) ->
  refines ro (delete_feature ro feature op need text api args)
    (only_arg (fun name => managed_deletion true None (fun c => SubResources (api c) [name])) args).
Proof.
  intros Hapi. unfold delete_feature. destruct args as [|name [|b args]]; refine_all.
  apply refines_gated; [done|]. intros w h. apply wp_client. intros c t Hc Ht _.
  set (a := {| as_method := _ |}). unfold Delete, DELETE.
  cbn [SubResources with_info ca_restClient]. rewrite Hapi. eapply wp_mono.
  { apply (answered_wp ro a c); [done|]. by apply ends_feature; [..|apply say_quiet]. }
  intros out t' Hsent. by rewrite https_app, Ht.
Qed.

Lemma managed_commands_refine f args :
  Forall (fun p => refines ro p.1 p.2) (managed_commands ro f args).
Proof.
  repeat apply Forall_cons_2; try apply Forall_nil_2; cbn [fst snd].
  - unfold delete_apikey. destruct args as [|a [|b args]]; refine_all. by apply delete_managed_refines.
  - unfold delete_cert. destruct args as [|a [|b args]]; refine_all. by apply delete_managed_refines.
  - by apply delete_managed_refines.
  - unfold delete_sni. destruct (is_empty (df_hostname f)); refine_all. by apply delete_managed_refines.
  - by apply delete_feature_refines.
  - by apply delete_feature_refines.
  - by apply delete_feature_refines.
Qed.

End Refinement.

(** A command of a list with a plan of the same place. *)
Lemma refines_nth ro (l : list (IO outcome * plan)) i m p :
  Forall (fun p => refines ro p.1 p.2) l -> l !! i = Some (m, p) -> refines ro m p.
Proof. intros Hl Hi. by apply (Forall_lookup_1 _ _ _ _ Hl Hi). Qed.

Lemma lone_number (k : string -> string -> LoxiClient -> CommonAPI) args :
  first_arg (fun n =>
    if integer n then match args !! 1%nat with Some a => deletion (k n a) | None => Crashes end
    else Refuses) args = Crashes
  <-> exists n, args = [n] /\ integer n = true.
Proof.
  destruct args as [|a [|b args]]; evaluate.
  - split; [done | by intros (n & ? & _)].
  - destruct (integer a) eqn:Ha; (split; [intros Hx; first [by exists a | discriminate Hx] | intros (n & [= <-] & ?); congruence]).
  - split; [by destruct (integer a) | by intros (n & ? & _)].
Qed.

(** Three commands index their arguments without looking at their number,
    and end in a panic of the run time instead of an error: [delete route]
    with one argument that is not a network, and [delete vlanmember] and
    [delete vxlanpeer] with a number alone. *)
Theorem delete_panics `{GoLib} ro f args w :
  (value_of (delete_route ro args) w = Panics
   <-> exists net, args = [net] /\ is_cidr net = false)
  /\ (value_of (delete_vlanmember ro (df_tagged f) args) w = Panics
      <-> exists vid, args = [vid] /\ integer vid = true)
  /\ (value_of (delete_vxlanpeer ro args) w = Panics
      <-> exists vnid, args = [vnid] /\ integer vnid = true).
Proof.
  pose proof (device_commands_refine ro f args) as Hall. split; [|split].
  - rewrite (refines_panics ro _ _ w (refines_nth _ _ 3 _ _ Hall eq_refl)). clear Hall.
    destruct args as [|a [|b args]]; evaluate.
    + split; [done | by intros (n & ? & _)].
    + destruct (is_cidr a) eqn:Ha; (split; [intros Hx; first [by exists a | discriminate Hx] | intros (n & [= <-] & ?); congruence]).
    + split; [by destruct (is_cidr a) | by intros (n & ? & _)].
  - rewrite (refines_panics ro _ _ w (refines_nth _ _ 5 _ _ Hall eq_refl)). apply lone_number.
  - rewrite (refines_panics ro _ _ w (refines_nth _ _ 7 _ _ Hall eq_refl)). apply lone_number.
Qed.

(** The names of these commands are not checked as those of the archives
    and sinks are: an empty key names the collection itself, and [..] the
    resource above it. *)
Theorem unchecked_name_target `{GoLib} ro w :
  (exists c r, rc_Options c = ro
     /\ https (trace_of (delete_apikey ro [".."]) w)
        = [(build_request c "DELETE" (GetUrlString (resource c "config/ai")) None, r)])
  /\ (exists c r, rc_Options c = ro
     /\ https (trace_of (delete_apikey ro [""]) w)
        = [(build_request c "DELETE" (GetUrlString (Client.AIApiKey c)) None, r)]).
Proof.
  split.
  - pose proof (managed_commands_refine ro {| df_instance := ""; df_endpoint := {| de_Name := "";
      de_ProbeType := ""; de_ProbePort := 0 |}; df_firewallRule := []; df_tagged := false;
      df_hostname := "" |} [".."]) as Hall.
    destruct (refines_nth _ _ 0 _ _ Hall eq_refl w []) as (c & r & Hc & Hs & _). by exists c, r.
  - pose proof (managed_commands_refine ro {| df_instance := ""; df_endpoint := {| de_Name := "";
      de_ProbeType := ""; de_ProbePort := 0 |}; df_firewallRule := []; df_tagged := false;
      df_hostname := "" |} [""]) as Hall.
    destruct (refines_nth _ _ 0 _ _ Hall eq_refl w []) as (c & r & Hc & Hs & _). by exists c, r.
Qed.

(* ------------------------------------------------------------------ *)
(** ** Several deletions                                               *)
(* ------------------------------------------------------------------ *)

Definition one_deletion (api : LoxiClient -> CommonAPI) : asked :=
  {| as_method := "DELETE"; as_api := api; as_body := None; as_ok := [200%Z]; as_feature := false |}.

(** The protocols a flag was given for, with its text; [--icmp] has no ports. *)
Definition flagged (o : DeleteLbOptions) : list (string * string) :=
  base.filter (fun p => p.2 <> "")
    [("tcp", dl_tcp o); ("udp", dl_udp o); ("sctp", dl_sctp o);
     ("icmp", if dl_icmp o then "0-0" else "")].

(** The ports of a text: one, or two with a dash between. *)
Definition two_ports (text : string) : option (string * string) :=
  match split "-"%char text with
  | [low] => Some (low, "0")
  | [low; high] => Some (low, high)
  | _ => None
  end.

Definition ports_fit (text : string) : bool :=
  match two_ports text with Some _ => true | None => false end.

(** What tells rules of one address apart; what is empty is left out. *)
Definition rule_key (o : DeleteLbOptions) : list (string * string) :=
  [("bgp", bool_str (dl_BGP o)); ("block", itoa (dl_Mark o))]
  ++ base.filter (fun p => p.2 <> "")
       [("path_prefix", dl_PathPrefix o); ("path_match_mode", dl_PathMatchMode o);
        ("model_name", dl_ModelName o)].

(** What is asked for one protocol, when its turn comes: the rule of that address,
    those ports and that protocol, if the ports are numbers. *)
Definition lb_asked (o : DeleteLbOptions) (ip : string) (p : string * string) : option asked :=
  '(low, high) ← two_ports p.2;
  if integer low && integer high then
    Some (one_deletion (query_at "config/loadbalancer"
      ["hosturl"; if bool_decide (dl_Host o = "") then "any" else dl_Host o;
       "externalipaddress"; ip; "port"; low; "portmax"; high; "protocol"; p.1] (rule_key o)))
  else None.

(** What [delete lb] does, by name or by address. *)
Definition follows_lb `{GoLib} (ro : RESTOptions) (o : DeleteLbOptions) (args : list string)
    (out : outcome) (t : trace) : Prop :=
  if bool_decide (dl_Name o = "") then
    match args with
    | [] => follows ro Refuses out t
    | ip :: _ =>
        if forallb (fun p => ports_fit p.2) (flagged o)
        then exists l, l ≡ₚ flagged o /\ in_turn ro (lb_asked o ip <$> l) out (https t)
        else follows ro Refuses out t
    end
  else follows ro (deletion (item_at "config/loadbalancer" ["name"; dl_Name o])) out t.

(** The ports the code keeps for a protocol are those of its flag. *)
Definition kept_ports (p : string * string) : string * list string := (p.1, split "-"%char p.2).

Lemma port_list_flag ip proto text :
  port_list ip proto text
  = if bool_decide (text = "") then Ok []
    else if ports_fit text then Ok [kept_ports (proto, text)]
    else port_list ip proto text.
Proof.
  unfold port_list. case_bool_decide as Ht; [by rewrite Ht|].
  assert (He : is_empty text = false) by (by destruct text). rewrite He.
  unfold ports_fit, two_ports, kept_ports. cbn [fst snd].
  by destruct (split "-"%char text) as [|a [|b [|c l]]] eqn:Hs; [apply split_nonempty in Hs|..].
Qed.

Lemma port_list_long ip proto text :
  text <> "" -> ports_fit text = false -> exists e, port_list ip proto text = Err e.
Proof.
  intros Ht. unfold port_list, ports_fit, two_ports. assert (He : is_empty text = false) by (by destruct text). rewrite He.
  destruct (split "-"%char text) as [|a [|b [|c l]]] eqn:Hs; try done; [by apply split_nonempty in Hs|].
  intros _. by eexists.
Qed.

Lemma PortNumberList_flags o ip :
  if forallb (fun p => ports_fit p.2) (flagged o)
  then PortNumberList o ip = Ok (kept_ports <$> flagged o)
  else exists e, PortNumberList o ip = Err e.
Proof.
  assert (Hflag : forall proto text l,
    forallb (fun p => ports_fit p.2) (base.filter (fun p => p.2 <> "") ((proto, text) :: l))
    = (bool_decide (text = "") || ports_fit text)
      && forallb (fun p => ports_fit p.2) (base.filter (fun p : string * string => p.2 <> "") l)).
  { intros proto text l. rewrite filter_cons. cbn [snd]. case_decide; case_bool_decide; naive_solver. }
  assert (Hkept : forall proto text l,
    kept_ports <$> base.filter (fun p => p.2 <> "") ((proto, text) :: l)
    = (if bool_decide (text = "") then [] else [kept_ports (proto, text)])
      ++ (kept_ports <$> base.filter (fun p : string * string => p.2 <> "") l)).
  { intros proto text l. rewrite filter_cons. cbn [snd]. case_decide; case_bool_decide; naive_solver. }
  unfold flagged. rewrite !Hflag, !Hkept. unfold PortNumberList.
  assert (Hone : forall proto text,
    if bool_decide (text = "") || ports_fit text
    then port_list ip proto text = Ok (if bool_decide (text = "") then [] else [kept_ports (proto, text)])
    else exists e, port_list ip proto text = Err e).
  { intros proto text. rewrite port_list_flag. case_bool_decide as Ht; [done|]. cbn [orb].
    destruct (ports_fit text) eqn:Hs; [done | by apply port_list_long]. }
  assert (H1 := Hone "tcp" (dl_tcp o)). assert (H2 := Hone "udp" (dl_udp o)).
  assert (H3 := Hone "sctp" (dl_sctp o)).
  destruct (_ || ports_fit (dl_tcp o)); [|destruct H1 as [e ->]; by eexists]. rewrite H1.
  destruct (_ || ports_fit (dl_udp o)); [|destruct H2 as [e ->]; by eexists]. rewrite H2.
  destruct (_ || ports_fit (dl_sctp o)); [|destruct H3 as [e ->]; by eexists]. rewrite H3.
  by destruct (dl_icmp o).
Qed.

Lemma rule_key_query o :
  loadBalancerDeleteQuery (dl_BGP o) (dl_Mark o) (dl_PathPrefix o) (dl_PathMatchMode o) (dl_ModelName o)
  = rule_key o.
Proof.
  unfold loadBalancerDeleteQuery, rule_key. do 2 f_equal.
  by destruct (dl_PathPrefix o), (dl_PathMatchMode o), (dl_ModelName o).
Qed.

(** What the code makes of the ports it kept. *)
Lemma lb_ports_flag o ip p :
  ports_fit p.2 = true ->
  lb_asked o ip p = match lb_ports ip (kept_ports p).2 with
                    | Ok ports => Some (one_deletion (fun c => lb_api c o ip p.1 ports))
                    | Err _ => None
                    end.
Proof.
  destruct p as [proto text]. unfold ports_fit, lb_asked, two_ports, kept_ports. cbn [fst snd].
  assert (Hhost : (if bool_decide (dl_Host o = "") then "any" else dl_Host o)
                  = if is_empty (dl_Host o) then "any" else dl_Host o) by (by destruct (dl_Host o)).
  unfold lb_api. rewrite rule_key_query, <- Hhost.
  destruct (split "-"%char text) as [|low [|high [|c l]]]; try done; intros _;
    unfold lb_ports, integer; cbn [lookup list_lookup default mbind option_bind]; cbv zeta;
    unfold id; destruct (atoi low); first [reflexivity | destruct (atoi high); reflexivity].
Qed.

Lemma api_error_ends op a : as_ok a = [200%Z] ->
  forall resp w h, status_in (as_ok a) (hr_status resp) = false ->
  wp (fail_with (api_error_answer op resp)) w h (fun out t => https t = [] /\ verdict a (Ok resp) out).
Proof.
  intros Ha resp w h Hs. apply wp_ret. split; [done|]. unfold verdict. rewrite Hs.
  eexists. split; [done|]. left. apply status_code_failure.
Qed.

Lemma delete_protocols_wp `{GoLib} ro c o ip l w h :
  rc_Options c = ro -> Forall (fun p => ports_fit p.2 = true) l ->
  wp (delete_protocols ro c o ip (kept_ports <$> l)) w h
    (fun out t => in_turn ro (lb_asked o ip <$> l) out (https t)).
Proof.
  intros Hc Hl. revert h. induction Hl as [|p l Hp Hl IH]; intros h; [by apply wp_ret|].
  rewrite !fmap_cons, (lb_ports_flag _ _ _ Hp). destruct p as [proto text].
  cbn [delete_protocols kept_ports fst snd].
  destruct (lb_ports ip (split "-"%char text)) as [ports|e].
  - apply (in_turn_step ro (one_deletion (fun c => lb_api c o ip proto ports)) c); [done|].
    intros resp h'. unfold status_in. cbn [as_ok one_deletion existsb]. rewrite orb_false_r.
    destruct (hr_status resp =? 200)%Z eqn:Hs; cbn [negb].
    + apply wp_bind, quiet_wp; [apply print_quiet|]. intros _ t Ht.
      eapply wp_mono; [apply IH|]. intros out t' Hin. by rewrite https_app, Ht.
    + apply api_error_ends; [done|]. unfold status_in. cbn. by rewrite Hs.
  - apply wp_ret. split; [done|]. by eexists.
Qed.

(** C27: what [delete lb] sends.  With a name it is the one DELETE of that name,
    whatever else is given.  With an address it is one DELETE for each of tcp,
    udp, sctp and icmp that has a flag, in some order, each when the one before
    it was confirmed by a 200: of the rule of the host or of any, the address,
    the ports of the flag (the upper one 0 if there is none) and the protocol.
    A flag with more than two ports is refused before anything is sent; ports
    that are not numbers are refused when their turn comes; and without any such
    flag the command succeeds and nothing is sent. *)
Theorem delete_lb_requests `{GoLib} ro o args w h :
  wp (delete_lb ro o args) w h (follows_lb ro o args).
Proof.
  unfold delete_lb. apply wp_client. intros c t Hc Ht _. unfold follows_lb.
  assert (Hname : bool_decide (dl_Name o = "") = is_empty (dl_Name o)) by (by destruct (dl_Name o)).
  rewrite Hname. destruct (is_empty (dl_Name o)) eqn:Hn; cbn [negb].
  - destruct args as [|ip args].
    + apply wp_bind, wp_ret, wp_ret. split; [by rewrite https_app, Ht|]. by eexists.
    + apply one_name_wp. intros t1 Ht1. cbn [when_valid with_arg lookup list_lookup].
      assert (Hq : https (t ++ t1) = []) by (by rewrite https_app, Ht).
      pose proof (PortNumberList_flags o ip) as Hports. destruct (forallb _ (flagged o)) eqn:Hall.
      * rewrite Hports.
        destruct (Permutation_map_inv kept_ports (flagged o) (range_perm (kept_ports <$> flagged o)))
          as (l & Hl & Hperm). cbv beta iota.
        change (range_order (kept_ports <$> flagged o) = kept_ports <$> l) in Hl. rewrite Hl.
        eapply wp_mono; [apply delete_protocols_wp; [done|]|].
        { apply Forall_forall. intros p Hp. rewrite <- Hperm in Hp.
          rewrite forallb_forall in Hall. by apply Hall, list_elem_of_In. }
        intros out t2 Hin. exists l. split; [by symmetry|]. by rewrite app_assoc, https_app, Hq.
      * destruct Hports as [e ->]. apply wp_ret. rewrite app_nil_r. split; [done|]. by eexists.
  - eapply wp_mono.
    + apply (answered_wp ro (one_deletion (item_at "config/loadbalancer" ["name"; dl_Name o])) c); [done|].
      intros resp w' h'. destruct (hr_status resp =? 200)%Z eqn:Hs.
      * apply ends_confirmed; [apply print_quiet|]. intros t' Ht'. split; [done|].
        unfold verdict, status_in. cbn. by rewrite Hs.
      * apply api_error_ends; [done|]. unfold status_in. cbn. by rewrite Hs.
    + intros out t' Hsent. simpl. by rewrite https_app, Ht.
Qed.

(** [delete sessionulcl] deletes the addresses of its flag in order, each
    when the one before it was confirmed; without the flag it succeeds and
    sends nothing. *)
Definition follows_ulcl (ro : RESTOptions) (addresses args : list string) (out : outcome) (t : trace)
    : Prop :=
  match args with
  | [] => follows ro Refuses out t
  | user :: _ =>
      in_turn ro ((fun ip => Some (one_deletion (item_at "config/sessionulcl"
                     ["ident"; user; "ulclAddress"; ip]))) <$> addresses) out (https t)
  end.

Lemma delete_sessionulcl_requests `{GoLib} ro addresses args w h :
  wp (delete_sessionulcl ro addresses args) w h (follows_ulcl ro addresses args).
Proof.
  unfold delete_sessionulcl. destruct args as [|user args].
  - apply wp_ret. split; [done|]. by eexists.
  - cbn [length Nat.eqb]. apply one_name_wp. intros t Ht. cbn [when_valid with_arg lookup list_lookup].
    apply wp_client. intros c t1 Hc Ht1 _.
    set (send := fun ip => Delete _). generalize (h ++ t ++ t1). intros h0.
    assert (Hall : forall l h, wp (delete_each ro send (sprintf ["Failed to delete Session(UserID: "; user; ")"])
        "delete sessionulcl" l) w h (fun out t =>
          in_turn ro ((fun ip => Some (one_deletion (item_at "config/sessionulcl"
             ["ident"; user; "ulclAddress"; ip]))) <$> l) out (https t))).
    { clear h h0. induction l as [|ip l IH]; intros h; [by apply wp_ret|].
      cbn [delete_each]. rewrite fmap_cons.
      apply (in_turn_step ro (one_deletion (item_at "config/sessionulcl" _)) c); [done|].
      intros resp h'. apply wp_bind, quiet_wp; [apply say_quiet|]. intros _ t2 Ht2.
      unfold status_in. cbn [as_ok one_deletion existsb]. rewrite orb_false_r.
      destruct (hr_status resp =? 200)%Z eqn:Hs; cbn [negb].
      + apply wp_bind, quiet_wp; [apply print_quiet|]. intros _ t3 Ht3.
        eapply wp_mono; [apply IH|]. intros out t4. by rewrite !https_app, Ht2, Ht3.
      + apply wp_ret. rewrite app_nil_r. split; [done|]. unfold verdict, status_in. cbn. rewrite Hs.
        eexists. split; [done|]. left. apply status_code_failure. }
    eapply wp_mono; [apply Hall|]. intros out t2. unfold follows_ulcl. by rewrite !https_app, Ht, Ht1.
Qed.

(** C25: the delete commands keep to their plans: all that the program has but
    [delete lb] (whose requests are described apart), [delete audit-sink] and
    [delete -f].  Where the plan refuses, for too few arguments, or one that is
    not the address, network or number due, or a probe or a rule that does not fit,
    the command is INVALID_ARGUMENT without a request; arguments beyond those it
    takes are accepted by the older commands and refused by those of one name.
    [delete route] with one argument that is not a network and [delete
    vlanmember] and [delete vxlanpeer] with a number alone crash without a
    request.  Otherwise it is one DELETE of the resource the arguments name, with
    the query or body of the flags, after the gate for a feature; the command
    succeeds exactly when the gateway confirms it, and else ends with the code of
    the answer.  [delete sessionulcl] is one such DELETE for each address, in
    order, up to the first that is not confirmed. *)
Theorem delete_commands_refine `{GoLib} ro f args :
  Forall (fun p => refines ro p.1 p.2) (delete_commands ro f args)
  /\ forall addresses w h, wp (delete_sessionulcl ro addresses args) w h (follows_ulcl ro addresses args).
Proof.
  split; [|intros addresses w h; apply delete_sessionulcl_requests].
  apply Forall_app_2; [apply device_commands_refine|].
  apply Forall_app_2; [apply peer_commands_refine | apply managed_commands_refine].
Qed.
