(* ===== verification/CreateCmds.v ===== *)
(** * The create commands of the network: [cmd/create]

    How each command reads its arguments and flags into the document it posts,
    in the order of the code.  Numbers are converted as the code converts
    them; a read of an argument that is not there is a panic ([None]). *)
From S2P Require Import Prelude GoStrings GoNet Json JsonPrint Fields World Errors Exitcode.
From S2P Require Import Rest FeatureGate Commands NetModel.

(** A document, an error, or a panic. *)
Notation reading A := (option (result string A)).

Definition arg {A} (args : list string) (i : nat) (k : string -> reading A) : reading A :=
  with_arg args i None k.

(** [strconv.Atoi] of an argument whose error is passed on. *)
Definition atoi_of (s : string) : result string Z := of_option (atoi_error s) (atoi s).

Definition one_of_invalid (what s : string) : string := sprintf [what; " '"; s; "' is invalid format"].

(* ------------------------------------------------------------------ *)
(** ** Arguments                                                       *)
(* ------------------------------------------------------------------ *)

Definition ReadCreateBfdOptions (o : BFDSessionInfo) (args : list string) : reading BFDSessionInfo :=
  if (1 <? length args)%nat then Some (Err "create bfd command get so many args")
  else if (length args <? 1)%nat then Some (Err "create bfd need <RemoteIP> args")
  else arg args 0 (fun ip =>
    Some (if is_ip ip
          then Ok {| bfd_Instance := bfd_Instance o; bfd_RemoteIP := ip; bfd_SourceIP := bfd_SourceIP o;
                     bfd_Port := bfd_Port o; bfd_Interval := bfd_Interval o;
                     bfd_RetryCount := bfd_RetryCount o; bfd_State := bfd_State o |}
          else Err (one_of_invalid "remote IP" ip))).

Record CreateBGPNeighborOptions : Type := { cb_SetMultiHtop : bool; cb_RemotePort : uint8 }.

Definition ReadCreateBGPNeighborOptions (args : list string) : reading (string * Z) :=
  if (2 <? length args)%nat then Some (Err "create BGPNeighbor command get so many args")
  else if (length args <=? 1)%nat then Some (Err "create BGPNeighbor need <RemoteAS> args")
  else arg args 0 (fun ip =>
    if negb (is_ip ip) then Some (Err (one_of_invalid "peer IP" ip))
    else arg args 1 (fun asn => Some (RemoteAs ← atoi_of asn; Ok (ip, RemoteAs)))).

Definition bgp_neighbor (o : CreateBGPNeighborOptions) (read : string * Z) : BGPNeighborMod :=
  {| bgp_IPaddress := read.1; bgp_RemoteAs := read.2;
     bgp_RemotePort := if negb (u8 (cb_RemotePort o) =? 179)%Z then u8 (cb_RemotePort o) else 0;
     bgp_SetMultiHop := cb_SetMultiHtop o |}.

Record CreateEndPointOptions : Type := {
  ce_Name : string;
  ce_ProbeType : string;
  ce_ProbeReq : string;
  ce_ProbeResp : string;
  ce_ProbePort : Z;
  ce_ProbeDuration : Z;
  ce_ProbeReTries : Z
}.

Definition endpoint_of (o : CreateEndPointOptions) (args : list string) : reading EndPointMod :=
  arg args 0 (fun host => Some (
    reject (negb (is_ip host)) with_ one_of_invalid "HOSTIP" host;;
    _ ← probe_checks (ce_ProbeType o) (ce_ProbePort o);
    reject (24 * 60 * 60 <? ce_ProbeDuration o)%Z with_ "probe period is out of bounds";;
    Ok {| epm_HostName := host; epm_Name := ce_Name o; epm_InActTries := ce_ProbeReTries o;
          epm_ProbeType := ce_ProbeType o; epm_ProbeReq := ce_ProbeReq o;
          epm_ProbeResp := ce_ProbeResp o; epm_ProbeDuration := U32 (to_uint32 (ce_ProbeDuration o));
          epm_ProbePort := U16 (to_uint16 (ce_ProbePort o)) |})).

Definition ReadCreateFDBOptions (args : list string) : reading FDBMod :=
  if (2 <? length args)%nat then Some (Err "create FDB command get so many args")
  else if (length args <=? 1)%nat then Some (Err "create FDB need <MacAddress>  args")
  else arg args 0 (fun mac =>
    if negb (is_mac mac) then Some (Err (one_of_invalid "MacAddress" mac))
    else arg args 1 (fun dev => Some (Ok {| fdb_Dev := dev; fdb_MacAddress := mac |}))).

Definition ReadCreateIPv4AddressOptions (args : list string) : reading Ipv4AddrMod :=
  if (2 <? length args)%nat then Some (Err "create IPv4Address command get so many args")
  else if (length args <=? 1)%nat then Some (Err "create IPv4Address need <DeviceIPNet>  args")
  else arg args 0 (fun net =>
    if negb (is_cidr net) then Some (Err (one_of_invalid "DeviceIPNet" net))
    else arg args 1 (fun dev => Some (Ok {| ipm_Dev := dev; ipm_IP := net |}))).

Definition ReadCreateNeighborsOptions (macAddress : string) (args : list string) : reading NeighborMod :=
  if (4 <? length args)%nat then Some (Err "create Neighbors command get so many args")
  else if (length args <? 2)%nat then Some (Err "create Neighbors need <DeviceIPNet>  args")
  else arg args 0 (fun ip =>
    if negb (is_ip ip) then Some (Err (one_of_invalid "DeviceIP" ip))
    else arg args 1 (fun dev =>
      Some (Ok {| nbm_Dev := dev; nbm_IP := ip; nbm_MacAddress := macAddress |}))).

Definition ReadCreateRouteOptions (StaticProto : string) (args : list string) : reading Routev4Get :=
  if (3 <? length args)%nat then Some (Err "create Route command get so many args")
  else if (length args <=? 1)%nat
  then Some (Err "create Route need <DestinationIPNet> and <gateway> args")
  else arg args 0 (fun net =>
    if negb (is_cidr net) then Some (Err (one_of_invalid "DestinationIPNet" net))
    else arg args 1 (fun gw =>
      Some (if is_ip gw
            then Ok {| rtm_Flags := ""; rtm_Gw := gw; rtm_Dst := net; rtm_HardwareMark := 0;
                       rtm_Statistic := go_zero;
                       rtm_Protocol := if streq StaticProto "static" then StaticProto else "" |}
            else Err (one_of_invalid "gateway IP" gw)))).

Definition ReadCreateVlanBridgeOptions (args : list string) : reading VlanBridgeMod :=
  if (1 <? length args)%nat then Some (Err "create vlan command get so many args")
  else arg args 0 (fun vid => Some (Vid ← atoi_of vid; Ok {| vlb_Vid := Vid |})).

(** The number and the device of a member. *)
Definition ReadCreateVlanMemberOptions (args : list string) : reading unit :=
  if (3 <? length args)%nat then Some (Err "create vlan member command get so many args")
  else if (length args <=? 1)%nat then Some (Err "create vlan member need <Vid> , <Device> args")
  else arg args 0 (fun vid => Some (_ ← atoi_of vid; Ok tt)).

Definition ReadCreateVxlanBridgeOptions (args : list string) : reading string :=
  if (3 <? length args)%nat then Some (Err "create vxlan command get so many args")
  else if (length args <=? 1)%nat
  then Some (Err "create vxlan need <VxlanID> <EndpointDeviceName> args")
  else arg args 1 (fun dev => Some (Ok dev)).

Definition ReadCreateVxlanPeerOptions (args : list string) : reading VxlanPeerMod :=
  if (2 <? length args)%nat then Some (Err "create vxlan command get so many args")
  else if (length args <? 1)%nat then Some (Err "create vxlan need <MacAddress>  args")
  else arg args 1 (fun peer =>
    Some (if is_ip peer then Ok {| vxp_PeerIP := peer |} else Err (one_of_invalid "PeerIP" peer))).

(* ------------------------------------------------------------------ *)
(** ** Firewall rules                                                  *)
(* ------------------------------------------------------------------ *)

Record CreateFirewallOptions : Type := {
  cf_FirewallRule : list string;
  cf_Redirect : list string;
  cf_SnatArgs : list string;
  cf_Allow : bool;
  cf_Drop : bool;
  cf_Trap : bool;
  cf_Record : bool;
  cf_Egress : bool;
  cf_Mark : uint32
}.

(** A loop that threads a value and stops at the first error. *)
Fixpoint fold_entries {A} (f : A -> string -> result string A) (a : A) (l : list string)
    : result string A :=
  match l with
  | [] => Ok a
  | x :: l' => match f a x with Ok a' => fold_entries f a' l' | Err e => Err e end
  end.

(** The entry [key:value] of a rule; a key that is not known is passed over. *)
Definition firewall_arg (FWrule : list string) (r : FwRuleArg) (FirewallArg : string)
    : result string FwRuleArg :=
  match split ":"%char FirewallArg with
  | key :: value :: rest =>
      let whole := if (length rest =? 0)%nat then value else join ":" (value :: rest) in
      if streq key "protocol" then
        n ← atoi_of value; Ok (set_fwr_Proto (U8 (to_uint8 n)) r)
      else if streq key "sourceIP" then Ok (set_fwr_SrcIP whole r)
      else if streq key "destinationIP" then Ok (set_fwr_DstIP whole r)
      else if streq key "portName" then Ok (set_fwr_InPort value r)
      else if streq key "minSourcePort" then
        n ← atoi_of value; Ok (set_fwr_SrcPortMin (U16 (to_uint16 n)) r)
      else if streq key "maxSourcePort" then
        n ← atoi_of value; Ok (set_fwr_SrcPortMax (U16 (to_uint16 n)) r)
      else if streq key "minDestinationPort" then
        n ← atoi_of value; Ok (set_fwr_DstPortMin (U16 (to_uint16 n)) r)
      else if streq key "maxDestinationPort" then
        n ← atoi_of value; Ok (set_fwr_DstPortMax (U16 (to_uint16 n)) r)
      else if streq key "preference" then
        n ← atoi_of value; Ok (set_fwr_Pref (U16 (to_uint16 n)) r)
      else Ok r
  | _ => Err (sprintf ["FirewallArgs '["; join " " FWrule; "]' is invalid format"])
  end.

Definition GetFirewallRulePairList (FWrule : list string) : result string FwRuleArg :=
  fold_entries (firewall_arg FWrule) go_zero FWrule.

(** One action: the first that is asked for, in this order. *)
Definition firewall_action (o : CreateFirewallOptions) (opts : FwOptArg) : result string FwOptArg :=
  if cf_Allow o then Ok (set_fwo_Allow true opts)
  else if cf_Drop o then Ok (set_fwo_Drop true opts)
  else if cf_Trap o then Ok (set_fwo_Trap true opts)
  else match cf_Redirect o with
  | port :: _ => Ok (set_fwo_RdrPort port (set_fwo_Rdr true opts))
  | [] =>
      match cf_SnatArgs o with
      | [] => Ok opts
      | ip :: rest =>
          reject (1 <? length rest)%nat with_ "invalid snat-args";;
          let opts := set_fwo_ToIP ip (set_fwo_DoSnat true opts) in
          opts ← match rest with
                 | port :: _ =>
                     match atoi port with
                     | Some sPort => Ok (set_fwo_ToPort (U16 (to_uint16 sPort)) opts)
                     | None => Err "invalid snat-args"
                     end
                 | [] => Ok (set_fwo_ToPort (U16 0) opts)
                 end;
          Ok (set_fwo_OnDefault (cf_Egress o) opts)
      end
  end.

Definition GetFWOptionPairList (o : CreateFirewallOptions) : result string FwOptArg :=
  opts ← firewall_action o go_zero;
  Ok (set_fwo_Mark (cf_Mark o) (set_fwo_Record (cf_Record o) opts)).

Definition firewall_rule (o : CreateFirewallOptions) : result string FwRuleMod :=
  rule ← GetFirewallRulePairList (cf_FirewallRule o);
  opts ← GetFWOptionPairList o;
  Ok {| fwm_Rule := rule; fwm_Opts := opts |}.

(* ------------------------------------------------------------------ *)
(** ** Mirrors                                                         *)
(* ------------------------------------------------------------------ *)

Definition ReadCreateMirrorOptions (args : list string) : reading string :=
  if (2 <? length args)%nat then Some (Err "create Mirror command get so many args")
  else if (length args =? 0)%nat then Some (Err "create Mirror need <MirrID> arg")
  else arg args 0 (fun id => Some (Ok id)).

Definition mirror_arg (MirrInfo_ : list string) (r : MirrInfo) (mirrorArg : string)
    : result string MirrInfo :=
  match split ":"%char mirrorArg with
  | [key; value] =>
      if streq key "type" then n ← atoi_of value; Ok (set_mri_MirrType n r)
      else if streq key "port" then Ok (set_mri_MirrPort value r)
      else if streq key "vlan" then n ← atoi_of value; Ok (set_mri_MirrVlan n r)
      else if streq key "remoteIP" then Ok (set_mri_MirrRip value r)
      else if streq key "sourceIP" then Ok (set_mri_MirrSip value r)
      else if streq key "tunnelID" then n ← atoi_of value; Ok (set_mri_MirrTid n r)
      else Ok r
  | _ => Err (sprintf ["mirrorArgs '["; join " " MirrInfo_; "]' is invalid format"])
  end.

Definition GetMirrorInfoPairList (l : list string) : result string MirrInfo :=
  fold_entries (mirror_arg l) go_zero l.

Definition target_arg (TargerObj : list string) (r : MirrObj) (mirrorArg : string)
    : result string MirrObj :=
  match split ":"%char mirrorArg with
  | [key; value] =>
      if streq key "mirrObjName" then Ok (set_mro_MirrObjName value r)
      else if streq key "attachement" then n ← atoi_of value; Ok (set_mro_AttachMent n r)
      else Ok r
  | _ => Err (sprintf ["TargerObj '["; join " " TargerObj; "]' is invalid format"])
  end.

Definition GetTargetObjPairList (l : list string) : result string MirrObj :=
  fold_entries (target_arg l) go_zero l.

Definition mirror_of (MirrInfo_ TargerObj : list string) (args : list string) : reading MirrMod :=
  match ReadCreateMirrorOptions args with
  | None => None
  | Some (Err e) => Some (Err e)
  | Some (Ok id) => Some (
      info ← GetMirrorInfoPairList MirrInfo_;
      target ← GetTargetObjPairList TargerObj;
      Ok {| mrm_Ident := id; mrm_Info := info; mrm_Target := target |})
  end.

(* ------------------------------------------------------------------ *)
(** ** Policies                                                        *)
(* ------------------------------------------------------------------ *)

Record CreatePolicyOptions : Type := {
  cp_Rate : string;
  cp_Block : string;
  cp_Target : string;
  cp_Color : bool;
  cp_PolType : Z
}.

(** [uint64(x)] of an [int]. *)
Definition to_uint64 (x : Z) : Z := wrap 64 x.

Definition number (what s : string) : result string Z :=
  of_option (sprintf [what; " '"; s; "' is not integer"]) (atoi s).

Definition GetRatePair (info : PolInfo) (RateBlock : string) : result string PolInfo :=
  if is_empty RateBlock then Ok info
  else match split ":"%char RateBlock with
  | [peak; committed] =>
      Peak ← number "peak" peak;
      Committed ← number "committed" committed;
      Ok (set_poi_PeakInfoRate (U64 (to_uint64 Peak))
            (set_poi_CommittedInfoRate (U64 (to_uint64 Committed)) info))
  | _ => Err "lots of args for rate"
  end.

Definition GetBlockPair (info : PolInfo) (Block : string) : result string PolInfo :=
  if is_empty Block then Ok info
  else match split ":"%char Block with
  | [excess; committed] =>
      Excess ← number "excess" excess;
      Committed ← number "committed" committed;
      Ok (set_poi_CommittedBlkSize (U64 (to_uint64 Committed))
            (set_poi_ExcessBlkSize (U64 (to_uint64 Excess)) info))
  | _ => Err "error in block size args"
  end.

Definition policyAttachment (value : string) : result string Z :=
  let v := to_lower (trim_space value) in
  if str_in v ["0"; "rule"] then Ok 0%Z
  else if str_in v ["1"; "port"] then Ok 1%Z
  else if str_in v ["2"; "egress-port"] then Ok 2%Z
  else Err (sprintf ["attachment "; quote value; " must be rule|port|egress-port or 0|1|2"]).

(** [strconv.ParseUint(s, 10, 16)], as far as the program asks for an error. *)
Definition is_port_number (s : string) : bool :=
  match unsigned_digits s with Some n => (n <? 65536)%Z | None => false end.

Definition validatePolicyRuleTarget (target : string) : result string unit :=
  let format := sprintf ["rule target "; quote target; " must use VIP:PORT:PROTO or [IPv6]:PORT:PROTO"] in
  match split_last ":"%char target with
  | None => Err format
  | Some (hostPort, proto) =>
      reject (is_empty hostPort || is_empty proto) with_ format;;
      let protocol := to_lower proto in
      reject (negb (str_in protocol ["tcp"; "udp"; "sctp"; "icmp"]))
        with_ sprintf ["rule target protocol "; quote protocol; " must be tcp|udp|sctp|icmp"];;
      match split_host_port hostPort with
      | None => Err (sprintf ["rule target "; quote target; " must bracket IPv6 and use VIP:PORT:PROTO"])
      | Some (host, rawPort) =>
          reject (negb (is_ip host))
            with_ sprintf ["rule target VIP "; quote host; " is not a valid IP address"];;
          reject (negb (is_port_number rawPort))
            with_ sprintf ["rule target port "; quote rawPort; " must be within 0..65535"];;
          Ok tt
      end
  end.

Definition GetTargetPair (Block : string) : result string PolObj :=
  let format := sprintf ["target must use '<object>:<rule|port|egress-port>' ";
                         "(numeric 0|1|2 is also accepted)"] in
  match split_last ":"%char Block with
  | None => Err format
  | Some (objectName, attach) =>
      reject (is_empty objectName || is_empty attach) with_ format;;
      attachment ← policyAttachment attach;
      _ ← (if (attachment =? 0)%Z then validatePolicyRuleTarget objectName
           else reject_if (contains objectName ":")
                  (sprintf ["port attachment target "; quote objectName; " must be a port name"]));
      Ok {| poo_PolObjName := objectName; poo_AttachMent := U64 attachment |}
  end.

(** An error with what it is about. *)
Definition about {A} (prefix : string) (r : result string A) : result string A :=
  match r with Ok a => Ok a | Err e => Err (prefix +:+ e) end.

Definition policy_of (o : CreatePolicyOptions) (ident : string) : result string PolMod :=
  info ← about "Rate Error: " (GetRatePair go_zero (cp_Rate o));
  info ← about "Block Error: " (GetBlockPair info (cp_Block o));
  target ← about "Target Error: " (GetTargetPair (cp_Target o));
  Ok {| pom_Ident := ident;
        pom_Info := set_poi_PolType (cp_PolType o) (set_poi_ColorAware (cp_Color o) info);
        pom_Target := target; pom_Attached := None |}.

(* ------------------------------------------------------------------ *)
(** ** Sessions                                                        *)
(* ------------------------------------------------------------------ *)

Definition ReadCreateSessionOptions (args : list string) : reading (string * net_ip) :=
  if (3 <? length args)%nat then Some (Err "create Session command get so many args")
  else if (length args <=? 1)%nat then Some (Err "create Session need <userID> and <sessionIP> args")
  else arg args 0 (fun id => arg args 1 (fun ip =>
    Some (match ParseIP ip with
          | Some bytes => Ok (id, NetIP bytes)
          | None => Err (one_of_invalid "session IP" ip)
          end))).

Definition GetNetworkTunnelPairList (networkTunnel : string) : result string SessTun :=
  match split ":"%char networkTunnel with
  | [teid; ip] =>
      TeID ← of_option (one_of_invalid "networkTunnel's TeID" teid) (atoi teid);
      match ParseIP ip with
      | Some bytes => Ok {| stn_TeID := U32 (to_uint32 TeID); stn_Addr := NetIP bytes |}
      | None => Err (one_of_invalid "tunnel IP" ip)
      end
  | _ => Err (one_of_invalid "networkTunnel" networkTunnel)
  end.

Definition session_of (ANTunnel CNTunnel : string) (args : list string) : reading SessionMod :=
  match ReadCreateSessionOptions args with
  | None => None
  | Some (Err e) => Some (Err e)
  | Some (Ok (id, ip)) => Some (
      an ← GetNetworkTunnelPairList ANTunnel;
      cn ← GetNetworkTunnelPairList CNTunnel;
      Ok {| ssm_Ident := id; ssm_Ip := ip; ssm_AnTun := an; ssm_CnTun := cn |})
  end.

Definition ReadCreateSessionUlClOptions (args : list string) : reading string :=
  if (2 <? length args)%nat then Some (Err "create Session ulcl command get so many args")
  else if (length args <=? 0)%nat then Some (Err "create Session ulcl need <userID> arg")
  else arg args 0 (fun id => Some (Ok id)).

Definition ulcl_arg (ulclArgs : list string) (ulclArg : string) : result string UlClArg :=
  match split ":"%char ulclArg with
  | [qfi; ip] =>
      q ← of_option (one_of_invalid "ulclArgs's QFI" qfi) (atoi qfi);
      match ParseIP ip with
      | Some bytes => Ok {| uca_Addr := NetIP bytes; uca_Qfi := U8 (to_uint8 q) |}
      | None => Err (one_of_invalid "ulclArgs's IP" ip)
      end
  | _ => Err (sprintf ["ulclArgs '["; join " " ulclArgs; "]' is invalid format"])
  end.

Definition GetUlClArgsPairList (ident : string) (ulclArgs : list string)
    : result string (list SessionUlClMod) :=
  l ← map_each (ulcl_arg ulclArgs) ulclArgs;
  Ok (List.map (fun a => {| ucm_Ident := ident; ucm_Args := a |}) l).

Definition ulcl_of (UlClArgs : list string) (args : list string) : reading (list SessionUlClMod) :=
  match ReadCreateSessionUlClOptions args with
  | None => None
  | Some (Err e) => Some (Err e)
  | Some (Ok ident) => Some (GetUlClArgsPairList ident UlClArgs)
  end.

(* ------------------------------------------------------------------ *)
(** ** The commands                                                    *)
(* ------------------------------------------------------------------ *)

Section Commands.
Context `{GoLib}.
Variable restOptions : RESTOptions.

(** [XAPICall]: a client, and the post of a document. *)
Definition APICall (api : LoxiClient -> CommonAPI) (doc : gojson) : IO http_result :=
  client ← NewLoxiClient restOptions;
  Create (api client) doc.

(** The end of the old commands. *)
Definition create_old (debug : bool) (op : string) (api : LoxiClient -> CommonAPI) (doc : gojson)
    : IO outcome :=
  answered (colon op) (APICall api doc) (resource_answer debug restOptions op).

(** Read the arguments, then go on. *)
Definition when_read {A} (prefix : string) (r : reading A) (k : A -> IO outcome) : IO outcome :=
  match r with
  | None => mret Panics
  | Some (Err e) => failed_with (prefix +:+ e)
  | Some (Ok a) => k a
  end.

(** A command that needs arguments. *)
Definition with_arguments (need : string) (args : list string) (k : IO outcome) : IO outcome :=
  if (length args =? 0)%nat then fail_with (Usagef need) else k.

Definition create_bfd (o : BFDSessionInfo) (args : list string) : IO outcome :=
  with_arguments "create bfd needs remoteIP args" args
    (when_read "" (ReadCreateBfdOptions o args) (fun m =>
       create_old false "create bfd" Client.BFDSession (bfd_session_info_json m))).

Definition create_bgpneighbor (o : CreateBGPNeighborOptions) (args : list string) : IO outcome :=
  with_arguments "create bgpneighbor needs its arguments" args
    (when_read "" (ReadCreateBGPNeighborOptions args) (fun r =>
       create_old false "create bgpneighbor" Client.BGPNeighbor
         (bgp_neighbor_mod_json (bgp_neighbor o r)))).

Definition create_endpoint (o : CreateEndPointOptions) (args : list string) : IO outcome :=
  with_arguments "create ep need HOST-IP args" args
    (when_read "" (endpoint_of o args) (fun m =>
       create_old true "create endpoint" Client.EndPoint (end_point_mod_json m))).

Definition create_fdb (args : list string) : IO outcome :=
  with_arguments "create fdb needs its arguments" args
    (when_read "" (ReadCreateFDBOptions args) (fun m =>
       create_old false "create fdb" Client.FDB (fdb_mod_json m))).

Definition create_ip (args : list string) : IO outcome :=
  with_arguments "create ip needs its arguments" args
    (when_read "" (ReadCreateIPv4AddressOptions args) (fun m =>
       create_old false "create ip" Client.IPv4Address (ipv4_addr_mod_json m))).

Definition create_neighbor (macAddress : string) (args : list string) : IO outcome :=
  with_arguments "create neighbor needs its arguments" args
    (when_read "" (ReadCreateNeighborsOptions macAddress args) (fun m =>
       create_old false "create neighbor" Client.Neighbor (neighbor_mod_json m))).

Definition create_route (StaticProto : string) (args : list string) : IO outcome :=
  with_arguments "create route needs its arguments" args
    (when_read "" (ReadCreateRouteOptions StaticProto args) (fun m =>
       create_old false "create route" Client.Route (routev4_get_json m))).

Definition create_vlan (args : list string) : IO outcome :=
  with_arguments "create vlan needs its arguments" args
    (when_read "" (ReadCreateVlanBridgeOptions args) (fun m =>
       create_old false "create vlan" Client.Vlan (vlan_bridge_mod_json m))).

Definition create_vlanmember (tagged : bool) (args : list string) : IO outcome :=
  with_arguments "create vlanmember needs its arguments" args
    (when_read "" (ReadCreateVlanMemberOptions args) (fun _ =>
       with_arg args 0 (mret Panics) (fun vid => with_arg args 1 (mret Panics) (fun dev =>
         create_old false "create vlanmember"
           (fun c => SetUrl (Client.Vlan c) (sprintf ["/config/vlan/"; vid; "/member"]))
           (vlan_member_mod_json {| vlm_Dev := dev; vlm_Tagged := tagged |}))))).

Definition create_vxlan (args : list string) : IO outcome :=
  with_arguments "create vxlan needs its arguments" args
    (when_read "" (ReadCreateVxlanBridgeOptions args) (fun dev =>
       with_arg args 0 (mret Panics) (fun id =>
         when_read "" (Some (atoi_of id)) (fun VxLanID =>
           create_old false "create vxlan" Client.Vxlan
             (vxlan_bridge_mod_json {| vxb_VxLanID := VxLanID; vxb_EndpointDev := dev |}))))).

Definition create_vxlanpeer (args : list string) : IO outcome :=
  with_arguments "create vxlanpeer needs its arguments" args
    (when_read "" (ReadCreateVxlanPeerOptions args) (fun m =>
       with_arg args 0 (mret Panics) (fun vnid =>
         create_old false "create vxlanpeer"
           (fun c => SetUrl (Client.Vxlan c) (sprintf ["/config/tunnel/vxlan/"; vnid; "/peer"]))
           (vxlan_peer_mod_json m)))).

Definition create_firewall (o : CreateFirewallOptions) : IO outcome :=
  if (length (cf_FirewallRule o) =? 0)%nat
  then fail_with (Usagef "create firewall needs its --firewallRule option")
  else when_read "" (Some (firewall_rule o)) (fun m =>
         create_old true "create firewall" Client.Firewall (fw_rule_mod_json m)).

Definition create_mirror (MirrInfo_ TargerObj : list string) (args : list string) : IO outcome :=
  with_arguments "create mirror needs its arguments" args
    (when_read "" (mirror_of MirrInfo_ TargerObj args) (fun m =>
       create_old true "create mirror" Client.Mirror (mirr_mod_json m))).

(** [ReadCreatePolicyOptions] says something of further arguments. *)
Definition create_policy (o : CreatePolicyOptions) (args : list string) : IO outcome :=
  with_arguments "create policy needs its arguments" args
    (_ ← (if (1 <? length args)%nat
          then _ ← say ("create Pol command get so many args" +:+ nl); say (args_line args)
          else mret tt);
     with_arg args 0 (mret Panics) (fun ident =>
       when_read "" (Some (policy_of o ident)) (fun m =>
         create_old true "create policy" Client.Policy (pol_mod_json m)))).

Definition create_session (ANTunnel CNTunnel : string) (args : list string) : IO outcome :=
  with_arguments "create session needs its arguments" args
    (when_read "" (session_of ANTunnel CNTunnel args) (fun m =>
       create_old true "create session" Client.Session (session_mod_json m))).

(** Every entry is posted, each with a client of its own. *)
Fixpoint create_each (op : string) (api : LoxiClient -> CommonAPI) (docs : list gojson) : IO outcome :=
  match docs with
  | [] => succeed
  | doc :: docs' =>
      answered (colon op) (APICall api doc) (fun resp =>
        _ ← say (sprintf ["Debug: response.StatusCode: "; itoa (hr_status resp); nl]);
        if negb (hr_status resp =? 200)%Z then fail_with (FromHTTPStatus op (hr_status resp))
        else _ ← PrintCreateResult resp restOptions; create_each op api docs')
  end.

Definition create_sessionulcl (UlClArgs : list string) (args : list string) : IO outcome :=
  with_arguments "create sessionulcl needs its arguments" args
    (when_read "" (ulcl_of UlClArgs args) (fun l =>
       create_each "create sessionulcl" Client.SessionUlCL (List.map session_ul_cl_mod_json l))).

(** The management commands. *)
Definition create_managed (op done_ : string) (api : LoxiClient -> CommonAPI) (doc : gojson)
    : IO outcome :=
  answered (colon op) (APICall api doc) (managed_answer [200; 201]%Z op (say done_)).

Definition create_sni (hostname certPath : string) : IO outcome :=
  if is_empty hostname then fail_with (Usagef "--hostname is required")
  else create_managed "create sni" (sprintf ["SNI certificate registered for '"; hostname; "'."; nl])
         Client.SNICertificate
         (sni_certificate_entry_json {| sne_Hostname := hostname; sne_CertPath := certPath |}).

Record CreateUserOptions : Type := { cu_Username : string; cu_Password : string; cu_Role : string }.

Definition create_user (o : CreateUserOptions) : IO outcome :=
  if is_empty (cu_Username o) || is_empty (cu_Password o)
  then fail_with (Usagef "--username and --password are required")
  else create_managed "create user" (sprintf ["User '"; cu_Username o; "' created."; nl]) Client.User
         (user_model_json {| usr_Username := cu_Username o; usr_Password := cu_Password o;
                             usr_Role := cu_Role o; usr_ID := 0; usr_CreatedAt := "" |}).

End Commands.
