(* ===== verification/CreateProps.v ===== *)
(** * What the create commands ask of the gateway *)
From S2P Require Import Prelude GoStrings GoNet Json JsonPrint Fields World Errors Exitcode.
From S2P Require Import Rest Requests FeatureGate Commands Plans NetModel CreateCmds.

(* ------------------------------------------------------------------ *)
(** ** The plans                                                       *)
(* ------------------------------------------------------------------ *)

Definition one_post (ok : list Z) (api : LoxiClient -> CommonAPI) (doc : gojson) : asked :=
  {| as_method := "POST"; as_api := api; as_body := Some (encode doc); as_ok := ok; as_feature := false |}.

Definition posts (api : LoxiClient -> CommonAPI) (doc : gojson) : plan := Asks (one_post [200%Z] api doc).
Definition registers (api : LoxiClient -> CommonAPI) (doc : gojson) : plan :=
  Asks (one_post [200; 201]%Z api doc).

(** A document for the collection of a path, or arguments that give none. *)
Definition posting (path : string) (doc : option gojson) : plan :=
  match doc with Some d => posts (at_path path) d | None => Refuses end.

Definition provided (b : bool) (doc : gojson) : option gojson := if b then Some doc else None.

(* ------------------------------------------------------------------ *)
(** ** The documents                                                   *)
(* ------------------------------------------------------------------ *)

(** What each command makes of its arguments and flags, member by member; [None]
    is what it refuses. *)

Definition bfd_doc (o : BFDSessionInfo) (args : list string) : option gojson :=
  match args with
  | [ip] => provided (is_ip ip) (GObj
      [("instance", GStr (bfd_Instance o)); ("remoteIp", GStr ip); ("sourceIp", GStr (bfd_SourceIP o));
       ("port", GInt (u16 (bfd_Port o))); ("interval", GInt (u64 (bfd_Interval o)));
       ("retryCount", GInt (u8 (bfd_RetryCount o))); ("state", GStr (bfd_State o))])
  | _ => None
  end.

Definition bgp_doc (o : CreateBGPNeighborOptions) (args : list string) : option gojson :=
  match args with
  | [ip; asn] =>
      n ← atoi asn;
      provided (is_ip ip) (GObj
        [("ipAddress", GStr ip); ("remoteAs", GInt n);
         ("remotePort", GInt (if bool_decide (u8 (cb_RemotePort o) = 179%Z) then 0 else u8 (cb_RemotePort o)));
         ("setMultiHop", GBool (cb_SetMultiHtop o))])
  | _ => None
  end.

Definition endpoint_doc (o : CreateEndPointOptions) (args : list string) : option gojson :=
  match args with
  | host :: _ =>
      provided (is_ip host && probe_fits (ce_ProbeType o) (ce_ProbePort o)
                && (ce_ProbeDuration o <=? 86400)%Z) (GObj
        [("hostName", GStr host); ("name", GStr (ce_Name o)); ("inactiveReTries", GInt (ce_ProbeReTries o));
         ("probeType", GStr (ce_ProbeType o)); ("probeReq", GStr (ce_ProbeReq o));
         ("probeResp", GStr (ce_ProbeResp o)); ("probeDuration", GInt (ce_ProbeDuration o mod 4294967296));
         ("probePort", GInt (ce_ProbePort o mod 65536))])
  | [] => None
  end.

Definition fdb_doc (args : list string) : option gojson :=
  match args with
  | [mac; dev] => provided (is_mac mac) (GObj [("dev", GStr dev); ("macAddress", GStr mac)])
  | _ => None
  end.

Definition address_doc (args : list string) : option gojson :=
  match args with
  | [net; dev] => provided (is_cidr net) (GObj [("dev", GStr dev); ("ipAddress", GStr net)])
  | _ => None
  end.

Definition neighbor_doc (mac : string) (args : list string) : option gojson :=
  match args with
  | ip :: dev :: _ =>
      provided ((length args <=? 4)%nat && is_ip ip)
        (GObj [("dev", GStr dev); ("ipAddress", GStr ip); ("macAddress", GStr mac)])
  | _ => None
  end.

Definition route_doc (proto : string) (args : list string) : option gojson :=
  match args with
  | net :: gateway :: _ =>
      provided ((length args <=? 3)%nat && is_cidr net && is_ip gateway) (GObj
        [("flags", GStr ""); ("gateway", GStr gateway); ("destinationIPNet", GStr net);
         ("hardwareMark", GInt 0); ("statistic", GObj [("bytes", GInt 0); ("packets", GInt 0)]);
         ("protocol", GStr (if bool_decide (proto = "static") then "static" else ""))])
  | _ => None
  end.

Definition vlan_doc (args : list string) : option gojson :=
  match args with [vid] => n ← atoi vid; Some (GObj [("vid", GInt n)]) | _ => None end.

(** Entries of a key and, after the first colon, a value: the key, the value up to
    the next colon, and all of it. *)
Definition entry_parts (entry : string) : option (string * string * string) :=
  match split ":"%char entry with
  | key :: value :: rest => Some (key, value, join ":" (value :: rest))
  | _ => None
  end.

(** The last entry of a key. *)
Definition last_of (key : string) (entries : list string) : option (string * string) :=
  List.fold_left (fun found entry =>
    match entry_parts entry with
    | Some (k, value, whole) => if streq k key then Some (value, whole) else found
    | None => found
    end) entries None.

Definition text_of (key : string) (entries : list string) : string :=
  match last_of key entries with Some (_, whole) => whole | None => "" end.
Definition value_of_key (key : string) (entries : list string) : string :=
  match last_of key entries with Some (value, _) => value | None => "" end.
Definition integer_of (key : string) (entries : list string) : Z :=
  match last_of key entries with Some (value, _) => default 0%Z (atoi value) | None => 0%Z end.
(** The number of the last entry, kept to [w] bits. *)
Definition number_of (w : Z) (key : string) (entries : list string) : Z :=
  (integer_of key entries mod 2 ^ w)%Z.

(** A firewall rule has a number for each key that is one. *)
Definition rule_entry_fits (entry : string) : bool :=
  match entry_parts entry with
  | None => false
  | Some (key, value, _) =>
      negb (bool_decide (key ∈ ["protocol"; "minSourcePort"; "maxSourcePort"; "minDestinationPort";
                                "maxDestinationPort"; "preference"])) || integer value
  end.

Definition rule_doc (entries : list string) : gojson :=
  GObj [("sourceIP", GStr (text_of "sourceIP" entries));
        ("destinationIP", GStr (text_of "destinationIP" entries));
        ("minSourcePort", GInt (number_of 16 "minSourcePort" entries));
        ("maxSourcePort", GInt (number_of 16 "maxSourcePort" entries));
        ("minDestinationPort", GInt (number_of 16 "minDestinationPort" entries));
        ("maxDestinationPort", GInt (number_of 16 "maxDestinationPort" entries));
        ("protocol", GInt (number_of 8 "protocol" entries));
        ("portName", GStr (value_of_key "portName" entries));
        ("preference", GInt (number_of 16 "preference" entries))].

(** The one action of a rule: of those asked for, the first. *)
Inductive fw_action : Type :=
  | Allowed | Dropped | Trapped | Redirected (port : string) | Translated (ip : string) (port : Z) | NoAction.

Definition action_asked (o : CreateFirewallOptions) : option fw_action :=
  if cf_Allow o then Some Allowed
  else if cf_Drop o then Some Dropped
  else if cf_Trap o then Some Trapped
  else match cf_Redirect o, cf_SnatArgs o with
  | port :: _, _ => Some (Redirected port)
  | [], [ip] => Some (Translated ip 0)
  | [], [ip; port] => n ← atoi port; Some (Translated ip (n mod 65536))
  | [], [] => Some NoAction
  | [], _ => None
  end.

Definition opts_doc (o : CreateFirewallOptions) (a : fw_action) : gojson :=
  GObj [("drop", GBool (match a with Dropped => true | _ => false end));
        ("trap", GBool (match a with Trapped => true | _ => false end));
        ("redirect", GBool (match a with Redirected _ => true | _ => false end));
        ("redirectPortName", GStr (match a with Redirected port => port | _ => "" end));
        ("allow", GBool (match a with Allowed => true | _ => false end));
        ("fwMark", GInt (u32 (cf_Mark o))); ("record", GBool (cf_Record o));
        ("doSnat", GBool (match a with Translated _ _ => true | _ => false end));
        ("toIP", GStr (match a with Translated ip _ => ip | _ => "" end));
        ("toPort", GInt (match a with Translated _ port => port | _ => 0%Z end));
        ("onDefault", GBool (match a with Translated _ _ => cf_Egress o | _ => false end));
        ("counter", GStr "")].

Definition firewall_doc (o : CreateFirewallOptions) : option gojson :=
  match cf_FirewallRule o with
  | [] => None
  | entries =>
      a ← action_asked o;
      provided (forallb rule_entry_fits entries)
        (GObj [("ruleArguments", rule_doc entries); ("opts", opts_doc o a)])
  end.

(** The entries of a mirror have one colon. *)
Definition pair_fits (numbers : list string) (entry : string) : bool :=
  match split ":"%char entry with
  | [key; value] => negb (bool_decide (key ∈ numbers)) || integer value
  | _ => false
  end.

Definition mirror_doc (info target args : list string) : option gojson :=
  match args with
  | [id] | [id; _] =>
      provided (forallb (pair_fits ["type"; "vlan"; "tunnelID"]) info
                && forallb (pair_fits ["attachement"]) target) (GObj
        [("mirrorIdent", GStr id);
         ("mirrorInfo", GObj
            [("type", GInt (integer_of "type" info)); ("port", GStr (value_of_key "port" info));
             ("vlan", GInt (integer_of "vlan" info)); ("remoteIP", GStr (value_of_key "remoteIP" info));
             ("sourceIP", GStr (value_of_key "sourceIP" info)); ("tunnelID", GInt (integer_of "tunnelID" info))]);
         ("targetObject", GObj
            [("mirrObjName", GStr (value_of_key "mirrObjName" target));
             ("attachment", GInt (integer_of "attachement" target))])])
  | _ => None
  end.

(** Two numbers with a colon between, as 64-bit ones; no text is two zeros. *)
Definition two_numbers (text : string) : option (Z * Z) :=
  match split ":"%char text with
  | [first; second] => x ← atoi first; y ← atoi second;
      Some (x mod 18446744073709551616, y mod 18446744073709551616)%Z
  | _ => if bool_decide (text = "") then Some (0, 0)%Z else None
  end.

(** What a policy is attached to: 0, a service as address, port and protocol; 1 or
    2, a port by a name without a colon. *)
Definition attachment_of (word : string) : option Z :=
  let v := to_lower (trim_space word) in
  if bool_decide (v ∈ ["0"; "rule"]) then Some 0%Z
  else if bool_decide (v ∈ ["1"; "port"]) then Some 1%Z
  else if bool_decide (v ∈ ["2"; "egress-port"]) then Some 2%Z
  else None.

Definition service_fits (object : string) : bool :=
  match split_last ":"%char object with
  | Some (host_port, proto) =>
      bool_decide (to_lower proto ∈ ["tcp"; "udp"; "sctp"; "icmp"])
      && match split_host_port host_port with
         | Some (host, port) =>
             is_ip host && match unsigned_digits port with Some n => (n <? 65536)%Z | None => false end
         | None => false
         end
  | None => false
  end.

Definition target_doc (text : string) : option gojson :=
  '(object, word) ← split_last ":"%char text;
  kind ← attachment_of word;
  provided (bool_decide (object <> "")
            && if bool_decide (kind = 0%Z) then service_fits object else negb (contains object ":"))
    (GObj [("polObjName", GStr object); ("attachment", GInt kind)]).

Definition policy_doc (o : CreatePolicyOptions) (args : list string) : option gojson :=
  match args with
  | [] => None
  | ident :: _ =>
      '(peak, committed) ← two_numbers (cp_Rate o);
      '(excess, block) ← two_numbers (cp_Block o);
      target ← target_doc (cp_Target o);
      Some (GObj
        [("policyIdent", GStr ident);
         ("policyInfo", GObj
            [("type", GInt (cp_PolType o)); ("colorAware", GBool (cp_Color o));
             ("committedInfoRate", GInt committed); ("peakInfoRate", GInt peak);
             ("committedBlkSize", GInt block); ("excessBlkSize", GInt excess)]);
         ("targetObject", target)])
  end.

(** Addresses are written in their usual form. *)
Definition ip_doc (text : string) : option gojson := GStr ∘ ip_string <$> ParseIP text.

Definition tunnel_doc (text : string) : option gojson :=
  match split ":"%char text with
  | [teid; ip] => n ← atoi teid; address ← ip_doc ip;
      Some (GObj [("teID", GInt (n mod 4294967296)); ("tunnelIP", address)])
  | _ => None
  end.

Definition session_doc (an cn : string) (args : list string) : option gojson :=
  match args with
  | [id; ip] | [id; ip; _] =>
      address ← ip_doc ip; access ← tunnel_doc an; core ← tunnel_doc cn;
      Some (GObj [("ident", GStr id); ("sessionIP", address); ("accessNetworkTunnel", access);
                  ("coreNetworkTunnel", core)])
  | _ => None
  end.

Definition ulcl_doc (user entry : string) : option gojson :=
  match split ":"%char entry with
  | [qfi; ip] => n ← atoi qfi; address ← ip_doc ip;
      Some (GObj [("ulclIdent", GStr user);
                  ("ulclArgument", GObj [("ulclIP", address); ("qfi", GInt (n mod 256))])])
  | _ => None
  end.

(** A member that is left out when it is empty. *)
Definition given_text (k s : string) : list (string * gojson) :=
  if bool_decide (s = "") then [] else [(k, GStr s)].

Record CreateFlags : Type := {
  fl_bfd : BFDSessionInfo;
  fl_bgp : CreateBGPNeighborOptions;
  fl_endpoint : CreateEndPointOptions;
  fl_macAddress : string;
  fl_proto : string;
  fl_tagged : bool;
  fl_firewall : CreateFirewallOptions;
  fl_mirrorInfo : list string;
  fl_targetObject : list string;
  fl_policy : CreatePolicyOptions;
  fl_anTunnel : string;
  fl_cnTunnel : string;
  fl_hostname : string;
  fl_certPath : string;
  fl_user : CreateUserOptions
}.

Definition create_commands `{GoLib} (ro : RESTOptions) (f : CreateFlags) (args : list string)
    : list (IO outcome * plan) :=
  [ (create_bfd ro (fl_bfd f) args, posting "config/bfd" (bfd_doc (fl_bfd f) args));
    (create_bgpneighbor ro (fl_bgp f) args, posting "config/bgp/neigh" (bgp_doc (fl_bgp f) args));
    (create_endpoint ro (fl_endpoint f) args, posting "config/endpoint" (endpoint_doc (fl_endpoint f) args));
    (create_fdb ro args, posting "config/fdb" (fdb_doc args));
    (create_ip ro args, posting "config/ipv4address" (address_doc args));
    (create_neighbor ro (fl_macAddress f) args,
     posting "config/neighbor" (neighbor_doc (fl_macAddress f) args));
    (create_route ro (fl_proto f) args, posting "config/route" (route_doc (fl_proto f) args));
    (create_vlan ro args, posting "config/vlan" (vlan_doc args));
    (create_vlanmember ro (fl_tagged f) args,
     match args with
     | vid :: dev :: _ =>
         posting (sprintf ["/config/vlan/"; vid; "/member"])
           (provided ((length args <=? 3)%nat && integer vid)
              (GObj [("dev", GStr dev); ("tagged", GBool (fl_tagged f))]))
     | _ => Refuses
     end);
    (create_vxlan ro args,
     match args with
     | id :: dev :: _ =>
         posting "config/tunnel/vxlan"
           (n ← atoi id; provided (length args <=? 3)%nat (GObj [("vxlanID", GInt n); ("epIntf", GStr dev)]))
     | _ => Refuses
     end);
    (create_vxlanpeer ro args,
     match args with
     | [_] => Crashes
     | [vnid; peer] =>
         posting (sprintf ["/config/tunnel/vxlan/"; vnid; "/peer"])
           (provided (is_ip peer) (GObj [("peerIP", GStr peer)]))
     | _ => Refuses
     end);
    (create_firewall ro (fl_firewall f), posting "config/firewall" (firewall_doc (fl_firewall f)));
    (create_mirror ro (fl_mirrorInfo f) (fl_targetObject f) args,
     posting "config/mirror" (mirror_doc (fl_mirrorInfo f) (fl_targetObject f) args));
    (create_policy ro (fl_policy f) args, posting "config/policy" (policy_doc (fl_policy f) args));
    (create_session ro (fl_anTunnel f) (fl_cnTunnel f) args,
     posting "config/session" (session_doc (fl_anTunnel f) (fl_cnTunnel f) args));
    (create_sni ro (fl_hostname f) (fl_certPath f),
     if bool_decide (fl_hostname f = "") then Refuses
     else registers (at_path "sni/certificates")
            (GObj ([("hostname", GStr (fl_hostname f))] ++ given_text "certPath" (fl_certPath f))));
    (create_user ro (fl_user f),
     if bool_decide (cu_Username (fl_user f) = "" \/ cu_Password (fl_user f) = "") then Refuses
     else registers (at_path "auth/users")
            (GObj ([("username", GStr (cu_Username (fl_user f)));
                    ("password", GStr (cu_Password (fl_user f)))] ++ given_text "role" (cu_Role (fl_user f))))) ].

(* ------------------------------------------------------------------ *)
(** ** The commands follow their plans                                 *)
(* ------------------------------------------------------------------ *)

Section Refinement.
Context `{GoLib}.
Variable ro : RESTOptions.

(** A post whose document can be encoded. *)
Lemma post_wp a c api doc failure k w h :
  a = one_post (as_ok a) api doc -> rc_Options c = ro -> ca_restClient (api c) = c ->
  raw_ok doc = true -> ends a k ->
  wp (answered failure (Create (api c) doc) k) w h (fun out t => sends ro a out (https t)).
Proof.
  intros Ha Hc Hapi Hdoc Hk. unfold Create. rewrite (with_body_run doc (encode doc))
    by (unfold marshal; by rewrite Hdoc).
  unfold POST. rewrite Hapi, Ha. apply (answered_wp ro (one_post (as_ok a) api doc) c); [done|].
  by rewrite <- Ha.
Qed.

(** The client is made inside the call. *)
Lemma api_call_wp a api doc failure k w h :
  a = one_post (as_ok a) api doc -> (forall c, ca_restClient (api c) = c) ->
  raw_ok doc = true -> ends a k ->
  wp (answered failure (APICall ro api doc) k) w h (fun out t => sends ro a out (https t)).
Proof.
  intros Ha Hapi Hdoc Hk. unfold answered, APICall. apply wp_assoc, wp_client. intros c t Hc Ht _.
  eapply wp_mono; [by apply (post_wp a c api doc failure k)|].
  intros out t'. by rewrite https_app, Ht.
Qed.

Lemma create_old_refines debug op api doc :
  (forall c, ca_restClient (api c) = c) -> raw_ok doc = true ->
  refines ro (create_old ro debug op api doc) (posts api doc).
Proof. intros Hapi Hdoc w h. apply api_call_wp; [done..|]. by apply ends_resource. Qed.

Lemma create_managed_refines op text api doc :
  (forall c, ca_restClient (api c) = c) -> raw_ok doc = true ->
  refines ro (create_managed ro op text api doc) (registers api doc).
Proof. intros Hapi Hdoc w h. apply api_call_wp; [done..|]. by apply ends_managed; [|apply say_quiet]. Qed.

(** What is read is what the specification makes of it. *)
Definition read_as {A} (r : reading A) (json : A -> gojson) (doc : option gojson) : Prop :=
  match r with
  | None => False
  | Some (Err _) => doc = None
  | Some (Ok a) => doc = Some (json a) /\ raw_ok (json a) = true
  end.

Lemma read_refines {A} debug op api path (json : A -> gojson) r doc :
  (forall c, ca_restClient (api c) = c) -> api = at_path path -> read_as r json doc ->
  refines ro (when_read "" r (fun m => create_old ro debug op api (json m))) (posting path doc).
Proof.
  intros Hc -> Hr. destruct r as [[a|e]|]; simpl in Hr; [|subst; by apply refines_refusal | done].
  destruct Hr as [-> Hok]. by apply create_old_refines.
Qed.

Lemma created {A} debug op need api path (json : A -> gojson) r doc args :
  (forall c, ca_restClient (api c) = c) -> api = at_path path -> (args = [] -> doc = None) ->
  (args <> [] -> read_as r json doc) ->
  refines ro (with_arguments need args (when_read "" r (fun m => create_old ro debug op api (json m))))
    (posting path doc).
Proof.
  intros Hc Hapi Hnil Hr. destruct args as [|a args]; [rewrite Hnil by done; by apply refines_refusal|].
  cbn [with_arguments length Nat.eqb]. by apply read_refines; [..|apply Hr].
Qed.

End Refinement.

(** The documents are built of values that can be encoded. *)
Ltac encodable :=
  repeat lazymatch goal with |- raw_ok (?f _) = true => unfold f end; raw_members; try reflexivity.

Ltac posted :=
  lazymatch goal with
  | |- refines _ (create_old _ _ _ _ _) _ => apply create_old_refines; [done|]
  | |- refines _ (create_managed _ _ _ _ _) _ => apply create_managed_refines; [done|]
  end; encodable.

(** The addresses that are read have sixteen bytes. *)
Lemma parse_ipv4_length s l : parse_ipv4 s = Some l -> length l = 4%nat.
Proof.
  unfold parse_ipv4. destruct (split _ s) as [|a [|b [|c [|d [|e r]]]]]; try done.
  destruct (octet a), (octet b), (octet c), (octet d); try done. by intros [= <-].
Qed.

Lemma parse_ip_length s l : ParseIP s = Some l -> length l = 16%nat.
Proof.
  unfold ParseIP. destruct (first_separator s) as [a|]; [|done]. destruct (Ascii.eqb a _).
  - destruct (parse_ipv4 s) as [v4|] eqn:Hv; [|done]. intros [= <-].
    cbn. by rewrite (parse_ipv4_length _ _ Hv).
  - destruct (Ascii.eqb a _); [|done]. unfold parse_ipv6. destruct (streq s "::"); [by intros [= <-]|].
    destruct (ipv6_groups _ _ _ _) as [[[ip ellipsis] rest]|]; [|done]. cbn [mbind option_bind].
    destruct (negb (is_empty rest)); [done|]. destruct ellipsis as [at_|].
    + destruct (Nat.ltb_spec (length ip) 16); [|done]. intros [= <-].
      rewrite !length_app, length_take, length_replicate, length_drop. lia.
    + destruct (Nat.eqb_spec (length ip) 16); [|done]. by intros [= <-].
Qed.

(** Lists of entries, read one after the other. *)
Lemma fold_entries_ok {A} (f : A -> string -> result string A) (fits : string -> bool) a l :
  (forall a x, is_ok (f a x) = fits x) -> is_ok (fold_entries f a l) = forallb fits l.
Proof.
  intros Hf. revert a. induction l as [|x l IH]; intros a; [done|]. simpl. rewrite <- (Hf a x).
  destruct (f a x); simpl; [apply IH | done].
Qed.

Lemma fold_entries_snoc {A} (f : A -> string -> result string A) a l x :
  fold_entries f a (l ++ [x]) = (b ← fold_entries f a l; f b x).
Proof.
  revert a. induction l as [|y l IH]; intros a; simpl; [by destruct (f a x)|].
  destruct (f a y); [apply IH | done].
Qed.

Lemma last_of_snoc key l entry k value whole :
  entry_parts entry = Some (k, value, whole) ->
  last_of key (l ++ [entry]) = if streq k key then Some (value, whole) else last_of key l.
Proof. intros He. unfold last_of. rewrite List.fold_left_app. simpl. by rewrite He. Qed.

Definition rule_matches (entries : list string) (r : FwRuleArg) : Prop :=
  fwr_SrcIP r = text_of "sourceIP" entries
  /\ fwr_DstIP r = text_of "destinationIP" entries
  /\ fwr_InPort r = value_of_key "portName" entries
  /\ u8 (fwr_Proto r) = number_of 8 "protocol" entries
  /\ u16 (fwr_SrcPortMin r) = number_of 16 "minSourcePort" entries
  /\ u16 (fwr_SrcPortMax r) = number_of 16 "maxSourcePort" entries
  /\ u16 (fwr_DstPortMin r) = number_of 16 "minDestinationPort" entries
  /\ u16 (fwr_DstPortMax r) = number_of 16 "maxDestinationPort" entries
  /\ u16 (fwr_Pref r) = number_of 16 "preference" entries.

Lemma whole_join value (rest : list string) :
  (if (length rest =? 0)%nat then value else join ":" (value :: rest)) = join ":" (value :: rest).
Proof. by destruct rest. Qed.

Lemma firewall_arg_matches all l entry r r' :
  rule_matches l r -> firewall_arg all r entry = Ok r' -> rule_matches (l ++ [entry]) r'.
Proof.
  intros Hm. unfold firewall_arg. destruct (split ":"%char entry) as [|key [|value rest]] eqn:Hs; [done..|].
  rewrite whole_join.
  assert (He : entry_parts entry = Some (key, value, join ":" (value :: rest))) by (unfold entry_parts; by rewrite Hs).
  unfold rule_matches, text_of, value_of_key, number_of, integer_of in *.
  rewrite !(last_of_snoc _ _ _ _ _ _ He). clear He Hs. unfold atoi_of.
  destruct Hm as (?&?&?&?&?&?&?&?&?).
  destruct (atoi value) as [n|] eqn:Ha; cbn [of_option mbind result_bind];
  repeat lazymatch goal with
  | |- (if streq key ?k then _ else _) = _ -> _ =>
      let E := fresh "E" in destruct (streq key k) eqn:E; [apply streq_true in E; subst key|]
  end; try discriminate; intros [= <-];
  rewrite ?E, ?E0, ?E1, ?E2, ?E3, ?E4, ?E5, ?E6, ?E7; split_and!;
    first [done | cbn; by rewrite Ha].
Qed.

Lemma firewall_rule_matches all l r :
  fold_entries (firewall_arg all) go_zero l = Ok r -> rule_matches l r.
Proof.
  revert r. induction l as [|entry l IH] using rev_ind; intros r.
  - by intros [= <-].
  - rewrite fold_entries_snoc. destruct (fold_entries _ _ l) as [b|e]; [|done].
    apply firewall_arg_matches. by apply IH.
Qed.


(** A key that is none of a list. *)
Lemma other_key (key : string) (l : list string) : Forall (fun k => streq key k = false) l -> bool_decide (key ∈ l) = false.
Proof.
  intros Hl. apply bool_decide_eq_false. intros Hin. rewrite Forall_forall in Hl. specialize (Hl _ Hin).
  by apply streq_false in Hl.
Qed.

Ltac key_cases :=
  repeat match goal with
  | |- context [if streq ?key ?k then _ else _] =>
      let E := fresh "E" in destruct (streq key k) eqn:E; [apply streq_true in E; subst key|]
  end.

Lemma firewall_arg_fits all a x : is_ok (firewall_arg all a x) = rule_entry_fits x.
Proof.
  unfold firewall_arg, rule_entry_fits, entry_parts, atoi_of, integer.
  destruct (split ":"%char x) as [|key [|value rest]]; [done..|].
  key_cases; try (destruct (atoi value); reflexivity).
  rewrite other_key; [done|]. repeat constructor; done.
Qed.

Lemma firewall_rule_doc all l :
  match fold_entries (firewall_arg all) go_zero l with
  | Ok r => forallb rule_entry_fits l = true /\ fw_rule_arg_json r = rule_doc l
  | Err _ => forallb rule_entry_fits l = false
  end.
Proof.
  pose proof (fold_entries_ok (firewall_arg all) rule_entry_fits go_zero l (firewall_arg_fits all)) as Hf.
  destruct (fold_entries _ _ l) as [r|e] eqn:Hr; simpl in Hf; [|done]. split; [done|].
  apply firewall_rule_matches in Hr as (H1 & H2 & H3 & H4 & H5 & H6 & H7 & H8 & H9).
  unfold fw_rule_arg_json, rule_doc, uint16_json, uint8_json. congruence.
Qed.

Lemma firewall_action_doc o :
  match GetFWOptionPairList o with
  | Ok p => exists a, action_asked o = Some a /\ fw_opt_arg_json p = opts_doc o a
  | Err _ => action_asked o = None
  end.
Proof.
  unfold GetFWOptionPairList, firewall_action, action_asked.
  destruct (cf_Allow o); [by eexists|]. destruct (cf_Drop o); [by eexists|]. destruct (cf_Trap o); [by eexists|].
  destruct (cf_Redirect o) as [|port redirect]; [|by eexists].
  destruct (cf_SnatArgs o) as [|ip [|port [|x rest]]]; [by eexists|by eexists| |done].
  cbn. destruct (atoi port); [by eexists|done].
Qed.

Lemma firewall_read o :
  cf_FirewallRule o <> [] -> read_as (Some (firewall_rule o)) fw_rule_mod_json (firewall_doc o).
Proof.
  intros Hne. unfold firewall_rule, GetFirewallRulePairList, firewall_doc, read_as.
  pose proof (firewall_rule_doc (cf_FirewallRule o) (cf_FirewallRule o)) as Hr.
  pose proof (firewall_action_doc o) as Ha. destruct (cf_FirewallRule o) as [|e l] eqn:Hl; [done|].
  rewrite <- Hl in *. destruct (fold_entries _ _ _) as [r|err]; cbn [mbind result_bind].
  - destruct Hr as [Hf Hr]. destruct (GetFWOptionPairList o) as [p|err]; cbn [mbind result_bind].
    + destruct Ha as (a & -> & Ha). cbn [mbind option_bind]. rewrite Hf. cbn [provided]. split.
      * unfold fw_rule_mod_json. cbn [fwm_Rule fwm_Opts]. by rewrite Hr, Ha.
      * encodable.
    + by rewrite Ha.
  - rewrite Hr. by destruct (action_asked o).
Qed.

(** The entries of a mirror. *)
Lemma pair_parts x key value : split ":"%char x = [key; value] -> entry_parts x = Some (key, value, value).
Proof. unfold entry_parts. by intros ->. Qed.

Lemma mirror_arg_fits all a x : is_ok (mirror_arg all a x) = pair_fits ["type"; "vlan"; "tunnelID"] x.
Proof.
  unfold mirror_arg, pair_fits, atoi_of, integer. destruct (split ":"%char x) as [|key [|value [|y rest]]]; [done..| |done].
  key_cases; try (destruct (atoi value); reflexivity). rewrite other_key; [done|]. repeat constructor; done.
Qed.

Lemma target_arg_fits all a x : is_ok (target_arg all a x) = pair_fits ["attachement"] x.
Proof.
  unfold target_arg, pair_fits, atoi_of, integer. destruct (split ":"%char x) as [|key [|value [|y rest]]]; [done..| |done].
  key_cases; try (destruct (atoi value); reflexivity). rewrite other_key; [done|]. repeat constructor; done.
Qed.

Definition mirror_matches (l : list string) (r : MirrInfo) : Prop :=
  mri_MirrType r = integer_of "type" l /\ mri_MirrPort r = value_of_key "port" l
  /\ mri_MirrVlan r = integer_of "vlan" l /\ mri_MirrRip r = value_of_key "remoteIP" l
  /\ mri_MirrSip r = value_of_key "sourceIP" l /\ mri_MirrTid r = integer_of "tunnelID" l.

Definition target_matches (l : list string) (r : MirrObj) : Prop :=
  mro_MirrObjName r = value_of_key "mirrObjName" l /\ mro_AttachMent r = integer_of "attachement" l.

Ltac one_more_entry x :=
  let key := fresh "key" in let value := fresh "value" in let Hs := fresh "Hs" in let He := fresh "He" in
  destruct (split ":"%char x) as [|key [|value [|y rest]]] eqn:Hs; [done..| |done];
  pose proof (pair_parts _ _ _ Hs) as He; unfold value_of_key, integer_of in *;
  rewrite !(last_of_snoc _ _ _ _ _ _ He); clear He Hs; unfold atoi_of;
  let Ha := fresh "Ha" in destruct (atoi value) as [n|] eqn:Ha; cbn [of_option mbind result_bind];
  repeat lazymatch goal with
  | |- (if streq ?key ?k then _ else _) = _ -> _ =>
      let E := fresh "E" in destruct (streq key k) eqn:E; [apply streq_true in E; subst key|]
  end; try discriminate; intros [= <-];
  repeat match goal with E : streq _ _ = false |- _ => rewrite E; clear E end;
  split_and!; first [done | cbn; by rewrite Ha].

Lemma mirror_arg_matches all l x r r' :
  mirror_matches l r -> mirror_arg all r x = Ok r' -> mirror_matches (l ++ [x]) r'.
Proof. intros (?&?&?&?&?&?). unfold mirror_arg, mirror_matches in *. one_more_entry x. Qed.

Lemma target_arg_matches all l x r r' :
  target_matches l r -> target_arg all r x = Ok r' -> target_matches (l ++ [x]) r'.
Proof. intros (?&?). unfold target_arg, target_matches in *. one_more_entry x. Qed.

Lemma fold_entries_match {A} (f : A -> string -> result string A) (P : list string -> A -> Prop) a l r :
  P [] a -> (forall l x r r', P l r -> f r x = Ok r' -> P (l ++ [x]) r') ->
  fold_entries f a l = Ok r -> P l r.
Proof.
  intros H0 Hf. revert r. induction l as [|x l IH] using rev_ind; intros r; [by intros [= <-]|].
  rewrite fold_entries_snoc. destruct (fold_entries f a l) as [b|e]; [|done]. apply Hf. by apply IH.
Qed.

Lemma mirror_read info target args :
  args <> [] -> read_as (mirror_of info target args) mirr_mod_json (mirror_doc info target args).
Proof.
  intros Hne. unfold mirror_of, ReadCreateMirrorOptions, mirror_doc.
  destruct args as [|id args]; [done|].
  assert (Hargs : (2 <? length (id :: args))%nat = match args with [] | [_] => false | _ => true end)
    by (destruct args as [|? [|? ?]]; done).
  rewrite Hargs. set (doc := provided _ _).
  assert (Hdoc : read_as (Some (info ← GetMirrorInfoPairList info; target ← GetTargetObjPairList target;
      Ok {| mrm_Ident := id; mrm_Info := info; mrm_Target := target |})) mirr_mod_json doc).
  { unfold doc, read_as, GetMirrorInfoPairList, GetTargetObjPairList.
    rewrite <- (fold_entries_ok (mirror_arg info) _ go_zero info (mirror_arg_fits info)),
      <- (fold_entries_ok (target_arg target) _ go_zero target (target_arg_fits target)).
    destruct (fold_entries (mirror_arg info) _ _) as [i|e] eqn:Hi; [|done].
    destruct (fold_entries (target_arg target) _ _) as [t|e] eqn:Ht; [|done].
    apply (fold_entries_match _ mirror_matches) in Hi as (H1 & H2 & H3 & H4 & H5 & H6); [|done|apply mirror_arg_matches].
    apply (fold_entries_match _ target_matches) in Ht as [H7 H8]; [|done|apply target_arg_matches].
    cbn. split; [|encodable]. unfold mirr_mod_json, mirr_info_json, mirr_obj_json.
    cbn [mrm_Ident mrm_Info mrm_Target]. congruence. }
  destruct args as [|x [|y args]]; [exact Hdoc | exact Hdoc | done].
Qed.

(** The numbers and the target of a policy. *)
Lemma two_numbers_read text :
  is_empty text = true /\ two_numbers text = Some (0, 0)%Z
  \/ is_empty text = false
     /\ two_numbers text = match split ":"%char text with
                           | [first; second] => x ← atoi first; y ← atoi second; Some (wrap 64 x, wrap 64 y)
                           | _ => None
                           end.
Proof.
  destruct text as [|a text]; [by left|]. right. split; [done|]. unfold two_numbers.
  by destruct (split ":"%char (String a text)) as [|first [|second [|x rest]]].
Qed.

Lemma attachment_read word :
  match policyAttachment word with Ok n => attachment_of word = Some n | Err _ => attachment_of word = None end.
Proof.
  unfold policyAttachment, attachment_of. cbv zeta. generalize (to_lower (trim_space word)). intros v.
  assert (Hin : forall l, bool_decide (v ∈ l) = str_in v l).
  { intros l. apply Bool.eq_iff_eq_true. by rewrite bool_decide_eq_true, str_in_true. }
  rewrite !Hin. destruct (str_in v ["0"; "rule"]); [done|]. destruct (str_in v ["1"; "port"]); [done|].
  by destruct (str_in v ["2"; "egress-port"]).
Qed.

Lemma service_read object : is_ok (validatePolicyRuleTarget object) = service_fits object.
Proof.
  unfold validatePolicyRuleTarget, service_fits.
  destruct (split_last ":"%char object) as [[host_port proto]|]; [|done].
  assert (Hin : bool_decide (to_lower proto ∈ ["tcp"; "udp"; "sctp"; "icmp"])
                = str_in (to_lower proto) ["tcp"; "udp"; "sctp"; "icmp"]).
  { apply Bool.eq_iff_eq_true. by rewrite bool_decide_eq_true, str_in_true. }
  rewrite Hin. destruct (is_empty host_port || is_empty proto) eqn:He.
  - cbn. apply orb_true_iff in He as [He|He].
    + destruct host_port; [|done]. symmetry. apply andb_false_r.
    + by destruct proto.
  - cbv zeta. destruct (str_in _ _); [|done]. cbn [negb andb].
    destruct (split_host_port host_port) as [[host port]|]; [|done].
    destruct (is_ip host); [|done]. cbn [negb andb]. unfold is_port_number.
    destruct (unsigned_digits port) as [n|]; [|done]. by destruct (n <? 65536)%Z.
Qed.

Lemma target_read text :
  match GetTargetPair text with
  | Ok t => target_doc text = Some (pol_obj_json t)
  | Err _ => target_doc text = None
  end.
Proof.
  unfold GetTargetPair, target_doc. destruct (split_last ":"%char text) as [[object word]|]; [|done].
  cbn [mbind option_bind]. pose proof (attachment_read word) as Ha.
  assert (Hobj : bool_decide (object <> "") = negb (is_empty object)) by (by destruct object).
  rewrite Hobj. destruct (is_empty object) eqn:He.
  { cbn. by destruct (attachment_of word). }
  cbn [orb negb andb]. destruct (is_empty word) eqn:Hw.
  { destruct word; [|done]. by cbn in *. }
  destruct (policyAttachment word) as [n|e]; [|by rewrite Ha]. rewrite Ha. cbn [mbind option_bind result_bind].
  assert (Hn : bool_decide (n = 0%Z) = (n =? 0)%Z) by 
    (by apply Bool.eq_iff_eq_true; rewrite bool_decide_eq_true, Z.eqb_eq).
  rewrite Hn. destruct (n =? 0)%Z.
  - rewrite <- service_read. by destruct (validatePolicyRuleTarget object).
  - unfold reject_if. by destruct (contains object ":").
Qed.

Lemma policy_read o ident args :
  read_as (Some (policy_of o ident)) pol_mod_json (policy_doc o (ident :: args)).
Proof.
  unfold policy_of, policy_doc, GetRatePair, GetBlockPair, number, to_uint64.
  pose proof (target_read (cp_Target o)) as Ht.
  assert (Hend : forall info x y z u,
    info = set_poi_CommittedBlkSize (U64 u) (set_poi_ExcessBlkSize (U64 z)
             (set_poi_PeakInfoRate (U64 x) (set_poi_CommittedInfoRate (U64 y) go_zero))) ->
    read_as (Some (target ← about "Target Error: " (GetTargetPair (cp_Target o));
      Ok {| pom_Ident := ident;
            pom_Info := set_poi_PolType (cp_PolType o) (set_poi_ColorAware (cp_Color o) info);
            pom_Target := target; pom_Attached := None |})) pol_mod_json
      (target ← target_doc (cp_Target o);
       Some (GObj [("policyIdent", GStr ident);
         ("policyInfo", GObj [("type", GInt (cp_PolType o)); ("colorAware", GBool (cp_Color o));
            ("committedInfoRate", GInt y); ("peakInfoRate", GInt x);
            ("committedBlkSize", GInt u); ("excessBlkSize", GInt z)]);
         ("targetObject", target)]))).
  { intros info x y z u ->. destruct (GetTargetPair _) as [t|e]; rewrite Ht; [|done]. split; [done|]. encodable. }
  destruct (two_numbers_read (cp_Rate o)) as [[-> ->]|[-> ->]];
    [|destruct (split ":"%char (cp_Rate o)) as [|r1 [|r2 [|r3 rest]]]; try done;
      destruct (atoi r1); [|done]; destruct (atoi r2); [|done]];
    cbn [about mbind option_bind result_bind of_option];
    (destruct (two_numbers_read (cp_Block o)) as [[-> ->]|[-> ->]];
     [|destruct (split ":"%char (cp_Block o)) as [|b1 [|b2 [|b3 rest']]]; try done;
       destruct (atoi b1); [|done]; destruct (atoi b2); [|done]]);
    by apply Hend.
Qed.

(** The addresses of a session. *)
Lemma ip_doc_read text :
  match ParseIP text with
  | Some l => ip_doc text = Some (net_ip_json (NetIP l)) /\ raw_ok (net_ip_json (NetIP l)) = true
  | None => ip_doc text = None
  end.
Proof.
  unfold ip_doc. destruct (ParseIP text) as [l|] eqn:Hl; [|done]. apply parse_ip_length in Hl.
  unfold net_ip_json. cbn [ip_bytes]. by rewrite Hl.
Qed.

Lemma tunnel_read text :
  match GetNetworkTunnelPairList text with
  | Ok t => tunnel_doc text = Some (sess_tun_json t) /\ raw_ok (sess_tun_json t) = true
  | Err _ => tunnel_doc text = None
  end.
Proof.
  unfold GetNetworkTunnelPairList, tunnel_doc.
  destruct (split ":"%char text) as [|teid [|ip [|x rest]]]; [done..| |done].
  destruct (atoi teid); [|done]. cbn. pose proof (ip_doc_read ip) as Hip.
  destruct (ParseIP ip) as [l|]; [|by rewrite Hip]. destruct Hip as [-> Hok]. split; [done|].
  cbn [sess_tun_json raw_ok forallb snd stn_Addr]. by rewrite Hok.
Qed.

Lemma session_read an cn args :
  read_as (session_of an cn args) session_mod_json (session_doc an cn args).
Proof.
  unfold session_of, ReadCreateSessionOptions, session_doc, arg, with_arg.
  assert (Hlen : (3 <? length args)%nat = match args with [] | [_] | [_; _] | [_; _; _] => false | _ => true end)
    by (by destruct args as [|? [|? [|? [|? ?]]]]).
  rewrite Hlen. destruct args as [|id [|ip rest]]; [done..|].
  assert (Hcase : read_as (match ParseIP ip with
      | Some l => Some (an ← GetNetworkTunnelPairList an; cn ← GetNetworkTunnelPairList cn;
          Ok {| ssm_Ident := id; ssm_Ip := NetIP l; ssm_AnTun := an; ssm_CnTun := cn |})
      | None => Some (Err (one_of_invalid "session IP" ip)) end) session_mod_json
    (address ← ip_doc ip; access ← tunnel_doc an; core ← tunnel_doc cn;
      Some (GObj [("ident", GStr id); ("sessionIP", address); ("accessNetworkTunnel", access);
                  ("coreNetworkTunnel", core)]))).
  { pose proof (ip_doc_read ip) as Hip. pose proof (tunnel_read an) as Ha. pose proof (tunnel_read cn) as Hc.
    destruct (ParseIP ip) as [l|]; [|by rewrite Hip]. destruct Hip as [-> Hok].
    destruct (GetNetworkTunnelPairList an) as [a|e]; [destruct Ha as [-> Ha] | by rewrite Ha].
    destruct (GetNetworkTunnelPairList cn) as [c|e]; [destruct Hc as [-> Hc] | by rewrite Hc].
    split; [done|]. cbn [session_mod_json raw_ok forallb snd ssm_Ip ssm_AnTun ssm_CnTun].
    by rewrite Hok, Ha, Hc. }
  destruct rest as [|x [|y rest]]; cbn [length Nat.leb lookup list_lookup]; [| |done];
    by destruct (ParseIP ip).
Qed.

Lemma ulcl_read entries user entry :
  match ulcl_arg entries entry with
  | Ok a => ulcl_doc user entry = Some (session_ul_cl_mod_json {| ucm_Ident := user; ucm_Args := a |})
            /\ raw_ok (session_ul_cl_mod_json {| ucm_Ident := user; ucm_Args := a |}) = true
  | Err _ => ulcl_doc user entry = None
  end.
Proof.
  unfold ulcl_arg, ulcl_doc. destruct (split ":"%char entry) as [|q [|ip [|x rest]]]; [done..| |done].
  destruct (atoi q); [|done]. cbn. pose proof (ip_doc_read ip) as Hip.
  destruct (ParseIP ip) as [l|]; [|by rewrite Hip]. destruct Hip as [-> Hok]. split; [done|].
  cbn [session_ul_cl_mod_json ul_cl_arg_json raw_ok forallb snd ucm_Args uca_Addr]. by rewrite Hok.
Qed.

Lemma ulcls_read all user entries :
  match map_each (ulcl_arg all) entries with
  | Ok l => mapM (ulcl_doc user) entries
              = Some (session_ul_cl_mod_json <$> ((fun a => {| ucm_Ident := user; ucm_Args := a |}) <$> l))
            /\ Forall (fun m => raw_ok (session_ul_cl_mod_json m) = true)
                 ((fun a => {| ucm_Ident := user; ucm_Args := a |}) <$> l)
  | Err _ => mapM (ulcl_doc user) entries = None
  end.
Proof.
  induction entries as [|e entries IH]; [by cbn|]. cbn [map_each mapM]. pose proof (ulcl_read all user e) as He.
  destruct (ulcl_arg all e) as [a|err]; [destruct He as [-> Hok] | by rewrite He].
  destruct (map_each (ulcl_arg all) entries) as [l|err]; [destruct IH as [-> IH] | by rewrite IH].
  split; [done|]. by constructor.
Qed.

(** The arguments of the others. *)
Ltac read_args :=
  repeat match goal with |- _ <> [] -> _ => intros _ end;
  unfold read_as, arg, with_arg; cbn; unfold atoi_of;
  repeat lazymatch goal with
  | |- context [atoi ?x] => destruct (atoi x); cbn
  | |- context [if is_ip ?x then _ else _] => destruct (is_ip x); cbn
  | |- context [is_ip ?x] => destruct (is_ip x); cbn
  | |- context [is_mac ?x] => destruct (is_mac x); cbn
  | |- context [is_cidr ?x] => destruct (is_cidr x); cbn
  end; try done; try (split; [reflexivity | encodable]).

Section Commands.
Context `{GoLib}.
Variable ro : RESTOptions.

Lemma create_devices_refine o b mac proto args :
  refines ro (create_bfd ro o args) (posting "config/bfd" (bfd_doc o args))
  /\ refines ro (create_bgpneighbor ro b args) (posting "config/bgp/neigh" (bgp_doc b args))
  /\ refines ro (create_fdb ro args) (posting "config/fdb" (fdb_doc args))
  /\ refines ro (create_ip ro args) (posting "config/ipv4address" (address_doc args))
  /\ refines ro (create_neighbor ro mac args) (posting "config/neighbor" (neighbor_doc mac args))
  /\ refines ro (create_route ro proto args) (posting "config/route" (route_doc proto args))
  /\ refines ro (create_vlan ro args) (posting "config/vlan" (vlan_doc args)).
Proof.
  split_and!; (apply created; [done | done | by intros -> |]).
  - destruct args as [|ip [|x args]]; [done| |]; read_args.
  - destruct args as [|ip [|asn [|x args]]]; [done|done| |]; read_args.
    split; [|done]. unfold bgp_neighbor_mod_json, bgp_neighbor. cbn. case_bool_decide as Hp; [by rewrite Hp|].
    apply Z.eqb_neq in Hp. by rewrite Hp.
  - destruct args as [|a [|d [|x args]]]; [done|done| |]; read_args.
  - destruct args as [|a [|d [|x args]]]; [done|done| |]; read_args.
  - destruct args as [|a [|d [|x [|y [|z args]]]]]; [done|done| | | |]; read_args.
  - assert (Hproto : (if streq proto "static" then proto else "")
                     = if bool_decide (proto = "static") then "static" else "").
    { case_bool_decide as Hp; [by rewrite Hp|]. apply streq_false in Hp. by rewrite Hp. }
    unfold route_doc. rewrite <- Hproto.
    destruct args as [|a [|d [|x [|y args]]]]; [done|done| | |]; read_args.
  - destruct args as [|a [|x args]]; [done| |]; read_args.
Qed.

Lemma create_endpoint_refines o args :
  refines ro (create_endpoint ro o args) (posting "config/endpoint" (endpoint_doc o args)).
Proof.
  apply created; [done | done | by intros -> |]. intros Hne.
  destruct args as [|host args]; [done|]. unfold endpoint_of, endpoint_doc, read_as, arg, with_arg.
  cbn [lookup list_lookup]. rewrite <- probe_fits_checks, (Z.leb_antisym 86400).
  destruct (is_ip host); [|done]. destruct (probe_checks _ _) as [[]|e]; [|done].
  change (24 * 60 * 60)%Z with 86400%Z. destruct (86400 <? ce_ProbeDuration o)%Z; [done|].
  split; [done|]. encodable.
Qed.

Lemma create_vlanmember_refines tagged args :
  refines ro (create_vlanmember ro tagged args)
    match args with
    | vid :: dev :: _ =>
        posting (sprintf ["/config/vlan/"; vid; "/member"])
          (provided ((length args <=? 3)%nat && integer vid)
             (GObj [("dev", GStr dev); ("tagged", GBool tagged)]))
    | _ => Refuses
    end.
Proof.
  unfold create_vlanmember, ReadCreateVlanMemberOptions.
  destruct args as [|vid [|dev args]]; [by apply refines_refusal..|].
  rewrite (Nat.leb_antisym 3). cbn [with_arguments length Nat.eqb].
  destruct (3 <? _)%nat; [by apply refines_refusal|]. cbn. unfold atoi_of, integer.
  destruct (atoi vid); [|by apply refines_refusal].
  apply (create_old_refines ro _ _ (at_path (sprintf ["/config/vlan/"; vid; "/member"]))); [done|]. encodable.
Qed.

Lemma create_vxlan_refines args :
  refines ro (create_vxlan ro args)
    match args with
    | id :: dev :: _ =>
        posting "config/tunnel/vxlan"
          (n ← atoi id; provided (length args <=? 3)%nat (GObj [("vxlanID", GInt n); ("epIntf", GStr dev)]))
    | _ => Refuses
    end.
Proof.
  unfold create_vxlan, ReadCreateVxlanBridgeOptions.
  destruct args as [|id [|dev args]]; [by apply refines_refusal..|].
  rewrite (Nat.leb_antisym 3). cbn [with_arguments length Nat.eqb].
  destruct (3 <? _)%nat; [destruct (atoi id); by apply refines_refusal|]. cbn. unfold atoi_of.
  destruct (atoi id) as [n|]; [|by apply refines_refusal].
  apply (create_old_refines ro _ _ (at_path "config/tunnel/vxlan")); [done|]. encodable.
Qed.

Lemma create_vxlanpeer_refines args :
  refines ro (create_vxlanpeer ro args)
    match args with
    | [_] => Crashes
    | [vnid; peer] =>
        posting (sprintf ["/config/tunnel/vxlan/"; vnid; "/peer"])
          (provided (is_ip peer) (GObj [("peerIP", GStr peer)]))
    | _ => Refuses
    end.
Proof.
  unfold create_vxlanpeer. destruct args as [|vnid [|peer [|x args]]];
    [by apply refines_refusal | apply refines_crash | cbn | by apply refines_refusal].
  destruct (is_ip peer); [|by apply refines_refusal].
  apply (create_old_refines ro _ _ (at_path (sprintf ["/config/tunnel/vxlan/"; vnid; "/peer"]))); [done|].
  encodable.
Qed.

Lemma create_firewall_refines o :
  refines ro (create_firewall ro o) (posting "config/firewall" (firewall_doc o)).
Proof.
  unfold create_firewall. pose proof (firewall_read o) as Hr.
  destruct (cf_FirewallRule o) as [|e l] eqn:Hl; [unfold firewall_doc; rewrite Hl; by apply refines_refusal|].
  cbn [length Nat.eqb]. by apply read_refines; [..|apply Hr].
Qed.

Lemma create_mirror_refines info target args :
  refines ro (create_mirror ro info target args) (posting "config/mirror" (mirror_doc info target args)).
Proof. apply created; [done | done | by intros -> | apply mirror_read]. Qed.

Lemma create_policy_refines o args :
  refines ro (create_policy ro o args) (posting "config/policy" (policy_doc o args)).
Proof.
  destruct args as [|ident args]; [by apply refines_refusal|]. apply refines_quiet.
  - destruct (1 <? _)%nat; [|apply ops_ret]. ops_step; intros; apply say_quiet.
  - intros _. cbn [with_arg lookup list_lookup]. apply read_refines; [done | done | apply policy_read].
Qed.

Lemma create_session_refines an cn args :
  refines ro (create_session ro an cn args) (posting "config/session" (session_doc an cn args)).
Proof. apply created; [done | done | by intros -> | intros _; apply session_read]. Qed.

Lemma given_text_omitted k x : given_text k x = omit_str k x.
Proof. unfold given_text, omit_str. by destruct x. Qed.

Lemma create_sni_refines hostname certPath :
  refines ro (create_sni ro hostname certPath)
    (if bool_decide (hostname = "") then Refuses
     else registers (at_path "sni/certificates")
            (GObj ([("hostname", GStr hostname)] ++ given_text "certPath" certPath))).
Proof.
  unfold create_sni. rewrite given_text_omitted. destruct hostname as [|a hostname]; [by apply refines_refusal|].
  cbn [is_empty]. rewrite bool_decide_false by done.
  apply (create_managed_refines ro _ _ (at_path "sni/certificates")); [done|]. encodable.
Qed.

Lemma create_user_refines o :
  refines ro (create_user ro o)
    (if bool_decide (cu_Username o = "" \/ cu_Password o = "") then Refuses
     else registers (at_path "auth/users")
            (GObj ([("username", GStr (cu_Username o)); ("password", GStr (cu_Password o))]
                   ++ given_text "role" (cu_Role o)))).
Proof.
  unfold create_user. rewrite given_text_omitted.
  assert (He : bool_decide (cu_Username o = "" \/ cu_Password o = "")
               = is_empty (cu_Username o) || is_empty (cu_Password o)).
  { destruct (cu_Username o), (cu_Password o); case_bool_decide; naive_solver. }
  rewrite He. destruct (_ || _); [by apply refines_refusal|].
  rewrite <- (app_nil_r (omit_str "role" (cu_Role o))).
  apply (create_managed_refines ro _ _ (at_path "auth/users")); [done|]. encodable.
Qed.

(** The posts of [create sessionulcl]: the whole list is read before the
    first is sent; then one POST for each entry in order, each when the one
    before it was confirmed.  Without entries it succeeds and sends nothing. *)
Definition follows_ulcls (entries args : list string) (out : outcome) (t : trace) : Prop :=
  match args with
  | [user] | [user; _] =>
      match mapM (ulcl_doc user) entries with
      | Some docs =>
          in_turn ro ((fun doc => Some (one_post [200%Z] (at_path "config/sessionulcl") doc)) <$> docs) out (https t)
      | None => follows ro Refuses out t
      end
  | _ => follows ro Refuses out t
  end.

Lemma create_each_wp l w h :
  Forall (fun m => raw_ok (session_ul_cl_mod_json m) = true) l ->
  wp (create_each ro "create sessionulcl" Client.SessionUlCL (List.map session_ul_cl_mod_json l)) w h
    (fun out t => in_turn ro ((fun doc => Some (one_post [200%Z] (at_path "config/sessionulcl") doc))
                                <$> (session_ul_cl_mod_json <$> l)) out (https t)).
Proof.
  intros Hl. revert h. induction Hl as [|m l Hm _ IH]; intros h; [by apply wp_ret|].
  rewrite !fmap_cons. cbn [List.map create_each]. unfold answered, APICall.
  apply wp_assoc, wp_client. intros c t Hc Ht _. unfold Create.
  rewrite (with_body_run _ (encode (session_ul_cl_mod_json m))).
  2: { unfold marshal. by rewrite Hm. }
  unfold POST. eapply wp_mono.
  - apply (in_turn_step ro (one_post [200%Z] (at_path "config/sessionulcl") (session_ul_cl_mod_json m)) c
             (colon "create sessionulcl")); [done|].
    intros resp h'. apply wp_bind, quiet_wp; [apply say_quiet|]. intros _ t2 Ht2.
    unfold status_in. cbn [as_ok one_post existsb]. rewrite orb_false_r.
    destruct (hr_status resp =? 200)%Z eqn:Hs; cbn [negb].
    + apply wp_bind, quiet_wp; [apply print_quiet|]. intros _ t3 Ht3.
      eapply wp_mono; [apply IH|]. intros out t4. by rewrite !https_app, Ht2, Ht3.
    + apply wp_ret. rewrite app_nil_r. split; [done|]. unfold verdict, status_in. cbn. rewrite Hs.
      eexists. split; [done|]. left. apply status_code_failure.
  - intros out t'. by rewrite https_app, Ht.
Qed.

Lemma create_sessionulcl_requests entries args w h :
  wp (create_sessionulcl ro entries args) w h (follows_ulcls entries args).
Proof.
  assert (Hrefused : forall need (r : reading (list SessionUlClMod)) k,
    args = [] \/ (exists e, r = Some (Err e)) ->
    wp (with_arguments need args (when_read "" r k)) w h (follows ro Refuses)).
  { intros need r k [->|[e ->]]; [|destruct args]; apply wp_ret; (split; [done|]; by eexists). }
  unfold create_sessionulcl, ulcl_of, ReadCreateSessionUlClOptions, follows_ulcls.
  destruct args as [|user args]; [apply Hrefused; by left|].
  assert (Hlist : wp (with_arguments "create sessionulcl needs its arguments" (user :: args)
      (when_read "" (Some (GetUlClArgsPairList user entries)) (fun l =>
         create_each ro "create sessionulcl" Client.SessionUlCL (List.map session_ul_cl_mod_json l)))) w h
    (fun out t => match mapM (ulcl_doc user) entries with
      | Some docs => in_turn ro ((fun doc => Some (one_post [200%Z] (at_path "config/sessionulcl") doc)) <$> docs)
                       out (https t)
      | None => follows ro Refuses out t
      end)).
  { unfold GetUlClArgsPairList. pose proof (ulcls_read entries user entries) as Hu.
    destruct (map_each _ entries) as [l|e]; [destruct Hu as [-> Hok] | rewrite Hu].
    - by apply create_each_wp.
    - apply Hrefused. right. by eexists. }
  destruct args as [|x [|y args]]; [exact Hlist | exact Hlist | apply Hrefused; right; by eexists].
Qed.

End Commands.

Lemma create_commands_follow `{GoLib} ro f args :
  Forall (fun p => refines ro p.1 p.2) (create_commands ro f args).
Proof.
  destruct (create_devices_refine ro (fl_bfd f) (fl_bgp f) (fl_macAddress f) (fl_proto f) args)
    as (H1 & H2 & H3 & H4 & H5 & H6 & H7).
  repeat apply Forall_cons_2; try apply Forall_nil_2; cbn [fst snd];
    first [ assumption | apply create_endpoint_refines
          | apply create_vlanmember_refines | apply create_vxlan_refines | apply create_vxlanpeer_refines
          | apply create_policy_refines | apply create_firewall_refines | apply create_sni_refines
          | apply create_user_refines | apply create_session_refines | apply create_mirror_refines ].
Qed.

(** C26: the create commands of the network, of SNI certificates and of users keep
    to their plans: bfd, bgpneighbor, endpoint, fdb, firewall, ip, mirror,
    neighbor, policy, route, session, sessionulcl, sni, user, vlan, vlanmember,
    vxlan and vxlanpeer.  Arguments and flags that give no document are refused as
    INVALID_ARGUMENT without a request, but for [create vxlanpeer] with one
    argument alone, which crashes without a request.  Everything else becomes one
    POST of the document that the plan gives member by member, to the collection
    or, for members and peers, below the number given; the command succeeds
    exactly when the gateway confirms it, and otherwise ends with the code of the
    answer.  [create sessionulcl] reads all its entries first and is then one such
    POST for each, in order, up to the first that is not confirmed. *)
Theorem create_commands_refine `{GoLib} ro f args :
  Forall (fun p => refines ro p.1 p.2) (create_commands ro f args)
  /\ forall entries w h, wp (create_sessionulcl ro entries args) w h (follows_ulcls ro entries args).
Proof. split; [apply create_commands_follow | intros entries w h; apply create_sessionulcl_requests]. Qed.

(* ------------------------------------------------------------------ *)
(** ** The rules that [create firewall] and [create policy] build      *)
(* ------------------------------------------------------------------ *)

(* ------------------------------------------------------------------ *)
(** ** The action of a rule                                            *)
(* ------------------------------------------------------------------ *)

Definition given {A} (l : list A) : bool := match l with [] => false | _ => true end.

(** Of what is asked for, only the first. *)
Fixpoint first_only (l : list bool) : list bool :=
  match l with
  | [] => []
  | true :: l' => true :: List.map (fun _ => false) l'
  | false :: l' => false :: first_only l'
  end.

Definition actions_of (p : FwOptArg) : list bool :=
  [fwo_Allow p; fwo_Drop p; fwo_Trap p; fwo_Rdr p; fwo_DoSnat p].
Definition actions_asked (o : CreateFirewallOptions) : list bool :=
  [cf_Allow o; cf_Drop o; cf_Trap o; given (cf_Redirect o); given (cf_SnatArgs o)].

(** The address and port of the translation. *)
Definition snat_of (args : list string) : string * Z :=
  match args with
  | [ip; port] => (ip, match atoi port with Some n => wrap 16 n | None => 0 end)%Z
  | ip :: _ => (ip, 0%Z)
  | [] => ("", 0%Z)
  end.

Definition action_matches (o : CreateFirewallOptions) (p : FwOptArg) : Prop :=
  actions_of p = first_only (actions_asked o)
  /\ (fwo_Rdr p = true -> fwo_RdrPort p = List.hd "" (cf_Redirect o))
  /\ (fwo_DoSnat p = true -> (fwo_ToIP p, u16 (fwo_ToPort p)) = snat_of (cf_SnatArgs o)
                           /\ fwo_OnDefault p = cf_Egress o)
  /\ (fwo_DoSnat p = false -> fwo_OnDefault p = false).

Lemma firewall_action_matches o p : firewall_action o go_zero = Ok p -> action_matches o p.
Proof.
  unfold firewall_action, action_matches, actions_asked.
  destruct (cf_Allow o), (cf_Drop o), (cf_Trap o); try (by intros [= <-]).
  destruct (cf_Redirect o) as [|port redirect]; [|by intros [= <-]].
  destruct (cf_SnatArgs o) as [|ip [|port [|x rest]]]; try (by intros [= <-]).
  cbn. destruct (atoi port) as [n|]; [|done]. by intros [= <-].
Qed.

(** The rule of [create firewall].  Each field is the one of the last
    entry of its key, numbers kept to the width of the field; the mark and the
    record flag are those of the flags; of the actions asked for only the
    first of allow, drop, trap, redirect and snat is set; and the egress flag
    counts only with a translation. *)
Theorem firewall_rule_exact o m :
  firewall_rule o = Ok m ->
  rule_matches (cf_FirewallRule o) (fwm_Rule m)
  /\ action_matches o (fwm_Opts m)
  /\ fwo_Mark (fwm_Opts m) = cf_Mark o /\ fwo_Record (fwm_Opts m) = cf_Record o.
Proof.
  unfold firewall_rule, GetFirewallRulePairList, GetFWOptionPairList.
  destruct (fold_entries _ _ _) as [r|e] eqn:Hr; [|done]. cbn.
  destruct (firewall_action o _) as [p|e] eqn:Hp; [|done]. cbn. intros [= <-].
  apply firewall_rule_matches in Hr. apply firewall_action_matches in Hp. done.
Qed.

Definition firewall_example : CreateFirewallOptions :=
  {| cf_FirewallRule := ["sourceIP:10.0.0.0/8"; "minSourcePort:65616"; "sourceIP:2001:db8::1"; "note:x"];
     cf_Redirect := ["hs1"]; cf_SnatArgs := []; cf_Allow := false; cf_Drop := true; cf_Trap := true;
     cf_Record := true; cf_Egress := true; cf_Mark := U32 7 |}.

Lemma firewall_rule_exact_witness :
  match firewall_rule firewall_example with
  | Ok m => fwr_SrcIP (fwm_Rule m) = "2001:db8::1" /\ u16 (fwr_SrcPortMin (fwm_Rule m)) = 80%Z
            /\ actions_of (fwm_Opts m) = [false; true; false; false; false]
  | Err _ => False
  end.
Proof.
  destruct (firewall_rule firewall_example) as [m|e] eqn:Hm; [|vm_compute in Hm; discriminate Hm].
  destruct (firewall_rule_exact firewall_example m Hm) as ((Hs & _ & _ & _ & Hp & _) & (Ha & _) & _).
  split; [rewrite Hs; vm_compute; reflexivity|]. split; [rewrite Hp; vm_compute; reflexivity|].
  rewrite Ha. reflexivity.
Defined.

(* ------------------------------------------------------------------ *)
(** ** The target of a policy                                          *)
(* ------------------------------------------------------------------ *)

(** The objects a policy may be attached to, by the kind of attachment. *)
Definition target_sound (t : PolObj) : Prop :=
  poo_PolObjName t <> ""
  /\ match u64 (poo_AttachMent t) with
     | 0 => exists host_port proto host port,
              poo_PolObjName t = host_port +:+ ":" +:+ proto
              /\ split_host_port host_port = Some (host, port)
              /\ is_ip host = true /\ is_port_number port = true
              /\ to_lower proto ∈ ["tcp"; "udp"; "sctp"; "icmp"]
     | 1 | 2 => contains (poo_PolObjName t) ":" = false
     | _ => False
     end%Z.

Lemma policy_attachment_values v n : policyAttachment v = Ok n -> n = 0%Z \/ n = 1%Z \/ n = 2%Z.
Proof.
  unfold policyAttachment. destruct (str_in _ ["0"; _]); [intros [= <-]; auto|].
  destruct (str_in _ ["1"; _]); [intros [= <-]; auto|].
  destruct (str_in _ ["2"; _]); [intros [= <-]; auto|done].
Qed.

Lemma rule_target_ok s : validatePolicyRuleTarget s = Ok tt -> exists host_port proto host port,
    s = host_port +:+ ":" +:+ proto /\ split_host_port host_port = Some (host, port)
    /\ is_ip host = true /\ is_port_number port = true /\ to_lower proto ∈ ["tcp"; "udp"; "sctp"; "icmp"].
Proof.
  unfold validatePolicyRuleTarget. destruct (split_last _ s) as [[host_port proto]|] eqn:Hs; [|done].
  apply split_last_app in Hs. intros [_ [Hproto Hk]%reject_ok]%reject_ok.
  destruct (split_host_port host_port) as [[host port]|] eqn:Hhp; [|done].
  apply reject_ok in Hk as [Hip [Hport _]%reject_ok].
  apply negb_false_iff in Hproto, Hip, Hport. apply str_in_true in Hproto.
  by exists host_port, proto, host, port.
Qed.

(** A target that [create policy] accepts: a service as address, port and
    protocol, the address an IP address, the port of 16 bits and the protocol
    one of four; or the name of a port, without a colon.  Nothing else is
    attached to. *)
Theorem policy_target_sound block t : GetTargetPair block = Ok t -> target_sound t.
Proof.
  unfold GetTargetPair. destruct (split_last _ block) as [[name attach]|]; [|done].
  intros [Hne Hk]%reject_ok. apply orb_false_iff in Hne as [Hname _].
  assert (Hne : name <> "") by (by intros ->).
  destruct (policyAttachment attach) as [n|e] eqn:Ha; [|done]. apply policy_attachment_values in Ha.
  cbn [mbind result_bind] in Hk. destruct (n =? 0)%Z eqn:Hz.
  - destruct (validatePolicyRuleTarget name) as [[]|e] eqn:Hv; [|done]. injection Hk as <-.
    apply Z.eqb_eq in Hz as ->. split; [done|]. cbn. by apply rule_target_ok.
  - unfold reject_if in Hk. destruct (contains name ":") eqn:Hc; [done|]. injection Hk as <-.
    split; [done|]. cbn. by destruct Ha as [->|[->| ->]].
Qed.

Lemma policy_target_sound_witness :
  match GetTargetPair "[2001:db8::1]:443:TCP:rule" with Ok t => target_sound t | Err _ => False end.
Proof.
  destruct (GetTargetPair "[2001:db8::1]:443:TCP:rule") as [t|e] eqn:Ht;
    [apply (policy_target_sound _ t Ht) | vm_compute in Ht; discriminate Ht].
Defined.
