(* ===== verification/FileConfig.v ===== *)
(** * Configuration files: [apply -f] and [delete -f]

    [cmd/dump/apply_create.go], [cmd/create/create_file.go],
    [cmd/delete/delete_file.go] and the parents [cmd/create/create.go] and
    [cmd/delete/delete.go].  The YAML library is a parameter: it reads a value
    of a type from a text or fails. *)
From S2P Require Import Prelude GoStrings GoNet Json JsonPrint Fields World Errors Exitcode Rest.
From S2P Require Import LbModel LbCreate Commands NetModel CreateCmds DeleteCmds.

(** [yaml.Unmarshal] into a value that is zero. *)
Class YamlLib := {
  yaml_unmarshal : forall A : Type, GoValue A -> string -> result string A
}.

(** A concrete choice: the documents that are JSON, read by their JSON names. *)
Definition json_yaml : YamlLib :=
  {| yaml_unmarshal A value text :=
       of_option "yaml: cannot unmarshal" (@unmarshal A value text) |}.

Record TypeMeta : Type := { tm_APIVersion : string; tm_Kind : string }.
#[global] Instance type_meta_value : GoValue TypeMeta := {|
  go_zero := {| tm_APIVersion := ""; tm_Kind := "" |};
  go_into strict old := decode_struct strict ["apiVersion"; "kind"] old (fun ms =>
    x0 ← field strict ms "apiVersion" (tm_APIVersion old);
    x1 ← field strict ms "kind" (tm_Kind old);
    Some {| tm_APIVersion := x0; tm_Kind := x1 |}) |}.

Record ObjectMeta : Type := {
  om_BGP : bool;
  om_Block : Z;
  om_HostName : string;
  om_VlanID : Z;
  om_VxlanID : Z
}.
#[global] Instance object_meta_value : GoValue ObjectMeta := {|
  go_zero := {| om_BGP := false; om_Block := 0; om_HostName := ""; om_VlanID := 0; om_VxlanID := 0 |};
  go_into strict old := decode_struct strict ["bgp"; "block"; "hostname"; "vid"; "vxlanID"] old (fun ms =>
    x0 ← field strict ms "bgp" (om_BGP old);
    x1 ← field strict ms "block" (om_Block old);
    x2 ← field strict ms "hostname" (om_HostName old);
    x3 ← field strict ms "vid" (om_VlanID old);
    x4 ← field strict ms "vxlanID" (om_VxlanID old);
    Some {| om_BGP := x0; om_Block := x1; om_HostName := x2; om_VlanID := x3; om_VxlanID := x4 |}) |}.

(** The [Configuration*File] types, one for each kind of object. *)
Record ConfigurationFile (Spec : Type) : Type := {
  file_TypeMeta : TypeMeta;
  file_ObjectMeta : ObjectMeta;
  file_Spec : Spec
}.
Arguments file_TypeMeta {Spec} _.
Arguments file_ObjectMeta {Spec} _.
Arguments file_Spec {Spec} _.
#[global] Instance configuration_file_value {Spec} `{GoValue Spec} : GoValue (ConfigurationFile Spec) := {|
  go_zero := {| file_TypeMeta := go_zero; file_ObjectMeta := go_zero; file_Spec := go_zero |};
  go_into strict old := decode_struct strict ["apiVersion"; "kind"; "metadata"; "spec"] old (fun ms =>
    x0 ← field strict ms "apiVersion" (tm_APIVersion (file_TypeMeta old));
    x1 ← field strict ms "kind" (tm_Kind (file_TypeMeta old));
    x2 ← field strict ms "metadata" (file_ObjectMeta old);
    x3 ← field strict ms "spec" (file_Spec old);
    Some {| file_TypeMeta := {| tm_APIVersion := x0; tm_Kind := x1 |};
            file_ObjectMeta := x2; file_Spec := x3 |}) |}.

(** A [switch] over the names of the kinds. *)
Definition switch_kind {A} (kind : string) (cases : list (list string * A)) : option A :=
  snd <$> List.find (fun c => str_in kind c.1) cases.

Section Files.
Context `{GoLib} `{YamlLib}.
Variable restOptions : RESTOptions.

(* ------------------------------------------------------------------ *)
(** ** Creation                                                        *)
(* ------------------------------------------------------------------ *)

(** A document of one kind is read and posted; whatever is answered counts as
    done. *)
Definition create_with_file {Spec} `{GoValue Spec} (byteBuf : string)
    (valid : Spec -> result string unit) (send : ConfigurationFile Spec -> IO http_result)
    : IO (option string) :=
  match yaml_unmarshal (ConfigurationFile Spec) _ byteBuf with
  | Err e => mret (Some e)
  | Ok c =>
      match valid (file_Spec c) with
      | Err e => mret (Some e)
      | Ok _ =>
          r ← send c;
          match (r : http_result) with
          | Err e => mret (Some e)
          | Ok _ => mret None
          end
      end
  end.

Definition always_valid {Spec} (_ : Spec) : result string unit := Ok tt.

Definition spec_posted {Spec} (api : LoxiClient -> CommonAPI) (json : Spec -> gojson)
    (c : ConfigurationFile Spec) : IO http_result :=
  APICall restOptions api (json (file_Spec c)).

Definition EndPointCreateWithFile (byteBuf : string) : IO (option string) :=
  create_with_file byteBuf always_valid (spec_posted Client.EndPoint end_point_mod_json).
Definition FDBCreateWithFile (byteBuf : string) : IO (option string) :=
  create_with_file byteBuf always_valid (spec_posted Client.FDB fdb_mod_json).
Definition FirewallCreateWithFile (byteBuf : string) : IO (option string) :=
  create_with_file byteBuf always_valid (spec_posted Client.Firewall fw_rule_mod_json).
Definition IPv4AddressCreateWithFile (byteBuf : string) : IO (option string) :=
  create_with_file byteBuf always_valid (spec_posted Client.IPv4Address ipv4_addr_mod_json).
Definition LoadBalancerCreateWithFile (byteBuf : string) : IO (option string) :=
  create_with_file byteBuf always_valid (fun c => LoadbalancerAPICall restOptions (file_Spec c)).
Definition MirrorCreateWithFile (byteBuf : string) : IO (option string) :=
  create_with_file byteBuf always_valid (spec_posted Client.Mirror mirr_mod_json).
Definition NeighborsCreateWithFile (byteBuf : string) : IO (option string) :=
  create_with_file byteBuf always_valid (spec_posted Client.Neighbor neighbor_mod_json).
Definition PolicyCreateWithFile (byteBuf : string) : IO (option string) :=
  create_with_file byteBuf always_valid (spec_posted Client.Policy pol_mod_json).
Definition RouteCreateWithFile (byteBuf : string) : IO (option string) :=
  create_with_file byteBuf always_valid (spec_posted Client.Route routev4_get_json).

(** [SessionMod.Validation]. *)
Definition session_Validation (s : SessionMod) : result string unit :=
  reject ((u32 (stn_TeID (ssm_AnTun s)) =? 0)%Z || (u32 (stn_TeID (ssm_CnTun s)) =? 0)%Z)
    with_ "TeID need to be not 0";;
  Ok tt.
Definition SessionCreateWithFile (byteBuf : string) : IO (option string) :=
  create_with_file byteBuf session_Validation (spec_posted Client.Session session_mod_json).
Definition SessionUlClCreateWithFile (byteBuf : string) : IO (option string) :=
  create_with_file byteBuf always_valid (spec_posted Client.SessionUlCL session_ul_cl_mod_json).

(** The number of the bridge is metadata. *)
Definition VlanMemberCreateWithFile (byteBuf : string) : IO (option string) :=
  create_with_file byteBuf always_valid (fun c =>
    APICall restOptions
      (fun client => SetUrl (Client.Vlan client)
         (sprintf ["/config/vlan/"; itoa (om_VlanID (file_ObjectMeta c)); "/member"]))
      (vlan_member_mod_json (file_Spec c))).
Definition VlanBridgeCreateWithFile (byteBuf : string) : IO (option string) :=
  create_with_file byteBuf always_valid (spec_posted Client.Vlan vlan_bridge_mod_json).
Definition VxlanPeerCreateWithFile (byteBuf : string) : IO (option string) :=
  create_with_file byteBuf always_valid (fun c =>
    APICall restOptions
      (fun client => SetUrl (Client.Vxlan client)
         (sprintf ["/config/tunnel/vxlan/"; itoa (om_VxlanID (file_ObjectMeta c)); "/peer"]))
      (vxlan_peer_mod_json (file_Spec c))).
Definition VxlanBridgeCreateWithFile (byteBuf : string) : IO (option string) :=
  create_with_file byteBuf always_valid (spec_posted Client.Vxlan vxlan_bridge_mod_json).
Definition BFDCreateWithFile (byteBuf : string) : IO (option string) :=
  create_with_file byteBuf always_valid (spec_posted Client.BFDSession bfd_session_info_json).

(** The [switch] of [ApplyFileConfig]. *)
Definition create_cases : list (list string * (string -> IO (option string))) :=
  [ (["Loadbalancer"; "lb"; "LB"], LoadBalancerCreateWithFile);
    (["Endpoint"; "ep"; "endpoints"], EndPointCreateWithFile);
    (["FDB"; "fdb"], FDBCreateWithFile);
    (["Firewall"; "fw"; "firewalls"; "firewall"], FirewallCreateWithFile);
    (["ipv4address"; "ipv4"; "ipaddress"; "ip"; "IP"; "IPaddress"], IPv4AddressCreateWithFile);
    (["mirror"; "mirr"; "mirrors"; "Mirror"], MirrorCreateWithFile);
    (["nei"; "neigh"; "Neighbor"; "Neigh"; "neighbor"], NeighborsCreateWithFile);
    (["Policy"; "pol"; "policys"; "pols"; "polices"], PolicyCreateWithFile);
    (["Route"; "route"], RouteCreateWithFile);
    (["Session"; "session"; "sessions"], SessionCreateWithFile);
    (["SessionULCL"; "ulcl"; "sessionulcls"; "ulcls"; "ULCL"], SessionUlClCreateWithFile);
    (["VlanMember"; "vlanMember"; "vlan-member"; "vlan_member"; "vlanmember"], VlanMemberCreateWithFile);
    (["Vlan"; "vlan"], VlanBridgeCreateWithFile);
    (["VxlanPeer"; "vxlanpeer"; "vxlan-peer"; "vxlan_peer"], VxlanPeerCreateWithFile);
    (["Vxlan"; "vxlan"], VxlanBridgeCreateWithFile);
    (["BFD"; "bfd"], BFDCreateWithFile) ].

(** The file is read, then its kind; an error is printed and passed on. *)
Definition with_kind (file : string) (k : string -> string -> IO (option string))
    : IO (option string) :=
  r ← read_file file;
  match (r : result os_error string) with
  | Err e => _ ← say (os_text e +:+ nl); mret (Some (os_text e))
  | Ok byteBuf =>
      match yaml_unmarshal TypeMeta _ byteBuf with
      | Err e => _ ← say (sprintf ["Error: Failed to unmarshal File: ("; e; ")"; nl]); mret (Some e)
      | Ok comm => k byteBuf (tm_Kind comm)
      end
  end.

Definition said_error (err : option string) : IO (option string) :=
  match err with
  | Some e => _ ← say (e +:+ nl); mret (Some e)
  | None => mret None
  end.

Definition ApplyFileConfig (file : string) : IO (option string) :=
  with_kind file (fun byteBuf kind =>
    match switch_kind kind create_cases with
    | Some create => err ← create byteBuf; said_error err
    | None => _ ← say ("Not Supported" +:+ nl); mret (Some "not supported")
    end).

(* ------------------------------------------------------------------ *)
(** ** Deletion                                                        *)
(* ------------------------------------------------------------------ *)

(** A document of one kind is read and its object deleted; an error is said
    under the name of the kind. *)
Definition delete_with_file {Spec} `{GoValue Spec} (byteBuf : string) (name : string)
    (api : ConfigurationFile Spec -> LoxiClient -> CommonAPI) : IO (option string) :=
  match yaml_unmarshal (ConfigurationFile Spec) _ byteBuf with
  | Err e => mret (Some e)
  | Ok c =>
      client ← NewLoxiClient restOptions;
      r ← Delete (api c client);
      match (r : http_result) with
      | Err e => _ ← say (sprintf ["Error: Failed to delete "; name; nl]); mret (Some e)
      | Ok _ => mret None
      end
  end.

(** The answer and the error of this one are dropped. *)
Definition LoadBalancerDeleteWithFile (byteBuf : string) : IO (option string) :=
  match yaml_unmarshal (ConfigurationFile LoadBalancerModel) _ byteBuf with
  | Err e => mret (Some e)
  | Ok c =>
      client ← NewLoxiClient restOptions;
      let service := lm_Service (file_Spec c) in
      _ ← Delete (Query (SubResources (Client.LoadBalancer client)
                   ["externalipaddress"; sv_ExternalIP service; "port"; itoa (u16 (sv_Port service));
                    "protocol"; sv_Protocol service])
            [("bgp", bool_str (sv_BGP service)); ("block", itoa (u32 (sv_Block service)))]);
      mret None
  end.

Definition NeighborDeleteWithFile (byteBuf : string) : IO (option string) :=
  delete_with_file byteBuf "Neighbor" (fun c client =>
    SubResources (Client.Neighbor client) [nbm_IP (file_Spec c); "dev"; nbm_Dev (file_Spec c)]).
Definition MirrorDeleteWithFile (byteBuf : string) : IO (option string) :=
  delete_with_file byteBuf "Mirror" (fun c client =>
    SubResources (Client.Mirror client) ["ident"; mrm_Ident (file_Spec c)]).
Definition IPv4AddressDeleteWithFile (byteBuf : string) : IO (option string) :=
  delete_with_file byteBuf "IPv4Address" (fun c client =>
    SubResources (Client.IPv4Address client) [ipm_IP (file_Spec c); "dev"; ipm_Dev (file_Spec c)]).
Definition FDBDeleteWithFile (byteBuf : string) : IO (option string) :=
  delete_with_file byteBuf "FDB" (fun c client =>
    SubResources (Client.FDB client) [fdb_MacAddress (file_Spec c); "dev"; fdb_Dev (file_Spec c)]).

(** [c.HostName] is the one of the metadata. *)
Definition EndPointDeleteWithFile (byteBuf : string) : IO (option string) :=
  delete_with_file byteBuf "EndPoint" (fun c client =>
    SubResources (Client.EndPoint client)
      ["epipaddress"; om_HostName (file_ObjectMeta c); "probetype"; epm_ProbeType (file_Spec c);
       "probeport"; itoa (u16 (epm_ProbePort (file_Spec c)))]).
Definition PolicyDeleteWithFile (byteBuf : string) : IO (option string) :=
  delete_with_file byteBuf "Policy" (fun c client =>
    SubResources (Client.Policy client) ["ident"; pom_Ident (file_Spec c)]).

Definition text_query (key value : string) : list (string * string) :=
  if is_empty value then [] else [(key, value)].
Definition number_query (key : string) (n : Z) : list (string * string) :=
  if (n =? 0)%Z then [] else [(key, itoa n)].

(** The fields of a rule that are not zero. *)
Definition MakefirewallDeleteRuleToQeury (r : FwRuleArg) : list (string * string) :=
  text_query "destinationIP" (fwr_DstIP r)
  ++ number_query "minDestinationPort" (u16 (fwr_DstPortMin r))
  ++ number_query "maxDestinationPort" (u16 (fwr_DstPortMax r))
  ++ text_query "portName" (fwr_InPort r)
  ++ number_query "preference" (u16 (fwr_Pref r))
  ++ number_query "protocol" (u8 (fwr_Proto r))
  ++ text_query "sourceIP" (fwr_SrcIP r)
  ++ number_query "maxSourcePort" (u16 (fwr_SrcPortMax r))
  ++ number_query "minSourcePort" (u16 (fwr_SrcPortMin r)).

Definition FirewallDeleteWithFile (byteBuf : string) : IO (option string) :=
  delete_with_file byteBuf "Firewall" (fun c client =>
    Query (Client.Firewall client) (MakefirewallDeleteRuleToQeury (fwm_Rule (file_Spec c)))).
Definition RouteDeleteWithFile (byteBuf : string) : IO (option string) :=
  delete_with_file byteBuf "Route" (fun c client =>
    SubResources (Client.Route client) ["destinationIPNet"; rtm_Dst (file_Spec c)]).
Definition SessionDeleteWithFile (byteBuf : string) : IO (option string) :=
  delete_with_file byteBuf "Session" (fun c client =>
    SubResources (Client.Session client) ["ident"; ssm_Ident (file_Spec c)]).
Definition SessionUlClDeleteWithFile (byteBuf : string) : IO (option string) :=
  delete_with_file byteBuf "SessionUlCl" (fun c client =>
    SubResources (Client.SessionUlCL client)
      ["ident"; ucm_Ident (file_Spec c); "ulclAddress"; net_ip_text (uca_Addr (ucm_Args (file_Spec c)))]).
Definition VlanDeleteWithFile (byteBuf : string) : IO (option string) :=
  delete_with_file byteBuf "Vlan" (fun c client =>
    SubResources (Client.Vlan client) [itoa (vlb_Vid (file_Spec c))]).
Definition VlanMemberDeleteWithFile (byteBuf : string) : IO (option string) :=
  delete_with_file byteBuf "Vlan" (fun c client =>
    SubResources (Client.Vlan client)
      [itoa (om_VlanID (file_ObjectMeta c)); "member"; vlm_Dev (file_Spec c); "tagged";
       bool_str (vlm_Tagged (file_Spec c))]).
Definition VxlanDeleteWithFile (byteBuf : string) : IO (option string) :=
  delete_with_file byteBuf "Vxlan" (fun c client =>
    SubResources (Client.Vxlan client) [itoa (vxb_VxLanID (file_Spec c))]).
Definition VxlanPeerDeleteWithFile (byteBuf : string) : IO (option string) :=
  delete_with_file byteBuf "Vxlan" (fun c client =>
    SubResources (Client.Vxlan client)
      [itoa (om_VxlanID (file_ObjectMeta c)); "peer"; vxp_PeerIP (file_Spec c)]).

(** An error of the transport is said and dropped. *)
Definition BFDDeleteWithFile (byteBuf : string) : IO (option string) :=
  match yaml_unmarshal (ConfigurationFile BFDSessionInfo) _ byteBuf with
  | Err e => mret (Some e)
  | Ok c =>
      client ← NewLoxiClient restOptions;
      r ← Delete (Query (SubResources (Client.BFDSession client) ["remoteIP"; bfd_RemoteIP (file_Spec c)])
                   [("instance", bfd_Instance (file_Spec c))]);
      match (r : http_result) with
      | Err _ => _ ← say "Error: Failed to delete bfd session"; mret None
      | Ok _ => mret None
      end
  end.

Definition delete_cases : list (list string * (string -> IO (option string))) :=
  [ (["Loadbalancer"; "lb"; "LB"], LoadBalancerDeleteWithFile);
    (["Endpoint"; "ep"; "endpoints"], EndPointDeleteWithFile);
    (["FDB"; "fdb"], FDBDeleteWithFile);
    (["Firewall"; "fw"; "firewalls"; "firewall"], FirewallDeleteWithFile);
    (["ipv4address"; "ipv4"; "ipaddress"; "ip"; "IP"; "IPaddress"], IPv4AddressDeleteWithFile);
    (["mirror"; "mirr"; "mirrors"; "Mirror"], MirrorDeleteWithFile);
    (["nei"; "neigh"; "Neighbor"; "Neigh"; "neighbor"], NeighborDeleteWithFile);
    (["Policy"; "pol"; "policys"; "pols"; "polices"], PolicyDeleteWithFile);
    (["Route"; "route"], RouteDeleteWithFile);
    (["Session"; "session"; "sessions"], SessionDeleteWithFile);
    (["SessionULCL"; "ulcl"; "sessionulcls"; "ulcls"; "ULCL"], SessionUlClDeleteWithFile);
    (["VlanMember"; "vlanMember"; "vlan-member"; "vlan_member"; "vlanmember"], VlanMemberDeleteWithFile);
    (["Vlan"; "vlan"], VlanDeleteWithFile);
    (["VxlanPeer"; "vxlanpeer"; "vxlan-peer"; "vxlan_peer"], VxlanPeerDeleteWithFile);
    (["Vxlan"; "vxlan"], VxlanDeleteWithFile);
    (["bfd"; "BFD"], BFDDeleteWithFile) ].

(** A kind that is not known is said, and is no error. *)
Definition DeleteFileConfig (file : string) : IO (option string) :=
  with_kind file (fun byteBuf kind =>
    match switch_kind kind delete_cases with
    | Some delete => err ← delete byteBuf; said_error err
    | None => _ ← say ("Not Supported" +:+ nl); mret None
    end).

(* ------------------------------------------------------------------ *)
(** ** The parents                                                     *)
(* ------------------------------------------------------------------ *)

(** What both parents make of the verdict on a file. *)
Definition config_outcome (file : string) (err : option string) : IO outcome :=
  match err with
  | Some e =>
      fail_with (Classify (EWrap (sprintf ["configuration failed - "; file; ": "; e]) (EText e)))
  | None => _ ← say (sprintf ["Configuration applied - "; file; nl]); succeed
  end.

Definition unknown_subcommand (command : string) (args : list string) (need : string) : IO outcome :=
  match args with
  | [] => fail_with (Usagef need)
  | a :: _ => fail_with (Usagef (sprintf ["unknown command "; quote a; " for "; quote ("loxicmd " +:+ command)]))
  end.

Definition DeleteCmd (NormalConfigFile : string) (args : list string) : IO outcome :=
  if negb (is_empty NormalConfigFile)
  then err ← DeleteFileConfig NormalConfigFile; config_outcome NormalConfigFile err
  else unknown_subcommand "delete" args "delete needs a subcommand or --file".

Definition CreateCmd (args : list string) : IO outcome :=
  unknown_subcommand "create" args "create needs a subcommand".

End Files.
