(* ===== verification/FileProps.v ===== *)
(** * What a configuration file asks of the gateway *)
From S2P Require Import Prelude GoStrings GoNet Json JsonPrint Fields World Errors Exitcode Rest.
From S2P Require Import Requests LbModel LbCreate Commands Plans NetModel CreateCmds DeleteCmds.
From S2P Require Import CreateProps FileConfig.

(* ------------------------------------------------------------------ *)
(** ** The plan of a document                                          *)
(* ------------------------------------------------------------------ *)

Section Plans.
Context `{GoLib} `{YamlLib}.
Variable ro : RESTOptions.

(** The collection a document is posted to, and the document. *)
Definition file_posting : Type := (LoxiClient -> CommonAPI) * gojson.

Definition spec_to {Spec} `{GoValue Spec} (fits : Spec -> bool)
    (to : ConfigurationFile Spec -> file_posting) (content : string) : result string file_posting :=
  c ← yaml_unmarshal (ConfigurationFile Spec) _ content;
  if fits (file_Spec c) then Ok (to c) else Err "".

Definition any_spec {Spec} (_ : Spec) : bool := true.

(** Both tunnels of a session have a number. *)
Definition tunnels_numbered (s : SessionMod) : bool :=
  bool_decide (u32 (stn_TeID (ssm_AnTun s)) <> 0%Z /\ u32 (stn_TeID (ssm_CnTun s)) <> 0%Z).

Definition plainly {Spec} (api : LoxiClient -> CommonAPI) (json : Spec -> gojson)
    (c : ConfigurationFile Spec) : file_posting := (api, json (file_Spec c)).

(** The collection, by the names of a kind. *)
Definition create_plans : list (list string * (string -> result string file_posting)) :=
  [ (["Loadbalancer"; "lb"; "LB"],
     spec_to any_spec (plainly (at_path "config/loadbalancer") load_balancer_model_json));
    (["Endpoint"; "ep"; "endpoints"], spec_to any_spec (plainly (at_path "config/endpoint") end_point_mod_json));
    (["FDB"; "fdb"], spec_to any_spec (plainly (at_path "config/fdb") fdb_mod_json));
    (["Firewall"; "fw"; "firewalls"; "firewall"],
     spec_to any_spec (plainly (at_path "config/firewall") fw_rule_mod_json));
    (["ipv4address"; "ipv4"; "ipaddress"; "ip"; "IP"; "IPaddress"],
     spec_to any_spec (plainly (at_path "config/ipv4address") ipv4_addr_mod_json));
    (["mirror"; "mirr"; "mirrors"; "Mirror"], spec_to any_spec (plainly (at_path "config/mirror") mirr_mod_json));
    (["nei"; "neigh"; "Neighbor"; "Neigh"; "neighbor"],
     spec_to any_spec (plainly (at_path "config/neighbor") neighbor_mod_json));
    (["Policy"; "pol"; "policys"; "pols"; "polices"],
     spec_to any_spec (plainly (at_path "config/policy") pol_mod_json));
    (["Route"; "route"], spec_to any_spec (plainly (at_path "config/route") routev4_get_json));
    (["Session"; "session"; "sessions"],
     spec_to tunnels_numbered (plainly (at_path "config/session") session_mod_json));
    (["SessionULCL"; "ulcl"; "sessionulcls"; "ulcls"; "ULCL"],
     spec_to any_spec (plainly (at_path "config/sessionulcl") session_ul_cl_mod_json));
    (["VlanMember"; "vlanMember"; "vlan-member"; "vlan_member"; "vlanmember"],
     spec_to any_spec (fun c =>
       (at_path (sprintf ["/config/vlan/"; itoa (om_VlanID (file_ObjectMeta c)); "/member"]),
        vlan_member_mod_json (file_Spec c))));
    (["Vlan"; "vlan"], spec_to any_spec (plainly (at_path "config/vlan") vlan_bridge_mod_json));
    (["VxlanPeer"; "vxlanpeer"; "vxlan-peer"; "vxlan_peer"],
     spec_to any_spec (fun c =>
       (at_path (sprintf ["/config/tunnel/vxlan/"; itoa (om_VxlanID (file_ObjectMeta c)); "/peer"]),
        vxlan_peer_mod_json (file_Spec c))));
    (["Vxlan"; "vxlan"], spec_to any_spec (plainly (at_path "config/tunnel/vxlan") vxlan_bridge_mod_json));
    (["BFD"; "bfd"], spec_to any_spec (plainly (at_path "config/bfd") bfd_session_info_json)) ].

(** Nothing is sent, and the verdict is a failure. *)
Definition refused_quietly (out : option string) (t : trace) : Prop := https t = [] /\ out <> None.

(** One request; only a transport that fails is a failure. *)
Definition sent_unjudged (method : string) (to : LoxiClient -> CommonAPI * option string)
    (lenient : bool) (out : option string) (t : trace) : Prop :=
  exists c r, rc_Options c = ro
    /\ https t = [(build_request c method (GetUrlString (to c).1) (to c).2, r)]
    /\ (out = None <-> lenient = true \/ exists resp, r = Ok resp).

Definition posts_file (plan : result string file_posting) (out : option string) (t : trace) : Prop :=
  match plan with
  | Err _ => refused_quietly out t
  | Ok (api, doc) =>
      match marshal doc with
      | None => refused_quietly out t
      | Some body => sent_unjudged "POST" (fun c => (api c, Some body)) false out t
      end
  end.

(** A request whose answer is not looked at. *)
Lemma create_unjudged api doc w h :
  (forall c, ca_restClient (api c) = c) ->
  wp (APICall ro api doc) w h (fun r t =>
    match marshal doc with
    | None => https t = [] /\ exists e, r = Err e
    | Some body => exists c, rc_Options c = ro
        /\ https t = [(build_request c "POST" (GetUrlString (api c)) (Some body), r)]
    end).
Proof.
  intros Hapi. apply wp_client. intros c t Hc Ht _. unfold Create, with_body.
  destruct (marshal doc) as [body|].
  - unfold POST. rewrite Hapi. apply wp_http. intros r. exists c. by rewrite https_app, Ht.
  - apply wp_ret. rewrite app_nil_r. split; [done|]. by eexists.
Qed.

Lemma create_with_file_posts {Spec} `{GoValue Spec} content valid fits
    (to : ConfigurationFile Spec -> file_posting) w h :
  (forall c client, ca_restClient ((to c).1 client) = client) -> (forall s, is_ok (valid s) = fits s) ->
  wp (create_with_file content valid (fun c => APICall ro (to c).1 (to c).2)) w h
    (posts_file (spec_to fits to content)).
Proof.
  intros Hapi Hfits. unfold create_with_file, spec_to.
  destruct (yaml_unmarshal _ _ content) as [c|e]; [|by apply wp_ret]. cbn [mbind result_bind].
  rewrite <- Hfits. destruct (valid (file_Spec c)) as [[]|e]; [|by apply wp_ret].
  cbn [is_ok]. apply wp_bind. eapply wp_mono; [apply create_unjudged, Hapi|].
  intros r t Ht. unfold posts_file. destruct (to c) as [api doc]. cbn [fst snd] in *. revert Ht.
  destruct (marshal doc) as [body|]; intros Ht; cbv beta iota.
  - destruct Ht as (client & Hc & Ht). destruct r as [resp|e]; apply wp_ret;
      rewrite app_nil_r; exists client; eexists; (split; [exact Hc|]); (split; [exact Ht|]).
    + split; [intros _; right; by eexists | done].
    + split; [done | intros [?|[? ?]]; done].
  - destruct Ht as [Ht [e ->]]. apply wp_ret. by rewrite app_nil_r.
Qed.

Lemma said_error_wp err w h (Q : option string -> trace -> Prop) :
  (forall t, https t = [] -> Q err t) -> wp (said_error err) w h Q.
Proof.
  intros HQ. destruct err as [e|]; [|by apply wp_ret, HQ].
  apply wp_bind, quiet_wp; [apply say_quiet|]. intros _ t Ht. apply wp_ret. rewrite app_nil_r. by apply HQ.
Qed.

(** The cases of a switch are those of another with the same names. *)
Definition cases_follow {A B} (R : A -> B -> Prop) : list (list string * A) -> list (list string * B) -> Prop :=
  Forall2 (fun c p => c.1 = p.1 /\ R c.2 p.2).

Lemma switch_follows {A B} (R : A -> B -> Prop) cases plans kind :
  cases_follow R cases plans ->
  match switch_kind kind cases, switch_kind kind plans with
  | Some a, Some b => R a b
  | None, None => True
  | _, _ => False
  end.
Proof.
  unfold switch_kind. induction 1 as [|[n a] [n' b] cases plans [Hn Hab] _ IH]; [done|].
  simpl in *. subst n'. by destruct (str_in kind n).
Qed.

Definition creates_as (create : string -> IO (option string)) (plan : string -> result string file_posting)
    : Prop := forall content w h, wp (create content) w h (posts_file (plan content)).

Lemma tunnels_numbered_valid s : is_ok (session_Validation s) = tunnels_numbered s.
Proof.
  unfold session_Validation, tunnels_numbered.
  destruct (Z.eqb_spec (u32 (stn_TeID (ssm_AnTun s))) 0), (Z.eqb_spec (u32 (stn_TeID (ssm_CnTun s))) 0);
    case_bool_decide; naive_solver.
Qed.

Lemma create_cases_follow : cases_follow creates_as (create_cases ro) create_plans.
Proof.
  repeat constructor; intros content w h;
    (apply create_with_file_posts; [done|]); first [done | apply tunnels_numbered_valid].
Qed.

(* ------------------------------------------------------------------ *)
(** ** Deletion                                                        *)
(* ------------------------------------------------------------------ *)

(** The object a document names; [true] when the answer is dropped. *)
Definition deletion_of : Type := (LoxiClient -> CommonAPI) * bool.

Definition spec_named {Spec} `{GoValue Spec} (lenient : bool)
    (api : ConfigurationFile Spec -> LoxiClient -> CommonAPI) (content : string)
    : result string deletion_of :=
  c ← yaml_unmarshal (ConfigurationFile Spec) _ content; Ok (api c, lenient).

Definition delete_plans : list (list string * (string -> result string deletion_of)) :=
  [ (["Loadbalancer"; "lb"; "LB"], spec_named true (fun c =>
       let s := lm_Service (file_Spec c) in
       query_at "config/loadbalancer"
         ["externalipaddress"; sv_ExternalIP s; "port"; itoa (u16 (sv_Port s));
                 "protocol"; sv_Protocol s]
         [("bgp", bool_str (sv_BGP s)); ("block", itoa (u32 (sv_Block s)))]));
    (["Endpoint"; "ep"; "endpoints"], spec_named false (fun c =>
       item_at "config/endpoint"
         ["epipaddress"; om_HostName (file_ObjectMeta c); "probetype"; epm_ProbeType (file_Spec c);
          "probeport"; itoa (u16 (epm_ProbePort (file_Spec c)))]));
    (["FDB"; "fdb"], spec_named false (fun c =>
       item_at "config/fdb" [fdb_MacAddress (file_Spec c); "dev"; fdb_Dev (file_Spec c)]));
    (["Firewall"; "fw"; "firewalls"; "firewall"], spec_named false (fun c =>
       query_at "config/firewall" [] (MakefirewallDeleteRuleToQeury (fwm_Rule (file_Spec c)))));
    (["ipv4address"; "ipv4"; "ipaddress"; "ip"; "IP"; "IPaddress"], spec_named false (fun c =>
       item_at "config/ipv4address" [ipm_IP (file_Spec c); "dev"; ipm_Dev (file_Spec c)]));
    (["mirror"; "mirr"; "mirrors"; "Mirror"], spec_named false (fun c =>
       item_at "config/mirror" ["ident"; mrm_Ident (file_Spec c)]));
    (["nei"; "neigh"; "Neighbor"; "Neigh"; "neighbor"], spec_named false (fun c =>
       item_at "config/neighbor" [nbm_IP (file_Spec c); "dev"; nbm_Dev (file_Spec c)]));
    (["Policy"; "pol"; "policys"; "pols"; "polices"], spec_named false (fun c =>
       item_at "config/policy" ["ident"; pom_Ident (file_Spec c)]));
    (["Route"; "route"], spec_named false (fun c =>
       item_at "config/route" ["destinationIPNet"; rtm_Dst (file_Spec c)]));
    (["Session"; "session"; "sessions"], spec_named false (fun c =>
       item_at "config/session" ["ident"; ssm_Ident (file_Spec c)]));
    (["SessionULCL"; "ulcl"; "sessionulcls"; "ulcls"; "ULCL"], spec_named false (fun c =>
       item_at "config/sessionulcl"
         ["ident"; ucm_Ident (file_Spec c); "ulclAddress"; net_ip_text (uca_Addr (ucm_Args (file_Spec c)))]));
    (["VlanMember"; "vlanMember"; "vlan-member"; "vlan_member"; "vlanmember"], spec_named false (fun c =>
       item_at "config/vlan"
         [itoa (om_VlanID (file_ObjectMeta c)); "member"; vlm_Dev (file_Spec c); "tagged";
          bool_str (vlm_Tagged (file_Spec c))]));
    (["Vlan"; "vlan"], spec_named false (fun c => item_at "config/vlan" [itoa (vlb_Vid (file_Spec c))]));
    (["VxlanPeer"; "vxlanpeer"; "vxlan-peer"; "vxlan_peer"], spec_named false (fun c =>
       item_at "config/tunnel/vxlan" [itoa (om_VxlanID (file_ObjectMeta c)); "peer"; vxp_PeerIP (file_Spec c)]));
    (["Vxlan"; "vxlan"], spec_named false (fun c => item_at "config/tunnel/vxlan" [itoa (vxb_VxLanID (file_Spec c))]));
    (["bfd"; "BFD"], spec_named true (fun c =>
       query_at "config/bfd" ["remoteIP"; bfd_RemoteIP (file_Spec c)]
         [("instance", bfd_Instance (file_Spec c))])) ].

Definition deletes_file (plan : result string deletion_of) (out : option string) (t : trace) : Prop :=
  match plan with
  | Err _ => refused_quietly out t
  | Ok (api, lenient) => sent_unjudged "DELETE" (fun c => (api c, None)) lenient out t
  end.

Lemma delete_wp {A} (api : CommonAPI) c (k : http_result -> IO A) w h (Q : A -> trace -> Prop) :
  ca_restClient api = c ->
  (forall r t, https t = [(build_request c "DELETE" (GetUrlString api) None, r)] ->
     wp (k r) w (h ++ t) (fun a t' => Q a (t ++ t'))) ->
  wp (r ← Delete api; k r) w h Q.
Proof.
  intros Hapi Hk. apply wp_bind. unfold Delete, DELETE. rewrite Hapi. apply wp_http. intros r. by apply Hk.
Qed.

Lemma delete_with_file_deletes {Spec} `{GoValue Spec} content name
    (api : ConfigurationFile Spec -> LoxiClient -> CommonAPI) w h :
  (forall c client, ca_restClient (api c client) = client) ->
  wp (delete_with_file ro content name api) w h (deletes_file (spec_named false api content)).
Proof.
  intros Hapi. unfold delete_with_file, spec_named.
  destruct (yaml_unmarshal _ _ content) as [c|e]; [|by apply wp_ret]. cbn [mbind result_bind].
  apply wp_client. intros client t Hc Ht _. apply (delete_wp _ client); [apply Hapi|]. intros r t1 Ht1.
  assert (Hs : forall t2, https t2 = [] -> https (t ++ t1 ++ t2)
            = [(build_request client "DELETE" (GetUrlString (api c client)) None, r)]).
  { intros t2 Ht2. by rewrite !https_app, Ht, Ht1, Ht2. }
  destruct r as [resp|e].
  - apply wp_ret. exists client, (Ok resp). split; [done|]. split; [by apply Hs|].
    split; [intros _; right; by eexists | done].
  - apply wp_bind, quiet_wp; [apply say_quiet|]. intros _ t2 Ht2. apply wp_ret. rewrite app_nil_r.
    exists client, (Err e). split; [done|]. split; [by apply Hs|].
    split; [done | intros [?|[? ?]]; done].
Qed.

Definition deletes_as (delete : string -> IO (option string)) (plan : string -> result string deletion_of)
    : Prop := forall content w h, wp (delete content) w h (deletes_file (plan content)).

(** The answer is dropped by these two. *)
Lemma lenient_deletes client api r t :
  rc_Options client = ro -> https t = [(build_request client "DELETE" (GetUrlString (api client)) None, r)] ->
  deletes_file (Ok (api, true)) None t.
Proof. intros Hc Ht. exists client, r. split; [done|]. split; [done|]. split; [by left | done]. Qed.

Lemma lb_deletes : deletes_as (LoadBalancerDeleteWithFile ro) (List.nth 0 (snd <$> delete_plans) (fun _ => Err "")).
Proof.
  intros content w h. unfold LoadBalancerDeleteWithFile. cbn [delete_plans fmap list_fmap snd List.nth].
  unfold spec_named. destruct (yaml_unmarshal _ _ content) as [c|e]; [|by apply wp_ret].
  cbn [mbind result_bind]. apply wp_client. intros client t Hc Ht _.
  apply (delete_wp _ client); [done|]. intros r t1 Ht1. apply wp_ret. rewrite app_nil_r.
  apply (lenient_deletes client _ r); [done|]. by rewrite https_app, Ht.
Qed.

Lemma bfd_deletes : deletes_as (BFDDeleteWithFile ro) (List.nth 15 (snd <$> delete_plans) (fun _ => Err "")).
Proof.
  intros content w h. unfold BFDDeleteWithFile. cbn [delete_plans fmap list_fmap snd List.nth].
  unfold spec_named. destruct (yaml_unmarshal _ _ content) as [c|e]; [|by apply wp_ret].
  cbn [mbind result_bind]. apply wp_client. intros client t Hc Ht _.
  apply (delete_wp _ client); [done|]. intros r t1 Ht1. destruct r as [resp|e].
  - apply wp_ret. rewrite app_nil_r. apply (lenient_deletes client _ (Ok resp)); [done|].
    by rewrite https_app, Ht.
  - apply wp_bind, quiet_wp; [apply say_quiet|]. intros _ t2 Ht2. apply wp_ret. rewrite app_nil_r.
    apply (lenient_deletes client _ (Err e)); [done|]. by rewrite !https_app, Ht, Ht1, Ht2.
Qed.

Lemma delete_cases_follow : cases_follow deletes_as (delete_cases ro) delete_plans.
Proof.
  repeat (constructor; [split; [reflexivity|]|]); try constructor;
    first [exact lb_deletes | exact bfd_deletes | intros content w h; by apply delete_with_file_deletes].
Qed.

(* ------------------------------------------------------------------ *)
(** ** Files                                                           *)
(* ------------------------------------------------------------------ *)

(** The file is read, then its kind. *)
Definition reads_file (w : World) (h : trace) (file : string)
    (known : string -> string -> option string -> trace -> Prop) (out : option string) (t : trace) : Prop :=
  match w h (OpReadFile file) with
  | Err _ => refused_quietly out t
  | Ok content =>
      match yaml_unmarshal TypeMeta _ content with
      | Err _ => refused_quietly out t
      | Ok comm => known content (tm_Kind comm) out t
      end
  end.

Lemma with_kind_wp file k w h (known : string -> string -> option string -> trace -> Prop) :
  (forall content kind h', wp (k content kind) w h' (known content kind)) ->
  (forall content kind out e t, known content kind out t -> known content kind out (Ev (OpReadFile file) e :: t)) ->
  wp (with_kind file k) w h (reads_file w h file known).
Proof.
  intros Hk Hq. unfold with_kind, reads_file, read_file. wp_op. intros a <-. destruct (w h (OpReadFile file)) as [content|e].
  - destruct (yaml_unmarshal TypeMeta _ content) as [comm|e].
    + eapply wp_mono; [apply Hk|]. intros out t. apply Hq.
    + apply wp_bind, quiet_wp; [apply say_quiet|]. intros _ t Ht. apply wp_ret. by rewrite app_nil_r.
  - apply wp_bind, quiet_wp; [apply say_quiet|]. intros _ t Ht. apply wp_ret. by rewrite app_nil_r.
Qed.

End Plans.

(** Only what is sent matters. *)
Lemma posts_file_more `{GoLib} ro plan out t t' :
  https t' = https t -> posts_file ro plan out t -> posts_file ro plan out t'.
Proof. intros Ht. destruct plan as [[api doc]|e]; unfold posts_file, refused_quietly, sent_unjudged; by rewrite Ht. Qed.
Lemma deletes_file_more ro plan out t t' :
  https t' = https t -> deletes_file ro plan out t -> deletes_file ro plan out t'.
Proof. intros Ht. destruct plan as [[api l]|e]; unfold deletes_file, refused_quietly, sent_unjudged; by rewrite Ht. Qed.

(** A kind by one of its names, when no name is that of two kinds. *)
Lemma switch_kind_named {A} kind (cases : list (list string * A)) names a :
  NoDup (concat (fst <$> cases)) -> (names, a) ∈ cases -> kind ∈ names -> switch_kind kind cases = Some a.
Proof.
  unfold switch_kind. induction cases as [|[names' a'] cases IH]; [set_solver|]. simpl.
  intros (_ & Hdis & Hnd)%NoDup_app [[= -> ->]|Hin]%elem_of_cons Hk.
  - apply str_in_true in Hk. by rewrite Hk.
  - destruct (str_in kind names') eqn:Hs; [|by apply IH]. apply str_in_true in Hs. exfalso.
    apply (Hdis _ Hs). apply list_elem_of_In, in_concat. exists names. rewrite <- !list_elem_of_In.
    split; [|done]. apply list_elem_of_fmap. by exists (names, a).
Qed.

Lemma switch_kind_none {A} kind (cases : list (list string * A)) :
  switch_kind kind cases = None <-> kind ∉ concat (fst <$> cases).
Proof.
  unfold switch_kind. induction cases as [|[names a] cases IH]; simpl; [set_solver|].
  destruct (str_in kind names) eqn:Hk.
  - apply str_in_true in Hk. set_solver.
  - apply str_in_false in Hk. rewrite IH. set_solver.
Qed.

(** What is done for a kind: what the plan of that name says, and a refusal for
    a kind that no plan names. *)
Definition by_kind {A} (plans : list (list string * A)) (kind : string) (done_ : A -> Prop) (unknown : Prop)
    : Prop :=
  (forall names plan, (names, plan) ∈ plans -> kind ∈ names -> done_ plan)
  /\ (kind ∉ concat (fst <$> plans) -> unknown).

Lemma by_kind_switch {A} (plans : list (list string * A)) kind (done_ : A -> Prop) (unknown : Prop) :
  NoDup (concat (fst <$> plans)) ->
  match switch_kind kind plans with Some plan => done_ plan | None => unknown end ->
  by_kind plans kind done_ unknown.
Proof.
  intros Hnd Hs. split.
  - intros names plan Hin Hk. by rewrite (switch_kind_named _ _ _ _ Hnd Hin Hk) in Hs.
  - intros Hk%switch_kind_none. by rewrite Hk in Hs.
Qed.

(** C28: what [apply -f] does with a file.  It sends nothing and fails when the
    file cannot be read, when its kind is none of the names of the sixteen plans,
    or when its document is refused (a session one of whose tunnels has no number)
    or cannot be encoded.  Otherwise it sends one POST of the document to the
    collection of its kind, and it succeeds exactly when the transport answered:
    the status of the answer is not looked at. *)
Theorem apply_file_requests `{GoLib} `{YamlLib} ro file w h :
  wp (ApplyFileConfig ro file) w h
    (reads_file w h file (fun content kind out t =>
       by_kind create_plans kind (fun plan => posts_file ro (plan content) out t) (refused_quietly out t))).
Proof.
  assert (Hnd : NoDup (concat (fst <$> create_plans)))
    by (apply (bool_decide_unpack _); vm_compute; exact I).
  apply with_kind_wp.
  - intros content kind h'. eapply wp_mono; [|intros out t; by apply by_kind_switch].
    generalize (switch_follows _ _ _ kind (create_cases_follow ro)).
    destruct (switch_kind kind (create_cases ro)) as [create|], (switch_kind kind create_plans) as [plan|];
      intros Hf; try done.
    apply wp_bind. eapply wp_mono; [apply Hf|]. intros out t Ht. apply said_error_wp. intros t' Ht'.
    eapply posts_file_more; [|exact Ht]. by rewrite https_app, Ht', app_nil_r.
  - intros content kind out e t [Hd Hu]. split; [exact Hd | exact Hu].
Qed.

(** What [delete -f] does with a file.  A text that cannot be read is a
    failure; a kind that is not known is a success, and nothing is sent.
    Otherwise it sends one DELETE of the object the document names and
    succeeds when the transport answered, whatever was answered; for a load
    balancer and a BFD session it succeeds even when nothing answered. *)
Theorem delete_file_requests `{GoLib} `{YamlLib} ro file w h :
  wp (DeleteFileConfig ro file) w h
    (reads_file w h file (fun content kind out t =>
       match switch_kind kind delete_plans with
       | Some plan => deletes_file ro (plan content) out t
       | None => https t = [] /\ out = None
       end)).
Proof.
  apply with_kind_wp.
  - intros content kind h'.
    generalize (switch_follows _ _ _ kind (delete_cases_follow ro)).
    destruct (switch_kind kind (delete_cases ro)) as [delete|], (switch_kind kind delete_plans) as [plan|];
      intros Hf; try done.
    apply wp_bind. eapply wp_mono; [apply Hf|]. intros out t Ht. apply said_error_wp. intros t' Ht'.
    eapply deletes_file_more; [|exact Ht]. by rewrite https_app, Ht', app_nil_r.
  - intros content kind out e t. by destruct (switch_kind kind delete_plans).
Qed.

(** What can be applied from a file can be deleted by the same file: the
    two commands know the same kinds, under the same names. *)
Theorem file_kinds_agree `{GoLib} `{YamlLib} ro kind :
  is_Some (switch_kind kind (create_cases ro)) <-> is_Some (switch_kind kind (delete_cases ro)).
Proof.
  assert (Hk : concat (fst <$> create_cases ro) ≡ₚ concat (fst <$> delete_cases ro)).
  { cbn. repeat apply perm_skip. apply perm_swap. }
  rewrite <- !not_eq_None_Some, !switch_kind_none. by rewrite Hk.
Qed.

(* ------------------------------------------------------------------ *)
(** ** The firewall rule of a file and of the command line             *)
(* ------------------------------------------------------------------ *)

(** The entries of the command line for a query. *)
Definition entries_of (query : list (string * string)) : list string :=
  (fun e => e.1 +:+ ":" +:+ e.2) <$> query.

Lemma fold_entries_app {A} (f : A -> string -> result string A) a b l k c :
  fold_entries f a l = Ok b -> fold_entries f b k = c -> fold_entries f a (l ++ k) = c.
Proof.
  revert a. induction l as [|x l IH]; intros a; simpl; [by intros [= ->]|].
  destruct (f a x); [apply IH | done].
Qed.

Lemma entries_app a b : entries_of (a ++ b) = entries_of a ++ entries_of b.
Proof. apply fmap_app. Qed.

(** How the entry of a key is read back. *)
Lemma entry_split key value :
  free_of ":"%char key -> split ":"%char (key +:+ ":" +:+ value) = key :: split ":"%char value.
Proof. apply split_words. Qed.

Definition is_number (w n : Z) : Prop := (0 <= n < 2 ^ w)%Z.

Lemma number_word n : (0 <= n)%Z -> split ":"%char (itoa n) = [itoa n].
Proof. intros Hn. apply split_word, (digits_free _ _ n); [done|]. by apply unsigned_digits_itoa. Qed.

(** One number of a rule. *)
Lemma number_entry all key w n (set : Z -> FwRuleArg -> FwRuleArg) r :
  free_of ":"%char key -> (w <= 16)%Z -> is_number w n ->
  (forall value rest, split ":"%char (key +:+ ":" +:+ value) = key :: value :: rest ->
     firewall_arg all r (key +:+ ":" +:+ value) = (n ← atoi_of value; Ok (set (wrap w n) r))) ->
  (n = 0%Z -> set 0%Z r = r) ->
  fold_entries (firewall_arg all) r (entries_of (number_query key n)) = Ok (set n r).
Proof.
  intros Hkey Hw Hn Hf Hz. unfold number_query, is_number in *.
  destruct (Z.eqb_spec n 0) as [->|Hne]; [by rewrite Hz|]. simpl.
  assert (Hp : (2 ^ w <= 2 ^ 16)%Z) by (apply Z.pow_le_mono_r; lia).
  assert (Hs : split ":"%char (key +:+ ":" +:+ itoa n) = [key; itoa n])
    by (rewrite entry_split by done; by rewrite number_word by lia).
  rewrite (Hf _ [] Hs). unfold atoi_of. rewrite atoi_itoa by lia. simpl. unfold wrap.
  by rewrite Z.mod_small by lia.
Qed.

(** One text of a rule: an address may hold colons, the name of a port not. *)
Lemma text_entry all key v (set : string -> FwRuleArg -> FwRuleArg) r :
  free_of ":"%char key ->
  (v <> "" -> firewall_arg all r (key +:+ ":" +:+ v) = Ok (set v r)) ->
  set "" r = r \/ v <> "" ->
  fold_entries (firewall_arg all) r (entries_of (text_query key v)) = Ok (set v r).
Proof.
  intros Hkey Hf Hz. unfold text_query. destruct v as [|a v]; simpl.
  - destruct Hz as [->|]; done.
  - simpl in Hf. by rewrite Hf.
Qed.

Lemma address_entry all key v (set : string -> FwRuleArg -> FwRuleArg) r :
  free_of ":"%char key ->
  (forall value rest, split ":"%char (key +:+ ":" +:+ v) = key :: value :: rest ->
     firewall_arg all r (key +:+ ":" +:+ v) = Ok (set (join ":" (value :: rest)) r)) ->
  firewall_arg all r (key +:+ ":" +:+ v) = Ok (set v r).
Proof.
  intros Hkey Hf. assert (Hs := entry_split key v Hkey).
  destruct (split ":"%char v) as [|value rest] eqn:Hv; [by destruct (split_nonempty ":"%char v)|].
  rewrite (Hf value rest) by done. rewrite <- Hv. by rewrite (join_split ":"%char v).
Qed.

(** The numbers of a rule are within their fields. *)
Definition rule_in_range (r : FwRuleArg) : Prop :=
  is_number 16 (u16 (fwr_SrcPortMin r)) /\ is_number 16 (u16 (fwr_SrcPortMax r))
  /\ is_number 16 (u16 (fwr_DstPortMin r)) /\ is_number 16 (u16 (fwr_DstPortMax r))
  /\ is_number 8 (u8 (fwr_Proto r)) /\ is_number 16 (u16 (fwr_Pref r))
  /\ free_of ":"%char (fwr_InPort r).

Ltac key_free := repeat (constructor; [discriminate|]); constructor.

Ltac of_key :=
  intros value rest Hs; unfold firewall_arg; rewrite Hs, ?whole_join; reflexivity.
Ltac number_of_key w n set :=
  eapply fold_entries_app;
    [apply (number_entry _ _ w n (fun n => set n)); [key_free | lia | done | of_key | by intros ->]|].
Ltac address_of_key set :=
  eapply fold_entries_app;
    [apply (text_entry _ _ _ set);
      [key_free | intros _; apply (address_entry _ _ _ set); [key_free | of_key] | by left]|].

Lemma rule_of_query all r :
  rule_in_range r ->
  fold_entries (firewall_arg all) go_zero (entries_of (MakefirewallDeleteRuleToQeury r)) = Ok r.
Proof.
  intros (H1 & H2 & H3 & H4 & H5 & H6 & H7). unfold MakefirewallDeleteRuleToQeury.
  destruct r as [src dst [smin] [smax] [dmin] [dmax] [proto] port [pref]]. simpl in *.
  rewrite !entries_app.
  address_of_key set_fwr_DstIP.
  number_of_key 16%Z dmin (fun n => set_fwr_DstPortMin (U16 n)).
  number_of_key 16%Z dmax (fun n => set_fwr_DstPortMax (U16 n)).
  eapply fold_entries_app.
  { apply (text_entry _ _ _ set_fwr_InPort); [key_free | | by left]. intros _.
    unfold firewall_arg. rewrite entry_split by key_free. by rewrite (split_word _ _ H7). }
  number_of_key 16%Z pref (fun n => set_fwr_Pref (U16 n)).
  number_of_key 8%Z proto (fun n => set_fwr_Proto (U8 n)).
  address_of_key set_fwr_SrcIP.
  number_of_key 16%Z smax (fun n => set_fwr_SrcPortMax (U16 n)).
  apply (number_entry _ _ 16 smin (fun n => set_fwr_SrcPortMin (U16 n)));
    [key_free | lia | done | of_key | by intros ->].
Qed.

(** The query of the deletion, by the flags. *)
Lemma insert_all_map (l : list (string * string)) :
  NoDup (l.*1) -> fold_left (fun q e => <[e.1 := e.2]> q) l ∅ = (list_to_map l : gmap string string).
Proof.
  intros Hn. assert (Hr : fold_left (fun q e => <[e.1 := e.2]> q) l ∅
                          = (list_to_map (rev l) : gmap string string)).
  { clear Hn. induction l as [|[k v] l IH] using rev_ind; [done|].
    rewrite fold_left_app, rev_app_distr. simpl. by rewrite IH. }
  rewrite Hr. symmetry. apply list_to_map_proper; [done|]. apply Permutation_rev.
Qed.

Definition query_keys : list string :=
  ["destinationIP"; "minDestinationPort"; "maxDestinationPort"; "portName"; "preference"; "protocol";
   "sourceIP"; "maxSourcePort"; "minSourcePort"].

Lemma text_query_keys k v : (text_query k v).*1 `sublist_of` [k].
Proof. unfold text_query. by destruct (is_empty v); repeat constructor. Qed.
Lemma number_query_keys k n : (number_query k n).*1 `sublist_of` [k].
Proof. unfold number_query. by destruct (n =? 0)%Z; repeat constructor. Qed.

Lemma rule_query_keys r : (MakefirewallDeleteRuleToQeury r).*1 `sublist_of` query_keys.
Proof.
  unfold MakefirewallDeleteRuleToQeury, query_keys. rewrite !fmap_app.
  repeat lazymatch goal with
  | |- (_ ++ _) `sublist_of` (?k :: ?l) => apply (sublist_app _ [k] _ l)
  end; first [apply text_query_keys | apply number_query_keys].
Qed.

Lemma firewall_entry_word key value :
  free_of ":"%char key -> free_of ":"%char value ->
  firewall_entry (key +:+ ":" +:+ value) = Ok (key, value).
Proof.
  intros Hk Hv. unfold firewall_entry. rewrite entry_split by done. rewrite split_word by done.
  by rewrite andb_false_r.
Qed.

Lemma firewall_entry_address key value :
  free_of ":"%char key -> str_in key ["sourceIP"; "destinationIP"] = true ->
  firewall_entry (key +:+ ":" +:+ value) = Ok (key, value).
Proof.
  intros Hk Hin. unfold firewall_entry. rewrite entry_split by done. rewrite Hin. cbn [andb].
  destruct (split ":"%char value) as [|w rest] eqn:Hv; [by destruct (split_nonempty ":"%char value)|].
  assert (Hw := join_split ":"%char value). rewrite Hv in Hw. by destruct rest; simpl in *; rewrite Hw.
Qed.

Lemma rule_query_read r :
  rule_in_range r ->
  map_each firewall_entry (entries_of (MakefirewallDeleteRuleToQeury r))
  = Ok (MakefirewallDeleteRuleToQeury r).
Proof.
  intros (H1 & H2 & H3 & H4 & H5 & H6 & H7). apply map_each_ok, Forall2_fmap_l, Forall_Forall2_diag.
  unfold MakefirewallDeleteRuleToQeury.
  assert (Ht : forall k v, firewall_entry (k +:+ ":" +:+ v) = Ok (k, v) ->
    Forall (fun e => firewall_entry (e.1 +:+ ":" +:+ e.2) = Ok e) (text_query k v)).
  { intros k v Hf. unfold text_query. destruct (is_empty v); by repeat constructor. }
  assert (Hn : forall k n, free_of ":"%char k -> (0 <= n)%Z ->
    Forall (fun e => firewall_entry (e.1 +:+ ":" +:+ e.2) = Ok e) (number_query k n)).
  { intros k n Hk Hn. unfold number_query. destruct (n =? 0)%Z; repeat constructor.
    apply firewall_entry_word; [done|]. apply (digits_free _ _ n); [done|]. by apply unsigned_digits_itoa. }
  unfold is_number in *.
  repeat (apply Forall_app; split);
    first [ apply Hn; [key_free | lia] | apply Ht, firewall_entry_address; [key_free | done]
          | apply Ht, firewall_entry_word; [key_free | done] ].
Qed.

(** C29: a firewall rule has one name in files and on the command line.  The
    query under which [delete -f] deletes a rule, written as the entries of
    [--firewallRule], is read by [create firewall] as the same rule and by
    [delete firewall] as the same query. *)
Theorem firewall_rule_roundtrip r :
  rule_in_range r ->
  let entries := entries_of (MakefirewallDeleteRuleToQeury r) in
  GetFirewallRulePairList entries = Ok r
  /\ MakefirewallDeleteQuery entries = Ok (list_to_map (MakefirewallDeleteRuleToQeury r)).
Proof.
  intros Hr. split; [by apply rule_of_query|]. unfold MakefirewallDeleteQuery.
  rewrite rule_query_read by done. cbn [mbind result_bind]. f_equal. apply insert_all_map.
  eapply sublist_NoDup; [|apply rule_query_keys]. apply (bool_decide_unpack _). by vm_compute.
Qed.

Definition rule_example : FwRuleArg :=
  {| fwr_SrcIP := "2001:db8::/32"; fwr_DstIP := "10.0.0.1/32"; fwr_SrcPortMin := U16 0;
     fwr_SrcPortMax := U16 0; fwr_DstPortMin := U16 80; fwr_DstPortMax := U16 443; fwr_Proto := U8 6;
     fwr_InPort := "hs1"; fwr_Pref := U16 65535 |}.

Lemma firewall_rule_roundtrip_witness :
  GetFirewallRulePairList (entries_of (MakefirewallDeleteRuleToQeury rule_example)) = Ok rule_example.
Proof.
  apply (firewall_rule_roundtrip rule_example).
  unfold rule_in_range, is_number. simpl. repeat split; try lia. key_free.
Defined.
