(* ===== verification/ApplyText.v ===== *)
(** * [apply]: dumps, interface directories and configuration files

    [cmd/dump/apply.go].  Interface dumps are read line by line and become
    commands of the shell; the dumps of the gateway's objects are posted again;
    a configuration file is applied by its kind.  A computation that ends in a
    panic has the value [false]. *)
From S2P Require Import Prelude GoStrings GoNet Json JsonPrint Fields World Errors Exitcode Rest.
From S2P Require Import LbModel LbCreate Commands NetModel CreateCmds DeleteCmds FileConfig.

(* ------------------------------------------------------------------ *)
(** ** Lines                                                           *)
(* ------------------------------------------------------------------ *)

(** A token of [bufio.Scanner] is shorter than its largest buffer. *)
Definition max_token : Z := 65536.
Definition too_long : string := "bufio.Scanner: token too long".

Definition drop_cr (s : string) : string :=
  match rev (bytes s) with
  | "013"%char :: l => of_bytes (rev l)
  | _ => s
  end.

(** The lines of a list of pieces between newlines, the last one unterminated. *)
Fixpoint lines_of (pieces : list string) (err : option string) : list string * option string :=
  match pieces with
  | [] => ([], err)
  | [w] =>
      if is_empty w then ([], err)
      else if (max_token <=? slen w)%Z then ([], Some too_long) else ([drop_cr w], err)
  | w :: pieces' =>
      if (max_token <=? slen w)%Z then ([], Some too_long)
      else let '(lines, err) := lines_of pieces' err in (drop_cr w :: lines, err)
  end.

Definition newline_char : ascii := "010"%char.

(** Every token, and the error at the end. *)
Definition scan_lines (data : string) (err : option string) : list string * option string :=
  lines_of (split newline_char data) err.

(** The first token, and the error that is known by then. *)
Definition scan_first (data : string) (err : option string) : list string * option string :=
  match split newline_char data with
  | w :: _ :: _ => if (max_token <=? slen w)%Z then ([], Some too_long) else ([drop_cr w], None)
  | pieces => lines_of pieces err
  end.

(** [f] is nil when the file cannot be opened, and cannot be read. *)
Definition open_lines (scan : string -> option string -> list string * option string)
    (file : string) : IO (list string * option string) :=
  r ← perform (OpScan file);
  match (r : result string (string * option string)) with
  | Err e => _ ← say (e +:+ nl); mret ([], Some "invalid argument")
  | Ok (data, err) => mret (scan data err)
  end.

(** Run what may end in a panic, one after the other. *)
Definition and_then (m k : IO bool) : IO bool := go ← m; if go : bool then k else mret false.

Fixpoint in_order (steps : list (IO bool)) : IO bool :=
  match steps with [] => mret true | m :: steps' => and_then m (in_order steps') end.

Definition each_line (run : string -> IO bool) (l : list string * option string) : IO bool :=
  and_then (in_order (List.map run l.1))
    (match l.2 with Some e => _ ← say (e +:+ nl); mret true | None => mret true end).

(* ------------------------------------------------------------------ *)
(** ** The shell                                                       *)
(* ------------------------------------------------------------------ *)

(** The text of the error of [cmd.Output]; a process ended by a signal has a
    text of its own. *)
Definition run_error_text `{GoLib} (e : run_error) : string :=
  match e with
  | RunOk => ""
  | RunExit code =>
      if (code <? 0)%Z then json_text "signal" (itoa code) else "exit status " +:+ itoa code
  | RunNotStarted e => os_text e
  | RunCanceled text => text
  | RunWaitDelay => "exec: WaitDelay expired before I/O complete"
  end.

Definition bash (command : string) : list string := ["bash"; "-c"; command].

Definition bashCommand `{GoLib} (command : string) : IO bool :=
  _ ← say (command +:+ nl);
  r ← spawn (bash command) None;
  _ ← match er_err r with
      | RunOk => say (er_stdout r +:+ nl)
      | e => say (run_error_text e +:+ nl)
      end;
  mret true.

Definition commands `{GoLib} (l : list string) : IO bool := in_order (List.map bashCommand l).

Definition ApplyIpConfig `{GoLib} (file : string) : IO bool :=
  lines ← open_lines scan_lines file; each_line bashCommand lines.

(* ------------------------------------------------------------------ *)
(** ** The directory of an interface                                   *)
(* ------------------------------------------------------------------ *)

Section Interfaces.
Context `{GoLib}.
Variable path : string.

Definition intf_file (intf name : string) : string := sprintf [path; "/"; intf; "/"; name].

(** [os.Stat] with [os.ErrNotExist]. *)
Definition when_exists (file : string) (k : IO bool) : IO bool :=
  r ← perform (OpStat file);
  match (r : result os_error unit) with
  | Err e => if os_not_exist e then mret true else k
  | Ok _ => k
  end.

(** Each line of a file of the interface becomes a command. *)
Definition add_lines (intf name : string) (scan : string -> option string -> list string * option string)
    (run : string -> IO bool) : IO bool :=
  when_exists (intf_file intf name)
    (lines ← open_lines scan (intf_file intf name); each_line run lines).

(** The first line of a file, with the error of the scanner. *)
Definition first_line (file : string) : IO (string * option string) :=
  lines ← open_lines scan_first file;
  mret (List.hd "" (lines : list string * option string).1, lines.2).

Definition getType (intf : string) : IO (string * option string) := first_line (intf_file intf "type").
Definition getBondMode (intf : string) : IO (string * option string) := first_line (intf_file intf "mode").

Definition addMTU (intf : string) : IO bool :=
  add_lines intf "mtu" scan_first (fun line => bashCommand (sprintf ["ip link set dev "; intf; " mtu "; line])).
Definition addIpAddr (intf : string) : IO bool :=
  add_lines intf "ipv4addr" scan_lines (fun line => bashCommand (sprintf ["ip addr add "; line; " dev "; intf])).
Definition addL2FDBs (intf : string) : IO bool :=
  add_lines intf "l2fdbs" scan_lines (fun line =>
    bashCommand (sprintf ["bridge fdb add "; line; " dev "; intf; " permanent"])).
Definition addVxFDBs (intf : string) : IO bool :=
  add_lines intf "vxfdbs" scan_lines (fun line =>
    bashCommand (sprintf ["bridge fdb append "; line; " dev "; intf; " permanent"])).
Definition addNeigh (intf : string) : IO bool :=
  add_lines intf "ipv4neigh" scan_lines (fun line =>
    bashCommand (sprintf ["ip neigh add "; line; " dev "; intf; " permanent"])).
Definition addRoute (intf : string) : IO bool :=
  add_lines intf "ipv4route" scan_lines (fun line =>
    bashCommand (sprintf ["ip route replace "; line; " proto static"])).

(** [token[0]], [token[1]], [token[2]]: a panic when a line has fewer. *)
Definition with_tokens (line : string) (k : string -> string -> string -> IO bool) : IO bool :=
  match split "|"%char line with
  | a :: b :: c :: _ => k a b c
  | _ => mret false
  end.

Definition addSubIntf (intf : string) : IO bool :=
  add_lines intf "subintf" scan_lines (fun line => with_tokens line (fun sub real vid =>
    commands [sprintf ["ip link add "; sub; " link "; real; " type vlan id "; vid];
              sprintf ["ip link set "; sub; " up"]])).

Definition addBridge (intf : string) : IO bool :=
  commands [sprintf ["ip link add "; intf; " type bridge "]; sprintf ["ip link set "; intf; " up"]].

Definition addBond (intf : string) : IO bool :=
  and_then (bashCommand (sprintf ["ip link add "; intf; " type bond "]))
    (mode ← getBondMode intf;
     and_then (match (mode : string * option string).2 with
               | None => bashCommand (sprintf ["ip link set "; intf; " type bond mode "; mode.1])
               | Some _ => mret true
               end)
       (bashCommand (sprintf ["ip link set "; intf; " up"]))).

Definition addVxlan (intf : string) : IO bool :=
  add_lines intf "info" scan_lines (fun line => with_tokens line (fun id local dev =>
    commands [sprintf ["ip link add "; intf; " type vxlan id "; id; " local "; local; " dev "; dev; " dst 4789"];
              sprintf ["ip link set "; intf; " up"]])).

Definition setMaster (intf master : string) : IO bool :=
  commands [sprintf ["ip link set "; intf; " down"]; sprintf ["ip link set "; intf; " master "; master];
            sprintf ["ip link set "; intf; " up"]].

Definition setDev (intf : string) : IO bool := bashCommand (sprintf ["ip link set "; intf; " up"]).

Definition addMaster (intf : string) : IO bool :=
  add_lines intf "master" scan_first (fun line =>
    match split "|"%char line with
    | name :: kind :: _ =>
        if streq kind "bridge" then in_order [addBridge name; setMaster intf name]
        else if streq kind "vxlan" then addVxlan name
        else if streq kind "bond" then in_order [addBond name; setMaster intf name]
        else mret true
    | _ => mret false
    end).

Definition ApplyIpConfigPerInterface (intf : string) : IO bool :=
  r ← getType intf;
  let '(itype, err) := (r : string * option string) in
  match err with
  | Some e => _ ← say (sprintf ["Unable to get type of intf("; e; ")"]); mret true
  | None =>
      if str_in itype ["phy"; "bond"] then
        in_order [setDev intf; addMTU intf; addIpAddr intf; addL2FDBs intf; addNeigh intf; addRoute intf;
                  addSubIntf intf; addMaster intf]
      else if streq itype "subintf" then
        in_order [setDev intf; addIpAddr intf; addNeigh intf; addRoute intf; addSubIntf intf; addMaster intf]
      else if streq itype "bridge" then
        in_order [setDev intf; addIpAddr intf; addNeigh intf; addRoute intf; addMaster intf]
      else if streq itype "vxlan" then
        in_order [setDev intf; addIpAddr intf; addVxFDBs intf; addNeigh intf; addRoute intf; addMaster intf]
      else mret true
  end.

End Interfaces.

(* ------------------------------------------------------------------ *)
(** ** The dumps of the gateway's objects                              *)
(* ------------------------------------------------------------------ *)

Section Dumps.
Context `{GoLib} `{YamlLib}.
Variable restOptions : RESTOptions.

(** One after the other, until the transport fails; no status is looked at. *)
Fixpoint post_each {A} (shown : A -> option string) (send : A -> IO http_result) (l : list A) : IO unit :=
  match l with
  | [] => mret tt
  | a :: l' =>
      _ ← match shown a with Some text => say text | None => mret tt end;
      r ← send a;
      match (r : http_result) with
      | Err e => say (sprintf ["Error: "; e; nl])
      | Ok _ => post_each shown send l'
      end
  end.

Definition apply_dump {T A} `{GoValue T} (items : T -> option (list A)) (shown : A -> option string)
    (send : A -> IO http_result) (file : string) : IO unit :=
  r ← read_file file;
  match (r : result os_error string) with
  | Err e => say (os_text e +:+ nl)
  | Ok byteBuf =>
      match unmarshal T byteBuf with
      | None => say (sprintf ["Error: Failed to unmarshal File: ("; json_text "Unmarshal" byteBuf; ")"; nl])
      | Some v => post_each shown send (default [] (items v))
      end
  end.

(** Of a rule only these fields are applied. *)
Definition applied_service (s : LoadBalancerService) : LoadBalancerService :=
  {| sv_ExternalIP := sv_ExternalIP s; sv_Port := sv_Port s; sv_PortMax := U16 0;
     sv_Protocol := sv_Protocol s; sv_Sel := sv_Sel s; sv_Mode := sv_Mode s; sv_BGP := sv_BGP s;
     sv_Monitor := false; sv_Timeout := U32 0; sv_Block := U32 0; sv_Managed := false;
     sv_Name := ""; sv_Snat := false; sv_Oper := I32 0; sv_Security := I32 0; sv_Host := "";
     sv_PpV2 := false; sv_Egress := false; sv_ConnectionLimit := U32 0;
     sv_FcMaxQueueDepth := None; sv_FcMaxQueueWaitMs := None; sv_FcMode := "";
     sv_FcMaxOutstanding := None; sv_FcEpMaxInflight := None; sv_FcPrefillMaxInflight := None;
     sv_FcDecodeMaxInflight := None; sv_FcTelemetryStaleMs := None; sv_FcAdaptive := "";
     sv_FcWarmupMs := None; sv_FcTtftTargetMs := None; sv_FcTenantMaxSharePct := None;
     sv_FcExposeHeaders := ""; sv_FcWakePolicy := ""; sv_FcBandWeights := None;
     sv_FcBandMinSharePct := None; sv_FcCriticalReservePct := None; sv_FcBandWaitMs := None;
     sv_FcBandQueuePct := None; sv_FcShedQueue := ""; sv_FcTenantWake := "";
     sv_FcLlmdHeaders := ""; sv_AiDefaultReservation := ""; sv_AiDefaultMaxTokens := None;
     sv_AiObjectiveStrict := None; sv_FcEffective := None; sv_ProbeType := "";
     sv_ProbePort := U16 0; sv_ProbeReq := ""; sv_ProbeResp := ""; sv_ProbeTimeout := U32 0;
     sv_ProbeRetries := 0; sv_ModelName := ""; sv_PathPrefix := ""; sv_PathMatchMode := "";
     sv_SessionHdrName := ""; sv_TraceType := ""; sv_BackendProtocol := ""; sv_SockMapMode := "";
     sv_SseMode := false; sv_JWTAuthProfile := ""; sv_APIKeyAuth := "";
     sv_MaxStreamDurationSec := I32 0; sv_BackendKeepaliveSec := I32 0; sv_CbEnable := false;
     sv_EppEndpoint := ""; sv_EppFailureMode := ""; sv_EppTimeoutMs := 0;
     sv_EppPlaintext := false; sv_ChwblPrefixHashLevel := 0; sv_ChwblPrefixHashFlags := 0;
     sv_ChwblMeanLoadFactor := 0; sv_ChwblReplication := 0; sv_ChwblEnableCacheSalt := false;
     sv_PdDisaggMode := false; sv_PdCacheAwareMode := false; sv_PdSessionTtlSec := I32 0;
     sv_PdCacheThreshold := I32 0; sv_PdBalanceAbsThreshold := I32 0; sv_PdBootstrapPort := I32 0;
     sv_PdPrefillTimeoutSec := I32 0; sv_KvExactMode := 0; sv_KvBlockSize := 0;
     sv_KvHashAlgo := ""; sv_KvZmqPort := 0; sv_KvWarmupSec := 0; sv_KvEngineType := "";
     sv_KvDpRankCount := I32 0; sv_TimeoutMemberConnect := U32 0; sv_TimeoutMemberData := U32 0;
     sv_TimeoutTcpInspect := U32 0; sv_AlpnProtocols := []; sv_TLSCiphers := "";
     sv_TLSVersions := []; sv_HstsMaxAge := U32 0; sv_HstsIncludeSubdomains := false;
     sv_HstsPreload := false; sv_MtlsFrontend := None; sv_MtlsBackend := None;
     sv_BackendCaCertId := ""; sv_BackendClientCertId := ""; sv_BackendTLSServerName := "";
     sv_BackendTLSEffective := None |}.
Definition applied_endpoint (e : LoadBalancerEndpoint) : LoadBalancerEndpoint :=
  {| ep_EndpointIP := ep_EndpointIP e; ep_TargetPort := ep_TargetPort e; ep_Weight := ep_Weight e;
     ep_State := ""; ep_Counter := ""; ep_EpRole := I32 0; ep_NixlPort := I32 0 |}.
Definition applied_rule (m : LoadBalancerModel) : LoadBalancerModel :=
  {| lm_Service := applied_service (lm_Service m); lm_SecondaryIPs := None; lm_SrcIPs := None;
     lm_Endpoints := match default [] (lm_Endpoints m) with
                     | [] => None
                     | l => Some (List.map applied_endpoint l)
                     end |}.

Definition ApplyLbConfig : string -> IO unit :=
  apply_dump lg_LbRules (fun _ => None) (fun lb => LoadbalancerAPICall restOptions (applied_rule lb)).

Definition ApplySessionConfig : string -> IO unit :=
  apply_dump ssg_SessionInfo (fun _ => None)
    (fun sess => APICall restOptions Client.Session (session_mod_json sess)).

(** [%v] of the structs. *)
Definition ulcl_text (u : SessionUlClMod) : string :=
  sprintf ["{"; ucm_Ident u; " {"; net_ip_text (uca_Addr (ucm_Args u)); " "; itoa (u8 (uca_Qfi (ucm_Args u))); "}}"].
Definition fw_rule_text (r : FwRuleArg) : string :=
  sprintf ["{"; join " " [fwr_SrcIP r; fwr_DstIP r; itoa (u16 (fwr_SrcPortMin r)); itoa (u16 (fwr_SrcPortMax r));
                          itoa (u16 (fwr_DstPortMin r)); itoa (u16 (fwr_DstPortMax r)); itoa (u8 (fwr_Proto r));
                          fwr_InPort r; itoa (u16 (fwr_Pref r))]; "}"].
Definition fw_opts_text (o : FwOptArg) : string :=
  sprintf ["{"; join " " [bool_str (fwo_Drop o); bool_str (fwo_Trap o); bool_str (fwo_Rdr o); fwo_RdrPort o;
                          bool_str (fwo_Allow o); itoa (u32 (fwo_Mark o)); bool_str (fwo_Record o);
                          bool_str (fwo_DoSnat o); fwo_ToIP o; itoa (u16 (fwo_ToPort o));
                          bool_str (fwo_OnDefault o); fwo_Counter o]; "}"].
Definition fw_text (m : FwRuleMod) : string :=
  sprintf ["{"; fw_rule_text (fwm_Rule m); " "; fw_opts_text (fwm_Opts m); "}"].
Definition bfd_text (b : BFDSessionInfo) : string :=
  sprintf ["{"; join " " [bfd_Instance b; bfd_RemoteIP b; bfd_SourceIP b; itoa (u16 (bfd_Port b));
                          itoa (u64 (bfd_Interval b)); itoa (u8 (bfd_RetryCount b)); bfd_State b]; "}"].

Definition ApplySessionUlClConfig : string -> IO unit :=
  apply_dump ucg_UlclInfo (fun ulcl => Some (sprintf ["ulcl: "; ulcl_text ulcl; nl]))
    (fun ulcl => APICall restOptions Client.SessionUlCL (session_ul_cl_mod_json ulcl)).

Definition ApplyFWConfig : string -> IO unit :=
  apply_dump fwg_FWInfo (fun fw => Some (sprintf ["fw: "; fw_text fw; nl]))
    (fun fw => APICall restOptions Client.Firewall (fw_rule_mod_json fw)).

(** [set.SetBFDAPICall] posts, like the one of [create]. *)
Definition SetBFDAPICall (bfdModel : BFDSessionInfo) : IO http_result :=
  APICall restOptions Client.BFDSession (bfd_session_info_json bfdModel).

Definition ApplyBFDConfig : string -> IO unit :=
  apply_dump bfg_BFDSessionAttr (fun b => Some (sprintf ["bfd: "; bfd_text b; nl])) SetBFDAPICall.

(* ------------------------------------------------------------------ *)
(** ** The command                                                     *)
(* ------------------------------------------------------------------ *)

Record ApplyOptions : Type := {
  ao_IpConfigFile : string;
  ao_LBConfigFile : string;
  ao_SessionConfigFile : string;
  ao_SessionUlClConfigFile : string;
  ao_FWConfigFile : string;
  ao_NormalConfigFile : string;
  ao_BFDConfigFile : string;
  ao_Intf : string;
  ao_ConfigPath : string;
  ao_Route : bool
}.

(** Go on after a step that was asked for; a panic ends the command. *)
Definition when_given (file : string) (m : IO bool) (text : string) (k : IO outcome) : IO outcome :=
  if is_empty file then k
  else go ← m; if go : bool then _ ← say text; k else mret Panics.

Definition dump_step (file : string) (apply : string -> IO unit) (k : IO outcome) : IO outcome :=
  when_given file (_ ← apply file; mret true) (sprintf ["Configuration applied - "; file; nl]) k.

Definition ApplyCmd (o : ApplyOptions) : IO outcome :=
  if forallb is_empty [ao_IpConfigFile o; ao_LBConfigFile o; ao_SessionConfigFile o;
                       ao_SessionUlClConfigFile o; ao_FWConfigFile o; ao_Intf o; ao_NormalConfigFile o;
                       ao_BFDConfigFile o]
  then fail_with (Usagef "apply needs at least one configuration option")
  else
    when_given (ao_IpConfigFile o) (ApplyIpConfig (ao_IpConfigFile o))
      (sprintf ["Configuration applied - "; ao_IpConfigFile o; nl])
    (if ao_Route o && negb (is_empty (ao_Intf o)) then
       when_given (ao_Intf o) (addRoute (ao_ConfigPath o) (ao_Intf o))
         (sprintf ["Route Configuration applied for - "; ao_Intf o; nl]) succeed
     else
       when_given (ao_Intf o) (ApplyIpConfigPerInterface (ao_ConfigPath o) (ao_Intf o))
         (sprintf ["Configuration applied for - "; ao_Intf o; nl])
       (dump_step (ao_LBConfigFile o) ApplyLbConfig
       (dump_step (ao_SessionConfigFile o) ApplySessionConfig
       (dump_step (ao_SessionUlClConfigFile o) ApplySessionUlClConfig
       (dump_step (ao_FWConfigFile o) ApplyFWConfig
       (dump_step (ao_BFDConfigFile o) ApplyBFDConfig
       (if is_empty (ao_NormalConfigFile o) then succeed
        else err ← ApplyFileConfig restOptions (ao_NormalConfigFile o);
             config_outcome (ao_NormalConfigFile o) err))))))).

End Dumps.
