(* ===== verification/Netlink.v ===== *)
(** * The inventory of the host's network: [cmd/get/get_netlink.go]

    Links, addresses, neighbors and static routes are written twice: as a
    script of commands into one file, and as a directory for each interface
    that [apply] reads again.  Package [netlink] is the world's; the slices of
    hardware addresses may end in a panic. *)
From S2P Require Import Prelude GoStrings GoNet Json World Commands NetModel ApplyText.
From S2P Require Import Errors.

Definition IF_OPER_UP : Z := 6.
Definition NUD_PERMANENT : Z := 128.
Definition FAMILY_ALL : Z := 0.
Definition AF_INET : Z := 2.
Definition AF_BRIDGE : Z := 7.

(** [copy(mac[:], addr[:6])]. *)
Definition first_six (a : hardware_addr) : option (list Z) :=
  let l := ha_bytes a ++ ha_spare a in
  if (length l <? 6)%nat then None else Some (take 6 l).

(** [net.HardwareAddr.String]. *)
Definition mac_text (mac : list Z) : string := join ":" (hex_byte <$> mac).

Definition is_bridge (l : link) : bool := match ln_Kind l with LinkBridge => true | _ => false end.
Definition is_bond (l : link) : bool := match ln_Kind l with LinkBond _ _ => true | _ => false end.
Definition is_vxlan (l : link) : bool := match ln_Kind l with LinkVxlan _ _ _ => true | _ => false end.

(** A step that may end in a panic ([None]). *)
Notation may_panic A := (IO (option A)).
Definition no_panic {A} (m : IO A) : may_panic A := a ← m; mret (Some a).
Definition then_ {A B} (m : may_panic A) (k : A -> may_panic B) : may_panic B :=
  r ← m; match (r : option A) with Some a => k a | None => mret None end.
Fixpoint for_all {A} (f : A -> may_panic unit) (l : list A) : may_panic unit :=
  match l with [] => mret (Some tt) | a :: l' => then_ (f a) (fun _ => for_all f l') end.

Section Dump.
Context `{GoLib}.

(** The file of the script and the directory, with a slash at its end. *)
Variables f path : string.

Definition dump (file data : string) : IO unit :=
  err ← perform (OpWrite file data);
  match (err : option string) with Some e => say (e +:+ nl) | None => mret tt end.

Definition script (line : list string) : IO unit := dump f (sprintf line).

(** [fileOpen] looks for the directory of the dump, not for the file. *)
Definition fileOpen (file : string) (append : bool) : IO bool :=
  r ← perform (OpStat path);
  let missing := match (r : result os_error unit) with Err e => os_not_exist e | Ok _ => false end in
  if missing : bool then
    err ← perform (OpOpen file false 438);
    match (err : option string) with
    | Some _ => _ ← say ("Can't create dump file" +:+ nl); mret false
    | None => mret true
    end
  else
    err ← perform (OpOpen file append 432);
    match (err : option string) with
    | Some _ => _ ← say (sprintf ["Can't open "; file; " file"; nl]); mret false
    | None => mret true
    end.

(** The functions [dump*]: open, write, close. *)
Definition dump_to (file : string) (append : bool) (data : list string) : IO unit :=
  opened ← fileOpen file append;
  if opened : bool then
    _ ← dump file (sprintf data);
    _ ← perform (OpClose file);
    mret tt
  else mret tt.

Definition createDir (dir : string) : IO unit :=
  r ← perform (OpStat dir);
  match (r : result os_error unit) with
  | Err e =>
      if os_not_exist e then
        err ← perform (OpMkdir dir true);
        match (err : option string) with
        | Some _ => say ("Can't create intf config dir : " +:+ dir)
        | None => mret tt
        end
      else mret tt
  | Ok _ => mret tt
  end.

Definition dumpType (dir itype : string) : IO unit := dump_to (dir +:+ "/type") false [itype].
Definition dumpMtu (dir : string) (mtu : Z) : IO unit := dump_to (dir +:+ "/mtu") false [itoa mtu].
Definition dumpBondMode (dir : string) (mode : Z) : IO unit := dump_to (dir +:+ "/mode") false [itoa mode].
Definition dumpMaster (dir master mtype : string) : IO unit :=
  dump_to (dir +:+ "/master") false [master; "|"; mtype].
Definition dumpVxlan (name : string) (id : Z) (local uif : string) : IO unit :=
  dump_to (path +:+ name +:+ "/info") false [itoa id; "|"; local; "|"; uif].
Definition dumpReal (dir real vid : string) : IO unit :=
  dump_to (dir +:+ "/real") false [real; " type vlan id "; vid].
Definition dumpSubIntf (subintf real vid : string) : IO unit :=
  dump_to (path +:+ real +:+ "/subintf") true [subintf; "|"; real; "|"; vid; nl].
Definition dumpMember (name member : string) : IO unit :=
  dump_to (path +:+ name +:+ "/members") true [member; nl].
Definition dumpIpv4Addr (dir ip : string) : IO unit := dump_to (dir +:+ "/ipv4addr") true [ip; nl].
Definition dumpIpv4Neigh (dir ip : string) (mac : list Z) : IO unit :=
  dump_to (dir +:+ "/ipv4neigh") true [ip; " lladdr "; mac_text mac; nl].
Definition dumpVxlanFdb (dir : string) (mac : list Z) (dst : string) : IO unit :=
  dump_to (dir +:+ "/vxfdbs") true [mac_text mac; " dst "; dst; nl].
Definition dumpL2Fdb (dir : string) (mac : list Z) : IO unit :=
  dump_to (dir +:+ "/l2fdbs") true [mac_text mac; nl].
Definition dumpIpv4Route (dir ip nh : string) : IO unit :=
  dump_to (dir +:+ "/ipv4route") true [ip; " via "; nh; nl].

(** [nlp.LinkByIndex]; its error is said. *)
Definition link_by_index {A} (index : Z) (failed : A) (k : link -> may_panic A) : may_panic A :=
  r ← perform (OpLinkByIndex index);
  match (r : result string link) with
  | Err e => _ ← say (e +:+ nl); mret (Some failed)
  | Ok l => k l
  end.

Definition up_line (name : string) : IO unit := script ["ip link set "; name; " up"; nl].

Definition dump_mtu (intfpath name : string) (mtu : Z) : IO unit :=
  if (mtu =? 1500)%Z then mret tt
  else _ ← script ["ip link set "; name; " mtu "; itoa mtu; nl]; dumpMtu intfpath mtu.

(** The port on a VLAN tag, as its name says. *)
Definition add_subintf (name pname0 pname1 : string) (state : bool) : IO unit :=
  let intfpath := path +:+ name in
  _ ← script ["ip link add "; name; " link "; pname0; " type vlan id "; pname1; nl];
  _ ← (if state then up_line pname0 else mret tt);
  _ ← createDir intfpath;
  _ ← dumpType intfpath "subintf";
  _ ← dumpReal intfpath pname0 pname1;
  dumpSubIntf name pname0 pname1.

(** A tunnel over the interface [uif]. *)
Definition add_vxlan (name : string) (id : Z) (src : string) (uif : link) : IO unit :=
  let real := ln_Name uif in
  let intfpath := path +:+ name in
  let upath := path +:+ real in
  _ ← script ["ip link add "; name; " type vxlan id "; itoa id; " local "; src; " dev "; real;
              " dstport 4789"; nl];
  _ ← up_line name;
  _ ← createDir intfpath;
  _ ← dumpType intfpath "vxlan";
  _ ← dumpVxlan name id src real;
  _ ← createDir upath;
  _ ← dumpType upath (if is_bridge uif then "bridge" else "phy");
  dumpMaster upath name "vxlan".

Definition add_bond (name : string) (mode : Z) (text : string) (mtu : Z) : IO unit :=
  let intfpath := path +:+ name in
  _ ← script ["ip link add "; name; " type bond"; nl];
  _ ← script ["ip link set "; name; " type bond mode "; text; nl];
  _ ← createDir intfpath;
  _ ← dumpType intfpath "bond";
  _ ← dumpBondMode intfpath mode;
  dump_mtu intfpath name mtu.

Definition add_phy (name : string) (mtu : Z) : IO unit :=
  let intfpath := path +:+ name in
  _ ← createDir intfpath;
  _ ← dumpType intfpath "phy";
  dump_mtu intfpath name mtu.

(** What a link is enslaved to. *)
Definition add_to_master (name : string) (master : link) : IO unit :=
  let intfpath := path +:+ name in
  _ ← (match ln_Kind master with
       | LinkBridge =>
           _ ← dumpMaster intfpath (ln_Name master) "bridge";
           dumpMember (ln_Name master) name
       | LinkBond _ _ =>
           _ ← dumpMaster intfpath (ln_Name master) "bond";
           _ ← dumpMember (ln_Name master) name;
           script ["ip link set "; name; " down"; nl]
       | _ => mret tt
       end);
  _ ← script ["ip link set "; name; " master "; ln_Name master; nl];
  script ["ip link set "; name; " up"; nl].

(** The value is [AddLink]'s. *)
Definition AddLink (l : link) : may_panic Z :=
  let name := ln_Name l in
  let state := (ln_OperState l mod 256 =? IF_OPER_UP)%Z in
  match ha_bytes (ln_HardwareAddr l), first_six (ln_HardwareAddr l) with
  | _ :: _, None => mret None
  | _, _ =>
      if is_bridge l then
        _ ← script ["ip link add "; name; " type bridge"; nl];
        _ ← (if state then up_line name else mret tt);
        _ ← createDir (path +:+ name);
        _ ← dumpType (path +:+ name) "bridge";
        mret (Some 0%Z)
      else
        then_
          (match split "."%char name with
           | pname0 :: pname1 :: _ => _ ← add_subintf name pname0 pname1 state; mret (Some 0%Z)
           | _ =>
               match ln_Kind l with
               | LinkVxlan id vtep src =>
                   link_by_index vtep (-1)%Z (fun uif =>
                     _ ← add_vxlan name id (net_ip_text (NetIP src)) uif; mret (Some 0%Z))
               | LinkBond mode text => _ ← add_bond name mode text (ln_MTU l); mret (Some 0%Z)
               | _ => _ ← add_phy name (ln_MTU l); mret (Some 0%Z)
               end
           end)
          (fun ret =>
             if (ret =? -1)%Z then mret (Some (-1)%Z)
             else
               _ ← (if state then up_line name else mret tt);
               if (0 <? ln_MasterIndex l)%Z
               then link_by_index (ln_MasterIndex l) (-1)%Z (fun master =>
                      _ ← add_to_master name master; mret (Some 0%Z))
               else mret (Some 0%Z))
  end.

Definition AddAddr (ipStr : string) (l : link) : IO unit :=
  _ ← script ["ip addr add "; ipStr; " dev "; ln_Name l; nl];
  dumpIpv4Addr (path +:+ ln_Name l) ipStr.

(** A forwarding entry of a bridge or a tunnel. *)
Definition add_fdb (n : neigh) (l : link) (mac : list Z) : IO unit :=
  let name := ln_Name l in
  let intfpath := path +:+ name in
  if is_vxlan l then
    match ng_IP n with
    | [] => mret tt
    | ip =>
        let dst := net_ip_text (NetIP ip) in
        _ ← script ["bridge fdb append "; mac_text mac; " dst "; dst; " dev "; name; " permanent"; nl];
        dumpVxlanFdb intfpath mac dst
    end
  else
    _ ← script ["bridge fdb add "; mac_text mac; " dev "; name; " permanent"; nl];
    dumpL2Fdb intfpath mac.

Definition AddNeigh (n : neigh) (l : link) : may_panic unit :=
  let name := ln_Name l in
  if (Z.land (ng_State n) NUD_PERMANENT =? 0)%Z then mret (Some tt)
  else match ha_bytes (ng_HardwareAddr n), first_six (ng_HardwareAddr n) with
  | [], _ => mret (Some tt)
  | _, None => mret None
  | _, Some mac =>
      if (ng_Family n =? AF_INET)%Z then
        let ip := net_ip_text (NetIP (ng_IP n)) in
        _ ← script ["ip neigh add "; ip; " lladdr "; mac_text mac; " dev "; name; " permanent"; nl];
        no_panic (dumpIpv4Neigh (path +:+ name) ip mac)
      else if (ng_Family n =? AF_BRIDGE)%Z then
        if (ng_Vlan n =? 1)%Z then mret (Some tt)
        else if Z.odd (List.hd 0%Z mac) then mret (Some tt)
        else if (0 <? ng_MasterIndex n)%Z then
          link_by_index (ng_MasterIndex n) tt (fun brLink =>
            match first_six (ln_HardwareAddr brLink) with
            | None => mret None
            | Some brMac => if eqb_list Z.eqb mac brMac then mret (Some tt) else no_panic (add_fdb n l mac)
            end)
        else no_panic (add_fdb n l mac)
      else mret (Some tt)
  end.

Definition AddRoute (r : route) : may_panic unit :=
  let ipNet := match rt_Dst r with Some net => net | None => "0.0.0.0/0" end in
  link_by_index (rt_LinkIndex r) tt (fun l =>
    let gw := net_ip_text (NetIP (rt_Gw r)) in
    _ ← script ["ip route add "; ipNet; " via "; gw; " proto static"; nl];
    no_panic (dumpIpv4Route (path +:+ ln_Name l) ipNet gw)).

(** The lists of a link; an error is an empty list. *)
Definition listed {A} (r : result string (list A)) : list A := match r with Ok l => l | Err _ => [] end.

Definition GetIpAddrs (l : link) : may_panic unit :=
  addrs ← perform (OpAddrList (ln_Index l));
  for_all (fun addr => no_panic (AddAddr addr l)) (listed addrs).
Definition GetIpNeigh (l : link) : may_panic unit :=
  neighs ← perform (OpNeighList (ln_Index l) FAMILY_ALL);
  for_all (fun n => AddNeigh n l) (listed neighs).
Definition GetFdbs (l : link) : may_panic unit :=
  neighs ← perform (OpNeighList (ln_Index l) AF_BRIDGE);
  for_all (fun n => AddNeigh n l) (listed neighs).

Definition add_first (kind : link -> bool) : may_panic unit :=
  links ← perform OpLinkList;
  for_all (fun l => if kind l then then_ (AddLink l) (fun _ => GetIpAddrs l) else mret (Some tt))
    (listed links).
Definition GetBridges : may_panic unit := add_first is_bridge.
Definition GetBonds : may_panic unit := add_first is_bond.

(** The loop over all links: bridges and bonds were added before. *)
Definition inventory_link (l : link) : may_panic unit :=
  let rest := then_ (if is_bridge l then mret (Some tt) else GetFdbs l) (fun _ => GetIpNeigh l) in
  if is_bridge l || is_bond l then rest
  else then_ (AddLink l) (fun ret =>
         if (ret =? -1)%Z then mret (Some tt) else then_ (GetIpAddrs l) (fun _ => rest)).

(** The inventory itself: the error of the list of links, or none. *)
Definition inventory : may_panic (option string) :=
  then_ GetBridges (fun _ => then_ GetBonds (fun _ =>
    links ← perform OpLinkList;
    match (links : result string (list link)) with
    | Err e => _ ← say ("Can't get device info" +:+ nl); mret (Some (Some e))
    | Ok links =>
        then_ (for_all inventory_link links) (fun _ =>
          routes ← perform OpRouteList;
          then_ (for_all AddRoute (listed routes)) (fun _ => mret (Some None)))
    end)).

(** A command of the shell: its error. *)
Definition shell (command : string) : IO (option string) :=
  r ← spawn (bash command) None;
  mret (match er_err r with RunOk => None | e => Some (run_error_text e) end).

Definition exists_ (file : string) : IO bool :=
  r ← perform (OpStat file);
  mret (match (r : result os_error unit) with Ok _ => true | Err _ => false end).

(** The directory is moved into place: the one before is kept as a backup. *)
Definition install (dpath : string) : IO (option string) :=
  let cpath := dpath +:+ "ipconfig" in
  let bpath := dpath +:+ "ipconfig.bk" in
  backup ← exists_ bpath;
  _ ← (if backup : bool then
         err ← shell ("rm -rf " +:+ bpath);
         match (err : option string) with
         | Some e => _ ← say (sprintf [e; " rm -rf "; bpath; nl]);
                     say (sprintf ["Can't remove backup  "; bpath; nl])
         | None => mret tt
         end
       else mret tt);
  r ← perform (OpStat cpath);
  err ← (if match (r : result os_error unit) with Err e => os_not_exist e | Ok _ => false end then
           err ← perform (OpMkdir cpath false);
           _ ← match (err : option string) with
               | Some _ => say (sprintf ["Can't create config dir:  "; cpath; nl])
               | None => mret tt
               end;
           mret None
         else
           err ← shell (sprintf ["mv "; cpath; " "; bpath]);
           match (err : option string) with
           | Some e => _ ← say (sprintf ["Can't backup  "; cpath; nl]); mret (Some e)
           | None =>
               err ← perform (OpMkdir cpath false);
               match (err : option string) with
               | Some e => _ ← say (sprintf ["Can't create config dir:  "; cpath; nl]); mret (Some e)
               | None => mret None
               end
           end);
  match (err : option string) with
  | Some e => mret (Some e)
  | None =>
      let command := sprintf ["cp -R "; path; "/* "; cpath] in
      err ← shell command;
      match (err : option string) with
      | Some e => _ ← say (sprintf [e; " "; command; nl]);
                  _ ← say (sprintf ["Failed copy file to "; cpath; nl]);
                  mret (Some e)
      | None => mret None
      end
  end.

End Dump.

(** The name of the file of the script and the error, or a panic. *)
Definition Nlpdump `{GoLib} (dpath : string) : may_panic (string * option string) :=
  t ← perform OpNow;
  let file := sprintf ["/tmp/ipconfig_"; t; ".txt"] in
  err ← perform (OpOpen file false 438);
  match (err : option string) with
  | Some e => mret (Some ("", Some ("can't create dump file: " +:+ e)))
  | None =>
      let path := sprintf ["/tmp/ipconfig_"; t; "/"] in
      r ← perform (OpStat path);
      _ ← (if match (r : result os_error unit) with Err e => os_not_exist e | Ok _ => false end then
             err ← perform (OpMkdir path false);
             match (err : option string) with
             | Some _ => say ("Can't create config dir" +:+ nl)
             | None => mret tt
             end
           else mret tt);
      done_ ← then_ (inventory file path) (fun err =>
                match err with
                | Some e => mret (Some (file, Some e))
                | None => err ← install path dpath; mret (Some (file, err))
                end);
      _ ← perform (OpRemoveAll path);
      _ ← perform (OpRemove file);
      mret done_
  end.
