(* ===== verification/HostProps.v ===== *)
(** * The network of the host, saved and applied again *)
From S2P Require Import Prelude GoStrings GoNet Json World Errors Commands NetModel.
From S2P Require Import ApplyText Netlink.

(* ------------------------------------------------------------------ *)
(** ** What is run, and what is written                                *)
(* ------------------------------------------------------------------ *)

Definition event_spawn (e : event) : list (list string) :=
  match ev_op e with OpSpawn argv _ => [argv] | _ => [] end.
(** The processes started, in order. *)
Definition started (t : trace) : list (list string) := concat (event_spawn <$> t).

Definition event_write (e : event) : list (string * string) :=
  match ev_op e with OpWrite file data => [(file, data)] | _ => [] end.
Definition writes (t : trace) : list (string * string) := concat (event_write <$> t).

Lemma started_app t t' : started (t ++ t') = started t ++ started t'.
Proof. unfold started. by rewrite fmap_app, concat_app. Qed.
Lemma writes_app t t' : writes (t ++ t') = writes t ++ writes t'.
Proof. unfold writes. by rewrite fmap_app, concat_app. Qed.

(** A step that ends well after these processes. *)
Definition runs (m : IO bool) (l : list (list string)) : Prop :=
  forall w h, wp m w h (fun ok t => ok = true /\ started t = l).

Section Runs.
Context `{GoLib}.

Lemma say_wp s w h (Q : unit -> trace -> Prop) :
  (forall t, started t = [] -> writes t = [] -> Q tt t) -> wp (say s) w h Q.
Proof. intros HQ. unfold say, write_out. wp_op. intros a _. apply wp_ret. by apply HQ. Qed.

Lemma bash_runs c : runs (bashCommand c) [bash c].
Proof.
  intros w h. unfold bashCommand, spawn. apply wp_bind, say_wp. intros t Ht _. wp_op. intros r _.
  apply wp_bind. destruct (er_err r); apply say_wp; intros t' Ht' _; apply wp_ret;
    (split; [done|]); by rewrite started_app, Ht, app_nil_r; cbn; rewrite ?app_nil_r;
    (change (bash c :: started t' = [bash c]); by rewrite Ht').
Qed.

Lemma runs_then m k l l' : runs m l -> runs k l' -> runs (and_then m k) (l ++ l').
Proof.
  intros Hm Hk w h. apply wp_bind. eapply wp_mono; [apply Hm|]. intros ok t [-> Ht].
  eapply wp_mono; [apply Hk|]. intros ok' t' [-> Ht']. split; [done|]. by rewrite started_app, Ht, Ht'.
Qed.

Lemma runs_done : runs (mret true) [].
Proof. intros w h. by apply wp_ret. Qed.

Lemma runs_in_order ms ls : Forall2 runs ms ls -> runs (in_order ms) (concat ls).
Proof. induction 1 as [|m l ms ls Hm _ IH]; [apply runs_done | by apply runs_then]. Qed.

Lemma runs_commands cs : runs (commands cs) (bash <$> cs).
Proof.
  unfold commands. induction cs as [|c cs IH]; [apply runs_done|].
  apply (runs_then _ _ [bash c]); [apply bash_runs | apply IH].
Qed.
End Runs.

(* ------------------------------------------------------------------ *)
(** ** Lines                                                           *)
(* ------------------------------------------------------------------ *)

(** A line that a scanner gives back. *)
Definition line_ok (s : string) : Prop :=
  free_of newline_char s /\ free_of "013"%char s /\ (slen s < max_token)%Z.

Lemma drop_cr_free s : free_of "013"%char s -> drop_cr s = s.
Proof.
  unfold free_of, drop_cr. intros Hs. destruct (rev (bytes s)) as [|a l] eqn:Hr; [done|].
  assert (Ha : a <> "013"%char).
  { apply (proj1 (Forall_forall _ _) Hs). apply list_elem_of_In, in_rev. rewrite Hr. by left. }
  destruct a as [[] [] [] [] [] [] [] []]; done.
Qed.

Definition lines_text (l : list string) : string := concat_str ((fun s => s +:+ nl) <$> l).

Lemma scan_lines_text l : Forall line_ok l -> scan_lines (lines_text l) None = (l, None).
Proof.
  unfold scan_lines, lines_text. induction 1 as [|s l (Hn & Hc & Hl) _ IH]; [done|].
  rewrite fmap_cons, concat_str_cons, string_app_assoc.
  change (nl +:+ ?x) with (String newline_char x). rewrite split_words by done.
  destruct (split newline_char _) as [|w ws] eqn:Hs; [by eapply split_nonempty in Hs|].
  cbn [lines_of]. destruct (Z.leb_spec max_token (slen s)); [lia|].
  cbn [lines_of] in IH. rewrite IH. by rewrite drop_cr_free.
Qed.

(* ------------------------------------------------------------------ *)
(** ** What is kept of an interface, line by line                      *)
(* ------------------------------------------------------------------ *)

Inductive line_kind : Type := Addresses | Neighbors | Stations | Tunnels | Routes | SubInterfaces.

(** An entry as it is dumped. *)
Inductive kept : Type :=
  | KeptAddress (ip : string)
  | KeptNeighbor (ip : string) (mac : list Z)
  | KeptStation (mac : list Z)
  | KeptTunnel (mac : list Z) (dst : string)
  | KeptRoute (net gw : string)
  | KeptSubInterface (sub vid : string).

Definition kind_of (e : kept) : line_kind :=
  match e with
  | KeptAddress _ => Addresses
  | KeptNeighbor _ _ => Neighbors
  | KeptStation _ => Stations
  | KeptTunnel _ _ => Tunnels
  | KeptRoute _ _ => Routes
  | KeptSubInterface _ _ => SubInterfaces
  end.

Definition file_of (k : line_kind) : string :=
  match k with
  | Addresses => "ipv4addr"
  | Neighbors => "ipv4neigh"
  | Stations => "l2fdbs"
  | Tunnels => "vxfdbs"
  | Routes => "ipv4route"
  | SubInterfaces => "subintf"
  end.

(** The line of an entry of the interface [intf]. *)
Definition entry_line (intf : string) (e : kept) : string :=
  match e with
  | KeptAddress ip => ip
  | KeptNeighbor ip mac => sprintf [ip; " lladdr "; mac_text mac]
  | KeptStation mac => mac_text mac
  | KeptTunnel mac dst => sprintf [mac_text mac; " dst "; dst]
  | KeptRoute net gw => sprintf [net; " via "; gw]
  | KeptSubInterface sub vid => sprintf [sub; "|"; intf; "|"; vid]
  end.

(** How it is dumped, below the directory [dir], which ends in a slash. *)
Definition dump_entry `{GoLib} (dir intf : string) (e : kept) : IO unit :=
  match e with
  | KeptAddress ip => dumpIpv4Addr dir (dir +:+ intf) ip
  | KeptNeighbor ip mac => dumpIpv4Neigh dir (dir +:+ intf) ip mac
  | KeptStation mac => dumpL2Fdb dir (dir +:+ intf) mac
  | KeptTunnel mac dst => dumpVxlanFdb dir (dir +:+ intf) mac dst
  | KeptRoute net gw => dumpIpv4Route dir (dir +:+ intf) net gw
  | KeptSubInterface sub vid => dumpSubIntf dir sub intf vid
  end.

(** How the file of a kind is applied. *)
Definition apply_kind `{GoLib} (path intf : string) (k : line_kind) : IO bool :=
  match k with
  | Addresses => addIpAddr path intf
  | Neighbors => addNeigh path intf
  | Stations => addL2FDBs path intf
  | Tunnels => addVxFDBs path intf
  | Routes => addRoute path intf
  | SubInterfaces => addSubIntf path intf
  end.

(** The commands that make the entry again. *)
Definition entry_commands (intf : string) (e : kept) : list string :=
  match e with
  | KeptAddress ip => [sprintf ["ip addr add "; ip; " dev "; intf]]
  | KeptNeighbor ip mac =>
      [sprintf ["ip neigh add "; sprintf [ip; " lladdr "; mac_text mac]; " dev "; intf; " permanent"]]
  | KeptStation mac => [sprintf ["bridge fdb add "; mac_text mac; " dev "; intf; " permanent"]]
  | KeptTunnel mac dst =>
      [sprintf ["bridge fdb append "; sprintf [mac_text mac; " dst "; dst]; " dev "; intf; " permanent"]]
  | KeptRoute net gw => [sprintf ["ip route replace "; sprintf [net; " via "; gw]; " proto static"]]
  | KeptSubInterface sub vid =>
      [sprintf ["ip link add "; sub; " link "; intf; " type vlan id "; vid];
       sprintf ["ip link set "; sub; " up"]]
  end.

(** An entry that survives its line. *)
Definition entry_ok (intf : string) (e : kept) : Prop :=
  line_ok (entry_line intf e)
  /\ match e with
     | KeptSubInterface sub vid => free_of "|"%char sub /\ free_of "|"%char intf /\ free_of "|"%char vid
     | _ => True
     end.

(** A world in which a file holds a text. *)
Definition holds (w : World) (file text : string) : Prop :=
  (forall h, w h (OpStat file) = Ok tt) /\ (forall h, w h (OpScan file) = Ok (text, None)).

Section Lines.
Context `{GoLib}.

(** Commands that a step starts, in a world of these files. *)
Definition starts (w : World) (m : IO bool) (l : list (list string)) : Prop :=
  forall h, wp m w h (fun ok t => ok = true /\ started t = l).

Lemma runs_starts w m l : runs m l -> starts w m l.
Proof. intros Hm h. apply Hm. Qed.

Lemma each_line_runs run lines cs :
  Forall2 (fun line c => runs (run line) (bash <$> c)) lines cs ->
  runs (each_line run (lines, None)) (bash <$> concat cs).
Proof.
  intros Hl. unfold each_line. rewrite <- (app_nil_r (bash <$> concat cs)).
  apply runs_then; [|apply runs_done]. cbn [fst].
  replace (bash <$> concat cs) with (concat (List.map (List.map bash) cs)).
  - apply runs_in_order. induction Hl as [|line c lines cs Hlc _ IH]; [constructor|]. by constructor.
  - clear Hl. induction cs as [|c cs IH]; [done|]. simpl. by rewrite fmap_app, IH.
Qed.

Lemma add_lines_starts w path intf name scan run text lines cs :
  holds w (intf_file path intf name) text -> scan text None = (lines, None) ->
  Forall2 (fun line c => runs (run line) (bash <$> c)) lines cs ->
  starts w (add_lines path intf name scan run) (bash <$> concat cs).
Proof.
  intros [Hs Hd] Hscan Hl h. unfold add_lines, when_exists. wp_op. intros a <-. rewrite Hs.
  apply wp_bind. unfold open_lines. wp_op. intros r <-. rewrite Hd, Hscan. apply wp_ret.
  eapply wp_mono; [by apply each_line_runs|]. intros ok t [Hok Ht]. split; [done|].
  by rewrite started_app.
Qed.

Lemma apply_kind_starts w path intf k l :
  Forall (fun e => kind_of e = k /\ entry_ok intf e) l ->
  holds w (intf_file path intf (file_of k)) (lines_text (entry_line intf <$> l)) ->
  starts w (apply_kind path intf k) (bash <$> concat (entry_commands intf <$> l)).
Proof.
  intros Hl Hw.
  assert (Hscan : scan_lines (lines_text (entry_line intf <$> l)) None = (entry_line intf <$> l, None)).
  { apply scan_lines_text, Forall_fmap. eapply Forall_impl; [exact Hl|]. by intros e (_ & He & _). }
  destruct k; eapply add_lines_starts; try exact Hw; try exact Hscan;
    apply Forall2_fmap_2, Forall_Forall2_diag; eapply Forall_impl; try exact Hl;
    intros e (Hk & _ & He); destruct e; try discriminate Hk; try apply bash_runs.
  destruct He as (Hsub & Hintf & Hvid). unfold with_tokens, entry_line. 
  change (sprintf [sub; "|"; intf; "|"; vid]) with (sub +:+ String "|" (intf +:+ String "|" (vid +:+ ""))).
  rewrite string_app_nil_r, !split_words, split_word by done. apply runs_commands.
Qed.

End Lines.

(* ------------------------------------------------------------------ *)
(** ** What is written                                                 *)
(* ------------------------------------------------------------------ *)

(** The text of a file after a trace: opening it anew empties it, opening it at its
    end keeps it, and what is written comes after what is there. *)
Definition disk_step (file text : string) (e : event) : string :=
  match e with
  | Ev o a => match o return answer o -> string with
              | OpOpen name append _ => fun err =>
                  if bool_decide (name = file) && negb append
                  then match (err : option string) with None => "" | Some _ => text end else text
              | OpWrite name data => fun err =>
                  if bool_decide (name = file)
                  then match (err : option string) with None => text +:+ data | Some _ => text end else text
              | _ => fun _ => text
              end a
  end.
Definition left_in (file text : string) (t : trace) : string := fold_left (disk_step file) t text.

Lemma left_in_app file text t t' : left_in file text (t ++ t') = left_in file (left_in file text t) t'.
Proof. apply fold_left_app. Qed.

(** A host whose directory of the dump is there and whose file can be written. *)
Definition takes_dumps (w : World) (dir file : string) : Prop :=
  (forall h, w h (OpStat dir) = Ok tt) /\ (forall h append perm, w h (OpOpen file append perm) = None)
  /\ (forall h data, w h (OpWrite file data) = None).

(** A file that is opened at its end gets one more text. *)
Lemma dump_to_left `{GoLib} dir file data w h text :
  takes_dumps w dir file ->
  wp (dump_to dir file true data) w h (fun _ t => left_in file text t = text +:+ sprintf data).
Proof.
  intros (Hs & Ho & Hw). unfold dump_to, fileOpen. apply wp_bind. wp_op. intros a <-. rewrite Hs. cbv beta iota zeta.
  wp_op. intros e <-. rewrite Ho. apply wp_ret. cbv beta iota. apply wp_bind. unfold dump.
  wp_op. intros e <-. rewrite Hw. apply wp_ret. wp_op. intros c _. apply wp_ret.
  unfold left_in. cbn. rewrite ?bool_decide_true by done. cbn. done.
Qed.

(** The file of an entry. *)
Definition kept_file (dir intf : string) (k : line_kind) : string := sprintf [dir; intf; "/"; file_of k].

Lemma dump_entry_left `{GoLib} dir intf e w h text :
  takes_dumps w dir (kept_file dir intf (kind_of e)) ->
  wp (dump_entry dir intf e) w h (fun _ t =>
    left_in (kept_file dir intf (kind_of e)) text t = text +:+ entry_line intf e +:+ nl).
Proof.
  assert (Hfile : forall name, sprintf [dir; intf; "/"; name] = dir +:+ intf +:+ "/" +:+ name).
  { intros name. unfold sprintf, concat_str. cbn [fold_right]. by rewrite string_app_nil_r. }
  unfold kept_file. rewrite Hfile. intros Hw.
  destruct e; unfold dump_entry, dumpIpv4Addr, dumpIpv4Neigh, dumpL2Fdb, dumpVxlanFdb, dumpIpv4Route,
    dumpSubIntf, entry_line, file_of, kind_of in *; rewrite ?string_app_assoc;
    (eapply wp_mono; [by apply dump_to_left with (text := text)|]); intros a t Ht; refine (eq_trans Ht _); f_equal;
    unfold sprintf, concat_str; cbn [fold_right]; by rewrite ?string_app_assoc, ?string_app_nil_r, ?string_nil_app.
Qed.

(** The entries of an interface, one after the other. *)
Fixpoint dump_all `{GoLib} (dir intf : string) (l : list kept) : IO unit :=
  match l with [] => mret tt | e :: l' => _ ← dump_entry dir intf e; dump_all dir intf l' end.

Lemma dump_all_left `{GoLib} dir intf k l w h text :
  Forall (fun e => kind_of e = k) l -> takes_dumps w dir (kept_file dir intf k) ->
  wp (dump_all dir intf l) w h (fun _ t =>
    left_in (kept_file dir intf k) text t = text +:+ lines_text (entry_line intf <$> l)).
Proof.
  intros Hl Hw. revert h text. induction Hl as [|e l <- _ IH]; intros h text.
  - apply wp_ret. unfold lines_text. by rewrite string_app_nil_r.
  - apply wp_bind. eapply wp_mono; [by apply dump_entry_left with (text := text)|]. intros u t Ht.
    cbv beta in *. eapply wp_mono; [apply IH|]. intros u' t' Ht'. cbv beta in *. rewrite left_in_app, Ht, Ht'.
    unfold lines_text. rewrite fmap_cons, fmap_cons, concat_str_cons. by rewrite !string_app_assoc.
Qed.

(** C30: what is saved of an interface is applied again.  Entries of a kind -
    addresses, neighbors, forwarding entries of a bridge or of a tunnel, routes,
    sub-interfaces - are dumped one after the other, on a host that lets their file
    be written: what was in the file stays and each entry is one more line of it,
    in order.  When [apply] finds a file with what the dumps left of a file that was
    empty, it starts exactly the commands that make the entries again, in their
    order, and ends well.  An entry must be one line for a scanner, and the parts
    of a sub-interface without the bar that separates them. *)
Theorem interface_lines_roundtrip `{GoLib} dir path intf k l w h w' :
  Forall (fun e => kind_of e = k /\ entry_ok intf e) l ->
  takes_dumps w dir (kept_file dir intf k) ->
  let dumped := (dump_all dir intf l w h).2 in
  holds w' (intf_file path intf (file_of k)) (left_in (kept_file dir intf k) "" dumped) ->
  (forall text, left_in (kept_file dir intf k) text dumped = text +:+ lines_text (entry_line intf <$> l))
  /\ forall h', wp (apply_kind path intf k) w' h' (fun ok t =>
       ok = true /\ started t = bash <$> concat (entry_commands intf <$> l)).
Proof.
  intros Hl Hw dumped Hh.
  assert (Hleft : forall text, left_in (kept_file dir intf k) text dumped
                               = text +:+ lines_text (entry_line intf <$> l)).
  { intros text. apply (dump_all_left dir intf k l w h text); [|done].
    eapply Forall_impl; [exact Hl|]. by intros e [? _]. }
  split; [exact Hleft|]. rewrite Hleft, string_nil_app in Hh. by apply apply_kind_starts.
Qed.

(** A host whose files can be written, and one with one file. *)
Definition open_world (dir : string) : World := fun h o =>
  match o as o return answer o -> answer o with
  | OpStat name => fun silent => if streq name dir then Ok tt else silent
  | OpOpen _ _ _ | OpWrite _ _ => fun _ => None
  | _ => fun silent => silent
  end (silent_world h o).
Definition one_file_world (file text : string) : World := fun h o =>
  match o as o return answer o -> answer o with
  | OpStat name => fun silent => if streq name file then Ok tt else silent
  | OpScan name => fun silent => if streq name file then Ok (text, None) else silent
  | OpSpawn _ _ => fun _ => ExecReport "" "" RunOk false
  | _ => fun silent => silent
  end (silent_world h o).

Lemma open_takes_dumps dir file : takes_dumps (open_world dir) dir file.
Proof. split_and!; [|done|done]. intros h. simpl. by rewrite streq_refl. Qed.

Lemma one_file_holds file text : holds (one_file_world file text) file text.
Proof. split; intros h; simpl; by rewrite streq_refl. Qed.

Definition sub_interfaces : list kept :=
  [KeptSubInterface "eth0.10" "10"; KeptSubInterface "eth0.20" "20"].

(** Two sub-interfaces are dumped, and applied from another directory. *)
Lemma interface_lines_roundtrip_witness :
  let dumped := (dump_all (H := plain_text) "/tmp/x/" "eth0" sub_interfaces (open_world "/tmp/x/") []).2 in
  let saved := left_in "/tmp/x/eth0/subintf" "" dumped in
  saved = "eth0.10|eth0|10" +:+ nl +:+ "eth0.20|eth0|20" +:+ nl
  /\ started (trace_of (addSubIntf (H := plain_text) "/etc/loxilb/ipconfig" "eth0")
       (one_file_world "/etc/loxilb/ipconfig/eth0/subintf" saved))
     = [bash "ip link add eth0.10 link eth0 type vlan id 10"; bash "ip link set eth0.10 up";
        bash "ip link add eth0.20 link eth0 type vlan id 20"; bash "ip link set eth0.20 up"].
Proof.
  intros dumped saved.
  assert (Hl : Forall (fun e => kind_of e = SubInterfaces /\ entry_ok "eth0" e) sub_interfaces).
  { constructor; [|constructor; [|constructor]]; (split; [done|]); unfold entry_ok, line_ok, free_of; simpl;
      repeat split; try lia; repeat (constructor; [discriminate|]); constructor. }
  destruct (interface_lines_roundtrip (H := plain_text) "/tmp/x/" "/etc/loxilb/ipconfig" "eth0" SubInterfaces
    sub_interfaces (open_world "/tmp/x/") [] _ Hl (open_takes_dumps _ _) (one_file_holds _ _)) as [Hleft Happly].
  split; [exact (Hleft "") | exact (proj2 (Happly []))].
Defined.
