(* ===== verification/ApplyProps.v ===== *)
(** * What [apply] runs and sends *)
From S2P Require Import Prelude GoStrings GoNet Json JsonPrint Fields World Errors Exitcode Rest.
From S2P Require Import Requests LbModel LbCreate Commands Plans NetModel CreateCmds.
From S2P Require Import FileConfig FileProps ApplyText Netlink HostProps.

(* ------------------------------------------------------------------ *)
(** ** The commands of an interface                                    *)
(* ------------------------------------------------------------------ *)

(** A process is the shell with a command of [ip] or [bridge]; nothing is sent. *)
Definition network_command (o : op) : Prop :=
  match o with
  | OpSpawn argv stdin =>
      stdin = None
      /\ exists c, argv = bash c /\ (has_prefix c "ip " = true \/ has_prefix c "bridge " = true)
  | OpHttp _ => False
  | _ => True
  end.

Notation only_network m := (ops_satisfy network_command m).

Section Interfaces.
Context `{GoLib}.

Lemma say_network s : only_network (say s).
Proof. unfold say, write_out. repeat first [ops_step | by apply ops_perform]. Qed.

Lemma bash_network c :
  has_prefix c "ip " = true \/ has_prefix c "bridge " = true -> only_network (bashCommand c).
Proof.
  intros Hc. unfold bashCommand, spawn.
  repeat first [apply say_network | ops_step | apply ops_perform; simpl; eauto].
Qed.

Lemma in_order_network steps : Forall (fun m => only_network m) steps -> only_network (in_order steps).
Proof.
  induction 1 as [|m steps Hm _ IH]; [apply ops_ret|]. simpl. unfold and_then.
  apply ops_bind; [done|]. intros []; [done | apply ops_ret].
Qed.

Lemma commands_network cs :
  Forall (fun c => has_prefix c "ip " = true \/ has_prefix c "bridge " = true) cs ->
  only_network (commands cs).
Proof.
  intros Hc. apply in_order_network, List.Forall_map. eapply Forall_impl; [exact Hc|]. apply bash_network.
Qed.

Lemma open_lines_network scan file : only_network (open_lines scan file).
Proof. unfold open_lines. repeat first [apply say_network | ops_step | by apply ops_perform]. Qed.

Lemma add_lines_network path intf name scan run :
  (forall line, only_network (run line)) -> only_network (add_lines path intf name scan run).
Proof.
  intros Hr. unfold add_lines, when_exists.
  assert (Hl : only_network (lines ← open_lines scan (intf_file path intf name); each_line run lines)).
  { apply ops_bind; [apply open_lines_network|]. intros lines. unfold each_line, and_then.
    apply ops_bind.
    - apply in_order_network, List.Forall_map, Forall_true. done.
    - intros []; [|apply ops_ret]. destruct lines.2; repeat first [apply say_network | ops_step]. }
  apply ops_bind; [by apply ops_perform|]. intros [?|e]; [done|]. destruct (os_not_exist e); [apply ops_ret | done].
Qed.

Ltac network_lines :=
  repeat first
    [ apply add_lines_network; intros ?
    | apply bash_network; by left | apply bash_network; by right
    | apply commands_network; repeat constructor
    | apply say_network | ops_step ].

Lemma with_tokens_network line k :
  (forall a b c, only_network (k a b c)) -> only_network (with_tokens line k).
Proof. intros Hk. unfold with_tokens. destruct (split _ line) as [|a [|b [|c r]]]; try apply ops_ret. apply Hk. Qed.

Lemma sub_network path intf : only_network (addSubIntf path intf).
Proof. apply add_lines_network. intros line. apply with_tokens_network. intros a b c. network_lines. Qed.
Lemma vxlan_network path intf : only_network (addVxlan path intf).
Proof. apply add_lines_network. intros line. apply with_tokens_network. intros a b c. network_lines. Qed.

Lemma bond_network path intf : only_network (addBond path intf).
Proof.
  unfold addBond, and_then. apply ops_bind; [network_lines|]. intros []; [|apply ops_ret].
  apply ops_bind; [apply ops_bind; [apply open_lines_network | intros ?; apply ops_ret]|].
  intros mode. apply ops_bind; [network_lines|]. intros []; [network_lines | apply ops_ret].
Qed.

Lemma master_network path intf : only_network (addMaster path intf).
Proof.
  apply add_lines_network. intros line. destruct (split _ line) as [|name [|kind r]]; try apply ops_ret.
  destruct (streq kind "bridge"); [|destruct (streq kind "vxlan"); [apply vxlan_network|]].
  - apply in_order_network. repeat constructor; network_lines.
  - destruct (streq kind "bond"); [|apply ops_ret]. apply in_order_network.
    repeat constructor; [apply bond_network | network_lines].
Qed.

Lemma interface_network path intf : only_network (ApplyIpConfigPerInterface path intf).
Proof.
  unfold ApplyIpConfigPerInterface. apply ops_bind.
  { apply ops_bind; [apply open_lines_network | intros ?; apply ops_ret]. }
  intros [itype err]. destruct err; [network_lines|].
  repeat (apply ops_if; intros _); try apply ops_ret; apply in_order_network;
    repeat constructor; first [apply sub_network | apply master_network | network_lines].
Qed.

End Interfaces.

(** Applying the directory of an interface, whatever its files hold, starts
    nothing but the shell, each time with one command of [ip] or [bridge], and
    sends nothing to the gateway. *)
Theorem interface_commands_shell `{GoLib} path intf w :
  Forall (fun e => network_command (ev_op e)) (trace_of (ApplyIpConfigPerInterface path intf) w).
Proof. apply (interface_network path intf w []). Qed.

(* ------------------------------------------------------------------ *)
(** ** The dumps                                                       *)
(* ------------------------------------------------------------------ *)

(** The posts of a list: those before the last one are answered, with whatever
    status; the list is cut short only by a transport that failed or by a
    document that cannot be encoded. *)
Inductive posted {A} (ro : RESTOptions) (to : A -> (LoxiClient -> CommonAPI) * gojson)
    : list A -> list (http_request * http_result) -> Prop :=
  | posted_all : posted ro to [] []
  | posted_one a l c body resp sent :
      rc_Options c = ro -> marshal (to a).2 = Some body -> posted ro to l sent ->
      posted ro to (a :: l)
        ((build_request c "POST" (GetUrlString ((to a).1 c)) (Some body), Ok resp) :: sent)
  | posted_failed a l c body e :
      rc_Options c = ro -> marshal (to a).2 = Some body ->
      posted ro to (a :: l) [(build_request c "POST" (GetUrlString ((to a).1 c)) (Some body), Err e)]
  | posted_unencodable a l : marshal (to a).2 = None -> posted ro to (a :: l) [].

Lemma shown_wp shown w h (Q : unit -> trace -> Prop) :
  (forall t, https t = [] -> Q tt t) ->
  wp (match shown with Some text => say text | None => mret tt end) w h Q.
Proof.
  intros HQ. destruct shown as [text|]; [|by apply wp_ret, HQ].
  apply quiet_wp; [apply say_quiet|]. intros [] t Ht. by apply HQ.
Qed.

Lemma post_each_posted `{GoLib} {A} ro (to : A -> (LoxiClient -> CommonAPI) * gojson) shown l w h :
  (forall a c, ca_restClient ((to a).1 c) = c) ->
  wp (post_each shown (fun a => APICall ro (to a).1 (to a).2) l) w h (fun _ t => posted ro to l (https t)).
Proof.
  intros Hapi. revert h. induction l as [|a l IH]; intros h; [apply wp_ret; constructor|].
  cbn [post_each]. apply wp_bind, shown_wp. intros t Ht. apply wp_bind.
  eapply wp_mono; [apply create_unjudged, Hapi|]. intros r t1 Ht1. revert Ht1.
  destruct (marshal (to a).2) as [body|] eqn:Hm; cbv beta iota.
  - intros (c & Hc & Ht1). destruct r as [resp|e].
    + eapply wp_mono; [apply IH|]. intros ? t2 Ht2. rewrite !https_app, Ht, Ht1. by apply posted_one.
    + apply quiet_wp; [apply say_quiet|]. intros _ t2 Ht2. rewrite !https_app, Ht, Ht1, Ht2.
      by apply posted_failed.
  - intros [Ht1 [e ->]]. apply quiet_wp; [apply say_quiet|]. intros _ t2 Ht2.
    rewrite !https_app, Ht, Ht1, Ht2. by apply posted_unencodable.
Qed.

(** What a dump asks for, by the document it holds. *)
Definition asked_by_dump {T A} `{GoValue T} (items : T -> option (list A)) (content : string) : list A :=
  match unmarshal T content with Some v => default [] (items v) | None => [] end.

(** Nothing, when the dump cannot be read. *)
Definition dump_posted {T A} `{GoValue T} (ro : RESTOptions) (w : World) (h : trace) (file : string)
    (items : T -> option (list A)) (to : A -> (LoxiClient -> CommonAPI) * gojson) (t : trace) : Prop :=
  match w h (OpReadFile file) with
  | Err _ => https t = []
  | Ok content => posted ro to (asked_by_dump items content) (https t)
  end.

Lemma apply_dump_posted `{GoLib} {T A} `{GoValue T} ro (items : T -> option (list A)) to shown file w h :
  (forall a c, ca_restClient ((to a).1 c) = c) ->
  wp (apply_dump items shown (fun a => APICall ro (to a).1 (to a).2) file) w h
    (fun _ t => dump_posted ro w h file items to t).
Proof.
  intros Hapi. unfold apply_dump, dump_posted, read_file. wp_op. intros r <-.
  destruct (w h (OpReadFile file)) as [content|e].
  - unfold asked_by_dump. destruct (unmarshal T content) as [v|].
    + eapply wp_mono; [by apply post_each_posted|]. intros ? t. by rewrite https_app.
    + apply quiet_wp; [apply say_quiet|]. intros _ t Ht. rewrite https_app, Ht. constructor.
  - apply quiet_wp; [apply say_quiet|]. intros _ t Ht. by rewrite https_app, Ht.
Qed.

(** The dumps that [apply] posts again: for load balancers, sessions, ULCLs,
    firewall rules and BFD sessions, one POST for each entry of the document in
    its order, until the transport fails; an answer that refuses an entry is
    passed over.  Of a load balancer the address, port, protocol, selection,
    mode and BGP flag are posted, and of its endpoints address, port and
    weight. *)
Theorem dumps_posted_in_order `{GoLib} ro file w h :
  wp (ApplyLbConfig ro file) w h (fun _ t => dump_posted ro w h file lg_LbRules
       (fun m => (Client.LoadBalancer, load_balancer_model_json (applied_rule m))) t)
  /\ wp (ApplySessionConfig ro file) w h (fun _ t => dump_posted ro w h file ssg_SessionInfo
       (fun s => (Client.Session, session_mod_json s)) t)
  /\ wp (ApplySessionUlClConfig ro file) w h (fun _ t => dump_posted ro w h file ucg_UlclInfo
       (fun u => (Client.SessionUlCL, session_ul_cl_mod_json u)) t)
  /\ wp (ApplyFWConfig ro file) w h (fun _ t => dump_posted ro w h file fwg_FWInfo
       (fun m => (Client.Firewall, fw_rule_mod_json m)) t)
  /\ wp (ApplyBFDConfig ro file) w h (fun _ t => dump_posted ro w h file bfg_BFDSessionAttr
       (fun b => (Client.BFDSession, bfd_session_info_json b)) t).
Proof. split_and!; by apply apply_dump_posted. Qed.

(* ------------------------------------------------------------------ *)
(** ** The verdict                                                     *)
(* ------------------------------------------------------------------ *)

Definition something_given (o : ApplyOptions) : Prop :=
  forallb is_empty [ao_IpConfigFile o; ao_LBConfigFile o; ao_SessionConfigFile o;
                    ao_SessionUlClConfigFile o; ao_FWConfigFile o; ao_Intf o; ao_NormalConfigFile o;
                    ao_BFDConfigFile o] = false.

(** A script of the shell never ends in a panic. *)
Lemma ip_config_ends `{GoLib} file w h : wp (ApplyIpConfig file) w h (fun ok _ => ok = true).
Proof.
  unfold ApplyIpConfig. apply wp_bind. rewrite wp_value. intros [lines err] t _.
  unfold each_line, and_then. apply wp_bind.
  assert (Hr : runs (in_order (List.map bashCommand lines)) (concat ((fun c => [bash c]) <$> lines))).
  { apply runs_in_order. induction lines as [|c lines IH]; [constructor|]. constructor; [apply bash_runs | apply IH]. }
  eapply wp_mono; [apply Hr|]. intros ok t1 [-> _]. cbn [snd]. destruct err; [|by apply wp_ret].
  apply wp_bind. rewrite wp_value. intros a t2 _. by apply wp_ret.
Qed.

Definition unjudged (intf : string) (out : outcome) : Prop :=
  out = Returns None \/ out = Panics /\ intf <> "".

Lemma step_unjudged intf file m text k w h :
  (forall w h, wp k w h (fun out _ => unjudged intf out)) ->
  wp m w h (fun ok _ => ok = true) \/ file <> "" /\ file = intf ->
  wp (when_given file m text k) w h (fun out _ => unjudged intf out).
Proof.
  intros Hk Hm. unfold when_given. destruct (is_empty file) eqn:He; [apply Hk|]. apply wp_bind.
  rewrite wp_value. intros ok t Ho. destruct ok.
  - apply wp_bind. rewrite wp_value. intros a t' _. apply Hk.
  - destruct Hm as [Hm|[Hne <-]]; [unfold wp in Hm; by rewrite Ho in Hm|].
    apply wp_ret. by right.
Qed.

Lemma dump_unjudged intf file apply_ k w h :
  (forall w h, wp k w h (fun out _ => unjudged intf out)) ->
  wp (dump_step file apply_ k) w h (fun out _ => unjudged intf out).
Proof.
  intros Hk. apply step_unjudged; [done|]. left. apply wp_bind. rewrite wp_value. intros a t _. by apply wp_ret.
Qed.

(** Without a configuration file [apply] is never an error once something
    is asked for: whatever the files hold and whatever the shell and the gateway
    answer, it ends with status 0, or in a panic, which takes an interface. *)
Theorem apply_dumps_unjudged `{GoLib} `{YamlLib} ro o w :
  something_given o -> ao_NormalConfigFile o = "" ->
  value_of (ApplyCmd ro o) w = Returns None
  \/ value_of (ApplyCmd ro o) w = Panics /\ ao_Intf o <> "".
Proof.
  intros Hg Hn. change (wp (ApplyCmd ro o) w [] (fun out _ => unjudged (ao_Intf o) out)).
  unfold ApplyCmd, something_given in *. rewrite Hg, Hn. cbn [is_empty].
  assert (Hend : forall w h, wp succeed w h (fun out _ => unjudged (ao_Intf o) out))
    by (intros w' h; apply wp_ret; by left).
  apply step_unjudged; [|left; apply ip_config_ends]. intros w1 h1.
  assert (Hi : forall m text k w h, (forall w h, wp k w h (fun out _ => unjudged (ao_Intf o) out)) ->
    wp (when_given (ao_Intf o) m text k) w h (fun out _ => unjudged (ao_Intf o) out)).
  { intros m text k w' h' Hk. destruct (decide (ao_Intf o = "")) as [He|He].
    - unfold when_given. rewrite He at 1. apply Hk.
    - apply step_unjudged; [done|]. by right. }
  destruct (ao_Route o && _); apply Hi; [exact Hend|]. intros w2 h2.
  repeat (apply dump_unjudged; intros ? ?). apply Hend.
Qed.

Definition bfd_options : ApplyOptions :=
  {| ao_IpConfigFile := ""; ao_LBConfigFile := ""; ao_SessionConfigFile := "";
     ao_SessionUlClConfigFile := ""; ao_FWConfigFile := ""; ao_NormalConfigFile := "";
     ao_BFDConfigFile := "bfdconfig.txt"; ao_Intf := ""; ao_ConfigPath := ""; ao_Route := false |}.

Lemma apply_dumps_unjudged_witness :
  value_of (ApplyCmd (H := plain_text) (H0 := json_yaml) local_options bfd_options) silent_world
  = Returns None.
Proof.
  destruct (apply_dumps_unjudged (H := plain_text) (H0 := json_yaml) local_options bfd_options silent_world
              eq_refl eq_refl) as [Hr|[_ Hi]]; [exact Hr | exfalso; apply Hi; reflexivity].
Defined.
