(* ===== verification/SaveCmds.v ===== *)
(** * [save]: the dumps of the client, and the gateway's own snapshot

    [cmd/dump/save.go] with the dumps of [cmd/get]: load balancers, sessions,
    ULCLs, firewall rules, endpoints and BFD sessions. *)
From S2P Require Import Prelude GoStrings GoNet Json JsonPrint Fields World Errors Exitcode Rest.
From S2P Require Import Lifecycle LifecycleCmds LbModel Commands NetModel ApplyText Netlink.

Section Dumps.
Context `{GoLib}.
Variable restOptions : RESTOptions.

(* ------------------------------------------------------------------ *)
(** ** The steps of a dump                                             *)
(* ------------------------------------------------------------------ *)

(** A new file named after the time. *)
Definition dump_file (prefix : string) : IO (string * option string) :=
  t ← perform OpNow;
  let file := sprintf [prefix; t; ".txt"] in
  err ← perform (OpOpen file false 438);
  mret (file, err : option string).

(** The file is copied to its place; what was there is moved aside. *)
Definition put_in_place (file cfile : string) : IO (string * option string) :=
  r ← perform (OpStat cfile);
  err ← (if match (r : result os_error unit) with Err e => os_not_exist e | Ok _ => false end
         then _ ← say ("There is no saved config file" +:+ nl); mret None
         else
           err ← shell (sprintf ["mv "; cfile; " "; cfile; ".bk"]);
           match (err : option string) with
           | Some e => _ ← say (sprintf ["Can't backup  "; cfile; nl]); mret (Some e)
           | None => mret None
           end);
  match (err : option string) with
  | Some e => mret (file, Some e)
  | None =>
      let command := sprintf ["cp -R "; file; " "; cfile] in
      _ ← say (json_text "Cmd" command +:+ nl);
      err ← shell command;
      match (err : option string) with
      | Some e => _ ← say (sprintf ["Failed copy file to "; cfile; nl]); mret (file, Some e)
      | None => mret (file, None)
      end
  end.

(** The read of the whole body: an error is said, and what was read is used. *)
Definition body_read (resp : http_response) : IO string :=
  _ ← match hr_body_error resp with
      | Some e => say (sprintf ["Error: Failed to read HTTP response: ("; e; ")"; nl])
      | None => mret tt
      end;
  mret (hr_body resp).

(** A dump: a file, the answer of the gateway, whatever its status, the text made
    of it, and the place.  [finish] is what is deferred. *)
Definition dump_with (prefix : string) (finish : string -> op) (api : LoxiClient -> CommonAPI)
    (write : string -> http_response -> IO (string * option string)) : IO (string * option string) :=
  r ← dump_file prefix;
  let '(file, err) := (r : string * option string) in
  match err with
  | Some e => mret ("", Some ("can't create dump file: " +:+ e))
  | None =>
      client ← NewLoxiClient restOptions;
      r ← Get (api client);
      out ← match (r : http_result) with
            | Err e => _ ← say (sprintf ["Error: "; e; nl]); mret ("", Some e)
            | Ok resp => write file resp
            end;
      _ ← perform (finish file);
      mret out
  end.

(** The body as it is. *)
Definition write_body (cfile : string) (file : string) (resp : http_response)
    : IO (string * option string) :=
  body ← body_read resp;
  _ ← perform (OpWrite file body);
  put_in_place file cfile.

Definition unmarshal_failure (body : string) : IO (string * option string) :=
  let e := json_text "Unmarshal" body in
  _ ← say (sprintf ["Error: Failed to unmarshal HTTP response: ("; e; ")"; nl]);
  mret ("", Some e).

(* ------------------------------------------------------------------ *)
(** ** The dumps                                                       *)
(* ------------------------------------------------------------------ *)

Definition without_counter (e : LoadBalancerEndpoint) : LoadBalancerEndpoint :=
  {| ep_EndpointIP := ep_EndpointIP e; ep_TargetPort := ep_TargetPort e; ep_Weight := ep_Weight e;
     ep_State := ep_State e; ep_Counter := ""; ep_EpRole := ep_EpRole e; ep_NixlPort := ep_NixlPort e |}.

Definition kept_rule (m : LoadBalancerModel) : bool :=
  negb (sv_Managed (lm_Service m)) && negb (sv_Snat (lm_Service m))
  && negb (contains (sv_Name (lm_Service m)) "ipvs").

Definition dumped_rules (l : list LoadBalancerModel) : LbRuleModGet :=
  {| lg_LbRules :=
       match List.filter kept_rule l with
       | [] => None
       | l => Some (List.map (fun m =>
           {| lm_Service := lm_Service m; lm_SecondaryIPs := lm_SecondaryIPs m; lm_SrcIPs := lm_SrcIPs m;
              lm_Endpoints := List.map without_counter <$> lm_Endpoints m |}) l)
       end |}.

Definition Lbdump (path : string) : IO (string * option string) :=
  dump_with "/tmp/lbconfig_" OpRemove Client.LoadBalancerAll (fun file resp =>
    body ← body_read resp;
    match unmarshal LbRuleModGet body with
    | None => unmarshal_failure body
    | Some lbresp =>
        let doc := lb_rule_mod_get_json (dumped_rules (default [] (lg_LbRules lbresp))) in
        match marshal doc with
        | None =>
            let e := json_text "Marshal" (encode doc) in
            _ ← say (sprintf ["Error: Failed to marshal dump LB rules ("; e; ")"; nl]);
            mret ("", Some e)
        | Some dumpBytes =>
            err ← perform (OpWrite file dumpBytes);
            _ ← match (err : option string) with
                | Some _ => say ("File write error" +:+ nl)
                | None => mret tt
                end;
            put_in_place file (path +:+ "lbconfig.txt")
        end
    end).

Definition Sessiondump (path : string) : IO (string * option string) :=
  dump_with "sessionconfig_" OpClose (fun c => SetUrl (Client.Session c) "/config/session/all")
    (write_body (path +:+ "sessionconfig.txt")).

Definition SessionUlCldump (path : string) : IO (string * option string) :=
  dump_with "sessionulclconfig_" OpClose (fun c => SetUrl (Client.SessionUlCL c) "/config/sessionulcl/all")
    (write_body (path +:+ "sessionulclconfig.txt")).

Definition FWdump (path : string) : IO (string * option string) :=
  dump_with "/tmp/FWconfig_" OpRemove (fun c => SetUrl (Client.Firewall c) "/config/firewall/all")
    (write_body (path +:+ "FWconfig.txt")).

Definition end_point_of (e : EndPointGetEntry) : EndPointMod :=
  {| epm_HostName := epe_HostName e; epm_Name := epe_Name e; epm_InActTries := epe_InActTries e;
     epm_ProbeType := epe_ProbeType e; epm_ProbeReq := epe_ProbeReq e; epm_ProbeResp := epe_ProbeResp e;
     epm_ProbeDuration := epe_ProbeDuration e; epm_ProbePort := epe_ProbePort e |}.

Definition dumped_endpoints (l : list EndPointGetEntry) : EPConfig :=
  {| epc_EPInfo := match l with [] => None | _ => Some (List.map end_point_of l) end |}.

Definition EPdump (path : string) : IO (string * option string) :=
  dump_with "EPconfig_" OpClose (fun c => SetUrl (Client.Firewall c) "/config/endpoint/all") (fun file resp =>
    body ← body_read resp;
    match unmarshal EPInformationGet body with
    | None => unmarshal_failure body
    | Some epResp =>
        let doc := ep_config_json (dumped_endpoints (default [] (epg_EPInfo epResp))) in
        match marshal doc with
        | None =>
            let e := json_text "Marshal" (encode doc) in
            _ ← say (sprintf ["Error: Failed to marshal EP Cfg: ("; e; ")"; nl]); mret ("", Some e)
        | Some cfg =>
            _ ← perform (OpWrite file cfg);
            put_in_place file (path +:+ "EPconfig.txt")
        end
    end).

(** The only dump that looks at the status: without a 200 there is no file and no
    error. *)
Definition BFDdump (path : string) : IO (string * option string) :=
  dump_with "BFDconfig_" OpClose (fun c => SetUrl (Client.Status c) "config/bfd/all") (fun file resp =>
    if (hr_status resp =? 200)%Z then
      match hr_body_error resp with
      | Some e =>
          _ ← say (sprintf ["Error: Failed to read HTTP response: ("; e; ")"; nl]); mret ("", Some e)
      | None =>
          match unmarshal BFDSessionGet (hr_body resp) with
          | None => unmarshal_failure (hr_body resp)
          | Some bfds =>
              let doc := bfd_session_get_json bfds in
              match marshal doc with
              | None =>
                  let e := json_text "Marshal" (encode doc) in
                  _ ← say (sprintf ["Error: Failed to marshal BFD Cfg: ("; e; ")"; nl]); mret ("", Some e)
              | Some cfg =>
                  _ ← perform (OpWrite file cfg);
                  put_in_place file (path +:+ "BFDconfig.txt")
              end
          end
      end
    else mret ("", None)).

(* ------------------------------------------------------------------ *)
(** ** The command                                                     *)
(* ------------------------------------------------------------------ *)

Record SaveOptions : Type := {
  so_SaveIpConfig : bool;
  so_SaveLBConfig : bool;
  so_SaveSessionConfig : bool;
  so_SaveUlClConfig : bool;
  so_SaveFWConfig : bool;
  so_SaveEPConfig : bool;
  so_SaveBFDConfig : bool;
  so_SaveAllConfig : bool;
  so_SaveViaApi : bool;
  so_ConfigPath : string
}.

Definition legacyDomainFlags : list (string * (SaveOptions -> bool)) :=
  [ ("all", so_SaveAllConfig); ("lb", so_SaveLBConfig); ("session", so_SaveSessionConfig);
    ("ulcl", so_SaveUlClConfig); ("firewall", so_SaveFWConfig); ("endpoint", so_SaveEPConfig);
    ("bfd", so_SaveBFDConfig) ].

Definition api_conflict (name : string) : string :=
  sprintf ["--api cannot be combined with --"; name; ": --api asks the gateway to persist its own ";
           "configuration, while --"; name; " writes a local text dump. Run them separately, or use --api with --ip, ";
           "which dumps the interface configuration the snapshot document excludes"].

Definition config_path_conflict : string :=
  sprintf ["--config-path names a client-local directory for text dumps and does not change where the gateway ";
           "writes snapshot.json; with --api alone there is no local dump to place. The gateway's own --config-path ";
           "decides the snapshot location"].

Definition validateSaveOptions (o : SaveOptions) : result LifecycleError unit :=
  let invalid msg := Err (lifecycle_error ReasonInvalidArguments msg) in
  if negb (so_SaveViaApi o) then
    if negb (so_SaveIpConfig o) && negb (so_SaveAllConfig o) && negb (so_SaveLBConfig o)
       && negb (so_SaveSessionConfig o) && negb (so_SaveUlClConfig o) && negb (so_SaveFWConfig o)
       && negb (so_SaveEPConfig o) && negb (so_SaveBFDConfig o)
    then invalid "select what to save: --api for the gateway's own snapshot, or one of the local dump flags"
    else Ok tt
  else match List.find (fun flag => flag.2 o) legacyDomainFlags with
  | Some flag => invalid (api_conflict flag.1)
  | None =>
      if negb (is_empty (so_ConfigPath o)) && negb (so_SaveIpConfig o)
      then invalid config_path_conflict else Ok tt
  end.

Definition not_saved (label err : string) : goerror :=
  ELifecycle (lifecycle_error ReasonFileWrite (sprintf [label; " configuration was not saved: "; err])).

Definition ensureConfigDir (dpath : string) : IO (option goerror) :=
  r ← perform (OpStat dpath);
  if match (r : result os_error unit) with Err e => os_not_exist e | Ok _ => false end then
    err ← perform (OpMkdir dpath false);
    match (err : option string) with
    | Some e => mret (Some (ELifecycle (lifecycle_error ReasonFileWrite
                  (sprintf ["cannot create the config directory "; dpath; ": "; e]))))
    | None => mret None
    end
  else mret None.

(** Go on when there is no error. *)
Definition or_return (m : IO (option goerror)) (k : IO outcome) : IO outcome :=
  err ← m; match (err : option goerror) with Some e => mret (Returns (Some e)) | None => k end.

(** A dump that may end in a panic, and what is made of its verdict. *)
Definition saving (label : string) (dump : IO (option (string * option string)))
    (saved : string -> IO unit) (k : IO outcome) : IO outcome :=
  r ← dump;
  match (r : option (string * option string)) with
  | None => mret Panics
  | Some (_, Some e) => mret (Returns (Some (not_saved label e)))
  | Some (file, None) => _ ← saved file; k
  end.

Definition saveIPConfig (dpath : string) (k : IO outcome) : IO outcome :=
  or_return (ensureConfigDir dpath)
    (saving "IP" (Nlpdump dpath) (fun file => say (sprintf ["IP Configuration saved in "; file; nl])) k).

(** One row of the table of dumps. *)
Record dump_row : Type := {
  dr_selected : bool;
  dr_label : string;
  dr_dump : IO (option (string * option string))
}.

Definition dump_rows (o : SaveOptions) (dpath : string) : list dump_row :=
  let all := so_SaveAllConfig o in
  [ {| dr_selected := so_SaveIpConfig o || all; dr_label := "IP"; dr_dump := Nlpdump dpath |};
    {| dr_selected := so_SaveLBConfig o || all; dr_label := "LB"; dr_dump := no_panic (Lbdump dpath) |};
    {| dr_selected := so_SaveSessionConfig o || all; dr_label := "Session";
       dr_dump := no_panic (Sessiondump dpath) |};
    {| dr_selected := so_SaveUlClConfig o || all; dr_label := "UlCl";
       dr_dump := no_panic (SessionUlCldump dpath) |};
    {| dr_selected := so_SaveFWConfig o || all; dr_label := "Firewall"; dr_dump := no_panic (FWdump dpath) |};
    {| dr_selected := so_SaveEPConfig o || all; dr_label := "EndPoint"; dr_dump := no_panic (EPdump dpath) |};
    {| dr_selected := so_SaveBFDConfig o || all; dr_label := "BFD"; dr_dump := no_panic (BFDdump dpath) |} ].

Fixpoint save_rows (rows : list dump_row) : IO outcome :=
  match rows with
  | [] => succeed
  | d :: rows' =>
      if dr_selected d
      then saving (dr_label d) (dr_dump d)
             (fun file => say (sprintf [dr_label d; " Configuration saved in "; file; nl])) (save_rows rows')
      else save_rows rows'
  end.

Definition runSave (o : SaveOptions) : IO outcome :=
  match validateSaveOptions o with
  | Err e =>
      _ ← (if streq (ro_PrintOption restOptions) "json" then WriteFailure "save" (ELifecycle e) else mret tt);
      mret (Returns (Some (ELifecycle e)))
  | Ok _ =>
      let dpath := if negb (is_empty (so_ConfigPath o)) then so_ConfigPath o else "/etc/loxilb/" in
      if so_SaveViaApi o then
        let persist := err ← Persist restOptions (OptionsFrom restOptions false) "save.api";
                       mret (Returns (err : option goerror)) in
        if so_SaveIpConfig o then saveIPConfig dpath persist else persist
      else or_return (ensureConfigDir dpath) (save_rows (dump_rows o dpath))
  end.

End Dumps.
