(* ===== verification/SaveProps.v ===== *)
(** * What [save] accepts, and what it makes of the answers *)
From S2P Require Import Prelude GoStrings GoNet Json JsonPrint Fields World Errors Exitcode Rest.
From S2P Require Import Requests Lifecycle LifecycleCmds LbModel Commands Plans NetModel ApplyText Netlink.
From S2P Require Import HostProps SaveCmds.

(* ------------------------------------------------------------------ *)
(** ** The flags                                                       *)
(* ------------------------------------------------------------------ *)

(** A dump that the client writes, but for the interfaces. *)
Definition legacy_dump (o : SaveOptions) : Prop :=
  exists flag, flag ∈ legacyDomainFlags /\ flag.2 o = true.

(** The combinations that say what they do. *)
Definition save_consistent (o : SaveOptions) : Prop :=
  if so_SaveViaApi o
  then ~ legacy_dump o /\ (so_ConfigPath o = "" \/ so_SaveIpConfig o = true)
  else so_SaveIpConfig o = true \/ legacy_dump o.

Lemma find_none_iff o :
  List.find (fun flag : string * (SaveOptions -> bool) => flag.2 o) legacyDomainFlags = None <-> ~ legacy_dump o.
Proof.
  split.
  - intros Hf (flag & Hin & Ho). apply list_elem_of_In in Hin.
    by rewrite (List.find_none _ _ Hf flag Hin) in Ho.
  - intros Hn. destruct (List.find _ _) as [flag|] eqn:Hf; [|done]. apply List.find_some in Hf as [Hin Ho].
    destruct Hn. exists flag. by rewrite list_elem_of_In.
Qed.

Lemma legacy_dump_iff o :
  legacy_dump o <->
  so_SaveAllConfig o || so_SaveLBConfig o || so_SaveSessionConfig o || so_SaveUlClConfig o
  || so_SaveFWConfig o || so_SaveEPConfig o || so_SaveBFDConfig o = true.
Proof.
  unfold legacy_dump, legacyDomainFlags. rewrite !orb_true_iff. split.
  - intros (flag & Hin & Ho). rewrite !elem_of_cons, elem_of_nil in Hin.
    destruct Hin as [->|[->|[->|[->|[->|[->|[->|[]]]]]]]]; simpl in Ho; tauto.
  - intros [[[[[[Ho|Ho]|Ho]|Ho]|Ho]|Ho]|Ho]; eexists (_, _);
      (split; [|exact Ho]); rewrite !elem_of_cons; naive_solver.
Qed.

(** [Save] accepts exactly the combinations that say what they do: without
    [--api] at least one dump of the client; with it none but that of the
    interfaces, and a directory only for those.  Everything else is
    INVALID_ARGUMENT. *)
Theorem save_options_exact o :
  (validateSaveOptions o = Ok tt <-> save_consistent o)
  /\ (forall e, validateSaveOptions o = Err e -> le_Reason e = ReasonInvalidArguments
                /\ ce_Code (Classify (ELifecycle e)) = InvalidArgument).
Proof.
  unfold validateSaveOptions, save_consistent. destruct (so_SaveViaApi o); cbn [negb].
  - pose proof (find_none_iff o) as Hf. destruct (List.find _ _) as [flag|].
    + split; [split; [done | intros [Hn _]; by apply Hf in Hn] | by intros e [= <-]].
    + destruct (so_ConfigPath o) as [|a p]; cbn [is_empty negb andb].
      * split; [split; [intros _; split; [by apply Hf | by left] | done] | done].
      * destruct (so_SaveIpConfig o); cbn [negb].
        -- split; [split; [intros _; split; [by apply Hf | by right] | done] | done].
        -- split; [split; [done | intros (_ & [?|?]); done] | by intros e [= <-]].
  - rewrite legacy_dump_iff. split; [|intros e; by destruct (_ && _); [intros [= <-]|]].
    destruct (so_SaveIpConfig o), (so_SaveAllConfig o), (so_SaveLBConfig o), (so_SaveSessionConfig o),
      (so_SaveUlClConfig o), (so_SaveFWConfig o), (so_SaveEPConfig o), (so_SaveBFDConfig o); simpl;
      (split; [intros Hx; first [by left | by right | discriminate Hx]
              | intros Hx; first [done | destruct Hx; discriminate]]).
Qed.

(* ------------------------------------------------------------------ *)
(** ** The answers                                                     *)
(* ------------------------------------------------------------------ *)

(** A world in which files open, the shell succeeds, and the gateway answers
    every request with [resp]. *)
Definition answers_always (w : World) (resp : http_response) : Prop :=
  (forall h path append perm, w h (OpOpen path append perm) = None)
  /\ (forall h argv stdin, er_err (w h (OpSpawn argv stdin)) = RunOk)
  /\ (forall h req, w h (OpHttp req) = Ok resp).

Section Answers.
Context `{GoLib}.
Variable ro : RESTOptions.
Variables (w : World) (resp : http_response).
Hypothesis Hw : answers_always w resp.

Lemma shell_wp command h (Q : option string -> trace -> Prop) :
  (forall t, writes t = [] -> Q None t) -> wp (shell command) w h Q.
Proof.
  intros HQ. unfold shell, spawn. wp_op. intros r <-. apply wp_ret.
  destruct Hw as (_ & Hs & _). rewrite Hs. by apply HQ.
Qed.

Lemma saying_wp {A} s (k : unit -> IO A) h (Q : A -> trace -> Prop) :
  (forall t, writes t = [] -> wp (k tt) w (h ++ t) (fun a t' => Q a (t ++ t'))) ->
  wp (mbind k (say s)) w h Q.
Proof. intros Hk. apply wp_bind, say_wp. intros t _ Ht. by apply Hk. Qed.

Lemma put_in_place_wp file cfile h :
  wp (put_in_place file cfile) w h (fun out t => out = (file, None) /\ writes t = []).
Proof.
  unfold put_in_place. wp_op. intros a _. apply wp_bind.
  assert (Htail : forall h' t0, writes t0 = [] ->
    wp (_ ← say (json_text "Cmd" (sprintf ["cp -R "; file; " "; cfile]) +:+ nl);
        err ← shell (sprintf ["cp -R "; file; " "; cfile]);
        match (err : option string) with
        | Some e => _ ← say (sprintf ["Failed copy file to "; cfile; nl]); mret (file, Some e)
        | None => mret (file, None)
        end) w h' (fun out t => out = (file, None) /\ writes (t0 ++ t) = [])).
  { intros h' t0 Ht0. apply saying_wp. intros t1 Ht1. apply wp_bind, shell_wp. intros t2 Ht2.
    apply wp_ret. split; [done|]. by rewrite !writes_app, Ht0, Ht1, Ht2. }
  match goal with |- context [if ?b then _ else _] => destruct b end.
  - apply saying_wp. intros t1 Ht1. apply wp_ret. rewrite app_nil_r. cbv beta iota.
    eapply wp_mono; [apply (Htail _ (Ev (OpStat cfile) a :: t1)); exact Ht1|].
    intros out t [-> Ht]. done.
  - apply wp_bind, shell_wp. intros t1 Ht1. apply wp_ret. rewrite app_nil_r. cbv beta iota.
    eapply wp_mono; [apply (Htail _ (Ev (OpStat cfile) a :: t1)); exact Ht1|].
    intros out t [-> Ht]. done.
Qed.

Lemma client_writes o h : wp (NewLoxiClient o) w h (fun _ t => writes t = []).
Proof.
  assert (Hc : wp (c ← NewLoxiClient o; mret c) w h (fun _ t => writes t = [])).
  { apply wp_client. intros c t _ _ Ht. apply wp_ret. rewrite app_nil_r.
    induction Ht as [|[o' a] t Ho _ IH]; [done|].
    change (writes (Ev o' a :: t)) with (event_write (Ev o' a) ++ writes t). rewrite IH, app_nil_r.
    by destruct o'. }
  unfold wp in *. rewrite io_map_run in Hc. by destruct (NewLoxiClient o w h).
Qed.

Lemma dump_with_wp prefix finish api write h (Q : string -> string * option string -> list (string * string) -> Prop) :
  (forall file a, event_write (Ev (finish file) a) = []) ->
  (forall file h', wp (write file resp) w h' (fun out t => Q file out (writes t))) ->
  wp (dump_with ro prefix finish api write) w h (fun out t => exists file, Q file out (writes t)).
Proof.
  intros Hf Hk. unfold dump_with, dump_file. apply wp_bind. wp_op. intros time _. wp_op. intros e <-.
  destruct Hw as (Ho & _ & Hh). rewrite Ho. apply wp_ret. cbv beta iota.
  apply wp_bind. eapply wp_mono; [apply client_writes|]. intros client t Ht.
  unfold Get, GET, http_do. wp_op. intros r <-. rewrite Hh. apply wp_bind. eapply wp_mono; [apply Hk|]. intros out t1 Ht1. wp_op. intros a _. apply wp_ret.
  exists (sprintf [prefix; time; ".txt"]).
  rewrite !writes_app, Ht. cbn [writes fmap list_fmap concat event_write ev_op app].
  by rewrite Hf, !app_nil_r.
Qed.

Lemma write_body_wp cfile file h :
  wp (write_body cfile file resp) w h (fun out t => out = (file, None) /\ writes t = [(file, hr_body resp)]).
Proof.
  unfold write_body, body_read. apply wp_bind.
  assert (Hq : wp (match hr_body_error resp with
      | Some e => say (sprintf ["Error: Failed to read HTTP response: ("; e; ")"; nl])
      | None => mret tt end) w h (fun _ t => writes t = [])).
  { destruct (hr_body_error resp); [apply say_wp; by intros t _ Ht | by apply wp_ret]. }
  apply wp_bind. eapply wp_mono; [exact Hq|]. intros ? t Ht. apply wp_ret. rewrite app_nil_r.
  wp_op. intros b _. eapply wp_mono; [apply put_in_place_wp|]. intros out t1 [-> Ht1].
  split; [done|]. rewrite !writes_app, Ht, Ht1. done.
Qed.
End Answers.

(** The dumps of sessions, ULCLs and firewall rules store whatever the
    gateway answered, also an error, as the saved configuration and report
    success; the dump of BFD sessions reports success for an answer that is
    not 200, and writes nothing. *)
Theorem answers_saved_unjudged `{GoLib} ro path w h resp :
  answers_always w resp ->
  Forall (fun dump => wp dump w h (fun out t =>
      exists file, out = (file, None) /\ writes t = [(file, hr_body resp)]))
    [Sessiondump ro path; SessionUlCldump ro path; FWdump ro path]
  /\ (hr_status resp <> 200%Z ->
      wp (BFDdump ro path) w h (fun out t => out = ("", None) /\ writes t = [])).
Proof.
  intros Hw. split.
  - repeat constructor;
      apply (dump_with_wp ro w resp Hw _ _ _ _ _ (fun file out ws => out = (file, None) /\ ws = [(file, hr_body resp)]));
      try done; intros file h'; by apply write_body_wp.
  - intros Hs. unfold BFDdump. eapply wp_mono.
    + apply (dump_with_wp ro w resp Hw _ _ _ _ _ (fun _ out ws => out = ("", None) /\ ws = [])); [done|].
      intros file h'. destruct (Z.eqb_spec (hr_status resp) 200); [done|]. by apply wp_ret.
    + intros out t [_ Ht]. exact Ht.
Qed.

(** A gateway that refuses every request, on a host where commands succeed. *)
Definition refusal : http_response :=
  {| hr_status := 401; hr_headers := []; hr_body := "unauthorized"; hr_body_error := None |}.
Definition refusing_world : World := fun h o =>
  match o as o return answer o -> answer o with
  | OpOpen _ _ _ => fun _ => None
  | OpSpawn _ _ => fun _ => ExecReport "" "" RunOk false
  | OpHttp _ => fun _ => Ok refusal
  | _ => fun silent => silent
  end (silent_world h o).

Lemma answers_saved_unjudged_witness :
  exists file, value_of (Sessiondump (H := plain_text) local_options "/etc/loxilb/") refusing_world = (file, None)
    /\ writes (trace_of (Sessiondump (H := plain_text) local_options "/etc/loxilb/") refusing_world)
       = [(file, "unauthorized")].
Proof.
  destruct (answers_saved_unjudged (H := plain_text) local_options "/etc/loxilb/" refusing_world [] refusal)
    as [Hall _].
  - repeat split; reflexivity.
  - inversion Hall as [|dump l Hd _]; subst. exact Hd.
Defined.
