(* ===== verification/AiModel.v ===== *)
(** * The services of the gateway: the documents of [pkg/api]

    API keys, rate limits, objectives, network identities, JWT profiles, the KV
    inventory, certificates, metrics, sessions, PII detection, LlamaFirewall,
    tracing, DPU and OPA, as they are read and written. *)
From S2P Require Import Prelude GoStrings Json JsonPrint Floats Fields Rest.

(** A map is written in the order of its keys. *)
Definition omit_map (k : string) (o : option (gmap string string)) : list (string * gojson) :=
  match o with
  | None => []
  | Some mp =>
      match sort_keys (map_to_list mp) with
      | [] => []
      | l => [(k, GObj ((fun m : string * string => (m.1, GStr m.2)) <$> l))]
      end
  end.

(** [aiApiKey.go]. *)
Record AIApiKeyCreateRequest : Type := {
  akc_TenantID : string;
  akc_Name : string;
  akc_APIKey : string;
  akc_AllowedModels : list string;
  akc_RateLimitRps : Z;
  akc_BurstSize : Z;
  akc_TokensPerMin : Z;
  akc_ExpiresAt : string;
  akc_Enabled : option bool;
  akc_PriorityClass : string;
  akc_DefaultObjective : string;
  akc_AllowedObjectives : list string;
  akc_ClientOpID : string
}.
Definition ai_api_key_create_request_json (r : AIApiKeyCreateRequest) : gojson :=
  GObj ([("tenant_id", GStr (akc_TenantID r))]
        ++ omit_str "name" (akc_Name r)
        ++ omit_str "api_key" (akc_APIKey r)
        ++ omit_list "allowed_models" GStr (akc_AllowedModels r)
        ++ omit_int "rate_limit_rps" (akc_RateLimitRps r)
        ++ omit_int "burst_size" (akc_BurstSize r)
        ++ omit_int "tokens_per_min" (akc_TokensPerMin r)
        ++ omit_str "expires_at" (akc_ExpiresAt r)
        ++ omit_nil "enabled" GBool (akc_Enabled r)
        ++ omit_str "priority_class" (akc_PriorityClass r)
        ++ omit_str "default_objective" (akc_DefaultObjective r)
        ++ omit_list "allowed_objectives" GStr (akc_AllowedObjectives r)
        ++ omit_str "client_op_id" (akc_ClientOpID r)).

Record AIApiKeyCreateResponse : Type := {
  akr_RawKey : string;
  akr_KeyID : string;
  akr_Reused : bool
}.
#[global] Instance ai_api_key_create_response_value : GoValue AIApiKeyCreateResponse := {|
  go_zero := {| akr_RawKey := ""; akr_KeyID := ""; akr_Reused := false |};
  go_into strict old := decode_struct strict
    ["raw_key"; "key_id"; "reused"] old (fun ms =>
    x0 ← field strict ms "raw_key" (akr_RawKey old);
    x1 ← field strict ms "key_id" (akr_KeyID old);
    x2 ← field strict ms "reused" (akr_Reused old);
    Some {| akr_RawKey := x0; akr_KeyID := x1; akr_Reused := x2 |}) |}.
Definition ai_api_key_create_response_json (r : AIApiKeyCreateResponse) : gojson :=
  GObj (omit_str "raw_key" (akr_RawKey r)
        ++ [("key_id", GStr (akr_KeyID r));
         ("reused", GBool (akr_Reused r))]).

Record AIApiKeySummary : Type := {
  aks_KeyID : string;
  aks_TenantID : string;
  aks_Name : string;
  aks_AllowedModels : option (list string);
  aks_RateLimitRps : Z;
  aks_BurstSize : Z;
  aks_TokensPerMin : Z;
  aks_CreatedAt : string;
  aks_ExpiresAt : string;
  aks_Enabled : bool;
  aks_PriorityClass : string;
  aks_DefaultObjective : string;
  aks_AllowedObjectives : list string;
  aks_ClientOpID : string
}.
#[global] Instance ai_api_key_summary_value : GoValue AIApiKeySummary := {|
  go_zero := {| aks_KeyID := ""; aks_TenantID := ""; aks_Name := ""; aks_AllowedModels := None;
                aks_RateLimitRps := 0; aks_BurstSize := 0; aks_TokensPerMin := 0;
                aks_CreatedAt := ""; aks_ExpiresAt := ""; aks_Enabled := false;
                aks_PriorityClass := ""; aks_DefaultObjective := "";
                aks_AllowedObjectives := []; aks_ClientOpID := "" |};
  go_into strict old := decode_struct strict
    ["key_id"; "tenant_id"; "name"; "allowed_models"; "rate_limit_rps"; "burst_size";
     "tokens_per_min"; "created_at"; "expires_at"; "enabled"; "priority_class";
     "default_objective"; "allowed_objectives"; "client_op_id"] old (fun ms =>
    x0 ← field strict ms "key_id" (aks_KeyID old);
    x1 ← field strict ms "tenant_id" (aks_TenantID old);
    x2 ← field strict ms "name" (aks_Name old);
    x3 ← field strict ms "allowed_models" (aks_AllowedModels old);
    x4 ← field strict ms "rate_limit_rps" (aks_RateLimitRps old);
    x5 ← field strict ms "burst_size" (aks_BurstSize old);
    x6 ← field strict ms "tokens_per_min" (aks_TokensPerMin old);
    x7 ← field strict ms "created_at" (aks_CreatedAt old);
    x8 ← field strict ms "expires_at" (aks_ExpiresAt old);
    x9 ← field strict ms "enabled" (aks_Enabled old);
    x10 ← field strict ms "priority_class" (aks_PriorityClass old);
    x11 ← field strict ms "default_objective" (aks_DefaultObjective old);
    x12 ← field strict ms "allowed_objectives" (aks_AllowedObjectives old);
    x13 ← field strict ms "client_op_id" (aks_ClientOpID old);
    Some {| aks_KeyID := x0; aks_TenantID := x1; aks_Name := x2; aks_AllowedModels := x3;
            aks_RateLimitRps := x4; aks_BurstSize := x5; aks_TokensPerMin := x6;
            aks_CreatedAt := x7; aks_ExpiresAt := x8; aks_Enabled := x9;
            aks_PriorityClass := x10; aks_DefaultObjective := x11; aks_AllowedObjectives := x12;
            aks_ClientOpID := x13 |}) |}.
Definition ai_api_key_summary_json (r : AIApiKeySummary) : gojson :=
  GObj ([("key_id", GStr (aks_KeyID r));
         ("tenant_id", GStr (aks_TenantID r));
         ("name", GStr (aks_Name r));
         ("allowed_models", slice_json GStr (aks_AllowedModels r));
         ("rate_limit_rps", GInt (aks_RateLimitRps r));
         ("burst_size", GInt (aks_BurstSize r));
         ("tokens_per_min", GInt (aks_TokensPerMin r));
         ("created_at", GStr (aks_CreatedAt r));
         ("expires_at", GStr (aks_ExpiresAt r));
         ("enabled", GBool (aks_Enabled r))]
        ++ omit_str "priority_class" (aks_PriorityClass r)
        ++ omit_str "default_objective" (aks_DefaultObjective r)
        ++ omit_list "allowed_objectives" GStr (aks_AllowedObjectives r)
        ++ omit_str "client_op_id" (aks_ClientOpID r)).

Record AIApiKeyPatchRequest : Type := {
  akp_AllowedModels : list string;
  akp_Enabled : option bool;
  akp_RateLimitRps : option Z;
  akp_BurstSize : option Z;
  akp_TokensPerMin : option Z;
  akp_PriorityClass : option string;
  akp_DefaultObjective : option string;
  akp_AllowedObjectives : option (list string)
}.
Definition ai_api_key_patch_request_json (r : AIApiKeyPatchRequest) : gojson :=
  GObj (omit_list "allowed_models" GStr (akp_AllowedModels r)
        ++ omit_nil "enabled" GBool (akp_Enabled r)
        ++ omit_nil "rate_limit_rps" GInt (akp_RateLimitRps r)
        ++ omit_nil "burst_size" GInt (akp_BurstSize r)
        ++ omit_nil "tokens_per_min" GInt (akp_TokensPerMin r)
        ++ omit_nil "priority_class" GStr (akp_PriorityClass r)
        ++ omit_nil "default_objective" GStr (akp_DefaultObjective r)
        ++ omit_nil "allowed_objectives" (fun l => GArr (GStr <$> l)) (akp_AllowedObjectives r)).

(** [aiRatelimit.go]. *)
Record AITenantModelRateLimit : Type := {
  trm_Model : string;
  trm_TokensPerMin : Z
}.
#[global] Instance ai_tenant_model_rate_limit_value : GoValue AITenantModelRateLimit := {|
  go_zero := {| trm_Model := ""; trm_TokensPerMin := 0 |};
  go_into strict old := decode_struct strict
    ["model"; "tokens_per_min"] old (fun ms =>
    x0 ← field strict ms "model" (trm_Model old);
    x1 ← field strict ms "tokens_per_min" (trm_TokensPerMin old);
    Some {| trm_Model := x0; trm_TokensPerMin := x1 |}) |}.
Definition ai_tenant_model_rate_limit_json (r : AITenantModelRateLimit) : gojson :=
  GObj [("model", GStr (trm_Model r));
        ("tokens_per_min", GInt (trm_TokensPerMin r))].

Record AITenantRateLimitMod : Type := {
  trq_TenantID : string;
  trq_Rps : Z;
  trq_TokensPerMin : Z;
  trq_BurstPct : Z;
  trq_ModelLimits : list AITenantModelRateLimit;
  trq_PriorityClass : option string;
  trq_DefaultObjective : option string;
  trq_AllowedObjectives : option (list string)
}.
Definition ai_tenant_rate_limit_mod_json (r : AITenantRateLimitMod) : gojson :=
  GObj ([("tenant_id", GStr (trq_TenantID r))]
        ++ omit_int "rps" (trq_Rps r)
        ++ omit_int "tokens_per_min" (trq_TokensPerMin r)
        ++ omit_int "burst_pct" (trq_BurstPct r)
        ++ omit_list "model_limits" ai_tenant_model_rate_limit_json (trq_ModelLimits r)
        ++ omit_nil "priority_class" GStr (trq_PriorityClass r)
        ++ omit_nil "default_objective" GStr (trq_DefaultObjective r)
        ++ omit_nil "allowed_objectives" (fun l => GArr (GStr <$> l)) (trq_AllowedObjectives r)).

Record AITenantRateLimitEntry : Type := {
  tre_TenantID : string;
  tre_Rps : Z;
  tre_TokensPerMin : Z;
  tre_BurstPct : Z;
  tre_ModelLimits : list AITenantModelRateLimit;
  tre_PriorityClass : string;
  tre_DefaultObjective : string;
  tre_AllowedObjectives : list string;
  tre_UpdatedAt : string
}.
#[global] Instance ai_tenant_rate_limit_entry_value : GoValue AITenantRateLimitEntry := {|
  go_zero := {| tre_TenantID := ""; tre_Rps := 0; tre_TokensPerMin := 0; tre_BurstPct := 0;
                tre_ModelLimits := []; tre_PriorityClass := ""; tre_DefaultObjective := "";
                tre_AllowedObjectives := []; tre_UpdatedAt := "" |};
  go_into strict old := decode_struct strict
    ["tenant_id"; "rps"; "tokens_per_min"; "burst_pct"; "model_limits"; "priority_class";
     "default_objective"; "allowed_objectives"; "updated_at"] old (fun ms =>
    x0 ← field strict ms "tenant_id" (tre_TenantID old);
    x1 ← field strict ms "rps" (tre_Rps old);
    x2 ← field strict ms "tokens_per_min" (tre_TokensPerMin old);
    x3 ← field strict ms "burst_pct" (tre_BurstPct old);
    x4 ← field strict ms "model_limits" (tre_ModelLimits old);
    x5 ← field strict ms "priority_class" (tre_PriorityClass old);
    x6 ← field strict ms "default_objective" (tre_DefaultObjective old);
    x7 ← field strict ms "allowed_objectives" (tre_AllowedObjectives old);
    x8 ← field strict ms "updated_at" (tre_UpdatedAt old);
    Some {| tre_TenantID := x0; tre_Rps := x1; tre_TokensPerMin := x2; tre_BurstPct := x3;
            tre_ModelLimits := x4; tre_PriorityClass := x5; tre_DefaultObjective := x6;
            tre_AllowedObjectives := x7; tre_UpdatedAt := x8 |}) |}.
Definition ai_tenant_rate_limit_entry_json (r : AITenantRateLimitEntry) : gojson :=
  GObj ([("tenant_id", GStr (tre_TenantID r));
         ("rps", GInt (tre_Rps r));
         ("tokens_per_min", GInt (tre_TokensPerMin r))]
        ++ omit_int "burst_pct" (tre_BurstPct r)
        ++ omit_list "model_limits" ai_tenant_model_rate_limit_json (tre_ModelLimits r)
        ++ omit_str "priority_class" (tre_PriorityClass r)
        ++ omit_str "default_objective" (tre_DefaultObjective r)
        ++ omit_list "allowed_objectives" GStr (tre_AllowedObjectives r)
        ++ [("updated_at", GStr (tre_UpdatedAt r))]).

(** [aiObjective.go]. *)
Record AIObjectiveEntry : Type := {
  obe_Name : string;
  obe_Services : list string;
  obe_Priority : int32;
  obe_UpdatedAt : string
}.
#[global] Instance ai_objective_entry_value : GoValue AIObjectiveEntry := {|
  go_zero := {| obe_Name := ""; obe_Services := []; obe_Priority := I32 0; obe_UpdatedAt := "" |};
  go_into strict old := decode_struct strict
    ["name"; "services"; "priority"; "updated_at"] old (fun ms =>
    x0 ← field strict ms "name" (obe_Name old);
    x1 ← field strict ms "services" (obe_Services old);
    x2 ← field strict ms "priority" (obe_Priority old);
    x3 ← field strict ms "updated_at" (obe_UpdatedAt old);
    Some {| obe_Name := x0; obe_Services := x1; obe_Priority := x2; obe_UpdatedAt := x3 |}) |}.
Definition ai_objective_entry_json (r : AIObjectiveEntry) : gojson :=
  GObj ([("name", GStr (obe_Name r))]
        ++ omit_list "services" GStr (obe_Services r)
        ++ [("priority", int32_json (obe_Priority r))]
        ++ omit_str "updated_at" (obe_UpdatedAt r)).

Record AIObjectiveList : Type := {
  obl_Objectives : option (list AIObjectiveEntry);
  obl_Source : string;
  obl_SourceTimestamp : string;
  obl_StoreReachable : bool;
  obl_StoreLastRead : string
}.
#[global] Instance ai_objective_list_value : GoValue AIObjectiveList := {|
  go_zero := {| obl_Objectives := None; obl_Source := ""; obl_SourceTimestamp := "";
                obl_StoreReachable := false; obl_StoreLastRead := "" |};
  go_into strict old := decode_struct strict
    ["objectiveAttr"; "source"; "source_timestamp"; "store_reachable"; "store_last_read"] old (fun ms =>
    x0 ← field strict ms "objectiveAttr" (obl_Objectives old);
    x1 ← field strict ms "source" (obl_Source old);
    x2 ← field strict ms "source_timestamp" (obl_SourceTimestamp old);
    x3 ← field strict ms "store_reachable" (obl_StoreReachable old);
    x4 ← field strict ms "store_last_read" (obl_StoreLastRead old);
    Some {| obl_Objectives := x0; obl_Source := x1; obl_SourceTimestamp := x2;
            obl_StoreReachable := x3; obl_StoreLastRead := x4 |}) |}.
Definition ai_objective_list_json (r : AIObjectiveList) : gojson :=
  GObj ([("objectiveAttr", slice_json ai_objective_entry_json (obl_Objectives r))]
        ++ omit_str "source" (obl_Source r)
        ++ omit_str "source_timestamp" (obl_SourceTimestamp r)
        ++ [("store_reachable", GBool (obl_StoreReachable r))]
        ++ omit_str "store_last_read" (obl_StoreLastRead r)).

(** [aiNetIdentity.go]. *)
Record NetIdentityMatch : Type := {
  nim_Cidr : list string;
  nim_IngressIf : string;
  nim_Vlan : uint32;
  nim_Vni : uint32;
  nim_IpsecTunnel : string
}.
#[global] Instance net_identity_match_value : GoValue NetIdentityMatch := {|
  go_zero := {| nim_Cidr := []; nim_IngressIf := ""; nim_Vlan := U32 0; nim_Vni := U32 0;
                nim_IpsecTunnel := "" |};
  go_into strict old := decode_struct strict
    ["cidr"; "ingress_if"; "vlan"; "vni"; "ipsec_tunnel"] old (fun ms =>
    x0 ← field strict ms "cidr" (nim_Cidr old);
    x1 ← field strict ms "ingress_if" (nim_IngressIf old);
    x2 ← field strict ms "vlan" (nim_Vlan old);
    x3 ← field strict ms "vni" (nim_Vni old);
    x4 ← field strict ms "ipsec_tunnel" (nim_IpsecTunnel old);
    Some {| nim_Cidr := x0; nim_IngressIf := x1; nim_Vlan := x2; nim_Vni := x3;
            nim_IpsecTunnel := x4 |}) |}.
Definition net_identity_match_json (r : NetIdentityMatch) : gojson :=
  GObj (omit_list "cidr" GStr (nim_Cidr r)
        ++ omit_str "ingress_if" (nim_IngressIf r)
        ++ omit_int "vlan" (u32 (nim_Vlan r))
        ++ omit_int "vni" (u32 (nim_Vni r))
        ++ omit_str "ipsec_tunnel" (nim_IpsecTunnel r)).

Record NetIdentityEntry : Type := {
  nie_Name : string;
  nie_Match : NetIdentityMatch;
  nie_Services : list string;
  nie_Tenant : string;
  nie_AllowedModels : list string;
  nie_Enforce : string;
  nie_Credential : string;
  nie_ForwardIdentity : bool;
  nie_PriorityClass : string;
  nie_FailMode : string
}.
#[global] Instance net_identity_entry_value : GoValue NetIdentityEntry := {|
  go_zero := {| nie_Name := ""; nie_Match := go_zero; nie_Services := []; nie_Tenant := "";
                nie_AllowedModels := []; nie_Enforce := ""; nie_Credential := "";
                nie_ForwardIdentity := false; nie_PriorityClass := ""; nie_FailMode := "" |};
  go_into strict old := decode_struct strict
    ["name"; "match"; "services"; "tenant"; "allowed_models"; "enforce"; "credential";
     "forward_identity"; "priority_class"; "fail_mode"] old (fun ms =>
    x0 ← field strict ms "name" (nie_Name old);
    x1 ← field strict ms "match" (nie_Match old);
    x2 ← field strict ms "services" (nie_Services old);
    x3 ← field strict ms "tenant" (nie_Tenant old);
    x4 ← field strict ms "allowed_models" (nie_AllowedModels old);
    x5 ← field strict ms "enforce" (nie_Enforce old);
    x6 ← field strict ms "credential" (nie_Credential old);
    x7 ← field strict ms "forward_identity" (nie_ForwardIdentity old);
    x8 ← field strict ms "priority_class" (nie_PriorityClass old);
    x9 ← field strict ms "fail_mode" (nie_FailMode old);
    Some {| nie_Name := x0; nie_Match := x1; nie_Services := x2; nie_Tenant := x3;
            nie_AllowedModels := x4; nie_Enforce := x5; nie_Credential := x6;
            nie_ForwardIdentity := x7; nie_PriorityClass := x8; nie_FailMode := x9 |}) |}.
Definition net_identity_entry_json (r : NetIdentityEntry) : gojson :=
  GObj ([("name", GStr (nie_Name r));
         ("match", net_identity_match_json (nie_Match r))]
        ++ omit_list "services" GStr (nie_Services r)
        ++ [("tenant", GStr (nie_Tenant r))]
        ++ omit_list "allowed_models" GStr (nie_AllowedModels r)
        ++ omit_str "enforce" (nie_Enforce r)
        ++ omit_str "credential" (nie_Credential r)
        ++ omit_bool "forward_identity" (nie_ForwardIdentity r)
        ++ omit_str "priority_class" (nie_PriorityClass r)
        ++ omit_str "fail_mode" (nie_FailMode r)).

Record NetIdentityList : Type := {
  nil_Bindings : option (list NetIdentityEntry)
}.
#[global] Instance net_identity_list_value : GoValue NetIdentityList := {|
  go_zero := {| nil_Bindings := None |};
  go_into strict old := decode_struct strict
    ["netIdentityAttr"] old (fun ms =>
    x0 ← field strict ms "netIdentityAttr" (nil_Bindings old);
    Some {| nil_Bindings := x0 |}) |}.
Definition net_identity_list_json (r : NetIdentityList) : gojson :=
  GObj [("netIdentityAttr", slice_json net_identity_entry_json (nil_Bindings r))].

(** [aiJWTAuthProfile.go]. *)
Record JWTAuthProfileEntry : Type := {
  jpe_Name : string;
  jpe_Issuer : string;
  jpe_JwksURL : string;
  jpe_Audiences : list string;
  jpe_Algs : list string;
  jpe_LeewaySec : Z;
  jpe_RefreshSec : Z;
  jpe_TenantClaim : string;
  jpe_UserClaim : string;
  jpe_ModelsClaim : string;
  jpe_RolesClaim : string;
  jpe_ModelRolePrefix : string;
  jpe_UsernameClaim : string;
  jpe_ModelAuthz : string;
  jpe_DefaultTenant : string;
  jpe_ForwardIdentity : bool;
  jpe_AuthorizationPassthrough : bool;
  jpe_PriorityClass : string
}.
#[global] Instance jwt_auth_profile_entry_value : GoValue JWTAuthProfileEntry := {|
  go_zero := {| jpe_Name := ""; jpe_Issuer := ""; jpe_JwksURL := ""; jpe_Audiences := [];
                jpe_Algs := []; jpe_LeewaySec := 0; jpe_RefreshSec := 0; jpe_TenantClaim := "";
                jpe_UserClaim := ""; jpe_ModelsClaim := ""; jpe_RolesClaim := "";
                jpe_ModelRolePrefix := ""; jpe_UsernameClaim := ""; jpe_ModelAuthz := "";
                jpe_DefaultTenant := ""; jpe_ForwardIdentity := false;
                jpe_AuthorizationPassthrough := false; jpe_PriorityClass := "" |};
  go_into strict old := decode_struct strict
    ["name"; "issuer"; "jwks_url"; "audiences"; "algs"; "leeway_sec"; "refresh_sec";
     "tenant_claim"; "user_claim"; "models_claim"; "roles_claim"; "model_role_prefix";
     "username_claim"; "model_authz"; "default_tenant"; "forward_identity";
     "authorization_passthrough"; "priority_class"] old (fun ms =>
    x0 ← field strict ms "name" (jpe_Name old);
    x1 ← field strict ms "issuer" (jpe_Issuer old);
    x2 ← field strict ms "jwks_url" (jpe_JwksURL old);
    x3 ← field strict ms "audiences" (jpe_Audiences old);
    x4 ← field strict ms "algs" (jpe_Algs old);
    x5 ← field strict ms "leeway_sec" (jpe_LeewaySec old);
    x6 ← field strict ms "refresh_sec" (jpe_RefreshSec old);
    x7 ← field strict ms "tenant_claim" (jpe_TenantClaim old);
    x8 ← field strict ms "user_claim" (jpe_UserClaim old);
    x9 ← field strict ms "models_claim" (jpe_ModelsClaim old);
    x10 ← field strict ms "roles_claim" (jpe_RolesClaim old);
    x11 ← field strict ms "model_role_prefix" (jpe_ModelRolePrefix old);
    x12 ← field strict ms "username_claim" (jpe_UsernameClaim old);
    x13 ← field strict ms "model_authz" (jpe_ModelAuthz old);
    x14 ← field strict ms "default_tenant" (jpe_DefaultTenant old);
    x15 ← field strict ms "forward_identity" (jpe_ForwardIdentity old);
    x16 ← field strict ms "authorization_passthrough" (jpe_AuthorizationPassthrough old);
    x17 ← field strict ms "priority_class" (jpe_PriorityClass old);
    Some {| jpe_Name := x0; jpe_Issuer := x1; jpe_JwksURL := x2; jpe_Audiences := x3;
            jpe_Algs := x4; jpe_LeewaySec := x5; jpe_RefreshSec := x6; jpe_TenantClaim := x7;
            jpe_UserClaim := x8; jpe_ModelsClaim := x9; jpe_RolesClaim := x10;
            jpe_ModelRolePrefix := x11; jpe_UsernameClaim := x12; jpe_ModelAuthz := x13;
            jpe_DefaultTenant := x14; jpe_ForwardIdentity := x15;
            jpe_AuthorizationPassthrough := x16; jpe_PriorityClass := x17 |}) |}.
Definition jwt_auth_profile_entry_json (r : JWTAuthProfileEntry) : gojson :=
  GObj ([("name", GStr (jpe_Name r));
         ("issuer", GStr (jpe_Issuer r))]
        ++ omit_str "jwks_url" (jpe_JwksURL r)
        ++ omit_list "audiences" GStr (jpe_Audiences r)
        ++ omit_list "algs" GStr (jpe_Algs r)
        ++ omit_int "leeway_sec" (jpe_LeewaySec r)
        ++ omit_int "refresh_sec" (jpe_RefreshSec r)
        ++ omit_str "tenant_claim" (jpe_TenantClaim r)
        ++ omit_str "user_claim" (jpe_UserClaim r)
        ++ omit_str "models_claim" (jpe_ModelsClaim r)
        ++ omit_str "roles_claim" (jpe_RolesClaim r)
        ++ omit_str "model_role_prefix" (jpe_ModelRolePrefix r)
        ++ omit_str "username_claim" (jpe_UsernameClaim r)
        ++ omit_str "model_authz" (jpe_ModelAuthz r)
        ++ omit_str "default_tenant" (jpe_DefaultTenant r)
        ++ omit_bool "forward_identity" (jpe_ForwardIdentity r)
        ++ omit_bool "authorization_passthrough" (jpe_AuthorizationPassthrough r)
        ++ omit_str "priority_class" (jpe_PriorityClass r)).

Record JWTAuthProfileList : Type := {
  jpl_Profiles : option (list JWTAuthProfileEntry)
}.
#[global] Instance jwt_auth_profile_list_value : GoValue JWTAuthProfileList := {|
  go_zero := {| jpl_Profiles := None |};
  go_into strict old := decode_struct strict
    ["jwtAuthProfileAttr"] old (fun ms =>
    x0 ← field strict ms "jwtAuthProfileAttr" (jpl_Profiles old);
    Some {| jpl_Profiles := x0 |}) |}.
Definition jwt_auth_profile_list_json (r : JWTAuthProfileList) : gojson :=
  GObj [("jwtAuthProfileAttr", slice_json jwt_auth_profile_entry_json (jpl_Profiles r))].

(** [aiKvInventory.go]. *)
Record AIKvInventoryBlock : Type := {
  kvb_BlockIdx : Z;
  kvb_HashUint64 : uint64
}.
#[global] Instance ai_kv_inventory_block_value : GoValue AIKvInventoryBlock := {|
  go_zero := {| kvb_BlockIdx := 0; kvb_HashUint64 := U64 0 |};
  go_into strict old := decode_struct strict
    ["block_idx"; "hash_uint64"] old (fun ms =>
    x0 ← field strict ms "block_idx" (kvb_BlockIdx old);
    x1 ← field strict ms "hash_uint64" (kvb_HashUint64 old);
    Some {| kvb_BlockIdx := x0; kvb_HashUint64 := x1 |}) |}.
Definition ai_kv_inventory_block_json (r : AIKvInventoryBlock) : gojson :=
  GObj [("block_idx", GInt (kvb_BlockIdx r));
        ("hash_uint64", uint64_json (kvb_HashUint64 r))].

Record AIKvInventoryResponse : Type := {
  kvr_ServiceID : Z;
  kvr_EpIdx : Z;
  kvr_HashAlgo : string;
  kvr_Blocks : option (list AIKvInventoryBlock);
  kvr_Total : Z
}.
#[global] Instance ai_kv_inventory_response_value : GoValue AIKvInventoryResponse := {|
  go_zero := {| kvr_ServiceID := 0; kvr_EpIdx := 0; kvr_HashAlgo := ""; kvr_Blocks := None;
                kvr_Total := 0 |};
  go_into strict old := decode_struct strict
    ["service_id"; "ep_idx"; "hash_algo"; "blocks"; "total"] old (fun ms =>
    x0 ← field strict ms "service_id" (kvr_ServiceID old);
    x1 ← field strict ms "ep_idx" (kvr_EpIdx old);
    x2 ← field strict ms "hash_algo" (kvr_HashAlgo old);
    x3 ← field strict ms "blocks" (kvr_Blocks old);
    x4 ← field strict ms "total" (kvr_Total old);
    Some {| kvr_ServiceID := x0; kvr_EpIdx := x1; kvr_HashAlgo := x2; kvr_Blocks := x3;
            kvr_Total := x4 |}) |}.
Definition ai_kv_inventory_response_json (r : AIKvInventoryResponse) : gojson :=
  GObj [("service_id", GInt (kvr_ServiceID r));
        ("ep_idx", GInt (kvr_EpIdx r));
        ("hash_algo", GStr (kvr_HashAlgo r));
        ("blocks", slice_json ai_kv_inventory_block_json (kvr_Blocks r));
        ("total", GInt (kvr_Total r))].

(** [cert.go]. *)
Record CertModel : Type := {
  crt_CertID : string;
  crt_Usage : string;
  crt_CertPem : string;
  crt_KeyPem : string;
  crt_ChainPem : string;
  crt_Hostnames : list string
}.
#[global] Instance cert_model_value : GoValue CertModel := {|
  go_zero := {| crt_CertID := ""; crt_Usage := ""; crt_CertPem := ""; crt_KeyPem := "";
                crt_ChainPem := ""; crt_Hostnames := [] |};
  go_into strict old := decode_struct strict
    ["certId"; "usage"; "certPem"; "keyPem"; "chainPem"; "hostnames"] old (fun ms =>
    x0 ← field strict ms "certId" (crt_CertID old);
    x1 ← field strict ms "usage" (crt_Usage old);
    x2 ← field strict ms "certPem" (crt_CertPem old);
    x3 ← field strict ms "keyPem" (crt_KeyPem old);
    x4 ← field strict ms "chainPem" (crt_ChainPem old);
    x5 ← field strict ms "hostnames" (crt_Hostnames old);
    Some {| crt_CertID := x0; crt_Usage := x1; crt_CertPem := x2; crt_KeyPem := x3;
            crt_ChainPem := x4; crt_Hostnames := x5 |}) |}.
Definition cert_model_json (r : CertModel) : gojson :=
  GObj (omit_str "certId" (crt_CertID r)
        ++ omit_str "usage" (crt_Usage r)
        ++ omit_str "certPem" (crt_CertPem r)
        ++ omit_str "keyPem" (crt_KeyPem r)
        ++ omit_str "chainPem" (crt_ChainPem r)
        ++ omit_list "hostnames" GStr (crt_Hostnames r)).

Record CACertModel : Type := {
  cca_CertID : string;
  cca_Usage : string;
  cca_CertPem : string;
  cca_KeyPem : string;
  cca_ChainPem : string
}.
Definition ca_cert_model_json (r : CACertModel) : gojson :=
  GObj (omit_str "certId" (cca_CertID r)
        ++ [("usage", GStr (cca_Usage r));
         ("certPem", GStr (cca_CertPem r));
         ("keyPem", GStr (cca_KeyPem r))]
        ++ omit_str "chainPem" (cca_ChainPem r)).

(** [sni.go]. *)
Record SNICertificateItem : Type := {
  sni_Hostname : string;
  sni_CertPath : string;
  sni_RefCount : Z
}.
#[global] Instance sni_certificate_item_value : GoValue SNICertificateItem := {|
  go_zero := {| sni_Hostname := ""; sni_CertPath := ""; sni_RefCount := 0 |};
  go_into strict old := decode_struct strict
    ["hostname"; "certPath"; "refCount"] old (fun ms =>
    x0 ← field strict ms "hostname" (sni_Hostname old);
    x1 ← field strict ms "certPath" (sni_CertPath old);
    x2 ← field strict ms "refCount" (sni_RefCount old);
    Some {| sni_Hostname := x0; sni_CertPath := x1; sni_RefCount := x2 |}) |}.
Definition sni_certificate_item_json (r : SNICertificateItem) : gojson :=
  GObj [("hostname", GStr (sni_Hostname r));
        ("certPath", GStr (sni_CertPath r));
        ("refCount", GInt (sni_RefCount r))].

Record SNICertificateListResponse : Type := {
  snl_Certificates : option (list SNICertificateItem);
  snl_TotalCertificates : Z
}.
#[global] Instance sni_certificate_list_response_value : GoValue SNICertificateListResponse := {|
  go_zero := {| snl_Certificates := None; snl_TotalCertificates := 0 |};
  go_into strict old := decode_struct strict
    ["certificates"; "totalCertificates"] old (fun ms =>
    x0 ← field strict ms "certificates" (snl_Certificates old);
    x1 ← field strict ms "totalCertificates" (snl_TotalCertificates old);
    Some {| snl_Certificates := x0; snl_TotalCertificates := x1 |}) |}.
Definition sni_certificate_list_response_json (r : SNICertificateListResponse) : gojson :=
  GObj [("certificates", slice_json sni_certificate_item_json (snl_Certificates r));
        ("totalCertificates", GInt (snl_TotalCertificates r))].

(** [metrics.go]. *)
Record MetricsConfig : Type := {
  mtc_Prometheus : bool
}.
#[global] Instance metrics_config_value : GoValue MetricsConfig := {|
  go_zero := {| mtc_Prometheus := false |};
  go_into strict old := decode_struct strict
    ["prometheus"] old (fun ms =>
    x0 ← field strict ms "prometheus" (mtc_Prometheus old);
    Some {| mtc_Prometheus := x0 |}) |}.
Definition metrics_config_json (r : MetricsConfig) : gojson :=
  GObj [("prometheus", GBool (mtc_Prometheus r))].

(** [login.go]. *)
Record LoginModel : Type := {
  lgm_Username : string;
  lgm_Password : string
}.
Definition login_model_json (r : LoginModel) : gojson :=
  GObj [("username", GStr (lgm_Username r));
        ("password", GStr (lgm_Password r))].

Record TokenModel : Type := {
  tkm_Token : string;
  tkm_RefreshToken : string
}.
#[global] Instance token_model_value : GoValue TokenModel := {|
  go_zero := {| tkm_Token := ""; tkm_RefreshToken := "" |};
  go_into strict old := decode_struct strict
    ["token"; "refreshtoken"] old (fun ms =>
    x0 ← field strict ms "token" (tkm_Token old);
    x1 ← field strict ms "refreshtoken" (tkm_RefreshToken old);
    Some {| tkm_Token := x0; tkm_RefreshToken := x1 |}) |}.
Definition token_model_json (r : TokenModel) : gojson :=
  GObj [("token", GStr (tkm_Token r));
        ("refreshtoken", GStr (tkm_RefreshToken r))].

(** [param.go]. *)
Record ParamDump : Type := {
  prd_LogLevel : string
}.
#[global] Instance param_dump_value : GoValue ParamDump := {|
  go_zero := {| prd_LogLevel := "" |};
  go_into strict old := decode_struct strict
    ["logLevel"] old (fun ms =>
    x0 ← field strict ms "logLevel" (prd_LogLevel old);
    Some {| prd_LogLevel := x0 |}) |}.
Definition param_dump_json (r : ParamDump) : gojson :=
  GObj [("logLevel", GStr (prd_LogLevel r))].

(** [pii.go]. *)
Record PIIEnableRequest : Type := {
  pie_Enabled : bool
}.
Definition pii_enable_request_json (r : PIIEnableRequest) : gojson :=
  GObj [("enabled", GBool (pie_Enabled r))].

Record PIIConfigEntry : Type := {
  pic_Mode : option string;
  pic_Direction : option string;
  pic_FailMode : option string;
  pic_ScanMode : option string;
  pic_AnalyzerURL : option string;
  pic_AnonymizerURL : option string;
  pic_ScoreThreshold : option float64;
  pic_TimeoutMs : option Z;
  pic_MaxBodySize : option Z;
  pic_MinBodySize : option Z;
  pic_EnableV2 : option bool;
  pic_DefaultOper : option string;
  pic_EncryptionKey : option string;
  pic_BatchSize : option Z
}.
Definition pii_config_entry_json (r : PIIConfigEntry) : gojson :=
  GObj (omit_nil "mode" GStr (pic_Mode r)
        ++ omit_nil "direction" GStr (pic_Direction r)
        ++ omit_nil "fail_mode" GStr (pic_FailMode r)
        ++ omit_nil "scan_mode" GStr (pic_ScanMode r)
        ++ omit_nil "analyzer_url" GStr (pic_AnalyzerURL r)
        ++ omit_nil "anonymizer_url" GStr (pic_AnonymizerURL r)
        ++ omit_nil "score_threshold" float64_json (pic_ScoreThreshold r)
        ++ omit_nil "timeout_ms" GInt (pic_TimeoutMs r)
        ++ omit_nil "max_body_size" GInt (pic_MaxBodySize r)
        ++ omit_nil "min_body_size" GInt (pic_MinBodySize r)
        ++ omit_nil "enable_v2" GBool (pic_EnableV2 r)
        ++ omit_nil "default_operator" GStr (pic_DefaultOper r)
        ++ omit_nil "encryption_key" GStr (pic_EncryptionKey r)
        ++ omit_nil "batch_size" GInt (pic_BatchSize r)).

Record PIIURLPattern : Type := {
  piu_Pattern : string;
  piu_IsExclude : bool
}.
Definition piiurl_pattern_json (r : PIIURLPattern) : gojson :=
  GObj [("pattern", GStr (piu_Pattern r));
        ("is_exclude", GBool (piu_IsExclude r))].

Record PIIURLPatternsEntry : Type := {
  pip_Mode : string;
  pip_Patterns : list PIIURLPattern
}.
Definition piiurl_patterns_entry_json (r : PIIURLPatternsEntry) : gojson :=
  GObj ([("mode", GStr (pip_Mode r))]
        ++ omit_list "patterns" piiurl_pattern_json (pip_Patterns r)).

(** [llamafirewall.go]. *)
Record LlamaFirewallEnableRequest : Type := {
  lfe_Enabled : bool
}.
Definition llama_firewall_enable_request_json (r : LlamaFirewallEnableRequest) : gojson :=
  GObj [("enabled", GBool (lfe_Enabled r))].

Record LlamaFirewallConfigEntry : Type := {
  lfc_ServerURL : option string;
  lfc_TimeoutSec : option Z;
  lfc_FailClosed : option bool;
  lfc_BlockThreshold : option float64;
  lfc_CacheEnabled : option bool;
  lfc_CacheTTLSec : option Z;
  lfc_ConnectionPoolSize : option Z;
  lfc_ScanPatterns : list string;
  lfc_SkipPatterns : list string
}.
Definition llama_firewall_config_entry_json (r : LlamaFirewallConfigEntry) : gojson :=
  GObj (omit_nil "server_url" GStr (lfc_ServerURL r)
        ++ omit_nil "timeout_sec" GInt (lfc_TimeoutSec r)
        ++ omit_nil "fail_closed" GBool (lfc_FailClosed r)
        ++ omit_nil "block_threshold" float64_json (lfc_BlockThreshold r)
        ++ omit_nil "cache_enabled" GBool (lfc_CacheEnabled r)
        ++ omit_nil "cache_ttl_sec" GInt (lfc_CacheTTLSec r)
        ++ omit_nil "connection_pool_size" GInt (lfc_ConnectionPoolSize r)
        ++ omit_list "scan_patterns" GStr (lfc_ScanPatterns r)
        ++ omit_list "skip_patterns" GStr (lfc_SkipPatterns r)).

Record LlamaFirewallScannersEntry : Type := {
  lfs_PromptGuard : option bool;
  lfs_CodeShield : option bool;
  lfs_Regex : option bool;
  lfs_HiddenASCII : option bool;
  lfs_AgentAlignment : option bool;
  lfs_PIIDetection : option bool
}.
Definition llama_firewall_scanners_entry_json (r : LlamaFirewallScannersEntry) : gojson :=
  GObj (omit_nil "prompt_guard" GBool (lfs_PromptGuard r)
        ++ omit_nil "code_shield" GBool (lfs_CodeShield r)
        ++ omit_nil "regex" GBool (lfs_Regex r)
        ++ omit_nil "hidden_ascii" GBool (lfs_HiddenASCII r)
        ++ omit_nil "agent_alignment" GBool (lfs_AgentAlignment r)
        ++ omit_nil "pii_detection" GBool (lfs_PIIDetection r)).

(** [trace.go]. *)
Record TraceOTLPConfig : Type := {
  toc_Endpoint : string;
  toc_Protocol : string;
  toc_UseTLS : option bool;
  toc_TLSSkipVerify : option bool;
  toc_Headers : option (gmap string string)
}.
Definition trace_otlp_config_json (r : TraceOTLPConfig) : gojson :=
  GObj ([("endpoint", GStr (toc_Endpoint r));
         ("protocol", GStr (toc_Protocol r))]
        ++ omit_nil "use_tls" GBool (toc_UseTLS r)
        ++ omit_nil "tls_skip_verify" GBool (toc_TLSSkipVerify r)
        ++ omit_map "headers" (toc_Headers r)).

(** [l4trace.go]. *)
Record L4TraceEnableRequest : Type := {
  l4e_SamplingRate : option Z
}.
Definition l4_trace_enable_request_json (r : L4TraceEnableRequest) : gojson :=
  GObj (omit_nil "sampling_rate" GInt (l4e_SamplingRate r)).

Record L4TraceSamplingRequest : Type := {
  l4s_SamplingRate : Z
}.
Definition l4_trace_sampling_request_json (r : L4TraceSamplingRequest) : gojson :=
  GObj [("sampling_rate", GInt (l4s_SamplingRate r))].

(** [dpu.go]. *)
Record DPUDebugAction : Type := {
  dpa_Action : string;
  dpa_Plugin : string;
  dpa_Mode : string
}.
Definition dpu_debug_action_json (r : DPUDebugAction) : gojson :=
  GObj ([("action", GStr (dpa_Action r))]
        ++ omit_str "plugin" (dpa_Plugin r)
        ++ omit_str "mode" (dpa_Mode r)).

(** [opa.go]. *)
Record OPAWatcherConfig : Type := {
  owc_OpaURL : string;
  owc_PolicyPath : string;
  owc_PollIntervalSec : Z;
  owc_FailOpen : bool
}.
Definition opa_watcher_config_json (r : OPAWatcherConfig) : gojson :=
  GObj ([("opa_url", GStr (owc_OpaURL r))]
        ++ omit_str "policy_path" (owc_PolicyPath r)
        ++ omit_int "poll_interval_sec" (owc_PollIntervalSec r)
        ++ omit_bool "fail_open" (owc_FailOpen r)).
