(* ===== verification/SetCmds.v ===== *)
(** * The set commands: [cmd/set]

    Each command in the order of the code: what it refuses, when it makes its
    client, and the request its flags become.  [changed] is
    [cmd.Flags().Changed]: a flag that was not given stays off the wire. *)
From S2P Require Import Prelude GoStrings GoNet Json JsonPrint Floats Fields World Errors Exitcode.
From S2P Require Import Rest FeatureGate Commands NetModel AiModel ApplyText.
From S2P Require Import Lifecycle LifecycleCmds OpsCmds AuditSinks.

(** A member that is written when its flag was given. *)
Definition if_changed {A} (changed : string -> bool) (flag : string) (v : A) : option A :=
  if changed flag then Some v else None.

(** The flags of which exactly one must be set. *)
Definition exactly_one (l : list bool) : bool := (length (List.filter id l) =? 1)%nat.

Definition PriorityClasses : list string := ["standard"; "critical"; "sheddable"].
Definition IsPriorityClass (s : string) : bool := existsb (streq s) PriorityClasses.

(* ------------------------------------------------------------------ *)
(** ** What is read of the flags                                       *)
(* ------------------------------------------------------------------ *)

Definition IsValidLogLevel (loglevel : string) : bool :=
  str_in loglevel ["trace"; "debug"; "info"; "error"; "warning"; "notice"; "critical"; "emergency"; "alert"].

Definition ReadSetLogLevelOptions (args : list string) : result string ParamDump :=
  match args with
  | _ :: _ :: _ => Err "set log-level command get so many args"
  | [] => Err "set log-level need <log-level> args"
  | [level] =>
      if IsValidLogLevel level then Ok {| prd_LogLevel := level |}
      else Err "set log-level in the trace,debug,info,error,warning,notice,critical,emergency,alert"
  end.

Definition ReadSetBfdOptions (o : BFDSessionInfo) (args : list string) : result string BFDSessionInfo :=
  match args with
  | _ :: _ :: _ => Err "set bfd command get so many args"
  | [] => Err "set bfd need <RemoteIP> args"
  | [ip] =>
      if is_ip ip
      then Ok {| bfd_Instance := bfd_Instance o; bfd_RemoteIP := ip; bfd_SourceIP := bfd_SourceIP o;
                 bfd_Port := bfd_Port o; bfd_Interval := bfd_Interval o;
                 bfd_RetryCount := bfd_RetryCount o; bfd_State := bfd_State o |}
      else Err (sprintf ["remote IP '"; ip; "' is invalid format"])
  end.

Record SetAPIKeyOptions : Type := {
  sk_AllowedModels : list string;
  sk_Enabled : bool;
  sk_RateLimitRps : Z;
  sk_BurstSize : Z;
  sk_TokensPerMin : Z;
  sk_PriorityClass : string;
  sk_DefaultObjective : string;
  sk_AllowedObjectives : list string
}.

Definition setAPIKeyFlags : list string :=
  ["allowed-models"; "enabled"; "rate-limit-rps"; "burst-size"; "tokens-per-min"; "priority-class";
   "default-objective"; "allowed-objectives"].

Definition apiKeyPatch (changed : string -> bool) (o : SetAPIKeyOptions) : AIApiKeyPatchRequest :=
  {| akp_AllowedModels := if changed "allowed-models" then sk_AllowedModels o else [];
     akp_Enabled := if_changed changed "enabled" (sk_Enabled o);
     akp_RateLimitRps := if_changed changed "rate-limit-rps" (sk_RateLimitRps o);
     akp_BurstSize := if_changed changed "burst-size" (sk_BurstSize o);
     akp_TokensPerMin := if_changed changed "tokens-per-min" (sk_TokensPerMin o);
     akp_PriorityClass := if_changed changed "priority-class" (sk_PriorityClass o);
     akp_DefaultObjective := if_changed changed "default-objective" (sk_DefaultObjective o);
     akp_AllowedObjectives := if_changed changed "allowed-objectives" (sk_AllowedObjectives o) |}.

Record SetRateLimitOptions : Type := {
  sr_TenantID : string;
  sr_Rps : Z;
  sr_TokensPerMin : Z;
  sr_BurstPct : Z;
  sr_ModelLimits : list string;
  sr_PriorityClass : string;
  sr_DefaultObjective : string;
  sr_AllowedObjectives : list string
}.

(** One entry [MODEL=TOKENS]; [seen] are the models before it. *)
Definition model_limit (seen : list AITenantModelRateLimit) (value : string)
    : result string AITenantModelRateLimit :=
  let refused := fun msg : list string => Err (sprintf msg) in
  let '(ok, model, rawTokens) :=
    match split_first "="%char value with
    | Some (m, t) => (true, trim_space m, trim_space t)
    | None => (false, trim_space value, "")
    end in
  if negb ok || is_empty model || is_empty rawTokens
  then refused ["--model-limit "; quote value; " must use MODEL=TOKENS"]
  else if contains model "|"
  then refused ["--model-limit model "; quote model; " must not contain '|'"]
  else if existsb (fun l => streq (trm_Model l) model) seen
  then refused ["--model-limit repeats model "; quote model]
  else match atoi rawTokens with
       | Some tokens =>
           if (tokens <? 0)%Z
           then refused ["--model-limit "; quote value; " has invalid non-negative token quota"]
           else Ok {| trm_Model := model; trm_TokensPerMin := tokens |}
       | None => refused ["--model-limit "; quote value; " has invalid non-negative token quota"]
       end.

Fixpoint model_limits (seen : list AITenantModelRateLimit) (values : list string)
    : result string (list AITenantModelRateLimit) :=
  match values with
  | [] => Ok seen
  | value :: values' => l ← model_limit seen value; model_limits (seen ++ [l]) values'
  end.

Definition parseTenantModelLimits : list string -> result string (list AITenantModelRateLimit) :=
  model_limits [].

Definition rate_limit_request (changed : string -> bool) (o : SetRateLimitOptions)
    (modelLimits : list AITenantModelRateLimit) : AITenantRateLimitMod :=
  {| trq_TenantID := sr_TenantID o; trq_Rps := sr_Rps o; trq_TokensPerMin := sr_TokensPerMin o;
     trq_BurstPct := sr_BurstPct o; trq_ModelLimits := modelLimits;
     trq_PriorityClass := if_changed changed "priority-class" (sr_PriorityClass o);
     trq_DefaultObjective := if_changed changed "default-objective" (sr_DefaultObjective o);
     trq_AllowedObjectives := if_changed changed "allowed-objectives" (sr_AllowedObjectives o) |}.

Record SetPIIOptions : Type := {
  pi_enable : bool;
  pi_disable : bool;
  pi_configure : bool;
  pi_urlPatterns : bool;
  pi_mode : string;
  pi_direction : string;
  pi_failMode : string;
  pi_scanMode : string;
  pi_analyzerURL : string;
  pi_anonymizerURL : string;
  pi_scoreThreshold : float64;
  pi_timeoutMs : Z;
  pi_maxBodySize : Z;
  pi_minBodySize : Z;
  pi_enableV2 : bool;
  pi_defaultOperator : string;
  pi_encryptionKey : string;
  pi_batchSize : Z;
  pi_urlMode : string;
  pi_includes : list string;
  pi_excludes : list string
}.

Definition pii_config (changed : string -> bool) (o : SetPIIOptions) : PIIConfigEntry :=
  {| pic_Mode := if_changed changed "mode" (pi_mode o);
     pic_Direction := if_changed changed "direction" (pi_direction o);
     pic_FailMode := if_changed changed "fail-mode" (pi_failMode o);
     pic_ScanMode := if_changed changed "scan-mode" (pi_scanMode o);
     pic_AnalyzerURL := if_changed changed "analyzer-url" (pi_analyzerURL o);
     pic_AnonymizerURL := if_changed changed "anonymizer-url" (pi_anonymizerURL o);
     pic_ScoreThreshold := if_changed changed "score-threshold" (pi_scoreThreshold o);
     pic_TimeoutMs := if_changed changed "timeout-ms" (pi_timeoutMs o);
     pic_MaxBodySize := if_changed changed "max-body-size" (pi_maxBodySize o);
     pic_MinBodySize := if_changed changed "min-body-size" (pi_minBodySize o);
     pic_EnableV2 := if_changed changed "enable-v2" (pi_enableV2 o);
     pic_DefaultOper := if_changed changed "default-operator" (pi_defaultOperator o);
     pic_EncryptionKey := if_changed changed "encryption-key" (pi_encryptionKey o);
     pic_BatchSize := if_changed changed "batch-size" (pi_batchSize o) |}.

Definition pii_patterns (o : SetPIIOptions) : PIIURLPatternsEntry :=
  {| pip_Mode := pi_urlMode o;
     pip_Patterns :=
       List.map (fun p => {| piu_Pattern := p; piu_IsExclude := false |}) (pi_includes o)
       ++ List.map (fun p => {| piu_Pattern := p; piu_IsExclude := true |}) (pi_excludes o) |}.

Record SetLlamaFirewallOptions : Type := {
  lf_enable : bool;
  lf_disable : bool;
  lf_configure : bool;
  lf_scanners : bool;
  lf_health : bool;
  lf_serverURL : string;
  lf_timeoutSec : Z;
  lf_cacheTTLSec : Z;
  lf_connPoolSize : Z;
  lf_failClosed : bool;
  lf_cacheEnabled : bool;
  lf_blockThreshold : float64;
  lf_scanPatterns : list string;
  lf_skipPatterns : list string;
  lf_promptGuard : bool;
  lf_codeShield : bool;
  lf_regex : bool;
  lf_hiddenASCII : bool;
  lf_agentAlignment : bool;
  lf_piiDetection : bool
}.

Definition llamafirewall_config (changed : string -> bool) (o : SetLlamaFirewallOptions)
    : LlamaFirewallConfigEntry :=
  {| lfc_ServerURL := if_changed changed "server-url" (lf_serverURL o);
     lfc_TimeoutSec := if_changed changed "timeout-sec" (lf_timeoutSec o);
     lfc_FailClosed := if_changed changed "fail-closed" (lf_failClosed o);
     lfc_BlockThreshold := if_changed changed "block-threshold" (lf_blockThreshold o);
     lfc_CacheEnabled := if_changed changed "cache-enabled" (lf_cacheEnabled o);
     lfc_CacheTTLSec := if_changed changed "cache-ttl-sec" (lf_cacheTTLSec o);
     lfc_ConnectionPoolSize := if_changed changed "connection-pool-size" (lf_connPoolSize o);
     lfc_ScanPatterns := if changed "scan-pattern" then lf_scanPatterns o else [];
     lfc_SkipPatterns := if changed "skip-pattern" then lf_skipPatterns o else [] |}.

Definition llamafirewall_scanners (changed : string -> bool) (o : SetLlamaFirewallOptions)
    : LlamaFirewallScannersEntry :=
  {| lfs_PromptGuard := if_changed changed "prompt-guard" (lf_promptGuard o);
     lfs_CodeShield := if_changed changed "code-shield" (lf_codeShield o);
     lfs_Regex := if_changed changed "regex" (lf_regex o);
     lfs_HiddenASCII := if_changed changed "hidden-ascii" (lf_hiddenASCII o);
     lfs_AgentAlignment := if_changed changed "agent-alignment" (lf_agentAlignment o);
     lfs_PIIDetection := if_changed changed "pii-detection" (lf_piiDetection o) |}.

Record SetTraceOptions : Type := {
  tr_enable : bool;
  tr_disable : bool;
  tr_otlp : bool;
  tr_endpoint : string;
  tr_protocol : string;
  tr_useTLS : bool;
  tr_tlsSkipVerify : bool;
  tr_headers : list string
}.

(** The headers, each [key=value]; the last of a key wins. *)
Fixpoint otlp_headers (mp : gmap string string) (l : list string) : result string (gmap string string) :=
  match l with
  | [] => Ok mp
  | h :: l' =>
      match split_first "="%char h with
      | None => Err (sprintf ["--otlp-header must be key=value, got "; quote h])
      | Some (k, v) => otlp_headers (<[k := v]> mp) l'
      end
  end.

Definition trace_config (changed : string -> bool) (o : SetTraceOptions)
    : result string TraceOTLPConfig :=
  headers ← match tr_headers o with
            | [] => Ok None
            | l => mp ← otlp_headers ∅ l; Ok (Some mp)
            end;
  Ok {| toc_Endpoint := tr_endpoint o; toc_Protocol := tr_protocol o;
        toc_UseTLS := if_changed changed "otlp-use-tls" (tr_useTLS o);
        toc_TLSSkipVerify := if_changed changed "otlp-tls-skip-verify" (tr_tlsSkipVerify o);
        toc_Headers := headers |}.

(* ------------------------------------------------------------------ *)
(** ** The commands                                                    *)
(* ------------------------------------------------------------------ *)

Section Commands.
Context `{GoLib}.
Variable restOptions : RESTOptions.
Variable changed : string -> bool.

Definition PrintSetResult : http_response -> RESTOptions -> IO unit := PrintResult.

(** A 200 or a 204 is a success. *)
Definition reportPost (send : IO http_result) (successMsg : string) : IO outcome :=
  answered id send (managed_answer [200; 204]%Z "set" (say (successMsg +:+ nl))).

(** The body of a call without one is [null]. *)
Definition no_body : gojson := go_nil.

Definition ParamAPICall (parmaModel : ParamDump) : IO http_result :=
  client ← NewLoxiClient restOptions;
  Create (Client.Param client) (param_dump_json parmaModel).

Definition set_loglevel (args : list string) : IO outcome :=
  match ReadSetLogLevelOptions args with
  | Err e => failed_with e
  | Ok parmaMod =>
      answered (colon "set log-level") (ParamAPICall parmaMod)
        (resource_answer false restOptions "set log-level")
  end.

Definition set_bfd (o : BFDSessionInfo) (args : list string) : IO outcome :=
  match ReadSetBfdOptions o args with
  | Err e => failed_with e
  | Ok m =>
      answered (colon "set bfd") (SetBFDAPICall restOptions m)
        (resource_answer false restOptions "set bfd")
  end.

(** The commands of priorities: what a 400 names is printed as it came. *)
Definition verbatim_answer (op : string) (done_ : IO unit) (resp : http_response) : IO outcome :=
  if negb (status_in [200; 204]%Z (hr_status resp))
  then fail_with (refused_answer op (hr_status resp) (hr_body resp))
  else _ ← done_; succeed.

Definition gated_if (b : bool) (feature op : string) (k : IO outcome) : IO outcome :=
  if b then gated restOptions feature op k else k.

Definition priority_flags : bool :=
  changed "priority-class" || changed "default-objective" || changed "allowed-objectives".

Definition bad_class (class : string) : bool :=
  changed "priority-class" && negb (is_empty class) && negb (IsPriorityClass class).

Definition class_refused : string :=
  sprintf ["--priority-class must be one of "; join "|" PriorityClasses; ", or empty to clear it"].

Definition set_ratelimit (o : SetRateLimitOptions) : IO outcome :=
  if is_empty (sr_TenantID o) then fail_with (Usagef "--tenant-id is required")
  else if contains (sr_TenantID o) "|" then failed_with "--tenant-id must not contain '|'"
  else if (sr_Rps o <? 0)%Z || (sr_TokensPerMin o <? 0)%Z || (sr_BurstPct o <? 0)%Z
  then failed_with "--rps, --tokens-per-min, and --burst-pct must be non-negative"
  else
    match parseTenantModelLimits (sr_ModelLimits o) with
    | Err e => failed_with e
    | Ok modelLimits =>
        if bad_class (sr_PriorityClass o) then failed_with class_refused
        else
          gated_if priority_flags Objectives "set ratelimit" (
            client ← NewLoxiClient restOptions;
            answered (colon "set ratelimit")
              (Create (Client.AITenantRatelimit client)
                 (ai_tenant_rate_limit_mod_json (rate_limit_request changed o modelLimits)))
              (verbatim_answer "set ratelimit"
                 (say (sprintf ["Rate limit for tenant '"; sr_TenantID o; "' set."; nl]))))
    end.

Definition set_apikey (o : SetAPIKeyOptions) (args : list string) : IO outcome :=
  match args with
  | [key] =>
      if negb (existsb changed setAPIKeyFlags)
      then fail_with (Usagef ("set at least one of --" +:+ join ", --" setAPIKeyFlags))
      else if bad_class (sk_PriorityClass o) then failed_with class_refused
      else
        gated_if priority_flags Objectives "set apikey" (
          client ← NewLoxiClient restOptions;
          answered (colon "set apikey")
            (Update (SubResources (Client.AIApiKey client) [key])
               (ai_api_key_patch_request_json (apiKeyPatch changed o)))
            (verbatim_answer "set apikey" (say (sprintf ["API key '"; key; "' updated."; nl]))))
  | _ => fail_with (Usagef "set apikey needs <KEY-ID> arg")
  end.

Definition set_metrics (enable disable : bool) : IO outcome :=
  if Bool.eqb enable disable
  then fail_with (Usagef "specify exactly one of --enable or --disable")
  else
    client ← NewLoxiClient restOptions;
    answered (colon "set metrics")
      (if enable then Create (Client.Metrics client) no_body else Delete (Client.Metrics client))
      (managed_answer [200; 204]%Z "set metrics"
         (say (sprintf ["Prometheus metrics "; if enable then "enabled." else "disabled."; nl]))).

Definition set_gpu (enable disable cleanup : bool) (maxAgeHours : Z) : IO outcome :=
  if negb (exactly_one [enable; disable; cleanup])
  then fail_with (Usagef "specify exactly one of --enable, --disable, or --cleanup")
  else
    client ← NewLoxiClient restOptions;
    if enable
    then reportPost (Create (SubResources (Client.GPU client) ["enable"]) no_body)
           "GPU-aware load balancing enabled."
    else if disable
    then reportPost (Create (SubResources (Client.GPU client) ["disable"]) no_body)
           "GPU-aware load balancing disabled."
    else
      let gpu := SubResources (Client.GPU client) ["conversations"; "cleanup"] in
      let gpu := if changed "max-age-hours" then Query gpu [("max_age_hours", itoa maxAgeHours)] else gpu in
      reportPost (Create gpu no_body) "Conversation cleanup completed.".

Definition set_pii (o : SetPIIOptions) : IO outcome :=
  if negb (exactly_one [pi_enable o; pi_disable o; pi_configure o; pi_urlPatterns o])
  then fail_with (Usagef "specify exactly one of --enable, --disable, --configure, or --url-patterns")
  else
    client ← NewLoxiClient restOptions;
    if pi_enable o || pi_disable o
    then reportPost (Create (SubResources (Client.PII client) ["enable"])
                       (pii_enable_request_json {| pie_Enabled := pi_enable o |}))
           (if pi_enable o then "PII detection enabled." else "PII detection disabled.")
    else if pi_configure o
    then reportPost (Create (SubResources (Client.PII client) ["configure"])
                       (pii_config_entry_json (pii_config changed o)))
           "PII configuration updated."
    else if is_empty (pi_urlMode o)
    then fail_with (Usagef "--url-mode is required with --url-patterns (add, replace, or clear)")
    else reportPost (Create (SubResources (Client.PII client) ["url-patterns"])
                       (piiurl_patterns_entry_json (pii_patterns o)))
           "PII URL patterns updated.".

Definition set_llamafirewall (o : SetLlamaFirewallOptions) : IO outcome :=
  if negb (exactly_one [lf_enable o; lf_disable o; lf_configure o; lf_scanners o; lf_health o])
  then fail_with (Usagef
         "specify exactly one of --enable, --disable, --configure, --scanners, or --health")
  else
    client ← NewLoxiClient restOptions;
    let post := fun sub doc => reportPost (Create (SubResources (Client.LlamaFirewall client) [sub]) doc) in
    if lf_enable o || lf_disable o
    then post "enable" (llama_firewall_enable_request_json {| lfe_Enabled := lf_enable o |})
           (if lf_enable o then "LlamaFirewall scanning enabled." else "LlamaFirewall scanning disabled.")
    else if lf_configure o
    then post "configure" (llama_firewall_config_entry_json (llamafirewall_config changed o))
           "LlamaFirewall configuration updated."
    else if lf_scanners o
    then post "scanners" (llama_firewall_scanners_entry_json (llamafirewall_scanners changed o))
           "LlamaFirewall scanners updated."
    else post "health" no_body "LlamaFirewall health check completed.".

Definition set_trace (o : SetTraceOptions) : IO outcome :=
  if negb (exactly_one [tr_enable o; tr_disable o; tr_otlp o])
  then fail_with (Usagef "specify exactly one of --enable, --disable, or --otlp")
  else
    client ← NewLoxiClient restOptions;
    let post := fun sub doc => reportPost (Create (SubResources (Client.Trace client) [sub]) doc) in
    if tr_enable o then post "enable" no_body "HTTP/HTTPS tracing enabled."
    else if tr_disable o then post "disable" no_body "HTTP/HTTPS tracing disabled."
    else if is_empty (tr_endpoint o) || is_empty (tr_protocol o)
    then fail_with (Usagef "--otlp requires --otlp-endpoint and --otlp-protocol")
    else
      match trace_config changed o with
      | Err e => failed_with e
      | Ok cfg => post "otlp" (trace_otlp_config_json cfg) "OTLP endpoint configured."
      end.

Definition set_l4trace (enable disable resetStats : bool) (samplingRate : Z) : IO outcome :=
  let rateChanged := changed "sampling-rate" in
  if negb (exactly_one [enable; disable; resetStats]
           || negb (enable || disable || resetStats) && rateChanged)
  then fail_with (Usagef
         "specify exactly one of --enable, --disable, --sampling-rate, or --reset-stats")
  else
    client ← NewLoxiClient restOptions;
    if enable
    then reportPost (Create (SubResources (Client.L4Trace client) ["enable"])
                       (l4_trace_enable_request_json
                          {| l4e_SamplingRate := if rateChanged then Some samplingRate else None |}))
           "L4 connection tracing enabled."
    else if disable
    then reportPost (Create (SubResources (Client.L4Trace client) ["disable"]) no_body)
           "L4 connection tracing disabled."
    else if resetStats
    then reportPost (Create (SubResources (Client.L4Trace client) ["stats"; "reset"]) no_body)
           "L4 tracing statistics reset."
    else reportPost (Put (SubResources (Client.L4Trace client) ["sampling"])
                       (l4_trace_sampling_request_json {| l4s_SamplingRate := samplingRate |}))
           (sprintf ["L4 sampling rate updated to "; itoa samplingRate; "%."]).

Definition dpu_action (action plugin mode : string) : result CLIError DPUDebugAction :=
  _ ← (if streq action "unregister" then
         reject (is_empty plugin) with_ Usagef "--plugin is required for --action unregister";; Ok tt
       else if streq action "cb_force" then
         reject (negb (str_in mode ["open"; "close"]))
           with_ Invalidf "--mode must be open or close for --action cb_force";; Ok tt
       else Err (Usagef "--action must be unregister or cb_force"));
  Ok {| dpa_Action := action; dpa_Plugin := plugin; dpa_Mode := mode |}.

Definition set_dpu (action plugin mode : string) : IO outcome :=
  match dpu_action action plugin mode with
  | Err e => fail_with e
  | Ok req =>
      client ← NewLoxiClient restOptions;
      reportPost (Create (SubResources (Client.DPU client) ["debug"]) (dpu_debug_action_json req))
        (sprintf ["DPU debug action '"; action; "' executed."])
  end.

Definition set_opa (cfg : OPAWatcherConfig) : IO outcome :=
  if is_empty (owc_OpaURL cfg) then fail_with (Usagef "--opa-url is required")
  else
    client ← NewLoxiClient restOptions;
    reportPost (Create (Client.OPA client) (opa_watcher_config_json cfg))
      "OPA policy watcher configured and started.".

(** The parent. *)
Definition SetParamCmd (args : list string) : IO outcome :=
  fail_with (Usagef (match args with
                     | [] => "set needs a subcommand"
                     | a :: _ => sprintf ["unknown command "; quote a; " for ";
                                          dquote; "loxicmd set"; dquote]
                     end)).

(** The commands of the lifecycle; cobra has seen to the number of arguments. *)
Definition set_maintenance (drainTimeout : uint32) (args : list string) : IO outcome :=
  with_arg args 0 (mret Panics) (fun a =>
    match (if streq a "on" then Some true else if streq a "off" then Some false else None) with
    | None =>
        mret (Returns (Some (ELifecycle (lifecycle_error ReasonInvalidArguments
                (sprintf ["maintenance takes on or off, not "; quote a])))))
    | Some enable =>
        err ← MaintenanceSet restOptions (OptionsFrom restOptions false)
                {| mo_Enable := enable; mo_DrainTimeoutSeconds := drainTimeout |};
        mret (Returns err)
    end).

Definition set_auditsink (opts : AuditSinkSetOptions) (args : list string) : IO outcome :=
  let jsonOut := streq (ro_PrintOption restOptions) "json" in
  err ← match args with
        | [name] => AuditNamedSinkSet restOptions jsonOut name opts
        | _ => AuditSinkSet restOptions jsonOut opts
        end;
  mret (Returns err).

End Commands.
