(* ===== verification/LoginCmds.v ===== *)
(** * Sessions: [set login], [set logout] and [set refresh]

    [cmd/set/set_login.go].  The tokens of a session are two files under /tmp;
    the root command ([Session]) reads the first before every command. *)
From S2P Require Import Prelude GoStrings Json JsonPrint Fields World Errors Exitcode Rest.
From S2P Require Import SecretFile Session FeatureGate Commands AiModel.

(** [os.WriteFile]: the file is emptied or made, written and closed. *)
Definition write_file (path data : string) (perm : Z) : IO (option string) :=
  err ← perform (OpOpen path false perm);
  match (err : option string) with
  | Some e => mret (Some e)
  | None =>
      err ← perform (OpWrite path data);
      err1 ← perform (OpClose path);
      mret (match (err : option string) with Some e => Some e | None => err1 : option string end)
  end.

(** [reader.ReadString] after a prompt; a line that breaks off is an error. *)
Definition prompt (text : string) : IO (result string string) :=
  _ ← say text;
  line ← perform OpReadLine;
  mret (match (line : result string string) with Ok l => Ok (trim_space l) | Err e => Err e end).

(** [fmt.Errorf] of an error of the terminal. *)
Definition terminal_error (what e : string) : goerror :=
  EWrap (sprintf [what; " error: "; e]) (EText e).

(** The body of a request that has none. *)
Definition nil_body : gojson := go_nil.

Section Login.
Context `{GoLib}.
Variable restOptions : RESTOptions.

Definition ReadSetLogInOptions (userID password : string) : LoginModel :=
  {| lgm_Username := userID; lgm_Password := password |}.

Definition LoginAPICall (loginModel : LoginModel) : IO http_result :=
  client ← NewLoxiClient restOptions;
  Create (Client.Login client) (login_model_json loginModel).

Definition LogOutAPICall : IO http_result :=
  client ← NewLoxiClient restOptions;
  Create (SetUrl (Client.Login client) "/auth/logout") nil_body.

Definition RefreshTokenAPICall (token refreshtoken : string) : IO http_result :=
  client ← NewLoxiClient restOptions;
  Get (Query (SetUrl (Client.Login client) "oauth/google/token")
         [("token", token); ("refreshtoken", refreshtoken)]).

(** Whatever fails here is said, and the command ends with status 0. *)
Definition PrintAndSaveTokenResult (resp : http_response) : IO unit :=
  match hr_body_error resp with
  | Some e => say (sprintf ["Error: Failed to read HTTP response: ("; e; ")"; nl])
  | None =>
      match unmarshal TokenModel (hr_body resp) with
      | None => say (sprintf ["Error: Failed to unmarshal HTTP response: (";
                              json_text "Unmarshal" (hr_body resp); ")"; nl])
      | Some token =>
          if is_empty (tkm_Token token)
          then say (sprintf ["Error: Failed to get token Please check your ID or Password"; nl])
          else
            err ← write_file SessionTokenPath (tkm_Token token) 384;
            match (err : option string) with
            | Some e => say (sprintf ["Error: Failed to write token to file: ("; e; ")"; nl])
            | None =>
                if streq (ro_PrintOption restOptions) "json"
                then say (default "" (marshal_indent_by "    " (token_model_json token)) +:+ nl)
                else say (sprintf ["Login Success"; nl])
            end
      end
  end.

(** A token typed by the user becomes the token of the session. *)
Definition save_typed (path token : string) (k : IO outcome) : IO outcome :=
  err ← write_file path token 384;
  match (err : option string) with
  | Some e => fail_with (cli_error Failed (sprintf ["Failed to write token to file: ("; e; ")"]) "" "")
  | None => k
  end.

Definition asked_for (what text : string) (k : string -> IO outcome) : IO outcome :=
  r ← prompt text;
  match (r : result string string) with
  | Err e => mret (Returns (Some (terminal_error what e)))
  | Ok v => k v
  end.

Definition login_succeeded : IO outcome := _ ← say (sprintf ["Login Success"; nl]); succeed.

Definition login_password : IO outcome :=
  asked_for "ID" "Enter ID: " (fun userID =>
    _ ← say "Enter Password: ";
    r ← perform OpReadPassword;
    match (r : result string string) with
    | Err e => mret (Returns (Some (terminal_error "password" e)))
    | Ok password =>
        answered (colon "set login") (LoginAPICall (ReadSetLogInOptions userID password)) (fun resp =>
          if (hr_status resp =? 200)%Z
          then _ ← PrintAndSaveTokenResult resp; succeed
          else fail_with (FromHTTPStatus "set login" (hr_status resp)))
    end).

Definition google_notice : string :=
  sprintf ["This process is how to log in with Google oauth. When you log in to the GUI you can get a ";
           "token (access token) and a refresh token. After that, it is a registration process."; nl].

Definition login_google : IO outcome :=
  _ ← say google_notice;
  asked_for "access token" "Enter Access Token: " (fun AccessToken =>
    asked_for "refresh token" "Enter Refresh Token: " (fun RefreshToken =>
      save_typed SessionTokenPath AccessToken (
        save_typed SessionRefreshTokenPath RefreshToken login_succeeded))).

Definition login_manual : IO outcome :=
  asked_for "access token" "Enter Access Token: " (fun AccessToken =>
    save_typed SessionTokenPath AccessToken login_succeeded).

Definition set_login (Provider : string) : IO outcome :=
  if is_empty Provider then login_password
  else if streq Provider "google" then login_google
  else if streq Provider "manual" then login_manual
  else failed_with "Invalid provider name".

(** The end of a session: the files go, or it is said that they do not. *)
Definition PrintAndRemoveTokenResult : IO unit :=
  err ← perform (OpRemove SessionTokenPath);
  match (err : option string) with
  | Some e => say (sprintf ["Error: Failed to remove token file: ("; e; ")"; nl])
  | None => say (sprintf ["Logout Success"; nl])
  end.

Definition PrintAndRemoveRefreshTokenResult : IO unit :=
  err ← perform (OpRemove SessionRefreshTokenPath);
  match (err : option string) with
  | Some e => say (sprintf ["Error: Failed to remove refreshtoken file: ("; e; ")"; nl])
  | None => mret tt
  end.

Definition set_logout (Provider : string) : IO outcome :=
  if is_empty Provider then
    answered (colon "set logout") LogOutAPICall (fun resp =>
      if (hr_status resp =? 200)%Z
      then _ ← PrintAndRemoveTokenResult; succeed
      else fail_with (FromHTTPStatus "set logout" (hr_status resp)))
  else if streq Provider "google" then
    _ ← PrintAndRemoveRefreshTokenResult; _ ← PrintAndRemoveTokenResult; succeed
  else if streq Provider "manual" then _ ← PrintAndRemoveTokenResult; succeed
  else failed_with "Invalid provider name".

(** A file of the session, as it is. *)
Definition session_file (what path : string) (k : string -> IO outcome) : IO outcome :=
  r ← read_file path;
  match (r : result os_error string) with
  | Err e => fail_with (cli_error Precondition
               (sprintf ["Failed to read "; what; " file: ("; os_text e; ")"]) "" "")
  | Ok content => k content
  end.

Definition set_refresh (Provider : string) : IO outcome :=
  if streq Provider "google" then
    session_file "token" SessionTokenPath (fun token =>
      session_file "refreshtoken" SessionRefreshTokenPath (fun refreshtoken =>
        answered (colon "set refresh") (RefreshTokenAPICall token refreshtoken) (fun resp =>
          if (hr_status resp =? 200)%Z
          then _ ← PrintAndSaveTokenResult resp; succeed
          else
            let ce := FromHTTPStatus "set refresh" (hr_status resp) in
            fail_with (if (hr_status resp =? 403)%Z
                       then with_message ce "Failed to refresh token. Please login again"
                       else ce))))
  else failed_with "Invalid provider name".

End Login.
