(* ===== verification/AiCmds.v ===== *)
(** * The create commands of the services: [cmd/create]

    API keys, certificates, JWT profiles, network identities and objectives,
    and the two create commands of the lifecycle. *)
From S2P Require Import Prelude GoStrings GoNet Json JsonPrint Floats Fields World Errors Exitcode.
From S2P Require Import Rest FeatureGate Commands NetModel AiModel SetCmds.
From S2P Require Import Lifecycle LifecycleCmds.

(** One of the words of a flag, or nothing. *)
Definition word_check (flag value : string) (allowed : list string) : result string unit :=
  reject (negb (is_empty value) && negb (existsb (streq value) allowed))
    with_ sprintf [flag; " must be one of "; join "|" allowed];; Ok tt.

Definition contract_mismatch (message : string) (status : Z) : CLIError :=
  with_http_status (cli_error ContractMismatch message "gateway" "") status.

Section Commands.
Context `{GoLib}.
Variable restOptions : RESTOptions.

(* ------------------------------------------------------------------ *)
(** ** API keys                                                        *)
(* ------------------------------------------------------------------ *)

Record CreateAPIKeyOptions : Type := {
  ca_TenantID : string;
  ca_Name : string;
  ca_AllowedModels : list string;
  ca_Rps : Z;
  ca_Burst : Z;
  ca_TokensPerMin : Z;
  ca_ExpiresAt : string;
  ca_Enabled : bool;
  ca_APIKeyFile : string;
  ca_APIKeyStdin : bool;
  ca_PriorityClass : string;
  ca_DefaultObjective : string;
  ca_AllowedObjectives : list string;
  ca_ClientOpID : string
}.

Definition minImportedAPIKeyLength : Z := 16.
Definition maxImportedAPIKeyLength : Z := 512.

(** What is read is a key: its length and its characters. *)
Definition imported_key (b : string) : result CLIError string :=
  let key := trim_space b in
  reject ((slen key <? minImportedAPIKeyLength)%Z || (maxImportedAPIKeyLength <? slen key)%Z)
    with_ Invalidf (sprintf ["imported API key must be between "; itoa minImportedAPIKeyLength; " and ";
                             itoa maxImportedAPIKeyLength; " characters"]);;
  reject (negb (forallb (fun a => in_range 33 126 (zbyte a)) (bytes key)))
    with_ Invalidf "imported API key must contain only printable non-space ASCII characters";;
  Ok key.

Definition key_unread (what e : string) : CLIError := cli_error Precondition (what +:+ e) "" "".

(** The key and whether it was imported. *)
Definition readImportedAPIKey (o : CreateAPIKeyOptions) : IO (result CLIError (string * bool)) :=
  let imported := fun r : result string string =>
    mret (match r with
          | Err e => Err (key_unread "read imported API key: " e)
          | Ok b => key ← imported_key b; Ok (key, true)
          end) in
  let limit := (maxImportedAPIKeyLength + 2)%Z in
  if negb (is_empty (ca_APIKeyFile o)) && ca_APIKeyStdin o
  then mret (Err (Usagef "--api-key-file and --api-key-stdin are mutually exclusive"))
  else if is_empty (ca_APIKeyFile o) && negb (ca_APIKeyStdin o) then mret (Ok ("", false))
  else if negb (is_empty (ca_APIKeyFile o)) then
    r ← perform (OpReadPrefix (ca_APIKeyFile o) limit);
    match (r : result string (result string string)) with
    | Err e => mret (Err (key_unread "read API key file: " e))
    | Ok r => imported r
    end
  else
    r ← perform (OpReadStdin limit); imported r.

Definition api_key_request (o : CreateAPIKeyOptions) (importedKey : string) : AIApiKeyCreateRequest :=
  {| akc_TenantID := ca_TenantID o; akc_Name := ca_Name o; akc_APIKey := importedKey;
     akc_AllowedModels := ca_AllowedModels o; akc_RateLimitRps := ca_Rps o;
     akc_BurstSize := ca_Burst o; akc_TokensPerMin := ca_TokensPerMin o;
     akc_ExpiresAt := ca_ExpiresAt o; akc_Enabled := Some (ca_Enabled o);
     akc_PriorityClass := ca_PriorityClass o; akc_DefaultObjective := ca_DefaultObjective o;
     akc_AllowedObjectives := ca_AllowedObjectives o; akc_ClientOpID := ca_ClientOpID o |}.

(** A key that was imported is never printed, whatever the gateway answers. *)
Definition without_raw_key (r : AIApiKeyCreateResponse) : AIApiKeyCreateResponse :=
  {| akr_RawKey := ""; akr_KeyID := akr_KeyID r; akr_Reused := akr_Reused r |}.

Definition create_result_text (result : AIApiKeyCreateResponse) (imported : bool) (printOption : string)
    : list string :=
  let result := if imported then without_raw_key result else result in
  if streq printOption "json"
  then [default "" (marshal_indent_by "    " (ai_api_key_create_response_json result)) +:+ nl]
  else if imported
  then sprintf ["API key imported."; nl; "  key_id : "; akr_KeyID result; nl]
       :: (if akr_Reused result then [sprintf ["  reused : true"; nl]] else [])
  else if akr_Reused result
  then [sprintf ["API key reused: an earlier create with this client op ID made it."; nl;
                 "  key_id : "; akr_KeyID result; nl; "  raw_key: "; akr_RawKey result; nl;
                 "The earlier secret no longer authenticates. Store the raw_key now - it will not be ";
                 "shown again."; nl]]
  else [sprintf ["API key created."; nl; "  key_id : "; akr_KeyID result; nl;
                 "  raw_key: "; akr_RawKey result; nl;
                 "Store the raw_key now - it will not be shown again."; nl]].

(** Texts to an [io.Writer]; the first error ends it and is the command's. *)
Fixpoint print_texts (l : list string) : IO outcome :=
  match l with
  | [] => succeed
  | s :: l' =>
      err ← write_out s;
      match (err : option string) with
      | Some e => mret (Returns (Some (EText e)))
      | None => print_texts l'
      end
  end.

Definition printCreateAPIKeyResult (result : AIApiKeyCreateResponse) (imported : bool) : IO outcome :=
  print_texts (create_result_text result imported (ro_PrintOption restOptions)).

Definition apikey_refused (tenant : string) (status : Z) (body : string) : CLIError :=
  let e := NewAPIError status body in
  with_message (FromHTTPStatus "create apikey" status)
    (if (status =? 400)%Z || (status =? 409)%Z then Verbatim e
     else if (status =? 504)%Z
     then sprintf [api_error_text e; "; the key may exist: read it back (get apikey --tenant-id=";
                   tenant; ") before retrying"]
     else api_error_text e).

Definition apikey_answer (o : CreateAPIKeyOptions) (imported : bool) (resp : http_response)
    : IO outcome :=
  let status := hr_status resp in
  let body := hr_body resp in
  if negb (status_in [200; 201]%Z status) then fail_with (apikey_refused (ca_TenantID o) status body)
  else
    match unmarshal AIApiKeyCreateResponse body with
    | None => fail_with (contract_mismatch
                (sprintf ["Failed to unmarshal HTTP response: ("; json_text "Unmarshal" body; ")"]) status)
    | Some result => printCreateAPIKeyResult result imported
    end.

Definition create_apikey (o : CreateAPIKeyOptions) : IO outcome :=
  if is_empty (ca_TenantID o) then fail_with (Usagef "--tenant-id is required")
  else if negb (is_empty (ca_PriorityClass o)) && negb (IsPriorityClass (ca_PriorityClass o))
  then failed_with ("--priority-class must be one of " +:+ join "|" PriorityClasses)
  else
    gated_if restOptions
      (negb (is_empty (ca_PriorityClass o)) || negb (is_empty (ca_DefaultObjective o))
       || match ca_AllowedObjectives o with [] => false | _ => true end)
      Objectives "create apikey" (
      r ← readImportedAPIKey o;
      match (r : result CLIError (string * bool)) with
      | Err e => fail_with e
      | Ok (importedKey, imported) =>
          client ← NewLoxiClient restOptions;
          answered (colon "create apikey")
            (Create (Client.AIApiKey client)
               (ai_api_key_create_request_json (api_key_request o importedKey)))
            (apikey_answer o imported)
      end).

(* ------------------------------------------------------------------ *)
(** ** Certificates                                                    *)
(* ------------------------------------------------------------------ *)

Record CreateCertOptions : Type := {
  cc_CertID : string;
  cc_CertFile : string;
  cc_KeyFile : string;
  cc_ChainFile : string;
  cc_Usage : string
}.

Definition CertUsageServer : string := "server".
Definition CertUsageCA : string := "ca".
Definition CertUsageClient : string := "client".

Definition certCreateBody (o : CreateCertOptions) (certPem keyPem chainPem : string)
    : result CLIError gojson :=
  if str_in (cc_Usage o) [""; CertUsageServer; CertUsageClient] then
    reject (is_empty (cc_KeyFile o)) with_ Usagef "--cert-file and --key-file are required";;
    Ok (cert_model_json {| crt_CertID := cc_CertID o; crt_Usage := cc_Usage o; crt_CertPem := certPem;
                           crt_KeyPem := keyPem; crt_ChainPem := chainPem; crt_Hostnames := [] |})
  else if streq (cc_Usage o) CertUsageCA then
    reject (negb (is_empty (cc_KeyFile o)))
      with_ Usagef "--usage ca takes a certificate bundle and no --key-file";;
    Ok (ca_cert_model_json {| cca_CertID := cc_CertID o; cca_Usage := cc_Usage o; cca_CertPem := certPem;
                              cca_KeyPem := ""; cca_ChainPem := chainPem |})
  else Err (Usagef "--usage must be one of server|ca|client").

Record created_cert : Type := { cd_CertID : string }.
#[global] Instance created_cert_value : GoValue created_cert := {|
  go_zero := {| cd_CertID := "" |};
  go_into strict old := decode_struct strict ["certId"] old (fun ms =>
    i ← field strict ms "certId" (cd_CertID old); Some {| cd_CertID := i |}) |}.

Definition certCreatedID (body requested : string) : string :=
  match unmarshal created_cert body with
  | Some created => if is_empty (cd_CertID created) then requested else cd_CertID created
  | None => requested
  end.

(** A file that is named is read. *)
Definition read_pem (flag path : string) : IO (result CLIError string) :=
  if is_empty path then mret (Ok "")
  else
    r ← read_file path;
    mret (match (r : result os_error string) with
          | Ok pem => Ok pem
          | Err e => Err (cli_error Precondition (sprintf ["reading --"; flag; ": "; os_text e]) "" "")
          end).

Definition cert_files (o : CreateCertOptions) : IO (result CLIError gojson) :=
  let* certPem := read_pem "cert-file" (cc_CertFile o) in
  let* keyPem := read_pem "key-file" (cc_KeyFile o) in
  let* chainPem := read_pem "chain-file" (cc_ChainFile o) in
  mret (certCreateBody o certPem keyPem chainPem).

Definition cert_created (id : string) : string :=
  if is_empty id then sprintf ["Certificate created."; nl]
  else sprintf ["Certificate '"; id; "' created."; nl].

Definition create_cert (o : CreateCertOptions) : IO outcome :=
  if is_empty (cc_CertFile o) then fail_with (Usagef "--cert-file is required")
  else
    match certCreateBody o "" "" "" with
    | Err e => fail_with e
    | Ok _ =>
        r ← cert_files o;
        match (r : result CLIError gojson) with
        | Err e => fail_with e
        | Ok model =>
            client ← NewLoxiClient restOptions;
            answered (colon "create cert") (Create (Client.Cert client) model) (fun resp =>
              managed_answer [200; 201]%Z "create cert"
                (say (cert_created (certCreatedID (hr_body resp) (cc_CertID o)))) resp)
        end
    end.

(* ------------------------------------------------------------------ *)
(** ** The commands of a feature                                       *)
(* ------------------------------------------------------------------ *)

(** A document decoded into an [any] and written again: its numbers as [float64],
    its members in the order of their keys, the last of a key. *)
Fixpoint insert_member {A} (m : string * A) (l : list (string * A)) : list (string * A) :=
  match l with
  | [] => [m]
  | m' :: l' =>
      if streq m.1 m'.1 then m :: l'
      else if String.leb m.1 m'.1 then m :: l else m' :: insert_member m l'
  end.

Fixpoint any_json (j : json) : gojson :=
  match j with
  | JNull => go_nil
  | JBool b => GBool b
  | JNum lit => GRaw (literal_again lit)
  | JStr s => GStr s
  | JArr l => GArr (any_json <$> l)
  | JObj ms =>
      GObj (fold_left (fun l m => insert_member m l)
              ((fun m : string * json => (m.1, any_json m.2)) <$> ms) [])
  end.

Definition unmarshal_any (body : string) : option json :=
  j ← parse_document body; if floats_ok j then Some j else None.

Definition printOperationResult (body : string) : IO outcome :=
  if streq (ro_PrintOption restOptions) "json" then
    match unmarshal_any body with
    | None => fail_with (cli_error ContractMismatch ("decode response: " +:+ json_text "Unmarshal" body)
                           "gateway" "")
    | Some doc => print_texts [default "" (marshal_indent_by "    " (any_json doc)) +:+ nl]
    end
  else
    print_texts [match unmarshal result_body body with
                 | Some r => if is_empty (rb_Result r) then trim_space body else rb_Result r
                 | None => trim_space body
                 end +:+ nl].

(** The post of an entry behind its gate. *)
Definition feature_post (op feature : string) (api : LoxiClient -> CommonAPI) (doc : gojson)
    : IO outcome :=
  client ← NewLoxiClient restOptions;
  answered (colon op) (Create (api client) doc) (fun resp =>
    if negb (status_in [200; 201]%Z (hr_status resp))
    then fail_with (classify_feature op feature (hr_status resp) (hr_body resp))
    else printOperationResult (hr_body resp)).

Definition create_objective (Priority : int32) (Services args : list string) : IO outcome :=
  match args with
  | [name] =>
      gated restOptions Objectives "create objective"
        (feature_post "create objective" Objectives Client.AIObjective
           (ai_objective_entry_json {| obe_Name := name; obe_Services := Services;
                                       obe_Priority := Priority; obe_UpdatedAt := "" |}))
  | _ => fail_with (Usagef "create objective needs <NAME> arg")
  end.

Record CreateNetIdentityOptions : Type := {
  cn_Tenant : string;
  cn_Cidr : list string;
  cn_IngressIf : string;
  cn_Vlan : uint32;
  cn_Vni : uint32;
  cn_IpsecTunnel : string;
  cn_Services : list string;
  cn_AllowedModels : list string;
  cn_Enforce : string;
  cn_Credential : string;
  cn_ForwardIdentity : bool;
  cn_PriorityClass : string;
  cn_FailMode : string
}.

Definition NetIdentityEnforceModes : list string := ["advisory"; "strict"].
Definition NetIdentityCredentials : list string := ["none"; "network"].
Definition NetIdentityFailModes : list string := ["neutral"; "closed"].
Definition netIdentityVlanCeiling : Z := 4094.
Definition netIdentityVniCeiling : Z := 16777215.

(** [net.ParseCIDR] and [To4]: a network of IPv4, also one in the form of IPv6. *)
Definition is_ipv4_cidr (s : string) : bool :=
  is_cidr s
  && match split_first "/"%char s with
     | Some (ip, _) =>
         match ParseIP ip with Some b => eqb_list Z.eqb (take 12 b) v4_prefix | None => false end
     | None => false
     end.

Fixpoint cidr_checks (l : list string) : result string unit :=
  match l with
  | [] => Ok tt
  | cidr :: l' =>
      reject (negb (is_ipv4_cidr cidr))
        with_ sprintf ["--cidr "; quote cidr; " is not an IPv4 network in a.b.c.d/len form"];;
      cidr_checks l'
  end.

Definition validateNetIdentityOptions (o : CreateNetIdentityOptions) : result string unit :=
  _ ← word_check "--enforce" (cn_Enforce o) NetIdentityEnforceModes;
  _ ← word_check "--credential" (cn_Credential o) NetIdentityCredentials;
  _ ← word_check "--fail-mode" (cn_FailMode o) NetIdentityFailModes;
  _ ← word_check "--priority-class" (cn_PriorityClass o) PriorityClasses;
  reject (netIdentityVlanCeiling <? u32 (cn_Vlan o))%Z
    with_ ("--vlan must be within 1.." +:+ itoa netIdentityVlanCeiling);;
  reject (netIdentityVniCeiling <? u32 (cn_Vni o))%Z
    with_ ("--vni must be within 1.." +:+ itoa netIdentityVniCeiling);;
  cidr_checks (cn_Cidr o).

Definition netIdentityEntry (name : string) (o : CreateNetIdentityOptions) : NetIdentityEntry :=
  {| nie_Name := name;
     nie_Match := {| nim_Cidr := cn_Cidr o; nim_IngressIf := cn_IngressIf o; nim_Vlan := cn_Vlan o;
                     nim_Vni := cn_Vni o; nim_IpsecTunnel := cn_IpsecTunnel o |};
     nie_Services := cn_Services o; nie_Tenant := cn_Tenant o;
     nie_AllowedModels := cn_AllowedModels o; nie_Enforce := cn_Enforce o;
     nie_Credential := cn_Credential o; nie_ForwardIdentity := cn_ForwardIdentity o;
     nie_PriorityClass := cn_PriorityClass o; nie_FailMode := cn_FailMode o |}.

Definition create_netidentity (o : CreateNetIdentityOptions) (args : list string) : IO outcome :=
  match args with
  | [name] =>
      if is_empty (cn_Tenant o) then fail_with (Usagef "--tenant is required")
      else
        match validateNetIdentityOptions o with
        | Err e => failed_with e
        | Ok _ =>
            gated restOptions NetIdentityFeature "create netidentity"
              (feature_post "create netidentity" NetIdentityFeature Client.AINetIdentity
                 (net_identity_entry_json (netIdentityEntry name o)))
        end
  | _ => fail_with (Usagef "create netidentity needs <NAME> arg")
  end.

Record CreateJWTAuthProfileOptions : Type := {
  cj_Issuer : string;
  cj_JwksURL : string;
  cj_Audiences : list string;
  cj_Algs : list string;
  cj_LeewaySec : Z;
  cj_RefreshSec : Z;
  cj_TenantClaim : string;
  cj_UserClaim : string;
  cj_ModelsClaim : string;
  cj_RolesClaim : string;
  cj_ModelRolePrefix : string;
  cj_UsernameClaim : string;
  cj_ModelAuthz : string;
  cj_DefaultTenant : string;
  cj_ForwardIdentity : bool;
  cj_AuthorizationPassthrough : bool;
  cj_PriorityClass : string
}.

Definition JWTAuthProfileModelAuthz : list string := ["claims-required"; "allow-all"].

Definition validateJWTAuthProfileOptions (o : CreateJWTAuthProfileOptions) : result string unit :=
  _ ← word_check "--model-authz" (cj_ModelAuthz o) JWTAuthProfileModelAuthz;
  word_check "--priority-class" (cj_PriorityClass o) PriorityClasses.

Definition jwtAuthProfileEntry (name : string) (o : CreateJWTAuthProfileOptions)
    : JWTAuthProfileEntry :=
  {| jpe_Name := name; jpe_Issuer := cj_Issuer o; jpe_JwksURL := cj_JwksURL o;
     jpe_Audiences := cj_Audiences o; jpe_Algs := cj_Algs o; jpe_LeewaySec := cj_LeewaySec o;
     jpe_RefreshSec := cj_RefreshSec o; jpe_TenantClaim := cj_TenantClaim o;
     jpe_UserClaim := cj_UserClaim o; jpe_ModelsClaim := cj_ModelsClaim o;
     jpe_RolesClaim := cj_RolesClaim o; jpe_ModelRolePrefix := cj_ModelRolePrefix o;
     jpe_UsernameClaim := cj_UsernameClaim o; jpe_ModelAuthz := cj_ModelAuthz o;
     jpe_DefaultTenant := cj_DefaultTenant o; jpe_ForwardIdentity := cj_ForwardIdentity o;
     jpe_AuthorizationPassthrough := cj_AuthorizationPassthrough o;
     jpe_PriorityClass := cj_PriorityClass o |}.

(** The answer of [/version] is kept from one gate to the next. *)
Definition gated_twice (feature1 op1 feature2 op2 : string) (second : bool) (k : IO outcome)
    : IO outcome :=
  gate ← Require restOptions feature1 op1 ∅;
  let '(err, cache) := (gate : option goerror * version_cache) in
  match err with
  | Some e => mret (Returns (Some e))
  | None =>
      if second then
        gate ← Require restOptions feature2 op2 cache;
        match (gate : option goerror * version_cache).1 with
        | Some e => mret (Returns (Some e))
        | None => k
        end
      else k
  end.

Definition create_jwtauthprofile (o : CreateJWTAuthProfileOptions) (args : list string) : IO outcome :=
  match args with
  | [name] =>
      if is_empty (cj_Issuer o) then fail_with (Usagef "--issuer is required")
      else
        match validateJWTAuthProfileOptions o with
        | Err e => failed_with e
        | Ok _ =>
            gated_twice JWTAuthProfileFeature "create jwtauthprofile"
              Objectives "create jwtauthprofile --priority-class" (negb (is_empty (cj_PriorityClass o)))
              (feature_post "create jwtauthprofile" JWTAuthProfileFeature Client.AIJWTAuthProfile
                 (jwt_auth_profile_entry_json (jwtAuthProfileEntry name o)))
        end
  | _ => fail_with (Usagef "create jwtauthprofile needs <NAME> arg")
  end.

(* ------------------------------------------------------------------ *)
(** ** The lifecycle                                                   *)
(* ------------------------------------------------------------------ *)

Definition create_restore (opts : RestoreOptions) (strict : bool) : IO outcome :=
  err ← LifecycleCmds.Restore restOptions (OptionsFrom restOptions strict) opts;
  mret (Returns err).

Definition create_persist (strict : bool) : IO outcome :=
  err ← LifecycleCmds.Persist restOptions (OptionsFrom restOptions strict) "create.persist";
  mret (Returns err).

End Commands.
