(* ===== verification/GetModel.v ===== *)
(** * What the gateway shows: connections, ports, clusters and its host

    The documents of [pkg/api] that are only read: [conntrack.go],
    [hastate.go], [status.go] and [port.go]. *)
From S2P Require Import Prelude GoStrings Json JsonPrint Floats Fields.

(** [[6]byte]: what an array does not name is zero, what is too much is dropped. *)
Record mac_array : Type := MacArray { mac_bytes : list uint8 }.

Fixpoint array_into (n : nat) (old : list uint8) (l : list json) : option (list uint8) :=
  match n, l with
  | O, _ => Some []
  | S n, [] => Some (replicate (S n) (U8 0))
  | S n, j :: l =>
      a ← go_into false (default (U8 0) (head old)) j;
      k ← array_into n (tail old) l; Some (a :: k)
  end.

#[global] Instance mac_array_value : GoValue mac_array := {|
  go_zero := MacArray (replicate 6 (U8 0));
  go_into _ old j :=
    match j with
    | JNull => Some old
    | JArr l => MacArray <$> array_into 6 (mac_bytes old) l
    | _ => None
    end |}.
Definition mac_array_json (a : mac_array) : gojson := GArr (uint8_json <$> mac_bytes a).

(** [conntrack.go]. *)
Record ConntrackInformation : Type := {
  cti_Dip : string;
  cti_Sip : string;
  cti_Dport : uint16;
  cti_Sport : uint16;
  cti_Proto : string;
  cti_Ident : string;
  cti_CState : string;
  cti_CAct : string;
  cti_Pkts : uint64;
  cti_Bytes : uint64;
  cti_ServName : string
}.
#[global] Instance conntrack_information_value : GoValue ConntrackInformation := {|
  go_zero := {| cti_Dip := ""; cti_Sip := ""; cti_Dport := U16 0; cti_Sport := U16 0;
                cti_Proto := ""; cti_Ident := ""; cti_CState := ""; cti_CAct := "";
                cti_Pkts := U64 0; cti_Bytes := U64 0; cti_ServName := "" |};
  go_into strict old := decode_struct strict
    ["destinationIP"; "sourceIP"; "destinationPort"; "sourcePort"; "protocol"; "ident";
     "conntrackState"; "conntrackAct"; "packets"; "bytes"; "servName"] old (fun ms =>
    x0 ← field strict ms "destinationIP" (cti_Dip old);
    x1 ← field strict ms "sourceIP" (cti_Sip old);
    x2 ← field strict ms "destinationPort" (cti_Dport old);
    x3 ← field strict ms "sourcePort" (cti_Sport old);
    x4 ← field strict ms "protocol" (cti_Proto old);
    x5 ← field strict ms "ident" (cti_Ident old);
    x6 ← field strict ms "conntrackState" (cti_CState old);
    x7 ← field strict ms "conntrackAct" (cti_CAct old);
    x8 ← field strict ms "packets" (cti_Pkts old);
    x9 ← field strict ms "bytes" (cti_Bytes old);
    x10 ← field strict ms "servName" (cti_ServName old);
    Some {| cti_Dip := x0; cti_Sip := x1; cti_Dport := x2; cti_Sport := x3; cti_Proto := x4;
            cti_Ident := x5; cti_CState := x6; cti_CAct := x7; cti_Pkts := x8; cti_Bytes := x9;
            cti_ServName := x10 |}) |}.
Definition conntrack_information_json (r : ConntrackInformation) : gojson :=
  GObj [("destinationIP", GStr (cti_Dip r));
        ("sourceIP", GStr (cti_Sip r));
        ("destinationPort", uint16_json (cti_Dport r));
        ("sourcePort", uint16_json (cti_Sport r));
        ("protocol", GStr (cti_Proto r));
        ("ident", GStr (cti_Ident r));
        ("conntrackState", GStr (cti_CState r));
        ("conntrackAct", GStr (cti_CAct r));
        ("packets", uint64_json (cti_Pkts r));
        ("bytes", uint64_json (cti_Bytes r));
        ("servName", GStr (cti_ServName r))].

Record CtInformationGet : Type := {
  ctg_CtInfo : option (list ConntrackInformation)
}.
#[global] Instance ct_information_get_value : GoValue CtInformationGet := {|
  go_zero := {| ctg_CtInfo := None |};
  go_into strict old := decode_struct strict
    ["ctAttr"] old (fun ms =>
    x0 ← field strict ms "ctAttr" (ctg_CtInfo old);
    Some {| ctg_CtInfo := x0 |}) |}.
Definition ct_information_get_json (r : CtInformationGet) : gojson :=
  GObj [("ctAttr", slice_json conntrack_information_json (ctg_CtInfo r))].

(** [hastate.go]. *)
Record HAStateInfo : Type := {
  has_Instance : string;
  has_State : string;
  has_Sync : option Z;
  has_Vip : string
}.
#[global] Instance ha_state_info_value : GoValue HAStateInfo := {|
  go_zero := {| has_Instance := ""; has_State := ""; has_Sync := None; has_Vip := "" |};
  go_into strict old := decode_struct strict
    ["instance"; "state"; "sync"; "vip"] old (fun ms =>
    x0 ← field strict ms "instance" (has_Instance old);
    x1 ← field strict ms "state" (has_State old);
    x2 ← field strict ms "sync" (has_Sync old);
    x3 ← field strict ms "vip" (has_Vip old);
    Some {| has_Instance := x0; has_State := x1; has_Sync := x2; has_Vip := x3 |}) |}.
Definition ha_state_info_json (r : HAStateInfo) : gojson :=
  GObj (omit_str "instance" (has_Instance r)
        ++ omit_str "state" (has_State r)
        ++ [("sync", match has_Sync r with None => go_nil | Some x => GInt x end)]
        ++ omit_str "vip" (has_Vip r)).

Record HAStateGet : Type := {
  hag_HAStateAttr : option (list HAStateInfo)
}.
#[global] Instance ha_state_get_value : GoValue HAStateGet := {|
  go_zero := {| hag_HAStateAttr := None |};
  go_into strict old := decode_struct strict
    ["Attr"] old (fun ms =>
    x0 ← field strict ms "Attr" (hag_HAStateAttr old);
    Some {| hag_HAStateAttr := x0 |}) |}.
Definition ha_state_get_json (r : HAStateGet) : gojson :=
  GObj [("Attr", slice_json ha_state_info_json (hag_HAStateAttr r))].

(** [status.go]. *)
Record Process : Type := {
  prc_Pid : string;
  prc_User : string;
  prc_Priority : string;
  prc_Nice : string;
  prc_VirtMemory : string;
  prc_ResidentSize : string;
  prc_SharedMemory : string;
  prc_Status : string;
  prc_CPUUsage : string;
  prc_MemoryUsage : string;
  prc_ProcessTime : string;
  prc_Command : string
}.
#[global] Instance process_value : GoValue Process := {|
  go_zero := {| prc_Pid := ""; prc_User := ""; prc_Priority := ""; prc_Nice := "";
                prc_VirtMemory := ""; prc_ResidentSize := ""; prc_SharedMemory := "";
                prc_Status := ""; prc_CPUUsage := ""; prc_MemoryUsage := "";
                prc_ProcessTime := ""; prc_Command := "" |};
  go_into strict old := decode_struct strict
    ["Pid"; "User"; "Priority"; "Nice"; "VirtMemory"; "ResidentSize"; "SharedMemory"; "Status";
     "CPUUsage"; "MemoryUsage"; "time"; "Command"] old (fun ms =>
    x0 ← field strict ms "Pid" (prc_Pid old);
    x1 ← field strict ms "User" (prc_User old);
    x2 ← field strict ms "Priority" (prc_Priority old);
    x3 ← field strict ms "Nice" (prc_Nice old);
    x4 ← field strict ms "VirtMemory" (prc_VirtMemory old);
    x5 ← field strict ms "ResidentSize" (prc_ResidentSize old);
    x6 ← field strict ms "SharedMemory" (prc_SharedMemory old);
    x7 ← field strict ms "Status" (prc_Status old);
    x8 ← field strict ms "CPUUsage" (prc_CPUUsage old);
    x9 ← field strict ms "MemoryUsage" (prc_MemoryUsage old);
    x10 ← field strict ms "time" (prc_ProcessTime old);
    x11 ← field strict ms "Command" (prc_Command old);
    Some {| prc_Pid := x0; prc_User := x1; prc_Priority := x2; prc_Nice := x3;
            prc_VirtMemory := x4; prc_ResidentSize := x5; prc_SharedMemory := x6;
            prc_Status := x7; prc_CPUUsage := x8; prc_MemoryUsage := x9; prc_ProcessTime := x10;
            prc_Command := x11 |}) |}.
Definition process_json (r : Process) : gojson :=
  GObj [("Pid", GStr (prc_Pid r));
        ("User", GStr (prc_User r));
        ("Priority", GStr (prc_Priority r));
        ("Nice", GStr (prc_Nice r));
        ("VirtMemory", GStr (prc_VirtMemory r));
        ("ResidentSize", GStr (prc_ResidentSize r));
        ("SharedMemory", GStr (prc_SharedMemory r));
        ("Status", GStr (prc_Status r));
        ("CPUUsage", GStr (prc_CPUUsage r));
        ("MemoryUsage", GStr (prc_MemoryUsage r));
        ("time", GStr (prc_ProcessTime r));
        ("Command", GStr (prc_Command r))].

Record ProcessGet : Type := {
  prg_ProcessAttr : option (list Process)
}.
#[global] Instance process_get_value : GoValue ProcessGet := {|
  go_zero := {| prg_ProcessAttr := None |};
  go_into strict old := decode_struct strict
    ["processAttr"] old (fun ms =>
    x0 ← field strict ms "processAttr" (prg_ProcessAttr old);
    Some {| prg_ProcessAttr := x0 |}) |}.
Definition process_get_json (r : ProcessGet) : gojson :=
  GObj [("processAttr", slice_json process_json (prg_ProcessAttr r))].

Record DeviceGet : Type := {
  dvg_HostName : string;
  dvg_MachineID : string;
  dvg_BootID : string;
  dvg_OS : string;
  dvg_Kernel : string;
  dvg_Architecture : string;
  dvg_Uptime : string
}.
#[global] Instance device_get_value : GoValue DeviceGet := {|
  go_zero := {| dvg_HostName := ""; dvg_MachineID := ""; dvg_BootID := ""; dvg_OS := "";
                dvg_Kernel := ""; dvg_Architecture := ""; dvg_Uptime := "" |};
  go_into strict old := decode_struct strict
    ["HostName"; "MachineID"; "BootID"; "OS"; "Kernel"; "Architecture"; "Uptime"] old (fun ms =>
    x0 ← field strict ms "HostName" (dvg_HostName old);
    x1 ← field strict ms "MachineID" (dvg_MachineID old);
    x2 ← field strict ms "BootID" (dvg_BootID old);
    x3 ← field strict ms "OS" (dvg_OS old);
    x4 ← field strict ms "Kernel" (dvg_Kernel old);
    x5 ← field strict ms "Architecture" (dvg_Architecture old);
    x6 ← field strict ms "Uptime" (dvg_Uptime old);
    Some {| dvg_HostName := x0; dvg_MachineID := x1; dvg_BootID := x2; dvg_OS := x3;
            dvg_Kernel := x4; dvg_Architecture := x5; dvg_Uptime := x6 |}) |}.
Definition device_get_json (r : DeviceGet) : gojson :=
  GObj [("HostName", GStr (dvg_HostName r));
        ("MachineID", GStr (dvg_MachineID r));
        ("BootID", GStr (dvg_BootID r));
        ("OS", GStr (dvg_OS r));
        ("Kernel", GStr (dvg_Kernel r));
        ("Architecture", GStr (dvg_Architecture r));
        ("Uptime", GStr (dvg_Uptime r))].

(** [port.go]. *)
Record PortStatsInfo : Type := {
  pts_RxBytes : uint64;
  pts_TxBytes : uint64;
  pts_RxPackets : uint64;
  pts_TxPackets : uint64;
  pts_RxError : uint64;
  pts_TxError : uint64
}.
#[global] Instance port_stats_info_value : GoValue PortStatsInfo := {|
  go_zero := {| pts_RxBytes := U64 0; pts_TxBytes := U64 0; pts_RxPackets := U64 0;
                pts_TxPackets := U64 0; pts_RxError := U64 0; pts_TxError := U64 0 |};
  go_into strict old := decode_struct strict
    ["rxBytes"; "txBytes"; "rxPackets"; "txPackets"; "rxErrors"; "txErrors"] old (fun ms =>
    x0 ← field strict ms "rxBytes" (pts_RxBytes old);
    x1 ← field strict ms "txBytes" (pts_TxBytes old);
    x2 ← field strict ms "rxPackets" (pts_RxPackets old);
    x3 ← field strict ms "txPackets" (pts_TxPackets old);
    x4 ← field strict ms "rxErrors" (pts_RxError old);
    x5 ← field strict ms "txErrors" (pts_TxError old);
    Some {| pts_RxBytes := x0; pts_TxBytes := x1; pts_RxPackets := x2; pts_TxPackets := x3;
            pts_RxError := x4; pts_TxError := x5 |}) |}.
Definition port_stats_info_json (r : PortStatsInfo) : gojson :=
  GObj [("rxBytes", uint64_json (pts_RxBytes r));
        ("txBytes", uint64_json (pts_TxBytes r));
        ("rxPackets", uint64_json (pts_RxPackets r));
        ("txPackets", uint64_json (pts_TxPackets r));
        ("rxErrors", uint64_json (pts_RxError r));
        ("txErrors", uint64_json (pts_TxError r))].

Record PortHwInfo : Type := {
  phw_MacAddr : mac_array;
  phw_MacAddrStr : string;
  phw_Link : bool;
  phw_State : bool;
  phw_Mtu : Z;
  phw_Master : string;
  phw_Real : string;
  phw_TunId : uint32
}.
#[global] Instance port_hw_info_value : GoValue PortHwInfo := {|
  go_zero := {| phw_MacAddr := go_zero; phw_MacAddrStr := ""; phw_Link := false;
                phw_State := false; phw_Mtu := 0; phw_Master := ""; phw_Real := "";
                phw_TunId := U32 0 |};
  go_into strict old := decode_struct strict
    ["rawMacAddress"; "macAddress"; "link"; "state"; "mtu"; "master"; "real"; "tunnelId"] old (fun ms =>
    x0 ← field strict ms "rawMacAddress" (phw_MacAddr old);
    x1 ← field strict ms "macAddress" (phw_MacAddrStr old);
    x2 ← field strict ms "link" (phw_Link old);
    x3 ← field strict ms "state" (phw_State old);
    x4 ← field strict ms "mtu" (phw_Mtu old);
    x5 ← field strict ms "master" (phw_Master old);
    x6 ← field strict ms "real" (phw_Real old);
    x7 ← field strict ms "tunnelId" (phw_TunId old);
    Some {| phw_MacAddr := x0; phw_MacAddrStr := x1; phw_Link := x2; phw_State := x3;
            phw_Mtu := x4; phw_Master := x5; phw_Real := x6; phw_TunId := x7 |}) |}.
Definition port_hw_info_json (r : PortHwInfo) : gojson :=
  GObj [("rawMacAddress", mac_array_json (phw_MacAddr r));
        ("macAddress", GStr (phw_MacAddrStr r));
        ("link", GBool (phw_Link r));
        ("state", GBool (phw_State r));
        ("mtu", GInt (phw_Mtu r));
        ("master", GStr (phw_Master r));
        ("real", GStr (phw_Real r));
        ("tunnelId", uint32_json (phw_TunId r))].

Record PortLayer3Info : Type := {
  pl3_Routed : bool;
  pl3_Ipv4_addrs : option (list string);
  pl3_Ipv6_addrs : option (list string)
}.
#[global] Instance port_layer3_info_value : GoValue PortLayer3Info := {|
  go_zero := {| pl3_Routed := false; pl3_Ipv4_addrs := None; pl3_Ipv6_addrs := None |};
  go_into strict old := decode_struct strict
    ["routed"; "IPv4Address"; "IPv6Address"] old (fun ms =>
    x0 ← field strict ms "routed" (pl3_Routed old);
    x1 ← field strict ms "IPv4Address" (pl3_Ipv4_addrs old);
    x2 ← field strict ms "IPv6Address" (pl3_Ipv6_addrs old);
    Some {| pl3_Routed := x0; pl3_Ipv4_addrs := x1; pl3_Ipv6_addrs := x2 |}) |}.
Definition port_layer3_info_json (r : PortLayer3Info) : gojson :=
  GObj [("routed", GBool (pl3_Routed r));
        ("IPv4Address", slice_json GStr (pl3_Ipv4_addrs r));
        ("IPv6Address", slice_json GStr (pl3_Ipv6_addrs r))].

Record PortLayer2Info : Type := {
  pl2_IsPvid : bool;
  pl2_Vid : Z
}.
#[global] Instance port_layer2_info_value : GoValue PortLayer2Info := {|
  go_zero := {| pl2_IsPvid := false; pl2_Vid := 0 |};
  go_into strict old := decode_struct strict
    ["isPvid"; "vid"] old (fun ms =>
    x0 ← field strict ms "isPvid" (pl2_IsPvid old);
    x1 ← field strict ms "vid" (pl2_Vid old);
    Some {| pl2_IsPvid := x0; pl2_Vid := x1 |}) |}.
Definition port_layer2_info_json (r : PortLayer2Info) : gojson :=
  GObj [("isPvid", GBool (pl2_IsPvid r));
        ("vid", GInt (pl2_Vid r))].

(** A port and the ports it is built on. *)
Inductive PortDump : Type := {
  pd_Name : string;
  pd_PortNo : Z;
  pd_Zone : string;
  pd_SInfo : PortSwInfo;
  pd_HInfo : PortHwInfo;
  pd_Stats : PortStatsInfo;
  pd_L3 : PortLayer3Info;
  pd_L2 : PortLayer2Info;
  pd_Sync : uint8
}
with PortSwInfo : Type := {
  psw_OsId : Z;
  psw_PortType : Z;
  psw_PortProp : uint8;
  psw_PortActive : bool;
  psw_PortReal : option PortDump;
  psw_PortOvl : option PortDump;
  psw_BpfLoaded : bool
}.

Definition zero_sw : PortSwInfo :=
  {| psw_OsId := 0; psw_PortType := 0; psw_PortProp := U8 0; psw_PortActive := false;
     psw_PortReal := None; psw_PortOvl := None; psw_BpfLoaded := false |}.
Definition zero_port : PortDump :=
  {| pd_Name := ""; pd_PortNo := 0; pd_Zone := ""; pd_SInfo := zero_sw; pd_HInfo := go_zero;
     pd_Stats := go_zero; pd_L3 := go_zero; pd_L2 := go_zero; pd_Sync := U8 0 |}.

(** How deep a document is nested: enough for its decoding, since every port
    inside a port is two objects deeper. *)
Fixpoint json_depth (j : json) : nat :=
  match j with
  | JArr l => S (list_max (List.map json_depth l))
  | JObj ms => S (list_max (List.map (fun m : string * json => json_depth m.2) ms))
  | _ => 0
  end.

Section Decode.
(** Decoding of a port inside a port. *)
Variable inner : GoValue PortDump.

Definition sw_info_value : GoValue PortSwInfo := {|
  go_zero := zero_sw;
  go_into strict old := decode_struct strict
    ["osId"; "portType"; "portProp"; "portActive"; "portReal"; "portOvl"; "bpfLoaded"] old (fun ms =>
    x0 ← field strict ms "osId" (psw_OsId old);
    x1 ← field strict ms "portType" (psw_PortType old);
    x2 ← field strict ms "portProp" (psw_PortProp old);
    x3 ← field strict ms "portActive" (psw_PortActive old);
    x4 ← field (H := go_pointer (H := inner)) strict ms "portReal" (psw_PortReal old);
    x5 ← field (H := go_pointer (H := inner)) strict ms "portOvl" (psw_PortOvl old);
    x6 ← field strict ms "bpfLoaded" (psw_BpfLoaded old);
    Some {| psw_OsId := x0; psw_PortType := x1; psw_PortProp := x2; psw_PortActive := x3;
            psw_PortReal := x4; psw_PortOvl := x5; psw_BpfLoaded := x6 |}) |}.

Definition port_value_step : GoValue PortDump := {|
  go_zero := zero_port;
  go_into strict old := decode_struct strict
    ["portName"; "portNo"; "zone"; "portSoftwareInformation"; "portHardwareInformation";
     "portStatisticInformation"; "portL3Information"; "portL2Information"; "DataplaneSync"] old (fun ms =>
    x0 ← field strict ms "portName" (pd_Name old);
    x1 ← field strict ms "portNo" (pd_PortNo old);
    x2 ← field strict ms "zone" (pd_Zone old);
    x3 ← field (H := sw_info_value) strict ms "portSoftwareInformation" (pd_SInfo old);
    x4 ← field strict ms "portHardwareInformation" (pd_HInfo old);
    x5 ← field strict ms "portStatisticInformation" (pd_Stats old);
    x6 ← field strict ms "portL3Information" (pd_L3 old);
    x7 ← field strict ms "portL2Information" (pd_L2 old);
    x8 ← field strict ms "DataplaneSync" (pd_Sync old);
    Some {| pd_Name := x0; pd_PortNo := x1; pd_Zone := x2; pd_SInfo := x3; pd_HInfo := x4;
            pd_Stats := x5; pd_L3 := x6; pd_L2 := x7; pd_Sync := x8 |}) |}.
End Decode.

Fixpoint port_value (depth : nat) : GoValue PortDump :=
  match depth with
  | O => {| go_zero := zero_port; go_into _ old j := match j with JNull => Some old | _ => None end |}
  | S depth => port_value_step (port_value depth)
  end.

#[global] Instance port_dump_value : GoValue PortDump := {|
  go_zero := zero_port;
  go_into strict old j := go_into (GoValue := port_value (json_depth j)) strict old j |}.

Fixpoint port_dump_json (r : PortDump) : gojson :=
  GObj [("portName", GStr (pd_Name r));
        ("portNo", GInt (pd_PortNo r));
        ("zone", GStr (pd_Zone r));
        ("portSoftwareInformation", port_sw_info_json (pd_SInfo r));
        ("portHardwareInformation", port_hw_info_json (pd_HInfo r));
        ("portStatisticInformation", port_stats_info_json (pd_Stats r));
        ("portL3Information", port_layer3_info_json (pd_L3 r));
        ("portL2Information", port_layer2_info_json (pd_L2 r));
        ("DataplaneSync", uint8_json (pd_Sync r))]
with port_sw_info_json (r : PortSwInfo) : gojson :=
  GObj [("osId", GInt (psw_OsId r));
        ("portType", GInt (psw_PortType r));
        ("portProp", uint8_json (psw_PortProp r));
        ("portActive", GBool (psw_PortActive r));
        ("portReal", match psw_PortReal r with None => go_nil | Some x => port_dump_json x end);
        ("portOvl", match psw_PortOvl r with None => go_nil | Some x => port_dump_json x end);
        ("bpfLoaded", GBool (psw_BpfLoaded r))].

Record PortGet : Type := { ptg_Ports : option (list PortDump) }.
#[global] Instance port_get_value : GoValue PortGet := {|
  go_zero := {| ptg_Ports := None |};
  go_into strict old := decode_struct strict ["portAttr"] old (fun ms =>
    x0 ← field strict ms "portAttr" (ptg_Ports old); Some {| ptg_Ports := x0 |}) |}.
Definition port_get_json (r : PortGet) : gojson :=
  GObj [("portAttr", slice_json port_dump_json (ptg_Ports r))].

(** [PortTypeToString]: the test for a bond is never met. *)
Definition PortReal : Z := 1.
Definition PortBondSif : Z := 2.
Definition PortBond : Z := 4.
Definition PortVlanSif : Z := 8.
Definition PortVlanBr : Z := 16.
Definition PortVxlanSif : Z := 32.
Definition PortVxlanBr : Z := 64.
Definition PortVti : Z := 256.

Definition has_bits (t bits value : Z) : bool := (Z.land t bits =? value)%Z.

Definition PortTypeToString (p : PortSwInfo) : string :=
  let t := psw_PortType p in
  let word := fun (b : bool) (s : string) => if b then s else "" in
  trim_suffix
    (sprintf [word (has_bits t PortReal PortReal) "phy,";
              word (has_bits t PortVlanSif PortVlanSif) "vlan-sif,";
              word (has_bits t PortVlanBr PortVlanBr) "vlan,";
              word (has_bits t PortBondSif PortBondSif) "bond-sif,";
              word (has_bits t PortBondSif PortBond) "bond,";
              word (has_bits t PortVxlanSif PortVxlanSif) "vxlan-sif,";
              word (has_bits t PortVti PortVti) "vti,";
              if has_bits t PortVxlanBr PortVxlanBr
              then "vxlan," +:+ match psw_PortReal p with
                                | Some real => sprintf ["("; pd_Name real; ")"]
                                | None => ""
                                end
              else ""]) ",".
