(* ===== verification/Tables.v ===== *)
(** * What a get command prints

    The order of a listing ([sort.Slice]), the table it is laid out in
    (package [tablewriter]), and the course of the old get commands.  Both the
    sorting and the layout are interfaces: [SortLib] promises a permutation in
    order, [TableLib] nothing. *)
From S2P Require Import Prelude GoStrings Json JsonPrint Floats Fields World Errors Exitcode.
From S2P Require Import Rest FeatureGate Commands.
From Stdlib Require Import Sorted.

(* ------------------------------------------------------------------ *)
(** ** Sorting                                                         *)
(* ------------------------------------------------------------------ *)

(** [less] compares by a key that is ordered. *)
Definition weak_order {A} (less : A -> A -> bool) : Prop :=
  (forall a b, less a b = true -> less b a = false)
  /\ (forall a b c, less b a = false -> less c b = false -> less c a = false).

Class SortLib := {
  sort_slice : forall A : Type, (A -> A -> bool) -> list A -> list A;
  sort_permutes : forall (A : Type) less (l : list A), sort_slice A less l ≡ₚ l;
  sort_orders : forall (A : Type) less (l : list A),
    weak_order less -> StronglySorted (fun a b => less b a = false) (sort_slice A less l)
}.
Arguments sort_slice {_} {A} _ _.
Arguments sort_permutes {_} {A} _ _.
Arguments sort_orders {_} {A} _ _ _.

Section Insertion.
Context {A : Type}.
Variable less : A -> A -> bool.

Fixpoint insert_sorted (a : A) (l : list A) : list A :=
  match l with
  | [] => [a]
  | b :: l' => if less b a then b :: insert_sorted a l' else a :: l
  end.
Definition insertion_sort (l : list A) : list A := foldr insert_sorted [] l.

Lemma insert_permutes a l : insert_sorted a l ≡ₚ a :: l.
Proof.
  induction l as [|b l IH]; [done|]. simpl. destruct (less b a); [|done].
  rewrite IH. apply Permutation_swap.
Qed.

Lemma insertion_permutes l : insertion_sort l ≡ₚ l.
Proof. induction l as [|a l IH]; [done|]. simpl. by rewrite insert_permutes, IH. Qed.

Lemma insertion_orders l :
  weak_order less -> StronglySorted (fun a b => less b a = false) (insertion_sort l).
Proof.
  intros [Hasym Htrans]. induction l as [|a l IH]; [constructor|]. simpl.
  revert IH. generalize (insertion_sort l). intros k. induction k as [|b k IHk]; intros Hk; simpl.
  - repeat constructor.
  - apply StronglySorted_inv in Hk as [Hk Hb]. destruct (less b a) eqn:Hba.
    + constructor; [by apply IHk|]. rewrite insert_permutes. constructor; [by apply Hasym | done].
    + repeat constructor; [done..|]. eapply Forall_impl; [exact Hb|].
      intros c Hc. by apply (Htrans a b c).
Qed.
End Insertion.

(** A concrete choice, for evaluation. *)
Definition insertion_library : SortLib := {|
  sort_slice A less l := insertion_sort less l;
  sort_permutes A less l := insertion_permutes less l;
  sort_orders A less l := insertion_orders less l |}.

(** Keys that are compared as texts and as numbers. *)
Definition by_text {A} (key : A -> string) (a b : A) : bool := String.ltb (key a) (key b).
Definition by_number {A} (key : A -> Z) (a b : A) : bool := (key a <? key b)%Z.

Lemma by_number_order {A} (key : A -> Z) : weak_order (by_number key).
Proof. unfold weak_order, by_number. split; intros *; rewrite ?Z.ltb_lt, ?Z.ltb_ge; lia. Qed.

(** Texts are ordered by their bytes. *)
Lemma ascii_compare_le a b c :
  Ascii.compare b a <> Lt -> Ascii.compare c b <> Lt ->
  Ascii.compare c a <> Lt /\ (Ascii.compare c a = Eq -> Ascii.compare b a = Eq /\ Ascii.compare c b = Eq).
Proof.
  unfold Ascii.compare. generalize (N_of_ascii a) (N_of_ascii b) (N_of_ascii c). intros x y z.
  rewrite !N.compare_nlt_iff, !N.compare_eq_iff. lia.
Qed.

Lemma string_compare_le a b c :
  String.compare b a <> Lt -> String.compare c b <> Lt -> String.compare c a <> Lt.
Proof.
  revert b c. induction a as [|x a IH]; intros [|y b] [|z c]; cbn; try done.
  intros Hba Hcb. assert (H := ascii_compare_le x y z).
  destruct (Ascii.compare y x), (Ascii.compare z y); try done;
    destruct (Ascii.compare z x); try done; try (by apply (IH b)); naive_solver.
Qed.

Lemma by_text_order {A} (key : A -> string) : weak_order (by_text key).
Proof.
  assert (Hlt : forall s t, String.ltb s t = true <-> String.compare s t = Lt).
  { intros s t. unfold String.ltb. by destruct (String.compare s t). }
  assert (Hge : forall s t, String.ltb s t = false <-> String.compare s t <> Lt).
  { intros s t. unfold String.ltb. by destruct (String.compare s t). }
  unfold weak_order, by_text. split.
  - intros a b. rewrite Hlt, Hge, String.compare_antisym. by destruct (String.compare (key b) (key a)).
  - intros a b c. rewrite !Hge. apply string_compare_le.
Qed.

Definition pad5 (z : Z) : string :=
  let s := itoa z in of_bytes (replicate (5 - String.length s) "0"%char) +:+ s.

(* ------------------------------------------------------------------ *)
(** ** Tables                                                          *)
(* ------------------------------------------------------------------ *)

(** A table with a header, if one was set, and rows: what is rendered. *)
Class TableLib := { table_text : option (list string) -> list (list string) -> string }.

Definition plain_tables : TableLib := {|
  table_text header rows :=
    concat_str (List.map (fun row => join "|" row +:+ nl) (default [] header :: rows)) |}.

Record table : Type := Table { tb_header : option (list string); tb_rows : list (list string) }.

(** A header that is set with each row. *)
Definition rows_under (title : list string) (rows : list (list string)) : table :=
  Table (match rows with [] => None | _ => Some title end) rows.
Definition titled (title : list string) (rows : list (list string)) : table := Table (Some title) rows.

Definition TableShow `{TableLib} (t : table) : IO unit := say (table_text (tb_header t) (tb_rows t)).

Definition dashIfEmpty (s : string) : string := if is_empty s then "-" else s.

(** [json.MarshalIndent] with four spaces; its error is dropped. *)
Definition say_json (v : gojson) : IO unit := say (default "" (marshal_indent_by "    " v) +:+ nl).

Section Printing.
Context `{GoLib} `{TableLib}.
Variable o : RESTOptions.

Definition json_wanted : bool := streq (ro_PrintOption o) "json".
Definition wide_wanted : bool := streq (ro_PrintOption o) "wide".

Definition unread (e : string) : IO unit :=
  say (sprintf ["Error: Failed to read HTTP response: ("; e; ")"; nl]).
Definition undecoded (body : string) : IO unit :=
  say (sprintf ["Error: Failed to unmarshal HTTP response: ("; json_text "Unmarshal" body; ")"; nl]).

(** [PrintGet...Result]: a body that cannot be read or decoded is said, and the
    command succeeds. *)
Definition print_result {A} `{GoValue A} (enc : A -> gojson) (show : A -> IO unit)
    (resp : http_response) : IO unit :=
  match hr_body_error resp with
  | Some e => unread e
  | None =>
      match unmarshal A (hr_body resp) with
      | None => undecoded (hr_body resp)
      | Some a => if json_wanted then say_json (enc a) else show a
      end
  end.

(** The old get commands: one read, and the status alone is judged. *)
Definition get_old (op : string) (api : LoxiClient -> CommonAPI) (print : http_response -> IO unit)
    : IO outcome :=
  client ← NewLoxiClient o;
  answered (colon op) (Get (api client)) (fun resp =>
    if (hr_status resp =? 200)%Z then _ ← print resp; succeed
    else fail_with (FromHTTPStatus op (hr_status resp))).

(** The read of a document that is listed as a table. *)
Definition get_table {A} `{GoValue A} (op : string) (api : LoxiClient -> CommonAPI)
    (enc : A -> gojson) (rows : A -> table) : IO outcome :=
  get_old op api (print_result enc (fun a => TableShow (rows a))).

(** The newer ones: an error of the gateway is quoted, and a document that does
    not decode is a CONTRACT_MISMATCH. *)
Definition not_decoded (body : string) (status : Z) : CLIError :=
  with_http_status
    (cli_error ContractMismatch
       (sprintf ["Failed to unmarshal HTTP response: ("; json_text "Unmarshal" body; ")"]) "gateway" "")
    status.

Definition decoded_answer {A} `{GoValue A} (op : string) (enc : A -> gojson) (show : A -> IO unit)
    (resp : http_response) : IO outcome :=
  if negb (hr_status resp =? 200)%Z then fail_with (api_error_answer op resp)
  else
    match unmarshal A (hr_body resp) with
    | None => fail_with (not_decoded (hr_body resp) (hr_status resp))
    | Some a => _ ← (if json_wanted then say_json (enc a) else show a); succeed
    end.

Definition get_decoded {A} `{GoValue A} (op : string) (api : LoxiClient -> CommonAPI)
    (enc : A -> gojson) (show : A -> IO unit) : IO outcome :=
  client ← NewLoxiClient o;
  answered (colon op) (Get (api client)) (decoded_answer op enc show).

End Printing.
