(* ===== verification/GetCmds.v ===== *)
(** * The get commands of the network: [cmd/get]

    What each command reads and the rows it makes of the answer. *)
From S2P Require Import Prelude GoStrings GoNet Json JsonPrint Floats Fields World Errors Exitcode.
From S2P Require Import Rest FeatureGate Commands NetModel AiModel GetModel Tables.

(** [%v] of a slice of strings, [%d] of an unsigned integer. *)
Definition slice_text (l : list string) : string := sprintf ["["; join " " l; "]"].
Definition lines_text (l : list string) : string :=
  trim_space (concat_str (List.map (fun s => s +:+ nl) l)).

Definition from {A} (o : option (list A)) : list A := default [] o.

(* ------------------------------------------------------------------ *)
(** ** Keys                                                            *)
(* ------------------------------------------------------------------ *)

Definition bgp_key (n : BGPNeighborEntry) : string :=
  sprintf [bge_IPaddress n; "|"; bge_State n; "|"; bge_UpDownTime n].
Definition conntrack_key (c : ConntrackInformation) : string :=
  sprintf [cti_Dip c; "|"; cti_Sip c; "|"; pad5 (u16 (cti_Dport c)); "|"; pad5 (u16 (cti_Sport c)); "|";
           cti_Proto c].
Definition endpoint_key (e : EndPointGetEntry) : string :=
  sprintf [epe_HostName e; "|"; pad5 (u16 (epe_ProbePort e)); "|"; epe_ProbeType e; "|"; epe_Name e].
Definition fdb_key (f : FDBMod) : string := sprintf [fdb_Dev f; "|"; fdb_MacAddress f].
Definition firewall_key (r : FwRuleArg) : string :=
  sprintf [fwr_SrcIP r; "|"; fwr_DstIP r; "|"; pad5 (u16 (fwr_SrcPortMin r)); "|";
           pad5 (u16 (fwr_SrcPortMax r)); "|"; pad5 (u16 (fwr_DstPortMin r)); "|";
           pad5 (u16 (fwr_DstPortMax r)); "|"; itoa (u8 (fwr_Proto r))].
Definition ipaddress_key (a : Ipv4AddrGet) : string :=
  sprintf [ipe_Dev a; "|"; slice_text (from (ipe_IP a))].
Definition neighbor_key (n : NeighborMod) : string :=
  sprintf [nbm_IP n; "|"; nbm_Dev n; "|"; nbm_MacAddress n].

(* ------------------------------------------------------------------ *)
(** ** Titles                                                          *)
(* ------------------------------------------------------------------ *)

Definition CONNTRACK_HEADER : list string :=
  ["Service Name"; "destIP"; "srcIP"; "dport"; "sport"; "proto"; "ident"; "state"; "act"; "packets"; "bytes"].
Definition SESSION_TITLE : list string := ["ident"; "session IP"].
Definition SESSION_WIDE_TITLE : list string :=
  ["ident"; "session IP"; "access Network Tunnel"; "core Network Tunnel"].
Definition PORT_WIDE_TITLE : list string :=
  ["index"; "portname"; "MAC"; "link/state"; "mtu"; "isActive/bpf" +:+ nl +:+ "Port type"; "Statistics";
   "L3Info"; "L2Info"; "Sync"].
Definition PORT_TITLE : list string := ["index"; "portname"; "MAC"; "link/state"; "L3Info"; "L2Info"].
Definition ULCL_TITLE : list string := ["ident"; "ulcl IP"; "qfi"].
Definition POLICY_TITLE : list string := ["Ident"; "peakInfoRate"; "committedInfoRate"].
Definition POLICY_WIDE_TITLE : list string :=
  ["Ident"; "peakInfoRate"; "committedInfoRate"; "excessBlkSize"; "committedBlkSize"; "policyType";
   "ColorAware"; "polObjName"; "attachment"; "attached"].
Definition ROUTE_TITLE : list string := ["destinationIPNet"; "gateway"; "flag"].
Definition ROUTE_WIDE_TITLE : list string :=
  ["destinationIPNet"; "gateway"; "flag"; "HardwareMark"; "packets"; "bytes"].
Definition IP_TITLE : list string := ["Device Name"; "IP Address"].
Definition FDB_TITLE : list string := ["Device Name"; "MAC Address"].
Definition IP_WIDE_TITLE : list string := ["Device Name"; "IP Address"; "Sync"].
Definition VLAN_WIDE_TITLE : list string := ["Device Name"; "Vlan ID"; "Member"; "Statistics"].
Definition VLAN_TITLE : list string := ["Device Name"; "Vlan ID"; "Member"].
Definition VXLAN_TITLE : list string := ["Device Name"; "Vxlan ID"; "endpoint interface"; "Peer IP"].
Definition NEIGHBOR_TITLE : list string := ["IP Address"; "Device Name"; "Mac Address"].
Definition PROCESS_TITLE : list string :=
  ["pid"; "user"; "priority"; "nice"; "virtMemory"; "residentSize"; "sharedMemory"; "status"; "CPUUsage";
   "MemoryUsage"; "time"; "command"].
Definition MIRROR_TITLE : list string :=
  ["Mirror Name"; "Mirror info"; "Target" +:+ nl +:+ "Attachment"; "target" +:+ nl +:+ "Name"].
Definition MIRROR_WIDE_TITLE : list string := MIRROR_TITLE ++ ["Sync"].
Definition FIREWALL_TITLE : list string :=
  ["Source IP"; "destination IP"; "min SPort"; "max SPort"; "min DPort"; "max DPort"; "protocol";
   "port Name"; "preference"; "Option"; "Counters"].
Definition ENDPOINT_TITLE : list string :=
  ["Host"; "Name"; "ptype"; "port"; "duration"; "retries"; "minDelay"; "avgDelay"; "maxDelay"; "State"].
Definition PARAM_TITLE : list string := ["Param Name"; "Value"].
Definition BGPNEIGHBOR_TITLE : list string := ["Peer"; "AS"; "UP/Down"; "State"].
Definition HASTATE_TITLE : list string := ["Instance"; "HAState"].
Definition DEVICE_TITLE : list string :=
  ["hostName"; "machineID"; "bootID"; "OS"; "kernel"; "architecture"; "uptime"].
Definition FILESYSTEM_TITLE : list string :=
  ["fileSystem"; "type"; "size"; "used"; "avail"; "usePercent"; "mountedOn"].
Definition LBVERSION_TITLE : list string := ["Product"; "LoxiLB Version"; "LoxiLB Build Info"].
Definition BFD_TITLE : list string := ["Instance"; "RemoteIP"; "State"].
Definition BFD_WIDE_TITLE : list string :=
  ["Instance"; "RemoteIP"; "SourceIP"; "Port"; "Interval"; "Retry Count"; "State"].

(* ------------------------------------------------------------------ *)
(** ** Cells                                                           *)
(* ------------------------------------------------------------------ *)

Definition MakeFirewallOptionToString (t : FwOptArg) : string :=
  sprintf
    [ (if fwo_Allow t then "Allow"
       else if fwo_Drop t then "Drop"
       else if fwo_Trap t then "Trap"
       else if fwo_Rdr t then sprintf ["Redirect("; fwo_RdrPort t; ")"]
       else if fwo_DoSnat t
       then sprintf ["Snat("; fwo_ToIP t; ":"; itoa (u16 (fwo_ToPort t)); ")"]
       else "");
      if fwo_Record t then ",Record" else "";
      if (u32 (fwo_Mark t) =? 0)%Z then "" else sprintf [",FwMark("; itoa (u32 (fwo_Mark t)); ")"];
      if fwo_OnDefault t then ",Egr" else ""].

Definition MakeMirrInfoString (i : MirrInfo) : string :=
  let line := fun name text => if is_empty text then "" else sprintf [name; " : "; text; nl] in
  let number := fun z => if (z =? 0)%Z then "" else itoa z in
  sprintf
    [ line "Type" (if (mri_MirrType i =? 0)%Z then "SPAN"
                   else if (mri_MirrType i =? 1)%Z then "RSPAN"
                   else if (mri_MirrType i =? 2)%Z then "ERSPAN" else "");
      line "Port" (mri_MirrPort i); line "Remote IP" (mri_MirrRip i); line "Source IP" (mri_MirrSip i);
      line "Tunnel ID" (number (mri_MirrTid i)); line "Vlan ID" (number (mri_MirrVlan i))].

Definition MakeAttachmentToString (objs : Z) : string :=
  if (objs =? 1)%Z then "Port" else if (objs =? 2)%Z then "LB Rule" else "".

Definition MemberToString (members : list VlanMemberMod) : string :=
  concat_str (List.map (fun m =>
    sprintf ["Device: "; vlm_Dev m; nl; "tagged: "; bool_str (vlm_Tagged m); nl]) members).

Definition VlanStatToString (s : VlanStat) : string :=
  sprintf ["In/Out byte : "; itoa (u64 (vls_InBytes s)); "/"; itoa (u64 (vls_OutBytes s)); " "; nl;
           "In/Out packets : "; itoa (u64 (vls_InPackets s)); "/"; itoa (u64 (vls_OutPackets s))].

Definition MakePeerToSting (peerIPs : list string) : string := lines_text peerIPs.
Definition MakeIPv4String (ips : list string) : string := lines_text ips.

Definition MakeL3InfoRoString (l : PortLayer3Info) : string :=
  sprintf ["Routed: "; bool_str (pl3_Routed l); nl; "IPv4 : "; slice_text (from (pl3_Ipv4_addrs l)); " "; nl;
           "IPv6 : "; slice_text (from (pl3_Ipv6_addrs l))].
Definition MakeL2InfoRoString (l : PortLayer2Info) : string :=
  sprintf ["IsPVID: "; bool_str (pl2_IsPvid l); nl; "VID : "; itoa (pl2_Vid l)].

Definition pair_text (a b : Z) : string := sprintf [itoa a; "/"; itoa b].

Definition tunnel_text (t : SessTun) : string :=
  sprintf ["TeID: "; itoa (u32 (stn_TeID t)); " TunnelIP: "; net_ip_text (stn_Addr t)].

(* ------------------------------------------------------------------ *)
(** ** Rows                                                            *)
(* ------------------------------------------------------------------ *)

Definition num (z : Z) : string := itoa z.

Definition bgp_row (n : BGPNeighborEntry) : list string :=
  [bge_IPaddress n; num (bge_RemoteAs n); bge_UpDownTime n; bge_State n].
Definition conntrack_row (c : ConntrackInformation) : list string :=
  [cti_ServName c; cti_Dip c; cti_Sip c; num (u16 (cti_Dport c)); num (u16 (cti_Sport c)); cti_Proto c;
   cti_Ident c; cti_CState c; cti_CAct c; num (u64 (cti_Pkts c)); num (u64 (cti_Bytes c))].
Definition endpoint_row (e : EndPointGetEntry) : list string :=
  [epe_HostName e; epe_Name e; sprintf [epe_ProbeType e; ":"; epe_ProbeReq e]; num (u16 (epe_ProbePort e));
   num (u32 (epe_ProbeDuration e)); num (epe_InActTries e); epe_MinDelay e; epe_AvgDelay e;
   epe_MaxDelay e; epe_CurrState e].
Definition fdb_row (f : FDBMod) : list string := [fdb_Dev f; fdb_MacAddress f].
Definition firewall_row (f : FwRuleMod) : list string :=
  let r := fwm_Rule f in
  [fwr_SrcIP r; fwr_DstIP r; num (u16 (fwr_SrcPortMin r)); num (u16 (fwr_SrcPortMax r));
   num (u16 (fwr_DstPortMin r)); num (u16 (fwr_DstPortMax r)); num (u8 (fwr_Proto r)); fwr_InPort r;
   num (u16 (fwr_Pref r)); MakeFirewallOptionToString (fwm_Opts f); fwo_Counter (fwm_Opts f)].
Definition hastate_row (h : HAStateInfo) : list string := [has_Instance h; has_State h].
Definition neighbor_row (n : NeighborMod) : list string := [nbm_IP n; nbm_Dev n; nbm_MacAddress n].
Definition vxlan_row (v : VxlanDump) : list string :=
  [vxd_VxlanName v; num (vxd_VxLanID v); vxd_EndpointDev v; MakePeerToSting (from (vxd_PeerIP v))].
Definition process_row (p : Process) : list string :=
  [prc_Pid p; prc_User p; prc_Priority p; prc_Nice p; prc_VirtMemory p; prc_ResidentSize p;
   prc_SharedMemory p; prc_Status p; prc_CPUUsage p; prc_MemoryUsage p; prc_Command p].
Definition device_row (d : DeviceGet) : list string :=
  [dvg_HostName d; dvg_MachineID d; dvg_BootID d; dvg_OS d; dvg_Kernel d; dvg_Architecture d; dvg_Uptime d].

(** Those that the wide view changes. *)
Definition ipaddress_row (wide : bool) (a : Ipv4AddrGet) : list string :=
  [ipe_Dev a; MakeIPv4String (from (ipe_IP a))] ++ (if wide then [num (u8 (ipe_Sync a))] else []).
Definition mirror_row (wide : bool) (m : MirrGetMod) : list string :=
  let t := mre_Target m in
  if wide
  then [mre_Ident m; MakeMirrInfoString (mre_Info m); num (mro_AttachMent t); mro_MirrObjName t;
        num (u8 (mre_Sync m))]
  else [mre_Ident m; MakeMirrInfoString (mre_Info m); MakeAttachmentToString (mro_AttachMent t);
        mro_MirrObjName t].
Definition attached_text (attached : option bool) : string :=
  match attached with Some true => "yes" | Some false => "pending" | None => "-" end.
Definition policy_row (wide : bool) (p : PolMod) : list string :=
  let i := pom_Info p in
  [pom_Ident p; num (u64 (poi_PeakInfoRate i)); num (u64 (poi_CommittedInfoRate i))]
  ++ (if wide
      then [num (u64 (poi_ExcessBlkSize i)); num (u64 (poi_CommittedBlkSize i)); num (poi_PolType i);
            bool_str (poi_ColorAware i); poo_PolObjName (pom_Target p);
            num (u64 (poo_AttachMent (pom_Target p))); attached_text (pom_Attached p)]
      else []).
Definition port_row (wide : bool) (p : PortDump) : list string :=
  let h := pd_HInfo p in let s := pd_SInfo p in let t := pd_Stats p in
  let link := sprintf [bool_str (phw_Link h); "/"; bool_str (phw_State h)] in
  [num (pd_PortNo p); pd_Name p; phw_MacAddrStr h; link]
  ++ (if wide
      then [num (phw_Mtu h);
            sprintf [bool_str (psw_PortActive s); "/"; bool_str (psw_BpfLoaded s); nl; PortTypeToString s];
            sprintf ["rx/tx byte : "; pair_text (u64 (pts_RxBytes t)) (u64 (pts_TxBytes t)); " "; nl;
                     "rx/tx packets : "; pair_text (u64 (pts_RxPackets t)) (u64 (pts_TxPackets t)); " "; nl;
                     "rx/tx error : "; pair_text (u64 (pts_RxError t)) (u64 (pts_TxError t)); " "]]
      else [])
  ++ [MakeL3InfoRoString (pd_L3 p); MakeL2InfoRoString (pd_L2 p)]
  ++ (if wide then [num (u8 (pd_Sync p))] else []).
Definition route_row (wide : bool) (r : Routev4Get) : list string :=
  [rtm_Dst r; rtm_Gw r; rtm_Flags r]
  ++ (if wide then [num (rtm_HardwareMark r); num (rts_Packets (rtm_Statistic r));
                    num (rts_Bytes (rtm_Statistic r))] else []).
Definition session_row (wide : bool) (s : SessionMod) : list string :=
  [ssm_Ident s; net_ip_text (ssm_Ip s)]
  ++ (if wide then [tunnel_text (ssm_AnTun s); tunnel_text (ssm_CnTun s)] else []).
Definition vlan_row (wide : bool) (v : VlanDump) : list string :=
  [vld_Dev v; num (vld_Vid v); MemberToString (from (vld_Member v))]
  ++ (if wide then [VlanStatToString (vld_Statistic v)] else []).
Definition bfd_row (wide : bool) (b : BFDSessionInfo) : list string :=
  if wide
  then [bfd_Instance b; bfd_RemoteIP b; bfd_SourceIP b; num (u16 (bfd_Port b));
        num (u64 (bfd_Interval b)) +:+ " us"; num (u8 (bfd_RetryCount b)); bfd_State b]
  else [bfd_Instance b; bfd_RemoteIP b; bfd_State b].

(** The rules of one session are listed below its first, without its name.  The
    loop adds a row for each row that already carries the name. *)
Definition ulcl_row (ident : string) (u : SessionUlClMod) : list string :=
  [ident; net_ip_text (uca_Addr (ucm_Args u)); num (u8 (uca_Qfi (ucm_Args u)))].
Definition row_named (ident : string) (row : list string) : bool :=
  streq ident (default "" (head row)).
Definition ulcl_step (data : list (list string)) (u : SessionUlClMod) : list (list string) :=
  match List.filter (row_named (ucm_Ident u)) data with
  | [] => data ++ [ulcl_row (ucm_Ident u) u]
  | named => data ++ List.map (fun _ => ulcl_row "" u) named
  end.
Definition ulcl_rows (l : list SessionUlClMod) : list (list string) := foldl ulcl_step [] l.

(* ------------------------------------------------------------------ *)
(** ** Commands                                                        *)
(* ------------------------------------------------------------------ *)

Definition api_url (api : LoxiClient -> CommonAPI) (url : string) (client : LoxiClient) : CommonAPI :=
  SetUrl (api client) url.

Section Network.
Context `{GoLib} `{TableLib} `{SortLib}.
Variable restOptions : RESTOptions.

Definition wide : bool := wide_wanted restOptions.
Definition in_view (narrow broad : list string) : list string := if wide then broad else narrow.

Definition bgp_table (r : BGPNeighborModGet) : table :=
  rows_under BGPNEIGHBOR_TITLE (bgp_row <$> sort_slice (by_text bgp_key) (from (bgg_BGPAttr r))).
Definition get_bgpneighbor : IO outcome :=
  get_table restOptions "get bgpneighbor" (api_url Client.BGPNeighbor "/config/bgp/neigh/all")
    bgp_neighbor_mod_get_json bgp_table.

(** The header is set before the rows; a service name keeps its rows. *)
Definition conntrack_table (ServiceName : string) (r : CtInformationGet) : table :=
  titled CONNTRACK_HEADER
    (conntrack_row <$>
       List.filter (fun c => is_empty ServiceName || streq ServiceName (cti_ServName c))
         (sort_slice (by_text conntrack_key) (from (ctg_CtInfo r)))).
Definition get_conntrack (ServiceName : string) : IO outcome :=
  get_table restOptions "get conntrack" Client.Conntrack ct_information_get_json (conntrack_table ServiceName).

Definition ep_table (r : EPInformationGet) : table :=
  rows_under ENDPOINT_TITLE (endpoint_row <$> sort_slice (by_text endpoint_key) (from (epg_EPInfo r))).
Definition get_endpoint : IO outcome :=
  get_table restOptions "get endpoint" (api_url Client.Firewall "/config/endpoint/all")
    ep_information_get_json ep_table.

Definition fdb_table (r : FDBModGet) : table :=
  rows_under FDB_TITLE (fdb_row <$> sort_slice (by_text fdb_key) (from (fdg_FdbAttr r))).
Definition get_fdb : IO outcome :=
  get_table restOptions "get fdb" (api_url Client.FDB "/config/fdb/all") fdb_mod_get_json fdb_table.

Definition firewall_table (r : FWInformationGet) : table :=
  rows_under FIREWALL_TITLE
    (firewall_row <$> sort_slice (by_text (fun f => firewall_key (fwm_Rule f))) (from (fwg_FWInfo r))).
Definition get_firewall : IO outcome :=
  get_table restOptions "get firewall" (api_url Client.Firewall "/config/firewall/all")
    fw_information_get_json firewall_table.

Definition hastate_table (r : HAStateGet) : table :=
  titled HASTATE_TITLE (hastate_row <$> sort_slice (by_text has_Instance) (from (hag_HAStateAttr r))).
Definition get_hastate : IO outcome :=
  get_table restOptions "get hastate" (api_url Client.Status "config/cistate/all") ha_state_get_json hastate_table.

Definition ipaddress_table (r : Ipv4AddrModGet) : table :=
  rows_under (in_view IP_TITLE IP_WIDE_TITLE)
    (ipaddress_row wide <$> sort_slice (by_text ipaddress_key) (from (ipg_IPv4Attr r))).
Definition get_ipaddress : IO outcome :=
  get_table restOptions "get ip" (api_url Client.IPv4Address "/config/ipv4address/all")
    ipv4_addr_mod_get_json ipaddress_table.

Definition mirror_table (r : MirrorGet) : table :=
  rows_under (in_view MIRROR_TITLE MIRROR_WIDE_TITLE)
    (mirror_row wide <$> sort_slice (by_text mre_Ident) (from (mrg_Mirrors r))).
Definition get_mirror : IO outcome :=
  get_table restOptions "get mirror" (api_url Client.Mirror "/config/mirror/all") mirror_get_json mirror_table.

Definition neighbor_table (r : NeighborModGet) : table :=
  rows_under NEIGHBOR_TITLE (neighbor_row <$> sort_slice (by_text neighbor_key) (from (nbg_NeighborAttr r))).
Definition get_neighbor : IO outcome :=
  get_table restOptions "get neighbor" (api_url Client.Neighbor "/config/neighbor/all")
    neighbor_mod_get_json neighbor_table.

Definition policy_table (r : PolInformationGet) : table :=
  rows_under (in_view POLICY_TITLE POLICY_WIDE_TITLE)
    (policy_row wide <$> sort_slice (by_text pom_Ident) (from (pog_PolModInfo r))).
Definition get_policy : IO outcome :=
  get_table restOptions "get policy" (api_url Client.Policy "/config/policy/all")
    pol_information_get_json policy_table.

Definition port_table (r : PortGet) : table :=
  rows_under (in_view PORT_TITLE PORT_WIDE_TITLE)
    (port_row wide <$> sort_slice (by_number pd_PortNo) (from (ptg_Ports r))).
Definition get_port : IO outcome :=
  get_table restOptions "get port" Client.Port port_get_json port_table.

Definition route_table (r : RouteModGet) : table :=
  rows_under (in_view ROUTE_TITLE ROUTE_WIDE_TITLE)
    (route_row wide <$> sort_slice (by_text rtm_Dst) (from (rtg_RouteAttr r))).
Definition get_route : IO outcome :=
  get_table restOptions "get route" (api_url Client.Route "/config/route/all") route_mod_get_json route_table.

Definition session_table (r : SessionInformationGet) : table :=
  rows_under (in_view SESSION_TITLE SESSION_WIDE_TITLE)
    (session_row wide <$> sort_slice (by_text ssm_Ident) (from (ssg_SessionInfo r))).
Definition get_session : IO outcome :=
  get_table restOptions "get session" (api_url Client.Session "/config/session/all")
    session_information_get_json session_table.

Definition ulcl_table (r : UlclInformationGet) : table :=
  rows_under ULCL_TITLE (ulcl_rows (sort_slice (by_text ucm_Ident) (from (ucg_UlclInfo r)))).
Definition get_sessionulcl : IO outcome :=
  get_table restOptions "get sessionulcl" (api_url Client.SessionUlCL "/config/sessionulcl/all")
    ulcl_information_get_json ulcl_table.

Definition vlan_table (r : VlanGet) : table :=
  rows_under (in_view VLAN_TITLE VLAN_WIDE_TITLE)
    (vlan_row wide <$> sort_slice (by_number vld_Vid) (from (vlg_Vlans r))).
Definition get_vlan : IO outcome :=
  get_table restOptions "get vlan" (api_url Client.Vlan "/config/vlan/all") vlan_get_json vlan_table.

Definition vxlan_table (r : VxlanGet) : table :=
  rows_under VXLAN_TITLE (vxlan_row <$> sort_slice (by_number vxd_VxLanID) (from (vxg_VxlanAttr r))).
Definition get_vxlan : IO outcome :=
  get_table restOptions "get vxlan" (api_url Client.Vxlan "/config/tunnel/vxlan/all") vxlan_get_json vxlan_table.

Definition bfd_table (r : BFDSessionGet) : table :=
  rows_under (in_view BFD_TITLE BFD_WIDE_TITLE) (bfd_row wide <$> from (bfg_BFDSessionAttr r)).
Definition get_bfd : IO outcome :=
  get_table restOptions "get bfd" (api_url Client.Status "config/bfd/all") bfd_session_get_json bfd_table.

Definition param_table (r : ParamDump) : table := titled PARAM_TITLE [["Log level"; prd_LogLevel r]].
Definition get_param : IO outcome :=
  get_table restOptions "get log-level" Client.Param param_dump_json param_table.

Definition process_table (r : ProcessGet) : table :=
  rows_under PROCESS_TITLE (process_row <$> from (prg_ProcessAttr r)).
Definition get_process : IO outcome :=
  get_table restOptions "get process" (api_url Client.Status "status/process") process_get_json process_table.

Definition device_table (r : DeviceGet) : table := titled PROCESS_TITLE [device_row r].
Definition get_device : IO outcome :=
  get_table restOptions "get device" (api_url Client.Status "status/device") device_get_json device_table.

(** [PrintGetStatusFilesystemResult] reads a list of processes. *)
Definition get_filesystem : IO outcome :=
  get_table restOptions "get filesystem" (api_url Client.Status "status/filesystem") process_get_json process_table.

(** [get lbversion] returns its errors. *)
Definition lbProductDisplay (product : string) : string := if is_empty product then "loxilb" else product.
Definition versionFeaturesLine (features : list string) : string :=
  match features with [] => "features: -" | _ => "features: " +:+ join ", " features end.
Definition version_json (v : LBVersionGet) : gojson :=
  GObj ([("buildInfo", GStr (lv_BuildInfo v)); ("version", GStr (lv_Version v))]
        ++ omit_str "product" (lv_Product v) ++ omit_list "features" GStr (lv_Features v)).
Definition version_table (v : LBVersionGet) : table :=
  titled LBVERSION_TITLE [[lbProductDisplay (lv_Product v); lv_Version v; lv_BuildInfo v]].

Definition PrintGetVersionResult (resp : http_response) : IO outcome :=
  match hr_body_error resp with
  | Some e => fail_with (Unavailablef (sprintf ["get lbversion: read response: "; e]))
  | None =>
      match unmarshal LBVersionGet (hr_body resp) with
      | None =>
          fail_with (cli_error ContractMismatch
            (sprintf ["get lbversion: decode response: "; json_text "Unmarshal" (hr_body resp)]) "" "")
      | Some v =>
          if json_wanted restOptions then _ ← say_json (version_json v); succeed
          else
            _ ← TableShow (version_table v);
            _ ← say (versionFeaturesLine (lv_Features v) +:+ nl);
            succeed
      end
  end.

Definition get_lbversion : IO outcome :=
  client ← NewLoxiClient restOptions;
  answered (colon "get lbversion") (Get (Client.LBVersion client)) (fun resp =>
    if (hr_status resp =? 200)%Z then PrintGetVersionResult resp
    else fail_with (FromHTTPStatus "get lbversion" (hr_status resp))).

End Network.
