(* ===== verification/AiGets.v ===== *)
(** * The get commands of the inference gateway: [cmd/get]

    The keys and quotas of tenants, objectives, network identities and JWT
    profiles behind their features, and the documents of the telemetry paths,
    which are printed as they came. *)
From S2P Require Import Prelude GoStrings GoNet Json JsonPrint Floats Fields World Errors Exitcode.
From S2P Require Import Rest FeatureGate Commands NetModel AiModel Tables GetCmds AiCmds.
From S2P Require Import Lifecycle LifecycleCmds OpsCmds AuditSinks Snapshot.

Definition APIKEY_TITLE : list string :=
  ["Key ID"; "Tenant"; "Name"; "Models"; "RPS"; "Burst"; "Tokens/Min"; "Enabled"].
Definition APIKEY_WIDE_TITLE : list string :=
  ["Key ID"; "Tenant"; "Name"; "Models"; "RPS"; "Burst"; "Tokens/Min"; "Enabled"; "Created"; "Expires";
   "Priority"; "Default Objective"; "Allowed Objectives"; "Client Op ID"].
Definition RATELIMIT_TITLE : list string := ["Tenant"; "RPS"; "Tokens/Min"; "Burst %"; "Models"; "Updated"].
Definition RATELIMIT_WIDE_TITLE : list string :=
  ["Tenant"; "RPS"; "Tokens/Min"; "Burst %"; "Model Limits"; "Priority"; "Default Objective";
   "Allowed Objectives"; "Updated"].
Definition KVINVENTORY_TITLE : list string := ["Block Idx"; "Hash (uint64)"].
Definition CERT_TITLE : list string := ["Cert ID"; "Usage"; "Hostnames"].
Definition SNI_TITLE : list string := ["Hostname"; "Cert Path"; "RefCount"].
Definition OBJECTIVE_TITLE : list string := ["Name"; "Priority"; "Services"; "Updated"].
Definition NETIDENTITY_TITLE : list string :=
  ["Name"; "Tenant"; "Match"; "Enforce"; "Credential"; "Fail Mode"].
Definition NETIDENTITY_WIDE_TITLE : list string :=
  ["Name"; "Tenant"; "Match"; "Enforce"; "Credential"; "Fail Mode"; "Forward Identity"; "Priority";
   "Allowed Models"; "Services"].
Definition JWTAUTHPROFILE_TITLE : list string := ["Name"; "Issuer"; "Tenant Claim"; "Priority"].
Definition JWTAUTHPROFILE_WIDE_TITLE : list string :=
  ["Name"; "Issuer"; "Tenant Claim"; "Priority"; "JWKS URL"; "Audiences"; "Algs"; "Leeway(s)";
   "Refresh(s)"; "User Claim"; "Models Claim"; "Roles Claim"; "Model Role Prefix"; "Username Claim";
   "Model Authz"; "Default Tenant"; "Forward Identity"; "Authz Passthrough"].

(* ------------------------------------------------------------------ *)
(** ** Rows                                                            *)
(* ------------------------------------------------------------------ *)

Definition commas (l : list string) : string := join "," l.
Definition dash_list (l : list string) : string := dashIfEmpty (commas l).

Definition apiKeyRow (wide : bool) (k : AIApiKeySummary) : list string :=
  [aks_KeyID k; aks_TenantID k; aks_Name k; commas (from (aks_AllowedModels k));
   num (aks_RateLimitRps k); num (aks_BurstSize k); num (aks_TokensPerMin k); bool_str (aks_Enabled k)]
  ++ (if wide
      then [aks_CreatedAt k; aks_ExpiresAt k; dashIfEmpty (aks_PriorityClass k);
            dashIfEmpty (aks_DefaultObjective k); dash_list (aks_AllowedObjectives k);
            dashIfEmpty (aks_ClientOpID k)]
      else []).

Definition objectiveSourceLine (l : AIObjectiveList) : string :=
  sprintf ["source: "; dashIfEmpty (obl_Source l); "  source time: "; dashIfEmpty (obl_SourceTimestamp l);
           "  store reachable: "; bool_str (obl_StoreReachable l);
           "  store last read: "; dashIfEmpty (obl_StoreLastRead l)].
Definition objectiveRow (o : AIObjectiveEntry) : list string :=
  [obe_Name o; num (i32 (obe_Priority o)); dash_list (obe_Services o); dashIfEmpty (obe_UpdatedAt o)].

Definition netIdentityMatchCell (m : NetIdentityMatch) : string :=
  let part := fun (b : bool) (s : string) => if b then [s] else [] in
  dashIfEmpty (join " "
    (part (negb (bool_decide (nim_Cidr m = []))) ("cidr=" +:+ commas (nim_Cidr m))
     ++ part (negb (is_empty (nim_IngressIf m))) ("ingress_if=" +:+ nim_IngressIf m)
     ++ part (negb (u32 (nim_Vlan m) =? 0)%Z) ("vlan=" +:+ num (u32 (nim_Vlan m)))
     ++ part (negb (u32 (nim_Vni m) =? 0)%Z) ("vni=" +:+ num (u32 (nim_Vni m)))
     ++ part (negb (is_empty (nim_IpsecTunnel m))) ("ipsec_tunnel=" +:+ nim_IpsecTunnel m))).
Definition netIdentityRow (wide : bool) (b : NetIdentityEntry) : list string :=
  [nie_Name b; nie_Tenant b; netIdentityMatchCell (nie_Match b); dashIfEmpty (nie_Enforce b);
   dashIfEmpty (nie_Credential b); dashIfEmpty (nie_FailMode b)]
  ++ (if wide
      then [bool_str (nie_ForwardIdentity b); dashIfEmpty (nie_PriorityClass b);
            dash_list (nie_AllowedModels b); dash_list (nie_Services b)]
      else []).

Definition dashIfZero (n : Z) : string := if (n =? 0)%Z then "-" else num n.
Definition jwtAuthProfileRow (wide : bool) (p : JWTAuthProfileEntry) : list string :=
  [jpe_Name p; dashIfEmpty (jpe_Issuer p); dashIfEmpty (jpe_TenantClaim p); dashIfEmpty (jpe_PriorityClass p)]
  ++ (if wide
      then [dashIfEmpty (jpe_JwksURL p); dash_list (jpe_Audiences p); dash_list (jpe_Algs p);
            dashIfZero (jpe_LeewaySec p); dashIfZero (jpe_RefreshSec p); dashIfEmpty (jpe_UserClaim p);
            dashIfEmpty (jpe_ModelsClaim p); dashIfEmpty (jpe_RolesClaim p);
            dashIfEmpty (jpe_ModelRolePrefix p); dashIfEmpty (jpe_UsernameClaim p);
            dashIfEmpty (jpe_ModelAuthz p); dashIfEmpty (jpe_DefaultTenant p);
            bool_str (jpe_ForwardIdentity p); bool_str (jpe_AuthorizationPassthrough p)]
      else []).

Definition kv_row (b : AIKvInventoryBlock) : list string := [num (kvb_BlockIdx b); num (u64 (kvb_HashUint64 b))].
Definition sni_row (c : SNICertificateItem) : list string :=
  [sni_Hostname c; sni_CertPath c; num (sni_RefCount c)].
Definition cert_row (c : CertModel) : list string :=
  [crt_CertID c; (if is_empty (crt_Usage c) then CertUsageServer else crt_Usage c); commas (crt_Hostnames c)].

Section Gateway.
Context `{GoLib} `{TableLib} `{SortLib}.
Variable restOptions : RESTOptions.

Definition formatTenantModelLimits (limits : list AITenantModelRateLimit) : string :=
  commas (sort_slice (by_text id)
    (List.map (fun l => sprintf [trm_Model l; "="; num (trm_TokensPerMin l)]) limits)).
Definition rateLimitRow (wide : bool) (e : AITenantRateLimitEntry) : list string :=
  [tre_TenantID e; num (tre_Rps e); num (tre_TokensPerMin e); num (tre_BurstPct e);
   (if wide then formatTenantModelLimits (tre_ModelLimits e) else num (Z.of_nat (length (tre_ModelLimits e))))]
  ++ (if wide
      then [dashIfEmpty (tre_PriorityClass e); dashIfEmpty (tre_DefaultObjective e);
            dash_list (tre_AllowedObjectives e)]
      else [])
  ++ [tre_UpdatedAt e].

(** [get apikey]: what does not decode is said, and the command succeeds. *)
Definition apikey_table (keys : option (list AIApiKeySummary)) : table :=
  titled (in_view restOptions APIKEY_TITLE APIKEY_WIDE_TITLE) (apiKeyRow (wide_wanted restOptions) <$> from keys).
Definition PrintGetAPIKeyResult (body : string) (single : bool) : IO unit :=
  match (if single then (fun k => Some [k]) <$> unmarshal AIApiKeySummary body
         else unmarshal (option (list AIApiKeySummary)) body) with
  | None => undecoded body
  | Some keys =>
      if json_wanted restOptions then say_json (slice_json ai_api_key_summary_json keys)
      else TableShow (apikey_table keys)
  end.
Definition get_apikey (tenantID : string) (args : list string) : IO outcome :=
  client ← NewLoxiClient restOptions;
  let api := Client.AIApiKey client in
  let '(single, api) :=
    match args with
    | [key] => (true, SubResources api [key])
    | _ => (false, Query api (if is_empty tenantID then [] else [("tenant_id", tenantID)]))
    end in
  answered (colon "get apikey") (Get api) (fun resp =>
    if negb (hr_status resp =? 200)%Z then fail_with (api_error_answer "get apikey" resp)
    else _ ← PrintGetAPIKeyResult (hr_body resp) single; succeed).

Definition get_ratelimit (args : list string) : IO outcome :=
  match args with
  | [tenant] =>
      get_decoded restOptions "get ratelimit" (fun c => SubResources (Client.AITenantRatelimit c) [tenant])
        ai_tenant_rate_limit_entry_json
        (fun e => TableShow (titled (in_view restOptions RATELIMIT_TITLE RATELIMIT_WIDE_TITLE)
                               [rateLimitRow (wide_wanted restOptions) e]))
  | _ => fail_with (Usagef "get ratelimit needs <TENANT-ID> arg")
  end.

Definition get_kvinventory (changed : string -> bool) (serviceID epIdx : Z) : IO outcome :=
  if negb (changed "service-id") || negb (changed "ep-idx")
  then fail_with (Usagef "--service-id and --ep-idx are required")
  else
    get_decoded restOptions "get kvinventory"
      (fun c => Query (Client.AIKvInventory c) [("service_id", itoa serviceID); ("ep_idx", itoa epIdx)])
      ai_kv_inventory_response_json
      (fun inv =>
         _ ← say (sprintf ["service_id="; num (kvr_ServiceID inv); " ep_idx="; num (kvr_EpIdx inv);
                           " hash_algo="; kvr_HashAlgo inv; " total="; num (kvr_Total inv); nl]);
         TableShow (titled KVINVENTORY_TITLE (kv_row <$> from (kvr_Blocks inv)))).

Definition get_cert (args : list string) : IO outcome :=
  match args with
  | [id] =>
      get_decoded restOptions "get cert" (fun c => SubResources (Client.Cert c) [id]) cert_model_json
        (fun c => TableShow (titled CERT_TITLE [cert_row c]))
  | _ => fail_with (Usagef "get cert needs <CERT-ID> arg")
  end.

Definition get_sni : IO outcome :=
  get_decoded restOptions "get sni" Client.SNICertificate sni_certificate_list_response_json
    (fun l => TableShow (titled SNI_TITLE (sni_row <$> from (snl_Certificates l)))).

Definition get_metrics : IO outcome :=
  get_decoded restOptions "get metrics" Client.Metrics metrics_config_json
    (fun c => say (sprintf ["prometheus metrics: "; if mtc_Prometheus c then "enabled" else "disabled"; nl])).

(* ------------------------------------------------------------------ *)
(** ** The lists behind a feature                                      *)
(* ------------------------------------------------------------------ *)

(** [kept := list[:0]]: a name keeps the entries that carry it. *)
Definition entries_named {A} (name : A -> string) (wanted : string) (l : option (list A)) : list A :=
  List.filter (fun a => streq (name a) wanted) (from l).

Definition not_named (op noun wanted : string) : CLIError :=
  cli_error Precondition (sprintf [op; ": no "; noun; " named "; quote wanted]) "" "".
Definition feature_undecoded (op body : string) (status : Z) : CLIError :=
  with_http_status
    (cli_error ContractMismatch (sprintf [op; ": decode response: "; json_text "Unmarshal" body])
       "gateway" "") status.

(** At most one name; the feature; the list, and of it the entries of that
    name. *)
Definition feature_answered {L A} `{GoValue L} (op feature noun : string)
    (entries : L -> option (list A)) (with_entries : L -> list A -> L) (name : A -> string)
    (enc : L -> gojson) (show : L -> IO unit) (args : list string) (resp : http_response) : IO outcome :=
  if negb (hr_status resp =? 200)%Z
  then fail_with (classify_feature op feature (hr_status resp) (hr_body resp))
  else
    match unmarshal L (hr_body resp) with
    | None => fail_with (feature_undecoded op (hr_body resp) (hr_status resp))
    | Some l =>
        let print := fun l => _ ← (if json_wanted restOptions then say_json (enc l) else show l); succeed in
        match args with
        | [wanted] =>
            match entries_named name wanted (entries l) with
            | [] => fail_with (not_named op noun wanted)
            | kept => print (with_entries l kept)
            end
        | _ => print l
        end
    end.

Definition get_feature {L A} `{GoValue L} (op feature noun : string) (api : LoxiClient -> CommonAPI)
    (entries : L -> option (list A)) (with_entries : L -> list A -> L) (name : A -> string)
    (enc : L -> gojson) (show : L -> IO unit) (args : list string) : IO outcome :=
  if (2 <=? length args)%nat
  then fail_with (Usagef (op +:+ " takes at most one NAME"))
  else
    gated restOptions feature op
      (client ← NewLoxiClient restOptions;
       answered (colon op) (Get (api client))
         (feature_answered op feature noun entries with_entries name enc show args)).

Definition get_objective : list string -> IO outcome :=
  get_feature "get objective" Objectives "objective" Client.AIObjective obl_Objectives
    (fun l kept => {| obl_Objectives := Some kept; obl_Source := obl_Source l;
                      obl_SourceTimestamp := obl_SourceTimestamp l;
                      obl_StoreReachable := obl_StoreReachable l;
                      obl_StoreLastRead := obl_StoreLastRead l |})
    obe_Name ai_objective_list_json
    (fun l => _ ← say (objectiveSourceLine l +:+ nl);
              TableShow (titled OBJECTIVE_TITLE (objectiveRow <$> from (obl_Objectives l)))).

Definition get_netidentity : list string -> IO outcome :=
  get_feature "get netidentity" NetIdentityFeature "binding" Client.AINetIdentity nil_Bindings
    (fun _ kept => {| nil_Bindings := Some kept |}) nie_Name net_identity_list_json
    (fun l => TableShow (titled (in_view restOptions NETIDENTITY_TITLE NETIDENTITY_WIDE_TITLE)
                           (netIdentityRow (wide_wanted restOptions) <$> from (nil_Bindings l)))).

Definition get_jwtauthprofile : list string -> IO outcome :=
  get_feature "get jwtauthprofile" JWTAuthProfileFeature "profile" Client.AIJWTAuthProfile jpl_Profiles
    (fun _ kept => {| jpl_Profiles := Some kept |}) jpe_Name jwt_auth_profile_list_json
    (fun l => TableShow (titled (in_view restOptions JWTAUTHPROFILE_TITLE JWTAUTHPROFILE_WIDE_TITLE)
                           (jwtAuthProfileRow (wide_wanted restOptions) <$> from (jpl_Profiles l)))).

(* ------------------------------------------------------------------ *)
(** ** The documents of the telemetry paths                            *)
(* ------------------------------------------------------------------ *)

(** [json.Indent] drops the white space of a document but not what follows it. *)
Definition json_space (a : ascii) : bool :=
  let z := zbyte a in (z =? 32)%Z || (z =? 9)%Z || (z =? 10)%Z || (z =? 13)%Z.
Fixpoint trailing_space (s : string) : string :=
  match s with
  | EmptyString => ""
  | String a s' => if forallb json_space (bytes s) then s else trailing_space s'
  end.
Definition indent_text (body : string) : option string :=
  if json_valid body then Some (indent_by "    " body +:+ trailing_space body) else None.

Definition printJSONResponse (what : string) (resp : http_response) : IO outcome :=
  if negb (hr_status resp =? 200)%Z then fail_with (api_error_answer what resp)
  else
    _ ← say (if is_empty (trim_space (hr_body resp)) then sprintf [what; ": (empty response)"; nl]
             else default (hr_body resp) (indent_text (hr_body resp)) +:+ nl);
    succeed.

Definition get_document (op what : string) (api : LoxiClient -> CommonAPI) : IO outcome :=
  client ← NewLoxiClient restOptions;
  answered (colon op) (Get (api client)) (printJSONResponse what).

Definition get_gpu (workers : bool) : IO outcome :=
  if workers then get_document "get gpu" "worker metrics" Client.WorkerMetrics
  else get_document "get gpu" "gpu status" (fun c => SubResources (Client.GPU c) ["status"]).
Definition get_pii (stats : bool) : IO outcome :=
  get_document "get pii" (if stats then "pii stats" else "pii status")
    (fun c => SubResources (Client.PII c) [if stats then "stats" else "status"]).
Definition get_llamafirewall (stats : bool) : IO outcome :=
  get_document "get llamafirewall" (if stats then "llamafirewall stats" else "llamafirewall status")
    (fun c => SubResources (Client.LlamaFirewall c) [if stats then "stats" else "status"]).
Definition get_trace (otlp parsers : bool) : IO outcome :=
  let '(sub, what) :=
    if otlp then ("otlp", "trace otlp config")
    else if parsers then ("parsers", "trace parsers") else ("status", "trace status") in
  get_document "get trace" what (fun c => SubResources (Client.Trace c) [sub]).
Definition get_l4trace : IO outcome :=
  get_document "get l4trace" "l4trace status" (fun c => SubResources (Client.L4Trace c) ["status"]).
Definition get_opa : IO outcome := get_document "get opa" "opa watcher" Client.OPA.

Definition dpu_query (changed : string -> bool) (flows : bool) (pipe svc ep : string) (limit : Z)
    : list (string * string) :=
  let given := fun name value => if is_empty value then [] else [(name, value)] in
  (if flows then [("flows", "1")] else []) ++ given "pipe" pipe ++ given "svc" svc ++ given "ep" ep
  ++ (if changed "limit" then [("limit", itoa limit)] else []).
Definition get_dpu (changed : string -> bool) (hwcounters flows : bool) (pipe svc ep : string)
    (limit : Z) : IO outcome :=
  if hwcounters
  then get_document "get dpu" "dpu hwcounters" (fun c => SubResources (Client.DPU c) ["hwcounters"])
  else
    get_document "get dpu" "dpu debug" (fun c =>
      let api := SubResources (Client.DPU c) ["debug"] in
      match dpu_query changed flows pipe svc ep limit with [] => api | q => Query api q end).

End Gateway.
