(* ===== verification/AuditTrail.v ===== *)
(** * The audit trail's status and the log archives: [audit.go], [logs.go]

    [get audit-status] of [cmd/lifecycle]: the status of the trail and its
    rendering, in which a zero that means nothing is not printed as a
    measurement.  [get log-archives] without a name: the listing, laid out by
    package [text/tabwriter]. *)
From S2P Require Import Prelude GoStrings Json JsonPrint Floats Fields World Errors Exitcode Rest.
From S2P Require Import FeatureGate Commands Lifecycle LifecycleCmds ConfigLifecycle OpsCmds AuditSinks.
From S2P Require Import Tables.

(** [audit.go]. *)
Record AuditSegmentStatus : Type := {
  sgm_UUID : string;
  sgm_Opened : string;
  sgm_Records : Z;
  sgm_Bytes : Z
}.
#[global] Instance audit_segment_status_value : GoValue AuditSegmentStatus := {|
  go_zero := {| sgm_UUID := ""; sgm_Opened := ""; sgm_Records := 0; sgm_Bytes := 0 |};
  go_into strict old := decode_struct strict
    ["uuid"; "opened"; "records"; "bytes"] old (fun ms =>
    x0 ← field strict ms "uuid" (sgm_UUID old);
    x1 ← field strict ms "opened" (sgm_Opened old);
    x2 ← field strict ms "records" (sgm_Records old);
    x3 ← field strict ms "bytes" (sgm_Bytes old);
    Some {| sgm_UUID := x0; sgm_Opened := x1; sgm_Records := x2; sgm_Bytes := x3 |}) |}.

Record AuditRetentionPolicy : Type := {
  rtp_MaxAgeSeconds : Z;
  rtp_MaxBytes : Z;
  rtp_ReserveBytes : Z
}.
#[global] Instance audit_retention_policy_value : GoValue AuditRetentionPolicy := {|
  go_zero := {| rtp_MaxAgeSeconds := 0; rtp_MaxBytes := 0; rtp_ReserveBytes := 0 |};
  go_into strict old := decode_struct strict
    ["max_age_seconds"; "max_bytes"; "reserve_bytes"] old (fun ms =>
    x0 ← field strict ms "max_age_seconds" (rtp_MaxAgeSeconds old);
    x1 ← field strict ms "max_bytes" (rtp_MaxBytes old);
    x2 ← field strict ms "reserve_bytes" (rtp_ReserveBytes old);
    Some {| rtp_MaxAgeSeconds := x0; rtp_MaxBytes := x1; rtp_ReserveBytes := x2 |}) |}.

Record AuditDropCount : Type := {
  adc_Stream : string;
  adc_Reason : string;
  adc_Count : Z
}.
#[global] Instance audit_drop_count_value : GoValue AuditDropCount := {|
  go_zero := {| adc_Stream := ""; adc_Reason := ""; adc_Count := 0 |};
  go_into strict old := decode_struct strict
    ["stream"; "reason"; "count"] old (fun ms =>
    x0 ← field strict ms "stream" (adc_Stream old);
    x1 ← field strict ms "reason" (adc_Reason old);
    x2 ← field strict ms "count" (adc_Count old);
    Some {| adc_Stream := x0; adc_Reason := x1; adc_Count := x2 |}) |}.

Record AuditProducerStatus : Type := {
  aps_ID : string;
  aps_Stream : string;
  aps_PSeqHigh : Z;
  aps_Accepted : Z;
  aps_Dropped : gmap string Z;
  aps_DropRingOverflows : Z
}.
#[global] Instance audit_producer_status_value : GoValue AuditProducerStatus := {|
  go_zero := {| aps_ID := ""; aps_Stream := ""; aps_PSeqHigh := 0; aps_Accepted := 0;
                aps_Dropped := ∅; aps_DropRingOverflows := 0 |};
  go_into strict old := decode_struct strict
    ["id"; "stream"; "pseq_high"; "accepted"; "dropped"; "drop_ring_overflows"] old (fun ms =>
    x0 ← field strict ms "id" (aps_ID old);
    x1 ← field strict ms "stream" (aps_Stream old);
    x2 ← field strict ms "pseq_high" (aps_PSeqHigh old);
    x3 ← field strict ms "accepted" (aps_Accepted old);
    x4 ← field strict ms "dropped" (aps_Dropped old);
    x5 ← field strict ms "drop_ring_overflows" (aps_DropRingOverflows old);
    Some {| aps_ID := x0; aps_Stream := x1; aps_PSeqHigh := x2; aps_Accepted := x3;
            aps_Dropped := x4; aps_DropRingOverflows := x5 |}) |}.

Record AuditSinkStatus : Type := {
  ass_Name : string;
  ass_Compliance : bool;
  ass_State : string;
  ass_Cursor : option AuditSinkCursor;
  ass_InActiveSegment : bool;
  ass_LagRecords : Z;
  ass_LagDrops : Z
}.
#[global] Instance audit_sink_status_value : GoValue AuditSinkStatus := {|
  go_zero := {| ass_Name := ""; ass_Compliance := false; ass_State := ""; ass_Cursor := None;
                ass_InActiveSegment := false; ass_LagRecords := 0; ass_LagDrops := 0 |};
  go_into strict old := decode_struct strict
    ["name"; "compliance"; "state"; "cursor"; "in_active_segment"; "lag_records"; "lag_drops"] old (fun ms =>
    x0 ← field strict ms "name" (ass_Name old);
    x1 ← field strict ms "compliance" (ass_Compliance old);
    x2 ← field strict ms "state" (ass_State old);
    x3 ← field strict ms "cursor" (ass_Cursor old);
    x4 ← field strict ms "in_active_segment" (ass_InActiveSegment old);
    x5 ← field strict ms "lag_records" (ass_LagRecords old);
    x6 ← field strict ms "lag_drops" (ass_LagDrops old);
    Some {| ass_Name := x0; ass_Compliance := x1; ass_State := x2; ass_Cursor := x3;
            ass_InActiveSegment := x4; ass_LagRecords := x5; ass_LagDrops := x6 |}) |}.

Record AuditStatusResult : Type := {
  ast_Available : option bool;
  ast_Running : bool;
  ast_BootID : string;
  ast_SeqHigh : Z;
  ast_LastWrite : string;
  ast_Accepted : gmap string Z;
  ast_Dropped : option (list AuditDropCount);
  ast_ResultDrops : Z;
  ast_OriginatorDropped : Z;
  ast_DelegationLookups : Z;
  ast_QueueDepth : gmap string Z;
  ast_QueueHWM : gmap string Z;
  ast_WriteFailures : Z;
  ast_SyncFailures : Z;
  ast_MgmtTimeouts : Z;
  ast_Panics : Z;
  ast_Restarts : Z;
  ast_Heartbeats : Z;
  ast_Rotations : Z;
  ast_PathSanitized : Z;
  ast_Unattributed : Z;
  ast_PermRepaired : Z;
  ast_RotationFailed : Z;
  ast_CompressFailed : Z;
  ast_CompressSkipped : Z;
  ast_Pruned : Z;
  ast_ReserveBreaches : Z;
  ast_ReserveBreached : bool;
  ast_SealedBytes : Z;
  ast_OrphanedIntents : Z;
  ast_LastOrphanEventID : string;
  ast_Segment : option AuditSegmentStatus;
  ast_Retention : option AuditRetentionPolicy;
  ast_ProjectedRetentionDays : float64;
  ast_Producers : option (list AuditProducerStatus);
  ast_ComplianceSink : option bool;
  ast_Sinks : option (list AuditSinkStatus)
}.
#[global] Instance audit_status_result_value : GoValue AuditStatusResult := {|
  go_zero := {| ast_Available := None; ast_Running := false; ast_BootID := ""; ast_SeqHigh := 0;
                ast_LastWrite := ""; ast_Accepted := ∅; ast_Dropped := None;
                ast_ResultDrops := 0; ast_OriginatorDropped := 0; ast_DelegationLookups := 0;
                ast_QueueDepth := ∅; ast_QueueHWM := ∅; ast_WriteFailures := 0;
                ast_SyncFailures := 0; ast_MgmtTimeouts := 0; ast_Panics := 0;
                ast_Restarts := 0; ast_Heartbeats := 0; ast_Rotations := 0;
                ast_PathSanitized := 0; ast_Unattributed := 0; ast_PermRepaired := 0;
                ast_RotationFailed := 0; ast_CompressFailed := 0; ast_CompressSkipped := 0;
                ast_Pruned := 0; ast_ReserveBreaches := 0; ast_ReserveBreached := false;
                ast_SealedBytes := 0; ast_OrphanedIntents := 0; ast_LastOrphanEventID := "";
                ast_Segment := None; ast_Retention := None;
                ast_ProjectedRetentionDays := Finite false 0 0; ast_Producers := None;
                ast_ComplianceSink := None; ast_Sinks := None |};
  go_into strict old := decode_struct strict
    ["available"; "running"; "boot_id"; "seq_high"; "last_write"; "accepted"; "dropped";
     "result_drops"; "originator_dropped"; "delegation_lookups"; "queue_depth"; "queue_hwm";
     "write_failures"; "sync_failures"; "mgmt_timeouts"; "panics"; "restarts"; "heartbeats";
     "rotations"; "path_sanitized"; "unattributed"; "perm_repaired"; "rotation_failed";
     "compress_failed"; "compress_skipped"; "pruned"; "reserve_breaches"; "reserve_breached";
     "sealed_bytes"; "orphaned_intents"; "last_orphan_event_id"; "segment"; "retention";
     "projected_retention_days"; "producers"; "compliance_sink"; "sinks"] old (fun ms =>
    x0 ← field strict ms "available" (ast_Available old);
    x1 ← field strict ms "running" (ast_Running old);
    x2 ← field strict ms "boot_id" (ast_BootID old);
    x3 ← field strict ms "seq_high" (ast_SeqHigh old);
    x4 ← field strict ms "last_write" (ast_LastWrite old);
    x5 ← field strict ms "accepted" (ast_Accepted old);
    x6 ← field strict ms "dropped" (ast_Dropped old);
    x7 ← field strict ms "result_drops" (ast_ResultDrops old);
    x8 ← field strict ms "originator_dropped" (ast_OriginatorDropped old);
    x9 ← field strict ms "delegation_lookups" (ast_DelegationLookups old);
    x10 ← field strict ms "queue_depth" (ast_QueueDepth old);
    x11 ← field strict ms "queue_hwm" (ast_QueueHWM old);
    x12 ← field strict ms "write_failures" (ast_WriteFailures old);
    x13 ← field strict ms "sync_failures" (ast_SyncFailures old);
    x14 ← field strict ms "mgmt_timeouts" (ast_MgmtTimeouts old);
    x15 ← field strict ms "panics" (ast_Panics old);
    x16 ← field strict ms "restarts" (ast_Restarts old);
    x17 ← field strict ms "heartbeats" (ast_Heartbeats old);
    x18 ← field strict ms "rotations" (ast_Rotations old);
    x19 ← field strict ms "path_sanitized" (ast_PathSanitized old);
    x20 ← field strict ms "unattributed" (ast_Unattributed old);
    x21 ← field strict ms "perm_repaired" (ast_PermRepaired old);
    x22 ← field strict ms "rotation_failed" (ast_RotationFailed old);
    x23 ← field strict ms "compress_failed" (ast_CompressFailed old);
    x24 ← field strict ms "compress_skipped" (ast_CompressSkipped old);
    x25 ← field strict ms "pruned" (ast_Pruned old);
    x26 ← field strict ms "reserve_breaches" (ast_ReserveBreaches old);
    x27 ← field strict ms "reserve_breached" (ast_ReserveBreached old);
    x28 ← field strict ms "sealed_bytes" (ast_SealedBytes old);
    x29 ← field strict ms "orphaned_intents" (ast_OrphanedIntents old);
    x30 ← field strict ms "last_orphan_event_id" (ast_LastOrphanEventID old);
    x31 ← field strict ms "segment" (ast_Segment old);
    x32 ← field strict ms "retention" (ast_Retention old);
    x33 ← field strict ms "projected_retention_days" (ast_ProjectedRetentionDays old);
    x34 ← field strict ms "producers" (ast_Producers old);
    x35 ← field strict ms "compliance_sink" (ast_ComplianceSink old);
    x36 ← field strict ms "sinks" (ast_Sinks old);
    Some {| ast_Available := x0; ast_Running := x1; ast_BootID := x2; ast_SeqHigh := x3;
            ast_LastWrite := x4; ast_Accepted := x5; ast_Dropped := x6; ast_ResultDrops := x7;
            ast_OriginatorDropped := x8; ast_DelegationLookups := x9; ast_QueueDepth := x10;
            ast_QueueHWM := x11; ast_WriteFailures := x12; ast_SyncFailures := x13;
            ast_MgmtTimeouts := x14; ast_Panics := x15; ast_Restarts := x16;
            ast_Heartbeats := x17; ast_Rotations := x18; ast_PathSanitized := x19;
            ast_Unattributed := x20; ast_PermRepaired := x21; ast_RotationFailed := x22;
            ast_CompressFailed := x23; ast_CompressSkipped := x24; ast_Pruned := x25;
            ast_ReserveBreaches := x26; ast_ReserveBreached := x27; ast_SealedBytes := x28;
            ast_OrphanedIntents := x29; ast_LastOrphanEventID := x30; ast_Segment := x31;
            ast_Retention := x32; ast_ProjectedRetentionDays := x33; ast_Producers := x34;
            ast_ComplianceSink := x35; ast_Sinks := x36 |}) |}.

(** [logs.go]. *)
Record LogArchiveInfo : Type := {
  lai_Name : string;
  lai_SizeBytes : Z;
  lai_Modified : string
}.
#[global] Instance log_archive_info_value : GoValue LogArchiveInfo := {|
  go_zero := {| lai_Name := ""; lai_SizeBytes := 0; lai_Modified := "" |};
  go_into strict old := decode_struct strict
    ["name"; "size_bytes"; "modified"] old (fun ms =>
    x0 ← field strict ms "name" (lai_Name old);
    x1 ← field strict ms "size_bytes" (lai_SizeBytes old);
    x2 ← field strict ms "modified" (lai_Modified old);
    Some {| lai_Name := x0; lai_SizeBytes := x1; lai_Modified := x2 |}) |}.

Record LogArchiveList : Type := {
  lal_Archives : option (list string);
  lal_ArchiveInfo : option (list LogArchiveInfo)
}.
#[global] Instance log_archive_list_value : GoValue LogArchiveList := {|
  go_zero := {| lal_Archives := None; lal_ArchiveInfo := None |};
  go_into strict old := decode_struct strict
    ["archives"; "archive_info"] old (fun ms =>
    x0 ← field strict ms "archives" (lal_Archives old);
    x1 ← field strict ms "archive_info" (lal_ArchiveInfo old);
    Some {| lal_Archives := x0; lal_ArchiveInfo := x1 |}) |}.

(* ------------------------------------------------------------------ *)
(** ** The rendering of the status                                     *)
(* ------------------------------------------------------------------ *)

(** [%.1f]: rounded to the nearest tenth, to even between two. *)
Definition tenths_text (n : Z) : string := sprintf [itoa (n / 10); "."; itoa (n mod 10)].
Definition fixed1 (x : float64) : string :=
  match x with
  | Finite neg m q =>
      let n := (if 0 <=? q then m * 2 ^ q * 10 else round_even (m * 10) (2 ^ (- q)))%Z in
      (if neg then "-" else "") +:+ tenths_text n
  | Infinite neg => if neg then "-Inf" else "+Inf"
  | NaN => "NaN"
  end.
Definition above_zero (x : float64) : bool :=
  match x with Finite neg m _ => negb neg && (0 <? m)%Z | Infinite neg => negb neg | NaN => false end.

Definition boundSeconds (v : Z) : string := if (v =? 0)%Z then "unbounded" else itoa v +:+ "s".

(** The keys in order. *)
Definition counts_in_order (m : gmap string Z) : list (string * Z) :=
  insertion_sort (by_text fst) (map_to_list m).
Definition joinCounts (m : gmap string Z) : string :=
  join ", " ((fun x : string * Z => sprintf [x.1; " "; itoa x.2]) <$> counts_in_order m).

Definition when_counts (m : gmap string Z) (label : string) : list string :=
  when (negb (bool_decide (m = ∅))) [label; joinCounts m].

Definition audit_counters (st : AuditStatusResult) : list (string * Z) :=
  [("write failures", ast_WriteFailures st); ("sync failures", ast_SyncFailures st);
   ("mgmt timeouts", ast_MgmtTimeouts st); ("panics", ast_Panics st); ("restarts", ast_Restarts st);
   ("rotations", ast_Rotations st); ("rotation failures", ast_RotationFailed st);
   ("compress failures", ast_CompressFailed st); ("compress skipped", ast_CompressSkipped st);
   ("pruned segments", ast_Pruned st); ("reserve breaches", ast_ReserveBreaches st);
   ("paths sanitized", ast_PathSanitized st); ("unattributed records", ast_Unattributed st);
   ("permissions repaired", ast_PermRepaired st); ("originator headers dropped", ast_OriginatorDropped st);
   ("delegation lookups", ast_DelegationLookups st); ("heartbeats", ast_Heartbeats st)].
Definition counters_line (st : AuditStatusResult) : string :=
  match List.filter (fun c : string * Z => negb (c.2 =? 0)%Z) (audit_counters st) with
  | [] => "  Counters: all zero" +:+ endl
  | l => sprintf ["  Counters: "; join ", " ((fun c => sprintf [c.1; " "; itoa c.2]) <$> l); endl]
  end.

Definition segment_lines (s : AuditSegmentStatus) : list string :=
  [ sprintf ["  Active segment: "; sgm_UUID s; endl];
    sprintf ["    Opened: "; sgm_Opened s; ", "; itoa (sgm_Records s); " records, "; itoa (sgm_Bytes s);
             " bytes"; endl] ].
Definition retention_lines (r : AuditRetentionPolicy) : list string :=
  [ sprintf ["  Retention: age "; boundSeconds (rtp_MaxAgeSeconds r); ", quota "; boundBytes (rtp_MaxBytes r);
             ", reserve "; boundBytes (rtp_ReserveBytes r); endl] ].

(** One line, in pieces as they are written. *)
Definition sink_lines (k : AuditSinkStatus) : list string :=
  [ sprintf ["    "; ass_Name k; (if ass_Compliance k then " (compliance)" else ""); ": "; ass_State k] ]
  ++ (match ass_Cursor k with
      | Some c => if is_empty (cu_SegmentUUID c) then []
                  else [sprintf [", past seq "; itoa (cu_Seq c); " in "; cu_SegmentUUID c]]
      | None => []
      end)
  ++ [ (if ass_InActiveSegment k then sprintf [", "; itoa (ass_LagRecords k); " records behind"]
        else ", still reading sealed segments") ]
  ++ (if (ass_LagDrops k =? 0)%Z then []
      else [sprintf [", "; itoa (ass_LagDrops k); " segments LOST to retention before they were sent"]])
  ++ [endl].

Definition producer_lines (p : AuditProducerStatus) : list string :=
  [ sprintf ["    "; aps_ID p; " ("; aps_Stream p; "): pseq high "; itoa (aps_PSeqHigh p); ", accepted ";
             itoa (aps_Accepted p)] ]
  ++ (if bool_decide (aps_Dropped p = ∅) then [] else [sprintf [", dropped "; joinCounts (aps_Dropped p)]])
  ++ (if (aps_DropRingOverflows p =? 0)%Z then []
      else [sprintf [", drop-ring overflows "; itoa (aps_DropRingOverflows p)]])
  ++ [endl].

Definition headed {A} (head : string) (lines : A -> list string) (l : option (list A)) : list string :=
  match default [] l with [] => [] | l => (head +:+ endl) :: concat (lines <$> l) end.

Definition humanAuditStatus (st : AuditStatusResult) : list string :=
  if negb (default false (ast_Available st)) then
    [ "Audit: NOT AVAILABLE - no writer was configured at start." +:+ endl;
      "  The audit directory was unusable; every audited management call is refused." +:+ endl ]
  else
    [sprintf ["Audit: available, ";
              (if ast_Running st then "running" else "NOT RUNNING (restarting after a failure)"); endl]]
    ++ when (negb (is_empty (ast_BootID st))) ["  Boot id: "; ast_BootID st]
    ++ [ sprintf ["  Sequence high: "; itoa (ast_SeqHigh st); endl];
         sprintf ["  Last write: "; (if is_empty (ast_LastWrite st) then "none yet" else ast_LastWrite st);
                  endl] ]
    ++ when_counts (ast_Accepted st) "  Accepted: "
    ++ headed "  Dropped:"
         (fun d => [sprintf ["    "; adc_Stream d; "/"; adc_Reason d; ": "; itoa (adc_Count d); endl]])
         (ast_Dropped st)
    ++ when (0 <? ast_ResultDrops st)%Z
         ["  Result records LOST after the change was applied: "; itoa (ast_ResultDrops st)]
    ++ when_counts (ast_QueueDepth st) "  Queue depth: "
    ++ when_counts (ast_QueueHWM st) "  Queue high-water: "
    ++ from_option segment_lines [] (ast_Segment st)
    ++ [sprintf ["  Sealed on disk: "; itoa (ast_SealedBytes st); " bytes"; endl]]
    ++ from_option retention_lines [] (ast_Retention st)
    ++ [sprintf ["  Projected retention: ";
                 (if above_zero (ast_ProjectedRetentionDays st)
                  then fixed1 (ast_ProjectedRetentionDays st) +:+ " days" else "not projectable yet"); endl]]
    ++ when (ast_ReserveBreached st)
         ["  RESERVE BREACHED - durable management writes are refused until space is recovered"]
    ++ when (0 <? ast_OrphanedIntents st)%Z
         ["  Orphaned intents from the previous boot: "; itoa (ast_OrphanedIntents st)]
    ++ when ((0 <? ast_OrphanedIntents st)%Z && negb (is_empty (ast_LastOrphanEventID st)))
         ["    Most recent event id: "; ast_LastOrphanEventID st]
    ++ [counters_line st]
    ++ when (bool_decide (ast_ComplianceSink st = Some false))
         ["  Compliance sink: NOT CONFIGURED - no record leaves the gateway in full"]
    ++ headed "  Sinks:" sink_lines (ast_Sinks st)
    ++ headed "  Producers:" producer_lines (ast_Producers st).

Definition AuditStatusGet `{GoLib} (restOptions : RESTOptions) (jsonOut : bool) : IO (option goerror) :=
  client ← NewLoxiClient restOptions;
  answer ← exchange "audit status request failed" "audit status" (Get (Client.AuditStatus client));
  match answer with
  | Err e => lifecycle_failed e
  | Ok (resp, body) =>
      if negb (hr_status resp =? 200)%Z then lifecycle_failed (NewStatusError (hr_status resp) body)
      else show_document (unmarshal AuditStatusResult body) (fun st => bool_decide (is_Some (ast_Available st)))
             "the gateway's audit status response could not be decoded" body jsonOut humanAuditStatus
  end.

(* ------------------------------------------------------------------ *)
(** ** The listing of the archives                                     *)
(* ------------------------------------------------------------------ *)

(** [tabwriter.NewWriter(out, 0, 0, 2, ' ', 0)]: the cells of a line are closed
    by tabs, all but the last; a column is as wide as the widest of its cells on
    the lines around that have it, and two more.  (Of the characters it treats
    otherwise, a vertical tab, a form feed and the byte 255, a name has none.) *)
Definition cell_width (cell : string) : nat := length (runes cell).
Definition has_cell (i : nat) (line : list string) : bool := (i <? length line - 1)%nat.
Fixpoint run_width (i : nat) (lines : list (list string)) : nat :=
  match lines with
  | [] => 0
  | l :: lines => if has_cell i l then Nat.max (cell_width (nth i l "")) (run_width i lines) else 0
  end.
Definition column_width (i : nat) (above : list (list string)) (line : list string)
    (below : list (list string)) : nat :=
  Nat.max (cell_width (nth i line "")) (Nat.max (run_width i above) (run_width i below)) + 2.

Definition line_text (above : list (list string)) (line : list string) (below : list (list string)) : string :=
  concat_str
    (imap (fun i cell =>
       if has_cell i line
       then cell +:+ of_bytes (replicate (column_width i above line below - cell_width cell) " "%char)
       else cell) line).
Fixpoint lines_from (above lines : list (list string)) : list string :=
  match lines with
  | [] => []
  | l :: below => line_text above l below :: lines_from (l :: above) below
  end.
(** What is written, line by line: the text ends in a newline. *)
Definition tab_text (rows : list (list string)) : list string :=
  let text := concat_str (List.map (fun r => join (String "009"%char "") r +:+ endl) rows) in
  let lines := removelast (split "010"%char text) in
  (fun l => l +:+ endl) <$> lines_from [] (split "009"%char <$> lines).

Definition archive_names (l : LogArchiveList) : list string :=
  match default [] (lal_Archives l) with
  | [] => lai_Name <$> default [] (lal_ArchiveInfo l)
  | names => names
  end.
(** The last entry of a name. *)
Definition archive_row (info : list LogArchiveInfo) (n : string) : list string :=
  match List.find (fun a => streq (lai_Name a) n) (rev info) with
  | Some a => [n; itoa (lai_SizeBytes a); dashIfEmpty (lai_Modified a)]
  | None => [n; "-"; "-"]
  end.
Definition humanLogArchives (l : LogArchiveList) : list string :=
  match archive_names l with
  | [] => ["No log archives." +:+ endl]
  | names => tab_text (["NAME"; "SIZE"; "MODIFIED"] :: (archive_row (default [] (lal_ArchiveInfo l)) <$> names))
  end.

Definition decode_archives (body : string) : option LogArchiveList :=
  _ ← unmarshal (gmap string json) body; unmarshal LogArchiveList body.

Definition LogArchivesList `{GoLib} (restOptions : RESTOptions) (jsonOut : bool) : IO (option goerror) :=
  client ← NewLoxiClient restOptions;
  answer ← exchange "log archives request failed" "log archives" (Get (Client.LogArchives client));
  match answer with
  | Err e => lifecycle_failed e
  | Ok (resp, body) =>
      if negb (hr_status resp =? 200)%Z then lifecycle_failed (NewStatusError (hr_status resp) body)
      else show_document (decode_archives body) (fun _ => true)
             "the gateway's log archives response could not be decoded" body jsonOut humanLogArchives
  end.
