(* ===== verification/LbTables.v ===== *)
(** * What [get lb] prints: [cmd/get/get_loadbalancer.go]

    The cells of a rule, its rows in both views, and the priority bands.  A row
    of the wide view can index past the sources of its rule, so the rows are an
    option: [None] is the panic of Go. *)
From S2P Require Import Prelude GoStrings GoNet Json JsonPrint Floats Fields World Errors Exitcode.
From S2P Require Import Rest FeatureGate Commands BandTriple LbModel Tables GetCmds.

Definition LOADBALANCER_TITLE : list string :=
  ["Ext IP"; "Port"; "Proto"; "Name"; "Mark"; "Sel"; "Mode"; "# of Endpoints"; "Timeout"; "Monitor";
   "Conn Limit"; "Queue Depth"; "Queue Wait(ms)"].
Definition LOADBALANCER_WIDE_TITLE : list string :=
  ["Ext IP"; "Sec IPs"; "Sources"; "Host"; "Port"; "Proto"; "Name"; "Mark"; "Sel"; "Mode"; "Endpoint";
   "EPort"; "Weight"; "State"; "Counters"; "Gate"; "Max Out"; "Adaptive"; "Tenants"; "Headers";
   "Backend TLS"; "Bands"; "EPP"].
Definition LOADBALANCER_BANDS_TITLE : list string :=
  ["Band"; "Inflight"; "Queued"; "Wait(ms)"; "Queue %"; "Min Share %"; "Floor Units"; "Weight"; "Weight %";
   "Source (weight/floor/wait/queue)"].

(* ------------------------------------------------------------------ *)
(** ** Words for numbers                                               *)
(* ------------------------------------------------------------------ *)

Definition assoc_z {A} (z : Z) (l : list (Z * A)) : option A :=
  snd <$> List.find (fun x => (x.1 =? z)%Z) l.

Definition NumToSelect (sel : Z) : string :=
  default "rr"
    (assoc_z sel [(0, "rr"); (1, "hash"); (2, "priority"); (3, "persist"); (4, "lc"); (5, "n2"); (6, "n3");
                  (8, "chwbl"); (9, "gpuaware"); (10, "wrr-hash")]%Z).
Definition NumToSecurty (sec : Z) : string :=
  if (sec =? 1)%Z then "https" else if (sec =? 2)%Z then "e2ehttps" else "".
Definition NumToMode (mode : Z) (ppv2 egress : bool) : string :=
  sprintf
    [default "default"
       (assoc_z mode [(1, "onearm"); (2, "fullnat"); (3, "dsr"); (4, "fullproxy"); (5, "hostonearm")]%Z);
     if ppv2 then ":ppv2" else ""; if egress then ":egress" else ""].
Definition BoolToMon (mon : bool) : string := if mon then "On" else "Off".

(* ------------------------------------------------------------------ *)
(** ** Cells                                                           *)
(* ------------------------------------------------------------------ *)

Definition in_parens (s : string) : string := if is_empty s then "" else sprintf [" ("; s; ")"].

Definition fcQueueCell (declared effective : Z) : string :=
  if (declared =? 0)%Z && negb (effective =? 0)%Z then sprintf ["0 (default "; num effective; ")"]
  else num declared.
Definition u32Val (p : option uint32) : Z := from_option u32 0%Z p.

(** A field of the sources, empty when the gateway names none. *)
Definition source_of (field : FcEffectiveSource -> string) (eff : FcEffective) : string :=
  from_option field "" (fe_Source eff).

Definition fcGateCells (eff : option FcEffective) : string * string :=
  match eff with
  | Some e =>
      if is_empty (fe_Mode e) then ("-", "-")
      else (fe_Mode e +:+ in_parens (source_of fs_Mode e),
            num (u32 (fe_MaxOutstanding e)) +:+ in_parens (source_of fs_MaxOutstanding e))
  | None => ("-", "-")
  end.

Definition fcAdaptCell (eff : option FcEffective) : string :=
  match eff with
  | Some e =>
      if is_empty (fe_AdaptState e) then "-"
      else if streq (fe_AdaptState e) "off" then "off"
      else
        sprintf
          [fe_AdaptState e; " "; num (u32 (fe_EffectiveMaxOutstanding e)); "/";
           num (u32 (fe_MaxOutstanding e));
           (if str_in (fe_AdaptReason e) [""; "none"] then "" else sprintf [" ("; fe_AdaptReason e; ")"]);
           (if (0 <? u32 (fe_WarmingEndpoints e))%Z
            then sprintf [", "; num (u32 (fe_WarmingEndpoints e)); " warming"] else "")]
  | None => "-"
  end.

Definition fcTenantCell (eff : option FcEffective) : string :=
  match eff with
  | Some e =>
      let share := u32 (fe_TenantMaxSharePct e) in
      if (share =? 0)%Z || (100 <=? share)%Z then "-"
      else sprintf [num share; "%"; in_parens (source_of fs_TenantMaxSharePct e); ", ";
                    num (u32 (fe_TenantsActive e)); " active"]
  | None => "-"
  end.

Definition fcHeadersCell (eff : option FcEffective) : string :=
  match eff with
  | Some e =>
      if is_empty (fe_ExposeHeaders e) then "-"
      else fe_ExposeHeaders e +:+ in_parens (source_of fs_ExposeHeaders e)
  | None => "-"
  end.

Definition backendTLSCell (eff : option BackendTLSEffective) : string :=
  match eff with
  | Some e =>
      if is_empty (bk_Status e) then "-"
      else if negb (str_in (bk_Status e) ["applied"; "failed"]) then bk_Status e
      else sprintf [bk_Status e; ": "; (if bk_Verify e then "verify" else "no verify");
                    (if bk_ClientCert e then ", client" else "");
                    (if is_empty (bk_ServerName e) then "" else ", name")]
  | None => "-"
  end.

Definition eppCell (s : LoadBalancerService) : string :=
  if is_empty (sv_EppEndpoint s) then "-" else sv_EppEndpoint s +:+ in_parens (sv_EppFailureMode s).

Definition fcEffectiveCell (configured effective reason : string) : string :=
  if is_empty configured then "-"
  else
    let differs := negb (is_empty effective) && negb (streq effective configured) in
    let hasReason := negb (str_in reason [""; "none"]) in
    if differs && hasReason
    then sprintf [configured; " (effective: "; effective; ", reason: "; reason; ")"]
    else if differs then sprintf [configured; " (effective: "; effective; ")"]
    else if hasReason then sprintf [configured; " (reason: "; reason; ")"]
    else configured.

Definition fcBandsCell (eff : option FcEffective) : string :=
  match eff with
  | Some e =>
      if is_empty (fe_WakePolicy e) then "-"
      else fcEffectiveCell (fe_WakePolicy e) (fe_WakePolicyEffective e) (fe_BandFallbackReason e)
  | None => "-"
  end.

(* ------------------------------------------------------------------ *)
(** ** The rows of a rule                                              *)
(* ------------------------------------------------------------------ *)

Definition protocol_cell (s : LoadBalancerService) : string :=
  sv_Protocol s +:+ (if (i32 (sv_Security s) =? 0)%Z then "" else ":" +:+ NumToSecurty (i32 (sv_Security s))).
Definition port_cell (s : LoadBalancerService) : string :=
  num (u16 (sv_Port s)) +:+ (if (u16 (sv_PortMax s) =? 0)%Z then "" else "-" +:+ num (u16 (sv_PortMax s))).
Definition service_cells (s : LoadBalancerService) : list string :=
  [sv_Name s; num (u32 (sv_Block s)); NumToSelect (u64 (sv_Sel s));
   NumToMode (i32 (sv_Mode s)) (sv_PpV2 s) (sv_Egress s)].

Definition effective_number (field : FcEffective -> uint32) (s : LoadBalancerService) : Z :=
  from_option (fun e => u32 (field e)) 0%Z (sv_FcEffective s).

Definition lb_row (r : LoadBalancerModel) : list string :=
  let s := lm_Service r in
  [sv_ExternalIP s; port_cell s; protocol_cell s] ++ service_cells s
  ++ [num (Z.of_nat (length (from (lm_Endpoints r)))); num (u32 (sv_Timeout s)); BoolToMon (sv_Monitor s);
      num (u32 (sv_ConnectionLimit s));
      fcQueueCell (u32Val (sv_FcMaxQueueDepth s)) (effective_number fe_QueueDepth s);
      fcQueueCell (u32Val (sv_FcMaxQueueWaitMs s)) (effective_number fe_QueueWaitMs s)].

(** [for i := 1; i < bound; i++ { s += ", " + l[i] }], from [l[0]]; an index
    out of range is the panic. *)
Definition walked_list (bound : nat) (l : list string) : option string :=
  match l with
  | [] => Some ""
  | first :: _ => join ", " <$> (cons first <$> mapM (fun i => l !! i) (seq 1 (bound - 1)))
  end.

(** The sources are counted by the secondary addresses. *)
Definition sec_cell (r : LoadBalancerModel) : option string :=
  let l := from (lm_SecondaryIPs r) in walked_list (length l) (si_SecondaryIP <$> l).
Definition sources_cell (r : LoadBalancerModel) : option string :=
  walked_list (length (from (lm_SecondaryIPs r))) (al_Prefix <$> from (lm_SrcIPs r)).

Definition endpoint_cells (monitored : bool) (e : LoadBalancerEndpoint) : list string :=
  [ep_EndpointIP e; num (u16 (ep_TargetPort e)); num (u8 (ep_Weight e));
   if monitored then ep_State e else "-"; ep_Counter e].

Definition gate_cells (s : LoadBalancerService) : list string :=
  let eff := sv_FcEffective s in
  [(fcGateCells eff).1; (fcGateCells eff).2; fcAdaptCell eff; fcTenantCell eff; fcHeadersCell eff;
   backendTLSCell (sv_BackendTLSEffective s); fcBandsCell eff; eppCell s].

(** A row for each endpoint; the rule is named on the first. *)
Definition wide_rows (r : LoadBalancerModel) : option (list (list string)) :=
  let s := lm_Service r in
  secIPs ← sec_cell r;
  sources ← sources_cell r;
  Some
    (imap (fun i e =>
       if (i =? 0)%nat
       then [sv_ExternalIP s; secIPs; sources; sv_Host s; port_cell s; protocol_cell s] ++ service_cells s
            ++ endpoint_cells (sv_Monitor s) e ++ gate_cells s
       else replicate 10 "" ++ endpoint_cells (sv_Monitor s) e ++ replicate 8 "")
       (from (lm_Endpoints r))).

(** The rules that are listed: those of the name asked for, no source NATs. *)
Definition lb_key (r : LoadBalancerModel) : string :=
  let s := lm_Service r in sprintf [sv_ExternalIP s; "|"; pad5 (u16 (sv_Port s)); "|"; sv_Protocol s].
Definition lb_listed (ServiceName : string) (r : LoadBalancerModel) : bool :=
  (is_empty ServiceName || streq ServiceName (sv_Name (lm_Service r))) && negb (sv_Snat (lm_Service r)).

(* ------------------------------------------------------------------ *)
(** ** The bands                                                       *)
(* ------------------------------------------------------------------ *)

Definition band_names : list string := ["critical"; "standard"; "sheddable"].
Definition band_row (source name : string) (b : FcBandEffective) : list string :=
  name :: List.map (fun v => num (u32 v))
            [be_Inflight b; be_Queued b; be_WaitMs b; be_QueuePct b; be_MinSharePct b; be_FloorUnits b;
             be_Weight b; be_WeightPct b] ++ [source].
Definition band_source (e : FcEffective) : string :=
  match fe_Source e with
  | None => "-"
  | Some s =>
      join "/" (dashIfEmpty <$> [fs_BandWeights s; fs_BandMinSharePct s; fs_BandWaitMs s; fs_BandQueuePct s])
  end.
Definition fcBandRows (eff : option FcEffective) : list (list string) :=
  match (e ← eff; b ← fe_Bands e; Some (e, b)) with
  | None => List.map (fun n => n :: replicate 9 "-") band_names
  | Some (e, b) =>
      zip_with (band_row (band_source e)) band_names [eb_Critical b; eb_Standard b; eb_Sheddable b]
  end.

Definition fcBandsHeading (s : LoadBalancerService) : string :=
  let rule := sprintf [dashIfEmpty (sv_Name s); " "; sv_ExternalIP s; ":"; num (u16 (sv_Port s)); "/";
                       sv_Protocol s] in
  let none := rule +:+ "  bands: -" in
  match sv_FcEffective s with
  | None => none
  | Some e =>
      if is_empty (fe_WakePolicy e) then none
      else
        sprintf
          [rule;
           "  wake policy: ";
           fcEffectiveCell (fe_WakePolicy e) (fe_WakePolicyEffective e) (fe_BandFallbackReason e);
           "  shed queue: "; fcEffectiveCell (fe_ShedQueue e) (fe_ShedQueueEffective e) "";
           "  tenant wake: "; fcEffectiveCell (fe_TenantWake e) (fe_TenantWakeEffective e) "";
           "  critical reserve: ";
           match fe_Bands e with
           | None => "-"
           | Some b => sprintf [num (u32 (eb_CriticalReservePct b)); "% (";
                                num (u32 (eb_CriticalReserveUnits b)); " units)"]
           end;
           "  config source: "; dashIfEmpty (fe_ConfigSource e)]
  end.

(* ------------------------------------------------------------------ *)
(** ** The command                                                     *)
(* ------------------------------------------------------------------ *)

Section LoadBalancers.
Context `{GoLib} `{TableLib} `{SortLib}.
Variable restOptions : RESTOptions.

Definition rules_listed (ServiceName : string) (r : LbRuleModGet) : list LoadBalancerModel :=
  List.filter (lb_listed ServiceName) (sort_slice (by_text lb_key) (from (lg_LbRules r))).

(** The header is set with each rule that is listed, rows or not. *)
Definition lb_table (ServiceName : string) (r : LbRuleModGet) : option table :=
  let rules := rules_listed ServiceName r in
  let header := fun title => match rules with [] => None | _ => Some title end in
  if wide_wanted restOptions
  then (fun rows => Table (header LOADBALANCER_WIDE_TITLE) (concat rows)) <$> mapM wide_rows rules
  else Some (Table (header LOADBALANCER_TITLE) (lb_row <$> rules)).

Definition PrintGetLbResult (ServiceName : string) (resp : http_response) : IO outcome :=
  match hr_body_error resp with
  | Some e => _ ← unread e; succeed
  | None =>
      match unmarshal LbRuleModGet (hr_body resp) with
      | None => _ ← undecoded (hr_body resp); succeed
      | Some r =>
          if json_wanted restOptions then _ ← say_json (lb_rule_mod_get_json r); succeed
          else
            match lb_table ServiceName r with
            | None => mret Panics
            | Some t => _ ← TableShow t; succeed
            end
      end
  end.

Definition bands_undecoded (body : string) (status : Z) : CLIError :=
  with_http_status
    (cli_error ContractMismatch (sprintf ["get lb: decode response: "; json_text "Unmarshal" body])
       "gateway" "") status.

Fixpoint print_bands (rules : list LoadBalancerModel) : IO outcome :=
  match rules with
  | [] => succeed
  | r :: rules =>
      _ ← say (fcBandsHeading (lm_Service r) +:+ nl);
      _ ← TableShow (titled LOADBALANCER_BANDS_TITLE (fcBandRows (sv_FcEffective (lm_Service r))));
      print_bands rules
  end.

Definition PrintGetLbBands (ServiceName : string) (resp : http_response) : IO outcome :=
  match hr_body_error resp with
  | Some e => fail_with (Unavailablef (sprintf ["get lb: read response: "; e]))
  | None =>
      match unmarshal LbRuleModGet (hr_body resp) with
      | None => fail_with (bands_undecoded (hr_body resp) (hr_status resp))
      | Some r => print_bands (rules_listed ServiceName r)
      end
  end.

Definition lb_answered (bands : bool) (ServiceName : string) (resp : http_response) : IO outcome :=
  if (hr_status resp =? 200)%Z then
    if bands && negb (json_wanted restOptions) then PrintGetLbBands ServiceName resp
    else PrintGetLbResult ServiceName resp
  else fail_with (FromHTTPStatus "get lb" (hr_status resp)).

Definition get_loadbalancer (bands : bool) (ServiceName : string) : IO outcome :=
  let read :=
    client ← NewLoxiClient restOptions;
    answered (colon "get lb") (Get (Client.LoadBalancerAll client)) (lb_answered bands ServiceName) in
  if bands then gated restOptions Bands "get lb --bands" read else read.

End LoadBalancers.
