(* ===== verification/Goldens.v ===== *)
(** * The answers pinned by the repository

    [cmd/goldens] runs the packaged command against a gateway that gives a fixed
    answer and compares what is printed.  The same runs of the model print the
    same text. *)
From S2P Require Import Prelude GoStrings GoNet Json JsonPrint Floats Fields World Errors Exitcode.
From S2P Require Import Rest FeatureGate Commands OpsCmds AuditSinks Tables GetCmds AiGets LbTables.
From S2P Require Import AuditTrail.

(** A text with its double quotes written as back quotes. *)
Definition quoted (s : string) : string :=
  of_bytes ((fun a => if Ascii.eqb a "`"%char then "034"%char else a) <$> bytes s).

(** The gateway of the test: [/version] answers as given, every other request
    gets the answer of the case. *)
Definition fake_gateway (body version : string) : World := fun h op =>
  match op return answer op with
  | OpHttp req =>
      Ok (HttpResponse 200 []
            (if has_suffix (hq_url req) "/netlox/v1/version" && negb (is_empty version) then version else body)
            None)
  | op => silent_world h op
  end.

Definition stdout_of {A} (m : IO A) (w : World) : string :=
  concat_str (List.map (fun op => match op with OpStdout s => s | _ => "" end) (ops_of m w)).

Definition lines_of_text (l : list string) : string := quoted (concat_str (List.map (fun s => s +:+ nl) l)).

Definition gatewayVersionBody : string :=
  quoted "{`version`:`main-55523449`,`buildInfo`:`2026_11_02-main`,`product`:`loxilb-inference-gateway`,`features`:[`epp`,`api_key_auth`,`jwt_auth_profile`]}".
Definition auditStatusBody : string :=
  quoted (sprintf ["{`available`:true,`running`:true,`boot_id`:`boot-abc`,`seq_high`:1024,";
    "`last_write`:`2025-01-01T00:00:02Z`,`accepted`:{`mgmt`:1000,`data`:24},";
    "`dropped`:[{`stream`:`data`,`reason`:`queue_full`,`count`:3}],`result_drops`:1,";
    "`originator_dropped`:2,`delegation_lookups`:7,`queue_depth`:{`mgmt`:0,`data`:5},";
    "`queue_hwm`:{`mgmt`:2,`data`:64},`write_failures`:0,`sync_failures`:0,";
    "`mgmt_timeouts`:1,`panics`:0,`restarts`:0,`heartbeats`:12,`rotations`:4,";
    "`path_sanitized`:0,`unattributed`:0,`perm_repaired`:1,`rotation_failed`:0,";
    "`compress_failed`:0,`compress_skipped`:0,`pruned`:2,`reserve_breaches`:0,";
    "`reserve_breached`:false,`sealed_bytes`:1048576,`orphaned_intents`:1,";
    "`last_orphan_event_id`:`ev-9`,`segment`:{`uuid`:`seg-1`,";
    "`opened`:`2025-01-01T00:00:00Z`,`records`:24,`bytes`:8192},";
    "`retention`:{`max_age_seconds`:2592000,`max_bytes`:10485760,";
    "`reserve_bytes`:1048576},`projected_retention_days`:30.5,";
    "`producers`:[{`id`:`loxinet`,`stream`:`data`,`pseq_high`:24,`accepted`:24,";
    "`dropped`:{`queue_full`:3},`drop_ring_overflows`:0}]}"]).
Definition auditStatusSinksBody : string :=
  quoted (sprintf ["{`available`:true,`running`:true,`boot_id`:`boot-abc`,`seq_high`:1024,";
    "`compliance_sink`:true,`sinks`:[{`name`:`compliance`,`compliance`:true,";
    "`state`:`connected`,`cursor`:{`segment_uuid`:`seg-2`,`seq`:1020},";
    "`in_active_segment`:true,`lag_records`:4},{`name`:`siem2`,`state`:`disconnected`,";
    "`cursor`:{`segment_uuid`:`seg-1`,`seq`:600},`lag_drops`:2}]}"]).
Definition auditStatusUnavailableBody : string :=
  quoted (sprintf ["{`available`:false}"]).
Definition auditSinkBody : string :=
  quoted (sprintf ["{`enabled`:true,`address`:`siem.example.com:6514`,";
    "`ca_bundle_path`:`/etc/loxilb/siem-ca.pem`,`server_name`:`siem.corp.example.com`,";
    "`client_cert_path`:`/etc/loxilb/gw.pem`,`client_key_path`:`/etc/loxilb/gw-key.pem`,";
    "`max_frame_bytes`:8192,`facility`:13,`connected`:true,`submitted`:1024,";
    "`truncated`:2,`write_errors`:1,`last_error`:`write: broken pipe`}"]).
Definition auditNamedSinkBody : string :=
  quoted (sprintf ["{`name`:`siem2`,`address`:`siem2.example.com:6514`,";
    "`ca_bundle_path`:`/etc/loxilb/siem2-ca.pem`,`facility`:13,`enterprise_number`:32473,";
    "`filter`:{`streams`:[`data`],`services`:[`chat`],`outcome`:`failed`,";
    "`data_sample`:10},`state`:`connected`,`cursor`:{`segment_uuid`:`seg-1`,`seq`:1024},";
    "`xseq_high`:88,`xseq_epoch`:1735689600,`submitted`:90,`filtered`:934,`resent`:2}"]).
Definition logArchivesBody : string :=
  quoted (sprintf ["{`archives`:[`gateway.log`,`gateway.log.1.gz`],";
    "`archive_info`:[{`name`:`gateway.log`,`size_bytes`:4096,";
    "`modified`:`2025-01-01T00:00:02Z`},{`name`:`gateway.log.1.gz`,`size_bytes`:1024,";
    "`modified`:`2024-12-31T00:00:00Z`}]}"]).
Definition logsBody : string :=
  quoted (sprintf ["{`logs`:[`2025-01-01T00:00:02Z INFO listener ready on 0.0.0.0:11111`,";
    "`2025-01-01T00:00:01Z INFO loading rules`],`log_file`:`gateway.log`,`log_count`:2,";
    "`total_size`:4096,`has_more`:true,`next_cursor`:`b2Zmc2V0OjEwMjQ`,";
    "`scanned_bytes`:128}"]).
Definition diagnosticsBody : string :=
  quoted (sprintf ["{`version`:`v1.2.3`,`build_info`:`rev abc`,`product`:`loxilb-inference-gateway`,";
    "`api_version`:`/netlox/v1 0.0.1`,`uptime_seconds`:42,`ready`:true,";
    "`ready_reasons`:[],`maintenance_state`:`active`,`ebpf_attachments`:[{`name`:`eno1`,";
    "`mode`:`tc`,`attached`:true}],`maps`:[{`name`:`conntrack`,`count`:10,";
    "`capacity`:1000}],`external_dependencies`:[{`type`:`keystore`,`required`:true,";
    "`status`:`ready`,`latency_class`:`fast`}]}"]).
Definition readyBody : string :=
  quoted (sprintf ["{`ready`:true,`reasons`:[],`ebpf_attachments`:[{`name`:`eno1`,`mode`:`tc`,";
    "`attached`:true},{`name`:`eno2`,`mode`:`tc`,`attached`:false}]}"]).
Definition oneLbBody : string :=
  quoted (sprintf ["{`lbAttr`:[{`serviceArguments`:{`externalIP`:`20.20.20.1`,`port`:2020,";
    "`protocol`:`tcp`,`sel`:0,`mode`:0,`BGP`:false,`Monitor`:false,`inactiveTimeOut`:240,";
    "`block`:0,`name`:`test-lb`},`secondaryIPs`:[],`allowedSources`:[],";
    "`endpoints`:[{`endpointIP`:`31.31.31.1`,`targetPort`:8080,`weight`:1,";
    "`state`:`active`,`counter`:``}]}]}"]).
Definition bandsLbBody : string :=
  quoted (sprintf ["{`lbAttr`:[{`serviceArguments`:{`externalIP`:`192.0.2.20`,`port`:8000,";
    "`protocol`:`tcp`,`sel`:0,`mode`:4,`BGP`:false,`Monitor`:false,`inactiveTimeOut`:240,";
    "`block`:0,`name`:`chat`,`fc_wake_policy`:`weighted`,`fc_band_weights`:`8:0:1`,";
    "`fc_effective`:{`mode`:`enforce`,`max_outstanding`:8,`effective_max_outstanding`:8,";
    "`queue_depth`:64,`queue_wait_ms`:30000,`adapt_state`:`off`,`expose_headers`:`off`,";
    "`tenant_slots`:1024,`wake_policy`:`weighted`,`wake_policy_effective`:`strict`,";
    "`weights_in_use`:false,`shed_queue`:`on`,`shed_queue_effective`:`on`,";
    "`tenant_wake`:`fifo`,`tenant_wake_effective`:`fifo`,";
    "`band_fallback_reason`:`zero_weight`,`llmd_headers`:`off`,`bands_configured`:true,";
    "`bands`:{`critical_reserve_pct`:10,`critical_reserve_units`:1,";
    "`critical`:{`inflight`:1,`queued`:0,`wait_ms`:0,`queue_pct`:0,`min_share_pct`:0,";
    "`floor_units`:0,`weight`:8,`weight_pct`:89},`standard`:{`inflight`:3,`queued`:2,";
    "`wait_ms`:5000,`queue_pct`:50,`min_share_pct`:20,`floor_units`:2,`weight`:0,";
    "`weight_pct`:0},`sheddable`:{`inflight`:0,`queued`:0,`wait_ms`:1000,`queue_pct`:20,";
    "`min_share_pct`:0,`floor_units`:0,`weight`:1,`weight_pct`:11}},";
    "`default_reservation`:`off`,`default_max_tokens`:0,`config_source`:`store`,";
    "`store_reachable`:true,`source`:{`mode`:`rule`,`max_outstanding`:`rule`,";
    "`wake_policy`:`rule`,`band_weights`:`rule`,`band_min_share_pct`:`default`,";
    "`critical_reserve_pct`:`rule`,`band_wait_ms`:`env`,`band_queue_pct`:`default`,";
    "`shed_queue`:`env`,`tenant_wake`:`default`,`llmd_headers`:`default`}}},";
    "`secondaryIPs`:[],`allowedSources`:[],`endpoints`:[{`endpointIP`:`203.0.113.1`,";
    "`targetPort`:8000,`weight`:1,`state`:`active`,`counter`:`0:0`}]}]}"]).
Definition objectiveListBody : string :=
  quoted (sprintf ["{`objectiveAttr`:[{`name`:`batch`,`services`:[`192.0.2.20:8000`],`priority`:-5,";
    "`updated_at`:`2026-10-23T05:59:00.960Z`},{`name`:`interactive`,`priority`:10,";
    "`updated_at`:`2026-10-23T05:59:00.946Z`}],`source`:`store`,";
    "`source_timestamp`:`2026-10-23T05:59:00.971Z`,`store_reachable`:true,";
    "`store_last_read`:`2026-10-23T05:59:00.971Z`}"]).
Definition netIdentityListBody : string :=
  quoted (sprintf ["{`netIdentityAttr`:[{`name`:`edge`,`match`:{`vlan`:100},`tenant`:`tenant-b`,";
    "`enforce`:`strict`,`credential`:`network`,`forward_identity`:false,";
    "`priority_class`:`standard`,`fail_mode`:`closed`},{`name`:`lab`,";
    "`match`:{`cidr`:[`10.10.0.0/16`]},`services`:[`192.0.2.20:8000`],";
    "`tenant`:`tenant-a`,`allowed_models`:[`llama-70b`],`enforce`:`advisory`,";
    "`credential`:`none`,`forward_identity`:true,`priority_class`:`critical`,";
    "`fail_mode`:`neutral`}]}"]).
Definition jwtAuthProfileListBody : string :=
  quoted (sprintf ["{`jwtAuthProfileAttr`:[{`name`:`keycloak`,";
    "`issuer`:`https://sso.example.com/realms/ai`,`forward_identity`:false,";
    "`authorization_passthrough`:false},{`name`:`okta`,";
    "`issuer`:`https://example.okta.com`,`jwks_url`:`https://example.okta.com/keys`,";
    "`audiences`:[`ai-gateway`,`api`],`algs`:[`RS256`,`ES256`],`leeway_sec`:60,";
    "`refresh_sec`:600,`tenant_claim`:`org_id`,`user_claim`:`sub`,";
    "`models_claim`:`models`,`roles_claim`:`groups`,`model_role_prefix`:`llm:`,";
    "`username_claim`:`email`,`model_authz`:`allow-all`,`default_tenant`:`public`,";
    "`forward_identity`:true,`authorization_passthrough`:true,";
    "`priority_class`:`critical`}]}"]).

Section Pinned.
Let lib : GoLib := plain_text.
Let tables : TableLib := plain_tables.
Let sorting : SortLib := insertion_library.
#[local] Existing Instance lib.
#[local] Existing Instance tables.
#[local] Existing Instance sorting.
Let o : RESTOptions := local_options.
Let j : RESTOptions :=
  {| ro_PrintOption := "json"; ro_Protocol := "http"; ro_ServerIP := "127.0.0.1"; ro_ServerPort := 11111;
     ro_Timeout := 10; ro_Token := ""; ro_BearerAuth := true; ro_Originator := ""; ro_Insecure := false;
     ro_CACertFile := ""; ro_ClientCertFile := ""; ro_ClientKeyFile := "" |}.

Example golden_get_audit_status_human :
  stdout_of (AuditStatusGet o false) (fake_gateway auditStatusBody gatewayVersionBody)
  = lines_of_text
      ["Audit: available, running";
       "  Boot id: boot-abc";
       "  Sequence high: 1024";
       "  Last write: 2025-01-01T00:00:02Z";
       "  Accepted: data 24, mgmt 1000";
       "  Dropped:";
       "    data/queue_full: 3";
       "  Result records LOST after the change was applied: 1";
       "  Queue depth: data 5, mgmt 0";
       "  Queue high-water: data 64, mgmt 2";
       "  Active segment: seg-1";
       "    Opened: 2025-01-01T00:00:00Z, 24 records, 8192 bytes";
       "  Sealed on disk: 1048576 bytes";
       "  Retention: age 2592000s, quota 10485760 bytes, reserve 1048576 bytes";
       "  Projected retention: 30.5 days";
       "  Orphaned intents from the previous boot: 1";
       "    Most recent event id: ev-9";
       "  Counters: mgmt timeouts 1, rotations 4, pruned segments 2, permissions repaired 1, originator headers dropped 2, delegation lookups 7, heartbeats 12";
       "  Producers:";
       "    loxinet (data): pseq high 24, accepted 24, dropped queue_full 3"].
Proof. vm_compute. reflexivity. Qed.

Example golden_get_audit_status_sinks :
  stdout_of (AuditStatusGet o false) (fake_gateway auditStatusSinksBody gatewayVersionBody)
  = lines_of_text
      ["Audit: available, running";
       "  Boot id: boot-abc";
       "  Sequence high: 1024";
       "  Last write: none yet";
       "  Sealed on disk: 0 bytes";
       "  Projected retention: not projectable yet";
       "  Counters: all zero";
       "  Sinks:";
       "    compliance (compliance): connected, past seq 1020 in seg-2, 4 records behind";
       "    siem2: disconnected, past seq 600 in seg-1, still reading sealed segments, 2 segments LOST to retention before they were sent"].
Proof. vm_compute. reflexivity. Qed.

Example golden_get_audit_status_unavailable :
  stdout_of (AuditStatusGet o false) (fake_gateway auditStatusUnavailableBody gatewayVersionBody)
  = lines_of_text
      ["Audit: NOT AVAILABLE - no writer was configured at start.";
       "  The audit directory was unusable; every audited management call is refused."].
Proof. vm_compute. reflexivity. Qed.

Example golden_get_audit_sink_human :
  stdout_of (AuditSinkGet o false) (fake_gateway auditSinkBody gatewayVersionBody)
  = lines_of_text
      ["Audit sink: enabled, connected";
       "  Receiver: siem.example.com:6514";
       "  CA bundle: /etc/loxilb/siem-ca.pem";
       "  Expected server name: siem.corp.example.com";
       "  Client certificate: /etc/loxilb/gw.pem";
       "  Client key: /etc/loxilb/gw-key.pem";
       "  Facility: 13";
       "  Max frame: 8192 bytes";
       "  Submitted to the socket: 1024 (not a delivery count; the protocol has no acknowledgement)";
       "  Sent shortened to fit the receiver's cap: 2";
       "  Write errors: 1 (each one holds the cursor back)";
       "  Last error: write: broken pipe"].
Proof. vm_compute. reflexivity. Qed.

Example golden_get_audit_sink_named_human :
  stdout_of (AuditNamedSinkGet o false "siem2") (fake_gateway auditNamedSinkBody gatewayVersionBody)
  = lines_of_text
      ["Audit sink siem2: secondary, connected";
       "  Receiver: siem2.example.com:6514";
       "  CA bundle: /etc/loxilb/siem2-ca.pem";
       "  Facility: 13";
       "  Max frame: unbounded";
       "  Enterprise number: 32473";
       "  Selects: streams data; data records of services chat; outcome failed; one data record in 10";
       "  Past record: seq 1024 in segment seg-1";
       "  Export sequence: high 88, epoch 1735689600";
       "  Submitted to the socket: 90 (not a delivery count; the protocol has no acknowledgement)";
       "  Sent again after a lost session: 2";
       "  Kept from this sink by its filter: 934"].
Proof. vm_compute. reflexivity. Qed.

Example golden_get_log_archives_human :
  stdout_of (LogArchivesList o false) (fake_gateway logArchivesBody gatewayVersionBody)
  = lines_of_text
      ["NAME              SIZE  MODIFIED";
       "gateway.log       4096  2025-01-01T00:00:02Z";
       "gateway.log.1.gz  1024  2024-12-31T00:00:00Z"].
Proof. vm_compute. reflexivity. Qed.

Example golden_get_logs_human :
  stdout_of (LogsGet o false {| lg_Lines := 100; lg_Level := ""; lg_Keyword := ""; lg_File := ""; lg_Cursor := "" |}) (fake_gateway logsBody gatewayVersionBody)
  = lines_of_text
      ["2025-01-01T00:00:01Z INFO loading rules";
       "2025-01-01T00:00:02Z INFO listener ready on 0.0.0.0:11111";
       "-- older lines remain: loxicmd get logs --file gateway.log --cursor b2Zmc2V0OjEwMjQ"].
Proof. vm_compute. reflexivity. Qed.

Example golden_get_diagnostics_human :
  stdout_of (DiagnosticsGet o false) (fake_gateway diagnosticsBody gatewayVersionBody)
  = lines_of_text
      ["Gateway: v1.2.3 (rev abc)";
       "  API contract: /netlox/v1 0.0.1";
       "  Uptime: 42s";
       "  Ready: true";
       "  Maintenance: active";
       "  eBPF attachment (kernel-verified):";
       "    eno1 (tc): attached";
       "  Map conntrack: 10 of 1000 entries";
       "  Dependency keystore: ready (fast)"].
Proof. vm_compute. reflexivity. Qed.

Example golden_get_ready_human :
  stdout_of (ReadyGet o false) (fake_gateway readyBody gatewayVersionBody)
  = lines_of_text
      ["Ready: true";
       "eBPF attachment (kernel-verified):";
       "  eno1 (tc): attached";
       "  eno2 (tc): NOT ATTACHED"].
Proof. vm_compute. reflexivity. Qed.

Example golden_get_lb_json :
  stdout_of (get_loadbalancer j false "") (fake_gateway oneLbBody gatewayVersionBody)
  = lines_of_text
      ["{";
       "    `lbAttr`: [";
       "        {";
       "            `serviceArguments`: {";
       "                `externalIP`: `20.20.20.1`,";
       "                `port`: 2020,";
       "                `protocol`: `tcp`,";
       "                `sel`: 0,";
       "                `mode`: 0,";
       "                `BGP`: false,";
       "                `Monitor`: false,";
       "                `inactiveTimeOut`: 240,";
       "                `block`: 0,";
       "                `name`: `test-lb`,";
       "                `proxyprotocolv2`: false,";
       "                `egress`: false";
       "            },";
       "            `secondaryIPs`: [],";
       "            `allowedSources`: [],";
       "            `endpoints`: [";
       "                {";
       "                    `endpointIP`: `31.31.31.1`,";
       "                    `targetPort`: 8080,";
       "                    `weight`: 1,";
       "                    `state`: `active`,";
       "                    `counter`: ``";
       "                }";
       "            ]";
       "        }";
       "    ]";
       "}"].
Proof. vm_compute. reflexivity. Qed.

Example golden_get_lb_json_bands :
  stdout_of (get_loadbalancer j false "") (fake_gateway bandsLbBody gatewayVersionBody)
  = lines_of_text
      ["{";
       "    `lbAttr`: [";
       "        {";
       "            `serviceArguments`: {";
       "                `externalIP`: `192.0.2.20`,";
       "                `port`: 8000,";
       "                `protocol`: `tcp`,";
       "                `sel`: 0,";
       "                `mode`: 4,";
       "                `BGP`: false,";
       "                `Monitor`: false,";
       "                `inactiveTimeOut`: 240,";
       "                `block`: 0,";
       "                `name`: `chat`,";
       "                `proxyprotocolv2`: false,";
       "                `egress`: false,";
       "                `fc_wake_policy`: `weighted`,";
       "                `fc_band_weights`: `8:0:1`,";
       "                `fc_effective`: {";
       "                    `mode`: `enforce`,";
       "                    `max_outstanding`: 8,";
       "                    `queue_depth`: 64,";
       "                    `queue_wait_ms`: 30000,";
       "                    `effective_max_outstanding`: 8,";
       "                    `adapt_state`: `off`,";
       "                    `expose_headers`: `off`,";
       "                    `tenant_slots`: 1024,";
       "                    `wake_policy`: `weighted`,";
       "                    `wake_policy_effective`: `strict`,";
       "                    `shed_queue`: `on`,";
       "                    `shed_queue_effective`: `on`,";
       "                    `tenant_wake`: `fifo`,";
       "                    `tenant_wake_effective`: `fifo`,";
       "                    `band_fallback_reason`: `zero_weight`,";
       "                    `llmd_headers`: `off`,";
       "                    `bands_configured`: true,";
       "                    `bands`: {";
       "                        `critical_reserve_pct`: 10,";
       "                        `critical_reserve_units`: 1,";
       "                        `critical`: {";
       "                            `inflight`: 1,";
       "                            `queued`: 0,";
       "                            `wait_ms`: 0,";
       "                            `queue_pct`: 0,";
       "                            `min_share_pct`: 0,";
       "                            `floor_units`: 0,";
       "                            `weight`: 8,";
       "                            `weight_pct`: 89";
       "                        },";
       "                        `standard`: {";
       "                            `inflight`: 3,";
       "                            `queued`: 2,";
       "                            `wait_ms`: 5000,";
       "                            `queue_pct`: 50,";
       "                            `min_share_pct`: 20,";
       "                            `floor_units`: 2,";
       "                            `weight`: 0,";
       "                            `weight_pct`: 0";
       "                        },";
       "                        `sheddable`: {";
       "                            `inflight`: 0,";
       "                            `queued`: 0,";
       "                            `wait_ms`: 1000,";
       "                            `queue_pct`: 20,";
       "                            `min_share_pct`: 0,";
       "                            `floor_units`: 0,";
       "                            `weight`: 1,";
       "                            `weight_pct`: 11";
       "                        }";
       "                    },";
       "                    `default_reservation`: `off`,";
       "                    `config_source`: `store`,";
       "                    `store_reachable`: true,";
       "                    `source`: {";
       "                        `mode`: `rule`,";
       "                        `max_outstanding`: `rule`,";
       "                        `wake_policy`: `rule`,";
       "                        `band_weights`: `rule`,";
       "                        `band_min_share_pct`: `default`,";
       "                        `critical_reserve_pct`: `rule`,";
       "                        `band_wait_ms`: `env`,";
       "                        `band_queue_pct`: `default`,";
       "                        `shed_queue`: `env`,";
       "                        `tenant_wake`: `default`,";
       "                        `llmd_headers`: `default`";
       "                    }";
       "                }";
       "            },";
       "            `secondaryIPs`: [],";
       "            `allowedSources`: [],";
       "            `endpoints`: [";
       "                {";
       "                    `endpointIP`: `203.0.113.1`,";
       "                    `targetPort`: 8000,";
       "                    `weight`: 1,";
       "                    `state`: `active`,";
       "                    `counter`: `0:0`";
       "                }";
       "            ]";
       "        }";
       "    ]";
       "}"].
Proof. vm_compute. reflexivity. Qed.

Example golden_get_objective_json :
  stdout_of (get_objective j []) (fake_gateway objectiveListBody gatewayVersionBody)
  = lines_of_text
      ["{";
       "    `objectiveAttr`: [";
       "        {";
       "            `name`: `batch`,";
       "            `services`: [";
       "                `192.0.2.20:8000`";
       "            ],";
       "            `priority`: -5,";
       "            `updated_at`: `2026-10-23T05:59:00.960Z`";
       "        },";
       "        {";
       "            `name`: `interactive`,";
       "            `priority`: 10,";
       "            `updated_at`: `2026-10-23T05:59:00.946Z`";
       "        }";
       "    ],";
       "    `source`: `store`,";
       "    `source_timestamp`: `2026-10-23T05:59:00.971Z`,";
       "    `store_reachable`: true,";
       "    `store_last_read`: `2026-10-23T05:59:00.971Z`";
       "}"].
Proof. vm_compute. reflexivity. Qed.

Example golden_get_netidentity_json :
  stdout_of (get_netidentity j ["lab"]) (fake_gateway netIdentityListBody gatewayVersionBody)
  = lines_of_text
      ["{";
       "    `netIdentityAttr`: [";
       "        {";
       "            `name`: `lab`,";
       "            `match`: {";
       "                `cidr`: [";
       "                    `10.10.0.0/16`";
       "                ]";
       "            },";
       "            `services`: [";
       "                `192.0.2.20:8000`";
       "            ],";
       "            `tenant`: `tenant-a`,";
       "            `allowed_models`: [";
       "                `llama-70b`";
       "            ],";
       "            `enforce`: `advisory`,";
       "            `credential`: `none`,";
       "            `forward_identity`: true,";
       "            `priority_class`: `critical`,";
       "            `fail_mode`: `neutral`";
       "        }";
       "    ]";
       "}"].
Proof. vm_compute. reflexivity. Qed.

Example golden_get_jwtauthprofile_json :
  stdout_of (get_jwtauthprofile j ["okta"]) (fake_gateway jwtAuthProfileListBody gatewayVersionBody)
  = lines_of_text
      ["{";
       "    `jwtAuthProfileAttr`: [";
       "        {";
       "            `name`: `okta`,";
       "            `issuer`: `https://example.okta.com`,";
       "            `jwks_url`: `https://example.okta.com/keys`,";
       "            `audiences`: [";
       "                `ai-gateway`,";
       "                `api`";
       "            ],";
       "            `algs`: [";
       "                `RS256`,";
       "                `ES256`";
       "            ],";
       "            `leeway_sec`: 60,";
       "            `refresh_sec`: 600,";
       "            `tenant_claim`: `org_id`,";
       "            `user_claim`: `sub`,";
       "            `models_claim`: `models`,";
       "            `roles_claim`: `groups`,";
       "            `model_role_prefix`: `llm:`,";
       "            `username_claim`: `email`,";
       "            `model_authz`: `allow-all`,";
       "            `default_tenant`: `public`,";
       "            `forward_identity`: true,";
       "            `authorization_passthrough`: true,";
       "            `priority_class`: `critical`";
       "        }";
       "    ]";
       "}"].
Proof. vm_compute. reflexivity. Qed.

End Pinned.
