(* ===== verification/ListProps.v ===== *)
(** * What the listings show

    The rows of a listing are those of the entries of the answer, each once, in
    the order of their key; the rows of the session rules and of the load
    balancers, which are made by loops of their own. *)
From S2P Require Import Prelude GoStrings GoNet Json JsonPrint Floats Fields World Errors Exitcode.
From S2P Require Import Rest Requests FeatureGate Commands Plans NetModel AiModel GetModel.
From S2P Require Import BandTriple LbModel Tables GetCmds AiGets LbTables.
From Stdlib Require Import Sorted.

(** A table of one row for each entry, in order. *)
Definition lists {A} (t : table) (row : A -> list string) (less : A -> A -> bool) (entries : list A)
    : Prop :=
  exists l, l ≡ₚ entries /\ StronglySorted (fun a b => less b a = false) l /\ tb_rows t = row <$> l.

Section Listings.
Context `{SortLib}.

Lemma lists_by_text {A} (t : table) row (key : A -> string) entries :
  tb_rows t = row <$> sort_slice (by_text key) entries -> lists t row (by_text key) entries.
Proof.
  intros Ht. exists (sort_slice (by_text key) entries).
  split_and!; [apply sort_permutes | apply sort_orders, by_text_order | done].
Qed.

Lemma lists_by_number {A} (t : table) row (key : A -> Z) entries :
  tb_rows t = row <$> sort_slice (by_number key) entries -> lists t row (by_number key) entries.
Proof.
  intros Ht. exists (sort_slice (by_number key) entries).
  split_and!; [apply sort_permutes | apply sort_orders, by_number_order | done].
Qed.

Lemma filter_sorted {A} (R : A -> A -> Prop) (f : A -> bool) l :
  StronglySorted R l -> StronglySorted R (List.filter f l).
Proof.
  induction 1 as [|a l Hl IH Ha]; [constructor|]. cbn [List.filter]. destruct (f a); [|done].
  constructor; [done|]. rewrite List.Forall_forall in *. intros x Hx. apply Ha.
  by apply List.filter_In in Hx as [Hx _].
Qed.

Lemma filter_permutes {A} (f : A -> bool) (l k : list A) : l ≡ₚ k -> List.filter f l ≡ₚ List.filter f k.
Proof.
  induction 1; cbn [List.filter]; [done | by destruct (f x); rewrite ?IHPermutation | |by etrans].
  destruct (f x), (f y); try done. apply Permutation_swap.
Qed.
End Listings.

(** Texts in the order of their bytes, entries in the order of a key. *)
Definition text_order {A} (key : A -> string) (a b : A) : Prop := String.compare (key a) (key b) <> Gt.
Definition number_order {A} (key : A -> Z) (a b : A) : Prop := (key a <= key b)%Z.

Lemma by_text_follows {A} (key : A -> string) (a b : A) : by_text key b a = false -> text_order key a b.
Proof.
  unfold by_text, text_order, String.ltb. rewrite String.compare_antisym.
  by destruct (String.compare (key a) (key b)).
Qed.

Lemma sorted_follows {A} (R R' : A -> A -> Prop) l :
  (forall a b, R a b -> R' a b) -> StronglySorted R l -> StronglySorted R' l.
Proof.
  intros HR. induction 1 as [|a l Hl IH Ha]; [constructor|]. constructor; [done|].
  eapply Forall_impl; [exact Ha|]. intros b. apply HR.
Qed.

(* ------------------------------------------------------------------ *)
(** ** Padded numbers                                                  *)
(* ------------------------------------------------------------------ *)

Lemma iter_checked (P : Z -> bool) n :
  N.iter n (fun st => (Z.succ st.1, st.2 && P st.1)) (0%Z, true) = (Z.of_N n, true) ->
  forall z, (0 <= z < Z.of_N n)%Z -> P z = true.
Proof.
  assert (Hfst : forall n, (N.iter n (fun st => (Z.succ st.1, st.2 && P st.1)) (0%Z, true)).1 = Z.of_N n).
  { induction n0 as [|n0 IH] using N.peano_ind; [done|]. rewrite N.iter_succ. cbn [fst]. rewrite IH. lia. }
  induction n as [|n IH] using N.peano_ind; intros Hn z Hz; [lia|].
  rewrite N.iter_succ in Hn. injection Hn as _ Hn. apply andb_prop in Hn as [Hn HP]. rewrite Hfst in HP.
  destruct (decide (z = Z.of_N n)) as [->|Hne]; [done|]. apply IH; [|lia].
  rewrite (surjective_pairing (N.iter n _ _)), Hfst, Hn. reflexivity.
Qed.

Definition pad_step (z : Z) : bool :=
  match String.compare (pad5 (z + 1)) (pad5 z) with Gt => Nat.eqb (String.length (pad5 z)) 5 | _ => false end.
Lemma pad_steps z : (0 <= z < 65536)%Z -> pad_step z = true.
Proof. apply (iter_checked pad_step 65536). vm_compute. reflexivity. Qed.

Lemma pad5_length z : (0 <= z < 65536)%Z -> String.length (pad5 z) = 5%nat.
Proof.
  intros Hz%pad_steps. unfold pad_step in Hz. destruct (String.compare _ _); try done. by apply Nat.eqb_eq.
Qed.

Lemma compare_gt_trans s t u : String.compare s t = Gt -> String.compare t u = Gt -> String.compare s u = Gt.
Proof.
  intros Hst Htu. destruct (String.compare s u) eqn:Hsu; [|exfalso|done].
  - apply String.compare_eq_iff in Hsu as <-. rewrite String.compare_antisym, Hst in Htu. discriminate Htu.
  - revert Hsu. apply (string_compare_le u t s); [by rewrite Htu | by rewrite Hst].
Qed.

Lemma pad_up z : (0 <= z < 65536)%Z -> String.compare (pad5 (z + 1)) (pad5 z) = Gt.
Proof. intros Hz%pad_steps. unfold pad_step in Hz. by destruct (String.compare _ _). Qed.

Lemma pad5_greater b a : (0 <= b < a)%Z -> (a < 65536)%Z -> String.compare (pad5 a) (pad5 b) = Gt.
Proof.
  intros Hb Ha. replace a with (b + 1 + Z.of_nat (Z.to_nat (a - b - 1)))%Z in * by lia.
  revert Ha. generalize (Z.to_nat (a - b - 1)). intros n. induction n as [|n IH]; intros Ha.
  - rewrite Z.add_0_r. apply pad_up. lia.
  - apply (compare_gt_trans _ (pad5 (b + 1 + Z.of_nat n))); [|apply IH; lia].
    replace (b + 1 + Z.of_nat (S n))%Z with (b + 1 + Z.of_nat n + 1)%Z by lia. apply pad_up. lia.
Qed.

Lemma compare_prefix p s t : String.compare (p +:+ s) (p +:+ t) = String.compare s t.
Proof.
  induction p as [|a p IH]; [done|]. rewrite !string_cons_app. cbn [String.compare].
  unfold Ascii.compare. rewrite N.compare_refl. exact IH.
Qed.

Lemma compare_first s t x y :
  String.length s = String.length t -> String.compare s t = Gt -> String.compare (s +:+ x) (t +:+ y) = Gt.
Proof.
  revert t. induction s as [|a s IH]; intros [|b t] Hl Hc; try done. injection Hl as Hl.
  rewrite !string_cons_app. cbn [String.compare] in *. destruct (Ascii.compare a b); [by apply IH|done|done].
Qed.

Lemma padded_in_order l a b r r' :
  (0 <= a < 65536)%Z -> (0 <= b < 65536)%Z ->
  String.compare (sprintf (l ++ pad5 a :: r)) (sprintf (l ++ pad5 b :: r')) <> Gt -> (a <= b)%Z.
Proof.
  intros Ha Hb Hc. destruct (Z.le_gt_cases a b) as [|Hlt]; [done|]. destruct Hc. unfold sprintf.
  rewrite !concat_str_app, !concat_str_cons, compare_prefix.
  apply compare_first; [by rewrite !pad5_length | apply pad5_greater; lia].
Qed.

Definition port_fits (p : uint16) : Prop := (0 <= u16 p < 65536)%Z.

(* ------------------------------------------------------------------ *)
(** ** What is shown of an answer                                      *)
(* ------------------------------------------------------------------ *)

Section Shown.
Context `{GoLib} `{TableLib} `{SortLib}.
Variable ro : RESTOptions.

(** In the table views, a document that is answered by a 200 is printed as one
    table: a row for each entry, each once, in the order [R], below the title (which
    is left out of an empty table, unless [titled]). *)
Definition shows {L A} `{GoValue L} (m : IO outcome) (title : list string) (is_titled : bool)
    (entries : L -> list A) (row : A -> list string) (R : A -> A -> Prop) : Prop :=
  forall w h, wp m w h (fun out t => forall req resp v,
    ro_PrintOption ro <> "json" -> https t = [(req, Ok resp)] -> hr_status resp = 200%Z ->
    hr_body_error resp = None -> unmarshal L (hr_body resp) = Some v ->
    out = Returns None /\ exists l, l ≡ₚ entries v /\ StronglySorted R l
      /\ printed t = [table_text (if is_titled || negb (bool_decide (l = [])) then Some title else None)
                        (row <$> l)]).

Lemma table_shows {L A} `{GoValue L} op api enc (rows : L -> table) title is_titled (entries : L -> list A) row R :
  (forall c, ca_restClient (api c) = c) ->
  (forall v, exists l, l ≡ₚ entries v /\ StronglySorted R l
     /\ rows v = Table (if is_titled || negb (bool_decide (l = [])) then Some title else None) (row <$> l)) ->
  shows (get_table ro op api enc rows) title is_titled entries row R.
Proof.
  intros Hapi Hrows w h. unfold get_table, get_old. apply wp_client. intros c t Hc Ht Hcl.
  unfold answered, Get, GET. rewrite Hapi. apply wp_bind, wp_http. intros [resp'|e].
  2: { apply wp_ret. intros req resp v _ Hr. rewrite !https_app, Ht in Hr. discriminate Hr. }
  assert (Hpt : printed t = []) by by apply client_prints_nothing.
  assert (Hstop : forall out t', hr_status resp' <> 200%Z \/ hr_body_error resp' <> None
      \/ unmarshal L (hr_body resp') = None \/ ro_PrintOption ro = "json" ->
    https t' = [] -> forall req resp v,
    ro_PrintOption ro <> "json" -> https (t ++ [Ev (OpHttp (build_request c "GET" (GetUrlString (api c)) None)) (Ok resp')] ++ t') = [(req, Ok resp)] ->
    hr_status resp = 200%Z -> hr_body_error resp = None -> unmarshal L (hr_body resp) = Some v ->
    out = Returns None /\ exists l, l ≡ₚ entries v /\ StronglySorted R l
      /\ printed (t ++ [Ev (OpHttp (build_request c "GET" (GetUrlString (api c)) None)) (Ok resp')] ++ t')
         = [table_text (if is_titled || negb (bool_decide (l = [])) then Some title else None) (row <$> l)]).
  { intros out t' Hno Ht' req resp v Hj Hr. rewrite !https_app, Ht, Ht' in Hr. injection Hr as _ <-.
    intros; exfalso; naive_solver. }
  destruct (hr_status resp' =? 200)%Z eqn:Hs; [apply Z.eqb_eq in Hs | apply Z.eqb_neq in Hs].
  2: { apply wp_ret. apply Hstop; auto. }
  unfold print_result. destruct (hr_body_error resp') eqn:He.
  { apply wp_bind, quiet_wp; [apply say_quiet|]. intros _ t' Ht'. apply wp_ret. rewrite app_nil_r.
    apply Hstop; [right; left; done | done]. }
  destruct (unmarshal L (hr_body resp')) as [v|] eqn:Hu.
  2: { apply wp_bind, quiet_wp; [apply say_quiet|]. intros _ t' Ht'. apply wp_ret. rewrite app_nil_r.
       apply Hstop; auto. }
  unfold json_wanted. destruct (streq (ro_PrintOption ro) "json") eqn:Hj.
  { apply streq_true in Hj. apply wp_bind, quiet_wp; [apply say_quiet|]. intros _ t' Ht'. apply wp_ret.
    rewrite app_nil_r. apply Hstop; auto. }
  unfold TableShow, say, write_out. apply wp_bind. wp_op. intros a _. apply wp_ret, wp_ret.
  intros req resp v' _ Hr Hs' He' Hu'. split; [done|].
  rewrite !https_app, Ht in Hr. injection Hr as _ <-. rewrite Hu in Hu'. injection Hu' as <-.
  destruct (Hrows v) as (l & Hl & Hsort & Hv). exists l. split_and!; [done..|].
  rewrite Hv. rewrite !printed_app, Hpt. done.
Qed.

(** The two ways a table is sorted. *)
Lemma sorted_by_text {A} (t : table) title (entries : list A) row (key : A -> string) :
  t = rows_under title (row <$> sort_slice (by_text key) entries) ->
  exists l, l ≡ₚ entries /\ StronglySorted (text_order key) l
    /\ t = Table (if false || negb (bool_decide (l = [])) then Some title else None) (row <$> l).
Proof.
  intros ->. exists (sort_slice (by_text key) entries). split_and!; [apply sort_permutes| |].
  - eapply sorted_follows; [intros a b; apply by_text_follows|]. apply sort_orders, by_text_order.
  - unfold rows_under. by destruct (sort_slice _ _).
Qed.

Lemma sorted_by_number {A} (t : table) title (entries : list A) row (key : A -> Z) :
  t = rows_under title (row <$> sort_slice (by_number key) entries) ->
  exists l, l ≡ₚ entries /\ StronglySorted (number_order key) l
    /\ t = Table (if false || negb (bool_decide (l = [])) then Some title else None) (row <$> l).
Proof.
  intros ->. exists (sort_slice (by_number key) entries). split_and!; [apply sort_permutes| |].
  - eapply sorted_follows; [|apply sort_orders, by_number_order].
    intros a b. unfold by_number, number_order. by rewrite Z.ltb_ge.
  - unfold rows_under. by destruct (sort_slice _ _).
Qed.

Definition in_wide : bool := bool_decide (ro_PrintOption ro = "wide").
Lemma in_wide_view : in_wide = wide ro.
Proof.
  unfold in_wide, wide, wide_wanted. apply Bool.eq_iff_eq_true. by rewrite bool_decide_eq_true, streq_true.
Qed.

(** Keys and cells, as the listings give them. *)
Definition connection_key (c : ConntrackInformation) : string :=
  sprintf [cti_Dip c; "|"; cti_Sip c; "|"; pad5 (u16 (cti_Dport c)); "|"; pad5 (u16 (cti_Sport c)); "|";
           cti_Proto c].
Definition probe_key (e : EndPointGetEntry) : string :=
  sprintf [epe_HostName e; "|"; pad5 (u16 (epe_ProbePort e)); "|"; epe_ProbeType e; "|"; epe_Name e].
Definition members_cell (l : list VlanMemberMod) : string :=
  concat_str ((fun m => sprintf ["Device: "; vlm_Dev m; nl; "tagged: "; bool_str (vlm_Tagged m); nl]) <$> l).
Definition traffic_cell (v : VlanStat) : string :=
  sprintf ["In/Out byte : "; itoa (u64 (vls_InBytes v)); "/"; itoa (u64 (vls_OutBytes v)); " "; nl;
           "In/Out packets : "; itoa (u64 (vls_InPackets v)); "/"; itoa (u64 (vls_OutPackets v))].
Definition action_cell (t : FwOptArg) : string :=
  sprintf
    [ (if fwo_Allow t then "Allow" else if fwo_Drop t then "Drop" else if fwo_Trap t then "Trap"
       else if fwo_Rdr t then sprintf ["Redirect("; fwo_RdrPort t; ")"]
       else if fwo_DoSnat t then sprintf ["Snat("; fwo_ToIP t; ":"; itoa (u16 (fwo_ToPort t)); ")"] else "");
      if fwo_Record t then ",Record" else "";
      if (u32 (fwo_Mark t) =? 0)%Z then "" else sprintf [",FwMark("; itoa (u32 (fwo_Mark t)); ")"];
      if fwo_OnDefault t then ",Egr" else ""].
Definition rule_key_text (r : FwRuleArg) : string :=
  sprintf [fwr_SrcIP r; "|"; fwr_DstIP r; "|"; pad5 (u16 (fwr_SrcPortMin r)); "|";
           pad5 (u16 (fwr_SrcPortMax r)); "|"; pad5 (u16 (fwr_DstPortMin r)); "|";
           pad5 (u16 (fwr_DstPortMax r)); "|"; itoa (u8 (fwr_Proto r))].
Definition stacked (l : list string) : string := trim_space (concat_str ((fun s => s +:+ nl) <$> l)).

Lemma filter_decides {A} (P : A -> Prop) `{forall x, Decision (P x)} (f : A -> bool) l :
  (forall x, f x = true <-> P x) -> List.filter f l = base.filter P l.
Proof.
  intros Hf. induction l as [|x l IH]; [done|]. cbn [List.filter]. rewrite filter_cons, IH.
  destruct (f x) eqn:Hx; case_decide as Hp; try done; apply Hf in Hp || apply Hf in Hx; congruence.
Qed.

Lemma connections_listed name v :
  exists l, l ≡ₚ base.filter (fun c => name = "" \/ cti_ServName c = name) (from (ctg_CtInfo v))
    /\ StronglySorted (text_order connection_key) l
    /\ conntrack_table name v
      = Table (if true || negb (bool_decide (l = [])) then Some CONNTRACK_HEADER else None) (conntrack_row <$> l).
Proof.
  set (f := fun c => is_empty name || streq name (cti_ServName c)).
  assert (Hf : forall l, base.filter (fun c => name = "" \/ cti_ServName c = name) l = List.filter f l).
  { intros l. symmetry. apply filter_decides. intros c. unfold f. rewrite orb_true_iff, streq_true.
    destruct name; naive_solver. }
  exists (List.filter f (sort_slice (by_text conntrack_key) (from (ctg_CtInfo v)))). rewrite Hf. split_and!; [| |done].
  - apply filter_permutes, sort_permutes.
  - apply filter_sorted. eapply sorted_follows; [intros a b; apply by_text_follows|].
    apply sort_orders, by_text_order.
Qed.

Ltac viewed :=
  unfold firewall_table, ipaddress_table, policy_table, route_table, session_table, vlan_table, in_view;
  first [reflexivity | destruct (wide ro); reflexivity].

(** C35: what [get bgpneighbor], [conntrack], [endpoint], [fdb], [firewall], [vlan],
    [hastate], [ip], [neighbor], [policy], [route], [session] and [vxlan] show.  In
    the table views, a document that a 200 answers is printed as one table: one row
    for each of its entries, with the cells given here, in the order of the key
    given here (texts by their bytes, vlan and tunnel numbers as numbers), below its
    title; [get conntrack] keeps the connections of the service that is named, if
    one is.  Ports are padded in a key, so connections of the same addresses come in
    the order of their destination port, and probes of one host in the order of
    their port. *)
Theorem listings_complete name :
  shows (get_bgpneighbor ro) ["Peer"; "AS"; "UP/Down"; "State"] false (fun r => from (bgg_BGPAttr r))
    (fun n => [bge_IPaddress n; itoa (bge_RemoteAs n); bge_UpDownTime n; bge_State n])
    (text_order (fun n => sprintf [bge_IPaddress n; "|"; bge_State n; "|"; bge_UpDownTime n]))
  /\ shows (get_conntrack ro name)
       ["Service Name"; "destIP"; "srcIP"; "dport"; "sport"; "proto"; "ident"; "state"; "act"; "packets"; "bytes"]
       true (fun r => base.filter (fun c => name = "" \/ cti_ServName c = name) (from (ctg_CtInfo r)))
       (fun c => [cti_ServName c; cti_Dip c; cti_Sip c; itoa (u16 (cti_Dport c)); itoa (u16 (cti_Sport c));
                  cti_Proto c; cti_Ident c; cti_CState c; cti_CAct c; itoa (u64 (cti_Pkts c)); itoa (u64 (cti_Bytes c))])
       (text_order connection_key)
  /\ shows (get_endpoint ro)
       ["Host"; "Name"; "ptype"; "port"; "duration"; "retries"; "minDelay"; "avgDelay"; "maxDelay"; "State"]
       false (fun r => from (epg_EPInfo r))
       (fun e => [epe_HostName e; epe_Name e; sprintf [epe_ProbeType e; ":"; epe_ProbeReq e];
                  itoa (u16 (epe_ProbePort e)); itoa (u32 (epe_ProbeDuration e)); itoa (epe_InActTries e);
                  epe_MinDelay e; epe_AvgDelay e; epe_MaxDelay e; epe_CurrState e])
       (text_order probe_key)
  /\ shows (get_fdb ro) ["Device Name"; "MAC Address"] false (fun r => from (fdg_FdbAttr r))
       (fun f => [fdb_Dev f; fdb_MacAddress f])
       (text_order (fun f => sprintf [fdb_Dev f; "|"; fdb_MacAddress f]))
  /\ shows (get_firewall ro)
       ["Source IP"; "destination IP"; "min SPort"; "max SPort"; "min DPort"; "max DPort"; "protocol";
        "port Name"; "preference"; "Option"; "Counters"]
       false (fun r => from (fwg_FWInfo r))
       (fun f => let r := fwm_Rule f in
          [fwr_SrcIP r; fwr_DstIP r; itoa (u16 (fwr_SrcPortMin r)); itoa (u16 (fwr_SrcPortMax r));
           itoa (u16 (fwr_DstPortMin r)); itoa (u16 (fwr_DstPortMax r)); itoa (u8 (fwr_Proto r)); fwr_InPort r;
           itoa (u16 (fwr_Pref r)); action_cell (fwm_Opts f); fwo_Counter (fwm_Opts f)])
       (text_order (fun f => rule_key_text (fwm_Rule f)))
  /\ shows (get_vlan ro)
       (["Device Name"; "Vlan ID"; "Member"] ++ if in_wide then ["Statistics"] else [])
       false (fun r => from (vlg_Vlans r))
       (fun v => [vld_Dev v; itoa (vld_Vid v); members_cell (from (vld_Member v))]
          ++ if in_wide then [traffic_cell (vld_Statistic v)] else [])
       (number_order vld_Vid)
  /\ shows (get_hastate ro) ["Instance"; "HAState"] true (fun r => from (hag_HAStateAttr r))
       (fun h => [has_Instance h; has_State h]) (text_order has_Instance)
  /\ shows (get_ipaddress ro) (["Device Name"; "IP Address"] ++ if in_wide then ["Sync"] else []) false
       (fun r => from (ipg_IPv4Attr r))
       (fun a => [ipe_Dev a; stacked (from (ipe_IP a))] ++ if in_wide then [itoa (u8 (ipe_Sync a))] else [])
       (text_order (fun a => sprintf [ipe_Dev a; "|"; sprintf ["["; join " " (from (ipe_IP a)); "]"]]))
  /\ shows (get_neighbor ro) ["IP Address"; "Device Name"; "Mac Address"] false
       (fun r => from (nbg_NeighborAttr r)) (fun n => [nbm_IP n; nbm_Dev n; nbm_MacAddress n])
       (text_order (fun n => sprintf [nbm_IP n; "|"; nbm_Dev n; "|"; nbm_MacAddress n]))
  /\ shows (get_policy ro)
       (["Ident"; "peakInfoRate"; "committedInfoRate"]
        ++ if in_wide then ["excessBlkSize"; "committedBlkSize"; "policyType"; "ColorAware"; "polObjName";
                            "attachment"; "attached"] else [])
       false (fun r => from (pog_PolModInfo r))
       (fun p => let i := pom_Info p in
          [pom_Ident p; itoa (u64 (poi_PeakInfoRate i)); itoa (u64 (poi_CommittedInfoRate i))]
          ++ if in_wide
             then [itoa (u64 (poi_ExcessBlkSize i)); itoa (u64 (poi_CommittedBlkSize i)); itoa (poi_PolType i);
                   if poi_ColorAware i then "true" else "false"; poo_PolObjName (pom_Target p);
                   itoa (u64 (poo_AttachMent (pom_Target p)));
                   match pom_Attached p with Some true => "yes" | Some false => "pending" | None => "-" end]
             else [])
       (text_order pom_Ident)
  /\ shows (get_route ro)
       (["destinationIPNet"; "gateway"; "flag"] ++ if in_wide then ["HardwareMark"; "packets"; "bytes"] else [])
       false (fun r => from (rtg_RouteAttr r))
       (fun r => [rtm_Dst r; rtm_Gw r; rtm_Flags r]
          ++ if in_wide then [itoa (rtm_HardwareMark r); itoa (rts_Packets (rtm_Statistic r));
                              itoa (rts_Bytes (rtm_Statistic r))] else [])
       (text_order rtm_Dst)
  /\ shows (get_session ro)
       (["ident"; "session IP"] ++ if in_wide then ["access Network Tunnel"; "core Network Tunnel"] else [])
       false (fun r => from (ssg_SessionInfo r))
       (fun s => let tunnel t := sprintf ["TeID: "; itoa (u32 (stn_TeID t)); " TunnelIP: "; net_ip_text (stn_Addr t)] in
          [ssm_Ident s; net_ip_text (ssm_Ip s)]
          ++ if in_wide then [tunnel (ssm_AnTun s); tunnel (ssm_CnTun s)] else [])
       (text_order ssm_Ident)
  /\ shows (get_vxlan ro) ["Device Name"; "Vxlan ID"; "endpoint interface"; "Peer IP"] false
       (fun r => from (vxg_VxlanAttr r))
       (fun v => [vxd_VxlanName v; itoa (vxd_VxLanID v); vxd_EndpointDev v; stacked (from (vxd_PeerIP v))])
       (number_order vxd_VxLanID)
  /\ (forall a b, cti_Dip a = cti_Dip b -> cti_Sip a = cti_Sip b -> port_fits (cti_Dport a) -> port_fits (cti_Dport b) ->
        text_order connection_key a b -> (u16 (cti_Dport a) <= u16 (cti_Dport b))%Z)
  /\ (forall a b, epe_HostName a = epe_HostName b -> port_fits (epe_ProbePort a) -> port_fits (epe_ProbePort b) ->
        text_order probe_key a b -> (u16 (epe_ProbePort a) <= u16 (epe_ProbePort b))%Z).
Proof.
  rewrite in_wide_view. split_and!;
    try (apply table_shows; [done|]; intros v;
         first [ apply sorted_by_text; viewed | apply sorted_by_number; viewed ]).
  - apply table_shows; [done|]. intros v. apply connections_listed.
  - apply table_shows; [done|]. intros v. exists (sort_slice (by_text has_Instance) (from (hag_HAStateAttr v))).
    split_and!; [apply sort_permutes | | done].
    eapply sorted_follows; [intros a b; apply by_text_follows|]. apply sort_orders, by_text_order.
  - intros a b Hd Hs Ha Hb. unfold text_order, connection_key. rewrite Hd, Hs.
    by apply (padded_in_order [cti_Dip b; "|"; cti_Sip b; "|"]).
  - intros a b Hh Ha Hb. unfold text_order, probe_key. rewrite Hh.
    by apply (padded_in_order [epe_HostName b; "|"]).
Qed.
End Shown.


(* ------------------------------------------------------------------ *)
(** ** The rules of sessions                                           *)
(* ------------------------------------------------------------------ *)

(** A rule is named where its session is listed first. *)
Fixpoint ulcl_listing (seen : list string) (l : list SessionUlClMod) : list (list string) :=
  match l with
  | [] => []
  | u :: l =>
      ulcl_row (if bool_decide (ucm_Ident u ∈ seen) then "" else ucm_Ident u) u
        :: ulcl_listing (ucm_Ident u :: seen) l
  end.

(** Each name that was seen heads one row. *)
Definition heads_once (data : list (list string)) (seen : list string) : Prop :=
  forall i, i <> "" ->
    length (List.filter (row_named i) data) = if bool_decide (i ∈ seen) then 1%nat else 0%nat.

Lemma filter_app {A} (f : A -> bool) l k : List.filter f (l ++ k) = List.filter f l ++ List.filter f k.
Proof. induction l as [|a l IH]; [done|]. cbn. destruct (f a); cbn; by rewrite IH. Qed.

Lemma heads_once_step data seen u :
  heads_once data seen -> ucm_Ident u <> "" ->
  heads_once (data ++ [ulcl_row (if bool_decide (ucm_Ident u ∈ seen) then "" else ucm_Ident u) u])
    (ucm_Ident u :: seen).
Proof.
  intros Hd Hu i Hi. rewrite filter_app, length_app, (Hd i Hi).
  set (x := if bool_decide (ucm_Ident u ∈ seen) then "" else ucm_Ident u).
  cbn [List.filter]. change (row_named i (ulcl_row x u)) with (streq i x).
  destruct (decide (i = ucm_Ident u)) as [->|Hne].
  - rewrite (bool_decide_true (_ ∈ _ :: _)) by set_solver. subst x. case_bool_decide.
    + by rewrite (proj2 (streq_false _ _) Hu).
    + by rewrite streq_refl.
  - assert (Hx : streq i x = false).
    { apply streq_false. subst x. by case_bool_decide. }
    rewrite Hx. cbn [length]. rewrite Nat.add_0_r.
    by rewrite (bool_decide_ext (i ∈ ucm_Ident u :: seen) (i ∈ seen)) by set_solver.
Qed.

Lemma ulcl_rows_from data seen l :
  heads_once data seen -> Forall (fun u => ucm_Ident u <> "") l ->
  foldl ulcl_step data l = data ++ ulcl_listing seen l.
Proof.
  intros Hd Hl. revert data seen Hd. induction Hl as [|u l Hu _ IH]; intros data seen Hd; [by rewrite app_nil_r|].
  cbn [foldl ulcl_listing].
  assert (Hstep : ulcl_step data u
    = data ++ [ulcl_row (if bool_decide (ucm_Ident u ∈ seen) then "" else ucm_Ident u) u]).
  { unfold ulcl_step. specialize (Hd (ucm_Ident u) Hu).
    destruct (List.filter _ data) as [|a [|b r]]; case_bool_decide; try done. }
  rewrite Hstep, (IH _ (ucm_Ident u :: seen)) by by apply heads_once_step. by rewrite <- app_assoc.
Qed.

Lemma unnamed_rows n u :
  ucm_Ident u = "" -> Nat.pow 2 (n - 1) = length (ulcl_rows (replicate n u)) \/ n = 0%nat.
Proof.
  intros Hu. destruct n as [|n]; [by right|]. left. rewrite Nat.sub_succ, Nat.sub_0_r.
  unfold ulcl_rows. cbn [replicate foldl].
  assert (Hr : forall k, List.Forall (fun r => row_named "" r = true) k -> k <> [] ->
    length (foldl ulcl_step k (replicate n u)) = (length k * Nat.pow 2 n)%nat).
  { induction n as [|n IH]; intros k Hk Hn; cbn [replicate foldl]; [cbn; lia|].
    assert (Hf : List.filter (row_named (ucm_Ident u)) k = k).
    { rewrite Hu. clear -Hk. induction Hk as [|a k Ha _ IHk]; [done|]. cbn [List.filter]. by rewrite Ha, IHk. }
    assert (Hs : ulcl_step k u = k ++ List.map (fun _ => ulcl_row "" u) k).
    { unfold ulcl_step. rewrite Hf. by destruct k. }
    rewrite Hs, IH.
    - rewrite length_app, List.length_map. cbn [Nat.pow]. lia.
    - apply Forall_app. split; [done|]. apply List.Forall_map. by apply List.Forall_forall.
    - by destruct k. }
  unfold ulcl_step at 2. cbn [List.filter app]. rewrite Hr; [cbn; lia | | done].
  constructor; [|done]. by rewrite Hu.
Qed.

(** The listing of session rules.  Rules of named sessions make one row each,
    and the name stands on the first of a session; but [n] rules without a name
    make [2^(n-1)] rows. *)
Theorem ulcl_rows_listing :
  (forall l, Forall (fun u => ucm_Ident u <> "") l -> ulcl_rows l = ulcl_listing [] l)
  /\ (forall n u, ucm_Ident u = "" -> (0 < n)%nat ->
        length (ulcl_rows (replicate n u)) = Nat.pow 2 (n - 1)).
Proof.
  split.
  - intros l Hl. apply (ulcl_rows_from [] []); [|done]. intros i _. by case_bool_decide; set_solver.
  - intros n u Hu Hn. destruct (unnamed_rows n u Hu) as [->| ->]; [done | lia].
Qed.

(* ------------------------------------------------------------------ *)
(** ** Load balancers                                                  *)
(* ------------------------------------------------------------------ *)

Definition rule_sources (m : LoadBalancerModel) : list LbAllowedSrcIPArg := from (lm_SrcIPs m).
Definition rule_secondaries (m : LoadBalancerModel) : list LoadBalancerSecIp := from (lm_SecondaryIPs m).

(** The loop over the sources runs past their end. *)
Definition sources_overrun (m : LoadBalancerModel) : bool :=
  negb (bool_decide (rule_sources m = []))
  && (length (rule_sources m) <? length (rule_secondaries m))%nat.

Lemma mapM_lookup_seq {A} (l : list A) i n :
  mapM (fun k => l !! k) (seq i n) = if (i + n <=? length l)%nat || (n =? 0)%nat then Some (take n (drop i l)) else None.
Proof.
  revert i. induction n as [|n IH]; intros i; [by rewrite orb_true_r|].
  cbn [seq mapM]. rewrite orb_false_r. destruct (l !! i) as [a|] eqn:Ha; cbn [mbind option_bind].
  - rewrite IH, (drop_S _ _ _ Ha). apply lookup_lt_Some in Ha.
    destruct (Nat.leb_spec (S i + n) (length l)), (Nat.leb_spec (i + S n) (length l)); try lia; cbn [orb].
    + done.
    + destruct (Nat.eqb_spec n 0); [lia | done].
  - apply lookup_ge_None in Ha. destruct (Nat.leb_spec (i + S n) (length l)); [lia | done].
Qed.

Lemma walked_list_spec bound l :
  walked_list bound l
  = if negb (bool_decide (l = [])) && (length l <? bound)%nat then None
    else Some (join ", " (take (Nat.max 1 bound) l)).
Proof.
  unfold walked_list. destruct l as [|a l]; [by rewrite take_nil|]. rewrite bool_decide_false by done.
  cbn [negb andb]. rewrite mapM_lookup_seq. cbn [length drop].
  replace (Nat.max 1 bound) with (S (bound - 1)) by lia. cbn [take].
  destruct (Nat.ltb_spec (S (length l)) bound), (Nat.leb_spec (1 + (bound - 1)) (S (length l)));
    try lia; cbn [orb]; [by destruct (Nat.eqb_spec (bound - 1) 0); [lia|] | done].
Qed.

Lemma sec_cell_text m : sec_cell m = Some (join ", " (si_SecondaryIP <$> rule_secondaries m)).
Proof.
  unfold sec_cell. rewrite walked_list_spec, length_fmap.
  fold (rule_secondaries m). rewrite (proj2 (Nat.ltb_ge _ _)) by lia. rewrite andb_false_r.
  by rewrite take_ge by (rewrite length_fmap; lia).
Qed.

Lemma wide_rows_overrun m : wide_rows m = None <-> sources_overrun m = true.
Proof.
  unfold wide_rows. rewrite sec_cell_text. cbn [mbind option_bind]. unfold sources_cell.
  rewrite walked_list_spec, length_fmap. unfold sources_overrun, rule_sources, rule_secondaries.
  replace (bool_decide (al_Prefix <$> from (lm_SrcIPs m) = [])) with (bool_decide (from (lm_SrcIPs m) = [])).
  - by destruct (negb _ && _).
  - apply bool_decide_ext. by destruct (from (lm_SrcIPs m)).
Qed.

Lemma wide_rows_length m rows :
  wide_rows m = Some rows -> length rows = length (from (lm_Endpoints m)).
Proof.
  unfold wide_rows. destruct (sec_cell m), (sources_cell m); try done. intros [= <-]. by rewrite length_imap.
Qed.

Lemma mapM_option_none {A B} (f : A -> option B) l : mapM f l = None <-> exists a, a ∈ l /\ f a = None.
Proof. by rewrite mapM_None, Exists_exists. Qed.

Lemma sum_list_with_perm {A} (f : A -> nat) l k : l ≡ₚ k -> sum_list_with f l = sum_list_with f k.
Proof. induction 1; cbn; lia. Qed.

(** When the loop over the sources runs past their end. *)
Lemma lb_table_panics `{SortLib} ro name r :
  match lb_table ro name r with None => true | Some _ => false end
  = wide_wanted ro && existsb sources_overrun (List.filter (lb_listed name) (from (lg_LbRules r))).
Proof.
  assert (Hperm : rules_listed name r ≡ₚ List.filter (lb_listed name) (from (lg_LbRules r)))
    by apply filter_permutes, sort_permutes.
  unfold lb_table. destruct (wide_wanted ro); [|done]. cbn [andb]. apply Bool.eq_iff_eq_true.
  rewrite existsb_exists. destruct (mapM wide_rows _) as [rows|] eqn:Hm; cbn [fmap option_fmap option_map].
  - split; [done|]. intros (m & Hin & Ho). apply list_elem_of_In in Hin. rewrite <- Hperm in Hin.
    apply wide_rows_overrun in Ho. exfalso.
    assert (Hn : mapM wide_rows (rules_listed name r) = None) by (apply mapM_option_none; by exists m). congruence.
  - split; [intros _|done]. apply mapM_option_none in Hm as (m & Hin & Ho). exists m.
    rewrite Hperm in Hin. split; [by apply list_elem_of_In | by apply wide_rows_overrun].
Qed.

(** C36: [get lb].  The plain view has a row for each rule that is listed.  The wide
    view has a row for each endpoint, none for a rule without endpoints, and its
    loop over the sources, which counts the secondary addresses, shows as many
    sources as there are secondary addresses (and at least one): with more
    secondary addresses than sources it panics. *)
Theorem lb_listing `{SortLib} ro name r :
  (wide_wanted ro = false ->
     exists t, lb_table ro name r = Some t
       /\ lists t lb_row (by_text lb_key) (List.filter (lb_listed name) (from (lg_LbRules r))))
  /\ (wide_wanted ro = true ->
        (lb_table ro name r = None
         <-> exists m, m ∈ List.filter (lb_listed name) (from (lg_LbRules r)) /\ sources_overrun m = true)
        /\ (forall t, lb_table ro name r = Some t ->
              length (tb_rows t)
              = sum_list_with (fun m => length (from (lm_Endpoints m)))
                  (List.filter (lb_listed name) (from (lg_LbRules r)))))
  /\ (forall m, sources_overrun m = false ->
        sources_cell m
        = Some (join ", " (al_Prefix <$> take (Nat.max 1 (length (rule_secondaries m))) (rule_sources m)))).
Proof.
  assert (Hperm : rules_listed name r ≡ₚ List.filter (lb_listed name) (from (lg_LbRules r)))
    by apply filter_permutes, sort_permutes.
  unfold lb_table. split_and!.
  - intros ->. eexists. split; [done|]. exists (rules_listed name r).
    split_and!; [done | apply filter_sorted, sort_orders, by_text_order | done].
  - intros ->. split.
    + rewrite fmap_None, mapM_option_none. split; intros (m & Hm & Ho); exists m.
      * by rewrite <- Hperm, <- wide_rows_overrun.
      * by rewrite Hperm, wide_rows_overrun.
    + intros t Ht. apply fmap_Some in Ht as (rows & Hrows & ->). cbn [tb_rows].
      rewrite <- (sum_list_with_perm _ _ _ Hperm). apply mapM_Some in Hrows. clear Hperm.
      induction Hrows as [|m rs l k Hm _ IH]; [done|]. cbn [concat sum_list_with].
      by rewrite length_app, (wide_rows_length _ _ Hm), IH.
  - intros m Hm. unfold sources_cell. rewrite walked_list_spec, length_fmap, fmap_take.
    unfold sources_overrun, rule_sources, rule_secondaries in *.
    replace (bool_decide (al_Prefix <$> from (lm_SrcIPs m) = [])) with (bool_decide (from (lm_SrcIPs m) = [])).
    + by rewrite Hm.
    + apply bool_decide_ext. by destruct (from (lm_SrcIPs m)).
Qed.
