(* ===== verification/GetProps.v ===== *)
(** * What the get commands ask of the gateway, and what they list

    Every get command makes one GET of the collection or item it names (behind
    the gate of its feature, when it has one) and judges the answer; a listing
    has the entries of the answer, each once, in the order of their key. *)
From S2P Require Import Prelude GoStrings GoNet Json JsonPrint Floats Fields World Errors Exitcode.
From S2P Require Import Rest Requests FeatureGate Commands Plans NetModel AiModel GetModel.
From S2P Require Import BandTriple LbModel Tables GetCmds AiGets LbTables ListProps.
From Stdlib Require Import Sorted.

(* ------------------------------------------------------------------ *)
(** ** The judgements                                                  *)
(* ------------------------------------------------------------------ *)

(** The status alone. *)
Definition by_status (resp : http_response) (out : outcome) : Prop :=
  if (hr_status resp =? 200)%Z then out = Returns None else fails_as (failure_of (hr_status resp)) out.

(** The document must decode. *)
Definition by_document (A : Type) `{GoValue A} (resp : http_response) (out : outcome) : Prop :=
  if (hr_status resp =? 200)%Z then
    match unmarshal A (hr_body resp) with
    | Some _ => out = Returns None
    | None => fails_as ContractMismatch out
    end
  else fails_as (failure_of (hr_status resp)) out.

(** Behind a feature: an entry that is asked for by name must be there. *)
Definition by_entries {L A} `{GoValue L} (entries : L -> option (list A))
    (name : A -> string) (args : list string) (resp : http_response) (out : outcome) : Prop :=
  if (hr_status resp =? 200)%Z then
    match unmarshal L (hr_body resp) with
    | None => fails_as ContractMismatch out
    | Some l =>
        match args with
        | [wanted] =>
            if bool_decide (wanted ∈ List.map name (from (entries l))) then out = Returns None
            else fails_as Precondition out
        | _ => out = Returns None
        end
    end
  else fails_as (feature_code resp) out.

(** The version: its body must be read and decode. *)
Definition by_version (resp : http_response) (out : outcome) : Prop :=
  if (hr_status resp =? 200)%Z then
    match hr_body_error resp with
    | Some _ => fails_as Unavailable out
    | None =>
        match unmarshal LBVersionGet (hr_body resp) with
        | Some _ => out = Returns None
        | None => fails_as ContractMismatch out
        end
    end
  else fails_as (failure_of (hr_status resp)) out.

(** Load balancers: the bands are judged as the version is; the wide view crashes
    when a rule that is listed has sources, but fewer than secondary addresses. *)
Definition by_rules (ro : RESTOptions) (bands : bool) (ServiceName : string)
    (resp : http_response) (out : outcome) : Prop :=
  if (hr_status resp =? 200)%Z then
    let printed := bands && negb (json_wanted ro) in
    match hr_body_error resp, unmarshal LbRuleModGet (hr_body resp) with
    | Some _, _ => if printed then fails_as Unavailable out else out = Returns None
    | None, None => if printed then fails_as ContractMismatch out else out = Returns None
    | None, Some r =>
        if negb printed && negb (json_wanted ro) && wide_wanted ro
           && existsb sources_overrun (List.filter (lb_listed ServiceName) (from (lg_LbRules r)))
        then out = Panics else out = Returns None
    end
  else fails_as (failure_of (hr_status resp)) out.

(* ------------------------------------------------------------------ *)
(** ** The contracts                                                   *)
(* ------------------------------------------------------------------ *)

Definition reads (api : LoxiClient -> CommonAPI) (judge : http_response -> outcome -> Prop) : contract :=
  Inquires {| iq_method := "GET"; iq_api := api; iq_body := None; iq_gate := false; iq_judge := judge |}.
Definition reads_feature (api : LoxiClient -> CommonAPI) (judge : http_response -> outcome -> Prop)
    : contract :=
  Inquires {| iq_method := "GET"; iq_api := api; iq_body := None; iq_gate := true; iq_judge := judge |}.
Definition one_arg (args : list string) (p : string -> contract) : contract :=
  match args with [a] => p a | _ => Declines InvalidArgument end.
Definition up_to_one_arg (args : list string) (p : contract) : contract :=
  if (2 <=? length args)%nat then Declines InvalidArgument else p.

Record GetFlags : Type := {
  gf_changed : string -> bool;
  gf_servName : string;
  gf_bands : bool;
  gf_tenantID : string;
  gf_serviceID : Z;
  gf_epIdx : Z;
  gf_workers : bool;
  gf_stats : bool;
  gf_otlp : bool;
  gf_parsers : bool;
  gf_hwcounters : bool;
  gf_flows : bool;
  gf_pipe : string;
  gf_svc : string;
  gf_ep : string;
  gf_limit : Z
}.

(** A part of a query that is left out when its flag is empty. *)
Definition given (name value : string) : list (string * string) :=
  if bool_decide (value = "") then [] else [(name, value)].

(** The old commands, whose answer is judged by its status. *)
Definition status_commands `{GoLib} `{TableLib} `{SortLib} (ro : RESTOptions) (f : GetFlags)
    : list (IO outcome * (LoxiClient -> CommonAPI)) :=
  [ (get_bgpneighbor ro, at_path "/config/bgp/neigh/all");
    (get_conntrack ro (gf_servName f), at_path "config/conntrack/all");
    (get_endpoint ro, at_path "/config/endpoint/all");
    (get_fdb ro, at_path "/config/fdb/all");
    (get_firewall ro, at_path "/config/firewall/all");
    (get_hastate ro, at_path "config/cistate/all");
    (get_ipaddress ro, at_path "/config/ipv4address/all");
    (get_mirror ro, at_path "/config/mirror/all");
    (get_neighbor ro, at_path "/config/neighbor/all");
    (get_policy ro, at_path "/config/policy/all");
    (get_port ro, at_path "config/port/all");
    (get_route ro, at_path "/config/route/all");
    (get_session ro, at_path "/config/session/all");
    (get_sessionulcl ro, at_path "/config/sessionulcl/all");
    (get_vlan ro, at_path "/config/vlan/all");
    (get_vxlan ro, at_path "/config/tunnel/vxlan/all");
    (get_bfd ro, at_path "config/bfd/all");
    (get_param ro, at_path "config/params");
    (get_process ro, at_path "status/process");
    (get_device ro, at_path "status/device");
    (get_filesystem ro, at_path "status/filesystem") ].

(** The documents that are printed as they came. *)
Definition document_commands (ro : RESTOptions) (f : GetFlags) : list (IO outcome * (LoxiClient -> CommonAPI)) :=
  [ (get_gpu ro (gf_workers f),
     if gf_workers f then (at_path "config/worker/metrics") else item_at "config/gpu" ["status"]);
    (get_pii ro (gf_stats f), item_at "config/pii" [if gf_stats f then "stats" else "status"]);
    (get_llamafirewall ro (gf_stats f),
     item_at "config/llamafirewall" [if gf_stats f then "stats" else "status"]);
    (get_trace ro (gf_otlp f) (gf_parsers f),
     item_at "config/trace" [if gf_otlp f then "otlp" else if gf_parsers f then "parsers" else "status"]);
    (get_l4trace ro, item_at "config/l4trace" ["status"]);
    (get_opa ro, at_path "config/opa/watcher");
    (get_dpu ro (gf_changed f) (gf_hwcounters f) (gf_flows f) (gf_pipe f) (gf_svc f) (gf_ep f) (gf_limit f),
     if gf_hwcounters f then item_at "config/dpu" ["hwcounters"]
     else
       match (if gf_flows f then [("flows", "1")] else []) ++ given "pipe" (gf_pipe f)
             ++ given "svc" (gf_svc f) ++ given "ep" (gf_ep f)
             ++ (if gf_changed f "limit" then [("limit", itoa (gf_limit f))] else []) with
       | [] => item_at "config/dpu" ["debug"]
       | query => query_at "config/dpu" ["debug"] query
       end) ].

Definition get_commands `{GoLib} `{TableLib} `{SortLib} (ro : RESTOptions) (f : GetFlags)
    (args : list string) : list (IO outcome * contract) :=
  ((fun x : IO outcome * (LoxiClient -> CommonAPI) => (x.1, reads x.2 by_status))
     <$> status_commands ro f ++ document_commands ro f)
  ++
  [ (get_lbversion ro, reads (at_path "version") by_version);
    (get_loadbalancer ro (gf_bands f) (gf_servName f),
     (if gf_bands f then reads_feature else reads) (at_path "config/loadbalancer/all")
       (by_rules ro (gf_bands f) (gf_servName f)));
    (get_apikey ro (gf_tenantID f) args,
     reads (match args with
            | [key] => item_at "config/ai/apikey" [key]
            | _ => query_at "config/ai/apikey" [] (given "tenant_id" (gf_tenantID f))
            end) by_status);
    (get_ratelimit ro args,
     one_arg args (fun tenant => reads (item_at "config/ai/tenant/ratelimit" [tenant])
                                   (by_document AITenantRateLimitEntry)));
    (get_kvinventory ro (gf_changed f) (gf_serviceID f) (gf_epIdx f),
     if gf_changed f "service-id" && gf_changed f "ep-idx"
     then reads (query_at "config/ai/kv/inventory" [] [("service_id", itoa (gf_serviceID f)); ("ep_idx", itoa (gf_epIdx f))])
            (by_document AIKvInventoryResponse)
     else Declines InvalidArgument);
    (get_cert ro args, one_arg args (fun id => reads (item_at "config/cert" [id]) (by_document CertModel)));
    (get_sni ro, reads (at_path "sni/certificates") (by_document SNICertificateListResponse));
    (get_metrics ro, reads (at_path "config/metrics") (by_document MetricsConfig));
    (get_objective ro args,
     up_to_one_arg args (reads_feature (at_path "config/ai/objective")
       (by_entries obl_Objectives obe_Name args)));
    (get_netidentity ro args,
     up_to_one_arg args (reads_feature (at_path "config/ai/netidentity")
       (by_entries nil_Bindings nie_Name args)));
    (get_jwtauthprofile ro args,
     up_to_one_arg args (reads_feature (at_path "config/ai/jwtauthprofile")
       (by_entries jpl_Profiles jpe_Name args))) ].

(* ------------------------------------------------------------------ *)
(** ** The commands keep their contracts                               *)
(* ------------------------------------------------------------------ *)

Lemma given_text name value : given name value = if is_empty value then [] else [(name, value)].
Proof. unfold given. by destruct value. Qed.

Section Contracts.
Context `{GoLib} `{TableLib} `{SortLib}.
Variable ro : RESTOptions.

Lemma say_json_quiet v : ops_satisfy not_http (say_json v).
Proof. apply say_quiet. Qed.

Lemma table_quiet t : ops_satisfy not_http (TableShow t).
Proof. apply say_quiet. Qed.

Lemma shown_result_quiet {A} `{GoValue A} (enc : A -> gojson) (show : A -> IO unit) resp :
  (forall a, ops_satisfy not_http (show a)) -> ops_satisfy not_http (print_result ro enc show resp).
Proof.
  intros Hs. unfold print_result. destruct (hr_body_error resp); [apply say_quiet|].
  destruct (unmarshal A _); [|apply say_quiet]. destruct (json_wanted ro); [apply say_quiet | apply Hs].
Qed.

(** A read, however it is judged. *)
Lemma read_wp op q api k w h :
  q = {| iq_method := "GET"; iq_api := api; iq_body := None; iq_gate := iq_gate q; iq_judge := iq_judge q |} ->
  (forall c, ca_restClient (api c) = c) -> concludes q k ->
  wp (client ← NewLoxiClient ro; answered (colon op) (Get (api client)) k) w h
    (fun out t => inquired ro q out (https t)).
Proof.
  intros Hq Hapi Hk. apply (client_inquiry_wp ro q _ (fun c => Get (api c))); [|done].
  intros c. rewrite Hq. unfold Get, GET. by rewrite Hapi.
Qed.

Lemma read_conforms op api judge k :
  (forall c, ca_restClient (api c) = c) ->
  (forall resp w h, wp (k resp) w h (fun out t => https t = [] /\ judge resp out)) ->
  conforms ro (client ← NewLoxiClient ro; answered (colon op) (Get (api client)) k) (reads api judge).
Proof. intros Hapi Hk w h. by apply read_wp. Qed.

Lemma get_old_conforms op api print :
  (forall c, ca_restClient (api c) = c) -> (forall resp, ops_satisfy not_http (print resp)) ->
  conforms ro (get_old ro op api print) (reads api by_status).
Proof.
  intros Hapi Hp. apply read_conforms; [done|]. intros resp w h. unfold by_status. destruct (_ =? _)%Z.
  - by apply then_succeeds.
  - apply then_fails; first [apply fails_with_code | by apply fails_with_status].
Qed.

Lemma get_table_conforms {A} `{GoValue A} op api (enc : A -> gojson) rows :
  (forall c, ca_restClient (api c) = c) ->
  conforms ro (get_table ro op api enc rows) (reads api by_status).
Proof.
  intros Hapi. apply get_old_conforms; [done|]. intros resp. apply shown_result_quiet.
  intros a. apply table_quiet.
Qed.

Lemma document_conforms op what api :
  (forall c, ca_restClient (api c) = c) -> conforms ro (get_document ro op what api) (reads api by_status).
Proof.
  intros Hapi. apply read_conforms; [done|]. intros resp w h. unfold printJSONResponse, by_status.
  destruct (_ =? _)%Z; cbn [negb].
  - apply then_succeeds; [apply say_quiet | done].
  - apply then_fails; first [apply fails_with_code | by apply fails_with_status].
Qed.

Lemma decoded_conforms {A} `{GoValue A} op api (enc : A -> gojson) show :
  (forall c, ca_restClient (api c) = c) -> (forall a, ops_satisfy not_http (show a)) ->
  conforms ro (get_decoded ro op api enc show) (reads api (by_document A)).
Proof.
  intros Hapi Hs. apply read_conforms; [done|]. intros resp w h. unfold decoded_answer, by_document.
  destruct (_ =? _)%Z; cbn [negb].
  - destruct (unmarshal A _).
    + apply then_succeeds; [|done]. destruct (json_wanted ro); [apply say_quiet | apply Hs].
    + apply then_fails; first [apply fails_with_code | by apply fails_with_status].
  - apply then_fails; first [apply fails_with_code | by apply fails_with_status].
Qed.

(** The entries of a name are there exactly when the name is. *)
Lemma entries_named_nil {A} (name : A -> string) wanted l :
  entries_named name wanted l = [] <-> wanted ∉ List.map name (from l).
Proof.
  unfold entries_named. induction (from l) as [|a k IH]; [set_solver|]. cbn [List.filter List.map].
  rewrite not_elem_of_cons. destruct (streq (name a) wanted) eqn:Ha.
  - apply streq_true in Ha. split; [done|]. intros [Hn _]. by rewrite Ha in Hn.
  - apply streq_false in Ha. rewrite IH. naive_solver.
Qed.

Lemma feature_conforms {L A} `{GoValue L} op feature noun api (entries : L -> option (list A)) upd name
    (enc : L -> gojson) show args :
  (forall c, ca_restClient (api c) = c) -> (forall l, ops_satisfy not_http (show l)) ->
  conforms ro (get_feature ro op feature noun api entries upd name enc show args)
    (up_to_one_arg args (reads_feature api (by_entries entries name args))).
Proof.
  intros Hapi Hs. unfold get_feature, up_to_one_arg. destruct (2 <=? _)%nat; [by apply conforms_declined|].
  apply conforms_gated; [done|]. intros w h. apply read_wp; [done..|].
  intros resp w' h'. cbn [iq_judge]. unfold feature_answered, by_entries.
  assert (Hp : forall l w h P, P (Returns None) ->
    wp (_ ← (if json_wanted ro then say_json (enc l) else show l); succeed) w h
      (fun out t => https t = [] /\ P out)).
  { intros l ????. apply then_succeeds; [|done]. destruct (json_wanted ro); [apply say_quiet | apply Hs]. }
  destruct (_ =? _)%Z; cbn [negb]; [|apply then_fails; rewrite <- (classify_feature_code op feature); apply fails_with_code].
  destruct (unmarshal L _) as [l|]; [|apply then_fails; first [apply fails_with_code | by apply fails_with_status]].
  destruct args as [|wanted [|]]; [by apply Hp| |by apply Hp].
  destruct (entries_named name wanted (entries l)) as [|a kept] eqn:Hk.
  - rewrite entries_named_nil in Hk. rewrite bool_decide_false by done. apply then_fails; first [apply fails_with_code | by apply fails_with_status].
  - rewrite bool_decide_true; [by apply Hp|]. apply dec_stable. rewrite <- entries_named_nil. by rewrite Hk.
Qed.
End Contracts.

(* ------------------------------------------------------------------ *)
(** ** Every get command                                               *)
(* ------------------------------------------------------------------ *)

Section Commands.
Context `{GoLib} `{TableLib} `{SortLib}.
Variable ro : RESTOptions.

Lemma status_commands_conform f :
  Forall (fun x : IO outcome * (LoxiClient -> CommonAPI) => conforms ro x.1 (reads x.2 by_status))
    (status_commands ro f).
Proof. repeat apply Forall_cons_2; try apply Forall_nil_2; by apply get_table_conforms. Qed.

Lemma document_commands_conform f :
  Forall (fun x : IO outcome * (LoxiClient -> CommonAPI) => conforms ro x.1 (reads x.2 by_status))
    (document_commands ro f).
Proof.
  repeat apply Forall_cons_2; try apply Forall_nil_2; cbn [fst snd].
  - unfold get_gpu. destruct (gf_workers f); by apply document_conforms.
  - unfold get_pii. destruct (gf_stats f); by apply document_conforms.
  - unfold get_llamafirewall. destruct (gf_stats f); by apply document_conforms.
  - unfold get_trace. destruct (gf_otlp f); [|destruct (gf_parsers f)]; by apply document_conforms.
  - by apply document_conforms.
  - by apply document_conforms.
  - unfold get_dpu. destruct (gf_hwcounters f); [by apply document_conforms|].
    rewrite !given_text. set (query := _ ++ _).
    assert (Hq : dpu_query (gf_changed f) (gf_flows f) (gf_pipe f) (gf_svc f) (gf_ep f) (gf_limit f) = query)
      by done.
    rewrite Hq. destruct query; by apply document_conforms.
Qed.

Lemma get_lbversion_conforms : conforms ro (get_lbversion ro) (reads Client.LBVersion by_version).
Proof.
  apply read_conforms; [done|]. intros resp w h. unfold PrintGetVersionResult, by_version.
  destruct (_ =? _)%Z; [|apply then_fails; first [apply fails_with_code | by apply fails_with_status]].
  destruct (hr_body_error resp); [apply then_fails; first [apply fails_with_code | by apply fails_with_status]|].
  destruct (unmarshal LBVersionGet _); [|apply then_fails; first [apply fails_with_code | by apply fails_with_status]].
  destruct (json_wanted ro); [apply then_succeeds; [apply say_quiet | done]|].
  apply wp_bind, quiet_wp; [apply table_quiet|]. intros ? t Ht.
  apply wp_bind, quiet_wp; [apply say_quiet|]. intros ? t' Ht'. apply wp_ret.
  by rewrite app_nil_r, https_app, Ht, Ht'.
Qed.

Lemma print_bands_wp rules w h (P : outcome -> Prop) :
  P (Returns None) -> wp (print_bands rules) w h (fun out t => https t = [] /\ P out).
Proof.
  intros HP. revert h. induction rules as [|r rules IH]; intros h; [by apply wp_ret|]. cbn [print_bands].
  apply wp_bind, quiet_wp; [apply say_quiet|]. intros ? t Ht.
  apply wp_bind, quiet_wp; [apply table_quiet|]. intros ? t' Ht'.
  eapply wp_mono; [apply IH|]. intros out t'' [Ht'' Hout]. by rewrite !https_app, Ht, Ht', Ht''.
Qed.

Lemma lb_answered_wp bands name resp w h :
  wp (lb_answered ro bands name resp) w h (fun out t => https t = [] /\ by_rules ro bands name resp out).
Proof.
  unfold lb_answered, by_rules, PrintGetLbBands, PrintGetLbResult.
  destruct (_ =? _)%Z; [|apply then_fails; first [apply fails_with_code | by apply fails_with_status]].
  destruct (bands && negb (json_wanted ro)) eqn:Hp; destruct (hr_body_error resp).
  - apply then_fails; first [apply fails_with_code | by apply fails_with_status].
  - destruct (unmarshal LbRuleModGet _); [by apply print_bands_wp | apply then_fails; first [apply fails_with_code | by apply fails_with_status]].
  - apply then_succeeds; [apply say_quiet | done].
  - destruct (unmarshal LbRuleModGet _) as [r|]; [|apply then_succeeds; [apply say_quiet | done]].
    destruct (json_wanted ro); cbn [negb andb]; [apply then_succeeds; [apply say_quiet | done]|].
    rewrite <- lb_table_panics.
    destruct (lb_table ro name r) as [t|]; [apply then_succeeds; [apply table_quiet | done]|].
    by apply wp_ret.
Qed.

Lemma get_lb_conforms bands name :
  conforms ro (get_loadbalancer ro bands name)
    ((if bands then reads_feature else reads) Client.LoadBalancerAll (by_rules ro bands name)).
Proof.
  unfold get_loadbalancer. destruct bands.
  - apply conforms_gated; [done|]. intros w h. apply read_wp; [done..|].
    intros resp w' h'. apply lb_answered_wp.
  - apply read_conforms; [done|]. intros resp w h. apply lb_answered_wp.
Qed.

Lemma get_apikey_conforms tenantID args :
  conforms ro (get_apikey ro tenantID args)
    (reads (match args with
            | [key] => item_at "config/ai/apikey" [key]
            | _ => query_at "config/ai/apikey" [] (given "tenant_id" tenantID)
            end) by_status).
Proof.
  assert (Hend : forall single resp w h,
    wp (if negb (hr_status resp =? 200)%Z then fail_with (api_error_answer "get apikey" resp)
        else _ ← PrintGetAPIKeyResult ro (hr_body resp) single; succeed) w h
      (fun out t => https t = [] /\ by_status resp out)).
  { intros single resp w h. unfold by_status. destruct (_ =? _)%Z; cbn [negb].
    - apply then_succeeds; [|done]. unfold PrintGetAPIKeyResult.
      destruct single; destruct (unmarshal _ _); cbn [fmap option_fmap option_map];
        [destruct (json_wanted ro)| |destruct (json_wanted ro)|]; apply say_quiet.
    - apply then_fails; first [apply fails_with_code | by apply fails_with_status]. }
  rewrite given_text. unfold get_apikey. destruct args as [|key [|]];
    by apply read_conforms.
Qed.

(** C34: the get commands keep their contracts: the thirty-nine of the configuration,
    the status, the documents and the AI services (snapshot, maintenance, ready,
    diagnostics, logs, log-archives, audit-status and audit-sink are apart).
    Where the contract declines, for a wrong number of arguments or a flag that is
    missing, the command is INVALID_ARGUMENT without a request.  Otherwise it is one
    GET of the collection or item named, with the query of the flags; for [get lb
    --bands] and the three features it comes after one [GET /version], and not at
    all when the answer is not a gateway's, whose failure then is the command's.
    The answer decides: success by a 200 alone, or if it decodes, or if the entry
    that is asked for by name is there; any other status is its code; and [get lb
    -o wide] crashes on a rule with sources, but fewer than secondary addresses. *)
Theorem get_commands_conform f args :
  Forall (fun p => conforms ro p.1 p.2) (get_commands ro f args).
Proof.
  unfold get_commands. apply Forall_app. split.
  { apply Forall_fmap. apply Forall_app. split;
      [apply status_commands_conform | apply document_commands_conform]. }
  repeat apply Forall_cons_2; try apply Forall_nil_2; cbn [fst snd].
  - apply get_lbversion_conforms.
  - apply get_lb_conforms.
  - apply get_apikey_conforms.
  - unfold get_ratelimit, one_arg. destruct args as [|a [|]]; [by apply conforms_declined| |by apply conforms_declined].
    apply decoded_conforms; [done|]. intros ?. apply table_quiet.
  - unfold get_kvinventory. destruct (gf_changed f _); [|by apply conforms_declined].
    destruct (gf_changed f _); [|by apply conforms_declined]. cbn [negb orb andb].
    apply decoded_conforms; [done|]. intros inv. apply ops_bind; [apply say_quiet|].
    intros ?. apply table_quiet.
  - unfold get_cert, one_arg. destruct args as [|a [|]]; [by apply conforms_declined| |by apply conforms_declined].
    apply decoded_conforms; [done|]. intros ?. apply table_quiet.
  - apply decoded_conforms; [done|]. intros ?. apply table_quiet.
  - apply decoded_conforms; [done|]. intros ?. apply say_quiet.
  - apply feature_conforms; [done|]. intros l. apply ops_bind; [apply say_quiet|]. intros ?. apply table_quiet.
  - apply feature_conforms; [done|]. intros ?. apply table_quiet.
  - apply feature_conforms; [done|]. intros ?. apply table_quiet.
Qed.
End Commands.
