(* ===== verification/SetProps.v ===== *)
(** * What the set commands ask of the gateway

    Every set command that sends a request keeps to its plan, and the documents
    of the partial updates hold exactly what was given on the command line. *)
From S2P Require Import Prelude GoStrings GoNet Json JsonPrint Floats Fields World Errors Exitcode.
From S2P Require Import Rest Requests FeatureGate Commands Plans NetModel AiModel ApplyText.
From S2P Require Import CreateProps SetCmds.

(* ------------------------------------------------------------------ *)
(** ** The documents                                                   *)
(* ------------------------------------------------------------------ *)

(** The members whose condition holds, in their order. *)
Definition members_given (rows : list (bool * (string * gojson))) : gojson :=
  GObj (snd <$> List.filter fst rows).

Definition words (l : list string) : gojson := GArr (GStr <$> l).
Definition some_words (l : list string) : bool := match l with [] => false | _ => true end.

Definition apikey_members (changed : string -> bool) (o : SetAPIKeyOptions)
    : list (bool * (string * gojson)) :=
  [(changed "allowed-models" && some_words (sk_AllowedModels o),
      ("allowed_models", words (sk_AllowedModels o)));
   (changed "enabled", ("enabled", GBool (sk_Enabled o)));
   (changed "rate-limit-rps", ("rate_limit_rps", GInt (sk_RateLimitRps o)));
   (changed "burst-size", ("burst_size", GInt (sk_BurstSize o)));
   (changed "tokens-per-min", ("tokens_per_min", GInt (sk_TokensPerMin o)));
   (changed "priority-class", ("priority_class", GStr (sk_PriorityClass o)));
   (changed "default-objective", ("default_objective", GStr (sk_DefaultObjective o)));
   (changed "allowed-objectives", ("allowed_objectives", words (sk_AllowedObjectives o)))].

Definition pii_members (changed : string -> bool) (o : SetPIIOptions)
    : list (bool * (string * gojson)) :=
  [(changed "mode", ("mode", GStr (pi_mode o)));
   (changed "direction", ("direction", GStr (pi_direction o)));
   (changed "fail-mode", ("fail_mode", GStr (pi_failMode o)));
   (changed "scan-mode", ("scan_mode", GStr (pi_scanMode o)));
   (changed "analyzer-url", ("analyzer_url", GStr (pi_analyzerURL o)));
   (changed "anonymizer-url", ("anonymizer_url", GStr (pi_anonymizerURL o)));
   (changed "score-threshold", ("score_threshold", float64_json (pi_scoreThreshold o)));
   (changed "timeout-ms", ("timeout_ms", GInt (pi_timeoutMs o)));
   (changed "max-body-size", ("max_body_size", GInt (pi_maxBodySize o)));
   (changed "min-body-size", ("min_body_size", GInt (pi_minBodySize o)));
   (changed "enable-v2", ("enable_v2", GBool (pi_enableV2 o)));
   (changed "default-operator", ("default_operator", GStr (pi_defaultOperator o)));
   (changed "encryption-key", ("encryption_key", GStr (pi_encryptionKey o)));
   (changed "batch-size", ("batch_size", GInt (pi_batchSize o)))].

Definition llamafirewall_members (changed : string -> bool) (o : SetLlamaFirewallOptions)
    : list (bool * (string * gojson)) :=
  [(changed "server-url", ("server_url", GStr (lf_serverURL o)));
   (changed "timeout-sec", ("timeout_sec", GInt (lf_timeoutSec o)));
   (changed "fail-closed", ("fail_closed", GBool (lf_failClosed o)));
   (changed "block-threshold", ("block_threshold", float64_json (lf_blockThreshold o)));
   (changed "cache-enabled", ("cache_enabled", GBool (lf_cacheEnabled o)));
   (changed "cache-ttl-sec", ("cache_ttl_sec", GInt (lf_cacheTTLSec o)));
   (changed "connection-pool-size", ("connection_pool_size", GInt (lf_connPoolSize o)));
   (changed "scan-pattern" && some_words (lf_scanPatterns o), ("scan_patterns", words (lf_scanPatterns o)));
   (changed "skip-pattern" && some_words (lf_skipPatterns o), ("skip_patterns", words (lf_skipPatterns o)))].

Definition scanner_members (changed : string -> bool) (o : SetLlamaFirewallOptions)
    : list (bool * (string * gojson)) :=
  [(changed "prompt-guard", ("prompt_guard", GBool (lf_promptGuard o)));
   (changed "code-shield", ("code_shield", GBool (lf_codeShield o)));
   (changed "regex", ("regex", GBool (lf_regex o)));
   (changed "hidden-ascii", ("hidden_ascii", GBool (lf_hiddenASCII o)));
   (changed "agent-alignment", ("agent_alignment", GBool (lf_agentAlignment o)));
   (changed "pii-detection", ("pii_detection", GBool (lf_piiDetection o)))].


(** The words of a log level, and the classes of priority; no class clears it. *)
Definition level_words : list string :=
  ["trace"; "debug"; "info"; "error"; "warning"; "notice"; "critical"; "emergency"; "alert"].
Definition class_words : list string := [""; "standard"; "critical"; "sheddable"].

Definition loglevel_doc (args : list string) : option gojson :=
  match args with
  | [level] => provided (bool_decide (level ∈ level_words)) (GObj [("logLevel", GStr level)])
  | _ => None
  end.

(** A quota [MODEL=TOKENS], spaces around the two aside: a model that is not empty
    and has no bar, and a number that is not negative; no model comes twice. *)
Definition quota_of (value : string) : option (string * Z) :=
  '(model, tokens) ← split_first "="%char value;
  n ← atoi (trim_space tokens);
  if bool_decide (trim_space model <> "") && negb (contains (trim_space model) "|") && (0 <=? n)%Z
  then Some (trim_space model, n) else None.

Definition quotas_of (values : list string) : option (list (string * Z)) :=
  l ← mapM quota_of values; if bool_decide (NoDup l.*1) then Some l else None.

Definition quota_json (q : string * Z) : gojson :=
  GObj [("model", GStr q.1); ("tokens_per_min", GInt q.2)].

Definition ratelimit_members (changed : string -> bool) (o : SetRateLimitOptions) (l : list (string * Z))
    : list (bool * (string * gojson)) :=
  [(true, ("tenant_id", GStr (sr_TenantID o)));
   (negb (sr_Rps o =? 0)%Z, ("rps", GInt (sr_Rps o)));
   (negb (sr_TokensPerMin o =? 0)%Z, ("tokens_per_min", GInt (sr_TokensPerMin o)));
   (negb (sr_BurstPct o =? 0)%Z, ("burst_pct", GInt (sr_BurstPct o)));
   (match l with [] => false | _ => true end, ("model_limits", GArr (quota_json <$> l)));
   (changed "priority-class", ("priority_class", GStr (sr_PriorityClass o)));
   (changed "default-objective", ("default_objective", GStr (sr_DefaultObjective o)));
   (changed "allowed-objectives", ("allowed_objectives", words (sr_AllowedObjectives o)))].

Definition pattern_json (excluded : bool) (pattern : string) : gojson :=
  GObj [("pattern", GStr pattern); ("is_exclude", GBool excluded)].

Definition patterns_members (o : SetPIIOptions) : list (bool * (string * gojson)) :=
  [(true, ("mode", GStr (pi_urlMode o)));
   (some_words (pi_includes o ++ pi_excludes o),
      ("patterns", GArr ((pattern_json false <$> pi_includes o) ++ (pattern_json true <$> pi_excludes o))))].

(** The headers of a collector, by their keys; of one key given twice the last. *)
Definition headers_of (l : list string) : option (list (string * string)) :=
  entries ← mapM (split_first "="%char) l;
  Some (sort_keys (map_to_list (list_to_map (M := gmap string string) (reverse entries)))).

Definition otlp_members (changed : string -> bool) (o : SetTraceOptions) (headers : list (string * string))
    : list (bool * (string * gojson)) :=
  [(true, ("endpoint", GStr (tr_endpoint o)));
   (true, ("protocol", GStr (tr_protocol o)));
   (changed "otlp-use-tls", ("use_tls", GBool (tr_useTLS o)));
   (changed "otlp-tls-skip-verify", ("tls_skip_verify", GBool (tr_tlsSkipVerify o)));
   (match headers with [] => false | _ => true end,
      ("headers", GObj ((fun m : string * string => (m.1, GStr m.2)) <$> headers)))].

Definition opa_members (o : OPAWatcherConfig) : list (bool * (string * gojson)) :=
  [(true, ("opa_url", GStr (owc_OpaURL o)));
   (negb (is_empty (owc_PolicyPath o)), ("policy_path", GStr (owc_PolicyPath o)));
   (negb (owc_PollIntervalSec o =? 0)%Z, ("poll_interval_sec", GInt (owc_PollIntervalSec o)));
   (owc_FailOpen o, ("fail_open", GBool true))].

Definition dpu_members (action plugin mode : string) : list (bool * (string * gojson)) :=
  [(true, ("action", GStr action));
   (negb (is_empty plugin), ("plugin", GStr plugin));
   (negb (is_empty mode), ("mode", GStr mode))].

Definition switched (b : bool) : gojson := GObj [("enabled", GBool b)].

(** A call without a document has the body [null]. *)
Definition without_doc : gojson := GRaw "null".

(* ------------------------------------------------------------------ *)
(** ** The plans                                                       *)
(* ------------------------------------------------------------------ *)

(** A document to [api]; 200 and 204 confirm it. *)
Definition carried (meth : string) (feature : bool) (api : LoxiClient -> CommonAPI) (doc : gojson)
    : asked :=
  {| as_method := meth; as_api := api; as_body := Some (encode doc); as_ok := [200; 204]%Z;
     as_feature := feature |}.

(** A document that cannot be encoded is not sent. *)
Definition managed (meth : string) (api : LoxiClient -> CommonAPI) (doc : gojson) : plan :=
  if raw_ok doc then Asks (carried meth false api doc) else Fails Unavailable.

(** Exactly one of the actions is chosen. *)
Definition the_one (actions : list (bool * plan)) : plan :=
  match List.filter fst actions with [(_, p)] => p | _ => Refuses end.

Definition known_class (changed : string -> bool) (class : string) (p : plan) : plan :=
  if changed "priority-class" && negb (bool_decide (class ∈ class_words)) then Refuses else p.

(** The flags that need the feature of priorities. *)
Definition needs_priorities (changed : string -> bool) : bool :=
  existsb changed ["priority-class"; "default-objective"; "allowed-objectives"].

Record SetFlags : Type := {
  sf_bfd : BFDSessionInfo;
  sf_ratelimit : SetRateLimitOptions;
  sf_apikey : SetAPIKeyOptions;
  sf_enable : bool;
  sf_disable : bool;
  sf_cleanup : bool;
  sf_maxAgeHours : Z;
  sf_pii : SetPIIOptions;
  sf_llamafirewall : SetLlamaFirewallOptions;
  sf_trace : SetTraceOptions;
  sf_resetStats : bool;
  sf_samplingRate : Z;
  sf_action : string;
  sf_plugin : string;
  sf_mode : string;
  sf_opa : OPAWatcherConfig
}.

Definition ratelimit_plan (changed : string -> bool) (o : SetRateLimitOptions) : plan :=
  if is_empty (sr_TenantID o) || contains (sr_TenantID o) "|"
     || negb (forallb (Z.leb 0) [sr_Rps o; sr_TokensPerMin o; sr_BurstPct o])
  then Refuses
  else match quotas_of (sr_ModelLimits o) with
       | None => Refuses
       | Some l =>
           known_class changed (sr_PriorityClass o)
             (Asks (carried "POST" (needs_priorities changed) (at_path "config/ai/tenant/ratelimit")
                      (members_given (ratelimit_members changed o l))))
       end.

Definition apikey_plan (changed : string -> bool) (o : SetAPIKeyOptions) (args : list string) : plan :=
  match args with
  | [key] =>
      if negb (existsb changed ["allowed-models"; "enabled"; "rate-limit-rps"; "burst-size";
                                "tokens-per-min"; "priority-class"; "default-objective";
                                "allowed-objectives"])
      then Refuses
      else known_class changed (sk_PriorityClass o)
             (Asks (carried "PATCH" (needs_priorities changed) (item_at "config/ai/apikey" [key])
                      (members_given (apikey_members changed o))))
  | _ => Refuses
  end.

Definition pii_plan (changed : string -> bool) (o : SetPIIOptions) : plan :=
  let post sub doc := managed "POST" (item_at "config/pii" [sub]) doc in
  the_one
    [(pi_enable o, post "enable" (switched true));
     (pi_disable o, post "enable" (switched false));
     (pi_configure o, post "configure" (members_given (pii_members changed o)));
     (pi_urlPatterns o, if is_empty (pi_urlMode o) then Refuses
                        else post "url-patterns" (members_given (patterns_members o)))].

Definition llamafirewall_plan (changed : string -> bool) (o : SetLlamaFirewallOptions) : plan :=
  let post sub doc := managed "POST" (item_at "config/llamafirewall" [sub]) doc in
  the_one
    [(lf_enable o, post "enable" (switched true));
     (lf_disable o, post "enable" (switched false));
     (lf_configure o, post "configure" (members_given (llamafirewall_members changed o)));
     (lf_scanners o, post "scanners" (members_given (scanner_members changed o)));
     (lf_health o, post "health" without_doc)].

Definition trace_plan (changed : string -> bool) (o : SetTraceOptions) : plan :=
  let post sub doc := managed "POST" (item_at "config/trace" [sub]) doc in
  the_one
    [(tr_enable o, post "enable" without_doc);
     (tr_disable o, post "disable" without_doc);
     (tr_otlp o, if is_empty (tr_endpoint o) || is_empty (tr_protocol o) then Refuses
                 else match headers_of (tr_headers o) with
                      | None => Refuses
                      | Some headers => post "otlp" (members_given (otlp_members changed o headers))
                      end)].

Definition l4trace_plan (changed : string -> bool) (enable disable resetStats : bool) (rate : Z) : plan :=
  let at_ subs := item_at "config/l4trace" subs in
  let other := enable || disable || resetStats in
  the_one
    [(enable, managed "POST" (at_ ["enable"])
                (members_given [(changed "sampling-rate", ("sampling_rate", GInt rate))]));
     (disable, managed "POST" (at_ ["disable"]) without_doc);
     (resetStats, managed "POST" (at_ ["stats"; "reset"]) without_doc);
     (changed "sampling-rate" && negb other,
      managed "PUT" (at_ ["sampling"]) (GObj [("sampling_rate", GInt rate)]))].

Definition gpu_plan (changed : string -> bool) (enable disable cleanup : bool) (hours : Z) : plan :=
  let cleaned :=
    if changed "max-age-hours"
    then query_at "config/gpu" ["conversations"; "cleanup"] [("max_age_hours", itoa hours)]
    else item_at "config/gpu" ["conversations"; "cleanup"] in
  the_one
    [(enable, managed "POST" (item_at "config/gpu" ["enable"]) without_doc);
     (disable, managed "POST" (item_at "config/gpu" ["disable"]) without_doc);
     (cleanup, managed "POST" cleaned without_doc)].

Definition metrics_plan (enable disable : bool) : plan :=
  the_one
    [(enable, managed "POST" (at_path "config/metrics") without_doc);
     (disable, Asks {| as_method := "DELETE"; as_api := at_path "config/metrics"; as_body := None;
                       as_ok := [200; 204]%Z; as_feature := false |})].

Definition dpu_plan (action plugin mode : string) : plan :=
  if streq action "unregister" && negb (is_empty plugin)
     || streq action "cb_force" && bool_decide (mode ∈ ["open"; "close"])
  then managed "POST" (item_at "config/dpu" ["debug"]) (members_given (dpu_members action plugin mode))
  else Refuses.

Definition opa_plan (cfg : OPAWatcherConfig) : plan :=
  if is_empty (owc_OpaURL cfg) then Refuses
  else managed "POST" (at_path "config/opa/watcher") (members_given (opa_members cfg)).

Definition set_commands `{GoLib} (ro : RESTOptions) (changed : string -> bool) (f : SetFlags)
    (args : list string) : list (IO outcome * plan) :=
  [ (set_loglevel ro args, posting "config/params" (loglevel_doc args));
    (set_bfd ro (sf_bfd f) args, posting "config/bfd" (bfd_doc (sf_bfd f) args));
    (set_ratelimit ro changed (sf_ratelimit f), ratelimit_plan changed (sf_ratelimit f));
    (set_apikey ro changed (sf_apikey f) args, apikey_plan changed (sf_apikey f) args);
    (set_metrics ro (sf_enable f) (sf_disable f), metrics_plan (sf_enable f) (sf_disable f));
    (set_gpu ro changed (sf_enable f) (sf_disable f) (sf_cleanup f) (sf_maxAgeHours f),
     gpu_plan changed (sf_enable f) (sf_disable f) (sf_cleanup f) (sf_maxAgeHours f));
    (set_pii ro changed (sf_pii f), pii_plan changed (sf_pii f));
    (set_llamafirewall ro changed (sf_llamafirewall f), llamafirewall_plan changed (sf_llamafirewall f));
    (set_trace ro changed (sf_trace f), trace_plan changed (sf_trace f));
    (set_l4trace ro changed (sf_enable f) (sf_disable f) (sf_resetStats f) (sf_samplingRate f),
     l4trace_plan changed (sf_enable f) (sf_disable f) (sf_resetStats f) (sf_samplingRate f));
    (set_dpu ro (sf_action f) (sf_plugin f) (sf_mode f), dpu_plan (sf_action f) (sf_plugin f) (sf_mode f));
    (set_opa ro (sf_opa f), opa_plan (sf_opa f));
    (SetParamCmd args, Refuses) ].

(* ------------------------------------------------------------------ *)
(** ** The documents of the code are those of the plans                *)
(* ------------------------------------------------------------------ *)

(** The members of an object, one row at a time. *)
Lemma given_row (b : bool) k v rows ms mine :
  (if b then mine = [(k, v)] else mine = []) -> members_given rows = GObj ms ->
  members_given ((b, (k, v)) :: rows) = GObj (mine ++ ms).
Proof. intros Hm [= <-]. unfold members_given. by destruct b; rewrite Hm. Qed.

Lemma given_value {A} (changed : string -> bool) flag k (f : A -> gojson) v :
  if changed flag then omit_nil k f (if_changed changed flag v) = [(k, f v)]
  else omit_nil k f (if_changed changed flag v) = [].
Proof. unfold if_changed. by destruct (changed flag). Qed.

Lemma given_words (b : bool) k l :
  if b && some_words l then omit_list k GStr (if b then l else []) = [(k, words l)]
  else omit_list k GStr (if b then l else []) = [].
Proof. by destruct b, l. Qed.

Lemma given_last (b : bool) k v mine :
  (if b then mine = [(k, v)] else mine = []) -> members_given [(b, (k, v))] = GObj mine.
Proof. intros Hm. unfold members_given. by destruct b; rewrite Hm. Qed.

Ltac row_given := first [eapply (given_value _) | eapply given_words].
Ltac rows_given :=
  symmetry; repeat (apply given_row; [row_given|]); apply given_last; row_given.


Lemma given_always k v : if true then [(k, v)] = [(k, v)] else [(k, v)] = @nil (string * gojson).
Proof. done. Qed.

Lemma given_int k z :
  if negb (z =? 0)%Z then omit_int k z = [(k, GInt z)] else omit_int k z = [].
Proof. unfold omit_int. by destruct (z =? 0)%Z. Qed.

Lemma given_str k s :
  if negb (is_empty s) then omit_str k s = [(k, GStr s)] else omit_str k s = [].
Proof. unfold omit_str. by destruct (is_empty s). Qed.

Lemma given_bool k (b : bool) : if b then omit_bool k b = [(k, GBool true)] else omit_bool k b = [].
Proof. by destruct b. Qed.

Ltac row_given ::=
  first [apply given_always | eapply (given_value _) | eapply given_words | apply given_int
        | apply given_str | apply given_bool].

Lemma apikey_update changed k :
  ai_api_key_patch_request_json (apiKeyPatch changed k) = members_given (apikey_members changed k).
Proof. rows_given. Qed.

Lemma pii_update changed p :
  pii_config_entry_json (pii_config changed p) = members_given (pii_members changed p).
Proof. rows_given. Qed.

Lemma llamafirewall_update changed l :
  llama_firewall_config_entry_json (llamafirewall_config changed l)
  = members_given (llamafirewall_members changed l).
Proof. rows_given. Qed.

Lemma scanners_update changed l :
  llama_firewall_scanners_entry_json (llamafirewall_scanners changed l)
  = members_given (scanner_members changed l).
Proof. rows_given. Qed.

Lemma patterns_update o :
  piiurl_patterns_entry_json (pii_patterns o) = members_given (patterns_members o).
Proof.
  unfold piiurl_patterns_entry_json, pii_patterns, patterns_members, members_given. cbn [pip_Mode pip_Patterns].
  assert (Hp : (piiurl_pattern_json <$>
              (List.map (fun p => {| piu_Pattern := p; piu_IsExclude := false |}) (pi_includes o)
               ++ List.map (fun p => {| piu_Pattern := p; piu_IsExclude := true |}) (pi_excludes o)))
            = (pattern_json false <$> pi_includes o) ++ (pattern_json true <$> pi_excludes o)).
  { rewrite fmap_app. f_equal; [induction (pi_includes o) as [|x l IH] | induction (pi_excludes o) as [|x l IH]];
      [done | by cbn; f_equal | done | by cbn; f_equal]. }
  rewrite <- Hp. unfold omit_list. by destruct (pi_includes o), (pi_excludes o).
Qed.

Lemma opa_update o : opa_watcher_config_json o = members_given (opa_members o).
Proof. rows_given. Qed.

Lemma dpu_update action plugin mode :
  dpu_debug_action_json {| dpa_Action := action; dpa_Plugin := plugin; dpa_Mode := mode |}
  = members_given (dpu_members action plugin mode).
Proof. rows_given. Qed.

Lemma l4trace_update changed rate :
  l4_trace_enable_request_json {| l4e_SamplingRate := if_changed changed "sampling-rate" rate |}
  = members_given [(changed "sampling-rate", ("sampling_rate", GInt rate))].
Proof. unfold if_changed, members_given. by destruct (changed _). Qed.

Lemma word_listed s l : str_in s l = bool_decide (s ∈ l).
Proof. apply eq_iff_eq_true. by rewrite str_in_true, bool_decide_eq_true. Qed.

(** The headers of a collector. *)
Lemma otlp_headers_ok mp l :
  otlp_headers mp l
  = match mapM (split_first "="%char) l with
    | Some entries => Ok (list_to_map (reverse entries) ∪ mp)
    | None => otlp_headers mp l
    end.
Proof.
  revert mp. induction l as [|h l IH]; intros mp; [by simpl; rewrite (left_id_L ∅ (∪))|].
  cbn [otlp_headers mapM]. destruct (split_first _ h) as [[k v]|]; [|done]. cbn [mbind option_bind].
  rewrite IH. destruct (mapM _ l) as [entries|]; [|done]. cbn [mbind option_bind]. f_equal.
  rewrite reverse_cons, list_to_map_app, <- (assoc_L (∪)). f_equal.
  rewrite (insert_union_singleton_l mp). f_equal.
Qed.

Lemma otlp_headers_none mp l :
  mapM (split_first "="%char) l = None -> exists e, otlp_headers mp l = Err e.
Proof.
  revert mp. induction l as [|h l IH]; intros mp; [done|]. cbn [otlp_headers mapM].
  destruct (split_first _ h) as [[k v]|]; [|by eexists]. cbn [mbind option_bind]. intros Hl.
  apply IH. by destruct (mapM _ l).
Qed.

Lemma otlp_update changed o :
  match headers_of (tr_headers o) with
  | Some headers => exists cfg, trace_config changed o = Ok cfg
                      /\ trace_otlp_config_json cfg = members_given (otlp_members changed o headers)
  | None => exists e, trace_config changed o = Err e
  end.
Proof.
  unfold headers_of, trace_config. destruct (mapM _ (tr_headers o)) as [entries|] eqn:He; cbn [mbind option_bind].
  - assert (Hh : exists mp,
      match tr_headers o with [] => Ok None | l => mp ← otlp_headers ∅ l; Ok (Some mp) end = Ok mp
      /\ omit_map "headers" mp
         = let l := sort_keys (map_to_list (list_to_map (M := gmap string string) (reverse entries))) in
           match l with [] => [] | _ => [("headers", GObj ((fun m : string * string => (m.1, GStr m.2)) <$> l))] end).
    { destruct (tr_headers o) as [|h l]; [injection He as <-; by exists None|].
      eexists. rewrite otlp_headers_ok, He. cbn [mbind result_bind]. split; [done|].
      unfold omit_map. rewrite (right_id_L ∅ (∪)). by destruct (sort_keys _). }
    destruct Hh as (mp & Hmp & Hj). rewrite Hmp. eexists. split; [done|].
    unfold trace_otlp_config_json. cbn [toc_Endpoint toc_Protocol toc_UseTLS toc_TLSSkipVerify toc_Headers].
    rewrite Hj. cbv zeta. set (l := sort_keys _). unfold otlp_members, members_given, if_changed.
    by destruct (changed "otlp-use-tls"), (changed "otlp-tls-skip-verify"), l.
  - destruct (otlp_headers_none ∅ _ He) as [e Hx]. destruct (tr_headers o) as [|h l]; [discriminate He|].
    exists e. by rewrite Hx.
Qed.

(** What an entry [MODEL=TOKENS] says. *)
Definition says_limit (value : string) (l : AITenantModelRateLimit) : Prop :=
  exists m t, split_first "="%char value = Some (m, t)
    /\ trm_Model l = trim_space m /\ trm_Model l <> "" /\ contains (trm_Model l) "|" = false
    /\ atoi (trim_space t) = Some (trm_TokensPerMin l) /\ (0 <= trm_TokensPerMin l)%Z.

Lemma seen_model seen model :
  existsb (fun l => streq (trm_Model l) model) seen = true <-> model ∈ trm_Model <$> seen.
Proof.
  rewrite existsb_exists, list_elem_of_fmap. split; intros (l & H1 & H2); exists l.
  - by rewrite streq_true in H2; rewrite list_elem_of_In.
  - by rewrite list_elem_of_In in H2; rewrite streq_true.
Qed.

Lemma model_limit_ok seen value l :
  model_limit seen value = Ok l <-> says_limit value l /\ trm_Model l ∉ trm_Model <$> seen.
Proof.
  unfold model_limit, says_limit. destruct (split_first "="%char value) as [[m t]|] eqn:Hs; cbn [negb orb].
  2: { split; [done|]. by intros [(? & ? & ? & _) _]. }
  split.
  - intros H. destruct (is_empty (trim_space m)) eqn:Hm; [discriminate H|].
    destruct (is_empty (trim_space t)) eqn:Ht; [discriminate H|].
    cbn [orb] in H. destruct (contains (trim_space m) "|") eqn:Hb; [discriminate H|].
    destruct (existsb _ seen) eqn:Hseen; [discriminate H|].
    destruct (atoi (trim_space t)) as [z|] eqn:Hz; [|discriminate H].
    destruct (Z.ltb_spec z 0); [discriminate H|]. injection H as <-. cbn [trm_Model trm_TokensPerMin].
    rewrite <- seen_model, Hseen. split; [|done]. exists m, t. split_and!; try done.
    intros He. by rewrite He in Hm.
  - intros [(m' & t' & [= <- <-] & Hl & Hne & Hbar & Htok & Hpos) Hseen]. destruct l as [model tokens].
    cbn [trm_Model trm_TokensPerMin] in *. subst model.
    destruct (is_empty (trim_space m)) eqn:Hm; [by apply is_empty_true in Hm|].
    destruct (is_empty (trim_space t)) eqn:Ht; [apply is_empty_true in Ht; by rewrite Ht in Htok|].
    cbn [orb]. rewrite Hbar. rewrite <- seen_model in Hseen. apply not_true_iff_false in Hseen.
    rewrite Hseen, Htok. by destruct (Z.ltb_spec tokens 0); [lia|].
Qed.

Lemma model_limits_ok seen values l :
  model_limits seen values = Ok l
  <-> exists new, l = seen ++ new /\ Forall2 says_limit values new
        /\ NoDup (trm_Model <$> new) /\ Forall (fun m => m ∉ trm_Model <$> seen) (trm_Model <$> new).
Proof.
  revert seen. induction values as [|v values IH]; intros seen; cbn [model_limits].
  - split.
    + intros [= <-]. exists []. rewrite app_nil_r. split_and!; [done|constructor..].
    + intros (new & -> & Hn & _). inversion Hn. by rewrite app_nil_r.
  - split.
    + intros H. destruct (model_limit seen v) as [m|] eqn:Hm; [|done]. cbn [mbind result_bind] in H.
      apply model_limit_ok in Hm as [Hsays Hnew]. apply IH in H as (new & -> & Hn & Hd & Ha).
      exists (m :: new). rewrite <- app_assoc. rewrite fmap_cons. split_and!; [done | by constructor | |].
      * constructor; [|done]. intros Hin. rewrite Forall_forall in Ha. apply (Ha _ Hin).
        rewrite fmap_app. set_solver.
      * constructor; [done|]. eapply Forall_impl; [exact Ha|]. intros x. rewrite fmap_app. set_solver.
    + intros (new & -> & Hn & Hd & Ha). inversion Hn as [|? m ? new' Hsays Hn']; subst.
      rewrite fmap_cons in Hd, Ha. apply NoDup_cons in Hd as [Hm Hd]. apply Forall_cons in Ha as [Hseen Ha].
      rewrite (proj2 (model_limit_ok seen v m)) by done. cbn [mbind result_bind]. apply IH.
      exists new'. rewrite <- app_assoc. split_and!; [done..|].
      rewrite Forall_forall in Ha |- *. intros x Hx. rewrite fmap_app. specialize (Ha x Hx). set_solver.
Qed.


Lemma quota_says value q :
  quota_of value = Some q
  <-> says_limit value {| trm_Model := q.1; trm_TokensPerMin := q.2 |}.
Proof.
  unfold quota_of, says_limit. cbn [trm_Model trm_TokensPerMin]. destruct q as [model n]. cbn [fst snd].
  destruct (split_first _ value) as [[m t]|]; cbn [mbind option_bind];
    [|by split; [|intros (? & ? & ? & _)]].
  destruct (atoi (trim_space t)) as [z|] eqn:Hz; cbn [mbind option_bind].
  - split.
    + destruct (_ && _) eqn:Hb; [|done]. intros [= <- <-].
      apply andb_true_iff in Hb as [[Hm Hbar]%andb_true_iff Hn%Z.leb_le].
      apply bool_decide_eq_true in Hm. apply negb_true_iff in Hbar. exists m, t. by split_and!.
    + intros (m' & t' & [= <- <-] & -> & Hm & Hbar & Ha & Hn).
      rewrite Hz in Ha. injection Ha as ->.
      rewrite bool_decide_true, Hbar by done. apply Z.leb_le in Hn. cbn [negb andb]. by rewrite Hn.
  - split; [done|]. intros (m' & t' & [= <- <-] & _ & _ & _ & Hn & _). congruence.
Qed.

Definition quota_pair (l : AITenantModelRateLimit) : string * Z := (trm_Model l, trm_TokensPerMin l).

Lemma quotas_read values :
  match quotas_of values with
  | Some l => exists limits, parseTenantModelLimits values = Ok limits /\ l = quota_pair <$> limits
  | None => exists e, parseTenantModelLimits values = Err e
  end.
Proof.
  assert (Hiff : forall limits, parseTenantModelLimits values = Ok limits
            <-> Forall2 says_limit values limits /\ NoDup (trm_Model <$> limits)).
  { intros limits. unfold parseTenantModelLimits. rewrite model_limits_ok. split.
    - by intros (new & -> & Hn & Hd & _).
    - intros [Hn Hd]. exists limits. split_and!; [done..|]. by apply Forall_true; set_solver. }
  assert (Hgo : forall limits, mapM quota_of values = Some (quota_pair <$> limits)
            <-> Forall2 says_limit values limits).
  { intros limits. rewrite mapM_Some, Forall2_fmap_r. 
    split; intros Hf; (eapply Forall2_impl; [exact Hf|]); intros v [m n]; apply (quota_says v (m, n)). }
  assert (Hnames : forall limits, (quota_pair <$> limits).*1 = trm_Model <$> limits).
  { intros limits. by rewrite <- list_fmap_compose. }
  unfold quotas_of. destruct (mapM quota_of values) as [l|] eqn:Hl; cbn [mbind option_bind].
  - assert (Hq : exists limits, l = quota_pair <$> limits).
    { exists ((fun q : string * Z => {| trm_Model := q.1; trm_TokensPerMin := q.2 |}) <$> l).
      rewrite <- list_fmap_compose. clear. by induction l as [|[m n] l IH]; [|cbn; f_equal]. }
    destruct Hq as [limits ->]. rewrite Hnames. destruct (bool_decide_reflect (NoDup (trm_Model <$> limits))) as [Hd|Hd].
    + exists limits. split; [|done]. apply Hiff. split; [by apply Hgo | done].
    + destruct (parseTenantModelLimits values) as [other|e] eqn:Hp; [|by eexists].
      exfalso. destruct (proj1 (Hiff other) eq_refl) as [Hf Hn]. apply Hd. apply Hgo in Hf. injection Hf as Hf.
      by rewrite <- Hnames, Hf, Hnames.
  - destruct (parseTenantModelLimits values) as [other|e] eqn:Hp; [|by eexists].
    exfalso. destruct (proj1 (Hiff other) eq_refl) as [Hf _]. apply Hgo in Hf. congruence.
Qed.

Lemma ratelimit_update changed o limits :
  ai_tenant_rate_limit_mod_json (rate_limit_request changed o limits)
  = members_given (ratelimit_members changed o (quota_pair <$> limits)).
Proof.
  symmetry. apply given_row; [apply given_always|]. do 3 (apply given_row; [apply given_int|]).
  apply given_row.
  - destruct limits as [|l limits]; [done|]. cbn [fmap list_fmap omit_list]. 
    unfold omit_list. cbn [fmap list_fmap]. do 3 f_equal. by rewrite <- list_fmap_compose.
  - do 2 (apply given_row; [apply (given_value _)|]). apply given_last, (given_value _).
Qed.

(* ------------------------------------------------------------------ *)
(** ** The commands follow their plans                                 *)
(* ------------------------------------------------------------------ *)

Section Refinement.
Context `{GoLib}.
Variable ro : RESTOptions.
Variable changed : string -> bool.

(** The client is there; the document is sent, or it cannot be encoded. *)
Lemma reported c meth api doc failure send op d :
  rc_Options c = ro ->
  send = with_body doc (fun b => http_do (build_request c meth (GetUrlString (api c)) (Some b))) ->
  ops_satisfy not_http d ->
  refines ro (answered failure send (managed_answer [200; 204]%Z op d)) (managed meth api doc).
Proof.
  intros Hc -> Hd. unfold managed, with_body, marshal. destruct (raw_ok doc).
  - apply (refines_answered ro (carried meth false api doc) c); [done..|]. by apply ends_managed.
  - intros w h. unfold answered. apply wp_bind, wp_ret. apply wp_ret. split; [done|]. by eexists.
Qed.

Lemma ends_verbatim op done_ a :
  as_ok a = [200; 204]%Z -> ops_satisfy not_http done_ -> ends a (verbatim_answer op done_).
Proof.
  intros Ha Hd resp w h. unfold verbatim_answer, verdict. rewrite Ha.
  destruct (status_in [200; 204]%Z (hr_status resp)); cbn [negb].
  - apply ends_confirmed; [done|]. by intros t Ht.
  - apply wp_ret. split; [done|]. eexists. split; [done|]. left. apply status_code_failure.
Qed.

(** A document that is gated when a flag of priorities was given. *)
Lemma gated_if_refines feature op b meth api doc failure k
    (send : LoxiClient -> IO http_result) :
  raw_ok doc = true ->
  (forall c, send c
    = with_body doc (fun b => http_do (build_request c meth (GetUrlString (api c)) (Some b)))) ->
  ends (carried meth b api doc) k ->
  refines ro (gated_if ro b feature op (client ← NewLoxiClient ro; answered failure (send client) k))
    (Asks (carried meth b api doc)).
Proof.
  intros Hdoc Hs Hk.
  assert (Hm : forall w h, wp (client ← NewLoxiClient ro; answered failure (send client) k) w h
                 (fun out t => sends ro (carried meth b api doc) out (https t))).
  { intros w h. apply wp_client. intros c t Hc Ht _. rewrite Hs, (with_body_run _ (encode doc))
      by (unfold marshal; by rewrite Hdoc).
    eapply wp_mono; [by apply (answered_wp ro (carried meth b api doc) c)|].
    intros out t'. by rewrite https_app, Ht. }
  unfold gated_if. destruct b; [by apply refines_gated | exact Hm].
Qed.

Lemma bad_class_spec {m p} class msg :
  refines ro m p ->
  refines ro (if bad_class changed class then failed_with msg else m) (known_class changed class p).
Proof.
  intros Hm. unfold bad_class, known_class, IsPriorityClass, class_words. rewrite <- word_listed.
  unfold str_in. cbn [existsb].
  replace (streq class "") with (is_empty class) by (by destruct class).
  rewrite negb_orb, andb_assoc. destruct (_ && _ && _); [by apply refines_refusal | done].
Qed.

Lemma priority_flags_needed : needs_priorities changed = priority_flags changed.
Proof. unfold needs_priorities, priority_flags. cbn [existsb]. by rewrite orb_false_r, orb_assoc. Qed.

(** The client is made; then the request of the action that was chosen. *)
Ltac post_it :=
  lazymatch goal with
  | |- refines _ (fail_with _) _ => by apply refines_refusal
  | |- refines _ (failed_with _) _ => by apply refines_refusal
  | |- _ => eapply reported; [eassumption | reflexivity | apply say_quiet]
  end.

Lemma set_metrics_refines enable disable :
  refines ro (set_metrics ro enable disable) (metrics_plan enable disable).
Proof.
  destruct enable, disable; try (by apply refines_refusal); apply refines_client; intros c Hc.
  - cbn [metrics_plan the_one List.filter fst]. post_it.
  - eapply (refines_answered ro {| as_method := "DELETE"; as_api := at_path "config/metrics"; as_body := None;
                       as_ok := [200; 204]%Z; as_feature := false |} c); [done..|].
    apply ends_managed; [done | apply say_quiet].
Qed.

Lemma set_gpu_refines enable disable cleanup hours :
  refines ro (set_gpu ro changed enable disable cleanup hours)
    (gpu_plan changed enable disable cleanup hours).
Proof.
  destruct enable, disable, cleanup; try (by apply refines_refusal);
    apply refines_client; intros c Hc; cbn [the_one gpu_plan List.filter fst]; try post_it.
  eapply reported; [exact Hc | | apply say_quiet]. unfold Create. f_equal. by destruct (changed _).
Qed.

Lemma set_pii_refines o : refines ro (set_pii ro changed o) (pii_plan changed o).
Proof.
  unfold set_pii, pii_plan. rewrite <- pii_update, <- patterns_update.
  destruct (pi_enable o), (pi_disable o), (pi_configure o), (pi_urlPatterns o);
    try (by apply refines_refusal);
    apply refines_client; intros c Hc; cbn [the_one List.filter fst orb]; try post_it.
  destruct (is_empty (pi_urlMode o)); post_it.
Qed.

Lemma set_llamafirewall_refines o :
  refines ro (set_llamafirewall ro changed o) (llamafirewall_plan changed o).
Proof.
  unfold set_llamafirewall, llamafirewall_plan. rewrite <- llamafirewall_update, <- scanners_update.
  destruct (lf_enable o), (lf_disable o), (lf_configure o), (lf_scanners o), (lf_health o);
    try (by apply refines_refusal);
    apply refines_client; intros c Hc; cbn [the_one List.filter fst orb]; post_it.
Qed.

Lemma set_trace_refines o : refines ro (set_trace ro changed o) (trace_plan changed o).
Proof.
  unfold set_trace, trace_plan.
  destruct (tr_enable o), (tr_disable o), (tr_otlp o); try (by apply refines_refusal);
    apply refines_client; intros c Hc; cbn [the_one List.filter fst orb]; try post_it.
  destruct (_ || _); [post_it|]. assert (Hh := otlp_update changed o).
  destruct (headers_of _) as [headers|]; [destruct Hh as (cfg & -> & <-) | destruct Hh as (e & ->)]; post_it.
Qed.

Lemma set_l4trace_refines enable disable resetStats rate :
  refines ro (set_l4trace ro changed enable disable resetStats rate)
    (l4trace_plan changed enable disable resetStats rate).
Proof.
  unfold set_l4trace, l4trace_plan. rewrite <- l4trace_update. unfold if_changed.
  destruct enable, disable, resetStats, (changed "sampling-rate");
    try (by apply refines_refusal);
    apply refines_client; intros c Hc; cbn [the_one List.filter fst orb negb andb]; post_it.
Qed.

Lemma set_dpu_refines action plugin mode :
  refines ro (set_dpu ro action plugin mode) (dpu_plan action plugin mode).
Proof.
  unfold set_dpu, dpu_plan, dpu_action. rewrite <- dpu_update.
  replace (bool_decide (mode ∈ ["open"; "close"])) with (str_in mode ["open"; "close"]) by apply word_listed. destruct (streq action "unregister") eqn:Hu; cbn [andb].
  - apply streq_true in Hu as ->. cbn [streq andb]. rewrite orb_false_r.
    destruct (is_empty plugin); [by apply refines_refusal|].
    apply refines_client. intros c Hc. post_it.
  - destruct (streq action "cb_force"); [|by apply refines_refusal]. cbn [orb andb].
    destruct (str_in mode _); [|by apply refines_refusal]. apply refines_client. intros c Hc. post_it.
Qed.

Lemma set_opa_refines cfg :
  refines ro (set_opa ro cfg) (opa_plan cfg).
Proof.
  unfold set_opa, opa_plan. rewrite <- opa_update. destruct (is_empty _); [by apply refines_refusal|].
  apply refines_client. intros c Hc. post_it.
Qed.

Lemma set_ratelimit_refines o : refines ro (set_ratelimit ro changed o) (ratelimit_plan changed o).
Proof.
  unfold set_ratelimit, ratelimit_plan. destruct (is_empty (sr_TenantID o)); [by apply refines_refusal|].
  destruct (contains _ _); [by apply refines_refusal|]. cbn [orb forallb].
  rewrite !Z.ltb_antisym, andb_true_r, !negb_andb, orb_assoc.
  destruct (_ || _ || _); [by apply refines_refusal|].
  assert (Hq := quotas_read (sr_ModelLimits o)). destruct (quotas_of _) as [l|];
    [destruct Hq as (limits & -> & ->) | destruct Hq as (e & ->); by apply refines_refusal].
  rewrite <- ratelimit_update, priority_flags_needed.
  apply bad_class_spec, gated_if_refines; [encodable; by apply all_raw_ok | done | by apply ends_verbatim, say_quiet].
Qed.

Lemma set_apikey_refines o args : refines ro (set_apikey ro changed o args) (apikey_plan changed o args).
Proof.
  unfold set_apikey, apikey_plan. destruct args as [|key [|x args]]; try by apply refines_refusal.
  change [_; _; _; _; _; _; _; _] with setAPIKeyFlags. destruct (negb _); [by apply refines_refusal|].
  rewrite <- apikey_update, priority_flags_needed. apply bad_class_spec, gated_if_refines; [encodable; by apply all_raw_ok | done | by apply ends_verbatim, say_quiet].
Qed.

Lemma set_loglevel_refines args :
  refines ro (set_loglevel ro args) (posting "config/params" (loglevel_doc args)).
Proof.
  unfold set_loglevel, ReadSetLogLevelOptions, loglevel_doc, IsValidLogLevel.
  destruct args as [|level [|x args]]; try by apply refines_refusal.
  rewrite word_listed. change (level ∈ [_; _; _; _; _; _; _; _; _]) with (level ∈ level_words).
  destruct (bool_decide _); [|by apply refines_refusal].
  intros w h. by apply api_call_wp; [..|apply ends_resource].
Qed.

Lemma set_bfd_refines o args :
  refines ro (set_bfd ro o args) (posting "config/bfd" (bfd_doc o args)).
Proof.
  unfold set_bfd, ReadSetBfdOptions, bfd_doc.
  destruct args as [|ip [|x args]]; try by apply refines_refusal.
  destruct (is_ip ip); [|by apply refines_refusal].
  intros w h. apply api_call_wp; [done | done | encodable | by apply ends_resource].
Qed.

End Refinement.

(** C31: [set log-level], [bfd], [ratelimit], [apikey], [metrics], [gpu], [pii],
    [llamafirewall], [trace], [l4trace], [dpu] and [opa], and [set] itself, keep
    to their plans.  The commands that take an action do what exactly one of their
    actions says, and refuse none or several; what is read of the arguments and
    flags is refused as INVALID_ARGUMENT without a request; a document that cannot
    be encoded (a threshold that is not a number) is not sent either and the
    command ends UNAVAILABLE; everything else becomes one request, with the members
    that the flags give and no others.  When [ratelimit] or [apikey] is given a
    flag of priorities, the gate of a feature comes first and its refusal is the
    end.  The command succeeds exactly when the gateway confirms the request: with
    200 for [log-level] and [bfd], with 200 or 204 for the others. *)
Theorem set_commands_refine `{GoLib} ro changed f args :
  Forall (fun p => refines ro p.1 p.2) (set_commands ro changed f args).
Proof.
  repeat apply Forall_cons_2; try apply Forall_nil_2; cbn [fst snd];
    auto using set_loglevel_refines, set_bfd_refines, set_ratelimit_refines, set_apikey_refines,
      set_metrics_refines, set_gpu_refines, set_pii_refines, set_llamafirewall_refines,
      set_trace_refines, set_l4trace_refines, set_dpu_refines, set_opa_refines.
  by apply refines_refusal.
Qed.
