(* ===== verification/AiProps.v ===== *)
(** * What the create commands of the services ask, send and print

    The five create commands of the services keep their contracts; what an API
    key is read from, when it is sent and what of the answer is printed. *)
From S2P Require Import Prelude GoStrings GoNet Json JsonPrint Floats Fields World Errors Exitcode.
From S2P Require Import Rest Requests FeatureGate Commands Plans NetModel AiModel.
From S2P Require Import CreateProps SetCmds SetProps AiCmds.

(* ------------------------------------------------------------------ *)
(** ** What is printed                                                 *)
(* ------------------------------------------------------------------ *)

Lemma require_prints_nothing `{GoLib} ro feature op cache :
  ops_satisfy not_stdout (Require ro feature op cache).
Proof.
  assert (Hread : ops_satisfy not_stdout (read_version ro cache)).
  { unfold read_version, Get, GET, http_do.
    repeat first [ ops_step | apply ops_perform; done
                 | eapply ops_mono; [|apply client_ops]; by intros [] ]. }
  unfold Require, write_err. repeat first [ops_step | apply Hread | apply ops_perform; done].
Qed.

(** Texts are printed up to the first that cannot be written; that error is the
    command's. *)
Definition prints (texts : list string) (out : outcome) (l : list string) : Prop :=
  out = Returns None /\ l = texts
  \/ (exists e, out = Returns (Some (EText e))) /\ l `prefix_of` texts.

Lemma print_texts_wp texts w h :
  wp (print_texts texts) w h (fun out t => https t = [] /\ prints texts out (printed t)).
Proof.
  revert h. induction texts as [|s texts IH]; intros h.
  - apply wp_ret. split; [done|]. by left.
  - cbn [print_texts]. unfold write_out. wp_op. intros [e|] _.
    + apply wp_ret. split; [done|]. right. split; [by exists e|]. by exists texts.
    + eapply wp_mono; [apply IH|]. intros out t [Ht Hp]. split; [done|].
      change (printed ([Ev (OpStdout s) None] ++ t)) with ([s] ++ printed t).
      destruct Hp as [[-> ->]|[He Hpre]]; [by left|]. right. split; [done|]. by apply prefix_cons.
Qed.

Lemma streq_decided s k : streq s k = bool_decide (s = k).
Proof. apply Bool.eq_iff_eq_true. by rewrite bool_decide_eq_true, streq_true. Qed.

Lemma confirmed_status status :
  status_in [200; 201]%Z status = bool_decide (status ∈ [200; 201]%Z).
Proof.
  apply Bool.eq_iff_eq_true. unfold status_in. cbn [existsb].
  rewrite bool_decide_eq_true, !orb_true_iff, !Z.eqb_eq. set_solver.
Qed.

(* ------------------------------------------------------------------ *)
(** ** Reading of an API key                                           *)
(* ------------------------------------------------------------------ *)

(** The keys that can be imported: what is left of the text without the space
    around it has 16 to 512 characters, all of them printable ASCII without
    space. *)
Definition key_fits (key : string) : bool :=
  (16 <=? slen key)%Z && (slen key <=? 512)%Z
  && forallb (fun a => (33 <=? zbyte a)%Z && (zbyte a <=? 126)%Z) (bytes key).

Lemma imported_key_fits text :
  if key_fits (trim_space text) then imported_key text = Ok (trim_space text)
  else exists e, imported_key text = Err e /\ ce_Code e = InvalidArgument.
Proof.
  unfold imported_key, key_fits, minImportedAPIKeyLength, maxImportedAPIKeyLength, in_range.
  rewrite !Z.leb_antisym. destruct (_ <? 16)%Z; cbn [negb orb andb]; [by eexists|].
  destruct (512 <? _)%Z; cbn [negb orb andb]; [by eexists|].
  replace (forallb (fun a => negb (zbyte a <? 33)%Z && negb (126 <? zbyte a)%Z) (bytes (trim_space text)))
    with (forallb (fun a => (33 <=? zbyte a)%Z && (zbyte a <=? 126)%Z) (bytes (trim_space text))).
  - destruct (forallb _ _); cbn [negb]; [done | by eexists].
  - induction (bytes (trim_space text)) as [|a l IH]; [done|]. cbn [forallb]. by rewrite IH, !Z.leb_antisym.
Qed.

Lemma imported_key_accepted text key :
  imported_key text = Ok key
  <-> key = trim_space text /\ (16 <= slen key <= 512)%Z
      /\ Forall (fun a => (33 <= zbyte a <= 126)%Z) (bytes key).
Proof.
  unfold imported_key, minImportedAPIKeyLength, maxImportedAPIKeyLength.
  assert (Hp : forallb (fun a => in_range 33 126 (zbyte a)) (bytes (trim_space text)) = true
               <-> Forall (fun a => (33 <= zbyte a <= 126)%Z) (bytes (trim_space text))).
  { rewrite forallb_forall, Forall_forall. unfold in_range.
    split; intros Hall a; specialize (Hall a); rewrite list_elem_of_In, ?andb_true_iff, ?Z.leb_le in *;
      naive_solver. }
  destruct (Z.ltb_spec (slen (trim_space text)) 16); cbn [orb].
  { split; [done|]. intros (-> & ? & _). lia. }
  destruct (Z.ltb_spec 512 (slen (trim_space text))).
  { split; [done|]. intros (-> & ? & _). lia. }
  destruct (forallb _ _); cbn [negb].
  - split; [intros [= <-]; split_and!; [done | lia | lia | by apply Hp]|]. by intros (-> & _).
  - split; [done|]. intros (-> & _ & Hall). by apply Hp in Hall.
Qed.

Definition key_limit : Z := 514.

(** What the file or the standard input holds, as far as it is read; no text when
    it could not be opened or read. *)
Definition key_text (o : CreateAPIKeyOptions) (raw : option string) (t : trace) : Prop :=
  if is_empty (ca_APIKeyFile o) then
    match raw with
    | Some text => Ev (OpReadStdin key_limit) (Ok text) ∈ t
    | None => exists e, Ev (OpReadStdin key_limit) (Err e) ∈ t
    end
  else
    match raw with
    | Some text => Ev (OpReadPrefix (ca_APIKeyFile o) key_limit) (Ok (Ok text)) ∈ t
    | None =>
        exists e, Ev (OpReadPrefix (ca_APIKeyFile o) key_limit) (Err e) ∈ t
                  \/ Ev (OpReadPrefix (ca_APIKeyFile o) key_limit) (Ok (Err e)) ∈ t
    end.

(** The key of a command: none when no source is named, else what its source
    holds; or the status of what went wrong. *)
Definition key_read (o : CreateAPIKeyOptions) (r : result Z (option string)) (t : trace) : Prop :=
  match is_empty (ca_APIKeyFile o), ca_APIKeyStdin o with
  | false, true => r = Err InvalidArgument
  | true, false => r = Ok None
  | _, _ =>
      exists raw, key_text o raw t
        /\ r = match raw with
               | None => Err Precondition
               | Some text =>
                   if key_fits (trim_space text) then Ok (Some (trim_space text)) else Err InvalidArgument
               end
  end.

(** The reading of the code, in those terms. *)
Definition as_read (r : result CLIError (string * bool)) (k : result Z (option string)) : Prop :=
  match k with
  | Err code => exists e, r = Err e /\ ce_Code e = code
  | Ok None => r = Ok ("", false)
  | Ok (Some key) => r = Ok (key, true) /\ key <> ""
  end.

Lemma fits_some key : key_fits key = true -> key <> "".
Proof. by intros Hk ->. Qed.

Lemma text_as_read (text : string) :
  as_read (key ← imported_key text; Ok (key, true))
    (if key_fits (trim_space text) then Ok (Some (trim_space text)) else Err InvalidArgument).
Proof.
  assert (Hk := imported_key_fits text). destruct (key_fits _) eqn:Hf; cbn [as_read].
  - rewrite Hk. split; [done | by apply fits_some].
  - destruct Hk as (e & -> & He). by exists e.
Qed.

Lemma read_key_wp o w h :
  wp (readImportedAPIKey o) w h (fun r t => https t = [] /\ printed t = []
    /\ exists k, as_read r k /\ key_read o k t).
Proof.
  unfold readImportedAPIKey, key_read. destruct (is_empty (ca_APIKeyFile o)) eqn:Hf, (ca_APIKeyStdin o);
    cbn [negb andb].
  - wp_op. intros r _. apply wp_ret. split_and!; [done..|]. destruct r as [text|e].
    + eexists. split; [apply text_as_read|]. exists (Some text). unfold key_text. rewrite Hf. set_solver.
    + exists (Err Precondition). split; [by eexists|]. exists None. unfold key_text. rewrite Hf.
      split; [exists e; set_solver | done].
  - apply wp_ret. split_and!; [done..|]. by exists (Ok None).
  - apply wp_ret. split_and!; [done..|]. exists (Err InvalidArgument). split; [by eexists | done].
  - wp_op. intros [[text|e]|e] _; apply wp_ret; (split_and!; [done..|]).
    + eexists. split; [apply text_as_read|]. exists (Some text). unfold key_text. rewrite Hf. set_solver.
    + exists (Err Precondition). split; [by eexists|]. exists None. unfold key_text. rewrite Hf.
      split; [exists e; right; set_solver | done].
    + exists (Err Precondition). split; [by eexists|]. exists None. unfold key_text. rewrite Hf.
      split; [exists e; left; set_solver | done].
Qed.

Lemma key_text_app o raw t t1 t2 : key_text o raw t -> key_text o raw (t1 ++ t ++ t2).
Proof.
  unfold key_text. destruct (is_empty _), raw as [text|]; set_solver.
Qed.

Lemma key_read_app o r t t1 t2 : key_read o r t -> key_read o r (t1 ++ t ++ t2).
Proof.
  unfold key_read. destruct (is_empty _), (ca_APIKeyStdin o); try done;
    intros (raw & Hraw & Hr); exists raw; split; auto using key_text_app.
Qed.

(* ------------------------------------------------------------------ *)
(** ** The creation of an API key                                      *)
(* ------------------------------------------------------------------ *)

(** The members of the request: the key is one of them exactly when it was read. *)
Definition apikey_create_members (o : CreateAPIKeyOptions) (key : option string)
    : list (bool * (string * gojson)) :=
  [(true, ("tenant_id", GStr (ca_TenantID o)));
   (negb (is_empty (ca_Name o)), ("name", GStr (ca_Name o)));
   (bool_decide (key <> None), ("api_key", GStr (default "" key)));
   (some_words (ca_AllowedModels o), ("allowed_models", words (ca_AllowedModels o)));
   (negb (ca_Rps o =? 0)%Z, ("rate_limit_rps", GInt (ca_Rps o)));
   (negb (ca_Burst o =? 0)%Z, ("burst_size", GInt (ca_Burst o)));
   (negb (ca_TokensPerMin o =? 0)%Z, ("tokens_per_min", GInt (ca_TokensPerMin o)));
   (negb (is_empty (ca_ExpiresAt o)), ("expires_at", GStr (ca_ExpiresAt o)));
   (true, ("enabled", GBool (ca_Enabled o)));
   (negb (is_empty (ca_PriorityClass o)), ("priority_class", GStr (ca_PriorityClass o)));
   (negb (is_empty (ca_DefaultObjective o)), ("default_objective", GStr (ca_DefaultObjective o)));
   (some_words (ca_AllowedObjectives o), ("allowed_objectives", words (ca_AllowedObjectives o)));
   (negb (is_empty (ca_ClientOpID o)), ("client_op_id", GStr (ca_ClientOpID o)))].

(** What is printed of a key that was created, with its raw key, and of one that
    was imported, without. *)
Definition key_shown (as_json : bool) (raw : option string) (id : string) (reused : bool) : list string :=
  if as_json then
    [default "" (marshal_indent_by "    " (members_given
       [(bool_decide (default "" raw <> ""), ("raw_key", GStr (default "" raw)));
        (true, ("key_id", GStr id)); (true, ("reused", GBool reused))])) +:+ nl]
  else match raw with
  | None =>
      sprintf ["API key imported."; nl; "  key_id : "; id; nl]
      :: (if reused then [sprintf ["  reused : true"; nl]] else [])
  | Some raw =>
      if reused
      then [sprintf ["API key reused: an earlier create with this client op ID made it."; nl;
                     "  key_id : "; id; nl; "  raw_key: "; raw; nl;
                     "The earlier secret no longer authenticates. Store the raw_key now - it will not be ";
                     "shown again."; nl]]
      else [sprintf ["API key created."; nl; "  key_id : "; id; nl; "  raw_key: "; raw; nl;
                     "Store the raw_key now - it will not be shown again."; nl]]
  end.

(** The answer to a creation. *)
Definition key_answered (ro : RESTOptions) (key : option string) (resp : http_response) (out : outcome)
    (texts : list string) : Prop :=
  if bool_decide (hr_status resp ∈ [200; 201]%Z) then
    match unmarshal AIApiKeyCreateResponse (hr_body resp) with
    | Some r =>
        prints (key_shown (bool_decide (ro_PrintOption ro = "json"))
                  (if bool_decide (key = None) then Some (akr_RawKey r) else None)
                  (akr_KeyID r) (akr_Reused r)) out texts
    | None => texts = [] /\ fails_as ContractMismatch out
    end
  else texts = [] /\ fails_as (failure_of (hr_status resp)) out.

(** What is read decides between an error and one request with the key. *)
Definition key_exchange (ro : RESTOptions) (o : CreateAPIKeyOptions) (r : result Z (option string))
    (out : outcome) (sent : list (http_request * http_result)) (texts : list string) : Prop :=
  match r with
  | Err code => sent = [] /\ texts = [] /\ fails_as code out
  | Ok key =>
      exists c ans, rc_Options c = ro
        /\ sent = [(build_request c "POST" (GetUrlString (at_path "config/ai/apikey" c))
                      (Some (encode (members_given (apikey_create_members o key)))), ans)]
        /\ match ans with
           | Err _ => texts = [] /\ fails_as Unavailable out
           | Ok resp => key_answered ro key resp out texts
           end
  end.

Definition key_priorities (o : CreateAPIKeyOptions) : bool :=
  negb (is_empty (ca_PriorityClass o)) || negb (is_empty (ca_DefaultObjective o))
  || some_words (ca_AllowedObjectives o).

Lemma given_list k l : if some_words l then omit_list k GStr l = [(k, words l)] else omit_list k GStr l = [].
Proof. by destruct l. Qed.

Lemma given_true k (b : bool) : if b then omit_bool k b = [(k, GBool true)] else omit_bool k b = [].
Proof. by destruct b. Qed.

Ltac member_given :=
  first [apply given_always | apply given_str | apply given_list | apply given_int | apply given_true].
Lemma given_both x y rows ms :
  members_given rows = GObj ms -> members_given ((true, x) :: (true, y) :: rows) = GObj ([x; y] ++ ms).
Proof. intros [= <-]. done. Qed.

Ltac members_written :=
  symmetry; try apply given_both; repeat (apply given_row; [member_given|]); apply given_last; member_given.

Lemma apikey_create_doc o (key : option string) :
  key <> Some "" ->
  ai_api_key_create_request_json (api_key_request o (default "" key))
  = members_given (apikey_create_members o key).
Proof.
  intros Hk. symmetry. do 2 (apply given_row; [member_given|]). apply given_row.
  - cbn [akc_APIKey api_key_request]. unfold omit_str. destruct key as [[|a key]|]; [done|done|done].
  - repeat (apply given_row; [member_given|]). apply given_last; member_given.
Qed.

Lemma key_response_doc id reused raw :
  ai_api_key_create_response_json {| akr_RawKey := raw; akr_KeyID := id; akr_Reused := reused |}
  = members_given [(bool_decide (raw <> ""), ("raw_key", GStr raw));
                   (true, ("key_id", GStr id)); (true, ("reused", GBool reused))].
Proof. by destruct raw. Qed.

Lemma result_shown r (key : option string) printOption :
  create_result_text r (negb (bool_decide (key = None))) printOption
  = key_shown (bool_decide (printOption = "json"))
      (if bool_decide (key = None) then Some (akr_RawKey r) else None) (akr_KeyID r) (akr_Reused r).
Proof.
  unfold create_result_text, key_shown. rewrite <- streq_decided.
  destruct r as [raw id reused]. destruct key as [key|]; cbn [bool_decide negb];
    [rewrite bool_decide_false by done | rewrite bool_decide_true by done]; cbn [negb];
    (destruct (streq printOption "json"); [|done]); unfold without_raw_key;
    cbn [akr_RawKey akr_KeyID akr_Reused default]; by rewrite key_response_doc.
Qed.

Section Keys.
Context `{GoLib}.
Variable ro : RESTOptions.

Lemma apikey_answer_wp o key resp w h :
  wp (apikey_answer ro o (negb (bool_decide (key = None))) resp) w h (fun out t =>
    https t = [] /\ key_answered ro key resp out (printed t)).
Proof.
  unfold apikey_answer, key_answered.
  rewrite <- confirmed_status.
  destruct (status_in _ _); cbn [negb].
  - destruct (unmarshal _ _) as [r|].
    + rewrite <- result_shown. apply print_texts_wp.
    + apply wp_ret. split_and!; [done..|]. by eexists.
  - apply wp_ret. split_and!; [done..|]. by apply fails_with_status.
Qed.

(** From the reading of the key to the end of the command. *)
Definition with_key (o : CreateAPIKeyOptions) : IO outcome :=
  r ← readImportedAPIKey o;
  match (r : result CLIError (string * bool)) with
  | Err e => fail_with e
  | Ok (importedKey, imported) =>
      client ← NewLoxiClient ro;
      answered (colon "create apikey")
        (Create (Client.AIApiKey client)
           (ai_api_key_create_request_json (api_key_request o importedKey)))
        (apikey_answer ro o imported)
  end.

Lemma with_key_wp o w h :
  wp (with_key o) w h (fun out t =>
    exists k, key_read o k t /\ key_exchange ro o k out (https t) (printed t)).
Proof.
  unfold with_key. apply wp_bind. eapply wp_mono; [apply read_key_wp|].
  intros r t1 (Hh1 & Hp1 & k & Hk & Hr). destruct k as [key|code].
  2: { destruct Hk as (e & -> & <-). apply wp_ret. rewrite app_nil_r. exists (Err (ce_Code e)). rewrite Hh1, Hp1.
       split; [done|]. unfold key_exchange. split_and!; [done..|]. apply fails_with_code. }
  assert (Hd : r = Ok (default "" key, negb (bool_decide (key = None))) /\ key <> Some "").
  { destruct key as [key|]; cbn [as_read default] in *.
    - destruct Hk as [-> Hne]. rewrite bool_decide_false by done. split; [done | congruence].
    - by rewrite Hk, bool_decide_true. }
  destruct Hd as [-> Hne]. rewrite (apikey_create_doc o key Hne).
  apply wp_client. intros c t2 Hc Hh2 Hp2. apply client_prints_nothing in Hp2.
  unfold Create. rewrite (with_body_run _ (encode (members_given (apikey_create_members o key)))).
  2: { unfold marshal. replace (raw_ok _) with true; [done|]. symmetry.
       rewrite <- (apikey_create_doc o key Hne). encodable; by apply all_raw_ok. }
  unfold POST, answered. apply wp_bind, wp_http. intros [resp|e].
  - eapply wp_mono; [apply apikey_answer_wp|]. intros out t4 [Hh4 Ha].
    exists (Ok key). split.
    { change t1 with ([] ++ t1). rewrite <- app_assoc. by apply key_read_app. }
    rewrite !https_app, !printed_app, Hh1, Hh2, Hh4, Hp1, Hp2. by exists c, (Ok resp).
  - apply wp_ret. exists (Ok key). split.
    { change t1 with ([] ++ t1). rewrite <- app_assoc. by apply key_read_app. }
    rewrite !https_app, !printed_app, Hh1, Hh2, Hp1, Hp2. exists c, (Err e).
    split_and!; [done..|]. by eexists.
Qed.

End Keys.

(** C32: [create apikey].  Without a tenant or with an unknown class of priority
    nothing is sent.  Otherwise the gate of a feature comes first when a flag of
    priorities was given, and its refusal is the end.  Then the key is read from the
    one source that was named: two sources, or a text that is no key, are refused as
    INVALID_ARGUMENT, and a source that cannot be read as PRECONDITION, before
    anything more is sent.  Then one POST has the members that the flags give and, as
    its [api_key], exactly the key that was read.  Success needs a 200 or a 201 with
    a document that decodes.  Of a key that was made by the gateway the raw key is
    printed; of one that was imported what is printed has no raw key, whatever the
    gateway answers. *)
Theorem create_apikey_exchange `{GoLib} ro o w h :
  wp (create_apikey ro o) w h (fun out t =>
    let asks sent := exists k, key_read o k t /\ key_exchange ro o k out sent (printed t) in
    if is_empty (ca_TenantID o) || negb (bool_decide (ca_PriorityClass o ∈ class_words))
    then https t = [] /\ printed t = [] /\ fails_as InvalidArgument out
    else if key_priorities o then behind_gate ro out (https t) asks else asks (https t)).
Proof.
  change (create_apikey ro o) with
    (if is_empty (ca_TenantID o) then fail_with (Usagef "--tenant-id is required")
     else if negb (is_empty (ca_PriorityClass o)) && negb (IsPriorityClass (ca_PriorityClass o))
     then failed_with ("--priority-class must be one of " +:+ join "|" PriorityClasses)
     else gated_if ro (key_priorities o) Objectives "create apikey" (with_key ro o)).
  rewrite <- word_listed.
  replace (negb (str_in (ca_PriorityClass o) class_words))
    with (negb (is_empty (ca_PriorityClass o)) && negb (IsPriorityClass (ca_PriorityClass o))).
  2: { unfold str_in, IsPriorityClass. cbn [existsb class_words]. rewrite negb_orb. by destruct (ca_PriorityClass o). }
  destruct (is_empty (ca_TenantID o)); cbn [orb].
  { apply wp_ret. split_and!; [done..|]. by eexists. }
  destruct (_ && _); [apply wp_ret; split_and!; [done..|]; by eexists|].
  unfold gated_if, gated. destruct (key_priorities o); [|apply with_key_wp].
  apply wp_bind. assert (Hp := require_prints_nothing ro Objectives "create apikey" ∅ w h).
  assert (Hr := require_wp ro Objectives "create apikey" w h). unfold wp in Hr.
  rewrite wp_value. intros [gate cache] t1 Ht1. rewrite Ht1 in Hr, Hp. apply printed_none in Hp.
  cbn [fst snd] in Hp, Hr. destruct Hr as (c & r & Hc & Hs & Hg).
  destruct (admitted r) eqn:Ha.
  - rewrite Hg. eapply wp_mono; [apply with_key_wp|]. intros out t (k & Hk & He). exists c, r, (https t).
    rewrite https_app, Hs, Ha. split_and!; [done..|]. exists k. rewrite printed_app, Hp. split; [|done].
    rewrite <- (app_nil_r t). by apply key_read_app.
  - destruct Hg as (e & -> & He). apply wp_ret. rewrite app_nil_r. exists c, r, []. rewrite Ha.
    split_and!; [done..|]. by exists e.
Qed.

(* ------------------------------------------------------------------ *)
(** ** Certificates                                                    *)
(* ------------------------------------------------------------------ *)

(** What is read of a file that is named, and of one that is not. *)
Definition pem_read (path pem : string) (t : trace) : Prop :=
  if is_empty path then pem = "" else Ev (OpReadFile path) (Ok pem) ∈ t.

(** A file that is named and cannot be read. *)
Definition pem_unread (o : CreateCertOptions) (t : trace) : Prop :=
  exists path e, path ∈ [cc_CertFile o; cc_KeyFile o; cc_ChainFile o] /\ path <> ""
    /\ Ev (OpReadFile path) (Err e) ∈ t.

Lemma pem_read_app path pem t t1 t2 : pem_read path pem t -> pem_read path pem (t1 ++ t ++ t2).
Proof. unfold pem_read. destruct (is_empty path); set_solver. Qed.

Definition cert_post (doc : gojson) : asked := one_post [200; 201]%Z Client.Cert doc.

Section Certificates.
Variable ro : RESTOptions.
Context `{GoLib}.

Lemma read_pem_wp flag path w h :
  wp (read_pem flag path) w h (fun r t =>
    https t = []
    /\ match r with
       | Ok pem => pem_read path pem t
       | Err e => ce_Code e = Precondition /\ path <> "" /\ exists x, Ev (OpReadFile path) (Err x) ∈ t
       end).
Proof.
  unfold read_pem, pem_read. destruct (is_empty path) eqn:Hp; [by apply wp_ret|].
  unfold read_file. wp_op. intros [pem|x] _; apply wp_ret; (split; [done|]).
  - set_solver.
  - split_and!; [done | by intros -> | exists x; set_solver].
Qed.

(** The three files, one after the other. *)
Lemma cert_files_wp o w h :
  wp (cert_files o) w h (fun r t =>
    https t = []
    /\ ((exists e, r = Err e /\ ce_Code e = Precondition /\ pem_unread o t)
        \/ exists cert key chain, pem_read (cc_CertFile o) cert t /\ pem_read (cc_KeyFile o) key t
             /\ pem_read (cc_ChainFile o) chain t /\ r = certCreateBody o cert key chain)).
Proof.
  unfold cert_files, io_try, pem_unread.
  assert (Hend : forall path e t, path ∈ [cc_CertFile o; cc_KeyFile o; cc_ChainFile o] ->
    ce_Code e = Precondition /\ path <> "" /\ (exists x, Ev (OpReadFile path) (Err x) ∈ t) ->
    exists e', Err (A := gojson) e = Err e' /\ ce_Code e' = Precondition /\ pem_unread o t).
  { intros path e t Hin (He & Hne & x & Hx). exists e. split_and!; [done..|]. by exists path, x. }
  apply wp_bind. eapply wp_mono; [apply read_pem_wp|]. intros [cert|e] t1 [H1 Hc].
  2: { apply wp_ret. rewrite app_nil_r. split; [done|]. left. eapply Hend; [|exact Hc]. set_solver. }
  apply wp_bind. eapply wp_mono; [apply read_pem_wp|]. intros [key|e] t2 [H2 Hk].
  2: { apply wp_ret. rewrite app_nil_r, https_app, H1, H2. split; [done|]. left.
       eapply Hend with (path := cc_KeyFile o); [set_solver|]. destruct Hk as (? & ? & x & ?).
       split_and!; [done..|]. exists x. set_solver. }
  apply wp_bind. eapply wp_mono; [apply read_pem_wp|]. intros [chain|e] t3 [H3 Hch].
  2: { apply wp_ret. rewrite app_nil_r, !https_app, H1, H2, H3. split; [done|]. left.
       eapply Hend with (path := cc_ChainFile o); [set_solver|]. destruct Hch as (? & ? & x & ?).
       split_and!; [done..|]. exists x. set_solver. }
  apply wp_ret. rewrite app_nil_r, !https_app, H1, H2, H3. split; [done|]. right.
  exists cert, key, chain. split_and!; [|by apply pem_read_app| |done].
  - by apply (pem_read_app _ _ t1 []).
  - rewrite app_assoc, <- (app_nil_r t3). by apply pem_read_app.
Qed.

Lemma cert_body_ok o cert key chain doc : certCreateBody o cert key chain = Ok doc -> raw_ok doc = true.
Proof.
  unfold certCreateBody. destruct (str_in _ _).
  - destruct (is_empty _); [done|]. intros [= <-]. encodable; by apply all_raw_ok.
  - destruct (streq _ _); [|done]. destruct (negb _); [done|]. intros [= <-]. encodable.
Qed.

(** The usage decides which files are needed, whatever they hold. *)
Lemma cert_body_files o cert key chain e :
  certCreateBody o "" "" "" = Err e -> certCreateBody o cert key chain = Err e.
Proof.
  unfold certCreateBody. destruct (str_in _ _); [by destruct (is_empty _)|].
  destruct (streq _ _); [by destruct (negb _) | done].
Qed.

Lemma cert_body_needs o d : certCreateBody o "" "" "" = Ok d -> forall cert key chain,
  exists doc, certCreateBody o cert key chain = Ok doc.
Proof.
  unfold certCreateBody. intros Hd cert key chain. destruct (str_in _ _); [destruct (is_empty _); [done|by eexists]|].
  destruct (streq _ _); [|done]. destruct (negb _); [done|by eexists].
Qed.
End Certificates.

(** [Create cert].  Without a certificate file, with a usage that is not known
    or with the wrong files for it, nothing is read and nothing is sent.  A file
    that cannot be read ends the command PRECONDITION, and nothing is sent.
    Otherwise one POST carries what the named files hold, and the command
    succeeds exactly when the gateway confirms it. *)
Theorem create_cert_exchange `{GoLib} ro o w h :
  wp (create_cert ro o) w h (fun out t =>
    if is_empty (cc_CertFile o) || negb (match certCreateBody o "" "" "" with Ok _ => true | _ => false end)
    then t = [] /\ fails_as InvalidArgument out
    else https t = [] /\ pem_unread o t /\ fails_as Precondition out
         \/ exists cert key chain doc,
              pem_read (cc_CertFile o) cert t /\ pem_read (cc_KeyFile o) key t
              /\ pem_read (cc_ChainFile o) chain t
              /\ certCreateBody o cert key chain = Ok doc /\ sends ro (cert_post doc) out (https t)).
Proof.
  unfold create_cert. destruct (is_empty (cc_CertFile o)); cbn [orb].
  { apply wp_ret. split; [done|]. by eexists. }
  destruct (certCreateBody o "" "" "") as [d|e] eqn:Hd; cbn [negb].
  2: { apply wp_ret. split; [done|]. exists (ECLI e). split; [done|].
       revert Hd. unfold certCreateBody. destruct (str_in _ _); [destruct (is_empty _); [by intros [= <-]|done]|].
       destruct (streq _ _); [|by intros [= <-]]. destruct (negb _); [by intros [= <-]|done]. }
  apply wp_bind. eapply wp_mono; [apply cert_files_wp|].
  intros r t1 [H1 [(e & -> & He & Hun)|(cert & key & chain & Hc & Hk & Hch & ->)]].
  { apply wp_ret. rewrite app_nil_r. left. split_and!; [done..|]. by exists (ECLI e). }
  destruct (cert_body_needs o d Hd cert key chain) as [doc Hdoc]. rewrite Hdoc.
  apply wp_client. intros c t2 Hc2 H2 _.
  eapply wp_mono.
  - apply (post_wp ro (cert_post doc) c Client.Cert doc); [done..|by eapply cert_body_ok|].
    intros resp w' h'. by apply ends_managed; [|apply say_quiet].
  - intros out t3 Hs. right. exists cert, key, chain, doc. rewrite !https_app, H1, H2.
    split_and!; [by apply (pem_read_app _ _ t1 [] (t2 ++ t3)).. | done | done].
Qed.

(* ------------------------------------------------------------------ *)
(** ** Objectives, identities of networks, JWT profiles                *)
(* ------------------------------------------------------------------ *)

(** The end of a creation behind a feature: the answer of a confirmation is
    printed, and must decode when it is printed as JSON; an error of the printing is
    the command's. *)
Definition by_operation (ro : RESTOptions) (resp : http_response) (out : outcome) : Prop :=
  if bool_decide (hr_status resp ∈ [200; 201]%Z) then
    if bool_decide (ro_PrintOption ro = "json") && negb (bool_decide (is_Some (unmarshal_any (hr_body resp))))
    then fails_as ContractMismatch out
    else out = Returns None \/ exists e, out = Returns (Some (EText e))
  else fails_as (feature_code resp) out.

Definition creates (ro : RESTOptions) (path : string) (doc : gojson) : contract :=
  Inquires {| iq_method := "POST"; iq_api := at_path path; iq_body := Some (encode doc); iq_gate := true;
              iq_judge := by_operation ro |}.

(** One name, and values that fit. *)
Definition entry_of (ro : RESTOptions) (args : list string) (fits : bool) (path : string)
    (doc : string -> gojson) : contract :=
  match args with
  | [name] => if fits then creates ro path (doc name) else Declines InvalidArgument
  | _ => Declines InvalidArgument
  end.

Definition objective_members (priority : int32) (services : list string) (name : string)
    : list (bool * (string * gojson)) :=
  [(true, ("name", GStr name)); (some_words services, ("services", words services));
   (true, ("priority", int32_json priority))].

(** A network of IPv4, also in the form of IPv6. *)
Definition ipv4_network (s : string) : bool :=
  is_cidr s
  && match split_first "/"%char s with
     | Some (ip, _) =>
         match ParseIP ip with
         | Some b => bool_decide (take 12 b = [0; 0; 0; 0; 0; 0; 0; 0; 0; 0; 255; 255]%Z)
         | None => false
         end
     | None => false
     end.

Definition netidentity_fits (o : CreateNetIdentityOptions) : bool :=
  negb (is_empty (cn_Tenant o))
  && bool_decide (cn_Enforce o ∈ [""; "advisory"; "strict"])
  && bool_decide (cn_Credential o ∈ [""; "none"; "network"])
  && bool_decide (cn_FailMode o ∈ [""; "neutral"; "closed"])
  && bool_decide (cn_PriorityClass o ∈ class_words)
  && (u32 (cn_Vlan o) <=? 4094)%Z && (u32 (cn_Vni o) <=? 16777215)%Z
  && forallb ipv4_network (cn_Cidr o).

Definition match_members (o : CreateNetIdentityOptions) : list (bool * (string * gojson)) :=
  [(some_words (cn_Cidr o), ("cidr", words (cn_Cidr o)));
   (negb (is_empty (cn_IngressIf o)), ("ingress_if", GStr (cn_IngressIf o)));
   (negb (u32 (cn_Vlan o) =? 0)%Z, ("vlan", GInt (u32 (cn_Vlan o))));
   (negb (u32 (cn_Vni o) =? 0)%Z, ("vni", GInt (u32 (cn_Vni o))));
   (negb (is_empty (cn_IpsecTunnel o)), ("ipsec_tunnel", GStr (cn_IpsecTunnel o)))].

Definition netidentity_members (o : CreateNetIdentityOptions) (name : string)
    : list (bool * (string * gojson)) :=
  [(true, ("name", GStr name));
   (true, ("match", members_given (match_members o)));
   (some_words (cn_Services o), ("services", words (cn_Services o)));
   (true, ("tenant", GStr (cn_Tenant o)));
   (some_words (cn_AllowedModels o), ("allowed_models", words (cn_AllowedModels o)));
   (negb (is_empty (cn_Enforce o)), ("enforce", GStr (cn_Enforce o)));
   (negb (is_empty (cn_Credential o)), ("credential", GStr (cn_Credential o)));
   (cn_ForwardIdentity o, ("forward_identity", GBool true));
   (negb (is_empty (cn_PriorityClass o)), ("priority_class", GStr (cn_PriorityClass o)));
   (negb (is_empty (cn_FailMode o)), ("fail_mode", GStr (cn_FailMode o)))].

Definition profile_fits (o : CreateJWTAuthProfileOptions) : bool :=
  negb (is_empty (cj_Issuer o))
  && bool_decide (cj_ModelAuthz o ∈ [""; "claims-required"; "allow-all"])
  && bool_decide (cj_PriorityClass o ∈ class_words).

Definition profile_members (o : CreateJWTAuthProfileOptions) (name : string)
    : list (bool * (string * gojson)) :=
  let text k v := (negb (is_empty v), (k, GStr v)) in
  [(true, ("name", GStr name)); (true, ("issuer", GStr (cj_Issuer o)));
   text "jwks_url" (cj_JwksURL o);
   (some_words (cj_Audiences o), ("audiences", words (cj_Audiences o)));
   (some_words (cj_Algs o), ("algs", words (cj_Algs o)));
   (negb (cj_LeewaySec o =? 0)%Z, ("leeway_sec", GInt (cj_LeewaySec o)));
   (negb (cj_RefreshSec o =? 0)%Z, ("refresh_sec", GInt (cj_RefreshSec o)));
   text "tenant_claim" (cj_TenantClaim o); text "user_claim" (cj_UserClaim o);
   text "models_claim" (cj_ModelsClaim o); text "roles_claim" (cj_RolesClaim o);
   text "model_role_prefix" (cj_ModelRolePrefix o); text "username_claim" (cj_UsernameClaim o);
   text "model_authz" (cj_ModelAuthz o); text "default_tenant" (cj_DefaultTenant o);
   (cj_ForwardIdentity o, ("forward_identity", GBool true));
   (cj_AuthorizationPassthrough o, ("authorization_passthrough", GBool true));
   text "priority_class" (cj_PriorityClass o)].

Definition service_creates `{GoLib} (ro : RESTOptions) (priority : int32) (services : list string)
    (n : CreateNetIdentityOptions) (j : CreateJWTAuthProfileOptions) (args : list string)
    : list (IO outcome * contract) :=
  [ (create_objective ro priority services args,
     entry_of ro args true "config/ai/objective"
       (fun name => members_given (objective_members priority services name)));
    (create_netidentity ro n args,
     entry_of ro args (netidentity_fits n) "config/ai/netidentity"
       (fun name => members_given (netidentity_members n name)));
    (create_jwtauthprofile ro j args,
     entry_of ro args (profile_fits j) "config/ai/jwtauthprofile"
       (fun name => members_given (profile_members j name))) ].

(** The checks and the documents of the code. *)
Lemma word_check_fits flag value (allowed words : list string) :
  words = "" :: allowed ->
  is_ok (word_check flag value allowed) = bool_decide (value ∈ words).
Proof.
  intros ->. rewrite <- word_listed. unfold word_check, str_in. cbn [existsb].
  destruct value; [done|]. cbn [is_empty negb andb streq]. by destruct (existsb _ allowed).
Qed.

Lemma ipv4_network_read s : is_ipv4_cidr s = ipv4_network s.
Proof.
  unfold is_ipv4_cidr, ipv4_network. f_equal. destruct (split_first _ s) as [[ip x]|]; [|done].
  destruct (ParseIP ip) as [b|]; [|done]. apply Bool.eq_iff_eq_true.
  rewrite bool_decide_eq_true, eqb_list_spec by (intros; apply Z.eqb_eq). done.
Qed.

Lemma cidr_checks_fit l : is_ok (cidr_checks l) = forallb ipv4_network l.
Proof.
  induction l as [|s l IH]; [done|]. cbn [cidr_checks forallb]. rewrite <- ipv4_network_read, <- IH.
  by destruct (is_ipv4_cidr s).
Qed.

Lemma is_ok_then {E A B} (r : result E A) (m : result E B) :
  is_ok (r ≫= fun _ => m) = is_ok r && is_ok m.
Proof. by destruct r. Qed.

Lemma netidentity_checked o :
  negb (is_empty (cn_Tenant o)) && is_ok (validateNetIdentityOptions o) = netidentity_fits o.
Proof.
  unfold netidentity_fits. rewrite <- !andb_assoc. f_equal. unfold validateNetIdentityOptions.
  do 4 (rewrite is_ok_then, (word_check_fits _ _ _ _ eq_refl); f_equal).
  rewrite <- cidr_checks_fit, !Z.leb_antisym. unfold netIdentityVlanCeiling, netIdentityVniCeiling.
  by destruct (4094 <? _)%Z, (16777215 <? _)%Z.
Qed.

Lemma profile_checked o :
  negb (is_empty (cj_Issuer o)) && is_ok (validateJWTAuthProfileOptions o) = profile_fits o.
Proof.
  unfold profile_fits. rewrite <- !andb_assoc. f_equal. unfold validateJWTAuthProfileOptions.
  rewrite is_ok_then, !(word_check_fits _ _ _ _ eq_refl). done.
Qed.

Lemma objective_doc priority services name :
  ai_objective_entry_json {| obe_Name := name; obe_Services := services; obe_Priority := priority;
                             obe_UpdatedAt := "" |}
  = members_given (objective_members priority services name).
Proof. unfold members_given. by destruct services. Qed.

Lemma match_doc o :
  net_identity_match_json {| nim_Cidr := cn_Cidr o; nim_IngressIf := cn_IngressIf o; nim_Vlan := cn_Vlan o;
                             nim_Vni := cn_Vni o; nim_IpsecTunnel := cn_IpsecTunnel o |}
  = members_given (match_members o).
Proof. members_written. Qed.

Lemma netidentity_doc o name :
  net_identity_entry_json (netIdentityEntry name o) = members_given (netidentity_members o name).
Proof.
  unfold netidentity_members. rewrite <- match_doc. members_written.
Qed.

Lemma profile_doc o name :
  jwt_auth_profile_entry_json (jwtAuthProfileEntry name o) = members_given (profile_members o name).
Proof. members_written. Qed.

Section Services.
Context `{GoLib}.
Variable ro : RESTOptions.

Lemma operation_wp op feature resp w h :
  wp (if negb (status_in [200; 201]%Z (hr_status resp))
      then fail_with (classify_feature op feature (hr_status resp) (hr_body resp))
      else printOperationResult ro (hr_body resp)) w h
    (fun out t => https t = [] /\ by_operation ro resp out).
Proof.
  unfold by_operation, printOperationResult. rewrite <- confirmed_status.
  destruct (status_in _ _); cbn [negb].
  2: { apply then_fails. rewrite <- (classify_feature_code op feature). apply fails_with_code. }
  assert (Hp : forall texts w h, wp (print_texts texts) w h (fun out t =>
    https t = [] /\ (out = Returns None \/ exists e, out = Returns (Some (EText e))))).
  { intros texts w' h'. eapply wp_mono; [apply print_texts_wp|].
    intros out t [Ht Hpr]. split; [done|]. unfold prints in Hpr. tauto. }
  rewrite <- streq_decided. destruct (streq (ro_PrintOption ro) "json"); cbn [andb]; [|apply Hp].
  destruct (unmarshal_any (hr_body resp)) as [doc|] eqn:Hd.
  - rewrite bool_decide_true by by eexists. apply Hp.
  - rewrite bool_decide_false by by intros [? ?]. apply then_fails, fails_with_code.
Qed.

Lemma feature_post_wp op feature api path doc w h :
  (forall c, api c = at_path path c) -> raw_ok doc = true ->
  wp (feature_post ro op feature api doc) w h (fun out t =>
    inquired ro {| iq_method := "POST"; iq_api := at_path path; iq_body := Some (encode doc); iq_gate := true;
                   iq_judge := by_operation ro |} out (https t)).
Proof.
  intros Hapi Hdoc. apply (client_inquiry_wp ro
    {| iq_method := "POST"; iq_api := at_path path; iq_body := Some (encode doc); iq_gate := true;
       iq_judge := by_operation ro |} _ (fun c => Create (api c) doc)).
  - intros c. unfold Create, POST. rewrite (with_body_run _ (encode doc)) by (unfold marshal; by rewrite Hdoc).
    by rewrite Hapi.
  - intros resp w' h'. apply operation_wp.
Qed.

Lemma create_conforms op feature api path doc :
  (forall c, api c = at_path path c) -> raw_ok doc = true ->
  conforms ro (gated ro feature op (feature_post ro op feature api doc)) (creates ro path doc).
Proof. intros Hapi Hdoc. apply conforms_gated; [done|]. intros w h. by apply feature_post_wp. Qed.

(** A gate that lets a gateway through knows its version, and the next gate finds
    it. *)
Lemma require_knows feature op w h :
  wp (Require ro feature op ∅) w h (fun out t =>
    exists c r, rc_Options c = ro /\ https t = [(version_request c, r)]
      /\ if admitted r
         then out.1 = None
              /\ exists v, out.2 !! cache_key ro = Some v /\ lv_Product v = "loxilb-inference-gateway"
         else exists e, out.1 = Some e /\ ce_Code (Classify e) = refusal_code r).
Proof.
  eapply wp_mono; [apply (gate_decided false)|]. intros [gate cache] t (r & Hl & Hv). revert Hl Hv.
  unfold learned, admitted. rewrite lookup_empty. intros (c & answer & Hc & Ht & ->) Hv.
  exists c, answer. split_and!; [done..|]. destruct (answered_version answer) as [version|] eqn:Ha.
  - destruct Hv as (Hcache & Hp & He & _). unfold is_gateway. cbn [fst snd] in *.
    destruct (streq _ _) eqn:Hs.
    + apply streq_true in Hs. split; [by apply Hp|]. exists version.
      by rewrite Hcache, lookup_insert_eq.
    + apply streq_false in Hs. destruct gate as [e|]; [|by destruct Hs; apply Hp].
      exists e. split; [done|]. rewrite (He e eq_refl). by rewrite (refusal_version _ _ Ha).
  - destruct Hv as (_ & answer' & e & [= <-] & Hg & He). by exists e.
Qed.

Lemma require_again feature op cache v w h :
  cache !! cache_key ro = Some v -> lv_Product v = "loxilb-inference-gateway" ->
  wp (Require ro feature op cache) w h (fun out t => https t = [] /\ out.1 = None).
Proof.
  intros Hv Hp. eapply wp_mono; [apply (gate_decided false)|]. intros [gate cache'] t (r & Hl & Hd). revert Hl Hd.
  unfold learned. rewrite Hv. intros [Ht ->] (_ & Hg & _). split; [done|]. by apply Hg.
Qed.

(** Two gates are one: the second finds the version that the first has read. *)
Lemma gated_twice_conforms f1 c1 f2 c2 second q k :
  iq_gate q = true ->
  (forall w h, wp k w h (fun out t => inquired ro q out (https t))) ->
  conforms ro (gated_twice ro f1 c1 f2 c2 second k) (Inquires q).
Proof.
  intros Hg Hk w h. unfold gated_twice, keeps. rewrite Hg.
  apply wp_bind. eapply wp_mono; [apply require_knows|].
  intros [gate cache] t (c & r & Hc & Ht & Hr). unfold behind_gate. cbn [fst snd] in *.
  destruct (admitted r) eqn:Ha.
  2: { destruct Hr as (e & -> & He). apply wp_ret. rewrite app_nil_r. exists c, r, []. rewrite Ha.
       split_and!; [done..|]. by exists e. }
  destruct Hr as (-> & v & Hv & Hp).
  assert (Hend : forall h' t2, https t2 = [] -> wp k w h' (fun out t' => exists c r rest, rc_Options c = ro
    /\ https (t ++ t2 ++ t') = (version_request c, r) :: rest
    /\ if admitted r then inquired ro q out rest else rest = [] /\ fails_as (refusal_code r) out)).
  { intros h' t2 H2. eapply wp_mono; [apply Hk|]. intros out t' Hq. exists c, r, (https t').
    by rewrite !https_app, Ht, H2, Ha. }
  destruct second; [|by apply (Hend _ [])].
  apply wp_bind. eapply wp_mono; [by apply (require_again f2 c2 cache v)|].
  intros [gate2 cache2] t2 [H2 Hg2]. cbn [fst] in *. rewrite Hg2. by apply Hend.
Qed.

End Services.

Ltac entry_encodable := encodable; try (by apply all_raw_ok).

Lemma net_identity_ok r : raw_ok (net_identity_entry_json r) = true.
Proof.
  assert (Hm : raw_ok (net_identity_match_json (nie_Match r)) = true) by entry_encodable.
  entry_encodable. unfold members_ok. cbn [forallb snd]. by rewrite Hm.
Qed.

(** C33: [create objective], [create netidentity] and [create jwtauthprofile] keep
    their contracts.  Without exactly one name, without the tenant or the issuer, or
    with a value that does not fit (a word that is not one of its flag's, a vlan
    above 4094, a vni above 16777215, a network that is not one of IPv4) they are
    INVALID_ARGUMENT and nothing is sent.  Otherwise the gate comes first, also where
    the code passes two: one read of the version, and a peer that is not a gateway
    is refused and nothing else is sent.  Then one POST of the entry, with the
    members that the name and flags give.  A status other than 200 and 201 ends the
    command with its code, FEATURE_UNAVAILABLE when the path is not served; a
    confirmation that does not decode is CONTRACT_MISMATCH where JSON is printed. *)
Theorem service_creates_conform `{GoLib} ro priority services n j args :
  Forall (fun p => conforms ro p.1 p.2) (service_creates ro priority services n j args).
Proof.
  repeat apply Forall_cons_2; try apply Forall_nil_2; cbn [fst snd]; unfold entry_of;
    destruct args as [|name [|x args]]; try (by apply conforms_declined).
  - rewrite <- objective_doc. apply create_conforms; [done|]. entry_encodable.
  - rewrite <- netidentity_checked, <- netidentity_doc. unfold create_netidentity.
    destruct (is_empty _); cbn [negb andb]; [by apply conforms_declined|].
    destruct (validateNetIdentityOptions n); cbn [is_ok]; [|by apply conforms_declined].
    apply create_conforms; [done|]. apply net_identity_ok.
  - rewrite <- profile_checked, <- profile_doc. unfold create_jwtauthprofile.
    destruct (is_empty _); cbn [negb andb]; [by apply conforms_declined|].
    destruct (validateJWTAuthProfileOptions j); cbn [is_ok]; [|by apply conforms_declined].
    apply gated_twice_conforms; [done|]. intros w h. apply feature_post_wp; [done|]. entry_encodable.
Qed.
