(* ===== verification/LoginProps.v ===== *)
(** * The session between commands

    [set login] leaves a token on the disk, the root command of every later
    command reads it back, [set logout] removes it.  The file system is the one
    of [Files]. *)
From S2P Require Import Prelude GoStrings Json JsonPrint Fields World Errors Exitcode.
From S2P Require Import Rest Requests SecretFile Session Files Commands AiModel LoginCmds.


(* ------------------------------------------------------------------ *)
(** ** Trimming                                                        *)
(* ------------------------------------------------------------------ *)

(** What is left of a text without the space around it is a text with the same
    runes, so that trimming it again changes nothing. *)

(** The first rune of a text, which depends on no more than its own bytes. *)
Lemma segments_cons s : s <> "" ->
  exists z raw s', s = raw +:+ s' /\ raw <> "" /\ segments s = (z, raw) :: segments s'
    /\ forall p q, s' = p +:+ q -> segments (raw +:+ p) = (z, raw) :: segments p.
Proof.
  destruct s as [|a s1]; [done|]. intros _. cbn [segments].
  destruct (zbyte a <? 128)%Z eqn:Ha.
  { exists (zbyte a), (String a ""), s1. split_and!; [done..|]. intros p q _.
    rewrite string_cons_app, string_nil_app. cbn [segments]. by rewrite Ha. }
  assert (Hbad : forall z raw, (z, raw) = (rune_error, String a "") ->
    forall p q, segments (String a (p +:+ q)) = (z, raw) :: segments (p +:+ q) ->
      segments (String a p) = (z, raw) :: segments p).
  { intros z raw [= -> ->] p q. cbn [segments]. rewrite Ha.
    destruct p as [|b p]; [done|]. rewrite string_cons_app.
    destruct (rune2 _ _); [done|]. destruct p as [|c p]; [done|]. rewrite string_cons_app.
    destruct (rune3 _ _ _); [done|]. destruct p as [|d p]; [done|]. rewrite string_cons_app.
    destruct (rune4 _ _ _ _); [done|]. done. }
  assert (Hshort : segments (String a s1) = (rune_error, String a "") :: segments s1 ->
    exists z raw s', String a s1 = raw +:+ s' /\ raw <> "" /\ segments (String a s1) = (z, raw) :: segments s'
      /\ forall p q, s' = p +:+ q -> segments (raw +:+ p) = (z, raw) :: segments p).
  { intros Hs. exists rune_error, (String a ""), s1. split_and!; [done..|]. intros p q ->. by eapply Hbad. }
  revert Hshort. cbn [segments]. rewrite Ha.
  destruct s1 as [|b s2]; [by intros Hs; apply Hs|].
  destruct (rune2 _ _) as [r|] eqn:H2.
  { intros _. exists r, (String a (String b "")), s2. split_and!; [done..|]. intros p q _.
    rewrite !string_cons_app, string_nil_app. cbn [segments]. by rewrite Ha, H2. }
  destruct s2 as [|c s3]; [by intros Hs; apply Hs|].
  destruct (rune3 _ _ _) as [r|] eqn:H3.
  { intros _. exists r, (String a (String b (String c ""))), s3. split_and!; [done..|]. intros p q _.
    rewrite !string_cons_app, string_nil_app. cbn [segments]. by rewrite Ha, H2, H3. }
  destruct s3 as [|d s4]; [by intros Hs; apply Hs|].
  destruct (rune4 _ _ _ _) as [r|] eqn:H4; [|by intros Hs; apply Hs].
  intros _. exists r, (String a (String b (String c (String d "")))), s4. split_and!; [done..|]. intros p q _.
  rewrite !string_cons_app, string_nil_app. cbn [segments]. by rewrite Ha, H2, H3, H4.
Qed.

(** A part of the runes of a text, as a text of its own, has those runes. *)
Lemma segments_drop s l r : segments s = l ++ r -> segments (concat_str (snd <$> r)) = r.
Proof.
  revert s. induction l as [|x l IH]; intros s Hs.
  - rewrite <- (app_nil_l r), <- Hs. by rewrite concat_segments.
  - destruct (decide (s = "")) as [->|Hne]; [done|].
    destruct (segments_cons s Hne) as (z & raw & s' & _ & _ & Hs' & _).
    rewrite Hs' in Hs. injection Hs as _ Hs. by eapply IH.
Qed.

Lemma segments_take s l r : segments s = l ++ r -> segments (concat_str (snd <$> l)) = l.
Proof.
  revert s. induction l as [|x l IH]; intros s Hs; [done|].
  destruct (decide (s = "")) as [->|Hne]; [done|].
  destruct (segments_cons s Hne) as (z & raw & s' & -> & _ & Hs' & Hstable).
  rewrite Hs' in Hs. injection Hs as <- Hs. rewrite fmap_cons, concat_str_cons. cbn [snd].
  rewrite (Hstable _ (concat_str (snd <$> r))); [by rewrite (IH s')|].
  by rewrite <- concat_str_app, <- fmap_app, <- Hs, concat_segments.
Qed.

Lemma drop_while_twice {A} (p : A -> bool) l : drop_while p (drop_while p l) = drop_while p l.
Proof. induction l as [|x l IH]; [done|]. simpl. destruct (p x) eqn:Hp; [done|]. simpl. by rewrite Hp. Qed.

Lemma drop_while_rev {A} (p : A -> bool) l :
  drop_while p (rev (drop_while p (rev (drop_while p l)))) = rev (drop_while p (rev (drop_while p l))).
Proof.
  destruct (drop_while_suffix p (rev (drop_while p l))) as [k Hk].
  set (m := drop_while p (rev (drop_while p l))) in *.
  assert (Hl : drop_while p l = rev m ++ rev k)
    by (rewrite <- rev_app_distr, <- Hk; by rewrite rev_involutive).
  assert (Hd := drop_while_twice p l). rewrite Hl in Hd.
  destruct (rev m) as [|x m']; [done|]. simpl in *. destruct (p x); [|done].
  exfalso. destruct (drop_while_suffix p (m' ++ rev k)) as [k' Hk'].
  apply (f_equal length) in Hk'. rewrite Hd in Hk'. simpl in Hk'. rewrite !length_app in Hk'. simpl in Hk'. rewrite length_app in Hk'. lia.
Qed.

(** Trimming once is enough. *)
Lemma trim_space_twice s : trim_space (trim_space s) = trim_space s.
Proof.
  unfold trim_space at 2 3. unfold trim_by. set (p := fun x : Z * string => is_space x.1).
  destruct (drop_while_suffix p (segments s)) as [k Hk].
  set (l := drop_while p (segments s)) in *.
  destruct (drop_while_suffix p (rev l)) as [k' Hk']. set (m := drop_while p (rev l)) in *.
  assert (Hl : l = rev m ++ rev k') by (rewrite <- rev_app_distr, <- Hk'; by rewrite rev_involutive).
  assert (Hm : segments (concat_str (snd <$> rev m)) = rev m).
  { apply (segments_take (concat_str (snd <$> l)) _ (rev k')). rewrite <- Hl. by eapply segments_drop. }
  unfold trim_space, trim_by. rewrite Hm. fold p.
  assert (Hd : drop_while p (rev m) = rev m) by apply drop_while_rev.
  rewrite Hd, rev_involutive. unfold m at 1. by rewrite drop_while_twice.
Qed.

(* ------------------------------------------------------------------ *)
(** ** Runs that leave the files alone                                 *)
(* ------------------------------------------------------------------ *)

Definition no_file_op (o : op) : Prop :=
  match o with
  | OpCreateTemp _ _ | OpChmod _ _ | OpWrite _ _ | OpSync _ | OpRename _ _ | OpRemove _
  | OpOpen _ _ _ | OpRemoveAll _ | OpOpenDir _ => False
  | _ => True
  end.

Lemma fs_run_app fs t1 t2 fs' :
  fs_run fs (t1 ++ t2) fs' <-> exists fs1, fs_run fs t1 fs1 /\ fs_run fs1 t2 fs'.
Proof.
  revert fs. induction t1 as [|e t1 IH]; intros fs; simpl; [naive_solver|].
  setoid_rewrite IH. naive_solver.
Qed.

Lemma fs_run_still fs t fs' : Forall (fun e => no_file_op (ev_op e)) t -> fs_run fs t fs' -> fs' = fs.
Proof.
  intros Ht. revert fs. induction Ht as [|[o a] t Ho _ IH]; intros fs; [done|].
  intros (fs1 & Hs & Hrun). apply IH in Hrun as ->. by destruct o.
Qed.

(** The lines that were typed. *)
Definition event_line (e : event) : list (result string string) :=
  match e with
  | Ev o a => match o return answer o -> list (result string string) with
              | OpReadLine => fun a => [a]
              | _ => fun _ => []
              end a
  end.
Definition typed (t : trace) : list (result string string) := t ≫= event_line.

Lemma typed_app t t' : typed (t ++ t') = typed t ++ typed t'.
Proof. apply bind_app. Qed.

(** A part of a run that touches no file, reads no line and sends nothing. *)
Definition idle_op (o : op) : Prop :=
  no_file_op o /\ not_http o /\ match o with OpReadLine => False | _ => True end.
Definition idle (t : trace) : Prop := Forall (fun e => idle_op (ev_op e)) t.

Lemma idle_typed t : idle t -> typed t = [].
Proof.
  induction 1 as [|[o a] t Ho Ht IH]; [done|].
  change (typed (Ev o a :: t)) with (event_line (Ev o a) ++ typed t). rewrite IH.
  destruct Ho as (_ & _ & Ho). by destruct o.
Qed.

Lemma idle_https t : idle t -> https t = [].
Proof. intros Ht. apply https_none. eapply Forall_impl; [exact Ht|]. by intros e (_ & He & _). Qed.

Lemma idle_run fs t fs' : idle t -> fs_run fs t fs' -> fs' = fs.
Proof. intros Ht. apply fs_run_still. eapply Forall_impl; [exact Ht|]. by intros e (He & _). Qed.

Lemma wp_idle {A B} (m : IO A) (k : A -> IO B) w h (Q : B -> trace -> Prop) :
  ops_satisfy idle_op m -> (forall a t, idle t -> wp (k a) w (h ++ t) (fun b t' => Q b (t ++ t'))) ->
  wp (mbind k m) w h Q.
Proof.
  intros Hm Hk. apply wp_bind. rewrite wp_value. intros a t Ha. apply Hk. specialize (Hm w h).
  by rewrite Ha in Hm.
Qed.

Lemma say_idle s : ops_satisfy idle_op (say s).
Proof. unfold say, write_out. repeat first [ops_step | by apply ops_perform]. Qed.

Lemma client_idle ro : ops_satisfy idle_op (NewLoxiClient ro).
Proof. eapply ops_mono; [|apply client_ops]. by intros []. Qed.

(* ------------------------------------------------------------------ *)
(** ** The writing of a file                                           *)
(* ------------------------------------------------------------------ *)

(** The file at [path] holds [data]: a file that was there keeps its mode, a new
    one has no more than read and write for its owner. *)
Definition stored (path data : string) (fs fs' : file_system) : Prop :=
  exists mask,
    fs' = <[path := File data (match fs !! path with Some f => f_mode f | None => Z.land 384 mask end) false]> fs.

(** Something of the writing failed. *)
Definition saving_failed (path data : string) (t : trace) : Prop :=
  exists e, Ev (OpOpen path false 384) (Some e) ∈ t \/ Ev (OpWrite path data) (Some e) ∈ t
            \/ Ev (OpClose path) (Some e) ∈ t.

Lemma saving_failed_app path data t t1 t2 :
  saving_failed path data t -> saving_failed path data (t1 ++ t ++ t2).
Proof. intros (e & He). exists e. set_solver. Qed.

Lemma write_file_wp path data w h :
  wp (write_file path data 384) w h (fun r t =>
    typed t = [] /\ https t = []
    /\ match r with
       | None => forall fs fs', fs_run fs t fs' -> stored path data fs fs'
       | Some _ => saving_failed path data t
       end).
Proof.
  unfold write_file. wp_op. intros [e|] _.
  { apply wp_ret. split_and!; [done..|]. exists e. left. set_solver. }
  wp_op. intros w1 _. wp_op. intros w2 _. apply wp_ret. split_and!; [done..|].
  destruct w1 as [e|]; [exists e; right; left; set_solver|].
  destruct w2 as [e|]; [exists e; right; right; set_solver|].
  intros fs fs' (fs1 & Hopen & fs2 & Hwrite & fs3 & Hclose & ->).
  cbn in Hopen, Hwrite, Hclose. subst fs3 fs2. unfold stored. destruct (fs !! path) as [f|].
  - subst fs1. exists 0%Z. by rewrite alter_insert_eq.
  - destruct Hopen as [mask ->]. exists mask. by rewrite alter_insert_eq.
Qed.

(** What was typed is stored; the run goes on. *)
Lemma save_typed_wp path token k w h (Q : outcome -> trace -> Prop) :
  (forall t h', typed t = [] -> https t = [] ->
     (forall fs fs', fs_run fs t fs' -> stored path token fs fs') ->
     wp k w h' (fun out t' => Q out (t ++ t'))) ->
  (forall e t, Q (Returns (Some e)) t) ->
  wp (save_typed path token k) w h Q.
Proof.
  intros Hk Hf. unfold save_typed. apply wp_bind. eapply wp_mono; [apply write_file_wp|].
  intros [e|] t (Ht & Hh & Hs); [apply wp_ret, Hf|]. apply Hk; auto.
Qed.

(** A line is asked for; the run goes on with it. *)
Lemma asked_for_wp what text k w h (Q : outcome -> trace -> Prop) :
  (forall line t h', typed t = [Ok line] -> https t = [] -> (forall fs fs', fs_run fs t fs' -> fs' = fs) ->
     wp (k (trim_space line)) w h' (fun out t' => Q out (t ++ t'))) ->
  (forall e t, Q (Returns (Some e)) t) ->
  wp (asked_for what text k) w h Q.
Proof.
  intros Hk Hf. unfold asked_for, prompt. apply wp_bind, wp_idle; [apply say_idle|]. intros _ t Ht.
  wp_op. intros [line|e] _; apply wp_ret; [|apply wp_ret, Hf]. rewrite app_nil_r. apply Hk.
  - by rewrite typed_app, idle_typed.
  - by rewrite https_app, idle_https.
  - intros fs fs' (fs1 & H1 & fs2 & H2 & ->)%fs_run_app. apply idle_run in H1; [|done]. by subst fs1.
Qed.

(* ------------------------------------------------------------------ *)
(** ** What a login leaves                                             *)
(* ------------------------------------------------------------------ *)

(** The token of an answer. *)
Definition answered_token (resp : http_response) : option string :=
  match hr_body_error resp with
  | Some _ => None
  | None => token ← tkm_Token <$> unmarshal TokenModel (hr_body resp);
            if is_empty token then None else Some token
  end.

(** The files after a login that succeeded: the token of the answer, when there
    is one and it could be written, or what was typed. *)
Definition session_left (ro : RESTOptions) (Provider : string) (t : trace) (fs fs' : file_system) : Prop :=
  if is_empty Provider then
    exists c user password resp,
      rc_Options c = ro /\ typed t = [Ok user] /\ Ev OpReadPassword (Ok password) ∈ t
      /\ hr_status resp = 200%Z
      /\ https t = [(build_request c "POST" (GetUrlString (Client.Login c))
                       (Some (encode (login_model_json
                          {| lgm_Username := trim_space user; lgm_Password := password |}))), Ok resp)]
      /\ match answered_token resp with
         | Some token => stored SessionTokenPath token fs fs' \/ saving_failed SessionTokenPath token t
         | None => fs' = fs
         end
  else if streq Provider "google" then
    https t = [] /\ exists access refresh fs1, typed t = [Ok access; Ok refresh]
      /\ stored SessionTokenPath (trim_space access) fs fs1
      /\ stored SessionRefreshTokenPath (trim_space refresh) fs1 fs'
  else if streq Provider "manual" then
    https t = [] /\ exists access, typed t = [Ok access]
      /\ stored SessionTokenPath (trim_space access) fs fs'
  else False.

(** The answer of a login is said and saved. *)
Lemma save_answer_wp `{GoLib} ro resp w h :
  wp (PrintAndSaveTokenResult ro resp) w h (fun _ t =>
    typed t = [] /\ https t = []
    /\ forall fs fs', fs_run fs t fs' ->
         match answered_token resp with
         | Some token => stored SessionTokenPath token fs fs' \/ saving_failed SessionTokenPath token t
         | None => fs' = fs
         end).
Proof.
  assert (Hsay : forall s, wp (say s) w h (fun _ t =>
     typed t = [] /\ https t = [] /\ forall fs fs', fs_run fs t fs' -> fs' = fs)).
  { intros s. rewrite wp_value. intros a t Ha. assert (Ht := say_idle s w h). rewrite Ha in Ht.
    split_and!; [by apply idle_typed | by apply idle_https | intros fs fs'; by apply idle_run]. }
  unfold PrintAndSaveTokenResult, answered_token.
  destruct (hr_body_error resp) as [e|]; [apply Hsay|].
  destruct (unmarshal TokenModel _) as [token|]; [|by eapply Hsay]. cbn [fmap option_fmap option_map mbind option_bind].
  destruct (is_empty (tkm_Token token)); [apply Hsay|].
  apply wp_bind. eapply wp_mono; [apply write_file_wp|]. intros r t (Ht & Hh & Hr).
  assert (Hend : forall s, wp (say s) w (h ++ t) (fun _ t' =>
    typed (t ++ t') = [] /\ https (t ++ t') = []
    /\ forall fs fs', fs_run fs (t ++ t') fs' ->
         stored SessionTokenPath (tkm_Token token) fs fs'
         \/ saving_failed SessionTokenPath (tkm_Token token) (t ++ t'))).
  { intros s. rewrite wp_value. intros a t' Ha. assert (Ht' := say_idle s w (h ++ t)). rewrite Ha in Ht'.
    rewrite typed_app, https_app, Ht, Hh, (idle_typed t'), (idle_https t') by done. split_and!; [done..|].
    intros fs fs' (fs1 & H1 & H2)%fs_run_app. apply idle_run in H2 as ->; [|done].
    destruct r as [e|]; [right; by apply (saving_failed_app _ _ t []) | left; by apply Hr]. }
  destruct r as [e|]; [apply Hend|]. destruct (streq _ _); apply Hend.
Qed.

Section Login.
Context `{GoLib}.
Variable ro : RESTOptions.

Definition leaves (Provider : string) (out : outcome) (t : trace) : Prop :=
  out = Returns None -> forall fs fs', fs_run fs t fs' -> session_left ro Provider t fs fs'.

Lemma succeeded_wp w h (Q : outcome -> trace -> Prop) :
  (forall t, idle t -> Q (Returns None) t) -> wp login_succeeded w h Q.
Proof. intros HQ. apply wp_idle; [apply say_idle|]. intros _ t Ht. apply wp_ret, HQ. by rewrite app_nil_r. Qed.

Lemma manual_leaves w h : wp login_manual w h (leaves "manual").
Proof.
  apply asked_for_wp; [|by intros]. intros line t h1 Ht Hh Hfs.
  apply save_typed_wp; [|by intros]. intros t2 h2 Ht2 Hh2 Hfs2. apply succeeded_wp.
  intros t3 Ht3 _ fs fs' (fs1 & H1 & (fs2 & H2 & H3)%fs_run_app)%fs_run_app.
  apply Hfs in H1 as ->. apply idle_run in H3 as ->; [|done]. apply Hfs2 in H2.
  unfold session_left. cbn [is_empty streq]. rewrite !https_app, !typed_app, Ht, Ht2, Hh, Hh2.
  rewrite (idle_typed t3), (idle_https t3) by done. split; [done|]. by exists line.
Qed.

Lemma google_leaves w h : wp login_google w h (leaves "google").
Proof.
  apply wp_idle; [apply say_idle|]. intros _ t0 Ht0.
  apply asked_for_wp; [|by intros]. intros access t h1 Ht Hh Hfs.
  apply asked_for_wp; [|by intros]. intros refresh t2 h2 Ht2 Hh2 Hfs2.
  apply save_typed_wp; [|by intros]. intros t3 h3 Ht3 Hh3 Hfs3.
  apply save_typed_wp; [|by intros]. intros t4 h4 Ht4 Hh4 Hfs4. apply succeeded_wp.
  intros t5 Ht5 _ fs fs' Hrun. repeat setoid_rewrite fs_run_app in Hrun.
  destruct Hrun as (f0 & H0 & f1 & H1 & f2 & H2 & f3 & H3 & f4 & H4 & H5).
  apply idle_run in H0 as ->; [|done]. apply Hfs in H1 as ->. apply Hfs2 in H2 as ->.
  apply idle_run in H5 as ->; [|done]. unfold session_left. cbn [is_empty streq].
  rewrite !https_app, !typed_app, (idle_typed t0), (idle_https t0), Ht, Ht2, Ht3, Ht4, Hh, Hh2, Hh3, Hh4 by done.
  rewrite (idle_typed t5), (idle_https t5) by done. split; [done|].
  exists access, refresh, f3. split_and!; [done | by apply Hfs3 | by apply Hfs4].
Qed.

Lemma password_leaves w h : wp (login_password ro) w h (leaves "").
Proof.
  apply asked_for_wp; [|by intros]. intros user t h1 Ht Hh Hfs.
  apply wp_idle; [apply say_idle|]. intros _ t2 Ht2. wp_op. intros [password|e] _; [|by apply wp_ret].
  unfold answered, LoginAPICall. apply wp_assoc, wp_client. intros c t3 Hc _ Ht3.
  assert (Hi3 : idle t3) by (eapply Forall_impl; [exact Ht3|]; by intros [[] ?]).
  unfold Create. rewrite (with_body_run _ (encode (login_model_json
    (ReadSetLogInOptions (trim_space user) password)))) by done.
  unfold POST. apply wp_bind, wp_http. intros [resp|e]; [|by apply wp_ret].
  destruct (Z.eqb_spec (hr_status resp) 200) as [Hs|]; [|by apply wp_ret].
  apply wp_bind. eapply wp_mono; [apply save_answer_wp|]. intros [] t4 (Ht4 & Hh4 & Hfs4). apply wp_ret.
  intros _ fs fs' Hrun. rewrite app_nil_r in *. repeat setoid_rewrite fs_run_app in Hrun.
  destruct Hrun as (f0 & H0 & f1 & H1 & f2 & H2 & f3 & H3 & f4 & H4 & H5).
  apply Hfs in H0 as ->. apply idle_run in H1 as ->; [|done]. apply idle_run in H3 as ->; [|done].
  destruct H2 as (? & H2 & H2'). simpl in H2, H2'. subst f2 x.
  destruct H4 as (? & H4 & H4'). simpl in H4, H4'. subst f4 x. apply Hfs4 in H5.
  unfold session_left. cbn [is_empty]. exists c, user, password, resp.
  rewrite !https_app, !typed_app, Ht, Ht4, Hh, Hh4, (idle_typed t2), (idle_typed t3), (idle_https t2),
    (idle_https t3) by done.
  split_and!; [done | done | set_solver | done | done |].
  destruct (answered_token resp) as [token|]; [|done]. destruct H5 as [?|Hf]; [by left|]. right.
  rewrite !app_assoc, <- (app_nil_r t4). by apply saving_failed_app.
Qed.
End Login.

(** What [set login] leaves on the disk when it ends with status 0.  With a
    password: one POST of the name and password that were typed, confirmed with
    200, and then the token of the answer in the file of the session (unless
    writing it failed), or all files as they were when the answer had no token.
    With the other providers nothing is sent, and the files hold the tokens that
    were typed, without the space around them.  No other file is touched; a new
    file is readable by its owner alone, and a file that was there keeps its
    mode. *)
Theorem login_leaves_session `{GoLib} ro Provider w h :
  wp (set_login ro Provider) w h (fun out t =>
    out = Returns None -> forall fs fs', fs_run fs t fs' -> session_left ro Provider t fs fs').
Proof.
  unfold set_login. destruct (is_empty Provider) eqn:He.
  { apply is_empty_true in He as ->. apply password_leaves. }
  destruct (streq Provider "google") eqn:Hg.
  { apply streq_true in Hg as ->. apply google_leaves. }
  destruct (streq Provider "manual") eqn:Hm; [|by apply wp_ret].
  apply streq_true in Hm as ->. apply manual_leaves.
Qed.

(* ------------------------------------------------------------------ *)
(** ** The command after it                                            *)
(* ------------------------------------------------------------------ *)

(** What the operating system says of the files. *)
Definition tells (fs : file_system) (w : World) : Prop :=
  forall h path,
    match fs !! path with
    | Some f => w h (OpLstat path) = Ok (FileInfo (f_mode f)) /\ w h (OpReadFile path) = Ok (f_data f)
    | None => exists e, w h (OpLstat path) = Err e /\ os_not_exist e = true
    end.

(** A command without flags of its own for the token or the originator. *)
Definition plain_flags : root_flags :=
  {| rf_tokenFile := ""; rf_originator := false; rf_token_changed := false |}.

(** The file of the session is not there, or is as a secret has to be. *)
Definition session_private (fs : file_system) : bool :=
  match fs !! SessionTokenPath with
  | Some f => (Z.land (f_mode f) ModeType =? 0)%Z && (Z.land (f_mode f) 63 =? 0)%Z
  | None => true
  end.

Lemma stored_mode path data fs fs' :
  stored path data fs fs' -> exists f, fs' !! path = Some f /\ f_data f = data
    /\ (owner_only_regular (FileInfo (f_mode f))
        <-> match fs !! path with Some g => owner_only_regular (FileInfo (f_mode g)) | None => True end).
Proof.
  intros [mask ->]. eexists. rewrite lookup_insert_eq. split_and!; [done..|]. cbn [f_mode].
  destruct (fs !! path); [done|]. split; [done|]. intros _. unfold owner_only_regular. cbn [fi_mode].
  by rewrite <- !Z.land_assoc, !(Z.land_comm mask), !Z.land_assoc.
Qed.

Lemma session_private_spec fs :
  session_private fs = true
  <-> match fs !! SessionTokenPath with Some g => owner_only_regular (FileInfo (f_mode g)) | None => True end.
Proof.
  unfold session_private. destruct (fs !! SessionTokenPath); [|done].
  by rewrite andb_true_iff, !Z.eqb_eq.
Qed.

(** The root command with a file of the session. *)
Lemma token_of_session o (w : World) h f :
  (forall h, w h (OpLstat SessionTokenPath) = Ok (FileInfo (f_mode f))) ->
  (forall h, w h (OpReadFile SessionTokenPath) = Ok (f_data f)) ->
  (PersistentPreRunE plain_flags o w h).1
  = match check_mode "session token file" SessionTokenPath (FileInfo (f_mode f)) with
    | Err e => Err e
    | Ok _ => if is_empty (trim_space (f_data f))
              then Err (secret_refused (sprintf ["the session token file "; quote SessionTokenPath; " is empty"]))
              else Ok (with_token o (trim_space (f_data f)))
    end.
Proof.
  intros Hl Hr. set (v := match check_mode _ _ _ with Ok _ => _ | Err e => _ end).
  change (wp (PersistentPreRunE plain_flags o) w h (fun r _ => r = v)).
  unfold PersistentPreRunE, set_originator, set_token, nonempty_secret, ReadSecretFile, lstat, read_file.
  apply wp_try, wp_ret. cbn [rf_tokenFile rf_token_changed plain_flags].
  change (is_empty "") with true. cbn [negb]. wp_op. rewrite Hl. intros ? <-. apply wp_try, wp_try, wp_try.
  rewrite wp_value, check_secret_path_run. change (is_abs SessionTokenPath) with true. cbn [negb]. rewrite Hl.
  intros r t [= <- <-]. unfold v. destruct (check_mode _ _ _) as [[]|e]; [|done].
  wp_op. rewrite Hr. intros ? <-. cbn zeta.
  destruct (is_empty (trim_space (f_data f))) eqn:He; apply wp_ret; [done|].
  cbn. rewrite He. by apply wp_ret.
Qed.

(** The file of the session in the end. *)
Definition token_left (token : string) (fs fs' : file_system) : Prop :=
  exists f, fs' !! SessionTokenPath = Some f /\ f_data f = token
    /\ (owner_only_regular (FileInfo (f_mode f)) <-> session_private fs = true).

Lemma stored_left token fs fs' : stored SessionTokenPath token fs fs' -> token_left token fs fs'.
Proof.
  intros Hs. destruct (stored_mode _ _ _ _ Hs) as (f & Hf & Hd & Hm). exists f. split_and!; [done..|].
  by rewrite Hm, session_private_spec.
Qed.

(** Another file of the session does not matter to it. *)
Lemma token_left_besides token fs fs1 fs' path data :
  path <> SessionTokenPath -> token_left token fs fs1 -> stored path data fs1 fs' -> token_left token fs fs'.
Proof.
  intros Hne (f & Hf & Hd & Hm) [mask ->]. exists f. split_and!; [|done..].
  by rewrite lookup_insert_ne by (intros Heq; by apply Hne).
Qed.

(** The token that a login was given: that of the answer, when it could be written,
    or, with the other providers, the first line that was typed. *)
Definition token_received (Provider token : string) (t : trace) : Prop :=
  if is_empty Provider then
    exists req resp, https t = [(req, Ok resp)] /\ answered_token resp = Some token
      /\ ~ saving_failed SessionTokenPath token t
  else exists line rest, typed t = Ok line :: rest /\ token = trim_space line.

Lemma login_leaves_token `{GoLib} ro Provider w h t fs fs' token :
  set_login ro Provider w h = (Returns None, t) -> fs_run fs t fs' -> token_received Provider token t ->
  token_left token fs fs'.
Proof.
  intros Hrun Hfs Hrec.
  assert (Hl : wp (set_login ro Provider) w h (leaves ro Provider)).
  { unfold set_login. destruct (is_empty Provider) eqn:He; [apply is_empty_true in He as ->; apply password_leaves|].
    destruct (streq Provider "google") eqn:Hg; [apply streq_true in Hg as ->; apply google_leaves|].
    destruct (streq Provider "manual") eqn:Hm; [apply streq_true in Hm as ->; apply manual_leaves|].
    by apply wp_ret. }
  unfold wp in Hl. rewrite Hrun in Hl. specialize (Hl eq_refl fs fs' Hfs). cbn [snd] in Hl. revert Hl. unfold session_left, token_received in *.
  destruct (is_empty Provider).
  - destruct Hrec as (req & resp & Hsent & Htok & Hsaved).
    intros (c & user & password & resp' & _ & _ & _ & _ & Hsent' & Hs).
    rewrite Hsent in Hsent'. injection Hsent' as _ ->. rewrite Htok in Hs.
    destruct Hs as [Hs|Hs]; [by apply stored_left | done].
  - destruct Hrec as (line & rest & Ht & ->). destruct (streq Provider "google").
    + intros (_ & access & refresh & fs1 & Ha & H1 & H2). rewrite Ht in Ha. injection Ha as -> _.
      eapply token_left_besides; [|by apply stored_left|exact H2]. discriminate.
    + destruct (streq Provider "manual"); [|done]. intros (_ & access & Ha & Hs). rewrite Ht in Ha.
      injection Ha as -> _. by apply stored_left.
Qed.

(** What the requests of a token carry. *)
Definition bearing (o : RESTOptions) (token : string) : list (string * string) :=
  [("Authorization",
    if ro_BearerAuth o && negb (has_prefix token "Bearer ") then "Bearer " +:+ token else token)].

Definition carries (o : RESTOptions) (headers : list (string * string)) : Prop :=
  forall c meth url body, rc_Options c = o ->
    base.filter (fun h => h.1 = "Authorization") (hq_headers (build_request c meth url body)) = headers.

Lemma with_token_carries o token :
  trim_space token = token -> token <> "" -> carries (with_token o token) (bearing o token).
Proof.
  intros Ht Hne c meth url body Hc. unfold build_request, auth_header, originator_header, bearing. rewrite Hc.
  cbn [hq_headers with_token ro_Token ro_BearerAuth ro_Originator]. rewrite Ht.
  destruct token as [|a token]; [done|]. cbn [is_empty].
  by destruct (is_empty (ro_Originator o)).
Qed.


(** The world of a login at a terminal, and the disks before and after. *)
Definition typing (h : trace) (o : op) : answer o :=
  match o return answer o with
  | OpReadLine => Ok (" eyJhbGci.x.y " +:+ nl)
  | OpOpen _ _ _ | OpWrite _ _ | OpClose _ => None
  | o => silent_world h o
  end.
Definition session_disk : file_system := {[SessionTokenPath := File "eyJhbGci.x.y" 384 false]}.
Definition disk_tells (fs : file_system) : World := fun h o =>
  match o return answer o with
  | OpLstat path => match fs !! path with
                    | Some f => Ok (FileInfo (f_mode f))
                    | None => Err (OsError "no such file or directory" true false)
                    end
  | OpReadFile path => match fs !! path with
                       | Some f => Ok (f_data f)
                       | None => Err (OsError "no such file or directory" true false)
                       end
  | o => silent_world h o
  end.

Lemma disk_tells_spec fs : tells fs (disk_tells fs).
Proof.
  intros h path. destruct (fs !! path) eqn:Hf; unfold disk_tells; rewrite Hf; [done|]. by eexists.
Qed.

Definition typed_line : string := " eyJhbGci.x.y " +:+ nl.


(* ------------------------------------------------------------------ *)
(** ** The end of a session                                            *)
(* ------------------------------------------------------------------ *)

(** A run that does no more to the files than remove those of the session. *)
Definition removal_op (o : op) : Prop :=
  no_file_op o \/ o = OpRemove SessionTokenPath \/ o = OpRemove SessionRefreshTokenPath.

Lemma removals_elsewhere t path fs fs' :
  Forall (fun e => removal_op (ev_op e)) t -> path ∉ [SessionTokenPath; SessionRefreshTokenPath] ->
  fs_run fs t fs' -> fs' !! path = fs !! path.
Proof.
  intros Ht Hp. revert fs. induction Ht as [|[o a] t Ho _ IH]; intros fs; [by intros ->|].
  intros (fs1 & Hs & Hrun). rewrite (IH fs1 Hrun). cbn [ev_op] in Ho.
  destruct Ho as [Ho|[->| ->]]; [by destruct o; simplify_eq/= | |];
    simpl in Hs; rewrite Hs; destruct a; rewrite ?lookup_delete_ne by set_solver; done.
Qed.

(** A removal that succeeded holds to the end. *)
Lemma removed_for_good t path fs fs' :
  Forall (fun e => removal_op (ev_op e)) t -> Ev (OpRemove path) None ∈ t ->
  fs_run fs t fs' -> fs' !! path = None.
Proof.
  intros Ht. revert fs. induction Ht as [|[o a] t Ho Ht IH]; intros fs Hin; [set_solver|].
  intros (fs1 & Hs & Hrun). apply elem_of_cons in Hin as [Heq|Hin]; [|by eapply IH].
  assert (Hgone : fs1 !! path = None).
  { revert Hs. rewrite <- Heq. simpl. intros ->. apply lookup_delete_eq. }
  clear Hs Heq Ho IH. revert fs1 Hgone Hrun.
  induction Ht as [|[o' a'] t Ho _ IH]; intros fs1 Hgone; [by intros ->|].
  intros (fs2 & Hs & Hrun). apply (IH fs2); [|done]. cbn [ev_op] in Ho.
  destruct Ho as [Ho|[->| ->]]; [by destruct o'; simplify_eq/= | |];
    simpl in Hs; rewrite Hs; destruct a'; try done; by apply lookup_delete_None; right.
Qed.

(** The root command without a file of the session. *)
Lemma no_session o (w : World) h :
  (exists e, w h (OpLstat SessionTokenPath) = Err e /\ os_not_exist e = true) ->
  (PersistentPreRunE plain_flags o w h).1 = Ok o.
Proof.
  intros (e & He & Hne). change (wp (PersistentPreRunE plain_flags o) w h (fun r _ => r = Ok o)).
  unfold PersistentPreRunE, set_originator, set_token, lstat. apply wp_try, wp_ret.
  cbn [rf_tokenFile rf_token_changed plain_flags]. change (is_empty "") with true. cbn [negb].
  wp_op. rewrite app_nil_r, He. intros ? <-. apply wp_ret. by rewrite Hne.
Qed.

Section Logout.
Context `{GoLib}.
Variable ro : RESTOptions.

Ltac removal := repeat first [ ops_step | (eapply ops_mono; [|apply say_idle]; by intros o' (Ho & _); left)
                             | (apply ops_perform; unfold removal_op; simpl; tauto) ].

Lemma removals_only :
  ops_satisfy removal_op PrintAndRemoveTokenResult
  /\ ops_satisfy removal_op PrintAndRemoveRefreshTokenResult.
Proof. split; unfold PrintAndRemoveTokenResult, PrintAndRemoveRefreshTokenResult; removal. Qed.

Lemma logout_removals Provider : ops_satisfy removal_op (set_logout ro Provider).
Proof.
  destruct removals_only as [Hrm Hrm2]. unfold set_logout, answered, LogOutAPICall, Create, with_body, POST, http_do.
  repeat first [ ops_step | apply Hrm | apply Hrm2
               | (eapply ops_mono; [|apply client_idle]; by intros o' (Ho & _); left)
               | (apply ops_perform; left; done) | apply ops_ret ].
Qed.

(** A removal and what is said of it. *)
Definition attempted (path what : string) (t : trace) : Prop :=
  exists a, Ev (OpRemove path) a ∈ t
    /\ forall e, a = Some e -> sprintf ["Error: Failed to remove "; what; " file: ("; e; ")"; nl] ∈ printed t.

Lemma attempted_app path what t t1 t2 : attempted path what t -> attempted path what (t1 ++ t ++ t2).
Proof.
  intros (a & Hin & Ha). exists a. split; [set_solver|]. intros e He. rewrite !printed_app. specialize (Ha e He).
  set_solver.
Qed.

Lemma say_says s w h : wp (say s) w h (fun _ t => https t = [] /\ s ∈ printed t).
Proof. unfold say, write_out. wp_op. intros a _. apply wp_ret. split; [done|]. cbn. set_solver. Qed.

Lemma token_removal_attempted w h :
  wp PrintAndRemoveTokenResult w h (fun _ t => https t = [] /\ attempted SessionTokenPath "token" t).
Proof.
  unfold PrintAndRemoveTokenResult. wp_op. intros [e|] _;
    (eapply wp_mono; [apply say_says|]); intros [] t [Ht Hp]; (split; [by rewrite https_app, Ht|]).
  - exists (Some e). split; [set_solver|]. intros e' [= <-]. rewrite printed_app. set_solver.
  - exists None. split; [set_solver | done].
Qed.

Lemma refresh_removal_attempted w h :
  wp PrintAndRemoveRefreshTokenResult w h (fun _ t =>
    https t = [] /\ attempted SessionRefreshTokenPath "refreshtoken" t).
Proof.
  unfold PrintAndRemoveRefreshTokenResult. wp_op. intros [e|] _.
  - eapply wp_mono; [apply say_says|]. intros [] t [Ht Hp]. split; [by rewrite https_app, Ht|].
    exists (Some e). split; [set_solver|]. intros e' [= <-]. rewrite printed_app. set_solver.
  - apply wp_ret. split; [done|]. exists None. split; [set_solver | done].
Qed.

(** The removals of each provider. *)
Lemma logout_attempts Provider w h :
  wp (set_logout ro Provider) w h (fun out t =>
    (out = Returns None -> Provider ∈ [""; "google"; "manual"] /\ attempted SessionTokenPath "token" t
       /\ (Provider = "google" -> attempted SessionRefreshTokenPath "refreshtoken" t))
    /\ (Provider <> "" -> https t = []
        /\ if bool_decide (Provider ∈ ["google"; "manual"]) then out = Returns None
           else t = [] /\ exists e, out = Returns (Some e) /\ ce_Code (Classify e) = InvalidArgument)).
Proof.
  unfold set_logout. destruct (is_empty Provider) eqn:He.
  { apply is_empty_true in He as ->. unfold answered, LogOutAPICall. apply wp_assoc, wp_client. intros c t Hc Ht _.
    unfold Create. rewrite (with_body_run _ (encode nil_body)) by (vm_compute; done).
    unfold POST. apply wp_bind, wp_http. intros [resp|e]; [|by apply wp_ret].
    destruct (hr_status resp =? 200)%Z; [|by apply wp_ret].
    apply wp_bind. eapply wp_mono; [apply token_removal_attempted|]. intros [] t' [_ Ha]. apply wp_ret.
    rewrite app_nil_r. split; [|done]. intros _. split_and!; [set_solver | | done].
    rewrite app_assoc, <- (app_nil_r t'). by apply attempted_app. }
  apply is_empty_false in He. destruct (streq Provider "google") eqn:Hg.
  { apply streq_true in Hg as ->. apply wp_bind. eapply wp_mono; [apply refresh_removal_attempted|].
    intros [] t [Ht Ha]. apply wp_bind. eapply wp_mono; [apply token_removal_attempted|]. intros [] t' [Ht' Ha'].
    apply wp_ret. rewrite app_nil_r, https_app, Ht, Ht'. split.
    - intros _. split_and!; [set_solver | |].
      + rewrite <- (app_nil_r t'). by apply attempted_app.
      + intros _. by apply (attempted_app _ _ t []).
    - intros _. split; [done|]. by rewrite bool_decide_true by set_solver. }
  apply streq_false in Hg. destruct (streq Provider "manual") eqn:Hm.
  { apply streq_true in Hm as ->. apply wp_bind. eapply wp_mono; [apply token_removal_attempted|].
    intros [] t [Ht Ha]. apply wp_ret. rewrite app_nil_r. split; [|intros _; split; [done|]].
    - intros _. split_and!; [set_solver | done | done].
    - by rewrite bool_decide_true by set_solver. }
  apply streq_false in Hm. apply wp_ret. split; [done|]. intros _. split; [done|].
  rewrite bool_decide_false by set_solver. split; [done|]. by eexists.
Qed.

(** The files go only after the gateway has confirmed. *)
Lemma logout_asks_first w h :
  wp (set_logout ro "") w h (fun out t =>
    exists c r, rc_Options c = ro
      /\ https t = [(build_request c "POST" (GetUrlString (SetUrl (Client.Login c) "/auth/logout"))
                      (Some (encode nil_body)), r)]
      /\ match r with
         | Ok resp =>
             if (hr_status resp =? 200)%Z
             then out = Returns None /\ exists a, Ev (OpRemove SessionTokenPath) a ∈ t
             else (exists e, out = Returns (Some e) /\ ce_Code (Classify e) = status_code (hr_status resp))
                  /\ forall path a, Ev (OpRemove path) a ∉ t
         | Err _ => (exists e, out = Returns (Some e) /\ ce_Code (Classify e) = Unavailable)
                    /\ forall path a, Ev (OpRemove path) a ∉ t
         end).
Proof.
  unfold set_logout, answered, LogOutAPICall. cbn [is_empty streq].
  apply wp_assoc, wp_client. intros c t Hc Ht Hops.
  assert (Hnone : forall path a, Ev (OpRemove path) a ∉ t).
  { intros path a Hin. rewrite Forall_forall in Hops. by apply Hops in Hin. }
  unfold Create. rewrite (with_body_run _ (encode nil_body)) by (vm_compute; done).
  unfold POST. apply wp_bind, wp_http. intros [resp|e].
  2: { apply wp_ret. exists c, (Err e). rewrite https_app, Ht. split_and!; [done | done | by eexists |].
       intros path a. specialize (Hnone path a). set_solver. }
  destruct (hr_status resp =? 200)%Z eqn:Hs.
  - unfold PrintAndRemoveTokenResult. apply wp_bind. wp_op. intros a _.
    apply quiet_wp.
    { eapply ops_mono; [|destruct a; apply say_idle]. by intros o (_ & Ho & _). }
    intros _ t' Ht'. apply wp_ret. exists c, (Ok resp). rewrite app_nil_r, !https_app, Ht, Ht', Hs.
    split_and!; [done..|]. exists a. set_solver.
  - apply wp_ret. exists c, (Ok resp). rewrite https_app, Ht, Hs. split_and!; [done | done | by eexists |].
    intros path a. specialize (Hnone path a). set_solver.
Qed.
End Logout.

(** C38: [set logout] ends the session.  Whatever it meets, no other file is
    changed.  When it ends with status 0, for each of the three providers, the
    session's token has been removed and the next command runs without a token of a
    session, or the removal has failed and that is said on stdout; with [google] the
    refresh token likewise.  Without a provider the gateway is asked first, with one
    POST, and nothing is removed unless it confirms with 200; that confirmation is
    the success of the command.  With [google] and [manual] nothing is sent and the
    command ends with status 0; another provider is INVALID_ARGUMENT and nothing is
    done. *)
Theorem logout_ends_session `{GoLib} ro Provider w h :
  wp (set_logout ro Provider) w h (fun out t =>
    (forall fs fs' path, fs_run fs t fs' ->
       path ∉ [SessionTokenPath; SessionRefreshTokenPath] -> fs' !! path = fs !! path)
    /\ (out = Returns None -> Provider ∈ [""; "google"; "manual"]
         /\ (exists a, Ev (OpRemove SessionTokenPath) a ∈ t
              /\ match a with
                 | None => forall fs fs' o (w' : World) h', fs_run fs t fs' -> tells fs' w' ->
                             (PersistentPreRunE plain_flags o w' h').1 = Ok o
                 | Some e => sprintf ["Error: Failed to remove token file: ("; e; ")"; nl] ∈ printed t
                 end)
         /\ (Provider = "google" -> exists a, Ev (OpRemove SessionRefreshTokenPath) a ∈ t
              /\ match a with
                 | None => forall fs fs', fs_run fs t fs' -> fs' !! SessionRefreshTokenPath = None
                 | Some e => sprintf ["Error: Failed to remove refreshtoken file: ("; e; ")"; nl] ∈ printed t
                 end))
    /\ (Provider = "" -> exists resp c, rc_Options c = ro
        /\ https t = [(build_request c "POST" (GetUrlString (at_path "/auth/logout" c)) (Some "null"), resp)]
        /\ (out = Returns None <-> exists r, resp = Ok r /\ hr_status r = 200%Z)
        /\ (out <> Returns None -> forall path a, Ev (OpRemove path) a ∉ t))
    /\ (Provider <> "" -> https t = []
        /\ if bool_decide (Provider ∈ ["google"; "manual"]) then out = Returns None
           else t = [] /\ exists e, out = Returns (Some e) /\ ce_Code (Classify e) = InvalidArgument)).
Proof.
  rewrite wp_value. intros out t Hrun. assert (Hops := logout_removals ro Provider w h).
  assert (Hdone := logout_attempts ro Provider w h). unfold wp in Hdone.
  rewrite Hrun in Hops, Hdone. cbn [fst snd] in Hops, Hdone. destruct Hdone as [Hdone Hother]. split_and!.
  - intros fs fs' path Hfs Hp. by eapply removals_elsewhere.
  - intros Hout. destruct (Hdone Hout) as (Hp & Htok & Href). split; [done|]. split.
    + destruct Htok as (a & Hin & Ha). exists a. split; [done|]. destruct a as [e|]; [by apply Ha|].
      intros fs fs' o w' h' Hfs Htells. apply no_session. specialize (Htells h' SessionTokenPath).
      by rewrite (removed_for_good _ _ _ _ Hops Hin Hfs) in Htells.
    + intros Hg. destruct (Href Hg) as (a & Hin & Ha). exists a. split; [done|]. destruct a as [e|]; [by apply Ha|].
      intros fs fs' Hfs. by eapply removed_for_good.
  - intros ->. assert (Ha := logout_asks_first ro w h). unfold wp in Ha. rewrite Hrun in Ha. cbn [fst snd] in Ha.
    destruct Ha as (c & r & Hc & Hsent & Hr). exists r, c. split; [done|]. split; [done|].
    destruct r as [resp|e].
    + destruct (Z.eqb_spec (hr_status resp) 200) as [Hs|Hs].
      * destruct Hr as [? _]. subst out. split; [|done]. split; [intros _; by exists resp | done].
      * destruct Hr as [(e & He & _) Hn]. subst out. split; [|done]. split; [done|]. by intros (? & [= <-] & ?).
    + destruct Hr as [(e' & He & _) Hn]. subst out. split; [|done]. split; [done|]. by intros (? & ? & ?).
  - exact Hother.
Qed.

(* ------------------------------------------------------------------ *)
(** ** A login goes through                                            *)
(* ------------------------------------------------------------------ *)

(** The terminal, the disk and the gateway do their part. *)
Record cooperates (w : World) (h0 : trace) (first second password : string) (resp : http_response)
    : Prop := {
  co_line : forall t, w (h0 ++ t) OpReadLine = Ok (match typed t with [] => first | _ => second end);
  co_password : forall h, w h OpReadPassword = Ok password;
  co_open : forall h path append perm, w h (OpOpen path append perm) = None;
  co_write : forall h path data, w h (OpWrite path data) = None;
  co_close : forall h path, w h (OpClose path) = None;
  co_answer : forall h req, w h (OpHttp req) = Ok resp;
  co_confirmed : hr_status resp = 200%Z
}.

Section Progress.
Context `{GoLib} (ro : RESTOptions) (w : World) (h0 : trace) (first second password : string).
Context (resp : http_response).
Hypothesis good : cooperates w h0 first second password resp.

Definition goes_through (token : string) (out : outcome) (t : trace) : Prop :=
  out = Returns None /\ forall fs fs', fs_run fs t fs' -> token_left token fs fs'.

Lemma ask_good what text k t0 (Q : outcome -> trace -> Prop) :
  (forall t, typed t = [Ok (match typed t0 with [] => first | _ => second end)] ->
     (forall fs fs', fs_run fs t fs' -> fs' = fs) ->
     wp (k (trim_space (match typed t0 with [] => first | _ => second end))) w (h0 ++ t0 ++ t)
       (fun out t' => Q out (t ++ t'))) ->
  wp (asked_for what text k) w (h0 ++ t0) Q.
Proof.
  intros Hk. unfold asked_for, prompt. apply wp_bind, wp_idle; [apply say_idle|]. intros _ t Ht.
  wp_op. rewrite <- app_assoc, (co_line _ _ _ _ _ _ good), typed_app, (idle_typed t), app_nil_r by done. intros ? <-.
  apply wp_ret. rewrite app_nil_r. rewrite <- !app_assoc. apply Hk.
  - by rewrite typed_app, idle_typed.
  - intros fs fs' (fs1 & H1 & fs2 & H2 & ->)%fs_run_app. apply idle_run in H1; [|done]. by subst fs1.
Qed.

Lemma write_good {B} path data (k : option string -> IO B) h (Q : B -> trace -> Prop) :
  (forall t h', (forall fs fs', fs_run fs t fs' -> stored path data fs fs') ->
     wp (k None) w h' (fun b t' => Q b (t ++ t'))) ->
  wp (mbind k (write_file path data 384)) w h Q.
Proof.
  intros Hk. apply wp_bind.
  assert (Hnone : wp (write_file path data 384) w h (fun r _ => r = None)).
  { unfold write_file. wp_op. rewrite (co_open _ _ _ _ _ _ good). intros ? <-.
    wp_op. rewrite (co_write _ _ _ _ _ _ good). intros ? <-.
    wp_op. rewrite (co_close _ _ _ _ _ _ good). intros ? <-. by apply wp_ret. }
  assert (Hw := write_file_wp path data w h). rewrite wp_value in Hnone, Hw |- *.
  intros r t Hrun. specialize (Hnone _ _ Hrun). destruct (Hw _ _ Hrun) as (_ & _ & Hs). subst r. by apply Hk.
Qed.

Lemma succeed_good token t0 h :
  (forall fs fs', fs_run fs t0 fs' -> token_left token fs fs') ->
  wp login_succeeded w h (fun out t => goes_through token out (t0 ++ t)).
Proof.
  intros Hs. apply succeeded_wp. intros t Ht. split; [done|].
  intros fs fs' (fs1 & H1 & H2)%fs_run_app. apply idle_run in H2 as ->; [|done]. by apply Hs.
Qed.

Lemma manual_good : wp login_manual w h0 (goes_through (trim_space first)).
Proof.
  rewrite <- (app_nil_r h0) at 1. apply ask_good. intros t _ Hfs. apply write_good. intros t2 h2 Hfs2.
  eapply wp_mono; [apply (succeed_good (trim_space first) (t ++ t2))|].
  - intros fs fs' (fs1 & H1 & H2)%fs_run_app. apply Hfs in H1 as ->. by apply stored_left, Hfs2.
  - intros out t3. by rewrite app_assoc.
Qed.

Lemma google_good : wp login_google w h0 (fun out t =>
  goes_through (trim_space first) out t
  /\ forall fs fs', fs_run fs t fs' ->
       exists f, fs' !! SessionRefreshTokenPath = Some f /\ f_data f = trim_space second).
Proof.
  apply wp_idle; [apply say_idle|]. intros _ t0 Ht0. apply ask_good. rewrite (idle_typed t0) by done.
  intros t Hty Hfs. cbv beta. rewrite app_assoc, <- (app_assoc h0). apply (ask_good _ _ _ (t0 ++ t)).
  rewrite typed_app, (idle_typed t0), Hty by done. intros t2 _ Hfs2.
  apply write_good. intros t3 h3 Hfs3. apply write_good. intros t4 h4 Hfs4.
  apply succeeded_wp. intros t5 Ht5.
  assert (Hrun : forall fs fs', fs_run fs (t0 ++ t ++ t2 ++ t3 ++ t4 ++ t5) fs' ->
    exists fs1, stored SessionTokenPath (trim_space first) fs fs1
      /\ stored SessionRefreshTokenPath (trim_space second) fs1 fs').
  { intros fs fs' Hrun. repeat setoid_rewrite fs_run_app in Hrun.
    destruct Hrun as (f0 & H0 & f1 & H1 & f2 & H2 & f3 & H3 & f4 & H4 & H5).
    apply idle_run in H0 as ->; [|done]. apply Hfs in H1 as ->. apply Hfs2 in H2 as ->.
    apply idle_run in H5 as ->; [|done]. exists f3. split; [by apply Hfs3 | by apply Hfs4]. }
  split; [split; [done|]|]; intros fs fs' (fs1 & H1 & H2)%Hrun.
  - eapply token_left_besides; [|by apply stored_left|exact H2]. discriminate.
  - destruct (stored_mode _ _ _ _ H2) as (f & Hf & Hd & _). by exists f.
Qed.

Lemma password_good token :
  answered_token resp = Some token -> wp (login_password ro) w h0 (goes_through token).
Proof.
  intros Htok. rewrite <- (app_nil_r h0) at 1. apply ask_good. intros t _ Hfs. cbn [typed mbind list_bind]. apply wp_idle; [apply say_idle|]. intros _ t2 Ht2.
  wp_op. rewrite (co_password _ _ _ _ _ _ good). intros ? <-.
  unfold answered, LoginAPICall. apply wp_assoc, wp_idle; [apply client_idle|]. intros c t3 Ht3.
  unfold Create. rewrite (with_body_run _ (encode (login_model_json
    (ReadSetLogInOptions (trim_space first) password)))) by done.
  unfold POST, http_do. wp_op. rewrite (co_answer _ _ _ _ _ _ good). intros ? <-.
  rewrite (co_confirmed _ _ _ _ _ _ good). change (200 =? 200)%Z with true. cbv iota.
  unfold PrintAndSaveTokenResult. unfold answered_token in Htok.
  destruct (hr_body_error resp); [done|]. destruct (unmarshal TokenModel _) as [tok|]; [|done].
  cbn [fmap option_fmap option_map mbind option_bind] in Htok.
  destruct (is_empty (tkm_Token tok)); [done|]. injection Htok as <-.
  apply wp_assoc, write_good. intros t4 h4 Hfs4.
  assert (Hend : forall s, wp (say s ≫= fun _ => succeed) w h4 (fun out t' => goes_through (tkm_Token tok) out
     (t ++ t2 ++ [Ev OpReadPassword (Ok password)] ++ t3
      ++ [Ev (OpHttp (build_request (ca_restClient (Client.Login c)) "POST" (GetUrlString (Client.Login c))
            (Some (encode (login_model_json (ReadSetLogInOptions (trim_space first) password)))))) (Ok resp)]
      ++ t4 ++ t'))).
  { intros s. apply wp_idle; [apply say_idle|]. intros _ t5 Ht5. apply wp_ret. split; [done|].
    rewrite app_nil_r. intros fs fs' Hrun. repeat setoid_rewrite fs_run_app in Hrun.
    destruct Hrun as (f0 & H0 & f1 & H1 & f2 & H2 & f3 & H3 & f4 & H4 & f5 & H5 & H6).
    apply Hfs in H0 as ->. apply idle_run in H1 as ->; [|done]. apply idle_run in H3 as ->; [|done].
    destruct H2 as (? & H2 & H2'). simpl in H2, H2'. subst. destruct H4 as (? & H4 & H4'). simpl in H4, H4'. subst.
    apply idle_run in H6 as ->; [|done]. by apply stored_left, Hfs4. }
  destruct (streq _ _); apply Hend.
Qed.
End Progress.

(** C39: a login goes through: when the disk and the gateway do their part, the
    terminal answers the first prompt for a line with one line and any further one
    with another, and the token is not blank (that of the answer, or for the other
    providers the first line), [set login] ends with status 0, and the next command
    on the files it leaves runs with that token, provided the file of the session
    was private or not there; with [google] the second line is left in the file of
    the refresh token. *)
Theorem login_goes_through `{GoLib} ro Provider w h first second password resp token :
  cooperates w h first second password resp ->
  Provider ∈ [""; "google"; "manual"] ->
  (if is_empty Provider then answered_token resp = Some token else token = first) ->
  trim_space token <> "" ->
  exists t, set_login ro Provider w h = (Returns None, t)
    /\ (forall fs fs' o (w' : World) h',
         fs_run fs t fs' -> session_private fs = true -> tells fs' w' ->
         (PersistentPreRunE plain_flags o w' h').1 = Ok (with_token o (trim_space token)))
    /\ (Provider = "google" -> forall fs fs', fs_run fs t fs' ->
         exists f, fs' !! SessionRefreshTokenPath = Some f /\ f_data f = trim_space second).
Proof.
  intros Hgood Hp Htok Hblank.
  assert (exists left, trim_space left = trim_space token
            /\ wp (set_login ro Provider) w h (fun out t => goes_through left out t
                 /\ (Provider = "google" -> forall fs fs', fs_run fs t fs' ->
                       exists f, fs' !! SessionRefreshTokenPath = Some f /\ f_data f = trim_space second)))
    as (left & Hleft & Hwp).
  { rewrite !elem_of_cons, elem_of_nil in Hp. destruct Hp as [->|[->|[->|[]]]]; cbn in Htok.
    - exists token. split; [done|]. eapply wp_mono; [by apply (password_good ro w h first second password resp)|].
      by intros.
    - exists (trim_space first). subst token. split; [apply trim_space_twice|].
      eapply wp_mono; [by apply (google_good w h first second password resp)|]. intros out t [Hg Hr]. auto.
    - exists (trim_space first). subst token. split; [apply trim_space_twice|].
      eapply wp_mono; [by apply (manual_good w h first second password resp)|]. by intros. }
  rewrite wp_value in Hwp. destruct (set_login ro Provider w h) as [out t].
  destruct (Hwp _ _ eq_refl) as [[-> Hfs] Hrefresh]. exists t. split; [done|]. split; [|done].
  intros fs fs' o w' h' Hrun Hpriv Htells. destruct (Hfs _ _ Hrun) as (f & Hf & Hd & Hm).
  rewrite (token_of_session o w' h' f).
  - rewrite (proj2 (check_mode_ok _ _ _)) by (by apply Hm). rewrite Hd, Hleft.
    destruct (is_empty (trim_space token)) eqn:He; [|done]. by apply is_empty_true in He.
  - intros k. specialize (Htells k SessionTokenPath). rewrite Hf in Htells. apply Htells.
  - intros k. specialize (Htells k SessionTokenPath). rewrite Hf in Htells. apply Htells.
Qed.

(** A google login at a terminal. *)
Definition token_answer : http_response :=
  HttpResponse 200 [] (sprintf ["{"; dquote; "token"; dquote; ":"; dquote; "eyJhbGci.x.y"; dquote; "}"]) None.
Definition obliging (h : trace) (o : op) : answer o :=
  match o return answer o with
  | OpReadLine => Ok (match typed h with [] => "ya29.access" +:+ nl | _ => "1//refresh" +:+ nl end)
  | OpReadPassword => Ok "secret"
  | OpOpen _ _ _ | OpWrite _ _ | OpClose _ => None
  | OpHttp _ => Ok token_answer
  | o => silent_world h o
  end.

Lemma login_goes_through_witness :
  exists t, set_login (H := plain_text) local_options "google" obliging [] = (Returns None, t)
    /\ (forall fs fs' o (w' : World) h',
         fs_run fs t fs' -> session_private fs = true -> tells fs' w' ->
         (PersistentPreRunE plain_flags o w' h').1 = Ok (with_token o (trim_space ("ya29.access" +:+ nl))))
    /\ ("google" = "google" -> forall fs fs', fs_run fs t fs' ->
         exists f, fs' !! SessionRefreshTokenPath = Some f /\ f_data f = trim_space ("1//refresh" +:+ nl)).
Proof.
  apply (login_goes_through (H := plain_text) local_options "google" obliging [] ("ya29.access" +:+ nl)
           ("1//refresh" +:+ nl) "secret" token_answer ("ya29.access" +:+ nl)).
  - by constructor.
  - right. left.
  - reflexivity.
  - vm_compute. discriminate.
Defined.
