(* ===== verification/CliTables.v ===== *)
(** * The commands and flags of loxicmd

    What the program declares to cobra and pflag: the grammar of commands and flags,
    and every command that [cmd/] declares, with its words, its positional arguments
    and its flags in the order of the code, and the tree they form.  A command is
    named as the function that makes it; the text of the help is left out. *)
From S2P Require Import Prelude GoStrings AuditSinks.


(* ------------------------------------------------------------------ *)
(** ** The grammar of the command line                               *)
(* ------------------------------------------------------------------ *)

(** cobra finds a command by the first word of its usage text or by an alias, and
    joins the flags of a command with the persistent flags of the commands above it;
    a flag of the command hides a persistent one of the same name. *)
Inductive flag_type : Type :=
  | TBool | TString | TStringSlice | TStringArray | TIntSlice
  | TInt | TInt16 | TInt32 | TInt64 | TUint8 | TUint16 | TUint32 | TUint64 | TFloat64
  | TValue.

(** The value of a flag that is not given; [DNone] is [nil], a list that is empty,
    or what a type of the program starts with. *)
Inductive default_value : Type :=
  | DNone
  | DBool (b : bool)
  | DInt (z : Z)
  | DStr (s : string).

(** A flag without a shorthand has an empty one. *)
Record flag : Type := Flag {
  fg_name : string;
  fg_short : string;
  fg_type : flag_type;
  fg_default : default_value
}.

Inductive positional : Type :=
  | AnyArgs
  | NoArgs
  | ExactArgs (n : nat)
  | MaximumNArgs (n : nat)
  | ExactValidArgs (n : nat) (valid : list string).

Inductive command : Type := Command {
  cm_use : string;
  cm_aliases : list string;
  cm_args : positional;
  cm_flags : list flag;
  cm_persistent : list flag;
  cm_commands : list command
}.

(** The words a command is called by. *)
Definition first_word (s : string) : string :=
  match split_first " "%char s with Some (w, _) => w | None => s end.
Definition called (c : command) : list string := first_word (cm_use c) :: cm_aliases c.

(** The flags that a command hears, when [above] are the persistent flags of the
    commands above it. *)
Definition flag_named (l : list flag) (name : string) : bool := existsb (fun f => streq (fg_name f) name) l.
Definition heard (above : list flag) (c : command) : list flag :=
  let own := cm_flags c ++ cm_persistent c in
  own ++ List.filter (fun f => negb (flag_named own (fg_name f))) above.

(** What the tree is asked about, at every command of it. *)
Fixpoint everywhere (check : list flag -> command -> bool) (above : list flag) (c : command) : bool :=
  check above c
  && forallb (everywhere check (cm_persistent c ++ above)) (cm_commands c).

(** pflag panics when a name or a shorthand comes twice. *)
Definition distinct (l : list string) : bool := bool_decide (NoDup l).
Definition flags_distinct (above : list flag) (c : command) : bool :=
  let l := heard above c in
  distinct (fg_name <$> l)
  && distinct (List.filter (fun s => negb (is_empty s)) (fg_short <$> l)).

(** No two commands below one command share a word. *)
Fixpoint apart (l : list (list string)) : bool :=
  match l with
  | [] => true
  | ws :: l' => forallb (fun ws' => negb (existsb (fun w => str_in w ws') ws)) l' && apart l'
  end.
Definition names_distinct (above : list flag) (c : command) : bool := apart (called <$> cm_commands c).

(* ------------------------------------------------------------------ *)
(** ** The commands of [get]                                          *)
(* ------------------------------------------------------------------ *)

Definition NewGetLoadBalancerCmd_flags : list flag :=
  [Flag "servName" "" TString (DStr "");
   Flag "bands" "" TBool (DBool false)].

Definition NewGetLoadBalancerCmd : command :=
  Command "loadbalancer"
    ["lb"; "loadbalancers"; "lbs"] AnyArgs
    NewGetLoadBalancerCmd_flags []
    [].

Definition NewGetConntrackCmd_flags : list flag :=
  [Flag "servName" "" TString (DStr "")].

Definition NewGetConntrackCmd : command :=
  Command "conntrack"
    ["ct"; "conntracks"; "cts"] AnyArgs
    NewGetConntrackCmd_flags []
    [].

Definition NewGetPortCmd : command :=
  Command "port"
    [] AnyArgs
    [] []
    [].

Definition NewGetSessionCmd : command :=
  Command "session"
    ["session"; "sessions"] AnyArgs
    [] []
    [].

Definition NewGetSessionULCLCmd : command :=
  Command "sessionulcl"
    ["ulcl"; "sessionulcls"; "ulcls"] AnyArgs
    [] []
    [].

Definition NewGetPolicyCmd : command :=
  Command "policy"
    ["pol"; "policys"; "pols"; "polices"] AnyArgs
    [] []
    [].

Definition NewGetRouteCmd : command :=
  Command "route"
    [] AnyArgs
    [] []
    [].

Definition NewGetIPAddressCmd : command :=
  Command "ip"
    ["ipv4address"; "ipv4"] AnyArgs
    [] []
    [].

Definition NewGetNeighborCmd : command :=
  Command "neighbor"
    ["nei"; "neigh"] AnyArgs
    [] []
    [].

Definition NewGetStatusProcessCmd : command :=
  Command "process"
    ["Process"; "processes"] AnyArgs
    [] []
    [].

Definition NewGetStatusDeviceCmd : command :=
  Command "device"
    ["devices"] AnyArgs
    [] []
    [].

Definition NewGetStatusFileSystemCmd : command :=
  Command "filesystem"
    ["fs"] AnyArgs
    [] []
    [].

Definition NewGetVlanCmd : command :=
  Command "vlan"
    [] AnyArgs
    [] []
    [].

Definition NewGetMirrorCmd : command :=
  Command "mirror"
    ["mirror"; "mirr"; "mirrors"] AnyArgs
    [] []
    [].

Definition NewGetFirewallCmd : command :=
  Command "firewall"
    ["Firewall"; "fw"; "firewalls"] AnyArgs
    [] []
    [].

Definition NewGetFDBCmd : command :=
  Command "fdb"
    [] AnyArgs
    [] []
    [].

Definition NewGetVxlanCmd : command :=
  Command "vxlan"
    [] AnyArgs
    [] []
    [].

Definition NewGetEndPointCmd : command :=
  Command "endpoint"
    ["endpoint"; "ep"; "endpoints"] AnyArgs
    [] []
    [].

Definition NewGetLogLevelCmd : command :=
  Command "log-level"
    ["loglevel"] AnyArgs
    [] []
    [].

Definition NewGetBGPNeighborCmd : command :=
  Command "bgpneighbor"
    ["bgpnei"; "bgpneigh"] AnyArgs
    [] []
    [].

Definition NewGetHaStateCmd : command :=
  Command "hastate"
    ["ha"; "HAstate"] AnyArgs
    [] []
    [].

Definition NewGetBFDCmd : command :=
  Command "bfd"
    [] AnyArgs
    [] []
    [].

Definition NewGetVersionCmd : command :=
  Command "lbversion"
    ["LBversion"; "LBVersion"; "llbversion"] AnyArgs
    [] []
    [].

Definition NewGetAPIKeyCmd_flags : list flag :=
  [Flag "tenant-id" "" TString (DStr "")].

Definition NewGetAPIKeyCmd : command :=
  Command "apikey [KEY-ID] [--tenant-id=<tenant>]"
    ["apikeys"] AnyArgs
    NewGetAPIKeyCmd_flags []
    [].

Definition NewGetRateLimitCmd : command :=
  Command "ratelimit <TENANT-ID>"
    ["ratelimits"; "quota"] AnyArgs
    [] []
    [].

Definition NewGetObjectiveCmd : command :=
  Command "objective [NAME]"
    ["objectives"] AnyArgs
    [] []
    [].

Definition NewGetNetIdentityCmd : command :=
  Command "netidentity [NAME]"
    ["netidentities"; "netid"] AnyArgs
    [] []
    [].

Definition NewGetJWTAuthProfileCmd : command :=
  Command "jwtauthprofile [NAME]"
    ["jwtauthprofiles"; "jwtprofile"] AnyArgs
    [] []
    [].

Definition NewGetKvInventoryCmd_flags : list flag :=
  [Flag "service-id" "" TInt64 (DInt 0);
   Flag "ep-idx" "" TInt64 (DInt 0)].

Definition NewGetKvInventoryCmd : command :=
  Command "kvinventory --service-id=<id> --ep-idx=<idx>"
    ["kv-inventory"] AnyArgs
    NewGetKvInventoryCmd_flags []
    [].

Definition NewGetCertCmd : command :=
  Command "cert <CERT-ID>"
    [] AnyArgs
    [] []
    [].

Definition NewGetSNICmd : command :=
  Command "sni"
    ["snicert"; "snicerts"] AnyArgs
    [] []
    [].

Definition NewGetMetricsCmd : command :=
  Command "metrics"
    [] AnyArgs
    [] []
    [].

Definition NewGetGPUCmd_flags : list flag :=
  [Flag "workers" "" TBool (DBool false)].

Definition NewGetGPUCmd : command :=
  Command "gpu"
    [] AnyArgs
    NewGetGPUCmd_flags []
    [].

Definition NewGetPIICmd_flags : list flag :=
  [Flag "stats" "" TBool (DBool false)].

Definition NewGetPIICmd : command :=
  Command "pii"
    [] AnyArgs
    NewGetPIICmd_flags []
    [].

Definition NewGetLlamaFirewallCmd_flags : list flag :=
  [Flag "stats" "" TBool (DBool false)].

Definition NewGetLlamaFirewallCmd : command :=
  Command "llamafirewall"
    [] AnyArgs
    NewGetLlamaFirewallCmd_flags []
    [].

Definition NewGetTraceCmd_flags : list flag :=
  [Flag "otlp" "" TBool (DBool false);
   Flag "parsers" "" TBool (DBool false)].

Definition NewGetTraceCmd : command :=
  Command "trace"
    [] AnyArgs
    NewGetTraceCmd_flags []
    [].

Definition NewGetL4TraceCmd : command :=
  Command "l4trace"
    [] AnyArgs
    [] []
    [].

Definition NewGetOPACmd : command :=
  Command "opa"
    [] AnyArgs
    [] []
    [].

Definition NewGetDPUCmd_flags : list flag :=
  [Flag "hwcounters" "" TBool (DBool false);
   Flag "flows" "" TBool (DBool false);
   Flag "pipe" "" TString (DStr "");
   Flag "svc" "" TString (DStr "");
   Flag "ep" "" TString (DStr "");
   Flag "limit" "" TInt (DInt 200)].

Definition NewGetDPUCmd : command :=
  Command "dpu"
    [] AnyArgs
    NewGetDPUCmd_flags []
    [].

Definition NewGetSnapshotCmd_flags : list flag :=
  [Flag "components" "" TString (DStr "");
   Flag "file" "f" TString (DStr "");
   Flag "strict" "" TBool (DBool false)].

Definition NewGetSnapshotCmd : command :=
  Command "snapshot"
    [] AnyArgs
    NewGetSnapshotCmd_flags []
    [].

Definition NewGetMaintenanceCmd : command :=
  Command "maintenance"
    [] AnyArgs
    [] []
    [].

Definition NewGetReadyCmd : command :=
  Command "ready"
    [] AnyArgs
    [] []
    [].

Definition NewGetDiagnosticsCmd : command :=
  Command "diagnostics"
    [] AnyArgs
    [] []
    [].

Definition NewGetLogsCmd_flags : list flag :=
  [Flag "lines" "" TInt (DInt 100);
   Flag "level" "" TString (DStr "");
   Flag "keyword" "" TString (DStr "");
   Flag "file" "" TString (DStr "");
   Flag "cursor" "" TString (DStr "")].

Definition NewGetLogsCmd : command :=
  Command "logs"
    [] NoArgs
    NewGetLogsCmd_flags []
    [].

Definition NewGetLogArchivesCmd_flags : list flag :=
  [Flag "file" "f" TString (DStr "")].

Definition NewGetLogArchivesCmd : command :=
  Command "log-archives [NAME]"
    [] (MaximumNArgs 1)
    NewGetLogArchivesCmd_flags []
    [].

Definition NewGetAuditStatusCmd : command :=
  Command "audit-status"
    [] NoArgs
    [] []
    [].

Definition NewGetAuditSinkCmd : command :=
  Command "audit-sink [NAME]"
    [] (MaximumNArgs 1)
    [] []
    [].

Definition GetCmd_tree : command :=
  Command "get"
    [] AnyArgs
    [] []
    [NewGetLoadBalancerCmd; NewGetConntrackCmd; NewGetPortCmd; NewGetSessionCmd;
     NewGetSessionULCLCmd; NewGetPolicyCmd; NewGetRouteCmd; NewGetIPAddressCmd; NewGetNeighborCmd;
     NewGetStatusProcessCmd; NewGetStatusDeviceCmd; NewGetStatusFileSystemCmd; NewGetVlanCmd;
     NewGetMirrorCmd; NewGetFirewallCmd; NewGetFDBCmd; NewGetVxlanCmd; NewGetEndPointCmd;
     NewGetLogLevelCmd; NewGetBGPNeighborCmd; NewGetHaStateCmd; NewGetBFDCmd; NewGetVersionCmd;
     NewGetAPIKeyCmd; NewGetRateLimitCmd; NewGetObjectiveCmd; NewGetNetIdentityCmd;
     NewGetJWTAuthProfileCmd; NewGetKvInventoryCmd; NewGetCertCmd; NewGetSNICmd; NewGetMetricsCmd;
     NewGetGPUCmd; NewGetPIICmd; NewGetLlamaFirewallCmd; NewGetTraceCmd; NewGetL4TraceCmd;
     NewGetOPACmd; NewGetDPUCmd; NewGetSnapshotCmd; NewGetMaintenanceCmd; NewGetReadyCmd;
     NewGetDiagnosticsCmd; NewGetLogsCmd; NewGetLogArchivesCmd; NewGetAuditStatusCmd;
     NewGetAuditSinkCmd].

(* ------------------------------------------------------------------ *)
(** ** The commands of [create]                                       *)
(* ------------------------------------------------------------------ *)

Definition NewCreateLoadBalancerCmd_flags : list flag :=
  [Flag "tcp" "" TStringSlice DNone;
   Flag "udp" "" TStringSlice DNone;
   Flag "sctp" "" TStringSlice DNone;
   Flag "icmp" "" TBool (DBool false);
   Flag "mode" "" TString (DStr "");
   Flag "bgp" "" TBool (DBool false);
   Flag "monitor" "" TBool (DBool false);
   Flag "secips" "" TStringSlice DNone;
   Flag "select" "" TString (DStr "rr");
   Flag "inatimeout" "" TUint32 (DInt 0);
   Flag "mark" "" TUint32 (DInt 0);
   Flag "connection-limit" "" TUint32 (DInt 0);
   Flag "fc-max-queue-depth" "" TUint32 (DInt 0);
   Flag "fc-mode" "" TString (DStr "");
   Flag "fc-max-outstanding" "" TUint32 (DInt 0);
   Flag "fc-ep-max-inflight" "" TUint32 (DInt 0);
   Flag "fc-prefill-max-inflight" "" TUint32 (DInt 0);
   Flag "fc-decode-max-inflight" "" TUint32 (DInt 0);
   Flag "fc-telemetry-stale-ms" "" TUint32 (DInt 0);
   Flag "fc-adaptive" "" TString (DStr "");
   Flag "fc-warmup-ms" "" TUint32 (DInt 0);
   Flag "fc-ttft-target-ms" "" TUint32 (DInt 0);
   Flag "fc-expose-headers" "" TString (DStr "");
   Flag "fc-tenant-max-share-pct" "" TUint32 (DInt 0);
   Flag "fc-max-queue-wait-ms" "" TUint32 (DInt 0);
   Flag "fc-wake-policy" "" TString (DStr "");
   Flag "fc-band-weights" "" TValue DNone;
   Flag "fc-band-min-share-pct" "" TValue DNone;
   Flag "fc-critical-reserve-pct" "" TUint32 (DInt 0);
   Flag "fc-band-wait-ms" "" TValue DNone;
   Flag "fc-band-queue-pct" "" TValue DNone;
   Flag "fc-shed-queue" "" TString (DStr "");
   Flag "fc-tenant-wake" "" TString (DStr "");
   Flag "fc-llmd-headers" "" TString (DStr "");
   Flag "ai-default-reservation" "" TString (DStr "");
   Flag "ai-default-max-tokens" "" TUint32 (DInt 0);
   Flag "ai-objective-strict" "" TBool (DBool false);
   Flag "endpoints" "" TStringSlice DNone;
   Flag "name" "" TString (DStr "");
   Flag "attachEP" "" TBool (DBool false);
   Flag "detachEP" "" TBool (DBool false);
   Flag "security" "" TString (DStr "");
   Flag "host" "" TString (DStr "");
   Flag "sources" "" TStringSlice DNone;
   Flag "ppv2en" "" TBool (DBool false);
   Flag "egress" "" TBool (DBool false);
   Flag "probetype" "" TString (DStr "");
   Flag "probeport" "" TUint16 (DInt 0);
   Flag "probereq" "" TString (DStr "");
   Flag "probetimeout" "" TUint32 (DInt 0);
   Flag "proberetries" "" TInt (DInt 0);
   Flag "model-name" "" TString (DStr "");
   Flag "path-prefix" "" TString (DStr "");
   Flag "path-match-mode" "" TString (DStr "");
   Flag "session-header-name" "" TString (DStr "");
   Flag "trace-type" "" TString (DStr "");
   Flag "backend-protocol" "" TString (DStr "");
   Flag "sockmap-mode" "" TString (DStr "");
   Flag "sse-mode" "" TBool (DBool false);
   Flag "jwt-auth-profile" "" TString (DStr "");
   Flag "api-key-auth" "" TString (DStr "");
   Flag "max-stream-duration" "" TInt32 (DInt 0);
   Flag "backend-keepalive-interval" "" TInt32 (DInt 0);
   Flag "cb-enable" "" TBool (DBool false);
   Flag "chwbl-hash-level" "" TInt (DInt 0);
   Flag "chwbl-hash-flags" "" TInt (DInt 0);
   Flag "chwbl-load-factor" "" TInt (DInt 0);
   Flag "chwbl-replication" "" TInt (DInt 0);
   Flag "chwbl-cache-salt" "" TBool (DBool false);
   Flag "epp-endpoint" "" TString (DStr "");
   Flag "epp-failure-mode" "" TString (DStr "");
   Flag "epp-timeout-ms" "" TInt64 (DInt 0);
   Flag "epp-plaintext" "" TBool (DBool false);
   Flag "pd-disagg" "" TBool (DBool false);
   Flag "pd-cache-aware" "" TBool (DBool false);
   Flag "pd-session-ttl" "" TInt32 (DInt 0);
   Flag "pd-cache-threshold" "" TInt32 (DInt 0);
   Flag "pd-balance-abs-threshold" "" TInt32 (DInt 0);
   Flag "pd-bootstrap-port" "" TInt32 (DInt 0);
   Flag "pd-prefill-timeout" "" TInt32 (DInt 0);
   Flag "kv-exact-mode" "" TInt64 (DInt 0);
   Flag "kv-block-size" "" TInt64 (DInt 0);
   Flag "kv-hash-algo" "" TString (DStr "");
   Flag "kv-zmq-port" "" TInt64 (DInt 0);
   Flag "kv-warmup" "" TInt64 (DInt 0);
   Flag "kv-engine-type" "" TString (DStr "");
   Flag "kv-dp-ranks" "" TInt32 (DInt 0);
   Flag "ep-role" "" TStringSlice DNone;
   Flag "nixl-port" "" TIntSlice DNone;
   Flag "hsts-max-age" "" TUint32 (DInt 0);
   Flag "hsts-include-subdomains" "" TBool (DBool false);
   Flag "hsts-preload" "" TBool (DBool false);
   Flag "mtls-client-cert-mode" "" TString (DStr "");
   Flag "mtls-client-ca-path" "" TString (DStr "");
   Flag "mtls-require-client-cn" "" TBool (DBool false);
   Flag "mtls-client-cn-pattern" "" TString (DStr "");
   Flag "mtls-client-crl-path" "" TString (DStr "");
   Flag "backend-ca-cert-id" "" TString (DStr "");
   Flag "backend-client-cert-id" "" TString (DStr "");
   Flag "backend-tls-server-name" "" TString (DStr "");
   Flag "mtls-backend-verify-server" "" TBool (DBool false);
   Flag "mtls-backend-ca-path" "" TString (DStr "");
   Flag "mtls-backend-cert-path" "" TString (DStr "");
   Flag "mtls-backend-key-path" "" TString (DStr "")].

Definition NewCreateLoadBalancerCmd : command :=
  Command "lb IP [--select=<rr|hash|priority|persist>] [--tcp=<ports>:<targetPorts>] [--udp=<ports>:<targetPorts>] [--sctp=<ports>:<targetPorts>] [--icmp] [--mark=<val>] [--secips=<ip>,] [--sources=<ip>,] [--endpoints=<ip>:<weight>,] [--mode=<onearm|fullnat>] [--bgp] [--monitor] [--inatimeout=<to>] [--name=<service-name>] [--attachEP] [--detachEP] [--security=<https|e2ehttps|none>] [--host=<url>] [--ppv2en] [--egress]"
    [] AnyArgs
    NewCreateLoadBalancerCmd_flags []
    [].

Definition NewCreateSessionCmd_flags : list flag :=
  [Flag "accessNetworkTunnel" "" TString (DStr "");
   Flag "coreNetworkTunnel" "" TString (DStr "")].

Definition NewCreateSessionCmd : command :=
  Command "session <userID> <sessionIP> --accessNetworkTunnel=<TeID>:<TunnelIP> --coreNetworkTunnel=<TeID>:<TunnelIP>"
    ["session"; "sessions"] AnyArgs
    NewCreateSessionCmd_flags []
    [].

Definition NewCreateSessionUlClCmd_flags : list flag :=
  [Flag "ulclArgs" "" TStringSlice DNone].

Definition NewCreateSessionUlClCmd : command :=
  Command "sessionulcl <userID> --ulclArgs=<QFI>:<ulclIP>,... "
    ["ulcl"; "sessionulcls"; "ulcls"] AnyArgs
    NewCreateSessionUlClCmd_flags []
    [].

Definition NewCreatePolicyCmd_flags : list flag :=
  [Flag "rate" "" TString (DStr "");
   Flag "block-size" "" TString (DStr "");
   Flag "target" "" TString (DStr "");
   Flag "color" "" TBool (DBool false);
   Flag "pol-type" "" TInt (DInt 0)].

Definition NewCreatePolicyCmd : command :=
  Command "policy IDENT --rate=<Peak>:<Committed> --target=<ObjectName>:<rule|port|egress-port> [--block-size=<Excess>:<Committed>] [--color] [--pol-type=<policy type>]"
    ["pol"; "policys"; "pols"; "polices"] AnyArgs
    NewCreatePolicyCmd_flags []
    [].

Definition NewCreateRouteCmd_flags : list flag :=
  [Flag "proto" "" TString (DStr "")].

Definition NewCreateRouteCmd : command :=
  Command "route <DestinationIPNet> <gateway> --proto=<protocol>"
    [] AnyArgs
    NewCreateRouteCmd_flags []
    [].

Definition NewCreateIPv4AddressCmd : command :=
  Command "ip <DeviceIPNet> <device>"
    ["ipv4address"; "ipv4"; "ipaddress"] AnyArgs
    [] []
    [].

Definition NewCreateNeighborsCmd_flags : list flag :=
  [Flag "macAddress" "" TString (DStr "")].

Definition NewCreateNeighborsCmd : command :=
  Command "neighbor <DeviceIP> <DeviceName> [--macAddress=aa:aa:aa:aa:aa:aa]"
    ["nei"; "neigh"] AnyArgs
    NewCreateNeighborsCmd_flags []
    [].

Definition NewCreateFDBCmd : command :=
  Command "fdb <MacAddress> <DeviceName>"
    [] AnyArgs
    [] []
    [].

Definition NewCreateVlanBridgeCmd : command :=
  Command "vlan <Vid>"
    [] AnyArgs
    [] []
    [].

Definition NewCreateVlanMemberCmd_flags : list flag :=
  [Flag "tagged" "" TBool (DBool false)].

Definition NewCreateVlanMemberCmd : command :=
  Command "vlanmember <Vid> <DeviceName> --tagged=<Tagged>"
    ["vlanMember"; "vlan-member"; "vlan_member"] AnyArgs
    NewCreateVlanMemberCmd_flags []
    [].

Definition NewCreateVxlanBridgeCmd : command :=
  Command "vxlan <VxlanID> <EndpointDeviceName>"
    [] AnyArgs
    [] []
    [].

Definition NewCreateVxlanPeerCmd : command :=
  Command "vxlanpeer <Vnid> <PeerIP>"
    ["vxlanPeer"; "vxlan-peer"; "vxlan_peer"] AnyArgs
    [] []
    [].

Definition NewCreateMirrorCmd_flags : list flag :=
  [Flag "mirrorInfo" "" TStringSlice DNone;
   Flag "targetObject" "" TStringSlice DNone].

Definition NewCreateMirrorCmd : command :=
  Command "mirror <mirrorIdent> --mirrorInfo=<InfoOption>:<InfoValue>,... --targetObject=attachement:<port1,rule2>,mirrObjName:<ObjectName>"
    ["mirror"; "mirr"; "mirrors"] AnyArgs
    NewCreateMirrorCmd_flags []
    [].

Definition NewCreateFirewallCmd_flags : list flag :=
  [Flag "firewallRule" "" TStringSlice DNone;
   Flag "redirect" "" TStringSlice DNone;
   Flag "allow" "" TBool (DBool false);
   Flag "drop" "" TBool (DBool false);
   Flag "record" "" TBool (DBool false);
   Flag "trap" "" TBool (DBool false);
   Flag "setmark" "" TUint32 (DInt 0);
   Flag "snat" "" TStringSlice DNone;
   Flag "egress" "" TBool (DBool false)].

Definition NewCreateFirewallCmd : command :=
  Command "firewall --firewallRule=<ruleKey>:<ruleValue>, [--allow] [--drop] [--trap] [--record] [--egress] [--redirect=<PortName>] [--setmark=<FwMark>]"
    ["Firewall"; "fw"; "firewalls"] AnyArgs
    NewCreateFirewallCmd_flags []
    [].

Definition NewCreateEndPointCmd_flags : list flag :=
  [Flag "name" "" TString (DStr "");
   Flag "desc" "" TString (DStr "");
   Flag "probetype" "" TString (DStr "ping");
   Flag "probereq" "" TString (DStr "");
   Flag "proberesp" "" TString (DStr "");
   Flag "probeport" "" TInt (DInt 0);
   Flag "period" "" TInt (DInt 60);
   Flag "retries" "" TInt (DInt 2)].

Definition NewCreateEndPointCmd : command :=
  Command "endpoint IP [--name=<id>] [--probetype=<probetype>] [--probereq=<probereq>] [--proberesp=<proberesp>] [--probeport=<port>] [--period=<period>] [--retries=<retries>]"
    ["Endpoint"; "ep"; "endpoints"] AnyArgs
    NewCreateEndPointCmd_flags []
    [].

Definition NewCreateBGPNeighborCmd_flags : list flag :=
  [Flag "setMultiHtop" "" TBool (DBool false);
   Flag "remotePort" "" TUint8 (DInt 179)].

Definition NewCreateBGPNeighborCmd : command :=
  Command "bgpneighbor <PeerIP> <ASN> [--remotePort=<remoteBGPPort>] [--setMultiHtop]"
    ["bgpnei"; "bgpneigh"] AnyArgs
    NewCreateBGPNeighborCmd_flags []
    [].

Definition NewCreateBFDCmd_flags : list flag :=
  [Flag "instance" "" TString (DStr "default");
   Flag "interval" "" TUint64 (DInt 200000);
   Flag "retryCount" "" TUint8 (DInt 3);
   Flag "sourceIP" "" TString (DStr "")].

Definition NewCreateBFDCmd : command :=
  Command "bfd remoteIP [--instance=<instance>] [--sourceIP=<source-IP>] [--interval=<interval>] [--retryCount=<count>]"
    ["bfd-session"] AnyArgs
    NewCreateBFDCmd_flags []
    [].

Definition NewCreateAPIKeyCmd_flags : list flag :=
  [Flag "tenant-id" "" TString (DStr "");
   Flag "name" "" TString (DStr "");
   Flag "allowed-models" "" TStringSlice DNone;
   Flag "rps" "" TInt64 (DInt 0);
   Flag "burst" "" TInt64 (DInt 0);
   Flag "tokens-per-min" "" TInt64 (DInt 0);
   Flag "expires-at" "" TString (DStr "");
   Flag "enabled" "" TBool (DBool true);
   Flag "api-key-file" "" TString (DStr "");
   Flag "api-key-stdin" "" TBool (DBool false);
   Flag "priority-class" "" TString (DStr "");
   Flag "default-objective" "" TString (DStr "");
   Flag "allowed-objectives" "" TStringSlice DNone;
   Flag "client-op-id" "" TString (DStr "")].

Definition NewCreateAPIKeyCmd : command :=
  Command "apikey --tenant-id=<tenant> [--name=<name>] [--api-key-file=<path>|--api-key-stdin] [--allowed-models=<m>,] [--rps=<n>] [--burst=<n>] [--tokens-per-min=<n>] [--expires-at=<RFC3339>] [--enabled] [--priority-class=<class>] [--default-objective=<name>] [--allowed-objectives=<name>,] [--client-op-id=<id>]"
    [] AnyArgs
    NewCreateAPIKeyCmd_flags []
    [].

Definition NewCreateObjectiveCmd_flags : list flag :=
  [Flag "priority" "" TInt32 (DInt 0);
   Flag "services" "" TStringSlice DNone].

Definition NewCreateObjectiveCmd : command :=
  Command "objective <NAME> [--priority=<int>] [--services=<VIP:port>,]"
    ["objectives"] AnyArgs
    NewCreateObjectiveCmd_flags []
    [].

Definition NewCreateNetIdentityCmd_flags : list flag :=
  [Flag "tenant" "" TString (DStr "");
   Flag "cidr" "" TStringSlice DNone;
   Flag "ingress-if" "" TString (DStr "");
   Flag "vlan" "" TUint32 (DInt 0);
   Flag "vni" "" TUint32 (DInt 0);
   Flag "ipsec-tunnel" "" TString (DStr "");
   Flag "services" "" TStringSlice DNone;
   Flag "allowed-models" "" TStringSlice DNone;
   Flag "enforce" "" TString (DStr "");
   Flag "credential" "" TString (DStr "");
   Flag "forward-identity" "" TBool (DBool false);
   Flag "priority-class" "" TString (DStr "");
   Flag "fail-mode" "" TString (DStr "")].

Definition NewCreateNetIdentityCmd : command :=
  Command "netidentity <NAME> --tenant=<tenant> (--cidr=<a.b.c.d/len>,|--ingress-if=<if>|--vlan=<id>|--vni=<vni>|--ipsec-tunnel=<name>) [--services=<VIP:port>,] [--allowed-models=<m>,] [--enforce=advisory|strict] [--credential=none|network] [--forward-identity] [--priority-class=<class>] [--fail-mode=neutral|closed]"
    ["netidentities"; "netid"] AnyArgs
    NewCreateNetIdentityCmd_flags []
    [].

Definition NewCreateJWTAuthProfileCmd_flags : list flag :=
  [Flag "issuer" "" TString (DStr "");
   Flag "jwks-url" "" TString (DStr "");
   Flag "audiences" "" TStringSlice DNone;
   Flag "algs" "" TStringSlice DNone;
   Flag "leeway-sec" "" TInt64 (DInt 0);
   Flag "refresh-sec" "" TInt64 (DInt 0);
   Flag "tenant-claim" "" TString (DStr "");
   Flag "user-claim" "" TString (DStr "");
   Flag "models-claim" "" TString (DStr "");
   Flag "roles-claim" "" TString (DStr "");
   Flag "model-role-prefix" "" TString (DStr "");
   Flag "username-claim" "" TString (DStr "");
   Flag "model-authz" "" TString (DStr "");
   Flag "default-tenant" "" TString (DStr "");
   Flag "forward-identity" "" TBool (DBool false);
   Flag "authorization-passthrough" "" TBool (DBool false);
   Flag "priority-class" "" TString (DStr "")].

Definition NewCreateJWTAuthProfileCmd : command :=
  Command "jwtauthprofile <NAME> --issuer=<url> [--jwks-url=<url>] [--audiences=<aud>,] [--algs=<alg>,] [--leeway-sec=<n>] [--refresh-sec=<n>] [--tenant-claim=<path>] [--user-claim=<path>] [--models-claim=<path>] [--roles-claim=<path>] [--model-role-prefix=<prefix>] [--username-claim=<path>] [--model-authz=claims-required|allow-all] [--default-tenant=<tenant>] [--forward-identity] [--authorization-passthrough] [--priority-class=<class>]"
    ["jwtauthprofiles"; "jwtprofile"] AnyArgs
    NewCreateJWTAuthProfileCmd_flags []
    [].

Definition NewCreateUserCmd_flags : list flag :=
  [Flag "username" "" TString (DStr "");
   Flag "password" "" TString (DStr "");
   Flag "role" "" TString (DStr "")].

Definition NewCreateUserCmd : command :=
  Command "user --username=<name> --password=<pass> [--role=admin|viewer]"
    [] AnyArgs
    NewCreateUserCmd_flags []
    [].

Definition NewCreateCertCmd_flags : list flag :=
  [Flag "cert-id" "" TString (DStr "");
   Flag "cert-file" "" TString (DStr "");
   Flag "key-file" "" TString (DStr "");
   Flag "chain-file" "" TString (DStr "");
   Flag "usage" "" TString (DStr "")].

Definition NewCreateCertCmd : command :=
  Command "cert --cert-file=<pem> [--key-file=<pem>] [--chain-file=<pem>] [--cert-id=<id>] [--usage=<server|ca|client>]"
    [] AnyArgs
    NewCreateCertCmd_flags []
    [].

Definition NewCreateSNICmd_flags : list flag :=
  [Flag "hostname" "" TString (DStr "");
   Flag "cert-path" "" TString (DStr "")].

Definition NewCreateSNICmd : command :=
  Command "sni --hostname=<host> [--cert-path=<dir>]"
    ["snicert"] AnyArgs
    NewCreateSNICmd_flags []
    [].

Definition NewCreateRestoreCmd_flags : list flag :=
  [Flag "file" "f" TString (DStr "");
   Flag "commit" "" TBool (DBool false);
   Flag "components" "" TString (DStr "");
   Flag "strict" "" TBool (DBool false)].

Definition NewCreateRestoreCmd : command :=
  Command "restore -f <snapshot-file> [--commit]"
    [] AnyArgs
    NewCreateRestoreCmd_flags []
    [].

Definition NewCreatePersistCmd_flags : list flag :=
  [Flag "strict" "" TBool (DBool false)].

Definition NewCreatePersistCmd : command :=
  Command "persist"
    [] AnyArgs
    NewCreatePersistCmd_flags []
    [].

Definition CreateCmd_tree : command :=
  Command "create"
    [] AnyArgs
    [] []
    [NewCreateLoadBalancerCmd; NewCreateSessionCmd; NewCreateSessionUlClCmd; NewCreatePolicyCmd;
     NewCreateRouteCmd; NewCreateIPv4AddressCmd; NewCreateNeighborsCmd; NewCreateFDBCmd;
     NewCreateVlanBridgeCmd; NewCreateVlanMemberCmd; NewCreateVxlanBridgeCmd;
     NewCreateVxlanPeerCmd; NewCreateMirrorCmd; NewCreateFirewallCmd; NewCreateEndPointCmd;
     NewCreateBGPNeighborCmd; NewCreateBFDCmd; NewCreateAPIKeyCmd; NewCreateObjectiveCmd;
     NewCreateNetIdentityCmd; NewCreateJWTAuthProfileCmd; NewCreateUserCmd; NewCreateCertCmd;
     NewCreateSNICmd; NewCreateRestoreCmd; NewCreatePersistCmd].

(* ------------------------------------------------------------------ *)
(** ** The commands of [delete]                                       *)
(* ------------------------------------------------------------------ *)

Definition NewDeleteLoadBalancerCmd_flags : list flag :=
  [Flag "tcp" "" TString (DStr "");
   Flag "udp" "" TString (DStr "");
   Flag "sctp" "" TString (DStr "");
   Flag "icmp" "" TBool (DBool false);
   Flag "bgp" "" TBool (DBool false);
   Flag "mark" "" TUint16 (DInt 0);
   Flag "name" "" TString (DStr "");
   Flag "host" "" TString (DStr "");
   Flag "path-prefix" "" TString (DStr "");
   Flag "path-match-mode" "" TString (DStr "");
   Flag "model-name" "" TString (DStr "")].

Definition NewDeleteLoadBalancerCmd : command :=
  Command "lb <EXTERNAL-IP> [--tcp portNumber] [--udp portNumber] [--sctp portNumber] [--icmp portNumber] [--bgp] [--mark=<val>] [--name=<service-name>] [--host=<url>] [--path-prefix=<prefix>] [--path-match-mode=<disabled|prefix|exact>] [--model-name=<model>]"
    [] AnyArgs
    NewDeleteLoadBalancerCmd_flags []
    [].

Definition NewDeleteSessionCmd : command :=
  Command "session <UserID>"
    [] AnyArgs
    [] []
    [].

Definition NewDeleteSessionUlClCmd_flags : list flag :=
  [Flag "ulclArgs" "" TStringSlice DNone].

Definition NewDeleteSessionUlClCmd : command :=
  Command "sessionulcl <UserID> --ulclArgs=<UlCLIP>,..."
    ["ulcl"; "sessionulcls"; "ulcls"] AnyArgs
    NewDeleteSessionUlClCmd_flags []
    [].

Definition NewDeletePolicyCmd : command :=
  Command "policy <IDENT>"
    ["pol"; "policys"; "pols"; "polices"] AnyArgs
    [] []
    [].

Definition NewDeleteRouteCmd : command :=
  Command "route <DestinationIPNet> "
    [] AnyArgs
    [] []
    [].

Definition NewDeleteIPv4AddressCmd : command :=
  Command "ip <DeviceIPNet> <device>"
    ["ipv4address"; "ipv4"; "ipaddress"] AnyArgs
    [] []
    [].

Definition NewDeleteNeighborsCmd : command :=
  Command "neighbor <DeviceIP> <device>"
    ["nei"; "neigh"] AnyArgs
    [] []
    [].

Definition NewDeleteFDBCmd : command :=
  Command "fdb <MacAddress> <DeviceName>"
    [] AnyArgs
    [] []
    [].

Definition NewDeleteVlanBridgeCmd : command :=
  Command "vlan <Vid>"
    [] AnyArgs
    [] []
    [].

Definition NewDeleteVlanMemberCmd_flags : list flag :=
  [Flag "tagged" "" TBool (DBool false)].

Definition NewDeleteVlanMemberCmd : command :=
  Command "vlanmember <Vid> <DeviceName> --tagged=<Tagged>"
    ["vlanMember"; "vlan-member"; "vlan_member"] AnyArgs
    NewDeleteVlanMemberCmd_flags []
    [].

Definition NewDeleteVxlanBridgeCmd : command :=
  Command "vxlan <Vnid>"
    [] AnyArgs
    [] []
    [].

Definition NewDeleteVxlanPeerCmd : command :=
  Command "vxlanpeer <Vnid> <PeerIP> "
    ["vxlanPeer"; "vxlan-peer"; "vxlan_peer"] AnyArgs
    [] []
    [].

Definition NewDeleteMirrorCmd : command :=
  Command "mirror <MirrorIdent>"
    ["mirror"; "mirr"; "mirrors"] AnyArgs
    [] []
    [].

Definition NewDeleteFirewallCmd_flags : list flag :=
  [Flag "firewallRule" "" TStringSlice DNone].

Definition NewDeleteFirewallCmd : command :=
  Command "firewall --firewallRule=<ruleKey>:<ruleValue>"
    ["Firewall"; "fw"; "firewalls"] AnyArgs
    NewDeleteFirewallCmd_flags []
    [].

Definition NewDeleteEndPointCmd_flags : list flag :=
  [Flag "name" "" TString (DStr "");
   Flag "probetype" "" TString (DStr "ping");
   Flag "probeport" "" TInt (DInt 0)].

Definition NewDeleteEndPointCmd : command :=
  Command "endpoint IP [--name=<id>] [--probetype=<probetype>] [--probeport=<port>]"
    ["EndPoint"; "ep"; "endpoints"] AnyArgs
    NewDeleteEndPointCmd_flags []
    [].

Definition NewDeleteBGPNeighborCmd : command :=
  Command "bgpneighbor <PeerIP> <RemoteAS>"
    ["bgpnei"; "bgpneigh"] AnyArgs
    [] []
    [].

Definition NewDeleteBFDCmd_flags : list flag :=
  [Flag "instance" "" TString (DStr "default")].

Definition NewDeleteBFDCmd : command :=
  Command "bfd remoteIP [--instance=<instance>]"
    ["bfd-session"] AnyArgs
    NewDeleteBFDCmd_flags []
    [].

Definition NewDeleteAPIKeyCmd : command :=
  Command "apikey <KEY-ID>"
    [] AnyArgs
    [] []
    [].

Definition NewDeleteObjectiveCmd : command :=
  Command "objective <NAME>"
    ["objectives"] AnyArgs
    [] []
    [].

Definition NewDeleteNetIdentityCmd : command :=
  Command "netidentity <NAME>"
    ["netidentitys"] AnyArgs
    [] []
    [].

Definition NewDeleteJWTAuthProfileCmd : command :=
  Command "jwtauthprofile <NAME>"
    ["jwtauthprofiles"; "jwtprofile"] AnyArgs
    [] []
    [].

Definition NewDeleteCertCmd : command :=
  Command "cert <CERT-ID>"
    [] AnyArgs
    [] []
    [].

Definition NewDeleteAuditSinkCmd : command :=
  Command "audit-sink <NAME>"
    [] (ExactArgs 1)
    [] []
    [].

Definition NewDeleteSNICmd_flags : list flag :=
  [Flag "hostname" "" TString (DStr "")].

Definition NewDeleteSNICmd : command :=
  Command "sni --hostname=<host>"
    ["snicert"] AnyArgs
    NewDeleteSNICmd_flags []
    [].

Definition NewDeleteOPACmd : command :=
  Command "opa"
    [] AnyArgs
    [] []
    [].

Definition DeleteCmd_tree_flags : list flag :=
  [Flag "file" "f" TString (DStr "")].

Definition DeleteCmd_tree : command :=
  Command "delete"
    [] AnyArgs
    DeleteCmd_tree_flags []
    [NewDeleteLoadBalancerCmd; NewDeleteSessionCmd; NewDeleteSessionUlClCmd; NewDeletePolicyCmd;
     NewDeleteRouteCmd; NewDeleteIPv4AddressCmd; NewDeleteNeighborsCmd; NewDeleteFDBCmd;
     NewDeleteVlanBridgeCmd; NewDeleteVlanMemberCmd; NewDeleteVxlanBridgeCmd;
     NewDeleteVxlanPeerCmd; NewDeleteMirrorCmd; NewDeleteFirewallCmd; NewDeleteEndPointCmd;
     NewDeleteBGPNeighborCmd; NewDeleteBFDCmd; NewDeleteAPIKeyCmd; NewDeleteObjectiveCmd;
     NewDeleteNetIdentityCmd; NewDeleteJWTAuthProfileCmd; NewDeleteCertCmd; NewDeleteAuditSinkCmd;
     NewDeleteSNICmd; NewDeleteOPACmd].

(* ------------------------------------------------------------------ *)
(** ** The commands of [set]                                          *)
(* ------------------------------------------------------------------ *)

Definition NewSetLogLevelCmd : command :=
  Command "log-level"
    ["loglevel"] AnyArgs
    [] []
    [].

Definition NewSetBFDCmd_flags : list flag :=
  [Flag "instance" "" TString (DStr "default");
   Flag "interval" "" TUint64 (DInt 0);
   Flag "retryCount" "" TUint8 (DInt 0)].

Definition NewSetBFDCmd : command :=
  Command "bfd remoteIP [--instance=<instance>] [--interval=<interval>] [--retryCount=<count>]"
    ["bfd-session"] AnyArgs
    NewSetBFDCmd_flags []
    [].

Definition NewSetLogInCmd_flags : list flag :=
  [Flag "provider" "" TString (DStr "")].

Definition NewSetLogInCmd : command :=
  Command "login"
    [] AnyArgs
    NewSetLogInCmd_flags []
    [].

Definition NewSetLogOutCmd_flags : list flag :=
  [Flag "provider" "" TString (DStr "")].

Definition NewSetLogOutCmd : command :=
  Command "logout"
    [] AnyArgs
    NewSetLogOutCmd_flags []
    [].

Definition NewSetRefreshTokenCmd_flags : list flag :=
  [Flag "provider" "" TString (DStr "")].

Definition NewSetRefreshTokenCmd : command :=
  Command "refresh"
    [] AnyArgs
    NewSetRefreshTokenCmd_flags []
    [].

Definition NewSetAPIKeyCmd_flags : list flag :=
  [Flag "allowed-models" "" TStringSlice DNone;
   Flag "enabled" "" TBool (DBool true);
   Flag "rate-limit-rps" "" TInt64 (DInt 0);
   Flag "burst-size" "" TInt64 (DInt 0);
   Flag "tokens-per-min" "" TInt64 (DInt 0);
   Flag "priority-class" "" TString (DStr "");
   Flag "default-objective" "" TString (DStr "");
   Flag "allowed-objectives" "" TStringSlice DNone].

Definition NewSetAPIKeyCmd : command :=
  Command "apikey <KEY-ID> [--allowed-models=<m>,] [--enabled] [--rate-limit-rps=<n>] [--burst-size=<n>] [--tokens-per-min=<n>] [--priority-class=<class>] [--default-objective=<name>] [--allowed-objectives=<name>,]"
    [] AnyArgs
    NewSetAPIKeyCmd_flags []
    [].

Definition NewSetRateLimitCmd_flags : list flag :=
  [Flag "tenant-id" "" TString (DStr "");
   Flag "rps" "" TInt64 (DInt 0);
   Flag "tokens-per-min" "" TInt64 (DInt 0);
   Flag "burst-pct" "" TInt64 (DInt 0);
   Flag "model-limit" "" TStringArray DNone;
   Flag "priority-class" "" TString (DStr "");
   Flag "default-objective" "" TString (DStr "");
   Flag "allowed-objectives" "" TStringSlice DNone].

Definition NewSetRateLimitCmd : command :=
  Command "ratelimit --tenant-id=<tenant> [--rps=<n>] [--tokens-per-min=<n>] [--burst-pct=<n>] [--model-limit=<model>=<tokens>]... [--priority-class=<class>] [--default-objective=<name>] [--allowed-objectives=<name>,]"
    [] AnyArgs
    NewSetRateLimitCmd_flags []
    [].

Definition NewSetMetricsCmd_flags : list flag :=
  [Flag "enable" "" TBool (DBool false);
   Flag "disable" "" TBool (DBool false)].

Definition NewSetMetricsCmd : command :=
  Command "metrics (--enable | --disable)"
    [] AnyArgs
    NewSetMetricsCmd_flags []
    [].

Definition NewSetGPUCmd_flags : list flag :=
  [Flag "enable" "" TBool (DBool false);
   Flag "disable" "" TBool (DBool false);
   Flag "cleanup" "" TBool (DBool false);
   Flag "max-age-hours" "" TInt (DInt 1)].

Definition NewSetGPUCmd : command :=
  Command "gpu (--enable | --disable | --cleanup)"
    [] AnyArgs
    NewSetGPUCmd_flags []
    [].

Definition NewSetPIICmd_flags : list flag :=
  [Flag "enable" "" TBool (DBool false);
   Flag "disable" "" TBool (DBool false);
   Flag "configure" "" TBool (DBool false);
   Flag "url-patterns" "" TBool (DBool false);
   Flag "mode" "" TString (DStr "");
   Flag "direction" "" TString (DStr "");
   Flag "fail-mode" "" TString (DStr "");
   Flag "scan-mode" "" TString (DStr "");
   Flag "analyzer-url" "" TString (DStr "");
   Flag "anonymizer-url" "" TString (DStr "");
   Flag "score-threshold" "" TFloat64 (DInt 0);
   Flag "timeout-ms" "" TInt64 (DInt 0);
   Flag "max-body-size" "" TInt64 (DInt 0);
   Flag "min-body-size" "" TInt64 (DInt 0);
   Flag "enable-v2" "" TBool (DBool false);
   Flag "default-operator" "" TString (DStr "");
   Flag "encryption-key" "" TString (DStr "");
   Flag "batch-size" "" TInt64 (DInt 0);
   Flag "url-mode" "" TString (DStr "");
   Flag "include" "" TStringArray DNone;
   Flag "exclude" "" TStringArray DNone].

Definition NewSetPIICmd : command :=
  Command "pii (--enable | --disable | --configure | --url-patterns)"
    [] AnyArgs
    NewSetPIICmd_flags []
    [].

Definition NewSetLlamaFirewallCmd_flags : list flag :=
  [Flag "enable" "" TBool (DBool false);
   Flag "disable" "" TBool (DBool false);
   Flag "configure" "" TBool (DBool false);
   Flag "scanners" "" TBool (DBool false);
   Flag "health" "" TBool (DBool false);
   Flag "server-url" "" TString (DStr "");
   Flag "timeout-sec" "" TInt64 (DInt 0);
   Flag "fail-closed" "" TBool (DBool false);
   Flag "block-threshold" "" TFloat64 (DInt 0);
   Flag "cache-enabled" "" TBool (DBool false);
   Flag "cache-ttl-sec" "" TInt64 (DInt 0);
   Flag "connection-pool-size" "" TInt64 (DInt 0);
   Flag "scan-pattern" "" TStringArray DNone;
   Flag "skip-pattern" "" TStringArray DNone;
   Flag "prompt-guard" "" TBool (DBool false);
   Flag "code-shield" "" TBool (DBool false);
   Flag "regex" "" TBool (DBool false);
   Flag "hidden-ascii" "" TBool (DBool false);
   Flag "agent-alignment" "" TBool (DBool false);
   Flag "pii-detection" "" TBool (DBool false)].

Definition NewSetLlamaFirewallCmd : command :=
  Command "llamafirewall (--enable | --disable | --configure | --scanners | --health)"
    [] AnyArgs
    NewSetLlamaFirewallCmd_flags []
    [].

Definition NewSetTraceCmd_flags : list flag :=
  [Flag "enable" "" TBool (DBool false);
   Flag "disable" "" TBool (DBool false);
   Flag "otlp" "" TBool (DBool false);
   Flag "otlp-endpoint" "" TString (DStr "");
   Flag "otlp-protocol" "" TString (DStr "");
   Flag "otlp-use-tls" "" TBool (DBool true);
   Flag "otlp-tls-skip-verify" "" TBool (DBool false);
   Flag "otlp-header" "" TStringArray DNone].

Definition NewSetTraceCmd : command :=
  Command "trace (--enable | --disable | --otlp)"
    [] AnyArgs
    NewSetTraceCmd_flags []
    [].

Definition NewSetL4TraceCmd_flags : list flag :=
  [Flag "enable" "" TBool (DBool false);
   Flag "disable" "" TBool (DBool false);
   Flag "reset-stats" "" TBool (DBool false);
   Flag "sampling-rate" "" TInt64 (DInt 100)].

Definition NewSetL4TraceCmd : command :=
  Command "l4trace (--enable | --disable | --sampling-rate N | --reset-stats)"
    [] AnyArgs
    NewSetL4TraceCmd_flags []
    [].

Definition NewSetOPACmd_flags : list flag :=
  [Flag "opa-url" "" TString (DStr "");
   Flag "policy-path" "" TString (DStr "");
   Flag "poll-interval-sec" "" TInt (DInt 0);
   Flag "fail-open" "" TBool (DBool false)].

Definition NewSetOPACmd : command :=
  Command "opa --opa-url <url> [--policy-path p] [--poll-interval-sec n] [--fail-open]"
    [] AnyArgs
    NewSetOPACmd_flags []
    [].

Definition NewSetDPUCmd_flags : list flag :=
  [Flag "action" "" TString (DStr "");
   Flag "plugin" "" TString (DStr "");
   Flag "mode" "" TString (DStr "")].

Definition NewSetDPUCmd : command :=
  Command "dpu --action <unregister|cb_force> [--plugin name] [--mode open|close]"
    [] AnyArgs
    NewSetDPUCmd_flags []
    [].

Definition NewSetMaintenanceCmd_flags : list flag :=
  [Flag "drain-timeout" "" TUint32 (DInt 0)].

Definition NewSetMaintenanceCmd : command :=
  Command "maintenance on|off"
    [] (ExactArgs 1)
    NewSetMaintenanceCmd_flags []
    [].

Definition NewSetAuditSinkCmd_flags : list flag :=
  [Flag "disable" "" TBool (DBool false);
   Flag "address" "" TString (DStr "");
   Flag "ca-bundle" "" TString (DStr "");
   Flag "server-name" "" TString (DStr "");
   Flag "client-cert" "" TString (DStr "");
   Flag "client-key" "" TString (DStr "");
   Flag "max-frame-bytes" "" TInt64 (DInt 0);
   Flag "facility" "" TInt64 (DInt DefaultSyslogFacility);
   Flag "enterprise-number" "" TInt64 (DInt 0);
   Flag "stream" "" TStringArray DNone;
   Flag "service" "" TStringArray DNone;
   Flag "outcome" "" TString (DStr "");
   Flag "data-sample" "" TInt64 (DInt 0)].

Definition NewSetAuditSinkCmd : command :=
  Command "audit-sink [NAME]"
    [] (MaximumNArgs 1)
    NewSetAuditSinkCmd_flags []
    [].

Definition SetParamCmd_tree : command :=
  Command "set"
    [] AnyArgs
    [] []
    [NewSetLogLevelCmd; NewSetBFDCmd; NewSetLogInCmd; NewSetLogOutCmd; NewSetRefreshTokenCmd;
     NewSetAPIKeyCmd; NewSetRateLimitCmd; NewSetMetricsCmd; NewSetGPUCmd; NewSetPIICmd;
     NewSetLlamaFirewallCmd; NewSetTraceCmd; NewSetL4TraceCmd; NewSetOPACmd; NewSetDPUCmd;
     NewSetMaintenanceCmd; NewSetAuditSinkCmd].

(* ------------------------------------------------------------------ *)
(** ** The commands of the appliance                                  *)
(* ------------------------------------------------------------------ *)

Definition statusCmd_tree : command :=
  Command "status"
    [] AnyArgs
    [] []
    [].

Definition networkCmd_validate : command :=
  Command "validate"
    [] AnyArgs
    [] []
    [].

Definition networkCmd : command :=
  Command "network"
    [] AnyArgs
    [] []
    [networkCmd_validate].

Definition publicAddressCmd_configure_flags : list flag :=
  [Flag "no-restart" "" TBool (DBool false)].

Definition publicAddressCmd_configure : command :=
  Command "configure IPV4"
    [] (ExactArgs 1)
    publicAddressCmd_configure_flags []
    [].

Definition publicAddressCmd : command :=
  Command "public-address"
    [] AnyArgs
    [] []
    [publicAddressCmd_configure].

Definition gatewayCmd_register_local_flags : list flag :=
  [Flag "username" "" TString (DStr "");
   Flag "password-file" "" TString (DStr "")].

Definition gatewayCmd_register_local : command :=
  Command "register-local"
    [] AnyArgs
    gatewayCmd_register_local_flags []
    [].

Definition gatewayCmd : command :=
  Command "gateway"
    [] AnyArgs
    [] []
    [gatewayCmd_register_local].

Definition credentialsCmd_bootstrap : command :=
  Command "bootstrap"
    [] AnyArgs
    [] []
    [].

Definition credentialsCmd : command :=
  Command "credentials"
    [] AnyArgs
    [] []
    [credentialsCmd_bootstrap].

Definition diagnosticsCmd_create_flags : list flag :=
  [Flag "redact" "" TBool (DBool false);
   Flag "output" "o" TValue DNone].

Definition diagnosticsCmd_create : command :=
  Command "create --redact [--output PATH]"
    [] AnyArgs
    diagnosticsCmd_create_flags []
    [].

Definition diagnosticsCmd : command :=
  Command "diagnostics"
    [] AnyArgs
    [] []
    [diagnosticsCmd_create].

Definition logsCmd_flags : list flag :=
  [Flag "redact" "" TBool (DBool false);
   Flag "since" "" TString (DStr "");
   Flag "lines" "" TInt (DInt 0)].

Definition logsCmd_tree : command :=
  Command "logs COMPONENT --redact [--since DURATION] [--lines N]"
    [] (ExactArgs 1)
    logsCmd_flags []
    [].

Definition backupArchiveCmd_flags : list flag :=
  [Flag "key-file" "" TString (DStr "")].

Definition backupArchiveCmd_tree (use : string) : command :=
  Command (use +:+ " ARCHIVE --key-file PATH")
    [] (ExactArgs 1)
    backupArchiveCmd_flags []
    [].

Definition backupCmd_key_create_flags : list flag :=
  [Flag "key-file" "" TString (DStr "")].

Definition backupCmd_key_create : command :=
  Command "key-create --key-file PATH"
    [] AnyArgs
    backupCmd_key_create_flags []
    [].

Definition backupCmd : command :=
  Command "backup"
    [] AnyArgs
    [] []
    [backupCmd_key_create; backupArchiveCmd_tree "create"; backupArchiveCmd_tree "verify"].

Definition ApplianceCmd_tree : command :=
  Command "appliance"
    [] AnyArgs
    [] []
    [statusCmd_tree; networkCmd; publicAddressCmd; gatewayCmd; credentialsCmd; diagnosticsCmd; logsCmd_tree;
     backupCmd].

(* ------------------------------------------------------------------ *)
(** ** The root                                                       *)
(* ------------------------------------------------------------------ *)

Definition SaveCmd_tree_flags : list flag :=
  [Flag "all" "a" TBool (DBool false);
   Flag "ip" "i" TBool (DBool false);
   Flag "lb" "l" TBool (DBool false);
   Flag "session" "" TBool (DBool false);
   Flag "ulcl" "" TBool (DBool false);
   Flag "firewall" "" TBool (DBool false);
   Flag "endpoint" "" TBool (DBool false);
   Flag "bfd" "" TBool (DBool false);
   Flag "api" "" TBool (DBool false);
   Flag "config-path" "c" TString (DStr "")].

Definition SaveCmd_tree : command :=
  Command "save"
    [] AnyArgs
    SaveCmd_tree_flags []
    [].

Definition ApplyCmd_tree_flags : list flag :=
  [Flag "ip" "i" TString (DStr "");
   Flag "per-intf" "" TString (DStr "");
   Flag "ipv4route" "r" TBool (DBool false);
   Flag "config-path" "c" TString (DStr "/etc/loxilb/ipconfig/");
   Flag "lb" "l" TString (DStr "");
   Flag "session" "" TString (DStr "");
   Flag "ulcl" "" TString (DStr "");
   Flag "firewall" "" TString (DStr "");
   Flag "file" "f" TString (DStr "");
   Flag "bfd" "" TString (DStr "")].

Definition ApplyCmd_tree : command :=
  Command "apply"
    [] AnyArgs
    ApplyCmd_tree_flags []
    [].

Definition CompletionCmd : command :=
  Command "completion [bash|zsh|fish|powershell]"
    [] (ExactValidArgs 1 ["bash"; "zsh"; "fish"; "powershell"])
    [] []
    [].

Definition VersionCmd : command :=
  Command "version"
    [] AnyArgs
    [] []
    [].

Definition rootCmd_persistent : list flag :=
  [Flag "timeout" "t" TInt16 (DInt 10);
   Flag "protocol" "" TString (DStr "http");
   Flag "output" "o" TString (DStr "");
   Flag "apiserver" "s" TString (DStr "127.0.0.1");
   Flag "port" "p" TInt (DInt 11111);
   Flag "token" "" TString (DStr "");
   Flag "token-file" "" TString (DStr "");
   Flag "bearer" "" TBool (DBool true);
   Flag "originator" "" TBool (DBool false);
   Flag "insecure" "k" TBool (DBool false);
   Flag "cacert" "" TString (DStr "");
   Flag "cert" "" TString (DStr "");
   Flag "key" "" TString (DStr "")].

Definition rootCmd : command :=
  Command "loxicmd"
    [] AnyArgs
    [] rootCmd_persistent
    [GetCmd_tree; CreateCmd_tree; DeleteCmd_tree; SetParamCmd_tree; SaveCmd_tree; ApplyCmd_tree;
     ApplianceCmd_tree; CompletionCmd; VersionCmd].
