(* ===== verification/Root.v ===== *)
(** * The root command: [cmd/root.go], [cmd/buildinfo.go], [main.go]

    A run of the program: what the root does before the command, the command,
    and the single exit point; the two commands of the root itself. *)
From S2P Require Import Prelude GoStrings Json JsonPrint World Errors Exitcode Envelope.
From S2P Require Import Rest Session Commands.

(* ------------------------------------------------------------------ *)
(** ** The identity of the build                                       *)
(* ------------------------------------------------------------------ *)

Record buildIdentity : Type := {
  bi_Version : string;
  bi_SourceRevision : string;
  bi_GatewayContract : string;
  bi_GoVersion : string;
  bi_BuildWorkflow : string;
  bi_SourceDateEpoch : string;
  bi_BuildInfo : string
}.

Definition build_identity_json (b : buildIdentity) : gojson :=
  GObj [("version", GStr (bi_Version b));
        ("sourceRevision", GStr (bi_SourceRevision b));
        ("gatewayContract", GStr (bi_GatewayContract b));
        ("goVersion", GStr (bi_GoVersion b));
        ("buildWorkflow", GStr (bi_BuildWorkflow b));
        ("sourceDateEpoch", GStr (bi_SourceDateEpoch b));
        ("buildInfo", GStr (bi_BuildInfo b))].

(** The variables the linker may set; [ls_Version] is [v0.9.8.6] unless it does.
    The version of Go is read from the running binary. *)
Record linked : Type := {
  ls_Version : string;
  ls_BuildInfo : string;
  ls_SourceRevision : string;
  ls_GatewayContract : string;
  ls_BuildWorkflow : string;
  ls_SourceDateEpoch : string
}.

Definition unstamped : linked :=
  {| ls_Version := "v0.9.8.6"; ls_BuildInfo := ""; ls_SourceRevision := ""; ls_GatewayContract := "";
     ls_BuildWorkflow := ""; ls_SourceDateEpoch := "" |}.

Definition currentBuildIdentity (l : linked) (goVersion : string) : buildIdentity :=
  {| bi_Version := ls_Version l; bi_SourceRevision := ls_SourceRevision l;
     bi_GatewayContract := ls_GatewayContract l; bi_GoVersion := goVersion;
     bi_BuildWorkflow := ls_BuildWorkflow l; bi_SourceDateEpoch := ls_SourceDateEpoch l;
     bi_BuildInfo := ls_BuildInfo l |}.

(** [version]: what the writing of the envelope answers is dropped. *)
Definition version_run (l : linked) (goVersion output : string) : IO outcome :=
  if streq output "json" then
    _ ← Write (with_data (New "version") (build_identity_json (currentBuildIdentity l goVersion)));
    succeed
  else
    _ ← say (sprintf ["Loxicmd version: "; ls_Version l; nl; "Loxicmd build info: "; ls_BuildInfo l; nl]);
    succeed.

(** [completion]: cobra writes the script; cobra has seen to it that there is one
    argument and that it names a shell. *)
Definition completion_run (script : string -> string) (args : list string) : IO outcome :=
  with_arg args 0 (mret Panics) (fun shell =>
    if str_in shell ["bash"; "zsh"; "fish"; "powershell"]
    then _ ← say (script shell); succeed
    else succeed).

(* ------------------------------------------------------------------ *)
(** ** A run                                                           *)
(* ------------------------------------------------------------------ *)

(** How the process ends: by the exit point, or not by it. *)
Inductive ending : Type :=
  | Exits (report : exit_report)
  | Crashes_
  | Hangs.

Definition ended (out : outcome) : ending :=
  match out with
  | Returns err => Exits (exit_point err)
  | Panics => Crashes_
  | NeverReturns => Hangs
  end.

(** [Execute], once cobra has found the command and read the flags; [help] is what
    cobra prints of the command, which goes to the standard error before the line of
    the exit point. *)
Definition report_error (help : string) (e : goerror) : IO ending :=
  let r := exit_point (Some e) in
  _ ← (if er_help r then _ ← write_err help; mret tt else mret tt);
  _ ← write_err (er_line r);
  mret (Exits r).

Definition Execute (help : string) (f : root_flags) (o : RESTOptions) (run : RESTOptions -> IO outcome)
    : IO ending :=
  r ← PersistentPreRunE f o;
  out ← match (r : result goerror RESTOptions) with
        | Err e => mret (Returns (Some e))
        | Ok o' => run o'
        end;
  match (out : outcome) with
  | Returns (Some e) => report_error help e
  | _ => mret (ended out)
  end.
