(* ===== verification/CliProps.v ===== *)
(** * The command line and the run of a command

    The tree of commands is one that cobra and pflag accept and in which every
    word finds one command; a command's own questions about flags go to flags it
    has; and a whole run, from the flags of the root to the exit status, does what
    the plan of its command says. *)
From S2P Require Import Prelude GoStrings Json JsonPrint World Errors Exitcode.
From S2P Require Import Files SecretFile Rest Requests Session FeatureGate Commands Plans.
From S2P Require Import NetModel AiModel SetCmds CreateProps SetProps GetCmds AiGets.
From S2P Require Import LoginProps Tables CliTables Root.

(* ------------------------------------------------------------------ *)
(** ** The tree                                                        *)
(* ------------------------------------------------------------------ *)

(** The commands that hide a flag of the commands above them, with the flags. *)
Definition hides (above : list flag) (c : command) : list (string * string) :=
  let own := cm_flags c ++ cm_persistent c in
  map (fun f => (cm_use c, fg_name f)) (List.filter (fun f => flag_named own (fg_name f)) above).

Fixpoint hidden (above : list flag) (c : command) : list (string * string) :=
  hides above c ++ concat (map (hidden (cm_persistent c ++ above)) (cm_commands c)).

(** No command hears two flags of one name or one shorthand, which pflag
    answers with a panic when the command is made or run; the commands below a
    command share no word, so that the command a word finds does not depend on the
    order they were added in; and one command alone hides a flag of the root: [-o]
    of [appliance diagnostics create] is the file it writes. *)
Theorem command_tree_sound :
  everywhere flags_distinct [] rootCmd = true
  /\ everywhere names_distinct [] rootCmd = true
  /\ hidden [] rootCmd = [("create --redact [--output PATH]", "output")].
Proof. vm_compute. auto. Qed.

(** The words that [create] knows and [delete] does not. *)
Definition only_created : list string :=
  List.filter (fun w => negb (existsb (fun c => str_in w (called c)) (cm_commands DeleteCmd_tree)))
    (concat (map called (cm_commands CreateCmd_tree))).

(** What is created under these words is not deleted under them: users, which no
    command deletes; the two commands of the configuration; and other spellings of
    endpoints, sessions and network identities. *)
Lemma only_created_words :
  only_created =
    ["sessions"; "Endpoint"; "netidentities"; "netid"; "user"; "restore"; "persist"].
Proof. vm_compute. reflexivity. Qed.

(* ------------------------------------------------------------------ *)
(** ** Flags that a command asks about                                 *)
(* ------------------------------------------------------------------ *)

(** What [m] does depends on which flags were given only through flags that [c]
    hears: pflag answers for any other that it was not given. *)
Definition consults {A} (c : command) (m : (string -> bool) -> A) : Prop :=
  forall given given',
    (forall name, flag_named (heard rootCmd_persistent c) name = true -> given name = given' name) ->
    m given = m given'.

Ltac only_heard :=
  let given := fresh "given" in let given' := fresh "given" in let H := fresh "Hheard" in
  intros given given' H;
  repeat match goal with |- context [given ?name] => rewrite (H name) by (vm_compute; reflexivity) end;
  reflexivity.

(** Every question a command asks about the flags that were given names a flag
    the command has, or the root: no member of an update is forever left out, and no
    gate forever passed by, because a name in the code is not the name of a flag. *)
Theorem flags_asked_for_exist `{GoLib} `{TableLib} ro :
  (forall o, consults NewSetRateLimitCmd (fun given => set_ratelimit ro given o))
  /\ (forall o args, consults NewSetAPIKeyCmd (fun given => set_apikey ro given o args))
  /\ (forall e d c h, consults NewSetGPUCmd (fun given => set_gpu ro given e d c h))
  /\ (forall o, consults NewSetPIICmd (fun given => set_pii ro given o))
  /\ (forall o, consults NewSetLlamaFirewallCmd (fun given => set_llamafirewall ro given o))
  /\ (forall o, consults NewSetTraceCmd (fun given => set_trace ro given o))
  /\ (forall e d r s, consults NewSetL4TraceCmd (fun given => set_l4trace ro given e d r s))
  /\ (forall hw fl pipe svc ep l, consults NewGetDPUCmd (fun given => get_dpu ro given hw fl pipe svc ep l))
  /\ (forall s e, consults NewGetKvInventoryCmd (fun given => get_kvinventory ro given s e)).
Proof.
  unfold set_ratelimit, rate_limit_request, set_apikey, apiKeyPatch, setAPIKeyFlags, existsb, priority_flags,
    bad_class, set_gpu, set_pii, pii_config, set_llamafirewall, llamafirewall_config, llamafirewall_scanners,
    set_trace, trace_config, set_l4trace, get_dpu, dpu_query, get_kvinventory, if_changed.
  split_and!; intros; only_heard.
Qed.

(* ------------------------------------------------------------------ *)
(** ** A run                                                           *)
(* ------------------------------------------------------------------ *)

Lemma secret_file_quiet what path : ops_satisfy not_http (ReadSecretFile what path).
Proof.
  unfold ReadSecretFile, CheckSecretPath, lstat, read_file.
  repeat first [ops_step | apply ops_perform; exact I].
Qed.

(** What the root does before a command asks the gateway nothing. *)
Lemma pre_run_quiet f o : ops_satisfy not_http (PersistentPreRunE f o).
Proof.
  unfold PersistentPreRunE, set_originator, set_token, cliOriginator, nonempty_secret, lstat, write_err.
  repeat first [apply secret_file_quiet | ops_step | apply ops_perform; exact I].
Qed.

(** The last words of a run: with an error the line of the exit point, behind the
    help where the error asks for it. *)
Definition last_words (help : string) (out : outcome) (t : trace) : Prop :=
  match out with
  | Returns (Some e) =>
      ev_op <$> t = (if er_help (exit_point (Some e)) then [OpStderr help] else [])
                    ++ [OpStderr (er_line (exit_point (Some e)))]
  | _ => t = []
  end.

Lemma last_words_wp help out w h (Q : ending -> trace -> Prop) :
  (forall t, last_words help out t -> Q (ended out) t) ->
  wp (match out with Returns (Some e) => report_error help e | _ => mret (ended out) end) w h Q.
Proof.
  intros HQ. destruct out as [[e|]| |]; try (apply wp_ret, HQ; done).
  unfold last_words in HQ. unfold report_error, write_err. apply wp_bind. destruct (er_help _).
  - wp_op. intros a _. apply wp_ret. wp_op. intros a' _. apply wp_ret, HQ. done.
  - apply wp_ret. wp_op. intros a' _. apply wp_ret, HQ. done.
Qed.

(** C40: a run of a command that keeps to a plan.  When the root refuses, the
    command does nothing, nothing is sent, and the run ends with the refusal.
    Otherwise the command follows its plan with the options that the root resolved,
    and the run ends as the command does: with status 0 exactly when it returns no
    error, otherwise with the code of its error.  The line of an error, behind the
    help for an invocation that was wrong, is the last thing that is written. *)
Theorem run_follows_plan help f o m p w :
  (forall o', refines o' (m o') p) ->
  exists before during after out,
    (Execute help f o m w []).2 = before ++ during ++ after /\ (Execute help f o m w []).1 = ended out
    /\ last_words help out after /\ https before = []
    /\ match (PersistentPreRunE f o w []).1 with
       | Err refusal => out = Returns (Some refusal) /\ during = []
       | Ok o' => follows o' p out during
       end.
Proof.
  intros Hm. change (wp (Execute help f o m) w [] (fun e t => exists before during after out,
    t = before ++ during ++ after /\ e = ended out /\ last_words help out after /\ https before = []
    /\ match (PersistentPreRunE f o w []).1 with
       | Err refusal => out = Returns (Some refusal) /\ during = []
       | Ok o' => follows o' p out during
       end)).
  unfold Execute. apply wp_bind, wp_value. intros r before Hrun.
  pose proof (https_none before) as Hquiet. pose proof (pre_run_quiet f o w []) as Hops.
  rewrite Hrun in Hops |- *. cbn [fst snd] in Hops |- *. specialize (Hquiet Hops).
  apply wp_bind. destruct r as [o'|refusal].
  - eapply wp_mono; [apply Hm|]. intros out during Hf. apply last_words_wp. intros after Ha.
    by exists before, during, after, out.
  - apply wp_ret, (last_words_wp help (Returns (Some refusal))). intros after Ha.
    by exists before, [], after, (Returns (Some refusal)).
Qed.

(** [loxicmd set metrics --enable] without a session, against a gateway that does
    not answer. *)
Lemma run_follows_plan_witness :
  let m := fun ro => set_metrics (H := plain_text) ro true false in
  let r := Execute "" plain_flags local_options m (disk_tells ∅) [] in
  exists before during after out,
    r.2 = before ++ during ++ after /\ r.1 = ended out /\ last_words "" out after /\ https before = []
    /\ match (PersistentPreRunE plain_flags local_options (disk_tells ∅) []).1 with
       | Err refusal => out = Returns (Some refusal) /\ during = []
       | Ok o' => follows o' (metrics_plan true false) out during
       end.
Proof.
  apply (run_follows_plan "" plain_flags local_options (fun ro => set_metrics (H := plain_text) ro true false)).
  intros ro. apply set_metrics_refines.
Defined.
