(* ===== verification/Dispatch.v ===== *)
(** * What each command of the tree runs

    The wiring of [cmd/]: for every command of [CliTables] the function that its
    [RunE] calls, with the values that pflag has put into the variables of its
    flags, and the few [RunE]s that only choose between two calls. *)
From S2P Require Import Prelude GoStrings Json Fields World Errors Exitcode Rest Commands.
From S2P Require Import Lifecycle LifecycleCmds OpsCmds AuditSinks AuditTrail Appliance.
From S2P Require Import LbOptions LbCreate NetModel CreateCmds DeleteCmds FileConfig ApplyText SaveCmds.
From S2P Require Import AiModel SetCmds LoginCmds AiCmds Tables GetCmds AiGets LbTables.
From S2P Require Import CreateProps DeleteProps SetProps GetProps CliTables Root.

(** The variables of the flags, command by command; commands of one parent that
    have no flag of the same name share a record. *)
Record flag_values : Type := {
  fv_get : GetFlags;
  fv_snapshot : SnapshotOptions;
  fv_strict : bool;
  fv_logs : LogsOptions;
  fv_file : string;
  fv_create : CreateFlags;
  fv_lb : CreateLoadBalancerOptions;
  fv_ulclArgs : list string;
  fv_apikey : CreateAPIKeyOptions;
  fv_priority : int32;
  fv_services : list string;
  fv_netidentity : CreateNetIdentityOptions;
  fv_jwtauthprofile : CreateJWTAuthProfileOptions;
  fv_cert : CreateCertOptions;
  fv_restore : RestoreOptions;
  fv_delete : DeleteFlags;
  fv_delete_lb : DeleteLbOptions;
  fv_changed : string -> bool;
  fv_set : SetFlags;
  fv_provider : string;
  fv_drainTimeout : uint32;
  fv_auditsink : AuditSinkSetOptions;
  fv_save : SaveOptions;
  fv_apply : ApplyOptions;
  fv_noRestart : bool;
  fv_redact : bool;
  fv_username : string;
  fv_passwordFile : string;
  fv_output : string;
  fv_since : string;
  fv_lines : Z;
  fv_newKeyFile : string;
  fv_keyFile : string
}.

Section Dispatch.
Context `{GoLib} `{TableLib} `{SortLib} `{YamlLib}.
Variable restOptions : RESTOptions.

Definition json_out : bool := streq (ro_PrintOption restOptions) "json".

(** The error of a function that returns one is the error of the command. *)
Definition returned (m : IO (option goerror)) : IO outcome :=
  err ← m; mret (Returns err).

(* ------------------------------------------------------------------ *)
(** ** The commands of the lifecycle                                   *)
(* ------------------------------------------------------------------ *)

Definition get_snapshot (strict : bool) (opts : SnapshotOptions) : IO outcome :=
  returned (SnapshotCmd restOptions (OptionsFrom restOptions strict) opts).
Definition get_maintenance : IO outcome :=
  returned (MaintenanceGet restOptions (OptionsFrom restOptions false)).
Definition get_ready : IO outcome := returned (ReadyGet restOptions json_out).
Definition get_diagnostics : IO outcome := returned (DiagnosticsGet restOptions json_out).
Definition get_logs (opts : LogsOptions) : IO outcome := returned (LogsGet restOptions json_out opts).
Definition get_logarchives (file : string) (args : list string) : IO outcome :=
  returned (match args with
            | [] => LogArchivesList restOptions json_out
            | name :: _ => LogArchiveDownload restOptions (OptionsFrom restOptions false) name file
            end).
Definition get_auditstatus : IO outcome := returned (AuditStatusGet restOptions json_out).
Definition get_auditsink (args : list string) : IO outcome :=
  returned (match args with
            | [name] => AuditNamedSinkGet restOptions json_out name
            | _ => AuditSinkGet restOptions json_out
            end).
Definition delete_auditsink (args : list string) : IO outcome :=
  with_arg args 0 (mret Panics) (fun name => returned (AuditNamedSinkDelete restOptions json_out name)).

(* ------------------------------------------------------------------ *)
(** ** The tables                                                      *)
(* ------------------------------------------------------------------ *)

Variable v : flag_values.
Variable args : list string.

Definition GetCmd_run : list (string * IO outcome) :=
  let f := fv_get v in
  [ ("loadbalancer", get_loadbalancer restOptions (gf_bands f) (gf_servName f));
    ("conntrack", get_conntrack restOptions (gf_servName f));
    ("port", get_port restOptions);
    ("session", get_session restOptions);
    ("sessionulcl", get_sessionulcl restOptions);
    ("policy", get_policy restOptions);
    ("route", get_route restOptions);
    ("ip", get_ipaddress restOptions);
    ("neighbor", get_neighbor restOptions);
    ("process", get_process restOptions);
    ("device", get_device restOptions);
    ("filesystem", get_filesystem restOptions);
    ("vlan", get_vlan restOptions);
    ("mirror", get_mirror restOptions);
    ("firewall", get_firewall restOptions);
    ("fdb", get_fdb restOptions);
    ("vxlan", get_vxlan restOptions);
    ("endpoint", get_endpoint restOptions);
    ("log-level", get_param restOptions);
    ("bgpneighbor", get_bgpneighbor restOptions);
    ("hastate", get_hastate restOptions);
    ("bfd", get_bfd restOptions);
    ("lbversion", get_lbversion restOptions);
    ("apikey", get_apikey restOptions (gf_tenantID f) args);
    ("ratelimit", get_ratelimit restOptions args);
    ("objective", get_objective restOptions args);
    ("netidentity", get_netidentity restOptions args);
    ("jwtauthprofile", get_jwtauthprofile restOptions args);
    ("kvinventory", get_kvinventory restOptions (gf_changed f) (gf_serviceID f) (gf_epIdx f));
    ("cert", get_cert restOptions args);
    ("sni", get_sni restOptions);
    ("metrics", get_metrics restOptions);
    ("gpu", get_gpu restOptions (gf_workers f));
    ("pii", get_pii restOptions (gf_stats f));
    ("llamafirewall", get_llamafirewall restOptions (gf_stats f));
    ("trace", get_trace restOptions (gf_otlp f) (gf_parsers f));
    ("l4trace", get_l4trace restOptions);
    ("opa", get_opa restOptions);
    ("dpu", get_dpu restOptions (gf_changed f) (gf_hwcounters f) (gf_flows f) (gf_pipe f) (gf_svc f)
              (gf_ep f) (gf_limit f));
    ("snapshot", get_snapshot (fv_strict v) (fv_snapshot v));
    ("maintenance", get_maintenance);
    ("ready", get_ready);
    ("diagnostics", get_diagnostics);
    ("logs", get_logs (fv_logs v));
    ("log-archives", get_logarchives (fv_file v) args);
    ("audit-status", get_auditstatus);
    ("audit-sink", get_auditsink args) ].

Definition CreateCmd_run : list (string * IO outcome) :=
  let f := fv_create v in
  [ ("lb", create_lb restOptions (fv_lb v) args);
    ("session", create_session restOptions (fl_anTunnel f) (fl_cnTunnel f) args);
    ("sessionulcl", create_sessionulcl restOptions (fv_ulclArgs v) args);
    ("policy", create_policy restOptions (fl_policy f) args);
    ("route", create_route restOptions (fl_proto f) args);
    ("ip", create_ip restOptions args);
    ("neighbor", create_neighbor restOptions (fl_macAddress f) args);
    ("fdb", create_fdb restOptions args);
    ("vlan", create_vlan restOptions args);
    ("vlanmember", create_vlanmember restOptions (fl_tagged f) args);
    ("vxlan", create_vxlan restOptions args);
    ("vxlanpeer", create_vxlanpeer restOptions args);
    ("mirror", create_mirror restOptions (fl_mirrorInfo f) (fl_targetObject f) args);
    ("firewall", create_firewall restOptions (fl_firewall f));
    ("endpoint", create_endpoint restOptions (fl_endpoint f) args);
    ("bgpneighbor", create_bgpneighbor restOptions (fl_bgp f) args);
    ("bfd", create_bfd restOptions (fl_bfd f) args);
    ("apikey", create_apikey restOptions (fv_apikey v));
    ("objective", create_objective restOptions (fv_priority v) (fv_services v) args);
    ("netidentity", create_netidentity restOptions (fv_netidentity v) args);
    ("jwtauthprofile", create_jwtauthprofile restOptions (fv_jwtauthprofile v) args);
    ("user", create_user restOptions (fl_user f));
    ("cert", create_cert restOptions (fv_cert v));
    ("sni", create_sni restOptions (fl_hostname f) (fl_certPath f));
    ("restore", create_restore restOptions (fv_restore v) (fv_strict v));
    ("persist", create_persist restOptions (fv_strict v)) ].

Definition DeleteCmd_run : list (string * IO outcome) :=
  let f := fv_delete v in
  [ ("lb", delete_lb restOptions (fv_delete_lb v) args);
    ("session", delete_session restOptions args);
    ("sessionulcl", delete_sessionulcl restOptions (fv_ulclArgs v) args);
    ("policy", delete_policy restOptions args);
    ("route", delete_route restOptions args);
    ("ip", delete_ip restOptions args);
    ("neighbor", delete_neighbor restOptions args);
    ("fdb", delete_fdb restOptions args);
    ("vlan", delete_vlan restOptions args);
    ("vlanmember", delete_vlanmember restOptions (df_tagged f) args);
    ("vxlan", delete_vxlan restOptions args);
    ("vxlanpeer", delete_vxlanpeer restOptions args);
    ("mirror", delete_mirror restOptions args);
    ("firewall", delete_firewall restOptions (df_firewallRule f));
    ("endpoint", delete_endpoint restOptions (df_endpoint f) args);
    ("bgpneighbor", delete_bgpneighbor restOptions args);
    ("bfd", delete_bfd restOptions (df_instance f) args);
    ("apikey", delete_apikey restOptions args);
    ("objective", delete_objective restOptions args);
    ("netidentity", delete_netidentity restOptions args);
    ("jwtauthprofile", delete_jwtauthprofile restOptions args);
    ("cert", delete_cert restOptions args);
    ("audit-sink", delete_auditsink args);
    ("sni", delete_sni restOptions (df_hostname f));
    ("opa", delete_opa restOptions) ].

Definition SetParamCmd_run : list (string * IO outcome) :=
  let f := fv_set v in
  let changed := fv_changed v in
  [ ("log-level", set_loglevel restOptions args);
    ("bfd", set_bfd restOptions (sf_bfd f) args);
    ("login", set_login restOptions (fv_provider v));
    ("logout", set_logout restOptions (fv_provider v));
    ("refresh", set_refresh restOptions (fv_provider v));
    ("apikey", set_apikey restOptions changed (sf_apikey f) args);
    ("ratelimit", set_ratelimit restOptions changed (sf_ratelimit f));
    ("metrics", set_metrics restOptions (sf_enable f) (sf_disable f));
    ("gpu", set_gpu restOptions changed (sf_enable f) (sf_disable f) (sf_cleanup f) (sf_maxAgeHours f));
    ("pii", set_pii restOptions changed (sf_pii f));
    ("llamafirewall", set_llamafirewall restOptions changed (sf_llamafirewall f));
    ("trace", set_trace restOptions changed (sf_trace f));
    ("l4trace", set_l4trace restOptions changed (sf_enable f) (sf_disable f) (sf_resetStats f)
                  (sf_samplingRate f));
    ("opa", set_opa restOptions (sf_opa f));
    ("dpu", set_dpu restOptions (sf_action f) (sf_plugin f) (sf_mode f));
    ("maintenance", set_maintenance restOptions (fv_drainTimeout v) args);
    ("audit-sink", set_auditsink restOptions (fv_auditsink v) args) ].

(** The parent of the get commands. *)
Definition GetCmd : IO outcome := unknown_subcommand "get" args "get needs a subcommand".

(** The commands of [appliance]; the argument of [configure] and the paths of
    [backup] are positional, and cobra has counted them. *)
Definition ApplianceCmd_run : list (list string * IO outcome) :=
  let run i := returned (ApplianceCmd (ro_PrintOption restOptions) i) in
  let one k := with_arg args 0 (mret Panics) (fun a => run (k a)) in
  [ ([], run (Group "appliance" args));
    (["status"], run Status);
    (["network"], run (Group "appliance network" args));
    (["network"; "validate"], run NetworkValidate);
    (["public-address"], run (Group "appliance public-address" args));
    (["public-address"; "configure"], one (PublicAddressConfigure (fv_noRestart v)));
    (["gateway"], run (Group "appliance gateway" args));
    (["gateway"; "register-local"], run (RegisterLocal (fv_username v) (fv_passwordFile v)));
    (["credentials"], run (Group "appliance credentials" args));
    (["credentials"; "bootstrap"], run CredentialsBootstrap);
    (["diagnostics"], run (Group "appliance diagnostics" args));
    (["diagnostics"; "create"], run (DiagnosticsCreate (fv_redact v) (fv_output v)));
    (["logs"], one (Logs (fv_redact v) (fv_since v) (fv_lines v)));
    (["backup"], run (Group "appliance backup" args));
    (["backup"; "key-create"], run (BackupKeyCreate (fv_newKeyFile v)));
    (["backup"; "create"], one (BackupCreate (fv_keyFile v)));
    (["backup"; "verify"], one (BackupVerify (fv_keyFile v))) ].

(** The root: a parent runs when no command below it is named. *)
Definition under {A} (above : list string) (t : list (list string * A)) : list (list string * A) :=
  (fun x => (above ++ x.1, x.2)) <$> t.
Definition child {A} (t : list (string * A)) : list (list string * A) := (fun x => ([x.1], x.2)) <$> t.

Variable identity : linked * string.
Variable script : string -> string.

Definition rootCmd_run : list (list string * IO outcome) :=
  under ["get"] (([], GetCmd) :: child GetCmd_run)
  ++ under ["create"] (([], CreateCmd args) :: child CreateCmd_run)
  ++ under ["delete"] (([], DeleteCmd restOptions (fv_file v) args) :: child DeleteCmd_run)
  ++ under ["set"] (([], SetParamCmd args) :: child SetParamCmd_run)
  ++ [(["save"], runSave restOptions (fv_save v)); (["apply"], ApplyCmd restOptions (fv_apply v))]
  ++ under ["appliance"] ApplianceCmd_run
  ++ [(["completion"], completion_run script args);
      (["version"], version_run identity.1 identity.2 (ro_PrintOption restOptions))].

End Dispatch.

(* ------------------------------------------------------------------ *)
(** ** The tree and its table                                          *)
(* ------------------------------------------------------------------ *)

(** The checks of positional arguments that cobra makes before a command runs. *)
Definition accepted (p : positional) (args : list string) : bool :=
  match p with
  | AnyArgs => true
  | NoArgs => bool_decide (args = [])
  | ExactArgs n => (length args =? n)%nat
  | MaximumNArgs n => (length args <=? n)%nat
  | ExactValidArgs n valid => (length args =? n)%nat && forallb (fun a => str_in a valid) args
  end.

(** The commands of the tree below a command, by the words that lead to them. *)
Fixpoint callable (c : command) : list (list string * positional) :=
  concat (map (fun c' =>
    let word := first_word (cm_use c') in
    ([word], cm_args c') :: map (fun x => (word :: x.1, x.2)) (callable c')) (cm_commands c)).

Definition among (path : list string) (l : list (list string)) : bool := bool_decide (path ∈ l).

Section Wired.
Context `{GoLib} `{TableLib} `{SortLib} `{YamlLib}.
Variables (v : flag_values) (args : list string) (identity : linked * string) (script : string -> string).

(** Every command of the tree runs what it is wired to, in the order of the tree. *)
Lemma every_command_wired ro :
  fst <$> rootCmd_run ro v args identity script = fst <$> callable rootCmd.
Proof. vm_compute (callable rootCmd). reflexivity. Qed.

Lemma wired_at i path pos ro :
  callable rootCmd !! i = Some (path, pos) ->
  exists m, rootCmd_run ro v args identity script !! i = Some (path, m).
Proof.
  intros Hi. assert (Hw : (fst <$> rootCmd_run ro v args identity script) !! i = Some path).
  { rewrite every_command_wired, list_lookup_fmap, Hi. done. }
  rewrite list_lookup_fmap in Hw. destruct (rootCmd_run _ _ _ _ _ !! i) as [[p m]|]; simplify_eq/=. eauto.
Qed.

(** What the command at a place of the tree runs. *)
Definition run_of (i : nat) (ro : RESTOptions) : IO outcome :=
  from_option snd succeed (rootCmd_run ro v args identity script !! i).

Lemma run_of_at i path pos ro :
  callable rootCmd !! i = Some (path, pos) ->
  rootCmd_run ro v args identity script !! i = Some (path, run_of i ro).
Proof. intros Hi. destruct (wired_at _ _ _ ro Hi) as [m Hm]. unfold run_of. by rewrite Hm. Qed.

End Wired.
