(* ===== verification/Outcomes.v ===== *)
(** * How the commands end

    An error of a command ends the process with a status from 2 to 9: the errors
    that the program makes carry such a code, whichever of its types they have and
    however a command passes them on.  A command is [tame] when it returns no error
    but such a one, and panics or never returns only where that is allowed. *)
From S2P Require Import Prelude GoStrings Json Fields World Errors Exitcode Envelope SecretFile.
From S2P Require Import Rest FeatureGate Session Commands Plans ApplianceProps.
From S2P Require Import ConfigLifecycle Snapshot Lifecycle.

(* ------------------------------------------------------------------ *)
(** ** Errors that are failures                                        *)
(* ------------------------------------------------------------------ *)

Definition failure_status (code : Z) : Prop := (2 <= code <= 9)%Z.

(** What an error must be for the process to end with the status of a failure. *)
Class Failing (E : Type) := failing : E -> Prop.
#[export] Instance failing_cli : Failing CLIError := fun e => failure_status (ce_Code e).
#[export] Instance failing_lifecycle : Failing LifecycleError := fun e => le_Reason e <> ReasonOK.
#[export] Instance failing_text : Failing string := fun _ => True.
#[export] Instance failing_error : Failing goerror := fun e => failure_status (ce_Code (Classify e)).

(** The results, the errors and the outcomes that hold no other. *)
Definition errs_well {E A} `{Failing E} (r : result E A) : Prop :=
  match r with Ok _ => True | Err e => failing e end.
Definition error_well (err : option goerror) : Prop :=
  match err with None => True | Some e => failing e end.
Definition tame (panics hangs : bool) (out : outcome) : Prop :=
  match out with
  | Returns err => error_well err
  | Panics => panics = true
  | NeverReturns => hangs = true
  end.

Lemma failing_cli_error e : failing e -> failing (ECLI e).
Proof. done. Qed.

Lemma reason_codes_fail reason code :
  (reason, code) ∈ reasonCodes -> reason <> ReasonOK -> failure_status code.
Proof.
  assert (Hall : Forall (fun x => x.1 = ReasonOK \/ failure_status x.2) reasonCodes).
  { unfold failure_status. repeat (apply Forall_cons_2; [vm_compute; intuition congruence|]). constructor. }
  intros Hin Hr. rewrite Forall_forall in Hall. destruct (Hall _ Hin); done.
Qed.

Lemma failing_lifecycle_error e : failing e -> failing (ELifecycle e).
Proof.
  intros He. unfold failing, failing_error. change (Classify (ELifecycle e)) with (classify_lifecycle e).
  cbn [classify_lifecycle ce_Code]. destruct (assoc reasonCodes (le_Reason e)) as [c|] eqn:Hc.
  - apply assoc_in in Hc. by eapply reason_codes_fail.
  - by vm_compute.
Qed.

Lemma failing_text_error msg : failing (EText msg).
Proof. destruct (classified_text msg) as [H1 H2]. split; [exact H1|]. etrans; [exact H2|done]. Qed.

Lemma classify_text_fails msg : failure_status (ce_Code (classify_text msg)).
Proof. exact (failing_text_error msg). Qed.

Lemma failing_wrap msg e : failing e -> failing (EWrap msg e).
Proof.
  unfold failing, failing_error, Classify. cbn [as_cli as_lifecycle].
  destruct (as_cli e); [done|]. destruct (as_lifecycle e); [done|]. intros _. apply classify_text_fails.
Qed.

Lemma failing_classified e : classified e -> failing e.
Proof. unfold classified. intros [H1 H2]. split; [exact H1|]. lia. Qed.

Lemma status_code_fails status : failure_status (status_code status).
Proof. unfold status_code, failure_status. repeat case_match; by vm_compute. Qed.

Lemma failing_status_error status body : failing (NewStatusError status body).
Proof.
  unfold failing, failing_lifecycle, NewStatusError. cbn [le_Reason]. unfold reasonForStatus.
  repeat case_match; by vm_compute.
Qed.

Lemma failing_http op status : failing (FromHTTPStatus op status).
Proof. apply status_code_fails. Qed.

(* ------------------------------------------------------------------ *)
(** ** Rules                                                           *)
(* ------------------------------------------------------------------ *)

Create HintDb outcome.

Lemma errs_text {A} (r : result string A) : errs_well r.
Proof. by destruct r. Qed.

Lemma errs_bind {E A B} `{Failing E} (m : result E A) (f : A -> result E B) :
  errs_well m -> (forall a, errs_well (f a)) -> errs_well (m ≫= f).
Proof. destruct m; simpl; auto. Qed.

Lemma errs_try {E A B} `{Failing E} (m : IO (result E A)) (f : A -> IO (result E B)) :
  returns errs_well m -> (forall a, returns errs_well (f a)) -> returns errs_well (io_try m f).
Proof. intros Hm Hf. eapply returns_bind; [exact Hm|]. intros [a|e] He; [apply Hf | by apply returns_ret]. Qed.

Lemma tame_none p n : returns (tame p n) (mret (Returns None)).
Proof. by apply returns_ret. Qed.

Lemma tame_some p n e : failing e -> returns (tame p n) (mret (Returns (Some e))).
Proof. intros He. by apply returns_ret. Qed.

Lemma tame_fail p n (e : CLIError) : failing e -> returns (tame p n) (fail_with e).
Proof. intros He. by apply returns_ret. Qed.

Lemma tame_failed p n msg : returns (tame p n) (failed_with msg).
Proof. apply tame_fail. by vm_compute. Qed.

Lemma tame_answered p n failure send k :
  (forall resp, returns (tame p n) (k resp)) -> returns (tame p n) (answered failure send k).
Proof.
  intros Hk. apply returns_step. intros [resp|e]; [apply Hk|]. apply tame_fail. by vm_compute.
Qed.

Lemma tame_weaken p n m : returns (tame false false) m -> returns (tame p n) m.
Proof.
  intros Hm w h. specialize (Hm w h). by destruct (m w h).1 as [err| |].
Qed.

Lemma error_ret err : error_well err -> returns error_well (mret err).
Proof. apply returns_ret. Qed.

#[export] Hint Resolve errs_text failing_text_error failing_cli_error failing_lifecycle_error
  failing_status_error failing_http tame_none tame_some tame_fail tame_failed : outcome.

(** An error with a code or a reason of the program. *)
Ltac failure :=
  lazymatch goal with
  | |- True => exact I
  | |- failing (ECLI _) => apply failing_cli_error; failure
  | |- failing (ELifecycle _) => apply failing_lifecycle_error; failure
  | |- failing (EText _) => apply failing_text_error
  | |- failing (EWrap _ _) => apply failing_wrap; failure
  | |- failing (Classify ?e) => change (failing e); failure
  | |- failing (with_message ?e _) => change (failing e); failure
  | |- failing (with_http_status ?e _) => change (failing e); failure
  | |- failing (match ?x with _ => _ end) => destruct x; failure
  | |- failing (lifecycle_error ?reason _) =>
      change (reason <> ReasonOK); let H := fresh in intros H; discriminate H
  | |- failing (cli_error ?code _ _ _) => change (failure_status code); by vm_compute
  | |- failing (Usagef _) => change (failure_status InvalidArgument); by vm_compute
  | |- failing (Invalidf _) => change (failure_status InvalidArgument); by vm_compute
  | |- failing (Unavailablef _) => change (failure_status Unavailable); by vm_compute
  | |- failing {| le_Reason := ?reason |} =>
      change (reason <> ReasonOK); let H := fresh in intros H; discriminate H
  | |- failing _ => solve [eauto with outcome]
  end.

(** What a text or a result of [x] may be is remembered before it is looked at. *)
Ltac look_at x :=
  let T := type of x in
  lazymatch x with
  | fst ?p => is_var p; destruct p; cbn [fst snd] in *
  | _ =>
  lazymatch T with
  | result _ _ =>
      first [ assert (errs_well x) by (solve [eauto with outcome]); destruct x
            | is_var x; destruct x
            | destruct x eqn:? ]
  | _ => first [is_var x; destruct x | destruct x eqn:?]
  end
  end.

Ltac tame_step :=
  cbv zeta;
  lazymatch goal with
  | |- failing _ => failure
  | |- error_well None => exact I
  | |- error_well (Some _) => red
  | |- error_well (match ?x with _ => _ end) => look_at x
  | |- error_well (EText <$> ?x) => destruct x; [apply failing_text_error | exact I]
  | |- errs_well (Ok _) => exact I
  | |- errs_well (Err _) => red
  | |- errs_well (mbind _ _) => apply errs_bind; [|intros ?]
  | |- errs_well (match ?x with _ => _ end) => look_at x
  | |- returns _ succeed => apply tame_none
  | |- returns _ (fail_with _) => apply tame_fail
  | |- returns _ (failed_with _) => apply tame_failed
  | |- returns _ (answered _ _ _) => apply tame_answered; intros ?
  | |- returns _ (match ?x with _ => _ end) => look_at x
  | |- returns _ (mret (Returns None)) => apply tame_none
  | |- returns (tame _ _) (mret (Returns (Some _))) => apply tame_some
  | |- returns _ (mret _) => apply returns_ret
  | |- returns _ _ =>
      first [ solve [eauto with outcome]
            | lazymatch goal with
              | |- returns _ (mbind _ ?m) =>
                  first [ eapply returns_bind; [solve [eauto with outcome]|]; intros ? ?
                        | apply returns_step; intros ? ]
              | |- returns errs_well (io_try _ _) => apply errs_try; [|intros ?]
              end ]
  | |- errs_well _ => solve [eauto with outcome]
  | |- error_well _ => solve [eauto with outcome]
  | |- tame _ _ (Returns _) => red
  | |- tame _ _ Panics => reflexivity
  | |- tame _ _ NeverReturns => reflexivity
  end.
Ltac tamed := repeat (first [assumption | tame_step]).

(* ------------------------------------------------------------------ *)
(** ** What the commands share                                         *)
(* ------------------------------------------------------------------ *)

Section Gates.
Context `{GoLib}.

Lemma version_answer_errs r : errs_well (version_answer r).
Proof. unfold version_answer. tamed. Qed.

Lemma failing_feature op feature status body : failing (classify_feature op feature status body).
Proof. unfold classify_feature. case_match; [by vm_compute | failure]. Qed.

Lemma read_version_errs ro cache : returns (fun out => errs_well out.1) (read_version ro cache).
Proof.
  unfold read_version. destruct (cache !! _); [by apply returns_ret|].
  apply returns_step. intros c. apply returns_step. intros r. apply returns_ret.
  pose proof (version_answer_errs r) as Hr. by destruct (version_answer r).
Qed.

Lemma gate_verdict_errs ro command feature version :
  errs_well (gate_verdict ro command feature version).
Proof. unfold gate_verdict. case_match; [by vm_compute | done]. Qed.

Lemma require_errs ro feature command cache :
  returns (fun out => error_well out.1) (Require ro feature command cache).
Proof.
  eapply returns_bind; [apply read_version_errs|]. intros [[version|e] c] Hv; [|by apply returns_ret].
  cbn [fst snd]. pose proof (gate_verdict_errs ro command feature version) as Hg.
  destruct (gate_verdict _ _ _ _) as [[|]|e]; [by apply returns_ret | | by apply returns_ret].
  apply returns_step. intros _. by apply returns_ret.
Qed.

Lemma require_advertised_errs ro feature command cache :
  returns (fun out => error_well out.1) (RequireAdvertised ro feature command cache).
Proof.
  eapply returns_bind; [apply read_version_errs|]. intros [[version|e] c] Hv; apply returns_ret; [|done].
  cbn [fst snd]. pose proof (gate_verdict_errs ro command feature version) as Hg.
  destruct (gate_verdict _ _ _ _) as [[|]|e]; done.
Qed.

Lemma gates_errs ro l cache : returns (fun out => error_well out.1) (gates ro l cache).
Proof.
  revert cache. induction l as [|[[strict feature] command] l IH]; intros cache; [by apply returns_ret|].
  cbn [gates]. apply (returns_bind _ (fun out => error_well out.1)).
  - destruct strict; [apply require_advertised_errs | apply require_errs].
  - intros [[e|] c] He; [by apply returns_ret | apply IH].
Qed.

Lemma tame_gated p n ro feature op k :
  returns (tame p n) k -> returns (tame p n) (gated ro feature op k).
Proof.
  intros Hk. eapply returns_bind; [apply require_errs|]. intros [[e|] c] He; [|exact Hk].
  by apply returns_ret.
Qed.

Lemma tame_resource p n debug ro op resp : returns (tame p n) (resource_answer debug ro op resp).
Proof. unfold resource_answer. tamed. Qed.

Lemma tame_managed p n ok op done_ resp : returns (tame p n) (managed_answer ok op done_ resp).
Proof. unfold managed_answer, api_error_answer. tamed. Qed.

Lemma tame_feature p n ok op feature done_ resp :
  returns (tame p n) (feature_answer ok op feature done_ resp).
Proof. unfold feature_answer. tamed. apply failing_feature. Qed.

Lemma failing_refused op status body : failing (refused_answer op status body).
Proof. unfold refused_answer. failure. Qed.

Lemma failing_api_error op resp : failing (api_error_answer op resp).
Proof. unfold api_error_answer. failure. Qed.

Lemma tame_when_valid n c refusal k :
  (forall msg, failing (refusal msg)) -> returns (tame true n) k ->
  returns (tame true n) (when_valid c refusal k).
Proof. intros Hr Hk. destruct c; [done | by apply tame_fail | by apply returns_ret]. Qed.

Lemma tame_with_arg p n args i crash k :
  returns (tame p n) crash -> (forall a, returns (tame p n) (k a)) ->
  returns (tame p n) (with_arg args i crash k).
Proof. intros Hc Hk. unfold with_arg. destruct (args !! i); auto. Qed.

End Gates.

#[export] Hint Resolve failing_feature tame_resource tame_managed tame_feature failing_refused failing_api_error
  require_errs require_advertised_errs gates_errs : outcome.

(* ------------------------------------------------------------------ *)
(** ** Before the command                                              *)
(* ------------------------------------------------------------------ *)

Lemma errs_classified {A} (r : result goerror A) : classified_result r -> errs_well r.
Proof. destruct r; [done|]. apply failing_classified. Qed.

Lemma read_secret_file_errs what path : returns errs_well (ReadSecretFile what path).
Proof. intros w h. apply errs_classified, read_secret_file_classified. Qed.
#[export] Hint Resolve read_secret_file_errs : outcome.

Lemma nonempty_secret_errs what path empty : returns errs_well (nonempty_secret what path empty).
Proof.
  eapply returns_bind; [apply read_secret_file_errs|]. intros [s|e] He; [|by apply returns_ret].
  apply returns_ret. case_match; [by vm_compute | done].
Qed.

Lemma originator_errs : returns errs_well cliOriginator.
Proof.
  unfold cliOriginator. apply returns_step. intros [u|e]; [|apply returns_ret; by vm_compute].
  apply returns_step. intros [h|e]; apply returns_ret; [|by vm_compute].
  case_match; [done | by vm_compute].
Qed.

Lemma pre_run_errs f o : returns errs_well (PersistentPreRunE f o).
Proof.
  eapply (returns_bind _ errs_well).
  - unfold set_originator. destruct (rf_originator f); [|by apply returns_ret].
    eapply returns_bind; [apply originator_errs|]. intros [v|e] He; by apply returns_ret.
  - intros [o'|e] He; [|by apply returns_ret]. unfold set_token. apply returns_if; intros _.
    { eapply returns_bind; [apply nonempty_secret_errs|]. intros [s|e] Hs; by apply returns_ret. }
    apply returns_if; intros _; [apply returns_step; intros _; by apply returns_ret|].
    apply returns_step. intros [info|e].
    + eapply returns_bind; [apply nonempty_secret_errs|]. intros [s|e] Hs; by apply returns_ret.
    + apply returns_ret. case_match; [done | by vm_compute].
Qed.
