(* ===== verification/Footprint.v ===== *)
(** * What the commands touch

    Of the world outside a command is given a footprint: the processes it may start,
    and whether it speaks to the gateway, changes the disk or reads from the
    terminal.  Every command of the tree keeps to its own, and what is sent goes to
    the server of the options, under their identity. *)
From S2P Require Import Prelude GoStrings Json JsonPrint Fields World Errors Exitcode Envelope.
From S2P Require Import SecretFile Contract Rest Requests FeatureGate Session Appliance Commands Plans.
From S2P Require Import ApplianceProps ConfigLifecycle Snapshot Lifecycle LifecycleCmds OpsCmds AuditSinks.
From S2P Require Import AuditTrail LbOptions LbCreate NetModel CreateCmds DeleteCmds FileConfig ApplyText.
From S2P Require Import Netlink SaveCmds.
From S2P Require Import AiModel SetCmds LoginCmds AiCmds Tables GetCmds AiGets LbTables.
From S2P Require Import CreateProps DeleteProps SetProps GetProps CliTables Root Dispatch.

(* ------------------------------------------------------------------ *)
(** ** Footprints                                                      *)
(* ------------------------------------------------------------------ *)

Record footprint : Type := {
  fp_starts : list string -> option string -> Prop;
  fp_gateway : bool;
  fp_disk : bool;
  fp_terminal : bool
}.

(** The verification that the options ask for: the transport has no configuration
    when they ask for none; otherwise it verifies the server unless they are
    insecure, against the certificates of the file that is named (as the world has
    answered for it) and with the key pair that is named.  What cannot be read or
    used leaves the transport without a configuration. *)
Definition asks_tls (ro : RESTOptions) : bool :=
  bool_decide (ro_Protocol ro = "https") || ro_Insecure ro
  || negb (bool_decide (ro_CACertFile ro = "" /\ ro_ClientCertFile ro = "" /\ ro_ClientKeyFile ro = "")).

Definition tls_unusable (w : World) (ro : RESTOptions) : Prop :=
  (ro_CACertFile ro <> "" /\ exists h,
     match w h (OpReadFile (ro_CACertFile ro)) with
     | Err _ => True
     | Ok pem => exists h', w h' (OpParsePEM pem) = false
     end)
  \/ (ro_ClientCertFile ro = "" <-> ro_ClientKeyFile ro <> "")
  \/ (ro_ClientCertFile ro <> "" /\ ro_ClientKeyFile ro <> ""
      /\ exists h e, w h (OpLoadKeyPair (ro_ClientCertFile ro) (ro_ClientKeyFile ro)) = Some e).

Definition verified (w : World) (ro : RESTOptions) (tls : option tls_config) : Prop :=
  if asks_tls ro then
    match tls with
    | None => tls_unusable w ro
    | Some cfg =>
        tc_InsecureSkipVerify cfg = ro_Insecure ro
        /\ match tc_RootCAs cfg with
           | None => ro_CACertFile ro = ""
           | Some pem => ro_CACertFile ro <> "" /\ (exists h, w h (OpReadFile (ro_CACertFile ro)) = Ok pem)
                         /\ exists h, w h (OpParsePEM pem) = true
           end
        /\ tc_Certificates cfg
           = (if bool_decide (ro_ClientCertFile ro = "" /\ ro_ClientKeyFile ro = "") then None
              else Some (ro_ClientCertFile ro, ro_ClientKeyFile ro))
    end
  else tls = None.

(** The headers: the token once, with [Bearer] before it once where the options ask
    for it, and the originator. *)
Definition sent_headers (ro : RESTOptions) : list (string * string) :=
  let token := trim_space (ro_Token ro) in
  [("Content-Type", "application/json")]
  ++ (if bool_decide (token = "") then []
      else [("Authorization", if ro_BearerAuth ro && negb (has_prefix token "Bearer ")
                              then "Bearer " +:+ token else token)])
  ++ (if bool_decide (ro_Originator ro = "") then [] else [("X-Loxilb-Originator", ro_Originator ro)]).

(** A request to the server and port of the options: after them the URL has nothing,
    a path or a query. *)
Definition server_url (ro : RESTOptions) : string :=
  sprintf [if bool_decide (ro_Protocol ro = "") then "" else ro_Protocol ro +:+ ":"; "//";
           url_escape host_kept (sprintf [ro_ServerIP ro; ":"; itoa (ro_ServerPort ro)])].

Definition addressed (w : World) (ro : RESTOptions) (req : http_request) : Prop :=
  (exists rest, hq_url req = server_url ro +:+ rest
     /\ (rest = "" \/ has_prefix rest "/" = true \/ has_prefix rest "?" = true))
  /\ hq_headers req = sent_headers ro
  /\ verified w ro (hq_tls req).

(** A client that was made from the options. *)
Definition own (w : World) (ro : RESTOptions) (c : RESTClient) : Prop :=
  rc_Options c = ro /\ verified w ro (rc_TLS c).

(** Whatever is read of files and of the host is free, and so is what is printed. *)
Definition within (w : World) (ro : RESTOptions) (fp : footprint) (o : op) : Prop :=
  match o with
  | OpSpawn argv stdin => fp_starts fp argv stdin
  | OpHttp req => fp_gateway fp = true /\ addressed w ro req
  | OpCreateTemp _ _ | OpChmod _ _ | OpWrite _ _ | OpSync _ | OpClose _ | OpRename _ _ | OpRemove _
  | OpOpen _ _ _ | OpMkdir _ _ | OpRemoveAll _ => fp_disk fp = true
  | OpReadLine | OpReadPassword | OpReadStdin _ => fp_terminal fp = true
  | _ => True
  end.

(** The table: the appliance starts the backend by the policy of [ApplianceProps] and
    sends nothing; [apply] and [save] start the shell; four commands store what they
    were asked for, and a session is three more; a login asks for a name and a
    password, and an imported key may be typed. *)
Definition shell_command (argv : list string) (stdin : option string) : Prop :=
  stdin = None /\ exists c, argv = bash c.
Definition no_process (argv : list string) (stdin : option string) : Prop := False.

Definition on_host (path : list string) : bool := streq (default "" (head path)) "appliance".
Definition silent_commands : list (list string) := [["get"]; ["create"]; ["set"]; ["completion"]; ["version"]].
Definition shell_commands : list (list string) := [["apply"]; ["save"]].
Definition storing_commands : list (list string) :=
  [["get"; "snapshot"]; ["get"; "log-archives"]; ["save"];
   ["set"; "login"]; ["set"; "logout"]; ["set"; "refresh"]].
Definition typed_commands : list (list string) := [["set"; "login"]; ["create"; "apikey"]].

Definition footprint_of (path : list string) : footprint := {|
  fp_starts := if on_host path then command_spawn
               else if among path shell_commands then shell_command else no_process;
  fp_gateway := negb (on_host path || among path silent_commands);
  fp_disk := among path storing_commands;
  fp_terminal := among path typed_commands |}.

(** The operations of a computation in one world. *)
Definition stays (w : World) (P : op -> Prop) {A} (m : IO A) : Prop :=
  forall h, Forall (fun e => P (ev_op e)) (m w h).2.

Lemma stays_ret w P {A} (a : A) : stays w P (mret (M := IO) a).
Proof. intros h. constructor. Qed.

Lemma stays_bind w P {A B} (m : IO A) (f : A -> IO B) :
  stays w P m -> (forall a, stays w P (f a)) -> stays w P (mbind f m).
Proof.
  intros Hm Hf h. rewrite io_bind_run. specialize (Hm h). destruct (m w h) as [a t].
  specialize (Hf a (h ++ t)). destruct (f a w (h ++ t)) as [b t']. by apply Forall_app_2.
Qed.

Lemma stays_try w P {E A B} (m : IO (result E A)) (f : A -> IO (result E B)) :
  stays w P m -> (forall a, stays w P (f a)) -> stays w P (io_try m f).
Proof. intros Hm Hf. apply stays_bind; [done|]. intros [a|e]; [done | apply stays_ret]. Qed.

Lemma stays_perform w (P : op -> Prop) o : P o -> stays w P (perform o).
Proof. intros HP h. by repeat constructor. Qed.

Section Rules.
Variables (w : World) (ro : RESTOptions) (fp : footprint).
Notation keeps := (stays w (within w ro fp)).

Lemma asks_needs : needsTLSConfig ro = asks_tls ro.
Proof.
  unfold needsTLSConfig, asks_tls. apply Bool.eq_iff_eq_true.
  rewrite !orb_true_iff, !negb_true_iff, !is_empty_false, bool_decide_eq_true, bool_decide_eq_false, streq_true.
  destruct (ro_CACertFile ro), (ro_ClientCertFile ro), (ro_ClientKeyFile ro); naive_solver.
Qed.

Lemma read_ca_wp file h :
  wp (read_ca file) w h (fun r _ =>
    match r with
    | Ok None => file = ""
    | Ok (Some pem) => file <> "" /\ (exists h, w h (OpReadFile file) = Ok pem) /\ exists h, w h (OpParsePEM pem) = true
    | Err _ => file <> "" /\ exists h, match w h (OpReadFile file) with
                                       | Err _ => True
                                       | Ok pem => exists h', w h' (OpParsePEM pem) = false
                                       end
    end).
Proof.
  unfold read_ca, read_file. destruct (is_empty file) eqn:Hf; [by apply wp_ret; apply is_empty_true|].
  apply is_empty_false in Hf. wp_op. intros [pem|e] Hr.
  - wp_op. intros [|] Hp; apply wp_ret.
    + split_and!; [done | by exists h | by eexists].
    + split; [done|]. exists h. rewrite Hr. by eexists.
  - apply wp_ret. split; [done|]. exists h. by rewrite Hr.
Qed.

Lemma load_key_pair_wp cert key h :
  wp (load_key_pair cert key) w h (fun r _ =>
    match r with
    | Ok certs => certs = (if bool_decide (cert = "" /\ key = "") then None else Some (cert, key))
    | Err _ => (cert = "" <-> key <> "")
               \/ cert <> "" /\ key <> "" /\ exists h e, w h (OpLoadKeyPair cert key) = Some e
    end).
Proof.
  unfold load_key_pair. destruct cert as [|x cert], key as [|y key].
  - by apply wp_ret.
  - apply wp_ret. by left.
  - apply wp_ret. by left.
  - change (is_empty (String x cert)) with false. change (is_empty (String y key)) with false. cbn [andb orb].
    wp_op. intros [e|] Hr; apply wp_ret; [|done]. right. split_and!; [done..|]. by exists h, e.
Qed.

Lemma client_own h : own w ro (NewLoxiClient ro w h).1.
Proof.
  change (wp (NewLoxiClient ro) w h (fun c _ => own w ro c)). unfold NewLoxiClient, own, verified.
  rewrite asks_needs. destruct (asks_tls ro); [|by apply wp_ret].
  unfold buildTLSConfig, io_try, tls_unusable. apply wp_assoc, wp_bind.
  eapply wp_mono; [apply read_ca_wp|]. intros [roots|e] t Hroots.
  2: { apply wp_bind, wp_ret. unfold write_err. wp_op. intros a _. apply wp_ret. split; [done|]. cbn. by left. }
  apply wp_assoc, wp_bind. eapply wp_mono; [apply load_key_pair_wp|]. intros [certs|e] t' Hcerts.
  2: { apply wp_bind, wp_ret. unfold write_err. wp_op. intros a _. apply wp_ret. split; [done|]. cbn. by right. }
  apply wp_bind, wp_ret, wp_ret. split; [done|]. cbn. by destruct roots.
Qed.

Lemma keeps_client {B} (f : LoxiClient -> IO B) :
  (forall c, own w ro c -> keeps (f c)) -> keeps (mbind f (NewLoxiClient ro)).
Proof.
  intros Hf h. rewrite io_bind_run. pose proof (client_own h) as Hc.
  pose proof (client_ops ro w h) as Ht. destruct (NewLoxiClient ro w h) as [c t]. specialize (Hf c Hc (h ++ t)).
  destruct (f c w (h ++ t)) as [b t']. apply Forall_app_2; [|exact Hf].
  eapply Forall_impl; [exact Ht|]. by intros [[] a].
Qed.

Lemma url_of_server l : rc_Options (ca_restClient l) = ro ->
  exists rest, GetUrlString l = server_url ro +:+ rest
    /\ (rest = "" \/ has_prefix rest "/" = true \/ has_prefix rest "?" = true).
Proof.
  intros Hl. unfold GetUrlString, url_string, server_url, GetHost. rewrite Hl.
  set (host := sprintf [ro_ServerIP ro; ":"; itoa (ro_ServerPort ro)]).
  assert (Hh : is_empty host = false).
  { unfold host, sprintf. cbn [concat_str fold_right]. by destruct (ro_ServerIP ro). }
  rewrite Hh. cbn [negb]. rewrite andb_true_r.
  set (escaped := if streq (makeBaseURL _) "*" then _ else _).
  set (q := match ri_queryArgs _ with Some q => encode_query q | None => "" end).
  exists (sprintf [if negb (is_empty escaped) && negb (has_prefix escaped "/") then "/" else ""; escaped;
                   if is_empty q then "" else "?" +:+ q]). split.
  - replace (bool_decide (ro_Protocol ro = "")) with (is_empty (ro_Protocol ro))
      by (by destruct (ro_Protocol ro)).
    unfold sprintf. rewrite <- concat_str_app. reflexivity.
  - unfold sprintf. cbn [concat_str fold_right].
    destruct escaped as [|a escaped].
    + change (is_empty "") with true. cbn [negb andb]. destruct (is_empty q); [by left|]. right; right.
      apply has_prefix_app. by exists (q +:+ "").
    + right; left. apply has_prefix_app. change (is_empty (String a escaped)) with false. cbn [negb andb].
      destruct (has_prefix (String a escaped) "/") eqn:Hp; cbn [negb]; [|by eexists].
      apply has_prefix_app in Hp as [t Hp]. rewrite Hp. by eexists.
Qed.

Lemma keeps_sent l method body :
  fp_gateway fp = true -> own w ro (ca_restClient l) ->
  keeps (http_do (build_request (ca_restClient l) method (GetUrlString l) body)).
Proof.
  intros Hg [Hl Ht]. apply stays_perform. split; [exact Hg|]. split_and!; [by apply url_of_server | | exact Ht].
  unfold build_request, auth_header, originator_header, sent_headers. rewrite Hl. cbn [hq_headers].
  by destruct (trim_space (ro_Token ro)), (ro_Originator ro).
Qed.

End Rules.

Ltac head_of t := lazymatch t with ?f _ => head_of f | _ => t end.

(** What decides first. *)
Ltac decide_on x := lazymatch x with match ?y with _ => _ end => decide_on y | _ => destruct x end.

(** One step into the text of a command. *)
Ltac touch_step :=
  cbv beta iota zeta;
  lazymatch goal with
  | H : forall c, ca_restClient (?api c) = c |- own _ _ (ca_restClient (?api _)) => rewrite H; assumption
  | |- own _ _ (ca_restClient (match ?x with _ => _ end)) => destruct x
  | |- own _ _ _ => assumption
  | |- fp_gateway _ = true => first [assumption | reflexivity]
  | |- stays _ _ (mret _) => apply stays_ret
  | |- stays _ _ (mbind _ (NewLoxiClient _)) => apply keeps_client; intros ? ?
  | |- stays _ _ (mbind _ _) => apply stays_bind; [|intros ?]
  | |- stays _ _ (io_try _ _) => apply stays_try; [|intros ?]
  | |- stays _ _ (match ?x with _ => _ end) => decide_on x
  | |- stays _ _ (http_do (build_request _ _ _ _)) => apply keeps_sent
  | |- stays _ _ (perform _) => apply stays_perform; cbn [within]; first [exact I | assumption | reflexivity]
  | |- stays _ _ ?m => let h := head_of m in unfold h
  end.
Ltac walk := repeat first [assumption | touch_step].

Section Loops.
Context `{GoLib} `{TableLib} `{SortLib} `{YamlLib}.
Variables (w : World) (ro : RESTOptions) (fp : footprint).
Notation keeps := (stays w (within w ro fp)).

(** Loops: over texts and tables, over what is sent in turn. *)
Lemma write_all_keeps l : keeps (write_all l).
Proof. induction l as [|s l IH]; cbn [write_all]; walk. Qed.

Lemma print_bands_keeps rules : keeps (print_bands rules).
Proof. induction rules as [|r rules IH]; cbn [print_bands]; walk. Qed.

Lemma print_texts_keeps l : keeps (print_texts l).
Proof. induction l as [|s l IH]; cbn [print_texts]; walk. Qed.

Lemma in_order_keeps {A} (f : A -> IO bool) l : (forall a, keeps (f a)) -> keeps (in_order (List.map f l)).
Proof. intros Hf. induction l as [|a l IH]; cbn [List.map in_order]; walk; auto. Qed.

Lemma steps_keeps m l : keeps m -> keeps (in_order l) -> keeps (in_order (m :: l)).
Proof. intros Hm Hl. cbn [in_order]. walk. Qed.

Lemma post_each_keeps {A} shown (send : A -> IO http_result) l :
  (forall a, keeps (send a)) -> keeps (post_each shown send l).
Proof. intros Hs. induction l as [|a l IH]; cbn [post_each]; walk; auto. Qed.

Lemma for_all_keeps {A} (f : A -> IO (option unit)) l : (forall a, keeps (f a)) -> keeps (for_all f l).
Proof. intros Hf. induction l as [|a l IH]; cbn [for_all]; walk; auto. Qed.

Lemma save_rows_keeps l : Forall (fun d => keeps (dr_dump d)) l -> keeps (save_rows l).
Proof. induction 1 as [|d l Hd _ IH]; cbn [save_rows]; walk. Qed.

Lemma delete_each_keeps send failure op l :
  (forall x, keeps (send x)) -> keeps (delete_each ro send failure op l).
Proof. intros Hs. induction l as [|x l IH]; cbn [delete_each]; walk; auto. Qed.

(** The same for those that speak to the gateway themselves. *)
Hypothesis gateway : fp_gateway fp = true.

Lemma gates_keeps l cache : keeps (gates ro l cache).
Proof. revert cache. induction l as [|[[strict feature] op] l IH]; intros cache; cbn [gates]; walk; auto. Qed.

Lemma create_rules_keeps rule l : keeps (create_rules ro rule l).
Proof.
  induction l as [|p l IH]; cbn [create_rules]; [walk|].
  destruct (rule p) as [[m|e]|]; [|walk..].
  apply stays_bind; [walk|]. intros [e|]; [walk | exact IH].
Qed.

Lemma create_each_keeps op api docs :
  (forall c, ca_restClient (api c) = c) -> keeps (create_each ro op api docs).
Proof. intros Hapi. induction docs as [|doc docs IH]; cbn [create_each]; walk. Qed.

Lemma delete_protocols_keeps client o ip l : own w ro client -> keeps (delete_protocols ro client o ip l).
Proof. intros Hc. induction l as [|[proto ports] l IH]; cbn [delete_protocols]; walk. Qed.

(** The kinds of the documents of [-f]. *)
Lemma switch_kind_keeps kind (cases : list (list string * (string -> IO (option string)))) f text :
  Forall (fun c => forall s, keeps (c.2 s)) cases -> switch_kind kind cases = Some f -> keeps (f text).
Proof.
  intros Hc. unfold switch_kind. destruct (List.find _ cases) as [c|] eqn:Hf; intros [= <-].
  apply List.find_some in Hf as [Hin _]. rewrite Forall_forall in Hc. by apply Hc, list_elem_of_In.
Qed.

Ltac switched := repeat apply Forall_cons_2; [..|apply Forall_nil_2]; cbn [snd]; intros ?; walk.

Lemma ApplyFileConfig_keeps file : keeps (ApplyFileConfig ro file).
Proof.
  assert (Hc : Forall (fun c => forall s, keeps (c.2 s)) (create_cases ro)) by switched.
  unfold ApplyFileConfig, with_kind. apply stays_bind; [walk|]. intros [text|e]; [|walk].
  destruct (yaml_unmarshal _ _ text) as [comm|e]; [|walk].
  destruct (switch_kind _ _) as [f|] eqn:Hf; [|walk].
  apply stays_bind; [by eapply switch_kind_keeps | intros ?; walk].
Qed.

Lemma DeleteFileConfig_keeps file : keeps (DeleteFileConfig ro file).
Proof.
  assert (Hc : Forall (fun c => forall s, keeps (c.2 s)) (delete_cases ro)) by switched.
  unfold DeleteFileConfig, with_kind. apply stays_bind; [walk|]. intros [text|e]; [|walk].
  destruct (yaml_unmarshal _ _ text) as [comm|e]; [|walk].
  destruct (switch_kind _ _) as [f|] eqn:Hf; [|walk].
  apply stays_bind; [by eapply switch_kind_keeps | intros ?; walk].
Qed.

(** The shell. *)
Hypothesis starts : forall c, fp_starts fp (bash c) None.

Lemma bash_keeps c : keeps (bashCommand c).
Proof. unfold bashCommand. walk. by apply stays_perform, starts. Qed.

Lemma shell_keeps c : keeps (shell c).
Proof. unfold shell. walk. by apply stays_perform, starts. Qed.

End Loops.

(** Loops by their lemmas, everything else by its text. *)
Ltac touch_loop :=
  lazymatch goal with
  | |- stays _ _ (write_all _) => apply write_all_keeps
  | |- stays _ _ (print_bands _) => apply print_bands_keeps
  | |- stays _ _ (print_texts _) => apply print_texts_keeps
  | |- stays _ _ (gates _ _ _) => apply gates_keeps; reflexivity
  | |- stays _ _ (create_rules _ _ _) => apply create_rules_keeps; reflexivity
  | |- stays _ _ (ApplyFileConfig _ _) => apply ApplyFileConfig_keeps; reflexivity
  | |- stays _ _ (DeleteFileConfig _ _) => apply DeleteFileConfig_keeps; reflexivity
  | |- stays _ _ (bashCommand _) => apply bash_keeps; intros ?; split; [reflexivity | eexists; reflexivity]
  | |- stays _ _ (shell _) => apply shell_keeps; intros ?; split; [reflexivity | eexists; reflexivity]
  | |- stays _ _ (create_each _ _ _ _) => apply create_each_keeps; [reflexivity | intros ?; reflexivity]
  | |- stays _ _ (delete_each _ _ _ _ _) => apply delete_each_keeps; intros ?
  | |- stays _ _ (delete_protocols _ _ _ _ _) => apply delete_protocols_keeps; [reflexivity | assumption]
  | |- stays _ _ (in_order (List.map _ _)) => apply in_order_keeps; intros ?
  | |- stays _ _ (in_order (_ :: _)) => apply steps_keeps
  | |- stays _ _ (in_order []) => apply stays_ret
  | |- stays _ _ (post_each _ _ _) => apply post_each_keeps; intros ?
  | |- stays _ _ (for_all _ _) => apply for_all_keeps; intros ?
  | |- stays _ _ (save_rows _) => apply save_rows_keeps; repeat apply Forall_cons_2; [..|apply Forall_nil_2]
  end.
Ltac touch := repeat first [assumption | touch_loop | touch_step].

Ltac touch_table := repeat apply Forall_cons_2; [..|apply Forall_nil_2]; cbn [fst snd].

Section Tables.
Context `{GoLib} `{TableLib} `{SortLib} `{YamlLib}.
Variables (w : World) (ro : RESTOptions) (v : flag_values) (args : list string).
Notation table_keeps above t := (Forall (fun x => stays w (within w ro (footprint_of (above ++ [x.1]))) x.2) t).

Lemma get_run_keeps : table_keeps ["get"] (GetCmd_run ro v args).
Proof. unfold GetCmd_run. cbv zeta. touch_table; touch. Qed.

Lemma create_run_keeps : table_keeps ["create"] (CreateCmd_run ro v args).
Proof. unfold CreateCmd_run. cbv zeta. touch_table; touch. Qed.

Lemma delete_run_keeps : table_keeps ["delete"] (DeleteCmd_run ro v args).
Proof. unfold DeleteCmd_run. cbv zeta. touch_table; touch. Qed.

Lemma set_run_keeps : table_keeps ["set"] (SetParamCmd_run ro v args).
Proof. unfold SetParamCmd_run. cbv zeta. touch_table; touch. Qed.

Lemma apply_keeps o : stays w (within w ro (footprint_of ["apply"])) (ApplyCmd ro o).
Proof. touch. Qed.

(** [save] takes an inventory of the host, and dumps the objects of the gateway. *)
Notation saves := (stays w (within w ro (footprint_of ["save"]))).

Lemma dump_to_saves path file append line : saves (dump_to path file append line).
Proof. touch. Qed.
Lemma script_saves f line : saves (script f line).
Proof. touch. Qed.
Lemma create_dir_saves dir : saves (createDir dir).
Proof. touch. Qed.

Ltac saved := repeat first [apply dump_to_saves | apply script_saves | apply create_dir_saves | touch_loop | touch_step].

Lemma add_link_saves f path l : saves (AddLink f path l).
Proof. saved. Qed.
Lemma add_neigh_saves f path n l : saves (AddNeigh f path n l).
Proof. saved. Qed.

Lemma inventory_saves f path : saves (inventory f path).
Proof. repeat first [apply add_link_saves | apply add_neigh_saves | assumption | touch_loop | touch_step]. Qed.

Lemma save_keeps o : saves (runSave ro o).
Proof. repeat first [apply inventory_saves | touch_loop | touch_step]. Qed.

(** The appliance: the backend by its policy, and nothing else. *)
Lemma appliance_quiet printOption i :
  stays w (within w ro {| fp_starts := fun _ _ => True; fp_gateway := false; fp_disk := false;
                            fp_terminal := false |}) (ApplianceCmd printOption i).
Proof. touch. Qed.

Lemma appliance_keeps printOption i path :
  on_host path = true -> stays w (within w ro (footprint_of path)) (returned (ApplianceCmd printOption i)).
Proof.
  intros Hp. unfold returned. apply stays_bind; [|intros ?; apply stays_ret]. intros h.
  assert (Hs := appliance_spawns printOption i w h). assert (Hq := appliance_quiet printOption i h).
  rewrite Forall_forall in Hs, Hq |- *. intros e He. specialize (Hs e He). specialize (Hq e He).
  unfold footprint_of. rewrite Hp. destruct (ev_op e); cbn in *; try done; by destruct Hq.
Qed.

Lemma appliance_run_keeps :
  Forall (fun x => stays w (within w ro (footprint_of ("appliance" :: x.1))) x.2) (ApplianceCmd_run ro v args).
Proof.
  unfold ApplianceCmd_run, with_arg. cbv zeta. touch_table;
    first [by apply appliance_keeps | destruct (args !! 0); [by apply appliance_keeps | apply stays_ret]].
Qed.

Lemma under_keeps {A} above (t : list (list string * A)) (P : list string -> A -> Prop) :
  Forall (fun x => P (above ++ x.1) x.2) t -> Forall (fun x => P x.1 x.2) (under above t).
Proof. intros Ht. by apply Forall_fmap. Qed.

Lemma child_keeps {A} above (t : list (string * A)) (P : list string -> A -> Prop) :
  Forall (fun x => P (above ++ [x.1]) x.2) t -> Forall (fun x => P (above ++ x.1) x.2) (child t).
Proof. intros Ht. by apply Forall_fmap. Qed.

Lemma every_command_keeps identity script :
  Forall (fun x => stays w (within w ro (footprint_of x.1)) x.2) (rootCmd_run ro v args identity script).
Proof.
  pose (P := fun path m => stays w (within w ro (footprint_of path)) (m : IO outcome)).
  unfold rootCmd_run. cbv zeta.
  repeat apply Forall_app_2; try (apply (under_keeps _ _ P), Forall_cons_2; [subst P; cbn; touch|apply (child_keeps _ _ P)]).
  - apply get_run_keeps.
  - apply create_run_keeps.
  - apply delete_run_keeps.
  - apply set_run_keeps.
  - touch_table; [apply save_keeps | apply apply_keeps].
  - apply (under_keeps _ _ P), appliance_run_keeps.
  - touch_table; touch.
Qed.

End Tables.

(* ------------------------------------------------------------------ *)
(** ** Runs                                                            *)
(* ------------------------------------------------------------------ *)

(** The options of a run, once the root has resolved them. *)
Definition resolved (f : root_flags) (o : RESTOptions) (w : World) : RESTOptions :=
  match (PersistentPreRunE f o w []).1 with Ok o' => o' | Err _ => o end.

Lemma pre_run_keeps w ro fp f o : stays w (within w ro fp) (PersistentPreRunE f o).
Proof. touch. Qed.

Lemma report_keeps w ro fp help e : stays w (within w ro fp) (report_error help e).
Proof. touch. Qed.

(** C2: Every run of a command of the tree keeps to the footprint of the command, from the flags of the root
    to the exit point, whatever the flags, the arguments and the answers.  Only [appliance] starts the
    backend, by its policy, and it sends nothing; only [apply] and [save] start the shell; no other command
    starts a process.  What is sent goes to the scheme, server and port of the resolved options, with no
    headers but the content type, their token and their originator.  The server is verified unless the options
    say otherwise, against the certificates of the file they name and with the key pair they name; but when
    one of these files cannot be read or used, the request is sent all the same, with the default
    verification.  Only downloads, [save] and the commands of a session change the disk; only a login and
    [create apikey] read what is typed. *)
Theorem every_run_within_footprint `{GoLib} `{TableLib} `{SortLib} `{YamlLib} v args identity script i
    help f o w :
  match callable rootCmd !! i with
  | None => True
  | Some (path, _) =>
      Forall (fun e => within w (resolved f o w) (footprint_of path) (ev_op e))
        (Execute help f o (run_of v args identity script i) w []).2
  end.
Proof.
  destruct (callable rootCmd !! i) as [[path pos]|] eqn:Hi; [|done].
  set (fp := footprint_of path). unfold Execute. rewrite io_bind_run.
  pose proof (pre_run_keeps w (resolved f o w) fp f o []) as Hpre. unfold resolved in *.
  destruct (PersistentPreRunE f o w []) as [r t] eqn:Hr. cbn [fst snd] in *.
  set (ro := match r with Ok o' => o' | Err _ => o end) in *.
  assert (Hk : stays w (within w ro fp) (out ← match r with
                 | Ok o' => run_of v args identity script i o' | Err e => mret (Returns (Some e)) end;
               match out with Returns (Some e) => report_error help e | _ => mret (ended out) end)).
  { apply stays_bind.
    - subst ro. destruct r as [o'|e]; [|apply stays_ret].
      exact (Forall_lookup_1 _ _ _ _ (every_command_keeps w o' v args identity script)
               (run_of_at v args identity script i path pos o' Hi)).
    - intros [[e|]| |]; [apply report_keeps | apply stays_ret..]. }
  specialize (Hk ([] ++ t)).
  assert (Happ : forall x : ending * trace, Forall (fun e => within w ro fp (ev_op e)) x.2 ->
    Forall (fun e => within w ro fp (ev_op e)) (let '(b, t') := x in (b, t ++ t')).2).
  { intros [b t'] Ht. by apply Forall_app_2. }
  apply Happ, Hk.
Qed.
