(* ===== verification/Runs.v ===== *)
(** * Every run of the program

    The commands of the tree, with the functions they run, taken together: how a
    run ends, whichever command it is, and to whom it sends. *)
From S2P Require Import Prelude GoStrings Json JsonPrint Fields World Errors Exitcode Envelope.
From S2P Require Import SecretFile Rest Requests FeatureGate Session Appliance Commands Plans.
From S2P Require Import ApplianceProps Outcomes.
From S2P Require Import ConfigLifecycle Snapshot Lifecycle LifecycleCmds OpsCmds AuditSinks AuditTrail.
From S2P Require Import LbOptions LbCreate NetModel CreateCmds DeleteCmds FileConfig ApplyText SaveCmds.
From S2P Require Import AiModel SetCmds LoginCmds AiCmds Tables GetCmds AiGets LbTables.
From S2P Require Import CreateProps DeleteProps SetProps GetProps LoginProps CliTables Root Dispatch.

(* ------------------------------------------------------------------ *)
(** ** Commands with a plan                                            *)
(* ------------------------------------------------------------------ *)

(** A plan that panics nowhere and fails with the statuses of failures. *)
Definition calm (panics : bool) (p : plan) : Prop :=
  match p with
  | Refuses => True
  | Fails code => failure_status code
  | Crashes => panics = true
  | Asks a => as_feature a = false
  end.

Lemma failing_code e code : ce_Code (Classify e) = code -> failure_status code -> failing e.
Proof. by intros <-. Qed.

Lemma verdict_tame panics a r out : as_feature a = false -> verdict a r out -> tame panics false out.
Proof.
  intros Hf. destruct r as [resp|e]; simpl.
  - case_match; [by intros ->|]. intros (e & -> & [He|[? _]]); [|congruence].
    rewrite <- status_code_failure in He. eapply failing_code; [exact He | apply status_code_fails].
  - intros (e' & -> & He). eapply failing_code; [exact He | by vm_compute].
Qed.

Lemma refines_tame panics ro m p : refines ro m p -> calm panics p -> returns (tame panics false) m.
Proof.
  intros Hm Hp w h. specialize (Hm w h). unfold wp in Hm. destruct p as [|code| |a]; simpl in Hm, Hp.
  - destruct Hm as (_ & e & -> & He). eapply failing_code; [exact He | by vm_compute].
  - destruct Hm as (_ & e & -> & He). by eapply failing_code.
  - by destruct Hm as [_ ->].
  - rewrite Hp in Hm. destruct Hm as (c & r & _ & _ & Hv). by eapply verdict_tame.
Qed.

(** A list of commands with plans, and which of them may panic. *)
Lemma planned_tame ro l panics i m p b :
  Forall (fun p => refines ro p.1 p.2) l -> Forall2 (fun b p => calm b p.2) panics l ->
  l !! i = Some (m, p) -> panics !! i = Some b -> returns (tame b false) m.
Proof.
  intros Hl Hp Hi Hb. eapply refines_tame; [by eapply refines_nth|].
  exact (Forall2_lookup_lr _ _ _ _ _ _ Hp Hb Hi).
Qed.

(** A document that is posted or refused; only [vxlanpeer] counts on a second
    argument. *)
Lemma posting_calm b path doc : calm b (posting path doc).
Proof. by destruct doc. Qed.

Ltac calm := repeat first [done | apply posting_calm | case_match; simplify_eq/=].

Section Planned.
Context `{GoLib}.
Variable ro : RESTOptions.
Variable args : list string.

Definition create_panics : list bool :=
  replicate 10 false ++ [true] ++ replicate 6 false.

Lemma create_calm f : Forall2 (fun b p => calm b p.2) create_panics (create_commands ro f args).
Proof.
  unfold create_panics. cbn [replicate app]. unfold create_commands.
  repeat apply Forall2_cons_2; [..|apply Forall2_nil_2]; cbn [snd];
    destruct args as [|a1 [|a2 args']]; calm.
Qed.

(** The delete commands of devices and of peers. *)
Definition device_panics : list bool := [false; false; false; true; false; true; false; true].
Definition peer_panics : list bool := replicate 7 false.

Lemma device_calm f : Forall2 (fun b p => calm b p.2) device_panics (device_commands ro f args).
Proof.
  unfold device_panics, device_commands, two_args, first_arg.
  repeat apply Forall2_cons_2; [..|apply Forall2_nil_2]; cbn [snd];
    destruct args as [|a1 [|a2 args']]; calm.
Qed.

Lemma peer_calm f : Forall2 (fun b p => calm b p.2) peer_panics (peer_commands ro f args).
Proof.
  unfold peer_panics, peer_commands, two_args, first_arg. cbn [replicate].
  repeat apply Forall2_cons_2; [..|apply Forall2_nil_2]; cbn [snd]; calm.
Qed.

Lemma create_tame f i m p b :
  create_commands ro f args !! i = Some (m, p) -> create_panics !! i = Some b -> returns (tame b false) m.
Proof. eapply planned_tame; [apply create_commands_follow | apply create_calm]. Qed.

Lemma device_tame f i m p b :
  device_commands ro f args !! i = Some (m, p) -> device_panics !! i = Some b -> returns (tame b false) m.
Proof. eapply planned_tame; [apply device_commands_refine | apply device_calm]. Qed.

Lemma peer_tame f i m p b :
  peer_commands ro f args !! i = Some (m, p) -> peer_panics !! i = Some b -> returns (tame b false) m.
Proof. eapply planned_tame; [apply peer_commands_refine | apply peer_calm]. Qed.

End Planned.

(** One step through the text of a command. *)
Ltac run_step :=
  lazymatch goal with
  | |- returns (tame _ _) (gated _ _ _ _) => apply tame_gated
  | |- returns (tame _ _) (gated_if _ _ _ _ _) => unfold gated_if
  | |- error_well (snd (match ?x with _ => _ end)) => look_at x
  | |- error_well (snd (fails ?e)) => change (failing (ELifecycle e))
  | |- error_well (snd (_, _)) => cbn [snd]
  | |- error_well (sn_error (match ?x with _ => _ end)) => look_at x
  | |- error_well (sn_error {| sn_error := ?e |}) => change (error_well e)
  | |- _ => tame_step
  end.
Ltac run := repeat first [assumption | run_step].

(* ------------------------------------------------------------------ *)
(** ** Commands of the gateway                                         *)
(* ------------------------------------------------------------------ *)

Section Gateway.
Context `{GoLib} `{TableLib} `{SortLib} `{YamlLib}.
Variable ro : RESTOptions.

Lemma delete_managed_tame op text send : returns (tame false false) (delete_managed ro op text send).
Proof. unfold delete_managed. tamed. Qed.

Lemma delete_feature_tame feature op need text api args :
  returns (tame false false) (delete_feature ro feature op need text api args).
Proof. unfold delete_feature. tamed. apply tame_gated. tamed. Qed.

Lemma managed_deletions_tame f args :
  Forall (fun p => returns (tame false false) p.1) (managed_commands ro f args).
Proof.
  unfold managed_commands, delete_apikey, delete_cert, delete_opa, delete_sni, delete_jwtauthprofile,
    delete_netidentity, delete_objective.
  repeat apply Forall_cons_2; [..|apply Forall_nil_2]; cbn [fst];
    repeat first [apply delete_managed_tame | apply delete_feature_tame | tame_step].
Qed.

(** The combinators of the get commands. *)
Lemma get_old_tame op api print : returns (tame false false) (get_old ro op api print).
Proof. unfold get_old. run. Qed.

Lemma get_decoded_tame {A} `{GoValue A} op api (enc : A -> gojson) show :
  returns (tame false false) (get_decoded ro op api enc show).
Proof. unfold get_decoded, decoded_answer, not_decoded, api_error_answer. run. Qed.

Lemma get_document_tame op what api : returns (tame false false) (get_document ro op what api).
Proof. unfold get_document, printJSONResponse. run. Qed.

Lemma get_feature_tame {L A} `{GoValue L} op feature noun api (entries : L -> option (list A)) upd name
    (enc : L -> gojson) show args :
  returns (tame false false) (get_feature ro op feature noun api entries upd name enc show args).
Proof. unfold get_feature, feature_answered, feature_undecoded, not_named. run. Qed.

Lemma print_bands_tame rules : returns (tame false false) (print_bands rules).
Proof. induction rules as [|r rules IH]; cbn [print_bands]; run. Qed.

Lemma get_loadbalancer_tame bands name : returns (tame true false) (get_loadbalancer ro bands name).
Proof.
  unfold get_loadbalancer, lb_answered, PrintGetLbBands, PrintGetLbResult, bands_undecoded. run.
  all: first [by apply tame_weaken, print_bands_tame | done].
Qed.

Lemma get_lbversion_tame : returns (tame false false) (get_lbversion ro).
Proof. unfold get_lbversion, PrintGetVersionResult. run. Qed.

Lemma get_apikey_tame tenantID args : returns (tame false false) (get_apikey ro tenantID args).
Proof. unfold get_apikey. run. Qed.

(** The set commands. *)
Lemma report_post_tame send msg : returns (tame false false) (reportPost send msg).
Proof. unfold reportPost. run. Qed.

Lemma verbatim_tame op done_ resp : returns (tame false false) (verbatim_answer op done_ resp).
Proof. unfold verbatim_answer. run. Qed.

Hint Resolve report_post_tame verbatim_tame get_old_tame get_decoded_tame get_document_tame
  get_feature_tame : outcome.

Lemma set_loglevel_tame args : returns (tame false false) (set_loglevel ro args).
Proof. unfold set_loglevel. run. Qed.

Lemma set_bfd_tame o args : returns (tame false false) (set_bfd ro o args).
Proof. unfold set_bfd. run. Qed.

Lemma set_ratelimit_tame changed o : returns (tame false false) (set_ratelimit ro changed o).
Proof. unfold set_ratelimit. run. Qed.

Lemma set_apikey_tame changed o args : returns (tame false false) (set_apikey ro changed o args).
Proof. unfold set_apikey. run. Qed.

Lemma set_metrics_tame e d : returns (tame false false) (set_metrics ro e d).
Proof. unfold set_metrics. run. Qed.

Lemma set_gpu_tame changed e d c hours : returns (tame false false) (set_gpu ro changed e d c hours).
Proof. unfold set_gpu. run. Qed.

Lemma set_pii_tame changed o : returns (tame false false) (set_pii ro changed o).
Proof. unfold set_pii. run. Qed.

Lemma set_llamafirewall_tame changed o : returns (tame false false) (set_llamafirewall ro changed o).
Proof. unfold set_llamafirewall. run. Qed.

Lemma set_trace_tame changed o : returns (tame false false) (set_trace ro changed o).
Proof. unfold set_trace. run. Qed.

Lemma set_l4trace_tame changed e d r s : returns (tame false false) (set_l4trace ro changed e d r s).
Proof. unfold set_l4trace. run. Qed.

Lemma dpu_action_errs action plugin mode : errs_well (dpu_action action plugin mode).
Proof. unfold dpu_action. run. Qed.
Hint Resolve dpu_action_errs : outcome.

Lemma set_dpu_tame action plugin mode : returns (tame false false) (set_dpu ro action plugin mode).
Proof. unfold set_dpu. run. Qed.

Lemma set_opa_tame o : returns (tame false false) (set_opa ro o).
Proof. unfold set_opa. run. Qed.

(** Sessions. *)
Lemma set_login_tame provider : returns (tame false false) (set_login ro provider).
Proof.
  unfold set_login, login_password, login_google, login_manual, asked_for, save_typed, login_succeeded. run.
Qed.

Lemma set_logout_tame provider : returns (tame false false) (set_logout ro provider).
Proof. unfold set_logout. run. Qed.

Lemma set_refresh_tame provider : returns (tame false false) (set_refresh ro provider).
Proof. unfold set_refresh, session_file. run. Qed.

(** The create commands of the services. *)
Lemma failing_key_unread what e : failing (key_unread what e).
Proof. by vm_compute. Qed.

Lemma failing_contract_mismatch what status : failing (contract_mismatch what status).
Proof. by vm_compute. Qed.
Hint Resolve failing_key_unread failing_contract_mismatch : outcome.

Lemma read_imported_errs o : returns errs_well (readImportedAPIKey o).
Proof. unfold readImportedAPIKey, imported_key. run. Qed.

Lemma read_pem_errs flag path : returns errs_well (read_pem flag path).
Proof. unfold read_pem. run. Qed.

Lemma print_texts_tame l : returns (tame false false) (print_texts l).
Proof. induction l as [|s l IH]; cbn [print_texts]; run. Qed.
Hint Resolve read_imported_errs read_pem_errs print_texts_tame : outcome.

Lemma failing_apikey_refused tenant status body : failing (apikey_refused tenant status body).
Proof. unfold apikey_refused. failure. Qed.
Hint Resolve failing_apikey_refused : outcome.

Lemma create_apikey_tame o : returns (tame false false) (create_apikey ro o).
Proof. unfold create_apikey, apikey_answer, printCreateAPIKeyResult. run. Qed.

Lemma cert_body_errs o a b c : errs_well (certCreateBody o a b c).
Proof. unfold certCreateBody. run. Qed.
Hint Resolve cert_body_errs : outcome.

Lemma cert_files_errs o : returns errs_well (cert_files o).
Proof. unfold cert_files. run. Qed.
Hint Resolve cert_files_errs : outcome.

Lemma create_cert_tame o : returns (tame false false) (create_cert ro o).
Proof. unfold create_cert. run. Qed.

Lemma print_operation_tame body : returns (tame false false) (printOperationResult ro body).
Proof. unfold printOperationResult. run. Qed.
Hint Resolve print_operation_tame : outcome.

Lemma create_objective_tame priority services args :
  returns (tame false false) (create_objective ro priority services args).
Proof. unfold create_objective, feature_post. run. Qed.

Lemma create_netidentity_tame o args : returns (tame false false) (create_netidentity ro o args).
Proof. unfold create_netidentity, feature_post. run. Qed.

Lemma gated_twice_tame f1 o1 f2 o2 second k :
  returns (tame false false) k -> returns (tame false false) (gated_twice ro f1 o1 f2 o2 second k).
Proof.
  intros Hk. eapply returns_bind; [apply require_errs|]. intros [[e|] cache] He; [by apply returns_ret|].
  destruct second; [|exact Hk].
  eapply returns_bind; [apply require_errs|]. intros [[e|] c] He'; [by apply returns_ret | exact Hk].
Qed.

Lemma create_jwtauthprofile_tame o args : returns (tame false false) (create_jwtauthprofile ro o args).
Proof. unfold create_jwtauthprofile. run. apply gated_twice_tame. unfold feature_post. run. Qed.

(** Rules of the load balancer. *)
Lemma lb_endpoints_errs o port endpoints targets : errs_well (lb_endpoints o port endpoints targets).
Proof.
  unfold lb_endpoints. generalize (e ← endpoints; targetPort ← targets; mret (e, targetPort)). intros l.
  induction l as [|[[[spec role] nixl] target] l IH]; [done|]. cbn [map_each fst snd].
  unfold lb_endpoint at 1. destruct (_ && _); [by vm_compute|]. by destruct (map_each _ _).
Qed.

Lemma lb_model_errs o ip endpoints proto ports : errs_well (lb_model o ip endpoints proto ports).
Proof.
  unfold lb_model. destruct (_ || _); [by vm_compute|]. destruct (port_bounds _ _ _ _) as [port last].
  apply errs_bind; [apply lb_endpoints_errs | done].
Qed.

Lemma send_rule_errs m : returns error_well (send_rule ro m).
Proof. unfold send_rule. run. Qed.
Hint Resolve send_rule_errs lb_model_errs : outcome.

Lemma create_rules_tame rule l :
  (forall p r, rule p = Some r -> errs_well r) -> returns (tame false true) (create_rules ro rule l).
Proof.
  intros Hr. induction l as [|p l IH]; cbn [create_rules]; [run|]. specialize (Hr p).
  destruct (rule p) as [[m|e]|]; [|specialize (Hr _ eq_refl); run | run].
  eapply returns_bind; [apply send_rule_errs|]. intros [e|] He; [by apply returns_ret | exact IH].
Qed.

Lemma create_lb_tame o args : returns (tame false true) (create_lb ro o args).
Proof.
  unfold create_lb, requireLBFeatures. run.
  apply create_rules_tame. intros p r. unfold lb_rule. destruct (GetPortPairList _) as [[ports|e]|]; [..|done];
    intros [= <-]; [apply lb_model_errs | by vm_compute].
Qed.

(** Commands that send in turn. *)
Lemma create_each_tame op api docs : returns (tame false false) (create_each ro op api docs).
Proof. induction docs as [|doc docs IH]; cbn [create_each]; run. Qed.

Lemma delete_each_tame send failure op l : returns (tame false false) (delete_each ro send failure op l).
Proof. induction l as [|x l IH]; cbn [delete_each]; run. Qed.

Lemma delete_protocols_tame client o ip l : returns (tame false false) (delete_protocols ro client o ip l).
Proof. induction l as [|[proto ports] l IH]; cbn [delete_protocols]; run. Qed.
Hint Resolve create_each_tame delete_each_tame delete_protocols_tame : outcome.

(** A name that is there, and how a command goes on with it. *)
Lemma one_name_checked text need args :
  returns (fun c => match c with Passed => args <> [] | Refused _ => True | Crashed => False end)
    (one_name text need args).
Proof.
  unfold one_name. destruct args as [|a [|b args]]; cbn [length Nat.ltb Nat.leb Nat.eqb];
    [by apply returns_ret | by apply returns_ret|].
  apply returns_step. intros _. apply returns_step. intros _. by apply returns_ret.
Qed.

Lemma named_tame text need args refusal k :
  (forall msg, failing (refusal msg)) -> (forall a, returns (tame false false) (k a)) ->
  returns (tame false false)
    (c ← one_name text need args; when_valid c refusal (with_arg args 0 (mret Panics) k)).
Proof.
  intros Hr Hk. eapply returns_bind; [apply one_name_checked|]. intros [|msg|] Hc; [|by apply tame_fail | done].
  destruct args as [|a args]; [done | apply Hk].
Qed.

Lemma delete_sessionulcl_tame ulcl args : returns (tame false false) (delete_sessionulcl ro ulcl args).
Proof. unfold delete_sessionulcl. destruct (_ =? _)%nat; [run | apply named_tame; intros; run]. Qed.

Lemma delete_lb_tame o args : returns (tame false false) (delete_lb ro o args).
Proof.
  unfold delete_lb. apply returns_step. intros client. destruct (negb _); [run | apply named_tame; intros; run].
Qed.

Lemma create_sessionulcl_tame ulcl args : returns (tame false false) (create_sessionulcl ro ulcl args).
Proof.
  unfold create_sessionulcl, with_arguments, when_read, ulcl_of, ReadCreateSessionUlClOptions, arg, with_arg.
  destruct args as [|a args]; cbn; run. repeat case_match; discriminate.
Qed.

(* ------------------------------------------------------------------ *)
(** ** Commands of the lifecycle                                       *)
(* ------------------------------------------------------------------ *)

Lemma returned_tame m : returns error_well m -> returns (tame false false) (returned m).
Proof. intros Hm. eapply returns_bind; [exact Hm|]. intros err He. by apply returns_ret. Qed.

Lemma write_envelope_errs r : returns error_well (Write r).
Proof. unfold Write. run. Qed.
Hint Resolve write_envelope_errs : outcome.

Lemma render_errs o command report human err :
  (forall r, returns error_well (human r)) -> error_well err ->
  returns error_well (render o command report human err).
Proof. intros Hh He. unfold render. run. Qed.

Lemma failing_decode_failed message body : failing (decode_failed message body).
Proof. intros H'. discriminate H'. Qed.
Lemma failing_transport what err : failing (transportError what err).
Proof. intros H'. discriminate H'. Qed.
Lemma failing_unconfirmed parts : failing (unconfirmed parts).
Proof. intros H'. discriminate H'. Qed.
Lemma failing_arguments parts : failing (invalidArguments parts).
Proof. intros H'. discriminate H'. Qed.
Lemma failing_checksum message : failing (checksum_mismatch message).
Proof. intros H'. discriminate H'. Qed.
Lemma failing_write parts : failing (write_failed parts).
Proof. intros H'. discriminate H'. Qed.
Hint Resolve failing_decode_failed failing_transport failing_unconfirmed failing_arguments
  failing_checksum failing_write : outcome.

Lemma received_errs failed what r : errs_well (received failed what r).
Proof. unfold received, readBody. run. Qed.
Hint Resolve received_errs : outcome.

Lemma exchange_errs failed what send : returns errs_well (exchange failed what send).
Proof. unfold exchange. run. Qed.

Lemma read_body_errs r what : errs_well (readBody r what).
Proof. unfold readBody. run. Qed.
Hint Resolve exchange_errs read_body_errs : outcome.

Lemma show_document_errs {A} (d : option A) accept failed body json human :
  returns error_well (show_document d accept failed body json human).
Proof. unfold show_document. run. Qed.

Lemma lifecycle_failed_errs e : failing e -> returns error_well (lifecycle_failed e).
Proof. intros He. unfold lifecycle_failed. run. Qed.
Hint Resolve show_document_errs lifecycle_failed_errs : outcome.

(** Persist and restore. *)
Lemma persist_verdict_errs r strict : errs_well (PersistVerdict r strict).
Proof. unfold PersistVerdict. run. Qed.
Lemma restore_verdict_errs r strict : errs_well (RestoreVerdict r strict).
Proof. unfold RestoreVerdict. run. Qed.
Lemma decode_persist_errs body : errs_well (DecodePersistResult body).
Proof. unfold DecodePersistResult. destruct (unmarshal _ _); [done | apply failing_decode_failed]. Qed.
Lemma decode_restore_errs body : errs_well (DecodeRestoreResult body).
Proof. unfold DecodeRestoreResult. destruct (unmarshal _ _); [done | apply failing_decode_failed]. Qed.
Hint Resolve persist_verdict_errs restore_verdict_errs decode_persist_errs decode_restore_errs : outcome.

Lemma verdict_of_errs r : errs_well r -> error_well (verdict_of r).
Proof. destruct r; [done|]. apply failing_lifecycle_error. Qed.
Hint Resolve verdict_of_errs : outcome.

Lemma persist_outcome_errs strict r : error_well (persist_outcome strict r).2.
Proof. unfold persist_outcome. run. Qed.

Lemma Persist_errs o command : returns error_well (LifecycleCmds.Persist ro o command).
Proof.
  unfold LifecycleCmds.Persist. eapply (returns_bind _ (fun out => error_well out.2)).
  - unfold doPersist. apply returns_step. intros c. apply returns_step. intros r.
    apply returns_ret, persist_outcome_errs.
  - intros [res err] He. apply render_errs; [|done]. intros r. unfold humanPersist, one_line. run.
Qed.

Lemma restore_outcome_errs strict mode status body : error_well (restore_outcome strict mode status body).2.
Proof.
  unfold restore_outcome. run. Qed.
Hint Resolve restore_outcome_errs : outcome.

Lemma restore_answer_errs strict mode r : error_well (restore_answer strict mode r).2.
Proof. unfold restore_answer. run. Qed.

Lemma read_document_errs file : returns errs_well (read_document file).
Proof. unfold read_document. run. Qed.
Hint Resolve read_document_errs : outcome.

Lemma Restore_errs o opts : returns error_well (LifecycleCmds.Restore ro o opts).
Proof.
  unfold LifecycleCmds.Restore. eapply (returns_bind _ (fun out => error_well out.2)).
  - unfold doRestore. eapply returns_bind; [apply read_document_errs|]. intros [data|e] He.
    + apply returns_step. intros c. apply returns_step. intros r. apply returns_ret, restore_answer_errs.
    + by apply returns_ret, failing_lifecycle_error.
  - intros [res err] He. apply render_errs; [|done]. intros r. unfold humanRestore, one_line. run.
Qed.

(** The download of a snapshot, and files that are stored. *)
Lemma verify_checksum_errs body header : errs_well (VerifySnapshotChecksum body header).
Proof. unfold VerifySnapshotChecksum. run. Qed.

Definition stored_well (r : file_result_of) : Prop :=
  match r with Ok _ => True | Err f => failing (wf_error f) end.

Lemma abandon_well undo reader parts : returns stored_well (abandon undo reader parts).
Proof. apply returns_step. intros _. apply returns_ret. apply failing_write. Qed.

Lemma file_step_well o text undo failed k :
  returns stored_well k -> returns stored_well (file_step o text undo failed k).
Proof. intros Hk. apply returns_step. intros e. destruct (text e); [apply abandon_well | exact Hk]. Qed.

Lemma write_file_well path r : returns stored_well (write_file_atomic path r).
Proof.
  unfold write_file_atomic. apply returns_step. intros [tmp|e]; [|apply returns_ret, failing_write].
  apply file_step_well. apply returns_step. intros e.
  destruct e, (st_error r); try apply abandon_well.
  repeat apply file_step_well. apply returns_step. intros _. by apply returns_ret.
Qed.

Lemma write_snapshot_errs path data : returns errs_well (WriteSnapshotFile path data).
Proof.
  unfold WriteSnapshotFile. apply errs_try; [|intros _; by apply returns_ret].
  eapply returns_bind; [apply write_file_well|]. intros [n|f] Hf; by apply returns_ret.
Qed.
Hint Resolve verify_checksum_errs write_snapshot_errs : outcome.

Lemma Snapshot_errs o opts : returns error_well (SnapshotCmd ro o opts).
Proof.
  unfold SnapshotCmd. eapply (returns_bind _ (fun out => error_well (sn_error out))).
  - unfold doSnapshot, store_snapshot, snapshot_fails, unverifiable. run.
  - intros out He. destruct (sn_error out) as [e|]; [apply render_errs; [by intros r; apply returns_ret | done]|].
    apply returns_if; intros _; [run|]. apply render_errs; [|done]. intros r. unfold humanSnapshot. run.
Qed.

(** Maintenance. *)
Lemma decode_maintenance_errs resp : error_well (decodeMaintenance resp).2.
Proof. unfold decodeMaintenance. run. Qed.
Hint Resolve decode_maintenance_errs : outcome.

Lemma maintenance_render_errs o command out :
  error_well out.2 ->
  returns error_well (render o command (maintenance_report out.1)
    (match out.2 with Some _ => no_human | None => humanMaintenance end) out.2).
Proof.
  intros He. apply render_errs; [|done]. intros r. destruct out.2; unfold no_human, humanMaintenance; run.
Qed.

Lemma MaintenanceGet_errs o : returns error_well (MaintenanceGet ro o).
Proof.
  unfold MaintenanceGet. eapply (returns_bind _ (fun out => error_well out.2)).
  - unfold doMaintenanceGet. apply returns_step. intros c. apply returns_step. intros [resp|e];
      apply returns_ret; run.
  - intros out He. by apply maintenance_render_errs.
Qed.

Lemma MaintenanceSet_errs o opts : returns error_well (MaintenanceSet ro o opts).
Proof.
  unfold MaintenanceSet. eapply (returns_bind _ (fun out => error_well out.2)).
  - unfold doMaintenanceSet, maintenance_change. apply returns_step. intros c. apply returns_step.
    intros [resp|e]; apply returns_ret; run.
  - intros out He. by apply maintenance_render_errs.
Qed.

(** The state of the gateway, its logs and its archives. *)
Lemma ReadyGet_errs json : returns error_well (ReadyGet ro json).
Proof. unfold ReadyGet. run. Qed.

Lemma DiagnosticsGet_errs json : returns error_well (DiagnosticsGet ro json).
Proof. unfold DiagnosticsGet. run. Qed.

Lemma log_name_errs name what : errs_well (checkLogName name what).
Proof. unfold checkLogName, reject_if. run. Qed.
Hint Resolve log_name_errs : outcome.

Lemma check_logs_errs opts : errs_well (check_logs opts).
Proof. unfold check_logs. run. Qed.

Lemma archive_args_errs o name file : errs_well (archive_args o name file).
Proof. unfold archive_args. run. Qed.
Hint Resolve check_logs_errs archive_args_errs : outcome.

Lemma LogsGet_errs json opts : returns error_well (LogsGet ro json opts).
Proof. unfold LogsGet. run. Qed.

Lemma LogArchivesList_errs json : returns error_well (LogArchivesList ro json).
Proof. unfold LogArchivesList. run. Qed.

Lemma failing_broken_archive e : failing (broken_archive e).
Proof. apply failing_lifecycle_error, failing_transport. Qed.

Lemma no_human_errs r : returns error_well (no_human r).
Proof. by apply returns_ret. Qed.

Lemma LogArchiveDownload_errs o name file : returns error_well (LogArchiveDownload ro o name file).
Proof.
  assert (Hrender : forall e, failing e -> returns error_well
    (render o "get.log-archives" empty_report no_human (Some e))).
  { intros e He. apply render_errs; [apply no_human_errs | exact He]. }
  unfold LogArchiveDownload.
  look_at (archive_args o name file); [|by apply Hrender, failing_lifecycle_error].
  apply returns_step. intros c. apply returns_step. intros [resp|e];
    [|apply Hrender, failing_lifecycle_error, failing_transport].
  destruct (negb _).
  { pose proof (read_body_errs resp "log archive") as Hb.
    destruct (readBody _ _); apply Hrender, failing_lifecycle_error; [apply failing_status_error | done]. }
  destruct (streq file "-").
  - unfold stream_archive. apply returns_step. intros [e|]; apply returns_ret; [run|].
    destruct (hr_body_error resp); [apply failing_broken_archive | done].
  - unfold store_archive. eapply returns_bind; [apply write_file_well|]. intros [n|f] Hf.
    + apply render_errs; [|done]. intros r. unfold humanLogArchive. run.
    + apply Hrender. destruct (wf_reader f); [apply failing_broken_archive | by apply failing_lifecycle_error].
Qed.

(** The audit trail and its sinks. *)
Lemma AuditStatusGet_errs json : returns error_well (AuditStatusGet ro json).
Proof. unfold AuditStatusGet. run. Qed.

Lemma sink_name_errs name : errs_well (checkAuditSinkName name).
Proof. unfold checkAuditSinkName. run. Qed.

Lemma sink_transport_errs so : errs_well (auditSinkTransport so).
Proof. unfold auditSinkTransport. run. Qed.
Hint Resolve sink_name_errs sink_transport_errs : outcome.

Lemma sink_request_errs so : errs_well (auditSinkRequest so).
Proof. unfold auditSinkRequest. run. Qed.

Lemma for_each_errs {A} (f : A -> result LifecycleError unit) l :
  (forall a, errs_well (f a)) -> errs_well (for_each f l).
Proof. intros Hf. induction l as [|a l IH]; [done|]. cbn. specialize (Hf a). by destruct (f a). Qed.

Lemma check_stream_errs s : errs_well (check_stream s).
Proof. unfold check_stream, reject_if. run. Qed.
Lemma check_service_errs s : errs_well (check_service s).
Proof. unfold check_service, reject_if. run. Qed.
Hint Resolve for_each_errs check_stream_errs check_service_errs sink_request_errs : outcome.

Lemma named_sink_request_errs name so : errs_well (auditNamedSinkRequest name so).
Proof. unfold auditNamedSinkRequest. run. Qed.
Hint Resolve named_sink_request_errs : outcome.

Lemma change_sink_errs send unknown json done_ : returns error_well (change_sink send unknown json done_).
Proof.
  unfold change_sink. apply returns_step. intros r.
  assert (Hv : match sink_change_verdict unknown r with Some e => failing e | None => True end).
  { unfold sink_change_verdict. destruct r as [resp|e]; [|apply failing_unconfirmed].
    pose proof (read_body_errs resp "audit sink") as Hb. destruct (readBody _ _); [|done].
    destruct (negb _); [apply failing_status_error | done]. }
  destruct (sink_change_verdict unknown r); [by apply lifecycle_failed_errs|]. run.
Qed.
Hint Resolve change_sink_errs : outcome.

Lemma AuditSinkGet_errs json : returns error_well (AuditSinkGet ro json).
Proof. unfold AuditSinkGet. run. Qed.
Lemma AuditNamedSinkGet_errs json name : returns error_well (AuditNamedSinkGet ro json name).
Proof. unfold AuditNamedSinkGet. run. Qed.
Lemma AuditSinkSet_errs json so : returns error_well (AuditSinkSet ro json so).
Proof. unfold AuditSinkSet. run. Qed.
Lemma AuditNamedSinkSet_errs json name so : returns error_well (AuditNamedSinkSet ro json name so).
Proof. unfold AuditNamedSinkSet. run. Qed.
Lemma AuditNamedSinkDelete_errs json name : returns error_well (AuditNamedSinkDelete ro json name).
Proof. unfold AuditNamedSinkDelete. run. Qed.

(* ------------------------------------------------------------------ *)
(** ** Configuration files, the appliance, the root                    *)
(* ------------------------------------------------------------------ *)

Lemma config_outcome_tame p file err : returns (tame p false) (config_outcome file err).
Proof. unfold config_outcome. run. Qed.

Lemma unknown_subcommand_tame command args need :
  returns (tame false false) (unknown_subcommand command args need).
Proof. unfold unknown_subcommand. run. Qed.
Hint Resolve config_outcome_tame unknown_subcommand_tame : outcome.

Lemma DeleteCmd_tame file args : returns (tame false false) (DeleteCmd ro file args).
Proof. unfold DeleteCmd. run. Qed.

Lemma SetParamCmd_tame args : returns (tame false false) (SetParamCmd args).
Proof. unfold SetParamCmd. run. Qed.

Lemma when_given_tame file m text k : returns (tame true false) k -> returns (tame true false) (when_given file m text k).
Proof. intros Hk. unfold when_given. run. Qed.

Lemma ApplyCmd_tame o : returns (tame true false) (ApplyCmd ro o).
Proof.
  unfold ApplyCmd, dump_step. destruct (forallb _ _); [run|].
  repeat first [apply when_given_tame | run_step].
Qed.

Lemma save_options_errs o : errs_well (validateSaveOptions o).
Proof. unfold validateSaveOptions. run. Qed.
Hint Resolve save_options_errs Persist_errs MaintenanceSet_errs : outcome.

Lemma saving_tame label dump saved k :
  returns (tame true false) k -> returns (tame true false) (saving label dump saved k).
Proof. intros Hk. unfold saving, not_saved. run. Qed.

Lemma or_return_tame m k :
  returns error_well m -> returns (tame true false) k -> returns (tame true false) (or_return m k).
Proof. intros Hm Hk. eapply returns_bind; [exact Hm|]. intros [e|] He; [by apply returns_ret | exact Hk]. Qed.

Lemma config_dir_errs dpath : returns error_well (ensureConfigDir dpath).
Proof. unfold ensureConfigDir. run. Qed.

Lemma save_rows_tame rows : returns (tame true false) (save_rows rows).
Proof. induction rows as [|d rows IH]; cbn [save_rows]; [run|]. case_match; [by apply saving_tame | exact IH]. Qed.

Lemma runSave_tame o : returns (tame true false) (runSave ro o).
Proof.
  assert (Hp : returns (tame true false)
    (err ← LifecycleCmds.Persist ro (OptionsFrom ro false) "save.api"; mret (Returns err))).
  { eapply returns_bind; [apply Persist_errs|]. intros err He. by apply returns_ret. }
  unfold runSave, saveIPConfig. look_at (validateSaveOptions o); [|run]. cbv zeta.
  repeat case_match;
    repeat first [exact Hp | apply or_return_tame | apply config_dir_errs | apply save_rows_tame
                 | apply saving_tame].
Qed.

Lemma appliance_tame printOption i : returns (tame false false) (returned (ApplianceCmd printOption i)).
Proof.
  apply returned_tame. intros w h. pose proof (appliance_classified printOption i w h) as Hc.
  destruct (ApplianceCmd printOption i w h).1; [|done]. by apply failing_classified.
Qed.

Lemma version_tame l v output : returns (tame false false) (version_run l v output).
Proof. unfold version_run. run. Qed.

Lemma completion_tame script args :
  returns (tame (bool_decide (args = [])) false) (completion_run script args).
Proof. unfold completion_run, with_arg. destruct args; cbn; run. Qed.

Lemma counted_arg_tame args k :
  (forall a, returns (tame false false) (k a)) ->
  returns (tame (bool_decide (args = [])) false) (with_arg args 0 (mret Panics) k).
Proof. intros Hk. destruct args as [|a args]; [by apply returns_ret | apply Hk]. Qed.

Lemma set_maintenance_tame t args :
  returns (tame (bool_decide (args = [])) false) (set_maintenance ro t args).
Proof.
  apply counted_arg_tame. intros a. run.
Qed.

Lemma set_auditsink_tame so args : returns (tame false false) (set_auditsink ro so args).
Proof.
  unfold set_auditsink. eapply (returns_bind _ error_well).
  - destruct args as [|name [|]]; first [apply AuditSinkSet_errs | apply AuditNamedSinkSet_errs].
  - intros err He. by apply returns_ret.
Qed.

End Gateway.

(* ------------------------------------------------------------------ *)
(** ** All of them                                                     *)
(* ------------------------------------------------------------------ *)

Definition may_panic : list (list string) :=
  [ ["get"; "loadbalancer"]; ["create"; "vxlanpeer"]; ["delete"; "route"]; ["delete"; "vlanmember"];
    ["delete"; "vxlanpeer"]; ["save"]; ["apply"] ].
Definition may_hang : list (list string) := [["create"; "lb"]].

Section Everything.
Context `{GoLib} `{TableLib} `{SortLib} `{YamlLib}.
Variables (v : flag_values) (args : list string) (identity : linked * string) (script : string -> string).

(** A command by the combinator it is made with. *)
Ltac combined :=
  lazymatch goal with
  | |- returns _ (get_old _ _ _ _) => apply get_old_tame
  | |- returns _ (get_decoded _ _ _ _ _) => apply get_decoded_tame
  | |- returns _ (get_document _ _ _ _) => apply get_document_tame
  | |- returns _ (get_feature _ _ _ _ _ _ _ _ _ _ _) => apply get_feature_tame
  | |- returns _ (get_loadbalancer _ _ _) => apply get_loadbalancer_tame
  | |- returns _ (get_lbversion _) => apply get_lbversion_tame
  | |- returns _ (get_apikey _ _ _) => apply get_apikey_tame
  | |- returns _ (returned _) => apply returned_tame
  | |- returns _ (SnapshotCmd _ _ _) => apply Snapshot_errs
  | |- returns _ (MaintenanceGet _ _) => apply MaintenanceGet_errs
  | |- returns _ (ReadyGet _ _) => apply ReadyGet_errs
  | |- returns _ (DiagnosticsGet _ _) => apply DiagnosticsGet_errs
  | |- returns _ (LogsGet _ _ _) => apply LogsGet_errs
  | |- returns _ (LogArchivesList _ _) => apply LogArchivesList_errs
  | |- returns _ (LogArchiveDownload _ _ _ _) => apply LogArchiveDownload_errs
  | |- returns _ (AuditStatusGet _ _) => apply AuditStatusGet_errs
  | |- returns _ (AuditSinkGet _ _) => apply AuditSinkGet_errs
  | |- returns _ (AuditNamedSinkGet _ _ _) => apply AuditNamedSinkGet_errs
  | |- returns _ (match ?x with _ => _ end) => destruct x
  | |- returns _ (fail_with _) => apply tame_fail; failure
  end.

Lemma get_run_tame ro :
  Forall (fun x => returns (tame (streq x.1 "loadbalancer") false) x.2) (GetCmd_run ro v args).
Proof.
  unfold GetCmd_run, get_conntrack, get_port, get_session, get_sessionulcl, get_policy, get_route,
    get_ipaddress, get_neighbor, get_process, get_device, get_filesystem, get_vlan, get_mirror,
    get_firewall, get_fdb, get_vxlan, get_endpoint, get_param, get_bgpneighbor, get_hastate, get_bfd,
    get_table, get_ratelimit, get_objective, get_netidentity, get_jwtauthprofile, get_kvinventory,
    get_cert, get_sni, get_metrics, get_gpu, get_pii, get_llamafirewall, get_trace, get_l4trace,
    get_opa, get_dpu, get_snapshot, get_maintenance, get_ready, get_diagnostics, get_logs,
    get_logarchives, get_auditstatus, get_auditsink.
  cbv zeta. repeat apply Forall_cons_2; [..|apply Forall_nil_2]; cbn [fst snd];
    match goal with |- returns (tame ?b _) _ => let b' := eval vm_compute in b in change b with b' end;
    repeat combined.
Qed.

(** The commands with a plan go by their place in the list of plans. *)
Lemma create_run_tame ro :
  Forall (fun x => returns (tame (streq x.1 "vxlanpeer") (streq x.1 "lb")) x.2) (CreateCmd_run ro v args).
Proof.
  unfold CreateCmd_run. cbv zeta. repeat apply Forall_cons_2; [..|apply Forall_nil_2]; cbn [fst snd].
  - apply create_lb_tame.
  - by eapply (create_tame ro args (fv_create v) 14).
  - apply create_sessionulcl_tame.
  - by eapply (create_tame ro args (fv_create v) 13).
  - by eapply (create_tame ro args (fv_create v) 6).
  - by eapply (create_tame ro args (fv_create v) 4).
  - by eapply (create_tame ro args (fv_create v) 5).
  - by eapply (create_tame ro args (fv_create v) 3).
  - by eapply (create_tame ro args (fv_create v) 7).
  - by eapply (create_tame ro args (fv_create v) 8).
  - by eapply (create_tame ro args (fv_create v) 9).
  - by eapply (create_tame ro args (fv_create v) 10).
  - by eapply (create_tame ro args (fv_create v) 12).
  - by eapply (create_tame ro args (fv_create v) 11).
  - by eapply (create_tame ro args (fv_create v) 2).
  - by eapply (create_tame ro args (fv_create v) 1).
  - by eapply (create_tame ro args (fv_create v) 0).
  - apply create_apikey_tame.
  - apply create_objective_tame.
  - apply create_netidentity_tame.
  - apply create_jwtauthprofile_tame.
  - by eapply (create_tame ro args (fv_create v) 16).
  - apply create_cert_tame.
  - by eapply (create_tame ro args (fv_create v) 15).
  - apply returned_tame, Restore_errs.
  - apply returned_tame, Persist_errs.
Qed.

Lemma delete_run_tame ro :
  Forall (fun x => returns (tame (str_in x.1 ["route"; "vlanmember"; "vxlanpeer"]
                                  || streq x.1 "audit-sink" && bool_decide (args = [])) false) x.2)
    (DeleteCmd_run ro v args).
Proof.
  pose proof (managed_deletions_tame ro (fv_delete v) args) as Hm.
  unfold managed_commands in Hm. rewrite !Forall_cons in Hm. destruct_and! Hm. cbn [fst] in *.
  unfold DeleteCmd_run. cbv zeta. repeat apply Forall_cons_2; [..|apply Forall_nil_2]; cbn [fst snd];
    try done.
  - apply delete_lb_tame.
  - by eapply (peer_tame ro args (fv_delete v) 6).
  - apply delete_sessionulcl_tame.
  - by eapply (peer_tame ro args (fv_delete v) 5).
  - by eapply (device_tame ro args (fv_delete v) 3).
  - by eapply (device_tame ro args (fv_delete v) 1).
  - by eapply (device_tame ro args (fv_delete v) 2).
  - by eapply (device_tame ro args (fv_delete v) 0).
  - by eapply (device_tame ro args (fv_delete v) 4).
  - by eapply (device_tame ro args (fv_delete v) 5).
  - by eapply (device_tame ro args (fv_delete v) 6).
  - by eapply (device_tame ro args (fv_delete v) 7).
  - by eapply (peer_tame ro args (fv_delete v) 4).
  - by eapply (peer_tame ro args (fv_delete v) 3).
  - by eapply (peer_tame ro args (fv_delete v) 2).
  - by eapply (peer_tame ro args (fv_delete v) 1).
  - by eapply (peer_tame ro args (fv_delete v) 0).
  - apply counted_arg_tame. intros name. apply returned_tame, AuditNamedSinkDelete_errs.
Qed.

Lemma set_run_tame ro :
  Forall (fun x => returns (tame (streq x.1 "maintenance" && bool_decide (args = [])) false) x.2)
    (SetParamCmd_run ro v args).
Proof.
  unfold SetParamCmd_run. cbv zeta. repeat apply Forall_cons_2; [..|apply Forall_nil_2]; cbn [fst snd].
  - apply set_loglevel_tame.
  - apply set_bfd_tame.
  - apply set_login_tame.
  - apply set_logout_tame.
  - apply set_refresh_tame.
  - apply set_apikey_tame.
  - apply set_ratelimit_tame.
  - apply set_metrics_tame.
  - apply set_gpu_tame.
  - apply set_pii_tame.
  - apply set_llamafirewall_tame.
  - apply set_trace_tame.
  - apply set_l4trace_tame.
  - apply set_opa_tame.
  - apply set_dpu_tame.
  - apply set_maintenance_tame.
  - apply set_auditsink_tame.
Qed.

(** The commands of the appliance that count on an argument. *)
Definition counted_commands : list (list string) :=
  [["public-address"; "configure"]; ["logs"]; ["backup"; "create"]; ["backup"; "verify"]].

Lemma appliance_run_tame ro :
  Forall (fun x => returns (tame (among x.1 counted_commands && bool_decide (args = [])) false) x.2)
    (ApplianceCmd_run ro v args).
Proof.
  unfold ApplianceCmd_run. cbv zeta. repeat apply Forall_cons_2; [..|apply Forall_nil_2]; cbn [fst snd];
    first [ apply appliance_tame | apply counted_arg_tame; intros a; apply appliance_tame ].
Qed.

(** The commands that take their argument for granted: cobra has counted it. *)
Definition counting : list (list string) :=
  [["delete"; "audit-sink"]; ["set"; "maintenance"]; ["completion"]]
  ++ (cons "appliance" <$> counted_commands).

Definition panics_at (path : list string) : bool :=
  among path may_panic || among path counting && bool_decide (args = []).

Lemma tame_implied p p' n n' m :
  (p = true -> p' = true) -> (n = true -> n' = true) ->
  returns (tame p n) m -> returns (tame p' n') m.
Proof. intros Hp Hn Hm w h. specialize (Hm w h). destruct (m w h).1; simpl in *; auto. Qed.

(** The commands below a parent, under their full names. *)
Lemma child_tame above (panics hangs : string -> bool) (t : list (string * IO outcome)) :
  (forall x, panics x = true -> panics_at (above ++ [x]) = true) ->
  (forall x, hangs x = true -> among (above ++ [x]) may_hang = true) ->
  Forall (fun x => returns (tame (panics x.1) (hangs x.1)) x.2) t ->
  Forall (fun x => returns (tame (panics_at x.1) (among x.1 may_hang)) x.2) (under above (child t)).
Proof.
  intros Hp Hn Ht. apply Forall_fmap, Forall_fmap. eapply Forall_impl; [exact Ht|].
  intros [x m]. cbn. apply tame_implied; auto.
Qed.

Ltac by_name :=
  intros x; cbv beta;
  repeat (rewrite ?orb_true_iff, ?andb_true_iff, ?str_in_true, ?elem_of_cons, ?streq_true);
  intros Hx; unfold panics_at; destruct_or?; destruct_and?; simplify_eq/=;
  try match goal with H : ?x ∈ [] |- _ => by apply elem_of_nil in H end;
  repeat match goal with |- context [among ?p ?l] =>
    let b := eval vm_compute in (among p l) in change (among p l) with b end;
  cbn [orb andb]; done.

Lemma every_command_tame ro :
  Forall (fun x => returns (tame (panics_at x.1) (among x.1 may_hang)) x.2)
    (rootCmd_run ro v args identity script).
Proof.
  assert (Hcalm : forall path m, returns (tame false false) m ->
    returns (tame (panics_at path) (among path may_hang)) m).
  { intros path m. by apply tame_implied. }
  unfold rootCmd_run. cbv zeta.
  apply Forall_app_2; [apply Forall_cons_2; [apply Hcalm, unknown_subcommand_tame|];
    apply (child_tame _ (fun x => streq x "loadbalancer") (fun _ => false));
      [by_name | done | apply get_run_tame]|].
  apply Forall_app_2; [apply Forall_cons_2; [apply Hcalm, unknown_subcommand_tame|];
    apply (child_tame _ (fun x => streq x "vxlanpeer") (fun x => streq x "lb"));
      [by_name | by_name | apply create_run_tame]|].
  apply Forall_app_2; [apply Forall_cons_2; [apply Hcalm, DeleteCmd_tame|];
    apply (child_tame _ (fun x => str_in x ["route"; "vlanmember"; "vxlanpeer"]
                                  || streq x "audit-sink" && bool_decide (args = [])) (fun _ => false));
      [by_name | done | apply delete_run_tame]|].
  apply Forall_app_2; [apply Forall_cons_2; [apply Hcalm, SetParamCmd_tame|];
    apply (child_tame _ (fun x => streq x "maintenance" && bool_decide (args = [])) (fun _ => false));
      [by_name | done | apply set_run_tame]|].
  apply Forall_cons_2; [apply runSave_tame|]. apply Forall_cons_2; [apply ApplyCmd_tame|].
  apply Forall_app_2.
  - apply Forall_fmap. eapply Forall_impl; [apply appliance_run_tame|]. intros [x m]. cbn.
    apply tame_implied; [|done]. rewrite andb_true_iff. intros [Hx Ha]. unfold panics_at. rewrite Ha.
    unfold among in *. rewrite bool_decide_eq_true in Hx. rewrite andb_true_r.
    apply orb_true_iff. right. rewrite bool_decide_eq_true. unfold counting. set_solver.
  - apply Forall_cons_2; [apply completion_tame|]. apply Forall_cons_2; [|done].
    apply Hcalm, version_tame.
Qed.

(** cobra turns away a call without arguments of every command that counts on one. *)
Lemma counting_counted :
  Forall (fun n => among n.1 counting = true -> accepted n.2 [] = false) (callable rootCmd).
Proof.
  let l := eval vm_compute in (callable rootCmd) in change (callable rootCmd) with l.
  repeat apply Forall_cons_2; [..|apply Forall_nil_2]; by vm_compute.
Qed.

(** How a run may end: with success, with the status of a failure, or by one of the
    commands that are known to crash or to go on for ever. *)
Definition ends_well (path : list string) (e : ending) : Prop :=
  match e with
  | Exits r => r = exit_point None \/ failure_status (er_status r)
  | Crashes_ => path ∈ may_panic
  | Hangs => path ∈ may_hang
  end.

Lemma exit_status_of e : er_status (exit_point (Some e)) = ce_Code (Classify e).
Proof. done. Qed.

Lemma reported_well help path e : failing e -> returns (ends_well path) (report_error help e).
Proof.
  intros He. unfold report_error. eapply (returns_bind _ (fun _ => True)); [done|]. intros ? _.
  eapply (returns_bind _ (fun _ => True)); [done|]. intros ? _. apply returns_ret. by right.
Qed.

Lemma ended_well path out :
  tame (bool_decide (path ∈ may_panic)) (bool_decide (path ∈ may_hang)) out ->
  match out with Returns (Some e) => failing e | _ => ends_well path (ended out) end.
Proof.
  destruct out as [[e|]| |]; simpl; [done | by left | |]; apply bool_decide_eq_true.
Qed.

Lemma execute_well help f o path run :
  (forall ro, returns (tame (among path may_panic) (among path may_hang)) (run ro)) ->
  returns (ends_well path) (Execute help f o run).
Proof.
  intros Hrun. unfold Execute. eapply returns_bind; [apply pre_run_errs|]. intros r Hr.
  eapply (returns_bind _ (tame (among path may_panic) (among path may_hang))).
  { destruct r as [o'|e]; [apply Hrun | by apply returns_ret]. }
  intros out Hout. apply ended_well in Hout.
  destruct out as [[e|]| |]; [by apply reported_well | by apply returns_ret..].
Qed.

(** A command that cobra runs has the arguments it counts on. *)
Lemma accepted_counts i path pos :
  callable rootCmd !! i = Some (path, pos) -> accepted pos args = true ->
  panics_at path = among path may_panic.
Proof.
  intros Hi Ha. pose proof (Forall_lookup_1 _ _ _ _ counting_counted Hi) as Hc. unfold panics_at.
  destruct (among path counting) eqn:Hp; [|by rewrite orb_false_r].
  specialize (Hc Hp). simpl in Hc.
  rewrite (bool_decide_eq_false_2 (args = [])); [by rewrite orb_false_r|]. intros ->. congruence.
Qed.

End Everything.

(** C1: Whatever command of the tree cobra runs, with whatever flags and with any arguments that pass the
    command's own check, the program ends with status 0 or with a failure of the taxonomy, 2 to 9, whichever
    way the files, the host and the gateway answer: never with 1, and never with a status out of range.
    Only the seven commands of [may_panic] can crash instead, and only [create lb] can go on for ever. *)
Theorem every_run_ends_well `{GoLib} `{TableLib} `{SortLib} `{YamlLib} v args identity script i path pos :
  callable rootCmd !! i = Some (path, pos) -> accepted pos args = true ->
  (forall ro, rootCmd_run ro v args identity script !! i = Some (path, run_of v args identity script i ro))
  /\ forall help f o, returns (ends_well path) (Execute help f o (run_of v args identity script i)).
Proof.
  intros Hi Ha.
  assert (Hat : forall ro, rootCmd_run ro v args identity script !! i
                  = Some (path, run_of v args identity script i ro)) by (intros ro; by eapply run_of_at).
  split; [exact Hat|]. intros help f o. apply execute_well. intros ro.
  rewrite <- (accepted_counts args _ _ _ Hi Ha).
  exact (Forall_lookup_1 _ _ _ _ (every_command_tame v args identity script ro) (Hat ro)).
Qed.

(** Every variable of a flag as Go starts it: the flags of a line without any. *)
Ltac unset :=
  lazymatch goal with
  | |- forall _, _ => intros _; unset
  | |- list _ => exact []
  | |- option _ => exact None
  | |- bool => exact false
  | |- string => exact ""
  | |- Z => exact 0%Z
  | |- nat => exact 0%nat
  | |- ?T => let T' := eval hnf in T in
      lazymatch T' with
      | T => constructor; unset
      | _ => change T'; unset
      end
  end.
Definition no_flags : flag_values.
Proof. unset. Defined.

(** [loxicmd set maintenance on], the place of it in the tree being its number. *)
Lemma every_run_ends_well_witness :
  let run := run_of (H := plain_text) (H0 := plain_tables) (H1 := insertion_library) (H2 := json_yaml)
               no_flags ["on"] (unstamped, "go1.24") (fun shell => shell) 117 in
  callable rootCmd !! 117%nat = Some (["set"; "maintenance"], ExactArgs 1)
  /\ forall help f o, returns (ends_well ["set"; "maintenance"]) (Execute help f o run).
Proof.
  assert (Hi : callable rootCmd !! 117%nat = Some (["set"; "maintenance"], ExactArgs 1)).
  { by vm_compute. }
  split; [exact Hi|].
  exact (proj2 (every_run_ends_well (H := plain_text) (H0 := plain_tables) (H1 := insertion_library)
           (H2 := json_yaml) no_flags ["on"] (unstamped, "go1.24") (fun shell => shell) 117 _ _ Hi eq_refl)).
Defined.

(* ------------------------------------------------------------------ *)
(** ** The crashes are real                                            *)
(* ------------------------------------------------------------------ *)

(** A line that asks for everything at once: each command takes its own flags. *)
Definition wide_options : RESTOptions :=
  {| ro_PrintOption := "wide"; ro_Protocol := "http"; ro_ServerIP := "127.0.0.1"; ro_ServerPort := 11111;
     ro_Timeout := 10; ro_Token := ""; ro_BearerAuth := false; ro_Originator := ""; ro_Insecure := false;
     ro_CACertFile := ""; ro_ClientCertFile := ""; ro_ClientKeyFile := "" |}.

(** A range of target ports that ends at the largest [int]; the dump of the host; an interface. *)
Definition last_port_rule : CreateLoadBalancerOptions.
Proof. constructor; [exact "" | exact ["80:9223372036854775806-9223372036854775807"] | unset ..]. Defined.
Definition host_saved : SaveOptions :=
  {| so_SaveIpConfig := true; so_SaveLBConfig := false; so_SaveSessionConfig := false;
     so_SaveUlClConfig := false; so_SaveFWConfig := false; so_SaveEPConfig := false;
     so_SaveBFDConfig := false; so_SaveAllConfig := false; so_SaveViaApi := false; so_ConfigPath := "" |}.
Definition interface_applied : ApplyOptions :=
  {| ao_IpConfigFile := ""; ao_LBConfigFile := ""; ao_SessionConfigFile := "";
     ao_SessionUlClConfigFile := ""; ao_FWConfigFile := ""; ao_NormalConfigFile := "";
     ao_BFDConfigFile := ""; ao_Intf := "eth0"; ao_ConfigPath := "/etc/loxilb/ipconfig/";
     ao_Route := false |}.
Definition given_flags : flag_values.
Proof. constructor; first [exact last_port_rule | exact host_saved | exact interface_applied | unset]. Defined.

(** A rule with two secondary addresses and one source, an interface whose hardware
    address is cut short, a file of a subinterface with one word in a line. *)
Definition hostile_world : World := fun h o =>
  match o return answer o with
  | OpHttp _ => Ok (HttpResponse 200 []
      (encode (GObj [("lbAttr", GArr [GObj [("secondaryIPs", GArr [GObj []; GObj []]);
                                            ("allowedSources", GArr [GObj []])]])])) None)
  | OpOpen _ _ _ | OpMkdir _ _ => None
  | OpStat _ => Ok tt
  | OpLinkList => Ok [Link "eth0" 1 (HardwareAddr [2] []) 1500 0 0 LinkOther]
  | OpScan file => Ok (if contains file "/type" then "subintf" else "eth0.10", None)
  | o => silent_world h o
  end%Z.

(** What the process does with such a line in such a world. *)
Definition hostile_run (i : nat) (args : list string) : ending :=
  (Execute "" plain_flags wide_options
     (run_of (H := plain_text) (H0 := plain_tables) (H1 := insertion_library) (H2 := json_yaml)
        given_flags args (unstamped, "go1.24") (fun shell => shell) i) hostile_world []).1.

(** [may_panic] and [may_hang] are exact: each of their commands, with arguments that its check
    accepts, ends in a panic, or goes on for ever. *)
Theorem crashes_are_real :
  Forall (fun path => exists i pos args, callable rootCmd !! i = Some (path, pos)
            /\ accepted pos args = true /\ hostile_run i args = Crashes_) may_panic
  /\ Forall (fun path => exists i pos args, callable rootCmd !! i = Some (path, pos)
            /\ accepted pos args = true /\ hostile_run i args = Hangs) may_hang.
Proof.
  split; repeat apply Forall_cons_2; try apply Forall_nil_2.
  - by exists 1%nat, AnyArgs, []; vm_compute.
  - by exists 60%nat, AnyArgs, ["100"]; vm_compute.
  - by exists 80%nat, AnyArgs, ["net"]; vm_compute.
  - by exists 85%nat, AnyArgs, ["100"]; vm_compute.
  - by exists 87%nat, AnyArgs, ["100"]; vm_compute.
  - by exists 119%nat, AnyArgs, []; vm_compute.
  - by exists 120%nat, AnyArgs, []; vm_compute.
  - by exists 49%nat, AnyArgs, ["10.0.0.1"]; vm_compute.
Qed.
